(* ===== verification/_CoqProject ===== *)
-Q . S2P
Prelude.v
Texts.v
Structures.v
Agent.v
Samples.v
SpendingLimits.v
Numbers.v
FloatInts.v
DailyUsage.v
ReportEffects.v
OfferingUsers.v
BaseProcessor.v
Orders.v
ApiKeys.v
KeyUsage.v
Teardown.v
Membership.v
MembershipEvents.v
Report.v
BaseBackend.v
Linking.v
Deployment.v
Homedirs.v
LogBuffer.v
Listener.v
Subscriptions.v
Watchdog.v
Importable.v
Handlers.v
EventLoop.v
Polling.v
ComponentMapping.v
SlurmParser.v
SlurmClient.v
SlurmSettings.v
LdapClient.v
LdapOperations.v
LdapReconcile.v
LdapUsernames.v
LdapAccounts.v
LdapProjectGroups.v
SlurmBackend.v
SlurmOperations.v
SlurmDeployment.v
FederationClient.v
FederationBackend.v
FederationSync.v
FederationUsage.v
FederationOperations.v
FederationMembers.v
FederationEvents.v
FederationProfiles.v
