(* ===== verification/Prelude.v ===== *)
(** * Waldur Site Agent: a verified model of its processors

    The site agent sits between a Waldur marketplace and the systems of a
    provider (a SLURM cluster, a storage cluster, another Waldur, ...).  It
    carries out the orders of an offering, keeps the users of its resources in
    step with their Waldur teams, reports usage, manages API keys and tears down
    accounts of people who left.  All of that is decided in
    [common/processors.py] and the modules it leans on, and set in motion by polling
    loops or by events that arrive over STOMP ([event_processing/]); this development
    models those decisions as executable definitions and proves what they guarantee,
    whatever Waldur, the backends, the broker and the clock answer.

    ** The way the code is modelled

    A call to the outside -- a REST endpoint of Waldur, an operation of the
    resource backend or of the username backend, the clock, a pause -- is a
    constructor of a call signature ([Agent.agentE], [ReportEffects.reportE]).  A
    piece of code is a statement [M E S A]: it maps a state to a finite tree of
    calls ([prog]) whose leaves carry the new state and a value or a raised
    exception ([res]).  [try!], [raise], [for_each] and [attempt] read like the
    Python they stand for: state changes survive an exception, an exception
    leaves a loop.  [runs p tau a] says that [p] makes exactly the calls of the
    trace [tau], answered as recorded there, and ends in [a].  Any call may be
    answered by any value or exception, so a theorem about all runs covers every
    behaviour of Waldur, of a plugin and of the network.  [exec] runs a program
    against a concrete outside world; the witnesses and examples use it.

    Proofs use a small program logic over histories: [wpM G m Q s H] says that
    every call [m] makes satisfies the guard [G], which sees all earlier calls and
    answers, and that [Q] holds at the end.  [calls] is the static footprint of a
    statement, [keeps] an invariant of its state.  The tactics [wp_step],
    [calls_auto], [keeps_auto] and [solve_runs] and the hint databases [calls]
    and [keeps] carry the routine part.

    Fuel appears where a loop has no structural bound: retries count down the
    attempts the code allows; the days of a month are walked with 32 steps, one more
    than a month has days ([DailyUsage.fill_days_every_day] shows that this is enough);
    connecting to the broker takes the fuel [Listener.connect_bounded] states, for the
    endless variant any fuel.  Every program is a finite tree, so it terminates on
    every sequence of answers.  Threads that share state are step relations instead
    (the listener and its worker, the log buffer and its shipper, the timers of
    project-group events), and their theorems are about every interleaving.

    ** The files and the code they model (under src/waldur_site_agent)

    - [Prelude]: exceptions, programs, runs, the logic, insertion-ordered dicts.
    - [Structures]: JSON, the enums and records the processors read
      ([backend/structures.py], [common/structures.py], the API client's models).
    - [Agent]: the calls of the processors, the capability flags of
      [backend/backends.py: BaseBackend], a processor's configuration and caches.
    - [Samples]: concrete values at which the theorems are exercised.
    - [SpendingLimits], [Numbers], [DailyUsage]: [common/spending_limits.py], with
      Python's floats (binary64, [round], [:.2f], [math.isclose]) and calendar.
    - [OfferingUsers]: username generation and the state transitions of offering
      users ([common/utils.py]).
    - [BaseProcessor]: [OfferingBaseProcessor]: caches, exposed profile
      attributes, unique backend ids, service and course accounts.
    - [Orders]: [OfferingOrderProcessor]: admission, provisioning, the verdicts on
      an order, retries, first API keys.
    - [ApiKeys], [KeyUsage]: [common/resource_api_keys.py]: key commands, the
      pending sweep, assignees; usage per key.
    - [Teardown]: the deletion sweep, the teardown of one account, releases.
    - [Membership]: the pass of [OfferingMembershipProcessor] over an offering.
    - [MembershipEvents]: what event handlers and catch-up passes call.
    - [ReportEffects], [Report]: [OfferingReportProcessor].
    - [BaseBackend]: the operations a resource backend plugin inherits from
      [backend/backends.py: BaseBackend], over the calls of its client
      ([backend/clients.py]) and the methods it fills in; [base_backend] is the
      method table.
    - [Linking]: putting an implementation of the backend under a processor, and the
      class [MembershipBackend], the contract of removals that the processors lean on.
    - [Homedirs]: [create_user_homedirs] of that class and [backend/quota.py].
    - [Deployment]: the default backend keeps that contract; what follows for the
      processors linked with a backend that does, and with the default one.
    - [LogBuffer]: [common/log_buffer.py], [log_handler.py] and [log_shipper.py].
    - [Listener]: [event_processing/listener.py]: the queue between the receiver and
      the worker, acknowledgements, reconnection.
    - [Subscriptions]: [event_processing/utils.py], [event_subscription_manager.py] and
      [common/agent_identity_management.py]: identities, queues, consumers.
    - [Watchdog]: [event_processing/watchdog.py]: what is checked, retried and reported.
    - [Importable]: the processor of requests for importable resources.
    - [Handlers]: [event_processing/handlers.py], the router, and the construction of
      processors and backends the handlers share with the passes.
    - [EventLoop]: the periodic passes of [event_processing/utils.py] and the loop of
      [event_processing/main.py].
    - [Polling]: one turn of each agent under [polling_processing/].
    - [FloatInts], [ComponentMapping]: [common/component_mapping.py], over a library on
      binary64 operations that lose nothing.
    - [Texts]: Python's [str] methods and [int()] on texts, as far as they are used.
    - [SlurmParser], [SlurmClient]: [parser.py], [interface.py] and [client.py] of
      [plugins/slurm]: the output of sacctmgr and sacct, and the commands that are run.
    - [SlurmSettings], [SlurmBackend], [SlurmOperations]: [plugins/slurm]'s [backend.py]
      and [utils.py]: its settings, limits and usage; the method table over [BaseBackend];
      what its operations do.
    - [SlurmDeployment]: the processors over that backend over its client.
    - [LdapClient], [LdapOperations]: [plugins/ldap-client]'s [client.py]: the operations on
      a directory, over those of an ldap3 connection, and what they do.
    - [LdapReconcile]: [plugins/ldap]'s [reconcile.py]: the verdict on one account.
    - [LdapUsernames]: its [backend.py] and [schemas.py]: settings, the names the agent
      generates, releases.  The calls of that backend are [LdapUsernames.accountE]: the
      methods of the client, and what it asks of Waldur and of a mail server.
    - [LdapAccounts]: the pass of [backend.py] over the accounts Waldur names, with renames
      that can be resumed; the directory as the pass remembers it is its state.
    - [LdapProjectGroups]: [project_groups.py] and the passes of [backend.py] that run it:
      the listing of a provider's groups, their entries, members and parents.
    - [FederationClient], [FederationBackend]: [plugins/waldur]'s [client.py] and
      [backend.py]: a resource that is a resource of another Waldur; the endpoints there
      and what is asked of the own Waldur, the caches of the answers, and the method table
      over [BaseBackend].
    - [FederationSync], [FederationUsage], [FederationOperations], [FederationMembers]:
      what that backend does: synchronisations; the sums of usage; orders, limits and
      usage; members and roles.
    - [FederationEvents]: [target_event_handler.py] and the router in front of it.
    - [FederationProfiles]: [username_backend.py]: profiles for the identity bridge.

    Definitions carry the names of the Python functions without their leading
    underscore; a large function is split into definitions named after its parts.

    ** What is proved

    - Orders: the backend is touched only for an order that is executing or was
      accepted, approved and read back; an order is set done only right after it
      was read executing, and set erred only while unfinished; creation never
      duplicates a resource the backend still has; one order cannot stop the rest.
    - Unique ids: a resource is created only under an id derived in that attempt
      that Waldur did not call taken; the attempts are bounded and distinct.
    - API keys: an acknowledgement follows the success it reports; keys are touched
      only under the resource's current pause; a key is withdrawn only when Waldur
      does not hold it; first keys are minted up to the target and pruned only
      against a complete listing; per-key usage names the month it was collected in.
    - Accounts: usernames written to Waldur come from the username backend, and
      every transition is requested from a state that admits it; a teardown claims,
      removes, releases and reports in that order, each step only after the last
      one succeeded; a role change releases an account only after a complete pull
      and complete removals.
    - Membership: exactly the missing members are added and only users outside the
      team, who are no live accounts and, where asked, known to Waldur, are removed;
      only removals the backend answered for release an account; a resource is set
      erred only for an error that is neither transient nor the agent's own
      Waldur's; the last-sync time is refreshed only when no step was skipped.
    - Usage: totals are submitted only for the months configured, from a pull made
      within the month, rounded to two decimals, changed, and not below what Waldur
      holds; the days of a month go out completely; retries are bounded.
    - The default backend: a strict pull leaves out only resources the client said do
      not exist; adding and removing users account for everyone asked for; deletion and
      creation touch nothing that was not checked right before.
    - Linked with the default backend: a deletion is reported to Waldur, and an account
      released, only when the client has shown the user gone from every resource that
      Waldur listed.  [Linking.wp_interp] is the refinement lemma behind it: a guard
      proved of a processor holds of the linked program as long as every implemented
      call keeps the two histories related.
    - Events: a frame is acknowledged on its own connection, after its handler, in the
      order of arrival, and an open listener's worker drains what arrived while its handlers
      return (a failing acknowledgement is logged and left); connecting is bounded against a
      broker that does not drop each connection at once; the router contains the failures of handlers; an order message processes
      that order; every periodic-limits command gets one verdict; no project-group event
      is lost; only departed accounts are torn down; a queue is registered under the
      agent's own identity with its own types.
    - Loops: an outage withholds the heartbeat, and only an outage of the agent's own
      does; everything counted as down was seen down by a check; passes go through all offerings and keep their pace; memberships have one
      owner.
    - The log buffer holds the latest entries that fit, and hands each out once.
    - Component mapping: with integer factors and amounts below 2^53 the conversions are
      the integer sums they are meant to be, in spite of the floats, and limits of known
      components sent to a one-to-one backend come back unchanged.
    - SLURM: every command names the configured cluster; texts written to sacctmgr read
      back; an association is dropped only with the user's default account elsewhere; the
      backend calls only what its settings allow; an allocation is set up after its account
      was accepted and deleted after it was emptied; budgets, and usage in whole minutes, are
      exact sums below 2^53; periodic settings claim only what was read or written; an account is reported
      deleted only when sacctmgr has shown it cut off from every resource listed.
    - LDAP: connections are closed again; ids come from complete reads, or are the ones
      given, and a failure rolls back only what was made; a membership reported gone is gone;
      a parked account comes back as it was; values of DNs are read as they were meant.
    - LDAP accounts: verdicts write only to an entry that is the account's by its key and
      its ids, say what they rest on, and settle; a pass gives no uid twice, as far as the directory's answers
      show; generated names are portable and free; an account is released only when the
      user has no live one of its name at the provider.
    - LDAP project groups: a pass acts only on a listing that is complete by its own counts
      and only towards it, gives no gid somebody else is known to hold, and takes out of
      a parent nothing but listed groups; passes after events wait for the accounts, and
      an account in conflict is named in no group.
    - Federation: an order is placed once, in the project with the resource's own id; a
      termination does exactly what the state just read asks for; a member is taken out
      only of the project read and reported gone only after it was; a role is granted only
      after the one it replaces was revoked; end dates, metadata of projects and user names
      are written only where they differ and settle; usage is of the month the clock
      showed, summed in Waldur's units; profiles carry the attributes the other Waldur
      allows; an order of the other Waldur settles only the order that waits for it.
    - Findings: some theorems state behaviour that departs from a comment or from
      the intent (a refused approval is provisioned all the same, a taken id is
      asked for again unchanged, usernames assigned during a pass are not read back).

    ** What is not modelled

    Logging is left out, and so are the contents of log messages.  Python objects
    are values; where the code relies on sharing (offering users renamed in place
    while they sit in the cache) the sharing is modelled ([BaseProcessor]).  Python
    sets are iterated in the order of [elements], one of the orders Python may
    choose; no theorem depends on it.  UUIDs are the hexadecimal strings the code
    sends.  A backend that lacks an optional method is one that answers what the
    code assumes in its absence.  [str.strip] and [str.lower] are modelled on ASCII.
    Third-party code (the API client, [httpx] URL parsing) and the other plugins appear as
    calls or as parameters of a configuration.
    Configuration loading, the STOMP library and the WebSocket proxy, threads as such,
    signals, the command line, the health endpoint, Sentry, the tools for testing, the
    loader of past usage and the plugins other than those named above are not modelled:
    the first are input and output around the decisions, the plugins are twenty-odd
    adapters to systems of their own, which the processors meet only through the calls of
    [Agent].  Of the SLURM plugin the REST client and the diagnostics are left out.
    The partitions and the QoS policy that a processor pushes
    onto a SLURM backend are parameters of it, [str()] of a settings value is a function
    [text], and long error messages are abbreviated.  Of the LDAP client the connection
    pool and TLS, random passwords and bytes that are no UTF-8 are left out; what ldap3
    makes of names ([ldap_names]) is a parameter.  Of the LDAP username backend the warnings
    given once, the counts of a report, the locks and the text of mails are left out; what
    [unicodedata] and an ASCII encoding make of a name is a parameter [ascii_form], the POSIX
    fields of an offering user are a function of it, and the origin that [httpx] reads in a
    link is a parameter.  Of the federation plugin the connection for events of the other
    Waldur, the diagnostics and the helpers of the client that nothing calls are left out;
    the fields of a resource and of a project that only this plugin reads are functions of
    them ([details], [source]), and so is [str()] of a JSON value ([text]). *)


From stdpp Require Import base list strings gmap sets sorting.
From Stdlib Require Import ZArith Lia.

(** ** Python exceptions

    The exception classes the agent raises or distinguishes, one constructor
    each.  The last argument of the third-party classes is their [str()]. *)
Inductive exn : Type :=
| UnexpectedStatus (status : Z) (url content text : string)
| TransportError (text : string)
| HTTPStatusError (status : Z) (text : string)
| BackendError (msg : string)
| DuplicateResourceError (resource_id : string)
| UserNotProvisionedError (msg : string)
| BackendNotReadyError (msg : string)
| ConfigurationError (msg : string)
| OfferingUserAccountLinkingRequiredError (msg : string) (comment_url : option string)
| OfferingUserAdditionalValidationRequiredError (msg : string) (comment_url : option string)
| ObjectNotFoundError (msg : string)
| UsageAnomalyError (msg : string)
| NotYet (msg : string)
| Withdrawn (msg : string)
| ValueError (msg : string)
| KeyError (key : string)
| AttributeError (msg : string)
| IndexError (msg : string)
| TypeError (msg : string)
| OverflowError (msg : string)
| StompException (msg : string)
| OSError (msg : string)
| NotImplementedError (msg : string)
(* of the LDAP client, all of them backend errors, and of the LDAP library *)
| EntryExistsError (msg : string)
| EntryMissingError (msg : string)
| ContainerMissingError (msg : string)
| ValueConflictError (msg : string)
| LDAPException (text : string)
(* of the LiteLLM client, both of them backend errors *)
| LiteLLMBackendError (msg : string)
| LiteLLMEnterpriseFeatureError (msg : string)
| OtherException (text : string).

Global Instance exn_eq_dec : EqDecision exn.
Proof. solve_decision. Defined.

(** The outcome of a Python call: a value or a raised exception. *)
Inductive res (A : Type) : Type :=
| Ok (a : A)
| Err (e : exn).
Arguments Ok {A} a.
Arguments Err {A} e.

(** Sequencing of calls that reach nothing outside. *)
Definition rbind {A B} (r : res A) (f : A → res B) : res B :=
  match r with Ok a => f a | Err e => Err e end.

Fixpoint rfold {A B} (f : B → A → res B) (l : list A) (b : B) : res B :=
  match l with [] => Ok b | x :: l => rbind (f b x) (λ b, rfold f l b) end.

(** ** Call trees

    The code under [src/] reaches the outside world (the Waldur REST API, a
    backend plugin, a command line, the clock) only through calls.  A program
    over the call signature [E] is the tree of the calls it makes; the
    continuation of a call receives whatever the outside answers, an exception
    included, so a statement about every run of a tree is a statement about
    every behaviour of the outside. *)
Inductive prog (E : Type → Type) (A : Type) : Type :=
| Ret (a : A)
| Call (X : Type) (c : E X) (k : res X → prog E A).
Arguments Ret {E A} a.
Arguments Call {E A X} c k.

Fixpoint pbind {E A B} (p : prog E A) (f : A → prog E B) : prog E B :=
  match p with
  | Ret a => f a
  | Call c k => Call c (λ r, pbind (k r) f)
  end.

(** Statements: mutable state [S] that survives a raised exception. *)
Definition M (E : Type → Type) (S A : Type) : Type := S → prog E (S * res A).

Section Statements.
Context {E : Type → Type} {S : Type}.

Definition ret {A} (a : A) : M E S A := λ s, Ret (s, Ok a).
Definition raise {A} (e : exn) : M E S A := λ s, Ret (s, Err e).
Definition bind {A B} (m : M E S A) (f : A → M E S B) : M E S B := λ s,
  pbind (m s) (λ '(s', r),
    match r with Ok a => f a s' | Err e => Ret (s', Err e) end).
Definition call {X} (c : E X) : M E S X := λ s, Call c (λ r, Ret (s, r)).
(** [attempt m] is the body of a [try]: its outcome becomes a value. *)
Definition attempt {A} (m : M E S A) : M E S (res A) := λ s,
  pbind (m s) (λ '(s', r), Ret (s', Ok r)).
Definition get_st : M E S S := λ s, Ret (s, Ok s).
Definition put_st (s' : S) : M E S unit := λ _, Ret (s', Ok ()).
Definition modify_st (f : S → S) : M E S unit := λ s, Ret (f s, Ok ()).
Definition of_res {A} (r : res A) : M E S A :=
  match r with Ok a => ret a | Err e => raise e end.

Fixpoint for_each {A} (l : list A) (body : A → M E S unit) : M E S unit :=
  match l with
  | [] => ret ()
  | x :: l' => bind (body x) (λ _, for_each l' body)
  end.

Fixpoint fold_m {A B} (l : list A) (body : B → A → M E S B) (b : B) : M E S B :=
  match l with
  | [] => ret b
  | x :: l' => bind (body b x) (λ b', fold_m l' body b')
  end.
End Statements.

(** Run statements over a local state inside statements over another one: the
    outcome and the final local state are both returned. *)
Definition run_on {E S1 S2 A} (s1 : S1) (m : M E S1 A) : M E S2 (res A * S1) := λ s2,
  pbind (m s1) (λ '(s1', r), Ret (s2, Ok (r, s1'))).

Declare Scope prog_scope.
Delimit Scope prog_scope with prog.
Notation "'let!' x ':=' m 'in' k" := (bind m (λ x, k))
  (at level 10, x pattern, m at level 100, k at level 200) : prog_scope.
Notation "m ;! k" := (bind m (λ _, k))
  (at level 100, k at level 200, right associativity) : prog_scope.
Notation "'try!' m 'except' h" :=
  (bind (attempt m) (λ r, match r with Ok a => ret a | Err e => h e end))
  (at level 10, m at level 100, h at level 200) : prog_scope.

Notation "'let?' x ':=' r 'in' k" := (rbind r (λ x, k))
  (at level 10, x pattern, r at level 100, k at level 200) : prog_scope.

Lemma rbind_ok {A B} (r : res A) (f : A → res B) y :
  rbind r f = Ok y ↔ ∃ x, r = Ok x ∧ f x = Ok y.
Proof. destruct r; simpl; naive_solver. Qed.

Lemma rfold_keeps {A B} (I : B → Prop) (f : B → A → res B) l b b' :
  (∀ b x b', f b x = Ok b' → I b → I b') → rfold f l b = Ok b' → I b → I b'.
Proof.
  intros Hf. revert b. induction l as [|x l IH]; intros b; simpl; [by intros [= ->]|].
  intros (b1 & Hb1 & H)%rbind_ok Hb. eapply IH; [done|]. by eapply Hf.
Qed.

Lemma rfold_total {A B} (I : B → Prop) (f : B → A → res B) l b :
  (∀ b x, x ∈ l → I b → ∃ b', f b x = Ok b' ∧ I b') → I b → ∃ b', rfold f l b = Ok b' ∧ I b'.
Proof.
  revert b. induction l as [|x l IH]; intros b Hf Hb; simpl; [eauto|].
  destruct (Hf b x (list_elem_of_here _ _) Hb) as (b1 & -> & Hb1). simpl. apply IH; [|done].
  intros b2 y Hy. apply Hf. by right.
Qed.

(** ** Runs and their traces *)

Inductive event (E : Type → Type) : Type :=
| Ev (X : Type) (c : E X) (r : res X).
Arguments Ev {E X} c r.

Abbreviation trace E := (list (event E)).

(** [runs p τ a]: with the answers recorded in [τ], [p] makes exactly the calls
    of [τ], in that order, and ends in [a]. *)
Fixpoint runs {E A} (p : prog E A) (τ : trace E) (a : A) : Prop :=
  match p with
  | Ret x => τ = [] ∧ x = a
  | Call c k => ∃ r τ', τ = Ev c r :: τ' ∧ runs (k r) τ' a
  end.

(** Execution against a concrete outside world, for examples and witnesses. *)
Fixpoint exec {E A W} (h : ∀ X, E X → W → res X * W) (p : prog E A) (w : W)
  : A * trace E * W :=
  match p with
  | Ret a => (a, [], w)
  | Call c k =>
      let '(r, w1) := h _ c w in
      let '(a, τ, w2) := exec h (k r) w1 in (a, Ev c r :: τ, w2)
  end.

Lemma exec_runs {E A W} (h : ∀ X, E X → W → res X * W) (p : prog E A) (w : W) :
  runs p (exec h p w).1.2 (exec h p w).1.1.
Proof.
  revert w; induction p as [a|X c k IH]; intros w; simpl; [done|].
  destruct (h X c w) as [r w1]. specialize (IH r w1).
  destruct (exec h (k r) w1) as [[a τ] w2]; simpl in *. eauto.
Qed.

Lemma exec_runs_pair {E S A W} (h : ∀ X, E X → W → res X * W) (p : prog E (S * res A)) (w : W) :
  runs p (exec h p w).1.2 ((exec h p w).1.1.1, (exec h p w).1.1.2).
Proof. rewrite <- surjective_pairing. apply exec_runs. Qed.

(** The runs of a sequence are the runs of its parts, one after the other. *)
Lemma runs_pbind {E A B} (p : prog E A) (f : A → prog E B) τ b :
  runs (pbind p f) τ b ↔ ∃ τ1 a τ2, τ = τ1 ++ τ2 ∧ runs p τ1 a ∧ runs (f a) τ2 b.
Proof.
  revert τ; induction p as [a|X c k IH]; intros τ; simpl.
  - split; [by exists [], a, τ|]. by intros (? & ? & ? & -> & [-> ->] & ?).
  - split.
    + intros (r & τ' & -> & (τ1 & a & τ2 & -> & H1 & H2)%IH).
      exists (Ev c r :: τ1), a, τ2. eauto 10.
    + intros (? & a & τ2 & -> & (r & τ1 & -> & H1) & H2).
      exists r, (τ1 ++ τ2). split; [done|]. apply IH. eauto 10.
Qed.

Lemma runs_bind_inv {E S A B} (m : M E S A) (f : A → M E S B) s τ s' r :
  runs (bind m f s) τ (s', r) →
  (∃ τ1 s1 a τ2, τ = τ1 ++ τ2 ∧ runs (m s) τ1 (s1, Ok a) ∧ runs (f a s1) τ2 (s', r)) ∨
  (∃ e, r = Err e ∧ runs (m s) τ (s', Err e)).
Proof.
  intros (τ1 & [s1 [a|e]] & τ2 & -> & H1 & H2)%runs_pbind; [left; eauto 10|right].
  destruct H2 as [-> [= -> <-]]. rewrite app_nil_r. eauto.
Qed.

Lemma runs_attempt_inv {E S A} (m : M E S A) s τ s' r :
  runs (attempt m s) τ (s', r) → ∃ o, r = Ok o ∧ runs (m s) τ (s', o).
Proof.
  intros (τ1 & [s1 o] & τ2 & -> & H1 & H2)%runs_pbind.
  destruct H2 as [-> [= -> <-]]. rewrite app_nil_r. eauto.
Qed.

(** A program over one signature of calls as part of a program over a larger one. *)
Fixpoint lift {E F : Type → Type} {A} (f : ∀ X, E X → F X) (p : prog E A) : prog F A :=
  match p with
  | Ret a => Ret a
  | Call c k => Call (f _ c) (λ r, lift f (k r))
  end.

Definition inside {E F : Type → Type} {S A} (f : ∀ X, E X → F X) (m : M E S A) : M F S A :=
  λ s, lift f (m s).

Definition lift_event {E F : Type → Type} (f : ∀ X, E X → F X) (ev : event E) : event F :=
  match ev with Ev c r => Ev (f _ c) r end.

Lemma runs_lift {E F : Type → Type} {A} (f : ∀ X, E X → F X) (p : prog E A) τ a :
  runs (lift f p) τ a ↔ ∃ τ', τ = map (lift_event f) τ' ∧ runs p τ' a.
Proof.
  revert τ; induction p as [x|X c k IH]; intros τ; simpl.
  - split; [intros [-> ->]; by exists []|]. by intros (? & -> & -> & ->).
  - split.
    + intros (r & τ1 & -> & (τ2 & -> & H)%IH). exists (Ev c r :: τ2). eauto.
    + intros (? & -> & r & τ2 & -> & H). exists r, (map (lift_event f) τ2).
      split; [done|]. apply IH. eauto.
Qed.

(** Every answer of the outside leads to a run: no program is stuck. *)
Lemma runs_total {E A} (p : prog E A) (answer : ∀ X, E X → res X) : ∃ τ a, runs p τ a.
Proof.
  exists (exec (λ X c (w : unit), (answer X c, w)) p ()).1.2,
         (exec (λ X c (w : unit), (answer X c, w)) p ()).1.1.
  apply exec_runs.
Qed.

(** ** A program logic over histories

    [H] is the history so far, newest call first.  [wp G p Q H]: every call of
    [p] satisfies the guard [G] when it is made, and [p] ends in a value and a
    history satisfying [Q], whatever the outside answers. *)
Definition guard (E : Type → Type) : Type := ∀ X, trace E → E X → Prop.

Fixpoint wp {E A} (G : guard E) (p : prog E A) (Q : A → trace E → Prop) (H : trace E) : Prop :=
  match p with
  | Ret a => Q a H
  | Call c k => G _ H c ∧ ∀ r, wp G (k r) Q (Ev c r :: H)
  end.

Definition wpM {E S A} (G : guard E) (m : M E S A) (Q : res A → S → trace E → Prop)
    (s : S) (H : trace E) : Prop :=
  wp G (m s) (λ x H', Q x.2 x.1 H') H.

(** The guard held at every call of a chronological trace. *)
Fixpoint guarded {E} (G : guard E) (H τ : trace E) : Prop :=
  match τ with
  | [] => True
  | Ev c r :: τ' => G _ H c ∧ guarded G (Ev c r :: H) τ'
  end.

Section Logic.
Context {E : Type → Type}.
Implicit Types (H τ : trace E) (G : guard E).

Lemma wp_sound {A} G (p : prog E A) Q H τ a :
  wp G p Q H → runs p τ a → Q a (rev τ ++ H) ∧ guarded G H τ.
Proof.
  revert H τ; induction p as [x|X c k IH]; simpl; intros H τ Hwp Hrun.
  - by destruct Hrun as [-> <-].
  - destruct Hwp as [HG Hk], Hrun as (r & τ' & -> & Hr).
    destruct (IH r _ _ (Hk r) Hr) as [HQ Hg]; simpl.
    split; [|done]. by rewrite <- app_assoc.
Qed.

Lemma guarded_split G H τ1 τ2 {X} (c : E X) r :
  guarded G H (τ1 ++ Ev c r :: τ2) → G X (rev τ1 ++ H) c.
Proof.
  revert H; induction τ1 as [|[Y d q] τ1 IH]; simpl; intros H [HG Hg]; [done|].
  rewrite <- app_assoc. by apply IH.
Qed.

Lemma wp_mono {A} (G G' : guard E) (p : prog E A) (Q Q' : A → trace E → Prop) H :
  (∀ X H c, G X H c → G' X H c) → (∀ a H', Q a H' → Q' a H') →
  wp G p Q H → wp G' p Q' H.
Proof.
  intros HG HQ; revert H; induction p as [a|X c k IH]; simpl; [auto|].
  intros H [HGc Hk]. split; [by apply HG|]. intros r. by apply IH.
Qed.

Lemma wp_bind {A B} G (p : prog E A) (f : A → prog E B) Q H :
  wp G (pbind p f) Q H ↔ wp G p (λ a H', wp G (f a) Q H') H.
Proof.
  revert H; induction p as [a|X c k IH]; simpl; [done|]. intros H.
  split; intros [HG Hk]; (split; [done|]); intros r; by apply IH.
Qed.
End Logic.

Section StatementRules.
Context {E : Type → Type} {S : Type}.
Implicit Types (H : trace E) (G : guard E) (s : S).

Lemma wpM_mono {A} G (m : M E S A) (Q Q' : res A → S → trace E → Prop) s H :
  wpM G m Q s H → (∀ r s' H', Q r s' H' → Q' r s' H') → wpM G m Q' s H.
Proof. intros Hm HQ. eapply wp_mono; [..|exact Hm]; auto. Qed.

Lemma wpM_ret {A} G (a : A) Q s H : Q (Ok a) s H → wpM G (ret a) Q s H.
Proof. done. Qed.

Lemma wpM_raise {A} G e (Q : res A → S → trace E → Prop) s H :
  Q (Err e) s H → wpM G (raise e) Q s H.
Proof. done. Qed.

Lemma wpM_of_res {A} G (r : res A) Q s H : Q r s H → wpM G (of_res r) Q s H.
Proof. by destruct r. Qed.

Lemma wpM_bind {A B} G (m : M E S A) (f : A → M E S B) Q s H :
  wpM G m (λ r s' H', match r with
                      | Ok a => wpM G (f a) Q s' H'
                      | Err e => Q (Err e) s' H'
                      end) s H →
  wpM G (bind m f) Q s H.
Proof.
  intros Hm. unfold wpM, bind. apply wp_bind.
  eapply wp_mono; [..|exact Hm]; [done|]. intros [s' [a|e]] H' HQ; exact HQ.
Qed.

Lemma wpM_attempt {A} G (m : M E S A) Q s H :
  wpM G m (λ r s' H', Q (Ok r) s' H') s H → wpM G (attempt m) Q s H.
Proof.
  intros Hm. unfold wpM, attempt. apply wp_bind.
  eapply wp_mono; [..|exact Hm]; [done|]. by intros [s' r] H' HQ.
Qed.

Lemma wpM_call {X} G (c : E X) Q s H :
  G X H c → (∀ r, Q r s (Ev c r :: H)) → wpM G (call c) Q s H.
Proof. done. Qed.

Lemma wpM_get G Q s H : Q (Ok s) s H → wpM G get_st Q s H.
Proof. done. Qed.

Lemma wpM_put G s' Q s H : Q (Ok ()) s' H → wpM G (put_st s') Q s H.
Proof. done. Qed.

Lemma wpM_modify G f Q s H : Q (Ok ()) (f s) H → wpM G (modify_st f) Q s H.
Proof. done. Qed.

(** Loop rule: [I done s H] holds of the elements handled so far; a body that
    raises establishes the postcondition. *)
Lemma wpM_for_each {A} G (l : list A) (body : A → M E S unit)
    (I : list A → S → trace E → Prop) (Q : res unit → S → trace E → Prop) s H :
  (∀ xs x s H, (∃ ys, l = xs ++ x :: ys) → I xs s H →
     wpM G (body x) (λ r s' H', match r with
                                | Ok _ => I (xs ++ [x]) s' H'
                                | Err e => Q (Err e) s' H'
                                end) s H) →
  (∀ s' H', I l s' H' → Q (Ok ()) s' H') →
  I [] s H → wpM G (for_each l body) Q s H.
Proof.
  intros Hbody HQ.
  cut (∀ xs s H, (∃ zs, l = zs ++ xs ∧ I zs s H) → wpM G (for_each xs body) Q s H).
  { intros Hc HI. apply Hc. by exists []. }
  intros xs; induction xs as [|x xs IH]; intros s0 H0 (zs & Hl & HI); simpl.
  - apply wpM_ret, HQ. rewrite Hl, app_nil_r. done.
  - apply wpM_bind. eapply wpM_mono; [apply Hbody; eauto|].
    intros [[]|e] s' H' HI'; [|done]. apply IH. exists (zs ++ [x]).
    by rewrite <- app_assoc.
Qed.

Lemma wpM_fold_m {A B} G (l : list A) (body : B → A → M E S B)
    (I : list A → B → S → trace E → Prop) (Q : res B → S → trace E → Prop) b s H :
  (∀ xs x b s H, (∃ ys, l = xs ++ x :: ys) → I xs b s H →
     wpM G (body b x) (λ r s' H', match r with
                                  | Ok b' => I (xs ++ [x]) b' s' H'
                                  | Err e => Q (Err e) s' H'
                                  end) s H) →
  (∀ b' s' H', I l b' s' H' → Q (Ok b') s' H') →
  I [] b s H → wpM G (fold_m l body b) Q s H.
Proof.
  intros Hbody HQ.
  cut (∀ xs b s H, (∃ zs, l = zs ++ xs ∧ I zs b s H) → wpM G (fold_m xs body b) Q s H).
  { intros Hc HI. apply Hc. by exists []. }
  intros xs; induction xs as [|x xs IH]; intros b0 s0 H0 (zs & Hl & HI); simpl.
  - apply wpM_ret, HQ. rewrite Hl, app_nil_r. done.
  - apply wpM_bind. eapply wpM_mono; [apply Hbody; eauto|].
    intros [b'|e] s' H' HI'; [|done]. apply IH. exists (zs ++ [x]).
    by rewrite <- app_assoc.
Qed.

(** Soundness at the statement level, in the form the theorems use it. *)
Lemma wpM_sound {A} G (m : M E S A) (Q : res A → S → trace E → Prop) s τ s' r :
  wpM G m Q s [] → runs (m s) τ (s', r) → Q r s' (rev τ) ∧ guarded G [] τ.
Proof.
  intros Hwp Hrun. destruct (wp_sound _ _ _ _ _ _ Hwp Hrun) as [HQ Hg].
  by rewrite app_nil_r in HQ.
Qed.

Lemma wpM_call_guard {A} G (m : M E S A) Q s τ s' r τ1 τ2 {X} (c : E X) a :
  wpM G m Q s [] → runs (m s) τ (s', r) → τ = τ1 ++ Ev c a :: τ2 → G X (rev τ1) c.
Proof.
  intros Hwp Hrun ->. destruct (wpM_sound _ _ _ _ _ _ _ Hwp Hrun) as [_ Hg].
  apply guarded_split in Hg. by rewrite app_nil_r in Hg.
Qed.
End StatementRules.

Lemma wpM_run_on {E S1 S2 A} (G : guard E) (s1 : S1) (m : M E S1 A)
    (Q : res (res A * S1) → S2 → trace E → Prop) (s2 : S2) (H : trace E) :
  wpM G m (λ r s1' H', Q (Ok (r, s1')) s2 H') s1 H → wpM G (run_on s1 m) Q s2 H.
Proof.
  intros Hm. unfold wpM, run_on. apply wp_bind.
  eapply wp_mono; [..|exact Hm]; [done|]. by intros [s' r] H' HQ.
Qed.

(** ** Which calls a program can make

    [calls P m]: every call [m] can ever make satisfies [P]. *)
Fixpoint pcalls {E A} (P : ∀ X, E X → bool) (p : prog E A) : Prop :=
  match p with
  | Ret _ => True
  | Call c k => P _ c = true ∧ ∀ r, pcalls P (k r)
  end.

Definition calls {E S A} (P : ∀ X, E X → bool) (m : M E S A) : Prop := ∀ s, pcalls P (m s).

Create HintDb calls.

Section Calls.
Context {E : Type → Type} {S : Type} (P : ∀ X, E X → bool).

Lemma pcalls_bind {A B} (p : prog E A) (f : A → prog E B) :
  pcalls P p → (∀ a, pcalls P (f a)) → pcalls P (pbind p f).
Proof. intros Hp Hf; induction p; simpl in *; [auto|]. destruct Hp; split; auto. Qed.

Lemma calls_ret {A} (a : A) : calls (S:=S) P (ret a).
Proof. done. Qed.
Lemma calls_raise {A} e : calls (S:=S) (A:=A) P (raise e).
Proof. done. Qed.
Lemma calls_of_res {A} (r : res A) : calls (S:=S) P (of_res r).
Proof. by destruct r. Qed.
Lemma calls_get : calls (S:=S) P get_st.
Proof. done. Qed.
Lemma calls_put s' : calls (S:=S) P (put_st s').
Proof. done. Qed.
Lemma calls_modify f : calls (S:=S) P (modify_st f).
Proof. done. Qed.
Lemma calls_call {X} (c : E X) : P X c = true → calls (S:=S) P (call c).
Proof. by intros HP s. Qed.
Lemma calls_bind {A B} (m : M E S A) (f : A → M E S B) :
  calls P m → (∀ a, calls P (f a)) → calls P (bind m f).
Proof.
  intros Hm Hf s. apply pcalls_bind; [apply Hm|]. intros [s' [a|e]]; [apply Hf|done].
Qed.
Lemma calls_attempt {A} (m : M E S A) : calls P m → calls P (attempt m).
Proof. intros Hm s. apply pcalls_bind; [apply Hm|]. by intros [s' r]. Qed.
Lemma calls_for_each {A} (l : list A) (body : A → M E S unit) :
  (∀ x, calls P (body x)) → calls P (for_each l body).
Proof.
  intros Hb; induction l as [|x l IH]; simpl; [apply calls_ret|].
  apply calls_bind; auto.
Qed.
Lemma calls_fold_m {A B} (l : list A) (body : B → A → M E S B) b :
  (∀ b x, calls P (body b x)) → calls P (fold_m l body b).
Proof.
  intros Hb; revert b; induction l as [|x l IH]; intros b; simpl; [apply calls_ret|].
  apply calls_bind; auto.
Qed.
End Calls.

Lemma calls_run_on {E S1 S2 A} (P : ∀ X, E X → bool) (s1 : S1) (m : M E S1 A) :
  calls P m → calls (S:=S2) P (run_on s1 m).
Proof. intros Hm s2. apply pcalls_bind; [apply Hm|]. by intros [s' r]. Qed.

#[export] Hint Resolve calls_ret calls_raise calls_of_res calls_get calls_put
  calls_modify calls_attempt calls_for_each calls_fold_m calls_run_on : calls.

Lemma calls_inside_of {E F : Type → Type} {S A} (P : ∀ X, F X → bool) (f : ∀ X, E X → F X)
    (m : M E S A) : calls (λ X c, P X (f X c)) m → calls P (inside f m).
Proof.
  intros Hm s. specialize (Hm s). unfold inside. revert Hm. generalize (m s) as p.
  induction p as [a|X c k IH]; simpl; [done|]. intros [Hc Hk]. split; [done|auto].
Qed.

Lemma calls_inside {E F : Type → Type} {S A} (P : ∀ X, F X → bool) (f : ∀ X, E X → F X)
    (m : M E S A) : (∀ X c, P X (f X c) = true) → calls P (inside f m).
Proof.
  intros HP. apply calls_inside_of. intros s. generalize (m s) as p.
  induction p as [a|X c k IH]; simpl; [done|]. split; [apply HP|done].
Qed.

(** A history extension all of whose calls satisfy [P]. *)
Definition all_calls {E} (P : ∀ X, E X → bool) (τ : trace E) : Prop :=
  Forall (λ ev, match ev with Ev c _ => P _ c = true end) τ.

Section CallsLogic.
Context {E : Type → Type} {S : Type}.

Lemma pcalls_wp {A} (P : ∀ X, E X → bool) (G : guard E) (p : prog E A) H :
  pcalls P p → (∀ X H c, P X c = true → G X H c) →
  wp G p (λ _ H', ∃ K, H' = K ++ H ∧ all_calls P K) H.
Proof.
  intros Hp HG; revert H; induction p as [a|X c k IH]; simpl; intros H.
  - exists []. by split; [|constructor].
  - destruct Hp as [Hc Hk]. split; [auto|]. intros r.
    eapply wp_mono; [..|apply (IH r (Hk r))]; [done|].
    intros a H' (K & -> & HK). exists (K ++ [Ev c r]). rewrite <- app_assoc.
    split; [done|]. apply Forall_app; auto.
Qed.

(** A program that only makes calls the guard always allows. *)
Lemma calls_wpM {A} (P : ∀ X, E X → bool) (G : guard E) (m : M E S A)
    (Q : res A → S → trace E → Prop) s H :
  calls P m → (∀ X H c, P X c = true → G X H c) →
  (∀ r s' K, all_calls P K → Q r s' (K ++ H)) → wpM G m Q s H.
Proof.
  intros Hm HG HQ. eapply wp_mono; [..|apply (pcalls_wp P G _ H (Hm s) HG)]; [done|].
  intros [s' r] H' (K & -> & HK). by apply HQ.
Qed.

(** The same, with a property of the history that every call preserves. *)
Lemma calls_wpM_inv {A} (P : ∀ X, E X → bool) (G : guard E) (I : trace E → Prop) (m : M E S A)
    (Q : res A → S → trace E → Prop) s H :
  calls P m → I H → (∀ X H c, I H → P X c = true → G X H c) →
  (∀ X (c : E X) a H, I H → P X c = true → I (Ev c a :: H)) →
  (∀ r s' K, all_calls P K → I (K ++ H) → Q r s' (K ++ H)) → wpM G m Q s H.
Proof.
  intros Hm HI HG Hpres HQ.
  cut (∀ B (p : prog E B) H, pcalls P p → I H →
         wp G p (λ _ H', ∃ K, H' = K ++ H ∧ all_calls P K ∧ I H') H).
  { intros Hc. eapply wp_mono; [..|apply (Hc _ _ _ (Hm s) HI)]; [done|].
    intros [s' r] H' (K & -> & HK & HI'). by apply HQ. }
  intros B p; induction p as [a|X c k IH]; simpl; intros H' Hp HI'.
  - exists []. by split; [|split; [constructor|]].
  - destruct Hp as [Hc Hk]. split; [auto|]. intros r.
    eapply wp_mono; [..|apply (IH r _ (Hk r) (Hpres _ _ _ _ HI' Hc))]; [done|].
    intros a H2 (K & -> & HK & HI2). exists (K ++ [Ev c r]). rewrite <- app_assoc.
    split; [done|]. split; [|done]. apply Forall_app; auto.
Qed.

(** Reuse a specification under another guard, with a property of the history that
    every call preserves. *)
Lemma wpM_inv {A} (G G' : guard E) (I : trace E → Prop) (m : M E S A)
    (Q Q' : res A → S → trace E → Prop) s H :
  (∀ X (c : E X) a H, I H → I (Ev c a :: H)) →
  (∀ X H c, I H → G X H c → G' X H c) → I H → wpM G m Q s H →
  (∀ r s' H', Q r s' H' → I H' → Q' r s' H') → wpM G' m Q' s H.
Proof.
  intros Hpres HG HI Hm HQ. unfold wpM in *. revert HI Hm. generalize (m s). clear m s.
  intros p; revert H; induction p as [a|X c k IH]; simpl; intros H HI Hp; [by apply HQ|].
  destruct Hp as [Hc Hk]. split; [by apply HG|]. intros r. apply IH; [by apply Hpres|apply Hk].
Qed.

(** The guard of a specification may also assume the footprint of the program. *)
Lemma wpM_footprint {A} (P : ∀ X, E X → bool) (G : guard E) (m : M E S A) Q s H :
  calls P m → wpM G m Q s H → wpM (λ X H c, P X c = true ∧ G X H c) m Q s H.
Proof.
  unfold wpM. intros Hm. specialize (Hm s). revert Hm. generalize (m s). clear.
  intros p; revert H; induction p as [a|X c k IH]; simpl; intros H Hp Hw; [done|].
  destruct Hp as [Hc Hk], Hw as [HG Hw]. split; [done|]. intros r. by apply IH.
Qed.

(** Two specifications of one program. *)
Lemma wpM_conj {A} (G1 G2 : guard E) (m : M E S A) (Q1 Q2 : res A → S → trace E → Prop) s H :
  wpM G1 m Q1 s H → wpM G2 m Q2 s H → wpM G2 m (λ r s' H', Q1 r s' H' ∧ Q2 r s' H') s H.
Proof.
  unfold wpM. generalize (m s). intros p; revert H.
  induction p as [x|X c k IH]; simpl; intros H H1 H2; [done|].
  destruct H1 as [_ H1], H2 as [HG H2]. split; [done|]. intros r. by apply IH.
Qed.

(** Add the run itself to a postcondition. *)
Lemma wpM_runs {A} (G : guard E) (m : M E S A) (Q : res A → S → trace E → Prop) s H :
  wpM G m Q s H →
  wpM G m (λ r s' H', Q r s' H' ∧ ∃ τ, runs (m s) τ (s', r) ∧ H' = rev τ ++ H) s H.
Proof.
  unfold wpM. generalize (m s). intros p; revert H.
  induction p as [[s' r]|X c k IH]; simpl; intros H Hw; [split; [done|]; by exists []|].
  destruct Hw as [HG Hw]. split; [done|]. intros a. eapply wp_mono; [..|apply (IH a _ (Hw a))]; [done|].
  intros [s' r] H' (HQ & τ & Hr & ->). split; [done|]. exists (Ev c a :: τ).
  split; [eauto|]. simpl. by rewrite <- app_assoc.
Qed.

Lemma wpM_true {A} (m : M E S A) s H : wpM (λ _ _ _, True) m (λ _ _ _, True) s H.
Proof. unfold wpM. generalize (m s), H. intros p; induction p as [x|X c k IH]; simpl; eauto. Qed.

(** What a program does from an empty history, it does after any history. *)
Lemma wpM_frame {A} (G : guard E) (m : M E S A) (Q : res A → S → trace E → Prop) s H :
  wpM G m Q s [] →
  wpM (λ _ _ _, True) m (λ r s' H', ∃ L, H' = L ++ H ∧ Q r s' L) s H.
Proof.
  unfold wpM. generalize (m s). intros p. change H with ([] ++ H) at 2. generalize (@nil (event E)).
  induction p as [x|X c k IH]; simpl; intros K Hp; [by exists K|].
  split; [done|]. intros r. apply (IH r (Ev c r :: K)), Hp.
Qed.

Lemma calls_mono {A} (P P' : ∀ X, E X → bool) (m : M E S A) :
  (∀ X c, P X c = true → P' X c = true) → calls P m → calls P' m.
Proof.
  intros HP Hm s. specialize (Hm s). revert Hm. generalize (m s).
  intros p; induction p as [a|X c k IH]; simpl; [done|].
  intros [Hc Hk]. split; [auto|]. intros r. apply IH, Hk.
Qed.

Lemma pcalls_runs {A} (P : ∀ X, E X → bool) (p : prog E A) τ a :
  pcalls P p → runs p τ a → all_calls P τ.
Proof.
  revert τ; induction p as [x|X c k IH]; simpl; intros τ Hp Hr.
  - destruct Hr as [-> _]. constructor.
  - destruct Hp as [Hc Hk], Hr as (r & τ' & -> & Hr). constructor; [done|]. by eapply IH.
Qed.
End CallsLogic.

(** ** What a program keeps

    [keeps I m]: from a state satisfying [I], [m] ends in one, whatever the outside
    answers and whether or not it raises. *)
Definition keeps {E S A} (I : S → Prop) (m : M E S A) : Prop :=
  ∀ s H, I s → wpM (λ _ _ _, True) m (λ _ s' _, I s') s H.

Create HintDb keeps.

Section Keeps.
Context {E : Type → Type} {S : Type} (I : S → Prop).
Implicit Types A B : Type.

Lemma keeps_ret {A} (a : A) : keeps (E:=E) I (ret a).
Proof. by intros s H Hs. Qed.
Lemma keeps_raise {A} e : keeps (E:=E) (A:=A) I (raise e).
Proof. by intros s H Hs. Qed.
Lemma keeps_of_res {A} (r : res A) : keeps (E:=E) I (of_res r).
Proof. by destruct r; intros s H Hs. Qed.
Lemma keeps_get : keeps (E:=E) I get_st.
Proof. by intros s H Hs. Qed.
Lemma keeps_call {X} (c : E X) : keeps I (call c).
Proof. intros s H Hs. by apply wpM_call. Qed.
Lemma keeps_modify f : (∀ s, I s → I (f s)) → keeps (E:=E) I (modify_st f).
Proof. intros Hf s H Hs. by apply wpM_modify, Hf. Qed.
Lemma keeps_bind {A B} (m : M E S A) (f : A → M E S B) :
  keeps I m → (∀ a, keeps I (f a)) → keeps I (bind m f).
Proof.
  intros Hm Hf s H Hs. apply wpM_bind. eapply wpM_mono; [by apply Hm|].
  intros [a|e] s' H' Hs'; [by apply Hf|done].
Qed.
Lemma keeps_attempt {A} (m : M E S A) : keeps I m → keeps I (attempt m).
Proof. intros Hm s H Hs. apply wpM_attempt. by apply Hm. Qed.
Lemma keeps_for_each {A} (l : list A) (body : A → M E S unit) :
  (∀ x, keeps I (body x)) → keeps I (for_each l body).
Proof.
  intros Hb; induction l as [|x l IH]; simpl; [apply keeps_ret|]. by apply keeps_bind.
Qed.
Lemma keeps_for_each_in {A} (l : list A) (body : A → M E S unit) :
  (∀ x, x ∈ l → keeps I (body x)) → keeps I (for_each l body).
Proof.
  intros Hb; induction l as [|x l IH]; simpl; [apply keeps_ret|].
  apply keeps_bind; [apply Hb; left|]. intros _. apply IH. intros y Hy. apply Hb. by right.
Qed.
Lemma keeps_fold_m {A B} (l : list A) (body : B → A → M E S B) b :
  (∀ b x, keeps I (body b x)) → keeps I (fold_m l body b).
Proof.
  intros Hb; revert b; induction l as [|x l IH]; intros b; simpl; [apply keeps_ret|].
  by apply keeps_bind.
Qed.
End Keeps.

#[export] Hint Resolve keeps_ret keeps_raise keeps_of_res keeps_get keeps_call : keeps.

(** ** Proof automation *)

(** Decompose a [calls] goal structurally; calls and named sub-programs are left to
    the [calls] hint database and to evaluation of the predicate. *)
Ltac calls_step :=
  lazymatch goal with
  | |- calls _ (bind _ _) => apply calls_bind; [|intros ?]
  | |- calls _ (call _) => apply calls_call; reflexivity
  | |- calls _ (attempt _) => apply calls_attempt
  | |- calls _ (run_on _ _) => apply calls_run_on
  | |- calls _ (for_each _ _) => apply calls_for_each; intros ?
  | |- calls _ (fold_m _ _ _) => apply calls_fold_m; intros ? ?
  | |- calls _ (match ?x with _ => _ end) => destruct x
  | |- calls _ (let _ := _ in _) => cbv zeta
  | |- calls _ _ => first [solve [auto with calls] | apply calls_call; reflexivity]
  end.
Ltac calls_auto := repeat (cbv beta; calls_step).

Ltac keeps_step :=
  lazymatch goal with
  | |- keeps _ (bind _ _) => apply keeps_bind; [|intros ?]
  | |- keeps _ (attempt _) => apply keeps_attempt
  | |- keeps _ (for_each _ _) => apply keeps_for_each; intros ?
  | |- keeps _ (fold_m _ _ _) => apply keeps_fold_m; intros ? ?
  | |- keeps _ (match ?x with _ => _ end) => destruct x
  | |- keeps _ (let _ := _ in _) => cbv zeta
  | |- keeps _ _ => solve [auto with keeps | apply keeps_call]
  end.
Ltac keeps_auto := repeat (cbv beta; keeps_step).

(** One symbolic-execution step of a [wpM] goal. *)
Ltac wp_step :=
  lazymatch goal with
  | |- wpM _ (bind _ _) _ _ _ => apply wpM_bind
  | |- wpM _ (ret _) _ _ _ => apply wpM_ret
  | |- wpM _ (raise _) _ _ _ => apply wpM_raise
  | |- wpM _ (of_res _) _ _ _ => apply wpM_of_res
  | |- wpM _ (attempt _) _ _ _ => apply wpM_attempt
  | |- wpM _ get_st _ _ _ => apply wpM_get
  | |- wpM _ (put_st _) _ _ _ => apply wpM_put
  | |- wpM _ (modify_st _) _ _ _ => apply wpM_modify
  | |- wpM _ (run_on _ _) _ _ _ => apply wpM_run_on
  | |- wpM _ (let _ := _ in _) _ _ _ => cbv zeta
  end; cbv beta iota.
Ltac wp_steps := repeat wp_step.

(** Case analysis on the scrutinee of the statement at the head of the goal. *)
Ltac wp_case :=
  lazymatch goal with
  | |- wpM _ (match ?x with _ => _ end) _ _ _ => destruct x eqn:?; cbv beta iota
  end.

(** A call: prove its guard (usually trivial), then name its two outcomes. *)
Tactic Notation "wp_call" := apply wpM_call; [try done|]; cbv beta.
Tactic Notation "wp_call" "as" simple_intropattern(p) :=
  apply wpM_call; [try done|]; cbv beta; intros p; cbv iota.

(** Check a concrete trace against a program, one recorded answer at a time. *)
Lemma runs_step {E A X} (c c' : E X) (k : res X → prog E A) r τ a :
  c = c' → runs (k r) τ a → runs (Call c k) (Ev c' r :: τ) a.
Proof. intros <- Hr. exists r, τ. done. Qed.

Lemma runs_end {E A} (x a : A) : x = a → runs (Ret x : prog E A) [] a.
Proof. by intros <-. Qed.

(** stdpp makes the operations of its maps opaque to reduction; the head of a
    program that branches on a map is reduced with them transparent. *)
Ltac solve_runs :=
  repeat
    (lazymatch goal with
     | |- runs ?p ?t ?a =>
         with_strategy transparent
           [gmap_empty gmap_lookup gmap_partial_alter gmap_fmap gmap_omap gmap_merge gmap_fold]
           (let p' := eval lazy head in p in
            let t' := eval lazy head in t in
            change (runs p' t' a));
         lazymatch goal with
         | |- runs (Call _ _) _ _ => apply runs_step; [vm_compute; reflexivity|]
         | |- runs (Ret _) _ _ => apply runs_end; vm_compute; reflexivity
         end
     end).

(** ** Answers over a history that grows

    What most statements promise: nothing of the history is lost, and a value that is
    answered stands in a relation with it. *)

Section Answers.
Context {E : Type → Type} {S : Type} (G : guard E).
Implicit Types (H : trace E).

Definition keeps_growing {A} (P : A → trace E → Prop) : Prop :=
  ∀ a H H', H ⊆ H' → P a H → P a H'.

(** The history grows, and what is answered is answered rightly. *)
Definition answers {A} (H : trace E) (P : A → trace E → Prop)
    (r : res A) (s : S) (H' : trace E) : Prop :=
  H ⊆ H' ∧ ∀ a, r = Ok a → P a H'.

Lemma wpM_answers_bind {A B} (m : M E S A) (f : A → M E S B) P (Q : B → trace E → Prop) s H :
  wpM G m (answers H P) s H →
  (∀ a s' H', H ⊆ H' → P a H' → wpM G (f a) (answers H' Q) s' H') →
  wpM G (bind m f) (answers H Q) s H.
Proof.
  intros Hm Hf. wp_step. eapply wpM_mono; [exact Hm|].
  intros [a|e] s' H' [Hsub Ha]; cbv beta iota; [|by split].
  eapply wpM_mono; [by apply Hf; [|apply Ha]|]. intros r s2 H2 [Hsub2 Hr]. split; [set_solver|done].
Qed.

Lemma answers_call {X} (c : E X) (P : X → trace E → Prop) s H :
  G X H c → (∀ a, P a (Ev c (Ok a) :: H)) → wpM G (call c) (answers H P) s H.
Proof. intros Hc HP. apply wpM_call; [done|]. intros r. split; [set_solver|]. by intros a ->. Qed.

Lemma answers_ret {A} (a : A) (P : A → trace E → Prop) s H : P a H → wpM G (ret a) (answers H P) s H.
Proof. intros HP. wp_step. split; [done|]. by intros ? [= <-]. Qed.
Lemma answers_raise {A} e (P : A → trace E → Prop) s H : wpM G (raise e) (answers H P) s H.
Proof. wp_step. by split. Qed.
Lemma answers_of_res {A} (r : res A) (P : A → trace E → Prop) s H :
  (∀ a, r = Ok a → P a H) → wpM G (of_res r) (answers H P) s H.
Proof. destruct r; intros HP; [apply answers_ret; auto|apply answers_raise]. Qed.

Lemma answers_mono {A} (m : M E S A) (P Q : A → trace E → Prop) s H :
  wpM G m (answers H P) s H → (∀ a H', P a H' → Q a H') → wpM G m (answers H Q) s H.
Proof.
  intros Hm HPQ. eapply wpM_mono; [exact Hm|]. intros r s' H' [Hs Ha]. split; [done|]. auto.
Qed.

Lemma answers_attempt {A} (m : M E S A) (P : A → trace E → Prop) s H :
  wpM G m (answers H P) s H → wpM G (attempt m) (answers H (λ r H', ∀ a, r = Ok a → P a H')) s H.
Proof.
  intros Hm. wp_step. eapply wpM_mono; [exact Hm|]. intros r s' H' [Hs Ha]. split; [done|]. by intros ? [= <-].
Qed.

(** A loop that ends normally did what its body does for every element. *)
Lemma answers_for_each {A} (l : list A) (body : A → M E S unit) (P : A → trace E → Prop) s H :
  keeps_growing P →
  (∀ x s' H', x ∈ l → H ⊆ H' → wpM G (body x) (answers H' (λ _, P x)) s' H') →
  wpM G (for_each l body) (answers H (λ _ H', ∀ x, x ∈ l → P x H')) s H.
Proof.
  intros HP Hbody. apply (wpM_for_each G l body (λ xs _ H', H ⊆ H' ∧ ∀ x, x ∈ xs → P x H')).
  - intros xs x s' H' [ys ->] [Hs Hxs]. eapply wpM_mono; [apply Hbody; [set_solver|done]|].
    intros [[]|e] s2 H2 [Hs2 Hx]; [|split; [set_solver|done]]. split; [set_solver|].
    intros y [Hy| ->%list_elem_of_singleton]%elem_of_app; [eapply HP; [done|by apply Hxs]|by apply (Hx ())].
  - intros s' H' [Hs Hl]. split; [done|]. intros _ _. exact Hl.
  - split; [done|]. intros x Hx. by apply elem_of_nil in Hx.
Qed.
End Answers.

(** ** Python dictionaries with their insertion order *)

Section PyDict.
Context {K V : Type} `{EqDecision K}.

Fixpoint dict_get (d : list (K * V)) (k : K) : option V :=
  match d with
  | [] => None
  | (k', v) :: d' => if decide (k = k') then Some v else dict_get d' k
  end.

(** [d[k] = v]: an existing key keeps its position. *)
Fixpoint dict_set (d : list (K * V)) (k : K) (v : V) : list (K * V) :=
  match d with
  | [] => [(k, v)]
  | (k', v') :: d' =>
      if decide (k = k') then (k, v) :: d' else (k', v') :: dict_set d' k v
  end.

Definition dict_keys (d : list (K * V)) : list K := d.*1.
Definition dict_values (d : list (K * V)) : list V := d.*2.

Lemma dict_get_set_eq d k v : dict_get (dict_set d k v) k = Some v.
Proof.
  induction d as [|[k' v'] d IH]; simpl; [by rewrite decide_True|].
  case_decide; simpl; [by rewrite decide_True|by rewrite decide_False].
Qed.

Lemma dict_get_set_ne d k k' v : k ≠ k' → dict_get (dict_set d k v) k' = dict_get d k'.
Proof.
  intros Hne. induction d as [|[k1 v1] d IH]; simpl; [by rewrite decide_False|].
  case_decide; simplify_eq/=; repeat case_decide; congruence.
Qed.

Lemma dict_set_keys d k v : dict_keys (dict_set d k v) =
  if decide (k ∈ dict_keys d) then dict_keys d else dict_keys d ++ [k].
Proof.
  induction d as [|[k' v'] d IH]; [done|].
  change (dict_keys ((k', v') :: d)) with (k' :: dict_keys d).
  cbn [dict_set]. destruct (decide (k = k')) as [Hk|Hk].
  - subst. rewrite decide_True; [done|]. apply list_elem_of_here.
  - change (dict_keys ((k', v') :: dict_set d k v)) with (k' :: dict_keys (dict_set d k v)).
    rewrite IH. destruct (decide (k ∈ dict_keys d)) as [Hin|Hin].
    + rewrite decide_True; [done|]. by apply list_elem_of_further.
    + rewrite decide_False; [done|]. rewrite elem_of_cons. tauto.
Qed.

Lemma dict_set_NoDup d k v : NoDup (dict_keys d) → NoDup (dict_keys (dict_set d k v)).
Proof.
  intros Hd. rewrite dict_set_keys. case_decide; [done|].
  apply NoDup_app; split_and!; [done| |apply NoDup_singleton].
  intros x Hx Hk%list_elem_of_singleton. by subst.
Qed.

Lemma elem_of_dict_set d k v x : x ∈ dict_set d k v → x = (k, v) ∨ x ∈ d.
Proof.
  induction d as [|[k' v'] d IH]; simpl.
  - rewrite list_elem_of_singleton. auto.
  - case_decide; rewrite !elem_of_cons; naive_solver.
Qed.

Lemma dict_set_keys_elem d k v k' : k' ∈ dict_keys (dict_set d k v) ↔ k' = k ∨ k' ∈ dict_keys d.
Proof.
  rewrite dict_set_keys. case_decide; [naive_solver|].
  rewrite elem_of_app, list_elem_of_singleton. tauto.
Qed.

Lemma dict_values_set d k v x :
  x ∈ dict_values (dict_set d k v) → x = v ∨ x ∈ dict_values d.
Proof.
  induction d as [|[k' v'] d IH]; simpl.
  - rewrite list_elem_of_singleton. auto.
  - case_decide; simpl; rewrite !elem_of_cons; naive_solver.
Qed.

Lemma dict_get_In (d : list (K * V)) k v : dict_get d k = Some v → (k, v) ∈ d.
Proof.
  induction d as [|[k' v'] d IH]; simpl; [done|]. case_decide as Hk; [|by right; apply IH].
  intros [= ->]. subst. by left.
Qed.

Lemma dict_get_None (d : list (K * V)) k : dict_get d k = None ↔ k ∉ dict_keys d.
Proof.
  induction d as [|[k' v'] d IH]; simpl; [split; [by intros _ ?%elem_of_nil|done]|].
  change (dict_keys ((k', v') :: d)) with (k' :: dict_keys d). rewrite not_elem_of_cons, <- IH.
  case_decide as Hk; [subst; by split; [|intros [[]]]|]. split; [intros ?; split; congruence|by intros [??]].
Qed.

Lemma dict_In_get (d : list (K * V)) k v :
  NoDup (dict_keys d) → (k, v) ∈ d → dict_get d k = Some v.
Proof.
  induction d as [|[k' v'] d IH]; intros Hnd; [by intros ?%elem_of_nil|].
  inversion Hnd as [|? ? Hk Hnd']; subst. simpl.
  intros [[= -> ->]|Hin]%elem_of_cons; [by rewrite decide_True|].
  rewrite decide_False; [by apply IH|]. intros ->. apply Hk. by apply (list_elem_of_fmap_2 fst) in Hin.
Qed.

Lemma dict_In_is_Some (d : list (K * V)) k v : (k, v) ∈ d → is_Some (dict_get d k).
Proof.
  intros Hin%(list_elem_of_fmap_2 fst). destruct (dict_get d k) eqn:Hg; [by eexists|].
  by apply dict_get_None in Hg.
Qed.

Lemma dict_set_elem d k v : (k, v) ∈ dict_set d k v.
Proof. apply dict_get_In, dict_get_set_eq. Qed.

Lemma dict_set_other d k v k' v' : k ≠ k' → (k', v') ∈ d → (k', v') ∈ dict_set d k v.
Proof.
  intros Hk. induction d as [|[k2 v2] d IH]; [by intros ?%elem_of_nil|]. simpl.
  intros [[= -> ->]|Hin]%elem_of_cons.
  - rewrite decide_False by done. left.
  - destruct (decide (k = k2)); [by right|right; by apply IH].
Qed.

Lemma filter_keys_NoDup (p : K * V → bool) (d : list (K * V)) :
  NoDup (dict_keys d) → NoDup (dict_keys (List.filter p d)).
Proof.
  induction d as [|[k v] d IH]; [done|]. unfold dict_keys in *. rewrite fmap_cons. intros [Hn Hnd]%NoDup_cons. simpl.
  destruct (p (k, v)); [|by apply IH]. rewrite fmap_cons. apply NoDup_cons. split; [|by apply IH].
  intros ([k2 v2] & Hk & Hin)%list_elem_of_fmap. simpl in Hk. subst k2.
  apply list_elem_of_In, filter_In in Hin as [Hin _]. apply Hn, list_elem_of_fmap. exists (k, v2).
  split; [done|by apply list_elem_of_In].
Qed.
End PyDict.

(** ** Lists and maps *)

(** [{key(x): x for x in l}]: the last of several elements with one key wins. *)
Definition map_by {A} (key : A → string) (l : list A) : gmap string A :=
  foldl (λ m x, <[key x := x]> m) ∅ l.

Lemma map_by_spec {A} (key : A → string) (l : list A) k x :
  map_by key l !! k = Some x → x ∈ l ∧ key x = k.
Proof.
  unfold map_by. cut (∀ m : gmap string A, foldl (λ m x, <[key x := x]> m) m l !! k = Some x →
    m !! k = Some x ∨ (x ∈ l ∧ key x = k)).
  { intros Hc Hx. by destruct (Hc _ Hx) as [?%lookup_empty_Some|]. }
  induction l as [|y l IH]; simpl; intros m Hx; [by left|].
  destruct (IH _ Hx) as [Hy|[? ?]]; [|right; split; [by right|done]].
  destruct (decide (key y = k)) as [<-|Hne].
  - rewrite lookup_insert_eq in Hy. injection Hy as ->. right. split; [left|done].
  - rewrite lookup_insert_ne in Hy by done. by left.
Qed.


(** [{k: v for k, v in l}]: later entries overwrite earlier ones. *)
Definition dict_of {V} (l : list (string * V)) : gmap string V :=
  foldl (λ m kv, <[kv.1 := kv.2]> m) ∅ l.

Lemma dict_of_spec {V} (l : list (string * V)) k v :
  dict_of l !! k = Some v → (k, v) ∈ l.
Proof.
  unfold dict_of. cut (∀ m : gmap string V, foldl (λ m kv, <[kv.1 := kv.2]> m) m l !! k = Some v →
    m !! k = Some v ∨ (k, v) ∈ l).
  { intros Hc Hx. by destruct (Hc _ Hx) as [?%lookup_empty_Some|]. }
  induction l as [|[k' v'] l IH]; simpl; intros m Hx; [by left|].
  destruct (IH _ Hx) as [Hy|?]; [|right; by right].
  destruct (decide (k' = k)) as [<-|Hne].
  - rewrite lookup_insert_eq in Hy. injection Hy as ->. right. left.
  - rewrite lookup_insert_ne in Hy by done. by left.
Qed.

(** Truthiness of a dict. *)
Definition map_truthy {V} (m : gmap string V) : bool :=
  match map_to_list m with [] => false | _ => true end.

Lemma map_truthy_false {V} (m : gmap string V) : map_truthy m = false ↔ m = ∅.
Proof.
  unfold map_truthy. rewrite <- map_to_list_empty_iff. by destruct (map_to_list m).
Qed.

Lemma elem_of_rev {A} (x : A) (l : list A) : x ∈ rev l ↔ x ∈ l.
Proof. rewrite !list_elem_of_In. symmetry. apply in_rev. Qed.

Lemma existsb_rev {A} (f : A → bool) (l : list A) : existsb f (rev l) = existsb f l.
Proof.
  induction l as [|x l IH]; simpl; [done|].
  rewrite existsb_app, IH; simpl. rewrite orb_false_r. apply orb_comm.
Qed.

Lemma omap_rev {A B} (f : A → option B) (l : list A) : omap f (rev l) = rev (omap f l).
Proof.
  induction l as [|x l IH]; simpl; [done|].
  rewrite omap_app, IH; simpl. destruct (f x); simpl; [done|]. by rewrite app_nil_r.
Qed.

Lemma filter_rev_length {A} (f : A → bool) (l : list A) :
  length (List.filter f (rev l)) = length (List.filter f l).
Proof.
  induction l as [|x l IH]; simpl; [done|].
  rewrite List.filter_app, length_app, IH; simpl. destruct (f x); simpl; lia.
Qed.

Lemma prefix_NoDup {A} (l1 l2 : list A) : l1 `prefix_of` l2 → NoDup l2 → NoDup l1.
Proof. intros [k ->] [? _]%NoDup_app. done. Qed.

(** An invariant of a step relation holds in every state it reaches. *)
Lemma rtc_invariant {A} {R : relation A} (I : A → Prop) x y :
  rtc R x y → (∀ x y, R x y → I x → I y) → I x → I y.
Proof. intros Hr Hs Hx. induction Hr as [|x y z Hxy _ IH]; eauto. Qed.

Lemma string_length_app (s1 s2 : string) :
  String.length (s1 +:+ s2) = (String.length s1 + String.length s2)%nat.
Proof. induction s1 as [|c s1 IH]; simpl; [done|]. by rewrite IH. Qed.

(** Truthiness of a Python string, and small string helpers. *)
Definition nonempty (s : string) : bool := negb (String.eqb s "").

Lemma nonempty_spec s : nonempty s = true ↔ s ≠ "".
Proof. unfold nonempty. rewrite negb_true_iff, String.eqb_neq. done. Qed.

(** Python's order on strings, and [sorted] of a dict's items, whose keys are distinct. *)
Definition str_le (a b : string) : Prop := String.leb a b = true.
Global Instance str_le_dec : RelDecision str_le :=
  λ a b, decide (String.leb a b = true).

Definition item_le {V} (a b : string * V) : Prop := String.leb a.1 b.1 = true.
Global Instance item_le_dec {V} : RelDecision (item_le (V:=V)) :=
  λ a b, decide (String.leb a.1 b.1 = true).

Definition sort_items {V} (l : list (string * V)) : list (string * V) := merge_sort item_le l.

Lemma elem_of_sort_items {V} (l : list (string * V)) x : x ∈ sort_items l ↔ x ∈ l.
Proof. unfold sort_items. by rewrite merge_sort_Permutation. Qed.
