(* ===== verification/Texts.v ===== *)
(** * Python texts

    The [str] methods the agent reads command output with, on ASCII: [strip],
    [split], [splitlines], [partition], [lower], [int] and their inverses. *)

From stdpp Require Import base list strings pretty.
From Stdlib Require Import ZArith Lia Ascii.
From S2P Require Import Prelude.

Local Open Scope Z_scope.

(** ASCII white space, as [str.strip] takes it. *)
Definition is_space (c : ascii) : bool :=
  let n := nat_of_ascii c in
  ((9 <=? n) && (n <=? 13) || (28 <=? n) && (n <=? 32))%nat.

(** [not s.strip()]. *)
Fixpoint blank (s : string) : bool :=
  match s with
  | EmptyString => true
  | String c s' => is_space c && blank s'
  end.

(** [s.lower()] on ASCII letters. *)
Fixpoint str_lower (s : string) : string :=
  match s with
  | EmptyString => EmptyString
  | String c s' =>
      let n := nat_of_ascii c in
      String (if ((65 <=? n) && (n <=? 90))%nat then ascii_of_nat (n + 32) else c) (str_lower s')
  end.

Fixpoint all_chars (p : ascii → bool) (s : string) : bool :=
  match s with EmptyString => true | String c s => p c && all_chars p s end.

Fixpoint some_char (p : ascii → bool) (s : string) : bool :=
  match s with EmptyString => false | String c s => p c || some_char p s end.

(** [c in s] *)
Definition has_char (c : ascii) : string → bool := some_char (Ascii.eqb c).

(** [sub in s] *)
Fixpoint str_contains (sub s : string) : bool :=
  String.prefix sub s || match s with EmptyString => false | String _ s => str_contains sub s end.

(** [s.replace(c, "")] *)
Fixpoint without_char (c : ascii) (s : string) : string :=
  match s with
  | EmptyString => ""
  | String d s => if Ascii.eqb d c then without_char c s else String d (without_char c s)
  end.

(** ** UUIDs *)

Definition hex_digit (c : ascii) : bool :=
  let n := nat_of_ascii c in
  ((48 <=? n) && (n <=? 57) || (97 <=? n) && (n <=? 102) || (65 <=? n) && (n <=? 70))%nat.

(** The 32 hexadecimal digits of [UUID(s)], and [str()] of it. *)
Definition uuid_of_text (s : string) : res string :=
  let hex := str_lower (without_char "-" s) in
  if (String.length hex =? 32)%nat && all_chars hex_digit hex then Ok hex
  else Err (ValueError "badly formed hexadecimal UUID string").

Definition uuid_str (hex : string) : string :=
  String.substring 0 8 hex +:+ "-" +:+ String.substring 8 4 hex +:+ "-" +:+
  String.substring 12 4 hex +:+ "-" +:+ String.substring 16 4 hex +:+ "-" +:+ String.substring 20 12 hex.

(** ** Stripping and splitting *)

Fixpoint lstrip (s : string) : string :=
  match s with String c s' => if is_space c then lstrip s' else s | EmptyString => "" end.

Fixpoint rstrip (s : string) : string :=
  match s with
  | EmptyString => ""
  | String c s => match rstrip s with
                  | EmptyString => if is_space c then "" else String c ""
                  | s => String c s
                  end
  end.

Definition strip (s : string) : string := lstrip (rstrip s).

Fixpoint split_by (p : ascii → bool) (s : string) : list string :=
  match s with
  | EmptyString => [""]
  | String c s =>
      if p c then "" :: split_by p s
      else match split_by p s with
           | part :: parts => String c part :: parts
           | [] => [String c ""]
           end
  end.

(** [s.split(c)] *)
Definition split_on (c : ascii) : string → list string := split_by (λ d, Ascii.eqb d c).

(** [s.split()] *)
Definition words (s : string) : list string := List.filter nonempty (split_by is_space s).

(** [s.partition(c)] without the middle; the second part is [None] when [c] is not there. *)
Fixpoint partition_on (c : ascii) (s : string) : string * option string :=
  match s with
  | EmptyString => ("", None)
  | String d s =>
      if Ascii.eqb d c then ("", Some s)
      else let '(before, after) := partition_on c s in (String d before, after)
  end.

Definition is_newline (c : ascii) : bool :=
  let n := nat_of_ascii c in ((10 <=? n) && (n <=? 13) || (28 <=? n) && (n <=? 30))%nat.

(** [s.splitlines()]; a carriage return and a line feed are one end of line. *)
Fixpoint splitlines (s : string) : list string :=
  match s with
  | EmptyString => []
  | String c s =>
      if is_newline c then
        "" :: match s with
              | String d s' => if Ascii.eqb c "013" && Ascii.eqb d "010" then splitlines s'
                               else splitlines s
              | EmptyString => []
              end
      else match splitlines s with
           | line :: lines => String c line :: lines
           | [] => [String c ""]
           end
  end.

(** ** Numbers *)

Definition is_digit (c : ascii) : bool :=
  let n := nat_of_ascii c in ((48 <=? n) && (n <=? 57))%nat.

Definition digit_value (c : ascii) : Z := Z.of_nat (nat_of_ascii c) - 48.

(** The digits [s] begins with, and the rest. *)
Fixpoint digits_prefix (s : string) : string * string :=
  match s with
  | String c s' => if is_digit c then let '(ds, rest) := digits_prefix s' in (String c ds, rest)
                   else ("", s)
  | EmptyString => ("", "")
  end.

Fixpoint digits_from (acc : Z) (s : string) : Z :=
  match s with EmptyString => acc | String c s => digits_from (10 * acc + digit_value c) s end.

Definition digits_value : string → Z := digits_from 0.

(** Digits, single underscores between them. *)
Fixpoint digit_groups (after_digit : bool) (s : string) : bool :=
  match s with
  | EmptyString => after_digit
  | String c s => if is_digit c then digit_groups true s
                  else Ascii.eqb c "_" && after_digit && digit_groups false s
  end.

(** CPython refuses to read more digits. *)
Definition MAX_STR_DIGITS : Z := 4300.

Definition unsigned_int (text digits : string) : res Z :=
  let ds := without_char "_" digits in
  if negb (digit_groups false digits) || (MAX_STR_DIGITS <? Z.of_nat (String.length ds)) then
    Err (ValueError ("invalid literal for int() with base 10: '" +:+ text +:+ "'"))
  else Ok (digits_value ds).

(** [int(s)] *)
Definition int_of_text (s : string) : res Z :=
  match strip s with
  | String "-" ds => match unsigned_int s ds with Ok n => Ok (- n) | Err e => Err e end
  | String "+" ds => unsigned_int s ds
  | ds => unsigned_int s ds
  end.

(** [s.isdigit()] *)
Definition isdigit (s : string) : bool := nonempty s && all_chars is_digit s.

(** ** Characters *)

Lemma all_chars_app p s t : all_chars p (s +:+ t) = all_chars p s && all_chars p t.
Proof. induction s as [|c s IH]; simpl; [done|]. by rewrite IH, andb_assoc. Qed.

Lemma some_char_app p s t : some_char p (s +:+ t) = some_char p s || some_char p t.
Proof. induction s as [|c s IH]; simpl; [done|]. by rewrite IH, orb_assoc. Qed.

Lemma all_some_char p s : all_chars (λ c, negb (p c)) s = negb (some_char p s).
Proof. induction s as [|c s IH]; simpl; [done|]. by rewrite IH, negb_orb. Qed.

Lemma has_char_app c s t : has_char c (s +:+ t) = has_char c s || has_char c t.
Proof. apply some_char_app. Qed.

Lemma without_char_free c s : has_char c (without_char c s) = false.
Proof.
  induction s as [|d s IH]; simpl; [done|]. destruct (Ascii.eqb_spec d c) as [->|Hd]; [done|].
  unfold has_char in *. simpl. destruct (Ascii.eqb_spec c d) as [->|]; [done|]. apply IH.
Qed.

Lemma without_char_absent c s : has_char c s = false → without_char c s = s.
Proof.
  induction s as [|d s IH]; simpl; [done|]. unfold has_char in *. simpl.
  rewrite orb_false_iff. intros [Hd Hs]. rewrite Ascii.eqb_sym, Hd. by rewrite IH.
Qed.

Lemma has_char_without c d s : has_char c s = false → has_char c (without_char d s) = false.
Proof.
  unfold has_char. induction s as [|x s IH]; simpl; [done|]. rewrite orb_false_iff.
  intros [Hx Hs]. destruct (Ascii.eqb x d); simpl; [auto|]. by rewrite Hx, IH.
Qed.

(** ** Splitting and joining *)

Lemma split_by_nonempty p s : split_by p s ≠ [].
Proof. destruct s as [|c s]; simpl; [done|]. destruct (p c); [done|]. by destruct (split_by p s). Qed.

Lemma split_by_free p s : Forall (λ part, some_char p part = false) (split_by p s).
Proof.
  induction s as [|c s IH]; simpl; [by repeat constructor|]. destruct (p c) eqn:Hc; [by constructor|].
  destruct (split_by p s) as [|part parts]; [by repeat constructor; simpl; rewrite Hc|].
  inversion IH; subst. constructor; [|done]. simpl. by rewrite Hc.
Qed.

Lemma split_by_absent p s : some_char p s = false → split_by p s = [s].
Proof.
  induction s as [|c s IH]; simpl; [done|]. rewrite orb_false_iff. intros [-> Hs]. by rewrite IH.
Qed.

Lemma split_by_cons p s c t :
  some_char p s = false → p c = true → split_by p (s +:+ String c t) = s :: split_by p t.
Proof.
  intros Hs Hc. induction s as [|d s IH]; simpl; [by rewrite Hc|]. simpl in Hs.
  apply orb_false_iff in Hs as [Hd Hs]. rewrite Hd. cbn. change (String.append s (String c t)) with (s +:+ String c t).
  by rewrite IH.
Qed.

Lemma split_on_concat c l :
  l ≠ [] → Forall (λ s, has_char c s = false) l → split_on c (String.concat (String c "") l) = l.
Proof.
  assert (Hsym : ∀ s, has_char c s = false → some_char (λ d, Ascii.eqb d c) s = false).
  { unfold has_char. induction s as [|d s IH]; simpl; [done|]. rewrite Ascii.eqb_sym.
    rewrite !orb_false_iff. intros [? ?]. split; [done|auto]. }
  intros Hne Hl. unfold split_on. induction Hl as [|s l Hs Hl IH]; [done|].
  destruct l as [|t l]; [by apply split_by_absent, Hsym|].
  change (String.concat (String c "") (s :: t :: l))
    with (s +:+ String c (String.concat (String c "") (t :: l))).
  rewrite split_by_cons; [by rewrite IH|by apply Hsym|apply Ascii.eqb_refl].
Qed.

Lemma partition_on_split c s t :
  has_char c s = false → partition_on c (s +:+ String c t) = (s, Some t).
Proof.
  unfold has_char. induction s as [|d s IH]; simpl; [by rewrite Ascii.eqb_refl|].
  rewrite orb_false_iff. intros [Hd Hs]. rewrite Ascii.eqb_sym, Hd.
  change (String.append s (String c t)) with (s +:+ String c t). by rewrite IH.
Qed.

Lemma partition_on_absent c s : has_char c s = false → partition_on c s = (s, None).
Proof.
  unfold has_char. induction s as [|d s IH]; simpl; [done|]. rewrite orb_false_iff.
  intros [Hd Hs]. rewrite Ascii.eqb_sym, Hd. by rewrite IH.
Qed.

(** ** Words *)

Lemma words_free s : Forall (λ w, some_char is_space w = false ∧ nonempty w = true) (words s).
Proof.
  apply Forall_forall. intros w Hw. apply list_elem_of_In, filter_In in Hw as [Hw Hn].
  split; [|done]. apply list_elem_of_In in Hw. by apply (proj1 (Forall_forall _ _) (split_by_free is_space s)).
Qed.

Lemma space_is_space : is_space " " = true.
Proof. done. Qed.

Lemma words_join l :
  Forall (λ w, some_char is_space w = false ∧ nonempty w = true) l → words (String.concat " " l) = l.
Proof.
  induction 1 as [|w l [Hw Hn] Hl IH]; [done|]. destruct l as [|w' l].
  - unfold words. simpl. rewrite split_by_absent by done. simpl. by rewrite Hn.
  - change (String.concat " " (w :: w' :: l)) with (w +:+ String " " (String.concat " " (w' :: l))).
    unfold words in *. rewrite split_by_cons by done. cbn [List.filter]. by rewrite Hn, IH.
Qed.

Lemma some_char_concat p sep l :
  some_char p sep = false → Forall (λ s, some_char p s = false) l → some_char p (String.concat sep l) = false.
Proof.
  intros Hsep. induction 1 as [|s l Hs Hl IH]; [done|]. destruct l as [|t l]; [done|].
  change (String.concat sep (s :: t :: l)) with (s +:+ sep +:+ String.concat sep (t :: l)).
  by rewrite !some_char_app, Hs, Hsep, IH.
Qed.

(** ** Lines *)

Lemma splitlines_single s : some_char is_newline s = false → s ≠ "" → splitlines s = [s].
Proof.
  induction s as [|c s IH]; [done|]. simpl. rewrite orb_false_iff. intros [-> Hs] _.
  destruct (decide (s = "")) as [->|Hne]; [done|]. by rewrite IH.
Qed.

Lemma splitlines_free s : Forall (λ line, some_char is_newline line = false) (splitlines s).
Proof.
  cut (∀ n s, (String.length s ≤ n)%nat → Forall (λ line, some_char is_newline line = false) (splitlines s)).
  { intros Hc. by apply (Hc (String.length s)). }
  clear s. induction n as [|n IH]; intros s Hn; destruct s as [|c s]; simpl in *; try constructor; try lia.
  destruct (is_newline c) eqn:Hc.
  - constructor; [done|]. destruct s as [|d s]; [constructor|]. simpl in Hn.
    destruct (_ && _); apply IH; simpl; lia.
  - specialize (IH s ltac:(lia)). destruct (splitlines s); repeat constructor; simpl; rewrite ?Hc; try done;
      by inversion IH.
Qed.

(** ** Numbers in texts *)

Lemma pretty_digit x : (x < 10)%N →
  is_digit (pretty_N_char x) = true ∧ digit_value (pretty_N_char x) = Z.of_N x.
Proof.
  intros Hx. destruct x as [|p]; [done|].
  do 4 (destruct p as [p|p|]; try done; try lia).
Qed.

Lemma digits_from_go x s : digits_from 0 (pretty_N_go x s) = digits_from (Z.of_N x) s.
Proof.
  revert s. induction (N.lt_wf_0 x) as [x _ IH]; intros s.
  destruct (decide (x = 0)%N) as [->|Hx]; [done|]. rewrite pretty_N_go_step by lia.
  rewrite IH by (apply N.div_lt; lia). simpl.
  destruct (pretty_digit (x `mod` 10)%N) as [_ ->]; [apply N.mod_lt; lia|].
  f_equal. rewrite N2Z.inj_div, N2Z.inj_mod. pose proof (Z.div_mod (Z.of_N x) 10). simpl. lia.
Qed.

Lemma digits_go x s : all_chars is_digit s = true → all_chars is_digit (pretty_N_go x s) = true.
Proof.
  revert s. induction (N.lt_wf_0 x) as [x _ IH]; intros s Hs.
  destruct (decide (x = 0)%N) as [->|Hx]; [done|]. rewrite pretty_N_go_step by lia.
  apply IH; [apply N.div_lt; lia|]. simpl.
  destruct (pretty_digit (x `mod` 10)%N) as [-> _]; [apply N.mod_lt; lia|done].
Qed.

Lemma digits_value_pretty z : 0 ≤ z → digits_value (pretty z) = z.
Proof.
  intros Hz. destruct z as [|p|p]; [done| |lia]. unfold digits_value.
  change (pretty (Zpos p)) with (pretty_N_go (Npos p) ""). by rewrite digits_from_go.
Qed.

Lemma digits_pretty z : 0 ≤ z → all_chars is_digit (pretty z) = true.
Proof.
  intros Hz. destruct z as [|p|p]; [done| |lia].
  change (pretty (Zpos p)) with (pretty_N_go (Npos p) ""). by apply digits_go.
Qed.

Lemma pretty_Z_nonempty (z : Z) : pretty z ≠ "".
Proof.
  destruct z as [|p|p]; [done| |done]. intros He. pose proof (digits_value_pretty (Zpos p) ltac:(lia)) as Hv.
  rewrite He in Hv. by vm_compute in Hv.
Qed.

Lemma digits_prefix_spec s t :
  all_chars is_digit s = true → match t with String c _ => is_digit c = false | _ => True end →
  digits_prefix (s +:+ t) = (s, t).
Proof.
  intros Hs Ht. induction s as [|c s IH]; simpl.
  - destruct t as [|c t]; [done|]. simpl. by rewrite Ht.
  - simpl in Hs. apply andb_true_iff in Hs as [-> Hs].
    change (String.append s t) with (s +:+ t). by rewrite IH.
Qed.

(** Digits are none of the characters the formats are made of. *)
Lemma digits_without p s :
  all_chars is_digit s = true → (∀ c, is_digit c = true → p c = false) → some_char p s = false.
Proof.
  intros Hs Hp. induction s as [|c s IH]; [done|]. simpl in *. apply andb_true_iff in Hs as [Hc Hs].
  by rewrite Hp, IH.
Qed.

Lemma digit_neq c d : is_digit c = true → is_digit d = false → Ascii.eqb d c = false.
Proof. intros Hc Hd. apply Ascii.eqb_neq. congruence. Qed.

Lemma lstrip_id s : some_char is_space s = false → lstrip s = s.
Proof. destruct s as [|c s]; simpl; [done|]. rewrite orb_false_iff. by intros [-> _]. Qed.

Lemma rstrip_id s : some_char is_space s = false → rstrip s = s.
Proof.
  induction s as [|c s IH]; simpl; [done|]. rewrite orb_false_iff. intros [Hc Hs].
  rewrite IH by done. rewrite Hc. by destruct s.
Qed.

Lemma strip_id s : some_char is_space s = false → strip s = s.
Proof. intros Hs. unfold strip. by rewrite rstrip_id, lstrip_id. Qed.

Lemma digit_groups_digits b s : all_chars is_digit s = true → b = true ∨ nonempty s = true → digit_groups b s = true.
Proof.
  revert b. induction s as [|c s IH]; intros b Hs Hb; simpl in *.
  - by destruct Hb.
  - apply andb_true_iff in Hs as [-> Hs]. apply IH; [done|by left].
Qed.

Lemma int_of_digits s :
  all_chars is_digit s = true → nonempty s = true → Z.of_nat (String.length s) ≤ MAX_STR_DIGITS →
  int_of_text s = Ok (digits_value s).
Proof.
  intros Hs Hn Hl. assert (Hu : unsigned_int s s = Ok (digits_value s)).
  { unfold unsigned_int. rewrite digit_groups_digits by auto.
    rewrite without_char_absent.
    - replace (MAX_STR_DIGITS <? _) with false by (symmetry; by apply Z.ltb_ge). done.
    - apply digits_without; [done|]. intros c Hc. by apply digit_neq. }
  unfold int_of_text. rewrite strip_id.
  - destruct s as [|c s]; [done|]. simpl in Hs. apply andb_true_iff in Hs as [Hc _].
    destruct c as [[] [] [] [] [] [] [] []]; try exact Hu; done.
  - apply digits_without; [done|]. intros c Hc. unfold is_digit, is_space in *.
    apply andb_true_iff in Hc as [?%Nat.leb_le ?%Nat.leb_le].
    apply orb_false_iff. split; apply andb_false_iff; right; apply Nat.leb_gt; lia.
Qed.

Lemma int_of_pretty z :
  0 ≤ z → Z.of_nat (String.length (pretty z)) ≤ MAX_STR_DIGITS → int_of_text (pretty z) = Ok z.
Proof.
  intros Hz Hl. rewrite int_of_digits; [by rewrite digits_value_pretty|by apply digits_pretty| |done].
  pose proof (pretty_Z_nonempty z). by destruct (pretty z).
Qed.

Lemma pretty_Z_neg p : pretty (Zneg p) = "-" +:+ pretty (Zpos p).
Proof. reflexivity. Qed.

Lemma unsigned_int_Ok text ds n : unsigned_int text ds = Ok n → all_chars is_digit ds = true → n = digits_value ds.
Proof.
  unfold unsigned_int. intros Hu Hds. rewrite without_char_absent in Hu.
  - destruct (negb _ || _); [done|congruence].
  - apply digits_without; [done|]. intros c Hc. by apply digit_neq.
Qed.

Lemma digits_no_space s : all_chars is_digit s = true → some_char is_space s = false.
Proof.
  intros Hs. apply digits_without; [done|]. intros c Hc. unfold is_digit, is_space in *.
  apply andb_true_iff in Hc as [?%Nat.leb_le ?%Nat.leb_le].
  apply orb_false_iff. split; apply andb_false_iff; right; apply Nat.leb_gt; lia.
Qed.

(** What [int] reads in the digits of a number is the number. *)
Lemma int_of_pretty_Ok z n : int_of_text (pretty z) = Ok n → n = z.
Proof.
  assert (Hp : ∀ p, all_chars is_digit (pretty (Zpos p)) = true ∧ digits_value (pretty (Zpos p)) = Zpos p).
  { intros p. split; [by apply digits_pretty|by apply digits_value_pretty]. }
  unfold int_of_text. destruct z as [|p|p].
  - vm_compute. congruence.
  - destruct (Hp p) as [Hd Hv]. rewrite strip_id by by apply digits_no_space.
    assert (Hu : ∀ s, unsigned_int s (pretty (Zpos p)) = Ok n → n = Zpos p).
    { intros s Hs%unsigned_int_Ok; [by rewrite Hs|done]. }
    destruct (pretty (Zpos p)) as [|c s] eqn:Hs; [apply Hu|].
    simpl in Hd. apply andb_true_iff in Hd as [Hc _].
    destruct c as [[] [] [] [] [] [] [] []]; try apply Hu; done.
  - destruct (Hp p) as [Hd Hv]. rewrite pretty_Z_neg, strip_id.
    + change (String.append "-" (pretty (Zpos p))) with (String "-" (pretty (Zpos p))). cbv beta iota.
      destruct (unsigned_int _ _) as [m|] eqn:Hm; [|done].
      apply unsigned_int_Ok in Hm; [|exact Hd].
      intros [= <-]. rewrite Hv in Hm. lia.
    + simpl. by apply digits_no_space.
Qed.
