(* ===== verification/Structures.v ===== *)
(** * Data the agent exchanges with Waldur and with its backends

    The enums and generated models of the Waldur API client are outside the
    repository: each type here carries exactly the members and fields the agent
    reads, and an [Other] member for the enum values it never names.
    [BackendResourceInfo] is [backend/structures.py]; the enums of
    [backend/backends.py] and the offering settings of [common/structures.py]
    are here as well. *)

From stdpp Require Import base list strings gmap.
From Stdlib Require Import ZArith SpecFloat.
From S2P Require Import Prelude.

(** ** JSON values and optional fields *)

Inductive json : Type :=
| JNull
| JBool (b : bool)
| JInt (z : Z)
| JFloat (f : spec_float)
| JStr (s : string)
| JArr (l : list json)
| JObj (l : list (string * json)).

(** Python truthiness of a JSON value. *)
Definition truthy (v : json) : bool :=
  match v with
  | JNull => false
  | JBool b => b
  | JInt z => negb (Z.eqb z 0)
  | JFloat (S754_zero _) => false
  | JFloat _ => true
  | JStr s => nonempty s
  | JArr l => match l with [] => false | _ => true end
  | JObj l => match l with [] => false | _ => true end
  end.

(** A finite number as [m * 2 ^ e]. *)
Definition number (v : json) : option (Z * Z) :=
  match v with
  | JBool b => Some (if b then 1 else 0, 0)%Z
  | JInt z => Some (z, 0)%Z
  | JFloat (S754_zero _) => Some (0, 0)%Z
  | JFloat (S754_finite s m e) => Some ((if s then Zneg m else Zpos m), e)
  | _ => None
  end.

Definition number_eqb (x y : Z * Z) : bool :=
  let e := Z.min x.2 y.2 in
  Z.eqb (Z.shiftl x.1 (x.2 - e)) (Z.shiftl y.1 (y.2 - e)).

Fixpoint obj_get (l : list (string * json)) (key : string) : option json :=
  match l with
  | [] => None
  | (k, v) :: l' => if String.eqb k key then Some v else obj_get l' key
  end.

(** Python's [==] on JSON values: numbers compare by value whatever their type,
    objects whatever the order of their keys. *)
Fixpoint json_eqb (a b : json) : bool :=
  match a, b with
  | JNull, JNull => true
  | JStr s, JStr s' => String.eqb s s'
  | JArr l, JArr l' =>
      (fix go (l l' : list json) : bool :=
         match l, l' with
         | [], [] => true
         | x :: l, y :: l' => json_eqb x y && go l l'
         | _, _ => false
         end) l l'
  | JObj d, JObj d' =>
      Nat.eqb (length d) (length d') &&
      (fix go (d : list (string * json)) : bool :=
         match d with
         | [] => true
         | (k, x) :: d => match obj_get d' k with
                          | Some y => json_eqb x y && go d
                          | None => false
                          end
         end) d
  | JFloat (S754_infinity s), JFloat (S754_infinity s') => Bool.eqb s s'
  | _, _ => match number a, number b with
            | Some x, Some y => number_eqb x y
            | _, _ => false
            end
  end.

Definition metadata_eqb (m m' : gmap string json) : bool :=
  json_eqb (JObj (map_to_list m)) (JObj (map_to_list m')).

(** [settings.get(key, default)] on a JSON object. *)
Definition json_get (d : gmap string json) (key : string) (default : json) : json :=
  from_option id default (d !! key).

Definition json_str (v : json) (default : string) : string :=
  match v with JStr s => s | _ => default end.

(** A field of a generated model: absent ([UNSET]), null, or a value. *)
Inductive field (A : Type) : Type :=
| Unset
| Null
| Val (a : A).
Arguments Unset {A}.
Arguments Null {A}.
Arguments Val {A} a.

(** The field as the agent uses an identifier: a non-empty string or nothing. *)
Definition field_str (f : field string) : option string :=
  match f with
  | Val s => if nonempty s then Some s else None
  | _ => None
  end.

Global Instance field_eq_dec {A} `{EqDecision A} : EqDecision (field A).
Proof. solve_decision. Defined.

Definition field_value {A} (f : field A) : option A :=
  match f with Val a => Some a | _ => None end.

(** [datetime.date]. *)
Record date : Type := { d_year : Z; d_month : Z; d_day : Z }.
Global Instance date_eq_dec : EqDecision date.
Proof. solve_decision. Defined.

(** ** Enums *)

Module OrderState.
Inductive t : Type :=
| PENDING_PROVIDER | EXECUTING | DONE | ERRED | CANCELED | REJECTED
| PENDING_CONSUMER | PENDING_PROJECT | PENDING_START_DATE
| Other (name : string).
Global Instance eq_dec : EqDecision t.
Proof. solve_decision. Defined.
End OrderState.

Module RequestTypes.
Inductive t : Type := CREATE | UPDATE | TERMINATE | RESTORE | Other (name : string).
Global Instance eq_dec : EqDecision t.
Proof. solve_decision. Defined.
End RequestTypes.

Module ResourceState.
Inductive t : Type :=
| OK | ERRED | CREATING | UPDATING | TERMINATING | TERMINATED
| Other (name : string).
Global Instance eq_dec : EqDecision t.
Proof. solve_decision. Defined.
End ResourceState.

(** [UNSET] stands for a field that was not requested, which is falsy. *)
Module OfferingUserState.
Inductive t : Type :=
| UNSET
| OK | REQUESTED | CREATING | ERROR_CREATING
| PENDING_ACCOUNT_LINKING | PENDING_ADDITIONAL_VALIDATION
| REQUESTED_DELETION | DELETING | ERROR_DELETING | DELETED
| Other (name : string).
Global Instance eq_dec : EqDecision t.
Proof. solve_decision. Defined.
End OfferingUserState.

Module ServiceAccountState.
Inductive t : Type := OK | CLOSED | Other (name : string).
Global Instance eq_dec : EqDecision t.
Proof. solve_decision. Defined.
End ServiceAccountState.

Module ResourceApiKeyState.
Inductive t : Type := CREATING | OK | UPDATING | DELETING | DELETED | Other (name : string).
Global Instance eq_dec : EqDecision t.
Proof. solve_decision. Defined.
End ResourceApiKeyState.

(** [backend/backends.py]: [PendingOrderDecision]. *)
Inductive PendingOrderDecision : Type := ACCEPT | REJECT | PENDING.

(** [common/structures.py]: [AccountType]. *)
Inductive AccountType : Type := SERVICE_ACCOUNT | COURSE_ACCOUNT.

(** ** Records *)

Record Order : Type := {
  order_uuid : string;
  order_type : RequestTypes.t;
  order_state : OrderState.t;
  order_backend_id : string;
  order_resource_uuid : string;
  order_resource_name : string;
  order_limits : option (gmap string Z);
  order_plan_uuid : string;
  order_project_slug : string;
}.

Record WaldurResource : Type := {
  res_uuid : string;
  res_name : string;
  res_slug : string;
  res_backend_id : string;
  res_state : ResourceState.t;
  res_project_uuid : string;
  res_project_slug : string;
  res_plan_uuid : string;
  res_offering_uuid : string;
  res_restrict_member_access : bool;
  res_paused : bool;
  res_downscaled : bool;
  res_limits : option (gmap string Z);
  res_backend_metadata : field (gmap string json);
  res_spending_limits : field json;
  (* offering_plugin_options, by name *)
  res_plugin_options : gmap string json;
  res_project_name : field string;
  res_customer_slug : field string;
  res_customer_name : field string;
  (* the date of [created], and [end_date] *)
  res_created : field date;
  res_end_date : field date;
  (* the additional properties of [attributes], when it has any *)
  res_attributes : option (list (string * json));
}.

Definition with_backend_id (r : WaldurResource) (b : string) : WaldurResource :=
  {| res_uuid := res_uuid r; res_name := res_name r; res_slug := res_slug r;
     res_backend_id := b; res_state := res_state r;
     res_project_uuid := res_project_uuid r; res_project_slug := res_project_slug r;
     res_plan_uuid := res_plan_uuid r; res_offering_uuid := res_offering_uuid r;
     res_restrict_member_access := res_restrict_member_access r;
     res_paused := res_paused r; res_downscaled := res_downscaled r;
     res_limits := res_limits r; res_backend_metadata := res_backend_metadata r;
     res_spending_limits := res_spending_limits r;
     res_plugin_options := res_plugin_options r; res_project_name := res_project_name r;
     res_customer_slug := res_customer_slug r; res_customer_name := res_customer_name r;
     res_created := res_created r; res_end_date := res_end_date r;
     res_attributes := res_attributes r |}.

Definition with_limits (r : WaldurResource) (l : option (gmap string Z)) : WaldurResource :=
  {| res_uuid := res_uuid r; res_name := res_name r; res_slug := res_slug r;
     res_backend_id := res_backend_id r; res_state := res_state r;
     res_project_uuid := res_project_uuid r; res_project_slug := res_project_slug r;
     res_plan_uuid := res_plan_uuid r; res_offering_uuid := res_offering_uuid r;
     res_restrict_member_access := res_restrict_member_access r;
     res_paused := res_paused r; res_downscaled := res_downscaled r;
     res_limits := l; res_backend_metadata := res_backend_metadata r;
     res_spending_limits := res_spending_limits r;
     res_plugin_options := res_plugin_options r; res_project_name := res_project_name r;
     res_customer_slug := res_customer_slug r; res_customer_name := res_customer_name r;
     res_created := res_created r; res_end_date := res_end_date r;
     res_attributes := res_attributes r |}.

(** Limits per component and period: [{component: {period: amount}}]. *)
Abbreviation spending := (gmap string (gmap string spec_float)).

(** A component's usage is a Python float: an IEEE binary64 value. *)
Abbreviation usage := (list (string * list (string * spec_float))).

(** [backend/structures.py]: [BackendResourceInfo]. *)
Record BackendResourceInfo : Type := {
  info_backend_id : string;
  info_parent_id : string;
  info_effective_id : string;
  info_users : list string;
  info_usage : usage;
  info_limits : gmap string Z;
  info_pending_order_id : string;
  info_backend_metadata : gmap string json;
  info_endpoints : list (string * string);
}.

(** [BackendResourceInfo()] with its defaults. *)
Definition empty_info : BackendResourceInfo :=
  {| info_backend_id := ""; info_parent_id := ""; info_effective_id := ""; info_users := [];
     info_usage := []; info_limits := ∅; info_pending_order_id := "";
     info_backend_metadata := ∅; info_endpoints := [] |}.

(** An optional profile attribute: a date, an enum member, or a plain value. *)
Inductive attr_value : Type :=
| AttrDate (isoformat : string)
| AttrEnum (value : json)
| AttrPlain (value : json).

Record OfferingUser : Type := {
  ou_uuid : string;
  ou_username : string;               (* "" when Waldur holds none *)
  ou_user_username : field string;    (* the CUID *)
  ou_user_uuid : string;
  ou_user_email : field string;
  ou_state : OfferingUserState.t;
  ou_url : string;
  ou_attributes : gmap string attr_value;  (* [user_<name>] fields that are set *)
}.

Definition with_username (u : OfferingUser) (n : string) : OfferingUser :=
  {| ou_uuid := ou_uuid u; ou_username := n; ou_user_username := ou_user_username u;
     ou_user_uuid := ou_user_uuid u; ou_user_email := ou_user_email u;
     ou_state := ou_state u; ou_url := ou_url u; ou_attributes := ou_attributes u |}.

Record ProjectUser : Type := {
  pu_uuid : string;
  pu_username : string;
  pu_offering_user_username : string;
  pu_role : string;
}.

(** [ProjectServiceAccount] and [CourseAccount]: the agent reads the same fields. *)
Record Account : Type := {
  acc_username : string;
  acc_project_uuid : string;          (* "" when the account has no project *)
  acc_state : ServiceAccountState.t;
}.

(** [common/structures.py]: the settings of an offering the processors read. *)
Record Offering : Type := {
  off_uuid : string;
  off_name : string;
  off_backend_settings : gmap string json;
  off_username_management_backend : option string;
  off_username_reconciliation_enabled : bool;
  off_preserve_unmanaged_backend_users : bool;
  off_omit_anomalous_usage_components : bool;
  off_order_processing_backend : option string;
  off_membership_sync_backend : option string;
  off_reporting_backend : option string;
  off_stomp_enabled : bool;
  off_stomp_membership_sync_enabled : option bool;
  off_resource_import_enabled : bool;
}.
