(* ===== verification/Agent.v ===== *)
(** * The calls the agent makes

    The signatures of the outside world of the processors.  [waldurE] is the
    Waldur REST API as the generated client exposes it (one constructor per
    endpoint the agent calls, with the filters that matter); [backendE] is the
    method table of [backend/backends.py: BaseBackend], which every resource
    backend plugin overrides; [usernameE] is that of
    [AbstractUsernameManagementBackend].  Any of these calls can raise any
    exception.  [sync_detailed] endpoints answer an HTTP status. *)

From stdpp Require Import base list strings gmap.
From Stdlib Require Import ZArith SpecFloat.
From S2P Require Import Prelude.
From S2P Require Import Structures.

Record plugin_options : Type := {
  po_service_provider_policy : bool;   (* username_generation_policy is service_provider *)
  po_service_provider_can_create : field bool;
}.

(** What the pass over resources hands the backend beside the usernames. *)
Record user_kwargs : Type := {
  kw_homedir_umask : option json;
  kw_user_roles : gmap string string;
  kw_user_emails : gmap string string;
  kw_user_cuids : gmap string string;
  kw_user_attributes : gmap string (gmap string json);
  kw_user_states : gmap string OfferingUserState.t;
}.

Definition no_kwargs : user_kwargs :=
  {| kw_homedir_umask := None; kw_user_roles := ∅; kw_user_emails := ∅;
     kw_user_cuids := ∅; kw_user_attributes := ∅; kw_user_states := ∅ |}.

(** What an order hands resource creation. *)
Record user_context : Type := {
  ctx_team : list ProjectUser;
  ctx_offering_users : list OfferingUser;
  ctx_user_mappings : gmap string ProjectUser;
  ctx_offering_user_mappings : gmap string OfferingUser;
  ctx_plan_quotas : option (gmap string Z);
  ctx_ssh_keys : option (gmap string string);
}.

(** What [remove_users_from_resource] of an arbitrary backend hands back. *)
Inductive removed_users : Type :=
| RemovedNames (names : list string)
| RemovedNone
| RemovedText (s : string)
| RemovedOpaque.

Record project_info : Type := { prj_uuid : string; prj_data : json }.

(** One row of the API key listing. *)
Record ApiKeyRow : Type := {
  key_uuid : string;
  key_resource_uuid : string;
  key_resource_backend_id : string;
  key_client_id : field string;
  key_state : ResourceApiKeyState.t;
  key_user_uuid : field string;
  key_pending_action : string;
  key_limits : option (gmap string json);
  key_effective_models : field (option (list string));
  key_allowed_models : option (list string);
  key_spending_limits : field json;
}.

(** The settings a key command hands the backend as keyword arguments: a
    keyword that is not passed is [None]. *)
Record key_settings : Type := {
  ks_limits : option (option (gmap string json));
  ks_allowed_models : option (option (list string));
  ks_spending_limits : option (option spending);
  ks_resource_limits : option (option (gmap string Z));
  ks_resource_spending_limits : option (option spending);
}.

(** A rotated key: just the new secret, both halves, or anything else. *)
Inductive rotated_key : Type :=
| RotatedSecret (api_key : string)
| RotatedDict (api_key client_id : option string)
| RotatedOther (type_name : string).

Inductive waldurE : Type → Type :=
(* marketplace orders *)
| OrdersList (states : list OrderState.t) : waldurE (list Order)
| OrderRetrieve (uuid : string) : waldurE (option Order)
| OrderRetrieveState (uuid : string) : waldurE (option OrderState.t)
| OrderApprove (uuid : string) : waldurE Z
| OrderRejectByProvider (uuid : string) : waldurE Z
| OrderSetDone (uuid : string) : waldurE Z
| OrderSetErred (uuid message traceback : string) : waldurE Z
| OrderSetBackendId (uuid backend_id : string) : waldurE unit
(* provider resources *)
| ResourcesList (states : list ResourceState.t) (project_uuid : option string)
    : waldurE (list WaldurResource)
| ProjectResourcesList (project_uuid : string) (states : list ResourceState.t)
    : waldurE (list string)
| ResourceRetrieve (uuid : string) : waldurE WaldurResource
| ResourceSetBackendId (uuid backend_id : string) : waldurE unit
| ResourceSetLimits (uuid : string) (limits : gmap string Z) : waldurE unit
| ResourceSetBackendMetadata (uuid : string) (metadata : gmap string json) : waldurE unit
| ResourceSetEndpoints (uuid : string) (endpoints : list (string * string)) : waldurE unit
| ResourceSetErred (uuid message traceback : string) : waldurE Z
| ResourceSetOk (uuid : string) : waldurE Z
| ResourceRefreshLastSync (uuid : string) : waldurE Z

| ResourceTeamList (uuid : string) (has_consent : option bool) : waldurE (list ProjectUser)
| ResourceSetMembershipSyncStatuses (uuid : string) (report : json) : waldurE Z
| ComponentUserUsageLimitsList (resource_uuid : string)
    : waldurE (list (string * string * spec_float))
(* offerings, providers, plans, projects *)
| PlanRetrieve (uuid : string) : waldurE (option (gmap string Z))
| ProviderKeysList : waldurE (list (string * string))
| ProviderProjectsList (query : string) : waldurE (list project_info)
| CheckUniqueBackendId (backend_id : string) (all_offerings : json) : waldurE bool
| OfferingPluginOptions : waldurE plugin_options
| UserAttributeConfig : waldurE (list string)
| ServiceAccountsList : waldurE (list Account)
| CourseAccountsList : waldurE (list Account)
(* offering users *)
| OfferingUsersList (fields : list string) : waldurE (list OfferingUser)
| OfferingUsersAll : waldurE (list OfferingUser)
| OfferingUsernamesAll : waldurE (list string)
| OfferingUsersInStates (states : list OfferingUserState.t) : waldurE (list OfferingUser)
| OfferingUsersOfUser (user_uuid : string) (offering_uuid : option string)
    : waldurE (list OfferingUser)
| OfferingUserBeginCreating (uuid : string) : waldurE Z
| OfferingUserSetErrorCreating (uuid : string) : waldurE Z
| OfferingUserSetPendingAccountLinking (uuid comment : string) (url : option string) : waldurE Z
| OfferingUserSetPendingValidation (uuid comment : string) (url : option string) : waldurE Z
| OfferingUserSetValidationComplete (uuid : string) : waldurE Z
| OfferingUserSetUsername (uuid username : string) : waldurE unit
| OfferingUserSetDeleting (uuid : string) : waldurE Z
| OfferingUserSetDeleted (uuid : string) : waldurE Z
| OfferingUserSetErrorDeleting (uuid : string) : waldurE Z
(* resource API keys *)
| ApiKeysList (resource_uuid : string) : waldurE (list ApiKeyRow)
| ApiKeysListAllStates (resource_uuid : string) : waldurE (list ApiKeyRow)
| ApiKeysListPending (offering_uuid : string) (states : list ResourceApiKeyState.t)
    (modified_before : option Z) : waldurE (list ApiKeyRow)
| ApiKeyRetrieve (uuid : string) : waldurE ApiKeyRow
| ApiKeyReportCreated (resource_uuid client_id api_key : string) : waldurE unit
| ApiKeySetKey (uuid api_key : string) (client_id : option string) : waldurE unit
| ApiKeySetErred (uuid message : string) : waldurE unit
| ApiKeySetPaused (uuid : string) : waldurE unit
| ApiKeySetOk (uuid : string) : waldurE unit
| ApiKeySetDeleted (uuid : string) : waldurE unit.

Inductive backendE : Type → Type :=
| RunPreflight : backendE unit
| EvaluatePendingOrder (o : Order) : backendE PendingOrderDecision
| CheckPendingOrder (order_backend_id : string) : backendE bool
| GetResourceBackendId (slug : string) : backendE string
| CreateResourceWithId (r : WaldurResource) (backend_id : string) (ctx : user_context)
    : backendE (option BackendResourceInfo)
| PullResource (r : WaldurResource) : backendE (option BackendResourceInfo)
| PullResources (rs : list WaldurResource) (include_usage strict : bool)
    : backendE (list (string * (WaldurResource * BackendResourceInfo)))
| RecreateMissingResource (r : WaldurResource) : backendE bool
| SetupResourceLimits (backend_id : string) (r : WaldurResource) : backendE (gmap string Z)
| SetResourceLimits (backend_id : string) (limits : gmap string Z) : backendE (option string)
| GetResourceLimits (backend_id : string) : backendE (gmap string Z)
| HasPrepaidComponents : backendE bool
| DeleteResource (r : WaldurResource) (project_slug : string) : backendE (option string)
| AddUsersToResource (r : WaldurResource) (users : gset string) (kw : user_kwargs)
    : backendE (gset string)
| RemoveUsersFromResource (r : WaldurResource) (users : gset string) (kw : user_kwargs)
    : backendE removed_users
| AddUser (r : WaldurResource) (username role_name : string) (cuid : option string)
    : backendE bool
| RemoveUser (r : WaldurResource) (username role_name : string) (cuid : option string)
    : backendE bool
| ProcessExistingUsers (users : gset string) : backendE unit
| ReconcileExistingUserRoles (r : WaldurResource) (users : gset string)
    (roles cuids : gmap string string) : backendE unit
| PauseResource (backend_id : string) : backendE bool
| DownscaleResource (backend_id : string) : backendE bool
| RestoreResource (backend_id : string) : backendE bool
| GetResourceMetadata (backend_id : string) : backendE (gmap string json)
| GetResourceUserLimits (backend_id : string) : backendE (gmap string (gmap string Z))
| SetResourceUserLimits (backend_id username : string) (limits : gmap string Z) : backendE unit
| SyncResourceProject (r : WaldurResource) (project : option project_info) : backendE unit
| SyncProjectEndDate (r : WaldurResource) (project : option project_info) : backendE unit
| SyncResourceEndDate (r : WaldurResource) : backendE unit
| SyncResourceEffectiveId (r : WaldurResource) : backendE unit
| SyncResourceLimits (r : WaldurResource) : backendE unit
| SyncOfferingUserUsernames (offering_uuid : string) : backendE bool
| RemoteWaldurBaseUrls : backendE (list string)
| GetMembershipSyncReport (r : WaldurResource) : backendE (option json)
(* API keys *)
| SyncResourceKeyAssignees (r : WaldurResource) (assignments : gmap string (option string))
    : backendE unit
| PruneUnknownResourceKeys (backend_id : string) (keep : list string) : backendE unit
(* the iterator over the new keys is lazy: its length, then one call per key *)
| GenerateResourceKeys (backend_id : string) (count : nat) : backendE nat
| NextResourceKey (backend_id : string) : backendE (string * string)
| MintResourceKey (backend_id : string) (reserved : list string) (settings : key_settings)
    : backendE (string * string)
| PauseResourceKey (client_id backend_id : string) : backendE unit
| ResumeResourceKey (client_id backend_id : string) (settings : key_settings) : backendE unit
| UpdateResourceKey (client_id backend_id : string) (settings : key_settings) : backendE unit
| DeleteResourceKey (client_id backend_id : string) : backendE unit
| RotateResourceKey (client_id backend_id : string) (known : option (list string))
    (settings : option key_settings) : backendE rotated_key.

Inductive usernameE : Type → Type :=
| ResolveUsernameBackend : usernameE unit
| GetUsername (u : OfferingUser) : usernameE (option string)
| GenerateUsername (u : OfferingUser) : usernameE string
| SyncUserProfiles (us : list OfferingUser) : usernameE unit
| ReconcileOffering : usernameE unit
| ReleaseUsers (us : list OfferingUser) : usernameE unit.

Inductive agentE : Type → Type :=
| Waldur {X} (c : waldurE X) : agentE X
| Backend {X} (c : backendE X) : agentE X
| Username {X} (c : usernameE X) : agentE X
| Sleep (seconds : Z) : agentE unit
| TouchHeartbeat : agentE unit
| Monotonic : agentE Z.

(** The capability flags of the resource backend ([BaseBackend] class
    attributes), and what the username backend of the offering is. *)
Record capabilities : Type := {
  supports_cycle_preflight : bool;
  supports_async_orders : bool;
  supports_resource_api_keys : bool;
  supports_resource_api_key_lifecycle : bool;
  supports_spending_limit_periods : bool;
  requires_source_project : bool;
  requires_resource_key_assignees : bool;
  shared_project_membership : bool;
  skip_resource_team_diff : bool;
  identity_bridge : bool;            (* user_resolve_method == "identity_bridge" *)
  fetch_consented_users_only : bool;
  team_fetch_attempts : nat;
  team_fetch_delay : Z;
  handled_resource_states : list ResourceState.t;
}.

(** The defaults of [BaseBackend]. *)
Definition base_capabilities : capabilities :=
  {| supports_cycle_preflight := false; supports_async_orders := false;
     supports_resource_api_keys := false; supports_resource_api_key_lifecycle := false;
     supports_spending_limit_periods := false; requires_source_project := false;
     requires_resource_key_assignees := false; shared_project_membership := false;
     skip_resource_team_diff := false; identity_bridge := false;
     fetch_consented_users_only := false; team_fetch_attempts := 1; team_fetch_delay := 3;
     handled_resource_states := [ResourceState.OK; ResourceState.ERRED] |}.

(** The username backend an offering resolves to. *)
Inductive username_backend : Type :=
| UnknownUsernameBackend
| KnownUsernameBackend (authoritative releases reconciles : bool).

(** A parsed URL: scheme, host, port and path. *)
Record url : Type := {
  url_scheme : string; url_host : string; url_port : option Z; url_path : string;
}.

(** What a processor is constructed with.  [cfg_parse_url] is [httpx.URL] and
    [cfg_own_base] the base URL of the Waldur client, when it has one. *)
Record processor_config : Type := {
  cfg_offering : Offering;
  cfg_capabilities : capabilities;
  cfg_username_backend : username_backend;
  cfg_has_service_provider : bool;
  cfg_expose_backend_error_details : bool;
  (* [traceback.format_exc()] of the exception being handled *)
  cfg_format_exc : exn → string;
  cfg_own_base : option url;
  cfg_parse_url : string → res url;
}.

(** The per-processor caches ([OfferingBaseProcessor.__init__] and
    [OfferingMembershipProcessor.__init__]) and the attribute-config cache. *)
Record processor_state : Type := {
  st_offering_users : option (list OfferingUser);
  st_known_usernames : option (gset string);
  st_known_failed : bool;
  st_service_accounts : option (list Account);
  st_course_accounts : option (list Account);
  st_team : gmap string (list ProjectUser);
  st_source_project : gmap string (option project_info);
  (* the release-capable username backend, once resolved *)
  st_release_backend : option bool;
  (* requested fields, exposed names, time of the fetch *)
  st_attribute_config : option (list string * list string * Z);
}.

Definition initial_state : processor_state :=
  {| st_offering_users := None; st_known_usernames := None; st_known_failed := false;
     st_service_accounts := None; st_course_accounts := None; st_team := ∅;
     st_source_project := ∅; st_release_backend := None; st_attribute_config := None |}.

Abbreviation proc := (M agentE processor_state).

Definition waldur {S X} (c : waldurE X) : M agentE S X := call (Waldur c).
Definition backend {S X} (c : backendE X) : M agentE S X := call (Backend c).
Definition username {S X} (c : usernameE X) : M agentE S X := call (Username c).
Definition sleep {S} (seconds : Z) : M agentE S unit := call (Sleep seconds).
Definition touch_heartbeat {S} : M agentE S unit := call TouchHeartbeat.
