(* ===== verification/Samples.v ===== *)
(** * Sample values

    Concrete offerings, resources, orders and users: the inputs at which the
    witnesses of the theorems evaluate the definitions. *)

From stdpp Require Import base list strings gmap.
From Stdlib Require Import ZArith.
From S2P Require Import Prelude.
From S2P Require Import Structures.
From S2P Require Import Agent.

Local Open Scope Z_scope.

Definition sample_offering : Offering :=
  {| off_uuid := "offering"; off_name := "Cluster"; off_backend_settings := ∅;
     off_username_management_backend := None; off_username_reconciliation_enabled := false;
     off_preserve_unmanaged_backend_users := false;
     off_omit_anomalous_usage_components := false;
     off_order_processing_backend := Some "slurm"; off_membership_sync_backend := Some "slurm";
     off_stomp_enabled := true; off_stomp_membership_sync_enabled := None;
     off_reporting_backend := Some "slurm"; off_resource_import_enabled := false |}.

Definition sample_base : url :=
  {| url_scheme := "https"; url_host := "waldur.example"; url_port := None; url_path := "/api/" |}.

(** A parser that knows the URLs of the samples. *)
Definition parse_sample_url (s : string) : res url :=
  if String.prefix "https://waldur.example/api/" s
  then Ok {| url_scheme := "https"; url_host := "waldur.example"; url_port := None;
             url_path := String.substring 22 (String.length s) s |}
  else if String.prefix "https://remote.example/" s
  then Ok {| url_scheme := "https"; url_host := "remote.example"; url_port := None;
             url_path := String.substring 22 (String.length s) s |}
  else Err (ValueError "Invalid URL").

Definition sample_config : processor_config :=
  {| cfg_offering := sample_offering; cfg_capabilities := base_capabilities;
     cfg_username_backend := KnownUsernameBackend true true true;
     cfg_has_service_provider := true; cfg_expose_backend_error_details := false;
     cfg_format_exc := λ _, ""; cfg_own_base := Some sample_base;
     cfg_parse_url := parse_sample_url |}.

Definition sample_user (state : OfferingUserState.t) (name : string) : OfferingUser :=
  {| ou_uuid := "ou-1"; ou_username := name; ou_user_username := Val "cuid-1";
     ou_user_uuid := "user-1"; ou_user_email := Unset; ou_state := state; ou_url := "";
     ou_attributes := ∅ |}.

Definition sample_resource : WaldurResource :=
  {| res_uuid := "resource-1"; res_name := "Allocation"; res_slug := "alloc";
     res_backend_id := "alloc-1"; res_state := ResourceState.OK;
     res_project_uuid := "project-1"; res_project_slug := "proj"; res_plan_uuid := "";
     res_offering_uuid := "offering"; res_restrict_member_access := false;
     res_paused := false; res_downscaled := false; res_limits := None;
     res_backend_metadata := Unset; res_spending_limits := Unset; res_plugin_options := ∅;
     res_project_name := Val "Project"%string;
     res_customer_slug := Val "cust"%string; res_customer_name := Val "Customer"%string;
     res_created := Unset; res_end_date := Unset; res_attributes := None |}.

Definition sample_context : user_context :=
  {| ctx_team := []; ctx_offering_users := []; ctx_user_mappings := ∅;
     ctx_offering_user_mappings := ∅; ctx_plan_quotas := None; ctx_ssh_keys := None |}.

Definition sample_account (name : string) (state : ServiceAccountState.t) : Account :=
  {| acc_username := name; acc_project_uuid := "project-1"; acc_state := state |}.

(** [sample_offering] with the uniqueness check of backend ids switched on. *)
Definition checking_config : processor_config :=
  {| cfg_offering :=
       {| off_uuid := "offering"; off_name := "Cluster";
          off_backend_settings := {["check_backend_id_uniqueness"%string := JBool true;
                                    "backend_id_max_retries"%string := JInt 3]};
          off_username_management_backend := None;
          off_username_reconciliation_enabled := false;
          off_preserve_unmanaged_backend_users := false;
          off_omit_anomalous_usage_components := false;
          off_order_processing_backend := Some "slurm"; off_membership_sync_backend := Some "slurm";
          off_stomp_enabled := true; off_stomp_membership_sync_enabled := None;
          off_reporting_backend := Some "slurm"; off_resource_import_enabled := false |};
     cfg_capabilities := base_capabilities;
     cfg_username_backend := KnownUsernameBackend true true true;
     cfg_has_service_provider := true; cfg_expose_backend_error_details := false;
     cfg_format_exc := λ _, ""; cfg_own_base := Some sample_base;
     cfg_parse_url := parse_sample_url |}.

Definition sample_order (type : RequestTypes.t) (state : OrderState.t) : Order :=
  {| order_uuid := "order-1"; order_type := type; order_state := state; order_backend_id := "";
     order_resource_uuid := "resource-1"; order_resource_name := "Allocation";
     order_limits := Some {["cpu"%string := 10]}; order_plan_uuid := "";
     order_project_slug := "proj" |}.

(** A configuration whose backend tracks target orders. *)
Definition async_config : processor_config :=
  {| cfg_offering := sample_offering;
     cfg_capabilities :=
       {| supports_cycle_preflight := false; supports_async_orders := true;
          supports_resource_api_keys := false; supports_resource_api_key_lifecycle := false;
          supports_spending_limit_periods := false; requires_source_project := false;
          requires_resource_key_assignees := false; shared_project_membership := false;
          skip_resource_team_diff := false; identity_bridge := false;
          fetch_consented_users_only := false; team_fetch_attempts := 2; team_fetch_delay := 3;
          handled_resource_states := [ResourceState.OK; ResourceState.ERRED] |};
     cfg_username_backend := UnknownUsernameBackend;
     cfg_has_service_provider := true; cfg_expose_backend_error_details := false;
     cfg_format_exc := λ _, ""; cfg_own_base := Some sample_base;
     cfg_parse_url := parse_sample_url |}.

(** A configuration whose backend manages API keys one by one. *)
Definition lifecycle_config : processor_config :=
  {| cfg_offering := sample_offering;
     cfg_capabilities :=
       {| supports_cycle_preflight := false; supports_async_orders := false;
          supports_resource_api_keys := true; supports_resource_api_key_lifecycle := true;
          supports_spending_limit_periods := false; requires_source_project := false;
          requires_resource_key_assignees := true; shared_project_membership := false;
          skip_resource_team_diff := false; identity_bridge := false;
          fetch_consented_users_only := false; team_fetch_attempts := 1; team_fetch_delay := 3;
          handled_resource_states := [ResourceState.OK; ResourceState.ERRED] |};
     cfg_username_backend := UnknownUsernameBackend;
     cfg_has_service_provider := true; cfg_expose_backend_error_details := false;
     cfg_format_exc := λ _, ""; cfg_own_base := Some sample_base;
     cfg_parse_url := parse_sample_url |}.

(** A backend resource with the given users. *)
Definition sample_info (users : list string) : BackendResourceInfo :=
  {| info_backend_id := "alloc-1"; info_parent_id := ""; info_effective_id := "";
     info_users := users; info_usage := []; info_limits := ∅; info_pending_order_id := "";
     info_backend_metadata := ∅; info_endpoints := [] |}.

Definition sample_member (uuid name : string) : ProjectUser :=
  {| pu_uuid := uuid; pu_username := ""; pu_offering_user_username := name; pu_role := "" |}.

(** [sample_config] where only names Waldur knows are removed and the backend assigns
    usernames of its own. *)
Definition preserving_config : processor_config :=
  {| cfg_offering :=
       {| off_uuid := "offering"; off_name := "Cluster"; off_backend_settings := ∅;
          off_username_management_backend := None; off_username_reconciliation_enabled := true;
          off_preserve_unmanaged_backend_users := true;
          off_omit_anomalous_usage_components := false;
          off_order_processing_backend := Some "slurm"; off_membership_sync_backend := Some "slurm";
          off_stomp_enabled := true; off_stomp_membership_sync_enabled := None;
          off_reporting_backend := Some "slurm"; off_resource_import_enabled := false |};
     cfg_capabilities := base_capabilities;
     cfg_username_backend := KnownUsernameBackend true true true;
     cfg_has_service_provider := true; cfg_expose_backend_error_details := false;
     cfg_format_exc := λ _, ""; cfg_own_base := Some sample_base;
     cfg_parse_url := parse_sample_url |}.
