(* ===== verification/SpendingLimits.v ===== *)
(** * Spending limits per period

    [common/spending_limits.py]: reading [{component: {period: amount}}] limits
    off a resource or an API key, and Python's [float()] on the JSON values it
    is applied to.  Amounts are IEEE binary64 values.  Of the texts [float()]
    reads, the decimal ones ([sign digits . digits]) are modelled; any other
    text is refused, as [float()] refuses most of them. *)

From stdpp Require Import base list strings gmap.
From Stdlib Require Import ZArith Lia SpecFloat Ascii.
From S2P Require Import Prelude.
From S2P Require Import Structures.
From S2P Require Import Agent.

Local Open Scope Z_scope.

(** ** [float()] *)

Definition float_of_Z (z : Z) : res spec_float :=
  match binary_normalize 53 1024 z 0 false with
  | S754_infinity _ => Err (OtherException "int too large to convert to float")
  | f => Ok f
  end.

Definition digit (c : ascii) : option Z :=
  let n := Z.of_nat (nat_of_ascii c) in
  if (48 <=? n) && (n <=? 57) then Some (n - 48) else None.

(** Leading digits: their value, their number, and the rest of the text. *)
Fixpoint digits (s : string) (acc : Z) (count : nat) : Z * nat * string :=
  match s with
  | String c s' =>
      match digit c with
      | Some d => digits s' (10 * acc + d) (Datatypes.S count)
      | None => (acc, count, s)
      end
  | EmptyString => (acc, count, EmptyString)
  end.

(** [± m / 10^k], correctly rounded. *)
Definition float_of_decimal (negative : bool) (m : Z) (k : nat) : spec_float :=
  match m, 10 ^ Z.of_nat k with
  | Zpos p, Zpos q =>
      SFdiv 53 1024 (S754_finite negative p 0) (S754_finite false q 0)
  | _, _ => S754_zero negative
  end.

Definition split_sign (s : string) : bool * string :=
  match s with
  | String "-" s' => (true, s')
  | String "+" s' => (false, s')
  | _ => (false, s)
  end.

Definition float_of_string (s : string) : res spec_float :=
  let '(negative, s) := split_sign s in
  let '(int_part, n, rest) := digits s 0 0 in
  let '(m, k, total, rest) :=
    match rest with
    | String "." rest' =>
        let '(m, total, rest'') := digits rest' int_part n in (m, (total - n)%nat, total, rest'')
    | _ => (int_part, 0%nat, n, rest)
    end in
  match total, rest with
  | Datatypes.S _, EmptyString => Ok (float_of_decimal negative m k)
  | _, _ => Err (ValueError ("could not convert string to float: '" +:+ s +:+ "'"))
  end.

(** [float(amount)] for the JSON values that pass [isinstance(amount, (int, float, str))]. *)
Definition float_of_json (v : json) : res spec_float :=
  match v with
  | JBool b => float_of_Z (if b then 1 else 0)
  | JInt z => float_of_Z z
  | JFloat f => Ok f
  | JStr s => float_of_string s
  | _ => Err (OtherException "float() argument must be a string or a real number")
  end.

(** ** Limits *)

Definition PERIODS : list string := ["day"; "week"; "month"; "quarter"; "year"; "total"]%string.

Definition is_amount (v : json) : bool :=
  match v with
  | JBool _ | JInt _ | JFloat _ => true
  | JStr s => nonempty s
  | _ => false
  end.

(** One component's amounts; the first that [float()] refuses raises. *)
Fixpoint period_amounts (periods : list (string * json)) (acc : gmap string spec_float)
  : res (gmap string spec_float) :=
  match periods with
  | [] => Ok acc
  | (period, amount) :: rest =>
      if bool_decide (period ∈ PERIODS) && is_amount amount then
        match float_of_json amount with
        | Ok f => period_amounts rest (<[period := f]> acc)
        | Err e => Err e
        end
      else period_amounts rest acc
  end.

Fixpoint component_limits (components : list (string * json)) (acc : spending) : res spending :=
  match components with
  | [] => Ok acc
  | (component, JObj periods) :: rest =>
      match period_amounts periods ∅ with
      | Ok amounts =>
          component_limits rest (if map_truthy amounts then <[component := amounts]> acc else acc)
      | Err e => Err e
      end
  | _ :: rest => component_limits rest acc
  end.

Definition limits_of (value : json) : res spending :=
  match value with
  | JObj components => component_limits components ∅
  | _ => Ok ∅
  end.

Definition resource_spending_limits (r : WaldurResource) : res (option spending) :=
  match res_spending_limits r with
  | Unset => Ok None
  | Null => match limits_of JNull with Ok l => Ok (Some l) | Err e => Err e end
  | Val v => match limits_of v with Ok l => Ok (Some l) | Err e => Err e end
  end.

Definition key_spending_limits_of (value : field json) : res (option spending) :=
  match value with
  | Unset | Null | Val JNull => Ok None
  | Val v => match limits_of v with Ok l => Ok (Some l) | Err e => Err e end
  end.

(** ** What the limits keep *)

Definition periods_known (l : spending) : Prop :=
  map_Forall (λ _ amounts, amounts ≠ ∅ ∧ map_Forall (λ period _, period ∈ PERIODS) amounts) l.

Lemma period_amounts_spec periods acc amounts :
  map_Forall (λ period _, period ∈ PERIODS) acc →
  period_amounts periods acc = Ok amounts →
  map_Forall (λ period _, period ∈ PERIODS) amounts.
Proof.
  revert acc; induction periods as [|[p v] periods IH]; simpl; intros acc Hacc Heq.
  { by injection Heq as <-. }
  destruct (bool_decide (p ∈ PERIODS) && is_amount v) eqn:Hk; [|by eapply IH].
  apply andb_true_iff in Hk as [Hp%bool_decide_eq_true _].
  destruct (float_of_json v); [|done]. eapply IH; [|done].
  by apply map_Forall_insert_2.
Qed.

Lemma component_limits_spec components acc l :
  periods_known acc → component_limits components acc = Ok l → periods_known l.
Proof.
  revert acc; induction components as [|[c v] components IH]; simpl; intros acc Hacc Heq.
  { by injection Heq as <-. }
  destruct v as [| | | | | |periods]; try by eapply IH.
  destruct (period_amounts periods ∅) as [amounts|] eqn:Ha; [|done].
  eapply IH; [|done]. destruct (map_truthy amounts) eqn:Ht; [|done].
  apply map_Forall_insert_2; [|done]. split.
  - intros ->. by vm_compute in Ht.
  - eapply period_amounts_spec; [|done]. apply map_Forall_empty.
Qed.

(** The limits read off a value name only the periods Waldur knows, and every
    component they keep has at least one. *)
Theorem limits_well_formed value l : limits_of value = Ok l → periods_known l.
Proof.
  destruct value; simpl; try (intros [= <-]; apply map_Forall_empty).
  apply component_limits_spec, map_Forall_empty.
Qed.

Example tenth : float_of_string "0.10" = Ok (S754_finite false 7205759403792794 (-56)).
Proof. vm_compute. reflexivity. Qed.

Example half_limits :
  limits_of (JObj [("cpu"%string, JObj [("day"%string, JStr "1.50"); ("hour"%string, JInt 3)]);
                   ("mem"%string, JNull)]) =
  Ok {["cpu"%string := {["day"%string := S754_finite false 6755399441055744 (-52)]}]}.
Proof. vm_compute. reflexivity. Qed.

Lemma limits_well_formed_witness :
  periods_known {["cpu"%string := {["day"%string := S754_finite false 6755399441055744 (-52)]}]}.
Proof.
  exact (limits_well_formed
    (JObj [("cpu"%string, JObj [("day"%string, JStr "1.50"); ("hour"%string, JInt 3)]);
           ("mem"%string, JNull)])
    {["cpu"%string := {["day"%string := S754_finite false 6755399441055744 (-52)]}]} half_limits).
Defined.
