(* ===== verification/Numbers.v ===== *)
(** * Amounts and dates

    Python's [float] as the code uses it for usage amounts -- IEEE binary64
    values with [round(x, 2)], [f"{x:.2f}"] and [math.isclose] -- and the
    calendar of [datetime.date] that usage per day is counted in. *)

From stdpp Require Import base list strings gmap pretty sorting.
From Stdlib Require Import ZArith Lia SpecFloat.
From S2P Require Import Prelude.
From S2P Require Import Structures.

Local Open Scope Z_scope.

(** ** Binary64 *)

Definition f64_add : spec_float → spec_float → spec_float := SFadd 53 1024.
Definition f64_sub : spec_float → spec_float → spec_float := SFsub 53 1024.
Definition f64_mul : spec_float → spec_float → spec_float := SFmul 53 1024.
Definition f64_zero : spec_float := S754_zero false.

(** The double nearest to [n / d]. *)
Definition f64_ratio (n d : Z) : spec_float :=
  let exact z := match z with
                 | Z0 => S754_zero false
                 | Zpos p => S754_finite false p 0
                 | Zneg p => S754_finite true p 0
                 end in
  SFdiv 53 1024 (exact n) (exact d).

(** [n / d] for [d > 0], to the nearest integer, a tie to the even one. *)
Definition div_half_even (n d : Z) : Z :=
  let q := n / d in
  let r := n mod d in
  match Z.compare (2 * r) d with
  | Lt => q
  | Gt => q + 1
  | Eq => if Z.even q then q else q + 1
  end.

(** The magnitude [m * 2^e] in hundredths, rounded half to even. *)
Definition hundredths (m : positive) (e : Z) : Z :=
  if 0 <=? e then 100 * Zpos m * 2 ^ e
  else div_half_even (100 * Zpos m) (2 ^ (- e)).

(** [round(x, 2)]: the exact value rounded to two decimals, then back to a double. *)
Definition round2 (x : spec_float) : spec_float :=
  match x with
  | S754_finite s m e =>
      match f64_ratio (hundredths m e) 100 with
      | S754_zero _ => S754_zero s
      | S754_finite _ m' e' => S754_finite s m' e'
      | other => other
      end
  | _ => x
  end.

Definition digits2 (n : Z) : string :=
  (if n <? 10 then "0" else "") +:+ pretty n.

(** [f"{x:.2f}"]. *)
Definition format2 (x : spec_float) : string :=
  let sign (s : bool) : string := if s then "-" else "" in
  match x with
  | S754_zero s => sign s +:+ "0.00"
  | S754_infinity s => sign s +:+ "inf"
  | S754_nan => "nan"
  | S754_finite s m e =>
      let h := hundredths m e in
      sign s +:+ pretty (h / 100) +:+ "." +:+ digits2 (h mod 100)
  end.

Definition REL_TOL : spec_float := f64_ratio 1 1000000000.
Definition ABS_TOL : spec_float := f64_ratio 1 1000000.

Definition is_infinite (x : spec_float) : bool :=
  match x with S754_infinity _ => true | _ => false end.

(** [math.isclose(a, b, rel_tol=1e-9, abs_tol=1e-6)]. *)
Definition isclose (a b : spec_float) : bool :=
  if SFeqb a b then true
  else if is_infinite a || is_infinite b then false
  else
    let diff := SFabs (f64_sub b a) in
    SFleb diff (SFabs (f64_mul REL_TOL b)) || SFleb diff (SFabs (f64_mul REL_TOL a)) ||
    SFleb diff ABS_TOL.

(** Truthiness of a float: NaN is true. *)
Definition float_truthy (x : spec_float) : bool :=
  match x with S754_zero _ => false | _ => true end.

Example round2_down : round2 (f64_ratio 12344 10000) = f64_ratio 123 100.
Proof. vm_compute. reflexivity. Qed.
Example round2_half : round2 (f64_ratio 2675 1000) = f64_ratio 267 100.
Proof. vm_compute. reflexivity. Qed.
Example format2_small : format2 (f64_ratio (-5) 100) = "-0.05".
Proof. vm_compute. reflexivity. Qed.
Example isclose_cents : isclose (f64_ratio 1 10) (f64_add (f64_ratio 1 30) (f64_ratio 2 30)) = true.
Proof. vm_compute. reflexivity. Qed.

(** ** Calendar *)

Definition leap (y : Z) : bool :=
  (y mod 4 =? 0) && (negb (y mod 100 =? 0) || (y mod 400 =? 0)).

Definition month_days (y m : Z) : Z :=
  if m =? 2 then (if leap y then 29 else 28)
  else if (m =? 4) || (m =? 6) || (m =? 9) || (m =? 11) then 30 else 31.

(** [day + timedelta(days=1)]. *)
Definition next_day (d : date) : date :=
  if d_day d <? month_days (d_year d) (d_month d)
  then {| d_year := d_year d; d_month := d_month d; d_day := d_day d + 1 |}
  else if d_month d <? 12
  then {| d_year := d_year d; d_month := d_month d + 1; d_day := 1 |}
  else {| d_year := d_year d + 1; d_month := 1; d_day := 1 |}.

Definition date_le (a b : date) : bool :=
  (d_year a <? d_year b) ||
  ((d_year a =? d_year b) &&
   ((d_month a <? d_month b) ||
    ((d_month a =? d_month b) && (d_day a <=? d_day b)))).

(** [date.isoformat()]. *)
Definition digits4 (n : Z) : string :=
  (if n <? 10 then "000" else if n <? 100 then "00" else if n <? 1000 then "0" else "")
    +:+ pretty n.

Definition isoformat (d : date) : string :=
  digits4 (d_year d) +:+ "-" +:+ digits2 (d_month d) +:+ "-" +:+ digits2 (d_day d).

Definition first_day (y m : Z) : date := {| d_year := y; d_month := m; d_day := 1 |}.

(** [(year, month)] one month earlier. *)
Definition previous_month (ym : Z * Z) : Z * Z :=
  if ym.2 - 1 <? 1 then (ym.1 - 1, 12) else (ym.1, ym.2 - 1).

Lemma month_days_bounds y m : 28 <= month_days y m <= 31.
Proof.
  unfold month_days. destruct (m =? 2); [destruct (leap y); lia|].
  destruct (_ || _)%bool; lia.
Qed.
