(* ===== verification/FloatInts.v ===== *)
(** * Binary64 on integers

    Python's [float] of an [int], [int] of a [float], and the exactness of binary64
    products and sums of integers below 2^53: what the conversion of limits between
    Waldur's components and a backend's rests on. *)

From stdpp Require Import base strings.
From Stdlib Require Import ZArith Lia SpecFloat.
From S2P Require Import Prelude.
From S2P Require Import Texts.
From S2P Require Import Structures.
From S2P Require Import Numbers.

Local Open Scope Z_scope.

(** A Python number of a configuration or of an amount. *)
Inductive pynum : Type :=
| PyInt (z : Z)
| PyFloat (f : spec_float).

(** [float(z)] below the overflow threshold, and the infinity [int * float] raises for. *)
Definition float_of_Z (z : Z) : spec_float := binary_normalize 53 1024 z 0 false.

(** [int(x)]: towards zero; infinities and NaN raise. *)
Definition int_of_float (x : spec_float) : res Z :=
  match x with
  | S754_zero _ => Ok 0
  | S754_finite s m e =>
      let magnitude := if 0 <=? e then Zpos m * 2 ^ e else Zpos m / 2 ^ (- e) in
      Ok (cond_Zopp s magnitude)
  | S754_infinity _ => Err (OverflowError "cannot convert float infinity to integer")
  | S754_nan => Err (ValueError "cannot convert float NaN to integer")
  end.

(** [int(x)] of a JSON value. *)
Definition int_of_json (v : json) : res Z :=
  match v with
  | JInt z => Ok z
  | JBool v => Ok (if v then 1 else 0)
  | JFloat f => int_of_float f
  | JStr s => int_of_text s
  | _ => Err (TypeError "int() argument must be a string, a bytes-like object or a real number")
  end.

Definition f64_div : spec_float → spec_float → spec_float := SFdiv 53 1024.

(** [x] is the double that stands for the integer [z], of less than 54 bits. *)
Definition denotes (x : spec_float) (z : Z) : Prop :=
  match x with
  | S754_zero _ => z = 0
  | S754_finite s m e => digits2_pos m = 53%positive ∧ -52 ≤ e ≤ 0 ∧ cond_Zopp s (Zpos m) = z * 2 ^ (- e)
  | _ => False
  end.

(** ** Digits and shifts *)

Lemma digits2_log2 p : Zpos (digits2_pos p) = Z.log2 (Zpos p) + 1.
Proof.
  induction p as [p IH|p IH|]; [| |done]; simpl digits2_pos; rewrite Pos2Z.inj_succ, IH.
  - rewrite (Pos2Z.inj_xI p), Z.log2_succ_double by lia. lia.
  - rewrite (Pos2Z.inj_xO p), Z.log2_double by lia. lia.
Qed.

Lemma log2_shifted n k : 0 < n → 0 ≤ k → Z.log2 (n * 2 ^ k) = Z.log2 n + k.
Proof. intros Hn Hk. rewrite Z.log2_mul_pow2 by lia. lia. Qed.

Definition exact_record (m : Z) : shr_record := {| shr_m := m; shr_r := false; shr_s := false |}.

Lemma shr_1_double k : 0 ≤ k → shr_1 (exact_record (2 * k)) = exact_record k.
Proof. destruct k; [done|done|lia]. Qed.

Lemma iter_shr p k : 0 ≤ k → iter_pos shr_1 p (exact_record (k * 2 ^ Zpos p)) = exact_record k.
Proof.
  revert k. induction p as [p IH|p IH|]; intros k Hk; cbn [iter_pos].
  - assert (Hp : 2 ^ Zpos p~1 = 2 * (2 ^ Zpos p * 2 ^ Zpos p)).
    { rewrite <- Z.pow_add_r, <- Z.pow_succ_r by lia. f_equal. lia. }
    replace (k * 2 ^ Zpos p~1) with (2 * (k * 2 ^ Zpos p * 2 ^ Zpos p)) by (rewrite Hp; lia).
    rewrite shr_1_double by lia. by rewrite !IH by lia.
  - assert (Hp : 2 ^ Zpos p~0 = 2 ^ Zpos p * 2 ^ Zpos p).
    { rewrite <- Z.pow_add_r by lia. f_equal. lia. }
    replace (k * 2 ^ Zpos p~0) with (k * 2 ^ Zpos p * 2 ^ Zpos p) by (rewrite Hp; lia).
    by rewrite !IH by lia.
  - replace (k * 2 ^ 1) with (2 * k) by lia. by apply shr_1_double.
Qed.

Lemma shr_exact k e n : 0 ≤ k → 0 ≤ n →
  shr (exact_record (k * 2 ^ n)) e n = (exact_record k, e + n).
Proof.
  intros Hk Hn. destruct n as [|p|p]; [|by rewrite <- (iter_shr p k)|lia].
  simpl. by rewrite Z.mul_1_r, Z.add_0_r.
Qed.

Lemma fexp_small d : -1021 ≤ d → SpecFloat.fexp 53 1024 d = d - 53.
Proof. unfold SpecFloat.fexp, SpecFloat.emin. lia. Qed.

(** ** Rounding what needs none *)

Lemma round_aux_exact s M E n :
  0 < n → n < 2 ^ 53 → E ≤ 0 → Zpos M = n * 2 ^ (- E) → 53 ≤ Zpos (digits2_pos M) →
  denotes (binary_round_aux 53 1024 s (Zpos M) E loc_Exact) (cond_Zopp s n).
Proof.
  intros Hn Hb HE HM HD.
  pose proof (digits2_log2 M) as HdM. rewrite HM, log2_shifted in HdM by lia.
  assert (Hlog : 0 ≤ Z.log2 n ≤ 52).
  { split; [apply Z.log2_nonneg|]. apply Z.lt_succ_r, Z.log2_lt_pow2; lia. }
  set (k := Z.log2 n + (- E) + 1 - 53) in *.
  set (m' := n * 2 ^ (52 - Z.log2 n)).
  assert (Hm' : Zpos M = m' * 2 ^ k).
  { rewrite HM. unfold m'. rewrite <- Z.mul_assoc, <- Z.pow_add_r by (unfold k; lia).
    do 2 f_equal. unfold k. lia. }
  assert (Hpos : 0 < m') by (apply Z.mul_pos_pos; [done|apply Z.pow_pos_nonneg; lia]).
  destruct m' as [|p|p] eqn:Hp; [lia| |lia].
  assert (Hdp : Zpos (digits2_pos p) = 53).
  { rewrite digits2_log2, <- Hp. unfold m'. rewrite log2_shifted by lia. lia. }
  unfold binary_round_aux, shr_fexp. cbn [shr_record_of_loc]. cbn [Zdigits2].
  rewrite fexp_small by lia.
  replace (Zpos (digits2_pos M) + E - 53 - E) with k by (unfold k; lia).
  rewrite Hm'. change {| shr_m := ?m; shr_r := false; shr_s := false |} with (exact_record m).
  rewrite shr_exact by (unfold k; lia).
  cbn [exact_record shr_m loc_of_shr_record round_nearest_even Zdigits2 shr_record_of_loc].
  rewrite Hdp, fexp_small by (unfold k; lia).
  replace (53 + (E + k) - 53 - (E + k)) with 0 by lia. cbn [shr shr_m].
  replace (E + k <=? 1024 - 53) with true by (symmetry; apply Z.leb_le; unfold k; lia).
  split; [lia|]. split; [unfold k; lia|].
  replace (Zpos p) with (n * 2 ^ (- (E + k))).
  - by destruct s; simpl; lia.
  - rewrite <- Hp. unfold m'. do 2 f_equal. unfold k. lia.
Qed.

Lemma iter_xO M d : Zpos (Pos.iter xO M d) = Zpos M * 2 ^ Zpos d.
Proof.
  induction d as [|d IH] using Pos.peano_ind; [simpl; lia|].
  rewrite Pos.iter_succ, Pos2Z.inj_xO, IH, Pos2Z.inj_succ, Z.pow_succ_r by lia. lia.
Qed.

Lemma shl_align_value M E E' : E' ≤ E →
  Zpos (fst (shl_align M E E')) = Zpos M * 2 ^ (E - E') ∧ snd (shl_align M E E') = E'.
Proof.
  intros HE. unfold shl_align. destruct (E' - E) as [|p|p] eqn:Hd; [|lia|].
  - replace (E - E') with 0 by lia. simpl. lia.
  - replace (E - E') with (Zpos p) by lia. simpl. by rewrite iter_xO.
Qed.

Lemma round_exact s M E n :
  0 < n → n < 2 ^ 53 → E ≤ 0 → Zpos M = n * 2 ^ (- E) →
  denotes (binary_round 53 1024 s M E) (cond_Zopp s n).
Proof.
  intros Hn Hb HE HM.
  pose proof (digits2_log2 M) as HdM. rewrite HM, log2_shifted in HdM by lia.
  assert (Hlog : 0 ≤ Z.log2 n ≤ 52).
  { split; [apply Z.log2_nonneg|]. apply Z.lt_succ_r, Z.log2_lt_pow2; lia. }
  unfold binary_round. rewrite fexp_small by lia.
  replace (Zpos (digits2_pos M) + E - 53) with (Z.log2 n - 52) by lia.
  destruct (Z.le_gt_cases (Z.log2 n - 52) E) as [Hle|Hgt].
  - destruct (shl_align_value M E (Z.log2 n - 52) Hle) as [Hv He].
    destruct (shl_align M E (Z.log2 n - 52)) as [M' E']. simpl in Hv, He. subst E'.
    assert (HM' : Zpos M' = n * 2 ^ (- (Z.log2 n - 52))).
    { rewrite Hv, HM, <- Z.mul_assoc, <- Z.pow_add_r by lia. do 2 f_equal. lia. }
    apply round_aux_exact; [done|done|lia|done|].
    rewrite digits2_log2, HM', log2_shifted by lia. lia.
  - assert (Hs : shl_align M E (Z.log2 n - 52) = (M, E)).
    { unfold shl_align. destruct (Z.log2 n - 52 - E) eqn:?; [done|done|lia]. }
    rewrite Hs. apply round_aux_exact; try done. lia.
Qed.

Lemma normalize_exact S E z :
  E ≤ 0 → S = z * 2 ^ (- E) → Z.abs z < 2 ^ 53 →
  denotes (binary_normalize 53 1024 S E false) z.
Proof.
  intros HE HS Hz. assert (Hp : 0 < 2 ^ (- E)) by (apply Z.pow_pos_nonneg; lia).
  destruct S as [|M|M]; simpl.
  - nia.
  - assert (0 < z) by nia. change z with (cond_Zopp false z). apply round_exact; lia.
  - assert (z < 0) by nia. replace z with (cond_Zopp true (- z)) by (simpl; lia).
    apply round_exact; lia.
Qed.

(** ** The operations *)

Lemma float_of_Z_exact z : Z.abs z < 2 ^ 53 → denotes (float_of_Z z) z.
Proof. intros Hz. apply normalize_exact; simpl; lia. Qed.

Lemma int_of_float_exact x z : denotes x z → int_of_float x = Ok z.
Proof.
  destruct x as [s|s| |s m e]; try done; simpl; [by intros ->|].
  intros (_ & He & Hv). f_equal. destruct (Z.leb_spec 0 e).
  - replace e with 0 in * by lia. destruct s; simpl in *; lia.
  - assert (0 < 2 ^ (- e)) by (apply Z.pow_pos_nonneg; lia).
    destruct s; simpl in *.
    + replace (Zpos m) with (- z * 2 ^ (- e)) by lia. rewrite Z.div_mul by lia. lia.
    + rewrite Hv. by rewrite Z.div_mul by lia.
Qed.

Lemma denotes_nonzero s m e z : denotes (S754_finite s m e) z → z ≠ 0.
Proof. intros (_ & _ & Hv) ->. destruct s; simpl in Hv; lia. Qed.

Lemma f64_add_exact x y a b :
  denotes x a → denotes y b → Z.abs (a + b) < 2 ^ 53 → denotes (f64_add x y) (a + b).
Proof.
  intros Hx Hy Hb. destruct x as [s|s| |s m e]; try done; destruct y as [s'|s'| |s' m' e']; try done.
  - simpl in *. subst. destruct s, s'; done.
  - simpl in Hx. subst a. by rewrite Z.add_0_l.
  - simpl in Hy. subst b. by rewrite Z.add_0_r.
  - destruct Hx as (_ & He & Hv), Hy as (_ & He' & Hv'). unfold f64_add, SFadd.
    destruct (shl_align_value m e (Z.min e e') ltac:(lia)) as [Hm _].
    destruct (shl_align_value m' e' (Z.min e e') ltac:(lia)) as [Hm' _].
    rewrite Hm, Hm'. apply normalize_exact; [lia| |done].
    assert (Hc : ∀ s m z e, cond_Zopp s (Zpos m) = z * 2 ^ (- e) → -52 ≤ e ≤ 0 → ∀ ez, ez ≤ e →
      cond_Zopp s (Zpos m * 2 ^ (e - ez)) = z * 2 ^ (- ez)).
    { intros s0 m0 z0 e0 Hv0 He0 ez Hez.
      replace (- ez) with (- e0 + (e0 - ez)) by lia. rewrite Z.pow_add_r by lia.
      destruct s0; simpl in *; nia. }
    rewrite (Hc _ _ _ _ Hv) by lia. rewrite (Hc _ _ _ _ Hv') by lia. lia.
Qed.

Lemma f64_mul_exact x y a b :
  denotes x a → denotes y b → Z.abs (a * b) < 2 ^ 53 → denotes (f64_mul x y) (a * b).
Proof.
  intros Hx Hy Hb. destruct x as [s|s| |s m e]; try done; destruct y as [s'|s'| |s' m' e']; try done;
    try (simpl in *; subst; lia).
  pose proof (denotes_nonzero _ _ _ _ Hx). pose proof (denotes_nonzero _ _ _ _ Hy).
  destruct Hx as (Hd & He & Hv), Hy as (Hd' & He' & Hv'). unfold f64_mul, SFmul.
  set (n := cond_Zopp (xorb s s') (a * b)).
  assert (Hn : cond_Zopp (xorb s s') n = a * b) by (unfold n; destruct (xorb s s'); simpl; lia).
  assert (HM : Zpos (m * m') = n * 2 ^ (- (e + e'))).
  { rewrite Pos2Z.inj_mul. replace (- (e + e')) with (- e + - e') by lia.
    rewrite Z.pow_add_r by lia. unfold n. destruct s, s'; simpl in *; nia. }
  assert (Hpos : 0 < n). { assert (0 < 2 ^ (- (e + e'))) by (apply Z.pow_pos_nonneg; lia). nia. }
  rewrite <- Hn. apply round_aux_exact; [done| |lia|done|].
  - unfold n in *. destruct (xorb s s'); simpl in *; lia.
  - assert (Hl : Z.log2 (Zpos m) = 52) by (pose proof (digits2_log2 m); rewrite Hd in *; lia).
    assert (Hl' : Z.log2 (Zpos m') = 52) by (pose proof (digits2_log2 m'); rewrite Hd' in *; lia).
    rewrite digits2_log2, Pos2Z.inj_mul.
    pose proof (Z.log2_mul_below (Zpos m) (Zpos m') ltac:(lia) ltac:(lia)). lia.
Qed.

Lemma f64_div_exact x y a b c :
  denotes x a → denotes y b → b ≠ 0 → a = b * c → Z.abs c < 2 ^ 53 → denotes (f64_div x y) c.
Proof.
  intros Hx Hy Hb Hc Hbound.
  destruct x as [s|s| |s m e]; try done; destruct y as [s'|s'| |s' m' e']; try done; simpl in Hx, Hy.
  { simpl. nia. }
  pose proof (denotes_nonzero s m e a Hx).
  destruct Hx as (Hd & He & Hv), Hy as (Hd' & He' & Hv').
  unfold f64_div, SFdiv, SFdiv_core_binary. cbn [Zdigits2]. rewrite Hd, Hd'.
  rewrite fexp_small by lia. replace (Z.min (53 + e - (53 + e') - 53) (e - e')) with (e - e' - 53) by lia.
  replace (e - e' - (e - e' - 53)) with 53 by lia. rewrite Z.shiftl_mul_pow2 by lia.
  set (n := cond_Zopp (xorb s s') c).
  assert (Hn : cond_Zopp (xorb s s') n = c) by (unfold n; destruct (xorb s s'); simpl; lia).
  assert (Hp : 0 < 2 ^ (- e)) by (apply Z.pow_pos_nonneg; lia).
  assert (Hp' : 0 < 2 ^ (- e')) by (apply Z.pow_pos_nonneg; lia).
  set (w := - (e - e' - 53)).
  assert (Hq : Zpos m * 2 ^ 53 = n * 2 ^ w * Zpos m').
  { assert (Hw : 2 ^ 53 * 2 ^ (- e) = 2 ^ w * 2 ^ (- e')).
    { rewrite <- !Z.pow_add_r by (unfold w; lia). f_equal. unfold w. lia. }
    apply (Z.mul_cancel_r _ _ (2 ^ (- e))); [lia|].
    replace (Zpos m * 2 ^ 53 * 2 ^ (- e)) with (Zpos m * (2 ^ w * 2 ^ (- e'))) by (rewrite <- Hw; lia).
    assert (Hmm : Zpos m * 2 ^ (- e') = n * Zpos m' * 2 ^ (- e)); [|nia].
    unfold n. destruct s, s'; simpl in *; nia. }
  pose proof (Z.div_mod (Zpos m * 2 ^ 53) (Zpos m') ltac:(lia)) as Hdm.
  assert (Hdiv : Zpos m * 2 ^ 53 / Zpos m' = n * 2 ^ w) by (rewrite Hq; apply Z.div_mul; lia).
  assert (Hmod : (Zpos m * 2 ^ 53) mod Zpos m' = 0) by (rewrite Hq; apply Z.mod_mul; lia).
  unfold Z.div, Z.modulo in Hdiv, Hmod.
  destruct (Z.div_eucl (Zpos m * 2 ^ 53) (Zpos m')) as [q r]. subst q r.
  assert (Hloc : new_location (Zpos m') 0 = loc_Exact)
    by (unfold new_location; by destruct (Z.even (Zpos m'))).
  rewrite Hloc. assert (Hw0 : 0 < 2 ^ w) by (apply Z.pow_pos_nonneg; unfold w; lia).
  assert (Hpos : 0 < n * 2 ^ w) by nia. assert (Hn0 : 0 < n) by nia.
  destruct (n * 2 ^ w) as [|M|M] eqn:HM; [lia| |lia].
  rewrite <- Hn. apply round_aux_exact; [done| |unfold w in *; lia| |].
  - unfold n in *. destruct (xorb s s'); simpl in *; lia.
  - rewrite <- HM. unfold w. done.
  - assert (Hl : Z.log2 (Zpos m) = 52) by (pose proof (digits2_log2 m); rewrite Hd in *; lia).
    assert (Hl' : Z.log2 (Zpos m') = 52) by (pose proof (digits2_log2 m'); rewrite Hd' in *; lia).
    pose proof (Z.log2_spec (Zpos m) ltac:(lia)) as [H1 _]. rewrite Hl in H1.
    pose proof (Z.log2_spec (Zpos m') ltac:(lia)) as [_ H2]. rewrite Hl' in H2.
    rewrite digits2_log2. assert (2 ^ 52 ≤ Zpos M).
    { change (2 ^ Z.succ 52) with (2 * 2 ^ 52) in H2. nia. }
    assert (52 ≤ Z.log2 (Zpos M)); [|lia]. apply Z.log2_le_pow2; lia.
Qed.
