(* ===== verification/DailyUsage.v ===== *)
(** * Usage per day

    The part of [common/spending_limits.py] that reports usage per UTC day: which
    components take it, the days of a month, and the request items. *)

From stdpp Require Import base list strings gmap sets.
From Stdlib Require Import ZArith Lia SpecFloat.
From S2P Require Import Prelude.
From S2P Require Import Structures.
From S2P Require Import Numbers.

Local Open Scope Z_scope.

(** Usage amounts by component, and those by day. *)
Abbreviation amounts := (list (string * spec_float)).
Abbreviation daily_amounts := (list (string * amounts)).

(** [ProviderOfferingDetails.components]: the fields read of each. *)
Record OfferingComponent : Type := {
  oc_type : field string;
  oc_usage_based : bool;                     (* billing_type is USAGE *)
  oc_spending_limit_periods : field json;
}.

(** One entry of [daily_usages]. *)
Record daily_item : Type := { di_type : string; di_date : string; di_amount : string }.

Definition is_unset {A} (f : field A) : bool := match f with Unset => true | _ => false end.

(** [None] stands for components Waldur did not send. *)
Definition accepts_daily_usage (components : option (list OfferingComponent)) : bool :=
  existsb (λ c, negb (is_unset (oc_spending_limit_periods c))) (from_option id [] components).

Definition usage_based_types (components : option (list OfferingComponent)) : gset string :=
  list_to_set (omap (λ c, match oc_type c with
                          | Val t => if oc_usage_based c then Some t else None
                          | _ => None
                          end) (from_option id [] components)).

Definition amount_of (usages : amounts) (component : string) : spec_float :=
  from_option id f64_zero (dict_get usages component).

(** The amounts of one day, zero where absent. *)
Definition day_amounts (daily : daily_amounts) (types : list string) (day : date) : amounts :=
  let usages := from_option id [] (dict_get daily (isoformat day)) in
  map (λ component, (component, amount_of usages component)) types.

Fixpoint fill_from (fuel : nat) (daily : daily_amounts) (types : list string) (month : Z)
    (today day : date) : daily_amounts :=
  match fuel with
  | O => []
  | S fuel' =>
      if (d_month day =? month) && date_le day today
      then (isoformat day, day_amounts daily types day)
             :: fill_from fuel' daily types month today (next_day day)
      else []
  end.

(** A month has at most 31 days. *)
Definition fill_days (daily : daily_amounts) (year month : Z) (component_types : gset string)
    (today : date) : daily_amounts :=
  fill_from 32 daily (elements component_types) month today (first_day year month).

(** The items of one amount: each day is the rounded total up to it, less the rounded
    total up to the day before. *)
Definition add_item (acc : amounts * list daily_item) (entry : string * (string * spec_float))
  : amounts * list daily_item :=
  let '(running, items) := acc in
  let '(day, (component, amount)) := entry in
  let before := amount_of running component in
  let total := f64_add before amount in
  (dict_set running component total,
   items ++ [{| di_type := component; di_date := day;
                di_amount := format2 (f64_sub (round2 total) (round2 before)) |}]).

Definition daily_entries (daily : daily_amounts) : list (string * (string * spec_float)) :=
  concat (map (λ '(day, usages), map (pair day) (sort_items usages)) (sort_items daily)).

Definition daily_usage_items (daily : daily_amounts) : list daily_item :=
  (foldl add_item ([], []) (daily_entries daily)).2.

Definition add_total (totals : amounts) (entry : string * spec_float) : amounts :=
  dict_set totals entry.1 (f64_add (amount_of totals entry.1) entry.2).

Definition month_totals (daily : daily_amounts) : amounts :=
  foldl add_total [] (concat (dict_values daily)).

(** ** Every day is reported *)

Definition nth_day (y m : Z) (d : nat) : date :=
  {| d_year := y; d_month := m; d_day := Z.of_nat d |}.

(** The days of a month. *)
Definition days_of_month (y m : Z) : list date :=
  map (nth_day y m) (seq 1 (Z.to_nat (month_days y m))).

Lemma next_day_within y m d :
  d < month_days y m →
  next_day {| d_year := y; d_month := m; d_day := d |} =
    {| d_year := y; d_month := m; d_day := d + 1 |}.
Proof. intros Hd. unfold next_day; simpl. by rewrite (proj2 (Z.ltb_lt _ _) Hd). Qed.

Lemma next_day_after y m :
  d_month (next_day {| d_year := y; d_month := m; d_day := month_days y m |}) =? m = false.
Proof.
  unfold next_day. cbn [d_year d_month d_day]. rewrite Z.ltb_irrefl.
  destruct (Z.ltb_spec m 12); cbn [d_month]; apply Z.eqb_neq; lia.
Qed.

Lemma date_le_later y m d k today :
  date_le (nth_day y m d) today = false → date_le (nth_day y m (d + k)) today = false.
Proof.
  unfold date_le, nth_day; cbn [d_year d_month d_day].
  rewrite !orb_false_iff, !andb_false_iff, !orb_false_iff, !andb_false_iff, !Z.ltb_ge, !Z.eqb_neq,
    !Z.leb_gt.
  lia.
Qed.

Lemma filter_none {A} (f : A → bool) (l : list A) :
  (∀ x, x ∈ l → f x = false) → List.filter f l = [].
Proof.
  induction l as [|x l IH]; simpl; intros Hf; [done|].
  rewrite (Hf x) by left. apply IH. intros y Hy. apply Hf. by right.
Qed.

Lemma fill_from_spec daily types y m today k d fuel :
  Z.of_nat d + Z.of_nat k = month_days y m → (S k < fuel)%nat →
  fill_from fuel daily types m today (nth_day y m d) =
  map (λ d, (isoformat d, day_amounts daily types d))
    (List.filter (λ d, date_le d today) (map (nth_day y m) (seq d (S k)))).
Proof.
  revert d fuel. induction k as [|k IH]; intros d fuel Hd Hf; (destruct fuel as [|fuel]; [lia|]).
  - cbn [fill_from seq map List.filter]. change (d_month (nth_day y m d)) with m.
    rewrite Z.eqb_refl; cbn [andb]. destruct (date_le (nth_day y m d) today); [|done].
    assert (Z.of_nat d = month_days y m) as Hlast by lia. cbn [map]. f_equal.
    destruct fuel as [|fuel]; [lia|]. cbn [fill_from]. unfold nth_day. rewrite Hlast.
    by rewrite next_day_after.
  - change (seq d (S (S k))) with (d :: seq (S d) (S k)).
    assert (Hlater : date_le (nth_day y m d) today = false →
      List.filter (λ d, date_le d today) (map (nth_day y m) (seq (S d) (S k))) = []).
    { intros Hle. apply filter_none. intros x Hx.
      apply list_elem_of_In, in_map_iff in Hx as (j & <- & Hj%in_seq).
      replace j with (d + (j - d))%nat by lia. by apply date_le_later. }
    specialize (IH (S d) fuel). remember (seq (S d) (S k)) as l.
    cbn [fill_from map List.filter]. change (d_month (nth_day y m d)) with m.
    rewrite Z.eqb_refl; cbn [andb]. destruct (date_le (nth_day y m d) today).
    + cbn [map]. f_equal. unfold nth_day at 1. rewrite next_day_within by lia.
      rewrite <- IH by lia. unfold nth_day. do 2 f_equal. lia.
    + by rewrite Hlater.
Qed.

(** The days reported for a month are exactly its days up to today, each once and in
    order, each with every component asked for: the amount the backend has for
    that day and component, or zero. *)
Theorem fill_days_every_day daily y m types today :
  fill_days daily y m types today =
  map (λ d, (isoformat d, day_amounts daily (elements types) d))
    (List.filter (λ d, date_le d today) (days_of_month y m)).
Proof.
  unfold fill_days, days_of_month. pose proof (month_days_bounds y m) as Hb.
  destruct (Z.to_nat (month_days y m)) as [|k] eqn:Hk; [lia|].
  change (first_day y m) with (nth_day y m 1). apply fill_from_spec; lia.
Qed.

Example daily_items_cumulative :
  daily_usage_items [("2024-05-02", [("cpu", f64_ratio 4 1000)]);
                     ("2024-05-01", [("cpu", f64_ratio 4 1000)])] =
  [{| di_type := "cpu"; di_date := "2024-05-01"; di_amount := "0.00" |};
   {| di_type := "cpu"; di_date := "2024-05-02"; di_amount := "0.01" |}].
Proof. vm_compute. reflexivity. Qed.
