(* ===== verification/ReportEffects.v ===== *)
(** * The calls and the state of usage reporting

    What [OfferingReportProcessor] and the per-key usage report of
    [common/resource_api_keys.py] ask of Waldur, of the backend and of the clock,
    beside the calls every processor makes ([Agent.agentE]). *)

From stdpp Require Import base list strings gmap.
From Stdlib Require Import ZArith SpecFloat.
From S2P Require Import Prelude.
From S2P Require Import Structures.
From S2P Require Import Agent.
From S2P Require Import Numbers.
From S2P Require Import DailyUsage.

(** [ComponentUsage], as listed: [cu_usage] is what [float] makes of the usage, when
    Waldur sent one. *)
Record ComponentUsage : Type := {
  cu_uuid : string;
  cu_type : field string;
  cu_usage : option (res spec_float);
}.

(** [ComponentUserUsageCreateRequest]. *)
Record user_usage_item : Type := {
  ui_username : string;
  ui_usage : string;
  ui_date : date;
  ui_user : option string;
}.

(** The fields of [ResourceApiKeyStatus] the usage report reads; each current usage is
    what [float] makes of it. *)
Record KeyUsageRow : Type := {
  ku_uuid : string;
  ku_client_id : field string;
  ku_usage_period : field date;
  ku_current_usages : list (string * res spec_float);
  ku_spending_limits : field json;
}.

(** Usage per API key, and per API key and day. *)
Abbreviation key_amounts := (list (string * amounts)).
Abbreviation key_daily_amounts := (list (string * daily_amounts)).

Inductive reportE : Type → Type :=
| Agent {X} (c : agentE X) : reportE X
(* year and month of [get_current_time_in_timezone] *)
| CurrentTime (timezone : string) : reportE (Z * Z)
| UtcToday : reportE date
(* Waldur *)
| OfferingComponents : reportE (option (list OfferingComponent))
| ReportedResourcesList : reportE (list WaldurResource)
| ComponentUsagesList (resource_uuid : string) (billing_period : date)
    : reportE (list ComponentUsage)
| ComponentUserUsagesList (resource_uuid : string) (billing_period : date)
    : reportE (list (field string))
| SetUsage (resource_uuid : string) (report_date : date) (usages : list (string * string))
    (daily_usages : option (list daily_item)) : reportE unit
| SetUserUsages (component_usage_uuid : string) (items : list user_usage_item) : reportE unit
| KeyUsageRows (resource_uuid : string) : reportE (list KeyUsageRow)
| ReportKeyUsage (uuid : string) (billing_period : date) (usages : amounts)
    (daily_usages : option (list daily_item)) : reportE unit
(* the backend; an answer that is no dict is [None] *)
| UsageReportForPeriod (backend_ids : list string) (year month : Z) (r : WaldurResource)
    : reportE (list (string * usage))
| DailyUsageReportForPeriod (backend_ids : list string) (year month : Z)
    : reportE (list (string * daily_amounts))
| KeyUsageReport (backend_ids : list string) : reportE (list (string * option key_amounts))
| KeyDailyUsageReport (backend_ids : list string)
    : reportE (list (string * option key_daily_amounts))
| KeyUsageReportForPeriod (backend_ids : list string) (year month : Z)
    : reportE (option (list (string * option key_amounts)))
| KeyDailyUsageReportForPeriod (backend_ids : list string) (year month : Z)
    : reportE (option (list (string * option key_daily_amounts))).

(** What a report processor is constructed with beside [Agent.processor_config], and
    the flags of its backend. *)
Record report_config : Type := {
  rep_processor : processor_config;
  rep_timezone : string;
  rep_reporting_periods : nat;
  rep_final_report_days : Z;
  rep_supports_decreasing_usage : bool;
  rep_supports_daily_usage : bool;
  rep_supports_resource_api_key_usage : bool;
  rep_backend_components : list string;
}.

(** What a key was last sent for a closed month. *)
Inductive final_report : Type :=
| SentDays (items : list (string * string * string))
| SentTotals (totals : amounts)
| RefusedMonth.

(** The caches of the processor, [_final_reports], which outlives it, and the key listing
    a per-key report makes at most once. *)
Record report_state : Type := {
  rs_processor : processor_state;
  rs_final_reports : list ((string * date) * final_report);
  rs_listed : option (list KeyUsageRow);
}.

Abbreviation report := (M reportE report_state).

Fixpoint lift_calls {A} (p : prog agentE A) : prog reportE A :=
  match p with
  | Ret a => Ret a
  | Call c k => Call (Agent c) (λ r, lift_calls (k r))
  end.

(** A statement of the base processor, inside the report processor. *)
Definition lift {A} (m : proc A) : report A := λ s,
  pbind (lift_calls (m (rs_processor s)))
    (λ '(p, r), Ret ({| rs_processor := p; rs_final_reports := rs_final_reports s;
                        rs_listed := rs_listed s |}, r)).

Definition agent {S X} (c : agentE X) : M reportE S X := call (Agent c).

Definition set_final_reports (f : list ((string * date) * final_report)) (s : report_state)
  : report_state :=
  {| rs_processor := rs_processor s; rs_final_reports := f; rs_listed := rs_listed s |}.

Definition set_listed (l : option (list KeyUsageRow)) (s : report_state) : report_state :=
  {| rs_processor := rs_processor s; rs_final_reports := rs_final_reports s; rs_listed := l |}.

(** The footprint of a lifted statement. *)
Lemma calls_lift {A} (P : ∀ X, agentE X → bool) (P' : ∀ X, reportE X → bool) (m : proc A) :
  (∀ X c, P X c = true → P' X (Agent c) = true) → calls P m → calls P' (lift m).
Proof.
  intros HP Hm s. unfold lift. apply pcalls_bind; [|by intros [p r]].
  specialize (Hm (rs_processor s)). revert Hm. generalize (m (rs_processor s)).
  intros p; induction p as [a|X c k IH]; simpl; [done|]. intros [Hc Hk].
  split; [by apply HP|]. intros r. apply IH, Hk.
Qed.
