(* ===== verification/OfferingUsers.v ===== *)
(** * Offering users: username generation and account deletion

    [common/utils.py], the functions between [get_username_management_backend]
    and [_handle_validation_error], and
    [AbstractUsernameManagementBackend.get_or_create_username].

    The offering users are Python objects that [_update_user_username] mutates
    before it writes the username to Waldur, so the statements of
    [update_offering_users] run over the list of those objects as their state:
    an object keeps what was assigned to it even when the call after the
    assignment raises. *)

From stdpp Require Import base list strings gmap pretty.
From Stdlib Require Import ZArith Lia.
From S2P Require Import Prelude.
From S2P Require Import Structures.
From S2P Require Import Agent.
From S2P Require Import Samples.

Local Open Scope prog_scope.
Local Open Scope Z_scope.

Definition DEPARTED_OFFERING_USER_STATES : list OfferingUserState.t :=
  [OfferingUserState.REQUESTED_DELETION; OfferingUserState.DELETING;
   OfferingUserState.ERROR_DELETING].

Definition LIVE_OFFERING_USER_STATES : list OfferingUserState.t :=
  [OfferingUserState.OK; OfferingUserState.REQUESTED; OfferingUserState.CREATING;
   OfferingUserState.ERROR_CREATING; OfferingUserState.PENDING_ACCOUNT_LINKING;
   OfferingUserState.PENDING_ADDITIONAL_VALIDATION].

(** [isinstance(e, BackendError)]: the class and its subclasses. *)
Definition is_backend_error (e : exn) : bool :=
  match e with
  | BackendError _ | DuplicateResourceError _ | UserNotProvisionedError _
  | EntryExistsError _ | EntryMissingError _ | ContainerMissingError _ | ValueConflictError _
  | LiteLLMBackendError _ | LiteLLMEnterpriseFeatureError _ => true
  | _ => false
  end.

(** The text of an exception, [str(e)]. *)
Definition exn_str (e : exn) : string :=
  match e with
  | UnexpectedStatus _ _ _ text | TransportError text | HTTPStatusError _ text
  | OtherException text => text
  | DuplicateResourceError id =>
      "The resource with ID " +:+ id +:+ " already exists in the cluster"
  | KeyError key => "'" +:+ key +:+ "'"
  | BackendError msg | UserNotProvisionedError msg | BackendNotReadyError msg
  | ConfigurationError msg | OfferingUserAccountLinkingRequiredError msg _
  | OfferingUserAdditionalValidationRequiredError msg _ | ObjectNotFoundError msg
  | UsageAnomalyError msg | NotYet msg | Withdrawn msg | ValueError msg
  | AttributeError msg | IndexError msg | TypeError msg | OverflowError msg
  | StompException msg | OSError msg | EntryExistsError msg | EntryMissingError msg
  | ContainerMissingError msg | ValueConflictError msg | LDAPException msg
  | NotImplementedError msg | LiteLLMBackendError msg | LiteLLMEnterpriseFeatureError msg => msg
  end.

Definition format_waldur_error_details (format_exc : exn → string) (e : exn) (expose : bool)
  : string * string :=
  if expose then (exn_str e, format_exc e)
  else if is_backend_error e then (exn_str e, "")
  else ("Internal backend error. Please contact the service provider.", "").

Section Resolution.
Context {S : Type} (cfg : processor_config).

(** Building the configured backend runs plugin code; the fallback does not. *)
Definition get_username_management_backend : M agentE S username_backend :=
  match cfg_username_backend cfg with
  | UnknownUsernameBackend => ret UnknownUsernameBackend
  | KnownUsernameBackend a r c =>
      username ResolveUsernameBackend ;! ret (KnownUsernameBackend a r c)
  end.

(** Whether there is a backend that implements [release_users]. *)
Definition get_release_capable_username_backend : M agentE S bool :=
  let! r := attempt get_username_management_backend in
  match r with
  | Ok (KnownUsernameBackend _ releases _) => ret releases
  | Ok UnknownUsernameBackend => ret false
  | Err _ => ret false
  end.
End Resolution.

(** ** Deletion transitions *)
Section Deletion.
Context {S : Type}.

Definition check_transition (status : Z) (target : string) : M agentE S unit :=
  if 400 <=? status
  then raise (BackendError ("Transition to " +:+ target +:+ " rejected with HTTP "
                            +:+ pretty status))
  else ret ().

Definition claim_offering_user_deletion (u : OfferingUser) : M agentE S bool :=
  if decide (ou_state u = OfferingUserState.DELETING) then ret true
  else if negb (bool_decide (ou_state u ∈ DEPARTED_OFFERING_USER_STATES)) then ret false
  else
    let! status := waldur (OfferingUserSetDeleting (ou_uuid u)) in
    ret (negb (400 <=? status)).

Definition complete_offering_user_deletion (u : OfferingUser) : M agentE S unit :=
  let! status := waldur (OfferingUserSetDeleted (ou_uuid u)) in
  check_transition status "DELETED".

Definition mark_offering_user_error_deleting (u : OfferingUser) : M agentE S unit :=
  if bool_decide (ou_state u ∈ [OfferingUserState.REQUESTED_DELETION;
                                OfferingUserState.DELETING])
  then
    let! r := attempt (let! status := waldur (OfferingUserSetErrorDeleting (ou_uuid u)) in
                       check_transition status "ERROR_DELETING") in
    match r with Ok _ => ret () | Err _ => ret () end
  else ret ().

Definition release_offering_users (us : list OfferingUser) : M agentE S unit :=
  match us with
  | [] => ret ()
  | _ => let! r := attempt (username (ReleaseUsers us)) in
         match r with Ok _ => ret () | Err _ => ret () end
  end.
End Deletion.

(** ** Username generation *)

(** The objects of the list being processed. *)
Abbreviation ous := (M agentE (list OfferingUser)).

Definition get_or_create_username (u : OfferingUser) : ous string :=
  let! found := username (GetUsername u) in
  match found with
  | Some name => if nonempty name then ret name else username (GenerateUsername u)
  | None => username (GenerateUsername u)
  end.

Definition pending_state (s : OfferingUserState.t) : bool :=
  bool_decide (s ∈ [OfferingUserState.PENDING_ACCOUNT_LINKING;
                    OfferingUserState.PENDING_ADDITIONAL_VALIDATION]).

(** [offering_user.username = name] on the object at position [i]. *)
Definition assign_username (i : nat) (name : string) : ous unit :=
  modify_st (alter (λ u, with_username u name) i).

Definition update_user_username (i : nat) (u : OfferingUser) : ous bool :=
  let! name := get_or_create_username u in
  if negb (nonempty name) then ret false
  else
    (if pending_state (ou_state u)
     then waldur (OfferingUserSetValidationComplete (ou_uuid u)) ;! ret ()
     else ret ()) ;!
    assign_username i name ;!
    waldur (OfferingUserSetUsername (ou_uuid u) name) ;!
    ret true.

Definition set_error_creating (u : OfferingUser) : ous unit :=
  let! r := attempt (waldur (OfferingUserSetErrorCreating (ou_uuid u))) in
  match r with Ok _ => ret () | Err _ => ret () end.

Definition handle_account_linking_error (u : OfferingUser) (e : exn) (url : option string)
  : ous unit :=
  waldur (OfferingUserSetPendingAccountLinking (ou_uuid u) (exn_str e) url) ;! ret ().

Definition handle_validation_error (u : OfferingUser) (e : exn) (url : option string)
  : ous unit :=
  waldur (OfferingUserSetPendingValidation (ou_uuid u) (exn_str e) url) ;! ret ().

Definition process_requested_user (changed : bool) (iu : nat * OfferingUser) : ous bool :=
  let '(i, u) := iu in
  let! r := attempt (waldur (OfferingUserBeginCreating (ou_uuid u)) ;!
                     update_user_username i u) in
  match r with
  | Ok updated => ret (changed || updated)
  | Err e =>
      match e with
      | OfferingUserAccountLinkingRequiredError _ url => handle_account_linking_error u e url
      | OfferingUserAdditionalValidationRequiredError _ url => handle_validation_error u e url
      | _ => if is_backend_error e then set_error_creating u else ret ()
      end ;! ret changed
  end.

Definition process_requested_users (us : list (nat * OfferingUser)) : ous bool :=
  fold_m us process_requested_user false.

Definition process_pending_user (changed : bool) (iu : nat * OfferingUser) : ous bool :=
  let '(i, u) := iu in
  let! r := attempt (
    (if decide (ou_state u = OfferingUserState.ERROR_CREATING)
     then waldur (OfferingUserBeginCreating (ou_uuid u)) ;! ret ()
     else ret ()) ;!
    update_user_username i u) in
  match r with
  | Ok updated => ret (changed || updated)
  | Err e =>
      match e with
      | OfferingUserAccountLinkingRequiredError _ url =>
          if decide (ou_state u = OfferingUserState.PENDING_ACCOUNT_LINKING) then ret ()
          else handle_account_linking_error u e url
      | OfferingUserAdditionalValidationRequiredError _ url =>
          if decide (ou_state u = OfferingUserState.PENDING_ADDITIONAL_VALIDATION) then ret ()
          else handle_validation_error u e url
      | _ => if is_backend_error e &&
                bool_decide (ou_state u ∈ [OfferingUserState.CREATING;
                                           OfferingUserState.ERROR_CREATING])
             then set_error_creating u else ret ()
      end ;! ret changed
  end.

Definition process_pending_users (us : list (nat * OfferingUser)) : ous bool :=
  fold_m us process_pending_user false.

Definition can_generate_usernames : ous bool :=
  let! options := waldur OfferingPluginOptions in
  if negb (po_service_provider_policy options) then ret false
  else match po_service_provider_can_create options with
       | Val true => ret true
       | _ => ret false
       end.

Definition group_users_by_state (us : list OfferingUser)
  : list (nat * OfferingUser) * list (nat * OfferingUser) :=
  let numbered := imap pair us in
  (filter (λ iu : nat * OfferingUser, ou_state iu.2 = OfferingUserState.REQUESTED) numbered,
   filter (λ iu : nat * OfferingUser,
     ou_state iu.2 ∈ [OfferingUserState.CREATING; OfferingUserState.PENDING_ACCOUNT_LINKING;
                      OfferingUserState.PENDING_ADDITIONAL_VALIDATION;
                      OfferingUserState.ERROR_CREATING]) numbered).

(** Whether any username was written; the objects are the state. *)
Definition update_offering_users (cfg : processor_config) : ous bool :=
  let! us := get_st in
  match us with
  | [] => ret false
  | _ =>
      let! allowed := can_generate_usernames in
      if negb allowed then ret false
      else
        let! b := get_username_management_backend cfg in
        match b with
        | UnknownUsernameBackend => ret false
        | KnownUsernameBackend false _ _ => ret false
        | KnownUsernameBackend true _ _ =>
            let '(requested, pending) := group_users_by_state us in
            let! c1 := match requested with
                       | [] => ret false
                       | _ => process_requested_users requested
                       end in
            let! c2 := match pending with
                       | [] => ret false
                       | _ => process_pending_users pending
                       end in
            ret (c1 || c2)
        end
  end.

(** ** What the agent asks of Waldur about usernames *)

(** The offering lets the agent mint usernames: what the history has read. *)
Definition minting_allowed (H : trace agentE) : Prop :=
  ∃ o, Ev (Waldur OfferingPluginOptions) (Ok o) ∈ H ∧
       po_service_provider_policy o = true ∧
       po_service_provider_can_create o = Val true.

(** The username backend named [u] [name] in this pass. *)
Definition named_by_backend (u : OfferingUser) (name : string) (H : trace agentE) : Prop :=
  Ev (Username (GetUsername u)) (Ok (Some name)) ∈ H ∨
  Ev (Username (GenerateUsername u)) (Ok name) ∈ H.

Definition awaits_username (s : OfferingUserState.t) : Prop :=
  s = OfferingUserState.REQUESTED ∨
  s ∈ [OfferingUserState.CREATING; OfferingUserState.PENDING_ACCOUNT_LINKING;
       OfferingUserState.PENDING_ADDITIONAL_VALIDATION; OfferingUserState.ERROR_CREATING].

(** The state an offering user must be listed in for the agent to request a
    transition (or a username) for it. *)
Definition transition_guard (us : list OfferingUser) : guard agentE := λ X H c,
  match c with
  | Waldur w =>
      match w with
      | OfferingUserSetUsername uuid name =>
          ∃ u, u ∈ us ∧ ou_uuid u = uuid ∧ awaits_username (ou_state u) ∧ name ≠ "" ∧
               named_by_backend u name H ∧ minting_allowed H
      | OfferingUserBeginCreating uuid =>
          ∃ u, u ∈ us ∧ ou_uuid u = uuid ∧
               ou_state u ∈ [OfferingUserState.REQUESTED; OfferingUserState.ERROR_CREATING]
      | OfferingUserSetValidationComplete uuid =>
          ∃ u, u ∈ us ∧ ou_uuid u = uuid ∧
               ou_state u ∈ [OfferingUserState.PENDING_ACCOUNT_LINKING;
                             OfferingUserState.PENDING_ADDITIONAL_VALIDATION]
      | OfferingUserSetErrorCreating uuid =>
          ∃ u, u ∈ us ∧ ou_uuid u = uuid ∧
               ou_state u ∈ [OfferingUserState.REQUESTED; OfferingUserState.CREATING;
                             OfferingUserState.ERROR_CREATING]
      | OfferingUserSetPendingAccountLinking uuid _ _ =>
          ∃ u, u ∈ us ∧ ou_uuid u = uuid ∧ awaits_username (ou_state u) ∧
               ou_state u ≠ OfferingUserState.PENDING_ACCOUNT_LINKING
      | OfferingUserSetPendingValidation uuid _ _ =>
          ∃ u, u ∈ us ∧ ou_uuid u = uuid ∧ awaits_username (ou_state u) ∧
               ou_state u ≠ OfferingUserState.PENDING_ADDITIONAL_VALIDATION
      | _ => True
      end
  | _ => True
  end.

(** Some username write of the history was accepted by Waldur. *)
Definition username_written (H : trace agentE) : bool :=
  existsb (λ ev, match ev with
                 | Ev c r => match c in agentE X return res X → bool with
                             | Waldur w => match w in waldurE X return res X → bool with
                                           | OfferingUserSetUsername _ _ => λ r,
                                               match r with Ok _ => true | Err _ => false end
                                           | _ => λ _, false
                                           end
                             | _ => λ _, false
                             end r
                 end) H.

Lemma minting_allowed_cons H ev : minting_allowed H → minting_allowed (ev :: H).
Proof. intros (o & Ho & ?). exists o. split; [by right|done]. Qed.

Lemma named_cons u n H ev : named_by_backend u n H → named_by_backend u n (ev :: H).
Proof. intros [?|?]; [left|right]; by right. Qed.

#[local] Hint Resolve minting_allowed_cons named_cons : core.

Section UsernameProofs.
Context (us : list OfferingUser).
Local Abbreviation G := (transition_guard us).

Lemma get_or_create_spec u s H :
  wpM G (get_or_create_username u) (λ r s' H',
    s' = s ∧ (minting_allowed H → minting_allowed H') ∧
    username_written H' = username_written H ∧
    match r with Ok n => named_by_backend u n H' | Err _ => True end) s H.
Proof.
  unfold get_or_create_username. wp_step. wp_call as [[n|]|e]; [|..|by auto].
  - destruct (nonempty n); [wp_step|wp_call as [n'|e]]; split_and!; eauto;
      unfold named_by_backend; rewrite !elem_of_cons; auto.
  - wp_call as [n'|e]; split_and!; eauto; unfold named_by_backend; rewrite !elem_of_cons; auto.
Qed.

Lemma update_user_username_spec i u s H :
  u ∈ us → awaits_username (ou_state u) → minting_allowed H →
  wpM G (update_user_username i u) (λ r s' H', minting_allowed H' ∧
    match r with
    | Ok b => username_written H' = b || username_written H
    | Err _ => username_written H' = username_written H
    end) s H.
Proof.
  intros Hu Hst Hm. unfold update_user_username. wp_step.
  eapply wpM_mono; [apply get_or_create_spec|]. intros [n|e] s1 H1 (-> & Hm1 & Hw & Hn);
    [|by rewrite Hw; auto]. cbv beta iota.
  destruct (nonempty n) eqn:Hne; simpl negb; cbv iota; [|by wp_step; rewrite Hw; auto].
  apply nonempty_spec in Hne. wp_step.
  eapply (wpM_mono _ _ (λ r s' H', minting_allowed H' ∧ username_written H' = username_written H
                                   ∧ named_by_backend u n H')).
  - destruct (pending_state (ou_state u)) eqn:Hp; [|by wp_step; auto].
    apply bool_decide_eq_true in Hp.
    wp_step. apply wpM_call; [by exists u|]. intros [st|e]; [wp_step|]; eauto 6.
  - intros [[]|e] s2 H2 (Hm2 & Hw2 & Hn2); [|done]. unfold assign_username. wp_steps.
    apply wpM_call; [by exists u; auto 10|]. intros [[]|e]; [wp_step|]; simpl; eauto.
Qed.

Lemma set_error_creating_spec u s H :
  u ∈ us → ou_state u ∈ [OfferingUserState.REQUESTED; OfferingUserState.CREATING;
                          OfferingUserState.ERROR_CREATING] → minting_allowed H →
  wpM G (set_error_creating u) (λ r s' H', minting_allowed H' ∧ r = Ok () ∧
                                           username_written H' = username_written H) s H.
Proof.
  intros Hu Hst Hm. unfold set_error_creating. wp_steps.
  apply wpM_call; [by exists u|]. intros [st|e]; wp_step; eauto.
Qed.

Local Abbreviation body_post b0 H0 := (λ (r : res bool) (s' : list OfferingUser) H',
  minting_allowed H' ∧
  match r with
  | Ok b => ∀ w, b0 || w = username_written H0 → b || w = username_written H'
  | Err _ => True
  end).

(** What an exception handler leaves alone. *)
Local Abbreviation handled H0 := (λ (r : res unit) (s' : list OfferingUser) H',
  minting_allowed H' ∧ username_written H' = username_written H0).

Lemma handle_account_linking_spec u e url s H :
  u ∈ us → awaits_username (ou_state u) →
  ou_state u ≠ OfferingUserState.PENDING_ACCOUNT_LINKING → minting_allowed H →
  wpM G (handle_account_linking_error u e url) (handled H) s H.
Proof.
  intros Hu Hst Hne Hm. unfold handle_account_linking_error. wp_steps.
  apply wpM_call; [by exists u|]. intros [st|x]; [wp_step|]; auto.
Qed.

Lemma handle_validation_spec u e url s H :
  u ∈ us → awaits_username (ou_state u) →
  ou_state u ≠ OfferingUserState.PENDING_ADDITIONAL_VALIDATION → minting_allowed H →
  wpM G (handle_validation_error u e url) (handled H) s H.
Proof.
  intros Hu Hst Hne Hm. unfold handle_validation_error. wp_steps.
  apply wpM_call; [by exists u|]. intros [st|x]; [wp_step|]; auto.
Qed.

Lemma set_error_creating_handled u s H :
  u ∈ us → ou_state u ∈ [OfferingUserState.REQUESTED; OfferingUserState.CREATING;
                          OfferingUserState.ERROR_CREATING] → minting_allowed H →
  wpM G (set_error_creating u) (handled H) s H.
Proof.
  intros. eapply wpM_mono; [by apply set_error_creating_spec|].
  by intros r s' H' (? & _ & ?).
Qed.

Lemma ret_handled s H : minting_allowed H → wpM G (ret ()) (handled H) s H.
Proof. intros. by apply wpM_ret. Qed.

(** After the handler the loop goes on with the flag it had. *)
Lemma handled_then b (m : ous unit) s H H0 :
  username_written H = username_written H0 →
  wpM G m (handled H) s H → wpM G (m ;! ret b) (body_post b H0) s H.
Proof.
  intros Hw Hm. wp_step. eapply wpM_mono; [exact Hm|].
  intros [[]|e] s' H' [Hm' Hw']; [wp_step|]; split; auto. intros w Hb. congruence.
Qed.

Lemma process_requested_user_spec b i u s H :
  u ∈ us → ou_state u = OfferingUserState.REQUESTED → minting_allowed H →
  wpM G (process_requested_user b (i, u)) (body_post b H) s H.
Proof.
  intros Hu Hst Hm.
  assert (awaits_username (ou_state u)) as Haw by (by left).
  assert (Hh : ∀ e s' H', minting_allowed H' → username_written H' = username_written H →
    wpM G (match e with
           | OfferingUserAccountLinkingRequiredError _ url => handle_account_linking_error u e url
           | OfferingUserAdditionalValidationRequiredError _ url => handle_validation_error u e url
           | _ => if is_backend_error e then set_error_creating u else ret ()
           end ;! ret b) (body_post b H) s' H').
  { intros e s' H' Hm' Hw'. apply handled_then; [done|].
    destruct e; simpl; try (by apply ret_handled);
      first [apply set_error_creating_handled | apply handle_account_linking_spec
            | apply handle_validation_spec]; try done; rewrite Hst; first [by left | done]. }
  unfold process_requested_user. wp_steps. apply wpM_call.
  { exists u. rewrite Hst. split_and!; [done|done|]. left. }
  intros [st|e]; [|by apply Hh; auto].
  eapply wpM_mono; [apply update_user_username_spec; auto|].
  intros [b'|e] s' H' [Hm' Hw]; cbv iota; [|by apply Hh].
  wp_step. split; [done|]. intros w Hb. transitivity (b' || username_written H);
    [rewrite <- Hb; by destruct b, b', w|by symmetry].
Qed.

Lemma process_pending_user_spec b i u s H :
  u ∈ us → ou_state u ∈ [OfferingUserState.CREATING; OfferingUserState.PENDING_ACCOUNT_LINKING;
                    OfferingUserState.PENDING_ADDITIONAL_VALIDATION;
                    OfferingUserState.ERROR_CREATING] → minting_allowed H →
  wpM G (process_pending_user b (i, u)) (body_post b H) s H.
Proof.
  intros Hu Hst Hm.
  assert (awaits_username (ou_state u)) as Haw by (by right).
  set (handler e := match e with
           | OfferingUserAccountLinkingRequiredError _ url =>
               if decide (ou_state u = OfferingUserState.PENDING_ACCOUNT_LINKING) then ret ()
               else handle_account_linking_error u e url
           | OfferingUserAdditionalValidationRequiredError _ url =>
               if decide (ou_state u = OfferingUserState.PENDING_ADDITIONAL_VALIDATION)
               then ret () else handle_validation_error u e url
           | _ => if is_backend_error e &&
                     bool_decide (ou_state u ∈ [OfferingUserState.CREATING;
                                                OfferingUserState.ERROR_CREATING])
                  then set_error_creating u else ret ()
           end).
  assert (Hh : ∀ e s' H', minting_allowed H' → username_written H' = username_written H →
    wpM G (handler e ;! ret b) (body_post b H) s' H').
  { intros e s' H' Hm' Hw'. apply handled_then; [done|].
    unfold handler. destruct e; simpl; repeat case_decide; try case_bool_decide;
      first [ by apply ret_handled | by apply handle_account_linking_spec
            | by apply handle_validation_spec
            | apply set_error_creating_handled; [done|by right|done] ]. }
  unfold process_pending_user. fold handler. wp_steps.
  eapply (wpM_mono _ _ (λ r s' H', minting_allowed H' ∧ username_written H' = username_written H)).
  - case_decide as Hd; [|by wp_step]. wp_step. apply wpM_call.
    { exists u. rewrite Hd. split_and!; [done|done|]. right. left. }
    intros [st|e]; [wp_step|]; auto.
  - intros [[]|e] s' H' [Hm' Hw']; cbv iota; [|by apply Hh].
    eapply wpM_mono; [by apply update_user_username_spec|].
    intros [b'|e] s2 H2 [Hm2 Hw2]; cbv iota; [|by apply Hh; [|congruence]].
    wp_step. split; [done|]. intros w Hb. rewrite Hw2, Hw', <- Hb. by destruct b, b', w.
Qed.

Lemma user_loop_spec (body : bool → nat * OfferingUser → ous bool)
    (l : list (nat * OfferingUser)) s H :
  (∀ b i u s H, (i, u) ∈ l → minting_allowed H →
     wpM G (body b (i, u)) (body_post b H) s H) →
  minting_allowed H →
  wpM G (fold_m l body false) (body_post false H) s H.
Proof.
  intros Hb Hm.
  apply (wpM_fold_m _ _ _ (λ _ b s H', minting_allowed H' ∧
    ∀ w, w = username_written H → b || w = username_written H')); [|..].
  - intros xs [i u] b s' H' [ys ->] [Hm' Hw']. eapply wpM_mono.
    { apply Hb; [|done]. apply elem_of_app. right. left. }
    intros [b'|e] s2 H2 [Hm2 Hb2]; auto.
  - intros b s' H' [Hm' Hw']; auto.
  - auto.
Qed.

Lemma grouped_requested i u :
  (i, u) ∈ (group_users_by_state us).1 →
  u ∈ us ∧ ou_state u = OfferingUserState.REQUESTED.
Proof.
  simpl. intros [Hs Hin]%list_elem_of_filter. split; [|done].
  apply elem_of_lookup_imap in Hin as (j & v & [= -> ->] & Hv). by eapply list_elem_of_lookup_2.
Qed.

Lemma grouped_pending i u :
  (i, u) ∈ (group_users_by_state us).2 →
  u ∈ us ∧ ou_state u ∈ [OfferingUserState.CREATING; OfferingUserState.PENDING_ACCOUNT_LINKING;
                    OfferingUserState.PENDING_ADDITIONAL_VALIDATION;
                    OfferingUserState.ERROR_CREATING].
Proof.
  simpl. intros [Hs Hin]%list_elem_of_filter. split; [|done].
  apply elem_of_lookup_imap in Hin as (j & v & [= -> ->] & Hv). by eapply list_elem_of_lookup_2.
Qed.

Lemma can_generate_usernames_spec s H :
  wpM G can_generate_usernames (λ r s' H', s' = s ∧ username_written H' = username_written H ∧
    match r with Ok true => minting_allowed H' | _ => True end) s H.
Proof.
  unfold can_generate_usernames. wp_step. wp_call as [o|e]; [|done].
  destruct (po_service_provider_policy o) eqn:Hp; simpl negb; cbv iota; [|by wp_step].
  destruct (po_service_provider_can_create o) as [| |[]] eqn:Hc; wp_step; try done.
  split_and!; [done|done|]. exists o. split; [left|done].
Qed.

Lemma update_offering_users_spec cfg H :
  wpM G (update_offering_users cfg) (λ r _ H', match r with
    | Ok b => b || username_written H = username_written H'
    | Err _ => True end) us H.
Proof.
  unfold update_offering_users. wp_steps. destruct us as [|u0 us'] eqn:Hus; [by wp_step|].
  rewrite <- Hus. wp_step. eapply wpM_mono; [apply can_generate_usernames_spec|].
  intros [[]|e] s1 H1 (-> & Hw & Hm); cbv beta iota; simpl negb; cbv iota;
    [|by wp_step|done].
  wp_step. eapply (wpM_mono _ _ (λ r s' H', s' = us ∧ minting_allowed H' ∧
                                   username_written H' = username_written H)).
  { unfold get_username_management_backend. destruct (cfg_username_backend cfg); [by wp_step|].
    wp_step. wp_call as [[]|e]; [wp_step|]; auto. }
  intros [b|e] s2 H2 (-> & Hm2 & Hw2); [|done]. destruct b as [|[] rel rec]; [by wp_step| |by wp_step].
  pose proof grouped_requested as Hreq. pose proof grouped_pending as Hpen.
  destruct (group_users_by_state us) as [requested pending] eqn:Hg. simpl fst in *; simpl snd in *.
  wp_step.
  eapply (wpM_mono _ _ (body_post false H2)).
  { destruct requested as [|r0 rs]; [by wp_step|].
    apply user_loop_spec; [|done]. intros b i u s H3 Hin Hm3.
    destruct (Hreq i u Hin). by apply process_requested_user_spec. }
  intros [c1|e] s3 H3 [Hm3 Hc1]; [|done]. wp_step.
  eapply (wpM_mono _ _ (body_post false H3)).
  { destruct pending as [|p0 ps]; [by wp_step|].
    apply user_loop_spec; [|done]. intros b i u s H4 Hin Hm4.
    destruct (Hpen i u Hin). by apply process_pending_user_spec. }
  intros [c2|e] s4 H4 [Hm4 Hc2]; [|done]. wp_step.
  specialize (Hc1 _ (eq_sym Hw2)). specialize (Hc2 _ Hc1). rewrite <- Hc2.
  rewrite <- orb_assoc. destruct c1, c2; auto.
Qed.
End UsernameProofs.

(** The calls of a username pass. *)
Definition username_calls : ∀ X, agentE X → bool := λ X c,
  match c with
  | Username x => match x with ReleaseUsers _ => false | _ => true end
  | Waldur w =>
      match w with
      | OfferingPluginOptions | OfferingUserBeginCreating _ | OfferingUserSetErrorCreating _
      | OfferingUserSetPendingAccountLinking _ _ _ | OfferingUserSetPendingValidation _ _ _
      | OfferingUserSetValidationComplete _ | OfferingUserSetUsername _ _ => true
      | _ => false
      end
  | _ => false
  end.

Lemma update_user_username_calls i u : calls username_calls (update_user_username i u).
Proof. unfold update_user_username, get_or_create_username, assign_username. calls_auto. Qed.
#[export] Hint Resolve update_user_username_calls : calls.

Lemma set_error_creating_calls u : calls username_calls (set_error_creating u).
Proof. unfold set_error_creating. calls_auto. Qed.
Lemma handle_account_linking_calls u e url :
  calls username_calls (handle_account_linking_error u e url).
Proof. unfold handle_account_linking_error. calls_auto. Qed.
Lemma handle_validation_calls u e url : calls username_calls (handle_validation_error u e url).
Proof. unfold handle_validation_error. calls_auto. Qed.
#[export] Hint Resolve set_error_creating_calls handle_account_linking_calls
  handle_validation_calls : calls.

Lemma process_requested_user_calls b iu : calls username_calls (process_requested_user b iu).
Proof. destruct iu. unfold process_requested_user. calls_auto. Qed.
Lemma process_pending_user_calls b iu : calls username_calls (process_pending_user b iu).
Proof. destruct iu. unfold process_pending_user. calls_auto. Qed.
#[export] Hint Resolve process_requested_user_calls process_pending_user_calls : calls.

Lemma get_username_management_backend_calls {S} cfg :
  calls (S:=S) username_calls (get_username_management_backend cfg).
Proof. unfold get_username_management_backend. calls_auto. Qed.
Lemma can_generate_usernames_calls : calls username_calls can_generate_usernames.
Proof. unfold can_generate_usernames. calls_auto. Qed.
#[export] Hint Resolve get_username_management_backend_calls can_generate_usernames_calls : calls.

Lemma update_offering_users_calls cfg : calls username_calls (update_offering_users cfg).
Proof.
  unfold update_offering_users, process_requested_users, process_pending_users. calls_auto.
Qed.
#[export] Hint Resolve update_offering_users_calls : calls.

(** *** The users of a list keep their identity *)

Definition identities (us : list OfferingUser) : list (string * field string) :=
  map (λ u, (ou_uuid u, ou_user_username u)) us.

Lemma assign_username_keeps ids i name :
  keeps (λ us, identities us = ids) (assign_username i name).
Proof.
  apply keeps_modify. intros us <-. unfold identities. revert i.
  induction us as [|u us IH]; intros [|i]; simpl; [done..|]. by rewrite <- (IH i).
Qed.
#[local] Hint Resolve assign_username_keeps : keeps.

Lemma update_offering_users_keeps cfg ids :
  keeps (λ us, identities us = ids) (update_offering_users cfg).
Proof.
  unfold update_offering_users, process_requested_users, process_pending_users,
    process_requested_user, process_pending_user, update_user_username,
    get_or_create_username, handle_account_linking_error, handle_validation_error,
    set_error_creating, can_generate_usernames, get_username_management_backend.
  keeps_auto.
Qed.

(** ** Theorems *)

(** C40: a username is written to Waldur only for a listed offering user that awaits
    one, only with the non-empty name the username backend gave for that very
    user earlier in the pass, and only after Waldur's plugin options were read
    and allow the service provider to mint names. *)
Theorem usernames_written_are_minted cfg us τ s' r τ1 τ2 uuid name a :
  runs (update_offering_users cfg us) τ (s', r) →
  τ = τ1 ++ Ev (Waldur (OfferingUserSetUsername uuid name)) a :: τ2 →
  ∃ u, u ∈ us ∧ ou_uuid u = uuid ∧ awaits_username (ou_state u) ∧ name ≠ "" ∧
       named_by_backend u name τ1 ∧ minting_allowed τ1.
Proof.
  intros Hrun Hτ.
  destruct (wpM_call_guard _ _ _ _ _ _ _ _ _ _ _ (update_offering_users_spec us cfg [])
              Hrun Hτ) as (u & ? & ? & ? & ? & Hn & o & Ho & ?).
  exists u. split_and!; try done.
  - destruct Hn; [left|right]; by apply elem_of_rev.
  - exists o. by rewrite elem_of_rev in Ho.
Qed.

(** The state transitions the pass requests are those the listed state of the
    user admits: creation starts from requested or failed creation, validation
    completes from a pending state only, and a user waiting for account linking
    or validation is never marked as failed to create. *)
Theorem offering_user_transitions_admitted cfg us τ s' r τ1 τ2 uuid (c : waldurE Z) a :
  runs (update_offering_users cfg us) τ (s', r) →
  τ = τ1 ++ Ev (Waldur c) a :: τ2 →
  (c = OfferingUserBeginCreating uuid →
     ∃ u, u ∈ us ∧ ou_uuid u = uuid ∧
       ou_state u ∈ [OfferingUserState.REQUESTED; OfferingUserState.ERROR_CREATING]) ∧
  (c = OfferingUserSetValidationComplete uuid →
     ∃ u, u ∈ us ∧ ou_uuid u = uuid ∧
       ou_state u ∈ [OfferingUserState.PENDING_ACCOUNT_LINKING;
                     OfferingUserState.PENDING_ADDITIONAL_VALIDATION]) ∧
  (c = OfferingUserSetErrorCreating uuid →
     ∃ u, u ∈ us ∧ ou_uuid u = uuid ∧
       ou_state u ∈ [OfferingUserState.REQUESTED; OfferingUserState.CREATING;
                     OfferingUserState.ERROR_CREATING]).
Proof.
  intros Hrun Hτ.
  pose proof (wpM_call_guard _ _ _ _ _ _ _ _ _ _ _ (update_offering_users_spec us cfg [])
              Hrun Hτ) as HG.
  split_and!; intros ->; exact HG.
Qed.

(** The pass answers True exactly when Waldur accepted one of its username
    writes (the callers refresh their lists on that answer). *)
Theorem update_offering_users_reports_writes cfg us τ s' b :
  runs (update_offering_users cfg us) τ (s', Ok b) → b = username_written τ.
Proof.
  intros Hrun.
  destruct (wpM_sound _ _ _ _ _ _ _ (update_offering_users_spec us cfg []) Hrun) as [HQ _].
  simpl in HQ. rewrite orb_false_r in HQ. unfold username_written in *.
  by rewrite existsb_rev in HQ.
Qed.

(** When the write of a freshly minted username fails, the pass answers False
    (so nothing is refreshed) while the in-memory offering user keeps the name
    Waldur never stored. *)
Theorem failed_username_write_kept_locally cfg u name releases reconciles :
  cfg_username_backend cfg = KnownUsernameBackend true releases reconciles →
  ou_state u = OfferingUserState.REQUESTED → name ≠ "" →
  ∃ τ, runs (update_offering_users cfg [u]) τ ([with_username u name], Ok false) ∧
       username_written τ = false.
Proof.
  intros Hcfg Hst Hne.
  exists [Ev (Waldur OfferingPluginOptions) (Ok (Build_plugin_options true (Val true)));
     Ev (Username ResolveUsernameBackend) (Ok ());
     Ev (Waldur (OfferingUserBeginCreating (ou_uuid u))) (Ok 200);
     Ev (Username (GetUsername u)) (Ok (Some name));
     Ev (Waldur (OfferingUserSetUsername (ou_uuid u) name)) (Err (TransportError "timeout"))].
  split; [|done]. destruct u, cfg, name as [|ch rest]; [done|]. simpl in Hcfg, Hst. subst.
  solve_runs.
Qed.

(** ** Witnesses *)

(** A pass in which one requested user is named [alice]. *)
Definition sample_pass : trace agentE :=
  [Ev (Waldur OfferingPluginOptions) (Ok (Build_plugin_options true (Val true)));
   Ev (Username ResolveUsernameBackend) (Ok ());
   Ev (Waldur (OfferingUserBeginCreating "ou-1")) (Ok 200);
   Ev (Username (GetUsername (sample_user OfferingUserState.REQUESTED ""))) (Ok None);
   Ev (Username (GenerateUsername (sample_user OfferingUserState.REQUESTED ""))) (Ok "alice");
   Ev (Waldur (OfferingUserSetUsername "ou-1" "alice")) (Ok ())].

Lemma usernames_written_are_minted_witness :
  named_by_backend (sample_user OfferingUserState.REQUESTED "") "alice" (take 5 sample_pass).
Proof.
  destruct (usernames_written_are_minted sample_config
    [sample_user OfferingUserState.REQUESTED ""] sample_pass
    [sample_user OfferingUserState.REQUESTED "alice"] (Ok true)
    (take 5 sample_pass) [] "ou-1" "alice" (Ok ())) as (u & Hu & Hrest).
  - solve_runs.
  - reflexivity.
  - apply list_elem_of_singleton in Hu. subst u. apply Hrest.
Defined.

Lemma offering_user_transitions_admitted_witness :
  ∃ u, u ∈ [sample_user OfferingUserState.REQUESTED ""] ∧ ou_uuid u = "ou-1" ∧
       ou_state u ∈ [OfferingUserState.REQUESTED; OfferingUserState.ERROR_CREATING].
Proof.
  refine (proj1 (offering_user_transitions_admitted sample_config
    [sample_user OfferingUserState.REQUESTED ""] sample_pass
    [sample_user OfferingUserState.REQUESTED "alice"] (Ok true)
    (take 2 sample_pass) (drop 3 sample_pass) "ou-1" (OfferingUserBeginCreating "ou-1") (Ok 200)
    _ _) _).
  - solve_runs.
  - reflexivity.
  - reflexivity.
Defined.

Lemma update_offering_users_reports_writes_witness : true = username_written sample_pass.
Proof.
  apply (update_offering_users_reports_writes sample_config
    [sample_user OfferingUserState.REQUESTED ""] sample_pass
    [sample_user OfferingUserState.REQUESTED "alice"]).
  solve_runs.
Defined.

Lemma failed_username_write_kept_locally_witness :
  ∃ τ, runs (update_offering_users sample_config [sample_user OfferingUserState.REQUESTED ""]) τ
         ([with_username (sample_user OfferingUserState.REQUESTED "") "alice"], Ok false) ∧
       username_written τ = false.
Proof. apply (failed_username_write_kept_locally _ _ _ true true); [reflexivity..|discriminate]. Defined.
