(* ===== verification/BaseProcessor.v ===== *)
(** * What every processor shares

    [common/processors.py]: the module-level helpers and
    [OfferingBaseProcessor], the caches it keeps, the profile attributes it
    hands to backends, resource creation under a unique backend id, and the
    synchronisation of service and course accounts. *)

From stdpp Require Import base list strings gmap sets pretty.
From Stdlib Require Import ZArith Lia Ascii.
From S2P Require Import Prelude.
From S2P Require Import Structures.
From S2P Require Import Agent.
From S2P Require Import Samples.
From S2P Require Import OfferingUsers.

Local Open Scope prog_scope.
Local Open Scope Z_scope.

(** ** Module-level helpers *)

Definition is_transient_waldur_api_error (e : exn) : bool :=
  match e with
  | TransportError _ => true
  | UnexpectedStatus status _ _ _ => (500 <=? status) || (status =? 429)
  | _ => false
  end.

(** [s.rstrip("/")]. *)
Fixpoint rstrip_slash (s : string) : string :=
  match s with
  | EmptyString => ""
  | String c s' =>
      match rstrip_slash s' with
      | EmptyString => if Ascii.eqb c "/"%char then "" else String c ""
      | t => String c t
      end
  end.

Definition url_is_under (u base : url) : bool :=
  if negb (String.eqb (url_scheme u) (url_scheme base) && String.eqb (url_host u) (url_host base)
           && bool_decide (url_port u = url_port base)) then false
  else
    let base_path := rstrip_slash (url_path base) in
    String.eqb (url_path u) base_path || String.prefix (base_path +:+ "/") (url_path u).

Definition serialize_attr_value (v : attr_value) : json :=
  match v with
  | AttrDate iso => JStr iso
  | AttrEnum value => value
  | AttrPlain value => value
  end.

Definition TERMINAL_ORDER_STATES : list OrderState.t :=
  [OrderState.DONE; OrderState.CANCELED; OrderState.REJECTED; OrderState.ERRED].

(** ** Class tables *)

Definition ATTRIBUTE_TO_FIELDS : list (string * list string) :=
  [("username", ["user_username"]);
   ("full_name", ["user_full_name"; "user_first_name"; "user_last_name"]);
   ("email", ["user_email"]); ("phone_number", ["user_phone_number"]);
   ("organization", ["user_organization"]); ("job_title", ["user_job_title"]);
   ("affiliations", ["user_affiliations"]); ("gender", ["user_gender"]);
   ("personal_title", ["user_personal_title"]); ("place_of_birth", ["user_place_of_birth"]);
   ("country_of_residence", ["user_country_of_residence"]);
   ("nationality", ["user_nationality"]); ("nationalities", ["user_nationalities"]);
   ("organization_country", ["user_organization_country"]);
   ("organization_type", ["user_organization_type"]);
   ("organization_registry_code", ["user_organization_registry_code"]);
   ("eduperson_assurance", ["user_eduperson_assurance"]);
   ("civil_number", ["user_civil_number"]); ("birth_date", ["user_birth_date"]);
   ("identity_source", ["user_identity_source"]); ("active_isds", ["user_active_isds"])]%string.

Definition CORE_FIELDS : list string :=
  ["user_uuid"; "username"; "url"; "state"; "uuid"]%string.

Definition POSIX_FIELDS : list string :=
  ["uidnumber"; "primarygroup"; "login_shell"; "home_directory"]%string.

Definition DEFAULT_EXPOSED_FIELDS : list string := ["username"; "full_name"; "email"]%string.

Definition ATTRIBUTE_CONFIG_TTL : Z := 300.

Section Updates.
Implicit Types (s : processor_state).

Definition set_offering_users v s := {| st_offering_users := v;
  st_known_usernames := st_known_usernames s; st_known_failed := st_known_failed s;
  st_service_accounts := st_service_accounts s; st_course_accounts := st_course_accounts s;
  st_team := st_team s; st_source_project := st_source_project s;
  st_release_backend := st_release_backend s; st_attribute_config := st_attribute_config s |}.
Definition set_known v failed s := {| st_offering_users := st_offering_users s;
  st_known_usernames := v; st_known_failed := failed;
  st_service_accounts := st_service_accounts s; st_course_accounts := st_course_accounts s;
  st_team := st_team s; st_source_project := st_source_project s;
  st_release_backend := st_release_backend s; st_attribute_config := st_attribute_config s |}.
Definition set_accounts sa ca s := {| st_offering_users := st_offering_users s;
  st_known_usernames := st_known_usernames s; st_known_failed := st_known_failed s;
  st_service_accounts := sa; st_course_accounts := ca;
  st_team := st_team s; st_source_project := st_source_project s;
  st_release_backend := st_release_backend s; st_attribute_config := st_attribute_config s |}.
Definition set_team v s := {| st_offering_users := st_offering_users s;
  st_known_usernames := st_known_usernames s; st_known_failed := st_known_failed s;
  st_service_accounts := st_service_accounts s; st_course_accounts := st_course_accounts s;
  st_team := v; st_source_project := st_source_project s;
  st_release_backend := st_release_backend s; st_attribute_config := st_attribute_config s |}.
Definition set_source_project v s := {| st_offering_users := st_offering_users s;
  st_known_usernames := st_known_usernames s; st_known_failed := st_known_failed s;
  st_service_accounts := st_service_accounts s; st_course_accounts := st_course_accounts s;
  st_team := st_team s; st_source_project := v;
  st_release_backend := st_release_backend s; st_attribute_config := st_attribute_config s |}.
Definition set_attribute_config v s := {| st_offering_users := st_offering_users s;
  st_known_usernames := st_known_usernames s; st_known_failed := st_known_failed s;
  st_service_accounts := st_service_accounts s; st_course_accounts := st_course_accounts s;
  st_team := st_team s; st_source_project := st_source_project s;
  st_release_backend := st_release_backend s; st_attribute_config := v |}.
Definition set_release_backend v s := {| st_offering_users := st_offering_users s;
  st_known_usernames := st_known_usernames s; st_known_failed := st_known_failed s;
  st_service_accounts := st_service_accounts s; st_course_accounts := st_course_accounts s;
  st_team := st_team s; st_source_project := st_source_project s;
  st_release_backend := v; st_attribute_config := st_attribute_config s |}.
End Updates.

(** ** Offering users and their attributes *)

Definition fields_of_exposed (exposed : list string) : list string :=
  CORE_FIELDS ++ POSIX_FIELDS ++
  concat (map (λ a, from_option id [] (dict_get ATTRIBUTE_TO_FIELDS a)) exposed).

Definition fetch_offering_user_fields (now : Z) : proc (list string) :=
  let! r := attempt (waldur UserAttributeConfig) in
  let exposed := match r with Ok names => names | Err _ => DEFAULT_EXPOSED_FIELDS end in
  modify_st (set_attribute_config (Some (fields_of_exposed exposed, exposed, now))) ;!
  ret (fields_of_exposed exposed).

Definition build_offering_user_fields : proc (list string) :=
  let! now := call Monotonic in
  let! s := get_st in
  match st_attribute_config s with
  | Some (fields, _, ts) =>
      if now - ts <? ATTRIBUTE_CONFIG_TTL then ret fields else fetch_offering_user_fields now
  | None => fetch_offering_user_fields now
  end.

Definition get_exposed_fields : proc (list string) :=
  let! s := get_st in
  match st_attribute_config s with
  | Some (_, exposed, _) => ret exposed
  | None =>
      build_offering_user_fields ;!
      let! s' := get_st in
      ret match st_attribute_config s' with
          | Some (_, exposed, _) => exposed
          | None => DEFAULT_EXPOSED_FIELDS
          end
  end.

(** The attributes one exposed name stands for. *)
Definition attribute_names (field_name : string) : list string :=
  if String.eqb field_name "full_name" then ["full_name"; "first_name"; "last_name"]%string
  else [field_name].

Definition add_attribute (u : OfferingUser) (attrs : gmap string json) (attr_name : string)
  : gmap string json :=
  match ou_attributes u !! attr_name with
  | None | Some (AttrPlain JNull) => attrs
  | Some v => <[attr_name := serialize_attr_value v]> attrs
  end.

Definition exposed_attributes (exposed : list string) (u : OfferingUser) : gmap string json :=
  foldl (λ attrs field_name,
    if String.eqb field_name "username" then attrs
    else foldl (add_attribute u) attrs (attribute_names field_name)) ∅ exposed.

Definition named_users (us : list OfferingUser) : list OfferingUser :=
  List.filter (λ u, nonempty (ou_username u)) us.

Definition build_user_attributes_mapping (us : list OfferingUser)
  : proc (gmap string (gmap string json)) :=
  let! exposed := get_exposed_fields in
  ret (omap (λ u, let attrs := exposed_attributes exposed u in
                  match map_to_list attrs with [] => None | _ => Some attrs end)
            (map_by ou_username (named_users us))).

Definition get_cached_offering_users : proc (list OfferingUser) :=
  let! s := get_st in
  match st_offering_users s with
  | Some us => ret us
  | None =>
      let! fields := build_offering_user_fields in
      let! us := waldur (OfferingUsersList fields) in
      modify_st (set_offering_users (Some us)) ;!
      ret us
  end.

Definition invalidate_offering_users_cache : proc unit :=
  modify_st (λ s, set_known None false (set_offering_users None s)).

(** The cache holds the same objects as a list taken from it: what
    [update_offering_users] assigned to them shows in the cache. *)
Definition refresh_object (after : list OfferingUser) (u : OfferingUser) : OfferingUser :=
  from_option id u (List.find (λ u', String.eqb (ou_uuid u') (ou_uuid u)) after).

Definition share_objects (after : list OfferingUser) (s : processor_state) : processor_state :=
  set_offering_users (option_map (map (refresh_object after)) (st_offering_users s)) s.

Section Processor.
Context (cfg : processor_config).

(** [_update_offering_users]; the objects are handed back with the outcome,
    because they keep their new usernames whatever it is.  [cached] tells
    whether the objects are those of the cache. *)
Definition processor_update_offering_users (cached : bool) (us : list OfferingUser)
  : proc (res bool * list OfferingUser) :=
  let! p := run_on us (update_offering_users cfg) in
  let '(r, us') := p in
  (if cached : bool then modify_st (share_objects us') else ret ()) ;!
  match r with
  | Ok true => invalidate_offering_users_cache ;! ret (Ok true, us')
  | _ => ret (r, us')
  end.

(** ** Unique backend ids *)

Definition setting (key : string) (default : json) : json :=
  json_get (off_backend_settings (cfg_offering cfg)) key default.

Definition check_backend_id_uniqueness (backend_id : string) : proc bool :=
  if negb (truthy (setting "check_backend_id_uniqueness" (JBool false))) then ret true
  else
    let! r := attempt (waldur (CheckUniqueBackendId backend_id
                                 (setting "check_all_offerings" (JBool false)))) in
    match r with
    | Ok is_unique => ret is_unique
    | Err _ => ret true
    end.

Definition uses_project_slug (r : WaldurResource) : bool :=
  match json_get (res_plugin_options r) "account_name_generation_policy" JNull with
  | JStr policy => String.eqb policy "project_slug"
  | _ => false
  end.

(** [range(n)] of a settings value. *)
Definition range_of (v : json) : res nat :=
  match v with
  | JInt z => Ok (Z.to_nat z)
  | JBool b => Ok (if b then 1%nat else 0%nat)
  | _ => Err (OtherException "object cannot be interpreted as an integer")
  end.

Definition max_creation_attempts (r : WaldurResource) : res nat :=
  if uses_project_slug r || truthy (setting "check_backend_id_uniqueness" (JBool false))
  then range_of (setting "backend_id_max_retries" (JInt 50))
  else Ok 1%nat.

(** [f"{waldur_resource.project_slug}-{retry}"]. *)
Definition retry_base_id (r : WaldurResource) (retry : nat) : string :=
  res_project_slug r +:+ "-" +:+ pretty retry.

Fixpoint creation_attempts (r : WaldurResource) (ctx : user_context) (retries : list nat)
    (base : string) : proc (option BackendResourceInfo) :=
  match retries with
  | [] => raise (BackendError "Unable to create resource")
  | retry :: rest =>
      let! backend_id := backend (GetResourceBackendId base) in
      let! unique := check_backend_id_uniqueness backend_id in
      if negb unique then
        creation_attempts r ctx rest
          (if uses_project_slug r then retry_base_id r retry else base)
      else
        let! created := attempt (backend (CreateResourceWithId r backend_id ctx)) in
        match created with
        | Ok info => ret info
        | Err (DuplicateResourceError _) =>
            creation_attempts r ctx rest (retry_base_id r retry)
        | Err e => raise e
        end
  end.

Definition create_resource_with_uniqueness_check (r : WaldurResource) (ctx : user_context)
  : proc (option BackendResourceInfo) :=
  let base := if uses_project_slug r then res_project_slug r else res_slug r in
  let! n := of_res (max_creation_attempts r) in
  creation_attempts r ctx (seq 0 n) base.

(** ** Service and course accounts *)

Definition offering_project_service_accounts : proc (list Account) :=
  let! s := get_st in
  match st_service_accounts s with
  | Some l => ret l
  | None =>
      let! l := waldur ServiceAccountsList in
      modify_st (λ s, set_accounts (Some l) (st_course_accounts s) s) ;! ret l
  end.

Definition offering_course_accounts : proc (list Account) :=
  let! s := get_st in
  match st_course_accounts s with
  | Some l => ret l
  | None =>
      let! l := waldur CourseAccountsList in
      modify_st (λ s, set_accounts (st_service_accounts s) (Some l) s) ;! ret l
  end.

Definition in_project (project_uuid : string) (a : Account) : bool :=
  nonempty (acc_project_uuid a) && String.eqb (acc_project_uuid a) project_uuid.

(** [{account.username for account in accounts if account.username and ...}]. *)
Definition account_names (keep : Account → bool) (l : list Account) : gset string :=
  list_to_set (map acc_username
    (List.filter (λ a, nonempty (acc_username a) && keep a) l)).

Definition resource_account_usernames (r : WaldurResource) : proc (gset string) :=
  if negb (cfg_has_service_provider cfg) then ret ∅
  else
    let! service := offering_project_service_accounts in
    let! course := offering_course_accounts in
    ret (account_names (λ a, in_project (res_project_uuid r) a &&
           negb (bool_decide (acc_state a = ServiceAccountState.CLOSED))) (service ++ course)).

Definition accounts_in (state : ServiceAccountState.t) (l : list Account) : gset string :=
  account_names (λ a, bool_decide (acc_state a = state)) l.

(** The body of the two account synchronisations, over the listing they read. *)
Definition sync_resource_accounts (listing : proc (list Account)) (r : WaldurResource)
  : proc unit :=
  if negb (cfg_has_service_provider cfg) then ret ()
  else
    let! o := attempt (
      let! accounts := listing in
      let mine := List.filter (in_project (res_project_uuid r)) accounts in
      backend (AddUsersToResource r (accounts_in ServiceAccountState.OK mine) no_kwargs) ;!
      backend (RemoveUsersFromResource r (accounts_in ServiceAccountState.CLOSED mine) no_kwargs) ;!
      ret ()) in
    match o with Ok _ => ret () | Err _ => ret () end.

Definition sync_resource_service_accounts (r : WaldurResource) : proc unit :=
  sync_resource_accounts offering_project_service_accounts r.

Definition sync_resource_course_accounts (r : WaldurResource) : proc unit :=
  sync_resource_accounts offering_course_accounts r.
End Processor.

(** ** Proofs *)

(** *** The calls of the shared operations *)

Definition listing_calls : ∀ X, agentE X → bool := λ X c,
  match c with
  | Monotonic => true
  | Waldur w =>
      match w with UserAttributeConfig | OfferingUsersList _ => true | _ => false end
  | _ => username_calls X c
  end.

Definition creation_calls : ∀ X, agentE X → bool := λ X c,
  match c with
  | Backend b =>
      match b with
      | GetResourceBackendId _ | CreateResourceWithId _ _ _ => true
      | _ => false
      end
  | Waldur w => match w with CheckUniqueBackendId _ _ => true | _ => false end
  | _ => false
  end.

Definition account_calls : ∀ X, agentE X → bool := λ X c,
  match c with
  | Backend b =>
      match b with
      | AddUsersToResource _ _ _ | RemoveUsersFromResource _ _ _ => true
      | _ => false
      end
  | Waldur w => match w with ServiceAccountsList | CourseAccountsList => true | _ => false end
  | _ => false
  end.

Lemma fetch_offering_user_fields_calls now :
  calls listing_calls (fetch_offering_user_fields now).
Proof. unfold fetch_offering_user_fields. calls_auto. Qed.
#[export] Hint Resolve fetch_offering_user_fields_calls : calls.

Lemma build_offering_user_fields_calls : calls listing_calls build_offering_user_fields.
Proof. unfold build_offering_user_fields. calls_auto. Qed.
#[export] Hint Resolve build_offering_user_fields_calls : calls.

Lemma get_cached_offering_users_calls : calls listing_calls get_cached_offering_users.
Proof. unfold get_cached_offering_users. calls_auto. Qed.
Lemma build_user_attributes_mapping_calls us :
  calls listing_calls (build_user_attributes_mapping us).
Proof. unfold build_user_attributes_mapping, get_exposed_fields. calls_auto. Qed.
#[export] Hint Resolve get_cached_offering_users_calls build_user_attributes_mapping_calls : calls.

Lemma processor_update_offering_users_calls cfg cached us :
  calls username_calls (processor_update_offering_users cfg cached us).
Proof. unfold processor_update_offering_users, invalidate_offering_users_cache. calls_auto. Qed.
#[export] Hint Resolve processor_update_offering_users_calls : calls.

Lemma creation_attempts_calls cfg r ctx retries base :
  calls creation_calls (creation_attempts cfg r ctx retries base).
Proof.
  revert base; induction retries as [|k retries IH]; intros base; simpl; [calls_auto|].
  unfold check_backend_id_uniqueness. calls_auto; apply IH.
Qed.
#[export] Hint Resolve creation_attempts_calls : calls.

Lemma create_resource_with_uniqueness_check_calls cfg r ctx :
  calls creation_calls (create_resource_with_uniqueness_check cfg r ctx).
Proof. unfold create_resource_with_uniqueness_check. calls_auto. Qed.

Lemma sync_accounts_calls cfg r :
  calls account_calls (sync_resource_service_accounts cfg r) ∧
  calls account_calls (sync_resource_course_accounts cfg r).
Proof.
  unfold sync_resource_service_accounts, sync_resource_course_accounts, sync_resource_accounts,
    offering_project_service_accounts, offering_course_accounts. split; calls_auto.
Qed.

(** The names the backend was asked to derive ids from. *)
Definition bases_of (H : trace agentE) : list string :=
  omap (λ ev, match ev with
              | Ev c _ => match c with
                          | Backend b => match b with
                                         | GetResourceBackendId base => Some base
                                         | _ => None
                                         end
                          | _ => None
                          end
              end) H.

Definition is_creation (ev : event agentE) : bool :=
  match ev with
  | Ev c _ => match c with
              | Backend b => match b with CreateResourceWithId _ _ _ => true | _ => false end
              | _ => false
              end
  end.

Definition creations (H : trace agentE) : nat := length (List.filter is_creation H).

(** What the history shows right before a creation attempt under [backend_id]. *)
Definition id_derived_and_checked (cfg : processor_config) (backend_id : string)
    (H : trace agentE) : Prop :=
  if truthy (setting cfg "check_backend_id_uniqueness" (JBool false)) then
    ∃ base answer H',
      H = Ev (Waldur (CheckUniqueBackendId backend_id
                        (setting cfg "check_all_offerings" (JBool false)))) answer ::
          Ev (Backend (GetResourceBackendId base)) (Ok backend_id) :: H' ∧ answer ≠ Ok false
  else ∃ base H', H = Ev (Backend (GetResourceBackendId base)) (Ok backend_id) :: H'.

Definition creation_guard (cfg : processor_config) (r : WaldurResource) (ctx : user_context)
  : guard agentE := λ X H c,
  match c with
  | Backend b =>
      match b with
      | CreateResourceWithId r' backend_id ctx' =>
          r' = r ∧ ctx' = ctx ∧ id_derived_and_checked cfg backend_id H
      | _ => True
      end
  | _ => True
  end.

Section Creation.
Context (cfg : processor_config) (r : WaldurResource) (ctx : user_context).

Lemma check_uniqueness_spec (G : guard agentE) backend_id s H :
  (∀ all, G bool H (Waldur (CheckUniqueBackendId backend_id all))) →
  wpM G (check_backend_id_uniqueness cfg backend_id) (λ o s' H', s' = s ∧
    bases_of H' = bases_of H ∧ creations H' = creations H ∧
    ∃ b, o = Ok b ∧
      if truthy (setting cfg "check_backend_id_uniqueness" (JBool false)) then
        ∃ a, H' = Ev (Waldur (CheckUniqueBackendId backend_id
                     (setting cfg "check_all_offerings" (JBool false)))) a :: H ∧
             (a = Ok false ↔ b = false)
      else b = true ∧ H' = H) s H.
Proof.
  intros HG. unfold check_backend_id_uniqueness.
  destruct (truthy _); simpl negb; cbv iota; [|wp_step; eauto 10].
  wp_steps. apply wpM_call; [apply HG|].
  intros [b|e]; wp_step; (split_and!; [done|done|done|]); eexists; (split; [done|]);
    eexists; (split; [done|]); naive_solver.
Qed.

(** The bases of a run: the first is [base]; later ones come from the retry
    numbers, or repeat when a taken id leaves the base alone. *)
Fixpoint asked_bases (base : string) (retries : list nat) (asked : list string) : Prop :=
  match asked, retries with
  | [], _ => True
  | b :: asked', k :: retries' =>
      b = base ∧ (asked_bases (retry_base_id r k) retries' asked' ∨
                  (uses_project_slug r = false ∧ asked_bases base retries' asked'))
  | _, [] => False
  end.

Lemma asked_bases_nil base retries : asked_bases base retries [].
Proof. by destruct retries. Qed.

Lemma asked_bases_length base retries asked :
  asked_bases base retries asked → (length asked ≤ length retries)%nat.
Proof.
  revert base asked; induction retries as [|k retries IH]; intros base [|b asked]; simpl;
    [lia|done|lia|].
  intros (_ & [Ha|[_ Ha]]); apply IH in Ha; lia.
Qed.

Lemma asked_bases_slug base retries asked :
  uses_project_slug r = true → asked_bases base retries asked →
  asked `prefix_of` base :: map (retry_base_id r) retries.
Proof.
  intros Hs. revert base asked; induction retries as [|k retries IH]; intros base [|b asked];
    simpl; try done; try (intros; apply prefix_nil).
  intros (-> & [Ha|[? _]]); [|congruence]. apply prefix_cons. by apply IH.
Qed.

(** What a run of the attempts leaves in the history. *)
Definition attempts_post base retries H : res (option BackendResourceInfo) →
    processor_state → trace agentE → Prop := λ o _ H', ∃ asked,
  bases_of H' = rev asked ++ bases_of H ∧
  asked_bases base retries asked ∧
  (creations H ≤ creations H' ≤ length asked + creations H)%nat ∧
  (uses_project_slug r = false → creations H' = creations H → Forall (λ b, b = base) asked) ∧
  match o with
  | Ok info => ∃ id H0, H' = Ev (Backend (CreateResourceWithId r id ctx)) (Ok info) :: H0
  | Err _ => True
  end.

Lemma creation_attempts_step k retries base base' s H H2 :
  (∀ base s H, wpM (creation_guard cfg r ctx) (creation_attempts cfg r ctx retries base)
                 (attempts_post base retries H) s H) →
  bases_of H2 = base :: bases_of H →
  (creations H ≤ creations H2 ≤ S (creations H))%nat →
  (base' = retry_base_id r k ∨ (uses_project_slug r = false ∧ base' = base)) →
  (base' = base ∨ creations H2 = S (creations H) ∨ uses_project_slug r = true) →
  wpM (creation_guard cfg r ctx) (creation_attempts cfg r ctx retries base')
    (attempts_post base (k :: retries) H) s H2.
Proof.
  intros IH Hb2 Hlen Hbase Hsame. eapply wpM_mono; [apply IH|].
  intros o s3 H3 (asked & Ha & Hok & Hc & Hall & Ho). exists (base :: asked).
  rewrite Ha, Hb2. simpl. rewrite <- app_assoc. split_and!; try done; try lia.
  - destruct Hbase as [->|[? ->]]; auto.
  - intros Hs Heq. destruct Hsame as [->|[?|?]]; [|lia|congruence].
    constructor; [done|]. apply Hall; [done|lia].
Qed.

Lemma creation_attempts_spec retries base s H :
  wpM (creation_guard cfg r ctx) (creation_attempts cfg r ctx retries base)
    (attempts_post base retries H) s H.
Proof.
  revert base s H; induction retries as [|k retries IH]; intros base s H; simpl.
  { wp_step. exists []. simpl. split_and!; try done; lia. }
  wp_step. wp_call as [id|e].
  2:{ exists [base]. unfold creations; simpl. split_and!; eauto using asked_bases_nil; lia. }
  wp_step. eapply wpM_mono; [by apply check_uniqueness_spec|].
  intros o s1 H1 (-> & Hb & Hc & unique & -> & Hu). cbv iota.
  destruct unique; simpl negb; cbv iota.
  - wp_steps. apply wpM_call.
    { split_and!; [done..|]. unfold id_derived_and_checked. destruct (truthy _); [|naive_solver].
      destruct Hu as (a & -> & Ha). exists base, a. naive_solver. }
    assert (Hc1 : ∀ a, creations (Ev (Backend (CreateResourceWithId r id ctx)) a :: H1)
                  = S (creations H)) by (intros a; unfold creations in *; simpl; by rewrite Hc).
    intros [info|e].
    { wp_step. exists [base]. rewrite Hc1. simpl. split_and!; eauto using asked_bases_nil; lia. }
    destruct e; try (wp_step; exists [base]; rewrite Hc1; simpl; split_and!; eauto using asked_bases_nil; lia).
    apply creation_attempts_step; [done|exact Hb|rewrite Hc1; lia|by left|right; by left].
  - apply creation_attempts_step; [done|exact Hb|rewrite Hc; unfold creations; simpl; lia| |];
      destruct (uses_project_slug r); auto.
Qed.
End Creation.

Lemma retry_base_id_inj r k k' : retry_base_id r k = retry_base_id r k' → k = k'.
Proof. unfold retry_base_id. by intros ?%(inj _)%(inj _)%(inj _). Qed.

Lemma slug_not_retry_base r k : res_project_slug r ≠ retry_base_id r k.
Proof.
  intros Heq%(f_equal String.length). unfold retry_base_id in Heq.
  rewrite string_length_app in Heq. simpl in Heq. lia.
Qed.

Lemma slug_bases_NoDup r ks : NoDup ks → NoDup (res_project_slug r :: map (retry_base_id r) ks).
Proof.
  intros Hks. constructor.
  - intros (k & Heq & _)%list_elem_of_fmap. by apply slug_not_retry_base in Heq.
  - apply (NoDup_fmap_2_strong _ ks); [|done]. intros k k' _ _. apply retry_base_id_inj.
Qed.

Lemma create_resource_spec cfg r ctx s :
  wpM (creation_guard cfg r ctx) (create_resource_with_uniqueness_check cfg r ctx)
    (λ o s' H', match max_creation_attempts cfg r with
       | Ok n => attempts_post r ctx
                   (if uses_project_slug r then res_project_slug r else res_slug r)
                   (seq 0 n) [] o s' H'
       | Err e => o = Err e ∧ H' = []
       end) s [].
Proof.
  unfold create_resource_with_uniqueness_check. wp_steps.
  destruct (max_creation_attempts cfg r) as [n|e]; [|done]. apply creation_attempts_spec.
Qed.

(** A backend creation is only attempted with an id the backend derived in the
    same attempt, for the resource and the user context of the order, and, when
    the uniqueness check is enabled, right after Waldur did not call that id
    taken. *)
Theorem creation_under_checked_id cfg r ctx s τ s' o τ1 τ2 r' id ctx' a :
  runs (create_resource_with_uniqueness_check cfg r ctx s) τ (s', o) →
  τ = τ1 ++ Ev (Backend (CreateResourceWithId r' id ctx')) a :: τ2 →
  r' = r ∧ ctx' = ctx ∧ id_derived_and_checked cfg id (rev τ1).
Proof.
  intros Hrun Hτ.
  exact (wpM_call_guard _ _ _ _ _ _ _ _ _ _ _ (create_resource_spec cfg r ctx s) Hrun Hτ).
Qed.

(** The attempts are bounded by the configured number, each makes at most one
    creation, and under the project-slug policy the candidate names are
    distinct: the slug, then the slug with the numbers of the failed attempts.
    A success is the answer of the last call of the run. *)
Theorem creation_candidates cfg r ctx s τ s' o n :
  max_creation_attempts cfg r = Ok n →
  runs (create_resource_with_uniqueness_check cfg r ctx s) τ (s', o) →
  (creations τ ≤ length (bases_of τ) ≤ n)%nat ∧
  (uses_project_slug r = true →
     bases_of τ `prefix_of` res_project_slug r :: map (retry_base_id r) (seq 0 n) ∧
     NoDup (bases_of τ)) ∧
  (∀ info, o = Ok info → ∃ id τ1,
     τ = τ1 ++ [Ev (Backend (CreateResourceWithId r id ctx)) (Ok info)]).
Proof.
  intros Hn Hrun.
  destruct (wpM_sound _ _ _ _ _ _ _ (create_resource_spec cfg r ctx s) Hrun) as [HQ _].
  rewrite Hn in HQ. destruct HQ as (asked & Ha & Hok & Hc & _ & Ho).
  unfold bases_of, creations in Ha, Hc. rewrite omap_rev in Ha. simpl in Ha.
  rewrite app_nil_r in Ha. apply rev_inj in Ha. fold (bases_of τ) in Ha. subst asked.
  rewrite filter_rev_length in Hc. simpl in Hc. pose proof (asked_bases_length _ _ _ _ Hok) as Hl.
  rewrite length_seq in Hl. unfold creations. split_and!; [lia..| |].
  - intros Hs. rewrite Hs in Hok. pose proof (asked_bases_slug _ _ _ _ Hs Hok).
    split; [done|]. eapply prefix_NoDup; [done|]. apply slug_bases_NoDup, NoDup_seq.
  - intros info ->. destruct Ho as (id & H0 & Heq). exists id, (rev H0).
    by rewrite <- (rev_involutive τ), Heq.
Qed.

(** Without the project-slug policy, an id that Waldur calls taken is not
    varied: as long as no creation was attempted, every attempt derives its id
    from the same resource slug. *)
Theorem taken_id_not_varied cfg r ctx s τ s' o n :
  max_creation_attempts cfg r = Ok n → uses_project_slug r = false →
  runs (create_resource_with_uniqueness_check cfg r ctx s) τ (s', o) →
  creations τ = 0%nat → Forall (λ b, b = res_slug r) (bases_of τ).
Proof.
  intros Hn Hs Hrun H0.
  destruct (wpM_sound _ _ _ _ _ _ _ (create_resource_spec cfg r ctx s) Hrun) as [HQ _].
  rewrite Hn, Hs in HQ. destruct HQ as (asked & Ha & _ & _ & Hall & _).
  unfold bases_of in Ha. rewrite omap_rev in Ha. simpl in Ha.
  rewrite app_nil_r in Ha. apply rev_inj in Ha. fold (bases_of τ) in Ha. subst asked.
  apply Hall; [done|]. unfold creations in *. rewrite filter_rev_length. simpl. lia.
Qed.

(** ** Accounts *)

Lemma elem_of_account_names keep l x :
  x ∈ account_names keep l ↔ ∃ a, a ∈ l ∧ acc_username a = x ∧ x ≠ "" ∧ keep a = true.
Proof.
  unfold account_names. rewrite elem_of_list_to_set, list_elem_of_fmap.
  setoid_rewrite list_elem_of_In. setoid_rewrite List.filter_In.
  setoid_rewrite andb_true_iff. setoid_rewrite nonempty_spec. naive_solver.
Qed.

(** An account of the project in the given state. *)
Definition project_account (project_uuid : string) (state : ServiceAccountState.t)
    (l : list Account) (x : string) : Prop :=
  ∃ a, a ∈ l ∧ acc_username a = x ∧ x ≠ "" ∧ acc_project_uuid a = project_uuid ∧
       acc_project_uuid a ≠ "" ∧ acc_state a = state.

Lemma elem_of_accounts_in state p l x :
  x ∈ accounts_in state (List.filter (in_project p) l) ↔ project_account p state l x.
Proof.
  unfold accounts_in, project_account, in_project. rewrite elem_of_account_names.
  setoid_rewrite list_elem_of_In. setoid_rewrite List.filter_In.
  setoid_rewrite andb_true_iff. setoid_rewrite String.eqb_eq.
  setoid_rewrite nonempty_spec. setoid_rewrite bool_decide_eq_true. naive_solver.
Qed.

Definition sync_of (cfg : processor_config) (t : AccountType) (r : WaldurResource) : proc unit :=
  match t with
  | SERVICE_ACCOUNT => sync_resource_service_accounts cfg r
  | COURSE_ACCOUNT => sync_resource_course_accounts cfg r
  end.

(** The listing of accounts a pass works on: the cached one, or the one read. *)
Definition accounts_known (t : AccountType) (s : processor_state) (H : trace agentE)
    (l : list Account) : Prop :=
  match t with
  | SERVICE_ACCOUNT => st_service_accounts s = Some l ∨ Ev (Waldur ServiceAccountsList) (Ok l) ∈ H
  | COURSE_ACCOUNT => st_course_accounts s = Some l ∨ Ev (Waldur CourseAccountsList) (Ok l) ∈ H
  end.

Definition accounts_guard (t : AccountType) (r : WaldurResource) (s : processor_state)
  : guard agentE := λ X H c,
  match c with
  | Backend b =>
      match b with
      | AddUsersToResource r' users _ => r' = r ∧ ∃ l, accounts_known t s H l ∧
          ∀ x, x ∈ users ↔ project_account (res_project_uuid r) ServiceAccountState.OK l x
      | RemoveUsersFromResource r' users _ => r' = r ∧ ∃ l, accounts_known t s H l ∧
          ∀ x, x ∈ users ↔ project_account (res_project_uuid r) ServiceAccountState.CLOSED l x
      | _ => False
      end
  | _ => True
  end.

Lemma accounts_known_cons t s ev H l : accounts_known t s H l → accounts_known t s (ev :: H) l.
Proof. destruct t; intros [?|?]; [left|right; right|left|right; right]; done. Qed.

Lemma sync_resource_accounts_spec cfg t r s listing H :
  wpM (accounts_guard t r s) listing (λ o _ H',
    match o with Ok l => accounts_known t s H' l | Err _ => True end) s H →
  wpM (accounts_guard t r s) (sync_resource_accounts cfg listing r) (λ o _ _, o = Ok ()) s H.
Proof.
  intros Hl. unfold sync_resource_accounts. destruct (cfg_has_service_provider cfg);
    simpl negb; cbv iota; [|by wp_step].
  wp_steps. eapply wpM_mono; [exact Hl|]. intros [l|e] s1 H1 Hk; cbv iota; [|by wp_step].
  wp_steps. apply wpM_call.
  { split; [done|]. exists l. split; [done|]. intros x. apply elem_of_accounts_in. }
  intros [u|e]; [|by wp_step]. wp_steps. apply wpM_call.
  { split; [done|]. exists l. split; [by apply accounts_known_cons|].
    intros x. apply elem_of_accounts_in. }
  intros [u'|e]; by wp_steps.
Qed.

Lemma sync_of_spec cfg t r s H :
  wpM (accounts_guard t r s) (sync_of cfg t r) (λ o _ _, o = Ok ()) s H.
Proof.
  destruct t; apply sync_resource_accounts_spec;
    [unfold offering_project_service_accounts|unfold offering_course_accounts];
    wp_steps; destruct (st_service_accounts s) eqn:?; destruct (st_course_accounts s) eqn:?;
    first [ wp_step; by left
          | wp_step; apply wpM_call; [exact I|]; intros [l'|e]; wp_steps; [|done];
            right; apply list_elem_of_here ].
Qed.

(** Synchronising the service (or course) accounts of a resource never raises,
    grants the resource exactly the named OK accounts of the resource's project
    and revokes exactly its CLOSED ones, over the offering-wide listing. *)
Theorem accounts_synchronised cfg t r s τ s' o τ1 τ2 r' users kw :
  runs (sync_of cfg t r s) τ (s', o) →
  o = Ok () ∧
  (∀ a, τ = τ1 ++ Ev (Backend (AddUsersToResource r' users kw)) a :: τ2 →
     r' = r ∧ ∃ l, accounts_known t s τ1 l ∧
     ∀ x, x ∈ users ↔ project_account (res_project_uuid r) ServiceAccountState.OK l x) ∧
  (∀ a, τ = τ1 ++ Ev (Backend (RemoveUsersFromResource r' users kw)) a :: τ2 →
     r' = r ∧ ∃ l, accounts_known t s τ1 l ∧
     ∀ x, x ∈ users ↔ project_account (res_project_uuid r) ServiceAccountState.CLOSED l x).
Proof.
  intros Hrun. pose proof (sync_of_spec cfg t r s []) as Hspec.
  assert (Hk : ∀ l, accounts_known t s (rev τ1) l → accounts_known t s τ1 l)
    by (intros l; destruct t; simpl; by rewrite elem_of_rev).
  split; [exact (proj1 (wpM_sound _ _ _ _ _ _ _ Hspec Hrun))|].
  split; intros a Hτ; destruct (wpM_call_guard _ _ _ _ _ _ _ _ _ _ _ Hspec Hrun Hτ)
    as (-> & l & Hl & Hx); (split; [done|]); exists l; auto.
Qed.

(** ** Profile attributes *)

(** [k] is an attribute the exposed name [f] stands for. *)
Definition covered_by (exposed : list string) (k : string) : Prop :=
  ∃ f, f ∈ exposed ∧ f ≠ "username" ∧ k ∈ attribute_names f.

Lemma add_attributes_spec u names attrs k v :
  foldl (add_attribute u) attrs names !! k = Some v →
  attrs !! k = Some v ∨
  (k ∈ names ∧ ∃ av, ou_attributes u !! k = Some av ∧ av ≠ AttrPlain JNull ∧
                     v = serialize_attr_value av).
Proof.
  revert attrs; induction names as [|n names IH]; simpl; intros attrs Hv; [by left|].
  destruct (IH _ Hv) as [Hl|(? & Hav)]; [|right; split; [by right|done]].
  unfold add_attribute in Hl.
  destruct (ou_attributes u !! n) as [av|] eqn:Hn; [|by left].
  assert (av = AttrPlain JNull ∨ av ≠ AttrPlain JNull ∧
          <[n := serialize_attr_value av]> attrs !! k = Some v) as [->|[Hne Hi]]
    by (destruct av as [| |[]]; auto); [by left|].
  destruct (decide (n = k)) as [->|Hnk].
  - rewrite lookup_insert_eq in Hi. injection Hi as <-. right. split; [left|eauto].
  - rewrite lookup_insert_ne in Hi by done. by left.
Qed.

Lemma exposed_attributes_spec exposed u k v :
  exposed_attributes exposed u !! k = Some v →
  covered_by exposed k ∧ ∃ av, ou_attributes u !! k = Some av ∧ av ≠ AttrPlain JNull ∧
                               v = serialize_attr_value av.
Proof.
  unfold exposed_attributes.
  cut (∀ attrs : gmap string json,
    foldl (λ attrs f, if String.eqb f "username" then attrs
                      else foldl (add_attribute u) attrs (attribute_names f)) attrs exposed !! k
      = Some v →
    attrs !! k = Some v ∨ (covered_by exposed k ∧ ∃ av, ou_attributes u !! k = Some av ∧
      av ≠ AttrPlain JNull ∧ v = serialize_attr_value av)).
  { intros Hc Hv. destruct (Hc _ Hv) as [?%lookup_empty_Some|]; done. }
  induction exposed as [|f exposed IH]; simpl; intros attrs Hv; [by left|].
  assert (Hmono : covered_by exposed k → covered_by (f :: exposed) k).
  { intros (g & ? & ?). exists g. split; [by right|done]. }
  destruct (IH _ Hv) as [Hl|[? ?]]; [|right; auto].
  destruct (String.eqb_spec f "username") as [|Hf]; [by left|].
  apply add_attributes_spec in Hl as [?|(Hk & Hav)]; [by left|]. right. split; [|done].
  exists f. split; [left|done].
Qed.

(** The exposed names in force: cached, read from Waldur in this run, or the
    defaults after a failed read. *)
Definition exposed_names (s : processor_state) (τ : trace agentE) (exposed : list string) : Prop :=
  (∃ fields ts, st_attribute_config s = Some (fields, exposed, ts)) ∨
  (Ev (Waldur UserAttributeConfig) (Ok exposed) ∈ τ) ∨
  (exposed = DEFAULT_EXPOSED_FIELDS ∧ ∃ e, Ev (Waldur UserAttributeConfig) (Err e) ∈ τ).

Definition no_guard : guard agentE := λ _ _ _, True.

Lemma fetch_fields_spec now s H :
  wpM no_guard (fetch_offering_user_fields now) (λ o s' H', ∃ exposed,
    exposed_names s H' exposed ∧ o = Ok (fields_of_exposed exposed) ∧
    st_attribute_config s' = Some (fields_of_exposed exposed, exposed, now)) s H.
Proof.
  unfold fetch_offering_user_fields. wp_steps. apply wpM_call; [done|].
  intros [names|e]; wp_steps; eexists; (split; [|done]); right;
    [left; left | right; split; [done|]; exists e; left].
Qed.

Lemma get_exposed_fields_spec s H :
  wpM no_guard get_exposed_fields (λ o s' H', match o with
    | Ok exposed => exposed_names s H' exposed | Err _ => True end) s H.
Proof.
  unfold get_exposed_fields. wp_steps.
  destruct (st_attribute_config s) as [[[fields exposed] ts]|] eqn:Hc.
  { wp_step. left. eauto. }
  wp_steps. unfold build_offering_user_fields. wp_step. apply wpM_call; [done|].
  intros [now|e]; [|done]. wp_steps. rewrite Hc. eapply wpM_mono; [apply fetch_fields_spec|].
  intros o s' H' (exposed & Hn & -> & Hs'). wp_steps. by rewrite Hs'.
Qed.

(** The profile attributes handed to a backend under a username are those of a
    listed offering user of that name, and only attributes whose exposure
    Waldur's configuration of the offering (or, when it cannot be read, the
    default list) allows; the CUID is never among them. *)
Theorem attributes_exposed_only us s τ s' m name attrs k v :
  runs (build_user_attributes_mapping us s) τ (s', Ok m) →
  m !! name = Some attrs → attrs !! k = Some v →
  ∃ exposed u av, exposed_names s τ exposed ∧ covered_by exposed k ∧
    u ∈ us ∧ ou_username u = name ∧ name ≠ "" ∧
    ou_attributes u !! k = Some av ∧ v = serialize_attr_value av.
Proof.
  intros Hrun Hm Hk.
  assert (Hspec : wpM no_guard (build_user_attributes_mapping us) (λ o s' H', match o with
    | Ok m => ∃ exposed, exposed_names s H' exposed ∧
        m = omap (λ u, let attrs := exposed_attributes exposed u in
                  match map_to_list attrs with [] => None | _ => Some attrs end)
            (map_by ou_username (named_users us))
    | Err _ => True end) s []).
  { unfold build_user_attributes_mapping. wp_step.
    eapply wpM_mono; [apply get_exposed_fields_spec|].
    intros [exposed|e] s1 H1 Hx; [|done]. wp_step. eauto. }
  destruct (wpM_sound _ _ _ _ _ _ _ Hspec Hrun) as [(exposed & Hx & ->) _].
  rewrite lookup_omap in Hm. apply bind_Some in Hm as (u & Hu & Ha). simpl in Ha.
  destruct (map_to_list _); [done|]. injection Ha as <-.
  apply map_by_spec in Hu as [Hin <-]. unfold named_users in Hin.
  apply list_elem_of_In, List.filter_In in Hin as [Hin Hn%nonempty_spec].
  apply exposed_attributes_spec in Hk as (Hcov & av & Hav & _ & ->).
  exists exposed, u, av. split_and!; try done.
  - unfold exposed_names in *. setoid_rewrite elem_of_rev in Hx. done.
  - by apply list_elem_of_In.
Qed.

(** ** Witnesses *)

Definition slug_resource : WaldurResource :=
  {| res_uuid := "resource-1"; res_name := "Allocation"; res_slug := "alloc";
     res_backend_id := ""; res_state := ResourceState.CREATING;
     res_project_uuid := "project-1"; res_project_slug := "proj"; res_plan_uuid := "";
     res_offering_uuid := "offering"; res_restrict_member_access := false;
     res_paused := false; res_downscaled := false; res_limits := None;
     res_backend_metadata := Unset; res_spending_limits := Unset;
     res_plugin_options := {["account_name_generation_policy"%string := JStr "project_slug"]} ;
     res_project_name := Val "Project"%string;
     res_customer_slug := Val "cust"%string; res_customer_name := Val "Customer"%string;
     res_created := Unset; res_end_date := Unset; res_attributes := None |}.

(** Two taken names (one known to Waldur, one to the cluster), then a success. *)
Definition creation_run : trace agentE :=
  [Ev (Backend (GetResourceBackendId "proj")) (Ok "hpc_proj");
   Ev (Waldur (CheckUniqueBackendId "hpc_proj" (JBool false))) (Ok false);
   Ev (Backend (GetResourceBackendId "proj-0")) (Ok "hpc_proj-0");
   Ev (Waldur (CheckUniqueBackendId "hpc_proj-0" (JBool false))) (Ok true);
   Ev (Backend (CreateResourceWithId slug_resource "hpc_proj-0" sample_context))
      (Err (DuplicateResourceError "hpc_proj-0"));
   Ev (Backend (GetResourceBackendId "proj-1")) (Ok "hpc_proj-1");
   Ev (Waldur (CheckUniqueBackendId "hpc_proj-1" (JBool false))) (Ok true);
   Ev (Backend (CreateResourceWithId slug_resource "hpc_proj-1" sample_context))
      (Ok (Some empty_info))].

Lemma creation_under_checked_id_witness :
  id_derived_and_checked checking_config "hpc_proj-0" (rev (take 4 creation_run)).
Proof.
  refine (proj2 (proj2 (creation_under_checked_id checking_config slug_resource sample_context
    initial_state creation_run initial_state (Ok (Some empty_info)) (take 4 creation_run)
    (drop 5 creation_run) slug_resource "hpc_proj-0" sample_context
    (Err (DuplicateResourceError "hpc_proj-0")) _ _))).
  - solve_runs.
  - reflexivity.
Defined.

Lemma creation_candidates_witness : NoDup (bases_of creation_run).
Proof.
  refine (proj2 (proj1 (proj2 (creation_candidates checking_config slug_resource sample_context
    initial_state creation_run initial_state (Ok (Some empty_info)) 3 _ _)) _)).
  - reflexivity.
  - solve_runs.
  - reflexivity.
Defined.

Definition taken_run : trace agentE :=
  [Ev (Backend (GetResourceBackendId "alloc")) (Ok "hpc_alloc");
   Ev (Waldur (CheckUniqueBackendId "hpc_alloc" (JBool false))) (Ok false);
   Ev (Backend (GetResourceBackendId "alloc")) (Ok "hpc_alloc");
   Ev (Waldur (CheckUniqueBackendId "hpc_alloc" (JBool false))) (Ok false);
   Ev (Backend (GetResourceBackendId "alloc")) (Ok "hpc_alloc");
   Ev (Waldur (CheckUniqueBackendId "hpc_alloc" (JBool false))) (Ok false)].

Lemma taken_id_not_varied_witness : Forall (λ b, b = "alloc") (bases_of taken_run).
Proof.
  refine (taken_id_not_varied checking_config sample_resource sample_context initial_state
    taken_run initial_state (Err (BackendError "Unable to create resource")) 3 _ _ _ _).
  - reflexivity.
  - reflexivity.
  - solve_runs.
  - reflexivity.
Defined.

Definition accounts_run : trace agentE :=
  let l := [sample_account "svc" ServiceAccountState.OK;
            sample_account "old" ServiceAccountState.CLOSED] in
  [Ev (Waldur ServiceAccountsList) (Ok l);
   Ev (Backend (AddUsersToResource sample_resource {["svc"%string]} no_kwargs))
      (Ok {["svc"%string]});
   Ev (Backend (RemoveUsersFromResource sample_resource {["old"%string]} no_kwargs))
      (Err (BackendError "unreachable"))].

Lemma accounts_synchronised_witness :
  ∃ l, accounts_known SERVICE_ACCOUNT initial_state (take 2 accounts_run) l ∧
    ∀ x, x ∈ ({["old"%string]} : gset string) ↔
      project_account "project-1" ServiceAccountState.CLOSED l x.
Proof.
  refine (proj2 (proj2 (proj2 (accounts_synchronised sample_config SERVICE_ACCOUNT
    sample_resource initial_state accounts_run
    (set_accounts (Some [sample_account "svc" ServiceAccountState.OK;
                         sample_account "old" ServiceAccountState.CLOSED]) None initial_state)
    (Ok ()) (take 2 accounts_run) [] sample_resource {["old"%string]} no_kwargs _))
    (Err (BackendError "unreachable")) _)).
  - solve_runs.
  - reflexivity.
Defined.

Definition profiled_user : OfferingUser :=
  {| ou_uuid := "ou-1"; ou_username := "alice"; ou_user_username := Val "cuid-1";
     ou_user_uuid := "user-1"; ou_user_email := Unset; ou_state := OfferingUserState.OK;
     ou_url := "";
     ou_attributes := {["birth_date"%string := AttrDate "2000-01-01";
                        "email"%string := AttrPlain (JStr "a@b.c");
                        "civil_number"%string := AttrPlain (JStr "1")]} |}.

Lemma attributes_exposed_only_witness :
  ∃ exposed u av,
    exposed_names initial_state
      [Ev Monotonic (Ok 7); Ev (Waldur UserAttributeConfig) (Ok ["birth_date"%string])] exposed ∧
    covered_by exposed "birth_date" ∧ u ∈ [profiled_user] ∧ ou_username u = "alice" ∧
    "alice" ≠ "" ∧ ou_attributes u !! "birth_date" = Some av ∧
    JStr "2000-01-01" = serialize_attr_value av.
Proof.
  refine (attributes_exposed_only [profiled_user] initial_state
    [Ev Monotonic (Ok 7); Ev (Waldur UserAttributeConfig) (Ok ["birth_date"%string])]
    (set_attribute_config (Some (fields_of_exposed ["birth_date"%string],
                                 ["birth_date"%string], 7)) initial_state)
    {["alice"%string := {["birth_date"%string := JStr "2000-01-01"]}]}
    "alice" {["birth_date"%string := JStr "2000-01-01"]} "birth_date" (JStr "2000-01-01") _ _ _).
  - solve_runs.
  - reflexivity.
  - reflexivity.
Defined.
