(* ===== verification/Orders.v ===== *)
(** * Orders

    [common/processors.py: OfferingOrderProcessor], with the provisioning of a
    resource's first API keys ([common/utils.py: provision_resource_api_keys]).

    An order is a Python object bound to a local variable that [process_order]
    rebinds after approval; the body of its [try] is split where the code sets
    [provisioning_started], because the handlers behave differently before and
    after that line. *)

From stdpp Require Import base list strings gmap sets.
From Stdlib Require Import ZArith Lia.
From S2P Require Import Prelude.
From S2P Require Import Structures.
From S2P Require Import Agent.
From S2P Require Import Samples.
From S2P Require Import OfferingUsers.
From S2P Require Import BaseProcessor.

Local Open Scope prog_scope.
Local Open Scope Z_scope.

Definition DEFAULT_RESOURCE_KEY_COUNT : nat := 2.
Definition HEARTBEAT_BATCH_SIZE : nat := 10.

(** ** API keys of a new resource *)

(** [[key.client_id for key in keys if key.client_id]]. *)
Definition present_client_ids (keys : list ApiKeyRow) : list string :=
  omap (λ k, field_str (key_client_id k)) keys.

Definition known_client_ids {S} (resource_uuid : string) : M agentE S (option (list string)) :=
  let! r := attempt (waldur (ApiKeysList resource_uuid)) in
  match r with
  | Err _ => ret None
  | Ok keys =>
      let ids := present_client_ids keys in
      if negb (Nat.eqb (length ids) (length keys)) then ret None
      else match ids with [] => ret None | _ => ret (Some ids) end
  end.

(** The lazily produced keys: each is reported before the next one is made. *)
Fixpoint report_generated_keys {S} (resource_uuid backend_id : string) (n : nat)
  : M agentE S unit :=
  match n with
  | O => ret ()
  | S n' =>
      let! key := backend (NextResourceKey backend_id) in
      waldur (ApiKeyReportCreated resource_uuid key.1 key.2) ;!
      report_generated_keys resource_uuid backend_id n'
  end.

Definition provision_resource_api_keys {S} (resource_uuid backend_id : string)
    (count : option nat) : M agentE S unit :=
  let! known := known_client_ids resource_uuid in
  match known with
  | Some ids =>
      let! _ := attempt (backend (PruneUnknownResourceKeys backend_id ids)) in ret ()
  | None => ret ()
  end ;!
  let target := from_option id DEFAULT_RESOURCE_KEY_COUNT count in
  let missing := (target - length (from_option id [] known))%nat in
  let! n := backend (GenerateResourceKeys backend_id missing) in
  report_generated_keys resource_uuid backend_id n.

(** [resource_api_keys.manages_api_keys]. *)
Definition manages_api_keys (r : WaldurResource) : bool :=
  truthy (json_get (res_plugin_options r) "enable_api_key_provisioning" JNull).

Section Orders.
Context (cfg : processor_config).
Local Abbreviation caps := (cfg_capabilities cfg).

(** ** User context *)

Definition fetch_service_provider_ssh_keys : proc (gmap string string) :=
  if negb (cfg_has_service_provider cfg) then ret ∅
  else
    let! r := attempt (waldur ProviderKeysList) in
    match r with
    | Ok keys => ret (dict_of (List.filter (λ k, nonempty k.1 && nonempty k.2) keys))
    | Err _ => ret ∅
    end.

(** The team listing, repeated while it is empty; its last answer. *)
Fixpoint fetch_team (resource_uuid : string) (attempts : nat) : proc (list ProjectUser) :=
  match attempts with
  | O => ret []
  | S n =>
      let! team := waldur (ResourceTeamList resource_uuid None) in
      match team with
      | _ :: _ => ret team
      | [] =>
          match n with
          | O => ret []
          | S _ => sleep (team_fetch_delay caps) ;! fetch_team resource_uuid n
          end
      end
  end.

Definition empty_user_context : user_context :=
  {| ctx_team := []; ctx_offering_users := []; ctx_user_mappings := ∅;
     ctx_offering_user_mappings := ∅; ctx_plan_quotas := None; ctx_ssh_keys := None |}.

Definition user_context_of (team : list ProjectUser) (all : list OfferingUser) : user_context :=
  let members := List.filter (λ u, bool_decide (ou_user_uuid u ∈ map pu_uuid team)) all in
  {| ctx_team := team; ctx_offering_users := members;
     ctx_user_mappings := map_by pu_uuid team;
     ctx_offering_user_mappings := map_by ou_user_uuid members;
     ctx_plan_quotas := None; ctx_ssh_keys := None |}.

Definition fetch_user_context_for_resource (resource_uuid : string) : proc user_context :=
  let! r := attempt (
    let! team := fetch_team resource_uuid (team_fetch_attempts caps) in
    match team with
    | [] => raise (ObjectNotFoundError "No team members found for resource")
    | _ =>
        let! all := get_cached_offering_users in
        ret (user_context_of team all)
    end) in
  match r with
  | Ok ctx => ret ctx
  | Err _ => ret empty_user_context
  end.

(** [user_context.update(...)]: the four entries of a fresh context. *)
Definition update_context (old new : user_context) : user_context :=
  {| ctx_team := ctx_team new; ctx_offering_users := ctx_offering_users new;
     ctx_user_mappings := ctx_user_mappings new;
     ctx_offering_user_mappings := ctx_offering_user_mappings new;
     ctx_plan_quotas := ctx_plan_quotas old; ctx_ssh_keys := ctx_ssh_keys old |}.

Definition ok_usernames (us : list OfferingUser) : gset string :=
  list_to_set (map ou_username
    (List.filter (λ u, bool_decide (ou_state u = OfferingUserState.OK)) us)).

Definition user_cuids_of (us : list OfferingUser) : gmap string string :=
  dict_of (omap (λ u, match field_str (ou_user_username u) with
                      | Some cuid => if nonempty (ou_username u)
                                     then Some (ou_username u, cuid) else None
                      | None => None
                      end) us).

Definition user_roles_of (team : list ProjectUser) : gmap string string :=
  dict_of (map (λ m, (pu_offering_user_username m, pu_role m))
    (List.filter (λ m, nonempty (pu_offering_user_username m) && nonempty (pu_role m)) team)).

Definition add_users_to_resource (r : WaldurResource) (ctx : user_context) : proc unit :=
  let! p := processor_update_offering_users cfg true (ctx_offering_users ctx) in
  let '(outcome, objects) := p in
  let! updated := of_res outcome in
  let! ctx' :=
    if updated : bool then
      let! fresh := fetch_user_context_for_resource (res_uuid r) in
      ret (update_context ctx fresh)
    else
      ret (update_context ctx {| ctx_team := ctx_team ctx; ctx_offering_users := objects;
             ctx_user_mappings := ctx_user_mappings ctx;
             ctx_offering_user_mappings := ctx_offering_user_mappings ctx;
             ctx_plan_quotas := None; ctx_ssh_keys := None |}) in
  let us := ctx_offering_users ctx' in
  let names := ok_usernames us in
  if decide (names = ∅) then ret ()
  else
    let! attributes := build_user_attributes_mapping us in
    backend (AddUsersToResource r names
      {| kw_homedir_umask := Some (setting cfg "default_homedir_umask" (JStr "0077"));
         kw_user_roles := user_roles_of (ctx_team ctx'); kw_user_emails := ∅;
         kw_user_cuids := user_cuids_of us; kw_user_attributes := attributes;
         kw_user_states := ∅ |}) ;!
    ret ().

(** ** Creating, updating and terminating *)

Definition resolve_plan_limits (plan_uuid : string) : proc (gmap string Z) :=
  if negb (nonempty plan_uuid) then ret ∅
  else
    let! r := attempt (waldur (PlanRetrieve plan_uuid)) in
    match r with
    | Ok (Some quotas) => ret (filter (λ kv : string * Z, kv.2 ≠ 0) quotas)
    | Ok None => ret ∅
    | Err _ => ret ∅
    end.

Definition provision_api_keys (r : WaldurResource) (info : BackendResourceInfo) : proc unit :=
  if negb (supports_resource_api_keys caps) then ret ()
  else
    let minted_on_request := manages_api_keys r && supports_resource_api_key_lifecycle caps in
    let! _ := attempt (provision_resource_api_keys (res_uuid r) (info_backend_id info)
                         (if minted_on_request then Some 0%nat else None)) in
    ret ().

(** [user_context["plan_quotas"] = ...; user_context["ssh_keys"] = ...]. *)
Definition enrich_context (ctx : user_context) (quotas : gmap string Z)
    (keys : gmap string string) : user_context :=
  {| ctx_team := ctx_team ctx; ctx_offering_users := ctx_offering_users ctx;
     ctx_user_mappings := ctx_user_mappings ctx;
     ctx_offering_user_mappings := ctx_offering_user_mappings ctx;
     ctx_plan_quotas := Some quotas; ctx_ssh_keys := Some keys |}.

Definition create_resource (r : WaldurResource) (ctx : user_context)
  : proc (option BackendResourceInfo) :=
  let! quotas := resolve_plan_limits (res_plan_uuid r) in
  let! keys := fetch_service_provider_ssh_keys in
  let! created := create_resource_with_uniqueness_check cfg r (enrich_context ctx quotas keys) in
  match created with
  | None => raise (AttributeError "'NoneType' object has no attribute 'backend_id'")
  | Some info =>
      if String.eqb (info_backend_id info) "" then
        raise (BackendError "Unable to create a backend resource for offering")
      else
        waldur (ResourceSetBackendId (res_uuid r) (info_backend_id info)) ;!
        (if map_truthy (info_limits info)
         then waldur (ResourceSetLimits (res_uuid r) (info_limits info)) else ret ()) ;!
        (if map_truthy (info_backend_metadata info) then
           let! _ := attempt (waldur (ResourceSetBackendMetadata (res_uuid r)
                                        (info_backend_metadata info))) in ret ()
         else ret ()) ;!
        match info_endpoints info with
        | [] => ret ()
        | endpoints =>
            let! _ := attempt (waldur (ResourceSetEndpoints (res_uuid r) endpoints)) in ret ()
        end ;!
        provision_api_keys r info ;!
        ret (Some info)
  end.

Definition poll_async_target_order (o : Order) : proc (option bool) :=
  if negb (supports_async_orders caps) then ret None
  else if negb (nonempty (order_backend_id o)) then ret None
  else
    let! finished := backend (CheckPendingOrder (order_backend_id o)) in
    ret (Some finished).

Definition submit_async_target_order (o : Order) (pending_order_id : string) : proc bool :=
  waldur (OrderSetBackendId (order_uuid o) pending_order_id) ;! ret false.

(** [if pending_order_id and self.resource_backend.supports_async_orders]. *)
Definition awaits_target_order (pending : option string) : option string :=
  match pending with
  | Some id => if nonempty id && supports_async_orders caps then Some id else None
  | None => None
  end.

Definition establish_resource (o : Order) (r : WaldurResource) (reuse_backend_id : bool)
  : proc bool :=
  let! ctx := fetch_user_context_for_resource (order_resource_uuid o) in
  let! created :=
    if reuse_backend_id then
      let! created := backend (CreateResourceWithId r (res_backend_id r) ctx) in
      match created with
      | Some info => provision_api_keys r info
      | None => ret ()
      end ;!
      ret created
    else create_resource r ctx in
  match created with
  | None => raise (BackendError "Unable to create the resource")
  | Some info =>
      match awaits_target_order (Some (info_pending_order_id info)) with
      | Some id => submit_async_target_order o id
      | None => ret true
      end
  end.

Definition process_create_order (o : Order) : proc bool :=
  let! async_status := poll_async_target_order o in
  match async_status with
  | Some finished =>
      (if finished : bool then
         let! r := waldur (ResourceRetrieve (order_resource_uuid o)) in
         backend (SyncResourceEffectiveId r)
       else ret ()) ;!
      ret finished
  | None =>
      let! r := waldur (ResourceRetrieve (order_resource_uuid o)) in
      if nonempty (res_backend_id r) then
        let! info := backend (PullResource r) in
        match info with
        | Some _ => ret true
        | None => establish_resource o r true
        end
      else establish_resource o r false
  end.

Definition process_update_order (o : Order) : proc bool :=
  let! async_status := poll_async_target_order o in
  match async_status with
  | Some finished => ret finished
  | None =>
      let! r := waldur (ResourceRetrieve (order_resource_uuid o)) in
      let old_limits := from_option id ∅ (res_limits r) in
      let ordered := from_option id ∅ (order_limits o) in
      let! new_limits :=
        if map_truthy ordered then ret ordered
        else resolve_plan_limits (order_plan_uuid o) in
      if negb (map_truthy new_limits) then ret true
      else if decide (new_limits = old_limits) then
        let! prepaid := backend HasPrepaidComponents in
        (if prepaid : bool then
           backend (SetupResourceLimits (res_backend_id r) r) ;! ret ()
         else ret ()) ;!
        ret true
      else
        let! prepaid := backend HasPrepaidComponents in
        if prepaid : bool then
          match res_limits r with
          | None => raise (AttributeError "additional_properties")
          | Some old =>
              backend (SetupResourceLimits (res_backend_id r)
                         (with_limits r (Some (new_limits ∪ old)))) ;!
              ret true
          end
        else
          let! pending := backend (SetResourceLimits (res_backend_id r) new_limits) in
          match awaits_target_order pending with
          | Some id => submit_async_target_order o id
          | None => ret true
          end
  end.

Definition process_terminate_order (o : Order) : proc bool :=
  let! async_status := poll_async_target_order o in
  match async_status with
  | Some finished => ret finished
  | None =>
      let! r := waldur (ResourceRetrieve (order_resource_uuid o)) in
      let! pending := backend (DeleteResource r (order_project_slug o)) in
      match awaits_target_order pending with
      | Some id => submit_async_target_order o id
      | None => ret true
      end
  end.

Definition establishes (t : RequestTypes.t) : bool :=
  match t with RequestTypes.CREATE | RequestTypes.RESTORE => true | _ => false end.

Definition post_process_order (o : Order) : proc unit :=
  if establishes (order_type o) then
    let! r := waldur (ResourceRetrieve (order_resource_uuid o)) in
    let! ctx := fetch_user_context_for_resource (order_resource_uuid o) in
    add_users_to_resource r ctx ;!
    sync_resource_service_accounts cfg r ;!
    sync_resource_course_accounts cfg r
  else ret ().

(** ** One order *)

(** How the part of [process_order] before [provisioning_started = True] ends. *)
Inductive admission : Type :=
| Finished                 (* the code returned *)
| Accepted (o : Order)     (* [order] as it is when provisioning starts *)
| Vanished.                (* the refresh after approval answered nothing *)

Definition admit_order (o : Order) : proc admission :=
  match order_state o with
  | OrderState.DONE | OrderState.ERRED => ret Finished
  | OrderState.EXECUTING => ret (Accepted o)
  | OrderState.PENDING_PROVIDER =>
      let! decision := backend (EvaluatePendingOrder o) in
      match decision with
      | ACCEPT =>
          waldur (OrderApprove (order_uuid o)) ;!
          let! refreshed := waldur (OrderRetrieve (order_uuid o)) in
          match refreshed with
          | Some o' => ret (Accepted o')
          | None => ret Vanished
          end
      | REJECT => waldur (OrderRejectByProvider (order_uuid o)) ;! ret Finished
      | PENDING => ret Finished
      end
  | _ => ret Finished
  end.

Definition dispatch_order (o : Order) : proc bool :=
  match order_type o with
  | RequestTypes.CREATE | RequestTypes.RESTORE => process_create_order o
  | RequestTypes.UPDATE => process_update_order o
  | RequestTypes.TERMINATE => process_terminate_order o
  | RequestTypes.Other _ => ret false
  end.

(** From [provisioning_started = True] to the end of the [try]. *)
Definition provision_order (o : Order) : proc unit :=
  let! order_is_done := dispatch_order o in
  if order_is_done : bool then
    let! refreshed := waldur (OrderRetrieveState (order_uuid o)) in
    match refreshed with
    | None => raise (AttributeError "'NoneType' object has no attribute 'state'")
    | Some state =>
        (if decide (state = OrderState.EXECUTING)
         then waldur (OrderSetDone (order_uuid o)) ;! ret ()
         else ret ()) ;!
        let! _ := attempt (post_process_order o) in
        ret ()
    end
  else ret ().

Definition current_order_state (o : Order) : proc OrderState.t :=
  let! r := attempt (waldur (OrderRetrieveState (order_uuid o))) in
  match r with
  | Ok (Some state) => ret state
  | Ok None => ret (order_state o)
  | Err _ => ret (order_state o)
  end.

(** The [except] clauses, once provisioning has started. *)
Definition handle_provisioning_error (o : Order) (e : exn) : proc unit :=
  match e with
  | BackendNotReadyError _ => ret ()
  | _ =>
      if is_transient_waldur_api_error e then raise e
      else
        let! state := current_order_state o in
        if bool_decide (state ∈ TERMINAL_ORDER_STATES) then ret ()
        else
          let details := format_waldur_error_details (cfg_format_exc cfg) e
                           (cfg_expose_backend_error_details cfg) in
          let! _ := attempt (waldur (OrderSetErred (order_uuid o) details.1 details.2)) in
          ret ()
  end.

(** The same clauses before it. *)
Definition handle_admission_error (e : exn) : proc unit :=
  match e with
  | BackendNotReadyError _ => ret ()
  | _ => if is_transient_waldur_api_error e then raise e else ret ()
  end.

Definition process_order (o : Order) : proc unit :=
  let! r := attempt (admit_order o) in
  match r with
  | Err e => handle_admission_error e
  | Ok Finished => ret ()
  | Ok Vanished =>
      (* [order.state] raises, and so does [order.uuid] in the handler *)
      raise (AttributeError "'NoneType' object has no attribute 'uuid'")
  | Ok (Accepted o') =>
      let! r' := attempt (provision_order o') in
      match r' with
      | Ok _ => ret ()
      | Err e => handle_provisioning_error o' e
      end
  end.

(** ** Retries and the pass over an offering *)

Definition get_order_info (order_uuid : string) : proc (option Order) :=
  let! r := attempt (waldur (OrderRetrieve order_uuid)) in
  match r with
  | Ok o => ret o
  | Err (UnexpectedStatus _ _ _ _) => ret None
  | Err e => raise e
  end.

(** [attempts] attempts are left; [first] tells whether none was made yet. *)
Fixpoint order_attempts (o : Order) (delay : Z) (first : bool) (attempts : nat) : proc unit :=
  match attempts with
  | O => ret ()
  | S n =>
      let! r := attempt (
        let! fetched := if first : bool then ret (Some o) else get_order_info (order_uuid o) in
        match fetched with
        | None => ret ()
        | Some o' => process_order o'
        end) in
      match r with
      | Ok _ => ret ()
      | Err e =>
          match e with
          | UnexpectedStatus _ _ _ _ | TransportError _ =>
              match n with
              | O => ret ()
              | S _ => sleep delay
              end ;!
              order_attempts o delay false n
          | _ => raise e
          end
      end
  end.

Definition process_order_with_retries (o : Order) (retry_count : nat) (delay : Z) : proc unit :=
  order_attempts o delay true retry_count.

Definition process_listed_order (io : nat * Order) : proc unit :=
  (if Nat.eqb (io.1 mod HEARTBEAT_BATCH_SIZE) 0 then touch_heartbeat else ret ()) ;!
  let! _ := attempt (process_order_with_retries io.2 10 5) in
  ret ().

Definition list_and_process_orders : proc unit :=
  let! orders := waldur (OrdersList [OrderState.PENDING_PROVIDER; OrderState.EXECUTING]) in
  for_each (imap pair orders) process_listed_order.

Definition process_offering_orders : proc unit :=
  if supports_cycle_preflight caps then
    let! r := attempt (backend RunPreflight) in
    match r with
    | Ok _ => list_and_process_orders
    | Err (BackendNotReadyError _) => ret ()
    | Err e => raise e
    end
  else list_and_process_orders.
End Orders.

(** ** Which calls an order can make *)

(** Everything but the verdict on the order itself. *)
Definition no_verdict : ∀ X, agentE X → bool := λ X c,
  match c with
  | Waldur w =>
      match w with
      | OrderSetDone _ | OrderSetErred _ _ _ | OrderApprove _ | OrderRejectByProvider _ => false
      | _ => true
      end
  | _ => true
  end.

(** Derive the footprint of a program from the one in the hint database. *)
Ltac weaken_calls :=
  eapply calls_mono; [|solve [eauto with calls]];
  intros ? c; destruct c as [? w|? w|? w| | |]; try destruct w; simpl; try discriminate; done.

Section Footprints.
Context (cfg : processor_config).

Lemma report_generated_keys_calls {S} u b n :
  calls (S:=S) no_verdict (report_generated_keys u b n).
Proof. induction n as [|n IH]; simpl; [calls_auto|]. calls_auto; apply IH. Qed.
#[local] Hint Resolve report_generated_keys_calls : calls.

Lemma provision_resource_api_keys_calls {S} u b count :
  calls (S:=S) no_verdict (provision_resource_api_keys u b count).
Proof. unfold provision_resource_api_keys, known_client_ids. calls_auto. Qed.
#[local] Hint Resolve provision_resource_api_keys_calls : calls.

Lemma fetch_team_calls u n : calls no_verdict (fetch_team cfg u n).
Proof. induction n as [|n IH]; simpl; [calls_auto|]. calls_auto; apply IH. Qed.
#[local] Hint Resolve fetch_team_calls : calls.

Lemma listed_users_calls : calls no_verdict get_cached_offering_users.
Proof. weaken_calls. Qed.
Lemma attributes_calls us : calls no_verdict (build_user_attributes_mapping us).
Proof. weaken_calls. Qed.
Lemma username_update_calls b us :
  calls no_verdict (processor_update_offering_users cfg b us).
Proof. weaken_calls. Qed.
Lemma unique_creation_calls r ctx :
  calls no_verdict (create_resource_with_uniqueness_check cfg r ctx).
Proof.
  eapply calls_mono; [|apply create_resource_with_uniqueness_check_calls].
  intros ? c; destruct c as [? w|? w|? w| | |]; try destruct w; done.
Qed.
Lemma service_accounts_calls r : calls no_verdict (sync_resource_service_accounts cfg r).
Proof.
  eapply calls_mono; [|apply sync_accounts_calls].
  intros ? c; destruct c as [? w|? w|? w| | |]; try destruct w; done.
Qed.
Lemma course_accounts_calls r : calls no_verdict (sync_resource_course_accounts cfg r).
Proof.
  eapply calls_mono; [|apply sync_accounts_calls].
  intros ? c; destruct c as [? w|? w|? w| | |]; try destruct w; done.
Qed.
#[local] Hint Resolve listed_users_calls attributes_calls username_update_calls
  unique_creation_calls service_accounts_calls course_accounts_calls : calls.

Lemma fetch_user_context_calls u : calls no_verdict (fetch_user_context_for_resource cfg u).
Proof. unfold fetch_user_context_for_resource. calls_auto. Qed.
Lemma resolve_plan_limits_calls p : calls no_verdict (resolve_plan_limits p).
Proof. unfold resolve_plan_limits. calls_auto. Qed.
Lemma provision_api_keys_calls r info : calls no_verdict (provision_api_keys cfg r info).
Proof. unfold provision_api_keys. calls_auto. Qed.
Lemma poll_calls o : calls no_verdict (poll_async_target_order cfg o).
Proof. unfold poll_async_target_order. calls_auto. Qed.
#[local] Hint Resolve fetch_user_context_calls resolve_plan_limits_calls
  provision_api_keys_calls poll_calls : calls.

Lemma create_resource_calls r ctx : calls no_verdict (create_resource cfg r ctx).
Proof. unfold create_resource, fetch_service_provider_ssh_keys. calls_auto. Qed.
#[local] Hint Resolve create_resource_calls : calls.

Lemma establish_resource_calls o r b : calls no_verdict (establish_resource cfg o r b).
Proof. unfold establish_resource, submit_async_target_order. calls_auto. Qed.
#[local] Hint Resolve establish_resource_calls : calls.

Lemma dispatch_order_calls o : calls no_verdict (dispatch_order cfg o).
Proof.
  unfold dispatch_order, process_create_order, process_update_order, process_terminate_order,
    submit_async_target_order. calls_auto.
Qed.

Lemma post_process_order_calls o : calls no_verdict (post_process_order cfg o).
Proof. unfold post_process_order, add_users_to_resource. calls_auto. Qed.
End Footprints.

#[export] Hint Resolve dispatch_order_calls post_process_order_calls : calls.

(** ** The life of one order *)

(** Backend calls that change the resource behind an order. *)
Definition provisions {X} (b : backendE X) : bool :=
  match b with
  | CreateResourceWithId _ _ _ | SetupResourceLimits _ _ | SetResourceLimits _ _
  | DeleteResource _ _ | AddUsersToResource _ _ _ | RemoveUsersFromResource _ _ _
  | PruneUnknownResourceKeys _ _ | GenerateResourceKeys _ _ | NextResourceKey _
  | SyncResourceEffectiveId _ => true
  | _ => false
  end.

(** [o'] is the order as provisioning sees it: [o] itself when it is executing, the
    refreshed one when the run began by accepting and approving it. *)
Definition admitted (o o' : Order) (H : trace agentE) : Prop :=
  (order_state o = OrderState.EXECUTING ∧ o' = o) ∨
  (order_state o = OrderState.PENDING_PROVIDER ∧ ∃ status K,
     H = K ++ [Ev (Waldur (OrderRetrieve (order_uuid o))) (Ok (Some o'));
               Ev (Waldur (OrderApprove (order_uuid o))) (Ok status);
               Ev (Backend (EvaluatePendingOrder o)) (Ok ACCEPT)]).

(** Waldur accepted the order as done. *)
Definition set_done_ok (H : trace agentE) : bool :=
  existsb (λ ev, match ev with
                 | Ev c r => match c in agentE X return res X → bool with
                             | Waldur w => match w in waldurE X return res X → bool with
                                           | OrderSetDone _ => λ r,
                                               match r with Ok _ => true | Err _ => false end
                                           | _ => λ _, false
                                           end
                             | _ => λ _, false
                             end r
                 end) H.

(** The state the error handler acts on: the one it read, or the one it had. *)
Definition state_acted_on (o : Order) (answer : res (option OrderState.t)) : OrderState.t :=
  match answer with Ok (Some state) => state | _ => order_state o end.

Definition verdict_guard (o : Order) : guard agentE := λ X H c,
  match c with
  | Backend b => provisions b = true → ∃ o', admitted o o' H
  | Waldur w =>
      match w with
      | OrderSetDone uuid => ∃ o' H', admitted o o' H ∧ uuid = order_uuid o' ∧
          H = Ev (Waldur (OrderRetrieveState uuid)) (Ok (Some OrderState.EXECUTING)) :: H'
      | OrderSetErred uuid _ _ => ∃ o' answer H', admitted o o' H ∧ uuid = order_uuid o' ∧
          H = Ev (Waldur (OrderRetrieveState uuid)) answer :: H' ∧
          state_acted_on o' answer ∉ TERMINAL_ORDER_STATES ∧ set_done_ok H = false
      | OrderApprove uuid => uuid = order_uuid o ∧ order_state o = OrderState.PENDING_PROVIDER ∧
          H = [Ev (Backend (EvaluatePendingOrder o)) (Ok ACCEPT)]
      | OrderRejectByProvider uuid => uuid = order_uuid o ∧
          order_state o = OrderState.PENDING_PROVIDER ∧
          H = [Ev (Backend (EvaluatePendingOrder o)) (Ok REJECT)]
      | _ => True
      end
  | _ => True
  end.

Lemma admitted_cons o o' ev H : admitted o o' H → admitted o o' (ev :: H).
Proof. intros [?|(? & st & K & ->)]; [by left|]. right. split; [done|]. by exists st, (ev :: K). Qed.

Section OrderLife.
Context (cfg : processor_config) (o o' : Order).
Local Abbreviation G := (verdict_guard o).

(** What holds of the history while provisioning runs. *)
Definition provisioning (H : trace agentE) : Prop := admitted o o' H ∧ set_done_ok H = false.

Lemma provisioning_cons X (c : agentE X) a H :
  provisioning H → no_verdict X c = true → provisioning (Ev c a :: H).
Proof.
  intros [Ha Hd] Hc. split; [by apply admitted_cons|].
  unfold set_done_ok; simpl. fold (set_done_ok H). rewrite Hd, orb_false_r.
  destruct c as [? w|? w|? w| | |]; try done; by destruct w.
Qed.

Lemma provisioning_guard X H (c : agentE X) : provisioning H → no_verdict X c = true → G X H c.
Proof.
  intros [Ha _] Hc. destruct c as [? w|? w|? w| | |]; try done; destruct w; try done;
    intros _; by exists o'.
Qed.

Lemma provisioning_wp {A} (m : proc A) s H :
  calls no_verdict m → provisioning H → wpM G m (λ _ _ H', provisioning H') s H.
Proof.
  intros Hm HI. apply (calls_wpM_inv no_verdict _ provisioning); auto.
  - intros. by apply provisioning_guard.
  - intros. by apply provisioning_cons.
Qed.

Lemma provision_order_spec s H :
  provisioning H →
  wpM G (provision_order cfg o') (λ r _ H', match r with
    | Ok _ => True | Err _ => provisioning H' end) s H.
Proof.
  intros HI. unfold provision_order. wp_step.
  eapply wpM_mono; [apply provisioning_wp; [auto with calls|done]|].
  intros [[]|e] s1 H1 HI1; cbv iota; [|by wp_step|done].
  wp_step. wp_call as [[state|]|e]; [|by apply provisioning_cons..].
  wp_steps. case_decide as Hs.
  - subst. wp_step. apply wpM_call.
    { exists o'. eexists. split_and!; [apply admitted_cons, HI1|done|done]. }
    intros [st|e].
    + wp_steps. eapply wpM_mono.
      { eapply (calls_wpM_inv no_verdict _ (admitted o o') _ (λ _ _ _, True));
          [auto with calls| | | |done].
        - by repeat apply admitted_cons; apply HI1.
        - intros X H2 c Ha Hc. destruct c as [? w|? w|? w| | |]; try done; destruct w; try done;
            intros _; by exists o'.
        - intros. by apply admitted_cons. }
      intros [[]|e] s2 H2 _; by wp_steps.
    + split; [by do 2 apply admitted_cons; apply HI1|].
      destruct HI1 as [_ Hd]. unfold set_done_ok in *. simpl. by rewrite Hd.
  - wp_steps. eapply wpM_mono; [apply provisioning_wp; [auto with calls|by apply provisioning_cons]|].
    intros [[]|e] s2 H2 HI2; by wp_steps.
Qed.

Definition error_escapes (r : res unit) : Prop :=
  match r with
  | Ok _ => True
  | Err e => is_transient_waldur_api_error e = true
  end.

Lemma handle_provisioning_error_spec e s H :
  provisioning H →
  wpM G (handle_provisioning_error cfg o' e) (λ r _ _, error_escapes r) s H.
Proof.
  intros HI. unfold handle_provisioning_error.
  assert (Hgen : wpM G (if is_transient_waldur_api_error e then raise e else
    let! state := current_order_state o' in
    if bool_decide (state ∈ TERMINAL_ORDER_STATES) then ret ()
    else
      let details := format_waldur_error_details (cfg_format_exc cfg) e
                       (cfg_expose_backend_error_details cfg) in
      let! _ := attempt (waldur (OrderSetErred (order_uuid o') details.1 details.2)) in
      ret ()) (λ r _ _, error_escapes r) s H).
  { destruct (is_transient_waldur_api_error e) eqn:He; [by wp_step|].
    unfold current_order_state. wp_steps. apply wpM_call; [done|]. intros a.
    assert (Hcur : wpM G (if bool_decide (state_acted_on o' a ∈ TERMINAL_ORDER_STATES) then ret ()
      else
        let details := format_waldur_error_details (cfg_format_exc cfg) e
                         (cfg_expose_backend_error_details cfg) in
        let! _ := attempt (waldur (OrderSetErred (order_uuid o') details.1 details.2)) in
        ret ()) (λ r _ _, error_escapes r) s
        (Ev (Waldur (OrderRetrieveState (order_uuid o'))) a :: H)).
    { case_bool_decide as Ht; [by wp_step|]. wp_steps. apply wpM_call.
      { exists o', a, H. split_and!; try done; [apply admitted_cons, HI|].
        by apply (provisioning_cons _ (Waldur (OrderRetrieveState (order_uuid o'))) a H HI). }
      intros [st|e']; by wp_steps. }
    destruct a as [[state|]|e']; wp_steps; exact Hcur. }
  destruct e; try exact Hgen. by wp_step.
Qed.
End OrderLife.

Lemma admit_order_spec o s :
  wpM (verdict_guard o) (admit_order o) (λ r s' H', match r with
    | Ok (Accepted o') => provisioning o o' H'
    | Ok Vanished => ∃ K, H' = Ev (Waldur (OrderRetrieve (order_uuid o))) (Ok None) :: K
    | _ => True
    end) s [].
Proof.
  unfold admit_order. destruct (order_state o) eqn:Hst; wp_steps; try done.
  - wp_call as [[]|e]; [..|done]; wp_steps; [| |done].
    + apply wpM_call; [done|]. intros [st|e]; [wp_steps|done]. wp_call as [[o'|]|e];
        [wp_step|wp_step; eauto|done]. split; [|done]. right. split; [done|]. by exists st, [].
    + apply wpM_call; [done|]. by intros [st|e]; [wp_steps|].
  - split; [by left|done].
Qed.

(** What [process_order] lets escape: a transient API failure, or the failure on an
    order that vanished while it was approved. *)
Definition escapes (o : Order) (r : res unit) (H : trace agentE) : Prop :=
  match r with
  | Ok _ => True
  | Err e => is_transient_waldur_api_error e = true ∨
             ∃ K, H = Ev (Waldur (OrderRetrieve (order_uuid o))) (Ok None) :: K
  end.

Lemma process_order_spec cfg o s :
  wpM (verdict_guard o) (process_order cfg o) (λ r _ H', escapes o r H') s [].
Proof.
  unfold process_order. wp_steps. eapply wpM_mono; [apply admit_order_spec|].
  intros [[|o'|]|e] s1 H1 Ha; cbv iota.
  - by wp_step.
  - wp_steps. eapply wpM_mono; [by apply (provision_order_spec cfg o o')|].
    intros [[]|e] s2 H2 HI; cbv iota; [by wp_step|].
    eapply wpM_mono; [by apply (handle_provisioning_error_spec cfg o o')|].
    intros [[]|e'] s3 H3 He; [done|by left].
  - wp_step. by right.
  - unfold handle_admission_error.
    destruct e; simpl; try case_match; wp_step; try done; left; simpl; by rewrite ?orb_true_iff in *.
Qed.

(** C2: an order is set done only by a call that directly follows a re-read of its
    state that answered executing. *)
Theorem order_done_after_executing cfg o s τ s' r τ1 τ2 uuid a :
  runs (process_order cfg o s) τ (s', r) →
  τ = τ1 ++ Ev (Waldur (OrderSetDone uuid)) a :: τ2 →
  ∃ τ0, τ1 = τ0 ++ [Ev (Waldur (OrderRetrieveState uuid)) (Ok (Some OrderState.EXECUTING))].
Proof.
  intros Hrun Hτ.
  destruct (wpM_call_guard _ _ _ _ _ _ _ _ _ _ _ (process_order_spec cfg o s) Hrun Hτ)
    as (o' & H' & _ & _ & Heq).
  exists (rev H'). by rewrite <- (rev_involutive τ1), Heq.
Qed.

(** An order is set erred only once its provisioning has started (it was
    executing, or was accepted and approved in this run), directly after a
    re-read of its state, when the state so known (the local one where the
    re-read failed) is not terminal, and never after Waldur accepted the order as
    done: a failure of the post-processing of a done order does not err it. *)
Theorem order_erred_only_unfinished cfg o s τ s' r τ1 τ2 uuid msg tb a :
  runs (process_order cfg o s) τ (s', r) →
  τ = τ1 ++ Ev (Waldur (OrderSetErred uuid msg tb)) a :: τ2 →
  ∃ o' answer τ0, admitted o o' (rev τ1) ∧ uuid = order_uuid o' ∧
    τ1 = τ0 ++ [Ev (Waldur (OrderRetrieveState uuid)) answer] ∧
    state_acted_on o' answer ∉ TERMINAL_ORDER_STATES ∧ set_done_ok τ1 = false.
Proof.
  intros Hrun Hτ.
  destruct (wpM_call_guard _ _ _ _ _ _ _ _ _ _ _ (process_order_spec cfg o s) Hrun Hτ)
    as (o' & answer & H' & Ha & -> & Heq & Ht & Hd).
  exists o', answer, (rev H'). split_and!; try done.
  - by rewrite <- (rev_involutive τ1), Heq.
  - unfold set_done_ok in *. by rewrite existsb_rev in Hd.
Qed.

(** C1: the backend is only asked to change anything for an order that was executing
    when the run began, or that this run had the backend accept, approved at
    Waldur and read back; an order Waldur lists as done, erred, canceled or
    rejected causes no such call. *)
Theorem provisioning_only_when_admitted cfg o s τ s' r τ1 τ2 {X} (b : backendE X) a :
  runs (process_order cfg o s) τ (s', r) →
  τ = τ1 ++ Ev (Backend b) a :: τ2 → provisions b = true →
  ∃ o', admitted o o' (rev τ1).
Proof.
  intros Hrun Hτ.
  exact (wpM_call_guard _ _ _ _ _ _ _ _ _ _ _ (process_order_spec cfg o s) Hrun Hτ).
Qed.

(** The only exceptions [process_order] lets through are the transient Waldur API
    failures its caller retries (network failures, HTTP 5xx and 429), and the
    failure on an order that Waldur no longer returned right after approving it. *)
Theorem process_order_escapes cfg o s τ s' e :
  runs (process_order cfg o s) τ (s', Err e) →
  is_transient_waldur_api_error e = true ∨
  ∃ τ0, τ = τ0 ++ [Ev (Waldur (OrderRetrieve (order_uuid o))) (Ok None)].
Proof.
  intros Hrun. destruct (wpM_sound _ _ _ _ _ _ _ (process_order_spec cfg o s) Hrun) as [[|[K HK]] _].
  - by left.
  - right. exists (rev K). by rewrite <- (rev_involutive τ), HK.
Qed.

(** The answer of the approval is not examined: an order whose approval Waldur
    refuses, and which it still lists as pending, is terminated on the backend
    all the same. *)
Theorem refused_approval_still_provisions cfg o r :
  order_state o = OrderState.PENDING_PROVIDER → order_type o = RequestTypes.TERMINATE →
  supports_async_orders (cfg_capabilities cfg) = false →
  ∃ τ, runs (process_order cfg o initial_state) τ (initial_state, Ok ()) ∧
       Ev (Waldur (OrderApprove (order_uuid o))) (Ok 409) ∈ τ ∧
       Ev (Backend (DeleteResource r (order_project_slug o))) (Ok None) ∈ τ ∧
       Ev (Waldur (OrderRetrieve (order_uuid o))) (Ok (Some o)) ∈ τ.
Proof.
  intros Hst Hty Hasync.
  exists [Ev (Backend (EvaluatePendingOrder o)) (Ok ACCEPT);
     Ev (Waldur (OrderApprove (order_uuid o))) (Ok 409);
     Ev (Waldur (OrderRetrieve (order_uuid o))) (Ok (Some o));
     Ev (Waldur (ResourceRetrieve (order_resource_uuid o))) (Ok r);
     Ev (Backend (DeleteResource r (order_project_slug o))) (Ok None);
     Ev (Waldur (OrderRetrieveState (order_uuid o))) (Ok (Some OrderState.PENDING_PROVIDER))].
  split_and!; [|set_solver..].
  destruct cfg as [off caps ub sp ex fmt]; destruct caps; destruct o as [? ty st]; simpl in *.
  subst. solve_runs.
Qed.

(** ** The pass over an offering *)

(** The calls whose failure ends the pass: the preflight, the listing and the heartbeat. *)
Definition pass_call {X} (c : agentE X) : bool :=
  match c with
  | TouchHeartbeat => true
  | Backend b => match b with RunPreflight => true | _ => false end
  | Waldur w => match w with OrdersList _ => true | _ => false end
  | _ => false
  end.

Definition failed_pass_call (e : exn) (H : trace agentE) : Prop :=
  ∃ X (c : agentE X), pass_call c = true ∧ Ev c (Err e) ∈ H.

Lemma list_and_process_orders_spec cfg s H :
  wpM no_guard (list_and_process_orders cfg) (λ r _ H', match r with
    | Ok _ => True | Err e => failed_pass_call e H' end) s H.
Proof.
  unfold list_and_process_orders. wp_step. wp_call as [orders|e].
  2:{ eexists _, _. split; [|left]. done. }
  apply (wpM_for_each _ _ _ (λ _ _ _, True)); [|done..].
  intros xs [i o] s1 H1 _ _. unfold process_listed_order. wp_steps.
  eapply (wpM_mono _ _ (λ r _ H', match r with Ok _ => True | Err e => failed_pass_call e H' end)).
  - case_match; [|by wp_step]. unfold touch_heartbeat. apply wpM_call; [done|].
    intros [[]|e]; [done|]. eexists _, TouchHeartbeat. split; [done|left].
  - intros [[]|e] s2 H2 He; [|done]. wp_steps.
    apply (calls_wpM (λ _ _, true)); [|done|].
    + intros s3. generalize (process_order_with_retries cfg (i, o).2 10 5 s3).
      intros p; induction p; simpl; auto.
    + intros [[]|e] s3 K _; by wp_steps.
Qed.

(** One order cannot stop the pass over an offering: whatever happens while an
    order is processed, the pass only fails when the preflight (for another
    reason than the backend not being ready), the listing of the orders or the
    heartbeat fails. *)
Theorem order_failures_isolated cfg s τ s' e :
  runs (process_offering_orders cfg s) τ (s', Err e) → failed_pass_call e τ.
Proof.
  assert (Hspec : wpM no_guard (process_offering_orders cfg) (λ r _ H', match r with
    | Ok _ => True | Err e => failed_pass_call e H' end) s []).
  { unfold process_offering_orders. case_match; [|apply list_and_process_orders_spec].
    wp_steps. apply wpM_call; [done|]. intros [[]|e']; [apply list_and_process_orders_spec|].
    destruct e'; wp_step; try done; eexists _, (Backend RunPreflight); (split; [done|left]). }
  intros Hrun. destruct (wpM_sound _ _ _ _ _ _ _ Hspec Hrun) as [(X & c & Hc & Hin) _].
  exists X, c. split; [done|]. by apply elem_of_rev.
Qed.

(** ** First API keys *)

(** The identifiers Waldur is known to hold: a complete, non-empty listing. *)
Definition complete_listing (keys : list ApiKeyRow) (ids : list string) : Prop :=
  ids = present_client_ids keys ∧ length ids = length keys ∧ ids ≠ [].

(** A produced key that was not reported yet. *)
Definition unreported (H : trace agentE) : Prop :=
  match H with
  | Ev c r :: _ => match c with
                   | Backend b => match b with NextResourceKey _ => True | _ => False end
                   | _ => False
                   end
  | [] => False
  end.

Definition keys_guard (resource_uuid backend_id : string) (target : nat) : guard agentE := λ X H c,
  match c with
  | Backend b =>
      match b with
      | PruneUnknownResourceKeys b' keep => b' = backend_id ∧ ∃ keys,
          H = [Ev (Waldur (ApiKeysList resource_uuid)) (Ok keys)] ∧ complete_listing keys keep
      | GenerateResourceKeys b' n => b' = backend_id ∧
          ((∃ keys ids, Ev (Waldur (ApiKeysList resource_uuid)) (Ok keys) ∈ H ∧
              complete_listing keys ids ∧ n + length ids = Nat.max target (length ids))%nat ∨
           n = target)
      | NextResourceKey b' => b' = backend_id ∧ ¬ unreported H
      | _ => False
      end
  | Waldur w =>
      match w with
      | ApiKeyReportCreated u id key => u = resource_uuid ∧
          ∃ H', H = Ev (Backend (NextResourceKey backend_id)) (Ok (id, key)) :: H'
      | ApiKeysList u => u = resource_uuid
      | _ => False
      end
  | _ => False
  end.

Lemma report_generated_keys_spec {S} u b target n (s : S) H :
  ¬ unreported H →
  wpM (keys_guard u b target) (report_generated_keys u b n) (λ _ _ _, True) s H.
Proof.
  revert s H; induction n as [|n IH]; intros s H Hun; simpl; [by wp_step|].
  wp_step. apply wpM_call; [done|]. intros [[id key]|e]; [|done]. wp_step.
  apply wpM_call; [by split; [|eexists]|]. intros [[]|e]; [|done]. apply IH. by intros [].
Qed.

Lemma known_client_ids_spec {S} u b target (s : S) :
  wpM (keys_guard u b target) (known_client_ids u) (λ r _ H', ¬ unreported H' ∧
    match r with
    | Ok (Some ids) => ∃ keys, H' = [Ev (Waldur (ApiKeysList u)) (Ok keys)] ∧
                               complete_listing keys ids
    | Ok None => True
    | Err _ => False
    end) s [].
Proof.
  unfold known_client_ids. wp_steps. apply wpM_call; [done|]. intros [keys|e];
    [|wp_steps; by split; [intros []|]].
  cbv zeta. destruct (Nat.eqb_spec (length (present_client_ids keys)) (length keys)) as [Hl|];
    simpl negb; cbv iota; [|wp_step; by split; [intros []|]].
  unfold complete_listing. destruct (present_client_ids keys) eqn:Hids; wp_step;
    (split; [by intros []|]); [done|]. exists keys. by rewrite Hids.
Qed.

Lemma provision_resource_api_keys_spec {S} u b count (s : S) :
  wpM (keys_guard u b (from_option id DEFAULT_RESOURCE_KEY_COUNT count))
    (provision_resource_api_keys u b count) (λ _ _ _, True) s [].
Proof.
  unfold provision_resource_api_keys. wp_step. eapply wpM_mono; [apply known_client_ids_spec|].
  intros [[ids|]|e] s1 H1 [Hun Hk]; [| |done]; wp_steps.
  - destruct Hk as (keys & -> & Hc). apply wpM_call; [split; [done|eauto]|].
    intros a. wp_steps. simpl from_option at 2. wp_call.
    { split; [done|]. left. exists keys, ids. split_and!; [set_solver|done|simpl; lia]. }
    intros [n|e]; [|done]. apply report_generated_keys_spec. by intros [].
  - wp_call.
    { split; [done|]. right. simpl. lia. }
    intros [n|e]; [|done]. apply report_generated_keys_spec. by intros [].
Qed.

(** Provisioning a resource's first keys prunes the backend only against a
    complete, non-empty listing of the keys Waldur holds; asks for exactly what
    is missing to the target count (2 unless the caller says otherwise), the
    whole target where the listing is unknown; and reports every key to Waldur
    before the next one is made. *)
Theorem key_provisioning_safe {S} u b count (s s' : S) τ r τ1 τ2 {X} (c : agentE X) a :
  runs (provision_resource_api_keys u b count s) τ (s', r) →
  τ = τ1 ++ Ev c a :: τ2 →
  keys_guard u b (from_option id DEFAULT_RESOURCE_KEY_COUNT count) X (rev τ1) c.
Proof.
  intros Hrun Hτ.
  exact (wpM_call_guard _ _ _ _ _ _ _ _ _ _ _ (provision_resource_api_keys_spec u b count s)
           Hrun Hτ).
Qed.

(** ** Creating the resource of an order *)

(** What [waldur_resource] a run works on. *)
Definition resource_read (o : Order) (r : WaldurResource) (H : trace agentE) : Prop :=
  Ev (Waldur (ResourceRetrieve (order_resource_uuid o))) (Ok r) ∈ H.

(** The backend made [info] for [r] in this run. *)
Definition created_in (r : WaldurResource) (info : BackendResourceInfo) (H : trace agentE) : Prop :=
  ∃ id ctx, Ev (Backend (CreateResourceWithId r id ctx)) (Ok (Some info)) ∈ H.

Definition create_order_guard (cfg : processor_config) (o : Order) : guard agentE := λ X H c,
  match c with
  | Backend b =>
      match b with
      | CreateResourceWithId r id _ => resource_read o r H ∧
          (res_backend_id r ≠ "" →
             id = res_backend_id r ∧ Ev (Backend (PullResource r)) (Ok None) ∈ H) ∧
          (res_backend_id r = "" → id_derived_and_checked cfg id H)
      | _ => True
      end
  | Waldur w =>
      match w with
      | ResourceSetBackendId u id => ∃ r info, resource_read o r H ∧ res_backend_id r = "" ∧
          u = res_uuid r ∧ created_in r info H ∧ id = info_backend_id info ∧ id ≠ ""
      | OrderSetBackendId u id => u = order_uuid o ∧ id ≠ "" ∧
          supports_async_orders (cfg_capabilities cfg) = true ∧
          ∃ r info, resource_read o r H ∧ created_in r info H ∧ id = info_pending_order_id info
      | _ => True
      end
  | _ => True
  end.

(** Calls this guard says nothing about. *)
Definition not_creating : ∀ X, agentE X → bool := λ X c,
  match c with
  | Backend b => match b with CreateResourceWithId _ _ _ => false | _ => true end
  | Waldur w =>
      match w with
      | ResourceSetBackendId _ _ | OrderSetBackendId _ _ => false
      | _ => true
      end
  | _ => true
  end.

Section CreateOrder.
Context (cfg : processor_config) (o : Order) (r : WaldurResource).
Local Abbreviation G := (create_order_guard cfg o).

Lemma not_creating_guard X H (c : agentE X) : not_creating X c = true → G X H c.
Proof. destruct c as [? w|? w|? w| | |]; try done; by destruct w. Qed.

Lemma not_creating_wp {A} (m : proc A) (I : trace agentE → Prop) s H :
  calls not_creating m → (∀ X (c : agentE X) a H, I H → I (Ev c a :: H)) → I H →
  wpM G m (λ _ _ H', I H') s H.
Proof.
  intros Hm Hpres HI. apply (calls_wpM_inv not_creating _ I); auto.
  intros. by apply not_creating_guard.
Qed.

Lemma resource_read_cons X (c : agentE X) a H : resource_read o r H → resource_read o r (Ev c a :: H).
Proof. intros Hr. by right. Qed.

Lemma fetch_user_context_not_creating u :
  calls not_creating (fetch_user_context_for_resource cfg u).
Proof.
  assert (∀ n, calls not_creating (fetch_team cfg u n)).
  { intros n. induction n as [|n IH]; simpl; [calls_auto|]. calls_auto; apply IH. }
  assert (calls not_creating get_cached_offering_users) by weaken_calls.
  unfold fetch_user_context_for_resource. calls_auto.
Qed.

Lemma provision_api_keys_not_creating info : calls not_creating (provision_api_keys cfg r info).
Proof.
  assert (∀ u b n, calls (S:=processor_state) not_creating (report_generated_keys u b n)).
  { intros u b n. induction n as [|n IH]; simpl; [calls_auto|]. calls_auto; apply IH. }
  unfold provision_api_keys, provision_resource_api_keys, known_client_ids. calls_auto.
Qed.

(** The part of [_create_resource] after the backend created [info]. *)
Definition created (info : BackendResourceInfo) (H : trace agentE) : Prop :=
  resource_read o r H ∧ created_in r info H.

Lemma created_cons info X (c : agentE X) a H : created info H → created info (Ev c a :: H).
Proof. intros [? (id & ctx & ?)]. split; [by right|]. exists id, ctx. by right. Qed.

Lemma not_creating_then {A B} (m : proc A) (k : A → proc B) (I : trace agentE → Prop)
    (Q : res B → processor_state → trace agentE → Prop) s H :
  calls not_creating m → (∀ X (c : agentE X) a H, I H → I (Ev c a :: H)) → I H →
  (∀ a s' H', I H' → wpM G (k a) Q s' H') → (∀ e s' H', I H' → Q (Err e) s' H') →
  wpM G (bind m k) Q s H.
Proof.
  intros Hm Hpres HI Hk He. wp_step. eapply wpM_mono; [by apply (not_creating_wp _ I)|].
  intros [a|e] s' H' HI'; [by apply Hk|by apply He].
Qed.

Lemma create_order_resource_spec ctx s H :
  resource_read o r H → res_backend_id r = "" →
  wpM G (create_resource cfg r ctx) (λ x _ H', match x with
    | Ok (Some info) => created info H'
    | Ok None => False
    | Err _ => True end) s H.
Proof.
  intros Hr Hb. unfold create_resource.
  apply (not_creating_then _ _ (resource_read o r)); [|apply resource_read_cons|done| |done].
  { unfold resolve_plan_limits. calls_auto. }
  intros quotas s1 H1 Hr1.
  apply (not_creating_then _ _ (resource_read o r)); [|apply resource_read_cons|done| |done].
  { unfold fetch_service_provider_ssh_keys. calls_auto. }
  intros keys s2 H2 Hr2. wp_step.
  eapply (wpM_mono _ _ (λ x _ H', match x with
    | Ok (Some info) => created info H' | _ => True end)).
  { unfold create_resource_with_uniqueness_check. wp_steps.
    destruct (max_creation_attempts cfg r) as [n|e]; [|done].
    eapply (wpM_inv _ _ (resource_read o r)); [apply resource_read_cons| |done
      |apply wpM_footprint; [apply creation_attempts_calls|apply creation_attempts_spec]|].
    - intros X H3 c Hr3 [Hc HG]. destruct c as [? w|? b|? w| | |]; try done; destruct w || destruct b;
        try done. destruct HG as (-> & _ & Hid). split_and!; [done|by rewrite Hb|done].
    - intros [[info|]|e] s3 H3 (asked & _ & _ & _ & _ & Ho) Hr3; try done.
      split; [done|]. destruct Ho as (id & H4 & ->). eexists id, _. by left. }
  intros [[info|]|e] s3 H3 Hc; [|done..].
  destruct (String.eqb_spec (info_backend_id info) "") as [|Hne]; [by wp_step|].
  wp_step. apply wpM_call.
  { destruct Hc. exists r, info. auto 10. }
  intros [[]|e]; [|done].
  apply (not_creating_then _ _ (created info));
    [case_match; calls_auto|apply created_cons|by apply created_cons| |done].
  intros _ s4 H4 Hc4. apply (not_creating_then _ _ (created info));
    [case_match; calls_auto|apply created_cons|done| |done].
  intros _ s5 H5 Hc5. apply (not_creating_then _ _ (created info));
    [case_match; calls_auto|apply created_cons|done| |done].
  intros _ s6 H6 Hc6. apply (not_creating_then _ _ (created info));
    [apply provision_api_keys_not_creating|apply created_cons|done| |done].
  intros _ s7 H7 Hc7. by wp_step.
Qed.

(** The resource is established under the id it had, or under a new one if it had none. *)
Lemma establish_resource_spec reuse s H :
  resource_read o r H →
  (if reuse : bool then res_backend_id r ≠ "" ∧ Ev (Backend (PullResource r)) (Ok None) ∈ H
   else res_backend_id r = "") →
  wpM G (establish_resource cfg o r reuse) (λ x _ _, match x with
    | Ok false => supports_async_orders (cfg_capabilities cfg) = true
    | _ => True end) s H.
Proof.
  intros Hr Hb. set (I H' := resource_read o r H' ∧
    if reuse then res_backend_id r ≠ "" ∧ Ev (Backend (PullResource r)) (Ok None) ∈ H'
    else res_backend_id r = "").
  assert (HI : ∀ X (c : agentE X) a H, I H → I (Ev c a :: H)).
  { intros X c a H' [? Hb0]. split; [by right|]. destruct reuse; [|done]. by destruct Hb0; split; [|right]. }
  unfold establish_resource.
  apply (not_creating_then _ _ I); [apply fetch_user_context_not_creating|done|done| |done].
  intros ctx s1 H1 [Hr1 Hb1]. wp_step.
  eapply (wpM_mono _ _ (λ x _ H', match x with
    | Ok (Some info) => created info H' | _ => True end)).
  { destruct reuse; [|eapply wpM_mono; [by apply create_order_resource_spec|]; by intros [[]|]].
    wp_step. apply wpM_call; [by destruct Hb1|]. intros [[info|]|e]; [|by wp_steps|done].
    assert (Hc : created info (Ev (Backend (CreateResourceWithId r (res_backend_id r) ctx))
                                 (Ok (Some info)) :: H1)).
    { split; [by right|]. eexists _, _. left. }
    apply (not_creating_then _ _ (created info));
      [apply provision_api_keys_not_creating|apply created_cons|done| |done].
    intros _ s2 H2 Hc2. by wp_step. }
  intros [[info|]|e] s2 H2 Hc; [|done..]. unfold awaits_target_order.
  destruct (nonempty (info_pending_order_id info) && _) eqn:Ha; [|by wp_step].
  apply andb_true_iff in Ha as [Hn%nonempty_spec Has]. destruct Hc.
  unfold submit_async_target_order. wp_step. apply wpM_call; [simpl; eauto 10|].
  intros [[]|e]; by wp_steps.
Qed.
End CreateOrder.

Lemma establish_read_resource_spec cfg o s H :
  wpM (create_order_guard cfg o)
    (let! r := waldur (ResourceRetrieve (order_resource_uuid o)) in
     if nonempty (res_backend_id r) then
       let! info := backend (PullResource r) in
       match info with
       | Some _ => ret true
       | None => establish_resource cfg o r true
       end
     else establish_resource cfg o r false) (λ x _ _, match x with
    | Ok false => supports_async_orders (cfg_capabilities cfg) = true
    | _ => True end) s H.
Proof.
  wp_step. wp_call as [r|e]; [|done]. destruct (nonempty (res_backend_id r)) eqn:Hb.
  - wp_step. wp_call as [[info|]|e]; [by wp_step| |done].
    apply nonempty_spec in Hb. apply (establish_resource_spec cfg o r true);
      unfold resource_read; rewrite !elem_of_cons; auto.
  - apply (establish_resource_spec cfg o r false); [left|].
    apply not_true_iff_false in Hb. rewrite nonempty_spec in Hb. by apply dec_stable.
Qed.

Lemma process_create_order_spec cfg o s :
  wpM (create_order_guard cfg o) (process_create_order cfg o) (λ x _ _, match x with
    | Ok false => supports_async_orders (cfg_capabilities cfg) = true
    | _ => True end) s [].
Proof.
  pose proof (establish_read_resource_spec cfg o) as Hread.
  unfold process_create_order, poll_async_target_order. wp_step.
  destruct (supports_async_orders (cfg_capabilities cfg)) eqn:Has; simpl negb; cbv iota;
    [|wp_step; apply Hread].
  destruct (nonempty (order_backend_id o)); simpl negb; cbv iota; [|wp_step; apply Hread].
  wp_step. wp_call as [b|e]; [|done]. wp_steps. destruct b; [|by wp_steps]. wp_step.
  wp_call as [r|e]; [|done]. wp_call as [[]|e]; by wp_steps.
Qed.

(** C3: a CREATE or RESTORE order creates a backend resource only for the Waldur
    resource it just read: under the id that resource already has, and only
    after the backend answered that it does not know it, or, when it has none,
    under the id the backend derived just before, in the same attempt, and,
    where the uniqueness check is enabled, that Waldur, asked about it right
    before the creation, did not call taken; the id written back to Waldur is then the non-empty id
    of what the backend made in this run; and the order is only left waiting
    on a target order that the backend named and that the backend can track. *)
Theorem create_order_never_duplicates cfg o s τ s' x τ1 τ2 {X} (c : agentE X) a :
  runs (process_create_order cfg o s) τ (s', x) →
  τ = τ1 ++ Ev c a :: τ2 → create_order_guard cfg o X (rev τ1) c.
Proof.
  intros Hrun Hτ.
  exact (wpM_call_guard _ _ _ _ _ _ _ _ _ _ _ (process_create_order_spec cfg o s) Hrun Hτ).
Qed.

(** ** Updating limits *)

(** The limits an UPDATE order asks for: its own, or the quotas of its plan. *)
Definition ordered_limits (o : Order) (limits : gmap string Z) (H : trace agentE) : Prop :=
  limits ≠ ∅ ∧
  (order_limits o = Some limits ∨
   from_option id ∅ (order_limits o) = ∅ ∧ ∃ quotas,
     Ev (Waldur (PlanRetrieve (order_plan_uuid o))) (Ok (Some quotas)) ∈ H ∧
     limits = filter (λ kv : string * Z, kv.2 ≠ 0) quotas).

Definition update_order_guard (o : Order) : guard agentE := λ X H c,
  match c with
  | Backend b =>
      match b with
      | SetResourceLimits id limits => ∃ r H',
          H = Ev (Backend HasPrepaidComponents) (Ok false) :: H' ∧ resource_read o r H' ∧
          id = res_backend_id r ∧ ordered_limits o limits H' ∧
          limits ≠ from_option Datatypes.id ∅ (res_limits r)
      | SetupResourceLimits id r' => ∃ r limits H',
          H = Ev (Backend HasPrepaidComponents) (Ok true) :: H' ∧ resource_read o r H' ∧
          id = res_backend_id r ∧ ordered_limits o limits H' ∧
          (limits = from_option Datatypes.id ∅ (res_limits r) ∧ r' = r ∨
           ∃ old, res_limits r = Some old ∧ limits ≠ old ∧
                  r' = with_limits r (Some (limits ∪ old)))
      | HasPrepaidComponents | CheckPendingOrder _ => True
      | _ => False
      end
  | _ => True
  end.

Lemma resolve_plan_limits_spec o s H :
  wpM (update_order_guard o) (resolve_plan_limits (order_plan_uuid o)) (λ x _ H', ∃ K, H' = K ++ H ∧
    ∃ limits, x = Ok limits ∧ (limits ≠ ∅ → ∃ quotas,
     Ev (Waldur (PlanRetrieve (order_plan_uuid o))) (Ok (Some quotas)) ∈ H' ∧
     limits = filter (λ kv : string * Z, kv.2 ≠ 0) quotas)) s H.
Proof.
  unfold resolve_plan_limits. destruct (nonempty _); simpl negb; cbv iota.
  - wp_steps. wp_call as [[quotas|]|e]; wp_steps; (eexists [_]; split; [done|]); eexists;
      (split; [done|]); try done. intros _. exists quotas. split; [left|done].
  - wp_step. exists []. split; [done|]. by eexists.
Qed.

Lemma submit_async_calls_spec o (G : guard agentE) id s H Q :
  (∀ X H c, (match c with Backend _ => False | _ => True end) → G X H c) →
  (∀ r s' H', Q r s' H') → wpM G (submit_async_target_order o id) Q s H.
Proof.
  intros HG HQ. unfold submit_async_target_order. wp_step. apply wpM_call; [by apply HG|].
  intros [[]|e]; [wp_step|]; apply HQ.
Qed.

Lemma process_update_order_spec cfg o s :
  wpM (update_order_guard o) (process_update_order cfg o) (λ _ _ _, True) s [].
Proof.
  unfold process_update_order. wp_step.
  eapply (wpM_mono _ _ (λ _ _ _, True)).
  { unfold poll_async_target_order. destruct (supports_async_orders _), (nonempty _);
      simpl negb; cbv iota; try by wp_step. wp_step. wp_call as [b|e]; by try wp_step. }
  intros [[b|]|e] s1 H1 _; [by wp_step| |done]. wp_step. wp_call as [r|e]; [|done]. cbv zeta.
  wp_step.
  eapply (wpM_mono _ _ (λ x _ H', resource_read o r H' ∧
    match x with Ok limits => limits ≠ ∅ → ordered_limits o limits H' | Err _ => True end)).
  { destruct (map_truthy (from_option id ∅ (order_limits o))) eqn:Ht.
    - wp_step. split; [left|]. intros Hne. split; [done|]. left.
      destruct (order_limits o); [done|]. by destruct Hne.
    - apply map_truthy_false in Ht. eapply wpM_mono; [apply resolve_plan_limits_spec|].
      intros x s2 H2 (K & -> & limits & -> & Hl). split; [apply elem_of_app; right; left|].
      intros Hne. split; [done|]. right. split; [done|]. by apply Hl. }
  intros [limits|e] s2 H2 [Hr Hl]; [|done].
  destruct (map_truthy limits) eqn:Ht; simpl negb; cbv iota; [|by wp_step].
  assert (Hne : limits ≠ ∅) by (rewrite <- map_truthy_false; congruence).
  specialize (Hl Hne). case_decide as Heq.
  - wp_step. wp_call as [[]|e]; [..|done]; wp_steps; [|done]. apply wpM_call.
    { exists r, limits, H2. split_and!; try done. by left. }
    intros [x|e]; by wp_steps.
  - wp_step. wp_call as [[]|e]; [..|done].
    + destruct (res_limits r) as [old|] eqn:Hold; [|by wp_step]. wp_step. apply wpM_call.
      { exists r, limits, H2. rewrite Hold. split_and!; try done. right. by exists old. }
      intros [x|e]; by wp_steps.
    + wp_step. apply wpM_call; [by exists r, H2|]. intros [pending|e]; [|done].
      destruct (awaits_target_order cfg pending); [|by wp_step].
      apply submit_async_calls_spec; [|done]. intros X H c Hc. by destruct c.
Qed.

(** An UPDATE order sets backend limits only to the non-empty limits it asks for
    (its own, or its plan's non-zero quotas), only where they differ from the
    resource's current ones, and, where the backend has prepaid components, only
    through the recalculation over the resource, with the new limits merged
    into it; nothing else is changed on the backend. *)
Theorem update_order_limits cfg o s τ s' x τ1 τ2 {X} (c : agentE X) a :
  runs (process_update_order cfg o s) τ (s', x) →
  τ = τ1 ++ Ev c a :: τ2 → update_order_guard o X (rev τ1) c.
Proof.
  intros Hrun Hτ.
  exact (wpM_call_guard _ _ _ _ _ _ _ _ _ _ _ (process_update_order_spec cfg o s) Hrun Hτ).
Qed.

(** An executing order of an asynchronous backend whose target order is still
    pending does nothing but ask about it: the run is that one call, and the
    order stays as it is for the next cycle. *)
Theorem pending_target_order_waits cfg o s τ s' r :
  supports_async_orders (cfg_capabilities cfg) = true → order_backend_id o ≠ "" →
  order_state o = OrderState.EXECUTING → (∀ name, order_type o ≠ RequestTypes.Other name) →
  runs (process_order cfg o s) τ (s', r) →
  ∃ a, head τ = Some (Ev (Backend (CheckPendingOrder (order_backend_id o))) a) ∧
    (a = Ok false → τ = [Ev (Backend (CheckPendingOrder (order_backend_id o))) a] ∧
                    s' = s ∧ r = Ok ()).
Proof.
  intros Has Hid Hst Hty Hrun. apply nonempty_spec in Hid.
  assert (∃ k, process_order cfg o s = Call (Backend (CheckPendingOrder (order_backend_id o))) k ∧
               k (Ok false) = Ret (s, Ok ())) as (k & Hk & Hf).
  { unfold process_order, admit_order. rewrite Hst. cbn [attempt bind ret pbind].
    unfold provision_order, dispatch_order.
    destruct (order_type o) eqn:Ht; [..|by destruct (Hty name)];
      unfold process_create_order, process_update_order, process_terminate_order,
        poll_async_target_order; rewrite Has, Hid; simpl negb; cbv iota;
      eexists; split; reflexivity. }
  rewrite Hk in Hrun. destruct Hrun as (a & τ' & -> & Hrun). exists a. split; [done|].
  intros ->. rewrite Hf in Hrun. by destruct Hrun as [-> [= -> ->]].
Qed.

(** ** User context *)

Lemma fetch_team_spec cfg u n s H :
  wpM no_guard (fetch_team cfg u n) (λ r _ H', match r with
    | Ok team => team ≠ [] → Ev (Waldur (ResourceTeamList u None)) (Ok team) ∈ H'
    | Err _ => True end) s H.
Proof.
  revert s H; induction n as [|n IH]; intros s H; simpl; [by wp_step|].
  wp_step. wp_call as [[|m team]|e]; [|wp_step; by left|done].
  destruct n as [|n]; [by wp_step|]. wp_step. unfold sleep. wp_call as [[]|e]; [apply IH|done].
Qed.

(** Fetching the user context never raises: an empty team, a failed listing or
    failed offering users all give the empty context.  A context that is not
    empty carries the team Waldur answered for that resource, and only offering
    users of its members. *)
Theorem user_context_never_raises cfg u s τ s' r :
  runs (fetch_user_context_for_resource cfg u s) τ (s', r) →
  ∃ ctx, r = Ok ctx ∧
    (ctx = empty_user_context ∨ Ev (Waldur (ResourceTeamList u None)) (Ok (ctx_team ctx)) ∈ τ) ∧
    (∀ ou, ou ∈ ctx_offering_users ctx → ∃ m, m ∈ ctx_team ctx ∧ pu_uuid m = ou_user_uuid ou).
Proof.
  assert (Hspec : wpM no_guard (fetch_user_context_for_resource cfg u) (λ r _ H',
    ∃ ctx, r = Ok ctx ∧
    (ctx = empty_user_context ∨ Ev (Waldur (ResourceTeamList u None)) (Ok (ctx_team ctx)) ∈ H') ∧
    (∀ ou, ou ∈ ctx_offering_users ctx → ∃ m, m ∈ ctx_team ctx ∧ pu_uuid m = ou_user_uuid ou))
    s []).
  { assert (Hempty : ∀ ou, ou ∈ ctx_offering_users empty_user_context →
      ∃ m, m ∈ ctx_team empty_user_context ∧ pu_uuid m = ou_user_uuid ou)
      by (intros ou Hou; by apply elem_of_nil in Hou).
    unfold fetch_user_context_for_resource. wp_steps. eapply wpM_mono; [apply fetch_team_spec|].
    intros [[|m team]|e] s1 H1 Ht; cbv iota; [by wp_steps; eauto| |by wp_steps; eauto].
    specialize (Ht ltac:(done)). wp_step.
    eapply (calls_wpM listing_calls); [apply get_cached_offering_users_calls|done|].
    intros [all|e] s2 K _; cbv iota; [|by wp_steps; eauto]. wp_steps.
    eexists. split; [done|]. split; [right; apply elem_of_app; by right|].
    intros ou Hou. simpl in Hou. apply list_elem_of_In, List.filter_In in Hou as [_ Hm].
    apply bool_decide_eq_true in Hm.
    change (ou_user_uuid ou ∈ pu_uuid <$> m :: team) in Hm.
    apply list_elem_of_fmap in Hm as (x & -> & Hx). by exists x. }
  intros Hrun. destruct (wpM_sound _ _ _ _ _ _ _ Hspec Hrun) as [(ctx & -> & Hc & Hm) _].
  exists ctx. by rewrite elem_of_rev in Hc.
Qed.

(** ** Witnesses *)

Local Abbreviation term := (sample_order RequestTypes.TERMINATE OrderState.EXECUTING).

(** An executing TERMINATE order that goes well. *)
Definition terminate_run : trace agentE :=
  [Ev (Waldur (ResourceRetrieve "resource-1")) (Ok sample_resource);
   Ev (Backend (DeleteResource sample_resource "proj")) (Ok None);
   Ev (Waldur (OrderRetrieveState "order-1")) (Ok (Some OrderState.EXECUTING));
   Ev (Waldur (OrderSetDone "order-1")) (Ok 200)].

Lemma order_done_after_executing_witness :
  ∃ τ0, take 3 terminate_run =
    τ0 ++ [Ev (Waldur (OrderRetrieveState "order-1")) (Ok (Some OrderState.EXECUTING))].
Proof.
  refine (order_done_after_executing sample_config term initial_state terminate_run
    initial_state (Ok ()) (take 3 terminate_run) [] "order-1" (Ok 200) _ _).
  - solve_runs.
  - reflexivity.
Defined.

Lemma provisioning_only_when_admitted_witness :
  ∃ o', admitted term o' (rev (take 1 terminate_run)).
Proof.
  refine (provisioning_only_when_admitted sample_config term initial_state terminate_run
    initial_state (Ok ()) (take 1 terminate_run) (drop 2 terminate_run)
    (DeleteResource sample_resource "proj") (Ok None) _ _ _).
  - solve_runs.
  - reflexivity.
  - reflexivity.
Defined.

(** The same order when the backend fails. *)
Definition failed_run : trace agentE :=
  [Ev (Waldur (ResourceRetrieve "resource-1")) (Ok sample_resource);
   Ev (Backend (DeleteResource sample_resource "proj")) (Err (BackendError "busy"));
   Ev (Waldur (OrderRetrieveState "order-1")) (Ok (Some OrderState.EXECUTING));
   Ev (Waldur (OrderSetErred "order-1" "busy" "")) (Ok 200)].

Lemma order_erred_only_unfinished_witness :
  ∃ o' answer τ0, admitted term o' (rev (take 3 failed_run)) ∧ "order-1" = order_uuid o' ∧
    take 3 failed_run = τ0 ++ [Ev (Waldur (OrderRetrieveState "order-1")) answer] ∧
    state_acted_on o' answer ∉ TERMINAL_ORDER_STATES ∧ set_done_ok (take 3 failed_run) = false.
Proof.
  refine (order_erred_only_unfinished sample_config term initial_state failed_run
    initial_state (Ok ()) (take 3 failed_run) [] "order-1" "busy" "" (Ok 200) _ _).
  - solve_runs.
  - reflexivity.
Defined.

Lemma process_order_escapes_witness :
  is_transient_waldur_api_error (TransportError "timeout") = true ∨
  ∃ τ0, [Ev (Waldur (ResourceRetrieve "resource-1")) (Err (TransportError "timeout"))] =
        τ0 ++ [Ev (Waldur (OrderRetrieve "order-1")) (Ok None)].
Proof.
  refine (process_order_escapes sample_config term initial_state
    [Ev (Waldur (ResourceRetrieve "resource-1")) (Err (TransportError "timeout"))]
    initial_state (TransportError "timeout") _).
  solve_runs.
Defined.

Lemma refused_approval_still_provisions_witness :
  ∃ τ, runs (process_order sample_config
         (sample_order RequestTypes.TERMINATE OrderState.PENDING_PROVIDER) initial_state) τ
         (initial_state, Ok ()) ∧
       Ev (Waldur (OrderApprove "order-1")) (Ok 409) ∈ τ ∧
       Ev (Backend (DeleteResource sample_resource "proj")) (Ok None) ∈ τ ∧
       Ev (Waldur (OrderRetrieve "order-1"))
         (Ok (Some (sample_order RequestTypes.TERMINATE OrderState.PENDING_PROVIDER))) ∈ τ.
Proof.
  apply (refused_approval_still_provisions sample_config
    (sample_order RequestTypes.TERMINATE OrderState.PENDING_PROVIDER) sample_resource);
    reflexivity.
Defined.

Definition unlisted_run : trace agentE :=
  [Ev (Waldur (OrdersList [OrderState.PENDING_PROVIDER; OrderState.EXECUTING]))
      (Err (TransportError "down"))].

Lemma order_failures_isolated_witness : failed_pass_call (TransportError "down") unlisted_run.
Proof.
  refine (order_failures_isolated sample_config initial_state unlisted_run initial_state _ _).
  solve_runs.
Defined.

Definition sample_key (client_id : field string) : ApiKeyRow :=
  {| key_uuid := "key-1"; key_resource_uuid := "resource-1"; key_resource_backend_id := "alloc-1";
     key_client_id := client_id; key_state := ResourceApiKeyState.OK; key_user_uuid := Unset;
     key_pending_action := ""; key_limits := None; key_effective_models := Unset;
     key_allowed_models := None; key_spending_limits := Unset |}.

(** One key is known: one is missing to the two a resource gets. *)
Definition provisioning_run : trace agentE :=
  [Ev (Waldur (ApiKeysList "resource-1")) (Ok [sample_key (Val "alloc-1-1")]);
   Ev (Backend (PruneUnknownResourceKeys "alloc-1" ["alloc-1-1"%string])) (Err (BackendError "x"));
   Ev (Backend (GenerateResourceKeys "alloc-1" 1)) (Ok 1%nat);
   Ev (Backend (NextResourceKey "alloc-1")) (Ok ("alloc-1-2", "secret")%string);
   Ev (Waldur (ApiKeyReportCreated "resource-1" "alloc-1-2" "secret")) (Ok ())].

Lemma key_provisioning_safe_witness :
  keys_guard "resource-1" "alloc-1" 2 _ (rev (take 2 provisioning_run))
    (Backend (GenerateResourceKeys "alloc-1" 1)).
Proof.
  refine (key_provisioning_safe "resource-1" "alloc-1" None () () provisioning_run (Ok ())
    (take 2 provisioning_run) (drop 3 provisioning_run)
    (Backend (GenerateResourceKeys "alloc-1" 1)) (Ok 1%nat) _ _).
  - solve_runs.
  - reflexivity.
Defined.

(** A terminated resource that is restored under the id it had. *)
Definition restore_run : trace agentE :=
  [Ev (Waldur (ResourceRetrieve "resource-1")) (Ok sample_resource);
   Ev (Backend (PullResource sample_resource)) (Ok None);
   Ev (Waldur (ResourceTeamList "resource-1" None)) (Ok []);
   Ev (Backend (CreateResourceWithId sample_resource "alloc-1" empty_user_context))
      (Ok (Some empty_info))].

Lemma create_order_never_duplicates_witness :
  create_order_guard sample_config (sample_order RequestTypes.RESTORE OrderState.EXECUTING) _
    (rev (take 3 restore_run))
    (Backend (CreateResourceWithId sample_resource "alloc-1" empty_user_context)).
Proof.
  refine (create_order_never_duplicates sample_config
    (sample_order RequestTypes.RESTORE OrderState.EXECUTING) initial_state restore_run
    initial_state (Ok true) (take 3 restore_run) []
    (Backend (CreateResourceWithId sample_resource "alloc-1" empty_user_context))
    (Ok (Some empty_info)) _ _).
  - solve_runs.
  - reflexivity.
Defined.

Definition update_run : trace agentE :=
  [Ev (Waldur (ResourceRetrieve "resource-1")) (Ok sample_resource);
   Ev (Backend HasPrepaidComponents) (Ok false);
   Ev (Backend (SetResourceLimits "alloc-1" {["cpu"%string := 10]})) (Ok None)].

Lemma update_order_limits_witness :
  update_order_guard (sample_order RequestTypes.UPDATE OrderState.EXECUTING) _
    (rev (take 2 update_run)) (Backend (SetResourceLimits "alloc-1" {["cpu"%string := 10]})).
Proof.
  refine (update_order_limits sample_config
    (sample_order RequestTypes.UPDATE OrderState.EXECUTING) initial_state update_run
    initial_state (Ok true) (take 2 update_run) []
    (Backend (SetResourceLimits "alloc-1" {["cpu"%string := 10]})) (Ok None) _ _).
  - solve_runs.
  - reflexivity.
Defined.

Definition tracked_order : Order :=
  {| order_uuid := "order-1"; order_type := RequestTypes.CREATE;
     order_state := OrderState.EXECUTING; order_backend_id := "target-1";
     order_resource_uuid := "resource-1"; order_resource_name := "Allocation";
     order_limits := None; order_plan_uuid := ""; order_project_slug := "proj" |}.

Lemma pending_target_order_waits_witness :
  ∃ a, head [Ev (Backend (CheckPendingOrder "target-1")) (Ok false)] =
       Some (Ev (Backend (CheckPendingOrder "target-1")) a) ∧
    (a = Ok false → [Ev (Backend (CheckPendingOrder "target-1")) (Ok false)] =
       [Ev (Backend (CheckPendingOrder "target-1")) a] ∧
       initial_state = initial_state ∧ Ok () = Ok ()).
Proof.
  refine (pending_target_order_waits async_config tracked_order initial_state
    [Ev (Backend (CheckPendingOrder "target-1")) (Ok false)] initial_state (Ok ()) _ _ _ _ _).
  - reflexivity.
  - discriminate.
  - reflexivity.
  - discriminate.
  - solve_runs.
Defined.

(** The team stays empty over both attempts. *)
Definition empty_team_run : trace agentE :=
  [Ev (Waldur (ResourceTeamList "resource-1" None)) (Ok []);
   Ev (Sleep 3) (Ok ());
   Ev (Waldur (ResourceTeamList "resource-1" None)) (Ok [])].

Lemma user_context_never_raises_witness :
  ∃ ctx, Ok empty_user_context = Ok ctx ∧
    (ctx = empty_user_context ∨
     Ev (Waldur (ResourceTeamList "resource-1" None)) (Ok (ctx_team ctx)) ∈ empty_team_run) ∧
    (∀ ou, ou ∈ ctx_offering_users ctx → ∃ m, m ∈ ctx_team ctx ∧ pu_uuid m = ou_user_uuid ou).
Proof.
  refine (user_context_never_raises async_config "resource-1" initial_state empty_team_run
    initial_state (Ok empty_user_context) _).
  solve_runs.
Defined.
