(* ===== verification/ApiKeys.v ===== *)
(** * Commands about single API keys

    [common/resource_api_keys.py], from [ApiKeyCommand] to
    [_sync_key_assignees_now], and [rotate_resource_api_key] with its helper
    in [common/utils.py].  None of them keeps state between calls, so they are
    statements over any state. *)

From stdpp Require Import base list strings gmap sets sorting.
From Stdlib Require Import ZArith Lia.
From S2P Require Import Prelude.
From S2P Require Import Structures.
From S2P Require Import Agent.
From S2P Require Import Samples.
From S2P Require Import SpendingLimits.
From S2P Require Import OfferingUsers.
From S2P Require Import BaseProcessor.
From S2P Require Import Orders.

Local Open Scope prog_scope.
Local Open Scope Z_scope.

Definition CREATE : string := "create".
Definition ROTATE : string := "rotate".
Definition PAUSE : string := "pause".
Definition RESUME : string := "resume".
Definition DELETE : string := "delete".
Definition UPDATE : string := "update".
Definition ACTIONS : list string := [CREATE; ROTATE; PAUSE; RESUME; DELETE; UPDATE].

Definition ACTIONABLE_OFFERING_USER_STATES : list OfferingUserState.t :=
  [OfferingUserState.OK; OfferingUserState.REQUESTED; OfferingUserState.CREATING;
   OfferingUserState.ERROR_CREATING; OfferingUserState.PENDING_ACCOUNT_LINKING;
   OfferingUserState.PENDING_ADDITIONAL_VALIDATION].

Record ApiKeyCommand : Type := {
  cmd_action : string;
  cmd_api_key_uuid : string;
  cmd_resource_uuid : string;
  cmd_resource_backend_id : string;
  cmd_client_id : string;
  cmd_limits : option (gmap string json);
  cmd_allowed_models : option (list string);
  cmd_spending_limits : option spending;
}.

Definition effective_models (row : ApiKeyRow) : option (list string) :=
  match key_effective_models row with
  | Unset => key_allowed_models row
  | Null => None
  | Val models => models
  end.

Definition from_listing (row : ApiKeyRow) (action : string) : res ApiKeyCommand :=
  match key_spending_limits_of (key_spending_limits row) with
  | Err e => Err e
  | Ok limits =>
      Ok {| cmd_action := action; cmd_api_key_uuid := key_uuid row;
            cmd_resource_uuid := key_resource_uuid row;
            cmd_resource_backend_id := key_resource_backend_id row;
            cmd_client_id := from_option id "" (field_str (key_client_id row));
            cmd_limits := key_limits row; cmd_allowed_models := effective_models row;
            cmd_spending_limits := limits |}
  end.

(** A limits payload that is neither an object nor null is none: Waldur sends the two. *)
Definition limits_argument (v : json) : option (gmap string json) :=
  match v with JObj d => Some (list_to_map d) | _ => None end.

(** The strings of a list; null allows every model. *)
Definition models_argument (v : json) : option (list string) :=
  match v with
  | JArr l => Some (omap (λ x, match x with JStr s => Some s | _ => None end) l)
  | _ => None
  end.

(** [text] is the text of an identifier that is not a string. *)
Definition from_message (text : json → string) (message : list (string * json))
  : res ApiKeyCommand :=
  let get key := from_option id JNull (obj_get message key) in
  let or_blank v := if truthy v then text v else "" in
  match key_spending_limits_of (Val (get "spending_limits")) with
  | Err e => Err e
  | Ok limits =>
      Ok {| cmd_action := or_blank (get "action"); cmd_api_key_uuid := or_blank (get "api_key_uuid");
            cmd_resource_uuid := or_blank (get "resource_uuid");
            cmd_resource_backend_id := or_blank (get "resource_backend_id");
            cmd_client_id := or_blank (get "client_id");
            cmd_limits := limits_argument (get "limits");
            cmd_allowed_models := models_argument (get "allowed_models");
            cmd_spending_limits := limits |}
  end.

(** [isinstance(exc, UnexpectedStatus)] with a 4xx status. *)
Definition is_refusal (e : exn) : bool :=
  match e with
  | UnexpectedStatus status _ _ _ => (400 <=? status) && (status <? 500)
  | _ => false
  end.

(** Waldur did not answer: a network failure, or a status that is not below 500. *)
Definition unanswered (e : exn) : bool :=
  match e with
  | TransportError _ => true
  | UnexpectedStatus status _ _ _ => 500 <=? status
  | _ => false
  end.

(** [sorted({...})] of a set of texts. *)
Definition sorted_strings (l : list string) : list string := merge_sort str_le (remove_dups l).

Lemma elem_of_sorted_strings l x : x ∈ sorted_strings l ↔ x ∈ l.
Proof.
  unfold sorted_strings. rewrite (merge_sort_Permutation str_le). apply elem_of_remove_dups.
Qed.

Section Commands.
Context {S : Type} (cfg : processor_config).
Local Abbreviation caps := (cfg_capabilities cfg).
Local Abbreviation stmt := (M agentE S).

Definition key_settings_of (c : ApiKeyCommand) : key_settings :=
  {| ks_limits := Some (cmd_limits c); ks_allowed_models := Some (cmd_allowed_models c);
     ks_spending_limits := if supports_spending_limit_periods caps
                           then Some (cmd_spending_limits c) else None;
     ks_resource_limits := None; ks_resource_spending_limits := None |}.

Definition list_all_api_keys (resource_uuid : string) : stmt (list ApiKeyRow) :=
  waldur (ApiKeysListAllStates resource_uuid).

Definition reserved_client_ids (resource_uuid : string) : stmt (list string) :=
  let! keys := list_all_api_keys resource_uuid in
  ret (sorted_strings (present_client_ids keys)).

(** [_NotYet] in place of a read that got no answer. *)
Definition or_not_yet {A} (m : stmt A) : stmt A :=
  let! r := attempt m in
  match r with
  | Ok a => ret a
  | Err e => if unanswered e then raise (NotYet (exn_str e)) else raise e
  end.

Definition read_resource (c : ApiKeyCommand) : stmt WaldurResource :=
  or_not_yet (waldur (ResourceRetrieve (cmd_resource_uuid c))).

Definition apply_resource_pause (r : WaldurResource) (backend_id : string) : stmt unit :=
  (if res_paused r then backend (PauseResource backend_id)
   else if res_downscaled r then backend (DownscaleResource backend_id)
   else backend (RestoreResource backend_id)) ;!
  ret ().

(** What a mint or a rotation is told about the resource's own limits. *)
Definition resource_key_limits (r : WaldurResource) : res key_settings :=
  if supports_spending_limit_periods caps then
    match resource_spending_limits r with
    | Ok l => Ok {| ks_limits := None; ks_allowed_models := None; ks_spending_limits := None;
                    ks_resource_limits := Some (res_limits r);
                    ks_resource_spending_limits := Some l |}
    | Err e => Err e
    end
  else Ok {| ks_limits := None; ks_allowed_models := None; ks_spending_limits := None;
             ks_resource_limits := Some (res_limits r); ks_resource_spending_limits := None |}.

(** [{**a, **b}]: the keywords of [b] win. *)
Definition merge_settings (a b : key_settings) : key_settings :=
  let pick {A} (x y : option A) := match y with Some _ => y | None => x end in
  {| ks_limits := pick (ks_limits a) (ks_limits b);
     ks_allowed_models := pick (ks_allowed_models a) (ks_allowed_models b);
     ks_spending_limits := pick (ks_spending_limits a) (ks_spending_limits b);
     ks_resource_limits := pick (ks_resource_limits a) (ks_resource_limits b);
     ks_resource_spending_limits :=
       pick (ks_resource_spending_limits a) (ks_resource_spending_limits b) |}.

(** ** Assignees *)

Definition wants_key_assignees (r : WaldurResource) : bool :=
  requires_resource_key_assignees caps && manages_api_keys r.

Definition usernames_by_user (us : list OfferingUser) : gmap string string :=
  dict_of (map (λ u, (ou_user_uuid u, ou_username u))
    (List.filter (λ u, bool_decide (ou_state u ∈ ACTIONABLE_OFFERING_USER_STATES) &&
                       nonempty (ou_user_uuid u) && nonempty (ou_username u)) us)).

Definition assigned_key (usernames : gmap string string) (k : ApiKeyRow)
  : option (string * option string) :=
  match field_str (key_client_id k) with
  | Some client_id =>
      if decide (key_state k = ResourceApiKeyState.DELETED) then None
      else Some (client_id, from_option (λ user_uuid, usernames !! user_uuid) None
                              (field_str (key_user_uuid k)))
  | None => None
  end.

Definition key_assignments (keys : list ApiKeyRow) (us : list OfferingUser)
  : gmap string (option string) :=
  dict_of (omap (assigned_key (usernames_by_user us)) keys).

Definition sync_key_assignees (r : WaldurResource) (us : list OfferingUser) : stmt unit :=
  if negb (wants_key_assignees r) then ret ()
  else
    let! keys := list_all_api_keys (res_uuid r) in
    backend (SyncResourceKeyAssignees r (key_assignments keys us)).

(** The users the live keys of a listing are assigned to. *)
Definition assignee_uuids (keys : list ApiKeyRow) : list string :=
  sorted_strings (omap (λ k,
    if decide (key_state k = ResourceApiKeyState.DELETED) then None
    else match field_str (key_client_id k) with
         | Some _ => field_str (key_user_uuid k)
         | None => None
         end) keys).

Definition sync_key_assignees_now (r : WaldurResource) : stmt unit :=
  if negb (wants_key_assignees r) then ret ()
  else
    let! _ := attempt (
      let! keys := list_all_api_keys (res_uuid r) in
      let! us := fold_m (assignee_uuids keys) (λ acc user_uuid,
        let! found := waldur (OfferingUsersOfUser user_uuid (Some (res_offering_uuid r))) in
        ret (acc ++ found)) [] in
      backend (SyncResourceKeyAssignees r (key_assignments keys us))) in
    ret ().

(** ** Creating a key *)

Definition withdraw (client_id : string) (c : ApiKeyCommand) : stmt unit :=
  let! _ := attempt (backend (DeleteResourceKey client_id (cmd_resource_backend_id c))) in
  ret ().

Definition set_key_landed (c : ApiKeyCommand) (client_id : string) : stmt (option bool) :=
  let! r := attempt (waldur (ApiKeyRetrieve (cmd_api_key_uuid c))) in
  match r with
  | Ok row => ret (Some (bool_decide (field_value (key_client_id row) = Some client_id)))
  | Err _ => ret None
  end.

(** The report of a key that is live on the backend. *)
Definition report_created_key (c : ApiKeyCommand) (client_id api_key : string) : stmt unit :=
  let! r := attempt (waldur (ApiKeySetKey (cmd_api_key_uuid c) api_key (Some client_id))) in
  match r with
  | Ok _ => ret ()
  | Err e =>
      if is_refusal e then
        withdraw client_id c ;!
        raise (Withdrawn (exn_str e))
      else
        let! landed := set_key_landed c client_id in
        match landed with
        | Some false => withdraw client_id c
        | _ => ret ()
        end ;!
        raise e
  end.

Definition create_key (c : ApiKeyCommand) : stmt unit :=
  let! reserved := or_not_yet (reserved_client_ids (cmd_resource_uuid c)) in
  let! r := read_resource c in
  apply_resource_pause r (cmd_resource_backend_id c) ;!
  let! limits := of_res (resource_key_limits r) in
  let! key := backend (MintResourceKey (cmd_resource_backend_id c) reserved
                         (merge_settings limits (key_settings_of c))) in
  report_created_key c key.1 key.2 ;!
  sync_key_assignees_now r.

(** ** The other commands *)

(** Read the resource and bring its pause up to date before touching one key. *)
Definition prepare_key (c : ApiKeyCommand) : stmt unit :=
  let! r := read_resource c in
  apply_resource_pause r (cmd_resource_backend_id c).

Definition run_command (c : ApiKeyCommand) : stmt unit :=
  let action := cmd_action c in
  if String.eqb action CREATE then create_key c
  else if String.eqb action DELETE && negb (nonempty (cmd_client_id c)) then
    waldur (ApiKeySetDeleted (cmd_api_key_uuid c))
  else if negb (nonempty (cmd_client_id c)) then
    raise (ValueError "command carries no client_id")
  else if String.eqb action PAUSE then
    backend (PauseResourceKey (cmd_client_id c) (cmd_resource_backend_id c)) ;!
    waldur (ApiKeySetPaused (cmd_api_key_uuid c))
  else if String.eqb action RESUME then
    prepare_key c ;!
    backend (ResumeResourceKey (cmd_client_id c) (cmd_resource_backend_id c)
               (key_settings_of c)) ;!
    waldur (ApiKeySetOk (cmd_api_key_uuid c))
  else if String.eqb action UPDATE then
    prepare_key c ;!
    backend (UpdateResourceKey (cmd_client_id c) (cmd_resource_backend_id c)
               (key_settings_of c)) ;!
    waldur (ApiKeySetOk (cmd_api_key_uuid c))
  else if String.eqb action DELETE then
    backend (DeleteResourceKey (cmd_client_id c) (cmd_resource_backend_id c)) ;!
    waldur (ApiKeySetDeleted (cmd_api_key_uuid c))
  else ret ().

Definition set_erred (api_key_uuid message : string) : stmt unit :=
  waldur (ApiKeySetErred api_key_uuid message).

Definition error_message (e : exn) : string :=
  (format_waldur_error_details (cfg_format_exc cfg) e
     (cfg_expose_backend_error_details cfg)).1.

(** ** Rotation *)

(** What is reported of a rotated key: the new secret, and the new identifier if it has one. *)
Definition set_key_body (k : rotated_key) : res (string * option string) :=
  match k with
  | RotatedDict (Some api_key) (Some client_id) => Ok (api_key, Some client_id)
  | RotatedDict _ _ => Err (ValueError "rotate_resource_key returned a dict missing keys")
  | RotatedSecret api_key =>
      if nonempty api_key then Ok (api_key, None)
      else Err (ValueError "rotate_resource_key returned str, expected a non-empty str or a dict")
  | RotatedOther name =>
      Err (ValueError ("rotate_resource_key returned " +:+ name))
  end.

Definition rotate_resource_api_key (c : ApiKeyCommand) (resource_uuid : option string)
    (settings : option key_settings) : stmt bool :=
  let! known := match resource_uuid with
                | Some uuid => known_client_ids uuid
                | None => ret None
                end in
  let! r := attempt (
    let! result := backend (RotateResourceKey (cmd_client_id c) (cmd_resource_backend_id c)
                              known settings) in
    let! body := of_res (set_key_body result) in
    waldur (ApiKeySetKey (cmd_api_key_uuid c) body.1 body.2)) in
  match r with
  | Ok _ => ret true
  | Err e => set_erred (cmd_api_key_uuid c) (error_message e) ;! ret false
  end.

Definition with_own_limits (s : key_settings) (c : ApiKeyCommand) : key_settings :=
  {| ks_limits := Some (Some (from_option id ∅ (cmd_limits c)));
     ks_allowed_models := ks_allowed_models s; ks_spending_limits := ks_spending_limits s;
     ks_resource_limits := ks_resource_limits s;
     ks_resource_spending_limits := ks_resource_spending_limits s |}.

Definition rotation_settings (c : ApiKeyCommand) : stmt (option key_settings) :=
  match cmd_limits c, cmd_allowed_models c with
  | None, None =>
      let! r := attempt (waldur (ApiKeyRetrieve (cmd_api_key_uuid c))) in
      match r with
      | Err _ => ret None
      | Ok row =>
          let! c' := of_res (from_listing row ROTATE) in
          ret (Some (with_own_limits (key_settings_of c') c'))
      end
  | _, _ => ret (Some (with_own_limits (key_settings_of c) c))
  end.

(** The resource's settings that are known, added to the key's own. *)
Definition add_resource_settings (own : option key_settings) (r : key_settings)
  : option key_settings :=
  let keep {A} (x : option (option A)) := match x with Some (Some _) => x | _ => None end in
  let known := {| ks_limits := None; ks_allowed_models := None; ks_spending_limits := None;
                  ks_resource_limits := keep (ks_resource_limits r);
                  ks_resource_spending_limits := keep (ks_resource_spending_limits r) |} in
  match ks_resource_limits known, ks_resource_spending_limits known with
  | None, None => own
  | _, _ =>
      let none := {| ks_limits := None; ks_allowed_models := None; ks_spending_limits := None;
                     ks_resource_limits := None; ks_resource_spending_limits := None |} in
      Some (merge_settings (from_option id none own) known)
  end.

Definition key_resource_uuid_of (c : ApiKeyCommand) : option string :=
  if nonempty (cmd_resource_uuid c) then Some (cmd_resource_uuid c) else None.

Definition rotate (c : ApiKeyCommand) : stmt unit :=
  if negb (nonempty (cmd_client_id c)) then ret ()
  else if supports_resource_api_key_lifecycle caps then
    let! prepared := attempt (
      let! r := read_resource c in
      apply_resource_pause r (cmd_resource_backend_id c) ;! ret r) in
    match prepared with
    | Err (NotYet _) => ret ()
    | Err e => set_erred (cmd_api_key_uuid c) (error_message e)
    | Ok r =>
        let! own := rotation_settings c in
        let! limits := of_res (resource_key_limits r) in
        let! rotated := rotate_resource_api_key c (key_resource_uuid_of c)
                          (add_resource_settings own limits) in
        if rotated : bool then sync_key_assignees_now r else ret ()
    end
  else
    let! _ := rotate_resource_api_key c (key_resource_uuid_of c) None in ret ().

(** ** Dispatch *)

Definition execute_api_key_command (c : ApiKeyCommand) : stmt unit :=
  if negb (bool_decide (cmd_action c ∈ ACTIONS)) then ret ()
  else if negb (nonempty (cmd_api_key_uuid c)) || negb (nonempty (cmd_resource_backend_id c))
  then ret ()
  else if String.eqb (cmd_action c) ROTATE then rotate c
  else if negb (supports_resource_api_key_lifecycle caps) then
    set_erred (cmd_api_key_uuid c)
      ("The backend does not support the " +:+ cmd_action c +:+ " command for a single key.")
  else
    let! r := attempt (run_command c) in
    match r with
    | Ok _ => ret ()
    | Err (NotYet _) => ret ()
    | Err (Withdrawn _) => ret ()
    | Err e => set_erred (cmd_api_key_uuid c) (error_message e)
    end.

(** The commands of the rows that have a pending action. *)
Fixpoint pending_commands (rows : list ApiKeyRow) : res (list ApiKeyCommand) :=
  match rows with
  | [] => Ok []
  | row :: rows' =>
      if nonempty (key_pending_action row) then
        match from_listing row (key_pending_action row), pending_commands rows' with
        | Ok c, Ok cs => Ok (c :: cs)
        | Err e, _ => Err e
        | _, Err e => Err e
        end
      else pending_commands rows'
  end.

Definition find_pending_api_key_commands (offering_uuid : string) (cutoff : option Z)
    (lifecycle : bool) : stmt (list ApiKeyCommand) :=
  let states := ResourceApiKeyState.UPDATING ::
    (if lifecycle then [ResourceApiKeyState.CREATING; ResourceApiKeyState.DELETING] else []) in
  let! rows := waldur (ApiKeysListPending offering_uuid states cutoff) in
  of_res (pending_commands rows).

Definition process_pending_command (c : ApiKeyCommand) : stmt unit :=
  touch_heartbeat ;!
  if negb (nonempty (cmd_resource_backend_id c)) then ret ()
  else let! _ := attempt (execute_api_key_command c) in ret ().

Definition process_pending_api_key_commands (offering_uuid : string) (cutoff : option Z)
  : stmt unit :=
  if negb (supports_resource_api_keys caps) then ret ()
  else
    let! commands := find_pending_api_key_commands offering_uuid cutoff
                       (supports_resource_api_key_lifecycle caps) in
    for_each commands process_pending_command.
End Commands.

(** ** What the commands promise *)

(** The call that brings the backend's pause of the resource up to Waldur's flags. *)
Definition pause_call (r : WaldurResource) (backend_id : string) : backendE bool :=
  if res_paused r then PauseResource backend_id
  else if res_downscaled r then DownscaleResource backend_id
  else RestoreResource backend_id.

(** The resource was read, and its pause applied, as the last two calls of [H]. *)
Definition pause_applied (c : ApiKeyCommand) (H : trace agentE) : Prop :=
  ∃ r a H', H = Ev (Backend (pause_call r (cmd_resource_backend_id c))) (Ok a) ::
                Ev (Waldur (ResourceRetrieve (cmd_resource_uuid c))) (Ok r) :: H'.

(** The last call is a read that Waldur did not answer. *)
Definition last_read_unanswered (H : trace agentE) : bool :=
  match H with
  | Ev c r :: _ =>
      match c in agentE X return res X → bool with
      | Waldur w => match w in waldurE X return res X → bool with
                    | ResourceRetrieve _ | ApiKeysListAllStates _ => λ r,
                        match r with Err e => unanswered e | Ok _ => false end
                    | _ => λ _, false
                    end
      | _ => λ _, false
      end r
  | [] => false
  end.

(** Waldur refused the report of a key. *)
Definition report_refused (H : trace agentE) : bool :=
  existsb (λ ev, match ev with
                 | Ev c r => match c in agentE X return res X → bool with
                             | Waldur w => match w in waldurE X return res X → bool with
                                           | ApiKeySetKey _ _ _ => λ r,
                                               match r with Err e => is_refusal e | Ok _ => false end
                                           | _ => λ _, false
                                           end
                             | _ => λ _, false
                             end r
                 end) H.

(** Waldur does not hold [client_id]: it refused its report, or, asked after a failed
    report, holds something else for the key. *)
Definition not_held (c : ApiKeyCommand) (client_id : string) (H : trace agentE) : Prop :=
  (∃ key e H', is_refusal e = true ∧
     H = Ev (Waldur (ApiKeySetKey (cmd_api_key_uuid c) key (Some client_id))) (Err e) :: H') ∨
  (∃ key e row H', field_value (key_client_id row) ≠ Some client_id ∧
     H = Ev (Waldur (ApiKeyRetrieve (cmd_api_key_uuid c))) (Ok row) ::
         Ev (Waldur (ApiKeySetKey (cmd_api_key_uuid c) key (Some client_id))) (Err e) :: H').

(** The backend call whose success the acknowledgement reports is the last call. *)
Definition acknowledged_guard (c : ApiKeyCommand) : guard agentE := λ X H x,
  match x with
  | Waldur w =>
      match w with
      | ApiKeySetKey u key cid => u = cmd_api_key_uuid c ∧
          ((cmd_action c = CREATE ∧ ∃ id reserved settings H', cid = Some id ∧
              H = Ev (Backend (MintResourceKey (cmd_resource_backend_id c) reserved settings))
                     (Ok (id, key)) :: H') ∨
           (cmd_action c = ROTATE ∧ ∃ known settings result H',
              set_key_body result = Ok (key, cid) ∧
              H = Ev (Backend (RotateResourceKey (cmd_client_id c) (cmd_resource_backend_id c)
                                 known settings)) (Ok result) :: H'))
      | ApiKeySetPaused u => u = cmd_api_key_uuid c ∧ cmd_action c = PAUSE ∧ ∃ H',
          H = Ev (Backend (PauseResourceKey (cmd_client_id c) (cmd_resource_backend_id c)))
                 (Ok ()) :: H'
      | ApiKeySetOk u => u = cmd_api_key_uuid c ∧ ∃ settings H',
          (cmd_action c = RESUME ∧
           H = Ev (Backend (ResumeResourceKey (cmd_client_id c) (cmd_resource_backend_id c)
                              settings)) (Ok ()) :: H') ∨
          (cmd_action c = UPDATE ∧
           H = Ev (Backend (UpdateResourceKey (cmd_client_id c) (cmd_resource_backend_id c)
                              settings)) (Ok ()) :: H')
      | ApiKeySetDeleted u => u = cmd_api_key_uuid c ∧ cmd_action c = DELETE ∧
          ((cmd_client_id c = "" ∧ H = []) ∨ ∃ H',
           H = Ev (Backend (DeleteResourceKey (cmd_client_id c) (cmd_resource_backend_id c)))
                  (Ok ()) :: H')
      | _ => True
      end
  | _ => True
  end.

(** What must come before the backend touches a key, and before a failure is reported. *)
Definition prepared_guard (cfg : processor_config) (c : ApiKeyCommand) : guard agentE := λ X H x,
  match x with
  | Backend b =>
      match b with
      | MintResourceKey b' reserved _ => b' = cmd_resource_backend_id c ∧
          cmd_action c = CREATE ∧ pause_applied c H ∧ ∃ keys,
          Ev (Waldur (ApiKeysListAllStates (cmd_resource_uuid c))) (Ok keys) ∈ H ∧
          ∀ x, x ∈ reserved ↔ x ∈ present_client_ids keys
      | ResumeResourceKey id b' _ => id = cmd_client_id c ∧ b' = cmd_resource_backend_id c ∧
          cmd_action c = RESUME ∧ pause_applied c H
      | UpdateResourceKey id b' _ => id = cmd_client_id c ∧ b' = cmd_resource_backend_id c ∧
          cmd_action c = UPDATE ∧ pause_applied c H
      | RotateResourceKey id b' _ _ => id = cmd_client_id c ∧ b' = cmd_resource_backend_id c ∧
          cmd_action c = ROTATE ∧
          (supports_resource_api_key_lifecycle (cfg_capabilities cfg) = true →
           ∃ K H', H = K ++ H' ∧ pause_applied c H')
      | DeleteResourceKey id b' => b' = cmd_resource_backend_id c ∧
          ((cmd_action c = DELETE ∧ id = cmd_client_id c) ∨
           (cmd_action c = CREATE ∧ not_held c id H))
      | _ => True
      end
  | Waldur w =>
      match w with
      | ApiKeySetErred u _ => u = cmd_api_key_uuid c ∧ last_read_unanswered H = false ∧
          (cmd_action c = CREATE → report_refused H = false)
      | _ => True
      end
  | _ => True
  end.

Definition command_guard (cfg : processor_config) (c : ApiKeyCommand) : guard agentE := λ X H x,
  acknowledged_guard c X H x ∧ prepared_guard cfg c X H x.

Section CommandProofs.
Context {S : Type} (cfg : processor_config) (c : ApiKeyCommand).
Local Abbreviation G := (command_guard cfg c).
Implicit Types (s : S) (H : trace agentE).

(** What a failed command leaves for its report. *)
Definition reportable (r : res unit) (H : trace agentE) : Prop :=
  match r with
  | Ok _ | Err (NotYet _) | Err (Withdrawn _) => True
  | Err _ => last_read_unanswered H = false ∧
             (cmd_action c = CREATE → report_refused H = false)
  end.

Lemma reportable_err e H :
  last_read_unanswered H = false → (cmd_action c = CREATE → report_refused H = false) →
  reportable (Err e) H.
Proof. intros. unfold reportable. by destruct e. Qed.

Lemma read_resource_spec (Q : res WaldurResource → S → trace agentE → Prop) s H :
  (∀ r, Q (Ok r) s (Ev (Waldur (ResourceRetrieve (cmd_resource_uuid c))) (Ok r) :: H)) →
  (∀ e msg, unanswered e = true → Q (Err (NotYet msg)) s
     (Ev (Waldur (ResourceRetrieve (cmd_resource_uuid c))) (Err e) :: H)) →
  (∀ e, unanswered e = false → Q (Err e) s
     (Ev (Waldur (ResourceRetrieve (cmd_resource_uuid c))) (Err e) :: H)) →
  wpM G (read_resource c) Q s H.
Proof.
  intros Hok Hny Herr. unfold read_resource, or_not_yet. wp_steps. wp_call as [r|e]; [by wp_step|].
  destruct (unanswered e) eqn:He; wp_step; auto.
Qed.

Lemma apply_pause_spec r (Q : res unit → S → trace agentE → Prop) s H :
  (∀ a, Q (Ok ()) s (Ev (Backend (pause_call r (cmd_resource_backend_id c))) (Ok a) :: H)) →
  (∀ e, Q (Err e) s (Ev (Backend (pause_call r (cmd_resource_backend_id c))) (Err e) :: H)) →
  wpM G (apply_resource_pause r (cmd_resource_backend_id c)) Q s H.
Proof.
  unfold apply_resource_pause, pause_call. intros Hok Herr. wp_step.
  destruct (res_paused r), (res_downscaled r); wp_call as [a|e]; try wp_step; auto.
Qed.

(** Listing and assigning after the fact never fails the command. *)
Lemma sync_assignees_now_spec r s H :
  wpM G (sync_key_assignees_now cfg r) (λ x s' H', x = Ok ()) s H.
Proof.
  unfold sync_key_assignees_now. destruct (negb _); [by wp_step|].
  wp_step. wp_step.
  eapply (calls_wpM (λ X x, match x with
    | Waldur w => match w with ApiKeysListAllStates _ | OfferingUsersOfUser _ _ => true
                               | _ => false end
    | Backend b => match b with SyncResourceKeyAssignees _ _ => true | _ => false end
    | _ => false end)).
  - unfold list_all_api_keys. calls_auto.
  - intros X H' x Hx. destruct x as [? w|? w|? w| | |]; try done; by destruct w.
  - intros x s' K _. by wp_step.
Qed.

Lemma withdraw_spec id s H :
  cmd_action c = CREATE → not_held c id H →
  wpM G (withdraw id c) (λ x s' H', x = Ok () ∧
    ∃ a, H' = Ev (Backend (DeleteResourceKey id (cmd_resource_backend_id c))) a :: H) s H.
Proof.
  intros Ha Hn. unfold withdraw. wp_steps. apply wpM_call; [split; [done|]; simpl; auto|].
  intros [u|e]; wp_steps; eauto.
Qed.

Lemma report_created_key_spec reserved settings id key s H :
  cmd_action c = CREATE → report_refused H = false →
  (∃ H', H = Ev (Backend (MintResourceKey (cmd_resource_backend_id c) reserved settings))
               (Ok (id, key)) :: H') →
  wpM G (report_created_key c id key) (λ x s' H', reportable x H') s H.
Proof.
  intros Ha Hr [H' Heq]. unfold report_created_key. wp_steps. apply wpM_call.
  { split; [|done]. split; [done|]. left. eauto 10. }
  intros [u|e]; [by wp_step|]. destruct (is_refusal e) eqn:He.
  { wp_step. eapply wpM_mono; [apply withdraw_spec; [done|left; eauto]|].
    intros x s1 H1 [-> _]. by wp_step. }
  assert (Hrf : ∀ row : res ApiKeyRow,
    report_refused (Ev (Waldur (ApiKeyRetrieve (cmd_api_key_uuid c))) row ::
      Ev (Waldur (ApiKeySetKey (cmd_api_key_uuid c) key (Some id))) (Err e) :: H) = false).
  { intros row. unfold report_refused in *. simpl. by rewrite He. }
  unfold set_key_landed. wp_steps. wp_call as [row|e'].
  - wp_step. case_bool_decide as Hl.
    + wp_steps. apply reportable_err; [done|]. intros _. exact (Hrf (Ok row)).
    + wp_step. eapply wpM_mono; [apply withdraw_spec; [done|right; eauto 10]|].
      intros x s1 H1 [-> [a ->]]. wp_step. apply reportable_err; [done|]. intros _.
      exact (Hrf (Ok row)).
  - wp_steps. apply reportable_err; [done|]. intros _. exact (Hrf (Err e')).
Qed.

Lemma create_key_spec s :
  cmd_action c = CREATE → wpM G (create_key cfg c) (λ x s' H', reportable x H') s [].
Proof.
  intros Ha. unfold create_key, or_not_yet, reserved_client_ids, list_all_api_keys.
  wp_steps. wp_call as [keys|e].
  2:{ destruct (unanswered e) eqn:He; wp_step; [done|]. by apply reportable_err. }
  wp_steps. apply read_resource_spec.
  - intros r. cbv iota. wp_step. apply apply_pause_spec.
    2:{ intros e. cbv iota. unfold pause_call.
        apply reportable_err; by destruct (res_paused r), (res_downscaled r). }
    intros a. cbv iota. wp_steps.
    assert (Hn : report_refused
      (Ev (Backend (pause_call r (cmd_resource_backend_id c))) (Ok a)
      :: Ev (Waldur (ResourceRetrieve (cmd_resource_uuid c))) (Ok r)
      :: [Ev (Waldur (ApiKeysListAllStates (cmd_resource_uuid c))) (Ok keys)]) = false)
      by (unfold pause_call; by destruct (res_paused r), (res_downscaled r)).
    destruct (resource_key_limits cfg r) as [limits|e];
      [|apply reportable_err; [unfold pause_call; by destruct (res_paused r), (res_downscaled r)|done]].
    wp_step. apply wpM_call.
    { split; [done|]. split_and!; [done|done|by eexists _, _, _|]. exists keys.
      split; [set_solver|]. intros x. apply elem_of_sorted_strings. }
    intros [[id key]|e]; [|by apply reportable_err]. wp_step.
    eapply wpM_mono; [eapply (report_created_key_spec _ _ id key); [done|done|by eexists]|].
    intros [[]|e] s1 H1 Hx; [|done]. eapply wpM_mono; [apply sync_assignees_now_spec|].
    by intros x s2 H2 ->.
  - intros e msg He. done.
  - intros e He. by apply reportable_err.
Qed.

Lemma prepare_key_spec s H (Q : res unit → S → trace agentE → Prop) :
  cmd_action c ≠ CREATE →
  (∀ s' H', pause_applied c H' → Q (Ok ()) s' H') →
  (∀ e s' H', reportable (Err e) H' → Q (Err e) s' H') →
  wpM G (prepare_key c) Q s H.
Proof.
  intros Hnc Hok Herr. unfold prepare_key. wp_step. apply read_resource_spec.
  - intros r. cbv iota. apply apply_pause_spec.
    + intros a. apply Hok. by eexists _, _, _.
    + intros e. apply Herr, reportable_err; [|done].
      unfold pause_call. by destruct (res_paused r), (res_downscaled r).
  - intros e msg He. by apply Herr.
  - intros e He. by apply Herr, reportable_err.
Qed.

(** The last call of a command that creates nothing was not an unanswered read. *)
Lemma reportable_not_create (r : res unit) H :
  cmd_action c ≠ CREATE → last_read_unanswered H = false → reportable r H.
Proof. intros Hc Hl. destruct r as [|e]; [done|]. by apply reportable_err. Qed.

Lemma run_command_spec s :
  wpM G (run_command cfg c) (λ x s' H', reportable x H') s [].
Proof.
  unfold run_command. destruct (String.eqb_spec (cmd_action c) CREATE) as [Hc|Hc].
  { by apply create_key_spec. }
  destruct (nonempty (cmd_client_id c)) eqn:Hn; simpl negb; [|].
  2:{ rewrite andb_true_r. destruct (String.eqb_spec (cmd_action c) DELETE) as [Hd|Hd];
        [|by wp_step; apply reportable_not_create].
      apply wpM_call; [|intros [[]|e]; [done|by apply reportable_not_create]].
      split; [|done]. split; [done|]. split; [done|]. left. split; [|done].
      apply not_true_iff_false in Hn. rewrite nonempty_spec in Hn. by apply dec_stable. }
  rewrite andb_false_r.
  destruct (String.eqb_spec (cmd_action c) PAUSE) as [Hp|Hp].
  { wp_step. wp_call as [[]|e]; [|by apply reportable_not_create].
    apply wpM_call; [split; [simpl; eauto 10|done]|].
    intros [[]|e]; [done|by apply reportable_not_create]. }
  destruct (String.eqb_spec (cmd_action c) RESUME) as [Hr|Hr].
  { wp_step. apply prepare_key_spec; [by rewrite Hr| |done]. intros s1 H1 Hpa. cbv iota.
    wp_step. apply wpM_call; [split; [done|by simpl; auto 10]|].
    intros [[]|e]; [|by apply reportable_not_create].
    apply wpM_call; [split; [simpl; eauto 10|done]|].
    intros [[]|e]; [done|by apply reportable_not_create]. }
  destruct (String.eqb_spec (cmd_action c) UPDATE) as [Hu|Hu].
  { wp_step. apply prepare_key_spec; [by rewrite Hu| |done]. intros s1 H1 Hpa. cbv iota.
    wp_step. apply wpM_call; [split; [done|by simpl; auto 10]|].
    intros [[]|e]; [|by apply reportable_not_create].
    apply wpM_call; [split; [simpl; eauto 10|done]|].
    intros [[]|e]; [done|by apply reportable_not_create]. }
  destruct (String.eqb_spec (cmd_action c) DELETE) as [Hd|Hd]; [|by wp_step].
  wp_step. apply wpM_call; [split; [done|]; simpl; auto|].
  intros [[]|e]; [|by apply reportable_not_create].
  apply wpM_call; [split; [simpl; eauto 10|done]|].
  intros [[]|e]; [done|by apply reportable_not_create].
Qed.
End CommandProofs.

Section RotationProofs.
Context {S : Type} (cfg : processor_config) (c : ApiKeyCommand).
Local Abbreviation G := (command_guard cfg c).
Hypothesis Hrot : cmd_action c = ROTATE.

Lemma set_erred_spec (Q : res unit → S → trace agentE → Prop) msg s H :
  last_read_unanswered H = false → (∀ r s' H', Q r s' H') →
  wpM G (set_erred (cmd_api_key_uuid c) msg) Q s H.
Proof.
  intros Hl HQ. apply wpM_call; [|intros r; apply HQ].
  split; [done|]. split; [done|]. split; [done|]. by rewrite Hrot.
Qed.

Definition rotation_prepared (H : trace agentE) : Prop :=
  supports_resource_api_key_lifecycle (cfg_capabilities cfg) = true →
  ∃ K H', H = K ++ H' ∧ pause_applied c H'.

Lemma rotation_prepared_cons X (x : agentE X) a H :
  rotation_prepared H → rotation_prepared (Ev x a :: H).
Proof. intros Hp Hl. destruct (Hp Hl) as (K & H' & -> & ?). by exists (Ev x a :: K), H'. Qed.

Lemma rotate_resource_api_key_spec resource_uuid settings (s : S) H :
  rotation_prepared H →
  wpM G (rotate_resource_api_key cfg c resource_uuid settings) (λ _ _ _, True) s H.
Proof.
  intros Hp. unfold rotate_resource_api_key. wp_step.
  eapply (wpM_mono _ _ (λ _ _ H', rotation_prepared H')).
  { destruct resource_uuid as [u|]; [|by wp_step]. unfold known_client_ids. wp_steps.
    wp_call as [keys|e]; wp_steps; [|by apply rotation_prepared_cons].
    destruct (negb _); [by wp_step; apply rotation_prepared_cons|].
    destruct (present_client_ids keys); wp_step; by apply rotation_prepared_cons. }
  intros [known|e] s1 H1 Hp1; [|done]. wp_steps. apply wpM_call; [split; [done|by simpl]|].
  intros [result|e]; [|wp_step; apply set_erred_spec; [done|by intros [] ??; try wp_step]].
  wp_steps. destruct (set_key_body result) as [[key cid]|e] eqn:Hb;
    [|wp_step; apply set_erred_spec; [done|by intros [] ??; try wp_step]].
  apply wpM_call.
  { split; [|done]. split; [done|]. right. split; [done|]. by eexists _, _, result, _. }
  intros [[]|e]; [by wp_step|].
  wp_step. apply set_erred_spec; [done|by intros [] ??; try wp_step].
Qed.

Lemma rotate_spec (s : S) : wpM G (rotate cfg c) (λ _ _ _, True) s [].
Proof.
  unfold rotate. destruct (negb _); [by wp_step|].
  destruct (supports_resource_api_key_lifecycle _) eqn:Hlc.
  2:{ wp_step. eapply wpM_mono; [apply rotate_resource_api_key_spec|].
      - unfold rotation_prepared. by rewrite Hlc.
      - intros [b|e] ???; by try wp_step. }
  wp_steps. apply read_resource_spec.
  - intros r. cbv iota. wp_step. apply apply_pause_spec.
    2:{ intros e. cbv iota. assert (Hl : ∀ K, last_read_unanswered
          (Ev (Backend (pause_call r (cmd_resource_backend_id c))) (Err e) :: K) = false)
          by (intros K; unfold pause_call; by destruct (res_paused r), (res_downscaled r)).
        destruct e; try (apply set_erred_spec; [apply Hl|done]). by wp_step. }
    intros a. cbv iota. wp_steps.
    assert (Hp : rotation_prepared (Ev (Backend (pause_call r (cmd_resource_backend_id c))) (Ok a)
      :: [Ev (Waldur (ResourceRetrieve (cmd_resource_uuid c))) (Ok r)]))
      by (intros _; eexists [], _; split; [done|]; by eexists _, _, _).
    eapply (wpM_mono _ _ (λ _ _ H', rotation_prepared H')).
    { unfold rotation_settings. destruct (cmd_limits c), (cmd_allowed_models c); try by wp_step.
      wp_steps. wp_call as [row|e]; [|wp_step; by apply rotation_prepared_cons]. wp_steps.
      destruct (from_listing row ROTATE); [wp_step|]; by apply rotation_prepared_cons. }
    intros [own|e] s1 H1 Hp1; [|done]. wp_steps. destruct (resource_key_limits cfg r); [|done].
    wp_step. eapply wpM_mono; [by apply rotate_resource_api_key_spec|].
    intros [[]|e] s2 H2 _; [|by wp_step|done].
    eapply wpM_mono; [apply sync_assignees_now_spec|done].
  - intros e msg He. by wp_step.
  - intros e He. cbv iota. destruct e; try (apply set_erred_spec; [done|done]); by wp_step.
Qed.
End RotationProofs.

Lemma execute_api_key_command_spec {S} cfg c (s : S) :
  wpM (command_guard cfg c) (execute_api_key_command cfg c) (λ _ _ _, True) s [].
Proof.
  unfold execute_api_key_command. destruct (negb (bool_decide _)); [by wp_step|].
  destruct (_ || _); [by wp_step|].
  destruct (String.eqb_spec (cmd_action c) ROTATE) as [Hr|Hr]; [by apply rotate_spec|].
  destruct (negb _).
  { apply wpM_call; [|done]. split; [done|]. by split. }
  wp_steps. eapply wpM_mono; [apply run_command_spec|].
  intros [[]|e] s1 H1 Hx; [by wp_step|].
  destruct e; try (by wp_step); (apply wpM_call; [|done]);
    (split; [done|]); (split; [done|]); exact Hx.
Qed.

(** Every acknowledgement the agent sends about a key directly follows the success
    of the backend operation it reports, on that key: a new key's value follows
    the mint that made it, a rotated one the rotation that answered it, and a
    pause, a resume, an update or a deletion its own backend call; only the
    deletion of a key that never reached the backend needs none. *)
Theorem acknowledgement_after_backend {S} cfg c (s s' : S) τ r τ1 τ2 {X} (x : agentE X) a :
  runs (execute_api_key_command cfg c s) τ (s', r) →
  τ = τ1 ++ Ev x a :: τ2 → acknowledged_guard c X (rev τ1) x.
Proof.
  intros Hrun Hτ.
  exact (proj1 (wpM_call_guard _ _ _ _ _ _ _ _ _ _ _ (execute_api_key_command_spec cfg c s)
                  Hrun Hτ)).
Qed.

(** C35: a key is minted, resumed or updated only directly after Waldur's pause of its
    resource was read and applied (a rotation, after it was, on a backend with
    the key lifecycle); a mint avoids exactly the identifiers Waldur holds,
    deleted keys included; a created key is withdrawn only when Waldur does not
    hold it; and a failure is reported only when the last call was not a read
    that got no answer, and never after a refused creation: those commands stay
    pending or are settled already. *)
Theorem key_commands_prepared {S} cfg c (s s' : S) τ r τ1 τ2 {X} (x : agentE X) a :
  runs (execute_api_key_command cfg c s) τ (s', r) →
  τ = τ1 ++ Ev x a :: τ2 → prepared_guard cfg c X (rev τ1) x.
Proof.
  intros Hrun Hτ.
  exact (proj2 (wpM_call_guard _ _ _ _ _ _ _ _ _ _ _ (execute_api_key_command_spec cfg c s)
                  Hrun Hτ)).
Qed.

(** An action outside the vocabulary, or a command without a key or a backend id,
    touches neither the backend nor Waldur. *)
Theorem unknown_key_action_ignored {S} cfg c (s s' : S) τ r :
  cmd_action c ∉ ACTIONS ∨ cmd_api_key_uuid c = "" ∨ cmd_resource_backend_id c = "" →
  runs (execute_api_key_command cfg c s) τ (s', r) → τ = [] ∧ s' = s ∧ r = Ok ().
Proof.
  intros Hbad Hrun. unfold execute_api_key_command in Hrun.
  assert (Hret : runs (ret (E:=agentE) () s) τ (s', r) → τ = [] ∧ s' = s ∧ r = Ok ()).
  { intros [-> [= -> ->]]. done. }
  case_bool_decide as Ha; [|by apply Hret].
  destruct Hbad as [?|[Hu|Hb]]; [done| |]; rewrite ?Hu, ?Hb, ?orb_true_r in Hrun;
    by apply Hret.
Qed.

(** The assignee handed to the backend for a key is the username of an actionable
    offering user of the person Waldur assigns the key to; deleted keys, and keys
    that have no identifier yet, are left out. *)
Theorem key_assignments_sound keys us client_id assignee :
  key_assignments keys us !! client_id = Some assignee →
  ∃ k, k ∈ keys ∧ field_str (key_client_id k) = Some client_id ∧
    key_state k ≠ ResourceApiKeyState.DELETED ∧
    ∀ name, assignee = Some name → ∃ u, u ∈ us ∧ ou_username u = name ∧ name ≠ "" ∧
      ou_state u ∈ ACTIONABLE_OFFERING_USER_STATES ∧
      field_str (key_user_uuid k) = Some (ou_user_uuid u).
Proof.
  unfold key_assignments. intros (k & Hk & Ha)%dict_of_spec%list_elem_of_omap.
  exists k. split; [done|]. unfold assigned_key in Ha.
  destruct (field_str (key_client_id k)) as [cid|]; [|done].
  destruct (decide _) as [|Hd]; [done|]. injection Ha as -> <-.
  split; [done|]. split; [done|]. intros name Hn.
  destruct (field_str (key_user_uuid k)) as [user|] eqn:Hu; [|done]. simpl in Hn.
  unfold usernames_by_user in Hn. apply dict_of_spec in Hn.
  change (map ?f ?l) with (f <$> l) in Hn.
  apply list_elem_of_fmap in Hn as (u & [= -> ->] & Hin).
  apply list_elem_of_In, List.filter_In in Hin as [Hin Hf].
  rewrite !andb_true_iff, bool_decide_eq_true, !nonempty_spec in Hf.
  exists u. apply list_elem_of_In in Hin. naive_solver.
Qed.

(** ** Witnesses *)

Definition sample_command (action client_id : string) : ApiKeyCommand :=
  {| cmd_action := action; cmd_api_key_uuid := "key-1"; cmd_resource_uuid := "resource-1";
     cmd_resource_backend_id := "alloc-1"; cmd_client_id := client_id; cmd_limits := None;
     cmd_allowed_models := None; cmd_spending_limits := None |}.

Definition mint_settings : key_settings :=
  {| ks_limits := Some None; ks_allowed_models := Some None; ks_spending_limits := None;
     ks_resource_limits := Some None; ks_resource_spending_limits := None |}.

(** A created key whose report Waldur refuses: the key is withdrawn again. *)
Definition refused_creation : trace agentE :=
  [Ev (Waldur (ApiKeysListAllStates "resource-1")) (Ok [sample_key (Val "alloc-1-1")]);
   Ev (Waldur (ResourceRetrieve "resource-1")) (Ok sample_resource);
   Ev (Backend (RestoreResource "alloc-1")) (Ok true);
   Ev (Backend (MintResourceKey "alloc-1" ["alloc-1-1"%string] mint_settings))
      (Ok ("alloc-1-2", "secret")%string);
   Ev (Waldur (ApiKeySetKey "key-1" "secret" (Some "alloc-1-2"%string)))
      (Err (UnexpectedStatus 409 "" "" "conflict"));
   Ev (Backend (DeleteResourceKey "alloc-1-2" "alloc-1")) (Ok ())].

Lemma refused_creation_runs :
  runs (execute_api_key_command lifecycle_config (sample_command CREATE "") ()) refused_creation
    ((), Ok ()).
Proof. solve_runs. Qed.

Lemma acknowledgement_after_backend_witness :
  acknowledged_guard (sample_command CREATE "") _ (rev (take 4 refused_creation))
    (Waldur (ApiKeySetKey "key-1" "secret" (Some "alloc-1-2"%string))).
Proof.
  exact (acknowledgement_after_backend lifecycle_config (sample_command CREATE "") () ()
    refused_creation (Ok ()) (take 4 refused_creation) (drop 5 refused_creation) _ _
    refused_creation_runs eq_refl).
Defined.

Lemma key_commands_prepared_witness :
  prepared_guard lifecycle_config (sample_command CREATE "") _ (rev (take 5 refused_creation))
    (Backend (DeleteResourceKey "alloc-1-2" "alloc-1")).
Proof.
  exact (key_commands_prepared lifecycle_config (sample_command CREATE "") () ()
    refused_creation (Ok ()) (take 5 refused_creation) [] _ _
    refused_creation_runs eq_refl).
Defined.

Lemma unknown_key_action_ignored_witness :
  @nil (event agentE) = [] ∧ () = () ∧ Ok () = Ok ().
Proof.
  refine (unknown_key_action_ignored lifecycle_config (sample_command "freeze" "alloc-1-1")
    () () [] (Ok ()) _ _).
  - left. vm_compute. intros Hin. repeat (apply list_elem_of_In in Hin; simpl in Hin).
    intuition discriminate.
  - solve_runs.
Defined.

Definition assigned_sample_key : ApiKeyRow :=
  {| key_uuid := "key-1"; key_resource_uuid := "resource-1"; key_resource_backend_id := "alloc-1";
     key_client_id := Val "alloc-1-1"; key_state := ResourceApiKeyState.OK;
     key_user_uuid := Val "user-1"; key_pending_action := ""; key_limits := None;
     key_effective_models := Unset; key_allowed_models := None; key_spending_limits := Unset |}.

Lemma key_assignments_sound_witness :
  ∃ k, k ∈ [assigned_sample_key] ∧ field_str (key_client_id k) = Some "alloc-1-1"%string ∧
    key_state k ≠ ResourceApiKeyState.DELETED ∧
    ∀ name, Some "alice"%string = Some name →
      ∃ u, u ∈ [sample_user OfferingUserState.OK "alice"] ∧ ou_username u = name ∧ name ≠ "" ∧
      ou_state u ∈ ACTIONABLE_OFFERING_USER_STATES ∧
      field_str (key_user_uuid k) = Some (ou_user_uuid u).
Proof.
  apply (key_assignments_sound [assigned_sample_key] [sample_user OfferingUserState.OK "alice"]
    "alloc-1-1" (Some "alice"%string)).
  reflexivity.
Defined.
