(* ===== verification/KeyUsage.v ===== *)
(** * Usage per API key

    [common/resource_api_keys.py]: [report_api_key_usages], which reports each
    key's usage of the current month, and [_report_previous_month], which sends
    the figures of the month before once more in the first days of a month. *)

From stdpp Require Import base list strings gmap sets.
From Stdlib Require Import ZArith Lia SpecFloat.
From S2P Require Import Prelude.
From S2P Require Import Structures.
From S2P Require Import Agent.
From S2P Require Import Samples.
From S2P Require Import Numbers.
From S2P Require Import DailyUsage.
From S2P Require Import ReportEffects.
From S2P Require Import ApiKeys.

Local Open Scope prog_scope.
Local Open Scope Z_scope.

Definition replace_day_1 (d : date) : date := first_day (d_year d) (d_month d).

Definition month_before (d : date) : date :=
  let ym := previous_month (d_year d, d_month d) in first_day ym.1 ym.2.

Definition current_period : report date :=
  let! today := call UtcToday in ret (replace_day_1 today).

Definition previous_period (period : date) (final_report_days : Z) : report (option date) :=
  let! today := call UtcToday in
  if (final_report_days <=? 0) || negb (bool_decide (replace_day_1 today = period)) ||
     (final_report_days <? d_day today)
  then ret None
  else ret (Some (month_before period)).

(** [list_keys]: one listing serves both months. *)
Definition list_keys (resource_uuid : string) : report (list KeyUsageRow) :=
  let! s := get_st in
  match rs_listed s with
  | Some rows => ret rows
  | None =>
      let! rows := call (KeyUsageRows resource_uuid) in
      modify_st (set_listed (Some rows)) ;!
      ret rows
  end.

(** The rounded amounts of a key, zero where it has none. *)
Definition rounded_usages (key_usage : amounts) (component_types : list string) : amounts :=
  foldl (λ d c, dict_set d c (round2 (amount_of key_usage c))) [] component_types.

(** [float(current.get(component, -1)) == value], for every component, up to the first
    that differs. *)
Fixpoint holds_usages (current : list (string * res spec_float)) (usages : amounts) : res bool :=
  match usages with
  | [] => Ok true
  | (component, value) :: usages' =>
      match from_option id (Ok (f64_ratio (-1) 1)) (dict_get current component) with
      | Ok held => if SFeqb held value then holds_usages current usages' else Ok false
      | Err e => Err e
      end
  end.

(** Waldur already holds these figures for this month. *)
Definition already_reported (key : KeyUsageRow) (month : date) (usages : amounts) : res bool :=
  if decide (field_value (ku_usage_period key) = Some month)
  then holds_usages (ku_current_usages key) usages
  else Ok false.

Definition key_accepts_daily_usage (key : KeyUsageRow) : bool :=
  negb (is_unset (ku_spending_limits key)).

(** The days of one key, when both sides take them. *)
Definition key_days (daily : option key_daily_amounts) (key : KeyUsageRow) (client_id : string)
    (month : date) (component_types : list string) : report (option (list daily_item)) :=
  match daily with
  | Some daily =>
      if key_accepts_daily_usage key then
        let! today := call UtcToday in
        ret (Some (daily_usage_items
          (fill_days (from_option id [] (dict_get daily client_id)) (d_year month) (d_month month)
             (list_to_set component_types) today)))
      else ret None
  | None => ret None
  end.

(** With days, no month totals beside them. *)
Definition send_key_usage (key : KeyUsageRow) (month : date) (usages : amounts)
    (days : option (list daily_item)) : report unit :=
  call (ReportKeyUsage (ku_uuid key) month (match days with Some _ => [] | None => usages end) days).

(** ** The current month *)

Definition report_key_usage (component_types : list string) (period : date)
    (daily : option key_daily_amounts) (figures : key_amounts) (key : KeyUsageRow) : report unit :=
  match field_str (ku_client_id key) with
  | None => ret ()
  | Some client_id =>
      let usages := rounded_usages (from_option id [] (dict_get figures client_id))
                      component_types in
      let! same := of_res (already_reported key period usages) in
      if same : bool then ret ()
      else
        let! days := key_days daily key client_id period component_types in
        let! _ := attempt (send_key_usage key period usages days) in
        ret ()
  end.

Definition totals_of (daily : key_daily_amounts) : key_amounts :=
  map (λ '(client_id, days), (client_id, month_totals days)) daily.

(** The figures of the current month: with days, their sums. *)
Definition current_figures (cfg : report_config) (backend_id : string)
  : report (option key_daily_amounts * option key_amounts) :=
  if rep_supports_daily_usage cfg then
    let! result := call (KeyDailyUsageReport [backend_id]) in
    let daily := from_option id (Some []) (dict_get result backend_id) in
    ret (daily, option_map totals_of daily)
  else
    let! result := call (KeyUsageReport [backend_id]) in
    ret (None, from_option id (Some []) (dict_get result backend_id)).

(** ** The month before *)

(** The figures of a closed month, unless the backend left the resource out. *)
Definition closed_figures (cfg : report_config) (backend_id : string) (month : date)
  : report (option (option key_daily_amounts * option key_amounts)) :=
  if rep_supports_daily_usage cfg then
    let! result := call (KeyDailyUsageReportForPeriod [backend_id] (d_year month) (d_month month)) in
    match result with
    | None => ret None
    | Some result =>
        match dict_get result backend_id with
        | None => ret None
        | Some daily => ret (Some (daily, option_map totals_of daily))
        end
    end
  else
    let! result := call (KeyUsageReportForPeriod [backend_id] (d_year month) (d_month month)) in
    match result with
    | None => ret None
    | Some result =>
        match dict_get result backend_id with
        | None => ret None
        | Some figures => ret (Some (None, figures))
        end
    end.

Definition item_triple (i : daily_item) : string * string * string :=
  (di_type i, di_date i, di_amount i).

Definition sent_figures (usages : amounts) (days : option (list daily_item)) : final_report :=
  match days with
  | Some items => SentDays (map item_triple items)
  | None => SentTotals (sort_items usages)
  end.

Fixpoint same_totals (a b : amounts) : bool :=
  match a, b with
  | [], [] => true
  | (c, x) :: a', (c', y) :: b' => String.eqb c c' && SFeqb x y && same_totals a' b'
  | _, _ => false
  end.

(** [_final_reports.get(entry) in (sent, _REFUSED)]. *)
Definition already_sent (last : option final_report) (sent : final_report) : bool :=
  match last, sent with
  | Some RefusedMonth, _ => true
  | Some (SentDays a), SentDays b => bool_decide (a = b)
  | Some (SentTotals a), SentTotals b => same_totals a b
  | _, _ => false
  end.

Definition report_closed_key (component_types : list string) (month : date)
    (daily : option key_daily_amounts) (figures : key_amounts) (key : KeyUsageRow) : report unit :=
  match field_str (ku_client_id key) with
  | None => ret ()
  | Some client_id =>
      let usages := rounded_usages (from_option id [] (dict_get figures client_id))
                      component_types in
      if negb (existsb (λ '(_, x), float_truthy x) usages) then ret ()
      else
        let! same := of_res (already_reported key month usages) in
        if same : bool then ret ()
        else
          let! days := key_days daily key client_id month component_types in
          let sent := sent_figures usages days in
          let entry := (ku_uuid key, month) in
          let! s := get_st in
          if already_sent (dict_get (rs_final_reports s) entry) sent then ret ()
          else
            let! o := attempt (send_key_usage key month usages days) in
            match o with
            | Err e =>
                if is_refusal e
                then modify_st (λ s, set_final_reports
                       (dict_set (rs_final_reports s) entry RefusedMonth) s)
                else ret ()
            | Ok _ => modify_st (λ s, set_final_reports
                        (dict_set (rs_final_reports s) entry sent) s)
            end
  end.

(** Entries of other months are dropped first. *)
Definition forget_other_months (month : date) (s : report_state) : report_state :=
  set_final_reports
    (List.filter (λ '((_, m), _), bool_decide (m = month)) (rs_final_reports s)) s.

Definition report_previous_month (cfg : report_config) (resource_uuid backend_id : string)
    (component_types : list string) (month : date) : report unit :=
  let! figures := closed_figures cfg backend_id month in
  match figures with
  | Some (daily, Some figures) =>
      modify_st (forget_other_months month) ;!
      let! keys := list_keys resource_uuid in
      for_each keys (report_closed_key component_types month daily figures)
  | _ => ret ()
  end.

Definition report_api_key_usages (cfg : report_config) (resource_uuid backend_id : string)
    (component_types : list string) : report unit :=
  modify_st (set_listed None) ;!
  let! period := current_period in
  let! previous := previous_period period (rep_final_report_days cfg) in
  match previous with
  | Some month =>
      let! _ := attempt (report_previous_month cfg resource_uuid backend_id component_types month) in
      ret ()
  | None => ret ()
  end ;!
  let! figures := current_figures cfg backend_id in
  let! now := current_period in
  if negb (bool_decide (now = period)) then ret ()
  else
    match figures.2 with
    | None => ret ()
    | Some totals =>
        let! keys := list_keys resource_uuid in
        for_each keys (report_key_usage component_types period figures.1 totals)
    end.

(** ** What is reported of a key *)

Section KeyGuard.
Context (cfg : report_config) (resource_uuid backend_id : string) (component_types : list string).

(** [figures] are those the backend gave for the current month. *)
Definition collected (ev : event reportE) (figures : key_amounts) : Prop :=
  if rep_supports_daily_usage cfg then
    ∃ result daily, ev = Ev (KeyDailyUsageReport [backend_id]) (Ok result) ∧
      from_option id (Some []) (dict_get result backend_id) = Some daily ∧
      figures = totals_of daily
  else
    ∃ result, ev = Ev (KeyUsageReport [backend_id]) (Ok result) ∧
      from_option id (Some []) (dict_get result backend_id) = Some figures.

(** They were collected between two readings of the clock in [month]. *)
Definition current_month (month : date) (figures : key_amounts) (H : trace reportE) : Prop :=
  ∃ K ev H0 before after, H = K ++ Ev UtcToday (Ok after) :: ev :: H0 ∧
    Ev UtcToday (Ok before) ∈ H0 ∧ collected ev figures ∧
    replace_day_1 before = month ∧ replace_day_1 after = month.

(** [figures] are those the backend gave for [month], the month before the current one,
    and it is one of the first days of the current month. *)
Definition closed_month (month : date) (figures : key_amounts) (H : trace reportE) : Prop :=
  (∃ before today, Ev UtcToday (Ok before) ∈ H ∧ Ev UtcToday (Ok today) ∈ H ∧
     replace_day_1 today = replace_day_1 before ∧ d_day today <= rep_final_report_days cfg ∧
     month = month_before (replace_day_1 before)) ∧
  if rep_supports_daily_usage cfg then
    ∃ result daily,
      Ev (KeyDailyUsageReportForPeriod [backend_id] (d_year month) (d_month month))
         (Ok (Some result)) ∈ H ∧
      dict_get result backend_id = Some (Some daily) ∧ figures = totals_of daily
  else
    ∃ result,
      Ev (KeyUsageReportForPeriod [backend_id] (d_year month) (d_month month))
         (Ok (Some result)) ∈ H ∧
      dict_get result backend_id = Some (Some figures).

(** A listed, identified key, its figures for the month, not yet held by Waldur; days go
    out without month totals, and only where the key takes them. *)
Definition key_report (H : trace reportE) (month : date) (figures : key_amounts) (uuid : string)
    (usages : amounts) (days : option (list daily_item)) : Prop :=
  ∃ keys key client_id, Ev (KeyUsageRows resource_uuid) (Ok keys) ∈ H ∧ key ∈ keys ∧
    uuid = ku_uuid key ∧ field_str (ku_client_id key) = Some client_id ∧
    let figure := rounded_usages (from_option id [] (dict_get figures client_id)) component_types in
    already_reported key month figure = Ok false ∧
    match days with
    | None => usages = figure
    | Some _ => usages = [] ∧ rep_supports_daily_usage cfg = true ∧
                key_accepts_daily_usage key = true
    end.

Definition key_guard : guard reportE := λ X H c,
  match c with
  | ReportKeyUsage uuid month usages days => ∃ figures,
      (current_month month figures H ∨ closed_month month figures H) ∧
      key_report H month figures uuid usages days
  | _ => True
  end.

(** What a report remembers. *)
Definition listing_known (s : report_state) (H : trace reportE) : Prop :=
  ∀ rows, rs_listed s = Some rows → Ev (KeyUsageRows resource_uuid) (Ok rows) ∈ H.

(** The facts a report goes by once it sends keys. *)
Definition sending (month : date) (figures : key_amounts) (H : trace reportE) : Prop :=
  current_month month figures H ∨ closed_month month figures H.

Lemma sending_cons month figures ev H : sending month figures H → sending month figures (ev :: H).
Proof.
  intros [(K & e & H0 & b & a & -> & ?)|[(b & t & ? & ? & ?) Hc]]; [left|right].
  - by exists (ev :: K), e, H0, b, a.
  - split; [exists b, t; split_and!; [by right..| | |]; naive_solver|].
    destruct (rep_supports_daily_usage cfg).
    + destruct Hc as (result & daily & ? & ?). exists result, daily. split; [by right|done].
    + destruct Hc as (result & ? & ?). exists result. split; [by right|done].
Qed.

Lemma key_days_spec daily key client_id month s H :
  wpM key_guard (key_days daily key client_id month component_types) (λ o s' H', s' = s ∧
    (H' = H ∨ ∃ a, H' = Ev UtcToday a :: H) ∧
    (∀ items, o = Ok (Some items) → is_Some daily ∧ key_accepts_daily_usage key = true)) s H.
Proof.
  unfold key_days. destruct daily as [daily|]; [|wp_step; by split_and!; [|left|]].
  destruct (key_accepts_daily_usage key); [|wp_step; by split_and!; [|left|]].
  wp_step. apply wpM_call; [done|]. intros [today|e]; try wp_step; split_and!; eauto.
Qed.

Section SendOne.
Context (keys : list KeyUsageRow) (month : date) (figures : key_amounts)
  (daily : option key_daily_amounts) (key : KeyUsageRow).
Context (Hkey : key ∈ keys) (Hdaily : is_Some daily → rep_supports_daily_usage cfg = true).

Definition ready (H : trace reportE) : Prop :=
  sending month figures H ∧ Ev (KeyUsageRows resource_uuid) (Ok keys) ∈ H.

Lemma ready_cons ev H : ready H → ready (ev :: H).
Proof. intros [? ?]. split; [by apply sending_cons|by right]. Qed.
#[local] Hint Resolve ready_cons : core.

Lemma send_key_usage_spec client_id days s H :
  ready H → field_str (ku_client_id key) = Some client_id →
  (∀ items, days = Some items → is_Some daily ∧ key_accepts_daily_usage key = true) →
  already_reported key month
    (rounded_usages (from_option id [] (dict_get figures client_id)) component_types) = Ok false →
  wpM key_guard (send_key_usage key month
      (rounded_usages (from_option id [] (dict_get figures client_id)) component_types) days)
    (λ _ s' H', s' = s ∧ ready H') s H.
Proof.
  intros Hr Hc Hd Ha. unfold send_key_usage. apply wpM_call; [|by auto].
  destruct Hr as [Hs Hk]. exists figures. split; [done|]. exists keys, key, client_id.
  split_and!; try done. destruct days as [items|]; [|done].
  destruct (Hd items eq_refl) as [? ?]. auto.
Qed.

Lemma report_key_usage_spec s H :
  ready H →
  wpM key_guard (report_key_usage component_types month daily figures key)
    (λ o s' H', s' = s ∧ ready H') s H.
Proof.
  intros Hr. unfold report_key_usage.
  destruct (field_str (ku_client_id key)) as [client_id|] eqn:Hc; [|by wp_step].
  cbv zeta. wp_steps. destruct (already_reported _ _ _) as [[]|e] eqn:Ha; wp_steps; [done| |done].
  eapply wpM_mono; [apply key_days_spec|]. intros [days|e] s1 H1 (-> & Hh & Hd);
    (assert (ready H1) by (destruct Hh as [->|[a ->]]; auto)); cbv iota; [|done]. wp_steps.
  eapply wpM_mono; [eapply send_key_usage_spec; try done|].
  - intros items ->. by eapply Hd.
  - intros o s2 H2 [-> Hr2]. by wp_step.
Qed.

Lemma report_closed_key_spec s H :
  ready H →
  wpM key_guard (report_closed_key component_types month daily figures key)
    (λ o s' H', rs_listed s' = rs_listed s ∧ ready H') s H.
Proof.
  intros Hr. unfold report_closed_key.
  destruct (field_str (ku_client_id key)) as [client_id|] eqn:Hc; [|by wp_step].
  cbv zeta. destruct (negb _); [by wp_step|]. wp_steps.
  destruct (already_reported _ _ _) as [[]|e] eqn:Ha; wp_steps; [done| |done].
  eapply wpM_mono; [apply key_days_spec|]. intros [days|e] s1 H1 (-> & Hh & Hd);
    (assert (ready H1) by (destruct Hh as [->|[a ->]]; auto)); cbv iota; [|done]. wp_steps.
  destruct (already_sent _ _); [by wp_step|]. wp_steps.
  eapply wpM_mono; [eapply send_key_usage_spec; try done|].
  - intros items ->. by eapply Hd.
  - intros [[]|e] s2 H2 [-> Hr2]; cbv beta iota; wp_steps; [done|].
    destruct (is_refusal e); by wp_step.
Qed.
End SendOne.

(** *** The whole report *)

Lemma list_keys_spec s H :
  listing_known s H →
  wpM key_guard (list_keys resource_uuid) (λ o s' H', listing_known s' H' ∧
    (H' = H ∨ ∃ ev, H' = ev :: H) ∧
    match o with
    | Ok keys => rs_listed s' = Some keys ∧ Ev (KeyUsageRows resource_uuid) (Ok keys) ∈ H'
    | Err _ => True
    end) s H.
Proof.
  intros Hs. unfold list_keys. wp_steps. destruct (rs_listed s) as [rows|] eqn:Hl.
  { wp_step. split_and!; [done|by left|done|by apply Hs]. }
  wp_step. apply wpM_call; [done|]. intros [rows|e]; wp_steps; split_and!; try done; eauto.
  - intros rows' [= <-]. left.
  - left.
  - intros rows' Hr. by rewrite Hl in Hr.
Qed.

Lemma listing_known_grow s s' ev H :
  rs_listed s' = rs_listed s → listing_known s H → listing_known s' (ev :: H).
Proof. intros He Hs rows Hr. right. apply Hs. by rewrite <- He. Qed.

(** The loop over the keys of a month. *)
Lemma send_keys_spec (body : KeyUsageRow → report unit) keys month figures s H :
  ready keys month figures H → rs_listed s = Some keys →
  (∀ key s H, key ∈ keys → ready keys month figures H →
     wpM key_guard (body key) (λ o s' H', rs_listed s' = rs_listed s ∧
       ready keys month figures H') s H) →
  wpM key_guard (for_each keys body) (λ _ s' H', listing_known s' H') s H.
Proof.
  intros Hr Hs Hbody. set (I s' H' := rs_listed s' = Some keys ∧ ready keys month figures H').
  apply (wpM_mono _ _ (λ _ s' H', I s' H')).
  - apply (wpM_for_each _ _ _ (λ _ s' H', I s' H')); [|done..].
    intros xs key s1 H1 [ys Hk] [Hl1 Hr1]. eapply wpM_mono; [apply Hbody; [|exact Hr1]|].
    + rewrite Hk, elem_of_app. right. left.
    + intros [[]|e] s2 H2 [Hl2 Hr2]; (split; [congruence|done]).
  - intros o s' H' [Hl [_ Hk]] rows Hrows. congruence.
Qed.

Lemma closed_figures_spec month s H :
  wpM key_guard (closed_figures cfg backend_id month) (λ o s' H', s' = s ∧
    (∃ ev, H' = ev :: H) ∧
    ∀ daily figures, o = Ok (Some (daily, Some figures)) →
      (is_Some daily → rep_supports_daily_usage cfg = true) ∧
      if rep_supports_daily_usage cfg then
        ∃ result daily,
          Ev (KeyDailyUsageReportForPeriod [backend_id] (d_year month) (d_month month))
             (Ok (Some result)) ∈ H' ∧
          dict_get result backend_id = Some (Some daily) ∧ figures = totals_of daily
      else
        ∃ result,
          Ev (KeyUsageReportForPeriod [backend_id] (d_year month) (d_month month))
             (Ok (Some result)) ∈ H' ∧
          dict_get result backend_id = Some (Some figures)) s H.
Proof.
  unfold closed_figures. destruct (rep_supports_daily_usage cfg); wp_step;
    (apply wpM_call; [done|]);
    (intros [[result|]|e]; [|wp_step; split; [done|]; by split; [eauto|]
                            |split; [done|]; by split; [eauto|]]);
    cbv iota; (destruct (dict_get result backend_id) as [found|] eqn:Hf; wp_step;
    (split; [done|]); (split; [eauto|]); [|done]).
  - intros daily figures [= -> Ht]. split; [done|]. destruct daily as [daily|]; [|done].
    injection Ht as <-. exists result, daily. split; [left|done].
  - intros daily figures [= <- ->]. split; [by intros []|]. exists result. split; [left|done].
Qed.

Lemma report_previous_month_spec before today s H :
  listing_known s H → Ev UtcToday (Ok before) ∈ H → Ev UtcToday (Ok today) ∈ H →
  replace_day_1 today = replace_day_1 before → d_day today <= rep_final_report_days cfg →
  wpM key_guard (report_previous_month cfg resource_uuid backend_id component_types
                   (month_before (replace_day_1 before)))
    (λ _ s' H', listing_known s' H') s H.
Proof.
  intros Hs Hb Ht He Hd. set (month := month_before _). unfold report_previous_month. wp_step.
  eapply wpM_mono; [apply closed_figures_spec|]. intros o s1 H1 (-> & [ev ->] & Hf).
  assert (Hs1 : listing_known s (ev :: H)) by (by eapply listing_known_grow).
  destruct o as [[[daily [figures|]]|]|e]; cbv iota; [|by wp_step..|done].
  destruct (Hf _ _ eq_refl) as [Hdaily Hclosed]. wp_steps.
  eapply wpM_mono; [by apply list_keys_spec|].
  intros [keys|e] s2 H2 (Hs2 & Hh & Hk); [|done]. cbv iota. destruct Hk as [Hl Hk].
  assert (Hsend : sending month figures (ev :: H)).
  { right. split; [|done]. exists before, today. split_and!; by (right || idtac). }
  apply send_keys_spec with month figures; [|done|].
  - split; [|done]. destruct Hh as [->|[ev' ->]]; [done|by apply sending_cons].
  - intros key s3 H3 Hin Hr. by apply report_closed_key_spec.
Qed.

Lemma current_figures_spec before month s H :
  Ev UtcToday (Ok before) ∈ H → replace_day_1 before = month →
  wpM key_guard (current_figures cfg backend_id) (λ o s' H', s' = s ∧
    ∃ ev, H' = ev :: H ∧ ∀ daily figures, o = Ok (daily, Some figures) →
      (is_Some daily → rep_supports_daily_usage cfg = true) ∧
      collected ev figures) s H.
Proof.
  intros Hb Hm. unfold current_figures, collected. destruct (rep_supports_daily_usage cfg); wp_step;
    (apply wpM_call; [done|]); intros [result|e]; try wp_step; (split; [done|]);
    eexists; (split; [done|]); try done.
  - intros daily figures [= <- Ht]. split; [done|].
    destruct (from_option _ _ _) as [daily|] eqn:Hf; [|done]. injection Ht as <-.
    by exists result, daily.
  - intros daily figures [= <- Ht]. split; [by intros []|]. by exists result.
Qed.

Lemma report_api_key_usages_spec s H :
  wpM key_guard (report_api_key_usages cfg resource_uuid backend_id component_types)
    (λ _ _ _, True) s H.
Proof.
  unfold report_api_key_usages, current_period, previous_period. wp_steps.
  assert (Hs0 : listing_known (set_listed None s) H) by done. revert Hs0.
  generalize (set_listed None s). intros s0 Hs0.
  apply wpM_call; [done|]. intros [before|e]; [|done]. wp_steps. apply wpM_call; [done|].
  set (H1 := _ :: H). assert (Hb1 : Ev UtcToday (Ok before) ∈ H1) by left.
  assert (Hs1 : listing_known s0 H1) by (by eapply listing_known_grow). clearbody H1.
  set (month := replace_day_1 before). intros a. set (H2 := _ :: H1).
  assert (Hb2 : Ev UtcToday (Ok before) ∈ H2) by (by right).
  assert (Hs2 : listing_known s0 H2) by (by eapply listing_known_grow).
  destruct a as [today|e]; [|done]. cbv iota.
  assert (Hrest : ∀ s3 H3, Ev UtcToday (Ok before) ∈ H3 → listing_known s3 H3 →
    wpM key_guard
      (let! figures := current_figures cfg backend_id in
       let! now := (let! today := call UtcToday in ret (replace_day_1 today)) in
       if negb (bool_decide (now = month)) then ret ()
       else match figures.2 with
            | None => ret ()
            | Some totals =>
                let! keys := list_keys resource_uuid in
                for_each keys (report_key_usage component_types month figures.1 totals)
            end) (λ _ _ _, True) s3 H3).
  { intros s3 H3 Hb3 Hs3. wp_step. eapply wpM_mono; [by eapply current_figures_spec|].
    intros [[daily figures]|e] s4 H4 (-> & ev & -> & Hcol); [|done]. cbv iota. wp_steps.
    apply wpM_call; [done|]. intros [after|e]; [|done]. wp_step.
    case_bool_decide as Ha; simpl negb; cbv iota; [|by wp_step].
    destruct figures as [figures|]; simpl; [|by wp_step].
    destruct (Hcol _ _ eq_refl) as [Hdaily Hc]. wp_step.
    eapply wpM_mono; [apply list_keys_spec; do 2 (eapply listing_known_grow; [done|]); done|].
    intros [keys|e] s5 H5 (Hs5 & Hh & Hk); [|done]. destruct Hk as [Hl Hk].
    assert (Hsend : sending month figures (Ev UtcToday (Ok after) :: ev :: H3)).
    { left. by exists [], ev, H3, before, after. }
    eapply wpM_mono; [eapply (send_keys_spec _ keys month figures); [|done|]|done].
    - split; [|done]. destruct Hh as [->|[ev' ->]]; [done|by apply sending_cons].
    - intros key s6 H6 Hin Hr. eapply wpM_mono; [by apply report_key_usage_spec|].
      intros o s7 H7 [-> Hr7]. done. }
  destruct (_ || _) eqn:Hdue.
  - wp_step. by apply Hrest.
  - rewrite !orb_false_iff, negb_false_iff, bool_decide_eq_true in Hdue.
    destruct Hdue as [[_ Hsame] Hday]. wp_steps.
    eapply (wpM_inv key_guard _ (λ H', Ev UtcToday (Ok before) ∈ H')); [by intros; right|done
      |done|apply (report_previous_month_spec before today); try done; [left|lia]|].
    intros o s3 H3 Hs3 Hb3. cbv beta iota. wp_step. by apply Hrest.
Qed.
End KeyGuard.

(** A key's usage is reported only for a listed key with an identity, for the current
    month out of figures collected between two readings of the clock in that month,
    or, in the first days of a month, for the month before out of the backend's
    record of that month; the amounts are the key's rounded figures for the
    components, never figures Waldur already holds for the month, and usage per day
    goes out without month totals and only where backend and key take it. *)
Theorem key_usage_attributed cfg resource_uuid backend_id types s τ s' o τ1 τ2 uuid month
    usages days a :
  runs (report_api_key_usages cfg resource_uuid backend_id types s) τ (s', o) →
  τ = τ1 ++ Ev (ReportKeyUsage uuid month usages days) a :: τ2 →
  ∃ figures, (current_month cfg backend_id month figures (rev τ1) ∨
              closed_month cfg backend_id month figures (rev τ1)) ∧
    key_report cfg resource_uuid types (rev τ1) month figures uuid usages days.
Proof.
  intros Hrun Hτ. pose proof (report_api_key_usages_spec cfg resource_uuid backend_id types s []) as Hspec.
  exact (wpM_call_guard _ _ _ _ _ _ _ _ _ _ _ Hspec Hrun Hτ).
Qed.

(** ** Witnesses *)

Definition sample_report_config : report_config :=
  {| rep_processor := lifecycle_config; rep_timezone := ""; rep_reporting_periods := 2;
     rep_final_report_days := 3; rep_supports_decreasing_usage := false;
     rep_supports_daily_usage := true; rep_supports_resource_api_key_usage := true;
     rep_backend_components := ["cpu"] |}.

Definition initial_report_state : report_state :=
  {| rs_processor := initial_state; rs_final_reports := []; rs_listed := None |}.

Definition sample_key_row : KeyUsageRow :=
  {| ku_uuid := "key-1"; ku_client_id := Val "client-1";
     ku_usage_period := Val (first_day 2024 4);
     ku_current_usages := [("cpu", Ok (f64_ratio 3 1))]; ku_spending_limits := Null |}.

(** The second of May: last month's figures go out once more, then this month's. *)
Definition sample_usage_world (X : Type) (c : reportE X) (w : unit) : res X * unit :=
  (match c in reportE X return res X with
   | UtcToday => Ok {| d_year := 2024; d_month := 5; d_day := 2 |}
   | CurrentTime _ => Ok (2024, 5)
   | KeyUsageRows _ => Ok [sample_key_row]
   | KeyDailyUsageReport _ =>
       Ok [("alloc-1", Some [("client-1", [("2024-05-01", [("cpu", f64_ratio 5 4)])])])]
   | KeyDailyUsageReportForPeriod _ _ _ =>
       Ok (Some [("alloc-1", Some [("client-1", [("2024-04-30", [("cpu", f64_ratio 7 2)])])])])
   | ReportKeyUsage _ _ _ _ => Ok ()
   | ComponentUsagesList _ _ =>
       Ok [{| cu_uuid := "cu-1"; cu_type := Val "cpu"; cu_usage := Some (Ok (f64_ratio 1 1)) |}]
   | ComponentUserUsagesList _ _ => Ok []
   | UsageReportForPeriod _ _ _ _ => Err (OtherException "accounting database is down")
   | SetUsage _ _ _ _ => Ok ()
   | SetUserUsages _ _ => Ok ()
   | Agent a =>
       match a in agentE X return res X with
       | Waldur w => match w in waldurE X return res X with
                     | ResourceRetrieve _ => Ok sample_resource
                     | OfferingUsersList _ => Ok [sample_user OfferingUserState.OK "alice"]
                     | _ => Err (OtherException "unexpected")
                     end
       | Backend b => match b in backendE X return res X with
                      | PullResource _ => Ok (Some
                          {| info_backend_id := "alloc-1"; info_parent_id := "";
                             info_effective_id := ""; info_users := ["alice"];
                             info_usage := [("TOTAL_ACCOUNT_USAGE", [("cpu", f64_ratio 10001 5000)]);
                                            ("alice", [("cpu", f64_ratio 2 1)])];
                             info_limits := ∅; info_pending_order_id := "";
                             info_backend_metadata := ∅; info_endpoints := [] |})
                      | _ => Err (OtherException "unexpected")
                      end
       | Monotonic => Ok 0
       | _ => Err (OtherException "unexpected")
       end
   | _ => Err (OtherException "unexpected")
   end, w).

Definition key_usage_exec :=
  exec sample_usage_world
    (report_api_key_usages sample_report_config "resource-1" "alloc-1" ["cpu"]
       initial_report_state) ().

Definition april_items : list daily_item :=
  daily_usage_items (fill_days [("2024-04-30", [("cpu", f64_ratio 7 2)])] 2024 4
    {["cpu"%string]} {| d_year := 2024; d_month := 5; d_day := 2 |}).

Lemma key_usage_attributed_witness : ∃ figures,
  (current_month sample_report_config "alloc-1" (first_day 2024 4) figures
     (rev (take 5 key_usage_exec.1.2)) ∨
   closed_month sample_report_config "alloc-1" (first_day 2024 4) figures
     (rev (take 5 key_usage_exec.1.2))) ∧
  key_report sample_report_config "resource-1" ["cpu"] (rev (take 5 key_usage_exec.1.2))
    (first_day 2024 4) figures "key-1" [] (Some april_items).
Proof.
  refine (key_usage_attributed sample_report_config "resource-1" "alloc-1" ["cpu"]
    initial_report_state key_usage_exec.1.2 key_usage_exec.1.1.1 key_usage_exec.1.1.2
    (take 5 key_usage_exec.1.2) (drop 6 key_usage_exec.1.2) "key-1" (first_day 2024 4) []
    (Some april_items) (Ok ()) _ _).
  - apply exec_runs_pair.
  - vm_compute. reflexivity.
Defined.
