(* ===== verification/Teardown.v ===== *)
(** * Tearing down offering users

    [common/processors.py]: the module-level functions between
    [fetch_offering_resources] and [_remove_user_from_reported_resources], and
    the deletion and release operations of [OfferingMembershipProcessor] that
    use them. *)

From stdpp Require Import base list strings gmap sets.
From Stdlib Require Import ZArith Lia.
From S2P Require Import Prelude.
From S2P Require Import Structures.
From S2P Require Import Agent.
From S2P Require Import Samples.
From S2P Require Import OfferingUsers.
From S2P Require Import BaseProcessor.
From S2P Require Import Orders.

Local Open Scope prog_scope.
Local Open Scope Z_scope.

(** The report of [pull_resources], a dict, by its values. *)
Abbreviation resource_report := (list (WaldurResource * BackendResourceInfo)).

Section Teardown.
Context (cfg : processor_config).
Local Abbreviation caps := (cfg_capabilities cfg).

Definition fetch_offering_resources {S} (project_uuid : option string)
  : M agentE S (list WaldurResource) :=
  let! rs := waldur (ResourcesList (handled_resource_states caps) project_uuid) in
  ret (List.filter (λ r, nonempty (res_backend_id r)) rs).

Definition try_claim {S} (u : OfferingUser) : M agentE S bool :=
  let! r := attempt (claim_offering_user_deletion u) in
  match r with Ok claimed => ret claimed | Err _ => ret false end.

Definition try_complete {S} (u : OfferingUser) : M agentE S bool :=
  let! r := attempt (complete_offering_user_deletion u) in
  match r with Ok _ => ret true | Err _ => ret false end.

Definition user_cuid (u : OfferingUser) : option string := field_str (ou_user_username u).

Definition remove_user_from_resource {S} (r : WaldurResource) (u : OfferingUser)
    (role_name : string) : M agentE S bool :=
  backend (RemoveUser r (ou_username u) role_name (user_cuid u)).

Definition remove_user_from_reported_resources {S} (u : OfferingUser) (report : resource_report)
  : M agentE S unit :=
  for_each report (λ '(r, info),
    if negb (bool_decide (ou_username u ∈ info_users info)) then ret ()
    else
      let! removed := attempt (remove_user_from_resource r u "") in
      match removed with
      | Ok _ => ret ()
      | Err e => raise (BackendError ("Unable to remove user " +:+ ou_username u +:+
                          " from resource " +:+ res_backend_id r +:+ ": " +:+ exn_str e))
      end).

(** [report] is empty when there is no membership backend; [releases] tells whether
    there is a username backend that releases accounts. *)
Definition teardown_offering_user {S} (u : OfferingUser) (releases : bool)
    (report : resource_report) : M agentE S bool :=
  if negb (nonempty (ou_username u)) then
    let! claimed := try_claim u in
    if claimed : bool then try_complete u else ret false
  else
    let! claimed := try_claim u in
    if negb claimed then ret false
    else
      let! r := attempt (
        remove_user_from_reported_resources u report ;!
        (if releases then username (ReleaseUsers [u]) else ret ())) in
      match r with
      | Err _ => mark_offering_user_error_deleting u ;! ret false
      | Ok _ => try_complete u
      end.

(** ** The processor's part *)

Definition pull_reported (rs : list WaldurResource) (strict : bool) : proc resource_report :=
  let! report := backend (PullResources rs false strict) in
  ret (report.*2).

Definition release_capable_username_backend : proc bool :=
  let! s := get_st in
  match st_release_backend s with
  | Some releases => ret releases
  | None =>
      let! releases := get_release_capable_username_backend cfg in
      modify_st (set_release_backend (Some releases)) ;!
      ret releases
  end.

Definition process_offering_user_deletion (u : OfferingUser) (report : option resource_report)
  : proc bool :=
  let! pulled :=
    match report with
    | Some report => ret (Some report)
    | None =>
        let! r := attempt (
          let! rs := fetch_offering_resources None in
          pull_reported rs true) in
        match r with Ok report => ret (Some report) | Err _ => ret None end
    end in
  match pulled with
  | None => ret false
  | Some report =>
      let! releases := release_capable_username_backend in
      teardown_offering_user u releases report
  end.

Definition process_requested_deletions : proc unit :=
  let! r := attempt (waldur (OfferingUsersInStates DEPARTED_OFFERING_USER_STATES)) in
  match r with
  | Err _ => ret ()
  | Ok [] => ret ()
  | Ok departed =>
      let! r := attempt (
        let! rs := fetch_offering_resources None in
        pull_reported rs true) in
      match r with
      | Err _ => ret ()
      | Ok report =>
          for_each departed (λ u, process_offering_user_deletion u (Some report) ;! ret ())
      end
  end.

(** The accounts that just lost their resource access. *)
Definition release_departed_users (usernames : gset string) : proc unit :=
  if decide (usernames = ∅) then ret ()
  else
    let! releases := release_capable_username_backend in
    if negb releases then ret ()
    else
      let! r := attempt (waldur OfferingUsersAll) in
      match r with
      | Err _ => ret ()
      | Ok us =>
          release_offering_users
            (List.filter (λ u, nonempty (ou_username u) &&
                               bool_decide (ou_username u ∈ usernames)) us)
      end.

Definition confirmed_removals (requested : gset string) (returned : removed_users) : gset string :=
  match returned with
  | RemovedNames names => requested ∩ list_to_set names
  | RemovedNone | RemovedText _ | RemovedOpaque => requested
  end.
End Teardown.

(** ** The order of a teardown *)

(** Waldur let the agent take the deletion on, in this run or before it. *)
Definition claimed (u : OfferingUser) (H : trace agentE) : Prop :=
  ou_state u = OfferingUserState.DELETING ∨
  ∃ status, status < 400 ∧ Ev (Waldur (OfferingUserSetDeleting (ou_uuid u))) (Ok status) ∈ H.

(** Every association the report lists for the user was removed. *)
Definition associations_removed (u : OfferingUser) (report : resource_report) (H : trace agentE)
  : Prop :=
  ∀ r info, (r, info) ∈ report → ou_username u ∈ info_users info →
    ∃ b, Ev (Backend (RemoveUser r (ou_username u) "" (user_cuid u))) (Ok b) ∈ H.

Definition account_released (u : OfferingUser) (H : trace agentE) : Prop :=
  Ev (Username (ReleaseUsers [u])) (Ok ()) ∈ H.

Definition teardown_guard (u : OfferingUser) (releases : bool) (report : resource_report)
  : guard agentE := λ X H c,
  match c with
  | Waldur w =>
      match w with
      | OfferingUserSetDeleting uuid => uuid = ou_uuid u ∧
          ou_state u ∈ DEPARTED_OFFERING_USER_STATES
      | OfferingUserSetDeleted uuid => uuid = ou_uuid u ∧ claimed u H ∧
          (ou_username u ≠ "" → associations_removed u report H ∧
             (releases = true → account_released u H))
      | OfferingUserSetErrorDeleting uuid => uuid = ou_uuid u ∧ claimed u H
      | _ => False
      end
  | Backend b =>
      match b with
      | RemoveUser r name role cuid => name = ou_username u ∧ role = "" ∧ cuid = user_cuid u ∧
          claimed u H ∧ ∃ info, (r, info) ∈ report ∧ name ∈ info_users info
      | _ => False
      end
  | Username x =>
      match x with
      | ReleaseUsers us => us = [u] ∧ releases = true ∧ claimed u H ∧
          associations_removed u report H
      | _ => False
      end
  | _ => False
  end.

(** Waldur accepted the deletion as the last call. *)
Definition deletion_accepted (u : OfferingUser) (H : trace agentE) : Prop :=
  ∃ status H', status < 400 ∧
    H = Ev (Waldur (OfferingUserSetDeleted (ou_uuid u))) (Ok status) :: H'.

Lemma claimed_cons u ev H : claimed u H → claimed u (ev :: H).
Proof. intros [?|(s & ? & ?)]; [by left|]. right. exists s. split; [done|by right]. Qed.

Lemma associations_removed_cons u report ev H :
  associations_removed u report H → associations_removed u report (ev :: H).
Proof. intros Ha r info Hin Hu. destruct (Ha r info Hin Hu) as [b ?]. exists b. by right. Qed.

#[local] Hint Resolve claimed_cons associations_removed_cons : core.

Section TeardownProofs.
Context {S : Type} (u : OfferingUser) (releases : bool) (report : resource_report).
Local Abbreviation G := (teardown_guard u releases report).
Implicit Types (s : S) (H : trace agentE).

Lemma try_claim_spec s H :
  wpM G (try_claim u) (λ r _ H', ∃ b, r = Ok b ∧ (b = true → claimed u H')) s H.
Proof.
  unfold try_claim, claim_offering_user_deletion. wp_steps.
  case_decide as Hd. { wp_steps. exists true. split; [done|]. by left. }
  case_bool_decide as Hb; simpl negb; cbv iota; [|by wp_steps; exists false].
  wp_step. wp_call as [status|e]; wp_steps; [|by exists false].
  eexists. split; [done|]. destruct (Z.leb_spec 400 status); [done|].
  intros _. right. exists status. split; [lia|left].
Qed.

Lemma try_complete_spec s H :
  claimed u H →
  (ou_username u ≠ "" → associations_removed u report H ∧
     (releases = true → account_released u H)) →
  wpM G (try_complete u) (λ r _ H', ∃ b, r = Ok b ∧ (b = true → deletion_accepted u H')) s H.
Proof.
  intros Hc Ha. unfold try_complete, complete_offering_user_deletion, check_transition.
  wp_steps. wp_call as [status|e]; [|by wp_steps; exists false].
  destruct (Z.leb_spec 400 status); wp_steps; eexists; (split; [done|]); [done|].
  intros _. by exists status, H.
Qed.

Lemma remove_reported_spec s H :
  claimed u H →
  wpM G (remove_user_from_reported_resources u report) (λ r _ H', claimed u H' ∧
    match r with Ok _ => associations_removed u report H' | Err _ => True end) s H.
Proof.
  intros Hc. unfold remove_user_from_reported_resources.
  apply (wpM_for_each _ _ _ (λ done _ H', claimed u H' ∧ associations_removed u done H')).
  - intros xs [r info] s1 H1 [ys Hl] [Hc1 Ha1].
    case_bool_decide as Hin; simpl negb; cbv iota.
    + unfold remove_user_from_resource. wp_steps. wp_call.
      { split_and!; try done. exists info. split; [|done]. rewrite Hl, elem_of_app. right. left. }
      intros [b|e]; wp_step; split; auto.
      intros r' info' [Hr'|Hr']%elem_of_app Hu';
        [by eapply (associations_removed_cons u xs)|].
      apply list_elem_of_singleton in Hr' as [= -> ->]. exists b. left.
    + wp_step. split; [done|]. intros r' info' [Hr'|Hr']%elem_of_app Hu'; [by eapply Ha1|].
      by apply list_elem_of_singleton in Hr' as [= -> ->].
  - intros s1 H1 [? ?]; auto.
  - split; [done|]. intros r info Hin. by apply elem_of_nil in Hin.
Qed.

Lemma mark_error_deleting_spec s H :
  claimed u H →
  wpM G (mark_offering_user_error_deleting u) (λ r _ _, r = Ok ()) s H.
Proof.
  intros Hc. unfold mark_offering_user_error_deleting, check_transition.
  case_bool_decide; [|by wp_step]. wp_steps. wp_call as [status|e]; [|by wp_steps].
  destruct (Z.leb_spec 400 status); by wp_steps.
Qed.

Lemma release_step_spec s H :
  claimed u H → associations_removed u report H →
  wpM G (if releases then username (ReleaseUsers [u]) else ret ()) (λ r _ H',
    claimed u H' ∧ associations_removed u report H' ∧
    match r with Ok _ => releases = true → account_released u H' | Err _ => True end) s H.
Proof.
  intros Hc Ha. assert (Hrel : releases = true ∨ releases = false) by (destruct releases; auto).
  destruct Hrel as [Hrel|Hrel]; rewrite Hrel at 2.
  - apply wpM_call; [done|]. intros [[]|e]; split_and!; auto. intros _. left.
  - wp_step. split_and!; [done..|]. congruence.
Qed.

Lemma teardown_offering_user_spec s H :
  wpM G (teardown_offering_user u releases report) (λ r _ H',
    ∃ b, r = Ok b ∧ (b = true → deletion_accepted u H')) s H.
Proof.
  unfold teardown_offering_user. destruct (nonempty (ou_username u)) eqn:Hn; simpl negb; cbv iota.
  - wp_step. eapply wpM_mono; [apply try_claim_spec|].
    intros r s1 H1 (b & -> & Hc). destruct b; simpl negb; cbv iota; [|by wp_step; exists false].
    specialize (Hc eq_refl). wp_steps. eapply wpM_mono; [by apply remove_reported_spec|].
    intros [[]|e] s2 H2 [Hc2 Ha2]; cbv iota.
    + eapply wpM_mono; [by apply release_step_spec|].
      intros [[]|e] s3 H3 (Hc3 & Ha3 & Hr3); cbv iota; [by apply try_complete_spec|].
      wp_step. eapply wpM_mono; [by apply mark_error_deleting_spec|].
      intros r s4 H4 ->. wp_step. by exists false.
    + wp_step. eapply wpM_mono; [by apply mark_error_deleting_spec|].
      intros r s3 H3 ->. wp_step. by exists false.
  - wp_step. eapply wpM_mono; [apply try_claim_spec|].
    intros r s1 H1 (b & -> & Hc). destruct b; cbv iota; [|by wp_step; exists false].
    apply try_complete_spec; [by apply Hc|]. intros Hne. apply nonempty_spec in Hne. congruence.
Qed.
End TeardownProofs.

(** C5: a teardown never raises, touches nothing before Waldur let it take the
    deletion on, drops the user only from resources whose report lists them and
    under the identity of that user, releases the account only once every such
    association is gone, and reports the user deleted only after all of that
    succeeded; it answers True only when Waldur accepted the deletion. *)
Theorem teardown_in_order {S} u releases report (s s' : S) τ r τ1 τ2 {X} (c : agentE X) a :
  runs (teardown_offering_user u releases report s) τ (s', r) →
  (∃ b, r = Ok b ∧ (b = true → deletion_accepted u (rev τ))) ∧
  (τ = τ1 ++ Ev c a :: τ2 → teardown_guard u releases report X (rev τ1) c).
Proof.
  intros Hrun. pose proof (teardown_offering_user_spec u releases report s []) as Hspec.
  split; [exact (proj1 (wpM_sound _ _ _ _ _ _ _ Hspec Hrun))|].
  intros Hτ. exact (wpM_call_guard _ _ _ _ _ _ _ _ _ _ _ Hspec Hrun Hτ).
Qed.

(** ** The deletion sweep *)

(** The sweep listed [u], and the report it works on was pulled, strictly, for every
    listed resource that has a backend id. *)
Definition with_backend_ids (listed : list WaldurResource) : list WaldurResource :=
  List.filter (λ r, nonempty (res_backend_id r)) listed.

Definition sweep_of (cfg : processor_config) (u : OfferingUser) (report : resource_report)
    (H : trace agentE) : Prop :=
  (∃ departed, u ∈ departed ∧
     Ev (Waldur (OfferingUsersInStates DEPARTED_OFFERING_USER_STATES)) (Ok departed) ∈ H) ∧
  (∃ listed pulled, report = pulled.*2 ∧
     Ev (Waldur (ResourcesList (handled_resource_states (cfg_capabilities cfg)) None)) (Ok listed)
       ∈ H ∧
     Ev (Backend (PullResources (with_backend_ids listed) false true)) (Ok pulled) ∈ H).

(** Calls that change an account or an association. *)
Definition tears_down {X} (c : agentE X) : bool :=
  match c with
  | Waldur w =>
      match w with
      | OfferingUserSetDeleting _ | OfferingUserSetDeleted _ | OfferingUserSetErrorDeleting _ => true
      | _ => false
      end
  | Backend b => match b with RemoveUser _ _ _ _ => true | _ => false end
  | Username x => match x with ReleaseUsers _ => true | _ => false end
  | _ => false
  end.

Definition sweep_guard (cfg : processor_config) : guard agentE := λ X H c,
  tears_down c = true → ∃ u releases report,
    sweep_of cfg u report H ∧ teardown_guard u releases report X H c.

Lemma resolve_release_spec cfg (G : guard agentE) s H :
  (∀ X H (c : agentE X), username_calls X c = true → tears_down c = false → G X H c) →
  wpM G (release_capable_username_backend cfg) (λ r _ H',
    (∃ b, r = Ok b) ∧ (H' = H ∨ ∃ a, H' = Ev (Username ResolveUsernameBackend) a :: H)) s H.
Proof.
  intros HG. unfold release_capable_username_backend, get_release_capable_username_backend,
    get_username_management_backend. wp_steps.
  destruct (st_release_backend s); [by wp_step; eauto|]. wp_steps.
  destruct (cfg_username_backend cfg); [by wp_steps; eauto|]. wp_steps.
  apply wpM_call; [by apply HG|]. intros [[]|e]; wp_steps; eauto.
Qed.

Lemma process_requested_deletions_spec cfg s :
  wpM (sweep_guard cfg) (process_requested_deletions cfg) (λ r _ _, r = Ok ()) s [].
Proof.
  unfold process_requested_deletions. wp_steps. wp_call as [departed|e]; [|by wp_step].
  destruct departed as [|u0 departed]; [by wp_step|]. wp_steps.
  unfold fetch_offering_resources. wp_step. wp_call as [listed|e]; [|by wp_steps].
  wp_steps. unfold pull_reported. wp_step. wp_call as [pulled|e]; [|by wp_steps].
  wp_steps.
  set (I H := ∀ u, u ∈ u0 :: departed → sweep_of cfg u (pulled.*2) H).
  assert (HI : ∀ X (c : agentE X) a H, I H → I (Ev c a :: H)).
  { intros X c a H Hs u Hu. destruct (Hs u Hu) as [(d & ? & ?) (rs & p & ? & ? & ?)].
    split; [exists d; split; [done|by right]|]. exists rs, p. split_and!; [done|by right..]. }
  apply (wpM_for_each _ _ _ (λ _ _ H', I H')); [|done|].
  - intros xs u s1 H1 [ys Hl] HI1. wp_step. unfold process_offering_user_deletion. wp_steps.
    eapply wpM_mono; [apply resolve_release_spec|].
    { intros X H c _ Ht. unfold sweep_guard. by rewrite Ht. }
    intros r s2 H2 [[releases ->] Hh]. cbv iota.
    assert (HI2 : I H2) by (destruct Hh as [->|[a ->]]; auto).
    eapply (wpM_inv (teardown_guard u releases (pulled.*2)) _ I); [done| |done
      |apply teardown_offering_user_spec|].
    + intros X H c HIH HG Ht. exists u, releases, (pulled.*2). split; [|done]. apply HIH.
      rewrite Hl. apply elem_of_app. right. left.
    + intros r s3 H3 (b & -> & _) HI3. by wp_step.
  - intros u Hu. split; [exists (u0 :: departed)|exists listed, pulled]; (split; [done|]);
      rewrite !elem_of_cons; auto.
Qed.

(** The deletion sweep never raises, and tears down only the accounts Waldur lists
    for deletion, over a report pulled strictly (so that a resource missing from it
    cannot pass for an absent association) for every resource Waldur listed with a
    backend id, each in the order of a teardown. *)
Theorem sweep_tears_down_listed cfg s τ s' r τ1 τ2 {X} (c : agentE X) a :
  runs (process_requested_deletions cfg s) τ (s', r) →
  r = Ok () ∧
  (τ = τ1 ++ Ev c a :: τ2 → tears_down c = true → ∃ u releases report,
     sweep_of cfg u report (rev τ1) ∧ teardown_guard u releases report X (rev τ1) c).
Proof.
  intros Hrun. pose proof (process_requested_deletions_spec cfg s) as Hspec.
  split; [exact (proj1 (wpM_sound _ _ _ _ _ _ _ Hspec Hrun))|].
  intros Hτ. exact (wpM_call_guard _ _ _ _ _ _ _ _ _ _ _ Hspec Hrun Hτ).
Qed.

(** ** Releasing departed users *)

(** Only listed offering users with one of the given names are released. *)
Definition release_guard (usernames : gset string) : guard agentE := λ X H c,
  match c with
  | Username x =>
      match x with
      | ReleaseUsers us => ∃ all, Ev (Waldur OfferingUsersAll) (Ok all) ∈ H ∧
          ∀ u, u ∈ us → u ∈ all ∧ ou_username u ∈ usernames ∧ ou_username u ≠ ""
      | _ => True
      end
  | _ => True
  end.

Lemma release_departed_users_spec cfg usernames s H :
  wpM (release_guard usernames) (release_departed_users cfg usernames) (λ r _ _, r = Ok ()) s H.
Proof.
  unfold release_departed_users. case_decide; [by wp_step|]. wp_step.
  eapply wpM_mono; [apply resolve_release_spec|].
  { intros X H' c _ Ht. destruct c as [? w|? w|? w| | |]; try done. by destruct w. }
  intros r s1 H1 [[releases ->] _]. destruct releases; simpl negb; cbv iota; [|by wp_step].
  wp_steps. wp_call as [all|e]; [|by wp_step]. unfold release_offering_users.
  destruct (List.filter _ all) as [|u us] eqn:Hf; [by wp_step|]. wp_steps. wp_call.
  { exists all. split; [left|]. intros v Hv. rewrite <- Hf in Hv.
    apply list_elem_of_In, List.filter_In in Hv as [Hin Hb].
    rewrite andb_true_iff, nonempty_spec, bool_decide_eq_true in Hb.
    apply list_elem_of_In in Hin. naive_solver. }
  intros [[]|e]; by wp_steps.
Qed.

(** ** Witnesses *)

Definition leaving_user : OfferingUser := sample_user OfferingUserState.REQUESTED_DELETION "alice".

Definition teardown_run : trace agentE :=
  [Ev (Waldur (OfferingUserSetDeleting "ou-1")) (Ok 200);
   Ev (Backend (RemoveUser sample_resource "alice" "" (Some "cuid-1"))) (Ok true);
   Ev (Username (ReleaseUsers [leaving_user])) (Ok ());
   Ev (Waldur (OfferingUserSetDeleted "ou-1")) (Ok 200)].

Lemma teardown_in_order_witness :
  deletion_accepted leaving_user (rev teardown_run) ∧
  teardown_guard leaving_user true [(sample_resource, sample_info ["alice"])] _
    (rev (take 2 teardown_run)) (Username (ReleaseUsers [leaving_user])).
Proof.
  destruct (teardown_in_order leaving_user true [(sample_resource, sample_info ["alice"])]
    initial_state initial_state teardown_run (Ok true) (take 2 teardown_run) (drop 3 teardown_run)
    (Username (ReleaseUsers [leaving_user])) (Ok ())) as [(b & [= <-] & Ha) Hg];
    [solve_runs|]. split; [by apply Ha|by apply Hg].
Defined.

Definition sweep_run : trace agentE :=
  [Ev (Waldur (OfferingUsersInStates DEPARTED_OFFERING_USER_STATES)) (Ok [leaving_user]);
   Ev (Waldur (ResourcesList [ResourceState.OK; ResourceState.ERRED] None)) (Ok [sample_resource]);
   Ev (Backend (PullResources [sample_resource] false true))
      (Ok [("alloc-1", (sample_resource, sample_info ["alice"]))]);
   Ev (Username ResolveUsernameBackend) (Ok ());
   Ev (Waldur (OfferingUserSetDeleting "ou-1")) (Ok 200);
   Ev (Backend (RemoveUser sample_resource "alice" "" (Some "cuid-1")))
      (Err (BackendError "unreachable"));
   Ev (Waldur (OfferingUserSetErrorDeleting "ou-1")) (Ok 200)].

Lemma sweep_tears_down_listed_witness :
  ∃ u releases report, sweep_of sample_config u report (rev (take 5 sweep_run)) ∧
    teardown_guard u releases report _ (rev (take 5 sweep_run))
      (Backend (RemoveUser sample_resource "alice" "" (Some "cuid-1"))).
Proof.
  refine (proj2 (sweep_tears_down_listed sample_config initial_state sweep_run
    (set_release_backend (Some true) initial_state) (Ok ()) (take 5 sweep_run) (drop 6 sweep_run)
    (Backend (RemoveUser sample_resource "alice" "" (Some "cuid-1")))
    (Err (BackendError "unreachable")) _) _ _).
  - solve_runs.
  - reflexivity.
  - reflexivity.
Defined.
