(* ===== verification/Membership.v ===== *)
(** * Membership synchronisation

    [common/processors.py: OfferingMembershipProcessor]: the listings it reads,
    the comparison of a resource's backend users with its Waldur team, the
    synchronisation steps of one resource, and the pass over an offering.

    Python sets are [gset]s; where the code iterates over one, the model
    iterates over its [elements], one of the orders Python may choose. *)

From stdpp Require Import base list strings gmap sets.
From Stdlib Require Import ZArith Lia SpecFloat.
From S2P Require Import Prelude.
From S2P Require Import Structures.
From S2P Require Import Agent.
From S2P Require Import Samples.
From S2P Require Import SpendingLimits.
From S2P Require Import OfferingUsers.
From S2P Require Import BaseProcessor.
From S2P Require Import Orders.
From S2P Require Import ApiKeys.
From S2P Require Import Teardown.

Local Open Scope prog_scope.
Local Open Scope Z_scope.

(** [int(float(limit))]. *)
Definition int_of_float (f : spec_float) : res Z :=
  match f with
  | S754_zero _ => Ok 0
  | S754_finite s m e =>
      let a := Z.shiftl (Zpos m) e in Ok (if s then - a else a)
  | S754_infinity _ => Err (OtherException "cannot convert float infinity to integer")
  | S754_nan => Err (ValueError "cannot convert float NaN to integer")
  end.

(** What the comparison of a resource's users yields. *)
Record grouping : Type := {
  gr_existing : gset string;
  gr_stale : gset string;
  gr_new : gset string;
  gr_roles : gmap string string;
  gr_emails : gmap string string;
  gr_cuids : gmap string string;
  gr_attributes : gmap string (gmap string json);
  gr_states : gmap string OfferingUserState.t;
}.

Definition LISTED_OFFERING_USER_STATES : list OfferingUserState.t :=
  [OfferingUserState.OK; OfferingUserState.REQUESTED; OfferingUserState.CREATING;
   OfferingUserState.ERROR_CREATING; OfferingUserState.PENDING_ACCOUNT_LINKING;
   OfferingUserState.PENDING_ADDITIONAL_VALIDATION].

(** [{key(x) for x in l if key(x)}]. *)
Definition names_of {A} (key : A → string) (l : list A) : gset string :=
  list_to_set (List.filter nonempty (map key l)).

(** [{key(x): value(x) for x in l if key(x) and ...}]. *)
Definition named_values {A V} (key : A → string) (value : A → option V) (l : list A)
  : gmap string V :=
  dict_of (omap (λ x, if nonempty (key x)
                      then match value x with Some v => Some (key x, v) | None => None end
                      else None) l).

Definition nonempty_value (s : string) : option string := if nonempty s then Some s else None.

Section Membership.
Context (cfg : processor_config).
Local Abbreviation caps := (cfg_capabilities cfg).

(** ** Listings *)

Definition listed_offering_users (us : list OfferingUser) : list OfferingUser :=
  List.filter (λ u, bool_decide (ou_state u ∈ LISTED_OFFERING_USER_STATES)) us.

Definition get_waldur_offering_users : proc (list OfferingUser) :=
  let! all := get_cached_offering_users in
  ret (listed_offering_users all).

Definition get_known_offering_usernames : proc (gset string) :=
  let! s := get_st in
  match st_known_usernames s with
  | Some names => ret names
  | None =>
      let! names := waldur OfferingUsernamesAll in
      let known := list_to_set (List.filter nonempty names) in
      modify_st (λ s, set_known (Some known) (st_known_failed s) s) ;!
      ret known
  end.

Definition fetch_consented_team (resource_uuid : string) : proc (list ProjectUser) :=
  waldur (ResourceTeamList resource_uuid (Some true)).

Definition member_key (m : ProjectUser) : option string :=
  match nonempty_value (pu_uuid m) with
  | Some uuid => Some uuid
  | None => nonempty_value (pu_username m)
  end.

Definition merge_team (merged : list (string * ProjectUser)) (team : list ProjectUser)
  : list (string * ProjectUser) :=
  foldl (λ acc m, match member_key m with
                  | Some key => dict_set acc key m
                  | None => acc
                  end) merged team.

Definition get_project_wide_consented_team (r : WaldurResource) : proc (list ProjectUser) :=
  let! listed := attempt (waldur (ProjectResourcesList (res_project_uuid r)
                                    (handled_resource_states caps))) in
  match listed with
  | Err _ => fetch_consented_team (res_uuid r)
  | Ok uuids =>
      let resource_uuids : gset string :=
        list_to_set (List.filter nonempty uuids) ∪ {[res_uuid r]} in
      let! merged := fold_m (elements resource_uuids) (λ merged uuid,
        let! team := attempt (fetch_consented_team uuid) in
        match team with
        | Ok team => ret (merge_team merged team)
        | Err _ => ret merged
        end) [] in
      ret (dict_values merged)
  end.

Definition get_waldur_resource_team (r : WaldurResource) (has_consent : option bool)
  : proc (list ProjectUser) :=
  let! s := get_st in
  match st_team s !! res_project_uuid r with
  | Some team => ret team
  | None =>
      let! team :=
        if bool_decide (has_consent = Some true) && shared_project_membership caps
        then get_project_wide_consented_team r
        else waldur (ResourceTeamList (res_uuid r) has_consent) in
      modify_st (λ s, set_team (<[res_project_uuid r := team]> (st_team s)) s) ;!
      ret team
  end.

(** ** Comparing a resource's users with its team *)

Definition offering_user_states (us : list OfferingUser) : gmap string OfferingUserState.t :=
  named_values ou_username (λ u, Some (ou_state u)) us.

(** The name a member goes by on the backend. *)
Definition sync_name (m : ProjectUser) : string :=
  if identity_bridge caps then pu_username m else pu_offering_user_username m.

(** The name an offering user goes by on the backend. *)
Definition ou_sync_name (u : OfferingUser) : string :=
  if identity_bridge caps then from_option id "" (field_str (ou_user_username u))
  else ou_username u.

(** Stale users minus the accounts the account synchronisation owns; none when
    those cannot be listed. *)
Definition without_accounts (r : WaldurResource) (stale : gset string) : proc (gset string) :=
  if decide (stale = ∅) then ret stale
  else
    let! accounts := attempt (resource_account_usernames cfg r) in
    match accounts with
    | Ok names => ret (stale ∖ names)
    | Err _ => ret ∅
    end.

(** [preserve_unmanaged_backend_users]: only names Waldur knows are removed. *)
Definition only_managed (us : list OfferingUser) (stale : gset string) : proc (gset string) :=
  if decide (stale = ∅) then ret stale
  else if negb (off_preserve_unmanaged_backend_users (cfg_offering cfg) &&
                negb (identity_bridge caps)) then ret stale
  else
    let confirmed := stale ∩ names_of ou_username us in
    let! s := get_st in
    if st_known_failed s then ret confirmed
    else
      let! known := attempt get_known_offering_usernames in
      match known with
      | Ok names => ret (stale ∩ names)
      | Err _ =>
          modify_st (λ s, set_known (st_known_usernames s) true s) ;!
          ret confirmed
      end.

(** The attributes under the names the backend knows. *)
Definition sync_attributes (us : list OfferingUser) (attributes : gmap string (gmap string json))
  : gmap string (gmap string json) :=
  if identity_bridge caps then
    named_values ou_sync_name (λ u,
      if nonempty (ou_username u) then
        match attributes !! ou_username u with
        | Some attrs => if map_truthy attrs then Some attrs else None
        | None => None
        end
      else None) us
  else attributes.

Definition group_resource_usernames (r : WaldurResource) (info : BackendResourceInfo)
    (us : list OfferingUser) : proc grouping :=
  let local : gset string := list_to_set (info_users info) in
  if skip_resource_team_diff caps then
    let! attributes := build_user_attributes_mapping us in
    ret {| gr_existing := local; gr_stale := ∅; gr_new := ∅; gr_roles := ∅; gr_emails := ∅;
           gr_cuids := ∅; gr_attributes := attributes;
           gr_states := offering_user_states us |}
  else
    let! team := get_waldur_resource_team r
                   (if fetch_consented_users_only caps then Some true else None) in
    let members := names_of sync_name team in
    let! stale := without_accounts r (local ∖ members) in
    let! stale := only_managed us stale in
    let! attributes := build_user_attributes_mapping us in
    ret {| gr_existing := members ∩ local; gr_stale := stale; gr_new := members ∖ local;
           gr_roles := named_values sync_name (λ m, nonempty_value (pu_role m)) team;
           gr_emails := named_values ou_sync_name (λ u, field_value (ou_user_email u)) us;
           gr_cuids := named_values sync_name (λ m, nonempty_value (pu_username m)) team;
           gr_attributes := sync_attributes us attributes;
           gr_states := named_values ou_sync_name (λ u, Some (ou_state u)) us |}.

(** ** Steps of one resource *)

Definition report_membership_sync_statuses (r : WaldurResource) : proc unit :=
  if negb (truthy (json_get (res_plugin_options r) "enable_membership_sync_status" JNull))
  then ret ()
  else
    let! report := attempt (backend (GetMembershipSyncReport r)) in
    match report with
    | Ok (Some report) =>
        let! _ := attempt (waldur (ResourceSetMembershipSyncStatuses (res_uuid r) report)) in
        ret ()
    | _ => ret ()
    end.

(** The keywords of a removal. *)
Definition removal_kwargs (g : grouping) : user_kwargs :=
  {| kw_homedir_umask := None; kw_user_roles := gr_roles g; kw_user_emails := ∅;
     kw_user_cuids := gr_cuids g; kw_user_attributes := ∅; kw_user_states := ∅ |}.

Definition addition_kwargs (g : grouping) : user_kwargs :=
  {| kw_homedir_umask := Some (setting cfg "default_homedir_umask" (JStr "0077"));
     kw_user_roles := gr_roles g; kw_user_emails := gr_emails g; kw_user_cuids := gr_cuids g;
     kw_user_attributes := gr_attributes g; kw_user_states := gr_states g |}.

Definition sync_resource_users (r : WaldurResource) (info : BackendResourceInfo)
    (us : list OfferingUser) : proc (gset string) :=
  let! g := group_resource_usernames r info us in
  if res_restrict_member_access r then
    backend (RemoveUsersFromResource r (gr_existing g) (removal_kwargs g)) ;!
    ret ∅
  else
    let! added := backend (AddUsersToResource r (gr_new g) (addition_kwargs g)) in
    let! removed := backend (RemoveUsersFromResource r (gr_stale g) (removal_kwargs g)) in
    release_departed_users cfg (confirmed_removals (gr_stale g) removed) ;!
    backend (ProcessExistingUsers (gr_existing g)) ;!
    backend (ReconcileExistingUserRoles r (gr_existing g) (gr_roles g) (gr_cuids g)) ;!
    let! _ := attempt (sync_key_assignees cfg r us) in
    report_membership_sync_statuses r ;!
    ret (gr_existing g ∪ added).

Definition apply_resource_status (r : WaldurResource) : proc unit :=
  (if res_paused r then backend (PauseResource (res_backend_id r))
   else if res_downscaled r then backend (DownscaleResource (res_backend_id r))
   else backend (RestoreResource (res_backend_id r))) ;!
  ret ().

Definition sync_resource_status (r : WaldurResource) : proc unit :=
  apply_resource_status r ;!
  let! metadata := backend (GetResourceMetadata (res_backend_id r)) in
  match res_backend_metadata r with
  | Null => raise (AttributeError "'NoneType' object has no attribute 'to_dict'")
  | Unset => waldur (ResourceSetBackendMetadata (res_uuid r) metadata)
  | Val current =>
      if metadata_eqb current metadata then ret ()
      else waldur (ResourceSetBackendMetadata (res_uuid r) metadata)
  end.

(** The limits of the rows, by user and component. *)
Fixpoint group_user_limits (rows : list (string * string * spec_float))
    (acc : gmap string (gmap string Z)) : res (gmap string (gmap string Z)) :=
  match rows with
  | [] => Ok acc
  | (user, component, limit) :: rows' =>
      match int_of_float limit with
      | Ok z => group_user_limits rows'
                  (<[user := <[component := z]> (from_option id ∅ (acc !! user))]> acc)
      | Err e => Err e
      end
  end.

Definition set_user_limits (r : WaldurResource) (backend_limits limits : gmap string (gmap string Z))
    (name : string) : proc unit :=
  match limits !! name with
  | Some l => backend (SetResourceUserLimits (res_backend_id r) name l)
  | None =>
      if map_truthy (from_option id ∅ (backend_limits !! name))
      then backend (SetResourceUserLimits (res_backend_id r) name ∅)
      else ret ()
  end.

Definition sync_resource_user_limits (r : WaldurResource) (usernames : gset string) : proc unit :=
  if res_restrict_member_access r then ret ()
  else
    let! backend_limits := backend (GetResourceUserLimits (res_backend_id r)) in
    let! rows := waldur (ComponentUserUsageLimitsList (res_uuid r)) in
    let! limits := of_res (group_user_limits rows ∅) in
    for_each (elements usernames) (λ name,
      let! _ := attempt (set_user_limits r backend_limits limits name) in ret ()).

Definition fetch_source_project (r : WaldurResource) : proc (option project_info) :=
  if negb (requires_source_project caps) then ret None
  else
    let! s := get_st in
    match st_source_project s !! res_project_uuid r with
    | Some project => ret project
    | None =>
        let! listed := attempt (waldur (ProviderProjectsList (res_project_uuid r))) in
        let! project :=
          match listed with
          | Ok [project] => ret (Some project)
          | Ok _ => ret None
          | Err (UnexpectedStatus _ _ _ _) => ret None
          | Err e => raise e
          end in
        modify_st (λ s, set_source_project
                          (<[res_project_uuid r := project]> (st_source_project s)) s) ;!
        ret project
    end.

(** ** Whose error it is *)

Fixpoint parse_urls (urls : list string) : res (list url) :=
  match urls with
  | [] => Ok []
  | u :: urls' =>
      match cfg_parse_url cfg u, parse_urls urls' with
      | Ok p, Ok ps => Ok (p :: ps)
      | Err e, _ => Err e
      | _, Err e => Err e
      end
  end.

Definition is_own_waldur_api_error (e : exn) : proc bool :=
  match e with
  | UnexpectedStatus status error_url _ _ =>
      if negb ((400 <=? status) && (status <? 500)) then ret false
      else if status =? 429 then ret false
      else
        match cfg_own_base cfg with
        | None => ret false
        | Some own =>
            let! error_url := of_res (cfg_parse_url cfg error_url) in
            let! remotes := backend RemoteWaldurBaseUrls in
            let! remotes := of_res (parse_urls remotes) in
            if existsb (url_is_under error_url) remotes then ret false
            else ret (url_is_under error_url own)
        end
  | _ => ret false
  end.

(** [run_step]: [None] when the step was skipped. *)
Definition run_step {A} (m : proc A) : proc (option A) :=
  let! r := attempt m in
  match r with
  | Ok a => ret (Some a)
  | Err e =>
      match e with
      | UnexpectedStatus _ _ _ _ =>
          let! own := is_own_waldur_api_error e in
          if own then ret None else raise e
      | _ => raise e
      end
  end.

Definition skipped {A} (o : option A) : bool := match o with Some _ => false | None => true end.

Definition refresh_last_sync (r : WaldurResource) (partial : bool) : proc unit :=
  if partial then ret ()
  else waldur (ResourceRefreshLastSync (res_uuid r)) ;! ret ().

Definition sync_project (r : WaldurResource) : proc bool :=
  let! project := run_step (fetch_source_project r) in
  match project with
  | None => ret true
  | Some project =>
      let! a := run_step (backend (SyncResourceProject r project)) in
      let! b := run_step (backend (SyncProjectEndDate r project)) in
      ret (skipped a || skipped b)
  end.

(** The steps after the user synchronisation; whether one was skipped. *)
Definition sync_rest (r : WaldurResource) (usernames : option (gset string)) : proc bool :=
  let! a := run_step (sync_resource_service_accounts cfg r) in
  let! b := run_step (sync_resource_course_accounts cfg r) in
  let! c := run_step (sync_resource_status r) in
  let! d := run_step (backend (SyncResourceEndDate r)) in
  let! e := run_step (backend (SyncResourceEffectiveId r)) in
  let! f := run_step (backend (SyncResourceLimits r)) in
  let! g := match usernames with
            | Some names =>
                let! o := run_step (sync_resource_user_limits r names) in ret (skipped o)
            | None => ret false
            end in
  ret (skipped a || skipped b || skipped c || skipped d || skipped e || skipped f || g).

Definition sync_resource (r : WaldurResource) (info : BackendResourceInfo)
    (us : list OfferingUser) : proc unit :=
  let! project_skipped := sync_project r in
  let! users := run_step (sync_resource_users r info us) in
  let! rest_skipped := sync_rest r users in
  refresh_last_sync r (project_skipped || skipped users || rest_skipped) ;!
  (if decide (res_state r = ResourceState.ERRED)
   then waldur (ResourceSetOk (res_uuid r)) ;! ret ()
   else ret ()).

(** [utils.mark_waldur_resources_as_erred] of one resource. *)
Definition mark_waldur_resource_as_erred (r : WaldurResource) (e : exn) : proc unit :=
  let details := format_waldur_error_details (cfg_format_exc cfg) e
                   (cfg_expose_backend_error_details cfg) in
  let! o := attempt (waldur (ResourceSetErred (res_uuid r) details.1 details.2)) in
  match o with
  | Ok _ => ret ()
  | Err (UnexpectedStatus _ _ _ _) | Err (TransportError _) => ret ()
  | Err e' => raise e'
  end.

(** The [except] clause of the loop over the resources. *)
Definition handle_sync_error (r : WaldurResource) (e : exn) : proc unit :=
  if is_transient_waldur_api_error e then ret ()
  else
    let! own := is_own_waldur_api_error e in
    if own : bool then ret () else mark_waldur_resource_as_erred r e.

Definition sync_reported_resource (us : list OfferingUser)
    (ir : nat * (WaldurResource * BackendResourceInfo)) : proc unit :=
  let '(index, (r, info)) := ir in
  (if Nat.eqb (index mod HEARTBEAT_BATCH_SIZE) 0 then touch_heartbeat else ret ()) ;!
  let! o := attempt (sync_resource r info us) in
  match o with
  | Ok _ => ret ()
  | Err e => handle_sync_error r e
  end.

(** ** The pass *)

Definition validate_offering_user_configuration : proc bool :=
  let! options := waldur OfferingPluginOptions in
  if negb (po_service_provider_policy options) then ret true
  else match po_service_provider_can_create options with
       | Val true => ret true
       | _ => ret false
       end.

Definition refresh_local_offering_users : proc (list OfferingUser) :=
  let! r := attempt (
    let! valid := validate_offering_user_configuration in
    if negb valid then ret []
    else
      let! us := get_waldur_offering_users in
      let! p := processor_update_offering_users cfg true us in
      let! updated := of_res p.1 in
      if updated : bool then get_waldur_offering_users else ret p.2) in
  match r with
  | Ok us => ret us
  | Err _ => ret []
  end.

Definition sync_user_profiles_to_backend (us : list OfferingUser) : proc unit :=
  let! b := get_username_management_backend cfg in
  match b with
  | UnknownUsernameBackend => ret ()
  | KnownUsernameBackend _ _ _ => username (SyncUserProfiles us)
  end ;!
  process_requested_deletions cfg.

(** The usernames the backend assigned, if reconciliation is on. *)
Definition reconcile_backend_usernames (us : list OfferingUser) : proc (list OfferingUser) :=
  if off_username_reconciliation_enabled (cfg_offering cfg) then
    let! changed := backend (SyncOfferingUserUsernames (off_uuid (cfg_offering cfg))) in
    if changed : bool then get_waldur_offering_users else ret us
  else ret us.

Definition prepare_offering_users : proc (list OfferingUser) :=
  let! us := refresh_local_offering_users in
  sync_user_profiles_to_backend us ;!
  reconcile_backend_usernames us.

Definition process_resources (report : resource_report) : proc unit :=
  let! us := prepare_offering_users in
  for_each (imap pair report) (sync_reported_resource us).

Definition recreate_missing_resources (rs : list WaldurResource) : proc unit :=
  for_each rs (λ r,
    let! o := attempt (backend (RecreateMissingResource r)) in
    match o with
    | Ok _ => ret ()
    | Err e => mark_waldur_resource_as_erred r e
    end).

Definition reconcile_offering_in_username_backend : proc unit :=
  let! _ := attempt (
    let! b := get_username_management_backend cfg in
    match b with
    | KnownUsernameBackend _ _ true => username ReconcileOffering
    | _ => ret ()
    end) in
  ret ().

Definition process_offering_membership (recreate_missing : bool) : proc unit :=
  let! rs := fetch_offering_resources cfg None in
  (if recreate_missing then recreate_missing_resources rs else ret ()) ;!
  let! report := pull_reported rs false in
  process_resources report ;!
  reconcile_offering_in_username_backend.

Definition process_resource_by_uuid (resource_uuid : string) : proc unit :=
  let! r := waldur (ResourceRetrieve resource_uuid) in
  if negb (bool_decide (res_state r ∈ handled_resource_states caps)) then ret ()
  else
    let! report := pull_reported [r] false in
    match report with
    | [] => ret ()
    | _ => process_resources report
    end.
End Membership.

(** ** Which users are taken for stale *)

Section GroupingProofs.
Context (cfg : processor_config) (r : WaldurResource).
Local Abbreviation caps := (cfg_capabilities cfg).

(** The offering-wide account listings a pass knows, by a cache or by a read. *)
Definition accounts_listed (s : processor_state) (H : trace agentE) (l : list Account) : Prop :=
  ∃ service course, l = service ++ course ∧
    accounts_known SERVICE_ACCOUNT s H service ∧ accounts_known COURSE_ACCOUNT s H course.

(** The accounts the stale users are compared with: none without a service provider. *)
Definition accounts_compared (s : processor_state) (H : trace agentE) (l : list Account) : Prop :=
  if cfg_has_service_provider cfg then accounts_listed s H l else l = [].

(** One of the two listings was asked for and failed. *)
Definition accounts_unlisted (H : trace agentE) : Prop :=
  cfg_has_service_provider cfg = true ∧
  ((∃ e, Ev (Waldur ServiceAccountsList) (Err e) ∈ H) ∨
   (∃ e, Ev (Waldur CourseAccountsList) (Err e) ∈ H)).

(** [x] is a live service or course account of the resource's project. *)
Definition live_account (l : list Account) (x : string) : Prop :=
  ∃ a, a ∈ l ∧ acc_username a = x ∧ x ≠ "" ∧ acc_project_uuid a = res_project_uuid r ∧
       acc_project_uuid a ≠ "" ∧ acc_state a ≠ ServiceAccountState.CLOSED.

(** Unmanaged backend users are to be preserved. *)
Definition preserving : bool :=
  off_preserve_unmanaged_backend_users (cfg_offering cfg) && negb (identity_bridge caps).

(** The usernames Waldur is taken to manage: every username of the offering, as
    remembered or read; the offering users at hand once that listing failed. *)
Definition names_compared (s : processor_state) (us : list OfferingUser) (H : trace agentE)
    (names : gset string) : Prop :=
  if st_known_failed s then names = names_of ou_username us
  else match st_known_usernames s with
       | Some known => names = known
       | None =>
           (∃ l, Ev (Waldur OfferingUsernamesAll) (Ok l) ∈ H ∧
              names = list_to_set (List.filter nonempty l)) ∨
           (∃ e, Ev (Waldur OfferingUsernamesAll) (Err e) ∈ H ∧
              names = names_of ou_username us)
       end.

(** [stale] is exactly what is to be removed of the [absent]: those who are no
    live account and, where unmanaged users are preserved, whom Waldur manages;
    nobody when the accounts could not be listed. *)
Definition stale_among (s : processor_state) (us : list OfferingUser) (H : trace agentE)
    (absent stale : gset string) : Prop :=
  (accounts_unlisted H ∧ stale = ∅) ∨
  ∃ accounts names,
    (absent = ∅ ∨ accounts_compared s H accounts) ∧
    (preserving = true → (∀ x, x ∈ absent → live_account accounts x) ∨
                         names_compared s us H names) ∧
    ∀ x, x ∈ stale ↔ x ∈ absent ∧ ¬ live_account accounts x ∧
                     (preserving = true → x ∈ names).

Lemma elem_of_names_of {A} (key : A → string) l x :
  x ∈ names_of key l ↔ x ≠ "" ∧ ∃ a, a ∈ l ∧ key a = x.
Proof.
  unfold names_of. rewrite elem_of_list_to_set. rewrite list_elem_of_In, List.filter_In.
  rewrite <- list_elem_of_In. change (map key l) with (key <$> l).
  rewrite list_elem_of_fmap, nonempty_spec. naive_solver.
Qed.

(** What the pass knows only grows. *)
Definition grown (H H' : trace agentE) : Prop := ∃ K, H' = K ++ H.

Lemma grown_trans H1 H2 H3 : grown H1 H2 → grown H2 H3 → grown H1 H3.
Proof. intros [K1 ->] [K2 ->]. exists (K2 ++ K1). by rewrite app_assoc. Qed.

Lemma grown_elem_of ev H H' : grown H H' → ev ∈ H → ev ∈ H'.
Proof. intros [K ->] Hin. rewrite elem_of_app. by right. Qed.

Lemma accounts_known_grown ty s H H' l :
  grown H H' → accounts_known ty s H l → accounts_known ty s H' l.
Proof.
  intros Hg. destruct ty; (intros [?|?]; [by left|right; by eapply grown_elem_of]).
Qed.

Lemma accounts_compared_grown s H H' l :
  grown H H' → accounts_compared s H l → accounts_compared s H' l.
Proof.
  unfold accounts_compared. destruct (cfg_has_service_provider cfg); [|done].
  intros Hg (sv & co & -> & H1 & H2). exists sv, co.
  split_and!; [done| |]; eapply accounts_known_grown; eauto.
Qed.

Lemma accounts_unlisted_grown H H' : grown H H' → accounts_unlisted H → accounts_unlisted H'.
Proof.
  intros Hg [? [[e ?]|[e ?]]]; (split; [done|]); [left|right]; exists e; by eapply grown_elem_of.
Qed.

Lemma names_compared_grown s us H H' names :
  grown H H' → names_compared s us H names → names_compared s us H' names.
Proof.
  intros Hg. unfold names_compared. destruct (st_known_failed s); [done|].
  destruct (st_known_usernames s); [done|].
  intros [(l & ? & ->)|(e & ? & ->)]; [left; exists l|right; exists e];
    (split; [by eapply grown_elem_of|done]).
Qed.

Lemma stale_among_grown s us H H' absent stale :
  grown H H' → stale_among s us H absent stale → stale_among s us H' absent stale.
Proof.
  intros Hg [[? ->]|(accounts & names & Ha & Hn & Hx)].
  { left. split; [by eapply accounts_unlisted_grown|done]. }
  right. exists accounts, names. split_and!; [|intros Hp|done].
  - destruct Ha; [by left|right]. by eapply accounts_compared_grown.
  - destruct (Hn Hp); [by left|right]. by eapply names_compared_grown.
Qed.

#[export] Instance live_account_dec l x : Decision (live_account l x).
Proof.
  refine (cast_if (decide (Exists (λ a, acc_username a = x ∧ x ≠ "" ∧
    acc_project_uuid a = res_project_uuid r ∧ acc_project_uuid a ≠ "" ∧
    acc_state a ≠ ServiceAccountState.CLOSED) l))); unfold live_account;
    by rewrite <- Exists_exists.
Defined.

Lemma elem_of_resource_accounts l x :
  x ∈ account_names (λ a, in_project (res_project_uuid r) a &&
        negb (bool_decide (acc_state a = ServiceAccountState.CLOSED))) l ↔ live_account l x.
Proof.
  unfold live_account. rewrite elem_of_account_names. unfold in_project.
  split; intros (a & Ha); exists a; revert Ha;
    rewrite !andb_true_iff, nonempty_spec, String.eqb_eq, negb_true_iff, bool_decide_eq_false;
    naive_solver.
Qed.

Lemma resource_account_usernames_spec s H :
  wpM no_guard (resource_account_usernames cfg r) (λ o s' H',
    grown H H' ∧ st_known_usernames s' = st_known_usernames s ∧
    st_known_failed s' = st_known_failed s ∧
    match o with
    | Ok names => ∃ l, accounts_compared s H' l ∧ ∀ x, x ∈ names ↔ live_account l x
    | Err _ => accounts_unlisted H'
    end) s H.
Proof.
  unfold resource_account_usernames, accounts_compared, accounts_unlisted.
  destruct (cfg_has_service_provider cfg) eqn:Hsp; simpl negb; cbv iota.
  2:{ wp_step. split_and!; [by exists []|done|done|]. exists []. split; [done|].
      intros x. split; [set_solver|]. intros (a & Ha & _). by apply elem_of_nil in Ha. }
  wp_step.
  eapply (wpM_mono _ _ (λ o s' H', grown H H' ∧
    st_known_usernames s' = st_known_usernames s ∧ st_known_failed s' = st_known_failed s ∧
    st_course_accounts s' = st_course_accounts s ∧
    match o with
    | Ok l => accounts_known SERVICE_ACCOUNT s H' l
    | Err _ => ∃ e, Ev (Waldur ServiceAccountsList) (Err e) ∈ H'
    end)).
  { unfold offering_project_service_accounts. wp_steps.
    destruct (st_service_accounts s) eqn:Hc; wp_steps.
    - split_and!; [by exists []|done..|by left].
    - apply wpM_call; [done|]. intros [l|e]; wp_steps; split_and!; try done; try by eexists [_].
      + right. left.
      + exists e. left. }
  intros [service|e] s1 H1 (Hg1 & Hk1 & Hf1 & Hc1 & Ha1); [|by auto 10]. wp_step.
  eapply (wpM_mono _ _ (λ o s' H', grown H1 H' ∧
    st_known_usernames s' = st_known_usernames s ∧ st_known_failed s' = st_known_failed s ∧
    match o with
    | Ok l => accounts_known COURSE_ACCOUNT s H' l
    | Err _ => ∃ e, Ev (Waldur CourseAccountsList) (Err e) ∈ H'
    end)).
  { unfold offering_course_accounts. wp_steps.
    destruct (st_course_accounts s1) eqn:Hc; wp_steps.
    - split_and!; [by exists []|done..|left; congruence].
    - apply wpM_call; [done|]. intros [l|e]; wp_steps; split_and!; try done; try by eexists [_].
      + right. left.
      + exists e. left. }
  intros [course|e] s2 H2 (Hg2 & Hk2 & Hf2 & Ha2);
    (assert (grown H H2) by (by eapply grown_trans)); [|by auto 10]. wp_step.
  split_and!; [done..|]. exists (service ++ course). split; [|apply elem_of_resource_accounts].
  exists service, course. split_and!; [done| |done]. by apply (accounts_known_grown SERVICE_ACCOUNT s H1).
Qed.

Lemma without_accounts_spec stale s H :
  wpM no_guard (without_accounts cfg r stale) (λ o s' H',
    grown H H' ∧ st_known_usernames s' = st_known_usernames s ∧
    st_known_failed s' = st_known_failed s ∧
    ∃ stale', o = Ok stale' ∧ ((accounts_unlisted H' ∧ stale' = ∅) ∨
      ∃ accounts, (stale = ∅ ∨ accounts_compared s H' accounts) ∧
        ∀ x, x ∈ stale' ↔ x ∈ stale ∧ ¬ live_account accounts x)) s H.
Proof.
  unfold without_accounts. case_decide as He.
  { wp_step. subst. split_and!; [by exists []|done|done|]. exists ∅. split; [done|]. right.
    exists []. split; [by left|]. set_solver. }
  wp_steps. eapply wpM_mono; [apply resource_account_usernames_spec|].
  intros [names|e] s1 H1 (Hg & Hk & Hf & Hn); wp_steps; split_and!; try done; eexists;
    (split; [done|]); [right|by left].
  destruct Hn as (l & Hl & Hn). exists l. split; [by right|]. intros x.
  by rewrite elem_of_difference, Hn.
Qed.

Lemma only_managed_spec us stale s H :
  wpM no_guard (only_managed cfg us stale) (λ o s' H', grown H H' ∧
    ∃ stale', o = Ok stale' ∧ ∃ names,
      (preserving = true → stale = ∅ ∨ names_compared s us H' names) ∧
      ∀ x, x ∈ stale' ↔ x ∈ stale ∧ (preserving = true → x ∈ names)) s H.
Proof.
  unfold only_managed. fold preserving. case_decide as He.
  { wp_step. subst. split; [by exists []|]. exists ∅. split; [done|]. exists ∅. set_solver. }
  destruct preserving eqn:Hp; simpl negb; cbv iota.
  2:{ wp_step. split; [by exists []|]. exists stale. split; [done|]. exists ∅.
      split; [done|]. naive_solver. }
  assert (Hconf : ∀ (names : gset string) x,
    x ∈ stale ∩ names ↔ x ∈ stale ∧ (true = true → x ∈ names)) by set_solver.
  cbv zeta. unfold names_compared. wp_steps. destruct (st_known_failed s).
  { wp_step. split; [by exists []|]. eexists. split; [done|]. exists (names_of ou_username us).
    auto. }
  unfold get_known_offering_usernames. wp_steps. destruct (st_known_usernames s) eqn:Hk; wp_steps.
  { split; [by exists []|]. eexists. split; [done|]. eexists. split; [|apply Hconf]. by right. }
  apply wpM_call; [done|]. intros [names|e]; wp_steps; (split; [by eexists [_]|]); eexists;
    (split; [done|]); eexists; (split; [|apply Hconf]); intros _; right; [left|right];
    eexists; (split; [left|done]).
Qed.

(** [m] consented to one of the answered teams. *)
Definition consented (H : trace agentE) (m : ProjectUser) : Prop :=
  ∃ uuid l, m ∈ l ∧ Ev (Waldur (ResourceTeamList uuid (Some true))) (Ok l) ∈ H.

(** Every identified member of [l] is, under the same identifier, one of [team]. *)
Definition represented (l team : list ProjectUser) : Prop :=
  ∀ m key, m ∈ l → member_key m = Some key → ∃ m', m' ∈ team ∧ member_key m' = Some key.

(** The team of the whole project: consented members only, and every identified
    member of the answered team of each of its resources; the resource's own team
    when the resources could not be listed. *)
Definition project_wide_team (H : trace agentE) (team : list ProjectUser) : Prop :=
  (∃ uuids,
     Ev (Waldur (ProjectResourcesList (res_project_uuid r) (handled_resource_states caps)))
        (Ok uuids) ∈ H ∧
     (∀ m, m ∈ team → consented H m) ∧
     ∀ uuid, uuid = res_uuid r ∨ uuid ∈ uuids ∧ uuid ≠ "" →
       (∃ e, Ev (Waldur (ResourceTeamList uuid (Some true))) (Err e) ∈ H) ∨
       (∃ l, Ev (Waldur (ResourceTeamList uuid (Some true))) (Ok l) ∈ H ∧ represented l team)) ∨
  (∃ e, Ev (Waldur (ProjectResourcesList (res_project_uuid r) (handled_resource_states caps)))
           (Err e) ∈ H) ∧
  Ev (Waldur (ResourceTeamList (res_uuid r) (Some true))) (Ok team) ∈ H.

(** Where the team compared with comes from: the one remembered for the project,
    the team of the resource, or, where membership is shared over the project,
    consent-filtered teams of its resources. *)
Definition consent : option bool :=
  if fetch_consented_users_only caps then Some true else None.

Definition team_source (s : processor_state) (H : trace agentE) (team : list ProjectUser) : Prop :=
  match st_team s !! res_project_uuid r with
  | Some remembered => team = remembered
  | None =>
      if fetch_consented_users_only caps && shared_project_membership caps
      then project_wide_team H team
      else Ev (Waldur (ResourceTeamList (res_uuid r) consent)) (Ok team) ∈ H
  end.

Lemma consented_grown H H' m : grown H H' → consented H m → consented H' m.
Proof.
  intros Hg (uuid & l & ? & ?). exists uuid, l. split; [done|]. by eapply grown_elem_of.
Qed.

Lemma project_wide_team_grown H H' team :
  grown H H' → project_wide_team H team → project_wide_team H' team.
Proof.
  intros Hg. pose proof (λ ev, grown_elem_of ev H H' Hg) as Hin.
  intros [(uuids & Hl & Hc & Ht)|[[e He] Ho]]; [left|right; eauto].
  exists uuids. split_and!; [by apply Hin|intros; eapply consented_grown; eauto|].
  intros uuid Hu. destruct (Ht uuid Hu) as [[e He]|(l & Hl' & Hr)]; [left|right]; eauto.
Qed.

Lemma team_source_grown s H H' team :
  grown H H' → team_source s H team → team_source s H' team.
Proof.
  intros Hg. unfold team_source. destruct (_ !! _); [done|]. destruct (_ && _).
  - by apply project_wide_team_grown.
  - by apply grown_elem_of.
Qed.

Lemma merge_team_spec (P : ProjectUser → Prop) team merged :
  (∀ m, m ∈ dict_values merged → P m) → (∀ m, m ∈ team → P m) →
  ∀ m, m ∈ dict_values (merge_team merged team) → P m.
Proof.
  unfold merge_team. revert merged. induction team as [|x team IH]; simpl; intros merged Hm Ht.
  { done. }
  apply IH; [|intros m Hin; apply Ht; by right]. destruct (member_key x); [|done].
  intros m [->|?]%dict_values_set; [apply Ht; left|by apply Hm].
Qed.

(** A team merged so far: each member under its identifier. *)
Definition merged_ok (merged : list (string * ProjectUser)) : Prop :=
  ∀ key m, (key, m) ∈ merged → member_key m = Some key.

(** [key] is taken. *)
Definition has_key (merged : list (string * ProjectUser)) (key : string) : Prop :=
  ∃ m, (key, m) ∈ merged.

Lemma dict_set_has_key (d : list (string * ProjectUser)) k v key :
  key = k ∨ has_key d key → has_key (dict_set d k v) key.
Proof.
  unfold has_key. induction d as [|[k' v'] d IH]; simpl.
  - intros [->|[m Hm]]; [exists v; left|by apply elem_of_nil in Hm].
  - destruct (decide (k = k')) as [->|Hne].
    + intros [->|[m [[= <- <-]|Hm]%elem_of_cons]]; [exists v; left..|exists m; by right].
    + intros [->|[m [[= <- <-]|Hm]%elem_of_cons]].
      * destruct IH as [m Hm]; [by left|]. exists m. by right.
      * eexists. left.
      * destruct IH as [m' Hm']; [right; by exists m|]. exists m'. by right.
Qed.

Lemma merge_team_keys team merged :
  merged_ok merged →
  merged_ok (merge_team merged team) ∧
  (∀ key, has_key merged key → has_key (merge_team merged team) key) ∧
  (∀ m key, m ∈ team → member_key m = Some key → has_key (merge_team merged team) key).
Proof.
  unfold merge_team. revert merged. induction team as [|x team IH]; simpl; intros merged Hm.
  { split_and!; [done..|]. intros m key Hin. by apply elem_of_nil in Hin. }
  destruct (member_key x) as [k|] eqn:Hx.
  - destruct (IH (dict_set merged k x)) as (Hok & Hkeep & Hteam).
    { intros key m [[= <- <-]|?]%elem_of_dict_set; [done|by apply Hm]. }
    split_and!; [done|intros key Hk; apply Hkeep, dict_set_has_key; by right|].
    intros m key [->|Hin]%elem_of_cons Hkey; [|by eapply Hteam].
    apply Hkeep, dict_set_has_key. left. congruence.
  - destruct (IH merged Hm) as (Hok & Hkeep & Hteam). split_and!; [done..|].
    intros m key [->|Hin]%elem_of_cons Hkey; [congruence|by eapply Hteam].
Qed.

Lemma merged_represented merged l :
  merged_ok merged → (∀ m key, m ∈ l → member_key m = Some key → has_key merged key) →
  represented l (dict_values merged).
Proof.
  intros Hok Hk m key Hm Hkey. destruct (Hk m key Hm Hkey) as [m' Hm'].
  exists m'. split; [|by apply Hok]. unfold dict_values. apply list_elem_of_fmap.
  by exists (key, m').
Qed.

Lemma project_wide_team_spec s H :
  wpM no_guard (get_project_wide_consented_team cfg r) (λ o s' H', grown H H' ∧ s' = s ∧
    match o with Ok team => project_wide_team H' team | Err _ => True end) s H.
Proof.
  unfold get_project_wide_consented_team, fetch_consented_team. wp_steps.
  apply wpM_call; [done|]. intros [uuids|e]; wp_steps.
  2:{ apply wpM_call; [done|]. intros [l|e']; (split; [by eexists [_; _]|]); (split; [done|]);
      [|done]. right. split; [exists e; right; left|left]. }
  set (H1 := _ :: H). set (all := elements _).
  apply (wpM_fold_m _ _ _ (λ asked merged s' H', grown H1 H' ∧ s' = s ∧ merged_ok merged ∧
    (∀ m, m ∈ dict_values merged → consented H' m) ∧
    ∀ uuid, uuid ∈ asked →
      (∃ e, Ev (Waldur (ResourceTeamList uuid (Some true))) (Err e) ∈ H') ∨
      (∃ l, Ev (Waldur (ResourceTeamList uuid (Some true))) (Ok l) ∈ H' ∧
         ∀ m key, m ∈ l → member_key m = Some key → has_key merged key))).
  - intros xs uuid merged s1 H2 _ (Hg & -> & Hok & Hm & Hasked). wp_steps.
    apply wpM_call; [done|].
    assert (∀ ev, grown H2 (ev :: H2)) as Hgev by (intros ev; by exists [ev]).
    assert (∀ ev, grown H1 (ev :: H2)) by (intros ev; by eapply grown_trans).
    intros [l|e]; wp_steps.
    + destruct (merge_team_keys l merged Hok) as (Hok' & Hkeep & Hteam).
      split_and!; try done.
      * apply merge_team_spec; [intros m Hin; by eapply consented_grown, Hm|].
        intros m Hin. exists uuid, l. split; [done|left].
      * intros u [Hu| ->%list_elem_of_singleton]%elem_of_app; [|right; exists l; split; [left|done]].
        destruct (Hasked u Hu) as [[e He]|(l' & Hl' & Hk)]; [left; exists e; by right|].
        right. exists l'. split; [by right|]. eauto.
    + split_and!; try done; [intros m Hin; by eapply consented_grown, Hm|].
      intros u [Hu| ->%list_elem_of_singleton]%elem_of_app; [|left; exists e; left].
      destruct (Hasked u Hu) as [[e' He]|(l' & Hl' & Hk)]; [left; exists e'; by right|].
      right. exists l'. split; [by right|done].
  - intros merged s1 H2 (Hg & -> & Hok & Hm & Hasked). wp_step.
    split_and!; [by eapply grown_trans; [eexists [_]|]|done|]. left. exists uuids.
    split_and!; [eapply grown_elem_of; [exact Hg|left]|done|].
    intros uuid Hu. destruct (Hasked uuid) as [?|(l & Hl & Hk)].
    { unfold all. rewrite elem_of_elements, elem_of_union, elem_of_singleton, elem_of_list_to_set.
      rewrite list_elem_of_In, List.filter_In, <- list_elem_of_In, nonempty_spec. naive_solver. }
    { by left. }
    right. exists l. split; [done|]. by apply merged_represented.
  - split_and!; [by exists []|done|intros k m Hin; by apply elem_of_nil in Hin
      |intros m Hin; by apply elem_of_nil in Hin|intros u Hin; by apply elem_of_nil in Hin].
Qed.

Lemma resource_team_spec s H :
  wpM no_guard (get_waldur_resource_team cfg r consent) (λ o s' H', grown H H' ∧
    (∃ teams, s' = set_team teams s) ∧
    match o with Ok team => team_source s H' team | Err _ => True end) s H.
Proof.
  assert (Hid : ∃ teams, s = set_team teams s) by (exists (st_team s); by destruct s).
  unfold get_waldur_resource_team, team_source. wp_steps.
  destruct (st_team s !! res_project_uuid r) as [team|] eqn:Hc.
  { wp_step. split; [by exists []|]. done. }
  wp_steps. unfold consent. destruct (fetch_consented_users_only _); simpl; cbv iota.
  - destruct (shared_project_membership _).
    + eapply wpM_mono; [apply project_wide_team_spec|].
      intros [team|e] s1 H1 (Hg & -> & Ht); [|done]. wp_steps. eauto.
    + apply wpM_call; [done|]. intros [team|e]; wp_steps; (split; [by eexists [_]|]); [|done].
      split; [eauto|left].
  - apply wpM_call; [done|]. intros [team|e]; wp_steps; (split; [by eexists [_]|]); [|done].
    split; [eauto|left].
Qed.

Lemma attributes_step us s H :
  wpM no_guard (build_user_attributes_mapping us) (λ _ _ H', grown H H') s H.
Proof.
  eapply calls_wpM; [apply build_user_attributes_mapping_calls|done|]. intros o s' K _. by exists K.
Qed.

(** What the comparison may answer, given what the pass knows. *)
Definition grouping_sound (info : BackendResourceInfo) (us : list OfferingUser)
    (s : processor_state) (H : trace agentE) (g : grouping) : Prop :=
  let local : gset string := list_to_set (info_users info) in
  if skip_resource_team_diff caps then
    gr_existing g = local ∧ gr_stale g = ∅ ∧ gr_new g = ∅
  else
    ∃ team, team_source s H team ∧
      let members := names_of (sync_name cfg) team in
      gr_existing g = members ∩ local ∧ gr_new g = members ∖ local ∧
      stale_among s us H (local ∖ members) (gr_stale g).

Lemma group_resource_usernames_spec info us s H :
  wpM no_guard (group_resource_usernames cfg r info us) (λ o _ H', grown H H' ∧
    match o with Ok g => grouping_sound info us s H' g | Err _ => True end) s H.
Proof.
  unfold group_resource_usernames, grouping_sound. cbv zeta.
  destruct (skip_resource_team_diff caps) eqn:Hskip.
  { wp_step. eapply wpM_mono; [apply attributes_step|].
    intros [a|e] s1 H1 Hg; [|done]. by wp_step. }
  fold consent. wp_step. eapply wpM_mono; [apply resource_team_spec|].
  intros [team|e] s1 H1 (Hg1 & [teams ->] & Ht); [|done]. wp_steps.
  eapply wpM_mono; [apply without_accounts_spec|].
  intros o s2 H2 (Hg2 & Hk2 & Hf2 & stale1 & -> & Hacc). cbn beta iota. wp_step.
  eapply wpM_mono; [apply only_managed_spec|].
  intros o s3 H3 (Hg3 & stale2 & -> & names & Hnames & Hman). cbn beta iota. wp_step.
  eapply wpM_mono; [apply attributes_step|].
  intros [attributes|e] s4 H4 Hg4;
    (split; [by repeat (eapply grown_trans; [eassumption|])|]); [|done].
  exists team. cbn [gr_existing gr_new gr_stale].
  split_and!; try done.
  { eapply team_source_grown; [|exact Ht]. eauto using grown_trans. }
  eapply stale_among_grown; [exact Hg4|].
  destruct Hacc as [[Hu ->]|(accounts & Ha & Hx)]; [left|right; exists accounts, names].
  { split; [by eapply accounts_unlisted_grown|set_solver]. }
  split_and!; [destruct Ha; [by left|right; by eapply accounts_compared_grown]| |].
  - intros Hp. destruct (Hnames Hp) as [Hs|Hc].
    + left. intros x Hin. destruct (decide (live_account accounts x)); [done|]. set_solver.
    + right. unfold names_compared in *. by rewrite Hk2, Hf2 in Hc.
  - intros x. rewrite Hman, Hx. tauto.
Qed.
End GroupingProofs.

(** The comparison of a resource's backend users with its team takes for new the
    members missing on the backend and for stale exactly the users of the backend
    who are no members of the team Waldur answered, less the live service and
    course accounts of the project and, where unmanaged backend users are
    preserved, less the usernames Waldur does not manage (nobody when the accounts
    cannot be listed); a backend that opts
    out of the comparison gets no user added or removed. *)
Theorem stale_users_grouped cfg r info us s τ s' g :
  runs (group_resource_usernames cfg r info us s) τ (s', Ok g) →
  grouping_sound cfg r info us s (rev τ) g.
Proof.
  intros Hrun. pose proof (group_resource_usernames_spec cfg r info us s []) as Hspec.
  exact (proj2 (proj1 (wpM_sound _ _ _ _ _ _ _ Hspec Hrun))).
Qed.

(** ** Who is added, removed and released *)

(** Calls that leave the users of a resource and their accounts alone. *)
Definition leaves_users : ∀ X, agentE X → bool := λ X c,
  match c with
  | Backend b =>
      match b with
      | AddUsersToResource _ _ _ | RemoveUsersFromResource _ _ _ => false
      | _ => true
      end
  | Username x => match x with ReleaseUsers _ => false | _ => true end
  | _ => true
  end.

Section UserSync.
Context (cfg : processor_config) (r : WaldurResource) (info : BackendResourceInfo)
  (us : list OfferingUser) (s0 : processor_state).

Definition users_guard : guard agentE := λ X H c,
  match c with
  | Backend b =>
      match b with
      | AddUsersToResource r' users kw => r' = r ∧ res_restrict_member_access r = false ∧
          ∃ g, grouping_sound cfg r info us s0 H g ∧ users = gr_new g ∧ kw = addition_kwargs cfg g
      | RemoveUsersFromResource r' users kw => r' = r ∧
          ∃ g, grouping_sound cfg r info us s0 H g ∧ kw = removal_kwargs g ∧
            users = if res_restrict_member_access r then gr_existing g else gr_stale g
      | _ => True
      end
  | Username x =>
      match x with
      | ReleaseUsers released => res_restrict_member_access r = false ∧
          ∃ g removed, grouping_sound cfg r info us s0 H g ∧
            Ev (Backend (RemoveUsersFromResource r (gr_stale g) (removal_kwargs g))) (Ok removed) ∈ H ∧
            ∀ u, u ∈ released → ou_username u ≠ "" ∧
              ou_username u ∈ confirmed_removals (gr_stale g) removed
      | _ => True
      end
  | _ => True
  end.

Lemma leaves_users_guard X H (c : agentE X) : leaves_users X c = true → users_guard X H c.
Proof. destruct c as [? w|? b|? x| | |]; try done; [by destruct b|by destruct x]. Qed.

Lemma grouping_sound_grown H H' g :
  grown H H' → grouping_sound cfg r info us s0 H g → grouping_sound cfg r info us s0 H' g.
Proof.
  intros Hg. unfold grouping_sound. destruct (skip_resource_team_diff _); [done|].
  intros (team & Ht & He & Hn & Hs). exists team. split_and!; try done.
  - by eapply team_source_grown.
  - by eapply stale_among_grown.
Qed.

Lemma project_wide_calls : calls leaves_users (get_project_wide_consented_team cfg r).
Proof. unfold get_project_wide_consented_team, fetch_consented_team. calls_auto. Qed.
#[local] Hint Resolve project_wide_calls : calls.

Lemma grouping_calls : calls leaves_users (group_resource_usernames cfg r info us).
Proof.
  unfold group_resource_usernames, get_waldur_resource_team, without_accounts,
    resource_account_usernames, offering_project_service_accounts, offering_course_accounts,
    only_managed, get_known_offering_usernames, build_user_attributes_mapping,
    get_exposed_fields, build_offering_user_fields, fetch_offering_user_fields.
  calls_auto.
Qed.

Lemma membership_report_calls : calls (S:=processor_state) leaves_users (report_membership_sync_statuses r).
Proof. unfold report_membership_sync_statuses. calls_auto. Qed.

Lemma assignees_calls : calls (S:=processor_state) leaves_users (sync_key_assignees cfg r us).
Proof. unfold sync_key_assignees, list_all_api_keys. calls_auto. Qed.
#[local] Hint Resolve membership_report_calls assignees_calls : calls.

Lemma leaves_step {A} (m : proc A) Q s H :
  calls leaves_users m → (∀ o s' H', grown H H' → Q o s' H') → wpM users_guard m Q s H.
Proof.
  intros Hm HQ. eapply calls_wpM; [exact Hm|intros ???; apply leaves_users_guard|].
  intros o s' K _. apply HQ. by exists K.
Qed.

Definition touches_users : ∀ X, agentE X → bool := λ X c,
  match c with
  | Waldur w => match w with OfferingUsersAll => true | _ => false end
  | Username x => match x with ReleaseUsers _ | ResolveUsernameBackend => true | _ => false end
  | _ => false
  end.

Lemma release_departed_calls names : calls touches_users (release_departed_users cfg names).
Proof.
  unfold release_departed_users, release_capable_username_backend,
    get_release_capable_username_backend, get_username_management_backend,
    release_offering_users.
  calls_auto.
Qed.

(** A release keeps to the guard when what it releases was confirmed. *)
Lemma release_step g removed s H :
  res_restrict_member_access r = false → grouping_sound cfg r info us s0 H g →
  Ev (Backend (RemoveUsersFromResource r (gr_stale g) (removal_kwargs g))) (Ok removed) ∈ H →
  wpM users_guard (release_departed_users cfg (confirmed_removals (gr_stale g) removed))
    (λ o _ H', o = Ok () ∧ grown H H') s H.
Proof.
  intros Hr Hg Hev.
  eapply (wpM_inv _ _ (grown H)); [| |by exists []|apply wpM_footprint;
    [apply release_departed_calls|apply release_departed_users_spec]|by eauto].
  { intros X c a H' [K ->]. by exists (Ev c a :: K). }
  intros X H' c HH' [Ht Hrel].
  destruct c as [? w|? b|? x| | |]; try done.
  destruct x; try done. destruct Hrel as (all & _ & Hrel).
  split; [done|]. exists g, removed. split_and!.
  - by eapply grouping_sound_grown.
  - by eapply grown_elem_of.
  - intros u Hu. by destruct (Hrel u Hu) as (_ & ? & ?).
Qed.

(** What a synchronisation of the users may answer. *)
Definition users_synced (H : trace agentE) (names : gset string) : Prop :=
  ∃ g, grouping_sound cfg r info us s0 H g ∧
  if res_restrict_member_access r then names = ∅ ∧ ∃ removed,
    Ev (Backend (RemoveUsersFromResource r (gr_existing g) (removal_kwargs g))) (Ok removed) ∈ H
  else ∃ added removed,
    Ev (Backend (AddUsersToResource r (gr_new g) (addition_kwargs cfg g))) (Ok added) ∈ H ∧
    Ev (Backend (RemoveUsersFromResource r (gr_stale g) (removal_kwargs g))) (Ok removed) ∈ H ∧
    names = gr_existing g ∪ added.

Lemma sync_resource_users_spec :
  wpM users_guard (sync_resource_users cfg r info us) (λ o _ H',
    match o with Ok names => users_synced H' names | Err _ => True end) s0 [].
Proof.
  unfold sync_resource_users, users_synced. wp_step.
  eapply (wpM_inv _ _ (λ _, True)); [done| |done|apply wpM_footprint;
    [apply grouping_calls|apply group_resource_usernames_spec]|].
  { intros X H c _ [Hc _]. by apply leaves_users_guard. }
  intros [g|e] s1 H1 [_ Hg] _; [|done].
  destruct (res_restrict_member_access r) eqn:Hr.
  { wp_step. apply wpM_call; [split; [done|]; exists g; by rewrite Hr|].
    intros [x|e]; wp_steps; [|done]. exists g. split; [|split; [done|exists x; left]].
    eapply grouping_sound_grown; [by eexists [_]|done]. }
  wp_step. apply wpM_call; [split_and!; [done..|]; by exists g|].
  intros [added|e]; [|done]. wp_step. cbv beta iota.
  set (H2 := _ :: H1). assert (grown H1 H2) by (by eexists [_]).
  apply wpM_call.
  { split; [done|]. exists g. rewrite Hr. split; [by eapply grouping_sound_grown|done]. }
  intros [removed|e]; [|done]. wp_step. set (H3 := _ :: H2).
  assert (grown H2 H3) by (by eexists [_]).
  assert (grouping_sound cfg r info us s0 H3 g)
    by (do 2 (eapply grouping_sound_grown; [eassumption|]); done).
  eapply wpM_mono; [apply release_step; [done|done|left]|]. intros o s4 H5 [-> HH5]. cbv iota.
  do 3 (wp_step; apply leaves_step; [solve [calls_auto]|];
    intros [?|e] ? ? ?; [|done]).
  wp_steps. apply leaves_step; [solve [calls_auto]|]. intros [?|e] s5 Hn HHn; [|done]. wp_step.
  exists g. assert (grown H3 Hn) by (by repeat (eapply grown_trans; [eassumption|])).
  split; [by eapply grouping_sound_grown|]. exists added, removed.
  split_and!; [eapply grown_elem_of; [eassumption|]..|done]; [right; left|left].
Qed.
End UserSync.

(** C6: a synchronisation of a resource's users adds exactly the new members and removes
    exactly the stale users of a sound comparison, with the keywords it derives
    from it: the users of the backend who are no members of the answered team,
    less the live service and course accounts of the project and, where unmanaged
    backend users are preserved, less those Waldur does not manage (and nobody
    when the accounts cannot be listed); both calls are made and answered before
    it succeeds; it releases only accounts of stale users whose removal the backend
    answered for; a resource with restricted access gets nobody added or
    released and loses the members it has; the names it answers are the members
    present before and those the backend added. *)
Theorem users_synchronised cfg r info us s τ s' o τ1 τ2 {X} (c : agentE X) a :
  runs (sync_resource_users cfg r info us s) τ (s', o) →
  (∀ names, o = Ok names → users_synced cfg r info us s (rev τ) names) ∧
  (τ = τ1 ++ Ev c a :: τ2 → users_guard cfg r info us s X (rev τ1) c).
Proof.
  intros Hrun. pose proof (sync_resource_users_spec cfg r info us s) as Hspec. split.
  - intros names ->. exact (proj1 (wpM_sound _ _ _ _ _ _ _ Hspec Hrun)).
  - intros Hτ. exact (wpM_call_guard _ _ _ _ _ _ _ _ _ _ _ Hspec Hrun Hτ).
Qed.

(** ** Whose failure marks a resource *)

(** Calls of a synchronisation step: neither the examination of an error nor a
    verdict on the resource. *)
Definition step_calls : ∀ X, agentE X → bool := λ X c,
  match c with
  | Backend b => match b with RemoteWaldurBaseUrls => false | _ => true end
  | Waldur w =>
      match w with
      | ResourceRefreshLastSync _ | ResourceSetOk _ | ResourceSetErred _ _ _ => false
      | _ => true
      end
  | _ => true
  end.

(** Some step failed with an error whose origin the pass looked up. *)
Definition examined (H : trace agentE) : Prop :=
  ∃ remotes, Ev (Backend RemoteWaldurBaseUrls) (Ok remotes) ∈ H.

Definition unexamined (H : trace agentE) : Prop :=
  ∀ a, Ev (Backend RemoteWaldurBaseUrls) a ∉ H.

(** [e] did not come from the agent's own Waldur: it is no client error of an API,
    there is no own base URL, or it came from elsewhere. *)
Definition not_own (cfg : processor_config) (e : exn) (H : trace agentE) : Prop :=
  match e with
  | UnexpectedStatus status error_url _ _ =>
      400 <= status < 500 → status ≠ 429 → ∀ own, cfg_own_base cfg = Some own →
      ∃ target remotes bases, cfg_parse_url cfg error_url = Ok target ∧
        Ev (Backend RemoteWaldurBaseUrls) (Ok remotes) ∈ H ∧ parse_urls cfg remotes = Ok bases ∧
        (existsb (url_is_under target) bases = true ∨ url_is_under target own = false)
  | _ => True
  end.

Section StepProofs.
Context (cfg : processor_config).

Lemma source_project_calls r : calls step_calls (fetch_source_project cfg r).
Proof. unfold fetch_source_project. calls_auto. Qed.

Lemma project_wide_step_calls r : calls step_calls (get_project_wide_consented_team cfg r).
Proof. unfold get_project_wide_consented_team, fetch_consented_team. calls_auto. Qed.
#[local] Hint Resolve source_project_calls project_wide_step_calls : calls.

Lemma grouping_step_calls r info us :
  calls step_calls (group_resource_usernames cfg r info us).
Proof.
  assert (calls step_calls (build_user_attributes_mapping us)) by weaken_calls.
  unfold group_resource_usernames, get_waldur_resource_team, without_accounts,
    resource_account_usernames, offering_project_service_accounts, offering_course_accounts,
    only_managed, get_known_offering_usernames.
  calls_auto.
Qed.

Lemma release_departed_step_calls names : calls step_calls (release_departed_users cfg names).
Proof.
  eapply calls_mono; [|apply release_departed_calls].
  intros X c; destruct c as [? w|? b|? x| | |]; [by destruct w|..]; done.
Qed.
#[local] Hint Resolve grouping_step_calls release_departed_step_calls : calls.

Lemma resource_users_calls r info us : calls step_calls (sync_resource_users cfg r info us).
Proof.
  unfold sync_resource_users, sync_key_assignees, list_all_api_keys,
    report_membership_sync_statuses.
  calls_auto.
Qed.

Lemma resource_status_calls r : calls (S:=processor_state) step_calls (sync_resource_status r).
Proof. unfold sync_resource_status, apply_resource_status. calls_auto. Qed.

Lemma user_limits_calls r names :
  calls (S:=processor_state) step_calls (sync_resource_user_limits r names).
Proof. unfold sync_resource_user_limits, set_user_limits. calls_auto. Qed.

Lemma account_step_calls r :
  calls step_calls (sync_resource_service_accounts cfg r) ∧
  calls step_calls (sync_resource_course_accounts cfg r).
Proof.
  split; (eapply calls_mono; [|apply sync_accounts_calls]);
    intros X c; destruct c as [? w|? b|? x| | |]; try done; by (destruct w || destruct b).
Qed.

Lemma own_error_spec (G : guard agentE) e s H :
  (∀ H, G _ H (Backend RemoteWaldurBaseUrls)) →
  wpM G (is_own_waldur_api_error cfg e) (λ o s' H', grown H H' ∧ match o with
    | Ok own => if own : bool then examined H' else not_own cfg e H'
    | Err _ => True
    end) s H.
Proof.
  intros HG. unfold is_own_waldur_api_error, not_own.
  destruct e as [status error_url content text| | | | | | | | | | | | | | | | | | | | | | | | | | | | | |];
    try (wp_step; split; [by exists []|done]).
  destruct (andb _ _) eqn:Hb; simpl negb; cbv iota.
  2:{ wp_step. split; [by exists []|]. rewrite andb_false_iff in Hb. lia. }
  destruct (Z.eqb_spec status 429). { wp_step. by split; [exists []|]. }
  destruct (cfg_own_base cfg) as [own|]. 2:{ wp_step. by split; [exists []|]. }
  wp_steps. destruct (cfg_parse_url cfg error_url) as [target|] eqn:Ht;
    [|by wp_steps; split; [exists []|]].
  wp_steps. apply wpM_call; [apply HG|].
  intros [remotes|x]; [|by split; [eexists [_]|]]. wp_step.
  destruct (parse_urls cfg remotes) as [bases|x] eqn:Hp; [|by wp_step; split; [eexists [_]|]].
  wp_step. destruct (existsb _ _) eqn:He; wp_step; (split; [by eexists [_]|]).
  - intros _ _ own' [= <-]. exists target, remotes, bases. split_and!; auto. left.
  - destruct (url_is_under target own) eqn:Hu; [exists remotes; left|].
    intros _ _ own' [= <-]. exists target, remotes, bases. split_and!; auto. left.
Qed.

(** The verdicts on one resource while it is synchronised. *)
Definition sync_guard (r : WaldurResource) : guard agentE := λ X H c,
  match c with
  | Waldur w =>
      match w with
      | ResourceRefreshLastSync uuid => uuid = res_uuid r ∧ unexamined H
      | ResourceSetOk uuid => uuid = res_uuid r ∧ res_state r = ResourceState.ERRED
      | ResourceSetErred _ _ _ => False
      | _ => True
      end
  | _ => True
  end.

Lemma step_calls_guard r X H (c : agentE X) : step_calls X c = true → sync_guard r X H c.
Proof. destruct c as [? w|? b|? x| | |]; try done. by destruct w. Qed.

Lemma examined_grown H H' : grown H H' → examined H → examined H'.
Proof. intros Hg [remotes ?]. exists remotes. by eapply grown_elem_of. Qed.

Lemma unexamined_app K H : all_calls step_calls K → unexamined H → unexamined (K ++ H).
Proof.
  intros HK HH a [Hin|Hin]%elem_of_app; [|by eapply HH].
  unfold all_calls in HK. rewrite Forall_forall in HK. by apply HK in Hin.
Qed.

(** [partial]: some step was skipped. *)
Definition progress (partial : bool) (H H' : trace agentE) : Prop :=
  grown H H' ∧ if partial then examined H' else unexamined H → unexamined H'.

Lemma progress_trans b1 b2 H1 H2 H3 :
  progress b1 H1 H2 → progress b2 H2 H3 → progress (b1 || b2) H1 H3.
Proof.
  intros [Hg1 H1'] [Hg2 H2']. split; [by eapply grown_trans|].
  destruct b1; simpl; [by eapply examined_grown|]. destruct b2; auto.
Qed.

Lemma run_step_spec {A} r (m : proc A) s H :
  calls step_calls m →
  wpM (sync_guard r) (run_step cfg m) (λ o _ H',
    match o with Ok x => progress (skipped x) H H' | Err _ => True end) s H.
Proof.
  intros Hm. unfold run_step. wp_steps.
  eapply calls_wpM; [exact Hm|intros ???; apply step_calls_guard|].
  intros o s' K HK. cbv beta iota.
  destruct o as [x|e]; [wp_step; split; [by exists K|simpl; by apply unexamined_app]|].
  destruct e; try (by wp_step). wp_step. eapply wpM_mono; [by apply own_error_spec|].
  intros [[]|e] s2 H2 [Hg Ho]; [|by wp_step|done]; wp_step.
  split; [|done]. eapply grown_trans; [by exists K|done].
Qed.

Lemma progress_step {A} r (m : proc A) {B} (f : option A → proc B) (Q : res B → processor_state → trace agentE → Prop) s H :
  calls step_calls m → (∀ e s' H', Q (Err e) s' H') →
  (∀ x s' H', progress (skipped x) H H' → wpM (sync_guard r) (f x) Q s' H') →
  wpM (sync_guard r) (bind (run_step cfg m) f) Q s H.
Proof.
  intros Hm He Hf. wp_step. eapply wpM_mono; [by apply run_step_spec|].
  intros [x|e] s' H' Hp; auto.
Qed.

Definition progressed (o : res bool) (H H' : trace agentE) : Prop :=
  match o with Ok partial => progress partial H H' | Err _ => True end.

Lemma sync_project_spec r s H :
  wpM (sync_guard r) (sync_project cfg r) (λ o _ H', progressed o H H') s H.
Proof.
  unfold sync_project. apply progress_step; [apply source_project_calls|done|].
  intros [project|] s1 H1 Hp1; [|by wp_step].
  apply progress_step; [solve [calls_auto]|done|]. intros a s2 H2 Hp2.
  apply progress_step; [solve [calls_auto]|done|]. intros b s3 H3 Hp3. wp_step.
  eapply (progress_trans false); [exact Hp1|]. by eapply progress_trans.
Qed.

Lemma sync_rest_spec r names s H :
  wpM (sync_guard r) (sync_rest cfg r names) (λ o _ H', progressed o H H') s H.
Proof.
  destruct (account_step_calls r) as [Hsc Hcc]. pose proof (resource_status_calls r) as Hst.
  unfold sync_rest.
  do 6 (apply progress_step; [solve [done|calls_auto]|done|]; intros ? ? ? ?).
  assert (Hall : ∀ g H6, progress g H'4 H6 → progress
    (skipped x || skipped x0 || skipped x1 || skipped x2 || skipped x3 || skipped x4 || g) H H6)
    by (intros; repeat (eapply progress_trans; [|eassumption]); done).
  destruct names as [names|].
  - wp_step. apply progress_step; [apply user_limits_calls|done|]. intros g s7 H7 Hp7.
    wp_steps. by apply Hall.
  - wp_steps. apply Hall. by split; [exists []|].
Qed.

Definition refreshed (r : WaldurResource) (H : trace agentE) : Prop :=
  ∃ status, Ev (Waldur (ResourceRefreshLastSync (res_uuid r))) (Ok status) ∈ H.

(** The synchronisation ended with the verdict Waldur accepted, where one was due. *)
Definition recovered (r : WaldurResource) (H : trace agentE) : Prop :=
  res_state r = ResourceState.ERRED →
  ∃ status H', H = Ev (Waldur (ResourceSetOk (res_uuid r))) (Ok status) :: H'.

Lemma sync_resource_spec r info us s :
  wpM (sync_guard r) (sync_resource cfg r info us) (λ o _ H', match o with
    | Ok _ => (refreshed r H' ∨ examined H') ∧ recovered r H'
    | Err _ => True end) s [].
Proof.
  unfold sync_resource. wp_step. eapply wpM_mono; [apply sync_project_spec|].
  intros [p|e] s1 H1 Hp1; [|done]. cbv iota.
  apply progress_step; [apply resource_users_calls|done|]. intros users s2 H2 Hp2.
  wp_step. eapply wpM_mono; [apply sync_rest_spec|]. intros [q|e] s3 H3 Hp3; [|done]. cbv iota.
  assert (Hp : progress (p || skipped users || q) [] H3)
    by (by repeat (eapply progress_trans; [|eassumption])).
  destruct Hp as [_ Hp]. wp_step.
  assert (Hend : ∀ H4, refreshed r H4 ∨ examined H4 → wpM (sync_guard r)
    (if decide (res_state r = ResourceState.ERRED)
     then waldur (ResourceSetOk (res_uuid r)) ;! ret () else ret ())
    (λ o _ H', match o with Ok _ => (refreshed r H' ∨ examined H') ∧ recovered r H'
                          | Err _ => True end) s3 H4).
  { intros H4 Ho. case_decide as Hs; [|by wp_step; split; [|intros ?]]. wp_step. apply wpM_call; [done|].
    intros [status|e]; [|done]. wp_step. split; [|by intros _; exists status, H4].
    destruct Ho as [(st & ?)|Ho]; [left; exists st; by right|].
    right. eapply examined_grown; [|exact Ho]. by eexists [_]. }
  unfold refresh_last_sync. destruct (p || skipped users || q).
  - wp_step. apply Hend. by right.
  - wp_step. apply wpM_call; [split; [done|]; apply Hp; intros a Ha; by apply elem_of_nil in Ha|].
    intros [status|e]; [|done]. wp_step. apply Hend. left. exists status. left.
Qed.

(** *** The pass *)

(** The synchronisation of [r], one of the pulled resources, ended in an error that is
    neither transient nor the agent's own Waldur's. *)
Definition failed_sync (us : list OfferingUser) (r : WaldurResource) (info : BackendResourceInfo)
    (e : exn) (H : trace agentE) : Prop :=
  is_transient_waldur_api_error e = false ∧ not_own cfg e H ∧
  ∃ s s' τ H0 H1, runs (sync_resource cfg r info us s) τ (s', Err e) ∧
    H = H1 ++ rev τ ++ H0.

Definition pass_guard (report : resource_report) : guard agentE := λ X H c,
  match c with
  | Waldur w =>
      match w with
      | ResourceSetErred uuid message traceback =>
          ∃ us r info e, (r, info) ∈ report ∧ uuid = res_uuid r ∧ failed_sync us r info e H ∧
            (message, traceback) = format_waldur_error_details (cfg_format_exc cfg) e
                                     (cfg_expose_backend_error_details cfg)
      | _ => True
      end
  | _ => True
  end.

Definition no_erred : ∀ X, agentE X → bool := λ X c,
  match c with
  | Waldur w => match w with ResourceSetErred _ _ _ => false | _ => true end
  | _ => true
  end.

Lemma no_erred_guard report X H (c : agentE X) : no_erred X c = true → pass_guard report X H c.
Proof. destruct c as [? w|? b|? x| | |]; try done. by destruct w. Qed.

Lemma step_no_erred {S A} (m : M agentE S A) : calls step_calls m → calls no_erred m.
Proof.
  apply calls_mono. intros X c; destruct c as [? w|? b|? x| | |]; try done. by destruct w.
Qed.

Lemma own_error_no_erred e : calls (S:=processor_state) no_erred (is_own_waldur_api_error cfg e).
Proof. unfold is_own_waldur_api_error. calls_auto. Qed.
#[local] Hint Resolve own_error_no_erred : calls.

Lemma run_step_no_erred {A} (m : proc A) : calls step_calls m → calls no_erred (run_step cfg m).
Proof. intros Hm%step_no_erred. unfold run_step. calls_auto. Qed.

#[local] Hint Resolve run_step_no_erred resource_users_calls resource_status_calls
  user_limits_calls : calls.
#[local] Hint Extern 5 (calls _ (backend _)) => apply calls_call; reflexivity : calls.

Lemma sync_resource_no_erred r info us : calls no_erred (sync_resource cfg r info us).
Proof.
  destruct (account_step_calls r) as [Hsc Hcc].
  unfold sync_resource, sync_project, sync_rest, refresh_last_sync. calls_auto.
Qed.

Lemma handle_sync_error_spec report us r info e s H :
  (r, info) ∈ report →
  (∃ s0 s' τ H0, runs (sync_resource cfg r info us s0) τ (s', Err e) ∧ H = rev τ ++ H0) →
  wpM (pass_guard report) (handle_sync_error cfg r e) (λ _ _ _, True) s H.
Proof.
  intros Hin (s0 & s' & τ & H0 & Hrun & HH). unfold handle_sync_error.
  destruct (is_transient_waldur_api_error e) eqn:Ht; [by wp_step|]. wp_step.
  eapply wpM_mono; [by apply own_error_spec|].
  intros [[]|x] s1 H1 [[K ->] Ho]; cbv iota; [by wp_step| |done].
  unfold mark_waldur_resource_as_erred. wp_steps. apply wpM_call.
  - exists us, r, info, e. split_and!; [done..| |by destruct (format_waldur_error_details _ _ _)].
    split_and!; [done..|]. exists s0, s', τ, H0, K. by rewrite HH.
  - intros [?|x]; wp_steps; [done|]. by destruct x.
Qed.

Lemma sync_reported_spec report us i r info s H :
  (r, info) ∈ report →
  wpM (pass_guard report) (sync_reported_resource cfg us (i, (r, info))) (λ _ _ _, True) s H.
Proof.
  intros Hin. unfold sync_reported_resource. wp_step.
  apply (wpM_mono _ _ (λ _ _ _, True)).
  { destruct (Nat.eqb _ _); [by apply wpM_call|by wp_step]. }
  intros [[]|e] s1 H1 _; [|done]. cbv iota. wp_steps.
  eapply wpM_mono; [apply (wpM_runs _ _ (λ _ _ _, True)); eapply calls_wpM;
    [apply sync_resource_no_erred|intros ???; apply no_erred_guard|done]|].
  intros [[]|e] s2 H2 [_ (τ & Hrun & ->)]; cbv iota; [by wp_step|].
  eapply handle_sync_error_spec; [done|]. by exists s1, s2, τ, H1.
Qed.

Lemma deletions_no_erred : calls no_erred (process_requested_deletions cfg).
Proof.
  unfold process_requested_deletions, fetch_offering_resources, pull_reported,
    process_offering_user_deletion, release_capable_username_backend,
    get_release_capable_username_backend, get_username_management_backend,
    teardown_offering_user, try_claim, try_complete, claim_offering_user_deletion,
    complete_offering_user_deletion, mark_offering_user_error_deleting, check_transition,
    remove_user_from_reported_resources, remove_user_from_resource.
  calls_auto.
Qed.
#[local] Hint Resolve deletions_no_erred : calls.

Lemma prepare_no_erred : calls no_erred (prepare_offering_users cfg).
Proof.
  assert (calls no_erred get_cached_offering_users) by weaken_calls.
  assert (∀ us, calls no_erred (processor_update_offering_users cfg true us))
    by (intros; weaken_calls).
  assert (calls (S:=processor_state) no_erred (get_username_management_backend cfg)) by weaken_calls.
  unfold prepare_offering_users, refresh_local_offering_users, sync_user_profiles_to_backend,
    reconcile_backend_usernames, get_waldur_offering_users, validate_offering_user_configuration.
  calls_auto.
Qed.

Lemma process_resources_spec report s :
  wpM (pass_guard report) (process_resources cfg report) (λ _ _ _, True) s [].
Proof.
  unfold process_resources. wp_step.
  eapply calls_wpM; [apply prepare_no_erred|intros ???; apply no_erred_guard|].
  intros [us|e] s1 K _; [|done].
  apply (wpM_for_each _ _ _ (λ _ _ _, True)); [|done..].
  intros xs [i [r info]] s2 H2 [ys Hl] _. eapply wpM_mono; [eapply sync_reported_spec|].
  - assert (Hin : (i, (r, info)) ∈ imap pair report) by (rewrite Hl, elem_of_app; right; left).
    by apply elem_of_lookup_imap in Hin as (j & x & [= -> ->] & Hx%list_elem_of_lookup_2).
  - by intros [[]|e].
Qed.
End StepProofs.

(** While a resource is synchronised, its last-sync time is refreshed only if no
    step failed so far with an error the pass had to look into, it is set OK only
    if Waldur holds it erred, and it is never set erred; a synchronisation that
    ends normally refreshed the last-sync time or skipped a step, and ended with
    Waldur accepting an erred resource as OK. *)
Theorem last_sync_only_complete cfg r info us s τ s' o τ1 τ2 {X} (c : agentE X) a :
  runs (sync_resource cfg r info us s) τ (s', o) →
  (o = Ok () → (refreshed r (rev τ) ∨ examined (rev τ)) ∧ recovered r (rev τ)) ∧
  (τ = τ1 ++ Ev c a :: τ2 → sync_guard r X (rev τ1) c).
Proof.
  intros Hrun. pose proof (sync_resource_spec cfg r info us s) as Hspec. split.
  - intros ->. exact (proj1 (wpM_sound _ _ _ _ _ _ _ Hspec Hrun)).
  - intros Hτ. exact (wpM_call_guard _ _ _ _ _ _ _ _ _ _ _ Hspec Hrun Hτ).
Qed.

(** In a pass over the pulled resources, a resource is set erred only after its own
    synchronisation ended in an error that is neither a transient failure of an
    API nor a client error of the agent's own Waldur (a remote Waldur the backend
    declares not counting as its own), and with the details of that error. *)
Theorem erred_only_for_backend_failures cfg report s τ s' o τ1 τ2 uuid message traceback a :
  runs (process_resources cfg report s) τ (s', o) →
  τ = τ1 ++ Ev (Waldur (ResourceSetErred uuid message traceback)) a :: τ2 →
  ∃ us r info e, (r, info) ∈ report ∧ uuid = res_uuid r ∧ failed_sync cfg us r info e (rev τ1) ∧
    (message, traceback) = format_waldur_error_details (cfg_format_exc cfg) e
                             (cfg_expose_backend_error_details cfg).
Proof.
  intros Hrun Hτ. pose proof (process_resources_spec cfg report s) as Hspec.
  exact (wpM_call_guard _ _ _ _ _ _ _ _ _ _ _ Hspec Hrun Hτ).
Qed.

(** Usernames the backend assigned during the pass reach the pass only with the next
    listing: with the offering users already listed, the reconciliation answers
    the users of that listing, read before the assignment, without reading again. *)
Theorem reconciled_usernames_stale cfg us listed s τ s' o :
  off_username_reconciliation_enabled (cfg_offering cfg) = true →
  st_offering_users s = Some listed →
  runs (reconcile_backend_usernames cfg us s) τ (s', o) →
  ∃ a, τ = [Ev (Backend (SyncOfferingUserUsernames (off_uuid (cfg_offering cfg)))) a] ∧
    (a = Ok true → o = Ok (listed_offering_users listed)).
Proof.
  intros Hon Hl. destruct s as [l kn kf sa ca te sp rb ac]. simpl in Hl. subst l. unfold reconcile_backend_usernames, get_waldur_offering_users,
    get_cached_offering_users. rewrite Hon. simpl. intros (a & τ' & -> & Hr). exists a.
  destruct a as [[]|e]; simpl in Hr.
  - by destruct Hr as [-> [= _ <-]].
  - by destruct Hr as [-> _].
  - by destruct Hr as [-> _].
Qed.

(** ** Witnesses *)

Definition listed_state : processor_state :=
  {| st_offering_users := Some [sample_user OfferingUserState.OK "alice"];
     st_known_usernames := None; st_known_failed := false;
     st_service_accounts := Some []; st_course_accounts := Some [];
     st_team := ∅; st_source_project := ∅; st_release_backend := Some true;
     st_attribute_config := None |}.

Lemma reconciled_usernames_stale_witness :
  ∃ a, [Ev (Backend (SyncOfferingUserUsernames "offering")) (Ok true)] =
       [Ev (Backend (SyncOfferingUserUsernames "offering")) a] ∧
    (a = Ok true → Ok [sample_user OfferingUserState.OK "alice"] =
       Ok (listed_offering_users [sample_user OfferingUserState.OK "alice"])).
Proof.
  refine (reconciled_usernames_stale preserving_config [] _ listed_state
    [Ev (Backend (SyncOfferingUserUsernames "offering")) (Ok true)] listed_state _ _ _ _).
  - reflexivity.
  - reflexivity.
  - solve_runs.
Defined.

Definition grouping_run : trace agentE :=
  [Ev (Waldur (ResourceTeamList "resource-1" None))
      (Ok [sample_member "user-1" "alice"; sample_member "user-2" "bob"]);
   Ev (Waldur ServiceAccountsList) (Ok [sample_account "svc" ServiceAccountState.OK]);
   Ev (Waldur CourseAccountsList) (Ok []);
   Ev (Waldur OfferingUsernamesAll) (Ok ["alice"; "bob"; "carol"]);
   Ev Monotonic (Ok 0);
   Ev (Waldur UserAttributeConfig) (Ok [])].

Lemma stale_users_grouped_witness : ∃ g,
  grouping_sound preserving_config sample_resource (sample_info ["alice"; "carol"; "svc"; "root"])
    [sample_user OfferingUserState.OK "alice"] initial_state (rev grouping_run) g ∧
  (elements (gr_existing g), elements (gr_stale g), elements (gr_new g)) =
    (["alice"], ["carol"], ["bob"]).
Proof.
  eexists. split; [eapply stale_users_grouped; solve_runs|vm_compute; reflexivity].
Defined.

(** An outside world that answers every call of a synchronisation of [sample_resource]. *)
Definition departed_carol : OfferingUser := sample_user OfferingUserState.OK "carol".

Definition sample_world (team : res (list ProjectUser)) (limits : res ()) (X : Type) (c : agentE X) (w : unit) : res X * unit :=
  (match c in agentE X return res X with
   | Waldur w =>
       match w in waldurE X return res X with
       | ResourceTeamList _ _ => team
       | UserAttributeConfig => Ok []
       | OfferingUsersAll => Ok [sample_user OfferingUserState.OK "alice"; departed_carol]
       | ComponentUserUsageLimitsList _ =>
           Err (UnexpectedStatus 403 "https://waldur.example/api/limits/" "" "403")
       | ResourceSetBackendMetadata _ _ => Ok ()
       | ResourceRefreshLastSync _ => Ok 200
       | ResourceSetOk _ => Ok 200
       | ResourceSetErred _ _ _ => Ok 200
       | _ => Err (OtherException "unexpected")
       end
   | Backend b =>
       match b in backendE X return res X with
       | AddUsersToResource _ users _ => Ok users
       | RemoveUsersFromResource _ users _ => Ok (RemovedNames (elements users))
       | ProcessExistingUsers _ => Ok ()
       | ReconcileExistingUserRoles _ _ _ _ => Ok ()
       | SyncResourceProject _ _ => Ok ()
       | SyncProjectEndDate _ _ => Ok ()
       | SyncResourceEndDate _ => Ok ()
       | SyncResourceEffectiveId _ => Ok ()
       | SyncResourceLimits _ => limits
       | RestoreResource _ => Ok true
       | GetResourceMetadata _ => Ok ∅
       | GetResourceUserLimits _ => Ok ∅
       | RemoteWaldurBaseUrls => Ok ["https://remote.example/"]
       | _ => Err (OtherException "unexpected")
       end
   | Username x =>
       match x in usernameE X return res X with
       | ResolveUsernameBackend => Ok ()
       | SyncUserProfiles _ => Ok ()
       | ReleaseUsers _ => Ok ()
       | _ => Err (OtherException "unexpected")
       end
   | Monotonic => Ok 0
   | TouchHeartbeat => Ok ()
   | Sleep _ => Ok ()
   end, w).

Definition sample_team : res (list ProjectUser) :=
  Ok [sample_member "user-1" "alice"; sample_member "user-2" "bob"].

Definition refused {A} : res A :=
  Err (UnexpectedStatus 403 "https://waldur.example/api/marketplace/" "" "403").

Definition users_exec :=
  exec (sample_world sample_team (Ok ())) (sync_resource_users sample_config sample_resource
    (sample_info ["alice"; "carol"]) [] listed_state) ().

Lemma users_synchronised_witness :
  users_synced sample_config sample_resource (sample_info ["alice"; "carol"]) [] listed_state
    (rev users_exec.1.2) {["alice"%string; "bob"%string]} ∧
  users_guard sample_config sample_resource (sample_info ["alice"; "carol"]) [] listed_state _
    (rev (take 6 users_exec.1.2)) (Username (ReleaseUsers [departed_carol])).
Proof.
  destruct (users_synchronised sample_config sample_resource (sample_info ["alice"; "carol"]) []
    listed_state users_exec.1.2 users_exec.1.1.1 users_exec.1.1.2 (take 6 users_exec.1.2)
    (drop 7 users_exec.1.2) (Username (ReleaseUsers [departed_carol])) (Ok ()))
    as [Hn Hg]; [apply exec_runs_pair|].
  split; [apply Hn|apply Hg]; vm_compute; reflexivity.
Defined.

Definition erred_resource : WaldurResource :=
  {| res_uuid := "resource-1"; res_name := "Allocation"; res_slug := "alloc";
     res_backend_id := "alloc-1"; res_state := ResourceState.ERRED;
     res_project_uuid := "project-1"; res_project_slug := "proj"; res_plan_uuid := "";
     res_offering_uuid := "offering"; res_restrict_member_access := false;
     res_paused := false; res_downscaled := false; res_limits := None;
     res_backend_metadata := Unset; res_spending_limits := Unset; res_plugin_options := ∅;
     res_project_name := Val "Project"%string;
     res_customer_slug := Val "cust"%string; res_customer_name := Val "Customer"%string;
     res_created := Unset; res_end_date := Unset; res_attributes := None |}.

(** Waldur refuses the listing of the per-user limits. *)
Definition partial_exec :=
  exec (sample_world sample_team (Ok ())) (sync_resource sample_config erred_resource
    (sample_info ["alice"; "carol"]) [] listed_state) ().

Lemma last_sync_only_complete_witness :
  ((refreshed erred_resource (rev partial_exec.1.2) ∨ examined (rev partial_exec.1.2)) ∧
   recovered erred_resource (rev partial_exec.1.2)) ∧
  sync_guard erred_resource _ (rev (take (length partial_exec.1.2 - 1) partial_exec.1.2))
    (Waldur (ResourceSetOk "resource-1")).
Proof.
  destruct (last_sync_only_complete sample_config erred_resource (sample_info ["alice"; "carol"])
    [] listed_state partial_exec.1.2 partial_exec.1.1.1 partial_exec.1.1.2
    (take (length partial_exec.1.2 - 1) partial_exec.1.2) [] (Waldur (ResourceSetOk "resource-1"))
    (Ok 200)) as [Ho Hg]; [apply exec_runs_pair|].
  split; [apply Ho|apply Hg]; vm_compute; reflexivity.
Defined.

(** Waldur refuses the listing of the team. *)
Definition unsynced_exec :=
  exec (sample_world refused (Ok ())) (sync_resource sample_config erred_resource
    (sample_info ["alice"; "carol"]) [] listed_state) ().

Definition names_nobody {X} (c : agentE X) : bool :=
  match c with
  | Backend b =>
      match b with
      | AddUsersToResource _ users _ | RemoveUsersFromResource _ users _ => bool_decide (users = ∅)
      | _ => true
      end
  | _ => true
  end.

(** The user synchronisation of an erred resource is skipped as a whole, yet the resource
    is set OK although no member was added or removed on the backend. *)
Example erred_resource_recovers_unsynced :
  unsynced_exec.1.1.2 = Ok () ∧
  forallb (λ ev, match ev with Ev c _ => names_nobody c end) unsynced_exec.1.2 = true ∧
  recovered erred_resource (rev unsynced_exec.1.2).
Proof.
  split_and!; [vm_compute; reflexivity..|]. intros _. exists 200. eexists. vm_compute. reflexivity.
Qed.

(** The backend fails while it synchronises the limits. *)
Definition failing_exec :=
  exec (sample_world sample_team (Err (BackendError "slurmctld is down")))
    (process_resources sample_config [(sample_resource, sample_info ["alice"; "carol"])]
       listed_state) ().

Lemma erred_only_for_backend_failures_witness :
  ∃ us r info e, (r, info) ∈ [(sample_resource, sample_info ["alice"; "carol"])] ∧
    "resource-1" = res_uuid r ∧
    failed_sync sample_config us r info e
      (rev (take (length failing_exec.1.2 - 1) failing_exec.1.2)) ∧
    ("slurmctld is down", "") =
      format_waldur_error_details (cfg_format_exc sample_config) e
        (cfg_expose_backend_error_details sample_config).
Proof.
  refine (erred_only_for_backend_failures sample_config
    [(sample_resource, sample_info ["alice"; "carol"])] listed_state failing_exec.1.2
    failing_exec.1.1.1 failing_exec.1.1.2
    (take (length failing_exec.1.2 - 1) failing_exec.1.2) [] "resource-1" "slurmctld is down" ""
    (Ok 200) _ _).
  - apply exec_runs_pair.
  - vm_compute. reflexivity.
Defined.
