(* ===== verification/MembershipEvents.v ===== *)
(** * Membership events

    [common/processors.py: OfferingMembershipProcessor]: what the event handlers
    and the periodic catch-up passes call besides the pass over an offering: a
    user's role change, the user synchronisation of a project or of one
    resource, the project hierarchy and status reconciliations, and the creation
    and removal of service and course accounts. *)

From stdpp Require Import base list strings gmap sets.
From Stdlib Require Import Ascii ZArith Lia.
From S2P Require Import Prelude.
From S2P Require Import Structures.
From S2P Require Import Agent.
From S2P Require Import Samples.
From S2P Require Import OfferingUsers.
From S2P Require Import BaseProcessor.
From S2P Require Import Orders.
From S2P Require Import ApiKeys.
From S2P Require Import Teardown.
From S2P Require Import Membership.

Local Open Scope prog_scope.
Local Open Scope Z_scope.

Definition is_err {A} (r : res A) : bool := match r with Ok _ => false | Err _ => true end.

(** [uuid.replace("-", "")]. *)
Fixpoint without_dashes (s : string) : string :=
  match s with
  | EmptyString => EmptyString
  | String c s' =>
      if decide (c = "-"%char) then without_dashes s' else String c (without_dashes s')
  end.

Section Events.
Context (cfg : processor_config).
Local Abbreviation caps := (cfg_capabilities cfg).

Definition get_user_offering_users (user_uuid : string) : proc (list OfferingUser) :=
  waldur (OfferingUsersOfUser user_uuid (Some (off_uuid (cfg_offering cfg)))).

(** The change on one resource. *)
Definition change_role (u : OfferingUser) (granted : bool) (role_name : string)
    (r : WaldurResource) : proc unit :=
  if granted then
    if res_restrict_member_access r then ret ()
    else backend (AddUser r (ou_username u) role_name (user_cuid u)) ;! ret ()
  else remove_user_from_resource r u role_name ;! ret ().

(** The changes on the resources; whether a removal failed. *)
Definition change_roles (u : OfferingUser) (granted : bool) (role_name : string)
    (rs : list WaldurResource) (pull_failed : bool) : proc bool :=
  fold_m rs (λ failed r,
    let! o := attempt (change_role u granted role_name r) in
    ret (failed || (negb granted && is_err o))) pull_failed.

Definition apply_role_change (u : OfferingUser) (project_uuid : string) (granted : bool)
    (role_name : string) : proc unit :=
  let! rs := fetch_offering_resources cfg (Some project_uuid) in
  let! pulled := attempt (pull_reported rs (negb granted)) in
  if granted && is_err pulled then ret ()
  else
    let targets := match pulled with Ok report => report.*1 | Err _ => rs end in
    let! removal_failed := change_roles u granted role_name targets (is_err pulled) in
    if granted || removal_failed then ret ()
    else release_departed_users cfg {[ou_username u]}.

Definition process_user_role_changed (user_uuid project_uuid : string) (granted : bool)
    (role_name : string) : proc unit :=
  let! us := get_user_offering_users user_uuid in
  match us with
  | [] => ret ()
  | _ =>
      let! p := processor_update_offering_users cfg false us in
      let! updated := of_res p.1 in
      let! us := if updated : bool then get_user_offering_users user_uuid else ret p.2 in
      match us with
      | [] => raise (OtherException "list index out of range")
      | u :: _ =>
          if negb (nonempty (ou_username u)) then ret ()
          else apply_role_change u project_uuid granted role_name
      end
  end.

(** ** User synchronisation on request *)

Definition sync_reported_users (us : list OfferingUser) (report : resource_report) : proc unit :=
  for_each report (λ '(r, info),
    let! _ := attempt (sync_resource_users cfg r info us) in ret ()).

Definition process_project_user_sync (project_uuid : string) : proc unit :=
  let! rs := fetch_offering_resources cfg (Some project_uuid) in
  let! report := pull_reported rs false in
  let! us := prepare_offering_users cfg in
  sync_reported_users us report.

Definition process_resource_user_sync (resource_uuid : string) : proc unit :=
  let! all := fetch_offering_resources cfg None in
  match List.filter (λ r, String.eqb (res_uuid r) (without_dashes resource_uuid)) all with
  | [] => ret ()
  | rs =>
      let! report := pull_reported rs false in
      let! us := refresh_local_offering_users cfg in
      sync_user_profiles_to_backend cfg us ;!
      sync_reported_users us report
  end.

(** ** Periodic catch-up passes *)

Definition sync_all_resource_projects : proc unit :=
  let! rs := fetch_offering_resources cfg None in
  let! report := pull_reported rs false in
  for_each report (λ '(r, _),
    let! _ := attempt (
      let! project := fetch_source_project cfg r in
      backend (SyncResourceProject r project)) in
    ret ()).

Definition reconcile_resource_status (listed : WaldurResource) : proc unit :=
  let! r := waldur (ResourceRetrieve (res_uuid listed)) in
  if negb (bool_decide (res_state r ∈ handled_resource_states caps)) then ret ()
  else sync_resource_status r.

Definition reconcile_resource_statuses : proc unit :=
  let! rs := fetch_offering_resources cfg None in
  for_each rs (λ listed,
    touch_heartbeat ;!
    let! _ := attempt (reconcile_resource_status listed) in ret ()).

(** ** Service and course accounts *)

(** Only a [BackendError] is logged and passed over. *)
Definition despite_backend_errors {A} (m : proc A) : proc unit :=
  let! o := attempt m in
  match o with
  | Ok _ => ret ()
  | Err e => if is_backend_error e then ret () else raise e
  end.

Definition process_account_creation (account_username : string) (t : AccountType) : proc unit :=
  let! accounts := match t with
                   | SERVICE_ACCOUNT => offering_project_service_accounts
                   | COURSE_ACCOUNT => offering_course_accounts
                   end in
  match List.filter (λ a, String.eqb (acc_username a) account_username) accounts with
  | [] => ret ()
  | a :: _ =>
      if negb (nonempty (acc_project_uuid a))
      then raise (AttributeError "hex")
      else
        let! rs := fetch_offering_resources cfg (Some (acc_project_uuid a)) in
        for_each rs (λ r, despite_backend_errors
          (backend (AddUsersToResource r {[account_username]} no_kwargs)))
  end.

Definition process_account_removal (account_username project_uuid : string) : proc unit :=
  let! rs := fetch_offering_resources cfg (Some project_uuid) in
  for_each rs (λ r, despite_backend_errors
    (backend (RemoveUsersFromResource r {[account_username]} no_kwargs))).
End Events.

(** ** A user's role change *)

(** Calls that change who has access, or release an account. *)
Definition changes_access {X} (c : agentE X) : bool :=
  match c with
  | Backend b =>
      match b with
      | AddUser _ _ _ _ | RemoveUser _ _ _ _ | AddUsersToResource _ _ _
      | RemoveUsersFromResource _ _ _ => true
      | _ => false
      end
  | Username x => match x with ReleaseUsers _ => true | _ => false end
  | _ => false
  end.

(** The resources a pull answered. *)
Definition pulled_resources (pulled : list (string * (WaldurResource * BackendResourceInfo)))
  : list WaldurResource := pulled.*2.*1.

(** The resources of the project that Waldur listed and that have a backend id. *)
Definition listed_for (cfg : processor_config) (project_uuid : string) (rs : list WaldurResource)
    (H : trace agentE) : Prop :=
  ∃ listed, rs = with_backend_ids listed ∧
    Ev (Waldur (ResourcesList (handled_resource_states (cfg_capabilities cfg)) (Some project_uuid)))
      (Ok listed) ∈ H.

Lemma listed_for_grown cfg project_uuid rs H H' :
  grown H H' → listed_for cfg project_uuid rs H → listed_for cfg project_uuid rs H'.
Proof. intros Hg (l & ? & ?). exists l. split; [done|]. by eapply grown_elem_of. Qed.

Definition role_guard (cfg : processor_config) (project_uuid : string) (u : OfferingUser) (granted : bool) (role_name : string)
  : guard agentE := λ X H c,
  match c with
  | Backend b =>
      match b with
      | AddUser r name role cuid =>
          granted = true ∧ res_restrict_member_access r = false ∧
          name = ou_username u ∧ role = role_name ∧ cuid = user_cuid u ∧
          ∃ rs pulled, listed_for cfg project_uuid rs H ∧
            Ev (Backend (PullResources rs false false)) (Ok pulled) ∈ H ∧
            r ∈ pulled_resources pulled
      | RemoveUser r name role cuid =>
          granted = false ∧ name = ou_username u ∧ role = role_name ∧ cuid = user_cuid u ∧
          ∃ rs a, listed_for cfg project_uuid rs H ∧
            Ev (Backend (PullResources rs false true)) a ∈ H ∧
            r ∈ match a with Ok pulled => pulled_resources pulled | Err _ => rs end
      | AddUsersToResource _ _ _ | RemoveUsersFromResource _ _ _ => False
      | _ => True
      end
  | Username x =>
      match x with
      | ReleaseUsers released =>
          granted = false ∧ (∀ v, v ∈ released → ou_username v = ou_username u) ∧
          ∃ rs pulled, listed_for cfg project_uuid rs H ∧
            Ev (Backend (PullResources rs false true)) (Ok pulled) ∈ H ∧
            ∀ r, r ∈ pulled_resources pulled →
              ∃ b, Ev (Backend (RemoveUser r (ou_username u) role_name (user_cuid u))) (Ok b) ∈ H
      | _ => True
      end
  | _ => True
  end.

(** The user of the event, as Waldur listed it, under the name it has by now. *)
Definition changed_user (cfg : processor_config) (user_uuid : string) (H : trace agentE)
    (u : OfferingUser) : Prop :=
  ou_username u ≠ "" ∧ ∃ us v, v ∈ us ∧ ou_uuid v = ou_uuid u ∧ user_cuid v = user_cuid u ∧
    Ev (Waldur (OfferingUsersOfUser user_uuid (Some (off_uuid (cfg_offering cfg))))) (Ok us) ∈ H.

Definition event_guard (cfg : processor_config) (user_uuid project_uuid : string) (granted : bool)
    (role_name : string) : guard agentE := λ X H c,
  changes_access c = true →
  ∃ u, changed_user cfg user_uuid H u ∧ role_guard cfg project_uuid u granted role_name X H c.

(** Nothing changed anyone's access so far. *)
Definition untouched (H : trace agentE) : Prop :=
  Forall (λ ev, match ev with Ev c _ => changes_access c = false end) H.

Section RoleChange.
Context (cfg : processor_config) (project_uuid : string) (u : OfferingUser) (granted : bool)
  (role_name : string).
Local Abbreviation G := (role_guard cfg project_uuid u granted role_name).

(** The removals of a revocation all went through. *)
Definition all_removed (rs : list WaldurResource) (H : trace agentE) : Prop :=
  ∀ r, r ∈ rs →
    ∃ b, Ev (Backend (RemoveUser r (ou_username u) role_name (user_cuid u))) (Ok b) ∈ H.

Lemma all_removed_grown rs H H' : grown H H' → all_removed rs H → all_removed rs H'.
Proof. intros Hg Ha r Hr. destruct (Ha r Hr) as [b ?]. exists b. by eapply grown_elem_of. Qed.

Section AfterPull.
(** The pull of the listed resources was answered by [a]. *)
Context (listed : list WaldurResource)
  (a : res (list (string * (WaldurResource * BackendResourceInfo)))).
Context (Hgranted : granted = true → is_err a = false).

Definition change_targets : list WaldurResource :=
  match a with Ok pulled => pulled_resources pulled | Err _ => listed end.

Definition pull_made (H : trace agentE) : Prop :=
  listed_for cfg project_uuid listed H ∧
  Ev (Backend (PullResources listed false (negb granted))) a ∈ H.

Lemma pull_made_grown H H' : grown H H' → pull_made H → pull_made H'.
Proof.
  intros Hg [Hl Hp]. split; [by eapply listed_for_grown|by eapply grown_elem_of].
Qed.

Lemma change_role_spec r s H :
  pull_made H → r ∈ change_targets →
  wpM G (change_role u granted role_name r) (λ o _ H', grown H H' ∧
    (granted = false → is_err o = false →
     ∃ b, Ev (Backend (RemoveUser r (ou_username u) role_name (user_cuid u))) (Ok b) ∈ H')) s H.
Proof.
  unfold pull_made, change_targets. intros [Hf Hp] Hr. unfold change_role, remove_user_from_resource.
  assert (Hg : granted = true ∨ granted = false) by (destruct granted; auto).
  destruct Hg as [Hg|Hg]; rewrite Hg in Hp; simpl in Hp; rewrite Hg at 2.
  - specialize (Hgranted Hg).
    destruct (res_restrict_member_access r) eqn:Hres.
    { wp_step. split; [by exists []|congruence]. }
    wp_step. apply wpM_call.
    { destruct a as [pulled|e]; [|done]. split_and!; try done. by exists listed, pulled. }
    intros [x|e]; try wp_step; (split; [by eexists [_]|congruence]).
  - wp_step. apply wpM_call; [split_and!; try done; by exists listed, a|].
    intros [x|e]; try wp_step; (split; [by eexists [_]|]); [|done].
    intros _ _. exists x. left.
Qed.

Lemma change_roles_spec s H :
  pull_made H →
  wpM G (change_roles u granted role_name change_targets (is_err a)) (λ o _ H', grown H H' ∧
    ∃ failed, o = Ok failed ∧ (granted = false → failed = false →
      is_err a = false ∧ all_removed change_targets H')) s H.
Proof.
  intros Hp. unfold change_roles.
  apply (wpM_fold_m _ _ _ (λ done failed _ H', grown H H' ∧
    (granted = false → failed = false → is_err a = false ∧ all_removed done H'))).
  - intros xs r failed s1 H1 [ys Hl] [Hg1 Hd1]. wp_steps.
    eapply wpM_mono; [eapply change_role_spec;
      [by eapply pull_made_grown|rewrite Hl, elem_of_app; right; left]|].
    intros o s2 H2 [Hg2 Ho]. wp_step. split; [by eapply grown_trans|]. intros Hg Hf.
    apply orb_false_iff in Hf as [Hf He]. rewrite Hg in He. simpl in He.
    destruct (Hd1 Hg Hf) as [Ha Hdone]. split; [done|].
    intros x [Hx|Hx]%elem_of_app; [by eapply all_removed_grown|].
    apply list_elem_of_singleton in Hx as ->. by apply Ho.
  - intros failed s1 H1 [Hg1 Hd1]. eauto.
  - split; [by exists []|]. intros _ He. split; [done|]. intros r Hr. by apply elem_of_nil in Hr.
Qed.

Lemma released_after_removals s H :
  granted = false → is_err a = false → pull_made H → all_removed change_targets H →
  wpM G (release_departed_users cfg {[ou_username u]}) (λ o _ _, is_err o = false) s H.
Proof.
  unfold pull_made, change_targets. intros Hg Ha [Hf Hp] Hall.
  eapply (wpM_inv _ _ (grown H)); [| |by exists []|apply wpM_footprint;
    [apply release_departed_calls|apply release_departed_users_spec]|by intros ? ? ? ->].
  { intros X c a' H' [K ->]. by exists (Ev c a' :: K). }
  intros X H' c HH' [Hc Hrel]. destruct c as [? w|? b|? x| | |]; try done.
  destruct x; try done. destruct Hrel as (all & _ & Hrel). split; [done|].
  split; [intros v Hv; destruct (Hrel v Hv) as (_ & Hv' & _); set_solver|].
  destruct a as [pulled|e]; [|done]. rewrite Hg in Hp. exists listed, pulled.
  split; [by eapply listed_for_grown|]. split; [by eapply grown_elem_of|].
  by eapply all_removed_grown.
Qed.
End AfterPull.

Lemma apply_role_change_spec s H :
  wpM G (apply_role_change cfg u project_uuid granted role_name) (λ o _ H',
    is_err o = true → ∃ a, H' = Ev (Waldur (ResourcesList
      (handled_resource_states (cfg_capabilities cfg)) (Some project_uuid))) a :: H) s H.
Proof.
  unfold apply_role_change, fetch_offering_resources, pull_reported. wp_steps.
  apply wpM_call; [done|]. intros [all|e]; wp_steps; [|by eauto].
  set (listed := List.filter _ all). apply wpM_call; [done|]. intros a. set (H1 := _ :: _).
  assert (Hgo : (granted = true → is_err a = false) → pull_made listed a H1 →
    wpM G (let! removal_failed := change_roles u granted role_name (change_targets listed a)
                                    (is_err a) in
           if granted || removal_failed then ret ()
           else release_departed_users cfg {[ou_username u]}) (λ o _ _, is_err o = false) s H1).
  { intros Hg Hp. wp_step. eapply wpM_mono; [by apply change_roles_spec|].
    intros o s2 H2 (Hg2 & failed & -> & Hrem). cbv iota.
    assert (Hc : granted = true ∨ granted = false) by (destruct granted; auto).
    destruct Hc as [Hc|Hc]; rewrite Hc at 2; simpl orb; cbv iota; [by wp_step|].
    destruct failed; [by wp_step|]. destruct (Hrem Hc eq_refl) as [Ha Hall].
    eapply released_after_removals; try done. by eapply pull_made_grown. }
  assert (Hp : pull_made listed a H1).
  { split; [|left]. exists all. split; [done|]. right. left. }
  destruct a as [pulled|e]; wp_steps; simpl is_err in *.
  - rewrite andb_false_r. cbv iota. change (map fst (map snd pulled)) with (pulled_resources pulled).
    eapply wpM_mono; [by apply Hgo|]. by intros o ? ? ->.
  - rewrite andb_true_r. assert (Hc : granted = true ∨ granted = false) by (destruct granted; auto).
    destruct Hc as [Hc|Hc]; rewrite Hc at 2; [by wp_step|].
    eapply wpM_mono; [apply Hgo; [congruence|done]|]. by intros o ? ? ->.
Qed.
End RoleChange.

Lemma untouched_app K H : all_calls username_calls K → untouched H → untouched (K ++ H).
Proof.
  intros HK HH. apply Forall_app. split; [|done]. eapply Forall_impl; [exact HK|].
  intros [X c a] Hc. destruct c as [? w|? b|? x| | |]; try done. by destruct x.
Qed.

Lemma username_calls_event cfg user_uuid project_uuid granted role_name X H (c : agentE X) :
  username_calls X c = true → event_guard cfg user_uuid project_uuid granted role_name X H c.
Proof. intros Hc Ha. destruct c as [? w|? b|? x| | |]; try done. by destruct x. Qed.

(** The users handed back by the username generation are those handed in. *)
Lemma updated_users_spec cfg (G : guard agentE) us s H :
  (∀ X H (c : agentE X), username_calls X c = true → G X H c) →
  wpM G (processor_update_offering_users cfg false us) (λ o _ H', ∃ K,
    H' = K ++ H ∧ all_calls username_calls K ∧
    match o with Ok p => identities p.2 = identities us | Err _ => True end) s H.
Proof.
  intros HG. unfold processor_update_offering_users. wp_steps.
  eapply wpM_mono; [eapply wpM_conj; [by apply update_offering_users_keeps|];
    eapply (calls_wpM _ _ _ (λ _ _ H', ∃ K, H' = K ++ H ∧ all_calls username_calls K));
    [apply update_offering_users_calls|by intros; apply HG|by eauto]|].
  intros o us' H' [Hid (K & -> & HK)]. cbv beta iota. wp_steps.
  destruct o as [[]|e]; wp_steps; by exists K.
Qed.

Lemma identities_elem u us us' :
  u ∈ us' → identities us' = identities us →
  ∃ v, v ∈ us ∧ ou_uuid v = ou_uuid u ∧ user_cuid v = user_cuid u.
Proof.
  intros Hu Hid. assert (Hin : (ou_uuid u, ou_user_username u) ∈ identities us).
  { rewrite <- Hid. apply list_elem_of_In.
    by apply (in_map (λ u, (ou_uuid u, ou_user_username u))), list_elem_of_In. }
  apply list_elem_of_In, in_map_iff in Hin as (v & [= H1 H2] & Hv).
  exists v. unfold user_cuid. rewrite H2. split_and!; [by apply list_elem_of_In|done..].
Qed.

Section RoleEvent.
Context (cfg : processor_config) (user_uuid project_uuid : string) (granted : bool)
  (role_name : string).
Local Abbreviation G := (event_guard cfg user_uuid project_uuid granted role_name).
Local Abbreviation Q := (λ (o : res unit) (_ : processor_state) H', is_err o = true → untouched H').

Lemma apply_event_spec u s H :
  changed_user cfg user_uuid H u → untouched H →
  wpM G (apply_role_change cfg u project_uuid granted role_name) Q s H.
Proof.
  intros (Hn & us & v & Hv) Hu.
  eapply (wpM_inv _ _ (grown H)); [| |by exists []|apply apply_role_change_spec|].
  { intros X c a H' [K ->]. by exists (Ev c a :: K). }
  - intros X H' c HH' Hg Hc. exists u. split; [|done]. split; [done|]. exists us, v.
    destruct Hv as (? & ? & ? & ?). split_and!; try done. by eapply grown_elem_of.
  - intros o s' H' Ho _ He. destruct (Ho He) as [a ->]. by constructor.
Qed.

Lemma process_user_role_changed_spec s :
  wpM G (process_user_role_changed cfg user_uuid project_uuid granted role_name) Q s [].
Proof.
  unfold process_user_role_changed, get_user_offering_users. wp_step.
  apply wpM_call; [done|]. intros [us|e]; [|by repeat constructor].
  set (H1 := [_]). assert (Hl : untouched H1) by by repeat constructor.
  destruct us as [|u0 us]; [by wp_step|]. wp_step.
  eapply wpM_mono; [apply updated_users_spec; apply username_calls_event|].
  intros o s2 H2 (K & -> & HK & Hid). pose proof (untouched_app K H1 HK Hl) as Hl2.
  destruct o as [[updated us']|e]; [|done]. wp_steps. simpl in Hid |- *.
  assert (Hgo : ∀ listed us2 H3 s3, untouched H3 →
    Ev (Waldur (OfferingUsersOfUser user_uuid (Some (off_uuid (cfg_offering cfg))))) (Ok listed) ∈ H3 →
    identities us2 = identities listed →
    wpM G (match us2 with
           | [] => raise (OtherException "list index out of range")
           | u :: _ => if negb (nonempty (ou_username u)) then ret ()
                       else apply_role_change cfg u project_uuid granted role_name
           end) Q s3 H3).
  { intros listed us2 H3 s3 Hl3 Hin Hid2. destruct us2 as [|u us2]; [by wp_step|].
    destruct (nonempty (ou_username u)) eqn:Hn; simpl negb; cbv iota; [|by wp_step].
    apply apply_event_spec; [|done]. split; [by apply nonempty_spec|].
    destruct (identities_elem u listed (u :: us2)) as (v & ? & ? & ?); [left|done|].
    by exists listed, v. }
  destruct updated as [[]|e]; wp_steps; [| |done].
  - apply wpM_call; [done|]. intros [us2|e]; cbv iota; [|by intros _; constructor].
    eapply (Hgo us2); [by constructor|left|done].
  - eapply (Hgo (u0 :: us)); [done| |done]. apply elem_of_app. right. left.
Qed.
End RoleEvent.

(** C9: a role change of a user touches access only under the identity Waldur lists for
    that user and under a username, and only on resources of the project Waldur listed;
    a grant adds the user to pulled resources without restricted access, a revocation
    removes the user from the resources pulled strictly, or, when that pull fails, from
    all those listed; an account is
    released only on a revocation whose pull answered and whose every removal
    succeeded; and a change that ends in an error changed nothing. *)
Theorem role_change_applied cfg user_uuid project_uuid granted role_name s τ s' o τ1 τ2
    {X} (c : agentE X) a :
  runs (process_user_role_changed cfg user_uuid project_uuid granted role_name s) τ (s', o) →
  (∀ e, o = Err e → untouched (rev τ)) ∧
  (τ = τ1 ++ Ev c a :: τ2 → changes_access c = true → ∃ u,
     changed_user cfg user_uuid (rev τ1) u ∧
     role_guard cfg project_uuid u granted role_name X (rev τ1) c).
Proof.
  intros Hrun.
  pose proof (process_user_role_changed_spec cfg user_uuid project_uuid granted role_name s) as Hspec.
  split.
  - intros e ->. by apply (proj1 (wpM_sound _ _ _ _ _ _ _ Hspec Hrun)).
  - intros Hτ. exact (wpM_call_guard _ _ _ _ _ _ _ _ _ _ _ Hspec Hrun Hτ).
Qed.

(** ** The status reconciliation *)

(** A status is applied right after the resource was read, to the resource read, as its
    flags say, and only in a handled state. *)
Definition status_guard (cfg : processor_config) : guard agentE := λ X H c,
  let applies backend_id (flags : WaldurResource → Prop) :=
    ∃ uuid r H', H = Ev (Waldur (ResourceRetrieve uuid)) (Ok r) :: H' ∧
      res_state r ∈ handled_resource_states (cfg_capabilities cfg) ∧
      backend_id = res_backend_id r ∧ flags r in
  match c with
  | Backend b =>
      match b with
      | PauseResource id => applies id (λ r, res_paused r = true)
      | DownscaleResource id => applies id (λ r, res_paused r = false ∧ res_downscaled r = true)
      | RestoreResource id => applies id (λ r, res_paused r = false ∧ res_downscaled r = false)
      | GetResourceMetadata _ => True
      | _ => False
      end
  | Waldur w =>
      match w with
      | ResourcesList _ _ | ResourceRetrieve _ | ResourceSetBackendMetadata _ _ => True
      | _ => False
      end
  | TouchHeartbeat => True
  | _ => False
  end.

Lemma reconcile_resource_status_spec cfg listed s H :
  wpM (status_guard cfg) (reconcile_resource_status cfg listed) (λ _ _ _, True) s H.
Proof.
  unfold reconcile_resource_status. wp_step. apply wpM_call; [done|]. intros [r|e]; [|done].
  case_bool_decide as Hst; simpl negb; cbv iota; [|by wp_step].
  unfold sync_resource_status. wp_step. apply (wpM_mono _ _ (λ _ _ _, True)).
  { unfold apply_resource_status. wp_step.
    destruct (res_paused r) eqn:Hp; [|destruct (res_downscaled r) eqn:Hd];
      (apply wpM_call; [by exists (res_uuid listed), r, H|]); intros [b|e]; try done; by wp_step. }
  intros [[]|e] s1 H1 _; [|done]. cbv iota. wp_step. apply wpM_call; [done|]. intros [m|e]; [|done].
  destruct (res_backend_metadata r); [by apply wpM_call|by wp_step|].
  destruct (metadata_eqb _ _); [by wp_step|by apply wpM_call].
Qed.

Lemma reconcile_resource_statuses_spec cfg s :
  wpM (status_guard cfg) (reconcile_resource_statuses cfg) (λ _ _ _, True) s [].
Proof.
  unfold reconcile_resource_statuses, fetch_offering_resources. wp_steps.
  apply wpM_call; [done|]. intros [all|e]; [|done]. wp_steps.
  apply (wpM_for_each _ _ _ (λ _ _ _, True)); [|done..].
  intros xs listed s1 H1 _ _. wp_step. apply wpM_call; [done|]. intros [[]|e]; [|done].
  wp_steps. eapply wpM_mono; [apply reconcile_resource_status_spec|]. intros o s2 H2 _. by wp_step.
Qed.

(** The status reconciliation pauses, downscales or restores a resource only right
    after reading it, as the flags just read say and if it still is in a handled
    state; besides that it writes nothing but backend metadata, so it never marks
    a resource erred. *)
Theorem status_from_fresh_read cfg s τ s' o τ1 τ2 {X} (c : agentE X) a :
  runs (reconcile_resource_statuses cfg s) τ (s', o) → τ = τ1 ++ Ev c a :: τ2 →
  status_guard cfg X (rev τ1) c.
Proof.
  intros Hrun Hτ. pose proof (reconcile_resource_statuses_spec cfg s) as Hspec.
  exact (wpM_call_guard _ _ _ _ _ _ _ _ _ _ _ Hspec Hrun Hτ).
Qed.

(** ** Witnesses *)

(** A revocation in a world where everything answers. *)
Definition revoking_world (X : Type) (c : agentE X) (w : unit) : res X * unit :=
  (match c in agentE X return res X with
   | Waldur w =>
       match w in waldurE X return res X with
       | OfferingUsersOfUser _ _ => Ok [sample_user OfferingUserState.OK "alice"]
       | OfferingUsersAll => Ok [sample_user OfferingUserState.OK "alice"; departed_carol]
       | ResourcesList _ _ => Ok [sample_resource]
       | ResourceRetrieve _ => Ok sample_resource
       | OfferingPluginOptions =>
           Ok {| po_service_provider_policy := true; po_service_provider_can_create := Val true |}
       | ResourceSetBackendMetadata _ _ => Ok ()
       | _ => Err (OtherException "unexpected")
       end
   | Backend b =>
       match b in backendE X return res X with
       | PullResources _ _ _ => Ok [("alloc-1", (sample_resource, sample_info ["alice"]))]
       | RemoveUser _ _ _ _ => Ok true
       | RestoreResource _ => Ok true
       | GetResourceMetadata _ => Ok ∅
       | _ => Err (OtherException "unexpected")
       end
   | Username x =>
       match x in usernameE X return res X with
       | ResolveUsernameBackend => Ok ()
       | ReleaseUsers _ => Ok ()
       | _ => Err (OtherException "unexpected")
       end
   | Monotonic => Ok 0
   | TouchHeartbeat => Ok ()
   | Sleep _ => Ok ()
   end, w).

Definition revoking_exec :=
  exec revoking_world (process_user_role_changed sample_config "user-1" "project-1" false
    "PROJECT.MEMBER" initial_state) ().

Definition revoking_prefix : trace agentE :=
  take (length revoking_exec.1.2 - 1) revoking_exec.1.2.

Lemma role_change_applied_witness : ∃ u,
  changed_user sample_config "user-1" (rev revoking_prefix) u ∧
  role_guard sample_config "project-1" u false "PROJECT.MEMBER" _ (rev revoking_prefix)
    (Username (ReleaseUsers [sample_user OfferingUserState.OK "alice"])).
Proof.
  refine (proj2 (role_change_applied sample_config "user-1" "project-1" false "PROJECT.MEMBER"
    initial_state revoking_exec.1.2 revoking_exec.1.1.1 revoking_exec.1.1.2 revoking_prefix []
    (Username (ReleaseUsers [sample_user OfferingUserState.OK "alice"])) (Ok ()) _) _ _).
  - apply exec_runs_pair.
  - vm_compute. reflexivity.
  - reflexivity.
Defined.

Definition statuses_exec :=
  exec revoking_world (reconcile_resource_statuses sample_config initial_state) ().

Lemma status_from_fresh_read_witness :
  status_guard sample_config _ (rev (take 3 statuses_exec.1.2)) (Backend (RestoreResource "alloc-1")).
Proof.
  refine (status_from_fresh_read sample_config initial_state statuses_exec.1.2
    statuses_exec.1.1.1 statuses_exec.1.1.2 (take 3 statuses_exec.1.2) (drop 4 statuses_exec.1.2)
    (Backend (RestoreResource "alloc-1")) (Ok true) _ _).
  - apply exec_runs_pair.
  - vm_compute. reflexivity.
Defined.
