(* ===== verification/Report.v ===== *)
(** * Usage reporting

    [common/processors.py: OfferingReportProcessor]: which billing periods are
    reported, the anomaly and idempotency checks of a period's totals, the
    per-user usages, the retries of one resource and the pass over an offering. *)

From stdpp Require Import base list strings gmap sets.
From Stdlib Require Import Ascii ZArith Lia SpecFloat.
From S2P Require Import Prelude.
From S2P Require Import Structures.
From S2P Require Import Agent.
From S2P Require Import Samples.
From S2P Require Import Numbers.
From S2P Require Import DailyUsage.
From S2P Require Import ReportEffects.
From S2P Require Import OfferingUsers.
From S2P Require Import BaseProcessor.
From S2P Require Import Orders.
From S2P Require Import ApiKeys.
From S2P Require Import KeyUsage.

Local Open Scope prog_scope.
Local Open Scope Z_scope.

Definition TOTAL_ACCOUNT_USAGE : string := "TOTAL_ACCOUNT_USAGE".

(** ** Billing periods *)

(** [range(num_periods)] from the current month back: newest first. *)
Fixpoint periods_back (n : nat) (is_current : bool) (ym : Z * Z) : list (Z * Z * bool) :=
  match n with
  | O => []
  | S n' => (ym, is_current) :: periods_back n' false (previous_month ym)
  end.

Definition compute_reporting_periods (current_time : Z * Z) (num_periods : nat)
  : list (Z * Z * bool) := rev (periods_back num_periods true current_time).

(** ** Comparing with what Waldur holds *)

(** The truthy component types. *)
Definition component_types (components : list OfferingComponent) : list string :=
  omap (λ c, field_str (oc_type c)) components.

Definition listed_in (types : list string) (component : string) : bool :=
  bool_decide (component ∈ types).

(** [{component: round(amount, 2)}]. *)
Definition rounded (total : amounts) : amounts := map (λ '(c, a), (c, round2 a)) total.

(** The amounts of components Waldur knows. *)
Definition known_pairs (total : amounts) (types : list string) : amounts :=
  List.filter (λ '(c, _), listed_in types c) total.

(** The amounts by type; [None] at a duplicate type or an amount that cannot be read. *)
Fixpoint existing_by_type (existing : list ComponentUsage) (acc : amounts) : option amounts :=
  match existing with
  | [] => Some acc
  | u :: existing' =>
      match cu_type u, cu_usage u with
      | Val t, Some usage =>
          match dict_get acc t, usage with
          | None, Ok amount => existing_by_type existing' (dict_set acc t amount)
          | _, _ => None
          end
      | _, _ => existing_by_type existing' acc
      end
  end.

Definition close_to (held : amounts) (pair : string * spec_float) : bool :=
  match dict_get held pair.1 with
  | Some amount => isclose pair.2 amount
  | None => false
  end.

Definition same_keys (a b : amounts) : bool :=
  bool_decide (list_to_set (dict_keys a) = (list_to_set (dict_keys b) : gset string)).

Definition usage_matches_existing (total : amounts) (existing : list ComponentUsage)
    (types : list string) : bool :=
  let pairs := known_pairs total types in
  match existing_by_type existing [] with
  | None => false
  | Some held => same_keys pairs held && forallb (close_to held) pairs
  end.

Definition reported_amounts_match_existing (total : amounts) (existing : list ComponentUsage)
    (types : list string) : bool :=
  match known_pairs total types with
  | [] => true
  | pairs =>
      match existing_by_type existing [] with
      | None => false
      | Some held => forallb (close_to held) pairs
      end
  end.

(** ** Anomalies *)

Section Reporting.
Context (cfg : report_config).
Local Abbreviation offering := (cfg_offering (rep_processor cfg)).

Definition has_type (t : string) (u : ComponentUsage) : bool :=
  match cu_type u with Val t' => String.eqb t' t | _ => false end.

Definition check_usage_anomaly (component : string) (current : spec_float)
    (existing : list ComponentUsage) : res bool :=
  if rep_supports_decreasing_usage cfg then Ok false
  else
    match List.filter (has_type component) existing with
    | [] => Ok false
    | [u] =>
        match cu_usage u with
        | None => Err (OtherException "float() argument must be a string or a real number")
        | Some (Err e) => Err e
        | Some (Ok held) => Ok (SFltb current held)
        end
    | _ => Ok true
    end.

(** The components of the payload whose usage would decrease. *)
Fixpoint anomalous (total : amounts) (types : list string) (existing : list ComponentUsage)
  : res (list string) :=
  match total with
  | [] => Ok []
  | (component, amount) :: total' =>
      match (if listed_in types component
             then check_usage_anomaly component amount existing else Ok false) with
      | Err e => Err e
      | Ok found =>
          match anomalous total' types existing with
          | Err e => Err e
          | Ok rest => Ok (if found then component :: rest else rest)
          end
      end
  end.

(** [url.rstrip("/").split("/")[-1]]. *)
Fixpoint last_segment (acc : string) (s : string) : string :=
  match s with
  | EmptyString => acc
  | String c s' =>
      if Ascii.eqb c "/"%char then last_segment "" s' else last_segment (acc +:+ String c "") s'
  end.

Definition parent_uuid (url : string) : string := last_segment "" (rstrip_slash url).

(** The records without a per-user breakdown. *)
Definition aggregate_usages (existing : list ComponentUsage) (user_usages : list (field string))
  : list ComponentUsage :=
  let parents := omap (λ u, option_map parent_uuid (field_str u)) user_usages in
  List.filter (λ u, negb (bool_decide (cu_uuid u ∈ parents))) existing.

Definition without (skipped : list string) (total : amounts) : amounts :=
  List.filter (λ '(c, _), negb (bool_decide (c ∈ skipped))) total.

(** ** Submitting totals *)

(** The components reported per day. *)
Definition reported_by_day (daily : option daily_amounts) (components : list OfferingComponent)
    (total : amounts) : gset string :=
  match daily with
  | None => ∅
  | Some daily =>
      usage_based_types (Some components) ∩ list_to_set (dict_keys total) ∩
      list_to_set (concat (map (λ '(_, usages), dict_keys usages) daily))
  end.

Definition usage_items (total : amounts) (types : list string) (by_day : gset string)
  : list (string * string) :=
  map (λ '(c, a), (c, format2 a))
    (List.filter (λ '(c, _), listed_in types c && negb (bool_decide (c ∈ by_day))) total).

Definition submit_usages (resource_uuid : string) (components : list OfferingComponent)
    (period : date) (daily : option daily_amounts) (total : amounts) : report unit :=
  let by_day := reported_by_day daily components total in
  let items := usage_items total (component_types components) by_day in
  match daily with
  | Some daily =>
      if decide (by_day = ∅) then call (SetUsage resource_uuid period items None)
      else
        let! today := call UtcToday in
        call (SetUsage resource_uuid period items
          (Some (daily_usage_items (fill_days daily (d_year period) (d_month period) by_day today))))
  | None => call (SetUsage resource_uuid period items None)
  end.

Definition usage_anomaly (skipped : list string) : exn :=
  UsageAnomalyError ("Usage anomaly detected for component " +:+ from_option id "" (head skipped)).

(** The totals left once anomalous components are dealt with, and those omitted;
    [None] when the rest is what Waldur already holds. *)
Definition omit_anomalies (skipped : list string) (total : amounts) (types : list string)
    (existing : list ComponentUsage) : res (option amounts) :=
  match skipped with
  | [] => Ok (Some total)
  | _ =>
      if negb (off_omit_anomalous_usage_components offering) then Err (usage_anomaly skipped)
      else
        let rest := without skipped total in
        match known_pairs rest types with
        | [] => Err (usage_anomaly skipped)
        | _ => if reported_amounts_match_existing rest existing types
               then Ok None else Ok (Some rest)
        end
  end.

Definition find_anomalies (resource_uuid : string) (period : date) (total : amounts)
    (types : list string) (existing : list ComponentUsage) : report (list string) :=
  if rep_supports_decreasing_usage cfg then ret []
  else
    let! user_usages := call (ComponentUserUsagesList resource_uuid period) in
    of_res (anomalous total types (aggregate_usages existing user_usages)).

Definition submit_total_usage_for_resource (resource_uuid : string) (total_usage : amounts)
    (waldur_components : option (list OfferingComponent)) (period : date)
    (daily : option daily_amounts) : report (list string) :=
  let total := rounded total_usage in
  match waldur_components with
  | None => raise (OtherException "'NoneType' object is not iterable")
  | Some components =>
      let types := component_types components in
      let! existing := call (ComponentUsagesList resource_uuid period) in
      if usage_matches_existing total existing types then ret []
      else
        let! skipped := find_anomalies resource_uuid period total types existing in
        let! rest := of_res (omit_anomalies skipped total types existing) in
        match rest with
        | None => ret skipped
        | Some rest =>
            submit_usages resource_uuid components period daily rest ;!
            ret skipped
        end
  end.

(** ** Per-user usage *)

Definition offering_user_urls (us : list OfferingUser) : gmap string string :=
  dict_of (omap (λ u, if nonempty (ou_username u) && nonempty (ou_url u)
                      then Some (ou_username u, ou_url u) else None) us).

Definition user_items (usages : usage) (urls : gmap string string) (period : date)
    (component : field string) : list user_usage_item :=
  match component with
  | Val component =>
      omap (λ '(name, amounts),
        match dict_get amounts component with
        | Some amount => Some {| ui_username := name; ui_usage := format2 amount;
                                 ui_date := period; ui_user := urls !! name |}
        | None => None
        end) usages
  | _ => []
  end.

Definition submit_bulk_user_usages_for_resource (usages : usage)
    (component_usages : list ComponentUsage) (period : date) : report unit :=
  match component_usages with
  | [] => ret ()
  | _ =>
      let! us := lift get_cached_offering_users in
      for_each component_usages (λ cu,
        match user_items usages (offering_user_urls us) period (cu_type cu) with
        | [] => ret ()
        | items => call (SetUserUsages (cu_uuid cu) items)
        end)
  end.

(** ** One billing period *)

Definition daily_usage (backend_id : string) (components : option (list OfferingComponent))
    (year month : Z) : report (option daily_amounts) :=
  if negb (rep_supports_daily_usage cfg) then ret None
  else if negb (accepts_daily_usage components) then ret None
  else
    let! by_resource := call (DailyUsageReportForPeriod [backend_id] year month) in
    ret (Some (from_option id [] (dict_get by_resource backend_id))).

Definition dict_remove {V} (d : list (string * V)) (k : string) : list (string * V) :=
  List.filter (λ '(k', _), negb (String.eqb k' k)) d.

(** The usage of the period: what was pulled with the resource for the current month,
    what the backend has on record for a past one. *)
Definition period_usages (r : WaldurResource) (backend_id : string) (info : BackendResourceInfo)
    (year month : Z) (is_current : bool) : report usage :=
  if is_current then ret (info_usage info)
  else
    let! by_resource := call (UsageReportForPeriod [backend_id] year month r) in
    ret (from_option id [] (dict_get by_resource backend_id)).

Definition process_resource_period (r : WaldurResource)
    (components : option (list OfferingComponent)) (backend_id : string)
    (info : BackendResourceInfo) (year month : Z) (is_current : bool) : report unit :=
  let period := first_day year month in
  let! usages := period_usages r backend_id info year month is_current in
  match dict_get usages TOTAL_ACCOUNT_USAGE with
  | None => ret ()
  | Some total =>
      let! daily := daily_usage backend_id components year month in
      let! skipped := submit_total_usage_for_resource (res_uuid r) total components period daily in
      match dict_remove usages TOTAL_ACCOUNT_USAGE with
      | [] => ret ()
      | by_user =>
          let by_user := map (λ '(name, amounts), (name, without skipped amounts)) by_user in
          let! component_usages := call (ComponentUsagesList (res_uuid r) period) in
          submit_bulk_user_usages_for_resource by_user component_usages period
      end
  end.

(** ** One resource *)

Definition report_api_key_usages_of (r : WaldurResource)
    (components : option (list OfferingComponent)) : report unit :=
  if negb (rep_supports_resource_api_key_usage cfg) then ret ()
  else if negb (manages_api_keys r) then ret ()
  else
    match List.filter (listed_in (rep_backend_components cfg))
            (component_types (from_option id [] components)) with
    | [] => ret ()
    | types =>
        let! _ := attempt (report_api_key_usages cfg (res_uuid r) (res_backend_id r) types) in
        ret ()
    end.

(** What becomes of a failed period: go on with the next, end the resource, or fail. *)
Inductive period_outcome : Type := NextPeriod | EndResource | FailResource (e : exn).

Definition handle_period_error (e : exn) (is_current : bool) : period_outcome :=
  match e with
  | UnexpectedStatus status _ _ _ =>
      if is_current || negb (status =? 400) then FailResource e else NextPeriod
  | UsageAnomalyError _ => if is_current then EndResource else NextPeriod
  | _ => if is_current then FailResource e else NextPeriod
  end.

(** The periods in turn; whether they all were gone through. *)
Fixpoint process_periods (r : WaldurResource) (components : option (list OfferingComponent))
    (backend_id : string) (info : BackendResourceInfo) (periods : list (Z * Z * bool))
  : report bool :=
  match periods with
  | [] => ret true
  | (year, month, is_current) :: periods' =>
      let! o := attempt (process_resource_period r components backend_id info year month is_current) in
      match o with
      | Ok _ => process_periods r components backend_id info periods'
      | Err e =>
          match handle_period_error e is_current with
          | NextPeriod => process_periods r components backend_id info periods'
          | EndResource => ret false
          | FailResource e => raise e
          end
      end
  end.

Definition process_resource (r : WaldurResource) (components : option (list OfferingComponent))
  : report unit :=
  let backend_id := res_backend_id r in
  let! before := call (CurrentTime (rep_timezone cfg)) in
  let! info := agent (Backend (PullResource r)) in
  match info with
  | None => ret ()
  | Some info =>
      let! fresh := agent (Waldur (ResourceRetrieve (res_uuid r))) in
      let! now := call (CurrentTime (rep_timezone cfg)) in
      if negb (bool_decide (before = now)) then ret ()
      else
        let! finished := process_periods fresh components backend_id info
          (compute_reporting_periods now (rep_reporting_periods cfg)) in
        if finished : bool then report_api_key_usages_of r components else ret ()
  end.

(** ** The pass *)

Fixpoint usage_attempts (r : WaldurResource) (components : option (list OfferingComponent))
    (delay : Z) (remaining : nat) : report unit :=
  match remaining with
  | O => ret ()
  | S remaining' =>
      let! o := attempt (process_resource r components) in
      match o with
      | Ok _ => ret ()
      | Err e =>
          match remaining' with
          | O => raise e
          | S _ => agent (Sleep delay) ;! usage_attempts r components delay remaining'
          end
      end
  end.

Definition process_resource_with_retries (r : WaldurResource)
    (components : option (list OfferingComponent)) : report unit :=
  usage_attempts r components 5 10.

Definition process_offering_usage : report unit :=
  let! components := call OfferingComponents in
  let! rs := call ReportedResourcesList in
  for_each (imap pair rs) (λ '(index, r),
    (if Nat.eqb (index mod HEARTBEAT_BATCH_SIZE) 0 then agent TouchHeartbeat else ret ()) ;!
    let! _ := attempt (process_resource_with_retries r components) in
    ret ()).
End Reporting.

(** ** The billing periods *)

(** Months counted from year 0. *)
Definition month_index (ym : Z * Z) : Z := 12 * ym.1 + ym.2 - 1.
Definition of_month_index (k : Z) : Z * Z := (k / 12, k mod 12 + 1).

Lemma of_month_index_inv y m : 1 <= m <= 12 → of_month_index (month_index (y, m)) = (y, m).
Proof.
  intros Hm. unfold of_month_index, month_index; simpl.
  replace (12 * y + m - 1) with (m - 1 + y * 12) by lia.
  rewrite Z.div_add, Z.mod_add, Z.div_small, Z.mod_small by lia. f_equal; lia.
Qed.

Lemma previous_month_index ym :
  1 <= ym.2 <= 12 →
  month_index (previous_month ym) = month_index ym - 1 ∧ 1 <= (previous_month ym).2 <= 12.
Proof.
  destruct ym as [y m]; simpl. intros Hm. unfold previous_month, month_index; simpl.
  destruct (Z.ltb_spec (m - 1) 1); simpl; lia.
Qed.

Lemma periods_back_lookup n b ym i :
  1 <= ym.2 <= 12 → (i < n)%nat →
  periods_back n b ym !! i =
    Some (of_month_index (month_index ym - Z.of_nat i), if decide (i = 0%nat) then b else false).
Proof.
  revert b ym i. induction n as [|n IH]; intros b ym i Hm Hi; [lia|]. simpl.
  destruct i as [|i]; simpl.
  - rewrite Z.sub_0_r. destruct ym as [y m]. by rewrite of_month_index_inv.
  - destruct (previous_month_index ym Hm) as [Hp Hm'].
    rewrite IH by (done || lia). rewrite Hp. simpl.
    replace (month_index ym - 1 - Z.of_nat i) with (month_index ym - Z.of_nat (S i)) by lia.
    by destruct (decide (i = 0%nat)).
Qed.

Lemma periods_back_length n b ym : length (periods_back n b ym) = n.
Proof. revert b ym. induction n as [|n IH]; intros b ym; simpl; [done|]. by rewrite IH. Qed.

(** The reported billing periods are the current month and the months right before
    it, as many as configured, oldest first; exactly the last one is the current. *)
Theorem compute_reporting_periods_spec y m n i :
  1 <= m <= 12 →
  length (compute_reporting_periods (y, m) n) = n ∧
  ((i < n)%nat → compute_reporting_periods (y, m) n !! i =
    Some (of_month_index (month_index (y, m) - Z.of_nat (n - 1 - i)), bool_decide (S i = n))).
Proof.
  intros Hm. unfold compute_reporting_periods. rewrite length_rev, periods_back_length.
  split; [done|]. intros Hi.
  rewrite rev_alt. change (rev_append ?l []) with (reverse l).
  rewrite reverse_lookup by (by rewrite periods_back_length). rewrite periods_back_length.
  rewrite periods_back_lookup by (simpl; lia).
  replace (n - S i)%nat with (n - 1 - i)%nat by lia. do 2 f_equal.
  destruct (decide _); case_bool_decide; (done || lia).
Qed.

Lemma compute_reporting_periods_spec_witness :
  length (compute_reporting_periods (2024, 1) 3) = 3%nat ∧
  ((0 < 3)%nat → compute_reporting_periods (2024, 1) 3 !! 0%nat =
     Some (of_month_index (month_index (2024, 1) - Z.of_nat (3 - 1 - 0)), bool_decide (1%nat = 3%nat))).
Proof. apply (compute_reporting_periods_spec 2024 1 3 0). lia. Defined.

Example periods_over_new_year :
  compute_reporting_periods (2024, 1) 3 =
    [((2023, 11), false); ((2023, 12), false); ((2024, 1), true)].
Proof. vm_compute. reflexivity. Qed.

(** ** What may be submitted *)

Section Submission.
Context (cfg : report_config) (resource_uuid : string) (components : list OfferingComponent)
  (period : date) (total : amounts) (daily : option daily_amounts).
Local Abbreviation types := (component_types components).

(** [u] is one of the aggregate records: no per-user usage refers to it. *)
Definition aggregate (user_usages : list (field string)) (u : ComponentUsage) : Prop :=
  ∀ url, url ≠ "" → Val url ∈ user_usages → parent_uuid url ≠ cu_uuid u.

(** [amount] is at least the usage of every aggregate record of the component. *)
Definition undercuts_nothing (existing : list ComponentUsage) (user_usages : list (field string))
    (component : string) (amount : spec_float) : Prop :=
  ∀ u, u ∈ existing → cu_type u = Val component → aggregate user_usages u →
    ∃ held, cu_usage u = Some (Ok held) ∧ SFltb amount held = false.

(** The amount is one of the rounded totals, and, unless the backend may report
    decreasing usage, it undercuts no aggregate usage Waldur holds. *)
Definition may_submit (H : trace reportE) (existing : list ComponentUsage) (component : string)
    (amount : spec_float) : Prop :=
  (component, amount) ∈ rounded total ∧
  (rep_supports_decreasing_usage cfg = false → component ∈ types → ∃ user_usages,
     Ev (ComponentUserUsagesList resource_uuid period) (Ok user_usages) ∈ H ∧
     undercuts_nothing existing user_usages component amount).

(** The component is left out of the submission for its anomaly. *)
Definition omitted (H : trace reportE) (existing : list ComponentUsage) (component : string) : Prop :=
  rep_supports_decreasing_usage cfg = false ∧
  off_omit_anomalous_usage_components (cfg_offering (rep_processor cfg)) = true ∧
  ∃ amount user_usages, (component, amount) ∈ rounded total ∧
    Ev (ComponentUserUsagesList resource_uuid period) (Ok user_usages) ∈ H ∧
    check_usage_anomaly cfg component amount (aggregate_usages existing user_usages) = Ok true.

(** The components submitted per day: usage based ones that the backend reported days for. *)
Definition by_days (H : trace reportE) (existing : list ComponentUsage)
    (items : list (string * string)) (days : option (list daily_item)) (by_day : gset string) : Prop :=
  match days with
  | None => by_day = ∅
  | Some l => ∃ today reported, Ev UtcToday (Ok today) ∈ H ∧ daily = Some reported ∧
      l = daily_usage_items (fill_days reported (d_year period) (d_month period) by_day today) ∧
      ∀ component, component ∈ by_day → component ∉ items.*1 ∧
        component ∈ usage_based_types (Some components) ∧
        (∃ day usages, (day, usages) ∈ reported ∧ component ∈ dict_keys usages) ∧
        ∃ amount, may_submit H existing component amount
  end.

Definition sound_submission (H : trace reportE) (items : list (string * string))
    (days : option (list daily_item)) : Prop :=
  ∃ existing by_day, Ev (ComponentUsagesList resource_uuid period) (Ok existing) ∈ H ∧
    usage_matches_existing (rounded total) existing types = false ∧
    (∀ component text, (component, text) ∈ items → component ∈ types ∧
       ∃ amount, may_submit H existing component amount ∧ text = format2 amount) ∧
    by_days H existing items days by_day ∧
    (∀ component amount, (component, amount) ∈ rounded total → component ∈ types →
       (component, format2 amount) ∈ items ∨ component ∈ by_day ∨ omitted H existing component).

(** Only such submissions are made, for this resource and period. *)
Definition submission_guard : guard reportE := λ X H c,
  match c with
  | SetUsage uuid date items days =>
      uuid = resource_uuid ∧ date = period ∧ sound_submission H items days
  | SetUserUsages _ _ | ReportKeyUsage _ _ _ _ | Agent _ => False
  | _ => True
  end.

Lemma anomalous_spec t existing skipped component amount :
  anomalous cfg t types existing = Ok skipped → (component, amount) ∈ t →
  component ∈ types → component ∉ skipped →
  check_usage_anomaly cfg component amount existing = Ok false.
Proof.
  revert skipped. induction t as [|[c x] t IH]; simpl; intros skipped Ha Hin Ht Hs.
  { by apply elem_of_nil in Hin. }
  destruct (if listed_in types c then check_usage_anomaly cfg c x existing else Ok false)
    as [found|e] eqn:Hf; [|done].
  destruct (anomalous cfg t types existing) as [rest|e]; [|done]. injection Ha as <-.
  apply elem_of_cons in Hin as [[= -> ->]|Hin].
  - unfold listed_in in Hf. rewrite bool_decide_true in Hf by done.
    destruct found; [|done]. exfalso. apply Hs. left.
  - apply (IH rest); try done. intros Hr. apply Hs. destruct found; [by right|done].
Qed.

Lemma anomalous_found t existing skipped component :
  anomalous cfg t types existing = Ok skipped → component ∈ skipped →
  ∃ amount, (component, amount) ∈ t ∧ check_usage_anomaly cfg component amount existing = Ok true.
Proof.
  revert skipped. induction t as [|[c x] t IH]; simpl; intros skipped Ha Hs.
  { injection Ha as <-. by apply elem_of_nil in Hs. }
  destruct (listed_in types c); [destruct (check_usage_anomaly cfg c x existing) as [found|e] eqn:Hf|];
    try done; destruct (anomalous cfg t types existing) as [rest|e]; try done; injection Ha as <-.
  - destruct found; [apply elem_of_cons in Hs as [->|Hs]; [exists x; split; [left|done]|]|];
      destruct (IH rest eq_refl Hs) as (amount & ? & ?); exists amount; (split; [by right|done]).
  - destruct (IH rest eq_refl Hs) as (amount & ? & ?). exists amount. split; [by right|done].
Qed.

Lemma has_type_spec component u : has_type component u = true ↔ cu_type u = Val component.
Proof.
  unfold has_type. destruct (cu_type u) as [| |t]; [by split..|].
  rewrite String.eqb_eq. naive_solver.
Qed.

Lemma aggregate_spec existing user_usages u :
  u ∈ aggregate_usages existing user_usages ↔ u ∈ existing ∧ aggregate user_usages u.
Proof.
  unfold aggregate_usages, aggregate. rewrite list_elem_of_In, List.filter_In, <- list_elem_of_In.
  rewrite negb_true_iff, bool_decide_eq_false, list_elem_of_omap.
  split; intros [Hu Hn]; (split; [done|]).
  - intros url Hne%nonempty_spec Hurl Heq. apply Hn. exists (Val url). split; [done|].
    simpl. rewrite Hne. simpl; congruence.
  - intros ([| |url] & Hurl & Heq); try done. simpl in Heq.
    destruct (nonempty url) eqn:Hne; [|done]. apply nonempty_spec in Hne.
    injection Heq as Heq. by eapply Hn.
Qed.

Lemma no_anomaly_undercuts_nothing existing user_usages component amount :
  rep_supports_decreasing_usage cfg = false →
  check_usage_anomaly cfg component amount (aggregate_usages existing user_usages) = Ok false →
  undercuts_nothing existing user_usages component amount.
Proof.
  intros Hd. unfold check_usage_anomaly. rewrite Hd. intros Hc u Hu Ht Ha.
  assert (Hin : u ∈ List.filter (has_type component) (aggregate_usages existing user_usages)).
  { rewrite list_elem_of_In, List.filter_In, <- list_elem_of_In, has_type_spec.
    split; [by apply aggregate_spec|done]. }
  destruct (List.filter _ _) as [|u' [|]]; [by apply elem_of_nil in Hin| |done].
  apply list_elem_of_singleton in Hin as ->.
  destruct (cu_usage u') as [[held|]|]; [|done..]. injection Hc as Hc. eauto.
Qed.

Lemma elem_of_without skipped t component amount :
  (component, amount) ∈ without skipped t ↔ (component, amount) ∈ t ∧ component ∉ skipped.
Proof.
  unfold without. rewrite list_elem_of_In, List.filter_In, <- list_elem_of_In.
  rewrite negb_true_iff, bool_decide_eq_false. done.
Qed.

Lemma omit_anomalies_spec skipped t existing rest :
  omit_anomalies cfg skipped t types existing = Ok (Some rest) →
  ∀ component amount, (component, amount) ∈ rest ↔ (component, amount) ∈ t ∧ component ∉ skipped.
Proof.
  unfold omit_anomalies. destruct skipped as [|c skipped].
  { intros [= <-] component amount. split; [|by intros [? _]]. intros Hin.
    split; [done|]. apply not_elem_of_nil. }
  destruct (negb _); [done|]. destruct (known_pairs _ _); [done|].
  destruct (reported_amounts_match_existing _ _ _); [done|]. intros [= <-] component amount.
  apply elem_of_without.
Qed.

Lemma elem_of_usage_items t by_day component text :
  (component, text) ∈ usage_items t types by_day →
  component ∈ types ∧ component ∉ by_day ∧ ∃ amount, (component, amount) ∈ t ∧ text = format2 amount.
Proof.
  unfold usage_items. rewrite list_elem_of_In, in_map_iff. intros ([c a] & [= <- <-] & Hin).
  apply List.filter_In in Hin as [Hin Hb]. unfold listed_in in Hb.
  rewrite andb_true_iff, negb_true_iff, bool_decide_eq_true, bool_decide_eq_false in Hb.
  destruct Hb. split_and!; try done. exists a. by rewrite list_elem_of_In.
Qed.

Lemma usage_items_complete t by_day component amount :
  (component, amount) ∈ t → component ∈ types → component ∉ by_day →
  (component, format2 amount) ∈ usage_items t types by_day.
Proof.
  intros Hin Ht Hb. unfold usage_items. rewrite list_elem_of_In, in_map_iff.
  exists (component, amount). split; [done|]. rewrite List.filter_In, <- list_elem_of_In.
  split; [done|]. unfold listed_in. by rewrite bool_decide_true, bool_decide_false by done.
Qed.

Lemma reported_by_day_spec t component :
  component ∈ reported_by_day daily components t →
  component ∈ usage_based_types (Some components) ∧ component ∈ dict_keys t ∧
  ∃ reported day usages, daily = Some reported ∧ (day, usages) ∈ reported ∧
    component ∈ dict_keys usages.
Proof.
  unfold reported_by_day. destruct daily as [reported|]; [|set_solver].
  intros [[Hu Hk%elem_of_list_to_set]%elem_of_intersection Hd%elem_of_list_to_set]%elem_of_intersection.
  split_and!; [done..|]. apply list_elem_of_In, in_concat in Hd as (l & Hl & Hd).
  apply in_map_iff in Hl as ([day usages] & <- & Hl). exists reported, day, usages.
  split_and!; [done|by apply list_elem_of_In..].
Qed.

Lemma may_submit_grown H K existing component amount :
  may_submit H existing component amount → may_submit (K ++ H) existing component amount.
Proof.
  intros [Hin Hc]. split; [done|]. intros Hd Ht. destruct (Hc Hd Ht) as (uu & ? & ?).
  exists uu. split; [rewrite elem_of_app; by right|done].
Qed.

Lemma omitted_grown H K existing component :
  omitted H existing component → omitted (K ++ H) existing component.
Proof.
  intros (? & ? & amount & uu & ? & ? & ?). split_and!; [done..|]. exists amount, uu.
  split_and!; [done|rewrite elem_of_app; by right|done].
Qed.

Lemma submit_usages_spec existing rest s H :
  Ev (ComponentUsagesList resource_uuid period) (Ok existing) ∈ H →
  usage_matches_existing (rounded total) existing types = false →
  (∀ component amount, (component, amount) ∈ rest → may_submit H existing component amount) →
  (∀ component amount, (component, amount) ∈ rounded total →
     (component, amount) ∈ rest ∨ omitted H existing component) →
  wpM submission_guard (submit_usages resource_uuid components period daily rest)
    (λ _ _ _, True) s H.
Proof.
  intros Hex Hm Hrest Hall. unfold submit_usages.
  set (by_day := reported_by_day daily components rest). cbv zeta.
  assert (Hitems : ∀ K component text, (component, text) ∈ usage_items rest types by_day →
    component ∈ types ∧ ∃ amount, may_submit (K ++ H) existing component amount ∧
      text = format2 amount).
  { intros K component text (Ht & _ & amount & Hin & ->)%elem_of_usage_items. split; [done|].
    exists amount. split; [|done]. by apply may_submit_grown, Hrest. }
  assert (Hcov : ∀ K component amount, (component, amount) ∈ rounded total → component ∈ types →
    (component, format2 amount) ∈ usage_items rest types by_day ∨ component ∈ by_day ∨
    omitted (K ++ H) existing component).
  { intros K component amount Hin Ht. destruct (Hall _ _ Hin) as [Hr|Ho];
      [|right; right; by apply omitted_grown].
    destruct (decide (component ∈ by_day)); [by right; left|left]. by apply usage_items_complete. }
  assert (Hplain : by_day = ∅ → wpM submission_guard
    (call (SetUsage resource_uuid period (usage_items rest types by_day) None))
    (λ _ _ _, True) s H).
  { intros Hb. apply wpM_call; [|done]. split_and!; [done..|]. exists existing, by_day.
    split_and!; [done..|apply (Hitems [])|done|apply (Hcov [])]. }
  destruct daily as [reported|] eqn:Hdaily; [|by apply Hplain].
  case_decide as Hb; [by apply Hplain|]. wp_step.
  apply wpM_call; [done|]. intros [today|e]; [|done]. apply wpM_call; [|done].
  split_and!; [done..|]. exists existing, by_day.
  split_and!; [by right|done|apply (Hitems [_])| |apply (Hcov [_])].
  exists today, reported. split_and!; [left|done|done|].
  intros component Hin. split.
  { intros ([c t] & -> & Hi)%list_elem_of_fmap. simpl in Hin.
    apply elem_of_usage_items in Hi as (_ & Hn & _). by apply Hn. }
  unfold by_day in Hin. rewrite <- Hdaily in Hin.
  apply reported_by_day_spec in Hin as (Hu & Hk & reported' & day & usages & Heq & Hd & Hc).
  rewrite Hdaily in Heq. injection Heq as <-.
  split_and!; [done|by exists day, usages|].
  apply list_elem_of_fmap in Hk as ([c a] & -> & Hk).
  exists a. by apply (may_submit_grown H [_]), Hrest.
Qed.

(** What the search for anomalies leaves. *)
Definition anomalies_found (H : trace reportE) (existing : list ComponentUsage)
    (skipped : list string) : Prop :=
  (∀ component amount, (component, amount) ∈ rounded total → component ∉ skipped →
     may_submit H existing component amount) ∧
  ∀ component, component ∈ skipped → rep_supports_decreasing_usage cfg = false ∧
    ∃ amount user_usages, (component, amount) ∈ rounded total ∧
      Ev (ComponentUserUsagesList resource_uuid period) (Ok user_usages) ∈ H ∧
      check_usage_anomaly cfg component amount (aggregate_usages existing user_usages) = Ok true.

Lemma find_anomalies_spec existing s H :
  wpM submission_guard (find_anomalies cfg resource_uuid period (rounded total) types existing)
    (λ o _ H2, (∃ K, H2 = K ++ H) ∧
       ∀ skipped, o = Ok skipped → anomalies_found H2 existing skipped) s H.
Proof.
  unfold find_anomalies, anomalies_found, may_submit.
  destruct (rep_supports_decreasing_usage cfg) eqn:Hd.
  - wp_step. split; [by exists []|]. intros skipped [= <-].
    split; [by split|]. intros component Hs. by apply elem_of_nil in Hs.
  - wp_step. apply wpM_call; [done|]. intros [uu|e]; [cbv iota; wp_step|]; (split; [by eexists [_]|]); [|done].
    intros skipped Ha. split.
    + intros component amount Hin Hs. split; [done|]. intros _ Ht. exists uu. split; [left|].
      apply no_anomaly_undercuts_nothing; [done|]. by eapply anomalous_spec.
    + intros component Hs. split; [done|].
      destruct (anomalous_found _ _ _ _ Ha Hs) as (amount & ? & ?).
      exists amount, uu. split_and!; [done|left|done].
Qed.

Lemma submit_total_usage_spec s H :
  wpM submission_guard
    (submit_total_usage_for_resource cfg resource_uuid total (Some components) period daily)
    (λ _ _ _, True) s H.
Proof.
  unfold submit_total_usage_for_resource. cbv zeta. wp_step. apply wpM_call; [done|].
  intros [existing|e]; [|done]. destruct (usage_matches_existing _ _ _) eqn:Hm; [by wp_step|].
  wp_step. set (H1 := _ :: H). eapply wpM_mono; [apply find_anomalies_spec|].
  intros [skipped|e] s2 H2 [[K ->] Hok]; [|done]. cbv iota.
  destruct (Hok skipped eq_refl) as [Hmay Hskip]. wp_steps.
  destruct (omit_anomalies _ _ _ _ _) as [[rest|]|e] eqn:Ho; [|by wp_steps|done]. wp_steps.
  pose proof (omit_anomalies_spec _ _ _ _ Ho) as Hrest.
  eapply wpM_mono; [apply (submit_usages_spec existing); [|done|..]|].
  - rewrite elem_of_app. right. left.
  - intros component amount [Hin Hs]%Hrest. by apply Hmay.
  - intros component amount Hin. destruct (decide (component ∈ skipped)) as [Hs|];
      [right|left; by apply Hrest].
    destruct (Hskip _ Hs) as (Hd & Ha). split_and!; [done| |done].
    unfold omit_anomalies in Ho. destruct skipped; [by apply elem_of_nil in Hs|].
    by destruct (off_omit_anomalous_usage_components _).
  - intros [[]|e] s3 H3 _; [by wp_step|done].
Qed.
End Submission.

(** ** Which usage is submitted for which month *)

Definition reads_users : ∀ X, reportE X → bool := λ X c,
  match c with Agent a => listing_calls _ a | _ => false end.

Lemma cached_users_calls : calls reads_users (lift get_cached_offering_users).
Proof. eapply calls_lift; [|apply get_cached_offering_users_calls]. done. Qed.

Section Attribution.
Context (cfg : report_config) (r : WaldurResource) (components : option (list OfferingComponent))
  (backend_id : string) (info : BackendResourceInfo).

(** Where the totals of a period come from: the pull for the current month, the backend's
    record of that month for a past one. *)
Definition usage_source (year month : Z) (is_current : bool) (H : trace reportE)
    (total : amounts) : Prop :=
  ∃ usages, dict_get usages TOTAL_ACCOUNT_USAGE = Some total ∧
    if is_current then usages = info_usage info
    else ∃ by_resource, Ev (UsageReportForPeriod [backend_id] year month r) (Ok by_resource) ∈ H ∧
      usages = from_option id [] (dict_get by_resource backend_id).

(** Where the days of a period come from: the backend's record of its days, where the
    backend has one and Waldur takes it; no days otherwise. *)
Definition days_source (year month : Z) (H : trace reportE) (daily : option daily_amounts) : Prop :=
  if rep_supports_daily_usage cfg && accepts_daily_usage components
  then ∃ by_resource, Ev (DailyUsageReportForPeriod [backend_id] year month) (Ok by_resource) ∈ H ∧
         daily = Some (from_option id [] (dict_get by_resource backend_id))
  else daily = None.

Definition period_guard (year month : Z) (is_current : bool) : guard reportE := λ X H c,
  match c with
  | SetUsage uuid date items days =>
      uuid = res_uuid r ∧ date = first_day year month ∧ ∃ cs total daily, components = Some cs ∧
        usage_source year month is_current H total ∧ days_source year month H daily ∧
        sound_submission cfg uuid cs date total daily H items days
  | SetUserUsages uuid items =>
      (∃ listed cu, Ev (ComponentUsagesList (res_uuid r) (first_day year month)) (Ok listed) ∈ H ∧
         cu ∈ listed ∧ uuid = cu_uuid cu) ∧
      ∀ i, i ∈ items → ui_date i = first_day year month
  | ReportKeyUsage _ _ _ _ => False
  | Agent a => listing_calls _ a = true
  | _ => True
  end.

Lemma user_items_date usages urls period component i :
  i ∈ user_items usages urls period component → ui_date i = period.
Proof.
  unfold user_items. destruct component as [| |t]; [by intros Hi%elem_of_nil..|].
  rewrite list_elem_of_omap. intros ([name amounts] & _ & Hi).
  destruct (dict_get amounts t); [|done]. by injection Hi as <-.
Qed.

Lemma bulk_user_usages_spec year month is_current usages listed s H :
  Ev (ComponentUsagesList (res_uuid r) (first_day year month)) (Ok listed) ∈ H →
  wpM (period_guard year month is_current)
    (submit_bulk_user_usages_for_resource usages listed (first_day year month))
    (λ _ _ _, True) s H.
Proof.
  intros Hl. unfold submit_bulk_user_usages_for_resource.
  destruct listed as [|cu0 listed]; [by wp_step|]. wp_step.
  eapply (calls_wpM reads_users); [apply cached_users_calls| |].
  { intros X K c Hc. by destruct c. }
  intros [us|e] s1 K _; [|done].
  apply (wpM_for_each _ _ _ (λ _ _ H', Ev (ComponentUsagesList (res_uuid r)
    (first_day year month)) (Ok (cu0 :: listed)) ∈ H')).
  - intros xs cu s2 H2 [ys Hcu] Hin.
    destruct (user_items _ _ _ _) as [|i items] eqn:Hi; [by wp_step|].
    apply wpM_call; [|by intros [[]|e]; [right|]].
    split.
    + exists (cu0 :: listed), cu. split_and!; [done| |done]. rewrite Hcu, elem_of_app. right. left.
    + intros j Hj. rewrite <- Hi in Hj. by eapply user_items_date.
  - done.
  - rewrite elem_of_app. by right.
Qed.

Lemma process_period_spec year month is_current s H :
  wpM (period_guard year month is_current)
    (process_resource_period cfg r components backend_id info year month is_current)
    (λ _ _ _, True) s H.
Proof.
  unfold process_resource_period. cbv zeta. wp_step.
  apply (wpM_mono _ _ (λ o _ H', ∀ usages total, o = Ok usages →
    dict_get usages TOTAL_ACCOUNT_USAGE = Some total →
    usage_source year month is_current H' total)).
  { unfold period_usages, usage_source. destruct is_current.
    - wp_step. intros usages total [= <-] Ht. eauto.
    - wp_step. apply wpM_call; [done|]. intros [by_resource|e]; [|done]. wp_step.
      intros usages total [= <-] Ht. eexists. split; [done|]. exists by_resource.
      split; [left|done]. }
  intros [usages|e] s1 H1 Hsrc; [|done]. cbv iota.
  destruct (dict_get usages TOTAL_ACCOUNT_USAGE) as [total|] eqn:Ht; [|by wp_step].
  specialize (Hsrc usages total eq_refl Ht). wp_step.
  assert (Hmono : ∀ K, usage_source year month is_current (K ++ H1) total).
  { intros K. destruct Hsrc as (u & ? & Hu). exists u. split; [done|].
    destruct is_current; [done|]. destruct Hu as (b & ? & ?). exists b.
    split; [rewrite elem_of_app; by right|done]. }
  apply (wpM_mono _ _ (λ o _ H', ∃ K, H' = K ++ H1 ∧
    ∀ daily, o = Ok daily → days_source year month H' daily)).
  { unfold daily_usage, days_source. destruct (rep_supports_daily_usage cfg); simpl negb; cbv iota.
    2:{ wp_step. exists []. split; [done|]. by intros daily [= <-]. }
    destruct (accepts_daily_usage components); simpl negb; simpl andb; cbv iota.
    2:{ wp_step. exists []. split; [done|]. by intros daily [= <-]. }
    wp_step. apply wpM_call; [done|]. intros [b|e]; (eexists [_]; split; [done|]); [|done].
    intros daily [= <-]. exists b. split; [left|done]. }
  intros [daily|e] s2 H2 (K & -> & Hdays); [|done]. cbv iota. wp_step.
  specialize (Hdays daily eq_refl).
  destruct components as [cs|] eqn:Hcs; [|by unfold submit_total_usage_for_resource; wp_steps].
  eapply (wpM_inv (submission_guard cfg (res_uuid r) cs (first_day year month) total daily) _
    (λ H', ∃ K', H' = K' ++ K ++ H1)); [| |by exists []|apply submit_total_usage_spec|].
  { intros X c a H' [K' ->]. by exists (Ev c a :: K'). }
  { intros X H' c [K' ->] Hg. destruct c; try done. destruct Hg as (-> & -> & Hg).
    split_and!; [done..|]. exists cs, total, daily. split_and!; [done| | |exact Hg].
    - rewrite app_assoc. apply Hmono.
    - revert Hdays. unfold days_source. destruct (_ && _); [|done].
      intros (b & ? & ?). exists b. split; [rewrite elem_of_app; by right|done]. }
  intros [skipped|e] s3 H3 _ _; [|done]. cbv iota.
  destruct (dict_remove _ _) as [|u by_user]; [by wp_step|]. cbv zeta. wp_step.
  apply wpM_call; [done|]. intros [listed|e]; [|done]. apply bulk_user_usages_spec. left.
Qed.
End Attribution.

(** Calls of the per-key report: no usage of the resource. *)
Definition key_calls : ∀ X, reportE X → bool := λ X c,
  match c with
  | SetUsage _ _ _ _ | SetUserUsages _ _ | Agent _ | CurrentTime _ => false
  | _ => true
  end.

Lemma report_api_key_usages_calls cfg uuid backend_id types :
  calls key_calls (report_api_key_usages cfg uuid backend_id types).
Proof.
  unfold report_api_key_usages, report_previous_month, closed_figures, current_figures,
    previous_period, current_period, list_keys, report_key_usage, report_closed_key, key_days,
    send_key_usage.
  calls_auto.
Qed.
#[local] Hint Resolve report_api_key_usages_calls : calls.

Lemma key_usages_of_calls cfg r components :
  calls key_calls (report_api_key_usages_of cfg r components).
Proof. unfold report_api_key_usages_of. calls_auto. Qed.

Section Resource.
Context (cfg : report_config) (r : WaldurResource) (components : option (list OfferingComponent)).

(** The usage was pulled within the month [now] of the clock. *)
Definition pulled_within (now : Z * Z) (info : BackendResourceInfo) (fresh : WaldurResource)
    (H : trace reportE) : Prop :=
  ∃ K H0, H = K ++ Ev (CurrentTime (rep_timezone cfg)) (Ok now)
                :: Ev (Agent (Waldur (ResourceRetrieve (res_uuid r)))) (Ok fresh)
                :: Ev (Agent (Backend (PullResource r))) (Ok (Some info))
                :: Ev (CurrentTime (rep_timezone cfg)) (Ok now) :: H0.

Definition attributed (H : trace reportE) (uuid : string) (date : date)
    (items : list (string * string)) (days : option (list daily_item)) : Prop :=
  ∃ now info fresh year month is_current cs total daily,
    pulled_within now info fresh H ∧
    (year, month, is_current) ∈ compute_reporting_periods now (rep_reporting_periods cfg) ∧
    uuid = res_uuid fresh ∧ date = first_day year month ∧ components = Some cs ∧
    usage_source fresh (res_backend_id r) info year month is_current H total ∧
    days_source cfg components (res_backend_id r) year month H daily ∧
    sound_submission cfg uuid cs date total daily H items days.

Definition resource_guard : guard reportE := λ X H c,
  match c with
  | SetUsage uuid date items days => attributed H uuid date items days
  | _ => True
  end.

Lemma process_periods_spec now info fresh periods s H :
  pulled_within now info fresh H →
  (∀ p, p ∈ periods → p ∈ compute_reporting_periods now (rep_reporting_periods cfg)) →
  wpM resource_guard (process_periods cfg fresh components (res_backend_id r) info periods)
    (λ _ _ _, True) s H.
Proof.
  revert s H. induction periods as [|[[year month] is_current] periods IH]; intros s H Hp Hin;
    simpl; [by wp_step|]. wp_steps.
  eapply (wpM_inv (period_guard cfg fresh components (res_backend_id r) info year month is_current) _
    (pulled_within now info fresh)); [| |done|apply process_period_spec|].
  { intros X c a H' (K & H0 & ->). by exists (Ev c a :: K), H0. }
  { intros X H' c Hp' Hg. destruct c; try done.
    destruct Hg as (-> & -> & cs & total & daily & Hcs & Hsrc & Hdays & Hsound).
    exists now, info, fresh, year, month, is_current, cs, total, daily.
    split_and!; try done. apply Hin. left. }
  intros o s' H' _ Hp'. cbv beta iota.
  assert (Hnext : wpM resource_guard
    (process_periods cfg fresh components (res_backend_id r) info periods) (λ _ _ _, True) s' H')
    by (apply IH; [done|intros p ?; apply Hin; by right]).
  destruct o as [[]|e]; [done|]. by destruct (handle_period_error _ _); [|wp_step..].
Qed.

Lemma process_resource_spec s H :
  wpM resource_guard (process_resource cfg r components) (λ _ _ _, True) s H.
Proof.
  unfold process_resource. cbv zeta. wp_step. apply wpM_call; [done|].
  intros [before|e]; [|done]. wp_step. apply wpM_call; [done|]. intros [[info|]|e];
    [|by wp_step|done]. wp_step. apply wpM_call; [done|]. intros [fresh|e]; [|done].
  wp_step. apply wpM_call; [done|]. intros [now|e]; [|done].
  case_bool_decide as Hb; simpl negb; cbv iota; [|by wp_step]. subst before. wp_step.
  eapply wpM_mono; [eapply (process_periods_spec now info fresh); [by exists [], H|done]|].
  intros [[]|e] s1 H1 _; [|by wp_step|done].
  eapply (calls_wpM key_calls); [apply key_usages_of_calls| |done].
  intros X K c Hc. by destruct c.
Qed.
End Resource.

(** C11: the usage of a resource is submitted only for the current month and the configured
    months before it, as the clock stood both before and after the resource was
    pulled; the current month's from that pull and a past month's from the backend's
    record of that month; and only amounts, rounded to two decimals, of components
    Waldur has, that differ as a whole from what Waldur holds and, unless the backend
    may report decreasing usage, undercut no aggregate record Waldur holds (one that no
    per-user usage refers to).  Days are submitted instead of a month total only for
    usage-based components the backend's record of the days of that month names, and
    with the amounts of that record.  Every other rounded total of a known component is
    submitted, unless it is an anomaly the offering asks to omit. *)
Theorem usage_submitted_soundly cfg r components s τ s' o τ1 τ2 uuid date items days a :
  runs (process_resource cfg r components s) τ (s', o) →
  τ = τ1 ++ Ev (SetUsage uuid date items days) a :: τ2 →
  attributed cfg r components (rev τ1) uuid date items days.
Proof.
  intros Hrun Hτ. pose proof (process_resource_spec cfg r components s []) as Hspec.
  exact (wpM_call_guard _ _ _ _ _ _ _ _ _ _ _ Hspec Hrun Hτ).
Qed.

(** ** Retries *)

Definition is_sleep (ev : event reportE) : bool :=
  match ev with Ev c _ => match c with Agent a => match a with Sleep _ => true | _ => false end
                              | _ => false end end.
Definition is_pull (ev : event reportE) : bool :=
  match ev with
  | Ev c _ => match c with
              | Agent a => match a with
                           | Backend b => match b with PullResource _ => true | _ => false end
                           | _ => false
                           end
              | _ => false
              end
  end.
Definition count (f : event reportE → bool) (H : trace reportE) : nat :=
  length (List.filter f H).

(** Neither a pull nor a pause. *)
Definition quiet_calls : ∀ X, reportE X → bool := λ X c,
  negb (is_sleep (Ev c (Err (OtherException "")))) && negb (is_pull (Ev c (Err (OtherException "")))).

Lemma count_quiet f K :
  (∀ X c a, quiet_calls X c = true → f (Ev c a) = false) → all_calls quiet_calls K →
  count f K = 0%nat.
Proof.
  intros Hf. induction 1 as [|[X c a] K Hc HK IH]; [done|]. unfold count in *; simpl.
  by rewrite (Hf _ _ _ Hc).
Qed.

Lemma quiet_sleep X (c : reportE X) a : quiet_calls X c = true → is_sleep (Ev c a) = false.
Proof. unfold quiet_calls. rewrite andb_true_iff, !negb_true_iff. by intros [? _]. Qed.
Lemma quiet_pull X (c : reportE X) a : quiet_calls X c = true → is_pull (Ev c a) = false.
Proof. unfold quiet_calls. rewrite andb_true_iff, !negb_true_iff. by intros [_ ?]. Qed.

Lemma count_app f K H : count f (K ++ H) = (count f K + count f H)%nat.
Proof. unfold count. by rewrite List.filter_app, length_app. Qed.

Section Retries.
Context (cfg : report_config).

Lemma cached_users_quiet : calls quiet_calls (lift get_cached_offering_users).
Proof.
  eapply calls_lift; [|apply get_cached_offering_users_calls].
  intros X c Hc. destruct c as [? w|? b|? x| | |]; done.
Qed.
#[local] Hint Resolve cached_users_quiet : calls.

Lemma key_usages_quiet r components :
  calls quiet_calls (report_api_key_usages_of cfg r components).
Proof.
  eapply calls_mono; [|apply key_usages_of_calls]. intros X c Hc. by destruct c.
Qed.

Lemma period_quiet r components id info y m cur :
  calls quiet_calls (process_resource_period cfg r components id info y m cur).
Proof.
  unfold process_resource_period, period_usages, daily_usage, submit_total_usage_for_resource,
    find_anomalies, submit_usages, submit_bulk_user_usages_for_resource.
  calls_auto.
Qed.
#[local] Hint Resolve key_usages_quiet period_quiet : calls.

Lemma periods_quiet r components id info periods :
  calls quiet_calls (process_periods cfg r components id info periods).
Proof.
  induction periods as [|[[y m] cur] periods IH]; simpl; [calls_auto|].
  calls_auto; done.
Qed.
#[local] Hint Resolve periods_quiet : calls.

(** At most [p] more pulls and [n] more pauses. *)
Definition bounded (n p : nat) (H H' : trace reportE) : Prop :=
  count is_sleep H' = (count is_sleep H + n)%nat ∧ (count is_pull H' ≤ count is_pull H + p)%nat.

Lemma quiet_step {A} (m : report A) (G : guard reportE) Q s H :
  calls quiet_calls m → (∀ X H c, quiet_calls X c = true → G X H c) →
  (∀ o s' H', bounded 0 0 H H' → Q o s' H') → wpM G m Q s H.
Proof.
  intros Hm HG HQ. eapply calls_wpM; [exact Hm|exact HG|]. intros o s' K HK. apply HQ.
  unfold bounded. rewrite !count_app, !(count_quiet _ K); auto using quiet_sleep, quiet_pull.
  lia.
Qed.

(** Pauses take [delay] seconds. *)
Definition pause_guard (delay : Z) : guard reportE := λ X H c,
  match c with
  | Agent a => match a with Sleep seconds => seconds = delay | _ => True end
  | _ => True
  end.

Lemma quiet_pause delay X H (c : reportE X) : quiet_calls X c = true → pause_guard delay X H c.
Proof. destruct c; try done. match goal with a : agentE _ |- _ => by destruct a end. Qed.

Lemma resource_bounded delay r components s H :
  wpM (pause_guard delay) (process_resource cfg r components) (λ _ _ H', bounded 0 1 H H') s H.
Proof.
  unfold process_resource. cbv zeta. wp_step. apply wpM_call; [done|].
  intros [before|e]; [|unfold bounded, count; simpl; lia]. wp_step. apply wpM_call; [done|].
  intros a. set (H1 := _ :: _ :: H). assert (Hb : bounded 0 1 H H1) by (unfold bounded, count; simpl; lia).
  clearbody H1.
  assert (Hend : ∀ H', bounded 0 0 H1 H' → bounded 0 1 H H') by (unfold bounded in *; lia).
  destruct a as [[info|]|e]; [|by wp_step|done]. wp_step.
  eapply quiet_step; [calls_auto|intros ???; apply quiet_pause|].
  intros [fresh|e] s2 H2 H12; [|by apply Hend]. wp_step.
  eapply quiet_step; [calls_auto|intros ???; apply quiet_pause|].
  intros [now|e] s3 H3 H23; [|apply Hend; unfold bounded in *; lia].
  destruct (negb _); [wp_step; apply Hend; unfold bounded in *; lia|]. wp_step.
  eapply quiet_step; [calls_auto|intros ???; apply quiet_pause|].
  intros [[]|e] s4 H4 H34; [|wp_step|]; try (apply Hend; unfold bounded in *; lia).
  eapply quiet_step; [calls_auto|intros ???; apply quiet_pause|].
  intros o s5 H5 H45. apply Hend; unfold bounded in *; lia.
Qed.

Lemma usage_attempts_spec delay r components n s H :
  wpM (pause_guard delay) (usage_attempts cfg r components delay (S n)) (λ o _ H', ∃ k,
    (k ≤ n)%nat ∧ bounded k (S k) H H' ∧ (∀ e, o = Err e → k = n ∨
      ∃ e' H0, H' = Ev (Agent (Sleep delay)) (Err e') :: H0)) s H.
Proof.
  revert s H. induction n as [|n IH]; intros s H; simpl; wp_steps;
    (eapply wpM_mono; [apply resource_bounded|]); intros [[]|e] s1 H1 Hb; cbv beta iota.
  - wp_step. exists 0%nat. by split_and!; [lia| |].
  - wp_step. exists 0%nat. split_and!; [lia|done|]. by left.
  - wp_step. exists 0%nat. by split_and!; [lia| |].
  - wp_step. apply wpM_call; [done|].
    assert (Hs : ∀ a, bounded 1 1 H (Ev (Agent (Sleep delay)) a :: H1))
      by (intros a; unfold bounded, count in *; simpl; lia).
    intros [[]|e']; cbv iota.
    + eapply wpM_mono; [apply IH|]. intros o s2 H2 (k & Hk & Hb2 & He). exists (S k).
      split_and!; [lia|specialize (Hs (Ok ())); unfold bounded in *; lia|].
      intros e2 Ho. destruct (He e2 Ho) as [->|?]; auto.
    + exists 1%nat. split_and!; [lia|specialize (Hs (Err e')); unfold bounded in *; lia|].
      intros e2 _. right. eauto.
Qed.
End Retries.

(** The usage of a resource is tried at most ten times, with a pause of five seconds
    between two attempts and at most one pull of the resource each; it ends in an
    error only after the tenth attempt (or when a pause itself fails). *)
Theorem usage_retries_bounded cfg r components s τ s' o :
  runs (process_resource_with_retries cfg r components s) τ (s', o) →
  (count is_sleep τ ≤ 9)%nat ∧ (count is_pull τ ≤ S (count is_sleep τ))%nat ∧
  (∀ e, o = Err e → count is_sleep τ = 9%nat ∨
     ∃ e' τ1, τ = τ1 ++ [Ev (Agent (Sleep 5)) (Err e')]) ∧
  (∀ τ1 τ2 seconds a, τ = τ1 ++ Ev (Agent (Sleep seconds)) a :: τ2 → seconds = 5).
Proof.
  intros Hrun. pose proof (usage_attempts_spec cfg 5 r components 9 s []) as Hspec.
  destruct (wpM_sound _ _ _ _ _ _ _ Hspec Hrun) as [(k & Hk & [Hs Hp] & He) _].
  unfold count in *. rewrite !filter_rev_length in *. simpl in Hs, Hp.
  split_and!; [lia|lia| |].
  - intros e ->. destruct (He e eq_refl) as [->|(e' & H0 & HH)]; [left; lia|]. right.
    exists e', (rev H0). rewrite <- (rev_involutive τ), HH. done.
  - intros τ1 τ2 seconds a Hτ.
    exact (wpM_call_guard _ _ _ _ _ _ _ _ _ _ _ Hspec Hrun Hτ).
Qed.

(** ** Witnesses *)

Definition sample_components : option (list OfferingComponent) :=
  Some [{| oc_type := Val "cpu"; oc_usage_based := true; oc_spending_limit_periods := Unset |}].

Definition report_exec :=
  exec sample_usage_world
    (process_resource sample_report_config sample_resource sample_components
       initial_report_state) ().

Lemma usage_submitted_soundly_witness :
  attributed sample_report_config sample_resource sample_components (rev (take 7 report_exec.1.2))
    "resource-1" (first_day 2024 5) [("cpu", "2.00")] None.
Proof.
  refine (usage_submitted_soundly sample_report_config sample_resource sample_components
    initial_report_state report_exec.1.2 report_exec.1.1.1 report_exec.1.1.2
    (take 7 report_exec.1.2) (drop 8 report_exec.1.2) "resource-1" (first_day 2024 5)
    [("cpu", "2.00")] None (Ok ()) _ _).
  - apply exec_runs_pair.
  - vm_compute. reflexivity.
Defined.

(** A world in which every pull fails. *)
Definition failing_usage_world (X : Type) (c : reportE X) (w : unit) : res X * unit :=
  (match c in reportE X return res X with
   | CurrentTime _ => Ok (2024, 5)
   | Agent a =>
       match a in agentE X return res X with
       | Sleep _ => Ok ()
       | _ => Err (OtherException "unreachable")
       end
   | _ => Err (OtherException "unexpected")
   end, w).

Definition retries_exec :=
  exec failing_usage_world
    (process_resource_with_retries sample_report_config sample_resource sample_components
       initial_report_state) ().

Lemma usage_retries_bounded_witness :
  (count is_sleep retries_exec.1.2 ≤ 9)%nat ∧
  (count is_sleep retries_exec.1.2 = 9%nat ∨
   ∃ e' τ1, retries_exec.1.2 = τ1 ++ [Ev (Agent (Sleep 5)) (Err e')]).
Proof.
  destruct (usage_retries_bounded sample_report_config sample_resource sample_components
    initial_report_state retries_exec.1.2 retries_exec.1.1.1 retries_exec.1.1.2)
    as (Hs & _ & He & _); [apply exec_runs_pair|].
  split; [exact Hs|]. apply (He (OtherException "unreachable")). vm_compute. reflexivity.
Defined.
