(* ===== verification/BaseBackend.v ===== *)
(** * The default resource backend

    [backend/backends.py: BaseBackend]: what a resource backend plugin inherits.
    The class works over a client ([backend/clients.py: BaseClient]) and over the
    methods a plugin fills in; both appear as the call signature [clientE].
    [base_backend] gives every call of [Agent.backendE] the meaning the class
    gives it.  The two thread-local flags of a pull ([_PULL_STATE]) are the state. *)

From stdpp Require Import base list strings gmap sets.
From Stdlib Require Import ZArith Lia SpecFloat Ascii.
From S2P Require Import Prelude.
From S2P Require Import Texts.
From S2P Require Import Structures.
From S2P Require Import Agent.
From S2P Require Import Samples.
From S2P Require Import FloatInts.
From S2P Require Import SpendingLimits.
From S2P Require Import OfferingUsers.

Local Open Scope prog_scope.
Local Open Scope Z_scope.

(** ** Data *)

(** [backend/structures.py]. *)
Record ClientResource : Type := {
  cr_name : string;
  cr_description : string;
  cr_organization : string;
  cr_backend_id : string;
}.

Record Association : Type := {
  as_account : string;
  as_user : string;
  as_value : Z;
}.

(** What the class reads of its constructor arguments.  The prefixes are the texts
    [f"{...}"] makes of the settings, empty when they are absent, and so is the
    default account (["root"] when absent).  [bb_components] keeps the order of
    [backend_components]; a component without [unit_factor] has [None]. *)
Record backend_config : Type := {
  bb_type : string;
  bb_components : list (string * option pynum);
  bb_soft_delete : json;
  bb_default_account : string;
  bb_allocation_prefix : string;
  bb_project_prefix : string;
  bb_customer_prefix : string;
}.

(** [_PULL_STATE]: attributes that are not set read as [True] and [False]. *)
Record pull_state : Type := { ps_include_usage : bool; ps_strict : bool }.

Definition no_pull : pull_state := {| ps_include_usage := true; ps_strict := false |}.

Inductive clientE : Type → Type :=
(* BaseClient *)
| ClientListResources : clientE (list ClientResource)
| ClientGetResource (resource_id : string) : clientE (option ClientResource)
| ClientCreateResource (name description organization : string) (parent_name : option string)
    : clientE unit
| ClientDeleteResource (name : string) : clientE unit
| ClientSetResourceLimits (resource_id : string) (limits : gmap string Z) : clientE unit
| ClientGetResourceLimits (resource_id : string) : clientE (gmap string Z)
| ClientGetResourceUserLimits (resource_id : string) : clientE (gmap string (gmap string Z))
| ClientSetResourceUserLimits (resource_id username : string) (limits : gmap string Z)
    : clientE unit
| ClientGetAssociation (user resource_id : string) : clientE (option Association)
| ClientCreateAssociation (username resource_id default_account : string) : clientE unit
| ClientDeleteAssociation (username resource_id : string) : clientE unit
| ClientListResourceUsers (resource_id : string) : clientE (list string)
(* methods a plugin has to fill in or may override *)
| Ping : clientE bool
| GetUsageReport (backend_ids : list string) : clientE (list (string * usage))
| CollectResourceLimits (r : WaldurResource) : clientE (gmap string Z * gmap string Z)
| PreCreateResource (r : WaldurResource) (ctx : option user_context) : clientE unit
| OnBackendResourceCreated (backend_id : string) (r : WaldurResource) : clientE unit
(* the hook may change the info it is given *)
| PostCreateResource (info : BackendResourceInfo) (r : WaldurResource)
    (ctx : option user_context) : clientE BackendResourceInfo
| PreDeleteResource (r : WaldurResource) : clientE unit
| PostDeleteResource (r : WaldurResource) : clientE unit
| PreDeleteUserActions (backend_id username : string) : clientE unit
(* an operation the class leaves to the plugin *)
| Plugin {X} (c : backendE X) : clientE X
(* the Waldur client an operation is handed *)
| OwnWaldur {X} (c : waldurE X) : clientE X.

Abbreviation backend_m := (M clientE pull_state).
Abbreviation pulled_report := (list (string * (WaldurResource * BackendResourceInfo))).

(** ** Unit factors *)

(** [int(x)]. *)
Definition py_int (x : pynum) : res Z :=
  match x with
  | PyInt z => Ok z
  | PyFloat (S754_zero _) => Ok 0
  | PyFloat (S754_finite s m e) =>
      let n := if 0 <=? e then Zpos m * 2 ^ e else Zpos m / 2 ^ (- e) in
      Ok (if s then - n else n)
  | PyFloat (S754_infinity _) =>
      Err (OtherException "cannot convert float infinity to integer")
  | PyFloat S754_nan => Err (ValueError "cannot convert float NaN to integer")
  end.

(** [value * factor]. *)
Definition py_mul (value : Z) (factor : pynum) : res pynum :=
  match factor with
  | PyInt f => Ok (PyInt (value * f))
  | PyFloat f =>
      match float_of_Z value with
      | Ok v => Ok (PyFloat (SFmul 53 1024 v f))
      | Err e => Err e
      end
  end.

(** What [value // factor] raises, if anything. *)
Definition py_floordiv_error (value : Z) (factor : pynum) : option exn :=
  match factor with
  | PyInt 0 => Some (OtherException "integer division or modulo by zero")
  | PyInt _ => None
  | PyFloat f =>
      match float_of_Z value with
      | Err e => Some e
      | Ok _ => match f with
                | S754_zero _ => Some (OtherException "float floor division by zero")
                | _ => None
                end
      end
  end.

Section BaseBackend.
Context (cfg : backend_config).

(** [backend_components.get(key, {}).get("unit_factor", 1)]. *)
Definition unit_factor (key : string) : pynum :=
  match dict_get (bb_components cfg) key with
  | Some (Some f) => f
  | _ => PyInt 1
  end.

Definition to_backend_units (key : string) (value : Z) : res Z :=
  match py_mul value (unit_factor key) with
  | Ok x => py_int x
  | Err e => Err e
  end.

Fixpoint convert_items (l : list (string * Z)) : res (list (string * Z)) :=
  match l with
  | [] => Ok []
  | (key, value) :: l' =>
      match to_backend_units key value with
      | Err e => Err e
      | Ok v => match convert_items l' with
                | Err e => Err e
                | Ok l'' => Ok ((key, v) :: l'')
                end
      end
  end.

Definition convert_limits (limits : gmap string Z) : res (gmap string Z) :=
  match convert_items (map_to_list limits) with
  | Ok l => Ok (list_to_map l)
  | Err e => Err e
  end.

Definition get_resource_backend_id (resource_slug : string) : string :=
  str_lower (bb_allocation_prefix cfg +:+ resource_slug).

Definition get_project_backend_id (slug : string) : string := bb_project_prefix cfg +:+ slug.

Definition get_customer_backend_id (slug : string) : string := bb_customer_prefix cfg +:+ slug.

(** ** Limits *)

Definition set_resource_limits (backend_id : string) (limits : gmap string Z) : backend_m unit :=
  let! converted := of_res (convert_limits limits) in
  call (ClientSetResourceLimits backend_id converted).

(** The division the log message needs, of the keys that are components. *)
Fixpoint log_limits_error (l : list (string * Z)) : option exn :=
  match l with
  | [] => None
  | (key, value) :: l' =>
      match dict_get (bb_components cfg) key with
      | None => log_limits_error l'
      | Some _ => match py_floordiv_error value (unit_factor key) with
                  | Some e => Some e
                  | None => log_limits_error l'
                  end
      end
  end.

Definition setup_resource_limits (backend_id : string) (r : WaldurResource)
  : backend_m (gmap string Z) :=
  let! limits := call (CollectResourceLimits r) in
  let '(backend_limits, waldur_limits) := limits in
  if negb (map_truthy backend_limits) then ret ∅
  else
    match log_limits_error (map_to_list backend_limits) with
    | Some e => raise e
    | None =>
        call (ClientSetResourceLimits backend_id backend_limits) ;!
        ret waldur_limits
    end.

(** ** Pulling *)

Definition empty_usage : usage :=
  [("TOTAL_ACCOUNT_USAGE"%string, map (λ c, (c.1, S754_zero false)) (bb_components cfg))].

Definition with_usage (users : list string) (u : usage) : BackendResourceInfo :=
  {| info_backend_id := ""; info_parent_id := ""; info_effective_id := ""; info_users := users;
     info_usage := u; info_limits := ∅; info_pending_order_id := "";
     info_backend_metadata := ∅; info_endpoints := [] |}.

Definition pull_backend_resource (backend_id : string)
  : backend_m (option BackendResourceInfo) :=
  let! resource := call (ClientGetResource backend_id) in
  match resource with
  | None => ret None
  | Some _ =>
      let! users := call (ClientListResourceUsers backend_id) in
      let! s := get_st in
      let! report := (if ps_include_usage s then call (GetUsageReport [backend_id]) else ret []) in
      ret (Some (with_usage users (from_option id empty_usage (dict_get report backend_id))))
  end.

(** The rest of a pull, for any [_pull_backend_resource], where the flags of the pull are
    part of a larger state. *)
Section Pulling.
Context {E : Type → Type} {S : Type} (flags : S → pull_state) (set_flags : pull_state → S → S).

Definition pull_resource_with (pull_backend : string → M E S (option BackendResourceInfo))
    (r : WaldurResource) : M E S (option BackendResourceInfo) :=
  let! pulled := attempt (
    if negb (nonempty (res_backend_id r)) then ret None
    else pull_backend (res_backend_id r)) in
  match pulled with
  | Ok info => ret info
  | Err e => let! s := get_st in if ps_strict (flags s) then raise e else ret None
  end.

Definition pull_into_with (pull : WaldurResource → M E S (option BackendResourceInfo))
    (strict : bool) (report : pulled_report) (r : WaldurResource) : M E S pulled_report :=
  let! pulled := attempt (pull r) in
  match pulled with
  | Ok None => ret report
  | Ok (Some info) => ret (dict_set report (res_backend_id r) (r, info))
  | Err e =>
      if strict
      then raise (BackendError ("Unable to pull resource " +:+ res_backend_id r +:+ ": " +:+
                                exn_str e))
      else ret report
  end.

Definition pull_resources_with (pull : WaldurResource → M E S (option BackendResourceInfo))
    (rs : list WaldurResource) (include_usage strict : bool) : M E S pulled_report :=
  let! previous := get_st in
  modify_st (set_flags {| ps_include_usage := include_usage; ps_strict := strict |}) ;!
  let! report := attempt (fold_m rs (pull_into_with pull strict) []) in
  modify_st (set_flags (flags previous)) ;!
  of_res report.
End Pulling.

Definition pull_resource : WaldurResource → backend_m (option BackendResourceInfo) :=
  pull_resource_with (λ s, s) pull_backend_resource.

Definition pull_into : bool → pulled_report → WaldurResource → backend_m pulled_report :=
  pull_into_with pull_resource.

Definition pull_resources : list WaldurResource → bool → bool → backend_m pulled_report :=
  pull_resources_with (λ s, s) (λ s _, s) pull_resource.

(** ** Creating and deleting *)

Definition created_info (backend_id : string) (limits : gmap string Z) : BackendResourceInfo :=
  {| info_backend_id := backend_id; info_parent_id := ""; info_effective_id := "";
     info_users := []; info_usage := []; info_limits := limits; info_pending_order_id := "";
     info_backend_metadata := ∅; info_endpoints := [] |}.

Definition zero_limits : gmap string Z :=
  list_to_map (map (λ c, (c.1, 0)) (bb_components cfg)).

Definition is_child_of (project_id : string) (c : ClientResource) : bool :=
  String.eqb (cr_organization c) project_id && negb (String.eqb (cr_name c) project_id).

(** These methods call the client and the methods a plugin may override: here, what
    [client] makes of the calls, and what is passed as [setup] and [set_limits]. *)
Section Overridable.
Context {E : Type → Type} {S : Type} (client : ∀ X, clientE X → M E S X).

Definition create_backend_resource_with (backend_id name organization : string)
    (parent_name : option string) : M E S bool :=
  let! resource := client _ (ClientGetResource backend_id) in
  match resource with
  | None =>
      client _ (ClientCreateResource backend_id name organization parent_name) ;!
      ret true
  | Some _ => ret false
  end.

Definition create_resource_with (setup : string → WaldurResource → M E S (gmap string Z))
    (r : WaldurResource) (backend_id : string) (ctx : option user_context)
  : M E S BackendResourceInfo :=
  client _ (PreCreateResource r ctx) ;!
  let project_id := get_project_backend_id (res_project_slug r) in
  let! created :=
    create_backend_resource_with backend_id (res_name r) project_id (Some project_id) in
  if negb created then raise (DuplicateResourceError backend_id)
  else
    client _ (OnBackendResourceCreated backend_id r) ;!
    let! limits := setup backend_id r in
    client _ (PostCreateResource (created_info backend_id limits) r ctx).

Definition recreate_missing_with
    (create : WaldurResource → string → option user_context → M E S BackendResourceInfo)
    (r : WaldurResource) : M E S bool :=
  if negb (nonempty (res_backend_id r)) then ret false
  else
    let! resource := client _ (ClientGetResource (res_backend_id r)) in
    match resource with
    | Some _ => ret false
    | None => create r (res_backend_id r) None ;! ret true
    end.

Definition delete_resource_safely_with (backend_id : string) : M E S unit :=
  let! resource := client _ (ClientGetResource backend_id) in
  match resource with
  | Some _ => client _ (ClientDeleteResource backend_id)
  | None => ret ()
  end.

Definition delete_empty_project_with (slug : string) : M E S unit :=
  let project_id := get_project_backend_id slug in
  let! resources := client _ ClientListResources in
  match List.filter (is_child_of project_id) resources with
  | [] => delete_resource_safely_with project_id
  | _ => ret ()
  end.

(** The async answer of other backends, an order UUID, is never given here. *)
Definition delete_resource_with (set_limits : string → gmap string Z → M E S unit)
    (r : WaldurResource) (project_slug : option string) : M E S (option string) :=
  let backend_id := res_backend_id r in
  if blank backend_id then ret None
  else
    let! resource := client _ (ClientGetResource backend_id) in
    match resource with
    | None => ret None
    | Some _ =>
        client _ (PreDeleteResource r) ;!
        (if truthy (bb_soft_delete cfg) then set_limits backend_id zero_limits
         else
           delete_resource_safely_with backend_id ;!
           match project_slug with
           | Some slug => delete_empty_project_with slug
           | None => ret ()
           end) ;!
        client _ (PostDeleteResource r) ;!
        ret None
    end.

Definition remove_user_with (r : WaldurResource) (username : string) : M E S bool :=
  let backend_id := res_backend_id r in
  if blank backend_id then raise (BackendError "Empty resource backend ID")
  else
    let! association := client _ (ClientGetAssociation username backend_id) in
    match association with
    | None => ret false
    | Some _ =>
        let! deleted := attempt (
          client _ (PreDeleteUserActions backend_id username) ;!
          client _ (ClientDeleteAssociation username backend_id)) in
        match deleted with
        | Ok _ => ret true
        | Err e =>
            if is_backend_error e
            then raise (BackendError ("Unable to delete association between " +:+ username +:+
                                      " and " +:+ backend_id +:+ ": " +:+ exn_str e))
            else raise e
        end
    end.
End Overridable.

(** The methods of the class itself. *)
Definition create_resource_with_id : WaldurResource → string → option user_context →
    backend_m BackendResourceInfo := create_resource_with (@call _ _) setup_resource_limits.

Definition create_resource (r : WaldurResource) (ctx : option user_context)
  : backend_m BackendResourceInfo :=
  create_resource_with_id r (get_resource_backend_id (res_slug r)) ctx.

Definition recreate_missing_resource : WaldurResource → backend_m bool :=
  recreate_missing_with (@call _ _) create_resource_with_id.

Definition delete_resource_safely : string → backend_m unit :=
  delete_resource_safely_with (@call _ _).

Definition delete_empty_project : string → backend_m unit :=
  delete_empty_project_with (@call _ _).

Definition delete_resource : WaldurResource → option string → backend_m (option string) :=
  delete_resource_with (@call _ _) set_resource_limits.

Definition remove_user : WaldurResource → string → backend_m bool :=
  remove_user_with (@call _ _).

(** ** Users *)

(** [AddedUsers]: the users added, and those the backend failed to add with the cause. *)
Record added_users : Type := {
  au_added : gset string;
  au_failed : list (string * string);
}.

(** [RemovedUsers]. *)
Record removed : Type := {
  ru_removed : list string;
  ru_failed : list (string * string);
}.

Definition new_added (added : gset string) (failed : list (string * string)) : added_users :=
  {| au_added := added; au_failed := sort_items failed |}.

Definition new_removed (names : list string) (failed : list (string * string)) : removed :=
  {| ru_removed := names; ru_failed := sort_items failed |}.

Definition add_user (r : WaldurResource) (username : string) : backend_m bool :=
  let backend_id := res_backend_id r in
  if blank backend_id then raise (BackendError "Empty backend ID for resource")
  else if negb (nonempty username) then ret false
  else
    let! association := call (ClientGetAssociation username backend_id) in
    match association with
    | Some _ => ret true
    | None =>
        let! created := attempt (
          call (ClientCreateAssociation username backend_id (bb_default_account cfg))) in
        match created with
        | Ok _ => ret true
        | Err e =>
            if is_backend_error e
            then raise (BackendError ("Unable to create association between " +:+ username +:+
                                      " and " +:+ backend_id +:+ ": " +:+ exn_str e))
            else raise e
        end
    end.

(** The loops over the users call the [add_user] and [remove_user] of the plugin. *)
Definition try_add_with {E : Type → Type} {S} (add_user : string → M E S bool)
    (acc : gset string * list (string * string)) (username : string)
  : M E S (gset string * list (string * string)) :=
  let! added := attempt (add_user username) in
  match added with
  | Ok true => ret ({[username]} ∪ acc.1, acc.2)
  | Ok false => ret acc
  | Err (UserNotProvisionedError _) => ret acc
  | Err e => if is_backend_error e then ret (acc.1, dict_set acc.2 username (exn_str e))
             else raise e
  end.

Definition add_users_with {E : Type → Type} {S} (add_user : string → M E S bool)
    (user_ids : gset string) : M E S added_users :=
  match elements user_ids with
  | [] => ret (new_added ∅ [])
  | users =>
      let! acc := fold_m users (try_add_with add_user) (∅, []) in
      ret (new_added acc.1 acc.2)
  end.

Definition add_users_to_resource (r : WaldurResource) : gset string → backend_m added_users :=
  add_users_with (add_user r).

Definition try_remove_with {E : Type → Type} {S} (remove_user : string → M E S bool)
    (acc : list string * list (string * string)) (username : string)
  : M E S (list string * list (string * string)) :=
  let! gone := attempt (remove_user username) in
  match gone with
  | Ok true => ret (acc.1 ++ [username], acc.2)
  | Ok false => ret acc
  | Err e => if is_backend_error e then ret (acc.1, dict_set acc.2 username (exn_str e))
             else raise e
  end.

Definition remove_users_with {E : Type → Type} {S} (remove_user : string → M E S bool)
    (usernames : gset string) : M E S removed :=
  match elements usernames with
  | [] => ret (new_removed [] [])
  | users =>
      let! acc := fold_m users (try_remove_with remove_user) ([], []) in
      ret (new_removed acc.1 acc.2)
  end.

Definition remove_users_from_resource (r : WaldurResource) : gset string → backend_m removed :=
  remove_users_with (remove_user r).

(** ** The remaining operations *)

Definition run_preflight : backend_m unit :=
  let! reachable := call Ping in
  if reachable : bool then ret ()
  else raise (BackendNotReadyError ("Backend " +:+ bb_type cfg +:+ " not reachable (ping failed)")).

Definition list_resources : backend_m (list BackendResourceInfo) :=
  let! resources := call ClientListResources in
  ret (map (λ c, {| info_backend_id := cr_name c; info_parent_id := cr_organization c;
                    info_effective_id := ""; info_users := []; info_usage := [];
                    info_limits := ∅; info_pending_order_id := "";
                    info_backend_metadata := ∅; info_endpoints := [] |}) resources).

(** [common/utils.py: sync_waldur_resource_limits], with the [get_resource_limits] of the
    plugin. *)
Definition sync_waldur_limits_with {E : Type → Type} {S} (client : ∀ X, clientE X → M E S X)
    (get_limits : string → M E S (gmap string Z)) (r : WaldurResource) : M E S unit :=
  let! backend_limits := get_limits (res_backend_id r) in
  if negb (map_truthy backend_limits) then ret ()
  else
    match res_limits r with
    | None => raise (AttributeError "limits has no attribute 'additional_properties'")
    | Some limits =>
        if decide (limits = backend_limits) then ret ()
        else client _ (OwnWaldur (ResourceSetLimits (res_uuid r) backend_limits))
    end.

Definition sync_waldur_resource_limits : WaldurResource → backend_m unit :=
  sync_waldur_limits_with (@call _ _) (λ backend_id, call (ClientGetResourceLimits backend_id)).

(** The method table of the class. *)
Definition base_backend {X} (c : backendE X) : backend_m X :=
  match c in backendE X return backend_m X with
  | RunPreflight => run_preflight
  | EvaluatePendingOrder _ => ret ACCEPT
  | CheckPendingOrder _ => ret true
  | GetResourceBackendId slug => ret (get_resource_backend_id slug)
  | CreateResourceWithId r backend_id ctx =>
      let! info := create_resource_with_id r backend_id (Some ctx) in ret (Some info)
  | PullResource r => pull_resource r
  | PullResources rs include_usage strict => pull_resources rs include_usage strict
  | RecreateMissingResource r => recreate_missing_resource r
  | SetupResourceLimits backend_id r => setup_resource_limits backend_id r
  | SetResourceLimits backend_id limits => set_resource_limits backend_id limits ;! ret None
  | GetResourceLimits backend_id => call (ClientGetResourceLimits backend_id)
  | HasPrepaidComponents => ret false
  | DeleteResource r project_slug => delete_resource r (Some project_slug)
  | AddUsersToResource r users _ =>
      let! added := add_users_to_resource r users in ret (au_added added)
  | RemoveUsersFromResource r users _ =>
      let! gone := remove_users_from_resource r users in ret (RemovedNames (ru_removed gone))
  | AddUser r username _ _ => add_user r username
  | RemoveUser r username _ _ => remove_user r username
  | ProcessExistingUsers _ => ret ()
  | ReconcileExistingUserRoles _ _ _ _ => ret ()
  | GetResourceUserLimits backend_id => call (ClientGetResourceUserLimits backend_id)
  | SetResourceUserLimits backend_id username limits =>
      call (ClientSetResourceUserLimits backend_id username limits)
  | SyncResourceProject _ _ => ret ()
  | SyncProjectEndDate _ _ => ret ()
  | SyncResourceEndDate _ => ret ()
  | SyncResourceEffectiveId _ => ret ()
  | SyncResourceLimits r => sync_waldur_resource_limits r
  | SyncOfferingUserUsernames _ => ret false
  | RemoteWaldurBaseUrls => ret []
  | GetMembershipSyncReport _ => ret None
  | SyncResourceKeyAssignees _ _ => ret ()
  | PruneUnknownResourceKeys _ _ => ret ()
  (* abstract methods, and key methods of the plugins that support keys *)
  | c => call (Plugin c)
  end.
End BaseBackend.

(** ** Pulling resources *)

(** What a report says was answered in this history. *)
Definition report_sound (rs : list WaldurResource) (report : pulled_report) (H : trace clientE)
  : Prop :=
  NoDup (dict_keys report) ∧
  ∀ id r info, (id, (r, info)) ∈ report →
    id = res_backend_id r ∧ id ≠ "" ∧ r ∈ rs ∧
    Ev (ClientListResourceUsers id) (Ok (info_users info)) ∈ H.

(** A resource that is missing from the report is absent from the backend. *)
Definition report_complete (rs : list WaldurResource) (report : pulled_report) (H : trace clientE)
  : Prop :=
  ∀ r, r ∈ rs → res_backend_id r ≠ "" →
    res_backend_id r ∈ dict_keys report ∨
    Ev (ClientGetResource (res_backend_id r)) (Ok None) ∈ H.

(** A pull only reads, only the resources it was given, and usage only if asked. *)
Definition pull_guard (rs : list WaldurResource) (include_usage : bool) : guard clientE := λ X _ c,
  let pulled id := ∃ r, r ∈ rs ∧ res_backend_id r = id in
  match c with
  | ClientGetResource id => pulled id
  | ClientListResourceUsers id => pulled id
  | GetUsageReport ids => include_usage = true ∧ ∃ id, ids = [id] ∧ pulled id
  | _ => False
  end.

Lemma report_sound_later rs report L H :
  report_sound rs report H → report_sound rs report (L ++ H).
Proof.
  intros [Hn Hs]. split; [done|]. intros id r info Hin.
  destruct (Hs _ _ _ Hin) as (? & ? & ? & ?). split_and!; try done. apply elem_of_app; auto.
Qed.

Lemma report_complete_later rs report L H :
  report_complete rs report H → report_complete rs report (L ++ H).
Proof.
  intros Hc r Hr Hid. destruct (Hc r Hr Hid); [by left|]. right. apply elem_of_app; auto.
Qed.

Section PullProofs.
Context (cfg : backend_config) (rs : list WaldurResource).
Implicit Types (s : pull_state) (H : trace clientE).

(** What pulling one resource leaves behind. *)
Definition pulled_one (id : string) (info : option BackendResourceInfo) (H : trace clientE) : Prop :=
  match info with
  | None => Ev (ClientGetResource id) (Ok None) ∈ H
  | Some i => Ev (ClientListResourceUsers id) (Ok (info_users i)) ∈ H
  end.

Lemma pull_backend_resource_spec r s H :
  r ∈ rs →
  wpM (pull_guard rs (ps_include_usage s)) (pull_backend_resource cfg (res_backend_id r))
    (λ answer s' H', s' = s ∧ ∃ L, H' = L ++ H ∧
       match answer with
       | Ok info => pulled_one (res_backend_id r) info H'
       | Err _ => True
       end) s H.
Proof.
  intros Hr. unfold pull_backend_resource.
  wp_step. apply wpM_call; [by exists r|]. intros [[res|]|e]; cbv iota.
  - wp_step. apply wpM_call; [by exists r|]. intros [users|e]; cbv iota; wp_steps.
    + destruct (ps_include_usage s) eqn:Hu.
      * apply wpM_call; [by split; [|eexists; split; [|by exists r]]|].
        intros [report|e]; wp_steps; (split; [done|]).
        -- eexists [_; _; _]. split; [done|]. simpl. right. left.
        -- by eexists [_; _; _].
      * wp_steps. split; [done|]. eexists [_; _]. split; [done|]. left.
    + split; [done|]. by eexists [_; _].
  - wp_steps. split; [done|]. eexists [_]. split; [done|]. left.
  - split; [done|]. by eexists [_].
Qed.

Lemma pull_resource_spec r s H :
  r ∈ rs →
  wpM (pull_guard rs (ps_include_usage s)) (pull_resource cfg r)
    (λ answer s' H', s' = s ∧ ∃ L, H' = L ++ H ∧
       match answer with
       | Ok (Some i) => res_backend_id r ≠ "" ∧ pulled_one (res_backend_id r) (Some i) H'
       | Ok None => ps_strict s = true → res_backend_id r ≠ "" →
           pulled_one (res_backend_id r) None H'
       | Err _ => ps_strict s = true
       end) s H.
Proof.
  intros Hr. unfold pull_resource, pull_resource_with. wp_steps.
  destruct (nonempty (res_backend_id r)) eqn:Hn; simpl negb; cbv iota.
  - apply nonempty_spec in Hn. eapply wpM_mono; [by apply pull_backend_resource_spec|].
    intros [[i|]|e] s1 H1 (-> & L & -> & Hp); cbv iota.
    + wp_step. split; [done|]. exists L. done.
    + wp_step. split; [done|]. exists L. done.
    + wp_steps. destruct (ps_strict s); wp_steps; (split; [done|]); by exists L.
  - wp_steps. split; [done|]. exists []. split; [done|]. intros _ Hid.
    apply nonempty_spec in Hid. congruence.
Qed.

Lemma pull_into_spec done report r s H :
  r ∈ rs → report_sound rs report H →
  (ps_strict s = true → report_complete done report H) →
  wpM (pull_guard rs (ps_include_usage s)) (pull_into cfg (ps_strict s) report r)
    (λ answer s' H', s' = s ∧
       match answer with
       | Ok report' => report_sound rs report' H' ∧
           (ps_strict s = true → report_complete (done ++ [r]) report' H')
       | Err e => ps_strict s = true ∧ is_backend_error e = true
       end) s H.
Proof.
  intros Hr Hs Hc. unfold pull_into, pull_into_with. wp_steps.
  eapply wpM_mono; [by apply pull_resource_spec|].
  intros [[i|]|e] s1 H1 (-> & L & -> & Hp); cbv iota.
  - wp_step. split; [done|]. destruct Hp as [Hid Hp].
    apply (report_sound_later _ _ L) in Hs as [Hn Hs]. split.
    + split; [by apply dict_set_NoDup|]. intros id r' i' [[= -> -> ->]|Hin]%elem_of_dict_set; eauto.
    + intros Hst r' [Hr'|Hr']%elem_of_app Hid'; rewrite dict_set_keys_elem.
      * destruct (report_complete_later _ _ L _ (Hc Hst) r' Hr' Hid'); tauto.
      * apply list_elem_of_singleton in Hr' as ->. tauto.
  - wp_step. split; [done|]. split; [by apply report_sound_later|].
    intros Hst r' [Hr'|Hr']%elem_of_app Hid'.
    + by apply (report_complete_later _ _ L _ (Hc Hst)).
    + apply list_elem_of_singleton in Hr' as ->. right. by apply Hp.
  - rewrite Hp. wp_step. done.
Qed.
End PullProofs.

Lemma pull_resources_spec cfg rs include_usage strict s H :
  wpM (pull_guard rs include_usage) (pull_resources cfg rs include_usage strict)
    (λ answer s' H', s' = s ∧
       match answer with
       | Ok report => report_sound rs report H' ∧
           (strict = true → report_complete rs report H')
       | Err e => strict = true ∧ is_backend_error e = true
       end) s H.
Proof.
  unfold pull_resources, pull_resources_with. wp_steps.
  set (s1 := {| ps_include_usage := include_usage; ps_strict := strict |}).
  apply (wpM_fold_m _ _ _ (λ done report s' H', s' = s1 ∧ report_sound rs report H' ∧
    (strict = true → report_complete done report H'))).
  - intros done r report s2 H2 [ys Hl] (-> & Hs & Hc).
    eapply wpM_mono; [apply (pull_into_spec cfg rs done report r s1 H2)|]; try done.
    { rewrite Hl, elem_of_app. right. left. }
    intros [report'|e] s3 H3 [-> Hp]; [done|]. wp_steps. done.
  - intros report s2 H2 (-> & Hs & Hc). wp_steps. done.
  - split; [done|]. split; [|intros _ r Hr; by apply elem_of_nil in Hr].
    split; [constructor|]. intros id r i Hin. by apply elem_of_nil in Hin.
Qed.

(** ** Users, one by one *)

(** The account of a loop over users: [ok] are those it settled, [failed] those the
    backend refused, and each other user it went through was skipped for a reason. *)
Definition tally (settled skipped : string → trace clientE → Prop) (users : list string)
    (ok : string → Prop) (failed : list (string * string)) (H : trace clientE) : Prop :=
  (∀ n, ok n ↔ settled n H) ∧
  (∀ n, ok n → n ∈ users) ∧
  (∀ n, n ∈ dict_keys failed → n ∈ users ∧ ¬ ok n) ∧
  (∀ n, n ∈ users → ok n ∨ n ∈ dict_keys failed ∨ skipped n H).

(** What one user came to. *)
Inductive verdict : Type :=
| Settled
| Failed (cause : string)
| Skipped.

Definition record_failure (u : string) (v : verdict) (failed : list (string * string))
  : list (string * string) :=
  match v with Failed cause => dict_set failed u cause | _ => failed end.

Section Tally.
Context (settled skipped : string → trace clientE → Prop).
Context (skipped_later : ∀ n L H, skipped n H → skipped n (L ++ H)).

Lemma tally_nil ok H : (∀ n, ¬ ok n) → (∀ n, ¬ settled n H) → tally settled skipped [] ok [] H.
Proof.
  intros Hok Hs. split_and!; [naive_solver|naive_solver|..]; intros n Hn;
    by apply elem_of_nil in Hn.
Qed.

Lemma tally_step users u v ok ok' failed L H :
  tally settled skipped users ok failed H → u ∉ users →
  (∀ n, ok' n ↔ ok n ∨ (n = u ∧ v = Settled)) →
  (∀ n, settled n (L ++ H) ↔ settled n H ∨ (n = u ∧ v = Settled)) →
  (v = Skipped → skipped u (L ++ H)) →
  tally settled skipped (users ++ [u]) ok' (record_failure u v failed) (L ++ H).
Proof.
  intros (Hok & Hin & Hf & Hall) Hu Hok' Hset Hskip.
  assert (Hnew : ∀ n, n ∈ dict_keys (record_failure u v failed) ↔
                      n ∈ dict_keys failed ∨ (n = u ∧ ∃ cause, v = Failed cause)).
  { intros n. destruct v; simpl; [|rewrite dict_set_keys_elem|]; naive_solver. }
  split_and!.
  - intros n. rewrite Hok', Hset, Hok. done.
  - intros n. rewrite Hok', elem_of_app, list_elem_of_singleton. naive_solver.
  - intros n. rewrite Hnew, Hok', elem_of_app, list_elem_of_singleton. naive_solver.
  - intros n. rewrite Hnew, Hok', elem_of_app, list_elem_of_singleton.
    intros [Hn| ->]; [naive_solver|]. destruct v; naive_solver.
Qed.

Lemma tally_ext users ok ok' failed H :
  (∀ n, ok n ↔ ok' n) →
  tally settled skipped users ok failed H → tally settled skipped users ok' failed H.
Proof. unfold tally. naive_solver. Qed.
End Tally.

Lemma dict_keys_sorted {V} (l : list (string * V)) n :
  n ∈ dict_keys (sort_items l) ↔ n ∈ dict_keys l.
Proof.
  unfold dict_keys. rewrite !list_elem_of_fmap.
  by setoid_rewrite elem_of_sort_items.
Qed.

(** The event shows that the user is associated with the resource. *)
Definition shows_association (account id username : string) (ev : event clientE) : bool :=
  match ev with
  | Ev c r =>
      match c in clientE X return res X → bool with
      | ClientGetAssociation u i => λ r,
          match r with
          | Ok (Some _) => String.eqb u username && String.eqb i id
          | _ => false
          end
      | ClientCreateAssociation u i a => λ r,
          match r with
          | Ok _ => String.eqb u username && String.eqb i id && String.eqb a account
          | Err _ => false
          end
      | _ => λ _, false
      end r
  end.

(** The event shows that the user's association was deleted. *)
Definition shows_deletion (id username : string) (ev : event clientE) : bool :=
  match ev with
  | Ev c r =>
      match c in clientE X return res X → bool with
      | ClientDeleteAssociation u i => λ r,
          match r with
          | Ok _ => String.eqb u username && String.eqb i id
          | Err _ => false
          end
      | _ => λ _, false
      end r
  end.

Definition associated (account id username : string) (H : trace clientE) : Prop :=
  existsb (shows_association account id username) H = true.

Definition association_deleted (id username : string) (H : trace clientE) : Prop :=
  existsb (shows_deletion id username) H = true.

Definition not_addable (id username : string) (H : trace clientE) : Prop :=
  username = "" ∨
  ∃ msg, Ev (ClientGetAssociation username id) (Err (UserNotProvisionedError msg)) ∈ H.

Definition no_association (id username : string) (H : trace clientE) : Prop :=
  Ev (ClientGetAssociation username id) (Ok None) ∈ H.

(** Associations are created only for the users asked for, with the resource asked
    for, right after the backend said that there is none. *)
Definition add_guard (cfg : backend_config) (r : WaldurResource) (users : gset string)
  : guard clientE := λ X H c,
  match c with
  | ClientGetAssociation u id => id = res_backend_id r ∧ u ∈ users ∧ u ≠ ""
  | ClientCreateAssociation u id account =>
      id = res_backend_id r ∧ u ∈ users ∧ account = bb_default_account cfg ∧
      ∃ H', H = Ev (ClientGetAssociation u id) (Ok None) :: H'
  | _ => False
  end.

(** Associations are deleted only for the users asked for, after the backend said that
    there is one and the plugin cleaned up after the user. *)
Definition remove_guard (r : WaldurResource) (users : gset string) : guard clientE := λ X H c,
  match c with
  | ClientGetAssociation u id => id = res_backend_id r ∧ u ∈ users
  | PreDeleteUserActions id u =>
      id = res_backend_id r ∧ u ∈ users ∧
      ∃ a H', H = Ev (ClientGetAssociation u id) (Ok (Some a)) :: H'
  | ClientDeleteAssociation u id =>
      id = res_backend_id r ∧ u ∈ users ∧
      ∃ a H', H = Ev (PreDeleteUserActions id u) (Ok ()) ::
                  Ev (ClientGetAssociation u id) (Ok (Some a)) :: H'
  | _ => False
  end.

Section UserProofs.
Context (cfg : backend_config) (r : WaldurResource) (users : gset string).
Local Abbreviation id := (res_backend_id r).
Local Abbreviation account := (bb_default_account cfg).
Implicit Types (s : pull_state) (H : trace clientE).

Lemma add_user_spec u s H :
  u ∈ users →
  wpM (add_guard cfg r users) (add_user cfg r u) (λ answer _ H', ∃ L, H' = L ++ H ∧
    (∀ n, existsb (shows_association account id n) L = true ↔ n = u ∧ answer = Ok true) ∧
    (answer = Ok false → u = "") ∧
    (∀ msg, answer = Err (UserNotProvisionedError msg) → not_addable id u H')) s H.
Proof.
  intros Hu. unfold add_user. cbv zeta.
  destruct (blank id). { wp_step. exists []. split_and!; naive_solver. }
  destruct (nonempty u) eqn:Hn; simpl negb; cbv iota.
  2:{ wp_step. exists []. split_and!; try naive_solver. intros _.
      unfold nonempty in Hn. apply negb_false_iff, String.eqb_eq in Hn. done. }
  apply nonempty_spec in Hn. wp_step. apply wpM_call; [done|]. intros [[a|]|e]; cbv iota.
  - wp_step. eexists [_]. split; [done|]. simpl.
    split_and!; [|naive_solver..]. intros n. rewrite orb_false_r, andb_true_iff, !String.eqb_eq.
    naive_solver.
  - wp_steps. apply wpM_call; [split_and!; eauto|]. intros [[]|e]; cbv iota.
    + wp_step. eexists [_; _]. split; [done|]. simpl. split_and!; [|naive_solver..].
      intros n. rewrite !orb_false_r, !andb_true_iff, !String.eqb_eq. naive_solver.
    + destruct (is_backend_error e) eqn:He; wp_step; eexists [_; _]; (split; [done|]); simpl;
        split_and!; try naive_solver.
  - eexists [_]. split; [done|]. simpl. split_and!; try naive_solver.
    intros msg [= ->]. right. exists msg. left.
Qed.

Lemma remove_user_spec u s H :
  u ∈ users →
  wpM (remove_guard r users) (remove_user r u) (λ answer _ H', ∃ L, H' = L ++ H ∧
    (∀ n, existsb (shows_deletion id n) L = true ↔ n = u ∧ answer = Ok true) ∧
    (answer = Ok false → no_association id u H')) s H.
Proof.
  intros Hu. unfold remove_user, remove_user_with. cbv zeta.
  destruct (blank id). { wp_step. exists []. split_and!; naive_solver. }
  wp_step. apply wpM_call; [done|]. intros [[a|]|e]; cbv iota.
  - wp_steps. apply wpM_call; [split_and!; eauto|]. intros [[]|e]; cbv iota.
    + apply wpM_call; [split_and!; eauto|]. intros [[]|e]; cbv iota.
      * wp_step. eexists [_; _; _]. split; [done|]. simpl. split_and!; [|done].
        intros n. rewrite !orb_false_r, !andb_true_iff, !String.eqb_eq. naive_solver.
      * destruct (is_backend_error e); wp_step; eexists [_; _; _]; (split; [done|]); simpl;
          naive_solver.
    + destruct (is_backend_error e); wp_step; eexists [_; _]; (split; [done|]); simpl;
        naive_solver.
  - wp_step. eexists [_]. split; [done|]. simpl. split; [naive_solver|]. intros _. left.
  - eexists [_]. split; [done|]. simpl. naive_solver.
Qed.
End UserProofs.

Section UserLoops.
Context (cfg : backend_config) (r : WaldurResource) (users : gset string).
Local Abbreviation id := (res_backend_id r).
Local Abbreviation account := (bb_default_account cfg).
Implicit Types (s : pull_state) (H : trace clientE).

Lemma associated_later n L H :
  associated account id n (L ++ H) ↔
  associated account id n H ∨ existsb (shows_association account id n) L = true.
Proof. unfold associated. rewrite existsb_app, orb_true_iff. tauto. Qed.

Lemma association_deleted_later n L H :
  association_deleted id n (L ++ H) ↔
  association_deleted id n H ∨ existsb (shows_deletion id n) L = true.
Proof. unfold association_deleted. rewrite existsb_app, orb_true_iff. tauto. Qed.

Lemma not_addable_later n L H : not_addable id n H → not_addable id n (L ++ H).
Proof. intros [?|[msg ?]]; [by left|]. right. exists msg. apply elem_of_app; auto. Qed.

Lemma no_association_later n L H : no_association id n H → no_association id n (L ++ H).
Proof. intros ?. apply elem_of_app; auto. Qed.

Lemma try_add_user_spec done acc u s H :
  u ∈ users → u ∉ done →
  tally (associated account id) (not_addable id) done (λ n, n ∈ acc.1) acc.2 H →
  wpM (add_guard cfg r users) (try_add_with (add_user cfg r) acc u) (λ answer _ H',
    match answer with
    | Ok acc' => tally (associated account id) (not_addable id) (done ++ [u])
                   (λ n, n ∈ acc'.1) acc'.2 H'
    | Err e => is_backend_error e = false
    end) s H.
Proof.
  intros Hu Hd Ht. unfold try_add_with. wp_steps.
  eapply wpM_mono; [by apply add_user_spec|]. intros answer s' H' (L & -> & Hs & Hf & Hp).
  assert (Hstep : ∀ v ok', (∀ n, ok' n ↔ n ∈ acc.1 ∨ (n = u ∧ v = Settled)) →
    (v = Settled ↔ answer = Ok true) → (v = Skipped → not_addable id u (L ++ H)) →
    tally (associated account id) (not_addable id) (done ++ [u]) ok' (record_failure u v acc.2)
      (L ++ H)).
  { intros v ok' Hok Hv Hskip. eapply tally_step; [intros; by apply not_addable_later|apply Ht|done|done| |done].
    intros n. rewrite associated_later, Hs. naive_solver. }
  destruct answer as [[]|e].
  - wp_step. apply (Hstep Settled); [intros n; set_solver|naive_solver..].
  - wp_step. apply (Hstep Skipped); [naive_solver|naive_solver|]. intros _. left. by apply Hf.
  - destruct (is_backend_error e) eqn:He.
    + destruct e; try discriminate He; wp_step.
      all: first [by apply (Hstep (Failed _)); naive_solver
                 |apply (Hstep Skipped); [naive_solver|naive_solver|]; intros _; by eapply Hp].
    + by destruct e; wp_step.
Qed.

Lemma try_remove_user_spec done acc u s H :
  u ∈ users → u ∉ done →
  tally (association_deleted id) (no_association id) done (λ n, n ∈ acc.1) acc.2 H →
  wpM (remove_guard r users) (try_remove_with (remove_user r) acc u) (λ answer _ H',
    match answer with
    | Ok acc' => tally (association_deleted id) (no_association id) (done ++ [u])
                   (λ n, n ∈ acc'.1) acc'.2 H'
    | Err e => is_backend_error e = false
    end) s H.
Proof.
  intros Hu Hd Ht. unfold try_remove_with. wp_steps.
  eapply wpM_mono; [by apply remove_user_spec|]. intros answer s' H' (L & -> & Hs & Hf).
  assert (Hstep : ∀ v ok', (∀ n, ok' n ↔ n ∈ acc.1 ∨ (n = u ∧ v = Settled)) →
    (v = Settled ↔ answer = Ok true) → (v = Skipped → no_association id u (L ++ H)) →
    tally (association_deleted id) (no_association id) (done ++ [u]) ok'
      (record_failure u v acc.2) (L ++ H)).
  { intros v ok' Hok Hv Hskip. eapply tally_step; [intros; by apply no_association_later|apply Ht|done|done| |done].
    intros n. rewrite association_deleted_later, Hs. naive_solver. }
  destruct answer as [[]|e].
  - wp_step. apply (Hstep Settled); [|naive_solver..].
    intros n. simpl. rewrite elem_of_app, list_elem_of_singleton. naive_solver.
  - wp_step. apply (Hstep Skipped); [naive_solver|naive_solver|auto].
  - destruct (is_backend_error e) eqn:He; wp_step; [|done].
    apply (Hstep (Failed _)); naive_solver.
Qed.
End UserLoops.

Lemma tally_elements {A} (settled skipped : string → trace clientE → Prop)
    (names : gset string) (G : guard clientE) (step : A → string → backend_m A)
    (ok : A → string → Prop) (failed : A → list (string * string)) a0 s :
  (∀ n, ¬ ok a0 n) → failed a0 = [] → (∀ n, ¬ settled n []) →
  (∀ done acc u s H, u ∈ names → u ∉ done →
     tally settled skipped done (ok acc) (failed acc) H →
     wpM G (step acc u) (λ answer _ H', match answer with
       | Ok acc' => tally settled skipped (done ++ [u]) (ok acc') (failed acc') H'
       | Err e => is_backend_error e = false
       end) s H) →
  wpM G (fold_m (elements names) step a0) (λ answer _ H', match answer with
    | Ok acc => tally settled skipped (elements names) (ok acc) (failed acc) H'
    | Err e => is_backend_error e = false
    end) s [].
Proof.
  intros Hok Hf Hs Hstep.
  apply (wpM_fold_m _ _ _ (λ done acc _ H', tally settled skipped done (ok acc) (failed acc) H')).
  - intros done u acc s1 H1 [ys Hl] Ht. apply Hstep; [|..|done].
    + rewrite <- elem_of_elements, Hl, elem_of_app. right. left.
    + pose proof (NoDup_elements names) as Hnd. rewrite Hl in Hnd.
      apply NoDup_app in Hnd as (_ & Hnd & _). intros Hin. apply (Hnd u Hin). left.
  - done.
  - rewrite Hf. by apply tally_nil.
Qed.

Lemma tally_sorted settled skipped users ok failed H :
  tally settled skipped users ok failed H → tally settled skipped users ok (sort_items failed) H.
Proof.
  intros (? & ? & Hf & Hall). split_and!; [done|done|..]; intros n; rewrite dict_keys_sorted; auto.
Qed.

(** The account [add_users_to_resource] gives of the users it was asked to add. *)
Definition addition_account (cfg : backend_config) (r : WaldurResource) (users : gset string)
    (answer : res added_users) (H : trace clientE) : Prop :=
  match answer with
  | Ok added =>
      tally (associated (bb_default_account cfg) (res_backend_id r)) (not_addable (res_backend_id r))
        (elements users) (λ n, n ∈ au_added added) (au_failed added) H
  | Err e => is_backend_error e = false
  end.

Definition removal_account (r : WaldurResource) (users : gset string) (answer : res removed)
    (H : trace clientE) : Prop :=
  match answer with
  | Ok gone =>
      tally (association_deleted (res_backend_id r)) (no_association (res_backend_id r))
        (elements users) (λ n, n ∈ ru_removed gone) (ru_failed gone) H
  | Err e => is_backend_error e = false
  end.

Lemma add_users_spec cfg r users s :
  wpM (add_guard cfg r users) (add_users_to_resource cfg r users)
    (λ answer _ H', addition_account cfg r users answer H') s [].
Proof.
  unfold add_users_to_resource, add_users_with, addition_account.
  destruct (elements users) as [|u us] eqn:Hel.
  { wp_step. apply tally_nil; [set_solver|done]. }
  rewrite <- Hel. wp_step. eapply wpM_mono.
  - apply (tally_elements (associated (bb_default_account cfg) (res_backend_id r))
      (not_addable (res_backend_id r)) users _ _ (λ acc n, n ∈ acc.1) snd);
      [set_solver|done|done|intros; by apply try_add_user_spec].
  - intros [acc|e] s1 H1 Ht; [|done]. wp_step. by apply tally_sorted.
Qed.

Lemma remove_users_spec r users s :
  wpM (remove_guard r users) (remove_users_from_resource r users)
    (λ answer _ H', removal_account r users answer H') s [].
Proof.
  unfold remove_users_from_resource, remove_users_with, removal_account.
  destruct (elements users) as [|u us] eqn:Hel.
  { wp_step. apply tally_nil; [|done]. simpl. intros n Hn. by apply elem_of_nil in Hn. }
  rewrite <- Hel. wp_step. eapply wpM_mono.
  - apply (tally_elements (association_deleted (res_backend_id r))
      (no_association (res_backend_id r)) users _ _ (λ acc n, n ∈ acc.1) snd);
      [|done|done|intros; by apply try_remove_user_spec].
    intros n Hn. by apply elem_of_nil in Hn.
  - intros [acc|e] s1 H1 Ht; [|done]. wp_step. by apply tally_sorted.
Qed.

(** Adding users tries each of them: those who have an association afterwards, and
    only those, are reported added; everyone else is reported failed, unless the name
    is blank or the backend knows that the user is not provisioned yet.  Associations
    are created only for the users asked for, right after the backend said there is
    none.  Only an exception that is no backend error leaves users untried. *)
Theorem users_added_accounted cfg r users s τ s' answer τ1 τ2 {X} (c : clientE X) a :
  runs (add_users_to_resource cfg r users s) τ (s', answer) →
  addition_account cfg r users answer (rev τ) ∧
  (τ = τ1 ++ Ev c a :: τ2 → add_guard cfg r users X (rev τ1) c).
Proof.
  intros Hrun. pose proof (add_users_spec cfg r users s) as Hspec.
  split; [exact (proj1 (wpM_sound _ _ _ _ _ _ _ Hspec Hrun))|].
  intros Hτ. exact (wpM_call_guard _ _ _ _ _ _ _ _ _ _ _ Hspec Hrun Hτ).
Qed.

(** Removing users tries each of them: those whose association was deleted, and
    only those, are reported removed; everyone else is reported failed, unless the
    backend said that there was no association.  An association is deleted only for a
    user asked for, after the backend said there is one and the user was cleaned up
    after.  Only an exception that is no backend error leaves users untried. *)
Theorem users_removed_accounted r users s τ s' answer τ1 τ2 {X} (c : clientE X) a :
  runs (remove_users_from_resource r users s) τ (s', answer) →
  removal_account r users answer (rev τ) ∧
  (τ = τ1 ++ Ev c a :: τ2 → remove_guard r users X (rev τ1) c).
Proof.
  intros Hrun. pose proof (remove_users_spec r users s) as Hspec.
  split; [exact (proj1 (wpM_sound _ _ _ _ _ _ _ Hspec Hrun))|].
  intros Hτ. exact (wpM_call_guard _ _ _ _ _ _ _ _ _ _ _ Hspec Hrun Hτ).
Qed.

(** C10: a pull reads only the resources it is given, and their usage only if asked;
    its flags never outlive it; each entry of the report is a given resource with the
    users the backend listed for it.  A strict pull leaves out only resources the
    backend said it does not have, and raises a backend error when it could not be
    answered; a lenient one never raises. *)
Theorem pull_resources_faithful cfg rs include_usage strict s τ s' answer τ1 τ2 {X} (c : clientE X) a :
  runs (pull_resources cfg rs include_usage strict s) τ (s', answer) →
  s' = s ∧
  match answer with
  | Ok report => report_sound rs report (rev τ) ∧
      (strict = true → report_complete rs report (rev τ))
  | Err e => strict = true ∧ is_backend_error e = true
  end ∧
  (τ = τ1 ++ Ev c a :: τ2 → pull_guard rs include_usage X (rev τ1) c).
Proof.
  intros Hrun. pose proof (pull_resources_spec cfg rs include_usage strict s []) as Hspec.
  destruct (wpM_sound _ _ _ _ _ _ _ Hspec Hrun) as [[Hs Ha] _]. split_and!; [done|done|].
  intros Hτ. exact (wpM_call_guard _ _ _ _ _ _ _ _ _ _ _ Hspec Hrun Hτ).
Qed.

(** ** Limits *)

Lemma convert_items_keys cfg l l' : convert_items cfg l = Ok l' → l'.*1 = l.*1.
Proof.
  revert l'; induction l as [|[k v] l IH]; simpl; intros l' Hl; [by simplify_eq|].
  destruct (to_backend_units cfg k v); [|done]. destruct (convert_items cfg l) as [l1|]; [|done].
  simplify_eq/=. by rewrite (IH l1).
Qed.

Lemma convert_items_spec cfg l l' k v' :
  convert_items cfg l = Ok l' →
  (k, v') ∈ l' ↔ ∃ v, (k, v) ∈ l ∧ to_backend_units cfg k v = Ok v'.
Proof.
  revert l'; induction l as [|[k0 v0] l IH]; simpl; intros l' Hl.
  - simplify_eq. setoid_rewrite elem_of_nil. naive_solver.
  - destruct (to_backend_units cfg k0 v0) eqn:H0; [|done].
    destruct (convert_items cfg l) as [l1|] eqn:H1; [|done]. simplify_eq.
    setoid_rewrite elem_of_cons. rewrite (IH l1) by done. split.
    + intros [[= -> ->]|(v & ? & ?)]; [by exists v0; auto|by exists v; auto].
    + intros (v & [[= -> ->]|?] & ?); [left; congruence|right; eauto].
Qed.

(** Conversion keeps the keys and converts every value by its own factor. *)
Lemma convert_limits_spec cfg limits converted k v' :
  convert_limits cfg limits = Ok converted →
  converted !! k = Some v' ↔ ∃ v, limits !! k = Some v ∧ to_backend_units cfg k v = Ok v'.
Proof.
  unfold convert_limits. destruct (convert_items cfg (map_to_list limits)) as [l|] eqn:Hl; [|done].
  intros [= <-]. rewrite <- elem_of_list_to_map.
  - rewrite (convert_items_spec _ _ _ _ _ Hl). by setoid_rewrite elem_of_map_to_list.
  - rewrite (convert_items_keys _ _ _ Hl). apply NoDup_fst_map_to_list.
Qed.

Lemma to_backend_units_zero cfg k v : to_backend_units cfg k 0 = Ok v → v = 0.
Proof.
  unfold to_backend_units. destruct (unit_factor cfg k) as [f|f]; simpl; [naive_solver|].
  by destruct f; simpl; intros; simplify_eq.
Qed.

Lemma zero_limits_lookup cfg k v : zero_limits cfg !! k = Some v → v = 0.
Proof.
  unfold zero_limits. intros Hv%elem_of_list_to_map_2%list_elem_of_In%in_map_iff. naive_solver.
Qed.

Lemma zero_limits_converted cfg converted :
  convert_limits cfg (zero_limits cfg) = Ok converted → ∀ k v, converted !! k = Some v → v = 0.
Proof.
  intros Hc k v (v0 & H0 & Hv)%(convert_limits_spec _ _ _ _ _ Hc).
  apply zero_limits_lookup in H0 as ->. by apply to_backend_units_zero in Hv.
Qed.

(** ** Deleting a resource *)

Definition all_zero (limits : gmap string Z) : Prop := ∀ k v, limits !! k = Some v → v = 0.

(** A resource is deleted for good only when the settings say so, right after the
    backend said that it is there; its project goes only when the latest listing, right
    before, shows no other resource in it.  A soft deletion sets limits to zero. *)
Definition delete_guard (cfg : backend_config) (r : WaldurResource) (project_slug : option string)
  : guard clientE := λ X H c,
  match c with
  | ClientGetResource id =>
      id = res_backend_id r ∨ ∃ slug, project_slug = Some slug ∧ id = get_project_backend_id cfg slug
  | ClientListResources => truthy (bb_soft_delete cfg) = false
  | ClientDeleteResource id =>
      truthy (bb_soft_delete cfg) = false ∧
      ∃ found H', H = Ev (ClientGetResource id) (Ok (Some found)) :: H' ∧
        (id = res_backend_id r ∨
         ∃ slug resources H'', project_slug = Some slug ∧ id = get_project_backend_id cfg slug ∧
           H' = Ev ClientListResources (Ok resources) :: H'' ∧
           ∀ child, child ∈ resources → cr_organization child = id → cr_name child = id)
  | ClientSetResourceLimits id limits =>
      truthy (bb_soft_delete cfg) = true ∧ id = res_backend_id r ∧ all_zero limits
  | PreDeleteResource r' => r' = r
  | PostDeleteResource r' => r' = r
  | _ => False
  end.

(** The resource is out of use: absent, deleted, or left without limits. *)
Definition out_of_use (cfg : backend_config) (id : string) (H : trace clientE) : Prop :=
  Ev (ClientGetResource id) (Ok None) ∈ H ∨
  Ev (ClientDeleteResource id) (Ok ()) ∈ H ∨
  (truthy (bb_soft_delete cfg) = true ∧
   ∃ limits, all_zero limits ∧ Ev (ClientSetResourceLimits id limits) (Ok ()) ∈ H).

Section DeleteProofs.
Context (cfg : backend_config) (r : WaldurResource) (project_slug : option string).
Local Abbreviation G := (delete_guard cfg r project_slug).
Implicit Types (s : pull_state) (H : trace clientE).

Lemma out_of_use_cons id ev H : out_of_use cfg id H → out_of_use cfg id (ev :: H).
Proof.
  intros [?|[?|(? & l & ? & ?)]]; [left; by right|right; left; by right|].
  right; right. split; [done|]. exists l. split; [done|by right].
Qed.

Lemma delete_own_spec s H :
  truthy (bb_soft_delete cfg) = false →
  wpM G (delete_resource_safely (res_backend_id r)) (λ answer _ H',
    ∀ u, answer = Ok u → out_of_use cfg (res_backend_id r) H') s H.
Proof.
  intros Hs. unfold delete_resource_safely, delete_resource_safely_with. wp_step. apply wpM_call; [by left|].
  intros [[found|]|e]; cbv iota; [| |done].
  - apply wpM_call; [split; [done|]; exists found, H; split; [done|by left]|].
    intros [[]|e] u Hu; [|done]. right. left. left.
  - wp_step. intros u Hu. left. left.
Qed.

Lemma delete_empty_project_spec slug s H :
  truthy (bb_soft_delete cfg) = false → project_slug = Some slug →
  out_of_use cfg (res_backend_id r) H →
  wpM G (delete_empty_project cfg slug) (λ _ _ H', out_of_use cfg (res_backend_id r) H') s H.
Proof.
  intros Hs Hp Ho. unfold delete_empty_project, delete_empty_project_with. cbv zeta. wp_step. apply wpM_call; [done|].
  intros [resources|e]; cbv iota; [|by apply out_of_use_cons].
  destruct (List.filter _ resources) eqn:Hf; [|wp_step; by apply out_of_use_cons].
  unfold delete_resource_safely, delete_resource_safely_with. wp_step. apply wpM_call; [right; by exists slug|].
  intros [[found|]|e]; cbv iota; [|wp_step|];
    [|by repeat apply out_of_use_cons..].
  apply wpM_call; [|intros [[]|e]; by repeat apply out_of_use_cons].
  split; [done|]. eexists found, _. split; [done|]. right. exists slug, resources, H.
  split_and!; try done. intros child Hin Horg.
  destruct (String.eqb (cr_name child) (get_project_backend_id cfg slug)) eqn:Hn;
    [by apply String.eqb_eq|].
  assert (child ∈ List.filter (is_child_of (get_project_backend_id cfg slug)) resources) as Hc.
  { apply list_elem_of_In, List.filter_In. split; [by apply list_elem_of_In|].
    unfold is_child_of. by rewrite Horg, Hn, String.eqb_refl. }
  rewrite Hf in Hc. by apply elem_of_nil in Hc.
Qed.

Lemma soft_delete_spec s H :
  truthy (bb_soft_delete cfg) = true →
  wpM G (set_resource_limits cfg (res_backend_id r) (zero_limits cfg)) (λ answer _ H',
    ∀ u, answer = Ok u → out_of_use cfg (res_backend_id r) H') s H.
Proof.
  intros Hs. unfold set_resource_limits. wp_steps.
  destruct (convert_limits cfg (zero_limits cfg)) as [converted|e] eqn:Hc; [|done].
  pose proof (zero_limits_converted _ _ Hc) as Hz.
  apply wpM_call; [done|]. intros [[]|e] u Hu; [|done].
  right; right. split; [done|]. exists converted. split; [done|left].
Qed.

Lemma delete_resource_spec s H :
  wpM G (delete_resource cfg r project_slug) (λ answer _ H',
    ∀ o, answer = Ok o → o = None ∧ (blank (res_backend_id r) = false →
      out_of_use cfg (res_backend_id r) H')) s H.
Proof.
  unfold delete_resource, delete_resource_with. cbv zeta.
  destruct (blank (res_backend_id r)). { wp_step. naive_solver. }
  wp_step. apply wpM_call; [by left|]. intros [[found|]|e]; cbv iota; [| |done].
  2:{ wp_step. intros o [= <-]. split; [done|]. intros _. left. left. }
  wp_step. apply wpM_call; [done|]. intros [[]|e]; cbv iota; [|done].
  wp_step. eapply (wpM_mono _ _ (λ answer _ H',
    ∀ u, answer = Ok u → out_of_use cfg (res_backend_id r) H')).
  - destruct (truthy (bb_soft_delete cfg)) eqn:Hs; [by apply soft_delete_spec|].
    wp_step. eapply wpM_mono; [by apply delete_own_spec|].
    intros [u|e] s1 H1 Ho; [|done]. specialize (Ho u eq_refl).
    destruct project_slug as [slug|] eqn:Hp; [|by wp_step].
    rewrite <- Hp in *. eapply wpM_mono; [by apply delete_empty_project_spec|]. auto.
  - intros [u|e] s1 H1 Ho; [|done]. specialize (Ho u eq_refl). wp_step.
    apply wpM_call; [done|]. intros [[]|e]; cbv iota; [|done]. wp_step.
    intros o [= <-]. split; [done|]. intros _. by apply out_of_use_cons.
Qed.
End DeleteProofs.

(** Deleting a resource deletes it and, when its project is left empty, the
    project, or only sets its limits to zero when soft deletion is configured; nothing
    else is deleted or limited, and nothing that was not found right before.  When it
    succeeds the resource is absent, deleted or without limits. *)
Theorem delete_resource_in_bounds cfg r project_slug s τ s' answer τ1 τ2 {X} (c : clientE X) a :
  runs (delete_resource cfg r project_slug s) τ (s', answer) →
  (∀ o, answer = Ok o → o = None ∧ (blank (res_backend_id r) = false →
     out_of_use cfg (res_backend_id r) (rev τ))) ∧
  (τ = τ1 ++ Ev c a :: τ2 → delete_guard cfg r project_slug X (rev τ1) c).
Proof.
  intros Hrun. pose proof (delete_resource_spec cfg r project_slug s []) as Hspec.
  split; [exact (proj1 (wpM_sound _ _ _ _ _ _ _ Hspec Hrun))|].
  intros Hτ. exact (wpM_call_guard _ _ _ _ _ _ _ _ _ _ _ Hspec Hrun Hτ).
Qed.

(** ** Creating a resource *)

(** The backend accepted the resource under this id. *)
Definition created_as (cfg : backend_config) (r : WaldurResource) (id : string) (H : trace clientE)
  : Prop :=
  let project := get_project_backend_id cfg (res_project_slug r) in
  Ev (ClientCreateResource id (res_name r) project (Some project)) (Ok ()) ∈ H.

(** The resource is created under the id given, in its project, right after the backend
    said that the id is free; everything that follows waits for that to succeed, and
    the limits set are those the plugin derived. *)
Definition create_guard (cfg : backend_config) (r : WaldurResource) (id : string)
    (ctx : option user_context) : guard clientE := λ X H c,
  match c with
  | PreCreateResource r' ctx' => r' = r ∧ ctx' = ctx
  | ClientGetResource i => i = id ∧ ∃ H', H = Ev (PreCreateResource r ctx) (Ok ()) :: H'
  | ClientCreateResource name description organization parent =>
      name = id ∧ description = res_name r ∧
      organization = get_project_backend_id cfg (res_project_slug r) ∧
      parent = Some organization ∧ ∃ H', H = Ev (ClientGetResource id) (Ok None) :: H'
  | OnBackendResourceCreated i r' => i = id ∧ r' = r ∧ created_as cfg r id H
  | CollectResourceLimits r' => r' = r ∧ created_as cfg r id H
  | ClientSetResourceLimits i limits => i = id ∧ created_as cfg r id H ∧
      ∃ waldur_limits H', H = Ev (CollectResourceLimits r) (Ok (limits, waldur_limits)) :: H'
  | PostCreateResource info r' ctx' => r' = r ∧ ctx' = ctx ∧ info_backend_id info = id ∧
      created_as cfg r id H
  | _ => False
  end.

(** A creation fails because the id is taken, and then nothing was created; because its
    last call failed; or because the log message about limits divides by a unit factor
    of zero (or of a value that is no float). *)
Definition creation_outcome (cfg : backend_config) (r : WaldurResource) (id : string)
    (ctx : option user_context) (answer : res BackendResourceInfo) (H : trace clientE) : Prop :=
  match answer with
  | Ok _ => created_as cfg r id H
  | Err e =>
      (e = DuplicateResourceError id ∧ ∃ found,
         H = [Ev (ClientGetResource id) (Ok (Some found)); Ev (PreCreateResource r ctx) (Ok ())]) ∨
      (∃ X (c : clientE X) H', H = Ev c (Err e) :: H') ∨
      (∃ limits waldur_limits H',
         H = Ev (CollectResourceLimits r) (Ok (limits, waldur_limits)) :: H' ∧
         log_limits_error cfg (map_to_list limits) = Some e)
  end.

Section CreateProofs.
Context (cfg : backend_config) (r : WaldurResource) (id : string) (ctx : option user_context).
Local Abbreviation G := (create_guard cfg r id ctx).
Implicit Types (s : pull_state) (H : trace clientE).

Lemma setup_limits_spec s H :
  created_as cfg r id H →
  wpM G (setup_resource_limits cfg id r) (λ answer _ H', created_as cfg r id H' ∧
    match answer with
    | Ok _ => True
    | Err e => (∃ X (c : clientE X) K, H' = Ev c (Err e) :: K) ∨
        (∃ limits waldur_limits K,
           H' = Ev (CollectResourceLimits r) (Ok (limits, waldur_limits)) :: K ∧
           log_limits_error cfg (map_to_list limits) = Some e)
    end) s H.
Proof.
  intros Hc. unfold setup_resource_limits. wp_step. apply wpM_call; [done|].
  intros [[limits waldur_limits]|e]; cbv iota; [|split; [by right|left; eauto]].
  destruct (map_truthy limits); simpl negb; cbv iota; [|wp_step; by split; [right|]].
  destruct (log_limits_error cfg (map_to_list limits)) as [e|] eqn:He.
  { wp_step. split; [by right|]. right. eauto. }
  wp_step. apply wpM_call; [split; [done|]; split; [by right|eauto]|].
  intros [[]|e]; cbv iota; [wp_step|]; (split; [by repeat right|]); [done|]. left. eauto.
Qed.

Lemma create_resource_with_id_spec s :
  wpM G (create_resource_with_id cfg r id ctx)
    (λ answer _ H', creation_outcome cfg r id ctx answer H') s [].
Proof.
  unfold create_resource_with_id, create_resource_with. wp_step. apply wpM_call; [done|].
  intros [[]|e]; cbv iota; [|right; left; eauto]. cbv zeta.
  unfold create_backend_resource_with. wp_steps. apply wpM_call; [split; [done|]; eauto|].
  intros [[found|]|e]; cbv iota; [| |right; left; eauto].
  { wp_steps. left. split; [done|]. by exists found. }
  wp_step. apply wpM_call; [split_and!; eauto|].
  intros [[]|e]; cbv iota; [|right; left; eauto]. wp_steps. simpl negb; cbv iota. wp_steps.
  apply wpM_call; [split_and!; [done..|]; left|].
  intros [[]|e]; cbv iota; [|right; left; eauto]. wp_step.
  eapply wpM_mono; [apply setup_limits_spec; right; left|].
  intros [limits|e] s1 H1 [Hc He]; cbv iota; [|by right].
  apply wpM_call; [done|]. intros [info|e]; [by right|right; left; eauto].
Qed.
End CreateProofs.

(** A resource is created once, under the id asked for, only right after the
    backend said that the id is free, and everything addressed by that id waits for
    it; a taken id raises [DuplicateResourceError] before anything is created, and a
    creation that answers has created the resource. *)
Theorem creation_in_order cfg r id ctx s τ s' answer τ1 τ2 {X} (c : clientE X) a :
  runs (create_resource_with_id cfg r id ctx s) τ (s', answer) →
  creation_outcome cfg r id ctx answer (rev τ) ∧
  (τ = τ1 ++ Ev c a :: τ2 → create_guard cfg r id ctx X (rev τ1) c).
Proof.
  intros Hrun. pose proof (create_resource_with_id_spec cfg r id ctx s) as Hspec.
  split; [exact (proj1 (wpM_sound _ _ _ _ _ _ _ Hspec Hrun))|].
  intros Hτ. exact (wpM_call_guard _ _ _ _ _ _ _ _ _ _ _ Hspec Hrun Hτ).
Qed.

(** ** Witnesses *)

Definition sample_backend : backend_config :=
  {| bb_type := "slurm"; bb_components := [("cpu"%string, Some (PyInt 60000)); ("mem"%string, None)];
     bb_soft_delete := JBool false; bb_default_account := "root"; bb_allocation_prefix := "HPC_";
     bb_project_prefix := "hpc_"; bb_customer_prefix := "hpc_" |}.

Definition sample_account_of (name organization : string) : ClientResource :=
  {| cr_name := name; cr_description := ""; cr_organization := organization; cr_backend_id := "" |}.

Definition sample_association (user : string) : Association :=
  {| as_account := "alloc-1"; as_user := user; as_value := 0 |}.

(** A client that has the given resources and associations and refuses to touch the
    users named in [stuck]. *)
Definition client_world (resources : list string) (members stuck : list string) {X}
    (c : clientE X) : res X :=
  match c in clientE X return res X with
  | ClientListResources => Ok (map (λ n, sample_account_of n "") resources)
  | ClientGetResource id =>
      Ok (if bool_decide (id ∈ resources) then Some (sample_account_of id "") else None)
  | ClientCreateResource _ _ _ _ => Ok ()
  | ClientDeleteResource _ => Ok ()
  | ClientSetResourceLimits _ _ => Ok ()
  | ClientGetResourceLimits _ => Ok ∅
  | ClientGetResourceUserLimits _ => Ok ∅
  | ClientSetResourceUserLimits _ _ _ => Ok ()
  | ClientGetAssociation user _ =>
      Ok (if bool_decide (user ∈ members) then Some (sample_association user) else None)
  | ClientCreateAssociation user _ _ | ClientDeleteAssociation user _ =>
      if bool_decide (user ∈ stuck) then Err (BackendError "busy") else Ok ()
  | ClientListResourceUsers _ => Ok members
  | Ping => Ok true
  | GetUsageReport _ => Ok []
  | CollectResourceLimits _ => Ok ({["cpu"%string := 600000]}, {["cpu"%string := 10]})
  | PreCreateResource _ _ | OnBackendResourceCreated _ _ | PreDeleteResource _
  | PostDeleteResource _ | PreDeleteUserActions _ _ => Ok ()
  | PostCreateResource info _ _ => Ok info
  | Plugin _ => Err (NotImplementedError "")
  | OwnWaldur _ => Err (TransportError "")
  end.

Definition run_client {A} (resources members stuck : list string) (m : backend_m A) :=
  exec (λ X c (w : unit), (client_world resources members stuck c, w)) (m no_pull) ().

Definition pull_exec :=
  run_client ["alloc-1"] ["alice"] [] (pull_resources sample_backend [sample_resource] false true).

Lemma pull_resources_faithful_witness :
  pull_exec.1.1.2 = Ok [("alloc-1"%string, (sample_resource,
    with_usage ["alice"] (empty_usage sample_backend)))] ∧
  pull_guard [sample_resource] false _ (rev (take 1 pull_exec.1.2))
    (ClientListResourceUsers "alloc-1").
Proof.
  split; [vm_compute; reflexivity|].
  refine (proj2 (proj2 (pull_resources_faithful sample_backend [sample_resource] false true no_pull
    pull_exec.1.2 pull_exec.1.1.1 pull_exec.1.1.2 (take 1 pull_exec.1.2) []
    (ClientListResourceUsers "alloc-1") (Ok ["alice"%string]) _)) _).
  - apply exec_runs_pair.
  - vm_compute. reflexivity.
Defined.

Definition add_exec :=
  run_client [] ["alice"] ["carol"]
    (add_users_to_resource sample_backend sample_resource {["alice"; "bob"; "carol"]}).

Lemma users_added_accounted_witness :
  ∃ added, add_exec.1.1.2 = Ok added ∧ elements (au_added added) = ["alice"; "bob"] ∧
    dict_keys (au_failed added) = ["carol"] ∧
    addition_account sample_backend sample_resource {["alice"; "bob"; "carol"]} (Ok added)
      (rev add_exec.1.2).
Proof.
  eexists. split; [vm_compute; reflexivity|]. split; [vm_compute; reflexivity|].
  split; [vm_compute; reflexivity|].
  refine (proj1 (users_added_accounted sample_backend sample_resource {["alice"; "bob"; "carol"]}
    no_pull add_exec.1.2 add_exec.1.1.1 _ [] [] Ping (Ok true) _)).
  exact (exec_runs_pair _ _ _).
Defined.

Definition remove_exec :=
  run_client [] ["alice"; "carol"] ["carol"]
    (remove_users_from_resource sample_resource {["alice"; "bob"; "carol"]}).

Lemma users_removed_accounted_witness :
  ∃ gone, remove_exec.1.1.2 = Ok gone ∧ ru_removed gone = ["alice"] ∧
    dict_keys (ru_failed gone) = ["carol"] ∧
    removal_account sample_resource {["alice"; "bob"; "carol"]} (Ok gone) (rev remove_exec.1.2).
Proof.
  eexists. split; [vm_compute; reflexivity|]. split; [vm_compute; reflexivity|].
  split; [vm_compute; reflexivity|].
  refine (proj1 (users_removed_accounted sample_resource {["alice"; "bob"; "carol"]}
    no_pull remove_exec.1.2 remove_exec.1.1.1 _ [] [] Ping (Ok true) _)).
  exact (exec_runs_pair _ _ _).
Defined.

Definition delete_exec :=
  run_client ["alloc-1"; "hpc_proj"] [] []
    (delete_resource sample_backend sample_resource (Some "proj"%string)).

Lemma delete_resource_in_bounds_witness :
  out_of_use sample_backend "alloc-1" (rev delete_exec.1.2) ∧
  delete_guard sample_backend sample_resource (Some "proj"%string) _ (rev (take 6 delete_exec.1.2))
    (ClientDeleteResource "hpc_proj").
Proof.
  destruct (delete_resource_in_bounds sample_backend sample_resource (Some "proj"%string) no_pull
    delete_exec.1.2 delete_exec.1.1.1 delete_exec.1.1.2 (take 6 delete_exec.1.2)
    (drop 7 delete_exec.1.2) (ClientDeleteResource "hpc_proj") (Ok ())) as [Ho Hg].
  - apply exec_runs_pair.
  - split.
    + refine (proj2 (Ho None _) _); vm_compute; reflexivity.
    + apply Hg. vm_compute. reflexivity.
Defined.

Definition create_exec :=
  run_client [] [] [] (create_resource sample_backend sample_resource (Some sample_context)).

Lemma creation_in_order_witness :
  created_as sample_backend sample_resource "hpc_alloc" (rev create_exec.1.2) ∧
  create_guard sample_backend sample_resource "hpc_alloc" (Some sample_context) _
    (rev (take 5 create_exec.1.2)) (ClientSetResourceLimits "hpc_alloc" {["cpu"%string := 600000]}).
Proof.
  destruct (creation_in_order sample_backend sample_resource "hpc_alloc" (Some sample_context)
    no_pull create_exec.1.2 create_exec.1.1.1 (Ok (created_info "hpc_alloc" {["cpu"%string := 10]}))
    (take 5 create_exec.1.2) (drop 6 create_exec.1.2)
    (ClientSetResourceLimits "hpc_alloc" {["cpu"%string := 600000]}) (Ok ())) as [Ho Hg].
  - exact (exec_runs_pair _ _ _).
  - split; [exact Ho|]. apply Hg. vm_compute. reflexivity.
Defined.

(** Waldur units become backend units by the factor of the component; a fractional
    factor truncates. *)
Example limits_converted :
  to_backend_units sample_backend "cpu" 2 = Ok 120000 ∧ to_backend_units sample_backend "mem" 7 = Ok 7.
Proof. vm_compute. split; reflexivity. Qed.

Example limits_truncated :
  match py_mul 7 (PyFloat (S754_finite false 1 (-1))) with Ok x => py_int x | Err e => Err e end
    = Ok 3.
Proof. vm_compute. reflexivity. Qed.
