(* ===== verification/Linking.v ===== *)
(** * Processors over an implementation of the backend

    The processors call the backend through [Agent.backendE].  [linked] puts an
    implementation of those calls, itself a program over some signature [E], under
    a processor: what is left are the processor's other calls ([Outer]) and the
    implementation's ([Inner]).  [wp_interp] carries a theorem about the processor
    over to the linked program, given a relation between the two histories that
    every implemented call preserves.  [MembershipBackend] is the part of the
    contract of [backend/backends.py: BaseBackend] that the removal of users from
    resources rests on. *)

From stdpp Require Import base list strings gmap sets.
From S2P Require Import Prelude.
From S2P Require Import Structures.
From S2P Require Import Agent.
From S2P Require Import Teardown.

(** ** Replacing the calls of a program by programs *)

Fixpoint interp {E F : Type → Type} {S A : Type} (h : ∀ X, E X → M F S X) (p : prog E A) (s : S)
  : prog F (S * A) :=
  match p with
  | Ret a => Ret (s, a)
  | Call c k => pbind (h _ c s) (λ '(s', r), interp h (k r) s')
  end.

Lemma pcalls_interp {E F : Type → Type} {S A : Type} (P : ∀ X, E X → bool) (Q : ∀ X, F X → bool)
    (h : ∀ X, E X → M F S X) (p : prog E A) s :
  (∀ X c, P X c = true → calls Q (h X c)) → pcalls P p → pcalls Q (interp h p s).
Proof.
  intros Hh; revert s; induction p as [a|X c k IH]; intros s; simpl; [done|]. intros [Hc Hk].
  apply pcalls_bind; [by apply Hh|]. intros [s' r]. by apply IH.
Qed.

(** A simulation: as long as [R] relates the history [H] of the program to the
    state and the history [K] of the handlers, every call the guard [G] allows is
    handled within the guard [G'] and leaves the histories related. *)
Lemma wp_interp {E F : Type → Type} {S A : Type} (h : ∀ X, E X → M F S X)
    (G : guard E) (G' : guard F) (R : trace E → S → trace F → Prop) (p : prog E A)
    (Q : A → trace E → Prop) H s K :
  (∀ X (c : E X) H s K, R H s K → G X H c →
     wpM G' (h X c) (λ r s' K', R (Ev c r :: H) s' K') s K) →
  wp G p Q H → R H s K →
  wp G' (interp h p s) (λ x K', ∃ H', R H' x.1 K' ∧ Q x.2 H') K.
Proof.
  intros Hh; revert H s K; induction p as [a|X c k IH]; simpl; intros H s K Hp HR; [by exists H|].
  destruct Hp as [Hc Hk]. apply wp_bind.
  eapply wp_mono; [done| |by apply (Hh X c H s K HR Hc)].
  intros [s' r] K' HR'; simpl in *. by apply (IH r (Ev c r :: H)).
Qed.

(** ** Linking *)

Inductive linkedE (E : Type → Type) : Type → Type :=
| Outer {X} (c : agentE X) : linkedE E X
| Inner {X} (c : E X) : linkedE E X.
Arguments Outer {E X} c.
Arguments Inner {E X} c.

Fixpoint embed {E A} (p : prog E A) : prog (linkedE E) A :=
  match p with
  | Ret a => Ret a
  | Call c k => Call (Inner c) (λ r, embed (k r))
  end.

Definition inner_calls {E} (K : trace (linkedE E)) : trace E :=
  omap (λ ev, match ev with
              | Ev c r => match c in linkedE _ X return res X → option (event E) with
                          | Inner c => λ r, Some (Ev c r)
                          | Outer _ => λ _, None
                          end r
              end) K.

Section Linking.
Context {E : Type → Type} {S : Type} (impl : ∀ X, backendE X → M E S X).

Definition link_call (X : Type) (c : agentE X) : M (linkedE E) S X :=
  match c in agentE X return M (linkedE E) S X with
  | Backend b => λ s, embed (impl _ b s)
  | c => call (Outer c)
  end.

(** A statement of a processor over the implementation: the processor's state, the
    implementation's, and the outcome. *)
Definition linked {P A} (m : M agentE P A) (p : P) (s : S)
  : prog (linkedE E) (S * (P * res A)) := interp link_call (m p) s.

Lemma wp_embed {A} (G : guard E) (G' : guard (linkedE E)) (p : prog E A) (Q : A → trace E → Prop) K :
  (∀ X H (c : E X), G' X H (Inner c)) →
  wp G p Q (inner_calls K) →
  wp G' (embed p) (λ a K', Q a (inner_calls K') ∧ ∃ L, K' = L ++ K ∧
     Forall (λ ev, match ev with Ev (Inner _) _ => True | _ => False end) L) K.
Proof.
  intros HG; revert K; induction p as [a|X c k IH]; simpl; intros K Hp.
  - split; [done|]. exists []. by split.
  - destruct Hp as [_ Hk]. split; [apply HG|]. intros r.
    eapply wp_mono; [done| |apply (IH r (Ev (Inner c) r :: K)), Hk].
    intros a K' (HQ & L & -> & HL). split; [done|]. exists (L ++ [Ev (Inner c) r]).
    rewrite <- app_assoc. split; [done|]. apply Forall_app. split; [done|by repeat constructor].
Qed.
End Linking.

(** ** The contract of membership *)

(** [gone username backend_id H]: by the history [H] of its own calls, the backend
    has been told that the user has no association with the resource. *)
Class MembershipBackend {E : Type → Type} {S : Type} (impl : ∀ X, backendE X → M E S X)
    (gone : string → string → trace E → Prop) : Prop := {
  gone_later : ∀ username backend_id ev H,
    gone username backend_id H → gone username backend_id (ev :: H);
  (* a strict pull does not lose a resource: whoever it does not list is gone *)
  strict_pull_answers : ∀ rs include_usage s H,
    wpM (λ _ _ _, True) (impl _ (PullResources rs include_usage true)) (λ answer _ H',
      ∀ report, answer = Ok report → ∀ r username, r ∈ rs → res_backend_id r ≠ "" →
        (∃ r' info, (r', info) ∈ report.*2 ∧ res_backend_id r' = res_backend_id r ∧
           username ∈ info_users info) ∨
        gone username (res_backend_id r) H') s H;
  (* a removal that answers has removed *)
  remove_user_answers : ∀ r username role cuid s H,
    wpM (λ _ _ _, True) (impl _ (RemoveUser r username role cuid)) (λ answer _ H',
      ∀ b, answer = Ok b → gone username (res_backend_id r) H') s H;
  (* the processor takes no removal for confirmed that did not happen *)
  remove_users_answers : ∀ r usernames kw s H,
    wpM (λ _ _ _, True) (impl _ (RemoveUsersFromResource r usernames kw)) (λ answer _ H',
      ∀ returned username, answer = Ok returned →
        username ∈ confirmed_removals usernames returned →
        gone username (res_backend_id r) H') s H;
}.

Lemma gone_app {E S} {impl : ∀ X, backendE X → M E S X} {gone} `{!MembershipBackend impl gone}
    username backend_id L H :
  gone username backend_id H → gone username backend_id (L ++ H).
Proof. intros Hg. induction L as [|ev L IH]; simpl; [done|]. by apply gone_later. Qed.

(** ** Implementations on implementations *)

(** A statement over [E], its calls carried out by statements over [F]. *)
Section Over.
Context {E F : Type → Type} {S T : Type} (h : ∀ X, E X → M F T X).

Definition over {A} (m : M E S A) : M F (S * T) A := λ st,
  pbind (interp h (m st.1) st.2) (λ '(t, (s, r)), Ret ((s, t), r)).

(** What the history of the calls below has to show for an answered call. *)
Context (evident : event E → trace F → Prop).
Context (evident_mono : ∀ ev K K', K ⊆ K' → evident ev K → evident ev K').
Context (evident_step : ∀ X (c : E X) t,
  wpM (λ _ _ _, True) (h X c) (λ r _ K, evident (Ev c r) K) t []).

Definition all_evident (H : trace E) (K : trace F) : Prop := ∀ ev, ev ∈ H → evident ev K.

Lemma evident_step_later X (c : E X) H t K : all_evident H K →
  wpM (λ _ _ _, True) (h X c) (λ r _ K', all_evident (Ev c r :: H) K') t K.
Proof.
  intros HR. eapply wpM_mono; [apply (wpM_frame (λ _ _ _, True)), evident_step|].
  intros r t' K' (L & -> & He) ev [->|Hin]%elem_of_cons.
  - eapply evident_mono; [|exact He]. set_solver.
  - eapply evident_mono; [|by apply HR]. set_solver.
Qed.

Lemma wp_interp_evident {A} (p : prog E A) (Q : A → trace E → Prop) t K :
  wp (λ _ _ _, True) p Q [] →
  wp (λ _ _ _, True) (interp h p t) (λ x K', ∃ H, all_evident H K' ∧ Q x.2 H) K.
Proof.
  intros Hp. apply (wp_interp h (λ _ _ _, True) _ (λ H _ K, all_evident H K) p Q [] t K).
  - intros X c H t1 K1 HR _. by apply evident_step_later.
  - exact Hp.
  - by intros ev ?%elem_of_nil.
Qed.

Lemma wpM_over {A} (m : M E S A) (Q : res A → S → trace E → Prop) st K :
  wpM (λ _ _ _, True) m Q st.1 [] →
  wpM (λ _ _ _, True) (over m) (λ r st' K', ∃ H, all_evident H K' ∧ Q r st'.1 H) st K.
Proof.
  intros Hm. unfold over, wpM. apply wp_bind.
  eapply wp_mono; [done| |apply wp_interp_evident, Hm].
  intros [t [s r]] K' (H & HR & HQ). by exists H.
Qed.

(** An implementation of the contract stays one over whatever carries out its calls, for
    what its evidence means below. *)
Lemma over_membership (impl : ∀ X, backendE X → M E S X) (gone : string → string → trace E → Prop)
    `{!MembershipBackend impl gone} (gone_below : string → string → trace F → Prop) :
  (∀ u id H K, all_evident H K → gone u id H → gone_below u id K) →
  (∀ u id ev K, gone_below u id K → gone_below u id (ev :: K)) →
  MembershipBackend (λ X b, over (impl X b)) gone_below.
Proof.
  intros Hgone Hlater. split; [done|..].
  - intros rs usage st K. eapply wpM_mono; [apply wpM_over, strict_pull_answers|].
    intros answer st' K' (H & HR & Ha) report Hr r u Hin Hid.
    destruct (Ha report Hr r u Hin Hid); [by left|right; by eapply Hgone].
  - intros r u role cuid st K. eapply wpM_mono; [apply wpM_over, remove_user_answers|].
    intros answer st' K' (H & HR & Ha) b Hb. by eapply Hgone, Ha.
  - intros r us kw st K. eapply wpM_mono; [apply wpM_over, remove_users_answers|].
    intros answer st' K' (H & HR & Ha) returned u Hr Hu. by eapply Hgone, Ha.
Qed.
End Over.

(** ** The processor's calls, as the linked history shows them *)

Section Simulation.
Context {E : Type → Type} {S : Type} (impl : ∀ X, backendE X → M E S X).
Context (gone : string → string → trace E → Prop) `{!MembershipBackend impl gone}.

(** What an answered call of the processor means for the linked history: its own calls
    are there, and the answers of the backend keep the contract. *)
Definition kept (K : trace (linkedE E)) (ev : event agentE) : Prop :=
  match ev with
  | Ev c answer =>
      match c in agentE X return res X → Prop with
      | Backend b =>
          match b in backendE X return res X → Prop with
          | PullResources rs _ strict => λ answer,
              ∀ report, strict = true → answer = Ok report → ∀ r username,
                r ∈ rs → res_backend_id r ≠ "" →
                (∃ r' info, (r', info) ∈ report.*2 ∧ res_backend_id r' = res_backend_id r ∧
                   username ∈ info_users info) ∨
                gone username (res_backend_id r) (inner_calls K)
          | RemoveUser r username _ _ => λ answer,
              ∀ b, answer = Ok b → gone username (res_backend_id r) (inner_calls K)
          | RemoveUsersFromResource r usernames _ => λ answer,
              ∀ returned username, answer = Ok returned →
                username ∈ confirmed_removals usernames returned →
                gone username (res_backend_id r) (inner_calls K)
          | _ => λ _, True
          end
      | c => λ answer, (Ev (Outer c) answer : event (linkedE E)) ∈ K
      end answer
  end.

Abbreviation simulated K H := (∀ ev, ev ∈ H → kept K ev).

Lemma inner_calls_app (L K : trace (linkedE E)) :
  inner_calls (L ++ K) = inner_calls L ++ inner_calls K.
Proof. apply omap_app. Qed.

Lemma kept_later L K ev : kept K ev → kept (L ++ K) ev.
Proof.
  destruct ev as [X c answer].
  destruct c as [X c|X b|X c|seconds| |]; simpl; try (intros Hin; apply elem_of_app; by right).
  rewrite inner_calls_app. destruct b; simpl; try done.
  - intros Hk report Hs Ha r0 username Hr Hid.
    destruct (Hk report Hs Ha r0 username Hr Hid); [by left|]. right. by apply gone_app.
  - intros Hk returned username Ha Hu. by eapply gone_app, Hk.
  - intros Hk b Ha. by eapply gone_app, Hk.
Qed.

Lemma simulated_cons L K ev H : simulated K H → kept (L ++ K) ev → simulated (L ++ K) (ev :: H).
Proof. intros Hs Hk ev' [->|Hin]%elem_of_cons; [done|]. by apply kept_later, Hs. Qed.

Lemma wp_anything {F A} (p : prog F A) H : wp (λ _ _ _, True) p (λ _ _, True) H.
Proof. revert H; induction p; simpl; auto. Qed.

Lemma embedded_call (G' : guard (linkedE E)) {X} (b : backendE X) H s K
    (Q : res X → trace E → Prop) :
  (∀ X K (c : E X), G' X K (Inner c)) →
  wpM (λ _ _ _, True) (impl _ b) (λ answer _ H', Q answer H') s (inner_calls K) →
  (∀ answer K', Q answer (inner_calls K') → kept K' (Ev (Backend b) answer)) →
  simulated K H →
  wpM G' (link_call impl _ (Backend b)) (λ answer _ K', simulated K' (Ev (Backend b) answer :: H))
    s K.
Proof.
  intros HG Hb Hq Hs. unfold link_call. unfold wpM.
  eapply wp_mono; [done| |by apply (wp_embed _ G' _ _ K HG Hb)].
  intros [s' answer] K' (Ha & L & -> & _). cbn [fst snd] in Ha |- *.
  apply simulated_cons; [done|]. by apply Hq.
Qed.

Lemma link_call_simulated (G' : guard (linkedE E)) {X} (c : agentE X) H s K :
  (∀ X K (c : E X), G' X K (Inner c)) → G' X K (Outer c) → simulated K H →
  wpM G' (link_call impl X c) (λ answer _ K', simulated K' (Ev c answer :: H)) s K.
Proof.
  intros HG Hc Hs.
  destruct c as [X c|X b|X c|seconds| |];
    try (apply wpM_call; [done|]; intros answer; apply (simulated_cons [_]); [done|by left]).
  destruct b;
    lazymatch goal with
    | |- context [PullResources ?rs ?u ?strict] => destruct strict;
        [eapply embedded_call; [done|apply strict_pull_answers|simpl; auto|done]|]
    | |- context [RemoveUser _ _ _ _] =>
        eapply embedded_call; [done|apply remove_user_answers|simpl; auto|done]
    | |- context [RemoveUsersFromResource _ _ _] =>
        eapply embedded_call; [done|apply remove_users_answers|simpl; auto|done]
    | _ => idtac
    end;
    (eapply (embedded_call _ _ _ _ _ (λ _ _, True)); [done|apply wp_anything|done|done]).
Qed.

(** The guard of a processor, read off the linked history. *)
Definition linked_guard (G : guard agentE) : guard (linkedE E) := λ X K c,
  match c with
  | Outer c => ∃ H, simulated K H ∧ G _ H c
  | Inner _ => True
  end.

Lemma linked_spec {P A} (G : guard agentE) (m : M agentE P A) Q p s :
  wpM G m Q p [] →
  wp (linked_guard G) (linked impl m p s)
    (λ x K, ∃ H, simulated K H ∧ Q x.2.2 x.2.1 H) [].
Proof.
  intros Hm. unfold linked.
  eapply wp_mono; [done| |apply (wp_interp _ G _ (λ H _ K, simulated K H) (m p)
    (λ x H, Q x.2 x.1 H) [] s [])].
  - intros x K (H & HR & HQ). by exists H.
  - intros X c H s1 K Hs Hc. apply link_call_simulated; [done| |done]. by exists H.
  - exact Hm.
  - intros ev Hin. by apply elem_of_nil in Hin.
Qed.

(** A call of the processor in a run of the linked program satisfies the processor's
    guard, for a history that the linked one keeps. *)
Lemma linked_call_guard {P A} (G : guard agentE) (m : M agentE P A) Q p s τ out τ1 τ2 {X}
    (c : agentE X) a :
  wpM G m Q p [] → runs (linked impl m p s) τ out → τ = τ1 ++ Ev (Outer c) a :: τ2 →
  ∃ H, simulated (rev τ1) H ∧ G X H c.
Proof.
  intros Hm Hrun Hτ. pose proof (linked_spec G m Q p s Hm) as Hw.
  destruct (wp_sound _ _ _ _ _ _ Hw Hrun) as [_ Hg]. rewrite Hτ in Hg.
  apply guarded_split in Hg. by rewrite app_nil_r in Hg.
Qed.
End Simulation.

Abbreviation simulated gone K H := (∀ ev, ev ∈ H → kept gone K ev).
