(* ===== verification/Deployment.v ===== *)
(** * Processors over the default backend

    The default backend ([BaseBackend]) keeps the contract of [Linking], and what
    follows, for every backend that does, for the processors linked with it:
    statements about the calls of the backend's own client. *)

From stdpp Require Import base list strings gmap sets.
From Stdlib Require Import ZArith Lia.
From S2P Require Import Prelude.
From S2P Require Import Structures.
From S2P Require Import Agent.
From S2P Require Import Samples.
From S2P Require Import OfferingUsers.
From S2P Require Import BaseProcessor.
From S2P Require Import Orders.
From S2P Require Import Teardown.
From S2P Require Import Membership.
From S2P Require Import MembershipEvents.
From S2P Require Import Linking.
From S2P Require Import BaseBackend.

Local Open Scope Z_scope.

(** ** The default backend keeps the contract *)

(** The client said that the resource does not exist, listed its users without this
    one, found no association, or deleted it. *)
Definition dissociated (username id : string) (H : trace clientE) : Prop :=
  Ev (ClientGetResource id) (Ok None) ∈ H ∨
  (∃ users, Ev (ClientListResourceUsers id) (Ok users) ∈ H ∧ username ∉ users) ∨
  no_association id username H ∨
  association_deleted id username H.

Lemma dissociated_later username id L H :
  dissociated username id H → dissociated username id (L ++ H).
Proof.
  unfold dissociated, no_association, association_deleted.
  setoid_rewrite elem_of_app. rewrite existsb_app, orb_true_iff. naive_solver.
Qed.

Lemma reported_or_dissociated rs report H r username :
  report_sound rs report H → report_complete rs report H →
  r ∈ rs → res_backend_id r ≠ "" →
  (∃ r' info, (r', info) ∈ report.*2 ∧ res_backend_id r' = res_backend_id r ∧
     username ∈ info_users info) ∨
  dissociated username (res_backend_id r) H.
Proof.
  intros [_ Hs] Hc Hr Hid. destruct (Hc r Hr Hid) as [Hk|Hk]; [|right; by left].
  apply list_elem_of_fmap in Hk as ([id [r' info]] & Hid' & Hin). simpl in Hid'. subst id.
  destruct (Hs _ _ _ Hin) as (Heq & _ & _ & Hl).
  destruct (decide (username ∈ info_users info)) as [Hu|Hu].
  - left. exists r', info. split_and!; [|done|done].
    apply list_elem_of_fmap. by exists (res_backend_id r, (r', info)).
  - right. right; left. eauto.
Qed.

Global Instance base_backend_membership cfg :
  MembershipBackend (λ X c, base_backend cfg c) dissociated.
Proof.
  split.
  - intros username id ev H Hd. by apply (dissociated_later _ _ [ev]).
  - intros rs usage s H. eapply wp_mono; [done| |apply pull_resources_spec].
    intros [s' answer] H' [_ Ha] report Hr r username Hin Hid. simpl in *. subst answer.
    destruct Ha as [Hs Hc]. by apply (reported_or_dissociated rs _ _ _ _ Hs (Hc eq_refl)).
  - intros r username role cuid s H. simpl.
    eapply wp_mono; [done| |apply (remove_user_spec r {[username]})]; [|set_solver].
    intros [s' answer] H' (L & -> & Hd & Hn) b Hb. simpl in *. subst answer. destruct b.
    + right; right; right. unfold association_deleted. rewrite existsb_app.
      by rewrite (proj2 (Hd username)).
    + right; right; left. by apply Hn.
  - intros r usernames kw s H. simpl. wp_step.
    eapply wpM_mono; [eapply wpM_frame, remove_users_spec|].
    intros [gone|e] s' H' (L & -> & Ha); [|done]. wp_step.
    intros returned username [= <-]. simpl. rewrite elem_of_intersection, elem_of_list_to_set.
    intros [_ Hin]. destruct Ha as (Hok & _). apply Hok in Hin.
    right; right; right. unfold association_deleted in *. by rewrite existsb_app, Hin.
Qed.

(** ** Whatever backend keeps the contract *)

Section Contract.
Context {E : Type → Type} {S : Type} (impl : ∀ X, backendE X → M E S X).
Context (gone : string → string → trace E → Prop) `{!MembershipBackend impl gone}.

(** The user is gone from every listed resource that has a backend id. *)
Definition gone_everywhere (username : string) (listed : list WaldurResource) (K : trace (linkedE E))
  : Prop :=
  ∀ r, r ∈ listed → res_backend_id r ≠ "" → gone username (res_backend_id r) (inner_calls K).

(** What stands behind a deletion the linked sweep reports to Waldur. *)
Definition deletion_founded (cfg : processor_config) (uuid : string) (K : trace (linkedE E))
  : Prop :=
  ∃ u departed, ou_uuid u = uuid ∧ u ∈ departed ∧
    Ev (Outer (Waldur (OfferingUsersInStates DEPARTED_OFFERING_USER_STATES))) (Ok departed) ∈ K ∧
    (ou_username u ≠ "" → ∃ listed,
       Ev (Outer (Waldur (ResourcesList (handled_resource_states (cfg_capabilities cfg)) None)))
         (Ok listed) ∈ K ∧
       gone_everywhere (ou_username u) listed K).

Lemma sweep_deletion_founded cfg K H uuid :
  simulated gone K H → sweep_guard cfg _ H (Waldur (OfferingUserSetDeleted uuid)) →
  deletion_founded cfg uuid K.
Proof.
  intros Hs Hg. destruct (Hg eq_refl) as (u & releases & report & Hsw & -> & _ & Ha).
  destruct Hsw as [(departed & Hu & Hd) (listed & pulled & -> & Hl & Hp)].
  exists u, departed. split_and!; [done|done|exact (Hs _ Hd)|].
  intros Hn. destruct (Ha Hn) as [Hr _]. exists listed. split; [exact (Hs _ Hl)|].
  intros r Hin Hid. destruct (Hs _ Hp pulled eq_refl eq_refl r (ou_username u))
    as [(r' & info & Hin' & <- & Hu')|Hgone]; [|done| |done].
  - unfold with_backend_ids. apply list_elem_of_In, List.filter_In.
    split; [by apply list_elem_of_In|by apply nonempty_spec].
  - destruct (Hr r' info Hin' Hu') as [b Hb]. exact (Hs _ Hb b eq_refl).
Qed.

Lemma linked_deletions_founded cfg p s τ out τ1 τ2 uuid a :
  runs (linked impl (process_requested_deletions cfg) p s) τ out →
  τ = τ1 ++ Ev (Outer (Waldur (OfferingUserSetDeleted uuid))) a :: τ2 →
  deletion_founded cfg uuid (rev τ1).
Proof.
  intros Hrun Hτ.
  destruct (linked_call_guard impl gone _ _ _ _ _ _ _ _ _ _ _
    (process_requested_deletions_spec cfg p) Hrun Hτ) as (H & Hs & Hg).
  by apply (sweep_deletion_founded cfg _ H).
Qed.

(** What stands behind the release of accounts after a revocation. *)
Definition revocation_founded (cfg : processor_config) (project_uuid : string)
    (released : list OfferingUser) (K : trace (linkedE E)) : Prop :=
  ∃ username listed, username ≠ "" ∧ (∀ v, v ∈ released → ou_username v = username) ∧
    Ev (Outer (Waldur (ResourcesList (handled_resource_states (cfg_capabilities cfg))
                         (Some project_uuid)))) (Ok listed) ∈ K ∧
    gone_everywhere username listed K.

Lemma event_release_founded cfg user_uuid project_uuid granted role_name K H released :
  simulated gone K H →
  event_guard cfg user_uuid project_uuid granted role_name _ H (Username (ReleaseUsers released)) →
  revocation_founded cfg project_uuid released K.
Proof.
  intros Hs Hg. destruct (Hg eq_refl) as (u & [Hn _] & _ & Hr & rs & pulled & Hl & Hp & Hall).
  destruct Hl as (listed & -> & Hl). exists (ou_username u), listed.
  split_and!; [done|done|exact (Hs _ Hl)|].
  intros r Hin Hid. destruct (Hs _ Hp pulled eq_refl eq_refl r (ou_username u))
    as [(r' & info & Hin' & <- & Hu')|Hgone]; [|done| |done].
  - apply list_elem_of_In, List.filter_In. split; [by apply list_elem_of_In|by apply nonempty_spec].
  - destruct (Hall r') as [b Hb]; [|exact (Hs _ Hb b eq_refl)].
    unfold pulled_resources. apply list_elem_of_fmap. by exists (r', info).
Qed.

Lemma linked_revocations_founded cfg user_uuid project_uuid granted role_name p s τ out τ1 τ2
    released a :
  runs (linked impl (process_user_role_changed cfg user_uuid project_uuid granted role_name) p s)
    τ out →
  τ = τ1 ++ Ev (Outer (Username (ReleaseUsers released))) a :: τ2 →
  revocation_founded cfg project_uuid released (rev τ1).
Proof.
  intros Hrun Hτ.
  destruct (linked_call_guard impl gone _ _ _ _ _ _ _ _ _ _ _
    (process_user_role_changed_spec cfg user_uuid project_uuid granted role_name p) Hrun Hτ)
    as (H & Hs & Hg).
  by eapply event_release_founded.
Qed.

Lemma linked_departures_founded cfg r info us p s τ out τ1 τ2 released a :
  runs (linked impl (sync_resource_users cfg r info us) p s) τ out →
  τ = τ1 ++ Ev (Outer (Username (ReleaseUsers released))) a :: τ2 →
  ∀ u, u ∈ released →
    ou_username u ≠ "" ∧ gone (ou_username u) (res_backend_id r) (inner_calls (rev τ1)).
Proof.
  intros Hrun Hτ u Hu.
  destruct (linked_call_guard impl gone _ _ _ _ _ _ _ _ _ _ _
    (sync_resource_users_spec cfg r info us p) Hrun Hτ) as (H & Hs & _ & g & returned & _ & Hr & Hall).
  destruct (Hall u Hu) as [Hn Hc]. split; [done|].
  exact (Hs _ Hr returned (ou_username u) eq_refl Hc).
Qed.
End Contract.

(** ** The processors over the default backend *)

(** A processor's statement, run over the default backend configured as [bcfg]. *)
Definition over_base_backend (bcfg : backend_config) {A} (m : proc A) (p : processor_state)
  : prog (linkedE clientE) (pull_state * (processor_state * res A)) :=
  linked (λ X c, base_backend bcfg c) m p no_pull.

(** C4: over the default backend, the deletion sweep reports an account deleted only when
    Waldur listed it for deletion and, if it has a username, for every resource of the
    offering Waldur listed, the backend's client said that the resource does not exist,
    listed its users without this one, found no association, or deleted it. *)
Theorem deletions_reported_once_dissociated bcfg cfg p τ out τ1 τ2 uuid a :
  runs (over_base_backend bcfg (process_requested_deletions cfg) p) τ out →
  τ = τ1 ++ Ev (Outer (Waldur (OfferingUserSetDeleted uuid))) a :: τ2 →
  deletion_founded dissociated cfg uuid (rev τ1).
Proof. apply (linked_deletions_founded (λ X c, base_backend bcfg c) dissociated). Qed.

(** Over the default backend, a role change releases accounts only under the name of
    the user it revokes, and only when the backend's client has shown that name gone
    from every resource of the project Waldur listed. *)
Theorem revoked_released_once_dissociated bcfg cfg user_uuid project_uuid granted role_name p τ out
    τ1 τ2 released a :
  runs (over_base_backend bcfg
    (process_user_role_changed cfg user_uuid project_uuid granted role_name) p) τ out →
  τ = τ1 ++ Ev (Outer (Username (ReleaseUsers released))) a :: τ2 →
  revocation_founded dissociated cfg project_uuid released (rev τ1).
Proof. apply (linked_revocations_founded (λ X c, base_backend bcfg c) dissociated). Qed.

(** Over the default backend, the synchronisation of a resource's users releases
    only accounts whose association with the resource its client has shown gone. *)
Theorem departed_released_once_dissociated bcfg cfg r info us p τ out τ1 τ2 released a :
  runs (over_base_backend bcfg (sync_resource_users cfg r info us) p) τ out →
  τ = τ1 ++ Ev (Outer (Username (ReleaseUsers released))) a :: τ2 →
  ∀ u, u ∈ released → ou_username u ≠ "" ∧
    dissociated (ou_username u) (res_backend_id r) (inner_calls (rev τ1)).
Proof. apply (linked_departures_founded (λ X c, base_backend bcfg c) dissociated). Qed.

(** ** Witnesses *)

(** [revoking_world], where Waldur also lists a departed user and takes the deletion on. *)
Definition sweeping_world (X : Type) (c : agentE X) (w : unit) : res X * unit :=
  match c in agentE X return res X * unit → res X * unit with
  | Waldur c =>
      match c in waldurE X return res X * unit → res X * unit with
      | OfferingUsersInStates _ => λ _, (Ok [leaving_user], w)
      | OfferingUserSetDeleting _ => λ _, (Ok 200, w)
      | OfferingUserSetDeleted _ => λ _, (Ok 200, w)
      | _ => id
      end
  | _ => id
  end (revoking_world X c w).

Definition linked_world (outer : ∀ X, agentE X → unit → res X * unit) (members : list string)
    (X : Type) (c : linkedE clientE X) (w : unit) : res X * unit :=
  match c in linkedE _ X return res X * unit with
  | Outer c => outer _ c w
  | Inner c => (client_world ["alloc-1"] members [] c, w)
  end.

Definition run_over {A} outer members (m : proc A) (p : processor_state) :=
  exec (linked_world outer members) (over_base_backend sample_backend m p) ().

Definition sweep_exec :=
  run_over sweeping_world ["alice"] (process_requested_deletions sample_config) initial_state.

Definition but_last {E} (τ : trace E) : trace E := take (length τ - 1) τ.

Lemma deletions_reported_once_dissociated_witness :
  deletion_founded dissociated sample_config "ou-1" (rev (but_last sweep_exec.1.2)).
Proof.
  refine (deletions_reported_once_dissociated sample_backend sample_config initial_state
    sweep_exec.1.2 sweep_exec.1.1 (but_last sweep_exec.1.2) [] "ou-1" (Ok 200) _ _).
  - apply exec_runs.
  - vm_compute. reflexivity.
Defined.

Definition revocation_exec :=
  run_over revoking_world ["alice"]
    (process_user_role_changed sample_config "user-1" "project-1" false "PROJECT.MEMBER")
    initial_state.

Lemma revoked_released_once_dissociated_witness :
  revocation_founded dissociated sample_config "project-1"
    [sample_user OfferingUserState.OK "alice"] (rev (but_last revocation_exec.1.2)).
Proof.
  refine (revoked_released_once_dissociated sample_backend sample_config "user-1" "project-1" false
    "PROJECT.MEMBER" initial_state revocation_exec.1.2 revocation_exec.1.1
    (but_last revocation_exec.1.2) [] _ (Ok ()) _ _).
  - apply exec_runs.
  - vm_compute. reflexivity.
Defined.

Definition departure_exec :=
  run_over (sample_world sample_team (Ok ())) ["alice"; "carol"]
    (sync_resource_users sample_config sample_resource (sample_info ["alice"; "carol"]) [])
    listed_state.

Lemma departed_released_once_dissociated_witness :
  dissociated "carol" "alloc-1" (inner_calls (rev (take 9 departure_exec.1.2))).
Proof.
  refine (proj2 (departed_released_once_dissociated sample_backend sample_config sample_resource
    (sample_info ["alice"; "carol"]) [] listed_state departure_exec.1.2 departure_exec.1.1
    (take 9 departure_exec.1.2) (drop 10 departure_exec.1.2) [departed_carol] (Ok ()) _ _
    departed_carol _)).
  - apply exec_runs.
  - vm_compute. reflexivity.
  - left.
Defined.
