(* ===== verification/Homedirs.v ===== *)
(** * Home directories and their quotas

    [backend/backends.py: BaseBackend.create_user_homedirs] and [backend/quota.py]:
    creating the home directories of a resource's users and limiting them with the
    commands of CephFS, XFS or Lustre. *)

From stdpp Require Import base list strings gmap sets pretty.
From Stdlib Require Import ZArith Lia.
From S2P Require Import Prelude.
From S2P Require Import Structures.
From S2P Require Import OfferingUsers.
From S2P Require Import BaseProcessor.

Local Open Scope prog_scope.

(** ** Data *)

Record HomedirQuotaConfig : Type := {
  provider : string;
  max_bytes : option string;
  max_files : option Z;
  mount_point : option string;
  block_softlimit : option string;
  block_hardlimit : option string;
  inode_softlimit : option Z;
  inode_hardlimit : option Z;
}.

Definition SUPPORTED_PROVIDERS : list string := ["ceph_xattr"; "xfs"; "lustre"].

Inductive homedirE : Type → Type :=
(* [(Path(base) / username).is_dir()] *)
| IsDir (base username : string) : homedirE bool
(* the home directory in the password database *)
| PasswdDir (username : string) : homedirE string
| CreateLinuxUserHomedir (username umask : string) : homedirE unit
| ExecuteCommand (command : list string) : homedirE string.

Abbreviation homedir_m := (M homedirE unit).

(** The settings the operation reads: the base path, when one is set, and the raw
    quota settings ([JNull] when absent). *)
Record homedir_config : Type := {
  homedir_base_path : option string;
  homedir_quota : json;
}.

Definition validate_provider (v : string) : res string :=
  if bool_decide (v ∈ SUPPORTED_PROVIDERS) then Ok v
  else Err (ValueError ("Unsupported quota provider: '" +:+ v +:+
                        "'. Must be one of: ceph_xattr, lustre, xfs")).

(** Truthiness of an optional string. *)
Definition given (s : option string) : option string :=
  match s with
  | Some s => if nonempty s then Some s else None
  | None => None
  end.

(** What is added for a configured limit. *)
Definition part {A B} (text : A → list B) (limit : option A) : list B :=
  match limit with Some v => text v | None => [] end.

Section Homedirs.
(** What pydantic makes of the raw settings before the validator of [provider] runs. *)
Context (parse_fields : json → res HomedirQuotaConfig).

Definition get_homedir_quota_config (raw : json) : option HomedirQuotaConfig :=
  if negb (truthy raw) then None
  else
    match parse_fields raw with
    | Ok config =>
        match validate_provider (provider config) with
        | Ok _ => Some config
        | Err _ => None
        end
    | Err _ => None
    end.

Definition get_user_homedir (username : string) (base : option string) : homedir_m string :=
  match given base with
  | Some base => ret (rstrip_slash base +:+ "/" +:+ username)
  | None => call (PasswdDir username)
  end.

(** A command whose failure is only logged when it is a backend error; what it prints
    is only logged, too. *)
Definition verify (command : list string) : homedir_m unit :=
  let! printed := attempt (call (ExecuteCommand command)) in
  match printed with
  | Ok _ => ret ()
  | Err e => if is_backend_error e then ret () else raise e
  end.

Definition set_and_verify_xattr (path attr_name expected_value : string) : homedir_m unit :=
  call (ExecuteCommand ["setfattr"; "-n"; attr_name; "-v"; expected_value; path]) ;!
  verify ["getfattr"; "--only-values"; "-n"; attr_name; path].

Definition apply_ceph_quota (homedir_path : string) (config : HomedirQuotaConfig)
  : homedir_m unit :=
  match max_bytes config with
  | Some v => set_and_verify_xattr homedir_path "ceph.quota.max_bytes" v
  | None => ret ()
  end ;!
  match max_files config with
  | Some v => set_and_verify_xattr homedir_path "ceph.quota.max_files" (pretty v)
  | None => ret ()
  end.

Definition xfs_limit_parts (config : HomedirQuotaConfig) : list string :=
  part (λ v, ["bsoft=" +:+ v]) (block_softlimit config) ++
  part (λ v, ["bhard=" +:+ v]) (block_hardlimit config) ++
  part (λ v, ["isoft=" +:+ pretty v]) (inode_softlimit config) ++
  part (λ v, ["ihard=" +:+ pretty v]) (inode_hardlimit config).

Definition apply_xfs_quota (username : string) (config : HomedirQuotaConfig) : homedir_m unit :=
  match given (mount_point config) with
  | None => ret ()
  | Some mount =>
      match xfs_limit_parts config with
      | [] => ret ()
      | parts =>
          call (ExecuteCommand ["xfs_quota"; "-x"; "-c";
            "limit -u " +:+ String.concat " " parts +:+ " " +:+ username; mount]) ;!
          verify ["xfs_quota"; "-x"; "-c"; "quota -u -N -b -h " +:+ username; mount]
      end
  end.

Definition lustre_limit_parts (config : HomedirQuotaConfig) : list string :=
  part (λ v, ["-b"; v]) (block_softlimit config) ++
  part (λ v, ["-B"; v]) (block_hardlimit config) ++
  part (λ v, ["-i"; pretty v]) (inode_softlimit config) ++
  part (λ v, ["-I"; pretty v]) (inode_hardlimit config).

Definition apply_lustre_quota (username : string) (config : HomedirQuotaConfig) : homedir_m unit :=
  match given (mount_point config) with
  | None => ret ()
  | Some mount =>
      match lustre_limit_parts config with
      | [] => ret ()
      | parts =>
          call (ExecuteCommand (["lfs"; "setquota"; "-u"; username] ++ parts ++ [mount])) ;!
          verify ["lfs"; "quota"; "-u"; username; mount]
      end
  end.

Definition apply_homedir_quota (username homedir_path : string) (config : HomedirQuotaConfig)
  : homedir_m unit :=
  if String.eqb (provider config) "ceph_xattr" then apply_ceph_quota homedir_path config
  else if String.eqb (provider config) "xfs" then apply_xfs_quota username config
  else if String.eqb (provider config) "lustre" then apply_lustre_quota username config
  else ret ().

(** The quota of one user: no failure gets out. *)
Definition limit_homedir (cfg : homedir_config) (quota : option HomedirQuotaConfig)
    (username : string) : homedir_m unit :=
  match quota with
  | None => ret ()
  | Some config =>
      let! _ := attempt (
        let! path := get_user_homedir username (homedir_base_path cfg) in
        apply_homedir_quota username path config) in
      ret ()
  end.

Definition create_user_homedir (cfg : homedir_config) (quota : option HomedirQuotaConfig)
    (umask username : string) : homedir_m unit :=
  let! homedir_exists := match given (homedir_base_path cfg) with
                         | Some base => call (IsDir base username)
                         | None => ret false
                         end in
  if homedir_exists : bool then limit_homedir cfg quota username
  else
    let! created := attempt (call (CreateLinuxUserHomedir username umask)) in
    match created with
    | Ok _ => limit_homedir cfg quota username
    | Err e => if is_backend_error e then ret () else raise e
    end.

Definition create_user_homedirs (cfg : homedir_config) (usernames : gset string) (umask : string)
  : homedir_m unit :=
  let quota := get_homedir_quota_config (homedir_quota cfg) in
  for_each (elements usernames) (create_user_homedir cfg quota umask).
End Homedirs.

(** ** What a quota asks the file system for *)

(** The commands that set the limits of a user, and those that read them back. *)
Definition setting_commands (username path : string) (config : HomedirQuotaConfig)
  : list (list string) :=
  if String.eqb (provider config) "ceph_xattr" then
    part (λ v, [["setfattr"; "-n"; "ceph.quota.max_bytes"; "-v"; v; path]]) (max_bytes config) ++
    part (λ v, [["setfattr"; "-n"; "ceph.quota.max_files"; "-v"; pretty v; path]]) (max_files config)
  else
    match given (mount_point config) with
    | None => []
    | Some mount =>
        if String.eqb (provider config) "xfs" then
          match xfs_limit_parts config with
          | [] => []
          | parts => [["xfs_quota"; "-x"; "-c";
                       "limit -u " +:+ String.concat " " parts +:+ " " +:+ username; mount]]
          end
        else if String.eqb (provider config) "lustre" then
          match lustre_limit_parts config with
          | [] => []
          | parts => [["lfs"; "setquota"; "-u"; username] ++ parts ++ [mount]]
          end
        else []
    end.

Definition reading_commands (username path : string) (config : HomedirQuotaConfig)
  : list (list string) :=
  if String.eqb (provider config) "ceph_xattr" then
    part (λ _, [["getfattr"; "--only-values"; "-n"; "ceph.quota.max_bytes"; path]])
      (max_bytes config) ++
    part (λ _, [["getfattr"; "--only-values"; "-n"; "ceph.quota.max_files"; path]])
      (max_files config)
  else
    match given (mount_point config) with
    | None => []
    | Some mount =>
        if String.eqb (provider config) "xfs"
        then [["xfs_quota"; "-x"; "-c"; "quota -u -N -b -h " +:+ username; mount]]
        else [["lfs"; "quota"; "-u"; username; mount]]
    end.

(** ** What happens to the home directories *)

(** The directory was found, or created. *)
Definition ready (umask u : string) (H : trace homedirE) : Prop :=
  Ev (CreateLinuxUserHomedir u umask) (Ok ()) ∈ H ∨ ∃ base, Ev (IsDir base u) (Ok true) ∈ H.

(** Where the user's directory is: under the base path, or as the password database said. *)
Definition homedir_at (cfg : homedir_config) (u path : string) (H : trace homedirE) : Prop :=
  match given (homedir_base_path cfg) with
  | Some base => path = rstrip_slash base +:+ "/" +:+ u
  | None => Ev (PasswdDir u) (Ok path) ∈ H
  end.

(** The commands executed are those of the quota, for a user asked for, once the
    directory is there; a directory is created only where none was found. *)
Definition homedirs_guard (cfg : homedir_config) (quota : option HomedirQuotaConfig)
    (users : gset string) (umask : string) : guard homedirE := λ X H c,
  match c with
  | IsDir base u => given (homedir_base_path cfg) = Some base ∧ u ∈ users
  | PasswdDir u => u ∈ users ∧ ready umask u H
  | CreateLinuxUserHomedir u m => u ∈ users ∧ m = umask ∧
      (∀ base, given (homedir_base_path cfg) = Some base →
         ∃ H', H = Ev (IsDir base u) (Ok false) :: H')
  | ExecuteCommand command => ∃ u path config, u ∈ users ∧ quota = Some config ∧
      ready umask u H ∧ homedir_at cfg u path H ∧
      command ∈ setting_commands u path config ++ reading_commands u path config
  end.

(** The directory is ready, or the backend refused to create it. *)
Definition homedir_settled (umask u : string) (H : trace homedirE) : Prop :=
  ready umask u H ∨
  ∃ e, is_backend_error e = true ∧ Ev (CreateLinuxUserHomedir u umask) (Err e) ∈ H.

Lemma ready_later umask u L H : ready umask u H → ready umask u (L ++ H).
Proof. unfold ready. setoid_rewrite elem_of_app. naive_solver. Qed.

Lemma homedir_at_later cfg u path L H : homedir_at cfg u path H → homedir_at cfg u path (L ++ H).
Proof. unfold homedir_at. case_match; [done|]. rewrite elem_of_app. auto. Qed.

Lemma homedir_settled_later umask u L H :
  homedir_settled umask u H → homedir_settled umask u (L ++ H).
Proof.
  intros [?|(e & ? & ?)]; [left; by apply ready_later|]. right. exists e.
  split; [done|]. apply elem_of_app; auto.
Qed.

(** A command was executed. *)
Definition executed (command : list string) (H : trace homedirE) : Prop :=
  ∃ printed, Ev (ExecuteCommand command) (Ok printed) ∈ H.

Definition all_executed (commands : list (list string)) (H : trace homedirE) : Prop :=
  ∀ command, command ∈ commands → executed command H.

Lemma all_executed_later commands L H : all_executed commands H → all_executed commands (L ++ H).
Proof. intros Ha c Hc. destruct (Ha c Hc) as [o ?]. exists o. apply elem_of_app; auto. Qed.

Section Quotas.
(** [allowed] are the commands of the user's quota. *)
Context (allowed : list (list string)).

Definition commands_guard : guard homedirE := λ X _ c,
  match c with ExecuteCommand command => command ∈ allowed | _ => False end.

(** The run ends in an error, or has executed these commands. *)
Definition runs_commands (commands : list (list string)) (m : homedir_m unit) : Prop :=
  ∀ s H, wpM commands_guard m (λ o _ H', (∃ L, H' = L ++ H) ∧
    ∀ u, o = Ok u → all_executed commands H') s H.

Lemma runs_nothing : runs_commands [] (ret ()).
Proof.
  intros s H. wp_step. split; [by exists []|]. intros u Hu c Hc. by apply elem_of_nil in Hc.
Qed.

Lemma runs_setting set read :
  set ∈ allowed → read ∈ allowed →
  runs_commands [set] (bind (call (ExecuteCommand set)) (λ _, verify read)).
Proof.
  intros Hset Hread s H. wp_step. apply wpM_call; [done|].
  intros [printed|e]; [|by split; [eexists [_]|]].
  unfold verify. wp_steps. apply wpM_call; [done|]. intros [o|e]; wp_steps;
    [|destruct (is_backend_error e); wp_step]; (split; [by eexists [_; _]|]); try done;
    intros u Hu c ->%list_elem_of_singleton; exists printed; right; left.
Qed.

Lemma runs_both c1 c2 m1 m2 :
  runs_commands c1 m1 → runs_commands c2 m2 →
  runs_commands (c1 ++ c2) (bind m1 (λ _, m2)).
Proof.
  intros H1 H2 s H. wp_step. eapply wpM_mono; [apply H1|].
  intros [[]|e] s1 K1 [[L1 ->] Ha]; [|split; [by exists L1|done]].
  eapply wpM_mono; [apply H2|]. intros o s2 K2 [[L2 ->] Hb].
  split; [exists (L2 ++ L1); by rewrite <- app_assoc|].
  intros u Ho c [Hc|Hc]%elem_of_app; [by apply (all_executed_later c1 L2 _ (Ha () eq_refl))|by apply (Hb u)].
Qed.
End Quotas.

(** A quota that could be applied has executed all the commands that set it, and no
    command but those that set it or read it back. *)
Lemma apply_homedir_quota_spec u path config :
  runs_commands (setting_commands u path config ++ reading_commands u path config)
    (setting_commands u path config) (apply_homedir_quota u path config).
Proof.
  unfold apply_homedir_quota, setting_commands, reading_commands.
  destruct (String.eqb (provider config) "ceph_xattr").
  - unfold apply_ceph_quota, set_and_verify_xattr. apply runs_both.
    + destruct (max_bytes config); [|apply runs_nothing]. apply runs_setting; simpl; set_solver.
    + destruct (max_files config); [|apply runs_nothing].
      apply runs_setting; rewrite !elem_of_app; simpl; set_solver.
  - unfold apply_xfs_quota, apply_lustre_quota.
    destruct (String.eqb (provider config) "xfs"), (String.eqb (provider config) "lustre");
      try apply runs_nothing; destruct (given (mount_point config)); try apply runs_nothing.
    all: destruct (xfs_limit_parts config), (lustre_limit_parts config); try apply runs_nothing.
    all: apply runs_setting; simpl; set_solver.
Qed.

Section HomedirProofs.
Context (cfg : homedir_config) (quota : option HomedirQuotaConfig) (users : gset string)
  (umask : string).
Local Abbreviation G := (homedirs_guard cfg quota users umask).
Implicit Types H : trace homedirE.

Lemma apply_quota_spec u path config s H :
  u ∈ users → quota = Some config → ready umask u H → homedir_at cfg u path H →
  wpM G (apply_homedir_quota u path config) (λ _ _ H', ∃ L, H' = L ++ H) s H.
Proof.
  intros Hu Hq Hr Hp.
  eapply (wpM_inv _ _ (λ H, ready umask u H ∧ homedir_at cfg u path H));
    [| |done|apply apply_homedir_quota_spec|].
  - intros X c a H' [? ?]. split; [by apply (ready_later _ _ [_])|by apply (homedir_at_later _ _ _ [_])].
  - intros X H' c [? ?]. destruct c; simpl; try done. intros Hc. by exists u, path, config.
  - by intros o s' H' [HL _] _.
Qed.

Lemma limit_homedir_spec u s H :
  u ∈ users → ready umask u H →
  wpM G (limit_homedir cfg quota u) (λ o _ H', o = Ok () ∧ ∃ L, H' = L ++ H) s H.
Proof.
  intros Hu Hr. unfold limit_homedir.
  destruct quota as [config|] eqn:Hq; [|wp_step; by split; [|exists []]]. rewrite <- Hq.
  wp_steps. unfold get_user_homedir.
  assert (Hgo : ∀ path s1 L, homedir_at cfg u path (L ++ H) →
    wpM G (apply_homedir_quota u path config) (λ o s' H',
      wpM G (ret ()) (λ o _ H', o = Ok () ∧ ∃ L, H' = L ++ H) s' H') s1 (L ++ H)).
  { intros path s1 L Hp. eapply wpM_mono; [apply apply_quota_spec; try done;
      by apply ready_later|].
    intros o s2 H2 [L2 ->]. wp_step. split; [done|]. exists (L2 ++ L). by rewrite app_assoc. }
  unfold homedir_at in Hgo. destruct (given (homedir_base_path cfg)) as [base|].
  - wp_step. by apply (Hgo _ _ []).
  - apply wpM_call; [done|]. intros [path|e]; [apply (Hgo path _ [_]); left|].
    wp_steps. split; [done|]. by eexists [_].
Qed.

(** What one user comes to: settled, or one of the two calls raised out of the loop. *)
Definition one_homedir (u : string) (H : trace homedirE) (o : res unit) (H' : trace homedirE)
  : Prop :=
  (∃ L, H' = L ++ H) ∧
  match o with
  | Ok _ => homedir_settled umask u H'
  | Err e => (∃ base H0, H' = Ev (IsDir base u) (Err e) :: H0) ∨
      (is_backend_error e = false ∧ ∃ H0, H' = Ev (CreateLinuxUserHomedir u umask) (Err e) :: H0)
  end.

Lemma limit_ready u s L H :
  u ∈ users → ready umask u (L ++ H) →
  wpM G (limit_homedir cfg quota u) (λ o _ H', one_homedir u H o H') s (L ++ H).
Proof.
  intros Hu Hr. eapply wpM_mono; [by apply limit_homedir_spec|].
  intros o s' H' [-> [L' ->]]. split; [exists (L' ++ L); by rewrite app_assoc|].
  left. by apply ready_later.
Qed.

Lemma create_user_homedir_spec u s H :
  u ∈ users →
  wpM G (create_user_homedir cfg quota umask u) (λ o _ H', one_homedir u H o H') s H.
Proof.
  intros Hu. unfold create_user_homedir.
  assert (Hcreate : ∀ s1 L, (∀ base, given (homedir_base_path cfg) = Some base →
      ∃ H', L ++ H = Ev (IsDir base u) (Ok false) :: H') →
    wpM G (let! created := attempt (call (CreateLinuxUserHomedir u umask)) in
           match created with
           | Ok _ => limit_homedir cfg quota u
           | Err e => if is_backend_error e then ret () else raise e
           end) (λ o _ H', one_homedir u H o H') s1 (L ++ H)).
  { intros s1 L Hbase. wp_steps. apply wpM_call; [done|].
    intros [[]|e]; wp_steps; [apply (limit_ready u _ (_ :: L)); [done|]; left; left|].
    destruct (is_backend_error e) eqn:He; wp_step; (split; [by eexists (_ :: L)|]).
    - right. exists e. split; [done|left].
    - right. split; [done|]. by eexists. }
  wp_step. destruct (given (homedir_base_path cfg)) as [base|] eqn:Hb.
  - apply wpM_call; [done|]. intros [[]|e]; cbv iota.
    + apply (limit_ready u _ [_]); [done|]. right. exists base. left.
    + apply (Hcreate _ [_]). intros base' [= <-]. by eexists.
    + split; [by eexists [_]|]. left. by eexists _, _.
  - wp_step. by apply (Hcreate _ []).
Qed.
End HomedirProofs.

(** Home directories are created only for the users asked for, and where a base path tells
    only when none was found there; the commands executed are those of the configured
    quota, on the directory of a user whose directory is there; every user's directory
    is ready in the end, or the backend refused to create it.  No failure to set a quota
    gets out: only looking a directory up can raise, or creating it with an exception
    that is no backend error. *)
Theorem homedirs_prepared parse_fields cfg users umask s τ s' o τ1 τ2 {X} (c : homedirE X) a :
  let quota := get_homedir_quota_config parse_fields (homedir_quota cfg) in
  runs (create_user_homedirs parse_fields cfg users umask s) τ (s', o) →
  match o with
  | Ok _ => ∀ u, u ∈ users → homedir_settled umask u (rev τ)
  | Err e => ∃ u H0, u ∈ users ∧
      ((∃ base, rev τ = Ev (IsDir base u) (Err e) :: H0) ∨
       (is_backend_error e = false ∧ rev τ = Ev (CreateLinuxUserHomedir u umask) (Err e) :: H0))
  end ∧
  (τ = τ1 ++ Ev c a :: τ2 → homedirs_guard cfg quota users umask X (rev τ1) c).
Proof.
  intros quota Hrun.
  assert (Hspec : wpM (homedirs_guard cfg quota users umask)
    (create_user_homedirs parse_fields cfg users umask) (λ o _ H', match o with
      | Ok _ => ∀ u, u ∈ users → homedir_settled umask u H'
      | Err e => ∃ u H0, u ∈ users ∧
          ((∃ base, H' = Ev (IsDir base u) (Err e) :: H0) ∨
           (is_backend_error e = false ∧ H' = Ev (CreateLinuxUserHomedir u umask) (Err e) :: H0))
      end) s []).
  { unfold create_user_homedirs. cbv zeta. fold quota.
    apply (wpM_for_each _ _ _ (λ done _ H', ∀ u, u ∈ done → homedir_settled umask u H')).
    - intros xs u s1 H1 [ys Hl] Hdone.
      assert (Hu : u ∈ users) by (rewrite <- elem_of_elements, Hl, elem_of_app; right; left).
      eapply wpM_mono; [by apply create_user_homedir_spec|].
      intros [[]|e] s2 H2 [[L ->] Ho].
      + intros v [Hv|Hv]%elem_of_app; [by apply homedir_settled_later, Hdone|].
        by apply list_elem_of_singleton in Hv as ->.
      + destruct Ho as [(base & H0 & ->)|(He & H0 & ->)]; exists u, H0; eauto.
    - intros s1 H1 Hall u Hu. apply Hall, elem_of_elements, Hu.
    - intros u Hu. by apply elem_of_nil in Hu. }
  split; [exact (proj1 (wpM_sound _ _ _ _ _ _ _ Hspec Hrun))|].
  intros Hτ. exact (wpM_call_guard _ _ _ _ _ _ _ _ _ _ _ Hspec Hrun Hτ).
Qed.

(** ** Witness *)

Definition lustre_quota : HomedirQuotaConfig :=
  {| provider := "lustre"; max_bytes := None; max_files := None; mount_point := Some "/home";
     block_softlimit := Some "900"; block_hardlimit := Some "1000"; inode_softlimit := None;
     inode_hardlimit := Some 5000%Z |}.

Definition sample_homedirs : homedir_config :=
  {| homedir_base_path := Some "/home/"; homedir_quota := JBool true |}.

Definition homedir_world (X : Type) (c : homedirE X) (w : unit) : res X * unit :=
  (match c in homedirE X return res X with
   | IsDir _ u => Ok (String.eqb u "alice")
   | PasswdDir u => Ok ("/home/" +:+ u)
   | CreateLinuxUserHomedir _ _ => Ok ()
   | ExecuteCommand _ => Ok ""
   end, w).

Definition homedirs_exec :=
  exec homedir_world
    (create_user_homedirs (λ _, Ok lustre_quota) sample_homedirs {["alice"; "bob"]} "0077" ()) ().

Lemma homedirs_prepared_witness :
  homedir_settled "0077" "bob" (rev homedirs_exec.1.2) ∧
  homedirs_guard sample_homedirs (Some lustre_quota) {["alice"; "bob"]} "0077" _
    (rev (take 1 homedirs_exec.1.2))
    (ExecuteCommand ["lfs"; "setquota"; "-u"; "alice"; "-b"; "900"; "-B"; "1000"; "-I"; "5000";
                     "/home"]).
Proof.
  destruct (homedirs_prepared (λ _, Ok lustre_quota) sample_homedirs {["alice"; "bob"]} "0077" ()
    homedirs_exec.1.2 () (Ok ()) (take 1 homedirs_exec.1.2) (drop 2 homedirs_exec.1.2)
    (ExecuteCommand ["lfs"; "setquota"; "-u"; "alice"; "-b"; "900"; "-B"; "1000"; "-I"; "5000";
                     "/home"]) (Ok "")) as [Ho Hg].
  - exact (exec_runs_pair _ _ _).
  - split; [apply Ho; vm_compute; reflexivity|]. apply Hg. vm_compute. reflexivity.
Defined.
