(* ===== verification/LogBuffer.v ===== *)
(** * The log buffer and its shipper

    [common/log_buffer.py], [common/log_handler.py] and [common/log_shipper.py]: log
    records are kept in memory up to a number of bytes, the oldest giving way, and are
    sent to Waldur in batches.  Strings are their UTF-8 bytes, so the size of a message
    is its length. *)

From stdpp Require Import base list strings gmap.
From Stdlib Require Import ZArith Lia SpecFloat.
From S2P Require Import Prelude.

Local Open Scope Z_scope.
Local Open Scope prog_scope.

(** ** The buffer *)

Record LogEntry : Type := {
  timestamp : spec_float;
  level : string;
  message : string;
  module_name : string;
  size : Z;
}.

Record CircularLogBuffer : Type := {
  max_size_bytes : Z;
  current_size : Z;
  buffer : list LogEntry;
}.

Definition new_buffer (max_size : Z) : CircularLogBuffer :=
  {| max_size_bytes := max_size; current_size := 0; buffer := [] |}.

(** The [while] of [add]; the oldest entry is at the head. *)
Fixpoint drop_oldest (max_size : Z) (st : Z * list LogEntry * Z) (l : list LogEntry)
  : Z * list LogEntry * Z :=
  let '(size_now, _, dropped_count) := st in
  match l with
  | [] => (size_now, [], dropped_count)
  | removed :: rest =>
      if size_now >? max_size
      then drop_oldest max_size (size_now - size removed, rest, dropped_count + 1) rest
      else (size_now, l, dropped_count)
  end.

(** What [add] does under the lock, with the number of entries it dropped. *)
Definition store (b : CircularLogBuffer) (entry : LogEntry) : CircularLogBuffer * Z :=
  let entries := buffer b ++ [entry] in
  let '(size_now, kept, dropped_count) :=
    drop_oldest (max_size_bytes b) (current_size b + size entry, entries, 0) entries in
  ({| max_size_bytes := max_size_bytes b; current_size := size_now; buffer := kept |},
   dropped_count).

Definition get_and_clear (b : CircularLogBuffer) : CircularLogBuffer * list LogEntry :=
  (new_buffer (max_size_bytes b), buffer b).

Definition clear (b : CircularLogBuffer) : CircularLogBuffer := (get_and_clear b).1.

(** ** The logging handler in front of it *)

(** A record of Python's [logging]; [rendered] is what [getMessage] returns or raises. *)
Record LogRecord : Type := {
  created : spec_float;
  levelno : Z;
  levelname : string;
  logger_name : string;
  rendered : res string;
}.

Definition EXCLUDED_LOGGER_PREFIXES : list string := ["httpx"; "httpcore"].

(** [ExcludeHttpFilter.filter] *)
Definition http_filter (record : LogRecord) : bool :=
  negb (existsb (λ p, String.prefix p (logger_name record)) EXCLUDED_LOGGER_PREFIXES).

Section Handler.
(** [parse_structlog_message]: the message of a record rendered by structlog, which it
    reads with Python's own literal parser. *)
Context (parse_structlog_message : string → option string).
(** The level the handler was set up with. *)
Context (handler_level : Z).

(** A handler is given the records of its level that pass its filter. *)
Definition handles (record : LogRecord) : bool :=
  (levelno record >=? handler_level) && http_filter record.

Definition entry_of (record : LogRecord) : option LogEntry :=
  match rendered record with
  | Err _ => None
  | Ok msg =>
      let msg := default msg (parse_structlog_message msg) in
      Some {| timestamp := created record; level := levelname record; message := msg;
              module_name := logger_name record; size := Z.of_nat (String.length msg) |}
  end.

(** The warning [add] logs when it has dropped entries. *)
Definition overflow_warning (now : spec_float) (text : Z → Z → string)
    (dropped_count max_size : Z) : LogRecord :=
  {| created := now; levelno := 30; levelname := "WARNING";
     logger_name := "waldur_site_agent.common.log_buffer";
     rendered := Ok (text dropped_count max_size) |}.

Context (overflow_text : Z → Z → string).

(** [add] with the warning active: the flag keeps it from warning again. *)
Definition add_quietly (b : CircularLogBuffer) (entry : LogEntry) : CircularLogBuffer :=
  (store b entry).1.

(** [add], the warning travelling through the same handler back into the buffer. *)
Definition add (b : CircularLogBuffer) (entry : LogEntry) (now : spec_float)
  : CircularLogBuffer :=
  let '(b', dropped_count) := store b entry in
  if dropped_count =? 0 then b'
  else
    let warning := overflow_warning now overflow_text dropped_count (max_size_bytes b') in
    if handles warning
    then match entry_of warning with Some w => add_quietly b' w | None => b' end
    else b'.

(** [emit]: a record whose message cannot be rendered is not buffered. *)
Definition emit (b : CircularLogBuffer) (record : LogRecord) (now : spec_float)
  : CircularLogBuffer :=
  match entry_of record with
  | Some entry => add b entry now
  | None => b
  end.

(** What a logger does with a record: hand it to the handler. *)
Definition log (b : CircularLogBuffer) (record : LogRecord) (now : spec_float)
  : CircularLogBuffer :=
  if handles record then emit b record now else b.
End Handler.

(** ** The shipper *)

(** An entry as it is posted. *)
Record log_payload : Type := {
  lp_agent_identity_uuid : string;
  lp_timestamp : spec_float;
  lp_level : string;
  lp_message : string;
  lp_module : string;
}.

Inductive shipE : Type → Type :=
(* [post] with [raise_for_status], over the kept client or one made for the request *)
| PostLogs (kept_client : bool) (url : string) (payload : list log_payload) : shipE unit
| Time : shipE spec_float
| Sleep (seconds : Z) : shipE unit
| OpenClient (agent : string) : shipE unit
| CloseClient (agent : string) : shipE unit
| StartThread (agent : string) : shipE unit
| ThreadIsAlive (agent : string) : shipE bool
| JoinThread (agent : string) (timeout : Z) : shipE unit.

Record ship_stats : Type := {
  logs_shipped : Z;
  batches_sent : Z;
  failed_shipments : Z;
  last_shipment : option spec_float;
}.

Record LogShipper : Type := {
  sh_buffer : CircularLogBuffer;
  sh_stats : ship_stats;
  sh_client : bool;
  sh_thread : bool;
  sh_stop : bool;
}.

Definition set_buffer (b : CircularLogBuffer) (s : LogShipper) : LogShipper :=
  {| sh_buffer := b; sh_stats := sh_stats s; sh_client := sh_client s;
     sh_thread := sh_thread s; sh_stop := sh_stop s |}.
Definition set_stats (f : ship_stats → ship_stats) (s : LogShipper) : LogShipper :=
  {| sh_buffer := sh_buffer s; sh_stats := f (sh_stats s); sh_client := sh_client s;
     sh_thread := sh_thread s; sh_stop := sh_stop s |}.
Definition set_client (on : bool) (s : LogShipper) : LogShipper :=
  {| sh_buffer := sh_buffer s; sh_stats := sh_stats s; sh_client := on;
     sh_thread := sh_thread s; sh_stop := sh_stop s |}.
Definition set_thread (on : bool) (s : LogShipper) : LogShipper :=
  {| sh_buffer := sh_buffer s; sh_stats := sh_stats s; sh_client := sh_client s;
     sh_thread := on; sh_stop := sh_stop s |}.
Definition set_stop (on : bool) (s : LogShipper) : LogShipper :=
  {| sh_buffer := sh_buffer s; sh_stats := sh_stats s; sh_client := sh_client s;
     sh_thread := sh_thread s; sh_stop := on |}.

Abbreviation ship_m := (M shipE LogShipper).

Definition LOG_ENDPOINT : string := "marketplace-site-agent-logs/".
Definition HTTP_NOT_FOUND : Z := 404.

Record ship_config : Type := {
  (* with its trailing slash *)
  api_url : string;
  agent_identity_uuid : string;
  batch_size : Z;
  max_retries : Z;
  retry_delay : Z;
}.

(** The slices [entries[i : i + n]] for [i] in [range(0, len(entries), n)]. *)
Fixpoint slices {A} (fuel : nat) (n : nat) (l : list A) : list (list A) :=
  match fuel, l with
  | S fuel, _ :: _ => take n l :: slices fuel n (drop n l)
  | _, _ => []
  end.

(** [range] refuses a zero step and is empty for a negative one. *)
Definition batches {A} (n : Z) (l : list A) : res (list (list A)) :=
  if n =? 0 then Err (ValueError "range() arg 3 must not be zero")
  else if n <? 0 then Ok []
  else Ok (slices (length l) (Z.to_nat n) l).

Section Shipper.
Context (cfg : ship_config).

Definition payload_of (entries : list LogEntry) : list log_payload :=
  map (λ entry, {| lp_agent_identity_uuid := agent_identity_uuid cfg;
                   lp_timestamp := timestamp entry; lp_level := level entry;
                   lp_message := message entry; lp_module := module_name entry |}) entries.

Definition count_shipped (n : Z) (now : spec_float) (t : ship_stats) : ship_stats :=
  {| logs_shipped := logs_shipped t + n; batches_sent := batches_sent t + 1;
     failed_shipments := failed_shipments t; last_shipment := Some now |}.
Definition count_failed (t : ship_stats) : ship_stats :=
  {| logs_shipped := logs_shipped t; batches_sent := batches_sent t;
     failed_shipments := failed_shipments t + 1; last_shipment := last_shipment t |}.

(** The attempts left of [_ship_batch], from the one numbered [attempt] on. *)
Fixpoint ship_attempts (entries : list LogEntry) (attempt_no : Z) (remaining : nat) : ship_m unit :=
  match remaining with
  | O => modify_st (set_stats count_failed)
  | S remaining =>
      let! s := get_st in
      let! outcome := attempt (
        call (PostLogs (sh_client s) (api_url cfg +:+ LOG_ENDPOINT) (payload_of entries)) ;!
        let! now := call Time in
        modify_st (set_stats (count_shipped (Z.of_nat (length entries)) now))) in
      let again :=
        (if attempt_no <? max_retries cfg
         then call (Sleep (retry_delay cfg * 2 ^ attempt_no)) else ret ()) ;!
        ship_attempts entries (attempt_no + 1) remaining in
      match outcome with
      | Ok _ => ret ()
      | Err (HTTPStatusError status _) => if status =? HTTP_NOT_FOUND then ret () else again
      | Err _ => again
      end
  end.

Definition ship_batch (entries : list LogEntry) : ship_m unit :=
  ship_attempts entries 0 (Z.to_nat (max_retries cfg + 1)).

(** [_ship_logs] *)
Definition ship_logs : ship_m unit :=
  let! s := get_st in
  let '(b, entries) := get_and_clear (sh_buffer s) in
  modify_st (set_buffer b) ;!
  match entries with
  | [] => ret ()
  | _ => let! parts := of_res (batches (batch_size cfg) entries) in for_each parts ship_batch
  end.

(** One turn of [_ship_loop]: whatever goes wrong is logged. *)
Definition ship_loop_turn : ship_m unit :=
  let! _ := attempt ship_logs in ret ().

Definition start : ship_m unit :=
  let! s := get_st in
  let! running := if sh_thread s then call (ThreadIsAlive (agent_identity_uuid cfg)) else ret false in
  if running : bool then ret ()
  else
    call (OpenClient (agent_identity_uuid cfg)) ;!
    modify_st (set_client true) ;!
    modify_st (set_stop false) ;!
    modify_st (set_thread true) ;!
    call (StartThread (agent_identity_uuid cfg)).

(** [stop]; the reference to the thread is kept. *)
Definition stop (timeout : Z) : ship_m unit :=
  let! s := get_st in
  if negb (sh_thread s) then ret ()
  else
    modify_st (set_stop true) ;!
    (let! alive := call (ThreadIsAlive (agent_identity_uuid cfg)) in
     if alive : bool then call (JoinThread (agent_identity_uuid cfg) timeout) else ret ()) ;!
    ship_logs ;!
    let! s := get_st in
    if sh_client s then call (CloseClient (agent_identity_uuid cfg)) ;! modify_st (set_client false) else ret ().
End Shipper.

(** ** The manager of the shippers

    The shippers of the agent identities, in the order they were added. *)
Abbreviation manager := (list (string * (ship_config * LogShipper))).

(** A method of one shipper of the manager; its state changes stay when it raises. *)
Definition on_shipper (uuid : string) (m : ship_config → ship_m unit) : M shipE manager unit :=
  λ shippers,
    match dict_get shippers uuid with
    | Some (cfg, shipper) =>
        pbind (m cfg shipper) (λ '(shipper', r), Ret (dict_set shippers uuid (cfg, shipper'), r))
    | None => raise (KeyError uuid) shippers
    end.

Definition add_shipper (uuid : string) (cfg : ship_config) (shipper : LogShipper)
  : M shipE manager unit :=
  let! shippers := get_st in
  (if bool_decide (uuid ∈ dict_keys shippers)
   then on_shipper uuid (λ cfg, stop cfg 10) else ret ()) ;!
  modify_st (λ shippers, dict_set shippers uuid (cfg, shipper)).

Definition start_all : M shipE manager unit :=
  let! shippers := get_st in
  for_each (dict_keys shippers) (λ uuid, let! _ := attempt (on_shipper uuid start) in ret ()).

Definition stop_all (timeout : Z) : M shipE manager unit :=
  let! shippers := get_st in
  for_each (dict_keys shippers)
    (λ uuid, let! _ := attempt (on_shipper uuid (λ cfg, stop cfg timeout)) in ret ()) ;!
  put_st [].

(** ** What the buffer holds *)

Definition total (l : list LogEntry) : Z := foldr (λ e n, size e + n) 0 l.

(** Reference: the longest suffix of [l] within [max_size] bytes. *)
Fixpoint fitting (max_size : Z) (l : list LogEntry) : list LogEntry :=
  match l with
  | [] => []
  | _ :: rest => if bool_decide (total l ≤ max_size) then l else fitting max_size rest
  end.

Lemma total_app l l' : total (l ++ l') = total l + total l'.
Proof. unfold total; induction l; simpl; lia. Qed.

Lemma fitting_suffix max_size l : fitting max_size l `suffix_of` l.
Proof. induction l; simpl; [done|]. case_bool_decide; [done|by apply suffix_cons_r]. Qed.

Lemma fitting_sublist max_size l : fitting max_size l `sublist_of` l.
Proof. destruct (fitting_suffix max_size l) as [k Hk]. rewrite Hk at 2. by apply sublist_inserts_l. Qed.

Lemma fitting_bound max_size l : total (fitting max_size l) ≤ max_size ∨ fitting max_size l = [].
Proof. induction l; simpl; [auto|]. case_bool_decide; auto. Qed.

Lemma fitting_longest max_size l k :
  k `suffix_of` l → total k ≤ max_size → (length k ≤ length (fitting max_size l))%nat.
Proof.
  intros Hk Hm; induction l as [|x l IH]; simpl.
  { by apply suffix_nil_inv in Hk as ->. }
  case_bool_decide as Hx; [by apply suffix_length|].
  destruct Hk as [[|y p] Hp]; simplify_eq/=; [done|]. apply IH. by exists p.
Qed.

Lemma fitting_snoc max_size l e :
  0 ≤ size e → fitting max_size (fitting max_size l ++ [e]) = fitting max_size (l ++ [e]).
Proof.
  intros He; induction l as [|x l IH]; [done|]. cbn [fitting]. case_bool_decide as Hx; [done|].
  rewrite IH. cbn [fitting app]. rewrite bool_decide_false; [done|].
  change (¬ total ((x :: l) ++ [e]) ≤ max_size). rewrite total_app. simpl in *. lia.
Qed.

Lemma total_nonneg l : Forall (λ e, 0 ≤ size e) l → 0 ≤ total l.
Proof. induction 1; simpl; lia. Qed.

Lemma fitting_app_over max_size l k :
  Forall (λ e, 0 ≤ size e) l → max_size < total k →
  fitting max_size (l ++ k) = fitting max_size k.
Proof.
  intros Hl Hk; induction Hl as [|x l Hx Hl IH]; [done|]. cbn [fitting app].
  rewrite bool_decide_false; [done|]. change (¬ total ((x :: l) ++ k) ≤ max_size).
  rewrite total_app. apply total_nonneg in Hl. simpl. lia.
Qed.

Lemma drop_oldest_fitting max_size l l0 d :
  drop_oldest max_size (total l, l0, d) l =
  (total (fitting max_size l), fitting max_size l,
   d + Z.of_nat (length l) - Z.of_nat (length (fitting max_size l))).
Proof.
  revert l0 d; induction l as [|x l IH]; intros l0 d; cbn [drop_oldest fitting].
  { do 2 f_equal. simpl. lia. }
  case_bool_decide as Hx.
  - destruct (Z.gtb_spec (total (x :: l)) max_size); [lia|]. do 2 f_equal. lia.
  - destruct (Z.gtb_spec (total (x :: l)) max_size); [|lia].
    replace (total (x :: l) - size x) with (total l) by (simpl; lia).
    rewrite IH. do 2 f_equal. cbn [length]. lia.
Qed.

(** ** Logging and shipping as steps

    Every operation of the buffer holds its lock, so threads interleave whole
    operations.  The ghost state records what was buffered, since when, and what was
    handed to the shipper. *)
Record ledger : Type := {
  offered : list LogEntry;
  handed : list LogEntry;
  since : list LogEntry;
}.

Definition offer (l : list LogEntry) (g : ledger) : ledger :=
  {| offered := offered g ++ l; handed := handed g; since := since g ++ l |}.
Definition hand_out (l : list LogEntry) (g : ledger) : ledger :=
  {| offered := offered g; handed := handed g ++ l; since := [] |}.

Section Steps.
Context (parse : string → option string) (handler_level : Z) (overflow_text : Z → Z → string).
Context (max_size : Z).

(** The entries that reach the buffer when a record is logged: its own and, when older
    ones give way, that of the warning. *)
Definition entries_logged (b : CircularLogBuffer) (record : LogRecord) (now : spec_float)
  : list LogEntry :=
  if handles handler_level record then
    match entry_of parse record with
    | None => []
    | Some e =>
        let '(b', dropped_count) := store b e in
        let warning := overflow_warning now overflow_text dropped_count (max_size_bytes b') in
        e :: (if (negb (dropped_count =? 0)) && handles handler_level warning
              then option_list (entry_of parse warning) else [])
    end
  else [].

Inductive buffer_step : ledger * CircularLogBuffer → ledger * CircularLogBuffer → Prop :=
| step_log g b record now :
    buffer_step (g, b) (offer (entries_logged b record now) g,
                        log parse handler_level overflow_text b record now)
| step_take g b :
    buffer_step (g, b) (hand_out (get_and_clear b).2 g, (get_and_clear b).1).

Definition no_entries : ledger := {| offered := []; handed := []; since := [] |}.

Definition buffer_ok (g : ledger) (b : CircularLogBuffer) : Prop :=
  max_size_bytes b = max_size ∧
  buffer b = fitting max_size (since g) ∧
  current_size b = total (buffer b) ∧
  handed g ++ since g `sublist_of` offered g ∧
  Forall (λ e, 0 ≤ size e) (since g).

Lemma entry_size record e : entry_of parse record = Some e → 0 ≤ size e.
Proof. unfold entry_of. destruct (rendered record); intros; simplify_eq/=. lia. Qed.

Lemma store_ok g b e :
  buffer_ok g b → 0 ≤ size e → buffer_ok (offer [e] g) (store b e).1.
Proof.
  intros (Hm & Hb & Hc & Hs & Hn) He. unfold store.
  rewrite Hm, Hc, <- (Z.add_0_r (size e)). change (size e + 0) with (total [e]).
  rewrite <- total_app, drop_oldest_fitting. rewrite Hb, fitting_snoc by done.
  split_and!; simpl; auto. { rewrite (assoc (++)). by apply sublist_app. }
  apply Forall_app; auto.
Qed.

Lemma offer_app l l' g : offer (l ++ l') g = offer l' (offer l g).
Proof. unfold offer; simpl. by rewrite !(assoc (++)). Qed.

Lemma offer_nil g : offer [] g = g.
Proof. destruct g; unfold offer; simpl. by rewrite !app_nil_r. Qed.

Lemma buffer_step_ok g b g' b' :
  buffer_step (g, b) (g', b') → buffer_ok g b → buffer_ok g' b'.
Proof.
  inversion 1 as [? ? record now|]; subst; intros Hok.
  - unfold log, entries_logged, emit, add.
    destruct (handles _ record); [|by rewrite offer_nil].
    destruct (entry_of parse record) as [e|] eqn:He; [|by rewrite offer_nil].
    pose proof (store_ok g b e Hok (entry_size _ _ He)) as H1.
    destruct (store b e) as [b1 dropped]; cbn [fst] in H1.
    destruct (dropped =? 0); [done|]; cbn [negb andb].
    destruct (handles _ (overflow_warning _ _ _ _)); [|done].
    destruct (entry_of parse (overflow_warning _ _ _ _)) as [w|] eqn:Hw; [|done].
change (e :: option_list (Some w)) with ([e] ++ [w]). rewrite offer_app.
    apply store_ok; [done|by eapply entry_size].
  - destruct Hok as (Hm & Hb & Hc & Hs & Hn). split_and!; simpl; auto.
    rewrite app_nil_r. etrans; [|exact Hs]. apply sublist_app; [done|].
    rewrite Hb. apply fitting_sublist.
Qed.

Lemma buffer_reachable_ok g b :
  rtc buffer_step (no_entries, new_buffer max_size) (g, b) → buffer_ok g b.
Proof.
  intros Hr. apply (rtc_invariant (λ x, buffer_ok x.1 x.2) _ _ Hr); [|by split_and!].
  intros [g1 b1] [g2 b2]. apply buffer_step_ok.
Qed.

(** However logging and shipping interleave, the buffer holds exactly the longest
    run of latest entries that fits the size limit -- a suffix of everything buffered
    since it was last taken, within the limit unless empty, and no shorter than any other
    suffix that fits -- the size it counts is the sum of the sizes it holds, and what the
    shipper was handed together with what is held consists of entries buffered, each at
    most once and in order. *)
Theorem buffer_keeps_latest g b :
  rtc buffer_step (no_entries, new_buffer max_size) (g, b) →
  current_size b = total (buffer b) ∧
  (current_size b ≤ max_size ∨ buffer b = []) ∧
  buffer b `suffix_of` since g ∧
  (∀ k, k `suffix_of` since g → total k ≤ max_size → (length k ≤ length (buffer b))%nat) ∧
  handed g ++ buffer b `sublist_of` offered g.
Proof.
  intros (Hm & Hb & Hc & Hs & _)%buffer_reachable_ok. rewrite Hc, Hb. split_and!; auto.
  - apply fitting_bound.
  - apply fitting_suffix.
  - intros k. apply fitting_longest.
  - etrans; [|exact Hs]. apply sublist_app; [done|]. apply fitting_sublist.
Qed.

(** A record whose arrival makes older ones give way is itself lost when it does not fit
    together with the warning about it, and the number in the warning does not say so. *)
Lemma overflowing_entry_lost g b record e w now :
  buffer_ok g b → handles handler_level record = true → entry_of parse record = Some e →
  let b' := (store b e).1 in
  let warning := overflow_warning now overflow_text (store b e).2 (max_size_bytes b') in
  (store b e).2 ≠ 0 → handles handler_level warning = true →
  entry_of parse warning = Some w → max_size < size e + size w →
  buffer (log parse handler_level overflow_text b record now) `suffix_of` [w].
Proof.
  intros Hok Hh He b' warning Hd Hw Hew Hbig.
  unfold log, emit, add. rewrite Hh, He.
  pose proof (store_ok g b e Hok (entry_size _ _ He)) as H1.
  unfold warning, b' in *. clear warning b'. destruct (store b e) as [b1 dropped]; cbn [fst snd] in *.
  destruct (Z.eqb_spec dropped 0); [done|]. rewrite Hw, Hew.
  destruct (store_ok _ _ w H1 (entry_size _ _ Hew)) as (_ & Hb & _ & _).
  unfold add_quietly. rewrite Hb. cbn [offer since]. rewrite <- (assoc (++)).
  rewrite fitting_app_over; [|by destruct Hok as (?&?&?&?&?)|simpl; lia].
  cbn [fitting app]. rewrite bool_decide_false by (simpl; lia).
  apply (fitting_suffix max_size [w]).
Qed.
End Steps.

(** ** What happens to a batch *)

(** The clock and pauses do not fail. *)
Definition calm (τ : trace shipE) : Prop :=
  Forall (λ ev, match ev with
    | Ev c r => match c with
        | Time | Sleep _ => match r with Ok _ => True | Err _ => False end
        | _ => True
        end
    end) τ.

Inductive verdict : Type := Delivered | NotDeployed | GivenUp.

Definition not_found (e : exn) : bool :=
  match e with HTTPStatusError status _ => status =? HTTP_NOT_FOUND | _ => false end.

Section Batches.
Context (cfg : ship_config).

Definition post (kept : bool) (entries : list LogEntry) (r : res unit) : event shipE :=
  Ev (PostLogs kept (api_url cfg +:+ LOG_ENDPOINT) (payload_of cfg entries)) r.

(** Failed attempts from the one numbered [k] on, each followed by its pause. *)
Fixpoint failures (kept : bool) (entries : list LogEntry) (k : Z) (errs : list exn)
  : trace shipE :=
  match errs with
  | [] => []
  | e :: errs => post kept entries (Err e) :: Ev (Sleep (retry_delay cfg * 2 ^ k)) (Ok ()) ::
      failures kept entries (k + 1) errs
  end.

(** The calls made for a batch from attempt [k] on, and how it ended. *)
Definition batch_run (kept : bool) (entries : list LogEntry) (k : Z) (v : verdict)
    (τ : trace shipE) : Prop :=
  ∃ errs final, τ = failures kept entries k errs ++ final ∧
    Forall (λ e, not_found e = false) errs ∧
    k + Z.of_nat (length errs) ≤ max_retries cfg ∧
    match v with
    | Delivered => ∃ now, final = [post kept entries (Ok ()); Ev Time (Ok now)]
    | NotDeployed => ∃ e, final = [post kept entries (Err e)] ∧ not_found e = true
    | GivenUp => ∃ e, final = [post kept entries (Err e)] ∧ not_found e = false ∧
                 k + Z.of_nat (length errs) = max_retries cfg
    end.

(** What the shipper counts of a batch. *)
Definition accounted (t : ship_stats) (entries : list LogEntry) (v : verdict) (t' : ship_stats)
  : Prop :=
  logs_shipped t' = logs_shipped t +
    match v with Delivered => Z.of_nat (length entries) | _ => 0 end ∧
  batches_sent t' = batches_sent t + match v with Delivered => 1 | _ => 0 end ∧
  failed_shipments t' = failed_shipments t + match v with GivenUp => 1 | _ => 0 end.

(** Nothing but the statistics has changed. *)
Definition only_stats (s s' : LogShipper) : Prop :=
  sh_buffer s' = sh_buffer s ∧ sh_client s' = sh_client s ∧
  sh_thread s' = sh_thread s ∧ sh_stop s' = sh_stop s.

Lemma calm_app τ1 τ2 : calm (τ1 ++ τ2) ↔ calm τ1 ∧ calm τ2.
Proof. apply Forall_app. Qed.

Definition retry (entries : list LogEntry) (k : Z) (n : nat) : ship_m unit :=
  (if k <? max_retries cfg then call (Sleep (retry_delay cfg * 2 ^ k)) else ret ()) ;!
  ship_attempts cfg entries (k + 1) n.

(** One attempt delivers, finds no endpoint, or leads to the next one. *)
Lemma ship_attempt_cases entries n k s τ s' r :
  runs (ship_attempts cfg entries k (S n) s) τ (s', r) → calm τ →
  (∃ now, τ = [post (sh_client s) entries (Ok ()); Ev Time (Ok now)] ∧ r = Ok () ∧
     s' = set_stats (count_shipped (Z.of_nat (length entries)) now) s) ∨
  (∃ e, τ = [post (sh_client s) entries (Err e)] ∧ not_found e = true ∧ r = Ok () ∧ s' = s) ∨
  (∃ e τ', τ = post (sh_client s) entries (Err e) :: τ' ∧ not_found e = false ∧
     runs (retry entries k n s) τ' (s', r)).
Proof.
  intros Hr Hc. cbn [ship_attempts] in Hr. fold (retry entries k n) in Hr.
  destruct Hr as (a & τ1 & -> & Hr). destruct a as [[]|e].
  - left. destruct Hr as (now & τ2 & -> & Hr).
    destruct now as [now|e]; [|by inversion_clear Hc as [|??? Hc']; inversion Hc'].
    destruct Hr as [-> [= <- <-]]. by exists now.
  - right. destruct (not_found e) eqn:He.
    + left. exists e. unfold not_found in He. destruct e; try done.
      cbn in Hr. rewrite He in Hr. by destruct Hr as [-> [= <- <-]].
    + right. exists e, τ1. split_and!; [done..|].
      unfold not_found in He. destruct e; try exact Hr.
      cbn in Hr. rewrite He in Hr. exact Hr.
Qed.

Lemma only_stats_trans s1 s2 s3 : only_stats s1 s2 → only_stats s2 s3 → only_stats s1 s3.
Proof. unfold only_stats. intros (?&?&?&?) (?&?&?&?). split_and!; congruence. Qed.

Lemma ship_attempts_run entries n : ∀ k s τ s' r,
  runs (ship_attempts cfg entries k (S n) s) τ (s', r) → calm τ →
  max_retries cfg = k + Z.of_nat n →
  r = Ok () ∧ only_stats s s' ∧
  ∃ v, batch_run (sh_client s) entries k v τ ∧ accounted (sh_stats s) entries v (sh_stats s').
Proof.
  induction n as [|n IH]; intros k s τ s' r Hr Hc Hk;
    destruct (ship_attempt_cases _ _ _ _ _ _ _ Hr Hc) as
      [(now & -> & -> & ->)|[(e & -> & He & -> & ->)|(e & τ' & -> & He & Hr')]].
  1,4: split_and!; [done..|exists Delivered; split];
    [exists [], [post (sh_client s) entries (Ok ()); Ev Time (Ok now)]; split_and!; simpl; eauto; lia|split_and!; simpl; lia].
  1,3: split_and!; [done..|exists NotDeployed; split];
    [exists [], [post (sh_client s) entries (Err e)]; split_and!; simpl; eauto; lia|
     split_and!; simpl; lia].
  - unfold retry in Hr'. destruct (Z.ltb_spec k (max_retries cfg)); [lia|].
    destruct Hr' as [-> [= <- <-]]. split_and!; [done..|exists GivenUp; split].
    + exists [], [post (sh_client s) entries (Err e)]. split_and!; [done|done|cbn [length]; lia|].
      exists e. split_and!; [done..|cbn [length]; lia].
    + split_and!; simpl; lia.
  - unfold retry in Hr'. destruct (Z.ltb_spec k (max_retries cfg)); [|lia].
    destruct Hr' as (a & τ2 & -> & Hr').
    destruct a as [[]|x]; [|by inversion_clear Hc as [|??? Hc']; inversion Hc'].
    apply Forall_cons in Hc as [_ Hc]. apply Forall_cons in Hc as [_ Hc].
    destruct (IH _ _ _ _ _ Hr' Hc ltac:(lia)) as (-> & Hs & v & (errs & final & -> & Hf & Hl & Hv) & Ha).
    split_and!; [done..|]. exists v; split; [|done].
    exists (e :: errs), final. split_and!; [done|by constructor|cbn [length]; lia|].
    destruct v; [done..|]. destruct Hv as (x & -> & Hx & Hlen).
    exists x. split_and!; [done..|cbn [length]; lia].
Qed.

Lemma ship_batch_run entries s τ s' r :
  runs (ship_batch cfg entries s) τ (s', r) → calm τ → 0 ≤ max_retries cfg →
  r = Ok () ∧ only_stats s s' ∧
  ∃ v, batch_run (sh_client s) entries 0 v τ ∧ accounted (sh_stats s) entries v (sh_stats s').
Proof.
  unfold ship_batch. intros Hr Hc Hm.
  replace (Z.to_nat (max_retries cfg + 1)) with (S (Z.to_nat (max_retries cfg))) in Hr by lia.
  apply (ship_attempts_run _ _ _ _ _ _ _ Hr Hc). lia.
Qed.

(** The totals over the batches of a shipment. *)
Definition shipment (t : ship_stats) (parts : list (list LogEntry)) (vs : list verdict)
    (t' : ship_stats) : Prop :=
  logs_shipped t' = logs_shipped t +
    foldr (λ pv n, match pv.2 with Delivered => Z.of_nat (length pv.1) | _ => 0 end + n) 0
      (zip parts vs) ∧
  batches_sent t' = batches_sent t +
    foldr (λ v n, match v with Delivered => 1 | _ => 0 end + n) 0 vs ∧
  failed_shipments t' = failed_shipments t +
    foldr (λ v n, match v with GivenUp => 1 | _ => 0 end + n) 0 vs.

Lemma ship_parts_run parts : ∀ s τ s' r,
  runs (for_each parts (ship_batch cfg) s) τ (s', r) → calm τ → 0 ≤ max_retries cfg →
  r = Ok () ∧ only_stats s s' ∧
  ∃ vs τs, τ = concat τs ∧ length vs = length parts ∧
    Forall2 (λ pv τ, batch_run (sh_client s) pv.1 0 pv.2 τ) (zip parts vs) τs ∧
    shipment (sh_stats s) parts vs (sh_stats s').
Proof.
  induction parts as [|part parts IH]; intros s τ s' r Hr Hc Hm.
  { destruct Hr as [-> [= <- <-]]. split_and!; [done..|]. exists [], [].
    split_and!; simpl; [done..|constructor|split_and!; simpl; lia]. }
  cbn [for_each] in Hr.
  apply runs_bind_inv in Hr as [(τ1 & s1 & [] & τ2 & -> & H1 & H2)|(e & -> & H1)].
  2:{ by destruct (ship_batch_run _ _ _ _ _ H1 Hc Hm) as [? _]. }
  apply calm_app in Hc as [Hc1 Hc2].
  destruct (ship_batch_run _ _ _ _ _ H1 Hc1 Hm) as (_ & Hs1 & v & Hv & Ha).
  destruct (IH _ _ _ _ H2 Hc2 Hm) as (-> & Hs2 & vs & τs & -> & Hl & Hb & Hsh).
  split_and!; [done|exact (only_stats_trans _ _ _ Hs1 Hs2)|].
  exists (v :: vs), (τ1 :: τs). split_and!; [done|cbn [length]; lia| |].
  - destruct Hs1 as (_ & Hcl & _). rewrite Hcl in Hb. by apply Forall2_cons.
  - unfold shipment, accounted in *. destruct_and!. simpl. split_and!; lia.
Qed.

Lemma slices_spec {A} fuel n (l : list A) :
  (0 < n)%nat → (length l ≤ fuel)%nat →
  concat (slices fuel n l) = l ∧ Forall (λ p, 0 < length p ≤ n)%nat (slices fuel n l).
Proof.
  intros Hn; revert l; induction fuel as [|fuel IH]; intros [|x l] Hl; simpl; try done.
  { simpl in Hl; lia. }
  destruct n as [|n]; [lia|].
  destruct (IH (drop n l)) as [Hc Hf]; [rewrite length_drop; simpl in Hl; lia|].
  cbn [slices take drop] in *. split.
  - rewrite Hc. cbn. by rewrite take_drop.
  - constructor; [|done]. cbn [length]. rewrite length_take. lia.
Qed.

(** A shipment takes everything out of the buffer and posts it in order, in batches of
    at most the configured size.  A batch is posted again only after an attempt that
    failed otherwise than with 404, never more than [max_retries] times, with a pause that
    doubles from attempt to attempt; a success or a 404 ends it, and only a batch whose
    last permitted attempt failed is given up and counted as failed.  No failure of one
    batch keeps the next from being posted, none gets out, and the statistics count
    exactly the batches and entries delivered. *)
Theorem shipment_complete s τ s' r :
  0 < batch_size cfg → 0 ≤ max_retries cfg →
  runs (ship_logs cfg s) τ (s', r) → calm τ →
  r = Ok () ∧ buffer (sh_buffer s') = [] ∧ current_size (sh_buffer s') = 0 ∧
  ∃ parts vs τs,
    concat parts = buffer (sh_buffer s) ∧
    Forall (λ p, 0 < Z.of_nat (length p) ≤ batch_size cfg) parts ∧
    τ = concat τs ∧ length vs = length parts ∧
    Forall2 (λ pv τ, batch_run (sh_client s) pv.1 0 pv.2 τ) (zip parts vs) τs ∧
    shipment (sh_stats s) parts vs (sh_stats s').
Proof.
  intros Hb Hm Hr Hc. unfold ship_logs in Hr. cbn in Hr.
  destruct (buffer (sh_buffer s)) as [|e l] eqn:Hl.
  { destruct Hr as [-> [= <- <-]]. split_and!; [done..|]. exists [], [], [].
    split_and!; simpl; [done..|constructor|split_and!; simpl; lia]. }
  unfold batches in Hr. destruct (Z.eqb_spec (batch_size cfg) 0); [lia|].
  destruct (Z.ltb_spec (batch_size cfg) 0); [lia|]. cbn [of_res] in Hr.
  destruct (slices_spec (length (e :: l)) (Z.to_nat (batch_size cfg)) (e :: l)) as [Hcat Hf];
    [lia..|].
  destruct (ship_parts_run _ _ _ _ _ Hr Hc Hm) as (-> & (Hbuf & _) & vs & τs & -> & Hv & Hrun & Ht).
  split_and!; [done|by rewrite Hbuf..|]. exists (slices (length (e :: l)) (Z.to_nat (batch_size cfg)) (e :: l)), vs, τs.
  split_and!; [done| |done..]. eapply Forall_impl; [exact Hf|]. simpl. lia.
Qed.
End Batches.

(** ** Concrete runs *)

Definition sample_record (msg : string) : LogRecord :=
  {| created := S754_zero false; levelno := 20; levelname := "INFO";
     logger_name := "waldur_site_agent.backend"; rendered := Ok msg |}.

Definition sample_entry (msg : string) : LogEntry :=
  {| timestamp := S754_zero false; level := "INFO"; message := msg;
     module_name := "waldur_site_agent.backend"; size := Z.of_nat (String.length msg) |}.

Definition sample_log (b : CircularLogBuffer) (msg : string) : CircularLogBuffer :=
  log (λ _, None) 20 (λ _ _, "dropped") b (sample_record msg) (S754_zero false).

(** The third message pushes the first one out, and its warning the second. *)
Example overflow_cascades :
  map message (buffer (sample_log (sample_log (sample_log (new_buffer 14) "started") "order 1")
                         "order 2")) = ["order 2"; "dropped"].
Proof. reflexivity. Qed.

(** Here the warning costs the very message that caused it. *)
Example overflowing_message_lost :
  map message (buffer (sample_log (sample_log (new_buffer 10) "started") "order 2")) = ["dropped"].
Proof. reflexivity. Qed.

Lemma buffer_keeps_latest_witness :
  let b1 := sample_log (new_buffer 10) "started" in
  current_size b1 = total (buffer b1).
Proof.
  apply (buffer_keeps_latest (λ _, None) 20 (λ _ _, "dropped") 10
           (offer [sample_entry "started"] no_entries)).
  apply rtc_once.
  exact (step_log (λ _, None) 20 (λ _ _, "dropped") no_entries (new_buffer 10)
           (sample_record "started") (S754_zero false)).
Defined.

Definition sample_ship_config : ship_config :=
  {| api_url := "https://waldur.example.com/api/"; agent_identity_uuid := "agent-1";
     batch_size := 2; max_retries := 1; retry_delay := 5 |}.

Definition sample_shipper : LogShipper :=
  {| sh_buffer := {| max_size_bytes := 100; current_size := 3;
                     buffer := [sample_entry "a"; sample_entry "b"; sample_entry "c"] |};
     sh_stats := {| logs_shipped := 0; batches_sent := 0; failed_shipments := 0;
                    last_shipment := None |};
     sh_client := true; sh_thread := true; sh_stop := false |}.

(** A world that refuses the first post and has no endpoint from the third one on. *)
Definition ship_world X (c : shipE X) (posts : nat) : res X * nat :=
  match c in shipE X return res X * nat with
  | PostLogs _ _ _ =>
      (match posts with
       | O => Err (HTTPStatusError 502 "bad gateway")
       | S O => Ok ()
       | _ => Err (HTTPStatusError 404 "not found")
       end, S posts)
  | Time => (Ok (S754_zero false), posts)
  | Sleep _ | OpenClient _ | CloseClient _ | StartThread _ | JoinThread _ _ => (Ok (), posts)
  | ThreadIsAlive _ => (Ok true, posts)
  end.

Lemma shipment_complete_witness :
  let '((s', r), _, posts) := exec ship_world (ship_logs sample_ship_config sample_shipper) 0%nat in
  r = Ok () ∧ posts = 3%nat ∧ logs_shipped (sh_stats s') = 2 ∧ buffer (sh_buffer s') = [].
Proof.
  pose proof (shipment_complete sample_ship_config sample_shipper _ _ _
    ltac:(simpl; lia) ltac:(simpl; lia)
    (exec_runs_pair ship_world (ship_logs sample_ship_config sample_shipper) 0%nat)) as H.
  vm_compute in H. destruct H as (Hr & Hb & _); [repeat constructor|].
  vm_compute. auto.
Defined.
