(* ===== verification/Listener.v ===== *)
(** * The STOMP listener of a queue

    [event_processing/listener.py]: connecting with bounded retries, and the listener of
    one queue -- the receiver thread that queues frames, the worker thread that runs the
    handlers and acknowledges, the generations of the connection and the lock that keeps
    reconnections apart.  Times are in milliseconds. *)

From stdpp Require Import base list strings gmap.
From Stdlib Require Import ZArith Lia.
From S2P Require Import Prelude.

Local Open Scope Z_scope.
Local Open Scope prog_scope.

(** ** Connecting *)

Definition seconds (n : Z) : Z := 1000 * n.
Definition BACKOFF_INITIAL : Z := 1.
Definition BACKOFF_FACTOR : Z := 2.
Definition BACKOFF_MAX : Z := 120.
Definition RECONNECT_MAX_RETRIES : Z := 10.
Definition CONNECT_TIMEOUT : Z := seconds 30.
Definition STARTUP_CONNECT_ATTEMPTS : Z := 3.
Definition CONNECTED_POLL_INTERVAL : Z := 100.

(** The calls on one connection; [random()] is a numerator over [2^53], and the pauses of
    the backoff are in units of [2^-55] seconds, in which they are whole numbers. *)
Inductive connE : Type → Type :=
| IsConnected : connE bool
| Connect (username password : string) (wait : bool) : connE unit
| ConnectionError : connE bool
| DisconnectSocket : connE unit
| Monotonic : connE Z
| SleepMs (ms : Z) : connE unit
| Random : connE Z
| SleepBackoff (units : Z) : connE unit.

Abbreviation conn_m := (M connE unit).

(** The delay doubles up to its maximum and is stretched by up to a quarter.  The power is
    one of floats: it overflows at the 1024th attempt, before the maximum is taken. *)
Definition calculate_backoff (attempt_no random : Z) : res Z :=
  if attempt_no >=? 1024 then Err (OverflowError "(34, 'Numerical result out of range')")
  else
    let delay := Z.min (BACKOFF_INITIAL * BACKOFF_FACTOR ^ attempt_no) BACKOFF_MAX in
    Ok (delay * 2 ^ 55 + delay * random).

(** [_wait_until_connected], polled at most [fuel] times; [None] when that was too few. *)
Fixpoint wait_loop (fuel : nat) (deadline : Z) : conn_m (option unit) :=
  match fuel with
  | O => ret None
  | S fuel =>
      let! connected := call IsConnected in
      if connected : bool then ret (Some ())
      else
        let! rejected := call ConnectionError in
        if rejected : bool then raise (StompException "Broker rejected the STOMP CONNECT")
        else
          let! now := call Monotonic in
          if now >=? deadline then
            let! _ := attempt (call DisconnectSocket) in
            raise (StompException "No CONNECTED frame within the timeout")
          else call (SleepMs CONNECTED_POLL_INTERVAL) ;! wait_loop fuel deadline
  end.

Definition wait_until_connected (fuel : nat) (timeout : Z) : conn_m (option unit) :=
  let! now := call Monotonic in wait_loop fuel (now + timeout).

(** The exceptions a connect is tried again for. *)
Definition retried (e : exn) : bool :=
  match e with StompException _ | OSError _ => true | _ => false end.

Definition try_connect (wait_fuel : nat) (username password : string) (timeout : option Z)
  : conn_m (option unit) :=
  call (Connect username password (bool_decide (timeout = None))) ;!
  match timeout with
  | Some t => wait_until_connected wait_fuel t
  | None => ret (Some ())
  end.

(** The loop of [connect_to_stomp_server]; a [max_retries] of zero means no limit. *)
Fixpoint connect_loop (fuel wait_fuel : nat) (username password : string) (max_retries : Z)
    (timeout : option Z) (attempt_no : Z) : conn_m (option unit) :=
  match fuel with
  | O => ret None
  | S fuel =>
      let! connected := call IsConnected in
      if connected : bool then ret (Some ())
      else if (max_retries >? 0) && (attempt_no >=? max_retries)
      then raise (StompException "Failed to connect")
      else
        let! outcome := attempt (try_connect wait_fuel username password timeout) in
        match outcome with
        | Ok None => ret None
        | Ok (Some _) =>
            connect_loop fuel wait_fuel username password max_retries timeout attempt_no
        | Err e =>
            if retried e then
              let! random := call Random in
              let! units := of_res (calculate_backoff attempt_no random) in
              call (SleepBackoff units) ;!
              connect_loop fuel wait_fuel username password max_retries timeout (attempt_no + 1)
            else raise e
        end
  end.

Definition connect_to_stomp_server (fuel wait_fuel : nat) (username password : string)
    (max_retries : Z) (timeout : option Z) : conn_m (option unit) :=
  connect_loop fuel wait_fuel username password max_retries timeout 0.

(** ** The listener

    Frames carry the generation of the connection they were read on.  The ghost log
    records, newest first, what happened to them. *)
Section Listener.
Context {frame : Type}.
(** The [ack] header of a frame, when it has one. *)
Context (ack_id : frame → option string).
(** Whether the body can be logged: [json.loads] returns or raises a [ValueError]. *)
Context (loggable : frame → bool).

Variant worker_state : Type :=
| NoWorker
| Looping
| Waiting
| Taken (item : nat * frame)
| Current (item : nat * frame)
| Handling (item : nat * frame)
| Acking (item : nat * frame).

Record listener : Type := {
  generation : nat;
  messages : list (option (nat * frame));
  worker : worker_state;
  closed : bool;
  (* [on_message] has read the generation and not queued the frame yet *)
  reading : option (nat * frame);
  reconnecting : bool;
}.

Variant happening : Type :=
| Arrived (item : nat * frame)
| Started (item : nat * frame)
| Finished (item : nat * frame)
| Acked (item : nat * frame)
| AckFailed (item : nat * frame)
| Replaced.

Definition new_listener : listener :=
  {| generation := 0%nat; messages := []; worker := NoWorker; closed := false; reading := None;
     reconnecting := false |}.

Definition with_worker (w : worker_state) (s : listener) : listener :=
  {| generation := generation s; messages := messages s; worker := w; closed := closed s;
     reading := reading s; reconnecting := reconnecting s |}.
Definition with_messages (m : list (option (nat * frame))) (s : listener) : listener :=
  {| generation := generation s; messages := m; worker := worker s; closed := closed s;
     reading := reading s; reconnecting := reconnecting s |}.
Definition with_reading (r : option (nat * frame)) (s : listener) : listener :=
  {| generation := generation s; messages := messages s; worker := worker s; closed := closed s;
     reading := r; reconnecting := reconnecting s |}.
Definition with_closed (s : listener) : listener :=
  {| generation := generation s; messages := messages s; worker := worker s; closed := true;
     reading := reading s; reconnecting := reconnecting s |}.
Definition with_reconnecting (b : bool) (s : listener) : listener :=
  {| generation := generation s; messages := messages s; worker := worker s; closed := closed s;
     reading := reading s; reconnecting := b |}.
(** [_drop_connection_generation] *)
Definition drop_connection_generation (s : listener) : listener :=
  {| generation := S (generation s); messages := messages s; worker := worker s;
     closed := closed s; reading := reading s; reconnecting := reconnecting s |}.

Abbreviation config := (listener * list happening)%type.

(** [ensure_worker] *)
Definition ensure_worker (s : listener) : listener :=
  if closed s then s
  else match worker s with NoWorker => with_worker Looping s | _ => s end.

(** The worker thread: [_work], [_handle] and [_ack].  What a handler does is out of the
    model: it returns, raises, or, once the listener is closed, ends the thread with an
    interpreter exit.  [conn.ack] succeeds or raises, and what it raises is logged: the
    frame stays unacknowledged and the worker goes on. *)
Inductive worker_step : config → config → Prop :=
| work_loop s l :
    worker s = Looping → closed s = false → worker_step (s, l) (with_worker Waiting s, l)
| work_closed s l :
    worker s = Looping → closed s = true → worker_step (s, l) (with_worker NoWorker s, l)
| work_take s l item m :
    worker s = Waiting → messages s = Some item :: m →
    worker_step (s, l) (with_worker (Taken item) (with_messages m s), l)
| work_end s l m :
    worker s = Waiting → messages s = None :: m →
    worker_step (s, l) (with_worker NoWorker (with_messages m s), l)
| work_current s l item :
    worker s = Taken item → item.1 = generation s →
    worker_step (s, l) (with_worker (Current item) s, l)
| work_stale s l item :
    worker s = Taken item → item.1 ≠ generation s →
    worker_step (s, l) (with_worker Looping s, l)
| work_start s l item :
    worker s = Current item → loggable item.2 = true →
    worker_step (s, l) (with_worker (Handling item) s, Started item :: l)
| work_unloggable s l item :
    worker s = Current item → loggable item.2 = false →
    worker_step (s, l) (with_worker Looping s, l)
| work_finish s l item :
    worker s = Handling item →
    worker_step (s, l) (with_worker (Acking item) s, Finished item :: l)
| work_exit s l item :
    worker s = Handling item → closed s = true →
    worker_step (s, l) (with_worker NoWorker s, l)
| work_ack s l item :
    worker s = Acking item → ack_id item.2 ≠ None → item.1 = generation s →
    worker_step (s, l) (with_worker Looping s, Acked item :: l)
| work_ack_failed s l item :
    worker s = Acking item → ack_id item.2 ≠ None → item.1 = generation s →
    worker_step (s, l) (with_worker Looping s, AckFailed item :: l)
| work_no_ack s l item :
    worker s = Acking item → ack_id item.2 = None ∨ item.1 ≠ generation s →
    worker_step (s, l) (with_worker Looping s, l).

(** The other threads: the receiver, the watchdog, the main thread, and a worker that
    times out or is lost while it waits. *)
Inductive other_step : config → config → Prop :=
| message_read s l f :
    reading s = None →
    other_step (s, l) (with_reading (Some (generation s, f)) s, Arrived (generation s, f) :: l)
| message_queued s l item :
    reading s = Some item →
    other_step (s, l) (with_reading None (with_messages (messages s ++ [Some item]) s), l)
| worker_ensured s l : other_step (s, l) (ensure_worker s, l)
| connection_replaced s l :
    other_step (s, l) (drop_connection_generation s, Replaced :: l)
| listener_closed s l : other_step (s, l) (with_closed s, l)
| end_queued s l :
    closed s = true → other_step (s, l) (with_messages (messages s ++ [None]) s, l)
| worker_timeout s l : worker s = Waiting → other_step (s, l) (with_worker Looping s, l)
| worker_lost s l : worker s = Waiting → other_step (s, l) (with_worker NoWorker s, l)
| reconnect_begun s l :
    reconnecting s = false → other_step (s, l) (with_reconnecting true s, l)
| reconnect_ended s l :
    reconnecting s = true → other_step (s, l) (with_reconnecting false s, l).

Definition listener_step (c c' : config) : Prop := worker_step c c' ∨ other_step c c'.

(** ** What a listener guarantees *)

Definition arrivals (l : list happening) : list (nat * frame) :=
  omap (λ h, match h with Arrived x => Some x | _ => None end) l.
Definition starts (l : list happening) : list (nat * frame) :=
  omap (λ h, match h with Started x => Some x | _ => None end) l.
Definition finishes (l : list happening) : list (nat * frame) :=
  omap (λ h, match h with Finished x => Some x | _ => None end) l.
Definition acks (l : list happening) : list (nat * frame) :=
  omap (λ h, match h with Acked x => Some x | _ => None end) l.
Definition failed_acks (l : list happening) : list (nat * frame) :=
  omap (λ h, match h with AckFailed x => Some x | _ => None end) l.
Definition replaced (l : list happening) : nat :=
  length (omap (λ h, match h with Replaced => Some () | _ => None end) l).

Lemma arrivals_cons h l :
  arrivals (h :: l) = match h with Arrived x => x :: arrivals l | _ => arrivals l end.
Proof. by destruct h. Qed.
Lemma starts_cons h l :
  starts (h :: l) = match h with Started x => x :: starts l | _ => starts l end.
Proof. by destruct h. Qed.
Lemma finishes_cons h l :
  finishes (h :: l) = match h with Finished x => x :: finishes l | _ => finishes l end.
Proof. by destruct h. Qed.
Lemma acks_cons h l : acks (h :: l) = match h with Acked x => x :: acks l | _ => acks l end.
Proof. by destruct h. Qed.
Lemma failed_acks_cons h l :
  failed_acks (h :: l) = match h with AckFailed x => x :: failed_acks l | _ => failed_acks l end.
Proof. by destruct h. Qed.
Lemma replaced_cons h l :
  replaced (h :: l) = match h with Replaced => S (replaced l) | _ => replaced l end.
Proof. by destruct h. Qed.

(** What each entry of the log says about the earlier ones. *)
Fixpoint well_logged (l : list happening) : Prop :=
  match l with
  | [] => True
  | h :: l => match h with
      | Arrived x => x.1 = replaced l
      | Started x => x ∈ arrivals l
      | Finished x => x ∈ starts l
      | Acked x | AckFailed x => x.1 = replaced l ∧ ack_id x.2 ≠ None ∧ x ∈ finishes l ∧ x ∈ starts l ∧
                   x ∈ arrivals l
      | Replaced => True
      end ∧ well_logged l
  end.

(** A frame the worker has taken and not handed to its handler. *)
Definition undecided (w : worker_state) : list (nat * frame) :=
  match w with Taken x | Current x => [x] | _ => [] end.

(** Frames not handed to a handler yet, newest first. *)
Definition pending (s : listener) : list (nat * frame) :=
  option_list (reading s) ++ rev (omap id (messages s)) ++ undecided (worker s).

Definition running (w : worker_state) : list (nat * frame) :=
  match w with Handling x => [x] | _ => [] end.
Definition unacked (w : worker_state) : list (nat * frame) :=
  match w with Acking x => [x] | _ => [] end.

Record listener_ok (s : listener) (l : list happening) : Prop := {
  lo_generation : generation s = replaced l;
  lo_logged : well_logged l;
  lo_tags : ∀ x, x ∈ arrivals l → (x.1 ≤ generation s)%nat;
  lo_order : ∃ consumed, arrivals l = pending s ++ consumed ∧ starts l `sublist_of` consumed ∧
    ∀ x, x ∈ consumed → x ∈ starts l ∨ (x.1 < generation s)%nat ∨ loggable x.2 = false;
  lo_running : ∃ before, starts l = running (worker s) ++ before ∧
    finishes l `sublist_of` before;
  lo_unacked : ∃ before, finishes l = unacked (worker s) ++ before ∧
    acks l `sublist_of` before;
  lo_open : closed s = false → None ∉ messages s;
  lo_finished : closed s = false → ∀ x, x ∈ starts l → x ∈ finishes l ∨ x ∈ running (worker s);
  lo_acked : ∀ x, x ∈ finishes l → x.1 = generation s →
    ack_id x.2 = None ∨ x ∈ acks l ∨ x ∈ failed_acks l ∨ x ∈ unacked (worker s);
}.

Lemma listener_ok_new : listener_ok new_listener [].
Proof.
  split; simpl; [done|done|inversion 1| |by exists []|by exists []|intros _; apply not_elem_of_nil|
    inversion 2|inversion 1].
  exists []. split_and!; [done|done|inversion 1].
Qed.

Lemma worker_moved s l w :
  listener_ok s l → undecided w = undecided (worker s) → running w = running (worker s) →
  unacked w = unacked (worker s) → listener_ok (with_worker w s) l.
Proof.
  intros [Hg Hl Ht Ha Hs Hf Ho Hsf Hfa] E1 E2 E3. split; try done; unfold pending in *; cbn [with_worker reading messages worker generation closed].
  all: by rewrite ?E1, ?E2, ?E3.
Qed.

(** A frame the worker puts aside: it is of an older connection or cannot be logged. *)
Lemma put_aside s l item :
  listener_ok s l → undecided (worker s) = [item] →
  (item.1 < generation s)%nat ∨ loggable item.2 = false →
  listener_ok (with_worker Looping s) l.
Proof.
  intros [Hg Hl Ht (consumed & Ha & Hso & Hc) Hs Hf Ho Hsf Hfa] E Hi.
  assert (E2 : running (worker s) = [] ∧ unacked (worker s) = [])
    by (destruct (worker s); done). destruct E2 as [E2 E3].
  split; try done; unfold pending in *; cbn [with_worker reading messages worker generation closed].
  - exists (item :: consumed). rewrite E in Ha. rewrite Ha, <- !(assoc (++)). split_and!; [done|by apply sublist_cons|].
    intros x [->|Hx]%elem_of_cons; [tauto|by apply Hc].
  - by rewrite E2 in Hs.
  - by rewrite E3 in Hf.
  - by rewrite E2 in Hsf.
  - by rewrite E3 in Hfa.
Qed.

Lemma elem_of_starts_arrivals s l x : listener_ok s l → x ∈ starts l → x ∈ arrivals l.
Proof.
  intros [_ _ _ (consumed & Ha & Hso & _) _ _ _ _ _] Hx. rewrite Ha. apply elem_of_app. right.
  by eapply elem_of_submseteq, sublist_submseteq.
Qed.

Lemma elem_of_finishes_starts s l x : listener_ok s l → x ∈ finishes l → x ∈ starts l.
Proof.
  intros [_ _ _ _ (before & Hs & Hf) _ _ _ _] Hx. rewrite Hs. apply elem_of_app. right.
  by eapply elem_of_submseteq, sublist_submseteq.
Qed.

Ltac log_split :=
  split; unfold pending;
  cbn [with_worker with_messages with_reading with_closed with_reconnecting
       drop_connection_generation generation messages worker closed reading
       undecided running unacked app well_logged];
  rewrite ?arrivals_cons, ?starts_cons, ?finishes_cons, ?acks_cons, ?failed_acks_cons, ?replaced_cons;
  cbv iota.

Lemma worker_step_ok c c' : worker_step c c' → listener_ok c.1 c.2 → listener_ok c'.1 c'.2.
Proof.
  intros Hs Hok. pose proof Hok as [Hg Hl Ht (cons & Ha & Hso & Hc) (bs & Hs1 & Hf) (bf & Hf1 & Hak) Ho Hsf Hfa].
  unfold pending in Ha.
  destruct Hs as [s l Hw Hcl|s l Hw Hcl|s l item m Hw Hm|s l m Hw Hm|s l item Hw Hi|s l item Hw Hi
    |s l item Hw Hi|s l item Hw Hi|s l item Hw|s l item Hw Hcl|s l item Hw Hi Hj|s l item Hw Hi Hj|s l item Hw Hi];
    cbn [fst snd] in *; try (apply worker_moved; [done|by rewrite Hw..]);
    rewrite Hw in *; cbn [undecided running unacked app] in *.
  - log_split; try done; [exists cons|by exists bs|by exists bf|].
    + split_and!; [|done..]. rewrite Ha, Hm. cbn. by rewrite app_nil_r.
    + intros H0. specialize (Ho H0). rewrite Hm in Ho. set_solver.
  - log_split; try done; [exists cons|by exists bs|by exists bf|].
    + split_and!; [|done..]. by rewrite Ha, Hm.
    + intros H0. specialize (Ho H0). rewrite Hm in Ho. set_solver.
  - eapply put_aside; [done|by rewrite Hw|]. left.
    assert (item ∈ arrivals l) as Hx%Ht by (rewrite Ha; set_solver). lia.
  - log_split; try done; [split; [|done]|exists (item :: cons)|exists bs|by exists bf|].
    + rewrite Ha. set_solver.
    + rewrite Ha, <- !(assoc (++)). split_and!; [done|by constructor|].
      intros x [->|Hx]%elem_of_cons; [left; set_solver|]. destruct (Hc x Hx); [left; set_solver|tauto].
    + by rewrite Hs1.
    + intros H0 x [->|Hx]%elem_of_cons; [set_solver|]. destruct (Hsf H0 x Hx); set_solver.
  - eapply put_aside; [done|by rewrite Hw|]. by right.
  - log_split; try done; [split; [|done]|by exists cons|exists (item :: bs)|exists bf| |].
    + rewrite Hs1. set_solver.
    + split; [done|]. by constructor.
    + by rewrite Hf1.
    + intros H0 x Hx. left. destruct (Hsf H0 x Hx); set_solver.
    + intros x [->|Hx]%elem_of_cons E; [set_solver|]. destruct (Hfa x Hx E) as [?|[?|[?|?]]]; set_solver.
  - log_split; try done; [by exists cons|exists (item :: bs)|by exists bf|congruence].
    split; [done|]. by constructor.
  - log_split; try done; [|by exists cons|by exists bs|exists (item :: bf)|].
    + split; [|done]. assert (item ∈ finishes l) as Hx by (rewrite Hf1; set_solver).
      pose proof (elem_of_finishes_starts _ _ _ Hok Hx) as Hx2.
      split_and!; [by rewrite Hj|done..|by eapply elem_of_starts_arrivals].
    + split; [done|]. by constructor.
    + intros x Hx E. destruct (Hfa x Hx E) as [?|[?|[?|?]]]; set_solver.
  - log_split; try done; [|by exists cons|by exists bs|exists (item :: bf)|].
    + split; [|done]. assert (item ∈ finishes l) as Hx by (rewrite Hf1; set_solver).
      pose proof (elem_of_finishes_starts _ _ _ Hok Hx) as Hx2.
      split_and!; [by rewrite Hj|done..|by eapply elem_of_starts_arrivals].
    + split; [done|]. by constructor.
    + intros x Hx E. destruct (Hfa x Hx E) as [?|[?|[?|?]]]; set_solver.
  - log_split; try done; [by exists cons|by exists bs|exists (item :: bf)|].
    + split; [done|]. by constructor.
    + intros x Hx E. destruct (Hfa x Hx E) as [?|[?|[?|Hy]]]; [set_solver..|].
      assert (x = item) as -> by set_solver. destruct Hi; [by left|done].
Qed.

Lemma other_step_ok c c' : other_step c c' → listener_ok c.1 c.2 → listener_ok c'.1 c'.2.
Proof.
  intros Hs Hok. pose proof Hok as [Hg Hl Ht (cons & Ha & Hso & Hc) (bs & Hs1 & Hf) (bf & Hf1 & Hak) Ho Hsf Hfa].
  unfold pending in Ha.
  destruct Hs as [s l f Hr|s l item Hr|s l|s l|s l|s l Hcl|s l Hw|s l Hw|s l Hr|s l Hr];
    cbn [fst snd] in *.
  - log_split; try done; [|exists cons|by exists bs|by exists bf].
    + intros x [->|Hx]%elem_of_cons; [done|by apply Ht].
    + rewrite Ha, Hr. split_and!; [done..|].
      intros x Hx. destruct (Hc x Hx) as [?|[?|?]]; auto.
  - log_split; try done; [exists cons|by exists bs|by exists bf|].
    + split_and!; [|done..]. rewrite Ha, Hr, omap_app, rev_app_distr. done.
    + intros H0. specialize (Ho H0). set_solver.
  - unfold ensure_worker. destruct (closed s); [done|].
    destruct (worker s) eqn:Hw; try done. apply worker_moved; [done|by rewrite Hw..].
  - log_split; [by rewrite Hg|done| |exists cons|by exists bs|by exists bf|done|done|].
    + intros x Hx%Ht. lia.
    + split_and!; [done..|]. intros x Hx. destruct (Hc x Hx) as [?|[?|?]]; auto.
    + intros x Hx E. assert (x ∈ arrivals l) as Hy%Ht; [|lia].
      by eapply elem_of_starts_arrivals, elem_of_finishes_starts.
  - log_split; try done; [by exists cons|by exists bs|by exists bf].
  - log_split; try done; [exists cons|by exists bs|by exists bf|congruence].
    split_and!; [|done..]. rewrite Ha, omap_app, app_nil_r. done.
  - apply worker_moved; [done|by rewrite Hw..].
  - apply worker_moved; [done|by rewrite Hw..].
  - log_split; try done; [by exists cons|by exists bs|by exists bf].
  - log_split; try done; [by exists cons|by exists bs|by exists bf].
Qed.

Lemma listener_reachable s l : rtc listener_step (new_listener, []) (s, l) → listener_ok s l.
Proof.
  intros Hr. apply (rtc_invariant (λ c, listener_ok c.1 c.2) _ _ Hr); [|apply listener_ok_new].
  intros c c' [Hs|Hs]; [by apply worker_step_ok|by apply other_step_ok].
Qed.

Lemma replaced_app l l' : replaced (l ++ l') = (replaced l + replaced l')%nat.
Proof. unfold replaced. by rewrite omap_app, length_app. Qed.

Lemma replaced_zero l : replaced l = 0%nat → Replaced ∉ l.
Proof.
  induction l as [|h l IH]; [set_solver|]. rewrite replaced_cons.
  destruct h; try done; intros H [Hx|Hx]%elem_of_cons; simplify_eq; by apply IH.
Qed.

Lemma well_logged_app l l' : well_logged (l ++ l') → well_logged l'.
Proof. induction l as [|h l IH]; [done|]. intros [_ H]. by apply IH. Qed.

Lemma arrival_split l x : well_logged l → x ∈ arrivals l →
  ∃ l1 l2, l = l1 ++ Arrived x :: l2 ∧ x.1 = replaced l2.
Proof.
  induction l as [|h l IH]; [set_solver|]. intros [Hh Hl]. rewrite arrivals_cons.
  assert (x ∈ arrivals l → ∃ l1 l2, h :: l = l1 ++ Arrived x :: l2 ∧ x.1 = replaced l2) as Hrec.
  { intros Hx. destruct (IH Hl Hx) as (l1 & l2 & -> & E). by exists (h :: l1), l2. }
  destruct h as [y| | | | |]; try done. intros [->|Hx]%elem_of_cons; [by exists [], l|auto].
Qed.

(** C7: However the receiver, the worker, reconnections and shutdown interleave, a frame is
    acknowledged only on the connection it arrived on -- no connection was replaced since it
    arrived -- and only after its handler finished; and the frames handled, finished and
    acknowledged follow the order of arrival, each arrival handled, and acknowledged, at
    most once. *)
Theorem acks_follow_handlers s l :
  rtc listener_step (new_listener, []) (s, l) →
  (∀ l1 l2 item, l = l1 ++ Acked item :: l2 →
     ack_id item.2 ≠ None ∧ item ∈ finishes l2 ∧
     ∃ since before, l2 = since ++ Arrived item :: before ∧ Replaced ∉ since) ∧
  acks l `sublist_of` finishes l ∧ finishes l `sublist_of` starts l ∧
  starts l `sublist_of` arrivals l.
Proof.
  intros [_ Hl _ (cons & Ha & Hso & _) (bs & Hs & Hf) (bf & Hf1 & Hak) _ _ _]%listener_reachable.
  split_and!.
  - intros l1 l2 item ->. apply well_logged_app in Hl as [(Hg & Hi & Hfin & _ & Harr) Hl].
    split_and!; [done..|]. destruct (arrival_split _ _ Hl Harr) as (a & c & -> & E).
    exists a, c. split; [done|]. apply replaced_zero.
    rewrite replaced_app, replaced_cons in Hg. lia.
  - rewrite Hf1. by apply sublist_inserts_l.
  - rewrite Hs. by apply sublist_inserts_l.
  - rewrite Ha. by apply sublist_inserts_l.
Qed.

(** ** The worker drains the queue *)

(** Worker steps left until the queue is empty and the worker waits. *)
Definition work_left (s : listener) : nat :=
  6 * length (messages s) +
  match worker s with
  | Taken _ => 5 | Current _ => 4 | Handling _ => 3 | Acking _ => 2 | Looping => 1
  | Waiting | NoWorker => 0
  end.

Definition idle (s : listener) : Prop :=
  match worker s, messages s with Waiting, [] => True | _, _ => False end.

Instance idle_dec s : Decision (idle s).
Proof. unfold idle. destruct (worker s), (messages s); apply _. Defined.

(** What no step of the worker changes while the listener is open. *)
Definition worker_frame (s : listener) (l : list happening) (s' : listener)
    (l' : list happening) : Prop :=
  closed s' = closed s ∧ generation s' = generation s ∧ reading s' = reading s ∧
  arrivals l' = arrivals l ∧ worker s' ≠ NoWorker.

Lemma worker_step_work c c' : worker_step c c' → (work_left c'.1 < work_left c.1)%nat.
Proof.
  unfold work_left. destruct 1 as [?? E|?? E|???? E Em|??? E Em|??? E|??? E|??? E|??? E|??? E|??? E|??? E|??? E|??? E];
    cbn; rewrite ?E, ?Em; simpl; lia.
Qed.

Lemma worker_step_frame s l s' l' :
  worker_step (s, l) (s', l') → listener_ok s l → closed s = false → worker_frame s l s' l'.
Proof.
  intros Hs Hok Hc. unfold worker_frame. inversion Hs; subst; cbn; split_and!; try done; try congruence.
  exfalso. apply (lo_open _ _ Hok Hc). match goal with E : messages s = _ |- _ => rewrite E end.
  set_solver.
Qed.

Lemma worker_steps_frame s l s' l' :
  rtc worker_step (s, l) (s', l') → listener_ok s l → closed s = false → worker s ≠ NoWorker →
  listener_ok s' l' ∧ worker_frame s l s' l'.
Proof.
  intros Hr Hok Hc Hw.
  apply (rtc_invariant (λ c, listener_ok c.1 c.2 ∧ worker_frame s l c.1 c.2) _ _ Hr);
    [|by unfold worker_frame].
  intros [s1 l1] [s2 l2] Hs [Hok1 (E1 & E2 & E3 & E4 & E5)]; cbn [fst snd] in *.
  split; [by apply (worker_step_ok _ _ Hs)|].
  destruct (worker_step_frame _ _ _ _ Hs Hok1 ltac:(congruence)) as (?&?&?&?&?).
  unfold worker_frame. split_and!; congruence.
Qed.

Lemma worker_progress s l :
  listener_ok s l → closed s = false → worker s ≠ NoWorker → ¬ idle s →
  ∃ c, worker_step (s, l) c.
Proof.
  intros Hok Hc Hw Hi.
  destruct (worker s) as [| | |item|item|item|item] eqn:E; [done|..].
  - eexists. by apply work_loop.
  - destruct (messages s) as [|[item|] m] eqn:Em.
    + destruct Hi. unfold idle. by rewrite E, Em.
    + eexists. by eapply work_take.
    + exfalso. apply (lo_open _ _ Hok Hc). rewrite Em. set_solver.
  - destruct (decide (item.1 = generation s)); eexists; [by eapply work_current|by eapply work_stale].
  - destruct (loggable item.2) eqn:El; eexists; [by eapply work_start|by eapply work_unloggable].
  - eexists. by eapply work_finish.
  - destruct (decide (ack_id item.2 = None ∨ item.1 ≠ generation s)) as [Hn|Hn]; eexists.
    + by eapply work_no_ack.
    + eapply work_ack; [done|tauto|]. destruct (decide (item.1 = generation s)); tauto.
Qed.

(** C39: Nothing that arrived is left waiting.  While the listener is open and has a
    worker, and each handler that is started comes back, every execution of the worker comes
    to an end within six steps for each queued frame and five more, and where it can go no
    further it has emptied the queue: every frame read on the connection that is still up
    was handed to its handler, which finished, and was acknowledged if it has an id for it,
    or [conn.ack] failed for it, which the worker logs and goes on from -- except a frame
    whose logging fails, which is neither handled nor acknowledged. *)
Theorem worker_drains s l :
  rtc listener_step (new_listener, []) (s, l) →
  closed s = false → worker s ≠ NoWorker → reading s = None →
  (∀ n c, nsteps worker_step n (s, l) c → (n ≤ 6 * length (messages s) + 5)%nat) ∧
  (∀ s' l', rtc worker_step (s, l) (s', l') →
    (∃ c, worker_step (s', l') c) ∨
    (worker s' = Waiting ∧ messages s' = [] ∧
     ∀ item, item ∈ arrivals l → item.1 = generation s → loggable item.2 = true →
       item ∈ starts l' ∧ item ∈ finishes l' ∧
       (ack_id item.2 = None ∨ item ∈ acks l' ∨ item ∈ failed_acks l'))).
Proof.
  intros Hok%listener_reachable Hc Hw Hr. split.
  { intros n c Hn. assert (n + work_left c.1 ≤ work_left s)%nat as Hle.
    { change s with (s, l).1. induction Hn as [|n x y z Hs _ IH]; [lia|].
      apply worker_step_work in Hs. lia. }
    unfold work_left in Hle at 2. destruct (worker s); lia. }
  intros s' l' Hsteps.
  destruct (worker_steps_frame _ _ _ _ Hsteps Hok Hc Hw) as [Hok' (Hc' & Hg & Hr' & Ha & Hw')].
  destruct (decide (idle s')) as [Hi|Hi]; [right|left; apply worker_progress; congruence || done].
  pose proof Hok' as [_ _ _ (cons & Hcons & _ & Hdone) _ _ _ Hsf Hfa].
  assert (worker s' = Waiting ∧ messages s' = []) as [Hwt Hm].
  { unfold idle in Hi. by destruct (worker s'), (messages s'). }
  split_and!; [done..|]. intros item Hin E Hlog.
  unfold pending in Hcons. rewrite Hr', Hr, Hm, Hwt, Ha in Hcons. cbn in Hcons. rewrite Hcons in Hin.
  rewrite Hwt in *. cbn in Hsf, Hfa. rewrite Hc in Hc'.
  assert (item ∈ starts l') as Hst by (destruct (Hdone _ Hin) as [?|[?|?]]; [done|lia|congruence]).
  destruct (Hsf Hc' _ Hst) as [Hfin|Hx]; [|set_solver].
  split_and!; [done..|]. destruct (Hfa _ Hfin ltac:(congruence)) as [?|[?|[?|Hx]]]; [by left|by right; left|by right; right|].
  set_solver.
Qed.
End Listener.

(** ** Connecting takes a bounded number of attempts *)

Definition is_up (ev : event connE) : bool :=
  match ev with
  | Ev c r => match c in connE X return res X → bool with
      | IsConnected => λ r, match r with Ok b => b | Err _ => false end
      | _ => λ _, false
      end r
  end.
Definition asks_connected (ev : event connE) : bool :=
  match ev with Ev c _ => match c with IsConnected => true | _ => false end end.
Definition is_connect (ev : event connE) : bool :=
  match ev with Ev c _ => match c with Connect _ _ _ => true | _ => false end end.

(** The clock after an event that was reached at [now]; [None] if it went backwards. *)
Definition clock_after (now : Z) (ev : event connE) : option Z :=
  match ev with
  | Ev c r => match c in connE X return res X → option Z with
      | Monotonic => λ r, match r with
          | Ok t => if now <=? t then Some t else None | Err _ => Some now end
      | SleepMs ms => λ r, match r with Ok _ => Some (now + ms) | Err _ => Some now end
      | _ => λ _, Some now
      end r
  end.

(** The clock does not go backwards and advances by what was slept. *)
Fixpoint timely (now : Z) (τ : trace connE) : Prop :=
  match τ with
  | [] => True
  | ev :: τ => match clock_after now ev with Some now => timely now τ | None => False end
  end.

(** A connection found up is still up when that is asked right after. *)
Fixpoint steady (up : bool) (τ : trace connE) : Prop :=
  match τ with
  | [] => True
  | ev :: τ => (up && asks_connected ev = true → is_up ev = true) ∧ steady (is_up ev) τ
  end.

(** [random()] is at least 0 and below 1. *)
Definition random_ok (τ : trace connE) : Prop :=
  Forall (λ ev, match ev with
    | Ev c r => match c in connE X return res X → Prop with
        | Random => λ r, match r with Ok n => 0 ≤ n < 2 ^ 53 | Err _ => True end
        | _ => λ _, True
        end r
    end) τ.

(** A pause of the backoff lasts between one second and two and a half minutes. *)
Definition pauses_bounded (τ : trace connE) : Prop :=
  Forall (λ ev, match ev with
    | Ev c _ => match c with
        | SleepBackoff units => 2 ^ 55 ≤ units < 150 * 2 ^ 55 | _ => True end
    end) τ.

Definition connects (τ : trace connE) : nat := length (List.filter is_connect τ).
Definition last_up (up : bool) (τ : trace connE) : bool := foldl (λ _ ev, is_up ev) up τ.

Lemma backoff_bounds attempt_no random units :
  0 ≤ attempt_no → 0 ≤ random < 2 ^ 53 → calculate_backoff attempt_no random = Ok units →
  2 ^ 55 ≤ units < 150 * 2 ^ 55.
Proof.
  unfold calculate_backoff, BACKOFF_INITIAL, BACKOFF_FACTOR, BACKOFF_MAX.
  intros Ha Hr. destruct (attempt_no >=? 1024); intros [= <-].
  assert (1 ≤ 2 ^ attempt_no) by (pose proof (Z.pow_pos_nonneg 2 attempt_no ltac:(lia) Ha); lia).
  rewrite Z.mul_1_l. set (d := Z.min _ _). assert (1 ≤ d ≤ 120) as Hd by lia.
  change (2 ^ 55) with (4 * 2 ^ 53). nia.
Qed.

Lemma timely_app now τ1 τ2 :
  timely now (τ1 ++ τ2) → timely now τ1 ∧ ∃ now', timely now' τ2.
Proof.
  revert now; induction τ1 as [|ev τ1 IH]; intros now H; simpl in *; [eauto|].
  destruct (clock_after now ev); [by apply IH|done].
Qed.

Lemma steady_app up τ1 τ2 : steady up (τ1 ++ τ2) → steady up τ1 ∧ steady (last_up up τ1) τ2.
Proof.
  revert up; induction τ1 as [|ev τ1 IH]; intros up H; simpl in *; [done|].
  destruct H as [H1 [H2 H3]%IH]. done.
Qed.

Lemma last_up_app up τ1 τ2 : last_up up (τ1 ++ τ2) = last_up (last_up up τ1) τ2.
Proof. apply foldl_app. Qed.

Lemma connects_app τ1 τ2 : connects (τ1 ++ τ2) = (connects τ1 + connects τ2)%nat.
Proof. unfold connects. by rewrite List.filter_app, length_app. Qed.

(** What a stretch of calls does: it bounds its connects and pauses, and a success means
    that the connection was just seen up. *)
Definition stretch (n : Z) (τ : trace connE) (r : res (option unit)) : Prop :=
  r ≠ Ok None ∧ Z.of_nat (connects τ) ≤ n ∧ pauses_bounded τ ∧
  (∀ u up, r = Ok (Some u) → last_up up τ = true).

Lemma stretch_weaken n m τ r : stretch n τ r → n ≤ m → stretch m τ r.
Proof. intros (?&?&?&?) ?. split_and!; auto. lia. Qed.

Ltac solve_pauses :=
  unfold pauses_bounded in *; repeat (apply Forall_cons; split; [done|]);
  first [done | constructor].

Ltac stretch_done :=
  left; split_and!;
  [done|done|by repeat constructor|intros [] up Hok; first [done|by simplify_eq]].

Lemma wait_loop_step fuel deadline now s τ s' r :
  runs (wait_loop (S fuel) deadline s) τ (s', r) → timely now τ →
  stretch 0 τ r ∨
  ∃ t τ', τ = [Ev IsConnected (Ok false); Ev ConnectionError (Ok false); Ev Monotonic (Ok t);
               Ev (SleepMs CONNECTED_POLL_INTERVAL) (Ok ())] ++ τ' ∧
    now ≤ t < deadline ∧ runs (wait_loop fuel deadline s) τ' (s', r) ∧
    timely (t + CONNECTED_POLL_INTERVAL) τ'.
Proof.
  intros Hr Ht. cbn [wait_loop] in Hr.
  destruct Hr as (a & τ1 & -> & Hr). destruct a as [[]|e]; cbn in Hr.
  - destruct Hr as [-> [= <- <-]]. stretch_done.
  - destruct Hr as (b & τ2 & -> & Hr). destruct b as [[]|e]; cbn in Hr.
    + destruct Hr as [-> [= <- <-]]. stretch_done.
    + destruct Hr as (c & τ3 & -> & Hr). destruct c as [t|e]; cbn in Hr.
      * cbn [timely clock_after] in Ht. destruct (Z.leb_spec now t); [|done].
        destruct (Z.geb_spec t deadline).
        -- destruct Hr as (d & τ4 & -> & Hr). destruct Hr as [-> [= <- <-]]. stretch_done.
        -- destruct Hr as (d & τ4 & -> & Hr). destruct d as [[]|e]; cbn in Hr.
           ++ right. exists t, τ4. by split_and!.
           ++ destruct Hr as [-> [= <- <-]]. stretch_done.
      * destruct Hr as [-> [= <- <-]]. stretch_done.
    + destruct Hr as [-> [= <- <-]]. stretch_done.
  - destruct Hr as [-> [= <- <-]]. stretch_done.
Qed.

Lemma wait_loop_stretch fuel : ∀ deadline now s τ s' r,
  runs (wait_loop (S fuel) deadline s) τ (s', r) → timely now τ →
  deadline - now ≤ CONNECTED_POLL_INTERVAL * Z.of_nat fuel → stretch 0 τ r.
Proof.
  unfold CONNECTED_POLL_INTERVAL.
  induction fuel as [|fuel IH]; intros deadline now s τ s' r Hr Ht Hd;
    destruct (wait_loop_step _ _ _ _ _ _ _ Hr Ht) as [?|(t & τ' & -> & Hb & Hr' & Ht')]; auto; [lia|].
  destruct (IH _ _ _ _ _ _ Hr' Ht') as (H1 & H2 & H3 & H4); [unfold CONNECTED_POLL_INTERVAL; lia|].
  split_and!; [done|done|by repeat constructor|]. intros u up Hu. rewrite last_up_app. by eapply H4.
Qed.

Lemma try_connect_stretch wait_fuel username password t now s τ s' r :
  runs (try_connect wait_fuel username password (Some t) s) τ (s', r) → timely now τ →
  0 ≤ t ≤ CONNECTED_POLL_INTERVAL * (Z.of_nat wait_fuel - 1) → stretch 1 τ r.
Proof.
  unfold CONNECTED_POLL_INTERVAL. intros Hr Ht Hw.
  destruct wait_fuel as [|fuel]; [lia|].
  destruct Hr as (a & τ1 & -> & Hr). destruct a as [[]|e]; cbn -[wait_loop] in Hr; cbn in Ht.
  2:{ destruct Hr as [-> [= <- <-]]. by split_and!; [..|repeat constructor|intros [] up]. }
  destruct Hr as (b & τ2 & -> & Hr). destruct b as [t0|e]; cbn -[wait_loop] in Hr.
  2:{ destruct Hr as [-> [= <- <-]]. by split_and!; [..|repeat constructor|intros [] up]. }
  cbn in Ht. destruct (Z.leb_spec now t0); [|done].
  destruct (wait_loop_stretch _ _ _ _ _ _ _ Hr Ht) as (H1 & H2 & H3 & H4);
    [unfold CONNECTED_POLL_INTERVAL; lia|].
  split_and!; [done| |by repeat constructor|].
  - unfold connects in *. cbn. lia.
  - intros u up Hu. exact (H4 u false Hu).
Qed.

Lemma connect_loop_stretch wait_fuel username password n t :
  0 < n → 0 ≤ t ≤ CONNECTED_POLL_INTERVAL * (Z.of_nat wait_fuel - 1) →
  ∀ fuel k up now s τ s' r,
  runs (connect_loop fuel wait_fuel username password n (Some t) k s) τ (s', r) →
  timely now τ → steady up τ → random_ok τ → 0 ≤ k ≤ n →
  (if up : bool then 1 else n - k + 2) ≤ Z.of_nat fuel →
  stretch (if up then 0 else n - k) τ r.
Proof.
  intros Hn Hw fuel; induction fuel as [|fuel IH];
    intros k up now s τ s' r Hr Ht Hst Hrand Hk Hf; [destruct up; lia|].
  cbn [connect_loop] in Hr. destruct Hr as (a & τ1 & -> & Hr).
  destruct Hst as [Hup Hst]. cbn in Ht. apply Forall_cons in Hrand as [_ Hrand].
  destruct a as [[]|e].
  - destruct Hr as [-> [= <- <-]].
    split_and!; [done|unfold connects; cbn; destruct up; lia|solve_pauses|done].
  - destruct up; [by specialize (Hup eq_refl)|].
    cbn [pbind] in Hr. rewrite (proj2 (Z.gtb_lt n 0)) in Hr by lia. cbn [andb] in Hr.
    destruct (Z.geb_spec k n).
    { destruct Hr as [-> [= <- <-]]. split_and!; [done|unfold connects; cbn; lia|solve_pauses|done]. }
    apply runs_bind_inv in Hr as [(τ2 & s1 & o & τ3 & -> & H1 & H2)|(e & -> & H1)].
    2:{ apply runs_attempt_inv in H1 as (o & ? & _). done. }
    apply runs_attempt_inv in H1 as (o' & [= <-] & H1).
    apply timely_app in Ht as [Ht1 [now' Ht2]]. cbn in Hst. apply steady_app in Hst as [_ Hst].
    apply Forall_app in Hrand as [_ Hrand].
    pose proof (try_connect_stretch _ _ _ _ _ _ _ _ _ H1 Ht1 Hw) as (S1 & S2 & S3 & S4).
    assert (stretch (n - k - 1) τ3 r) as (T1 & T2 & T3 & T4).
    2:{ split_and!; [done| |by constructor; [|apply Forall_app]|].
        - unfold connects in *. cbn. rewrite List.filter_app, length_app. lia.
        - intros u up Hu. cbn. rewrite last_up_app. by eapply T4. }
    destruct o as [[[]|]|e]; [|done|].
    + specialize (S4 tt false eq_refl). cbn in S4, Hst. rewrite S4 in Hst.
      eapply stretch_weaken; [eapply (IH k true _ _ _ _ _ H2 Ht2 Hst Hrand); lia|cbn; lia].
    + destruct (retried e).
      2:{ destruct H2 as [-> [= <- <-]]. split_and!; [done|unfold connects; cbn; lia|solve_pauses|done]. }
      destruct H2 as (b & τ4 & -> & H2). apply Forall_cons in Hrand as [Hb Hrand].
      destruct b as [rnd|x]; cbn -[connect_loop] in H2.
      2:{ destruct H2 as [-> [= <- <-]]. split_and!; [done|unfold connects; cbn; lia|solve_pauses|done]. }
      destruct (calculate_backoff k rnd) as [units|x] eqn:Hu; cbn -[connect_loop] in H2.
      2:{ destruct H2 as [-> [= <- <-]]. split_and!; [done|unfold connects; cbn; lia|solve_pauses|done]. }
      pose proof (backoff_bounds k rnd units (proj1 Hk) Hb Hu) as Hbound.
      destruct H2 as (c & τ5 & -> & H2). apply Forall_cons in Hrand as [_ Hrand].
      destruct Hst as [_ [_ Hst]]. cbn in Ht2.
      destruct c as [[]|x]; cbn -[connect_loop] in H2.
      2:{ destruct H2 as [-> [= <- <-]].
          split_and!; [done|unfold connects; cbn; lia|solve_pauses|done]. }
      destruct (IH _ _ _ _ _ _ _ H2 Ht2 Hst Hrand) as (T1 & T2 & T3 & T4); [lia|cbn; lia|].
      split_and!; [done|unfold connects in *; cbn in *; lia|solve_pauses|].
      intros u up Hu'. exact (T4 u false Hu').
  - destruct Hr as [-> [= <- <-]].
    split_and!; [done|unfold connects; cbn; destruct up; lia|solve_pauses|done].
Qed.

(** C38: A bounded connect ends.  With one poll more than the timeout has poll intervals,
    and two turns of the loop more than the attempts allowed, neither loop is cut short,
    whatever the broker answers, as long as the clock does not go back and a connection
    found up is still up when that is asked right after (a broker that drops each connection
    at once refutes this, see [flapping_never_counted]); at most [max_retries] connects are made,
    every pause between them lasts from one second to two and a half minutes, and success
    means that the connection was up when last asked. *)
Theorem connect_bounded fuel wait_fuel username password max_retries timeout now τ s' r :
  0 < max_retries → max_retries + 2 ≤ Z.of_nat fuel →
  0 ≤ timeout ≤ CONNECTED_POLL_INTERVAL * (Z.of_nat wait_fuel - 1) →
  runs (connect_to_stomp_server fuel wait_fuel username password max_retries (Some timeout) ())
    τ (s', r) →
  timely now τ → steady false τ → random_ok τ →
  r ≠ Ok None ∧ Z.of_nat (connects τ) ≤ max_retries ∧ pauses_bounded τ ∧
  (r = Ok (Some ()) → last_up false τ = true).
Proof.
  intros Hm Hf Ht Hr Hti Hst Hra.
  destruct (connect_loop_stretch _ _ _ _ _ Hm Ht _ _ _ _ _ _ _ _ Hr Hti Hst Hra) as (H1 & H2 & H3 & H4);
    [lia..|]. split_and!; [done|lia|done|]. intros Hok. exact (H4 () false Hok).
Qed.

(** A broker that takes every connection and drops it at once. *)
Definition flapping_world X (c : connE X) (up : bool) : res X * bool :=
  match c in connE X return res X * bool with
  | IsConnected => (Ok up, negb up)
  | Connect _ _ _ => (Ok (), true)
  | ConnectionError => (Ok false, up)
  | Monotonic => (Ok 0, up)
  | DisconnectSocket | SleepMs _ | SleepBackoff _ => (Ok (), up)
  | Random => (Ok 0, up)
  end.

(** Against it the bound on the attempts means nothing: the loop connects over and over,
    without a pause and without counting. *)
Lemma flapping_never_counted fuel username password :
  let '((_, r), τ, _) :=
    exec flapping_world
      (connect_to_stomp_server fuel 2 username password 1 (Some CONNECT_TIMEOUT) ()) false in
  r = Ok None ∧ connects τ = fuel.
Proof.
  unfold connect_to_stomp_server. induction fuel as [|fuel IH]; [done|].
  cbn -[connect_loop]. cbn [connect_loop exec flapping_world bind call pbind].
  cbn -[connect_loop].
  destruct (exec flapping_world (connect_loop fuel 2 username password 1 _ 0 _) false)
    as [[[? r] τ] ?]. destruct IH as [-> <-]. done.
Qed.

(** A broker that refuses twice. *)
Definition refusing_world X (c : connE X) (refusals : nat) : res X * nat :=
  match c in connE X return res X * nat with
  | IsConnected => (Ok (bool_decide (refusals = 9%nat)), refusals)
  | Connect _ _ _ =>
      match refusals with
      | O | S O => (Err (OSError "connection refused"), S refusals)
      | _ => (Ok (), 9%nat)
      end
  | ConnectionError => (Ok false, refusals)
  | Monotonic => (Ok 0, refusals)
  | DisconnectSocket | SleepMs _ | SleepBackoff _ => (Ok (), refusals)
  | Random => (Ok 0, refusals)
  end.

Definition refused_twice : trace connE :=
  Eval vm_compute in
    (exec refusing_world
       (connect_to_stomp_server 12 302 "user" "token" RECONNECT_MAX_RETRIES (Some CONNECT_TIMEOUT) ())
       0%nat).1.2.

Lemma connect_bounded_witness : Z.of_nat (connects refused_twice) ≤ 10.
Proof.
  apply (connect_bounded 12 302 "user" "token" RECONNECT_MAX_RETRIES CONNECT_TIMEOUT 0
           refused_twice () (Ok (Some ()))).
  - reflexivity.
  - vm_compute. discriminate.
  - split; vm_compute; discriminate.
  - unfold refused_twice. solve_runs.
  - vm_compute. done.
  - unfold refused_twice. cbn. tauto.
  - unfold refused_twice, random_ok. repeat (apply Forall_cons; split; [done|]). constructor.
Defined.

(** ** Concrete runs of a listener *)

Section Sample.
Abbreviation sample_step := (listener_step (frame := string) (λ f, Some f) (λ f, negb (String.eqb f "?"))).

(** One message is read, queued, handled and acknowledged. *)
Definition one_message : list (happening (frame := string)) :=
  [Acked (0%nat, "m1"); Finished (0%nat, "m1"); Started (0%nat, "m1"); Arrived (0%nat, "m1")].

Definition quiet_listener (w : worker_state (frame := string)) : listener :=
  with_worker w new_listener.

Lemma one_message_run : rtc sample_step (new_listener, []) (quiet_listener Looping, one_message).
Proof.
  eapply rtc_l; [right; by apply (message_read _ _ "m1")|].
  eapply rtc_l; [right; by eapply message_queued|].
  eapply rtc_l; [right; apply worker_ensured|].
  eapply rtc_l; [left; by apply work_loop|].
  eapply rtc_l; [left; by eapply work_take|].
  eapply rtc_l; [left; by eapply work_current|].
  eapply rtc_l; [left; by eapply work_start|].
  eapply rtc_l; [left; by eapply work_finish|].
  eapply rtc_l; [left; by eapply work_ack|].
  apply rtc_refl.
Qed.

Lemma acks_follow_handlers_witness :
  ∃ since before, tail one_message = since ++ Arrived (0%nat, "m1") :: before ∧
    Replaced ∉ since.
Proof.
  destruct (acks_follow_handlers _ _ _ _ one_message_run) as [H _].
  apply (H [] (tail one_message) (0%nat, "m1") eq_refl).
Defined.

(** A message is queued and the worker takes it up. *)
Lemma queued_run : rtc sample_step (new_listener, [])
  (with_worker Looping (with_messages [Some (0%nat, "m1")] new_listener), [Arrived (0%nat, "m1")]).
Proof.
  eapply rtc_l; [right; by apply (message_read _ _ "m1")|].
  eapply rtc_l; [right; by eapply message_queued|].
  eapply rtc_l; [right; apply worker_ensured|].
  apply rtc_refl.
Qed.

Abbreviation sample_work := (worker_step (frame := string) (λ f, Some f) (λ f, negb (String.eqb f "?"))).

(** The worker's execution on it: seven steps, after which the worker waits. *)
Lemma queued_work : nsteps sample_work 7
  (with_worker Looping (with_messages [Some (0%nat, "m1")] new_listener), [Arrived (0%nat, "m1")])
  (quiet_listener Waiting, one_message).
Proof.
  eapply nsteps_l; [by apply work_loop|].
  eapply nsteps_l; [by eapply work_take|].
  eapply nsteps_l; [by eapply work_current|].
  eapply nsteps_l; [by eapply work_start|].
  eapply nsteps_l; [by eapply work_finish|].
  eapply nsteps_l; [by eapply work_ack|].
  eapply nsteps_l; [by apply work_loop|].
  apply nsteps_O.
Qed.

Lemma worker_drains_witness :
  (7 ≤ 6 * 1 + 5)%nat ∧
  ((∃ c, sample_work (quiet_listener Waiting, one_message) c) ∨
   (worker (quiet_listener Waiting) = Waiting ∧ messages (quiet_listener Waiting) = [] ∧
    ∀ item, item ∈ [(0%nat, "m1")] → item.1 = 0%nat → negb (String.eqb item.2 "?") = true →
      item ∈ starts one_message ∧ item ∈ finishes one_message ∧
      (Some item.2 = None ∨ item ∈ acks one_message ∨ item ∈ failed_acks one_message))).
Proof.
  destruct (worker_drains _ _ _ _ queued_run eq_refl ltac:(done) eq_refl) as [H1 H2]. split.
  - exact (H1 _ _ queued_work).
  - apply H2. eapply rtc_nsteps_2. exact queued_work.
Defined.
End Sample.
