(* ===== verification/Subscriptions.v ===== *)
(** * Identities, queues and consumers

    [common/agent_identity_management.py] and the setup functions of
    [event_processing/utils.py]: what an offering subscribes to, the registration of the
    agent's identity and of its one event queue, and the consumers opened for it. *)

From stdpp Require Import base list strings gmap.
From Stdlib Require Import ZArith Lia.
From S2P Require Import Prelude.
From S2P Require Import Structures.

Local Open Scope Z_scope.
Local Open Scope prog_scope.

Module ObservableObjectType.
Inductive t : Type :=
| ORDER | USER_ROLE | RESOURCE | IMPORTABLE_RESOURCES | SERVICE_ACCOUNT | COURSE_ACCOUNT
| RESOURCE_PERIODIC_LIMITS | OFFERING_USER | OFFERING_RESOURCES_SYNC
| RESOURCE_API_KEY_ROTATION | SERVICE_PROVIDER_PROJECT_GROUP.

Global Instance eq_dec : EqDecision t.
Proof. solve_decision. Defined.
End ObservableObjectType.
Import (hints) ObservableObjectType.

Record AgentIdentity : Type := { ai_uuid : string; ai_name : string }.
Record AgentService : Type := { as_uuid : string; as_name : string }.

Record AgentIdentityRequest : Type := {
  air_offering : string;
  air_name : string;
  air_last_restarted : Z;
}.

Record UnifiedQueue : Type := {
  queue_name : string;
  rmq_username : string;
  vhost : string;
  observable_object_types : list ObservableObjectType.t;
  agent_identity_uuid : string;
}.

(** A consumer: a connection (its identity), the queue it drains and its offering. *)
Record StompConsumer : Type := {
  sc_connection : Z;
  sc_queue : UnifiedQueue;
  sc_offering : Offering;
}.

(** What the class of a username backend overrides. *)
Record username_hooks : Type := {
  overrides_sync_user_profiles : bool;
  overrides_release_users : bool;
  overrides_reconcile_offering : bool;
}.

Inductive subE : Type → Type :=
(* Waldur *)
| UtcNow : subE Z
| IdentitiesList (name : string) : subE (list AgentIdentity)
| IdentityUpdate (uuid : string) (body : AgentIdentityRequest) : subE AgentIdentity
| IdentityCreate (body : AgentIdentityRequest) : subE AgentIdentity
| IdentityRegisterQueue (uuid : string) (types : list ObservableObjectType.t)
    : subE (string * string * string * list ObservableObjectType.t)
| IdentityRegisterService (uuid name mode : string) : subE AgentService
| ServiceRegisterProcessor (uuid name backend_type backend_version : string) : subE unit
| EnsureLogShipper (offering identity_uuid : string) : subE unit
(* plugins and clients of an offering *)
| GetClient (offering : string) : subE unit
| GetUsernameBackend (offering : string) : subE username_hooks
| ReconcilesProjectGroups (offering : string) : subE bool
| GetOrderBackend (offering : string) : subE unit
| ExpectsTargetEventSubscriptions (offering : string) : subE bool
| SetupTargetEventSubscriptions (offering : string) : subE (list StompConsumer)
(* connections *)
| NewConnection (offering queue : string) : subE Z
| ConnectToServer (connection : Z) (max_retries : Z) : subE unit
| StopConnection (connection : Z) : subE unit
(* the listener of a connection *)
| GetListener (connection : Z) : subE bool
| EnsureWorker (connection : Z) : subE unit
| HandlerRunningSince (connection : Z) : subE (option Z)
| ConnectionIsConnected (connection : Z) : subE bool
| ReconnectInProgress (connection : Z) : subE bool
| Reconnect (connection : Z) (max_retries : Z) : subE bool.

(** Truthiness of a configured backend name. *)
Definition configured (b : option string) : bool :=
  match b with Some s => nonempty s | None => false end.

(** The consumers of each offering, by name and uuid, in the order they were added. *)
Abbreviation consumers_map := (list ((string * string) * list StompConsumer)).

Definition map_key (offering : Offering) : string * string := (off_name offering, off_uuid offering).

Definition STARTUP_CONNECT_ATTEMPTS : Z := 3.

Section Subscriptions.
Context {S : Type}.
Abbreviation sub := (M subE S).

(** ** What an offering subscribes to *)

Definition username_backend_has_hooks (offering : Offering) : sub bool :=
  let! o := attempt (call (GetUsernameBackend (off_uuid offering))) in
  match o with
  | Ok hooks => ret (overrides_sync_user_profiles hooks || overrides_release_users hooks)
  | Err _ => ret false
  end.

Definition username_backend_reconciles_project_groups (offering : Offering) : sub bool :=
  let! o := attempt (call (GetUsernameBackend (off_uuid offering))) in
  match o with
  | Ok _ => call (ReconcilesProjectGroups (off_uuid offering))
  | Err _ => ret false
  end.

(** [backend_settings.get("periodic_limits", {}).get("enabled", False)] *)
Definition periodic_limits_enabled (offering : Offering) : res bool :=
  match json_get (off_backend_settings offering) "periodic_limits" (JObj []) with
  | JObj config => Ok (match obj_get config "enabled" with Some v => truthy v | None => false end)
  | _ => Err (AttributeError "get")
  end.

Definition MEMBERSHIP_TYPES : list ObservableObjectType.t :=
  [ObservableObjectType.USER_ROLE; ObservableObjectType.RESOURCE;
   ObservableObjectType.SERVICE_ACCOUNT; ObservableObjectType.COURSE_ACCOUNT;
   ObservableObjectType.OFFERING_USER; ObservableObjectType.OFFERING_RESOURCES_SYNC].

Definition determine_observable_object_types (offering : Offering)
  : sub (list ObservableObjectType.t) :=
  let orders :=
    if configured (off_order_processing_backend offering)
    then [ObservableObjectType.ORDER; ObservableObjectType.RESOURCE_API_KEY_ROTATION] else [] in
  let stomp_membership := negb (bool_decide (off_stomp_membership_sync_enabled offering = Some false)) in
  let! membership :=
    if configured (off_membership_sync_backend offering) && stomp_membership
    then ret MEMBERSHIP_TYPES
    else
      let! hooks := if stomp_membership then username_backend_has_hooks offering else ret false in
      ret (if hooks : bool then [ObservableObjectType.OFFERING_USER] else []) in
  let! groups :=
    if stomp_membership then username_backend_reconciles_project_groups offering else ret false in
  let! limits := of_res (periodic_limits_enabled offering) in
  ret (orders ++ membership ++
       (if groups : bool then [ObservableObjectType.SERVICE_PROVIDER_PROJECT_GROUP] else []) ++
       (if off_resource_import_enabled offering
        then [ObservableObjectType.IMPORTABLE_RESOURCES] else []) ++
       (if limits : bool then [ObservableObjectType.RESOURCE_PERIODIC_LIMITS] else [])).

(** ** Identities ([AgentIdentityManager]) *)

Definition get_identity (name : string) : sub AgentIdentity :=
  let! existing := call (IdentitiesList name) in
  match existing with
  | [] => raise (OtherException ("Unable to get the identity " +:+ name))
  | identity :: _ => ret identity
  end.

Definition register_identity (offering : Offering) (name : string) : sub AgentIdentity :=
  let! now := call UtcNow in
  let body := {| air_offering := off_uuid offering; air_name := name; air_last_restarted := now |} in
  let! existing := call (IdentitiesList name) in
  match existing with
  | identity :: _ => call (IdentityUpdate (ai_uuid identity) body)
  | [] => call (IdentityCreate body)
  end.

(** [AgentIdentityManager.register_queue] *)
Definition manager_register_queue (identity : AgentIdentity) (types : list ObservableObjectType.t)
  : sub UnifiedQueue :=
  let! data := call (IdentityRegisterQueue (ai_uuid identity) types) in
  let '(name, user, host, effective) := data in
  ret {| queue_name := name; rmq_username := user; vhost := host;
         observable_object_types := effective; agent_identity_uuid := ai_uuid identity |}.

Definition register_service (identity : AgentIdentity) (name mode : string) : sub AgentService :=
  call (IdentityRegisterService (ai_uuid identity) name mode).

Definition register_processor (service : AgentService)
    (name backend_type backend_version : string) : sub unit :=
  call (ServiceRegisterProcessor (as_uuid service) name backend_type backend_version).

Definition ensure_agent_telemetry (offering : Offering) (agent_mode : string) (log_shipping : bool)
    (service_name : option string) : sub (option AgentService) :=
  let! o := attempt (register_identity offering ("agent-" +:+ off_uuid offering)) in
  match o with
  | Err _ => ret None
  | Ok identity =>
      let! _ := attempt (if log_shipping
                         then call (EnsureLogShipper (off_uuid offering) (ai_uuid identity))
                         else ret ()) in
      let name := match service_name with
                  | Some n => if nonempty n then n else agent_mode | None => agent_mode end in
      let! o := attempt (register_service identity name agent_mode) in
      match o with Ok service => ret (Some service) | Err _ => ret None end
  end.

(** ** Queues and consumers *)

Definition register_agent_identity (offering : Offering) : sub (option AgentIdentity) :=
  let! o := attempt (register_identity offering ("agent-" +:+ off_uuid offering)) in
  match o with Ok identity => ret (Some identity) | Err _ => ret None end.

(** [_register_queue]: once more without project groups when the server refuses them. *)
Definition register_queue (identity : AgentIdentity) (types : list ObservableObjectType.t)
  : sub UnifiedQueue :=
  let optional := ObservableObjectType.SERVICE_PROVIDER_PROJECT_GROUP in
  try! manager_register_queue identity types except (λ e,
    match e with
    | UnexpectedStatus status _ _ _ =>
        if negb (status =? 400) || negb (bool_decide (optional ∈ types)) then raise e
        else manager_register_queue identity (filter (λ t, t ≠ optional) types)
    | _ => raise e
    end).

(** [EventSubscriptionManager.start_stomp_connection] *)
Definition start_stomp_connection (connection : Z) (max_retries : Z) : sub bool :=
  let! o := attempt (call (ConnectToServer connection max_retries)) in
  match o with Ok _ => ret true | Err _ => ret false end.

Definition open_unified_consumer (offering : Offering) (identity : AgentIdentity)
    (types : list ObservableObjectType.t) (connect_max_retries : Z) : sub StompConsumer :=
  let! queue := register_queue identity types in
  call (GetClient (off_uuid offering)) ;!
  let! connection := call (NewConnection (off_uuid offering) (queue_name queue)) in
  let! _ := start_stomp_connection connection connect_max_retries in
  ret {| sc_connection := connection; sc_queue := queue; sc_offering := offering |}.

Definition setup_unified_stomp_connection (offering : Offering) (identity : AgentIdentity)
    (types : list ObservableObjectType.t) (connect_max_retries : Z) : sub (option StompConsumer) :=
  let! o := attempt (open_unified_consumer offering identity types connect_max_retries) in
  match o with Ok consumer => ret (Some consumer) | Err _ => ret None end.

Definition open_offering_consumer (offering : Offering)
    (object_types : option (list ObservableObjectType.t)) (connect_max_retries : Z)
  : sub (option StompConsumer) :=
  let! types := match object_types with
                | Some types => ret types
                | None => determine_observable_object_types offering
                end in
  match types with
  | [] => ret None
  | _ =>
      call (GetClient (off_uuid offering)) ;!
      let! identity := register_identity offering ("agent-" +:+ off_uuid offering) in
      let! consumer := open_unified_consumer offering identity types connect_max_retries in
      ret (Some consumer)
  end.

Definition offering_expects_target_consumers (offering : Offering) : sub bool :=
  if configured (off_order_processing_backend offering) then
    call (GetOrderBackend (off_uuid offering)) ;!
    call (ExpectsTargetEventSubscriptions (off_uuid offering))
  else ret false.

Definition setup_offering_target_consumers (offering : Offering) : sub (list StompConsumer) :=
  if configured (off_order_processing_backend offering) then
    try! (call (GetOrderBackend (off_uuid offering)) ;!
          call (SetupTargetEventSubscriptions (off_uuid offering)))
    except (λ _, ret [])
  else ret [].

Definition setup_stomp_offering_subscriptions (offering : Offering) : sub (list StompConsumer) :=
  let! types := determine_observable_object_types offering in
  match types with
  | [] => ret []
  | _ =>
      call (GetClient (off_uuid offering)) ;!
      let! identity := register_agent_identity offering in
      let! own :=
        match identity with
        | Some identity =>
            let! consumer :=
              setup_unified_stomp_connection offering identity types STARTUP_CONNECT_ATTEMPTS in
            ret (option_list consumer)
        | None => ret []
        end in
      let! targets := setup_offering_target_consumers offering in
      ret (own ++ targets)
  end.

Definition start_stomp_consumers (offerings : list Offering) : sub consumers_map :=
  fold_m offerings (λ consumers offering,
    if off_stomp_enabled offering then
      let! added := setup_stomp_offering_subscriptions offering in
      match added with
      | [] => ret consumers
      | _ => ret (dict_set consumers (map_key offering) added)
      end
    else ret consumers) [].

Definition stop_stomp_consumers (consumers : consumers_map) : sub unit :=
  for_each (concat (dict_values consumers)) (λ consumer,
    let! _ := attempt (call (GetClient (off_uuid (sc_offering consumer))) ;!
                       call (StopConnection (sc_connection consumer))) in
    ret ()).
End Subscriptions.

(** ** Setting up touches no state of its caller *)
Section Pure.
Context {S : Type} (I : S → Prop).

Lemma hooks_keeps offering : keeps I (username_backend_has_hooks offering).
Proof. unfold username_backend_has_hooks. keeps_auto. Qed.
Lemma groups_keeps offering : keeps I (username_backend_reconciles_project_groups offering).
Proof. unfold username_backend_reconciles_project_groups. keeps_auto. Qed.
#[local] Hint Resolve hooks_keeps groups_keeps : keeps.
Lemma determine_keeps offering : keeps I (determine_observable_object_types offering).
Proof. unfold determine_observable_object_types. keeps_auto. Qed.
Lemma register_identity_keeps offering name : keeps I (register_identity offering name).
Proof. unfold register_identity. keeps_auto. Qed.
Lemma manager_register_queue_keeps identity types : keeps I (manager_register_queue identity types).
Proof. unfold manager_register_queue. keeps_auto. Qed.
#[local] Hint Resolve determine_keeps register_identity_keeps manager_register_queue_keeps : keeps.
Lemma register_queue_keeps identity types : keeps I (register_queue identity types).
Proof. unfold register_queue. keeps_auto. Qed.
#[local] Hint Resolve register_queue_keeps : keeps.
Lemma start_stomp_connection_keeps connection n : keeps I (start_stomp_connection connection n).
Proof. unfold start_stomp_connection. keeps_auto. Qed.
#[local] Hint Resolve start_stomp_connection_keeps : keeps.
Lemma open_unified_consumer_keeps offering identity types n :
  keeps I (open_unified_consumer offering identity types n).
Proof. unfold open_unified_consumer. keeps_auto. Qed.
#[local] Hint Resolve open_unified_consumer_keeps : keeps.
Lemma open_offering_consumer_keeps offering types n :
  keeps I (open_offering_consumer offering types n).
Proof. unfold open_offering_consumer. keeps_auto. Qed.
Lemma expects_targets_keeps offering : keeps I (offering_expects_target_consumers offering).
Proof. unfold offering_expects_target_consumers. keeps_auto. Qed.
Lemma setup_targets_keeps offering : keeps I (setup_offering_target_consumers offering).
Proof. unfold setup_offering_target_consumers. keeps_auto. Qed.
End Pure.

#[export] Hint Resolve determine_keeps register_identity_keeps open_offering_consumer_keeps
  expects_targets_keeps setup_targets_keeps : keeps.

(** ** What is registered *)

(** An identity of this name was created or updated under this uuid. *)
Definition identity_answer (name uuid : string) (ev : event subE) : bool :=
  match ev with
  | Ev c r => match c in subE X return res X → bool with
      | IdentityUpdate _ body | IdentityCreate body => λ r,
          match r with
          | Ok identity => String.eqb (air_name body) name && String.eqb (ai_uuid identity) uuid
          | Err _ => false
          end
      | _ => λ _, false
      end r
  end.

(** The queue of this identity was refused for these types with a 400. *)
Definition refusal_of (uuid : string) (types : list ObservableObjectType.t) (ev : event subE)
  : bool :=
  match ev with
  | Ev c r => match c in subE X return res X → bool with
      | IdentityRegisterQueue u ts => λ r,
          match r with
          | Err (UnexpectedStatus status _ _ _) =>
              String.eqb u uuid && bool_decide (ts = types) && (status =? 400)
          | _ => false
          end
      | _ => λ _, false
      end r
  end.

Definition without_groups (types : list ObservableObjectType.t) : list ObservableObjectType.t :=
  filter (λ t, t ≠ ObservableObjectType.SERVICE_PROVIDER_PROJECT_GROUP) types.

(** A queue is registered under the agent's own identity, for exactly the types of the
    offering, or without project groups right after exactly those were refused. *)
Definition queue_guard (offering : Offering) (types : list ObservableObjectType.t)
  : guard subE := λ X H c,
  match c with
  | IdentityRegisterQueue uuid ts =>
      existsb (identity_answer ("agent-" +:+ off_uuid offering) uuid) H = true ∧
      (ts = types ∨
       (ts = without_groups types ∧ ObservableObjectType.SERVICE_PROVIDER_PROJECT_GROUP ∈ types ∧
        ∃ ev rest, H = ev :: rest ∧ refusal_of uuid types ev = true))
  | _ => True
  end.

Section Registration.
Context {S : Type} (offering : Offering) (types : list ObservableObjectType.t).
Abbreviation G := (queue_guard offering types).

(** The agent's identity is known under [uuid]. *)
Definition known (uuid : string) (H : trace subE) : Prop :=
  existsb (identity_answer ("agent-" +:+ off_uuid offering) uuid) H = true.

Lemma known_cons uuid ev H : known uuid H → known uuid (ev :: H).
Proof. unfold known. cbn. intros ->. by rewrite orb_true_r. Qed.

Lemma register_identity_guard (s : S) H :
  wpM G (register_identity offering ("agent-" +:+ off_uuid offering)) (λ r _ H',
    match r with Ok identity => known (ai_uuid identity) H' | Err _ => True end) s H.
Proof.
  unfold register_identity. apply wpM_bind, wpM_call; [done|]. intros [now|e]; [|done].
  apply wpM_bind, wpM_call; [done|]. intros [[|i l]|e]; [..|done]; apply wpM_call; try done;
    intros [j|e]; try done; unfold known; cbn; by rewrite !String.eqb_refl.
Qed.

Lemma register_queue_guard identity (s : S) H :
  known (ai_uuid identity) H → wpM G (register_queue identity types) (λ _ _ _, True) s H.
Proof.
  intros Hk. unfold register_queue, manager_register_queue. apply wpM_bind, wpM_attempt, wpM_bind.
  apply wpM_call; [by split; [|left]|]. intros [[[[name user] host] effective]|e]; [by repeat wp_step|].
  destruct e as [status url content text| | | | | | | | | | | | | | | | | | | | | | | | | | | | | |];
    try (by wp_step).
  destruct (Z.eqb_spec status 400) as [->|]; cbn [negb orb]; [|by wp_step].
  case_bool_decide as Hin; cbn [negb]; [|by wp_step]. apply wpM_bind, wpM_call; [|by intros [[[[]]]|]; repeat wp_step].
  split; [by apply known_cons|]. right. split; [done|]. split; [done|].
  eexists _, _. split; [done|]. cbn. by rewrite String.eqb_refl, bool_decide_true.
Qed.

Lemma open_unified_consumer_guard identity n (s : S) H :
  known (ai_uuid identity) H →
  wpM G (open_unified_consumer offering identity types n) (λ r _ _,
    match r with Ok c => sc_offering c = offering | Err _ => True end) s H.
Proof.
  intros Hk. unfold open_unified_consumer. apply wpM_bind.
  eapply wpM_mono; [by apply register_queue_guard|]. intros [queue|e] s1 H1 _; [|done].
  apply wpM_bind, wpM_call; [done|]. intros [[]|e]; [|done].
  apply wpM_bind, wpM_call; [done|]. intros [connection|e]; [|done].
  unfold start_stomp_connection. apply wpM_bind, wpM_bind, wpM_attempt, wpM_call; [done|].
  intros [[]|e]; by repeat wp_step.
Qed.

Lemma register_agent_identity_guard (s : S) H :
  wpM G (register_agent_identity offering) (λ r _ H', ∃ o, r = Ok o ∧
    match o with Some identity => known (ai_uuid identity) H' | None => True end) s H.
Proof.
  unfold register_agent_identity. apply wpM_bind, wpM_attempt.
  eapply wpM_mono; [apply register_identity_guard|]. intros [i|e] s1 H1 Hk; repeat wp_step; eauto.
Qed.
End Registration.

(** Setting up an offering registers its queue only under the agent's identity it has
    just created or updated, for exactly the types the offering subscribes to -- or for
    these without project groups, right after Waldur refused exactly these types with a 400
    -- and not at all when it subscribes to nothing.  Failures of the registration, of the
    connection and of the federation targets get nothing out: once the types are known and
    a client could be built, the setup comes back, and a consumer it opened for its own
    queue is the offering's. *)
Theorem setup_registers_own_types {S : Type} (offering : Offering) (s : S) τ s' r :
  runs (setup_stomp_offering_subscriptions offering s) τ (s', r) →
  ∃ τ1 τ2 s1 o, τ = τ1 ++ τ2 ∧ runs (determine_observable_object_types offering s) τ1 (s1, o) ∧
    match o with
    | Err e => τ2 = [] ∧ r = Err e
    | Ok [] => τ2 = [] ∧ r = Ok []
    | Ok types =>
        guarded (queue_guard offering types) [] τ2 ∧
        match r with
        | Ok consumers => ∃ own targets, consumers = own ++ targets ∧ (length own ≤ 1)%nat ∧
            Forall (λ c, sc_offering c = offering) own
        | Err e => τ2 = [Ev (GetClient (off_uuid offering)) (Err e)]
        end
    end.
Proof.
  intros Hr. apply runs_bind_inv in Hr as [(τ1 & s1 & types & τ2 & -> & H1 & H2)|(e & -> & H1)].
  2:{ exists τ, [], s', (Err e). by rewrite app_nil_r. }
  exists τ1, τ2, s1, (Ok types). split; [done|]. split; [done|].
  destruct types as [|t ts]; [by destruct H2 as [-> [= <- <-]]|]. set (types := t :: ts) in *.
  cut (wpM (queue_guard offering types)
    (call (GetClient (off_uuid offering)) ;!
     let! identity := register_agent_identity offering in
     let! own :=
       match identity with
       | Some identity =>
           let! consumer :=
             setup_unified_stomp_connection offering identity types STARTUP_CONNECT_ATTEMPTS in
           ret (option_list consumer)
       | None => ret []
       end in
     let! targets := setup_offering_target_consumers offering in
     ret (own ++ targets)) (λ r s' H', match r with
        | Ok consumers => ∃ own targets, consumers = own ++ targets ∧ (length own ≤ 1)%nat ∧
            Forall (λ c, sc_offering c = offering) own
        | Err e => H' = [Ev (GetClient (off_uuid offering)) (Err e)]
        end) s1 []).
  { intros Hw. destruct (wpM_sound _ _ _ _ _ _ _ Hw H2) as [HQ HG]. split; [exact HG|].
    destruct r as [consumers|e]; [done|]. rewrite <- (rev_involutive τ2), HQ. done. }
  apply wpM_bind, wpM_call; [done|]. intros [[]|e]; [|done].
  apply wpM_bind. eapply wpM_mono; [apply register_agent_identity_guard|].
  intros ? s2 H2' (identity & -> & Hk). apply wpM_bind.
  eapply wpM_mono with (Q := λ r _ _, ∃ own, r = Ok own ∧ (length own ≤ 1)%nat ∧
    Forall (λ c, sc_offering c = offering) own).
  - destruct identity as [identity|];
      [|wp_step; exists []; split_and!; [done|simpl; lia|constructor]].
    apply wpM_bind. unfold setup_unified_stomp_connection. apply wpM_bind, wpM_attempt.
    eapply wpM_mono; [by apply open_unified_consumer_guard|].
    intros [c|e] s3 H3 Hc; repeat wp_step;
      [exists [c]; by rewrite Forall_singleton|].
    exists []. split_and!; [done|simpl; lia|constructor].
  - intros ? s3 H3 (own & -> & Hl & Hown). apply wpM_bind. unfold setup_offering_target_consumers.
    destruct (configured _); [|repeat wp_step; by exists own, []].
    apply wpM_bind, wpM_attempt, wpM_bind, wpM_call; [done|].
    intros [[]|e]; [|repeat wp_step; by exists own, []].
    apply wpM_call; [done|]. intros [targets|e]; repeat wp_step; [by exists own, targets|by exists own, []].
Qed.

(** Registering the agent is telemetry: it never stops the offering, and a service it
    returns was registered under the identity it has just registered. *)
Lemma telemetry_swallows {S : Type} (offering : Offering) mode shipping name (s : S) τ s' r :
  runs (ensure_agent_telemetry offering mode shipping name s) τ (s', r) → ∃ o, r = Ok o.
Proof.
  intros Hr. eapply (wpM_sound (λ _ _ _, True) _ (λ r _ _, ∃ o, r = Ok o)) in Hr; [apply Hr|].
  unfold ensure_agent_telemetry. apply wpM_bind, wpM_attempt.
  eapply wpM_mono; [apply wpM_true|]. intros [identity|e] s1 H1 _; [|wp_step; eauto].
  apply wpM_bind, wpM_attempt. eapply wpM_mono; [apply wpM_true|]. intros o s2 H2 _.
  apply wpM_bind, wpM_attempt. eapply wpM_mono; [apply wpM_true|]. intros [service|e] s3 H3 _;
    wp_step; eauto.
Qed.

(** ** Concrete runs *)

(** An offering whose username backend writes project groups and does nothing else. *)
Definition groups_only : Offering :=
  {| off_uuid := "offering"; off_name := "Directory"; off_backend_settings := ∅;
     off_username_management_backend := Some "ldap"; off_username_reconciliation_enabled := false;
     off_preserve_unmanaged_backend_users := false;
     off_omit_anomalous_usage_components := false;
     off_order_processing_backend := None; off_membership_sync_backend := None;
     off_stomp_enabled := true; off_stomp_membership_sync_enabled := None;
     off_reporting_backend := Some "slurm"; off_resource_import_enabled := false |}.

(** A Waldur that does not know project groups. *)
Definition older_waldur X (c : subE X) (w : unit) : res X * unit :=
  (match c in subE X return res X with
   | UtcNow => Ok 0
   | IdentitiesList _ => Ok []
   | IdentityCreate body => Ok {| ai_uuid := "identity"; ai_name := air_name body |}
   | IdentityRegisterQueue _ types =>
       if bool_decide (ObservableObjectType.SERVICE_PROVIDER_PROJECT_GROUP ∈ types)
       then Err (UnexpectedStatus 400 "" "" "unknown object type")
       else Ok ("consumer_1", "agent", "user", types)
   | GetClient _ => Ok ()
   | GetUsernameBackend _ =>
       Ok {| overrides_sync_user_profiles := false; overrides_release_users := false;
              overrides_reconcile_offering := false |}
   | ReconcilesProjectGroups _ => Ok true
   | NewConnection _ _ => Ok 1
   | ConnectToServer _ _ => Ok ()
   | _ => Err (OtherException "unexpected")
   end, w).

(** The retry without project groups registers the queue for an empty list of types, which
    Waldur takes for all of them. *)
Definition registered_types (ev : event subE) : list (list ObservableObjectType.t) :=
  match ev with Ev c _ => match c with IdentityRegisterQueue _ types => [types] | _ => [] end end.

Definition groups_run := exec older_waldur (setup_stomp_offering_subscriptions groups_only ()) ().

Example fallback_to_all_types :
  concat (map registered_types groups_run.1.2) =
    [[ObservableObjectType.SERVICE_PROVIDER_PROJECT_GROUP]; []].
Proof. vm_compute. reflexivity. Qed.

Lemma setup_registers_own_types_witness :
  ∃ τ1 τ2 s1 o, groups_run.1.2 = τ1 ++ τ2 ∧
    runs (determine_observable_object_types groups_only ()) τ1 (s1, o).
Proof.
  destruct (setup_registers_own_types groups_only () _ _ _
    (exec_runs_pair older_waldur (setup_stomp_offering_subscriptions groups_only ()) ()))
    as (τ1 & τ2 & s1 & o & H1 & H2 & _). exists τ1, τ2, s1, o. split; [exact H1|exact H2].
Defined.
