(* ===== verification/Watchdog.v ===== *)
(** * The watchdog of the consumers

    [event_processing/watchdog.py]: on every tick the watchdog retries the consumers that
    are missing, reconnects those that dropped, and tells the main loop whether something a
    restart could fix has been down for too long.  Times are in milliseconds. *)

From stdpp Require Import base list strings gmap.
From Stdlib Require Import ZArith Lia.
From S2P Require Import Prelude.
From S2P Require Import Structures.
From S2P Require Import Subscriptions.

Local Open Scope Z_scope.
Local Open Scope prog_scope.

Definition WATCHDOG_CONNECT_ATTEMPTS : Z := 1.
Definition STABLE_TICKS : Z := 2.
Definition SETUP_RETRY_INITIAL : Z := 60 * 1000.
Definition SETUP_RETRY_MAX : Z := 15 * 60 * 1000.

(** What the watchdog keeps track of. *)
Inductive watched : Type :=
| Setup (key : string * string) (main : bool)
| Consumer (connection : Z)
| Handler (connection : Z).

Global Instance watched_eq_dec : EqDecision watched.
Proof. solve_decision. Defined.

Global Instance watched_countable : Countable watched.
Proof.
  refine (inj_countable'
    (λ w, match w with
          | Setup k m => inl (k, m) | Consumer c => inr (inl c) | Handler c => inr (inr c) end)
    (λ x, match x with
          | inl (k, m) => Setup k m | inr (inl c) => Consumer c | inr (inr c) => Handler c end) _).
  by intros [].
Defined.

Record watchdog_config : Type := {
  wd_offerings : list Offering;
  wd_unhealthy_after : Z;
  wd_handler_stuck_after : Z;
}.

Record watchdog : Type := {
  consumers : consumers_map;
  down_since : gmap watched Z;
  reported_down_since : gmap watched Z;
  reported : gset watched;
  connected_ticks : gmap watched Z;
  next_setup_retry : gmap watched Z;
  setup_retry_delay : gmap watched Z;
  object_types : gmap (string * string) (list ObservableObjectType.t);
  expects_targets : gmap (string * string) bool;
}.

Definition new_watchdog (cs : consumers_map) : watchdog :=
  {| consumers := cs; down_since := ∅; reported_down_since := ∅; reported := ∅;
     connected_ticks := ∅; next_setup_retry := ∅; setup_retry_delay := ∅; object_types := ∅;
     expects_targets := ∅ |}.

Definition set_consumers (f : consumers_map → consumers_map) (s : watchdog) : watchdog :=
  {| consumers := f (consumers s); down_since := down_since s;
     reported_down_since := reported_down_since s; reported := reported s;
     connected_ticks := connected_ticks s; next_setup_retry := next_setup_retry s;
     setup_retry_delay := setup_retry_delay s; object_types := object_types s;
     expects_targets := expects_targets s |}.
Definition set_down (f : gmap watched Z → gmap watched Z) (s : watchdog) : watchdog :=
  {| consumers := consumers s; down_since := f (down_since s);
     reported_down_since := reported_down_since s; reported := reported s;
     connected_ticks := connected_ticks s; next_setup_retry := next_setup_retry s;
     setup_retry_delay := setup_retry_delay s; object_types := object_types s;
     expects_targets := expects_targets s |}.
Definition set_reported_down (f : gmap watched Z → gmap watched Z) (s : watchdog) : watchdog :=
  {| consumers := consumers s; down_since := down_since s;
     reported_down_since := f (reported_down_since s); reported := reported s;
     connected_ticks := connected_ticks s; next_setup_retry := next_setup_retry s;
     setup_retry_delay := setup_retry_delay s; object_types := object_types s;
     expects_targets := expects_targets s |}.
Definition set_reported (f : gset watched → gset watched) (s : watchdog) : watchdog :=
  {| consumers := consumers s; down_since := down_since s;
     reported_down_since := reported_down_since s; reported := f (reported s);
     connected_ticks := connected_ticks s; next_setup_retry := next_setup_retry s;
     setup_retry_delay := setup_retry_delay s; object_types := object_types s;
     expects_targets := expects_targets s |}.
Definition set_ticks (f : gmap watched Z → gmap watched Z) (s : watchdog) : watchdog :=
  {| consumers := consumers s; down_since := down_since s;
     reported_down_since := reported_down_since s; reported := reported s;
     connected_ticks := f (connected_ticks s); next_setup_retry := next_setup_retry s;
     setup_retry_delay := setup_retry_delay s; object_types := object_types s;
     expects_targets := expects_targets s |}.
Definition set_retry (next delay : gmap watched Z → gmap watched Z) (s : watchdog) : watchdog :=
  {| consumers := consumers s; down_since := down_since s;
     reported_down_since := reported_down_since s; reported := reported s;
     connected_ticks := connected_ticks s; next_setup_retry := next (next_setup_retry s);
     setup_retry_delay := delay (setup_retry_delay s); object_types := object_types s;
     expects_targets := expects_targets s |}.
Definition set_object_types k v (s : watchdog) : watchdog :=
  {| consumers := consumers s; down_since := down_since s;
     reported_down_since := reported_down_since s; reported := reported s;
     connected_ticks := connected_ticks s; next_setup_retry := next_setup_retry s;
     setup_retry_delay := setup_retry_delay s; object_types := <[k := v]> (object_types s);
     expects_targets := expects_targets s |}.
Definition set_expects_targets k v (s : watchdog) : watchdog :=
  {| consumers := consumers s; down_since := down_since s;
     reported_down_since := reported_down_since s; reported := reported s;
     connected_ticks := connected_ticks s; next_setup_retry := next_setup_retry s;
     setup_retry_delay := setup_retry_delay s; object_types := object_types s;
     expects_targets := <[k := v]> (expects_targets s) |}.

Abbreviation watch := (M subE watchdog).

(** [dict.setdefault] *)
Definition setdefault (k : watched) (v : Z) (m : gmap watched Z) : gmap watched Z :=
  match m !! k with Some _ => m | None => <[k := v]> m end.

(** A 4xx a restart cannot fix. *)
Definition is_persistent_refusal (e : exn) : bool :=
  match e with
  | UnexpectedStatus status _ _ _ =>
      (400 <=? status) && (status <? 500) && negb (bool_decide (status ∈ [408; 429]))
  | _ => false
  end.

Section Check.
Context (cfg : watchdog_config).

(** ** Setting up what is missing *)

Definition offering_object_types (offering : Offering) : watch (list ObservableObjectType.t) :=
  let! s := get_st in
  match object_types s !! map_key offering with
  | Some types => ret types
  | None =>
      let! types := determine_observable_object_types offering in
      modify_st (set_object_types (map_key offering) types) ;!
      ret types
  end.

Definition offering_expects_targets (offering : Offering) : watch bool :=
  let! s := get_st in
  match expects_targets s !! map_key offering with
  | Some b => ret b
  | None =>
      let! o := attempt (offering_expects_target_consumers offering) in
      match o with
      | Ok b => modify_st (set_expects_targets (map_key offering) b) ;! ret b
      | Err _ => ret false
      end
  end.

Definition schedule_setup_retry (key : watched) (now : Z) (delay : option Z) : watch unit :=
  modify_st (λ s,
    let delay := match delay with
      | Some d => d
      | None => Z.min (default (SETUP_RETRY_INITIAL / 2) (setup_retry_delay s !! key) * 2)
                      SETUP_RETRY_MAX
      end in
    set_retry <[key := now + delay]> <[key := delay]> s).

(** The item is down from now on, unless it already was. *)
Definition note_setup_down (key : watched) (main : bool) (now : Z) (s : watchdog) : watchdog :=
  if main && negb (bool_decide (key ∈ reported s))
  then set_down (setdefault key now) s
  else set_reported_down (setdefault key now) s.

(** A refused setup no longer counts towards liveness. *)
Definition note_refused (key : watched) (now : Z) (s : watchdog) : watchdog :=
  let since := default now (down_since s !! key) in
  set_reported_down (setdefault key since)
    (set_down (delete key) (set_reported ({[key]} ∪.) s)).

Definition note_set_up (map_key : string * string) (key : watched) (added : list StompConsumer)
    (s : watchdog) : watchdog :=
  set_down (delete key) (set_reported_down (delete key)
    (set_reported (.∖ {[key]}) (set_retry (delete key) (delete key)
      (set_consumers (λ cs, dict_set cs map_key (default [] (dict_get cs map_key) ++ added)) s)))).

Definition open_missing (offering : Offering) (main : bool) : watch (list StompConsumer) :=
  if main then
    let! s := get_st in
    let! consumer :=
      match object_types s !! map_key offering with
      | Some types => open_offering_consumer offering (Some types) WATCHDOG_CONNECT_ATTEMPTS
      | None => raise (KeyError "object_types")
      end in
    ret (option_list consumer)
  else setup_offering_target_consumers offering.

Definition retry_setup (offering : Offering) (main : bool) (now : Z) : watch unit :=
  let key := Setup (map_key offering) main in
  modify_st (note_setup_down key main now) ;!
  let! s := get_st in
  if now <? default now (next_setup_retry s !! key) then ret ()
  else
    let! o := attempt (open_missing offering main) in
    match o with
    | Err e =>
        if is_persistent_refusal e then
          modify_st (note_refused key now) ;!
          schedule_setup_retry key now (Some SETUP_RETRY_MAX)
        else schedule_setup_retry key now None
    | Ok [] => schedule_setup_retry key now None
    | Ok added => modify_st (note_set_up (map_key offering) key added)
    end.

Definition own_consumer (offering : Offering) (c : StompConsumer) : bool :=
  String.eqb (off_uuid (sc_offering c)) (off_uuid offering).

(** The list of an offering's consumers is the one in the map, when there is one: it has
    grown by the time the targets are looked for. *)
Definition check_offering_setup (offering : Offering) (now : Z) : watch unit :=
  let! s := get_st in
  let listed := dict_get (consumers s) (map_key offering) in
  let! types := offering_object_types offering in
  (if negb (bool_decide (types = [])) && negb (existsb (own_consumer offering) (default [] listed))
   then retry_setup offering true now else ret ()) ;!
  let! targets := offering_expects_targets offering in
  let! s := get_st in
  let current := match listed with
                 | Some _ => default [] (dict_get (consumers s) (map_key offering))
                 | None => [] end in
  if targets && negb (existsb (λ c, negb (own_consumer offering c)) current)
  then retry_setup offering false now else ret ().

(** ** Connections *)

Definition set_table (critical : bool) (f : gmap watched Z → gmap watched Z)
  : watchdog → watchdog :=
  if critical then set_down f else set_reported_down f.

Definition table (critical : bool) (s : watchdog) : gmap watched Z :=
  if critical then down_since s else reported_down_since s.

Definition check_handler (connection : Z) (critical : bool) (now : Z) : watch unit :=
  let! started := call (HandlerRunningSince connection) in
  match started with
  | Some t =>
      if now - t <? wd_handler_stuck_after cfg
      then modify_st (set_table critical (delete (Handler connection)))
      else modify_st (set_table critical
             (setdefault (Handler connection) (t + wd_handler_stuck_after cfg)))
  | None => modify_st (set_table critical (delete (Handler connection)))
  end.

(** One more tick connected; an item that was down is up again once it is stable. *)
Definition note_connected (key : watched) (critical : bool) (s : watchdog) : watchdog :=
  let ticks := default 0 (connected_ticks s !! key) + 1 in
  let s := set_ticks <[key := ticks]> s in
  if STABLE_TICKS <=? ticks then
    match table critical s !! key with
    | Some _ => set_reported (.∖ {[key]}) (set_table critical (delete key) s)
    | None => s
    end
  else s.

Definition note_disconnected (key : watched) (critical : bool) (now : Z) (s : watchdog)
  : watchdog :=
  set_table critical (setdefault key now) (set_ticks <[key := 0]> s).

Definition check_consumer (consumer : StompConsumer) (now : Z) (critical : bool) : watch unit :=
  let connection := sc_connection consumer in
  let key := Consumer connection in
  let! listening := call (GetListener connection) in
  (if listening : bool then
     call (EnsureWorker connection) ;! check_handler connection critical now
   else ret ()) ;!
  let! connected := call (ConnectionIsConnected connection) in
  if connected : bool then modify_st (note_connected key critical)
  else
    modify_st (note_disconnected key critical now) ;!
    if negb listening then ret ()
    else
      let! reconnecting := call (ReconnectInProgress connection) in
      if reconnecting : bool then ret ()
      else
        let! up := call (Reconnect connection WATCHDOG_CONNECT_ATTEMPTS) in
        if up : bool then modify_st (set_ticks <[key := 1]>) else ret ().

(** ** Health *)

Definition report_persistent_outages (now : Z) (s : watchdog) : watchdog :=
  set_reported (λ r, r ∪
    dom (filter (λ kv, wd_unhealthy_after cfg ≤ now - kv.2) (reported_down_since s))) s.

(** [min(values, default=None)] *)
Definition oldest (m : gmap watched Z) : option Z :=
  foldr (λ kv acc, Some (match acc with Some o => Z.min kv.2 o | None => kv.2 end)) None
    (map_to_list m).

Definition healthy (now : Z) (s : watchdog) : bool :=
  match oldest (down_since s) with
  | None => true
  | Some o => now - o <? wd_unhealthy_after cfg
  end.

(** The offerings whose own consumers count towards liveness. *)
Definition source_uuids : list string :=
  map off_uuid (filter (λ o, off_stomp_enabled o = true) (wd_offerings cfg)).

Definition is_critical (c : StompConsumer) : bool :=
  bool_decide (off_uuid (sc_offering c) ∈ source_uuids).

Definition check (now : Z) : watch bool :=
  for_each (wd_offerings cfg) (λ offering,
    if off_stomp_enabled offering then check_offering_setup offering now else ret ()) ;!
  let! s := get_st in
  for_each (concat (dict_values (consumers s))) (λ c, check_consumer c now (is_critical c)) ;!
  modify_st (report_persistent_outages now) ;!
  let! s := get_st in
  ret (healthy now s).

(** ** What the watchdog keeps in order *)

Definition all_consumers (s : watchdog) : list StompConsumer := concat (dict_values (consumers s)).

(** The items that may withhold liveness: the setup of an offering's own consumer, and the
    connections of the consumers of enabled offerings. *)
Definition critical_item (s : watchdog) (k : watched) : Prop :=
  match k with
  | Setup _ main => main = true
  | Consumer c | Handler c =>
      ∃ x, x ∈ all_consumers s ∧ sc_connection x = c ∧ is_critical x = true
  end.

Record watch_ok (now : Z) (s : watchdog) : Prop := {
  wo_down : ∀ k t, down_since s !! k = Some t → t ≤ now ∧ critical_item s k;
  wo_reported_down : ∀ k t, reported_down_since s !! k = Some t → t ≤ now;
  wo_refused : ∀ key, Setup key true ∈ reported s → down_since s !! Setup key true = None;
  wo_reported_setup : ∀ key t, reported_down_since s !! Setup key true = Some t →
    Setup key true ∈ reported s;
  wo_delay : ∀ k d, setup_retry_delay s !! k = Some d → SETUP_RETRY_INITIAL ≤ d ≤ SETUP_RETRY_MAX;
  wo_next : ∀ k n, next_setup_retry s !! k = Some n → n ≤ now + SETUP_RETRY_MAX;
}.

Lemma lookup_setdefault k v m k' t :
  setdefault k v m !! k' = Some t → m !! k' = Some t ∨ (k' = k ∧ t = v ∧ m !! k = None).
Proof.
  unfold setdefault. destruct (m !! k) eqn:E; [by left|].
  destruct (decide (k' = k)) as [->|Hne]; [rewrite lookup_insert_eq; intros [= ->]; by right|].
  rewrite lookup_insert_ne by done. by left.
Qed.

Lemma watch_ok_later now now' s : now ≤ now' → watch_ok now s → watch_ok now' s.
Proof.
  intros Hn [H1 H2 H3 H4 H5 H6]. split; try done.
  - intros k t Hk. destruct (H1 k t Hk). split; [lia|done].
  - intros k t Hk%H2. lia.
  - intros k n Hk%H6. lia.
Qed.

Lemma oldest_spec m :
  match oldest m with
  | None => m = ∅
  | Some o => (∃ k, m !! k = Some o) ∧ ∀ k t, m !! k = Some t → o ≤ t
  end.
Proof.
  assert (Hl : ∀ l : list (watched * Z),
    match foldr (λ kv acc, Some (match acc with Some o => Z.min kv.2 o | None => kv.2 end)) None l with
    | None => l = [] | Some o => o ∈ l.*2 ∧ ∀ t, t ∈ l.*2 → o ≤ t end).
  { induction l as [|[k t] l IH]; simpl; [done|]. destruct (foldr _ None l) as [o|].
    - destruct IH as [Hin Hle]. split.
      + destruct (Z.min_spec t o) as [[_ ->]|[_ ->]]; [left|by right].
      + intros t' [->|Ht]%elem_of_cons; [lia|]. specialize (Hle _ Ht). lia.
    - subst. split; [left|]. intros t' [->|Ht]%elem_of_cons; [lia|]. by apply elem_of_nil in Ht. }
  unfold oldest. specialize (Hl (map_to_list m)). destruct (foldr _ None (map_to_list m)) as [o|].
  - destruct Hl as [Hin Hle]. split.
    + apply list_elem_of_fmap in Hin as ([k t] & -> & Hk%elem_of_map_to_list). by exists k.
    + intros k t Hk. apply Hle, list_elem_of_fmap. exists (k, t). split; [done|].
      by apply elem_of_map_to_list.
  - by apply map_to_list_empty_iff.
Qed.

Lemma healthy_spec now s :
  healthy now s = true ↔
  ∀ k t, down_since s !! k = Some t → now - t < wd_unhealthy_after cfg.
Proof.
  unfold healthy. pose proof (oldest_spec (down_since s)) as Ho.
  destruct (oldest (down_since s)) as [o|].
  - destruct Ho as [[k Hk] Hle]. rewrite Z.ltb_lt. split.
    + intros Hn k' t Hk'. specialize (Hle _ _ Hk'). lia.
    + intros Hall. by eapply Hall.
  - split; [|done]. intros _ k t. by rewrite Ho, lookup_empty.
Qed.

(** *** Each bookkeeping step keeps it *)

Ltac lookups :=
  repeat match goal with
  | H : delete _ _ !! _ = Some _ |- _ => apply lookup_delete_Some in H as [? H]
  | H : setdefault _ _ _ !! _ = Some _ |- _ =>
      apply lookup_setdefault in H as [H|(? & ? & H)]; simplify_eq
  | H : <[_ := _]> _ !! _ = Some _ |- _ =>
      apply lookup_insert_Some in H as [[? ?]|[? H]]; simplify_eq
  end.

Lemma note_setup_down_ok now key main s :
  watch_ok now s → watch_ok now (note_setup_down (Setup key main) main now s).
Proof.
  intros [H1 H2 H3 H4 H5 H6]. unfold note_setup_down.
  destruct main; cbn [andb]; [case_bool_decide as Hr; cbn [negb]|]; split; cbn; try done.
  - intros k t Hk. lookups; [by eapply H2|lia].
  - intros k t Hk. lookups; [by eapply H4|done].
  - intros k t Hk. lookups; [by eapply H1|]. split; [lia|done].
  - intros k Hk. pose proof (H3 _ Hk) as Hn. unfold setdefault.
    destruct (down_since s !! Setup key true); [done|].
    rewrite lookup_insert_ne; [done|]. intros [= <-]. by destruct Hr.
  - intros k t Hk. lookups; [by eapply H2|lia].
  - intros k t Hk. lookups. by eapply H4.
Qed.

Lemma schedule_ok now key d :
  match d with Some d => SETUP_RETRY_INITIAL ≤ d ≤ SETUP_RETRY_MAX | None => True end →
  keeps (watch_ok now) (schedule_setup_retry key now d).
Proof.
  intros Hd. apply keeps_modify. intros s [H1 H2 H3 H4 H5 H6].
  assert (Hb : ∀ d', d' = match d with Some d => d | None =>
    Z.min (default (SETUP_RETRY_INITIAL / 2) (setup_retry_delay s !! key) * 2) SETUP_RETRY_MAX end →
    SETUP_RETRY_INITIAL ≤ d' ≤ SETUP_RETRY_MAX).
  { intros ? ->. destruct d; [done|]. specialize (H5 key).
    change (SETUP_RETRY_INITIAL / 2) with 30000.
    change SETUP_RETRY_INITIAL with 60000 in *. change SETUP_RETRY_MAX with 900000 in *.
    destruct (setup_retry_delay s !! key) as [z|]; [|by vm_compute].
    specialize (H5 z eq_refl). unfold default, from_option, id. lia. }
  split; cbn; try done; intros k t Hk; lookups; eauto.
  specialize (Hb _ eq_refl). lia.
Qed.

Lemma note_refused_ok now key s :
  watch_ok now s → watch_ok now (note_refused (Setup key true) now s) ∧
  watch_ok now (note_refused (Setup key false) now s).
Proof.
  intros [H1 H2 H3 H4 H5 H6].
  assert (Hd : ∀ k, default now (down_since s !! k) ≤ now).
  { intros k. destruct (down_since s !! k) as [t|] eqn:E; [apply H1 in E as [? _]; exact H|reflexivity]. }
  split; split; cbn; try done.
  - intros k t Hk. lookups. by eapply H1.
  - intros k t Hk. lookups; [by eapply H2|apply Hd].
  - intros k Hk. apply lookup_delete_None.
    destruct (decide (k = key)) as [->|]; [by left|right]. apply H3. set_solver.
  - intros k t Hk. lookups; [|set_solver]. apply H4 in Hk. set_solver.
  - intros k t Hk. lookups. by eapply H1.
  - intros k t Hk. lookups; [by eapply H2|apply Hd].
  - intros k Hk. apply lookup_delete_None. right. apply H3. set_solver.
  - intros k t Hk. lookups. apply H4 in Hk. set_solver.
Qed.

Lemma concat_dict_set (cs : consumers_map) k added x :
  x ∈ concat (dict_values cs) →
  x ∈ concat (dict_values (dict_set cs k (default [] (dict_get cs k) ++ added))).
Proof.
  unfold dict_values. induction cs as [|[k' l] cs IH]; [by intros ?%elem_of_nil|].
  cbn [dict_get dict_set]. destruct (decide (k = k')) as [->|Hk]; cbn; rewrite !elem_of_app; [tauto|].
  intros [?|Hx]; [by left|]. right. by apply IH.
Qed.

Lemma note_set_up_ok now mk main added s :
  watch_ok now s → watch_ok now (note_set_up mk (Setup mk main) added s).
Proof.
  intros [H1 H2 H3 H4 H5 H6]. split; cbn; try done.
  - intros k t Hk. lookups. destruct (H1 _ _ Hk) as [? Hc]. split; [done|].
    destruct k as [|c|c]; cbn in *; [done|..]; destruct Hc as (x & Hx & ?); exists x;
      (split; [|done]); by apply concat_dict_set.
  - intros k t Hk. lookups. by eapply H2.
  - intros k Hk. apply lookup_delete_None. right. apply H3. set_solver.
  - intros k t Hk. lookups. apply H4 in Hk. set_solver.
  - intros k t Hk. lookups. by eapply H5.
  - intros k t Hk. lookups. by eapply H6.
Qed.

Lemma set_table_delete_ok now critical k s :
  watch_ok now s → watch_ok now (set_table critical (delete k) s).
Proof.
  intros [H1 H2 H3 H4 H5 H6]. unfold set_table.
  destruct critical; split; cbn; try done; try (intros k' t Hk; lookups; by eauto).
  intros k' Hk. apply lookup_delete_None. right. by apply H3.
Qed.

Lemma set_table_down_ok now critical k t s :
  watch_ok now s → t ≤ now → (critical = true → critical_item s k) →
  match k with Setup _ _ => False | _ => True end →
  watch_ok now (set_table critical (setdefault k t) s).
Proof.
  intros [H1 H2 H3 H4 H5 H6] Ht Hc Hk. unfold set_table.
  destruct critical; split; cbn; try done.
  - intros k' t' Hk'. lookups; [by eauto|by auto].
  - intros k' Hr. unfold setdefault. destruct (down_since s !! k); [by apply H3|].
    rewrite lookup_insert_ne; [by apply H3|]. by intros ->.
  - intros k' t' Hk'. lookups; [by eauto|lia].
  - intros k' t' Hk'. lookups; [by eauto|done].
Qed.

Lemma set_ticks_ok now f s : watch_ok now s → watch_ok now (set_ticks f s).
Proof. intros [H1 H2 H3 H4 H5 H6]. by split. Qed.

Lemma report_ok now s : watch_ok now s → watch_ok now (report_persistent_outages now s).
Proof.
  intros [H1 H2 H3 H4 H5 H6]. split; cbn; try done.
  - intros k [Hk|[t Hk]%elem_of_dom]%elem_of_union; [by apply H3|].
    apply map_lookup_filter_Some in Hk as [Hk _]. apply H3, (H4 _ _ Hk).
  - intros k t Hk%H4. set_solver.
Qed.

Lemma note_connected_ok now c critical s :
  watch_ok now s → watch_ok now (note_connected (Consumer c) critical s).
Proof.
  intros Hok. unfold note_connected.
  set (f := <[Consumer c := _]>). pose proof (set_ticks_ok now f s Hok) as Hok'.
  destruct (STABLE_TICKS <=? _); [|done]. destruct (table critical _ !! Consumer c); [|done].
  destruct (set_table_delete_ok now critical (Consumer c) _ Hok') as [H1 H2 H3 H4 H5 H6].
  split; unfold set_table in *; destruct critical; cbn in *; try done.
  - intros k Hk. apply H3. set_solver.
  - intros k Hk. apply H3. set_solver.
  - intros k t Hk%H4. set_solver.
  - intros k t Hk%H4. set_solver.
Qed.

Lemma note_disconnected_ok now x critical s :
  watch_ok now s → x ∈ all_consumers s → (critical = true → is_critical x = true) →
  watch_ok now (note_disconnected (Consumer (sc_connection x)) critical now s).
Proof.
  intros Hok Hx Hc. unfold note_disconnected.
  apply set_table_down_ok; [by apply set_ticks_ok|lia| |done].
  intros ->. exists x. split_and!; auto.
Qed.

(** *** And so does every check *)

(** An invariant that the bookkeeping of setups keeps is kept by a setup check: the
    statements of the subscriptions do not touch the watchdog's state. *)
Section SetupKeeps.
Context (I : watchdog → Prop) (now : Z).
Hypothesis I_down : ∀ key main s, I s → I (note_setup_down (Setup key main) main now s).
Hypothesis I_refused : ∀ key main s, I s → I (note_refused (Setup key main) now s).
Hypothesis I_set_up : ∀ key main added s, I s → I (note_set_up key (Setup key main) added s).
Hypothesis I_schedule : ∀ key main d, d = None ∨ d = Some SETUP_RETRY_MAX →
  keeps I (schedule_setup_retry (Setup key main) now d).
Hypothesis I_types : ∀ k v s, I s → I (set_object_types k v s).
Hypothesis I_targets : ∀ k v s, I s → I (set_expects_targets k v s).

Lemma retry_setup_keeps offering main : keeps I (retry_setup offering main now).
Proof.
  unfold retry_setup. apply keeps_bind; [by apply keeps_modify, I_down|].
  intros []. apply keeps_bind; [auto with keeps|]. intros s.
  destruct (now <? _); [auto with keeps|].
  apply keeps_bind; [apply keeps_attempt; unfold open_missing; keeps_auto|]. intros [[|x added]|e].
  - apply I_schedule. by left.
  - by apply keeps_modify, I_set_up.
  - destruct (is_persistent_refusal e); [|apply I_schedule; by left].
    apply keeps_bind; [by apply keeps_modify, I_refused|].
    intros _. apply I_schedule. by right.
Qed.

Lemma check_offering_setup_keeps offering : keeps I (check_offering_setup offering now).
Proof.
  unfold check_offering_setup. pose proof (retry_setup_keeps offering) as Hr.
  assert (keeps I (offering_object_types offering)).
  { unfold offering_object_types. keeps_auto. by apply keeps_modify, I_types. }
  assert (keeps I (offering_expects_targets offering)).
  { unfold offering_expects_targets. keeps_auto. by apply keeps_modify, I_targets. }
  keeps_auto.
Qed.
End SetupKeeps.

Lemma setup_keeps_ok now offering : keeps (watch_ok now) (check_offering_setup offering now).
Proof.
  apply check_offering_setup_keeps.
  - intros. by apply note_setup_down_ok.
  - intros key [] s Hok; apply (note_refused_ok now key s Hok).
  - intros. by apply note_set_up_ok.
  - intros key main d [->| ->]; apply schedule_ok; [done|split; vm_compute; discriminate].
  - intros k v s []. by split.
  - intros k v s []. by split.
Qed.

(** The watchdog is in order, and its consumers are [cs]. *)
Definition watch_ok_of (cs : list StompConsumer) (now : Z) (s : watchdog) : Prop :=
  watch_ok now s ∧ all_consumers s = cs.

Lemma same_consumers critical f s : all_consumers (set_table critical f s) = all_consumers s.
Proof. by destruct critical. Qed.

Lemma check_handler_keeps cs now x :
  x ∈ cs → keeps (watch_ok_of cs now) (check_handler (sc_connection x) (is_critical x) now).
Proof.
  intros Hx. unfold check_handler, watch_ok_of. apply keeps_bind; [apply keeps_call|]. intros [t|].
  2:{ apply keeps_modify. intros s [Hok Hcs]. rewrite same_consumers. by split; [apply set_table_delete_ok|]. }
  destruct (Z.ltb_spec (now - t) (wd_handler_stuck_after cfg)); apply keeps_modify;
    intros s [Hok Hcs]; rewrite same_consumers; (split; [|done]).
  - by apply set_table_delete_ok.
  - apply set_table_down_ok; [done|lia| |done]. intros Hc. exists x. rewrite Hcs. by split_and!.
Qed.

Lemma check_consumer_keeps cs now x :
  x ∈ cs → keeps (watch_ok_of cs now) (check_consumer x now (is_critical x)).
Proof.
  intros Hx. unfold check_consumer. apply keeps_bind; [apply keeps_call|]. intros listening.
  apply keeps_bind.
  { destruct listening; [|auto with keeps]. apply keeps_bind; [apply keeps_call|].
    intros _. by apply check_handler_keeps. }
  intros _. apply keeps_bind; [apply keeps_call|]. intros [].
  { apply keeps_modify. intros s [Hok Hcs]. split; [by apply note_connected_ok|].
    unfold note_connected. destruct (_ <=? _); [|done].
    destruct (table _ _ !! _); [|done]. by destruct (is_critical x). }
  apply keeps_bind.
  { apply keeps_modify. intros s [Hok Hcs]. split.
    - by apply note_disconnected_ok; [|rewrite Hcs|].
    - unfold note_disconnected. by rewrite same_consumers. }
  intros _. destruct listening; cbn [negb]; [|auto with keeps].
  apply keeps_bind; [apply keeps_call|]. intros []; [auto with keeps|].
  apply keeps_bind; [apply keeps_call|]. intros []; [|auto with keeps].
  apply keeps_modify. intros s [Hok Hcs]. by split; [apply set_ticks_ok|].
Qed.

Lemma check_keeps now : keeps (watch_ok now) (check now).
Proof.
  unfold check. apply keeps_bind.
  { apply keeps_for_each. intros offering. destruct (off_stomp_enabled offering);
      [apply setup_keeps_ok|auto with keeps]. }
  intros _ s H Hok. apply wpM_bind, wpM_get. apply wpM_bind.
  eapply wpM_mono; [apply (keeps_for_each_in (watch_ok_of (all_consumers s) now))|].
  - intros x Hx. by apply check_consumer_keeps.
  - by split.
  - intros [[]|e] s' H' [Hok' _]; [|done].
    apply wpM_bind, wpM_modify, wpM_bind, wpM_get, wpM_ret. by apply report_ok.
Qed.

(** *** What was seen down *)

(** Consumers are only added. *)
Definition grown (s s' : watchdog) : Prop := ∀ key c,
  c ∈ default [] (dict_get (consumers s) key) → c ∈ default [] (dict_get (consumers s') key).

(** An enabled offering subscribes to something and had no consumer of its own when the
    check began; or it was found to expect targets, and had no consumer on any. *)
Definition missing_setup (before after : watchdog) (key : string * string) (main : bool) : Prop :=
  ∃ offering, offering ∈ wd_offerings cfg ∧ off_stomp_enabled offering = true ∧ map_key offering = key ∧
    let cs := default [] (dict_get (consumers before) key) in
    if main
    then (∃ types, object_types after !! key = Some types ∧ types ≠ []) ∧
         ∀ c, c ∈ cs → own_consumer offering c = false
    else expects_targets after !! key = Some true ∧ ∀ c, c ∈ cs → own_consumer offering c = true.

(** A check at [now], from [before] to [after], saw the item down since [t]. *)
Definition seen_down (now : Z) (before : watchdog) (H : trace subE) (after : watchdog) (k : watched) (t : Z)
  : Prop :=
  match k with
  | Setup key main => t = now ∧ missing_setup before after key main
  | Consumer c => t = now ∧ Ev (ConnectionIsConnected c) (Ok false) ∈ H
  | Handler c => ∃ started, t = started + wd_handler_stuck_after cfg ∧ t ≤ now ∧
      Ev (HandlerRunningSince c) (Ok (Some started)) ∈ H
  end.

(** What one check leaves: every item counted as down was so before, or was seen down, and
    every setup put off was so before, or is put off from now. *)
Section Accounted.
Context (old : watched → Z → Prop) (old_next : watched → Z → Prop) (now : Z) (before : watchdog).

Definition counted (s : watchdog) (k : watched) (t : Z) : Prop :=
  down_since s !! k = Some t ∨ reported_down_since s !! k = Some t.
Definition put_off (n : Z) : Prop := now + SETUP_RETRY_INITIAL ≤ n ≤ now + SETUP_RETRY_MAX.

Record accounted (s : watchdog) (H : trace subE) : Prop := {
  ac_grown : grown before s;
  ac_seen : ∀ k t, counted s k t → old k t ∨ seen_down now before H s k t;
  ac_next : ∀ k n, next_setup_retry s !! k = Some n → old_next k n ∨ put_off n;
  ac_delay : ∀ k d, setup_retry_delay s !! k = Some d → SETUP_RETRY_INITIAL ≤ d ≤ SETUP_RETRY_MAX;
}.

Definition knows (s s' : watchdog) : Prop :=
  object_types s ⊆ object_types s' ∧ expects_targets s ⊆ expects_targets s'.

Lemma missing_known s s' key main : knows s s' → missing_setup before s key main → missing_setup before s' key main.
Proof.
  intros [Ho He] (o & Hin & Hon & Hk & Hm). exists o. split_and!; [done..|]. cbv zeta in *. destruct main.
  - destruct Hm as [(types & Ht & Hne) Hcs]. split; [|done]. exists types. split; [|done]. by eapply lookup_weaken.
  - destruct Hm as [Ht Hcs]. split; [|done]. by eapply lookup_weaken.
Qed.

Lemma seen_known s s' H H' k t : knows s s' → H ⊆ H' → seen_down now before H s k t → seen_down now before H' s' k t.
Proof.
  intros Hk Hs. destruct k as [key main|c|c]; cbn.
  - intros [-> Hm]. split; [done|by eapply missing_known].
  - intros [-> Hin]. split; [done|by apply Hs].
  - intros (started & -> & Hle & Hin). exists started. split_and!; [done..|by apply Hs].
Qed.

(** The step that most changes are: nothing new is counted but what was seen. *)
Lemma accounted_step s s' H H' :
  accounted s H → knows s s' → grown s s' → H ⊆ H' →
  (∀ k t, counted s' k t → counted s k t ∨ seen_down now before H' s' k t) →
  (∀ k n, next_setup_retry s' !! k = Some n → next_setup_retry s !! k = Some n ∨ put_off n) →
  (∀ k d, setup_retry_delay s' !! k = Some d → SETUP_RETRY_INITIAL ≤ d ≤ SETUP_RETRY_MAX) →
  accounted s' H'.
Proof.
  intros [Hg Hseen Hn Hd] Hk Hg' HH Hc Hn' Hd'. split; [..|done].
  - intros key c Hin. by apply Hg', Hg.
  - intros k t [Hct|Hs]%Hc; [|by right]. destruct (Hseen _ _ Hct) as [|Hs]; [by left|right]. by eapply seen_known.
  - intros k n [Hkn|]%Hn'; [by apply Hn|by right].
Qed.

Lemma knows_refl s s' : object_types s' = object_types s → expects_targets s' = expects_targets s → knows s s'.
Proof. intros Ho He. split; by rewrite ?Ho, ?He. Qed.
Lemma grown_refl s s' : consumers s' = consumers s → grown s s'.
Proof. intros Hc key c. by rewrite Hc. Qed.

(** The bookkeeping that leaves the consumers, the caches and the retries alone. *)
Lemma accounted_counts s s' H H' :
  accounted s H → object_types s' = object_types s → expects_targets s' = expects_targets s →
  consumers s' = consumers s → next_setup_retry s' = next_setup_retry s →
  setup_retry_delay s' = setup_retry_delay s → H ⊆ H' →
  (∀ k t, counted s' k t → counted s k t ∨ seen_down now before H' s' k t) → accounted s' H'.
Proof.
  intros Ha Ho He Hc Hn Hd HH Hct. eapply accounted_step; [done|by apply knows_refl|by apply grown_refl|done..| |].
  - intros k n. rewrite Hn. by left.
  - intros k d. rewrite Hd. apply (ac_delay _ _ Ha).
Qed.

Lemma accounted_more s H H' : accounted s H → H ⊆ H' → accounted s H'.
Proof. intros Ha HH. eapply accounted_counts; eauto. Qed.

(** What leaves the watchdog alone only adds calls. *)
Lemma wpM_quiet {A} (m : watch A) s H : (∀ s, keeps (λ s', s' = s) m) →
  wpM (λ _ _ _, True) m (λ _ s' H', s' = s ∧ H ⊆ H') s H.
Proof.
  intros Hm. eapply wpM_mono; [apply wpM_runs; by apply (Hm s)|].
  intros r s' H' (-> & τ & _ & ->). split; [done|]. intros ev Hin. apply elem_of_app. by right.
Qed.

Local Abbreviation keeps_count m :=
  (∀ s H, accounted s H → wpM (λ _ _ _, True) m (λ _ s' H', accounted s' H') s H).

Lemma schedule_accounted key d s H : accounted s H →
  match d with Some d => SETUP_RETRY_INITIAL ≤ d ≤ SETUP_RETRY_MAX | None => True end →
  wpM (λ _ _ _, True) (schedule_setup_retry key now d) (λ _ s' H', accounted s' H') s H.
Proof.
  intros Ha Hd. apply wpM_modify. set (delay := match d with Some _ => _ | None => _ end).
  assert (Hb : SETUP_RETRY_INITIAL ≤ delay ≤ SETUP_RETRY_MAX).
  { unfold delay. destruct d; [done|]. pose proof (ac_delay _ _ Ha key) as Hk.
    change (SETUP_RETRY_INITIAL / 2) with 30000.
    change SETUP_RETRY_INITIAL with 60000 in *. change SETUP_RETRY_MAX with 900000 in *.
    destruct (setup_retry_delay s !! key) as [z|]; [|by vm_compute].
    specialize (Hk z eq_refl). unfold default, from_option, id. lia. }
  eapply accounted_step; [done|by apply knows_refl|by apply grown_refl|done|by left|..]; cbn;
    intros k z Hk; lookups; [right; unfold put_off; lia|by left|done|by eapply ac_delay].
Qed.

Lemma note_setup_down_accounted s H key main : accounted s H → missing_setup before s key main →
  accounted (note_setup_down (Setup key main) main now s) H.
Proof.
  intros Ha Hm. unfold note_setup_down, counted in *.
  destruct (main && _); eapply accounted_counts; try done; unfold counted; cbn; intros k t [Hk|Hk];
    lookups; try (by left; auto); right; done.
Qed.

Lemma note_refused_accounted s H key main : accounted s H → missing_setup before s key main →
  accounted (note_refused (Setup key main) now s) H.
Proof.
  intros Ha Hm. unfold note_refused. eapply accounted_counts; try done; unfold counted; cbn.
  intros k t [Hk|Hk]; lookups; [by left; left|by left; right|].
  destruct (down_since s !! Setup key main) as [t|] eqn:Ht; [by left; left|by right].
Qed.

Lemma note_set_up_accounted s H mk main added : accounted s H →
  accounted (note_set_up mk (Setup mk main) added s) H.
Proof.
  intros Ha. eapply accounted_step; [done|by apply knows_refl| |done|..]; unfold counted; cbn.
  - intros key c Hin. cbn. destruct (decide (key = mk)) as [->|Hne].
    + rewrite dict_get_set_eq. cbn. apply elem_of_app. by left.
    + by rewrite dict_get_set_ne.
  - intros k t [Hk|Hk]; lookups; left; auto.
  - intros k n Hk. lookups. by left.
  - intros k d Hk. lookups. by eapply ac_delay.
Qed.

Lemma retry_setup_accounted offering main s H : accounted s H → missing_setup before s (map_key offering) main →
  wpM (λ _ _ _, True) (retry_setup offering main now) (λ _ s' H', accounted s' H') s H.
Proof.
  intros Ha Hm. unfold retry_setup. apply wpM_bind, wpM_modify, wpM_bind, wpM_get.
  set (s1 := note_setup_down _ _ _ s).
  assert (Ha1 : accounted s1 H) by by apply note_setup_down_accounted.
  assert (Hm1 : missing_setup before s1 (map_key offering) main).
  { eapply missing_known; [|done]. unfold s1, note_setup_down. by destruct (main && _). }
  clearbody s1. destruct (now <? _); [by apply wpM_ret|].
  apply wpM_bind, wpM_attempt. eapply wpM_mono; [apply wpM_quiet|].
  { intros s'. unfold open_missing. keeps_auto. }
  intros r s2 H2 [-> HH]. assert (Ha2 : accounted s1 H2) by by eapply accounted_more.
  destruct r as [[|x added]|e].
  - by apply schedule_accounted.
  - by apply wpM_modify, note_set_up_accounted.
  - destruct (is_persistent_refusal e); [|by apply schedule_accounted].
    apply wpM_bind, wpM_modify. apply schedule_accounted; [by apply note_refused_accounted|].
    split; vm_compute; discriminate.
Qed.

Lemma types_accounted offering s H : accounted s H →
  wpM (λ _ _ _, True) (offering_object_types offering) (λ r s' H', accounted s' H' ∧ consumers s' = consumers s ∧
    ∀ types, r = Ok types → object_types s' !! map_key offering = Some types) s H.
Proof.
  intros Ha. unfold offering_object_types. apply wpM_bind, wpM_get.
  destruct (object_types s !! map_key offering) as [types|] eqn:Hn; [apply wpM_ret; naive_solver|].
  apply wpM_bind. eapply wpM_mono; [apply wpM_quiet; intros s'; keeps_auto|].
  intros [types|e] s1 H1 [-> HH]; [|split_and!; [by eapply accounted_more|done..]].
  apply wpM_bind, wpM_modify, wpM_ret. split_and!; [|done|].
  - eapply accounted_step; [done| |by apply grown_refl|done|by left|by left|apply (ac_delay _ _ Ha)].
    split; cbn; [by apply insert_subseteq|done].
  - intros ? [= <-]. cbn. by rewrite lookup_insert_eq.
Qed.

Lemma targets_accounted offering s H : accounted s H →
  wpM (λ _ _ _, True) (offering_expects_targets offering) (λ r s' H', accounted s' H' ∧
    (r = Ok true → expects_targets s' !! map_key offering = Some true)) s H.
Proof.
  intros Ha. unfold offering_expects_targets. apply wpM_bind, wpM_get.
  destruct (expects_targets s !! map_key offering) as [b|] eqn:Hn; [apply wpM_ret; naive_solver|].
  apply wpM_bind, wpM_attempt. eapply wpM_mono; [apply wpM_quiet; intros s'; keeps_auto|].
  intros [b|e] s1 H1 [-> HH]; [|apply wpM_ret; split; [by eapply accounted_more|done]].
  apply wpM_bind, wpM_modify, wpM_ret. split.
  - eapply accounted_step; [done| |by apply grown_refl|done|by left|by left|apply (ac_delay _ _ Ha)].
    split; cbn; [done|by apply insert_subseteq].
  - intros [= ->]. cbn. by rewrite lookup_insert_eq.
Qed.

Lemma existsb_none {A} (f : A → bool) l : existsb f l = false → ∀ x, x ∈ l → f x = false.
Proof.
  intros Hf x Hx%list_elem_of_In. destruct (f x) eqn:Hfx; [|done].
  assert (existsb f l = true) by (apply existsb_exists; eauto). congruence.
Qed.

Lemma check_setup_accounted offering s H :
  offering ∈ wd_offerings cfg → off_stomp_enabled offering = true → accounted s H →
  wpM (λ _ _ _, True) (check_offering_setup offering now) (λ _ s' H', accounted s' H') s H.
Proof.
  intros Hin Hon Ha. unfold check_offering_setup. apply wpM_bind, wpM_get.
  set (listed := dict_get (consumers s) (map_key offering)).
  assert (Hlisted : ∀ c, c ∈ default [] (dict_get (consumers before) (map_key offering)) → c ∈ default [] listed)
    by (intros c; apply (ac_grown _ _ Ha)).
  clearbody listed. apply wpM_bind. eapply wpM_mono; [by apply types_accounted|].
  intros [types|e] s1 H1 (Ha1 & _ & Htypes); [|done]. specialize (Htypes types eq_refl). apply wpM_bind.
  eapply (wpM_mono _ _ (λ _ s' H', accounted s' H')).
  { destruct (negb (bool_decide (types = []))) eqn:Ht; [|by apply wpM_ret].
    destruct (existsb _ _) eqn:He; [by apply wpM_ret|]. cbn [andb negb]. apply retry_setup_accounted; [done|].
    apply negb_true_iff, bool_decide_eq_false in Ht. exists offering. split_and!; [done..|]. cbv zeta. split; [eauto|].
    intros c Hc. by apply (existsb_none _ _ He), Hlisted. }
  intros [[]|e] s2 H2 Ha2; [|done]. apply wpM_bind. eapply wpM_mono; [by apply targets_accounted|].
  intros [targets|e] s3 H3 [Ha3 Htargets]; [|done]. apply wpM_bind, wpM_get. cbv zeta.
  destruct targets; [|by apply wpM_ret]. specialize (Htargets eq_refl).
  destruct (existsb _ _) eqn:He; [by apply wpM_ret|]. cbn [andb negb]. apply retry_setup_accounted; [done|].
  exists offering. split_and!; [done..|]. cbv zeta. split; [done|]. intros c Hc.
  apply negb_false_iff, (existsb_none _ _ He). specialize (Hlisted _ Hc).
  destruct listed; [|by apply elem_of_nil in Hlisted]. by apply (ac_grown _ _ Ha3).
Qed.

Lemma set_table_counted critical f s k t : counted (set_table critical f s) k t →
  (if critical : bool then f (down_since s) !! k = Some t ∨ reported_down_since s !! k = Some t
   else down_since s !! k = Some t ∨ f (reported_down_since s) !! k = Some t).
Proof. by destruct critical. Qed.

(** An item of one of the two tables is put there, or taken out of it. *)
Lemma set_table_accounted critical f s H :
  accounted s H →
  (∀ k t, f (table critical s) !! k = Some t → table critical s !! k = Some t ∨ seen_down now before H s k t) →
  accounted (set_table critical f s) H.
Proof.
  intros Ha Hf. eapply accounted_counts; try done; try by destruct critical.
  intros k t Hk%set_table_counted.
  assert (Hseen : seen_down now before H s k t → seen_down now before H (set_table critical f s) k t).
  { apply seen_known; [|done]. by apply knows_refl; destruct critical. }
  unfold counted, table in *. destruct critical; destruct Hk as [Hk|Hk]; try (by left; auto);
    apply Hf in Hk as [Hk|Hk]; auto.
Qed.

Lemma ticks_accounted f s H : accounted s H → accounted (set_ticks f s) H.
Proof. intros Ha. eapply accounted_counts; try done. by left. Qed.

Lemma handler_accounted connection critical s H : accounted s H →
  wpM (λ _ _ _, True) (check_handler connection critical now) (λ _ s' H', accounted s' H') s H.
Proof.
  intros Ha. unfold check_handler. apply wpM_bind, wpM_call; [done|].
  assert (Hcall : ∀ r, accounted s (Ev (HandlerRunningSince connection) r :: H))
    by (intros r; eapply accounted_more; [done|]; by apply list_subseteq_cons).
  intros [[started|]|e]; [|apply wpM_modify, set_table_accounted; [done|]; intros k t Hk; lookups; by left|done].
  destruct (Z.ltb_spec (now - started) (wd_handler_stuck_after cfg)); apply wpM_modify, set_table_accounted;
    try done; intros k t Hk; lookups; try (by left).
  right. exists started. split_and!; [done|lia|left].
Qed.

Lemma consumer_accounted consumer critical s H : accounted s H →
  wpM (λ _ _ _, True) (check_consumer consumer now critical) (λ _ s' H', accounted s' H') s H.
Proof.
  intros Ha. unfold check_consumer.
  assert (Hmore : ∀ X (c : subE X) r s H, accounted s H → accounted s (Ev c r :: H))
    by (intros X c r s0 H0 Ha0; eapply accounted_more; [done|]; by apply list_subseteq_cons).
  apply wpM_bind, wpM_call; [done|]. intros [listening|e]; [|by apply Hmore].
  apply wpM_bind. eapply (wpM_mono _ _ (λ _ s' H', accounted s' H')).
  { destruct listening; [|by apply wpM_ret, Hmore]. apply wpM_bind, wpM_call; [done|].
    intros [[]|e]; [apply handler_accounted|]; by do 2 apply Hmore. }
  intros [[]|e] s1 H1 Ha1; [|done]. apply wpM_bind, wpM_call; [done|].
  intros [[]|e]; [..|by apply Hmore].
  - apply wpM_modify. unfold note_connected.
    assert (Ht : accounted (set_ticks <[Consumer (sc_connection consumer) :=
      default 0 (connected_ticks s1 !! Consumer (sc_connection consumer)) + 1]> s1)
      (Ev (ConnectionIsConnected (sc_connection consumer)) (Ok true) :: H1)) by by apply ticks_accounted, Hmore.
    destruct (_ <=? _); [|done]. destruct (table _ _ !! _); [|done].
    eapply accounted_counts; [eapply set_table_accounted; [exact Ht|]|..]; try done; [|by left].
    intros k t' Hk. lookups. by left.
  - apply wpM_bind, wpM_modify. unfold note_disconnected.
    set (s2 := set_table _ _ _). set (H2 := Ev _ _ :: H1).
    assert (Ha2 : accounted s2 H2).
    { apply set_table_accounted; [by apply ticks_accounted, Hmore|]. intros k t Hk. lookups; [by left|].
      right. split; [done|left]. }
    clearbody s2 H2. destruct listening; cbn [negb]; [|by apply wpM_ret].
    apply wpM_bind, wpM_call; [done|]. intros [[]|e]; [by apply wpM_ret, Hmore| |by apply Hmore].
    apply wpM_bind, wpM_call; [done|]. intros [[]|e]; [|by apply wpM_ret; do 2 apply Hmore|by do 2 apply Hmore].
    apply wpM_modify, ticks_accounted. by do 2 apply Hmore.
Qed.

Lemma for_each_accounted {A} (l : list A) (body : A → watch unit) s H :
  (∀ x s H, x ∈ l → accounted s H → wpM (λ _ _ _, True) (body x) (λ _ s' H', accounted s' H') s H) →
  accounted s H → wpM (λ _ _ _, True) (for_each l body) (λ _ s' H', accounted s' H') s H.
Proof.
  intros Hb Ha. apply (wpM_for_each _ _ _ (λ _ s H, accounted s H)); [|done..].
  intros xs x s1 H1 [ys Hl] Ha1. eapply wpM_mono; [apply Hb; [|done]|by intros [[]|e]].
  rewrite Hl. apply elem_of_app. right. left.
Qed.

Lemma check_accounted s H : accounted s H →
  wpM (λ _ _ _, True) (check now) (λ _ s' H', accounted s' H') s H.
Proof.
  intros Ha. unfold check. apply wpM_bind. eapply wpM_mono; [apply for_each_accounted; [|done]|].
  { intros offering s1 H1 Hin Ha1. destruct (off_stomp_enabled offering) eqn:Hon; [|by apply wpM_ret].
    by apply check_setup_accounted. }
  intros [[]|e] s1 H1 Ha1; [|done]. apply wpM_bind, wpM_get, wpM_bind.
  eapply wpM_mono; [apply for_each_accounted; [|done]|].
  { intros x s2 H2 _ Ha2. by apply consumer_accounted. }
  intros [[]|e] s2 H2 Ha2; [|done]. apply wpM_bind, wpM_modify, wpM_bind, wpM_get, wpM_ret.
  eapply accounted_counts; try done. by left.
Qed.
End Accounted.

(** The states of a watchdog that was asked at times that do not go back. *)
Inductive watched_until : Z → watchdog → Prop :=
| watched_new now cs : watched_until now (new_watchdog cs)
| watched_check now now' s τ s' r :
    watched_until now s → now ≤ now' → runs (check now' s) τ (s', r) → watched_until now' s'.

Lemma new_watchdog_ok now cs : watch_ok now (new_watchdog cs).
Proof. split; cbn; try done; set_solver. Qed.

Lemma watched_until_ok now s : watched_until now s → watch_ok now s.
Proof.
  induction 1 as [now cs|now now' s τ s' r _ IH Hn Hr]; [apply new_watchdog_ok|].
  apply (watch_ok_later _ now') in IH; [|done].
  by destruct (wpM_sound _ _ _ _ _ _ _ (check_keeps now' s [] IH) Hr).
Qed.

(** One check: when, from which state, with which calls, to which state. *)
Record tick : Type := {
  tk_now : Z;
  tk_before : watchdog;
  tk_trace : trace subE;
  tk_after : watchdog;
}.

(** What a watchdog did since it was made, at times that do not go back. *)
Inductive history : list tick → Z → watchdog → Prop :=
| history_new now cs : history [] now (new_watchdog cs)
| history_check ticks now now' s τ s' r :
    history ticks now s → now ≤ now' → runs (check now' s) τ (s', r) →
    history (ticks ++ [{| tk_now := now'; tk_before := s; tk_trace := τ; tk_after := s' |}]) now' s'.

Definition seen_in (x : tick) (k : watched) (t : Z) : Prop :=
  seen_down (tk_now x) (tk_before x) (tk_trace x) (tk_after x) k t.
Definition was_seen (ticks : list tick) (k : watched) (t : Z) : Prop := ∃ x, x ∈ ticks ∧ seen_in x k t.
Definition was_put_off (ticks : list tick) (n : Z) : Prop := ∃ x, x ∈ ticks ∧ put_off (tk_now x) n.

Lemma history_accounted ticks now s : history ticks now s →
  (∀ k t, counted s k t → was_seen ticks k t) ∧
  (∀ k n, next_setup_retry s !! k = Some n → was_put_off ticks n) ∧
  (∀ k d, setup_retry_delay s !! k = Some d → SETUP_RETRY_INITIAL ≤ d ≤ SETUP_RETRY_MAX).
Proof.
  induction 1 as [now cs|ticks now now' s τ s' r _ (IHs & IHn & IHd) _ Hrun].
  { unfold counted. cbn. setoid_rewrite lookup_empty. naive_solver. }
  assert (Ha : accounted (was_seen ticks) (λ _, was_put_off ticks) now' s s []).
  { split; [by apply grown_refl|left; auto|left; eauto|done]. }
  destruct (wpM_sound _ _ _ _ _ _ _ (check_accounted _ _ _ _ _ _ Ha) Hrun) as [[_ Hs Hn Hd] _].
  set (x := {| tk_now := _ |}). assert (Hx : x ∈ ticks ++ [x]) by (apply elem_of_app; right; left).
  split_and!; [..|done].
  - intros k t [(y & Hy & Hk)|Hk]%Hs; [exists y; split; [apply elem_of_app; by left|done]|].
    exists x. split; [done|]. eapply seen_known; [by apply knows_refl| |exact Hk]. intros ev Hev%list_elem_of_In. by apply list_elem_of_In, in_rev.
  - intros k n [(y & Hy & Hk)|Hk]%Hn; [exists y; split; [apply elem_of_app; by left|done]|by exists x].
Qed.

Lemma history_watched ticks now s : history ticks now s → watched_until now s.
Proof. induction 1; [apply watched_new|by eapply watched_check]. Qed.

(** *** When a setup is tried again *)

(** Nothing is done about a setup that is put off; one that is not is tried, and put off
    unless that made a consumer: for a quarter of an hour when it was refused. *)
Definition setup_retried (offering : Offering) (main : bool) (now : Z) (s : watchdog) (τ : trace subE)
    (s' : watchdog) : Prop :=
  let key := Setup (map_key offering) main in
  let noted := note_setup_down key main now s in
  (∀ n, next_setup_retry s !! key = Some n → now < n → τ = [] ∧ s' = noted) ∧
  ((∀ n, next_setup_retry s !! key = Some n → n ≤ now) →
   ∃ made, runs (open_missing offering main noted) τ (noted, made) ∧
     match made with
     | Ok (c :: _) => next_setup_retry s' !! key = None ∧
         c ∈ default [] (dict_get (consumers s') (map_key offering))
     | _ => ∃ n, next_setup_retry s' !! key = Some n ∧ put_off now n ∧
         ∀ e, made = Err e → is_persistent_refusal e = true → n = now + SETUP_RETRY_MAX
     end).

Lemma schedule_spec key now d s H :
  (∀ k d, setup_retry_delay s !! k = Some d → SETUP_RETRY_INITIAL ≤ d ≤ SETUP_RETRY_MAX) →
  match d with Some d => SETUP_RETRY_INITIAL ≤ d ≤ SETUP_RETRY_MAX | None => True end →
  wpM (λ _ _ _, True) (schedule_setup_retry key now d) (λ _ s' H', H' = H ∧
    ∃ n, next_setup_retry s' !! key = Some n ∧ put_off now n ∧ ∀ d', d = Some d' → n = now + d') s H.
Proof.
  intros Hb Hd. apply wpM_modify. split; [done|]. cbn. rewrite lookup_insert_eq. eexists. split; [done|].
  split; [|by intros ? ->]. unfold put_off. destruct d; [lia|]. specialize (Hb key).
  change (SETUP_RETRY_INITIAL / 2) with 30000.
  change SETUP_RETRY_INITIAL with 60000 in *. change SETUP_RETRY_MAX with 900000 in *.
  destruct (setup_retry_delay s !! key) as [z|]; [|unfold default, from_option; lia].
  specialize (Hb z eq_refl). unfold default, from_option, id. lia.
Qed.

Lemma retry_setup_retried offering main now s τ s' r :
  (∀ k d, setup_retry_delay s !! k = Some d → SETUP_RETRY_INITIAL ≤ d ≤ SETUP_RETRY_MAX) →
  runs (retry_setup offering main now s) τ (s', r) → setup_retried offering main now s τ s'.
Proof.
  intros Hd Hrun.
  enough (Hwp : wpM (λ _ _ _, True) (retry_setup offering main now) (λ _ s' H', setup_retried offering main now s (rev H') s') s []).
  { destruct (wpM_sound _ _ _ _ _ _ _ Hwp Hrun) as [Hs _]. by rewrite rev_involutive in Hs. }
  unfold retry_setup, setup_retried. cbv zeta. set (key := Setup _ _). apply wpM_bind, wpM_modify, wpM_bind, wpM_get.
  set (noted := note_setup_down _ _ _ s).
  assert (Hnext : next_setup_retry noted = next_setup_retry s ∧ setup_retry_delay noted = setup_retry_delay s)
    by (unfold noted, note_setup_down; by destruct (main && _)).
  destruct Hnext as [Hnext Hdelay]. rewrite <- Hdelay in Hd. rewrite Hnext. clearbody noted.
  destruct (Z.ltb_spec now (default now (next_setup_retry s !! key))) as [Hlt|Hge].
  { apply wpM_ret. split; [done|]. intros Hdue. exfalso.
    destruct (next_setup_retry s !! key) as [n|]; [specialize (Hdue n eq_refl)|]; cbn in Hlt; lia. }
  assert (Hnot : ∀ (P : Prop) n, next_setup_retry s !! key = Some n → now < n → P)
    by (intros P n Hn; rewrite Hn in Hge; cbn in Hge; lia).
  apply wpM_bind, wpM_attempt. eapply wpM_mono; [apply (wpM_runs _ _ (λ _ s' _, s' = noted))|].
  { assert (Hq : keeps (λ s', s' = noted) (open_missing offering main)) by (unfold open_missing; keeps_auto).
    by apply Hq. }
  intros made s1 H1 (-> & τ1 & Hmade & ->). rewrite app_nil_r.
  destruct made as [[|c added]|e].
  - eapply wpM_mono; [by apply schedule_spec|]. intros _ s2 H2 (-> & n & Hn & Hp & _). rewrite rev_involutive.
    split; [intros n0 Hn0 Hlt; exact (Hnot _ n0 Hn0 Hlt)|]. intros _. exists (Ok []). split; [done|]. exists n. done.
  - apply wpM_modify. rewrite rev_involutive. split; [intros n0 Hn0 Hlt; exact (Hnot _ n0 Hn0 Hlt)|]. intros _. exists (Ok (c :: added)). split; [done|].
    unfold note_set_up. cbn. rewrite lookup_delete_eq, dict_get_set_eq. split; [done|]. cbn.
    apply elem_of_app. right. left.
  - destruct (is_persistent_refusal e) eqn:He.
    + apply wpM_bind, wpM_modify. eapply wpM_mono; [apply schedule_spec; [done|split; vm_compute; discriminate]|].
      intros _ s2 H2 (-> & n & Hn & Hp & Hmax). rewrite rev_involutive. split; [intros n0 Hn0 Hlt; exact (Hnot _ n0 Hn0 Hlt)|]. intros _.
      exists (Err e). split; [done|]. exists n. split_and!; [done..|]. intros _ _ _. by apply Hmax.
    + eapply wpM_mono; [by apply schedule_spec|]. intros _ s2 H2 (-> & n & Hn & Hp & _). rewrite rev_involutive.
      split; [intros n0 Hn0 Hlt; exact (Hnot _ n0 Hn0 Hlt)|]. intros _. exists (Err e). split; [done|]. exists n. split_and!; [done..|].
      intros e' [= <-]. by rewrite He.
Qed.

(** C36: Whatever the broker, Waldur, the plugins and the handlers do, between two checks
    every item counted as down, whether it can withhold the heartbeat or not, was seen down
    by one of the checks made, and since then: a connection that was not connected; a handler
    that had run for [handler_stuck_after]; the setup of an enabled offering that subscribes
    to something and had no consumer of its own when the check began, or that expects
    targets and had no consumer on any.  The only items that can withhold the heartbeat are
    the setup of an offering's own consumer that was not refused, and connections and
    handlers of consumers of enabled offerings -- never a consumer on a federation target,
    and never a setup that was refused; and when the heartbeat is withheld, one of them has
    been down for [unhealthy_after] or more.  A setup is put off by one of the checks, to
    between one minute and a quarter of an hour later; a setup that is put off makes no call,
    and one that is not is tried, and put off again unless that made a consumer: when it was
    refused, for a quarter of an hour. *)
Theorem watchdog_invariant ticks now s :
  history ticks now s →
  (∀ k t, down_since s !! k = Some t ∨ reported_down_since s !! k = Some t → was_seen ticks k t) ∧
  (∀ k t, down_since s !! k = Some t → t ≤ now ∧ critical_item s k ∧
     match k with Setup key main => Setup key main ∉ reported s | _ => True end) ∧
  (∀ k t, reported_down_since s !! k = Some t → t ≤ now) ∧
  (∀ k d, setup_retry_delay s !! k = Some d → SETUP_RETRY_INITIAL ≤ d ≤ SETUP_RETRY_MAX) ∧
  (∀ k n, next_setup_retry s !! k = Some n → n ≤ now + SETUP_RETRY_MAX ∧ was_put_off ticks n) ∧
  (∀ offering main later τ s' r, runs (retry_setup offering main later s) τ (s', r) →
     setup_retried offering main later s τ s') ∧
  (∀ later, healthy later s = false → ∃ k t, down_since s !! k = Some t ∧ critical_item s k ∧
     wd_unhealthy_after cfg ≤ later - t).
Proof.
  intros Hh. pose proof (history_accounted _ _ _ Hh) as (Hseen & Hput & Hdelay).
  apply history_watched, watched_until_ok in Hh as [H1 H2 H3 H4 H5 H6]. split_and!; [done| |done..| | |].
  - intros k t Hk. destruct (H1 _ _ Hk) as [Ht Hc]. split_and!; [done..|].
    destruct k as [key main| |]; [|done..]. cbn in Hc. subst main. intros Hr%H3. congruence.
  - intros k n Hk. split; [by apply (H6 k)|by apply (Hput k)].
  - intros. by eapply retry_setup_retried.
  - intros later Hh. unfold healthy in Hh. pose proof (oldest_spec (down_since s)) as Ho.
    destruct (oldest (down_since s)) as [o|]; [|done]. destruct Ho as [[k Hk] _].
    exists k, o. split_and!; [done|by apply (H1 _ _ Hk)|lia].
Qed.

(** ** An outage that lasts withholds the heartbeat *)

(** The connection was found up. *)
Definition up_answer (c : Z) (ev : event subE) : bool :=
  match ev with
  | Ev e r => match e in subE X return res X → bool with
      | ConnectionIsConnected c' => λ r, match r with Ok b => (c' =? c) && b | Err _ => false end
      | _ => λ _, false
      end r
  end.

Definition never_up (c : Z) (τ : trace subE) : Prop := existsb (up_answer c) τ = false.

Lemma never_up_cons c ev H : never_up c (ev :: H) → up_answer c ev = false ∧ never_up c H.
Proof. unfold never_up. cbn. by intros [? ?]%orb_false_iff. Qed.

(** The connection is counted as down, since a time of which [at_time] holds. *)
Definition down_at (c : Z) (at_time : Z → Prop) (s : watchdog) : Prop :=
  ∃ t, down_since s !! Consumer c = Some t ∧ at_time t.

(** Setups leave the records of connections alone, and the consumers only grow. *)
Lemma setup_keeps_down (x : StompConsumer) (at_time : Z → Prop) (P : Prop) now offering :
  keeps (λ s, down_at (sc_connection x) at_time s ∨ (P ∧ x ∈ all_consumers s))
    (check_offering_setup offering now).
Proof.
  apply check_offering_setup_keeps; unfold down_at.
  - intros key main s [(t & Ht & Hle)|Hx]; [left|right; unfold note_setup_down; by destruct (_ && _)].
    exists t. split; [|done]. unfold note_setup_down. destruct (_ && _); cbn; [|done].
    unfold setdefault. destruct (down_since s !! Setup key main); [done|]. by rewrite lookup_insert_ne.
  - intros key main s [(t & Ht & Hle)|Hx]; [left|by right].
    exists t. split; [|done]. cbn. by rewrite lookup_delete_ne.
  - intros key main added s [(t & Ht & Hle)|[? Hx]]; [left|right; split; [done|by apply concat_dict_set]].
    exists t. split; [|done]. cbn. by rewrite lookup_delete_ne.
  - intros key main d _. by apply keeps_modify.
  - done.
  - done.
Qed.

Lemma check_handler_keeps_down c at_time connection critical now P :
  keeps (λ s, down_at c at_time s ∨ P) (check_handler connection critical now).
Proof.
  unfold check_handler. apply keeps_bind; [apply keeps_call|]. intros o.
  assert (Hdel : ∀ s, down_at c at_time s ∨ P →
    down_at c at_time (set_table critical (delete (Handler connection)) s) ∨ P).
  { intros s [(t & Ht & Hle)|?]; [left|by right]. exists t. split; [|done].
    destruct critical; cbn; [by rewrite lookup_delete_ne|done]. }
  destruct o as [t|]; [destruct (_ <? _)|]; try (by apply keeps_modify). apply keeps_modify.
  intros s [(t' & Ht & Hle)|?]; [left|by right]. exists t'. split; [|done].
  destruct critical; cbn; [|done]. unfold setdefault.
  destruct (down_since s !! Handler connection); [done|by rewrite lookup_insert_ne].
Qed.

(** What a statement keeps, it keeps as long as the connection is not found up. *)
Lemma keeps_never_up {A} c (I : watchdog → Prop) (m : watch A) s H :
  keeps I m → (never_up c H → I s) →
  wpM (λ _ _ _, True) m (λ _ s' H', never_up c H' → I s') s H.
Proof.
  intros Hm Hs. destruct (existsb (up_answer c) H) eqn:Hup.
  - eapply wpM_mono; [apply (wpM_runs (λ _ _ _, True) m (λ _ _ _, True))|].
    { apply wpM_true. }
    intros r s' H' (_ & τ & _ & ->). unfold never_up. rewrite existsb_app, Hup. by rewrite orb_true_r.
  - eapply wpM_mono; [by apply Hm, Hs|]. done.
Qed.

Lemma note_disconnected_down c (at_time : Z → Prop) est y now s (P : Prop) :
  (est = true → ∀ t, at_time t) → down_at c at_time s ∨ P →
  let s' := note_disconnected (Consumer (sc_connection y)) (is_critical y) now s in
  down_at c at_time s' ∨
  (P ∧ ¬ (sc_connection y = c ∧ is_critical y = true ∧ est = true)).
Proof.
  unfold note_disconnected, down_at. intros Hest Hd. destruct (is_critical y) eqn:Hcr; cbn.
  2:{ destruct Hd as [?|?]; [by left|right; split; [done|]]. by intros (_ & ? & _). }
  unfold setdefault. destruct (decide (sc_connection y = c)) as [->|Hne].
  - destruct (down_since s !! Consumer c) as [t|] eqn:Ht.
    + destruct Hd as [?|HP]; [left; by rewrite Ht|]. rewrite Ht.
      destruct est; [left; eauto|right; split; [done|]]. by intros (_ & _ & ?).
    + destruct Hd as [(? & ? & _)|HP]; [done|]. rewrite lookup_insert_eq.
      destruct est; [left; eauto|right; split; [done|]]. by intros (_ & _ & ?).
  - destruct Hd as [(t & Ht & Hle)|HP]; [left|right; split; [done|by intros (? & _ & _)]].
    exists t. split; [|done]. destruct (down_since s !! Consumer (sc_connection y)); [done|].
    rewrite lookup_insert_ne; congruence.
Qed.

(** One consumer: a check that does not find [c] up keeps it down, and one that is about
    it counts it as down from now on at the latest. *)
Lemma check_consumer_down c (at_time : Z → Prop) est y now s H (P : Prop) :
  (est = true → ∀ t, at_time t) →
  (never_up c H → down_at c at_time s ∨ P) →
  wpM (λ _ _ _, True) (check_consumer y now (is_critical y)) (λ r s' H', match r with
    | Ok _ => never_up c H' → down_at c at_time s' ∨
                (P ∧ ¬ (sc_connection y = c ∧ is_critical y = true ∧ est = true))
    | Err _ => True end) s H.
Proof.
  intros Hest Hpre. unfold check_consumer. apply wpM_bind, wpM_call; [done|].
  intros [listening|e]; [|done]. apply wpM_bind.
  eapply wpM_mono; [apply (keeps_never_up c (λ s, down_at c at_time s ∨ P))|].
  - destruct listening; [|auto with keeps]. apply keeps_bind; [apply keeps_call|].
    intros _. apply check_handler_keeps_down.
  - intros [_ Hn]%never_up_cons. by apply Hpre.
  - intros [[]|e] s1 H1 Hs1; [|done]. apply wpM_bind, wpM_call; [done|]. intros [[]|e]; [..|done].
    + apply wpM_modify. intros [Hup Hn]%never_up_cons. cbn in Hup.
      assert (sc_connection y ≠ c) as Hne by (intros E; rewrite E, Z.eqb_refl in Hup; done).
      destruct (Hs1 Hn) as [(t & Ht & Hle)|HP]; [left|right; split; [done|tauto]].
      exists t. split; [|done]. unfold note_connected.
      destruct (_ <=? _); [|done]. destruct (table _ _ !! _); [|done].
      destruct (is_critical y); cbn; [|done]. rewrite lookup_delete_ne; congruence.
    + apply wpM_bind, wpM_modify. set (s2 := note_disconnected _ _ _ _).
      set (H2 := Ev _ _ :: H1).
      assert (never_up c H2 → down_at c at_time s2 ∨
        (P ∧ ¬ (sc_connection y = c ∧ is_critical y = true ∧ est = true))) as Hs2.
      { intros [_ Hn]%never_up_cons. by apply note_disconnected_down, Hs1. }
      eapply wpM_mono; [apply (keeps_never_up c (λ s, down_at c at_time s ∨
        (P ∧ ¬ (sc_connection y = c ∧ is_critical y = true ∧ est = true)))); [|exact Hs2]|].
      2:{ by intros [[]|e]. }
      destruct listening; cbn [negb]; [|auto with keeps].
      apply keeps_bind; [apply keeps_call|]. intros []; [auto with keeps|].
      apply keeps_bind; [apply keeps_call|]. intros []; [by apply keeps_modify|auto with keeps].
Qed.

(** A whole check: a critical consumer not found up stays counted as down, and is counted
    as down if it was not. *)
Lemma check_down x at_time est now s :
  (est = true → ∀ t, at_time t) → is_critical x = true →
  down_at (sc_connection x) at_time s ∨ (est = true ∧ x ∈ all_consumers s) →
  wpM (λ _ _ _, True) (check now) (λ r s' H', match r with
    | Ok _ => never_up (sc_connection x) H' → down_at (sc_connection x) at_time s'
    | Err _ => True end) s [].
Proof.
  intros Hest Hc Hd. unfold check. apply wpM_bind.
  eapply wpM_mono; [apply (keeps_for_each (λ s, down_at (sc_connection x) at_time s ∨
                             (est = true ∧ x ∈ all_consumers s)))|].
  - intros offering. destruct (off_stomp_enabled offering); [|auto with keeps].
    apply setup_keeps_down.
  - done.
  - intros [[]|e] s1 H1 Hd1; [|done]. apply wpM_bind, wpM_get, wpM_bind.
    apply (wpM_for_each _ _ _ (λ done s H, never_up (sc_connection x) H →
      down_at (sc_connection x) at_time s ∨ (est = true ∧ x ∈ all_consumers s1 ∧ x ∉ done))).
    + intros xs y s2 H2 _ Hs2.
      eapply wpM_mono; [apply (check_consumer_down (sc_connection x) at_time est y); [done|exact Hs2]|].
      intros [[]|e] s3 H3 Hs3; [|done]. intros Hn.
      destruct (Hs3 Hn) as [?|[(He & Hin & Hni) Hy]]; [by left|].
      right. split_and!; [done..|]. intros [?|[->|?%elem_of_nil]%elem_of_cons]%elem_of_app; [done| |done].
      by apply Hy.
    + intros s2 H2 Hs2. apply wpM_bind, wpM_modify, wpM_bind, wpM_get, wpM_ret.
      intros Hn. destruct (Hs2 Hn) as [Hd2|(_ & Hin & Hni)]; [exact Hd2|done].
    + intros _. destruct Hd1 as [?|[??]]; [by left|right]. split_and!; [done..|]. by intros ?%elem_of_nil.
Qed.

(** Successive checks that all came back: when, with which calls, with which answer. *)
Fixpoint checks (s : watchdog) (l : list (Z * trace subE * bool)) (s' : watchdog) : Prop :=
  match l with
  | [] => s = s'
  | (now, τ, ok) :: l => ∃ s1, runs (check now s) τ (s1, Ok ok) ∧ checks s1 l s'
  end.

Lemma check_healthy now s τ s' ok :
  runs (check now s) τ (s', Ok ok) → ok = healthy now s'.
Proof.
  intros Hr. eapply (wpM_sound (λ _ _ _, True) _ (λ r s' _,
    match r with Ok b => b = healthy now s' | Err _ => True end)) in Hr; [apply Hr|].
  unfold check. apply wpM_bind. eapply wpM_mono; [apply wpM_true|].
  intros [[]|e] s1 H1 _; [|done]. apply wpM_bind, wpM_get, wpM_bind.
  eapply wpM_mono; [apply wpM_true|]. intros [[]|e] s2 H2 _; [|done].
  by apply wpM_bind, wpM_modify, wpM_bind, wpM_get, wpM_ret.
Qed.

Lemma checks_down x t0 l : ∀ s s',
  is_critical x = true → down_at (sc_connection x) (λ t, t ≤ t0) s → checks s l s' →
  Forall (λ c, never_up (sc_connection x) (rev c.1.2)) l →
  down_at (sc_connection x) (λ t, t ≤ t0) s'.
Proof.
  induction l as [|[[now τ] ok] l IH]; intros s s' Hc Hd Hl Hn; [by cbn in Hl; subst|].
  destruct Hl as (s1 & Hr & Hl). apply Forall_cons in Hn as [Hn Hns].
  apply (IH s1); [done| |done..].
  destruct (wpM_sound _ _ _ _ _ _ _ (check_down x (λ t, t ≤ t0) false now s ltac:(done) Hc
              (or_introl Hd)) Hr) as [Hs1 _]. by apply Hs1.
Qed.

(** An outage that lasts withholds the heartbeat.  When a consumer of an enabled
    offering is found up by no check in a row of checks, each of which came back, then a
    check made [unhealthy_after] or more after the first of them answers that the agent is
    not healthy -- whatever else happens, and however often reconnecting claims success. *)
Theorem outage_withholds_heartbeat x t0 τ0 ok0 l tn τn okn s s' :
  watched_until t0 s → x ∈ all_consumers s → is_critical x = true →
  checks s ((t0, τ0, ok0) :: l ++ [(tn, τn, okn)]) s' →
  Forall (λ c, never_up (sc_connection x) (rev c.1.2)) ((t0, τ0, ok0) :: l ++ [(tn, τn, okn)]) →
  wd_unhealthy_after cfg ≤ tn - t0 →
  okn = false.
Proof.
  intros Hu Hx Hc (s1 & Hr0 & Hl) [Hn0 Hn]%Forall_cons Ht.
  destruct (wpM_sound _ _ _ _ _ _ _ (check_down x (λ _, True) true t0 s ltac:(done) Hc
              (or_intror (conj eq_refl Hx))) Hr0) as [Hd _].
  destruct (Hd Hn0) as (t & Hs1 & _).
  assert (watch_ok t0 s1) as Hok.
  { apply watched_until_ok. eapply watched_check; [exact Hu|lia|exact Hr0]. }
  assert (down_at (sc_connection x) (λ t, t ≤ t0) s') as (t' & Ht' & Hle).
  { eapply checks_down; [done| |exact Hl|exact Hn]. exists t. split; [done|].
    by destruct (wo_down _ _ Hok _ _ Hs1). }
  assert (okn = healthy tn s') as ->.
  { clear -Hl. revert s1 Hl; induction l as [|[[??] ?] l IH]; intros s1 Hl; cbn in Hl.
    - destruct Hl as (s2 & Hr & ->). by eapply check_healthy.
    - destruct Hl as (s2 & _ & Hl). by eapply IH. }
  destruct (healthy tn s') eqn:E; [|done]. rewrite healthy_spec in E. specialize (E _ _ Ht'). lia.
Qed.
End Check.

(** ** A broker that stays down *)

Section Sample.
Definition sample_offering : Offering :=
  {| off_uuid := "offering"; off_name := "Cluster"; off_backend_settings := ∅;
     off_username_management_backend := None; off_username_reconciliation_enabled := false;
     off_preserve_unmanaged_backend_users := false;
     off_omit_anomalous_usage_components := false;
     off_order_processing_backend := None; off_membership_sync_backend := None;
     off_stomp_enabled := true; off_stomp_membership_sync_enabled := Some false;
     off_reporting_backend := Some "slurm"; off_resource_import_enabled := true |}.

Definition sample_consumer : StompConsumer :=
  {| sc_connection := 1;
     sc_queue := {| queue_name := "consumer_1"; rmq_username := "agent"; vhost := "user";
                    observable_object_types := []; agent_identity_uuid := "identity" |};
     sc_offering := sample_offering |}.

Definition sample_watchdog : watchdog :=
  new_watchdog [(map_key sample_offering, [sample_consumer])].

Definition sample_watchdog_config : watchdog_config :=
  {| wd_offerings := [sample_offering]; wd_unhealthy_after := 600000;
     wd_handler_stuck_after := 3600000 |}.

(** Nothing connects, though reconnecting claims success. *)
Definition dead_broker X (c : subE X) (w : unit) : res X * unit :=
  (match c in subE X return res X with
   | GetListener _ => Ok true
   | EnsureWorker _ => Ok ()
   | HandlerRunningSince _ => Ok None
   | ConnectionIsConnected _ => Ok false
   | ReconnectInProgress _ => Ok false
   | Reconnect _ _ => Ok true
   | _ => Err (OtherException "unexpected")
   end, w).

Definition tick_run (now : Z) (s : watchdog) := exec dead_broker (check sample_watchdog_config now s) ().

Definition after_first : watchdog := (tick_run 1000 sample_watchdog).1.1.1.

Lemma first_tick : runs (check sample_watchdog_config 1000 sample_watchdog)
  (tick_run 1000 sample_watchdog).1.2 (after_first, Ok true).
Proof.
  pose proof (exec_runs_pair dead_broker (check sample_watchdog_config 1000 sample_watchdog) ()) as H.
  replace (Ok true) with (tick_run 1000 sample_watchdog).1.1.2 by (vm_compute; reflexivity). exact H.
Qed.

Lemma second_tick ok : (tick_run 601000 after_first).1.1.2 = Ok ok →
  runs (check sample_watchdog_config 601000 after_first)
    (tick_run 601000 after_first).1.2 ((tick_run 601000 after_first).1.1.1, Ok ok).
Proof.
  intros <-. apply (exec_runs_pair dead_broker (check sample_watchdog_config 601000 after_first) ()).
Qed.

Definition first_ticks : list tick :=
  [{| tk_now := 1000; tk_before := sample_watchdog; tk_trace := (tick_run 1000 sample_watchdog).1.2;
      tk_after := after_first |}].

Lemma watchdog_invariant_witness :
  down_since after_first !! Consumer 1 = Some 1000 ∧
  critical_item sample_watchdog_config after_first (Consumer 1) ∧
  was_seen sample_watchdog_config first_ticks (Consumer 1) 1000.
Proof.
  assert (down_since after_first !! Consumer 1 = Some 1000) as Hk by (vm_compute; reflexivity).
  split; [exact Hk|].
  destruct (watchdog_invariant sample_watchdog_config first_ticks 1000 after_first) as (Hs & H & _).
  - apply (history_check _ [] 0 1000 sample_watchdog _ _ (Ok true)); [apply history_new|lia|exact first_tick].
  - split; [by destruct (H _ _ Hk) as (_ & Hc & _)|]. apply Hs. by left.
Defined.

Lemma outage_withholds_heartbeat_witness : (tick_run 601000 after_first).1.1.2 = Ok false.
Proof.
  assert ((tick_run 601000 after_first).1.1.2 = Ok (healthy sample_watchdog_config 601000
            (tick_run 601000 after_first).1.1.1)) as Hok by (vm_compute; reflexivity).
  enough (healthy sample_watchdog_config 601000 (tick_run 601000 after_first).1.1.1 = false) as E
    by (rewrite Hok, E; reflexivity).
  eapply (outage_withholds_heartbeat sample_watchdog_config sample_consumer 1000 _ true [] 601000 _ _
            sample_watchdog _).
  - apply watched_new.
  - by left.
  - reflexivity.
  - exists after_first. split; [exact first_tick|].
    eexists. split; [exact (second_tick _ Hok)|reflexivity].
  - repeat (apply Forall_cons; split; [vm_compute; reflexivity|]). constructor.
  - cbn. lia.
Defined.
End Sample.
