(* ===== verification/Importable.v ===== *)
(** * Importable resources

    [common/processors.py: OfferingImportableResourcesProcessor]: on a request from Waldur
    the resources of the backend that Waldur does not know are offered for import, each to
    the project its parent account names. *)

From stdpp Require Import base list strings gmap sets.
From Stdlib Require Import ZArith Lia.
From S2P Require Import Prelude.
From S2P Require Import Structures.
From S2P Require Import OfferingUsers.

Local Open Scope prog_scope.

(** [BackendResourceRequest] *)
Record BackendResource : Type := {
  br_name : string;
  br_project : string;
  br_backend_id : string;
  br_limits : gmap string Z;
}.

Inductive importE : Type → Type :=
| RequestRetrieve (uuid : string) : importE string
| RequestStartProcessing (uuid : string) : importE unit
| RequestSetDone (uuid : string) : importE unit
| RequestSetErred (uuid message traceback : string) : importE unit
| WaldurResources (states : list ResourceState.t) : importE (list WaldurResource)
| ProjectsBySlug (slug : string) : importE (list string)
| BackendResourcesList (backend_id project : string) : importE (list string)
| BackendResourceCreate (resource : BackendResource) : importE unit
| ListResources : importE (list BackendResourceInfo)
| ResourceLimits (backend_id : string) : importE (gmap string Z).

(** [s.removeprefix(p)] when [s] starts with [p]. *)
Fixpoint removeprefix (p s : string) : string :=
  match p, s with
  | String _ p, String _ s => removeprefix p s
  | _, _ => s
  end.

Section Importable.
Context {S : Type}.
Abbreviation imports := (M importE S).

(** [backend_settings.get("project_prefix", "")] *)
Context (project_prefix : json).
Context (expose_backend_error_details : bool) (format_exc : exn → string).

Definition process_importable_resource (info : BackendResourceInfo) : imports unit :=
  match project_prefix with
  | JStr prefix =>
      if negb (String.prefix prefix (info_parent_id info)) then ret ()
      else
        let! projects := call (ProjectsBySlug (removeprefix prefix (info_parent_id info))) in
        match projects with
        | [] => ret ()
        | project :: _ =>
            let! existing := call (BackendResourcesList (info_backend_id info) project) in
            match existing with
            | _ :: _ => ret ()
            | [] =>
                let! limits := call (ResourceLimits (info_backend_id info)) in
                call (BackendResourceCreate
                  {| br_name := info_backend_id info; br_project := project;
                     br_backend_id := info_backend_id info; br_limits := limits |})
            end
        end
  | _ => raise (TypeError "startswith first arg must be str or a tuple of str")
  end.

Definition pre_process_backend_resource_request (request_uuid : string) : imports unit :=
  let! uuid := call (RequestRetrieve request_uuid) in
  call (RequestStartProcessing uuid).

(** The backend ids Waldur holds; resources without one are left out. *)
Definition known_backend_ids (resources : list WaldurResource) : gset string :=
  list_to_set (filter (λ b, b ≠ "") (map res_backend_id resources)).

Definition get_waldur_resources : imports (gset string) :=
  let! resources := call (WaldurResources [ResourceState.OK; ResourceState.ERRED;
                                           ResourceState.CREATING]) in
  ret (known_backend_ids resources).

(** [{resource.backend_id: resource for resource in local_resource_list}] *)
Definition by_backend_id (l : list BackendResourceInfo) : gmap string BackendResourceInfo :=
  map_by info_backend_id l.

(** [local_resources.keys() - waldur_resources.keys()], in some order. *)
Definition importable_ids (local : gmap string BackendResourceInfo) (known : gset string)
  : list string := elements (dom local ∖ known).

Definition process_request_steps (request_uuid : string) : imports unit :=
  pre_process_backend_resource_request request_uuid ;!
  let! known := get_waldur_resources in
  let! listed := call ListResources in
  let local := by_backend_id listed in
  for_each (importable_ids local known) (λ backend_id,
    let! _ := attempt (match local !! backend_id with
                       | Some info => process_importable_resource info
                       | None => raise (KeyError backend_id)
                       end) in ret ()) ;!
  call (RequestSetDone request_uuid).

Definition process_request (request_uuid : string) : imports unit :=
  try! process_request_steps request_uuid except (λ e,
    let details := format_waldur_error_details format_exc e expose_backend_error_details in
    call (RequestSetErred request_uuid details.1 details.2)).
End Importable.

(** ** What is offered for import *)

Definition created_id (backend_id : string) (ev : event importE) : bool :=
  match ev with
  | Ev c _ => match c with
      | BackendResourceCreate b => String.eqb (br_backend_id b) backend_id
      | _ => false
      end
  end.

(** The calls that come right before a resource is offered, newest first. *)
Definition checked_for (info : BackendResourceInfo) (prefix : string) (b : BackendResource)
    (H : trace importE) : Prop :=
  ∃ rest projects,
    H = Ev (ResourceLimits (info_backend_id info)) (Ok (br_limits b)) ::
        Ev (BackendResourcesList (info_backend_id info) (br_project b)) (Ok []) ::
        Ev (ProjectsBySlug (removeprefix prefix (info_parent_id info)))
           (Ok (br_project b :: projects)) :: rest.

(** [listed] and [known] are what the backend and Waldur answered in [H]. *)
Definition listings (listed : list BackendResourceInfo) (resources : list WaldurResource)
    (H : trace importE) : Prop :=
  Ev ListResources (Ok listed) ∈ H ∧
  Ev (WaldurResources [ResourceState.OK; ResourceState.ERRED; ResourceState.CREATING])
     (Ok resources) ∈ H.

Definition import_guard (prefix : json) : guard importE := λ X H c,
  match c with
  | BackendResourceCreate b =>
      br_name b = br_backend_id b ∧ existsb (created_id (br_backend_id b)) H = false ∧
      ∃ info p listed resources, prefix = JStr p ∧ info_backend_id info = br_backend_id b ∧
        String.prefix p (info_parent_id info) = true ∧ checked_for info p b H ∧
        listings listed resources H ∧ info ∈ listed ∧
        (br_backend_id b = "" ∨ br_backend_id b ∉ map res_backend_id resources)
  | _ => True
  end.

Section Proofs.
Context {S : Type} (prefix : json) (expose : bool) (format_exc : exn → string).
Abbreviation G := (import_guard prefix).

Lemma listings_cons listed resources ev H :
  listings listed resources H → listings listed resources (ev :: H).
Proof. intros [? ?]. split; by right. Qed.

Lemma not_known resources backend_id :
  backend_id ∉ known_backend_ids resources →
  backend_id = "" ∨ backend_id ∉ map res_backend_id resources.
Proof.
  unfold known_backend_ids. rewrite elem_of_list_to_set, list_elem_of_filter. intros Hn.
  destruct (decide (backend_id = "")); [by left|right]. tauto.
Qed.

(** The ids offered so far are among those gone through. *)
Definition offered_within (done : list string) (H : trace importE) : Prop :=
  ∀ backend_id, existsb (created_id backend_id) H = true → backend_id ∈ done.

Lemma process_importable_resource_guard info listed resources done (s : S) H :
  listings listed resources H → info ∈ listed →
  info_backend_id info ∉ known_backend_ids resources →
  offered_within done H → info_backend_id info ∉ done →
  wpM G (process_importable_resource prefix info)
    (λ _ _ H', listings listed resources H' ∧ offered_within (done ++ [info_backend_id info]) H') s H.
Proof.
  intros Hl Hin Hk Hd Hnd.
  assert (Hd' : ∀ H, offered_within done H → offered_within (done ++ [info_backend_id info]) H).
  { intros H0 HH id Hid. apply elem_of_app. left. by apply HH. }
  assert (Hquiet : ∀ X (c : importE X) r H, offered_within done H →
    (∀ id, created_id id (Ev c r) = false) → offered_within done (Ev c r :: H)).
  { intros X c r H0 HH Hc id Hx. apply HH. specialize (Hc id). cbn in *. by rewrite Hc in Hx. }
  unfold process_importable_resource. destruct prefix as [| | | |p| |] eqn:Hp; try (by wp_step; auto).
  destruct (String.prefix p (info_parent_id info)) eqn:Hpre; cbn [negb]; [|wp_step; auto].
  apply wpM_bind, wpM_call; [done|]. intros o.
  pose proof (listings_cons _ _ (Ev (ProjectsBySlug (removeprefix p (info_parent_id info))) o) _ Hl) as Hl1.
  assert (offered_within done (Ev (ProjectsBySlug (removeprefix p (info_parent_id info))) o :: H))
    as Hd1 by by apply Hquiet.
  destruct o as [[|project projects]|e]; [wp_step; auto| |auto].
  apply wpM_bind, wpM_call; [done|]. intros o.
  set (H2 := Ev _ o :: _). assert (listings listed resources H2) as Hl2 by by apply listings_cons.
  assert (offered_within done H2) as Hd2 by by apply Hquiet.
  destruct o as [[|x l]|e]; [|wp_step; auto|auto].
  apply wpM_bind, wpM_call; [done|]. intros o.
  set (H3 := Ev _ o :: _). assert (listings listed resources H3) as Hl3 by by apply listings_cons.
  assert (offered_within done H3) as Hd3 by by apply Hquiet.
  destruct o as [limits|e]; [|auto]. apply wpM_call.
  - split; [done|]. split.
    + apply not_true_is_false. intros Hc. by apply Hnd, Hd3.
    + exists info, p, listed, resources. split_and!; try done; [|by apply not_known].
      by exists H, projects.
  - intros o. split; [by apply listings_cons|]. intros id. cbn.
    intros [Hid|Hid]%orb_true_iff; apply elem_of_app.
    + right. apply String.eqb_eq in Hid as <-. by left.
    + left. by apply Hd3.
Qed.

(** A request for importable resources offers to Waldur only resources the backend
    listed and Waldur, which was asked for the same offering before, does not hold under
    their id, each at most once, to the project its parent account names after the prefix,
    where no import of it is pending, and with the limits read right before.  A failure
    with one resource leaves the rest to be offered; whatever fails otherwise is reported
    as an error of the request, and only a failure to report gets out. *)
Theorem imports_missing_resources request_uuid (s : S) τ s' r :
  runs (process_request prefix expose format_exc request_uuid s) τ (s', r) →
  guarded (import_guard prefix) [] τ ∧
  ((r = Ok () ∧ ∃ ok, last τ = Some (Ev (RequestSetDone request_uuid) (Ok ok))) ∨
   ∃ e o, r = o ∧ last τ = Some (Ev (RequestSetErred request_uuid
       (format_waldur_error_details format_exc e expose).1
       (format_waldur_error_details format_exc e expose).2) o)).
Proof.
  intros Hr.
  assert (Hw : wpM (import_guard prefix) (process_request prefix expose format_exc request_uuid)
    (λ r _ H', (r = Ok () ∧ ∃ ok H0, H' = Ev (RequestSetDone request_uuid) (Ok ok) :: H0) ∨
       ∃ e o H0, r = o ∧ H' = Ev (RequestSetErred request_uuid
         (format_waldur_error_details format_exc e expose).1
         (format_waldur_error_details format_exc e expose).2) o :: H0) s []).
  2:{ destruct (wpM_sound _ _ _ _ _ _ _ Hw Hr) as [HQ HG]. split; [exact HG|].
      destruct HQ as [(-> & ok & H0 & Hh)|(e & o & H0 & -> & Hh)]; [left|right];
        apply (f_equal (@rev _)) in Hh; rewrite rev_involutive in Hh; subst τ.
      - split; [done|]. exists ok. simpl. by rewrite last_snoc.
      - exists e, o. split; [done|]. simpl. by rewrite last_snoc. }
  unfold process_request. apply wpM_bind, wpM_attempt.
  apply wpM_mono with (Q := λ r _ H', match r with
    | Ok _ => ∃ ok H0, H' = Ev (RequestSetDone request_uuid) (Ok ok) :: H0
    | Err _ => True end).
  2:{ intros [[]|e] s1 H1 HQ; [wp_step; by left|]. apply wpM_call; [done|].
      intros o. right. by exists e, o, H1. }
  unfold process_request_steps, pre_process_backend_resource_request, get_waldur_resources.
  apply wpM_bind, wpM_bind, wpM_call; [done|]. intros [uuid|e]; [|done].
  apply wpM_call; [done|]. intros [[]|e]; [|done].
  apply wpM_bind, wpM_bind, wpM_call; [done|]. intros [resources|e]; [|done]. wp_step.
  apply wpM_bind, wpM_call; [done|]. intros [listed|e]; [|done]. cbv zeta.
  apply wpM_bind, (wpM_for_each _ _ _ (λ done _ H, listings listed resources H ∧ offered_within done H)).
  - intros xs x s1 H1 [ys Hys] [Hl Hd].
    pose proof (NoDup_elements (dom (by_backend_id listed) ∖ known_backend_ids resources)) as Hnd.
    fold (importable_ids (by_backend_id listed) (known_backend_ids resources)) in Hnd.
    rewrite Hys in Hnd.
    assert (x ∈ importable_ids (by_backend_id listed) (known_backend_ids resources)) as Hx
      by (rewrite Hys; set_solver).
    unfold importable_ids in Hx. rewrite elem_of_elements, elem_of_difference in Hx. destruct Hx as [[info Hi]%elem_of_dom Hk].
    rewrite Hi. pose proof (map_by_spec _ _ _ _ Hi) as [Hin <-].
    apply wpM_bind, wpM_attempt.
    eapply wpM_mono; [apply (process_importable_resource_guard info listed resources xs); try done|].
    + apply NoDup_app in Hnd as (_ & Hnd & _). intros Hc. apply (Hnd _ Hc). by left.
    + intros r1 s2 H2 HQ. by wp_step.
  - intros s1 H1 _. apply wpM_call; [done|]. intros [[]|e]; [|done]. by exists (), H1.
  - split; [split; set_solver|]. intros id Hid. done.
Qed.
End Proofs.

(** ** A concrete request *)

Definition local_resource (backend_id parent_id : string) : BackendResourceInfo :=
  {| info_backend_id := backend_id; info_parent_id := parent_id; info_effective_id := "";
     info_users := []; info_usage := info_usage empty_info; info_limits := ∅;
     info_pending_order_id := ""; info_backend_metadata := ∅; info_endpoints := [] |}.

(** A backend with a resource of a known project and one of a foreign account. *)
Definition import_world X (c : importE X) (w : unit) : res X * unit :=
  (match c in importE X return res X with
   | RequestRetrieve uuid => Ok uuid
   | WaldurResources _ => Ok []
   | ListResources => Ok [local_resource "alloc-1" "hpc_physics"; local_resource "root" "other"]
   | ProjectsBySlug slug => Ok (if String.eqb slug "physics" then ["project-1"] else [])
   | BackendResourcesList _ _ => Ok []
   | ResourceLimits _ => Ok ∅
   | _ => Ok ()
   end, w).

Definition import_run := exec import_world (process_request (JStr "hpc_") true (λ _, "") "request-1" ()) ().

Lemma imports_missing_resources_witness :
  filter (λ ev, created_id "alloc-1" ev = true ∨ created_id "root" ev = true) import_run.1.2 =
    [Ev (BackendResourceCreate {| br_name := "alloc-1"; br_project := "project-1";
           br_backend_id := "alloc-1"; br_limits := ∅ |}) (Ok ())] ∧
  guarded (import_guard (JStr "hpc_")) [] import_run.1.2.
Proof.
  split; [vm_compute; reflexivity|].
  apply (imports_missing_resources (JStr "hpc_") true (λ _, "") "request-1" () _ _ _
    (exec_runs_pair import_world (process_request (JStr "hpc_") true (λ _, "") "request-1" ()) ())).
Defined.
