(* ===== verification/Handlers.v ===== *)
(** * Event handlers

    [event_processing/handlers.py] with the router of
    [event_processing/event_subscription_manager.py], [get_backend_for_offering] of
    [common/utils.py] and the construction and registration of a processor
    ([OfferingBaseProcessor] in [common/processors.py]): what one message of the event
    queue makes the agent do.  A handler parses its message, sets up a client, a backend
    and a processor, and runs the operation of the processor that the other files model.

    The state of the handlers is the set of offerings whose project-group pass is
    scheduled ([_project_group_timers]). *)

From stdpp Require Import base list strings gmap sets.
From Stdlib Require Import ZArith Lia Ascii.
From S2P Require Import Prelude.
From S2P Require Import Texts.
From S2P Require Import Structures.
From S2P Require Import Agent.
From S2P Require Import Samples.
From S2P Require Import OfferingUsers.
From S2P Require Import BaseProcessor.
From S2P Require Import Orders.
From S2P Require Import ApiKeys.
From S2P Require Import Teardown.
From S2P Require Import Membership.
From S2P Require Import MembershipEvents.
From S2P Require Import Subscriptions.
From S2P Require Import Importable.
From S2P Require Import ReportEffects.

Local Open Scope Z_scope.
Local Open Scope prog_scope.

(** ** Frames, plugins and calls *)

(** A STOMP frame: what [json.loads] makes of its body, and its headers. *)
Record Frame : Type := {
  frame_body : res json;
  frame_headers : gmap string string;
}.

(** A resource backend plugin: its class, its distribution's version, the type its
    instances name, its capability flags, and whether it takes periodic settings. *)
Record backend_class : Type := {
  bc_module : string;
  bc_name : string;
  bc_version : string;
  bc_backend_type : string;
  bc_capabilities : capabilities;
  bc_applies_periodic_settings : bool;
}.

Definition UnknownBackend : backend_class :=
  {| bc_module := "waldur_site_agent.backend.backends"; bc_name := "UnknownBackend";
     bc_version := "unknown"; bc_backend_type := "unknown";
     bc_capabilities := base_capabilities; bc_applies_periodic_settings := false |}.

Inductive backend_key : Type :=
| order_processing_backend | membership_sync_backend | reporting_backend.

(** What the agent is installed with: the plugins, the username backend of an offering,
    and third-party code: the names of the client's enums, [httpx.URL], [str]. *)
Record environment : Type := {
  BACKENDS : gmap string backend_class;
  env_username_backend : Offering → username_backend;
  env_own_base : Offering → option url;
  env_parse_url : string → res url;
  env_format_exc : exn → string;
  env_order_state : OrderState.t → string;
  env_offering_user_state : OfferingUserState.t → string;
  env_object_type : string → option ObservableObjectType.t;
  env_object_type_name : ObservableObjectType.t → string;
  (* [str] of a JSON value that is no string *)
  env_text : json → string;
}.

Inductive eventE : Type → Type :=
| Sub {X} (c : subE X) : eventE X
| Agent {X} (c : agentE X) : eventE X
| Import {X} (c : importE X) : eventE X
| Usage {X} (c : reportE X) : eventE X
(* construction of backends and processors *)
| NewBackend (offering backend_type : string) : eventE unit
| CurrentUser : eventE string
| OfferingRetrieve (uuid : string) : eventE string
| ServiceProvidersList (customer_uuid : string) : eventE (list string)
(* methods of a backend that only handlers call *)
| UpdateUserAttributes (username : string) (attributes : json) : eventE unit
| ApplyPeriodicSettings (backend_id : string) (settings : json) : eventE json
| ReconcileProjectGroups (offering : string) : eventE unit
(* Waldur *)
| ReportCommandResult (policy_uuid resource_uuid : string) (success error commands : json)
    : eventE unit
| OfferingUserRetrieve (uuid : string) : eventE (option OfferingUser)
| OrdersModifiedBefore (states : list OrderState.t) (cutoff : Z) : eventE (list Order)
| OrdersPage (offering : string) : eventE unit
| UnrestrictedOfferingUsers (states : option (list OfferingUserState.t)) : eventE (list OfferingUser)
(* the clock *)
| Now : eventE Z
(* timers *)
| StartTimer (offering : string) : eventE unit
| CancelTimer (offering : string) : eventE unit.

(** ** Messages *)

(** [message.get(key, default)] *)
Definition msg_get (message : json) (key : string) (default : json) : res json :=
  match message with
  | JObj d => Ok (from_option id default (obj_get d key))
  | _ => Err (AttributeError "get")
  end.

(** [message[key]] *)
Definition msg_item (message : json) (key : string) : res json :=
  match message with
  | JObj d => match obj_get d key with Some v => Ok v | None => Err (KeyError key) end
  | _ => Err (TypeError "indices must be integers")
  end.

(** [x in set_or_dict] hashes [x]. *)
Definition hashable (v : json) : bool :=
  match v with JArr _ | JObj _ => false | _ => true end.

Definition type_error (what : string) : exn := TypeError what.

(** [len(v)] and [list(v)] are defined on texts, lists and objects only. *)
Definition sized (v : json) : res unit :=
  match v with
  | JStr _ | JArr _ | JObj _ => Ok ()
  | _ => Err (type_error "object has no len()")
  end.

(** The strings of [set(v)]. *)
Definition string_set (v : json) : res (gset string) :=
  match v with
  | JArr l =>
      if forallb hashable l
      then Ok (list_to_set (omap (λ x, match x with JStr s => Some s | _ => None end) l))
      else Err (type_error "unhashable type")
  | JStr s => Ok (list_to_set (map (λ c, String c "") (String.list_ascii_of_string s)))
  | JObj d => Ok (list_to_set (map fst d))
  | _ => Err (type_error "object is not iterable")
  end.

(** [type(v).__name__] *)
Definition type_name (v : json) : string :=
  match v with
  | JNull => "NoneType" | JBool _ => "bool" | JInt _ => "int" | JFloat _ => "float"
  | JStr _ => "str" | JArr _ => "list" | JObj _ => "dict"
  end.

(** [UUID(v)]: 32 hexadecimal digits, dashes aside.  The braces, the [urn:uuid:] prefix
    and the digit separators that Python tolerates are refused: Waldur sends none. *)
Definition UUID (v : json) : res string :=
  match v with
  | JStr s =>
      let hex := without_dashes s in
      if (String.length hex =? 32)%nat && forallb hex_digit (String.list_ascii_of_string hex)
      then Ok hex else Err (ValueError "badly formed hexadecimal UUID string")
  | _ => Err (AttributeError "replace")
  end.

Definition json_is (v : json) (s : string) : bool :=
  match v with JStr x => String.eqb x s | _ => false end.

Section Handlers.
Context (env : environment) (expose_backend_error_details : bool).

Abbreviation timers := (gset string).
Abbreviation handler := (M eventE timers).

Definition text (v : json) : string := match v with JStr s => s | _ => env_text env v end.

Definition run_sub {S A} (m : M subE S A) : M eventE S A := inside (@Sub) m.
Definition run_agent {S A} (m : M agentE S A) : M eventE S A := inside (@Agent) m.

(** A processor with empty caches. *)
Definition on_processor {S A} (m : proc A) : M eventE S A :=
  let! x := run_on initial_state (run_agent m) in of_res x.1.

(** ** Backends and processors *)

Definition configured_type (offering : Offering) (key : backend_key) : option string :=
  match key with
  | order_processing_backend => off_order_processing_backend offering
  | membership_sync_backend => off_membership_sync_backend offering
  | reporting_backend => off_reporting_backend offering
  end.

Definition get_client_for_offering {S} (offering : Offering) : M eventE S unit :=
  call (Sub (GetClient (off_uuid offering))).

Definition get_backend_for_offering {S} (offering : Offering) (key : backend_key)
  : M eventE S backend_class :=
  match configured_type offering key with
  | None => ret UnknownBackend
  | Some backend_type =>
      match BACKENDS env !! backend_type with
      | None => ret UnknownBackend
      | Some b => call (NewBackend (off_uuid offering) backend_type) ;! ret b
      end
  end.

(** What the operations of a processor over this backend read. *)
Definition config_of (offering : Offering) (b : backend_class) : processor_config :=
  {| cfg_offering := offering; cfg_capabilities := bc_capabilities b;
     cfg_username_backend := env_username_backend env offering;
     cfg_has_service_provider := true;
     cfg_expose_backend_error_details := expose_backend_error_details;
     cfg_format_exc := env_format_exc env; cfg_own_base := env_own_base env offering;
     cfg_parse_url := env_parse_url env |}.

Record processor : Type := {
  pr_backend : backend_class;
  pr_current_user : string;
  pr_customer_uuid : string;
  pr_service_provider : string;
}.

Definition or_fetch {S A} (given : option A) (fetch : M eventE S A) : M eventE S A :=
  match given with Some a => ret a | None => fetch end.

(** [OfferingBaseProcessor.__init__]: whatever of its context is not given is fetched. *)
Definition new_processor {S} (offering : Offering) (key : backend_key)
    (resource_backend : option backend_class) (known : option processor) : M eventE S processor :=
  let! b := or_fetch resource_backend (get_backend_for_offering offering key) in
  if String.eqb (bc_backend_type b) "unknown"
  then raise (BackendError ("Unable to create backend for " +:+ off_name offering))
  else
    let! user := or_fetch (pr_current_user <$> known) (call CurrentUser) in
    let! customer := or_fetch (pr_customer_uuid <$> known) (call (OfferingRetrieve (off_uuid offering))) in
    let! provider := or_fetch (pr_service_provider <$> known) (
      let! providers := call (ServiceProvidersList customer) in
      match providers with
      | [] => raise (ConfigurationError ("No service provider of offering " +:+ off_name offering))
      | p :: _ => ret p
      end) in
    ret {| pr_backend := b; pr_current_user := user; pr_customer_uuid := customer;
           pr_service_provider := provider |}.

(** [OfferingBaseProcessor.register] *)
Definition register {S} (p : processor) (processor_name : string) (service : option AgentService)
  : M eventE S unit :=
  match service with
  | None => ret ()
  | Some service =>
      let! _ := attempt (run_sub (register_processor service processor_name
        (bc_module (pr_backend p) +:+ "." +:+ bc_name (pr_backend p)) (bc_version (pr_backend p)))) in
      ret ()
  end.

Definition register_event_process_service {S} (offering : Offering)
    (observable_object : ObservableObjectType.t) : M eventE S (option AgentService) :=
  let! o := attempt (run_sub (get_identity ("agent-" +:+ off_uuid offering))) in
  match o with
  | Err _ => ret None
  | Ok identity =>
      let! o := attempt (run_sub (register_service identity
        ("event_process-" +:+ env_object_type_name env observable_object) "event_process")) in
      match o with Ok service => ret (Some service) | Err _ => ret None end
  end.

(** The set-up most handlers share: the backend is injected, then the processor registers. *)
Definition injected_processor {S} (offering : Offering) (key : backend_key) (name : string)
    (service : option AgentService) : M eventE S processor :=
  let! b := get_backend_for_offering offering key in
  let! p := new_processor offering key (Some b) None in
  register p name service ;!
  ret p.

Definition own_processor {S} (offering : Offering) (key : backend_key) (name : string)
    (service : option AgentService) : M eventE S processor :=
  let! p := new_processor offering key None None in
  register p name service ;!
  ret p.

(** A handler logs what its body raises. *)
Definition logged {S} (m : M eventE S unit) : M eventE S unit := let! _ := attempt m in ret ().

(** ** Orders *)

(** States whose events say nothing an agent acts on. *)
Definition SKIPPED_ORDER_STATES : list OrderState.t :=
  [OrderState.DONE; OrderState.ERRED; OrderState.PENDING_CONSUMER; OrderState.CANCELED;
   OrderState.REJECTED; OrderState.PENDING_PROJECT; OrderState.PENDING_START_DATE].

Definition skipped_state (v : json) : bool :=
  existsb (λ st, json_is v (env_order_state env st)) SKIPPED_ORDER_STATES.

(** The order as Waldur has it now, processed with retries. *)
Definition fetch_and_process_order (offering : Offering) (order_uuid : string) (p : processor)
  : proc unit :=
  let! order := get_order_info order_uuid in
  match order with
  | None => ret ()
  | Some order => process_order_with_retries (config_of offering (pr_backend p)) order 10 5
  end.

Definition process_order_message (offering : Offering) (order_uuid : string) : handler unit :=
  get_client_for_offering offering ;!
  let! service := register_event_process_service offering ObservableObjectType.ORDER in
  let! p := injected_processor offering order_processing_backend "OfferingOrderProcessor" service in
  on_processor (fetch_and_process_order offering order_uuid p).

Definition on_order_message_stomp (frame : Frame) (offering : Offering) : handler unit :=
  let! message := of_res (frame_body frame) in
  let! order_uuid := of_res (msg_item message "order_uuid") in
  let! order_state := of_res (msg_get message "order_state" (JStr "")) in
  if skipped_state order_state then ret ()
  else logged (process_order_message offering (text order_uuid)).

(** ** Memberships *)

Definition process_user_role_message (offering : Offering) (message : json)
    (user_uuid user_username granted project_uuid : json) : handler unit :=
  get_client_for_offering offering ;!
  let! service := register_event_process_service offering ObservableObjectType.USER_ROLE in
  let! p := injected_processor offering membership_sync_backend "OfferingMembershipProcessor" service in
  let cfg := config_of offering (pr_backend p) in
  if truthy user_uuid then
    if negb (truthy user_username) then ret ()
    else match granted with
    | JNull => ret ()
    | _ =>
        let! role_name := of_res (msg_get message "role_name" (JStr "")) in
        on_processor (process_user_role_changed cfg (text user_uuid) (text project_uuid)
                        (truthy granted) (text role_name))
    end
  else
    let! resource_uuid := of_res (msg_get message "resource_uuid" JNull) in
    if truthy resource_uuid
    then on_processor (process_resource_user_sync cfg (text resource_uuid))
    else on_processor (process_project_user_sync cfg (text project_uuid)).

Definition on_user_role_message_stomp (frame : Frame) (offering : Offering) : handler unit :=
  let! message := of_res (frame_body frame) in
  let! user_uuid := of_res (msg_get message "user_uuid" JNull) in
  let! user_username := of_res (msg_get message "user_username" JNull) in
  let! granted := of_res (msg_get message "granted" JNull) in
  let! _ := of_res (msg_item message "project_name") in
  let! project_uuid := of_res (msg_item message "project_uuid") in
  logged (process_user_role_message offering message user_uuid user_username granted project_uuid).

Definition on_resource_message_stomp (frame : Frame) (offering : Offering) : handler unit :=
  let! message := of_res (frame_body frame) in
  let! resource_uuid := of_res (msg_item message "resource_uuid") in
  logged (
    get_client_for_offering offering ;!
    let! service := register_event_process_service offering ObservableObjectType.RESOURCE in
    let! p := own_processor offering membership_sync_backend "OfferingMembershipProcessor" service in
    on_processor (process_resource_by_uuid (config_of offering (pr_backend p)) (text resource_uuid))).

(** The account type of a message, and the object type it is registered under. *)
Definition process_account_message (message : json) (offering : Offering)
    (account_type : AccountType) (observable_object : ObservableObjectType.t) : handler unit :=
  let! account_username := of_res (msg_item message "account_username") in
  let! _ := of_res (msg_item message "account_uuid") in
  let! project_uuid := of_res (msg_item message "project_uuid") in
  let! action := of_res (msg_get message "action" (JStr "create")) in
  logged (
    get_client_for_offering offering ;!
    let! service := register_event_process_service offering observable_object in
    let! p := own_processor offering membership_sync_backend "OfferingMembershipProcessor" service in
    let cfg := config_of offering (pr_backend p) in
    if json_is action "create"
    then on_processor (process_account_creation cfg (text account_username) account_type)
    else if json_is action "delete"
    then on_processor (process_account_removal cfg (text account_username) (text project_uuid))
    else ret ()).

(** [f"{parts[-2]}_{parts[-1]}"] of the legacy queue name. *)
Definition account_type_of_queue (queue : string) : res string :=
  match rev (split_on "_" queue) with
  | last :: previous :: _ => Ok (previous +:+ "_" +:+ last)
  | _ => Err (IndexError "list index out of range")
  end.

Definition account_type_raw (message : json) (frame : Frame) : res json :=
  match msg_get message "object_type" JNull with
  | Err e => Err e
  | Ok JNull =>
      match frame_headers frame !! "destination" with
      | None => Err (KeyError "destination")
      | Some queue => match account_type_of_queue queue with
                      | Ok s => Ok (JStr s) | Err e => Err e end
      end
  | Ok v => Ok v
  end.

Definition on_account_message_stomp (frame : Frame) (offering : Offering) : handler unit :=
  let! message := of_res (frame_body frame) in
  let! raw := of_res (account_type_raw message frame) in
  if json_is raw "course_account"
  then process_account_message message offering COURSE_ACCOUNT ObservableObjectType.COURSE_ACCOUNT
  else process_account_message message offering SERVICE_ACCOUNT ObservableObjectType.SERVICE_ACCOUNT.

(** ** Forced synchronisation and imports *)

(** The processor, once built, is reused even when its pass fails. *)
Definition forced_membership_sync (offering : Offering) : handler (option processor) :=
  let! service := attempt (register_event_process_service offering
                             ObservableObjectType.OFFERING_RESOURCES_SYNC) in
  match service with
  | Err _ => ret None
  | Ok service =>
      let! p := attempt (
        let! b := get_backend_for_offering offering membership_sync_backend in
        new_processor offering membership_sync_backend (Some b) None) in
      match p with
      | Err _ => ret None
      | Ok p =>
          logged (
            register p "OfferingMembershipProcessor" service ;!
            on_processor (process_offering_membership (config_of offering (pr_backend p)) true)) ;!
          ret (Some p)
      end
  end.

Definition forced_order_sync (offering : Offering) (known : option processor) : handler unit :=
  logged (
    let! p := new_processor offering order_processing_backend None known in
    on_processor (process_offering_orders (config_of offering (pr_backend p)))).

Definition on_offering_resources_sync_message_stomp (frame : Frame) (offering : Offering)
  : handler unit :=
  let! message := of_res (frame_body frame) in
  let! _ := of_res (msg_get message "requested_by_user_uuid" JNull) in
  let! client := attempt (get_client_for_offering offering) in
  match client with
  | Err _ => ret ()
  | Ok _ =>
      let! known := if configured (off_membership_sync_backend offering)
                    then forced_membership_sync offering else ret None in
      if configured (off_order_processing_backend offering)
      then forced_order_sync offering known else ret ()
  end.

Definition on_importable_resources_message_stomp (frame : Frame) (offering : Offering)
  : handler unit :=
  let! message := of_res (frame_body frame) in
  let! request_uuid := of_res (msg_item message "backend_resource_request_uuid") in
  logged (
    get_client_for_offering offering ;!
    let! service := register_event_process_service offering
                      ObservableObjectType.IMPORTABLE_RESOURCES in
    let! p := injected_processor offering order_processing_backend
                "OfferingImportableResourcesProcessor" service in
    inside (@Import) (process_request
      (json_get (off_backend_settings offering) "project_prefix" (JStr ""))
      expose_backend_error_details (env_format_exc env) (text request_uuid))).

(** ** Periodic limits *)

(** The result dict that every failure before the backend's answer is turned into. *)
Definition failure_result (error : string) : json :=
  JObj [("success", JBool false); ("error", JStr error); ("commands_executed", JArr [])].

Definition report_command_result (offering : Offering) (message result : json) : handler unit :=
  logged (
    get_client_for_offering offering ;!
    let! resource_uuid := of_res (msg_get message "resource_uuid" (JStr "")) in
    let! policy_uuid := of_res (msg_get message "policy_uuid" (JStr "")) in
    if negb (truthy policy_uuid) then ret ()
    else
      let! resource := of_res (UUID resource_uuid) in
      let! success := of_res (msg_get result "success" (JBool false)) in
      let! error := of_res (msg_get result "error" (JStr "")) in
      let! commands := of_res (msg_get result "commands_executed" (JArr [])) in
      let! policy := of_res (UUID policy_uuid) in
      call (ReportCommandResult policy resource success error commands)).

(** [backend.apply_periodic_settings]: the base class answers with a failure. *)
Definition apply_periodic_settings (b : backend_class) (backend_id : string) (settings : json)
  : handler json :=
  if bc_applies_periodic_settings b then call (ApplyPeriodicSettings backend_id settings)
  else ret (failure_result ("Backend " +:+ bc_name b +:+ " does not support periodic settings")).

Definition periodic_settings_result (offering : Offering) (backend_id : string) (settings : json)
  : handler json :=
  let! o := attempt (
    let! b := get_backend_for_offering offering order_processing_backend in
    apply_periodic_settings b backend_id settings) in
  ret match o with
      | Err e => failure_result (exn_str e)
      | Ok (JObj d) => JObj d
      | Ok v => failure_result ("apply_periodic_settings returned " +:+ type_name v +:+
                                ", expected dict")
      end.

Definition INVALID_PERIODIC_LIMITS : json :=
  JObj [("success", JBool false);
        ("error", JStr "Invalid periodic limits message: missing backend_id or invalid action")].

Definition on_resource_periodic_limits_update_stomp (frame : Frame) (offering : Offering)
  : handler unit :=
  logged (
    let! message := of_res (frame_body frame) in
    let! backend_id := of_res (msg_get message "backend_id" JNull) in
    let! action := of_res (msg_get message "action" JNull) in
    let! settings := of_res (msg_get message "settings" (JObj [])) in
    if negb (truthy backend_id) || negb (json_is action "apply_periodic_settings")
    then report_command_result offering message INVALID_PERIODIC_LIMITS
    else
      let! result := periodic_settings_result offering (text backend_id) settings in
      report_command_result offering message result).

(** ** API keys *)

Definition as_dict (message : json) : res (list (string * json)) :=
  match message with JObj d => Ok d | _ => Err (type_error "object is not a mapping") end.

Definition on_resource_api_key_command_stomp (frame : Frame) (offering : Offering) : handler unit :=
  logged (
    let! message := of_res (frame_body frame) in
    let! d := of_res (as_dict message) in
    let! command := of_res (from_message text d) in
    if negb (nonempty (cmd_resource_uuid command)) || negb (nonempty (cmd_resource_backend_id command))
    then ret ()
    else
      let! b := get_backend_for_offering offering order_processing_backend in
      if negb (supports_resource_api_keys (bc_capabilities b)) then ret ()
      else
        get_client_for_offering offering ;!
        run_agent (execute_api_key_command (config_of offering b) command)).

(** ** Offering users *)

(** The resource backend whose resources are pulled strictly before any deletion. *)
Definition deletion_report (offering : Offering) : handler resource_report :=
  let! b := get_backend_for_offering offering membership_sync_backend in
  let! resources := run_agent (fetch_offering_resources (config_of offering b) None) in
  let! report := run_agent (backend (PullResources resources false true)) in
  ret (report.*2).

Definition process_offering_user_deletions (offering : Offering) (users : list OfferingUser)
  : handler unit :=
  match users with
  | [] => ret ()
  | _ =>
      let! report := if configured (off_membership_sync_backend offering)
                     then attempt (deletion_report offering) else ret (Ok []) in
      match report with
      | Err _ => ret ()
      | Ok report =>
          let! releases := run_agent (get_release_capable_username_backend
                                        (config_of offering UnknownBackend)) in
          for_each users (λ u, run_agent (teardown_offering_user u releases report) ;! ret ())
      end
  end.

Definition departed (u : OfferingUser) : bool :=
  bool_decide (ou_state u ∈ DEPARTED_OFFERING_USER_STATES).

(** [type(backend).sync_user_profiles] is overridden. *)
Definition username_backend_syncs (offering : Offering) : handler bool :=
  let! o := attempt (call (Sub (GetUsernameBackend (off_uuid offering)))) in
  ret match o with Ok hooks => overrides_sync_user_profiles hooks | Err _ => false end.

Definition reconcile_offering_user (offering : Offering) (offering_user_uuid : json)
  : handler unit :=
  if negb (truthy offering_user_uuid) then ret ()
  else
    let! syncs := username_backend_syncs offering in
    if negb syncs then ret ()
    else logged (
      let! u := call (OfferingUserRetrieve (text offering_user_uuid)) in
      match u with
      | None => ret ()
      | Some u =>
          if departed u then process_offering_user_deletions offering [u]
          else run_agent (username (SyncUserProfiles [u]))
      end).

Definition process_offering_user_deletion_event (offering : Offering) (offering_user_uuid : json)
  : handler unit :=
  if negb (truthy offering_user_uuid) then ret ()
  else logged (
    let! u := call (OfferingUserRetrieve (text offering_user_uuid)) in
    match u with
    | None => ret ()
    | Some u => if negb (departed u) then ret () else process_offering_user_deletions offering [u]
    end).

Definition forward_user_attributes_to_backend (offering : Offering) (username attributes : json)
  : handler unit :=
  if negb (configured (off_membership_sync_backend offering)) then ret ()
  else if negb (truthy attributes) then ret ()
  else logged (
    let! _ := get_backend_for_offering offering membership_sync_backend in
    call (UpdateUserAttributes (text username) attributes) ;!
    of_res (sized attributes)).

Definition resolve_user_cuid (offering : Offering) (user_uuid : json) : handler (option string) :=
  if negb (truthy user_uuid) then ret None
  else
    let! o := attempt (run_agent (waldur (OfferingUsersOfUser (text user_uuid)
                                            (Some (off_uuid offering))))) in
    ret match o with
        | Ok (u :: _) => field_str (ou_user_username u)
        | _ => None
        end.

Definition add_user_to_resources (offering : Offering) (username resource_backend_ids : json)
    (cuid : option string) : handler unit :=
  if negb (configured (off_membership_sync_backend offering)) then ret ()
  else if negb (truthy resource_backend_ids) then ret ()
  else logged (
    let! _ := get_backend_for_offering offering membership_sync_backend in
    let! resources := run_agent (waldur (ResourcesList [ResourceState.OK; ResourceState.ERRED] None)) in
    let! ids := of_res (string_set resource_backend_ids) in
    for_each resources (λ r,
      if negb (bool_decide (res_backend_id r ∈ ids)) then ret ()
      else if res_restrict_member_access r then ret ()
      else logged (run_agent (backend (AddUser r (text username) "" cuid)) ;! ret ()))).

Definition DEPARTED_STATE_NAMES : list string :=
  map (env_offering_user_state env) DEPARTED_OFFERING_USER_STATES.

(** [state in _DEPARTED_STATE_NAMES], a frozenset. *)
Definition departed_name (state : json) : res bool :=
  if negb (hashable state) then Err (type_error "unhashable type")
  else Ok (existsb (json_is state) DEPARTED_STATE_NAMES).

Definition username_set (offering : Offering) (message offering_user_uuid username : json)
  : handler unit :=
  let! ids := of_res (msg_get message "resource_backend_ids" (JArr [])) in
  of_res (sized ids) ;!
  let! user_uuid := of_res (msg_get message "user_uuid" (JStr "")) in
  let! cuid := resolve_user_cuid offering user_uuid in
  add_user_to_resources offering username ids cuid ;!
  reconcile_offering_user offering offering_user_uuid.

Definition offering_user_action (offering : Offering)
    (message action offering_user_uuid username : json) : handler unit :=
  if json_is action "attribute_update" then
    let! attributes := of_res (msg_get message "attributes" (JObj [])) in
    forward_user_attributes_to_backend offering username attributes
  else if json_is action "create" then
    let! attributes := of_res (msg_get message "attributes" (JObj [])) in
    of_res (sized attributes) ;!
    forward_user_attributes_to_backend offering username attributes ;!
    reconcile_offering_user offering offering_user_uuid
  else if json_is action "update" then
    let! state := of_res (msg_get message "state" JNull) in
    let! leaving := of_res (departed_name state) in
    if leaving : bool then process_offering_user_deletion_event offering offering_user_uuid
    else reconcile_offering_user offering offering_user_uuid
  else if json_is action "username_set" then
    username_set offering message offering_user_uuid username
  else ret ().

Definition process_offering_user_message (message : json) (offering : Offering) : handler unit :=
  let! action := of_res (msg_get message "action" (JStr "")) in
  let! offering_user_uuid := of_res (msg_get message "offering_user_uuid" (JStr "")) in
  let! username := of_res (msg_get message "username" (JStr "")) in
  logged (
    get_client_for_offering offering ;!
    register_event_process_service offering ObservableObjectType.OFFERING_USER ;!
    offering_user_action offering message action offering_user_uuid username).

Definition on_offering_user_message_stomp (frame : Frame) (offering : Offering) : handler unit :=
  let! message := of_res (frame_body frame) in
  process_offering_user_message message offering.

(** ** Project groups *)

(** The first event starts a timer; the ones before it fires ride along. *)
Definition schedule_project_group_reconcile (offering : Offering) : handler bool :=
  let! pending := get_st in
  if decide (off_uuid offering ∈ pending) then ret false
  else
    put_st ({[off_uuid offering]} ∪ pending) ;!
    call (StartTimer (off_uuid offering)) ;!
    ret true.

Definition on_project_group_message_stomp (frame : Frame) (offering : Offering) : handler unit :=
  let! message := of_res (frame_body frame) in
  let! _ := of_res (msg_get message "action" JNull) in
  let! _ := schedule_project_group_reconcile offering in
  ret ().

Definition project_group_pass (offering : Offering) : handler unit :=
  logged (
    get_client_for_offering offering ;!
    register_event_process_service offering ObservableObjectType.SERVICE_PROVIDER_PROJECT_GROUP ;!
    let! _ := call (Sub (GetUsernameBackend (off_uuid offering))) in
    let! reconciles := call (Sub (ReconcilesProjectGroups (off_uuid offering))) in
    if negb reconciles then ret () else call (ReconcileProjectGroups (off_uuid offering))).

(** [on_timer]: it is the pending timer that runs the pass. *)
Definition clear_group_marker (offering : Offering) (on_timer : bool) : handler unit :=
  let! pending := get_st in
  put_st (pending ∖ {[off_uuid offering]}) ;!
  if bool_decide (off_uuid offering ∈ pending) && negb on_timer
  then call (CancelTimer (off_uuid offering)) else ret ().

Definition run_project_group_reconcile (offering : Offering) (on_timer : bool) : handler unit :=
  clear_group_marker offering on_timer ;!
  project_group_pass offering.

(** ** The router *)

Definition OBJECT_TYPE_TO_HANDLER_STOMP (t : ObservableObjectType.t)
  : Frame → Offering → handler unit :=
  match t with
  | ObservableObjectType.ORDER => on_order_message_stomp
  | ObservableObjectType.USER_ROLE => on_user_role_message_stomp
  | ObservableObjectType.RESOURCE => on_resource_message_stomp
  | ObservableObjectType.IMPORTABLE_RESOURCES => on_importable_resources_message_stomp
  | ObservableObjectType.SERVICE_ACCOUNT => on_account_message_stomp
  | ObservableObjectType.COURSE_ACCOUNT => on_account_message_stomp
  | ObservableObjectType.RESOURCE_PERIODIC_LIMITS => on_resource_periodic_limits_update_stomp
  | ObservableObjectType.OFFERING_USER => on_offering_user_message_stomp
  | ObservableObjectType.OFFERING_RESOURCES_SYNC => on_offering_resources_sync_message_stomp
  | ObservableObjectType.RESOURCE_API_KEY_ROTATION => on_resource_api_key_command_stomp
  | ObservableObjectType.SERVICE_PROVIDER_PROJECT_GROUP => on_project_group_message_stomp
  end.

Definition object_type_of (raw : json) : option ObservableObjectType.t :=
  match raw with JStr s => env_object_type env s | _ => None end.

Definition route_message (frame : Frame) (offering : Offering) : handler unit :=
  match frame_body frame with
  | Err (ValueError _ | TypeError _) => ret ()
  | Err e => raise e
  | Ok payload =>
      let! raw := of_res (msg_get payload "object_type" JNull) in
      match object_type_of raw with
      | None => ret ()
      | Some t => OBJECT_TYPE_TO_HANDLER_STOMP t frame offering
      end
  end.
End Handlers.

(** ** What gets out of a handler *)

(** The keys a handler reads before it starts to catch. *)
Definition required_keys (t : ObservableObjectType.t) : list string :=
  match t with
  | ObservableObjectType.ORDER => ["order_uuid"]
  | ObservableObjectType.USER_ROLE => ["project_name"; "project_uuid"]
  | ObservableObjectType.RESOURCE => ["resource_uuid"]
  | ObservableObjectType.IMPORTABLE_RESOURCES => ["backend_resource_request_uuid"]
  | ObservableObjectType.SERVICE_ACCOUNT | ObservableObjectType.COURSE_ACCOUNT =>
      ["account_username"; "account_uuid"; "project_uuid"]
  | _ => []
  end.

Definition lacks (keys : list string) (payload : json) : Prop :=
  match payload with
  | JObj d => ∃ k, k ∈ keys ∧ obj_get d k = None
  | _ => True
  end.

(** A body that is neither dropped as no JSON nor a message of its type. *)
Definition malformed (env : environment) (frame : Frame) : Prop :=
  match frame_body frame with
  | Err (ValueError _ | TypeError _) => False
  | Err _ => True
  | Ok (JObj d) =>
      ∃ t, object_type_of env (from_option id JNull (obj_get d "object_type")) = Some t ∧
        lacks (required_keys t) (JObj d)
  | Ok _ => True
  end.

Section Containment.
Context (env : environment) (expose : bool).

Lemma wpM_logged {E : Type → Type} {S} (m : M E S unit) (Q : res unit → S → trace E → Prop) s H :
  (∀ s' H', Q (Ok ()) s' H') →
  wpM (λ _ _ _, True) (let! _ := attempt m in ret ()) Q s H.
Proof.
  intros HQ. apply wpM_bind, wpM_attempt. eapply wpM_mono; [apply wpM_true|].
  intros r s' H' _. by apply wpM_ret.
Qed.

(** The outcomes of a handler: done, or a key that is missing before any call. *)
Definition contained {S} (keys : list string) (payload : json) (r : res unit) (s : S)
    (H : trace eventE) : Prop :=
  r = Ok () ∨ (H = [] ∧ lacks keys payload).

Lemma contained_item {S A} keys payload key (f : json → M eventE S A) Q (s : S) :
  key ∈ keys →
  (∀ v, wpM (λ _ _ _, True) (f v) Q s []) →
  (∀ e, lacks keys payload → Q (Err e) s []) →
  wpM (λ _ _ _, True) (let! v := of_res (msg_item payload key) in f v) Q s [].
Proof.
  intros Hk Hf He. apply wpM_bind, wpM_of_res. destruct payload as [| | | | | |d]; try by apply He.
  simpl. destruct (obj_get d key) eqn:Hd; [by apply Hf|]. apply He. by exists key.
Qed.

Lemma contained_get {S A} keys payload key v0 (f : json → M eventE S A) Q (s : S) :
  (∀ v, wpM (λ _ _ _, True) (f v) Q s []) →
  (∀ e, lacks keys payload → Q (Err e) s []) →
  wpM (λ _ _ _, True) (let! v := of_res (msg_get payload key v0) in f v) Q s [].
Proof.
  intros Hf He. apply wpM_bind, wpM_of_res. destruct payload as [| | | | | |d]; try by apply He.
  apply Hf.
Qed.

Ltac contained_step :=
  match goal with
  | |- wpM _ (bind (of_res (msg_item _ _)) _) _ _ _ =>
      lazymatch goal with |- wpM _ _ (contained ?keys _) _ _ =>
        apply (contained_item keys); [set_solver| |by intros; right]; intros ? end
  | |- wpM _ (bind (of_res (msg_get _ _ _)) _) _ _ _ =>
      lazymatch goal with |- wpM _ _ (contained ?keys _) _ _ =>
        apply (contained_get keys); [|by intros; right]; intros ? end
  | |- wpM _ (logged _) _ _ _ => apply wpM_logged; by left
  | |- wpM _ (if ?b then _ else _) _ _ _ => destruct b
  | |- wpM _ (ret _) _ _ _ => apply wpM_ret; by left
  end.

Lemma process_account_message_contained payload offering ty obs (s : gset string) :
  wpM (λ _ _ _, True) (process_account_message env expose payload offering ty obs)
    (contained ["account_username"; "account_uuid"; "project_uuid"] payload) s [].
Proof. unfold process_account_message. repeat contained_step. Qed.

Lemma process_offering_user_message_contained payload offering (s : gset string) :
  wpM (λ _ _ _, True) (process_offering_user_message env expose payload offering)
    (contained [] payload) s [].
Proof. unfold process_offering_user_message. repeat contained_step. Qed.

Lemma forced_membership_total offering (s : gset string) H :
  wpM (λ _ _ _, True) (forced_membership_sync env expose offering) (λ r _ _, ∃ p, r = Ok p) s H.
Proof.
  unfold forced_membership_sync.
  apply wpM_bind, wpM_attempt. eapply wpM_mono; [apply wpM_true|]. intros [sv|e] s2 H2 _; [|wp_step; eauto].
  apply wpM_bind, wpM_attempt. eapply wpM_mono; [apply wpM_true|]. intros [p|e] s3 H3 _; [|wp_step; eauto].
  apply wpM_bind, wpM_logged. intros s4 H4. wp_step. eauto.
Qed.

Lemma forced_sync_contained frame payload offering (s : gset string) :
  frame_body frame = Ok payload →
  wpM (λ _ _ _, True) (on_offering_resources_sync_message_stomp env expose frame offering)
    (contained [] payload) s [].
Proof.
  intros Hb. unfold on_offering_resources_sync_message_stomp.
  rewrite Hb. apply wpM_bind, wpM_of_res. contained_step.
  apply wpM_bind, wpM_attempt. eapply wpM_mono; [apply wpM_true|]. intros [[]|e] s1 H1 _; [|by wp_step; left].
  apply wpM_bind.
  assert (Hk : wpM (λ _ _ _, True) (if configured (off_membership_sync_backend offering)
      then forced_membership_sync env expose offering else ret None) (λ r _ _, ∃ p, r = Ok p) s1 H1).
  { destruct (configured _); [apply forced_membership_total|wp_step; eauto]. }
  eapply wpM_mono; [exact Hk|]. intros r s2 H2 [p ->].
  destruct (configured (off_order_processing_backend offering)); [|wp_step; by left].
  apply wpM_logged. by left.
Qed.

Lemma handlers_contained t frame payload offering (s : gset string) :
  frame_body frame = Ok payload →
  t ≠ ObservableObjectType.SERVICE_PROVIDER_PROJECT_GROUP →
  object_type_of env (from_option id JNull (match payload with JObj d => obj_get d "object_type"
                                            | _ => None end)) = Some t →
  wpM (λ _ _ _, True) (OBJECT_TYPE_TO_HANDLER_STOMP env expose t frame offering)
    (contained (required_keys t) payload) s [].
Proof.
  intros Hb Hg Ht.
  assert (Haccount : wpM (λ _ _ _, True) (on_account_message_stomp env expose frame offering)
      (contained ["account_username"; "account_uuid"; "project_uuid"] payload) s []).
  { unfold on_account_message_stomp. rewrite Hb. apply wpM_bind, wpM_of_res, wpM_bind, wpM_of_res.
    unfold account_type_raw, msg_get. destruct payload as [| | | | | |d]; try by right.
    destruct (obj_get d "object_type") as [[| | | |ty| |]|]; try done.
    simpl. destruct (String.eqb ty _); apply process_account_message_contained. }
  destruct t; try done; cbn [OBJECT_TYPE_TO_HANDLER_STOMP required_keys];
    try by apply forced_sync_contained.
  - unfold on_order_message_stomp. rewrite Hb. apply wpM_bind, wpM_of_res. repeat contained_step.
  - unfold on_user_role_message_stomp. rewrite Hb. apply wpM_bind, wpM_of_res. repeat contained_step.
  - unfold on_resource_message_stomp. rewrite Hb. apply wpM_bind, wpM_of_res. repeat contained_step.
  - unfold on_importable_resources_message_stomp. rewrite Hb. apply wpM_bind, wpM_of_res.
    repeat contained_step.
  - apply wpM_logged. by left.
  - unfold on_offering_user_message_stomp. rewrite Hb. apply wpM_bind, wpM_of_res.
    apply process_offering_user_message_contained.
  - apply wpM_logged. by left.
Qed.

Lemma project_group_message_contained frame payload offering (s : gset string) :
  frame_body frame = Ok payload →
  wpM (λ _ _ _, True) (on_project_group_message_stomp frame offering) (λ r _ H,
    contained [] payload r s H ∨
    ∃ e, r = Err e ∧ H = [Ev (StartTimer (off_uuid offering)) (Err e)]) s [].
Proof.
  intros Hb. unfold on_project_group_message_stomp. rewrite Hb. apply wpM_bind, wpM_of_res.
  apply (contained_get []); [|by intros; left; right]. intros _.
  apply wpM_bind. unfold schedule_project_group_reconcile. apply wpM_bind, wpM_get.
  destruct (decide (off_uuid offering ∈ s)); [wp_step; wp_step; by left; left|].
  apply wpM_bind, wpM_put, wpM_bind, wpM_call; [done|].
  intros [[]|e]; [do 2 wp_step; by left; left|]. right. eauto.
Qed.

(** An exception gets out of the router, and costs the message, only before any call
    was made: when the body is no JSON object, or lacks a key its type requires.  Every
    other message, whatever fails while it is handled, is handled to its end, except that
    the timer of a project-group pass may not start.  A body that is no JSON, and one of
    an unknown type, are dropped. *)
Theorem router_contains_failures frame offering (s : gset string) τ s' r :
  runs (route_message env expose frame offering s) τ (s', r) →
  (r = Ok () ∨ (τ = [] ∧ malformed env frame) ∨
   ∃ e, r = Err e ∧ τ = [Ev (StartTimer (off_uuid offering)) (Err e)]) ∧
  (match frame_body frame with
   | Err (ValueError _ | TypeError _) => True
   | Ok (JObj d) => object_type_of env (from_option id JNull (obj_get d "object_type")) = None
   | _ => False
   end → τ = [] ∧ r = Ok ()).
Proof.
  intros Hr. split.
  2:{ unfold route_message in Hr. destruct (frame_body frame) as [[| | | | | |d]|[]]; try done;
        intros Ht; try by destruct Hr as [-> [= <- <-]].
      cbn in Hr. rewrite Ht in Hr. by destruct Hr as [-> [= <- <-]]. }
  assert (Hw : wpM (λ _ _ _, True) (route_message env expose frame offering) (λ r _ H,
    r = Ok () ∨ (H = [] ∧ malformed env frame) ∨
    ∃ e, r = Err e ∧ H = [Ev (StartTimer (off_uuid offering)) (Err e)]) s []).
  2:{ destruct (wpM_sound _ _ _ _ _ _ _ Hw Hr) as [[?|[[Hn ?]|(e & ? & Hn)]] _]; [by left|right; left|right; right].
      - split; [|done]. by apply (f_equal (@rev _)) in Hn; rewrite rev_involutive in Hn.
      - exists e. split; [done|]. by apply (f_equal (@rev _)) in Hn; rewrite rev_involutive in Hn. }
  unfold route_message, malformed. destruct (frame_body frame) as [payload|e] eqn:Hb.
  2:{ destruct e; wp_step; solve [by left|by right; left]. }
  apply wpM_bind, wpM_of_res. destruct payload as [| | | | | |d]; try by right; left.
  simpl. destruct (object_type_of env _) as [t|] eqn:Ht; [|wp_step; by left].
  destruct (decide (t = ObservableObjectType.SERVICE_PROVIDER_PROJECT_GROUP)) as [->|Hg].
  - eapply wpM_mono; [by apply project_group_message_contained|].
    intros r1 s1 H1 [[?|[? ?]]|?]; [by left|right; left|by right; right].
    split; [done|]. exists ObservableObjectType.SERVICE_PROVIDER_PROJECT_GROUP. done.
  - eapply wpM_mono; [by eapply handlers_contained|].
    intros r1 s1 H1 [?|[? ?]]; [by left|right; left]. split; [done|]. by exists t.
Qed.
End Containment.

(** ** Orders *)

(** The calls by which a handler sets up its client, its backend and its processor. *)
Definition setup_call (X : Type) (c : eventE X) : bool :=
  match c with
  | Sub _ | NewBackend _ _ | CurrentUser | OfferingRetrieve _ | ServiceProvidersList _ => true
  | _ => false
  end.

Lemma bind_ok {E : Type → Type} {S A B} (a : A) (f : A → M E S B) : bind (of_res (Ok a)) f = f a.
Proof. done. Qed.

Section Setup.
Context (env : environment) (expose : bool).

Lemma run_sub_setup {S A} (m : M subE S A) : calls setup_call (run_sub m).
Proof. by apply calls_inside. Qed.
Lemma get_backend_setup {S} offering key : calls (S:=S) setup_call (get_backend_for_offering env offering key).
Proof. unfold get_backend_for_offering. calls_auto. Qed.
Hint Resolve run_sub_setup get_backend_setup : calls.
Lemma register_setup {S} p name service : calls (S:=S) setup_call (register p name service).
Proof. unfold register. calls_auto. Qed.
Lemma register_service_setup {S} offering t :
  calls (S:=S) setup_call (register_event_process_service env offering t).
Proof. unfold register_event_process_service. calls_auto. Qed.
Lemma new_processor_setup {S} offering key b known :
  calls (S:=S) setup_call (new_processor env offering key b known).
Proof. unfold new_processor, or_fetch. destruct b, known; simpl; calls_auto. Qed.
Hint Resolve register_setup register_service_setup new_processor_setup : calls.
Lemma injected_processor_setup {S} offering key name service :
  calls (S:=S) setup_call (injected_processor env offering key name service).
Proof. unfold injected_processor. calls_auto. Qed.
Lemma own_processor_setup {S} offering key name service :
  calls (S:=S) setup_call (own_processor env offering key name service).
Proof. unfold own_processor. calls_auto. Qed.
Lemma get_client_setup {S} offering : calls (S:=S) setup_call (get_client_for_offering offering).
Proof. by apply calls_call. Qed.

Lemma runs_on_processor {S A} (m : proc A) (s s' : S) τ r :
  runs (on_processor m s) τ (s', r) →
  s' = s ∧ ∃ τ1 ps, τ = map (lift_event (@Agent)) τ1 ∧ runs (m initial_state) τ1 (ps, r).
Proof.
  intros [(τ1 & s1 & [o ps] & τ2 & -> & H1 & H2)|(e & -> & H1)]%runs_bind_inv.
  - apply runs_pbind in H1 as (τ3 & [ps' o'] & τ4 & -> & H3 & [-> [= <- -> ->]]).
    apply runs_lift in H3 as (τ5 & -> & H3).
    destruct o; destruct H2 as [-> [= <- <-]]; rewrite !app_nil_r; eauto.
  - apply runs_pbind in H1 as (τ3 & [ps' o'] & τ4 & -> & H3 & [_ [=]]).
Qed.

(** A handler that sets up and then runs an operation of the processor did nothing else. *)
Lemma runs_setup_then {S A B} (m : M eventE S A) (f : A → M eventE S B) s τ s' r :
  calls setup_call m → runs (bind m f s) τ (s', r) →
  ∃ τ0 τ1, τ = τ0 ++ τ1 ∧ all_calls setup_call τ0 ∧
    ((∃ a s1, runs (m s) τ0 (s1, Ok a) ∧ runs (f a s1) τ1 (s', r)) ∨
     (τ1 = [] ∧ ∃ e, r = Err e)).
Proof.
  intros Hm [(τ1 & s1 & a & τ2 & -> & H1 & H2)|(e & -> & H1)]%runs_bind_inv.
  - exists τ1, τ2. split; [done|]. split; [by eapply pcalls_runs|]. left. eauto.
  - exists τ, []. rewrite app_nil_r. split; [done|]. split; [by eapply pcalls_runs|]. right. eauto.
Qed.

(** A handler that runs [op] on the processor it set up, and does nothing else. *)
Definition set_up_for (op : processor → proc unit) (τ : trace eventE) : Prop :=
  ∃ τ0 τ1, τ = τ0 ++ map (lift_event (@Agent)) τ1 ∧ all_calls setup_call τ0 ∧
    (τ1 = [] ∨ ∃ p ps r, runs (op p initial_state) τ1 (ps, r)).

Lemma set_up_bind {S A} (m : M eventE S A) (f : A → M eventE S unit) op s τ s' r :
  calls setup_call m →
  (∀ a s1 τ, runs (f a s1) τ (s', r) → set_up_for op τ) →
  runs (bind m f s) τ (s', r) → set_up_for op τ.
Proof.
  intros Hm Hf [(τ1 & s1 & a & τ2 & -> & H1 & H2)|(e & -> & H1)]%runs_bind_inv.
  - apply Hf in H2 as (τ3 & τ4 & -> & Hc & Hr).
    exists (τ1 ++ τ3), τ4. rewrite app_assoc. split; [done|]. split; [|done].
    apply Forall_app. split; [by eapply pcalls_runs|done].
  - exists τ, []. rewrite app_nil_r. split; [done|]. split; [by eapply pcalls_runs|by left].
Qed.

Lemma set_up_processor {S} op p (s : S) τ s' r :
  runs (on_processor (op p) s) τ (s', r) → set_up_for op τ.
Proof.
  intros (-> & τ1 & ps & -> & H)%runs_on_processor.
  exists [], τ1. split; [done|]. split; [constructor|]. right. eauto.
Qed.

Lemma set_up_nothing {S} op (s : S) τ s' r : runs (ret () s) τ (s', r) → set_up_for op τ.
Proof. intros [-> _]. exists [], []. split; [done|]. split; [constructor|by left]. Qed.

Lemma logged_runs {S} (m : M eventE S unit) s τ s' r :
  runs (logged m s) τ (s', r) → r = Ok () ∧ ∃ o, runs (m s) τ (s', o).
Proof.
  intros [(τ1 & s1 & a & τ2 & -> & H1 & [-> [= <- <-]])|(e & -> & H1)]%runs_bind_inv.
  - apply runs_attempt_inv in H1 as (o & _ & H1). rewrite app_nil_r. eauto.
  - apply runs_attempt_inv in H1 as (o & [=] & _).
Qed.
End Setup.

Section Orders.
Context (env : environment) (expose : bool).

(** The backend class the offering names for its orders, if one is installed. *)
Definition order_backend (offering : Offering) (b : backend_class) : Prop :=
  bc_backend_type b ≠ "unknown" ∧
  ∃ t, off_order_processing_backend offering = Some t ∧ BACKENDS env !! t = Some b.

(** Why no processor could be set up: a call its construction needs failed, the
    customer has no service provider, or no usable backend is installed.  A failed
    registration of the agent is no reason. *)
Definition setup_failed (offering : Offering) (τ : trace eventE) : Prop :=
  (∃ e, Ev (Sub (GetClient (off_uuid offering))) (Err e) ∈ τ) ∨
  (∃ t e, off_order_processing_backend offering = Some t ∧
     Ev (NewBackend (off_uuid offering) t) (Err e) ∈ τ) ∨
  (∃ e, Ev CurrentUser (Err e) ∈ τ) ∨
  (∃ e, Ev (OfferingRetrieve (off_uuid offering)) (Err e) ∈ τ) ∨
  (∃ customer a, Ev (ServiceProvidersList customer) a ∈ τ ∧ (a = Ok [] ∨ ∃ e, a = Err e)) ∨
  ¬ (∃ b, order_backend offering b).

Lemma setup_failed_sub offering τ τ' : τ ⊆ τ' → setup_failed offering τ → setup_failed offering τ'.
Proof. unfold setup_failed. intros Hs. naive_solver. Qed.

Lemma register_service_ok offering t (s : gset string) H :
  wpM (λ _ _ _, True) (register_event_process_service env offering t) (λ r _ _, ∃ a, r = Ok a) s H.
Proof.
  unfold register_event_process_service. wp_steps.
  eapply calls_wpM; [apply (run_sub_setup (S:=gset string))|done|]. intros [i|e] s1 K _; wp_steps; [|eauto].
  eapply calls_wpM; [apply (run_sub_setup (S:=gset string))|done|]. intros [i'|e] s2 K' _; wp_steps; eauto.
Qed.

Lemma register_ok p name service (s : gset string) H :
  wpM (λ _ _ _, True) (register p name service) (λ r _ _, r = Ok ()) s H.
Proof.
  unfold register. destruct service; wp_steps; [|done].
  eapply calls_wpM; [apply (run_sub_setup (S:=gset string))|done|]. intros [i|e] s1 K _; by wp_steps.
Qed.

Lemma order_processor_outcome offering name service (s : gset string) :
  wpM (λ _ _ _, True) (injected_processor env offering order_processing_backend name service)
    (λ r _ H, match r with
              | Ok p => order_backend offering (pr_backend p)
              | Err _ => setup_failed offering H
              end) s [].
Proof.
  unfold injected_processor. wp_step.
  eapply (wpM_mono _ _ (λ r _ H, match r with
    | Ok b => bc_backend_type b = "unknown" ∧ ¬ (∃ b', order_backend offering b') ∨
              (bc_backend_type b ≠ "unknown" → order_backend offering b) ∧
              (bc_backend_type b = "unknown" → ¬ (∃ b', order_backend offering b'))
    | Err _ => setup_failed offering H end)).
  { unfold get_backend_for_offering, configured_type. unfold order_backend.
    destruct (off_order_processing_backend offering) as [t|] eqn:Ht;
      [|wp_step; left; split; [done|]; naive_solver].
    destruct (BACKENDS env !! t) as [b|] eqn:Hb; [|wp_step; left; split; [done|]; naive_solver].
    wp_step. wp_call as [[]|e]; [wp_step; right; naive_solver|].
    right; left. exists t, e. split; [done|left]. }
  intros [b|e] s1 H1 Hb; [|done]. wp_step. unfold new_processor, or_fetch. wp_steps.
  destruct (String.eqb_spec (bc_backend_type b) "unknown") as [Hu|Hu].
  { wp_steps. do 5 right. destruct Hb as [[_ ?]|[_ ?]]; auto. }
  destruct Hb as [[? _]|[Hb _]]; [done|]. specialize (Hb Hu). cbn [fmap option_fmap option_map]. wp_steps.
  wp_call as [user|e]; [|right; right; left; eexists; left]. wp_steps.
  wp_call as [customer|e]; [|do 3 right; left; eexists; left]. wp_steps.
  wp_call as [[|provider providers]|e].
  - wp_steps. do 4 right; left. eexists _, _. split; [left|by left].
  - wp_steps. eapply wpM_mono; [apply register_ok|]. intros ? s2 H2 ->. by wp_steps.
  - do 4 right; left. eexists _, _. split; [left|by right; exists e].
Qed.

(** The runs of a handled order message: its set-up and, if that succeeded, its order. *)
Lemma process_order_message_runs offering uuid s τ s' r :
  runs (process_order_message env expose offering uuid s) τ (s', r) →
  ∃ τ0 τ1, τ = τ0 ++ τ1 ∧ all_calls setup_call τ0 ∧
    (τ1 = [] ∧ setup_failed offering τ0 ∨
     ∃ p s1, order_backend offering (pr_backend p) ∧
       runs (on_processor (fetch_and_process_order env expose offering uuid p) s1) τ1 (s', r)).
Proof.
  intros [(τ1 & s1 & a & τ2 & -> & H1 & H2)|(e & -> & H1)]%runs_bind_inv.
  2:{ exists τ, []. rewrite app_nil_r. split; [done|].
      split; [eapply pcalls_runs; [apply (get_client_setup (S:=gset string))|done]|]. left.
      split; [done|]. destruct H1 as (x & ? & -> & -> & Hx). injection Hx as ??; subst x.
      left. exists e. left. }
  assert (Hc1 : all_calls setup_call τ1)
    by (eapply pcalls_runs; [apply (get_client_setup (S:=gset string))|done]).
  apply runs_bind_inv in H2 as [(τ3 & s2 & sv & τ4 & -> & H2 & H3)|(e & -> & H2)].
  2:{ apply (wpM_sound _ _ _ _ _ _ _ (register_service_ok offering _ _ [])) in H2 as [[? [=]] _]. }
  assert (Hc3 : all_calls setup_call τ3)
    by (eapply pcalls_runs; [apply (register_service_setup env (S:=gset string))|done]).
  apply runs_bind_inv in H3 as [(τ5 & s3 & p & τ6 & -> & H3 & H4)|(e & -> & H3)];
    pose proof (pcalls_runs _ _ _ _ (injected_processor_setup env offering
      order_processing_backend "OfferingOrderProcessor" sv s2) H3) as Hc5;
    apply (wpM_sound _ _ _ _ _ _ _ (order_processor_outcome offering _ _ _)) in H3 as [H3 _].
  - exists (τ1 ++ τ3 ++ τ5), τ6. rewrite <- !app_assoc. split; [done|].
    split; [by repeat (apply Forall_app; split)|]. right. eauto.
  - exists (τ1 ++ τ3 ++ τ4), []. rewrite app_nil_r. split; [done|].
    split; [by repeat (apply Forall_app; split)|]. left. split; [done|].
    eapply setup_failed_sub; [|exact H3]. intros x.
    rewrite list_elem_of_In, <- in_rev, <- list_elem_of_In, !elem_of_app. auto.
Qed.

Lemma get_order_info_runs uuid s τ s' r :
  runs (get_order_info uuid s) τ (s', r) →
  s' = s ∧ ∃ a, τ = [Ev (Waldur (OrderRetrieve uuid)) a] ∧
    match r with Ok (Some o) => a = Ok (Some o) | Ok None => ∀ o, a ≠ Ok (Some o)
               | Err _ => ∀ o, a ≠ Ok (Some o) end.
Proof.
  intros [(τ1 & s1 & o & τ2 & -> & H1 & H2)|(e & -> & H1)]%runs_bind_inv.
  - apply runs_attempt_inv in H1 as (a & [= ->] & (x & ? & -> & -> & [= <- <-])).
    destruct x as [[o|]|[]]; destruct H2 as [-> [= <- <-]]; (split; [done|]);
      (eexists; split; [done|]); done.
  - by apply runs_attempt_inv in H1 as (? & [=] & _).
Qed.

(** C8: An order message is skipped without a call when its order is finished or waits for
    somebody else.  Otherwise the handler sets up a client, the backend the offering names
    and a processor with empty caches, which fails only as [setup_failed] says; then it
    reads the order the message names from Waldur and, when Waldur answers one, processes
    that very order with retries on the fresh processor; nothing else is done, and nothing
    that fails gets out. *)
Theorem order_message_processes_order frame offering d uuid (s s' : gset string) τ r :
  frame_body frame = Ok (JObj d) → obj_get d "order_uuid" = Some uuid →
  runs (on_order_message_stomp env expose frame offering s) τ (s', r) →
  r = Ok () ∧
  if skipped_state env (from_option id (JStr "") (obj_get d "order_state")) then τ = []
  else ∃ τ0 τ1, τ = τ0 ++ map (lift_event (@Agent)) τ1 ∧ all_calls setup_call τ0 ∧
    (τ1 = [] ∧ setup_failed offering τ0 ∨
     ∃ a τ2 b, order_backend offering b ∧
       τ1 = Ev (Waldur (OrderRetrieve (text env uuid))) a :: τ2 ∧
       match a with
       | Ok (Some o) => ∃ ps x,
           runs (process_order_with_retries (config_of env expose offering b) o 10 5 initial_state)
             τ2 (ps, x)
       | _ => τ2 = []
       end).
Proof.
  intros Hb Hu Hr. unfold on_order_message_stomp in Hr.
  rewrite Hb, bind_ok in Hr. cbn [msg_item msg_get] in Hr. rewrite Hu, !bind_ok in Hr.
  destruct (skipped_state _ _); [by destruct Hr as [-> [= <- <-]]|].
  apply logged_runs in Hr as [-> (o & Hr)]. split; [done|].
  apply process_order_message_runs in Hr as (τ0 & τ1 & -> & Hc & [[-> Hf]|(p & s1 & Hp & Hr)]).
  { exists τ0, []. auto. }
  apply runs_on_processor in Hr as (_ & τ2 & ps & -> & Hr).
  exists τ0, τ2. split; [done|]. split; [done|]. right.
  apply runs_bind_inv in Hr as [(τ3 & s2 & ord & τ4 & -> & H1 & H2)|(e & -> & H1)];
    apply get_order_info_runs in H1 as (-> & a & -> & Ha).
  - exists a, τ4, (pr_backend p). split_and!; [done..|]. destruct ord as [ord|].
    + subst a. eauto.
    + destruct H2 as [-> _]. destruct a as [[o'|]|]; [by destruct (Ha o')|done..].
  - exists a, [], (pr_backend p). split_and!; [done..|]. destruct a as [[o'|]|]; [by destruct (Ha o')|done..].
Qed.
End Orders.

(** ** The verdict on periodic limits *)

Definition reported (ev : event eventE) : bool :=
  match ev with Ev c _ => match c with ReportCommandResult _ _ _ _ _ => true | _ => false end end.

(** What the backend answered for the settings of the message. *)
Definition applied_with (backend_id : string) (settings : json) (success : json)
    (H : trace eventE) : Prop :=
  ∃ d, Ev (ApplyPeriodicSettings backend_id settings) (Ok (JObj d)) ∈ H ∧
    success = from_option id (JBool false) (obj_get d "success").

Definition verdict_guard (policy resource backend_id : string) (settings : json) : guard eventE :=
  λ X H c,
  match c with
  | ReportCommandResult p r success _ _ =>
      p = policy ∧ r = resource ∧ existsb reported H = false ∧
      (truthy success = true → applied_with backend_id settings success H)
  | _ => True
  end.

(** Reported, or without a client to report with. *)
Definition settled (offering : Offering) (H : trace eventE) : Prop :=
  ∃ ev H', H = ev :: H' ∧
    (reported ev = true ∨ ∃ e, ev = Ev (Sub (GetClient (off_uuid offering))) (Err e)).

Lemma UUID_truthy v u : UUID v = Ok u → truthy v = true.
Proof.
  destruct v as [| | | |s| |]; try done. simpl. by destruct s.
Qed.

Section Verdict.
Context (env : environment) (expose : bool) (offering : Offering) (d : list (string * json)).
Context (policy resource : string).
Context (Hpolicy : UUID (from_option id (JStr "") (obj_get d "policy_uuid")) = Ok policy).
Context (Hresource : UUID (from_option id (JStr "") (obj_get d "resource_uuid")) = Ok resource).

Abbreviation backend_id := (text env (from_option id JNull (obj_get d "backend_id"))).
Abbreviation settings := (from_option id (JObj []) (obj_get d "settings")).
Abbreviation G := (verdict_guard policy resource backend_id settings).

Lemma report_spec result (s : gset string) H :
  (∃ l, result = JObj l ∧
     let success := from_option id (JBool false) (obj_get l "success") in
     (truthy success = true → applied_with backend_id settings success H)) →
  existsb reported H = false →
  wpM G (report_command_result offering (JObj d) result) (λ r _ H', r = Ok () ∧ settled offering H') s H.
Proof.
  intros (l & -> & Hs) Hnone. unfold report_command_result, logged.
  apply wpM_bind, wpM_attempt. eapply wpM_mono with (Q := λ _ _ H', settled offering H').
  2:{ intros r s1 H1 H2. by apply wpM_ret. }
  apply wpM_bind, wpM_call; [done|]. intros [[]|e].
  2:{ eexists _, H. split; [done|]. right. by exists e. }
  unfold msg_get. rewrite !bind_ok. rewrite (UUID_truthy _ _ Hpolicy). cbn [negb].
  rewrite Hresource, Hpolicy, !bind_ok. apply wpM_call.
  - split; [done|]. split; [done|]. split; [exact Hnone|]. intros Ht.
    destruct (Hs Ht) as (d' & Hin & Heq). exists d'. split; [by right|done].
  - intros o. eexists _, _. split; [done|]. by left.
Qed.

Lemma get_backend_unreported key (s : gset string) H :
  existsb reported H = false →
  wpM G (get_backend_for_offering env offering key) (λ _ _ H', existsb reported H' = false) s H.
Proof.
  intros Hn. unfold get_backend_for_offering. destruct (configured_type offering key); [|by wp_step].
  destruct (_ !! _); [|by wp_step]. apply wpM_bind, wpM_call; [done|]. by intros [[]|e].
Qed.

Lemma periodic_settings_result_spec (s : gset string) H :
  existsb reported H = false →
  wpM G (periodic_settings_result env offering backend_id settings) (λ r _ H',
    existsb reported H' = false ∧ ∃ l, r = Ok (JObj l) ∧
      let success := from_option id (JBool false) (obj_get l "success") in
      (truthy success = true → applied_with backend_id settings success H')) s H.
Proof.
  intros Hn. unfold periodic_settings_result. apply wpM_bind, wpM_attempt, wpM_bind.
  eapply wpM_mono; [by apply get_backend_unreported|]. intros [b|e] s1 H1 H1n.
  2:{ apply wpM_ret. split; [done|]. by eexists. }
  unfold apply_periodic_settings. destruct (bc_applies_periodic_settings b).
  2:{ wp_step. apply wpM_ret. split; [done|]. by eexists. }
  apply wpM_call; [done|]. intros o. apply wpM_ret. split; [by destruct o|].
  destruct o as [[| | | | | |l]|e]; try by eexists.
  exists l. split; [done|]. intros Ht. exists l. split; [by left|done].
Qed.

(** A periodic-limits message that names its policy and its resource always gets a
    verdict: whatever is wrong with the message or with the backend, the last thing done is
    the one report to that policy, unless there is no client to report with.  A success is
    reported only when the backend of the offering answered so for the settings of the
    message. *)
Theorem periodic_limits_get_a_verdict frame (s s' : gset string) τ r :
  frame_body frame = Ok (JObj d) →
  runs (on_resource_periodic_limits_update_stomp env frame offering s) τ (s', r) →
  r = Ok () ∧ settled offering (rev τ) ∧ guarded G [] τ.
Proof.
  intros Hb Hr.
  assert (Hw : wpM G (on_resource_periodic_limits_update_stomp env frame offering)
    (λ r _ H', r = Ok () ∧ settled offering H') s []).
  2:{ destruct (wpM_sound _ _ _ _ _ _ _ Hw Hr) as [[-> Hs] HG]. done. }
  unfold on_resource_periodic_limits_update_stomp, logged.
  apply wpM_bind, wpM_attempt. eapply wpM_mono with (Q := λ r _ H', r = Ok () ∧ settled offering H').
  2:{ intros r1 s1 H1 [-> HS]. by apply wpM_ret. }
  rewrite Hb. unfold msg_get at 1 2 3. rewrite !bind_ok.
  destruct (negb _ || negb _).
  - apply report_spec; [|done]. by eexists.
  - apply wpM_bind. eapply wpM_mono; [by apply periodic_settings_result_spec|].
    intros r1 s1 H1 (Hn & l & -> & Hs). apply report_spec; [|done]. exists l. done.
Qed.
End Verdict.

(** ** Who is torn down on an event *)

Section Departures.
Context (env : environment) (expose : bool) (offering : Offering).

(** The calls a teardown of [u] can make. *)
Definition teardown_call (u : OfferingUser) (X : Type) (c : eventE X) : bool :=
  match c with
  | Agent (Waldur (OfferingUserSetDeleting uuid | OfferingUserSetDeleted uuid |
                   OfferingUserSetErrorDeleting uuid)) => String.eqb uuid (ou_uuid u)
  | Agent (Username (ReleaseUsers [v])) => String.eqb (ou_uuid v) (ou_uuid u)
  | Agent (Backend (RemoveUser _ username _ _)) => String.eqb username (ou_username u)
  | _ => false
  end.

(** The calls by which an account is deleted. *)
Definition deletion_call (X : Type) (c : eventE X) : bool :=
  match c with
  | Agent (Waldur (OfferingUserSetDeleting _ | OfferingUserSetDeleted _ |
                   OfferingUserSetErrorDeleting _)) => true
  | Agent (Username (ReleaseUsers _)) => true
  | Agent (Backend (RemoveUser _ _ _ _)) => true
  | _ => false
  end.

(** Without a membership backend there are no associations to look for. *)
Definition associations_known (H : trace eventE) : Prop :=
  configured (off_membership_sync_backend offering) = true →
  ∃ rs report, Ev (Agent (Backend (PullResources rs false true))) (Ok report) ∈ H.

Definition departure_guard (uuid : json) : guard eventE := λ X H c,
  deletion_call X c = true →
  ∃ u, teardown_call u X c = true ∧ departed u = true ∧ associations_known H ∧
    Ev (OfferingUserRetrieve (text env uuid)) (Ok (Some u)) ∈ H.

Lemma teardown_calls {S} u releases report :
  calls (S:=S) (teardown_call u) (run_agent (teardown_offering_user u releases report)).
Proof.
  assert (Hwaldur : ∀ S Y (c : waldurE Y), teardown_call u Y (Agent (Waldur c)) = true →
    calls (S:=S) (λ X c, teardown_call u X (Agent c)) (waldur c)).
  { intros S0 Y c Hc. by apply calls_call. }
  assert (Hrelease : ∀ S, calls (S:=S) (λ X c, teardown_call u X (Agent c)) (username (ReleaseUsers [u]))).
  { intros S0. apply calls_call. simpl. apply String.eqb_refl. }
  assert (Hremove : ∀ S r, calls (S:=S) (λ X c, teardown_call u X (Agent c))
    (remove_user_from_resource r u "")).
  { intros S0 r. apply calls_call. simpl. apply String.eqb_refl. }
  pose proof (String.eqb_refl (ou_uuid u)) as Hid.
  apply calls_inside_of. unfold teardown_offering_user, try_claim, try_complete,
    remove_user_from_reported_resources, claim_offering_user_deletion,
    complete_offering_user_deletion, mark_offering_user_error_deleting, check_transition.
  repeat first [ apply Hwaldur; exact Hid | apply Hrelease | apply Hremove | calls_step ].
Qed.

Lemma harmless_guard {S A} uuid (m : M eventE S A) (I : trace eventE → Prop) s H :
  calls (λ X c, negb (deletion_call X c)) m → (∀ ev H, I H → I (ev :: H)) → I H →
  wpM (departure_guard uuid) m (λ _ _ H', I H') s H.
Proof.
  intros Hm HI HH. eapply (calls_wpM_inv _ _ I); [exact Hm|exact HH|..].
  - intros X H0 c _ Hc Hd. cbv beta in Hc. by rewrite Hd in Hc.
  - intros. by apply HI.
  - done.
Qed.

Lemma setup_harmless {S A} (m : M eventE S A) :
  calls setup_call m → calls (λ X c, negb (deletion_call X c)) m.
Proof. apply calls_mono. by intros X []. Qed.

Lemma get_backend_harmless {S} key :
  calls (S:=S) (λ X c, negb (deletion_call X c)) (get_backend_for_offering env offering key).
Proof. apply setup_harmless, get_backend_setup. Qed.
Lemma release_capable_harmless {S} cfg :
  calls (S:=S) (λ X c, negb (deletion_call X c)) (run_agent (get_release_capable_username_backend cfg)).
Proof.
  apply calls_inside_of. unfold get_release_capable_username_backend, get_username_management_backend.
  calls_auto.
Qed.
Lemma fetch_resources_harmless {S} cfg p :
  calls (S:=S) (λ X c, negb (deletion_call X c)) (run_agent (fetch_offering_resources cfg p)).
Proof. apply calls_inside_of. unfold fetch_offering_resources. calls_auto. Qed.
Lemma forward_harmless username attributes :
  calls (λ X c, negb (deletion_call X c))
    (forward_user_attributes_to_backend env offering username attributes).
Proof.
  unfold forward_user_attributes_to_backend, logged.
  repeat (first [apply get_backend_harmless|calls_step]).
Qed.
Lemma add_user_harmless username ids cuid :
  calls (λ X c, negb (deletion_call X c)) (add_user_to_resources env offering username ids cuid).
Proof.
  unfold add_user_to_resources, logged.
  repeat (first [apply get_backend_harmless|apply calls_inside_of; by apply calls_call|calls_step]).
Qed.
Lemma resolve_cuid_harmless v :
  calls (λ X c, negb (deletion_call X c)) (resolve_user_cuid env offering v).
Proof.
  unfold resolve_user_cuid. repeat (first [apply calls_inside_of; by apply calls_call|calls_step]).
Qed.

(** [u] is the departed account the event named. *)
Definition read_departed (uuid : json) (u : OfferingUser) (H : trace eventE) : Prop :=
  departed u = true ∧ Ev (OfferingUserRetrieve (text env uuid)) (Ok (Some u)) ∈ H.

Lemma read_departed_cons uuid u ev H : read_departed uuid u H → read_departed uuid u (ev :: H).
Proof. intros [? ?]. split; [done|by right]. Qed.

Lemma associations_known_cons ev H : associations_known H → associations_known (ev :: H).
Proof. intros Ha Hc. destruct (Ha Hc) as (rs & report & Hin). exists rs, report. by right. Qed.

Lemma deletion_report_spec uuid (I : trace eventE → Prop) (s : gset string) H :
  (∀ ev H, I H → I (ev :: H)) → I H →
  wpM (departure_guard uuid) (deletion_report env expose offering) (λ r _ H',
    I H' ∧ ∀ report, r = Ok report → associations_known H') s H.
Proof.
  intros HI HH. unfold deletion_report. apply wpM_bind.
  eapply wpM_mono; [apply (harmless_guard uuid _ I); [apply get_backend_harmless|done|done]|].
  intros [b|e] s1 H1 HI1; [|done]. apply wpM_bind.
  eapply wpM_mono; [apply (harmless_guard uuid _ I); [apply fetch_resources_harmless|done|done]|].
  intros [rs|e] s2 H2 HI2; [|done]. apply wpM_bind. unfold run_agent, inside, backend, call, wpM.
  simpl. split; [done|]. intros [report|e]; [|split; [by apply HI|done]].
  split; [by apply HI|]. intros report' _ _. exists rs, report. by left.
Qed.

Lemma deletions_spec uuid u (s : gset string) H :
  read_departed uuid u H →
  wpM (departure_guard uuid) (process_offering_user_deletions env expose offering [u])
    (λ _ _ _, True) s H.
Proof.
  intros Hu. pose proof (read_departed_cons uuid u) as HI. unfold process_offering_user_deletions.
  apply wpM_bind. eapply wpM_mono with (Q := λ r _ H', read_departed uuid u H' ∧
    ∀ x, r = Ok (Ok x) → associations_known H').
  { destruct (configured (off_membership_sync_backend offering)) eqn:Hc.
    - apply wpM_attempt. eapply wpM_mono; [by apply (deletion_report_spec _ (read_departed uuid u))|].
      intros r s1 H1 [HR HA]. split; [done|]. intros x [= ->]. by eapply HA.
    - apply wpM_ret. split; [done|]. intros _ _ Hc'. by rewrite Hc in Hc'. }
  intros [[report|e]|e] s1 H1 [HR HA]; [|by wp_step|done]. specialize (HA report eq_refl).
  apply wpM_bind. eapply wpM_mono; [apply (harmless_guard uuid _ (λ H, read_departed uuid u H ∧ associations_known H));
    [apply release_capable_harmless| |done]|].
  { intros ev H0 [? ?]. split; [by apply HI|by apply associations_known_cons]. }
  intros [releases|e] s2 H2 [HR2 HA2]; [|done].
  eapply (calls_wpM_inv (teardown_call u) _ (λ H, read_departed uuid u H ∧ associations_known H));
    [|done|..].
  - apply calls_bind; [|intros []; apply calls_ret]. apply calls_bind; [apply teardown_calls|].
    intros _. apply calls_ret.
  - intros X H0 c [[Hd Hin] HA0] Hc _. by exists u.
  - intros X c a H0 [? ?] _. split; [by apply HI|by apply associations_known_cons].
  - done.
Qed.

Lemma deletion_event_spec uuid (s : gset string) H :
  wpM (departure_guard uuid) (process_offering_user_deletion_event env expose offering uuid)
    (λ _ _ _, True) s H.
Proof.
  unfold process_offering_user_deletion_event, logged. destruct (negb _); [by wp_step|].
  apply wpM_bind, wpM_attempt. eapply wpM_mono with (Q := λ _ _ _, True); [|intros; by apply wpM_ret].
  apply wpM_bind, wpM_call; [done|]. intros [[u|]|e]; [|by wp_step|done].
  destruct (departed u) eqn:Hd; cbn [negb]; [|by wp_step]. apply deletions_spec.
  split; [done|by left].
Qed.

Lemma reconcile_spec uuid (s : gset string) H :
  wpM (departure_guard uuid) (reconcile_offering_user env expose offering uuid)
    (λ _ _ _, True) s H.
Proof.
  unfold reconcile_offering_user, username_backend_syncs, logged. destruct (negb _); [by wp_step|].
  apply wpM_bind, wpM_bind, wpM_attempt, wpM_call; [done|]. intros o. wp_step.
  destruct (negb _); [by wp_step|].
  apply wpM_bind, wpM_attempt. eapply wpM_mono with (Q := λ _ _ _, True); [|intros; by apply wpM_ret].
  apply wpM_bind, wpM_call; [done|]. intros [[u|]|e]; [|by wp_step|done].
  destruct (departed u) eqn:Hd.
  - apply deletions_spec. split; [done|by left].
  - by apply (harmless_guard uuid _ (λ _, True)); [apply calls_inside_of; by apply calls_call|..].
Qed.

Lemma harmless_then {A} uuid (m : M eventE (gset string) A) (f : A → M eventE (gset string) unit) s H :
  calls (λ X c, negb (deletion_call X c)) m →
  (∀ a s H, wpM (departure_guard uuid) (f a) (λ _ _ _, True) s H) →
  wpM (departure_guard uuid) (bind m f) (λ _ _ _, True) s H.
Proof.
  intros Hm Hf. apply wpM_bind.
  eapply wpM_mono; [by apply (harmless_guard uuid _ (λ _, True))|]. intros [a|e] s1 H1 _; [apply Hf|done].
Qed.

(** Whatever an offering-user message says, only the account it names is ever deleted,
    and only when Waldur, asked in the course of that message, says it is in a deletion
    state: its deletion is claimed, its associations are removed, it is released and
    reported only then and, where the offering has a membership backend, only after a
    strict pull of the offering's resources. *)
Theorem message_tears_down_departed frame d (s s' : gset string) τ r :
  frame_body frame = Ok (JObj d) →
  runs (on_offering_user_message_stomp env expose frame offering s) τ (s', r) →
  guarded (departure_guard (from_option id (JStr "") (obj_get d "offering_user_uuid"))) [] τ.
Proof.
  intros Hb Hr. set (uuid := from_option id _ _).
  assert (Hw : wpM (departure_guard uuid) (on_offering_user_message_stomp env expose frame offering)
    (λ _ _ _, True) s []); [|by destruct (wpM_sound _ _ _ _ _ _ _ Hw Hr)].
  unfold on_offering_user_message_stomp, process_offering_user_message, logged. rewrite Hb, bind_ok.
  cbn [msg_get]. rewrite !bind_ok. fold uuid.
  apply wpM_bind, wpM_attempt. eapply wpM_mono with (Q := λ _ _ _, True); [|intros; by apply wpM_ret].
  apply harmless_then; [apply setup_harmless, get_client_setup|]. intros _ s1 H1.
  apply harmless_then; [apply setup_harmless, register_service_setup|]. intros _ s2 H2.
  unfold offering_user_action. repeat case_match; cbn [msg_get]; rewrite ?bind_ok.
  - by apply (harmless_guard uuid _ (λ _, True)); [apply forward_harmless|..].
  - apply harmless_then; [apply calls_of_res|]. intros _ ? ?.
    apply harmless_then; [apply forward_harmless|]. intros _ ? ?. apply reconcile_spec.
  - apply harmless_then; [apply calls_of_res|]. intros [] ? ?;
      [apply deletion_event_spec|apply reconcile_spec].
  - unfold username_set. cbn [msg_get]. rewrite bind_ok.
    apply harmless_then; [apply calls_of_res|]. intros _ ? ?.
    apply harmless_then; [apply calls_of_res|]. intros user_uuid ? ?.
    apply harmless_then; [apply resolve_cuid_harmless|]. intros cuid ? ?.
    apply harmless_then; [apply add_user_harmless|]. intros _ ? ?. apply reconcile_spec.
  - by wp_step.
Qed.
End Departures.

(** ** Forced synchronisation *)

Section ForcedSync.
Context (env : environment) (expose : bool) (offering : Offering).

Lemma get_order_backend_called {S} t b (s : S) τ s' r :
  off_order_processing_backend offering = Some t → BACKENDS env !! t = Some b →
  runs (get_backend_for_offering env offering order_processing_backend s) τ (s', r) →
  ∃ o, τ = [Ev (NewBackend (off_uuid offering) t) o].
Proof.
  intros Ht Hb Hr. unfold get_backend_for_offering in Hr. cbn [configured_type] in Hr.
  rewrite Ht, Hb in Hr. destruct Hr as (o & τ' & -> & Hr). exists o.
  destruct o; by destruct Hr as [-> _].
Qed.

Lemma forced_order_sync_runs known t b s τ s' r :
  off_order_processing_backend offering = Some t → BACKENDS env !! t = Some b →
  runs (forced_order_sync env expose offering known s) τ (s', r) →
  r = Ok () ∧ ∃ o τ', τ = Ev (NewBackend (off_uuid offering) t) o :: τ'.
Proof.
  intros Ht Hb [-> (o & Hr)]%logged_runs. split; [done|].
  assert (Hn : ∀ τ o s', runs (new_processor env offering order_processing_backend None known s) τ (s', o) →
    ∃ o τ', τ = Ev (NewBackend (off_uuid offering) t) o :: τ').
  { intros τ1 o1 s1 Hn. apply runs_bind_inv in Hn as [(τ2 & s2 & a & τ3 & -> & H2 & _)|(e & _ & H2)];
      apply (get_order_backend_called t b) in H2 as [? ->]; try done; by eexists _, _. }
  apply runs_bind_inv in Hr as [(τ1 & s1 & p & τ2 & -> & H1 & _)|(e & _ & H1)].
  - apply Hn in H1 as (o1 & τ' & ->). by eexists _, _.
  - by apply Hn in H1.
Qed.

(** A forced synchronisation of an offering never fails, and whatever becomes of the
    membership part, the order part is still begun: its backend is built.  Only without a
    client nothing is done at all. *)
Theorem forced_sync_parts_independent frame d t b (s s' : gset string) τ r :
  frame_body frame = Ok (JObj d) →
  off_order_processing_backend offering = Some t → t ≠ "" → BACKENDS env !! t = Some b →
  runs (on_offering_resources_sync_message_stomp env expose frame offering s) τ (s', r) →
  r = Ok () ∧
  ((∃ e, τ = [Ev (Sub (GetClient (off_uuid offering))) (Err e)]) ∨
   ∃ τ1 o τ2, τ = Ev (Sub (GetClient (off_uuid offering))) (Ok ()) :: τ1 ++
     Ev (NewBackend (off_uuid offering) t) o :: τ2).
Proof.
  intros Hb Ht Hne Hp Hr. unfold on_offering_resources_sync_message_stomp in Hr.
  rewrite Hb, bind_ok in Hr. cbn [msg_get] in Hr. rewrite bind_ok in Hr.
  destruct Hr as (o & τ1 & -> & Hr). destruct o as [[]|e].
  2:{ destruct Hr as [-> [= <- <-]]. split; [done|]. left. by exists e. }
  cbn [pbind] in Hr.
  replace (configured (off_order_processing_backend offering)) with true in Hr
    by (rewrite Ht; by destruct t).
  apply runs_bind_inv in Hr as [(τ2 & s2 & known & τ3 & -> & H2 & H3)|(e & -> & H2)].
  - apply (forced_order_sync_runs _ t b) in H3 as [-> (o & τ' & ->)]; [|done|done].
    split; [done|]. right. by exists τ2, o, τ'.
  - exfalso. assert (Hk : wpM (λ _ _ _, True) (if configured (off_membership_sync_backend offering)
        then forced_membership_sync env expose offering else ret None) (λ r _ _, ∃ p, r = Ok p) s []).
    { destruct (configured _); [apply forced_membership_total|wp_step; eauto]. }
    by destruct (wpM_sound _ _ _ _ _ _ _ Hk H2) as [[p [=]] _].
Qed.
End ForcedSync.

(** ** Project groups: no event is lost *)

Record group_state : Type := {
  pending_timers : gset string;     (* [_project_group_timers] *)
  armed : gset string;              (* timers that were started and have not fired *)
  stuck : gset string;              (* offerings whose timer did not start *)
  passing : list string;            (* timer threads that cleared their marker and have
                                       not begun their pass *)
  unseen : gset string;             (* offerings with an event no pass has begun after *)
}.

Definition no_groups : group_state :=
  {| pending_timers := ∅; armed := ∅; stuck := ∅; passing := []; unseen := ∅ |}.

(** The timers a run started, those that refused to start, and the offerings whose pass
    it began. *)
Definition started_timer (ev : event eventE) : option string :=
  match ev with
  | @Ev _ X c a =>
      match c in eventE X return res X → option string with
      | StartTimer u => λ a, match a with Ok _ => Some u | Err _ => None end
      | _ => λ _, None
      end a
  end.

Definition refused_timer (ev : event eventE) : option string :=
  match ev with
  | @Ev _ X c a =>
      match c in eventE X return res X → option string with
      | StartTimer u => λ a, match a with Ok _ => None | Err _ => Some u end
      | _ => λ _, None
      end a
  end.

Definition begun_pass (ev : event eventE) : option string :=
  match ev with
  | Ev c _ =>
      match c with
      | Sub c => match c with GetClient u => Some u | _ => None end
      | _ => None
      end
  end.

Definition offerings_of (f : event eventE → option string) (τ : trace eventE) : gset string :=
  list_to_set (omap f τ).

Section Groups.
Context (env : environment).

(** Messages arrive and timers fire, in any order.  A fired timer's thread runs
    [run_project_group_reconcile]: it clears its marker, under the lock, and then begins
    its pass; anything may happen in between.  Which timers are armed is read off the
    calls that were made and their outcomes. *)
Inductive group_step : group_state → group_state → Prop :=
| event_arrived g frame d offering τ pending r :
    frame_body frame = Ok (JObj d) →
    runs (on_project_group_message_stomp frame offering (pending_timers g)) τ (pending, r) →
    group_step g {| pending_timers := pending;
                    armed := offerings_of started_timer τ ∪ armed g;
                    stuck := offerings_of refused_timer τ ∪ stuck g; passing := passing g;
                    unseen := {[off_uuid offering]} ∪ unseen g |}
| timer_fired g offering τ pending r :
    off_uuid offering ∈ armed g →
    runs (clear_group_marker offering true (pending_timers g)) τ (pending, r) →
    group_step g {| pending_timers := pending; armed := armed g ∖ {[off_uuid offering]};
                    stuck := stuck g; passing := off_uuid offering :: passing g;
                    unseen := unseen g |}
| pass_run g offering l1 l2 τ pending r :
    passing g = l1 ++ off_uuid offering :: l2 →
    runs (project_group_pass env offering (pending_timers g)) τ (pending, r) →
    group_step g {| pending_timers := pending; armed := armed g; stuck := stuck g;
                    passing := l1 ++ l2; unseen := unseen g ∖ offerings_of begun_pass τ |}.

Lemma schedule_runs frame d offering p τ p' r :
  frame_body frame = Ok (JObj d) →
  runs (on_project_group_message_stomp frame offering p) τ (p', r) →
  (off_uuid offering ∈ p ∧ p' = p ∧
     offerings_of started_timer τ = ∅ ∧ offerings_of refused_timer τ = ∅) ∨
  (off_uuid offering ∉ p ∧ p' = {[off_uuid offering]} ∪ p ∧
     (offerings_of started_timer τ = {[off_uuid offering]} ∧ offerings_of refused_timer τ = ∅ ∨
      offerings_of started_timer τ = ∅ ∧ offerings_of refused_timer τ = {[off_uuid offering]})).
Proof.
  intros Hb Hr. unfold on_project_group_message_stomp in Hr.
  rewrite Hb, bind_ok in Hr. cbn [msg_get] in Hr. rewrite bind_ok in Hr.
  unfold offerings_of.
  apply runs_bind_inv in Hr as [(τ1 & s1 & b & τ2 & -> & Hr & [-> [= <- <-]])|(e & -> & Hr)];
    unfold schedule_project_group_reconcile in Hr;
    change (bind get_st ?f p) with (f p p) in Hr; cbv beta in Hr;
    destruct (decide (off_uuid offering ∈ p)).
  1, 3: left; destruct Hr as [-> [= <- ?]]; by split_and!.
  all: right; destruct Hr as ([[]|] & τ' & -> & [-> [= <- ?]]); simpl; split_and!; try done;
    first [left; split; set_solver|right; split; set_solver].
Qed.

Lemma keeps_run_sub {S A} (I : S → Prop) (m : M subE S A) : keeps I m → keeps I (run_sub m).
Proof.
  intros Hm s H Hs. specialize (Hm s [] Hs). unfold run_sub, inside, wpM in *.
  revert Hm. generalize (m s) as p. generalize (@nil (event subE)). intros K p. revert K H.
  induction p as [x|X c k IH]; simpl; [done|]. intros K H [_ Hk]. split; [done|].
  intros r. apply (IH r (Ev c r :: K)), Hk.
Qed.

Lemma register_service_keeps {S} offering t (I : S → Prop) :
  keeps I (register_event_process_service env offering t).
Proof.
  apply keeps_bind; [apply keeps_attempt, keeps_run_sub; unfold get_identity; keeps_auto|].
  intros [identity|]; [|keeps_auto].
  apply keeps_bind; [apply keeps_attempt, keeps_run_sub; unfold register_service; keeps_auto|].
  intros []; keeps_auto.
Qed.
Hint Resolve register_service_keeps : keeps.

Lemma project_group_pass_keeps offering (I : gset string → Prop) :
  keeps I (project_group_pass env offering).
Proof. unfold project_group_pass, logged, get_client_for_offering. keeps_auto. Qed.

Lemma pass_runs offering p τ p' r :
  runs (project_group_pass env offering p) τ (p', r) →
  p' = p ∧ off_uuid offering ∈ offerings_of begun_pass τ.
Proof.
  intros Hr. split.
  - pose proof (project_group_pass_keeps offering (λ p', p' = p) p [] eq_refl) as Hk.
    by destruct (wpM_sound _ _ _ _ _ _ _ Hk Hr).
  - unfold project_group_pass, logged in Hr.
    destruct Hr as (o & τ' & -> & _). unfold offerings_of. simpl. set_solver.
Qed.

(** The invariant of the markers and the timers. *)
Definition events_served (g : group_state) : Prop :=
  pending_timers g = armed g ∪ stuck g ∧ armed g ## stuck g ∧
  unseen g ⊆ armed g ∪ stuck g ∪ list_to_set (passing g).

Lemma events_served_step g1 g2 : group_step g1 g2 → events_served g1 → events_served g2.
Proof.
  intros Hs (Hp & Hd & Hu). unfold events_served.
  destruct Hs as [g frame d offering τ p r Hb Hr|g offering τ p r Ha Hr
    |g offering l1 l2 τ p r Hl Hr]; simpl.
  - apply (schedule_runs _ _ _ _ _ _ _ Hb) in Hr
      as [(Hin & -> & -> & ->)|(Hin & -> & [[-> ->]|[-> ->]])]; rewrite Hp in *;
      split_and!; set_solver.
  - assert (p = pending_timers g ∖ {[off_uuid offering]}) as ->.
    { unfold clear_group_marker in Hr. change (bind get_st ?f ?p) with (f p p) in Hr.
      cbv beta in Hr. rewrite andb_false_r in Hr. by destruct Hr as [_ [= <- _]]. }
    clear Hr. rewrite Hp. split_and!; [apply set_eq|set_solver|]; intros x;
      (destruct (decide (x = off_uuid offering)) as [->|]; [|set_solver]).
    + assert (off_uuid offering ∉ stuck g) by set_solver. set_solver.
    + set_solver.
  - apply pass_runs in Hr as [-> Hb]. rewrite Hl, list_to_set_app_L, list_to_set_cons in Hu.
    rewrite list_to_set_app_L. split_and!; [done..|]. intros x Hx.
    assert (x ≠ off_uuid offering) by (intros ->; set_solver). set_solver.
Qed.

(** C37: However project-group events and timers interleave, an offering with an event that
    no pass has begun after has a timer that was started and will fire, one that could not
    be started, or a pass about to begin; an offering has a marker exactly when it has a
    timer of the first two kinds, and at most one. *)
Theorem group_events_served g :
  rtc group_step no_groups g →
  pending_timers g = armed g ∪ stuck g ∧ armed g ## stuck g ∧
  unseen g ⊆ armed g ∪ stuck g ∪ list_to_set (passing g).
Proof.
  intros Hg. apply (rtc_invariant events_served _ _ Hg); [intros g1 g2; apply events_served_step|].
  unfold events_served. simpl. split_and!; set_solver.
Qed.

(** An offering whose timer did not start is never served again. *)
Lemma stuck_forever g g' u : u ∈ stuck g → rtc group_step g g' → u ∈ stuck g'.
Proof.
  intros Hu Hg. revert Hu. induction Hg as [|g1 g2 g3 Hs _ IH]; [done|].
  intros Hu. apply IH. destruct Hs; set_solver.
Qed.
End Groups.

(** ** Concrete messages *)

Definition sample_class : backend_class :=
  {| bc_module := "waldur_site_agent_slurm.backend"; bc_name := "SlurmBackend"; bc_version := "1.0";
     bc_backend_type := "slurm"; bc_capabilities := base_capabilities;
     bc_applies_periodic_settings := true |}.

Definition sample_environment : environment :=
  {| BACKENDS := {["slurm"%string := sample_class]};
     env_username_backend := λ _, KnownUsernameBackend true true true;
     env_own_base := λ _, Some sample_base; env_parse_url := parse_sample_url;
     env_format_exc := λ _, "";
     env_order_state := λ st, match st with
       | OrderState.DONE => "done" | OrderState.ERRED => "erred"
       | OrderState.EXECUTING => "executing" | OrderState.CANCELED => "canceled"
       | _ => "other" end;
     env_offering_user_state := λ st, match st with
       | OfferingUserState.REQUESTED_DELETION => "Requested deletion" | _ => "other" end;
     env_object_type := λ s, if String.eqb s "order" then Some ObservableObjectType.ORDER
       else if String.eqb s "offering_user" then Some ObservableObjectType.OFFERING_USER else None;
     env_object_type_name := λ _, "order"; env_text := λ _, "" |}.

Definition unexpected {X} : res X := Err (OtherException "unexpected").

Definition sub_answer X (c : subE X) : res X :=
  match c with
  | GetClient _ => Ok ()
  | IdentitiesList _ => Ok [{| ai_uuid := "identity"; ai_name := "agent-offering" |}]
  | IdentityRegisterService _ name _ => Ok {| as_uuid := "service"; as_name := name |}
  | ServiceRegisterProcessor _ _ _ _ => Ok ()
  | GetUsernameBackend _ => Ok {| overrides_sync_user_profiles := true;
      overrides_release_users := true; overrides_reconcile_offering := true |}
  | _ => unexpected
  end.

Definition waldur_answer X (c : waldurE X) : res X :=
  match c with
  | OrderRetrieve _ => Ok (Some (sample_order RequestTypes.TERMINATE OrderState.EXECUTING))
  | ResourceRetrieve _ => Ok sample_resource
  | OrderRetrieveState _ => Ok (Some OrderState.EXECUTING)
  | OrderSetDone _ => Ok 200
  | OfferingUserSetDeleting _ => Ok 200
  | OfferingUserSetDeleted _ => Ok 200
  | ResourcesList _ _ => Ok [sample_resource]
  | _ => unexpected
  end.

Definition backend_answer X (c : backendE X) : res X :=
  match c with
  | DeleteResource _ _ => Ok None
  | PullResources _ _ _ => Ok [("alloc-1"%string, (sample_resource, sample_info ["alice"]))]
  | RemoveUser _ _ _ _ => Ok true
  | _ => unexpected
  end.

Definition username_answer X (c : usernameE X) : res X :=
  match c with
  | ResolveUsernameBackend => Ok ()
  | ReleaseUsers _ => Ok ()
  | _ => unexpected
  end.

Definition agent_answer X (c : agentE X) : res X :=
  match c with
  | Waldur c => waldur_answer _ c
  | Backend c => backend_answer _ c
  | Username c => username_answer _ c
  | _ => unexpected
  end.

Definition event_answer X (c : eventE X) : res X :=
  match c with
  | Sub c => sub_answer _ c
  | Agent c => agent_answer _ c
  | NewBackend _ _ => Ok ()
  | CurrentUser => Ok "agent"%string
  | OfferingRetrieve _ => Ok "customer"%string
  | ServiceProvidersList _ => Ok ["provider"%string]
  | ApplyPeriodicSettings _ _ => Ok (JObj [("success"%string, JBool true)])
  | ReportCommandResult _ _ _ _ _ => Ok ()
  | OfferingUserRetrieve _ => Ok (Some leaving_user)
  | StartTimer _ => Ok ()
  | _ => unexpected
  end.

Definition sample_answer X (c : eventE X) (w : unit) : res X * unit := (event_answer X c, w).

Definition json_frame (d : list (string * json)) : Frame :=
  {| frame_body := Ok (JObj d); frame_headers := ∅ |}.

Definition order_fields : list (string * json) :=
  [("object_type", JStr "order"); ("order_uuid", JStr "order-1"); ("order_state", JStr "executing")].

Definition run_handler (m : M eventE (gset string) unit) := exec sample_answer (m ∅) ().

Lemma router_contains_failures_witness :
  let run := run_handler (route_message sample_environment false (json_frame order_fields) sample_offering) in
  run.1.1.2 = Ok () ∧ length run.1.2 = 13%nat ∧
  (run.1.1.2 = Ok () ∨ (run.1.2 = [] ∧ malformed sample_environment (json_frame order_fields)) ∨
   ∃ e, run.1.1.2 = Err e ∧ run.1.2 = [Ev (StartTimer "offering") (Err e)]).
Proof.
  split; [vm_compute; reflexivity|]. split; [vm_compute; reflexivity|].
  apply (router_contains_failures sample_environment false (json_frame order_fields) sample_offering
    ∅ _ _ _ (exec_runs_pair sample_answer (route_message sample_environment false
      (json_frame order_fields) sample_offering ∅) ())).
Defined.

Lemma order_message_processes_order_witness :
  let run := run_handler (on_order_message_stomp sample_environment false (json_frame order_fields)
                            sample_offering) in
  last run.1.2 = Some (Ev (Agent (Waldur (OrderSetDone "order-1"))) (Ok 200)) ∧ run.1.1.2 = Ok ().
Proof.
  split; [vm_compute; reflexivity|].
  apply (order_message_processes_order sample_environment false (json_frame order_fields) sample_offering
    order_fields (JStr "order-1") ∅ _ _ _ eq_refl eq_refl
    (exec_runs_pair sample_answer (on_order_message_stomp sample_environment false
      (json_frame order_fields) sample_offering ∅) ())).
Defined.

Definition limits_fields : list (string * json) :=
  [("backend_id", JStr "alloc-1"); ("action", JStr "apply_periodic_settings");
   ("policy_uuid", JStr "0123456789abcdef0123456789abcdef");
   ("resource_uuid", JStr "fedcba98-7654-3210-fedc-ba9876543210")].

Lemma periodic_limits_get_a_verdict_witness :
  let run := run_handler (on_resource_periodic_limits_update_stomp sample_environment
                            (json_frame limits_fields) sample_offering) in
  last run.1.2 = Some (Ev (ReportCommandResult "0123456789abcdef0123456789abcdef"
    "fedcba9876543210fedcba9876543210" (JBool true) (JStr "") (JArr [])) (Ok ())) ∧
  settled sample_offering (rev run.1.2).
Proof.
  assert (Hp : UUID (from_option id (JStr "") (obj_get limits_fields "policy_uuid")) =
    Ok "0123456789abcdef0123456789abcdef") by (vm_compute; reflexivity).
  assert (Hu : UUID (from_option id (JStr "") (obj_get limits_fields "resource_uuid")) =
    Ok "fedcba9876543210fedcba9876543210") by (vm_compute; reflexivity).
  split; [vm_compute; reflexivity|].
  refine (proj1 (proj2 (periodic_limits_get_a_verdict sample_environment sample_offering limits_fields
    _ _ Hp Hu (json_frame limits_fields) ∅ _ _ _ eq_refl
    (exec_runs_pair sample_answer (on_resource_periodic_limits_update_stomp sample_environment
      (json_frame limits_fields) sample_offering ∅) ())))).
Defined.

(** Without the resource's uuid the policy is left without a verdict. *)
Example no_verdict_without_resource :
  let run := run_handler (on_resource_periodic_limits_update_stomp sample_environment
                            (json_frame (take 3 limits_fields)) sample_offering) in
  existsb reported run.1.2 = false ∧ run.1.1.2 = Ok ().
Proof. vm_compute. split; reflexivity. Qed.

Definition leaving_fields : list (string * json) :=
  [("action", JStr "update"); ("state", JStr "Requested deletion");
   ("offering_user_uuid", JStr "ou-1"); ("username", JStr "alice")].

Lemma message_tears_down_departed_witness :
  let run := run_handler (on_offering_user_message_stomp sample_environment false
                            (json_frame leaving_fields) sample_offering) in
  last run.1.2 = Some (Ev (Agent (Waldur (OfferingUserSetDeleted "ou-1"))) (Ok 200)) ∧
  guarded (departure_guard sample_environment sample_offering (JStr "ou-1")) [] run.1.2.
Proof.
  split; [vm_compute; reflexivity|].
  apply (message_tears_down_departed sample_environment false sample_offering
    (json_frame leaving_fields) leaving_fields ∅ _ _ _ eq_refl
    (exec_runs_pair sample_answer (on_offering_user_message_stomp sample_environment false
      (json_frame leaving_fields) sample_offering ∅) ())).
Defined.

Definition builds_backend (ev : event eventE) : bool :=
  match ev with Ev c _ => match c with NewBackend _ _ => true | _ => false end end.

Lemma forced_sync_parts_independent_witness :
  let run := run_handler (on_offering_resources_sync_message_stomp sample_environment false
                            (json_frame []) sample_offering) in
  run.1.1.2 = Ok () ∧ length (List.filter builds_backend run.1.2) = 2%nat.
Proof.
  split; [|vm_compute; reflexivity].
  apply (forced_sync_parts_independent sample_environment false sample_offering (json_frame []) []
    "slurm" sample_class ∅ _ _ _ eq_refl eq_refl ltac:(done) eq_refl
    (exec_runs_pair sample_answer (on_offering_resources_sync_message_stomp sample_environment false
      (json_frame []) sample_offering ∅) ())).
Defined.

(** A timer that does not start: its offering is marked for good, and the next event is
    taken for one that rides along. *)
Definition timer_refused : group_state :=
  {| pending_timers := {["offering"%string]} ∪ ∅; armed := ∅ ∪ ∅;
     stuck := ({["offering"%string]} ∪ ∅) ∪ ∅; passing := [];
     unseen := {["offering"%string]} ∪ ∅ |}.

Example refused_timer_is_not_retried :
  group_step sample_environment no_groups timer_refused ∧
  ∀ τ p r, runs (schedule_project_group_reconcile sample_offering (pending_timers timer_refused)) τ (p, r) →
    τ = [] ∧ r = Ok false.
Proof.
  split.
  - apply (event_arrived sample_environment no_groups (json_frame []) [] sample_offering
      [Ev (StartTimer "offering") (Err (OtherException "can't start new thread"))] _
      (Err (OtherException "can't start new thread"))); [done|].
    simpl. eexists _, _. split; [reflexivity|]. done.
  - intros τ p r Hr. unfold schedule_project_group_reconcile in Hr.
    change (bind get_st ?f ?s) with (f s s) in Hr. cbv beta in Hr.
    rewrite decide_True in Hr by (simpl; set_solver). by destruct Hr as [-> [= _ <-]].
Qed.

Lemma group_events_served_witness :
  ∃ g, rtc (group_step sample_environment) no_groups g ∧ "offering"%string ∈ unseen g ∧
    unseen g ⊆ armed g ∪ stuck g ∪ list_to_set (passing g).
Proof.
  set (g := {| pending_timers := {["offering"%string]} ∪ ∅;
               armed := ({["offering"%string]} ∪ ∅) ∪ ∅; stuck := ∅ ∪ ∅; passing := [];
               unseen := {["offering"%string]} ∪ ∅ |}).
  assert (Hg : rtc (group_step sample_environment) no_groups g).
  { apply rtc_once, (event_arrived sample_environment no_groups (json_frame []) [] sample_offering
      [Ev (StartTimer "offering") (Ok ())] _ (Ok ())); [done|].
    simpl. eexists _, _. split; [reflexivity|]. done. }
  exists g. split; [exact Hg|]. split; [simpl; set_solver|].
  apply (group_events_served sample_environment g Hg).
Defined.
