(* ===== verification/EventLoop.v ===== *)
(** * The loops of the event mode

    [event_processing/utils.py] and [event_processing/main.py]: the processing of every
    offering at start, the periodic catch-up passes over the offerings, the health checks,
    and the tick that decides which of them are due. *)

From stdpp Require Import base list strings gmap sets.
From Stdlib Require Import ZArith Lia Sorted.
From S2P Require Import Prelude.
From S2P Require Import Structures.
From S2P Require Import Agent.
From S2P Require Import Watchdog.
From S2P Require Import Samples.
From S2P Require Import OfferingUsers.
From S2P Require Import Orders.
From S2P Require Import ApiKeys.
From S2P Require Import Teardown.
From S2P Require Import Membership.
From S2P Require Import MembershipEvents.
From S2P Require Import Subscriptions.
From S2P Require Import Handlers.

Local Open Scope Z_scope.
Local Open Scope prog_scope.

(** A statement over a component of the state. *)
Definition zoom {E S T A} (get : S → T) (set : T → S → S) (m : M E T A) : M E S A := λ s,
  pbind (m (get s)) (λ '(t, r), Ret (set t s, r)).

Definition STUCK_STATES : list OfferingUserState.t :=
  [OfferingUserState.REQUESTED; OfferingUserState.CREATING; OfferingUserState.ERROR_CREATING;
   OfferingUserState.PENDING_ACCOUNT_LINKING; OfferingUserState.PENDING_ADDITIONAL_VALIDATION].

(** Minutes after which an order or a key is taken for stuck. *)
Definition stuck_threshold_minutes : Z := 30.

(** [offering.stomp_membership_sync_enabled is not False] *)
Definition stomp_membership (offering : Offering) : bool :=
  negb (bool_decide (off_stomp_membership_sync_enabled offering = Some false)).

Section Passes.
Context (env : environment) (expose_backend_error_details : bool).

Abbreviation handler := (M eventE (gset string)).
Abbreviation config := (config_of env expose_backend_error_details).
(** Some passes leave the default, which is to expose. *)
Abbreviation default_config := (config_of env true).

Definition touch {S} : M eventE S unit := run_agent (S:=S) touch_heartbeat.

(** One offering after the other: the heartbeat, then the body, whose failure is logged. *)
Definition over_offerings {S} (offerings : list Offering) (body : Offering → M eventE S unit)
  : M eventE S unit :=
  for_each offerings (λ offering, touch ;! body offering).

(** ** At start *)

Definition process_offering (offering : Offering) : handler unit :=
  get_client_for_offering offering ;!
  let! service := run_sub (ensure_agent_telemetry offering "event_process" false
                             (Some "initial-offering-process")) in
  (if configured (off_order_processing_backend offering) then
     let! p := own_processor env offering order_processing_backend "OfferingOrderProcessor" service in
     on_processor (process_offering_orders (config offering (pr_backend p)))
   else ret ()) ;!
  (if configured (off_membership_sync_backend offering) && stomp_membership offering then
     let! p := own_processor env offering membership_sync_backend "OfferingMembershipProcessor" service in
     on_processor (process_offering_membership (config offering (pr_backend p)) false)
   else ret ()).

Definition run_initial_offering_processing (offerings : list Offering) : handler unit :=
  for_each offerings (λ offering,
    logged (if off_stomp_enabled offering then process_offering offering else ret ())).

(** ** Periodic passes *)

Definition run_periodic_username_reconciliation (offerings : list Offering) : handler unit :=
  over_offerings offerings (λ offering,
    if negb (off_username_reconciliation_enabled offering) then ret ()
    else logged (
      get_client_for_offering offering ;!
      let! _ := get_backend_for_offering env offering membership_sync_backend in
      let! _ := run_agent (backend (SyncOfferingUserUsernames (off_uuid offering))) in
      ret ())).

Definition run_username_backend_reconciliation (offering : Offering) : handler unit :=
  let! o := attempt (call (Sub (GetUsernameBackend (off_uuid offering)))) in
  match o with
  | Err _ => ret ()
  | Ok hooks => logged (
      get_client_for_offering offering ;!
      (if overrides_sync_user_profiles hooks then
         let! users := call (UnrestrictedOfferingUsers None) in
         match users with
         | [] => ret ()
         | _ => run_agent (username (SyncUserProfiles users))
         end
       else ret ()) ;!
      (if overrides_reconcile_offering hooks
       then logged (run_agent (username ReconcileOffering)) else ret ()) ;!
      let! departed := run_agent (waldur (OfferingUsersInStates DEPARTED_OFFERING_USER_STATES)) in
      process_offering_user_deletions env expose_backend_error_details offering departed)
  end.

(** The accounts whose username is still to be minted, given another try. *)
Definition retry_stuck_users (offering : Offering) : handler unit :=
  get_client_for_offering offering ;!
  let! stuck_users := call (UnrestrictedOfferingUsers (Some STUCK_STATES)) in
  match stuck_users with
  | [] => ret ()
  | _ =>
      let! x := run_on stuck_users (run_agent (update_offering_users
                  (default_config offering UnknownBackend))) in
      let! _ := of_res x.1 in
      ret ()
  end.

Definition run_periodic_offering_user_reconciliation (offerings : list Offering) : handler unit :=
  over_offerings offerings (λ offering,
    (if configured (off_membership_sync_backend offering)
     then logged (retry_stuck_users offering) else ret ()) ;!
    run_username_backend_reconciliation offering).

(** One processor for all stuck orders of the offering. *)
Definition process_stuck_orders (cfg : processor_config) (orders : list Order)
  : M eventE processor_state unit :=
  for_each orders (λ o,
    touch ;!
    logged (run_agent (process_order_with_retries cfg o 10 5))).

Definition reconcile_orders (offering : Offering) (cutoff : Z) : handler unit :=
  get_client_for_offering offering ;!
  let! stuck_orders := call (OrdersModifiedBefore [OrderState.PENDING_PROVIDER; OrderState.EXECUTING]
                               cutoff) in
  match stuck_orders with
  | [] => ret ()
  | _ =>
      let! p := new_processor env offering order_processing_backend None None in
      let! x := run_on initial_state
                  (process_stuck_orders (default_config offering (pr_backend p)) stuck_orders) in
      of_res x.1
  end.

Definition run_periodic_order_reconciliation (offerings : list Offering) : handler unit :=
  let! now := call (Sub UtcNow) in
  over_offerings offerings (λ offering,
    if negb (configured (off_order_processing_backend offering)) then ret ()
    else logged (reconcile_orders offering (now - stuck_threshold_minutes * 60))).

Definition run_periodic_api_key_reconciliation (offerings : list Offering) : handler unit :=
  let! now := call (Sub UtcNow) in
  over_offerings offerings (λ offering,
    if negb (configured (off_order_processing_backend offering)) then ret ()
    else logged (
      let! b := get_backend_for_offering env offering order_processing_backend in
      if negb (supports_resource_api_keys (bc_capabilities b)) then ret ()
      else
        get_client_for_offering offering ;!
        run_agent (process_pending_api_key_commands (config offering b) (off_uuid offering)
                     (Some (now - stuck_threshold_minutes * 60))))).

(** The processor of the two membership passes below, which is not registered. *)
Definition membership_pass (offering : Offering) (pass : processor_config → proc unit)
  : handler unit :=
  get_client_for_offering offering ;!
  let! b := get_backend_for_offering env offering membership_sync_backend in
  let! p := new_processor env offering membership_sync_backend (Some b) None in
  on_processor (pass (default_config offering (pr_backend p))).

Definition run_periodic_project_hierarchy_sync (offerings : list Offering) : handler unit :=
  over_offerings offerings (λ offering,
    if negb (configured (off_membership_sync_backend offering)) then ret ()
    else logged (membership_pass offering sync_all_resource_projects)).

Definition run_periodic_resource_status_reconciliation (offerings : list Offering) : handler unit :=
  over_offerings offerings (λ offering,
    if negb (off_stomp_enabled offering) || negb (configured (off_membership_sync_backend offering))
       || negb (stomp_membership offering) then ret ()
    else logged (membership_pass offering reconcile_resource_statuses)).

Definition send_agent_health_checks (offerings : list Offering) : handler unit :=
  for_each offerings (λ offering, logged (
    get_client_for_offering offering ;!
    (if configured (off_order_processing_backend offering)
     then let! _ := new_processor env offering order_processing_backend None None in ret ()
     else ret ()) ;!
    call (OrdersPage (off_uuid offering)))).
End Passes.

(** ** The main loop *)

(** In seconds; the resource status pass is off when its interval is not positive. *)
Record loop_config : Type := {
  HEALTH_CHECK_INTERVAL : Z;
  RECONCILIATION_INTERVAL : Z;
  RESOURCE_STATUS_RECONCILIATION_INTERVAL : Z;
  TICK_INTERVAL : Z;
  STOMP_UNHEALTHY_AFTER : Z;
  HANDLER_STUCK_AFTER : Z;
}.

Record loop_state : Type := {
  ls_timers : gset string;
  ls_watchdog : watchdog;
  ls_last_health_check : Z;
  ls_last_reconciliation : Z;
  ls_last_status_reconciliation : option Z;
}.

Definition set_timers t s := {| ls_timers := t; ls_watchdog := ls_watchdog s;
  ls_last_health_check := ls_last_health_check s; ls_last_reconciliation := ls_last_reconciliation s;
  ls_last_status_reconciliation := ls_last_status_reconciliation s |}.
Definition set_watchdog w s := {| ls_timers := ls_timers s; ls_watchdog := w;
  ls_last_health_check := ls_last_health_check s; ls_last_reconciliation := ls_last_reconciliation s;
  ls_last_status_reconciliation := ls_last_status_reconciliation s |}.
Definition set_last_health_check t s := {| ls_timers := ls_timers s; ls_watchdog := ls_watchdog s;
  ls_last_health_check := t; ls_last_reconciliation := ls_last_reconciliation s;
  ls_last_status_reconciliation := ls_last_status_reconciliation s |}.
Definition set_last_reconciliation t s := {| ls_timers := ls_timers s; ls_watchdog := ls_watchdog s;
  ls_last_health_check := ls_last_health_check s; ls_last_reconciliation := t;
  ls_last_status_reconciliation := ls_last_status_reconciliation s |}.
Definition set_last_status t s := {| ls_timers := ls_timers s; ls_watchdog := ls_watchdog s;
  ls_last_health_check := ls_last_health_check s; ls_last_reconciliation := ls_last_reconciliation s;
  ls_last_status_reconciliation := t |}.

Section Loop.
Context (env : environment) (expose_backend_error_details : bool).
Context (cfg : loop_config) (offerings : list Offering).

Abbreviation loop := (M eventE loop_state).

Definition watchdog_configuration : watchdog_config :=
  {| wd_offerings := offerings; wd_unhealthy_after := STOMP_UNHEALTHY_AFTER cfg;
     wd_handler_stuck_after := HANDLER_STUCK_AFTER cfg |}.

Definition on_timers (m : M eventE (gset string) unit) : loop unit := zoom ls_timers set_timers m.

(** Whether the status pass is due, and what it makes of the time of the last one. *)
Definition status_due (now : Z) (last_run : option Z) : bool * option Z :=
  if RESOURCE_STATUS_RECONCILIATION_INTERVAL cfg <=? 0 then (false, last_run)
  else match last_run with
       | None => (false, Some now)
       | Some t => if now - t <? RESOURCE_STATUS_RECONCILIATION_INTERVAL cfg
                   then (false, last_run) else (true, Some now)
       end.

Definition maybe_reconcile_resource_statuses (now : Z) (last_run : option Z) : loop (option Z) :=
  (if (status_due now last_run).1
   then on_timers (run_periodic_resource_status_reconciliation env offerings) else ret ()) ;!
  ret (status_due now last_run).2.

Definition heartbeat_if_healthy (now : Z) : loop unit :=
  let! healthy := zoom ls_watchdog set_watchdog (run_sub (Watchdog.check watchdog_configuration now)) in
  if healthy : bool then touch else ret ().

(** The passes of one reconciliation; the one over usernames where some offering asks for it. *)
Definition reconcile (usernames : bool) : loop unit :=
  (if usernames then on_timers (run_periodic_username_reconciliation env offerings) else ret ()) ;!
  on_timers (run_periodic_order_reconciliation env offerings) ;!
  on_timers (run_periodic_api_key_reconciliation env expose_backend_error_details offerings) ;!
  on_timers (run_periodic_offering_user_reconciliation env true offerings) ;!
  on_timers (run_periodic_project_hierarchy_sync env offerings).

(** One turn of [_run_with_reconciliation] or [_run_without_username_reconciliation]. *)
Definition tick (usernames : bool) : loop unit :=
  let! now := call Now in
  heartbeat_if_healthy now ;!
  let! s := get_st in
  (if HEALTH_CHECK_INTERVAL cfg <=? now - ls_last_health_check s then
     on_timers (send_agent_health_checks env offerings) ;!
     modify_st (set_last_health_check now)
   else ret ()) ;!
  let! s := get_st in
  (if RECONCILIATION_INTERVAL cfg <=? now - ls_last_reconciliation s then
     reconcile usernames ;!
     modify_st (set_last_reconciliation now)
   else ret ()) ;!
  let! s := get_st in
  let! last := maybe_reconcile_resource_statuses now (ls_last_status_reconciliation s) in
  modify_st (set_last_status last) ;!
  run_agent (sleep (TICK_INTERVAL cfg)).

Fixpoint ticks (usernames : bool) (n : nat) : loop unit :=
  match n with O => ret () | S n => tick usernames ;! ticks usernames n end.

(** [start], for its first [n] ticks: the exit with status 1 is an exception. *)
Definition start (n : nat) : loop unit :=
  try! (on_timers (run_initial_offering_processing env expose_backend_error_details offerings) ;!
        let! consumers := run_sub (start_stomp_consumers offerings) in
        modify_st (set_watchdog (new_watchdog consumers)) ;!
        ticks (existsb off_username_reconciliation_enabled offerings) n)
  except (λ _,
    let! s := get_st in
    run_sub (stop_stomp_consumers (consumers (ls_watchdog s))) ;!
    raise (OtherException "SystemExit: 1")).

Definition at_start : loop_state :=
  {| ls_timers := ∅; ls_watchdog := new_watchdog []; ls_last_health_check := 0;
     ls_last_reconciliation := 0; ls_last_status_reconciliation := None |}.
End Loop.

(** ** The pace of the status pass *)

(** The turns of the loop: when each began, and whether the status pass was due. *)
Fixpoint status_schedule (cfg : loop_config) (last_run : option Z) (times : list Z)
  : list (Z * bool) :=
  match times with
  | [] => []
  | t :: times => (t, (status_due cfg t last_run).1) ::
                  status_schedule cfg (status_due cfg t last_run).2 times
  end.

Definition pass_times (schedule : list (Z * bool)) : list Z :=
  omap (λ x, if x.2 : bool then Some x.1 else None) schedule.

Section Pace.
Context (cfg : loop_config).
Abbreviation interval := (RESOURCE_STATUS_RECONCILIATION_INTERVAL cfg).

Lemma passes_apart times t0 :
  Sorted (λ a b, a + interval ≤ b) (t0 :: pass_times (status_schedule cfg (Some t0) times)).
Proof.
  revert t0; induction times as [|t times IH]; intros t0; [by repeat constructor|].
  specialize (IH t) as IHt. specialize (IH t0).
  unfold pass_times in *; simpl; unfold status_due. destruct (interval <=? 0); simpl; [exact IH|].
  destruct (t - t0 <? interval) eqn:Hd; simpl; [exact IH|].
  constructor; [exact IHt|]. constructor. apply Z.ltb_ge in Hd. lia.
Qed.

Lemma passes_close times t0 t1 δ :
  0 < interval → t1 - t0 < interval →
  Sorted (λ a b, b ≤ a + δ) (t1 :: times) → 0 ≤ δ →
  Sorted (λ a b, b < a + interval + δ) (t0 :: pass_times (status_schedule cfg (Some t0) times)).
Proof.
  intros Hi. revert t0 t1; induction times as [|t times IH]; intros t0 t1 H1 Hs Hδ; [by repeat constructor|].
  apply Sorted_inv in Hs as [Hs Hh]. apply HdRel_inv in Hh.
  unfold pass_times in *; simpl; unfold status_due.
  replace (interval <=? 0) with false by (symmetry; apply Z.leb_gt; lia).
  destruct (t - t0 <? interval) eqn:Hd; simpl.
  - apply Z.ltb_lt in Hd. by apply (IH t0 t).
  - constructor; [|constructor; lia]. apply (IH t t); [lia|done|done].
Qed.

Lemma disabled_passes times last :
  interval ≤ 0 → pass_times (status_schedule cfg last times) = [].
Proof.
  intros Hi. unfold pass_times. revert last. induction times as [|t ts IH]; intros last; simpl; [done|].
  unfold status_due. replace (_ <=? 0) with true by (symmetry; apply Z.leb_le; lia). apply IH.
Qed.
End Pace.

Lemma keeps_zoom {E S T A} (I : S → Prop) (get : S → T) set (m : M E T A) :
  (∀ s t, I s → I (set t s)) → keeps I (zoom get set m).
Proof.
  intros HI s H Hs. unfold wpM, zoom. apply wp_bind.
  eapply wp_mono; [done| |apply (wpM_true m (get s) H)]. intros [t r] H' _. simpl. by apply HI.
Qed.

Lemma keeps_runs {E S A} (I : S → Prop) (m : M E S A) s τ s' r :
  keeps I m → I s → runs (m s) τ (s', r) → I s'.
Proof. intros Hm Hs Hr. by destruct (wpM_sound _ _ _ _ _ _ _ (Hm s [] Hs) Hr). Qed.

Section Turns.
Context (env : environment) (expose : bool) (cfg : loop_config) (offerings : list Offering).

Lemma keeps_on_timers I m :
  (∀ s t, I s → I (set_timers t s)) → keeps I (on_timers m).
Proof. apply keeps_zoom. Qed.

Abbreviation status_is last := (λ s, ls_last_status_reconciliation s = last).

Lemma timers_keep last m : keeps (status_is last) (on_timers m).
Proof. by apply keeps_on_timers. Qed.

Lemma heartbeat_keeps last now : keeps (status_is last) (heartbeat_if_healthy cfg offerings now).
Proof.
  apply keeps_bind; [by apply keeps_zoom|]. intros []; [apply keeps_call|apply keeps_ret].
Qed.

Lemma reconcile_keeps last usernames : keeps (status_is last) (reconcile env expose offerings usernames).
Proof.
  unfold reconcile. repeat (first [by apply keeps_on_timers|keeps_step]).
Qed.

Lemma if_due_keeps last (b : bool) (m : M eventE loop_state unit) f :
  keeps (status_is last) m → (∀ s, status_is last s → status_is last (f s)) →
  keeps (status_is last) (if b then m ;! modify_st f else ret ()).
Proof.
  intros Hm Hf. destruct b; [|apply keeps_ret]. apply keeps_bind; [done|]. intros _. by apply keeps_modify.
Qed.

(** One turn, seen from outside: the status pass comes last before the sleep. *)
Record turn : Type := { turn_at : Z; turn_before : trace eventE; turn_status : trace eventE }.

Definition turn_trace (u : turn) : trace eventE :=
  Ev Now (Ok (turn_at u)) :: turn_before u ++ turn_status u ++
  [Ev (Agent (Sleep (TICK_INTERVAL cfg))) (Ok ())].

Definition turn_does (u : turn) (due : bool) : Prop :=
  if due then ∃ t t', runs (run_periodic_resource_status_reconciliation env offerings t)
                        (turn_status u) (t', Ok ())
  else turn_status u = [].

Lemma status_runs now last s τ s' r :
  runs (maybe_reconcile_resource_statuses env cfg offerings now last s) τ (s', r) → ∀ v, r = Ok v →
  v = (status_due cfg now last).2 ∧
  if (status_due cfg now last).1
  then ∃ t t', runs (run_periodic_resource_status_reconciliation env offerings t) τ (t', Ok ())
  else τ = [].
Proof.
  intros Hr v ->. unfold maybe_reconcile_resource_statuses in Hr.
  apply runs_bind_inv in Hr as [(τ1 & s1 & [] & τ2 & -> & H1 & [-> [= <- <-]])|(e & [=] & _)].
  split; [done|]. rewrite app_nil_r. destruct (status_due cfg now last).1.
  - apply runs_pbind in H1 as (τ3 & [t' r'] & τ4 & -> & H3 & [-> [= _ ->]]). rewrite app_nil_r. eauto.
  - by destruct H1.
Qed.

Lemma runs_bind_ok {E S A B} (m : M E S A) (f : A → M E S B) s τ s' b :
  runs (bind m f s) τ (s', Ok b) →
  ∃ τ1 s1 a τ2, τ = τ1 ++ τ2 ∧ runs (m s) τ1 (s1, Ok a) ∧ runs (f a s1) τ2 (s', Ok b).
Proof. intros [?|(e & [=] & _)]%runs_bind_inv; done. Qed.

Lemma runs_call_ok {E S X} (c : E X) (s : S) τ s' x :
  runs (call c s) τ (s', Ok x) → s' = s ∧ τ = [Ev c (Ok x)].
Proof. intros (r & τ' & -> & [-> [= <- ->]]). done. Qed.

Lemma tick_turn usernames s τ s' :
  runs (tick env expose cfg offerings usernames s) τ (s', Ok ()) →
  ∃ u, τ = turn_trace u ∧
    turn_does u (status_due cfg (turn_at u) (ls_last_status_reconciliation s)).1 ∧
    ls_last_status_reconciliation s' =
      (status_due cfg (turn_at u) (ls_last_status_reconciliation s)).2.
Proof.
  unfold tick. intros Hr. apply runs_bind_ok in Hr as (τ0 & s0 & now & τr & -> & H0 & Hr).
  apply runs_call_ok in H0 as [-> ->].
  apply runs_bind_ok in Hr as (τ1 & s1 & [] & τr1 & -> & H1 & Hr).
  pose proof (keeps_runs _ _ _ _ _ _ (heartbeat_keeps (ls_last_status_reconciliation s) now)
    eq_refl H1) as Hs1. cbv beta in Hs1.
  apply runs_bind_ok in Hr as (? & ? & st & τr2 & -> & [-> [= <- <-]] & Hr).
  apply runs_bind_ok in Hr as (τ2 & s2 & [] & τr3 & -> & H2 & Hr).
  pose proof (keeps_runs _ _ _ _ _ _ (if_due_keeps (ls_last_status_reconciliation s1) _ _
    (set_last_health_check now) (timers_keep _ _) (λ _ H, H)) eq_refl H2) as Hs2. cbv beta in Hs2.
  apply runs_bind_ok in Hr as (? & ? & st & τr4 & -> & [-> [= <- <-]] & Hr).
  apply runs_bind_ok in Hr as (τ3 & s3 & [] & τr5 & -> & H3 & Hr).
  pose proof (keeps_runs _ _ _ _ _ _ (if_due_keeps (ls_last_status_reconciliation s2) _ _
    (set_last_reconciliation now) (reconcile_keeps _ _) (λ _ H, H)) eq_refl H3) as Hs3. cbv beta in Hs3.
  apply runs_bind_ok in Hr as (? & ? & st & τr6 & -> & [-> [= <- <-]] & Hr).
  apply runs_bind_ok in Hr as (τ4 & s4 & last & τr7 & -> & H4 & Hr).
  apply status_runs with (v := last) in H4 as [-> H4]; [|done].
  apply runs_bind_ok in Hr as (? & s5 & [] & τr8 & -> & [-> [= <-]] & Hr).
  apply (runs_call_ok (Agent (Sleep _))) in Hr as [-> ->].
  rewrite Hs3, Hs2, Hs1 in *.
  exists {| turn_at := now; turn_before := τ1 ++ τ2 ++ τ3; turn_status := τ4 |}.
  split; [|done]. unfold turn_trace. simpl. by rewrite <- !app_assoc.
Qed.

Lemma ticks_turns usernames n s τ s' :
  runs (ticks env expose cfg offerings usernames n s) τ (s', Ok ()) →
  ∃ turns, length turns = n ∧ τ = concat (map turn_trace turns) ∧
    Forall2 turn_does turns
      (map snd (status_schedule cfg (ls_last_status_reconciliation s) (map turn_at turns))).
Proof.
  revert s τ; induction n as [|n IH]; intros s τ Hr.
  - exists []. by destruct Hr as [-> _].
  - apply runs_bind_ok in Hr as (τ1 & s1 & [] & τ2 & -> & H1 & H2).
    apply tick_turn in H1 as (u & -> & Hu & Hs). apply IH in H2 as (turns & <- & -> & Hf).
    exists (u :: turns). split; [done|]. split; [done|]. simpl. constructor; [done|]. by rewrite <- Hs.
Qed.

Lemma schedule_times last times : map fst (status_schedule cfg last times) = times.
Proof. revert last; induction times as [|t times IH]; intros last; simpl; [done|]. by rewrite IH. Qed.

(** In the event loop the resource status pass never runs in the first turn, and from
    then on at intervals of at least the configured one, whatever the clock shows; while
    turns begin at most [δ] apart, no more than the interval and [δ] pass between two
    passes.  A disabled pass never runs. *)
Theorem status_pass_paced usernames n s τ s' :
  runs (ticks env expose cfg offerings usernames (S n) s) τ (s', Ok ()) →
  ls_last_status_reconciliation s = None →
  ∃ u turns schedule, length turns = n ∧ τ = concat (map turn_trace (u :: turns)) ∧
    turn_status u = [] ∧
    map fst schedule = map turn_at turns ∧ Forall2 turn_does turns (map snd schedule) ∧
    let interval := RESOURCE_STATUS_RECONCILIATION_INTERVAL cfg in
    (interval ≤ 0 → pass_times schedule = []) ∧
    (0 < interval → Sorted (λ a b, a + interval ≤ b) (turn_at u :: pass_times schedule)) ∧
    (0 < interval → ∀ δ, 0 ≤ δ → Sorted (λ a b, b ≤ a + δ) (turn_at u :: map turn_at turns) →
       Sorted (λ a b, b < a + interval + δ) (turn_at u :: pass_times schedule)).
Proof.
  intros Hr Hnone. apply ticks_turns in Hr as ([|u turns] & [= Hlen] & -> & Hf).
  rewrite Hnone in Hf. simpl in Hf. apply Forall2_cons in Hf as [Hu Hf].
  exists u, turns, (status_schedule cfg (status_due cfg (turn_at u) None).2 (map turn_at turns)).
  split; [done|]. split; [done|]. split.
  { unfold status_due in Hu. by destruct (_ <=? 0). }
  split; [apply schedule_times|]. split; [done|]. split_and!.
  - apply disabled_passes.
  - intros Hi. unfold status_due at 1. replace (_ <=? 0) with false by (symmetry; apply Z.leb_gt; lia).
    apply passes_apart.
  - intros Hi δ Hδ Hs. unfold status_due at 1.
    replace (_ <=? 0) with false by (symmetry; apply Z.leb_gt; lia).
    apply (passes_close _ _ _ (turn_at u)); [done|lia|done|done].
Qed.
End Turns.

(** ** What stops a pass *)

Section Isolation.
Context (env : environment) (expose : bool).

(** Ended normally, or by the heartbeat file. *)
Definition stopped_by_heartbeat {S} (r : res unit) (s : S) (H : trace eventE) : Prop :=
  r = Ok () ∨ ∃ e H', r = Err e ∧ H = Ev (Agent TouchHeartbeat) (Err e) :: H'.

Lemma touch_spec {S} (s : S) H :
  wpM (λ _ _ _, True) touch (λ r _ H', ∀ e, r = Err e → ∃ H0, H' = Ev (Agent TouchHeartbeat) (Err e) :: H0) s H.
Proof.
  unfold touch, run_agent, inside, touch_heartbeat, call, wpM. simpl. split; [done|].
  intros r e ->. by exists H.
Qed.

Lemma over_offerings_spec {S} (offerings : list Offering) (body : Offering → M eventE S unit) s H :
  (∀ o s H, wpM (λ _ _ _, True) (body o) (λ r _ _, r = Ok ()) s H) →
  wpM (λ _ _ _, True) (over_offerings offerings body) stopped_by_heartbeat s H.
Proof.
  intros Hb. unfold over_offerings.
  apply (wpM_for_each _ _ _ (λ _ _ _, True)); [|by left|done].
  intros xs o s1 H1 _ _. apply wpM_bind. eapply wpM_mono; [apply touch_spec|].
  intros [[]|e] s2 H2 Ht; [|destruct (Ht e eq_refl) as [H0 ->]; right; eauto].
  apply (wpM_mono _ _ (λ r _ _, r = Ok ())); [apply Hb|]. by intros ? ? ? ->.
Qed.

Lemma logged_spec {S} (m : M eventE S unit) s H :
  wpM (λ _ _ _, True) (logged m) (λ r _ _, r = Ok ()) s H.
Proof. by apply wpM_logged. Qed.

Lemma username_reconciliation_spec offering s H :
  wpM (λ _ _ _, True) (run_username_backend_reconciliation env expose offering)
    (λ r _ _, r = Ok ()) s H.
Proof.
  unfold run_username_backend_reconciliation. apply wpM_bind, wpM_attempt, wpM_call; [done|].
  intros [hooks|e]; [apply logged_spec|by wp_step].
Qed.

(** The periodic passes over the offerings, but for the ones that first read the clock. *)
Definition periodic_passes : list (list Offering → M eventE (gset string) unit) :=
  [run_periodic_username_reconciliation env;
   run_periodic_offering_user_reconciliation env expose;
   run_periodic_project_hierarchy_sync env;
   run_periodic_resource_status_reconciliation env].

Definition clocked_passes : list (list Offering → M eventE (gset string) unit) :=
  [run_periodic_order_reconciliation env; run_periodic_api_key_reconciliation env expose].

(** Whatever fails for an offering stays with that offering: a periodic pass ends
    normally, having gone through all of them, or because the heartbeat file could not be
    written, or the clock not read.  The processing at start and the health checks never
    fail. *)
Theorem passes_isolate_offerings pass offerings s τ s' r :
  pass ∈ periodic_passes ++ clocked_passes ++
         [run_initial_offering_processing env expose; send_agent_health_checks env] →
  runs (pass offerings s) τ (s', r) →
  r = Ok () ∨ ∃ e τ', r = Err e ∧
    ((pass ∈ periodic_passes ++ clocked_passes ∧ τ = τ' ++ [Ev (Agent TouchHeartbeat) (Err e)]) ∨
     (pass ∈ clocked_passes ∧ τ = [Ev (Sub UtcNow) (Err e)])).
Proof.
  intros Hp Hr.
  assert (Hloop : ∀ body s H, wpM (λ _ _ _, True) (for_each offerings (λ o, logged (S:=gset string) (body o)))
    (λ r _ _, r = Ok ()) s H).
  { intros body s1 H1. apply (wpM_for_each _ _ _ (λ _ _ _, True)); [|done|done].
    intros xs o s2 H2 _ _. apply (wpM_mono _ _ (λ r _ _, r = Ok ())); [apply logged_spec|].
    by intros ? ? ? ->. }
  assert (Hbody : ∀ body s H, (∀ o s H, wpM (λ _ _ _, True) (body o) (λ r _ _, r = Ok ()) s H) →
    wpM (λ _ _ _, True) (over_offerings (S:=gset string) offerings body) stopped_by_heartbeat s H).
  { intros. by apply over_offerings_spec. }
  assert (Hw : wpM (λ _ _ _, True) (pass offerings) (λ r s' H, r = Ok () ∨
     (pass ∈ periodic_passes ++ clocked_passes ∧ stopped_by_heartbeat r s' H) ∨
     (pass ∈ clocked_passes ∧ ∃ e, r = Err e ∧ H = [Ev (Sub UtcNow) (Err e)])) s []).
  2:{ destruct (wpM_sound _ _ _ _ _ _ _ Hw Hr) as [[?|[[Hin [?|(e & H' & -> & Hh)]]|(Hin & e & -> & Hh)]] _];
        [by left|by left|right|right];
        apply (f_equal (@rev _)) in Hh; rewrite rev_involutive in Hh.
      - exists e, (rev H'). split; [done|]. left. done.
      - exists e, []. split; [done|]. by right. }
  apply elem_of_app in Hp as [Hp|[Hp|Hp]%elem_of_app].
  - apply (wpM_mono _ _ stopped_by_heartbeat); [|intros r1 s1 H1 ?; right; left; split; [|done]; set_solver].
    unfold periodic_passes in Hp. repeat (apply elem_of_cons in Hp as [->|Hp]); [..|by apply elem_of_nil in Hp];
      apply Hbody; intros o s1 H1; try wp_case; try by wp_step.
    all: try apply logged_spec.
    apply wpM_bind. destruct (configured _); [|wp_step; apply username_reconciliation_spec].
    eapply wpM_mono; [apply logged_spec|]. intros ? ? ? ->. apply username_reconciliation_spec.
  - unfold clocked_passes in Hp.
    assert (Hc : pass ∈ clocked_passes) by done.
    repeat (apply elem_of_cons in Hp as [->|Hp]); [..|by apply elem_of_nil in Hp].
    all: apply wpM_bind, wpM_call; [done|].
    all: intros [now|e]; [|right; right; split; [done|]; by exists e].
    all: apply (wpM_mono _ _ stopped_by_heartbeat);
      [|intros r1 s1 H1 ?; right; left; split; [set_solver|done]].
    all: apply Hbody; intros o s1 H1; wp_case; [by wp_step|apply logged_spec].
  - apply (wpM_mono _ _ (λ r _ _, r = Ok ())); [|by left].
    repeat (apply elem_of_cons in Hp as [->|Hp]); [..|by apply elem_of_nil in Hp]; apply Hloop.
Qed.
End Isolation.

(** ** A concrete loop *)

Definition loop_sub (clock : Z) X (c : subE X) : res X :=
  match c with
  | UtcNow => Ok clock
  | ReconcilesProjectGroups _ => Ok false
  | GetOrderBackend _ => Ok ()
  | ExpectsTargetEventSubscriptions _ => Ok false
  | c => sub_answer _ c
  end.

Definition loop_agent X (c : agentE X) : res X :=
  match c with TouchHeartbeat => Ok () | Sleep _ => Ok () | c => agent_answer _ c end.

(** A clock that advances by a minute whenever it is read. *)
Definition loop_answer X (c : eventE X) (clock : Z) : res X * Z :=
  match c with
  | Now => (Ok clock, clock + 60)
  | Sub c => (loop_sub clock _ c, clock)
  | Agent c => (loop_agent _ c, clock)
  | c => (event_answer _ c, clock)
  end.

Definition sample_loop : loop_config :=
  {| HEALTH_CHECK_INTERVAL := 1800; RECONCILIATION_INTERVAL := 3600;
     RESOURCE_STATUS_RECONCILIATION_INTERVAL := 100; TICK_INTERVAL := 60;
     STOMP_UNHEALTHY_AFTER := 600; HANDLER_STUCK_AFTER := 3600 |}.

Definition sample_ticks (n : nat) :=
  ticks sample_environment false sample_loop [sample_offering] false n at_start.

Definition ticks_run := Eval vm_compute in exec loop_answer (sample_ticks 3) 1000.

Lemma status_pass_paced_witness :
  ∃ u turns, ticks_run.1.2 = concat (map (turn_trace sample_loop) (u :: turns)) ∧
    length turns = 2%nat ∧ turn_status u = [].
Proof.
  assert (Hr : runs (sample_ticks 3) ticks_run.1.2 (ticks_run.1.1.1, Ok ())).
  { assert (exec loop_answer (sample_ticks 3) 1000 = ticks_run) as <- by (vm_compute; reflexivity).
    apply (exec_runs_pair loop_answer (sample_ticks 3) 1000). }
  destruct (status_pass_paced sample_environment false sample_loop [sample_offering] false 2
    at_start _ _ Hr eq_refl) as (u & turns & schedule & Hl & Ht & Hu & _).
  exists u, turns. split; [exact Ht|]. split; [exact Hl|exact Hu].
Defined.

Lemma passes_isolate_offerings_witness :
  let run := exec loop_answer (run_periodic_order_reconciliation sample_environment
                                 [sample_offering; sample_offering] ∅) 1000 in
  run.1.1.2 = Ok () ∧ length run.1.2 = 7%nat.
Proof.
  split; [|vm_compute; reflexivity].
  destruct (passes_isolate_offerings sample_environment false
    (run_periodic_order_reconciliation sample_environment) [sample_offering; sample_offering] ∅ _ _ _
    ltac:(unfold periodic_passes, clocked_passes; set_solver)
    (exec_runs_pair loop_answer (run_periodic_order_reconciliation sample_environment
       [sample_offering; sample_offering] ∅) 1000)) as [H|(e & τ' & H & _)]; [exact H|].
  exfalso. revert H. vm_compute. discriminate.
Defined.
