(* ===== verification/Polling.v ===== *)
(** * The polling modes

    [polling_processing/agent_order_process.py], [agent_membership_sync.py] and
    [agent_report.py]: one pass over the offerings of each polling agent, and the loop
    that starts one when its period has elapsed. *)

From stdpp Require Import base list strings gmap sets.
From Stdlib Require Import ZArith Lia.
From S2P Require Import Prelude.
From S2P Require Import Structures.
From S2P Require Import Agent.
From S2P Require Import Watchdog.
From S2P Require Import Samples.
From S2P Require Import OfferingUsers.
From S2P Require Import Orders.
From S2P Require Import ApiKeys.
From S2P Require Import Membership.
From S2P Require Import Numbers.
From S2P Require Import ReportEffects.
From S2P Require Import Report.
From S2P Require Import Subscriptions.
From S2P Require Import Handlers.
From S2P Require Import EventLoop.

Local Open Scope Z_scope.
Local Open Scope prog_scope.

(** [configuration.waldur_site_agent_mode], [log_shipping.enabled] and what a report
    processor is constructed with beside its backend. *)
Record polling_config : Type := {
  pc_offerings : list Offering;
  pc_mode : string;
  pc_log_shipping : bool;
  pc_expose_backend_error_details : bool;
  pc_report : backend_class → processor_config → report_config;
}.

(** The reports of closed months, which outlive the processor. *)
Abbreviation final_reports := (list ((string * date) * final_report)).

Section Polling.
Context (env : environment) (cfg : polling_config).

Abbreviation config := (config_of env (pc_expose_backend_error_details cfg)).

(** The processor of one offering, registered with the agent's service. *)
Definition polling_processor {S} (offering : Offering) (key : backend_key) (name : string)
  : M eventE S processor :=
  get_client_for_offering offering ;!
  let! service := run_sub (ensure_agent_telemetry offering (pc_mode cfg) (pc_log_shipping cfg) None) in
  injected_processor env offering key name service.

(** ** Orders *)

Definition poll_orders {S} (offering : Offering) : M eventE S unit :=
  let! p := polling_processor offering order_processing_backend "OfferingOrderProcessor" in
  logged (on_processor (process_offering_orders (config offering (pr_backend p)))) ;!
  run_agent (process_pending_api_key_commands (config offering (pr_backend p)) (off_uuid offering) None).

Definition order_process_offerings {S} : M eventE S unit :=
  over_offerings (pc_offerings cfg) (λ offering,
    if off_stomp_enabled offering || negb (configured (off_order_processing_backend offering))
    then ret () else logged (poll_orders offering)).

(** ** Memberships *)

Definition use_stomp (offering : Offering) : bool :=
  match off_stomp_membership_sync_enabled offering with
  | Some b => b
  | None => off_stomp_enabled offering
  end.

Definition poll_memberships {S} (offering : Offering) : M eventE S unit :=
  let! p := polling_processor offering membership_sync_backend "OfferingMembershipProcessor" in
  on_processor (process_offering_membership (config offering (pr_backend p)) false).

Definition membership_sync_offerings {S} : M eventE S unit :=
  over_offerings (pc_offerings cfg) (λ offering,
    if use_stomp offering then ret () else logged (poll_memberships offering)).

(** ** Reports *)

(** A processor with empty caches over the reports sent so far. *)
Definition on_report_processor {A} (m : report A) : M eventE final_reports A := λ sent,
  pbind (Prelude.lift (@Usage) (m {| rs_processor := initial_state; rs_final_reports := sent; rs_listed := None |}))
    (λ '(s, r), Ret (rs_final_reports s, r)).

Definition poll_report (offering : Offering) : M eventE final_reports unit :=
  let! p := polling_processor offering reporting_backend "OfferingReportProcessor" in
  on_report_processor (process_offering_usage
    (pc_report cfg (pr_backend p) (config offering (pr_backend p)))).

Definition report_offerings : M eventE final_reports unit :=
  over_offerings (pc_offerings cfg) (λ offering, logged (poll_report offering)).
End Polling.

(** [start]: one turn of the loop of a polling agent, over the time of its last pass. *)
Definition poll_turn {S} (interval tick_interval : Z) (pass : M eventE S unit)
  : M eventE (Z * S) unit :=
  let! now := call Now in
  let! s := get_st in
  (if interval <=? now - s.1 then
     zoom snd (λ t s, (s.1, t)) pass ;!
     let! finished := call Now in
     modify_st (λ s, (finished, s.2))
   else ret ()) ;!
  touch ;!
  run_agent (sleep tick_interval).

(** ** Who synchronises memberships *)

Section Owners.
Context (env : environment) (cfg : polling_config) (expose : bool).

(** The two agents that may synchronise the memberships of an offering. *)
Definition polling_owns (o : Offering) : bool := negb (use_stomp o).
Definition event_owns (o : Offering) : bool := off_stomp_enabled o && stomp_membership o.

Lemma runs_if_ret {E S} (b : bool) (m : M E S unit) s τ s' r :
  b = true → runs ((if b then ret () else m) s) τ (s', r) → τ = [] ∧ s' = s ∧ r = Ok ().
Proof. intros -> [-> [= -> ->]]. done. Qed.

(** A pass over one offering that it skips. *)
Lemma skipped_runs {S} (o : Offering) (body : Offering → M eventE S unit) s τ s' r :
  body o = ret () → runs (over_offerings [o] body s) τ (s', r) →
  ∃ a, τ = [Ev (Agent TouchHeartbeat) a].
Proof.
  intros Hb Hr. unfold over_offerings in Hr. simpl in Hr. rewrite Hb in Hr.
  destruct Hr as (a & τ' & -> & Hr). exists a. destruct a as [[]|e]; by destruct Hr as [-> _].
Qed.

Lemma process_offering_orders_only o (s : gset string) τ s' r :
  stomp_membership o = false →
  runs (EventLoop.process_offering env expose o s) τ (s', r) →
  set_up_for (λ p, process_offering_orders (config_of env expose o (pr_backend p))) τ.
Proof.
  intros Hm. unfold EventLoop.process_offering. rewrite Hm, andb_false_r.
  apply set_up_bind; [apply get_client_setup|]. intros _ s1 τ1.
  apply set_up_bind; [apply run_sub_setup|]. intros service s2 τ2 Hr.
  apply runs_bind_inv in Hr as [(τ3 & s3 & [] & τ4 & -> & H3 & [-> _])|(e & -> & H3)];
    rewrite ?app_nil_r; destruct (configured _); try by eapply set_up_nothing.
  all: revert H3; apply set_up_bind; [apply own_processor_setup|]; intros p s4 τ5;
    apply (set_up_processor (λ p, process_offering_orders (config_of env expose o (pr_backend p)))).
Qed.

(** The memberships of an offering are synchronised by exactly one of the two agents,
    the polling and the event one, unless the configuration hands them to STOMP while STOMP
    is off: then by neither.  An agent that does not own them leaves them alone: the polling
    pass only touches the heartbeat, and so does the status pass of the event agent, whose
    processing at start then does nothing but set up and process orders. *)
Theorem membership_has_one_owner o :
  (polling_owns o = negb (event_owns o) ∨
   (off_stomp_enabled o = false ∧ off_stomp_membership_sync_enabled o = Some true ∧
    polling_owns o = false ∧ event_owns o = false)) ∧
  (polling_owns o = false → pc_offerings cfg = [o] → ∀ (s s' : gset string) τ r,
     runs (membership_sync_offerings env cfg s) τ (s', r) →
     ∃ a, τ = [Ev (Agent TouchHeartbeat) a]) ∧
  (event_owns o = false → ∀ s s' τ r,
     (runs (run_periodic_resource_status_reconciliation env [o] s) τ (s', r) →
      ∃ a, τ = [Ev (Agent TouchHeartbeat) a]) ∧
     (runs (run_initial_offering_processing env expose [o] s) τ (s', r) →
      set_up_for (λ p, process_offering_orders (config_of env expose o (pr_backend p))) τ)).
Proof.
  split; [|split].
  - unfold polling_owns, event_owns, use_stomp, stomp_membership.
    destruct (off_stomp_enabled o), (off_stomp_membership_sync_enabled o) as [[]|];
      simpl; auto; case_bool_decide; simpl; auto; try done; by right.
  - intros Hp Hc s s' τ r. unfold membership_sync_offerings. rewrite Hc. apply skipped_runs.
    unfold polling_owns in Hp. apply negb_false_iff in Hp. by rewrite Hp.
  - intros He s s' τ r. split.
    + apply skipped_runs. unfold event_owns in He. apply andb_false_iff in He as [->| ->]; [done|].
      by rewrite orb_true_r.
    + intros Hr. unfold run_initial_offering_processing in Hr. simpl in Hr.
      apply runs_bind_inv in Hr as [(τ1 & s1 & [] & τ2 & -> & H1 & [-> _])|(e & -> & H1)];
        rewrite ?app_nil_r; apply logged_runs in H1 as [_ (x & H1)];
        destruct (off_stomp_enabled o) eqn:Hs; try by eapply set_up_nothing.
      all: eapply process_offering_orders_only; [|exact H1].
      all: unfold event_owns in He; by rewrite Hs in He.
Qed.
End Owners.

(** ** Orders and keys *)

Section OrdersAndKeys.
Context (env : environment) (cfg : polling_config) {S : Type}.
Abbreviation config := (config_of env (pc_expose_backend_error_details cfg)).

Lemma polling_processor_setup offering key name :
  calls (S:=S) setup_call (polling_processor env cfg offering key name).
Proof.
  apply calls_bind; [apply get_client_setup|]. intros _.
  apply calls_bind; [apply run_sub_setup|]. intros service. apply injected_processor_setup.
Qed.

(** Without STOMP the pending key commands of an offering are taken up after its orders,
    with the same backend, however the processing of the orders ended: once the processor is
    there, the calls are those of one pass over the orders followed by those of one sweep of
    the key commands, whatever their age. *)
Theorem key_commands_follow_orders offering (s s' : S) τ r :
  runs (poll_orders env cfg offering s) τ (s', r) →
  ∃ τ0 τ1 τ2, τ = τ0 ++ map (lift_event (@Agent)) τ1 ++ map (lift_event (@Agent)) τ2 ∧
    all_calls setup_call τ0 ∧
    ((τ1 = [] ∧ τ2 = [] ∧ ∃ e, r = Err e) ∨
     ∃ p s1 ps x, runs (process_offering_orders (config offering (pr_backend p)) initial_state) τ1 (ps, x) ∧
       runs (process_pending_api_key_commands (config offering (pr_backend p)) (off_uuid offering) None s1)
         τ2 (s', r)).
Proof.
  intros Hr. apply (runs_setup_then _ _ _ _ _ _ (polling_processor_setup _ _ _)) in Hr
    as (τ0 & τr & -> & Hc & [(p & s1 & _ & Hr)|(-> & e & ->)]).
  2:{ exists τ0, [], []. split; [done|]. split; [done|]. left. eauto. }
  apply runs_bind_inv in Hr as [(τ1 & s2 & [] & τ2 & -> & H1 & H2)|(e & -> & H1)].
  - apply logged_runs in H1 as [_ (x & H1)].
    apply runs_on_processor in H1 as (-> & τ3 & ps & -> & H1).
    apply runs_lift in H2 as (τ4 & -> & H2).
    exists τ0, τ3, τ4. split; [done|]. split; [done|]. right. by exists p, s1, ps, x.
  - by apply logged_runs in H1 as [[=] _].
Qed.
End OrdersAndKeys.

Definition sample_polling : polling_config :=
  {| pc_offerings := [sample_offering]; pc_mode := "order_process"; pc_log_shipping := false;
     pc_expose_backend_error_details := true;
     pc_report := λ _ c, {| rep_processor := c; rep_timezone := ""; rep_reporting_periods := 1;
       rep_final_report_days := 0; rep_supports_decreasing_usage := false;
       rep_supports_daily_usage := false; rep_supports_resource_api_key_usage := false;
       rep_backend_components := [] |} |}.

Lemma key_commands_follow_orders_witness :
  let run := exec loop_answer (poll_orders sample_environment sample_polling sample_offering ()) 1000 in
  ∃ τ0 τ1 τ2, run.1.2 = τ0 ++ map (lift_event (@Agent)) τ1 ++ map (lift_event (@Agent)) τ2 ∧
    all_calls setup_call τ0.
Proof.
  destruct (key_commands_follow_orders sample_environment sample_polling sample_offering () _ _ _
    (exec_runs_pair loop_answer (poll_orders sample_environment sample_polling sample_offering ()) 1000))
    as (τ0 & τ1 & τ2 & Ht & Hc & _).
  exists τ0, τ1, τ2. split; [exact Ht|exact Hc].
Defined.
