(* ===== verification/ComponentMapping.v ===== *)
(** * Component mapping

    [common/component_mapping.py]: limits go from the components Waldur shows to those a
    backend manages, usage comes back, each through factors that are Python floats.  Where
    the amounts involved are integers below 2^53 the floats lose nothing, and the
    conversions are the sums they are meant to be. *)

From stdpp Require Import base list strings.
From Stdlib Require Import ZArith Lia SpecFloat.
From S2P Require Import Prelude.
From S2P Require Import Structures.
From S2P Require Import Numbers.
From S2P Require Import FloatInts.

Local Open Scope Z_scope.

(** ** Python numbers *)

(** [float(x)]; an [int] beyond the range of doubles raises. *)
Definition to_float (x : pynum) : res spec_float :=
  match x with
  | PyFloat f => Ok f
  | PyInt z => match float_of_Z z with
              | S754_infinity _ => Err (OverflowError "int too large to convert to float")
              | f => Ok f
              end
  end.

Definition num_add (x y : pynum) : res pynum :=
  match x, y with
  | PyInt a, PyInt b => Ok (PyInt (a + b))
  | _, _ => rbind (to_float x) (λ a, rbind (to_float y) (λ b, Ok (PyFloat (f64_add a b))))
  end.

(** [x * f] and [x / f] for a float [f] that is not zero. *)
Definition num_mul (x : pynum) (f : spec_float) : res pynum :=
  rbind (to_float x) (λ a, Ok (PyFloat (f64_mul a f))).
Definition num_div (x : pynum) (f : spec_float) : res pynum :=
  rbind (to_float x) (λ a, Ok (PyFloat (f64_div a f))).

Definition num_int (x : pynum) : res Z :=
  match x with PyInt z => Ok z | PyFloat f => int_of_float f end.

Definition is_zero (f : spec_float) : bool := match f with S754_zero _ => true | _ => false end.

(** ** The mapper *)

(** [TargetMapping] and [ReverseMapping]: the other component, and the factor. *)
Record mapping : Type := { other_component : string; factor : spec_float }.

Record ComponentMapper : Type := {
  forward_map : list (string * list mapping);
  reverse_map : list (string * list mapping);
  passthrough_components : list string;
}.

Definition no_mapper : ComponentMapper :=
  {| forward_map := []; reverse_map := []; passthrough_components := [] |}.

Definition float_one : spec_float := float_of_Z 1.

(** [self._reverse_map.setdefault(target, []).append(m)] *)
Definition append_reverse (target : string) (x : mapping) (r : list (string * list mapping))
  : list (string * list mapping) :=
  dict_set r target (default [] (dict_get r target) ++ [x]).

Section Build.
(** [float] of a JSON value that is no number. *)
Context (parse_float : json → res spec_float).

Definition factor_of (target_config : json) : res spec_float :=
  match target_config with
  | JObj d => match default (JFloat float_one) (obj_get d "factor") with
              | JFloat f => Ok f
              | JInt z => to_float (PyInt z)
              | JBool b => to_float (PyInt (if b then 1 else 0))
              | v => parse_float v
              end
  | _ => Err (AttributeError "get")
  end.

Fixpoint target_mappings (targets : list (string * json)) : res (list mapping) :=
  match targets with
  | [] => Ok []
  | (target, config) :: targets =>
      rbind (factor_of config) (λ f,
      rbind (target_mappings targets) (λ ms, Ok ({| other_component := target; factor := f |} :: ms)))
  end.

Definition add_component (m : ComponentMapper) (source : string) (config : json)
  : res ComponentMapper :=
  match config with
  | JObj d =>
      let targets := default (JObj []) (obj_get d "target_components") in
      if negb (truthy targets) then
        Ok {| forward_map := dict_set (forward_map m) source
                               [{| other_component := source; factor := float_one |}];
              reverse_map := append_reverse source
                               {| other_component := source; factor := float_one |} (reverse_map m);
              passthrough_components := source :: passthrough_components m |}
      else match targets with
        | JObj targets =>
            rbind (target_mappings targets) (λ ms,
            Ok {| forward_map := dict_set (forward_map m) source ms;
                  reverse_map := foldl (λ r x, append_reverse (other_component x)
                                   {| other_component := source; factor := factor x |} r)
                                   (reverse_map m) ms;
                  passthrough_components := passthrough_components m |})
        | _ => Err (AttributeError "items")
        end
  | _ => Err (AttributeError "get")
  end.

(** [ComponentMapper.__init__]; the keys of a dict are distinct. *)
Fixpoint build (m : ComponentMapper) (backend_components : list (string * json))
  : res ComponentMapper :=
  match backend_components with
  | [] => Ok m
  | (source, config) :: components =>
      rbind (add_component m source config) (λ m, build m components)
  end.
End Build.

(** ** Conversions *)

Definition accumulate (d : list (string * pynum)) (k : string) (x : pynum)
  : res (list (string * pynum)) :=
  rbind (num_add (default (PyInt 0) (dict_get d k)) x) (λ y, Ok (dict_set d k y)).

Definition add_scaled (value : Z) (d : list (string * pynum)) (x : mapping)
  : res (list (string * pynum)) :=
  rbind (num_mul (PyInt value) (factor x)) (accumulate d (other_component x)).

Definition add_limit (m : ComponentMapper) (d : list (string * pynum)) (limit : string * Z)
  : res (list (string * pynum)) :=
  match dict_get (forward_map m) limit.1 with
  | None => accumulate d limit.1 (PyInt limit.2)
  | Some ms => rfold (add_scaled limit.2) ms d
  end.

Fixpoint all_ints (d : list (string * pynum)) : res (list (string * Z)) :=
  match d with
  | [] => Ok []
  | (k, x) :: d => rbind (num_int x) (λ z, rbind (all_ints d) (λ d, Ok ((k, z) :: d)))
  end.

Definition convert_limits_to_target (m : ComponentMapper) (source_limits : list (string * Z))
  : res (list (string * Z)) :=
  rbind (rfold (add_limit m) source_limits []) all_ints.

Definition add_unscaled (value : pynum) (d : list (string * pynum)) (x : mapping)
  : res (list (string * pynum)) :=
  rbind (if is_zero (factor x) then Ok (PyInt 0) else num_div value (factor x))
    (accumulate d (other_component x)).

Definition add_usage (m : ComponentMapper) (d : list (string * pynum)) (usage : string * pynum)
  : res (list (string * pynum)) :=
  match dict_get (reverse_map m) usage.1 with
  | None => Ok d
  | Some ms => rfold (add_unscaled usage.2) ms d
  end.

Definition convert_usage_from_target (m : ComponentMapper) (target_usage : list (string * pynum))
  : res (list (string * pynum)) :=
  rfold (add_usage m) target_usage [].

Definition is_passthrough (m : ComponentMapper) : bool :=
  (length (passthrough_components m) =? length (forward_map m))%nat.

Definition source_components (m : ComponentMapper) : list string := dict_keys (forward_map m).

Definition target_components (m : ComponentMapper) : list string :=
  concat (map (λ x, map other_component x.2) (forward_map m)).

(** ** The sums the conversions compute *)

(** What adds up under each key. *)
Abbreviation contributions := (list (string * Z)).

Definition total (cs : contributions) (k : string) : Z :=
  foldr (λ c acc, if decide (c.1 = k) then c.2 + acc else acc) 0 cs.

Definition weight (cs : contributions) : Z := foldr (λ c acc, Z.abs c.2 + acc) 0 cs.

(** An integer below 2^53, as an [int] or as a double. *)
Definition num_denotes (x : pynum) (z : Z) : Prop :=
  match x with PyInt z' => z' = z | PyFloat f => denotes f z end.

Definition represents (d : list (string * pynum)) (cs : contributions) : Prop :=
  NoDup (dict_keys d) ∧ ∀ k, match dict_get d k with
       | Some x => k ∈ cs.*1 ∧ num_denotes x (total cs k)
       | None => k ∉ cs.*1
       end.

Lemma contributed_app cs cs' k : total (cs ++ cs') k = total cs k + total cs' k.
Proof. induction cs as [|c cs IH]; simpl; [done|]. case_decide; lia. Qed.
Lemma total_single k z k' : total [(k, z)] k' = if decide (k = k') then z else 0.
Proof. simpl. case_decide; lia. Qed.
Lemma weight_app cs cs' : weight (cs ++ cs') = weight cs + weight cs'.
Proof. induction cs as [|c cs IH]; simpl; [done|]. lia. Qed.
Lemma weight_nonneg cs : 0 ≤ weight cs.
Proof. induction cs as [|c cs IH]; simpl; lia. Qed.
Lemma total_weight cs k : Z.abs (total cs k) ≤ weight cs.
Proof.
  induction cs as [|c cs IH]; simpl; [done|]. pose proof (weight_nonneg cs). case_decide; lia.
Qed.
Lemma total_absent cs k : k ∉ cs.*1 → total cs k = 0.
Proof.
  induction cs as [|c cs IH]; simpl; [done|]. intros [Hne Hk]%not_elem_of_cons.
  rewrite decide_False by congruence. by apply IH.
Qed.
Lemma weight_elem c cs : c ∈ cs → Z.abs c.2 ≤ weight cs.
Proof.
  induction cs as [|c' cs IH]; simpl; [by intros ?%elem_of_nil|].
  pose proof (weight_nonneg cs). intros [->|Hc]%elem_of_cons; [lia|]. specialize (IH Hc). lia.
Qed.

Lemma to_float_exact x z : num_denotes x z → Z.abs z < 2 ^ 53 → ∃ f, to_float x = Ok f ∧ denotes f z.
Proof.
  destruct x as [z'|f]; simpl; [intros -> Hz|eauto].
  pose proof (float_of_Z_exact z Hz) as Hf. destruct (float_of_Z z) eqn:He; try done; eauto.
Qed.

Lemma num_add_exact x y a b :
  num_denotes x a → num_denotes y b → Z.abs a < 2 ^ 53 → Z.abs b < 2 ^ 53 →
  Z.abs (a + b) < 2 ^ 53 → ∃ r, num_add x y = Ok r ∧ num_denotes r (a + b).
Proof.
  intros Hx Hy Ha Hb Hab.
  destruct (to_float_exact x a Hx Ha) as (fx & Ex & Dx).
  destruct (to_float_exact y b Hy Hb) as (fy & Ey & Dy).
  assert (Hf : ∃ r, rbind (to_float x) (λ a, rbind (to_float y) (λ b, Ok (PyFloat (f64_add a b)))) = Ok r ∧
    num_denotes r (a + b)).
  { rewrite Ex, Ey. eexists. split; [done|]. by apply f64_add_exact. }
  destruct x as [z1|f1], y as [z2|f2]; [|exact Hf..]. simpl in *. subst. by eexists.
Qed.

Lemma accumulate_spec d cs k x z :
  represents d cs → num_denotes x z → weight (cs ++ [(k, z)]) < 2 ^ 53 →
  ∃ d', accumulate d k x = Ok d' ∧ represents d' (cs ++ [(k, z)]).
Proof.
  intros [Hnd Hd] Hx Hw. rewrite weight_app in Hw. simpl in Hw.
  pose proof (total_weight cs k) as Ht. pose proof (weight_nonneg cs).
  assert (Hold : num_denotes (default (PyInt 0) (dict_get d k)) (total cs k)).
  { specialize (Hd k). destruct (dict_get d k); simpl; [by destruct Hd|]. symmetry. by apply total_absent. }
  destruct (num_add_exact _ _ _ _ Hold Hx ltac:(lia) ltac:(lia) ltac:(lia)) as (r & Hr & Dr).
  exists (dict_set d k r). unfold accumulate. rewrite Hr. split; [done|].
  split; [by apply dict_set_NoDup|].
  intros k'. rewrite fmap_app, contributed_app, total_single.
  destruct (decide (k = k')) as [<-|Hne].
  - rewrite dict_get_set_eq, elem_of_app. split; [right; by left|done].
  - rewrite dict_get_set_ne by done. specialize (Hd k'). destruct (dict_get d k'); rewrite elem_of_app.
    + destruct Hd as [Hin HD]. split; [by left|]. by rewrite Z.add_0_r.
    + intros [?|Hk]; [done|]. apply list_elem_of_singleton in Hk. by apply Hne.
Qed.

Lemma rfold_spec {A} (f : list (string * pynum) → A → res (list (string * pynum)))
    (contrib : A → contributions) l d cs :
  (∀ x d cs, x ∈ l → represents d cs → weight (cs ++ contrib x) < 2 ^ 53 →
     ∃ d', f d x = Ok d' ∧ represents d' (cs ++ contrib x)) →
  represents d cs → weight (cs ++ concat (map contrib l)) < 2 ^ 53 →
  ∃ d', rfold f l d = Ok d' ∧ represents d' (cs ++ concat (map contrib l)).
Proof.
  revert d cs. induction l as [|x l IH]; intros d cs Hf Hd Hw; simpl in *.
  - exists d. by rewrite app_nil_r.
  - rewrite app_assoc in *. pose proof (weight_nonneg (concat (map contrib l))).
    destruct (Hf x d cs) as (d' & -> & Hd'); [by left|done|rewrite weight_app in Hw; lia|].
    apply IH; [|done|done]. intros y d0 cs0 Hy. apply Hf. by right.
Qed.

Lemma all_ints_spec d (f : string → Z) :
  (∀ k x, (k, x) ∈ d → num_denotes x (f k)) →
  all_ints d = Ok (map (λ c, (c.1, f c.1)) d).
Proof.
  induction d as [|[k x] d IH]; intros Hd; simpl; [done|].
  assert (Hx : num_int x = Ok (f k)).
  { specialize (Hd k x ltac:(by left)). destruct x; simpl in *; [by subst|by apply int_of_float_exact]. }
  rewrite Hx, IH; [done|]. intros k' x' Hin. apply Hd. by right.
Qed.

Lemma dict_get_map {V W} (d : list (string * V)) (f : string → W) k :
  dict_get (map (λ c, (c.1, f c.1)) d) k = match dict_get d k with Some _ => Some (f k) | None => None end.
Proof. induction d as [|[k' v] d IH]; simpl; [done|]. case_decide; [by subst|done]. Qed.

Lemma dict_keys_map {V W} (d : list (string * V)) (f : string → W) :
  dict_keys (map (λ c, (c.1, f c.1)) d) = dict_keys d.
Proof. induction d as [|[k v] d IH]; [done|]. exact (f_equal (cons k) IH). Qed.

Lemma represents_value d cs k x : represents d cs → (k, x) ∈ d → num_denotes x (total cs k).
Proof.
  intros [Hnd Hd] Hin. apply dict_In_get in Hin; [|done]. specialize (Hd k). rewrite Hin in Hd. by destruct Hd.
Qed.

(** ** The conversions are sums *)

(** The integer a factor stands for. *)
Definition factor_value (x : mapping) : Z :=
  match int_of_float (factor x) with Ok z => z | Err _ => 0 end.

Definition integral (ms : list (string * list mapping)) : Prop :=
  ∀ k l x, dict_get ms k = Some l → x ∈ l → denotes (factor x) (factor_value x).

(** What a limit adds to the components of the backend. *)
Definition limit_contributions (m : ComponentMapper) (limit : string * Z) : contributions :=
  match dict_get (forward_map m) limit.1 with
  | None => [limit]
  | Some ms => map (λ x, (other_component x, limit.2 * factor_value x)) ms
  end.

(** What a usage adds to the components of Waldur. *)
Definition usage_contributions (m : ComponentMapper) (usage : string * Z) : contributions :=
  match dict_get (reverse_map m) usage.1 with
  | None => []
  | Some ms => map (λ x, (other_component x, usage.2 / factor_value x)) ms
  end.

Lemma map_contributions {A} (l : list A) (g : A → string * Z) : concat (map (λ x, [g x]) l) = map g l.
Proof. induction l as [|x l IH]; simpl; [done|]. by rewrite IH. Qed.

Lemma last_contribution (cs : contributions) c : weight (cs ++ [c]) < 2 ^ 53 → Z.abs c.2 < 2 ^ 53.
Proof. intros Hw. rewrite weight_app in Hw. simpl in Hw. pose proof (weight_nonneg cs). lia. Qed.

Lemma add_scaled_spec v x d cs :
  denotes (factor x) (factor_value x) → Z.abs v < 2 ^ 53 → represents d cs →
  weight (cs ++ [(other_component x, v * factor_value x)]) < 2 ^ 53 →
  ∃ d', add_scaled v d x = Ok d' ∧ represents d' (cs ++ [(other_component x, v * factor_value x)]).
Proof.
  intros Hf Hv Hd Hw. unfold add_scaled, num_mul.
  destruct (to_float_exact (PyInt v) v eq_refl Hv) as (fv & -> & Hfv). simpl.
  apply accumulate_spec; [done| |done]. simpl. apply f64_mul_exact; [done|done|].
  by apply (last_contribution cs (other_component x, _)).
Qed.

Lemma add_unscaled_spec u z x d cs :
  denotes (factor x) (factor_value x) → num_denotes u z → Z.abs z < 2 ^ 53 →
  factor_value x = 0 ∨ (factor_value x | z) → represents d cs →
  weight (cs ++ [(other_component x, z / factor_value x)]) < 2 ^ 53 →
  ∃ d', add_unscaled u d x = Ok d' ∧ represents d' (cs ++ [(other_component x, z / factor_value x)]).
Proof.
  intros Hf Hu Hz Hdiv Hd Hw. unfold add_unscaled.
  assert (Hval : ∃ v, (if is_zero (factor x) then Ok (PyInt 0) else num_div u (factor x)) = Ok v ∧
    num_denotes v (z / factor_value x)).
  { destruct (is_zero (factor x)) eqn:Hzero.
    - exists (PyInt 0). split; [done|]. unfold factor_value. destruct (factor x); try done. simpl.
      by rewrite Z.div_0_r_ext.
    - assert (Hne : factor_value x ≠ 0).
      { destruct (factor x) as [| | |s0 m0 e0]; try done. by eapply denotes_nonzero. }
      destruct Hdiv as [?|[q Hq]]; [done|]. unfold num_div.
      destruct (to_float_exact u z Hu Hz) as (fu & -> & Hfu). eexists. split; [done|]. simpl.
      apply (f64_div_exact _ _ z (factor_value x)); try done.
      + rewrite Hq, Z.div_mul by done. lia.
      + by apply (last_contribution cs (other_component x, _)). }
  destruct Hval as (v & -> & Hv). simpl. by apply accumulate_spec.
Qed.

Lemma convert_limits_sums m limits :
  integral (forward_map m) → Forall (λ l, Z.abs l.2 < 2 ^ 53) limits →
  let cs := concat (map (limit_contributions m) limits) in
  weight cs < 2 ^ 53 →
  ∃ d, represents d cs ∧
    convert_limits_to_target m limits = Ok (map (λ c, (c.1, total cs c.1)) d).
Proof.
  intros Hi Hv cs Hw. unfold convert_limits_to_target.
  destruct (rfold_spec (add_limit m) (limit_contributions m) limits [] []) as (d & -> & Hd).
  - intros l d cs0 Hl Hd Hw0. rewrite Forall_forall in Hv. specialize (Hv l Hl).
    unfold add_limit, limit_contributions in *. destruct (dict_get (forward_map m) l.1) as [ms|] eqn:Hg.
    + rewrite <- map_contributions in *. apply rfold_spec; [|done|done].
      intros x d1 cs1 Hx Hd1 Hw1. apply add_scaled_spec; [by eapply Hi|done|done|done].
    + destruct l as [k v]. by apply accumulate_spec.
  - split; [constructor|]. intros k. by intros ?%elem_of_nil.
  - exact Hw.
  - exists d. split; [done|]. simpl. apply all_ints_spec. intros k x Hin. by eapply represents_value.
Qed.

Lemma convert_usage_sums m usage ints :
  integral (reverse_map m) →
  Forall2 (λ u c, u.1 = c.1 ∧ num_denotes u.2 c.2 ∧ Z.abs c.2 < 2 ^ 53 ∧
    ∀ ms x, dict_get (reverse_map m) c.1 = Some ms → x ∈ ms →
      factor_value x = 0 ∨ (factor_value x | c.2)) usage ints →
  let cs := concat (map (usage_contributions m) ints) in
  weight cs < 2 ^ 53 →
  ∃ out, convert_usage_from_target m usage = Ok out ∧ represents out cs.
Proof.
  intros Hi Hu cs Hw.
  cut (∀ d cs0, represents d cs0 → weight (cs0 ++ cs) < 2 ^ 53 →
    ∃ out, rfold (add_usage m) usage d = Ok out ∧ represents out (cs0 ++ cs)).
  { intros Hc. apply (Hc [] []); [|done]. split; [constructor|]. intros k. by intros ?%elem_of_nil. }
  subst cs. clear Hw. induction Hu as [|[k u] [k' z] usage ints (Hk & Hz & Hb & Hd) Hu IH];
    intros d cs0 Hr Hw; simpl in *.
  - exists d. by rewrite app_nil_r.
  - subst k'. rewrite app_assoc in *.
    pose proof (weight_nonneg (concat (map (usage_contributions m) ints))).
    assert (Hstep : ∃ d', add_usage m d (k, u) = Ok d' ∧
      represents d' (cs0 ++ usage_contributions m (k, z))).
    { rewrite weight_app in Hw. unfold add_usage, usage_contributions in *. simpl in *.
      destruct (dict_get (reverse_map m) k) as [ms|] eqn:Hg; [|exists d; by rewrite app_nil_r].
      rewrite <- map_contributions in *. apply rfold_spec; [|done|lia].
      intros x d1 cs1 Hx Hd1 Hw1. apply add_unscaled_spec; try done; [by eapply Hi|by eapply Hd]. }
    destruct Hstep as (d' & -> & Hd'). simpl. by apply IH.
Qed.

(** As long as factors and amounts are integers whose products add up to less than
    2^53, the conversion of limits is exact: it does not fail, and each component of the
    backend gets the sum, over the limits, of the limit times its factor; a component no
    mapping is known for is passed through. *)
Theorem limits_converted_exactly m limits :
  integral (forward_map m) → Forall (λ l, Z.abs l.2 < 2 ^ 53) limits →
  let cs := concat (map (limit_contributions m) limits) in
  weight cs < 2 ^ 53 →
  ∃ out, convert_limits_to_target m limits = Ok out ∧ NoDup (dict_keys out) ∧
    ∀ k, dict_get out k = if decide (k ∈ cs.*1) then Some (total cs k) else None.
Proof.
  intros Hi Hv cs Hw. destruct (convert_limits_sums m limits Hi Hv Hw) as (d & [Hnd Hd] & ->).
  fold cs in Hd |- *. eexists. split; [done|]. split; [by rewrite dict_keys_map|].
  intros k. rewrite dict_get_map. specialize (Hd k). destruct (dict_get d k).
  - destruct Hd as [Hin _]. by rewrite decide_True.
  - by rewrite decide_False.
Qed.

(** Usage comes back exactly as well: with integer factors, and usage each factor of
    its component divides, every component of Waldur gets the sum of the usage divided by
    the factor over the components it is made of; what comes from a component no mapping
    leads back from, and over a factor of zero, counts for nothing. *)
Theorem usage_converted_exactly m usage ints :
  integral (reverse_map m) →
  Forall2 (λ u c, u.1 = c.1 ∧ num_denotes u.2 c.2 ∧ Z.abs c.2 < 2 ^ 53 ∧
    ∀ ms x, dict_get (reverse_map m) c.1 = Some ms → x ∈ ms →
      factor_value x = 0 ∨ (factor_value x | c.2)) usage ints →
  let cs := concat (map (usage_contributions m) ints) in
  weight cs < 2 ^ 53 →
  ∃ out, convert_usage_from_target m usage = Ok out ∧ represents out cs.
Proof. apply convert_usage_sums. Qed.

(** ** The two maps agree *)

(** What leads back from [target], in the order of the configuration. *)
Definition reverse_of (fm : list (string * list mapping)) (target : string) : list mapping :=
  concat (map (λ e, map (λ x, {| other_component := e.1; factor := factor x |})
                     (filter (λ x, other_component x = target) e.2)) fm).

Definition leads_back (rm : list (string * list mapping)) (target : string) (l : list mapping) : Prop :=
  dict_get rm target = match l with [] => None | _ => Some l end.

Lemma leads_back_append rm target x target' l :
  leads_back rm target' l →
  leads_back (append_reverse target x rm) target' (if decide (target = target') then l ++ [x] else l).
Proof.
  unfold leads_back, append_reverse. intros Hl. case_decide as Hd.
  - subst. rewrite dict_get_set_eq, Hl. by destruct l.
  - by rewrite dict_get_set_ne.
Qed.

Lemma leads_back_fold source ms rm target l :
  leads_back rm target l →
  leads_back (foldl (λ r x, append_reverse (other_component x)
                       {| other_component := source; factor := factor x |} r) rm ms) target
    (l ++ map (λ x, {| other_component := source; factor := factor x |})
            (filter (λ x, other_component x = target) ms)).
Proof.
  revert rm l. induction ms as [|x ms IH]; intros rm l Hl; simpl; [by rewrite app_nil_r|].
  rewrite filter_cons. apply (leads_back_append _ (other_component x)
    {| other_component := source; factor := factor x |}) in Hl. case_decide as Hd.
  - simpl. change (?a :: ?l) with ([a] ++ l). rewrite app_assoc. by apply IH.
  - by apply IH.
Qed.

Lemma dict_set_fresh {V} (d : list (string * V)) k v : k ∉ dict_keys d → dict_set d k v = d ++ [(k, v)].
Proof.
  induction d as [|[k' v'] d IH]; [done|]. intros [Hne Hk]%not_elem_of_cons. simpl.
  rewrite decide_False by done. by rewrite IH.
Qed.

Lemma reverse_of_snoc fm source ms target :
  reverse_of (fm ++ [(source, ms)]) target =
  reverse_of fm target ++ map (λ x, {| other_component := source; factor := factor x |})
                            (filter (λ x, other_component x = target) ms).
Proof. unfold reverse_of. rewrite map_app, concat_app. simpl. by rewrite app_nil_r. Qed.

Definition mapper_ok (m : ComponentMapper) : Prop :=
  (∀ target, leads_back (reverse_map m) target (reverse_of (forward_map m) target)) ∧
  (∀ s, s ∈ passthrough_components m →
     (s, [{| other_component := s; factor := float_one |}]) ∈ forward_map m) ∧
  NoDup (passthrough_components m).

Lemma add_component_ok parse m source config m' :
  add_component parse m source config = Ok m' → source ∉ dict_keys (forward_map m) → mapper_ok m →
  mapper_ok m' ∧ dict_keys (forward_map m') = dict_keys (forward_map m) ++ [source].
Proof.
  intros Ha Hs (Hback & Hpass & Hnd). unfold add_component in Ha.
  assert (Hpass' : ∀ ms s, s ∈ passthrough_components m →
    (s, [{| other_component := s; factor := float_one |}]) ∈ dict_set (forward_map m) source ms).
  { intros ms s Hin. rewrite dict_set_fresh by done. apply elem_of_app. left. by apply Hpass. }
  assert (Hkeys : ∀ ms, dict_keys (dict_set (forward_map m) source ms) = dict_keys (forward_map m) ++ [source]).
  { intros ms. rewrite dict_set_keys. by rewrite decide_False. }
  destruct config as [| | | | | |d]; try done.
  destruct (negb (truthy _)).
  - injection Ha as <-. split; [|apply Hkeys]. unfold mapper_ok. simpl. split_and!.
    + intros target. rewrite dict_set_fresh, reverse_of_snoc by done. simpl.
      specialize (leads_back_append _ source {| other_component := source; factor := float_one |} _ _
        (Hback target)) as Hl. rewrite filter_cons. simpl in *. case_decide; simpl; [exact Hl|].
      by rewrite app_nil_r.
    + intros s [->|Hin]%elem_of_cons; [|by apply Hpass'].
      rewrite dict_set_fresh by done. apply elem_of_app. right. by left.
    + constructor; [|done]. intros Hin. apply Hs. apply Hpass in Hin.
      by apply (list_elem_of_fmap_2 fst) in Hin.
  - destruct (default (JObj []) _) as [| | | | | |targets]; try done.
    destruct (target_mappings parse targets) as [ms|e]; [|done]. injection Ha as <-.
    split; [|apply Hkeys]. unfold mapper_ok. simpl. split_and!; [|by apply Hpass'|done].
    intros target. rewrite dict_set_fresh, reverse_of_snoc by done. by apply leads_back_fold.
Qed.

Lemma build_ok parse_float components m :
  NoDup (dict_keys components) → build parse_float no_mapper components = Ok m →
  mapper_ok m ∧ dict_keys (forward_map m) = dict_keys components.
Proof.
  intros Hnd Hb.
  assert (H0 : mapper_ok no_mapper) by (split_and!; [done|by intros s ?%elem_of_nil|constructor]).
  cut (∀ m0, mapper_ok m0 → NoDup (dict_keys (forward_map m0) ++ dict_keys components) →
    build parse_float m0 components = Ok m →
    mapper_ok m ∧ dict_keys (forward_map m) = dict_keys (forward_map m0) ++ dict_keys components).
  { intros Hc. by apply (Hc no_mapper). }
  clear Hb Hnd. induction components as [|[source config] components IH]; intros m0 Hm0 Hnd Hb; cbn [build] in Hb.
  - injection Hb as <-. by rewrite app_nil_r.
  - destruct (add_component parse_float m0 source config) as [m1|e] eqn:Ha; [|done]. cbn [rbind] in Hb.
    change (dict_keys ((source, config) :: components)) with ([source] ++ dict_keys components) in *.
    rewrite app_assoc in Hnd |- *. apply add_component_ok in Ha as [Hm1 Hk]; [|
      apply NoDup_app in Hnd as [Hnd _]; apply NoDup_app in Hnd as (_ & Hnd & _);
      intros Hin; apply (Hnd _ Hin); by left|done].
    rewrite <- Hk in *. by apply IH.
Qed.

(** The mapper built from a configuration knows its components in order, and its two
    maps are one relation: from each component of the backend it leads back to exactly the
    components, with their factors, that lead to it, in the order of the configuration.  A
    mapper is passthrough only if every component maps to itself with factor 1. *)
Theorem mapper_well_formed parse_float components m :
  NoDup (dict_keys components) → build parse_float no_mapper components = Ok m →
  source_components m = dict_keys components ∧
  (∀ target, leads_back (reverse_map m) target (reverse_of (forward_map m) target)) ∧
  (is_passthrough m = true → ∀ s ms, (s, ms) ∈ forward_map m →
     ms = [{| other_component := s; factor := float_one |}]).
Proof.
  intros Hnd Hb.
  destruct (build_ok _ _ _ Hnd Hb) as [(Hback & Hpass & Hnp) Hkeys]. split; [done|]. split; [done|].
  intros Hp s ms Hin. unfold is_passthrough in Hp. apply Nat.eqb_eq in Hp.
  assert (Hs : s ∈ passthrough_components m).
  { assert (Hsub : passthrough_components m ⊆ dict_keys (forward_map m)).
    { intros x Hx. apply Hpass in Hx. by apply (list_elem_of_fmap_2 fst) in Hx. }
    assert (Hperm : passthrough_components m ≡ₚ dict_keys (forward_map m)).
    { apply submseteq_length_Permutation; [by apply NoDup_submseteq|].
      unfold dict_keys. rewrite length_fmap. lia. }
    rewrite Hperm. by apply (list_elem_of_fmap_2 fst) in Hin. }
  apply Hpass in Hs. assert (Hd : NoDup (dict_keys (forward_map m))) by by rewrite Hkeys.
  apply (dict_In_get _ _ _ Hd) in Hs, Hin. congruence.
Qed.

(** ** There and back *)

Lemma total_concat_other {A} (g : A → contributions) l k :
  (∀ x, x ∈ l → total (g x) k = 0) → total (concat (map g l)) k = 0.
Proof.
  induction l as [|x l IH]; simpl; [done|]. intros Hg. rewrite contributed_app, IH, Hg; [done|by left|].
  intros y Hy. apply Hg. by right.
Qed.

Lemma total_concat_one {A} (key : A → string) (g : A → contributions) l x k :
  NoDup (map key l) → x ∈ l → (∀ y, y ∈ l → key y ≠ key x → total (g y) k = 0) →
  total (concat (map g l)) k = total (g x) k.
Proof.
  induction l as [|y l IH]; intros Hnd Hx Hg; [by apply elem_of_nil in Hx|].
  simpl in *. inversion Hnd as [|? ? Hy Hnd']; subst. rewrite contributed_app.
  apply elem_of_cons in Hx as [->|Hx].
  - rewrite total_concat_other; [lia|]. intros z Hz. apply Hg; [by right|]. intros He. apply Hy.
    rewrite <- He. by apply list_elem_of_fmap_2.
  - rewrite IH, (Hg y); [done|by left| |done|done|intros z Hz; apply Hg; by right].
    intros He. apply Hy. rewrite He. by apply list_elem_of_fmap_2.
Qed.

Lemma weight_concat_le {A} (g : A → contributions) (f : A → string * Z) l :
  (∀ x, x ∈ l → weight (g x) ≤ Z.abs (f x).2) → weight (concat (map g l)) ≤ weight (map f l).
Proof.
  induction l as [|x l IH]; simpl; [done|]. intros Hg. rewrite weight_app.
  pose proof (Hg x ltac:(by left)). specialize (IH (λ y Hy, Hg y ltac:(by right))). lia.
Qed.

(** The totals of distinct keys weigh no more than what they sum. *)
Lemma weight_totals ks cs : NoDup ks → weight (map (λ k, (k, total cs k)) ks) ≤ weight cs.
Proof.
  intros Hnd. induction cs as [|c cs IH]; simpl.
  { clear Hnd. induction ks as [|k ks IH]; simpl; lia. }
  cut (weight (map (λ k, (k, total (c :: cs) k)) ks) ≤
       weight (map (λ k, (k, total cs k)) ks) + if decide (c.1 ∈ ks) then Z.abs c.2 else 0).
  { intros Hc. destruct (decide (c.1 ∈ ks)); simpl in Hc; lia. }
  clear IH. induction ks as [|k ks IH]; [done|]. inversion Hnd as [|? ? Hk Hnd']; subst.
  specialize (IH Hnd'). simpl in *. destruct (decide (c.1 = k)) as [<-|Hne].
  - rewrite decide_True by by left. rewrite decide_False in IH by done. lia.
  - assert (Heq : (if decide (c.1 ∈ k :: ks) then Z.abs c.2 else 0) =
                  if decide (c.1 ∈ ks) then Z.abs c.2 else 0).
    { destruct (decide (c.1 ∈ ks)); [by rewrite decide_True by by right|].
      by rewrite decide_False by by intros [?|?]%elem_of_cons. }
    rewrite Heq. lia.
Qed.

(** Each component of Waldur is one component of the backend, times an integer. *)
Definition one_to_one (fm : list (string * list mapping)) : Prop :=
  (∀ s ms, (s, ms) ∈ fm → ∃ x, ms = [x] ∧ denotes (factor x) (factor_value x) ∧ factor_value x ≠ 0) ∧
  NoDup (concat (map (λ e, map other_component e.2) fm)).

Lemma reverse_of_absent fm t :
  t ∉ concat (map (λ e, map other_component e.2) fm) → reverse_of fm t = [].
Proof.
  induction fm as [|[s ms] fm IH]; [done|]. simpl. intros Hn.
  rewrite not_elem_of_app in Hn. destruct Hn as [Hms Hn]. unfold reverse_of in *. simpl.
  rewrite IH by done. rewrite app_nil_r.
  assert (Hf : filter (λ x, other_component x = t) ms = []); [|by rewrite Hf].
  clear -Hms. induction ms as [|x ms IH]; [done|]. simpl in Hms.
  apply not_elem_of_cons in Hms as [Hne Hms]. rewrite filter_cons_False by congruence. by apply IH.
Qed.

Lemma reverse_of_cons e fm t :
  reverse_of (e :: fm) t =
  map (λ x, {| other_component := e.1; factor := factor x |})
    (filter (λ x, other_component x = t) e.2) ++ reverse_of fm t.
Proof. done. Qed.

Lemma reverse_of_one fm s x :
  one_to_one fm → (s, [x]) ∈ fm →
  reverse_of fm (other_component x) = [{| other_component := s; factor := factor x |}].
Proof.
  intros [Hone Hnd] Hin. induction fm as [|[s' ms] fm IH]; [by apply elem_of_nil in Hin|].
  destruct (Hone s' ms ltac:(by left)) as (y & -> & _ & _). simpl in Hnd.
  inversion Hnd as [|? ? Hy Hnd']; subst. rewrite reverse_of_cons.
  apply elem_of_cons in Hin as [[= -> ->]|Hin].
  - simpl. rewrite filter_cons_True by done. by rewrite (reverse_of_absent fm).
  - simpl. rewrite filter_cons_False.
    + simpl. apply IH; [|done|done]. intros s1 ms1 H1. apply (Hone s1 ms1). by right.
    + intros He. apply Hy. rewrite He. apply list_elem_of_In, in_concat.
      exists [other_component x]. split; [|by left]. apply in_map_iff. exists (s, [x]).
      split; [done|]. by apply list_elem_of_In.
Qed.

(** What a one-to-one mapper makes of a limit, and of what came of it. *)
Lemma one_to_one_target fm s ms :
  one_to_one fm → dict_get fm s = Some ms →
  ∃ x, ms = [x] ∧ denotes (factor x) (factor_value x) ∧ factor_value x ≠ 0 ∧ (s, [x]) ∈ fm.
Proof.
  intros [Hone _] Hg. apply dict_get_In in Hg. destruct (Hone s ms Hg) as (x & -> & ? & ?). eauto.
Qed.

Lemma one_to_one_injective fm s s' x x' :
  one_to_one fm → (s, [x]) ∈ fm → (s', [x']) ∈ fm → other_component x = other_component x' → s = s'.
Proof.
  intros Ho Hx Hx' He. pose proof (reverse_of_one _ _ _ Ho Hx) as Hr.
  rewrite He, (reverse_of_one _ _ _ Ho Hx') in Hr. by injection Hr.
Qed.

Section RoundTrip.
Context (m : ComponentMapper) (Hok : mapper_ok m) (Hone : one_to_one (forward_map m)).
Context (limits : list (string * Z)) (Hnd : NoDup (dict_keys limits)).
Context (Hknown : ∀ s v, (s, v) ∈ limits → s ∈ source_components m).

Notation sent := (concat (map (limit_contributions m) limits)).

Lemma limit_mapping s v : (s, v) ∈ limits → ∃ x,
  dict_get (forward_map m) s = Some [x] ∧ (s, [x]) ∈ forward_map m ∧
  denotes (factor x) (factor_value x) ∧ factor_value x ≠ 0 ∧
  limit_contributions m (s, v) = [(other_component x, v * factor_value x)].
Proof.
  intros Hin. apply Hknown in Hin. unfold source_components in Hin.
  destruct (dict_get (forward_map m) s) as [ms|] eqn:Hg; [|by apply dict_get_None in Hg].
  destruct (one_to_one_target _ _ _ Hone Hg) as (x & -> & ? & ? & ?).
  exists x. unfold limit_contributions. simpl. by rewrite Hg.
Qed.

Lemma usage_back s x z :
  (s, [x]) ∈ forward_map m → usage_contributions m (other_component x, z) = [(s, z / factor_value x)].
Proof.
  intros Hin. unfold usage_contributions. simpl. destruct Hok as (Hback & _).
  specialize (Hback (other_component x)). rewrite (reverse_of_one _ _ _ Hone Hin) in Hback.
  by rewrite Hback.
Qed.

Lemma sent_total s v x :
  (s, v) ∈ limits → (s, [x]) ∈ forward_map m → dict_get (forward_map m) s = Some [x] →
  total sent (other_component x) = v * factor_value x.
Proof.
  intros Hin Hx Hg. rewrite (total_concat_one fst _ _ (s, v)); [|done|done|].
  - unfold limit_contributions. simpl. rewrite Hg. simpl. rewrite decide_True by done. lia.
  - intros [s' v'] Hy Hne. destruct (limit_mapping _ _ Hy) as (x' & _ & Hx' & _ & _ & ->).
    simpl. rewrite decide_False; [done|]. intros He. apply Hne.
    by apply (one_to_one_injective _ _ _ _ _ Hone Hx' Hx).
Qed.

Lemma sent_key k : k ∈ sent.*1 → ∃ s v x, (s, v) ∈ limits ∧ k = other_component x ∧
  (s, [x]) ∈ forward_map m ∧ dict_get (forward_map m) s = Some [x].
Proof.
  intros (c & -> & Hc)%list_elem_of_fmap. apply list_elem_of_In, in_concat in Hc as (l & Hl & Hc).
  apply in_map_iff in Hl as ([s v] & <- & Hin). apply list_elem_of_In in Hin, Hc.
  destruct (limit_mapping _ _ Hin) as (x & Hg & Hx & _ & _ & Hcs). rewrite Hcs in Hc.
  apply list_elem_of_singleton in Hc as ->. by exists s, v, x.
Qed.

Lemma sent_covers s v x :
  (s, v) ∈ limits → dict_get (forward_map m) s = Some [x] → other_component x ∈ sent.*1.
Proof.
  intros Hin Hg. apply list_elem_of_fmap. exists (other_component x, v * factor_value x). split; [done|].
  apply list_elem_of_In, in_concat. exists (limit_contributions m (s, v)).
  split; [apply in_map, list_elem_of_In, Hin|]. unfold limit_contributions. simpl. rewrite Hg. by left.
Qed.

Lemma sent_bound s v : weight sent < 2 ^ 53 → (s, v) ∈ limits → Z.abs v < 2 ^ 53.
Proof.
  intros Hw Hin. destruct (limit_mapping _ _ Hin) as (x & Hg & _ & _ & Hne & Hcs).
  assert (He : (other_component x, v * factor_value x) ∈ sent).
  { apply list_elem_of_In, in_concat. exists (limit_contributions m (s, v)).
    split; [apply in_map, list_elem_of_In, Hin|]. rewrite Hcs. by left. }
  apply weight_elem in He. simpl in He. nia.
Qed.

Lemma integral_forward : integral (forward_map m).
Proof.
  intros k l x Hg Hx. destruct (one_to_one_target _ _ _ Hone Hg) as (y & -> & ? & _).
  by apply list_elem_of_singleton in Hx as ->.
Qed.

Lemma reverse_elem t y ms : dict_get (reverse_map m) t = Some ms → y ∈ ms → ∃ s x,
  (s, [x]) ∈ forward_map m ∧ other_component x = t ∧ factor y = factor x.
Proof.
  intros Hg Hy. destruct Hok as (Hback & _). specialize (Hback t). unfold leads_back in Hback.
  assert (Hin : y ∈ reverse_of (forward_map m) t).
  { destruct (reverse_of (forward_map m) t); rewrite Hback in Hg; [done|]. by injection Hg as <-. }
  unfold reverse_of in Hin. apply list_elem_of_In, in_concat in Hin as (l & Hl & Hin).
  apply in_map_iff in Hl as ([s ms'] & <- & Hs). simpl in Hin.
  apply in_map_iff in Hin as (x & <- & Hx). apply list_elem_of_In, list_elem_of_filter in Hx as [Ht Hx].
  apply list_elem_of_In in Hs. destruct (proj1 Hone s ms' Hs) as (x' & -> & _).
  apply list_elem_of_singleton in Hx as ->. by exists s, x'.
Qed.

Lemma integral_reverse : integral (reverse_map m).
Proof.
  intros t ms y Hg Hy. destruct (reverse_elem _ _ _ Hg Hy) as (s & x & Hx & _ & Hf).
  destruct (proj1 Hone _ _ Hx) as (x' & [= <-] & Hd & _). unfold factor_value in *. by rewrite Hf.
Qed.

(** What is sent to a component of the backend is a multiple of the one factor there. *)
Lemma sent_divisible t y ms :
  dict_get (reverse_map m) t = Some ms → y ∈ ms → t ∈ sent.*1 → (factor_value y | total sent t).
Proof.
  intros Hg Hy Ht. destruct (sent_key _ Ht) as (s & v & x & Hin & -> & Hx & Hgx).
  rewrite (sent_total _ _ _ Hin Hx Hgx).
  destruct (reverse_elem _ _ _ Hg Hy) as (s' & x' & Hx' & He & Hf).
  pose proof (reverse_of_one _ _ _ Hone Hx) as Hr. rewrite <- He, (reverse_of_one _ _ _ Hone Hx') in Hr.
  injection Hr as _ Hr. unfold factor_value at 1. rewrite Hf, Hr. by exists v.
Qed.

Notation received d := (map (λ c, (c.1, total sent c.1)) (d : list (string * pynum))).

Lemma received_elem d k z : represents d sent → (k, z) ∈ received d → k ∈ sent.*1 ∧ z = total sent k.
Proof.
  intros [Hd Hr] Hin. apply list_elem_of_In, in_map_iff in Hin as ([k' x] & [= <- <-] & Hin).
  apply list_elem_of_In in Hin. apply (dict_In_get _ _ _ Hd) in Hin. specialize (Hr k').
  rewrite Hin in Hr. by destruct Hr.
Qed.

Lemma received_weight d : represents d sent →
  weight (concat (map (usage_contributions m) (received d))) ≤ weight sent.
Proof.
  intros Hd. transitivity (weight (received d)).
  - rewrite <- (map_id (received d)) at 2. apply weight_concat_le. intros [k z] Hin.
    apply (received_elem _ _ _ Hd) in Hin as [Hk ->].
    destruct (sent_key _ Hk) as (s & v & x & Hin & -> & Hx & Hg).
    rewrite (usage_back _ _ _ Hx), (sent_total _ _ _ Hin Hx Hg). simpl.
    destruct (proj1 Hone _ _ Hx) as (x' & [= <-] & _ & Hne). rewrite Z.div_mul by done. nia.
  - destruct Hd as [Hd _]. etrans; [|apply (weight_totals (dict_keys d) sent Hd)].
    unfold dict_keys. rewrite map_map. done.
Qed.

Lemma received_total d s v : represents d sent → (s, v) ∈ limits →
  let cs := concat (map (usage_contributions m) (received d)) in
  s ∈ cs.*1 ∧ total cs s = v.
Proof.
  intros Hd Hin cs. destruct (limit_mapping _ _ Hin) as (x & Hg & Hx & _ & Hne & _).
  assert (Hel : (other_component x, v * factor_value x) ∈ received d).
  { rewrite <- (sent_total _ _ _ Hin Hx Hg). destruct Hd as [_ Hr]. specialize (Hr (other_component x)).
    destruct (dict_get d (other_component x)) as [y|] eqn:Hy.
    - apply dict_get_In in Hy. by apply (list_elem_of_fmap_2 (λ c, (c.1, total sent c.1))) in Hy.
    - destruct Hr. by eapply sent_covers. }
  assert (Hback : usage_contributions m (other_component x, v * factor_value x) = [(s, v)]).
  { rewrite (usage_back _ _ _ Hx). by rewrite Z.div_mul. }
  split.
  - apply list_elem_of_fmap. exists (s, v). split; [done|]. apply list_elem_of_In, in_concat.
    eexists. split; [apply in_map, list_elem_of_In, Hel|]. rewrite Hback. by left.
  - assert (Hkeys : NoDup (map fst (received d))) by (destruct Hd as [Hd _]; by rewrite map_map).
    unfold cs. rewrite (total_concat_one fst _ _ _ _ Hkeys Hel).
    + rewrite Hback. simpl. rewrite decide_True by done. lia.
    + intros [k z] Hy Hk. apply (received_elem _ _ _ Hd) in Hy as [Hk' ->].
      destruct (sent_key _ Hk') as (s' & v' & x' & _ & -> & Hx' & Hg').
      rewrite (usage_back _ _ _ Hx'). simpl. rewrite decide_False; [done|]. intros ->.
      simpl in Hk. rewrite Hg in Hg'. injection Hg' as <-. done.
Qed.
End RoundTrip.

(** C34: When each component of Waldur is its own component of the backend, times a
    non-zero integer, every limit is of a component the mapper knows, no component has two,
    and the converted limits sum in absolute value to less than 2^53, then limits converted
    to the backend and read back as usage are the limits that were sent: for each of them,
    what comes back is the same integer, as an [int] or as the double that stands for it. *)
Theorem limits_round_trip parse_float components m limits :
  NoDup (dict_keys components) → build parse_float no_mapper components = Ok m →
  one_to_one (forward_map m) → NoDup (dict_keys limits) →
  (∀ s v, (s, v) ∈ limits → s ∈ source_components m) →
  weight (concat (map (limit_contributions m) limits)) < 2 ^ 53 →
  ∃ out back, convert_limits_to_target m limits = Ok out ∧
    convert_usage_from_target m (map (λ c, (c.1, PyInt c.2)) out) = Ok back ∧
    ∀ s v, (s, v) ∈ limits → ∃ x, dict_get back s = Some x ∧ num_denotes x v.
Proof.
  intros Hc Hb Hone Hnd Hknown Hw. destruct (build_ok _ _ _ Hc Hb) as [Hok _].
  destruct (convert_limits_sums m limits) as (d & Hd & Hout); [by apply integral_forward| |done|].
  { apply Forall_forall. intros [s v] Hin. by eapply sent_bound. }
  set (sent := concat (map (limit_contributions m) limits)) in *.
  set (out := map (λ c, (c.1, total sent c.1)) d) in *.
  pose proof (received_weight m Hok Hone limits Hnd Hknown d Hd) as Hback. fold sent out in Hback.
  destruct (convert_usage_sums m (map (λ c, (c.1, PyInt c.2)) out) out) as (back & Hconv & Hr).
  - by apply integral_reverse.
  - apply Forall2_fmap_l, Forall_Forall2_diag, Forall_forall. intros [k z] Hin. simpl.
    apply (received_elem m limits d k z Hd) in Hin as [Hk ->]. fold sent in Hk |- *.
    split_and!; [done|done|pose proof (total_weight sent k); lia|].
    intros ms x Hg Hx. right. by eapply sent_divisible.
  - lia.
  - exists out, back. split; [done|]. split; [done|]. intros s v Hin.
    destruct (received_total m Hok Hone limits Hnd Hknown d s v Hd Hin) as [Hs Ht].
    fold sent out in Hs, Ht. destruct Hr as [_ Hr]. specialize (Hr s).
    destruct (dict_get back s) as [x|]; [|done]. destruct Hr as [_ Hx]. rewrite Ht in Hx. eauto.
Qed.

(** ** Concrete mappers *)

Definition no_parse (v : json) : res spec_float := Err (ValueError "could not convert to float").

(** Node hours are five GPU hours and ten GB hours of storage, GPU hours are also sold
    apart. *)
Definition sample_components : list (string * json) :=
  [("node_hours", JObj [("target_components",
      JObj [("gpu", JObj [("factor", JInt 5)]); ("storage", JObj [("factor", JInt 10)])])]);
   ("gpu_hours", JObj [("target_components", JObj [("gpu", JObj [])])]);
   ("memory", JObj [])].

Definition sample_mapper : ComponentMapper :=
  match build no_parse no_mapper sample_components with Ok m => m | Err _ => no_mapper end.

(** One to one: node hours in units of 64 cores, memory as it is. *)
Definition one_to_one_components : list (string * json) :=
  [("node_hours", JObj [("target_components", JObj [("cpu", JObj [("factor", JInt 64)])])]);
   ("memory", JObj [])].

Definition one_to_one_mapper : ComponentMapper :=
  match build no_parse no_mapper one_to_one_components with Ok m => m | Err _ => no_mapper end.

(** [integral], by computation. *)
Definition denotesb (f : spec_float) (z : Z) : bool :=
  match f with
  | S754_zero _ => z =? 0
  | S754_finite s m e =>
      (digits2_pos m =? 53)%positive && (-52 <=? e) && (e <=? 0) && (cond_Zopp s (Zpos m) =? z * 2 ^ (- e))
  | _ => false
  end.

Lemma denotesb_ok f z : denotesb f z = true → denotes f z.
Proof.
  destruct f; unfold denotesb, denotes; try done; [by intros ?%Z.eqb_eq|]. rewrite !andb_true_iff.
  intros [[[?%Pos.eqb_eq ?%Z.leb_le] ?%Z.leb_le] ?%Z.eqb_eq]. done.
Qed.

Definition integralb (ms : list (string * list mapping)) : bool :=
  forallb (λ e, forallb (λ x, denotesb (factor x) (factor_value x)) e.2) ms.

Lemma integralb_ok ms : integralb ms = true → integral ms.
Proof.
  intros Hms k l x Hg Hx. apply dict_get_In, list_elem_of_In in Hg.
  apply (proj1 (forallb_forall _ _) Hms) in Hg. simpl in Hg. apply list_elem_of_In in Hx.
  by apply denotesb_ok, (proj1 (forallb_forall _ _) Hg).
Qed.

Lemma limits_converted_exactly_witness :
  ∃ out, convert_limits_to_target sample_mapper [("node_hours", 3); ("gpu_hours", 2); ("disk", 7)] = Ok out ∧
    dict_get out "gpu" = Some 17 ∧ dict_get out "storage" = Some 30 ∧ dict_get out "disk" = Some 7.
Proof.
  destruct (limits_converted_exactly sample_mapper [("node_hours", 3); ("gpu_hours", 2); ("disk", 7)])
    as (out & Hout & _ & Hget).
  - by apply integralb_ok.
  - repeat constructor.
  - vm_compute. reflexivity.
  - exists out. split; [exact Hout|]. rewrite !Hget. vm_compute. done.
Defined.

Lemma usage_converted_exactly_witness :
  ∃ out, convert_usage_from_target sample_mapper
      [("gpu", PyFloat (float_of_Z 500)); ("storage", PyInt 800); ("spare", PyInt 1)] = Ok out ∧
    represents out [("node_hours", 100); ("gpu_hours", 500); ("node_hours", 80)].
Proof.
  apply (usage_converted_exactly sample_mapper _ [("gpu", 500); ("storage", 800); ("spare", 1)]);
    [by apply integralb_ok| |vm_compute; reflexivity].
  repeat (apply Forall2_cons; split; [split; [reflexivity|split; [|split; [vm_compute; reflexivity|]]]|]);
    try apply Forall2_nil; try done; try (by apply float_of_Z_exact);
    intros ms x Hg Hx; vm_compute in Hg; inversion Hg; subst;
    repeat (apply elem_of_cons in Hx as [->|Hx]); try (by apply elem_of_nil in Hx); right.
  - by exists 100.
  - by exists 500.
  - by exists 80.
Defined.

Lemma mapper_well_formed_witness :
  source_components sample_mapper = ["node_hours"; "gpu_hours"; "memory"] ∧
  map other_component (default [] (dict_get (reverse_map sample_mapper) "gpu")) = ["node_hours"; "gpu_hours"].
Proof.
  destruct (mapper_well_formed no_parse sample_components sample_mapper) as (Hs & Hb & _).
  - by apply (bool_decide_unpack _).
  - vm_compute. reflexivity.
  - split; [exact Hs|]. rewrite (Hb "gpu"). vm_compute. done.
Defined.

Lemma limits_round_trip_witness : ∃ out back,
  convert_limits_to_target one_to_one_mapper [("node_hours", 3); ("memory", 1024)] = Ok out ∧
  out = [("cpu", 192); ("memory", 1024)] ∧
  convert_usage_from_target one_to_one_mapper (map (λ c, (c.1, PyInt c.2)) out) = Ok back ∧
  ∃ x, dict_get back "node_hours" = Some x ∧ num_denotes x 3.
Proof.
  destruct (limits_round_trip no_parse one_to_one_components one_to_one_mapper
    [("node_hours", 3); ("memory", 1024)]) as (out & back & Hout & Hback & Hget).
  - by apply (bool_decide_unpack _).
  - vm_compute. reflexivity.
  - split.
    + intros s ms Hin. repeat (apply elem_of_cons in Hin as [[= -> ->]|Hin]);
        try (by apply elem_of_nil in Hin); eexists; (split; [reflexivity|]);
        (split; [by apply denotesb_ok|vm_compute; discriminate]).
    + by apply (bool_decide_unpack _).
  - by apply (bool_decide_unpack _).
  - intros s v Hin. repeat (apply elem_of_cons in Hin as [[= -> ->]|Hin]);
      try (by apply elem_of_nil in Hin); by apply (bool_decide_unpack _).
  - vm_compute. reflexivity.
  - exists out, back. split; [exact Hout|]. split; [|split; [exact Hback|apply Hget; by left]].
    vm_compute in Hout. by injection Hout.
Defined.
