(* ===== verification/SlurmParser.v ===== *)
(** * What SLURM prints

    [plugins/slurm/waldur_site_agent_slurm/parser.py]: amounts with units, elapsed times,
    and the lines of [sacct] and [sacctmgr].  [datetime.strptime] is modelled as the
    regular expression it compiles its format to, tried in order. *)

From stdpp Require Import base list strings sets pretty.
From Stdlib Require Import ZArith Lia SpecFloat Ascii.
From S2P Require Import Prelude.
From S2P Require Import Texts.
From S2P Require Import Structures.
From S2P Require Import Numbers.
From S2P Require Import FloatInts.
From S2P Require Import ComponentMapping.

Local Open Scope Z_scope.

(** ** Amounts *)

(** [schemas.py: UsageTresSource] *)
Inductive UsageTresSource : Type := REQUESTED | ALLOCATED.

Definition pick_usage_tres (source : UsageTresSource) (allocated requested : option string)
  : option string :=
  match source, allocated with
  | ALLOCATED, Some a => if nonempty a then allocated else requested
  | _, _ => requested
  end.

Definition UNITS : list (string * Z) := [("K", 2 ^ 10); ("M", 2 ^ 20); ("G", 2 ^ 30); ("T", 2 ^ 40)].

(** What follows the digits in [UNIT_PATTERN]. *)
Definition unit_of (rest : string) : string :=
  match rest with
  | String c _ => if has_char c "KMGTP" then String c "" else ""
  | EmptyString => ""
  end.

Definition parse_int (value : string) : res Z :=
  let '(ds, rest) := digits_prefix value in
  if negb (nonempty ds) then Ok 0
  else
    rbind (int_of_text ds) (λ value_,
    let unit := unit_of rest in
    if nonempty unit then
      match dict_get UNITS unit with Some factor => Ok (factor * value_) | None => Err (KeyError unit) end
    else Ok value_).

(** ** Elapsed times *)

(** [a / b] of two ints, [b] positive: the quotient, correctly rounded. *)
Definition true_div (a b : Z) : spec_float :=
  match a, b with
  | Zpos m, Zpos n => SFdiv 53 1024 (S754_finite false m 0) (S754_finite false n 0)
  | Zneg m, Zpos n => SFdiv 53 1024 (S754_finite true m 0) (S754_finite false n 0)
  | _, _ => S754_zero false
  end.

(** A directive of a [strptime] format: the texts it accepts at the front, in the order
    the regular expression tries them, with their values. *)
Abbreviation directive := (string → list (Z * string)).

Definition in_range (lo hi c : ascii) : bool :=
  ((nat_of_ascii lo <=? nat_of_ascii c) && (nat_of_ascii c <=? nat_of_ascii hi))%nat.

(** One digit, and two digits the first of which is in a range and the second too. *)
Definition one_digit (lo hi : ascii) : directive := λ s,
  match s with
  | String c s => if in_range lo hi c then [(digit_value c, s)] else []
  | EmptyString => []
  end.

Definition two_digits (lo hi lo' hi' : ascii) : directive := λ s,
  match s with
  | String c (String d s) =>
      if in_range lo hi c && in_range lo' hi' d then [(10 * digit_value c + digit_value d, s)] else []
  | _ => []
  end.

Definition hour : directive := λ s,
  two_digits "2" "2" "0" "3" s ++ two_digits "0" "1" "0" "9" s ++ one_digit "0" "9" s.
Definition minute : directive := λ s, two_digits "0" "5" "0" "9" s ++ one_digit "0" "9" s.
Definition second : directive := λ s,
  two_digits "6" "6" "0" "1" s ++ two_digits "0" "5" "0" "9" s ++ one_digit "0" "9" s.
Definition day : directive := λ s,
  two_digits "3" "3" "0" "1" s ++ two_digits "1" "2" "0" "9" s ++ two_digits "0" "0" "1" "9" s ++
  one_digit "1" "9" s ++
  match s with String " " s => one_digit "1" "9" s | _ => [] end.

(** One to six digits, as many as there are, in microseconds. *)
Fixpoint fraction_from (n : nat) (scale : Z) (s : string) : list (Z * string) :=
  match n, s with
  | S n, String c s' =>
      if is_digit c then
        map (λ '(v, rest), (digit_value c * scale + v, rest)) (fraction_from n (scale / 10) s') ++
        [(digit_value c * scale, s')]
      else []
  | _, _ => []
  end.
Definition fraction : directive := fraction_from 6 100000.

Definition char (c : ascii) : directive := λ s,
  match s with String d s => if Ascii.eqb d c then [(0, s)] else [] | EmptyString => [] end.

Fixpoint match_format (format : list directive) (s : string) : list (list Z * string) :=
  match format with
  | [] => [([], s)]
  | d :: format =>
      concat (map (λ '(v, rest), map (λ '(vs, rest), (v :: vs, rest)) (match_format format rest)) (d s))
  end.

(** The first match, which has to reach the end. *)
Definition strptime (format : list directive) (s : string) : res (list Z) :=
  match match_format format s with
  | (vs, rest) :: _ => if nonempty rest then Err (ValueError "unconverted data remains")
                       else Ok vs
  | [] => Err (ValueError "time data does not match format")
  end.

Definition clock_format : list directive := [hour; char ":"; minute; char ":"; second].
Definition simple_fmt := clock_format.
Definition us_fmt := clock_format ++ [char "."; fraction].
Definition days_fmt := [day; char "-"] ++ clock_format.
Definition days_us_fmt := [day; char "-"] ++ us_fmt.

(** [timedelta(...)], in microseconds. *)
Definition timedelta (days hours minutes seconds microseconds : Z) : res Z :=
  let us := (((days * 24 + hours) * 60 + minutes) * 60 + seconds) * 1000000 + microseconds in
  if 999999999 <? Z.abs (us / 86400000000) then
    Err (OverflowError "days; must have magnitude <= 999999999")
  else Ok us.

(** The time of day a format of [strptime] found; there is no 60th second. *)
Definition clock_delta (days : Z) (vs : list Z) : res Z :=
  match vs with
  | h :: _ :: m :: _ :: s :: fraction =>
      if 59 <? s then Err (ValueError "second must be in 0..59")
      else timedelta days h m s (match fraction with [_; us] => us | _ => 0 end)
  | _ => Err (ValueError "time data does not match format")
  end.

Definition day_delta (vs : list Z) : res Z :=
  match vs with d :: _ :: vs => clock_delta d vs | _ => Err (ValueError "time data does not match format") end.

(** The large hours that exceed 24: [None] when there are fewer than three parts. *)
Definition large_hours (with_us : bool) (value : string) : res (option Z) :=
  match split_on ":" value with
  | h :: m :: s :: _ =>
      rbind (int_of_text h) (λ hours,
      rbind (int_of_text m) (λ minutes,
      if with_us then
        match split_on "." s with
        | seconds :: rest =>
            rbind (int_of_text seconds) (λ seconds,
            rbind (match rest with us :: _ => int_of_text us | [] => Ok 0 end) (λ us,
            rbind (timedelta 0 hours minutes seconds us) (λ d, Ok (Some d))))
        | [] => Err (IndexError "list index out of range")
        end
      else
        rbind (int_of_text s) (λ seconds,
        rbind (timedelta 0 hours minutes seconds 0) (λ d, Ok (Some d)))))
  | _ => Ok None
  end.

(** [int(delta.total_seconds()) / 60] *)
Definition delta_minutes (us : Z) : res spec_float :=
  rbind (int_of_float (true_div us 1000000)) (λ seconds, Ok (true_div seconds 60)).

Definition parse_duration (value : string) : res spec_float :=
  if negb (has_char "-" value) then
    let with_us := has_char "." value in
    match rbind (strptime (if with_us then us_fmt else simple_fmt) value) (clock_delta 0) with
    | Err (ValueError _) =>
        rbind (large_hours with_us value) (λ d,
        match d with Some us => delta_minutes us | None => Ok (S754_zero false) end)
    | r => rbind r delta_minutes
    end
  else
    rbind (strptime (if has_char "." value then days_us_fmt else days_fmt) value) (λ vs,
    rbind (day_delta vs) delta_minutes).

(** ** Lines *)

(** [SlurmReportLine] and [SlurmAssociationLine]. *)
Record slurm_line : Type := {
  parts : list string;
  slurm_tres : list (string * json);
}.

Definition new_line (line : string) (tres : list (string * json)) : slurm_line :=
  {| parts := split_on "|" line; slurm_tres := tres |}.

Definition part (l : slurm_line) (n : nat) : res string :=
  match nth_error (parts l) n with Some s => Ok s | None => Err (IndexError "list index out of range") end.

Definition account (l : slurm_line) : res string := rbind (part l 0) (λ s, Ok (strip s)).
Definition user (l : slurm_line) : res string := part l 3.
Definition duration (l : slurm_line) : res spec_float := rbind (part l 2) parse_duration.

(** The pairs of a comma-separated list; what has no [=] is skipped. *)
Definition add_pair (resources : list (string * string)) (pair : string) : list (string * string) :=
  match partition_on "=" pair with
  | (key, Some value) => dict_set resources key value
  | (_, None) => resources
  end.

Definition parse_pairs (s : string) : list (string * string) :=
  foldl add_pair [] (split_on "," s).

Definition resources (l : slurm_line) : res (list (string * string)) :=
  rbind (part l 1) (λ s, Ok (parse_pairs s)).

Definition parse_field (l : slurm_line) (field : string) : res Z :=
  rbind (resources l) (λ rs,
  match dict_get rs field with Some v => parse_int v | None => Ok 0 end).

Definition target_names (comp_config : json) : res (list string) :=
  match comp_config with
  | JObj d => match default (JObj []) (obj_get d "target_components") with
              | JObj targets => Ok (dict_keys targets)
              | v => if truthy v then Err (AttributeError "keys") else Ok []
              end
  | _ => Err (AttributeError "get")
  end.

Fixpoint concat_res {A} (l : list (res (list A))) : res (list A) :=
  match l with
  | [] => Ok []
  | r :: l => rbind r (λ a, rbind (concat_res l) (λ b, Ok (a ++ b)))
  end.

Definition allowed_tres_names (tres : list (string * json)) : res (list string) :=
  rbind (concat_res (map (λ c, target_names c.2) tres)) (λ targets, Ok (dict_keys tres ++ targets)).

(** [x // 2**20] of a float: what a megabyte leaves of bytes. *)
Definition megabytes (x : spec_float) : spec_float :=
  match x with
  | S754_finite s m e =>
      match (cond_Zopp s (Zpos m) * 2 ^ Z.max 0 e) / (2 ^ 20 * 2 ^ Z.max 0 (- e)) with
      | 0 => S754_zero s
      | n => float_of_Z n
      end
  | S754_zero s => S754_zero s
  | _ => S754_nan
  end.

Definition add_field (l : slurm_line) (usage : list (string * spec_float)) (resource : string)
  : res (list (string * spec_float)) :=
  rbind (allowed_tres_names (slurm_tres l)) (λ names,
  if bool_decide (resource ∈ names) then
    rbind (parse_field l resource) (λ usage_raw,
    rbind (duration l) (λ d,
    rbind (to_float (PyInt usage_raw)) (λ raw, Ok (dict_set usage resource (f64_mul raw d)))))
  else Ok usage).

Definition tres_usage (l : slurm_line) : res (list (string * spec_float)) :=
  rbind (resources l) (λ rs,
  rbind (rfold (add_field l) (dict_keys rs) []) (λ usage,
  Ok (match dict_get usage "mem" with
      | Some x => dict_set usage "mem" (megabytes x)
      | None => usage
      end))).

(** *** Associations *)

Definition association_user (l : slurm_line) : string :=
  match nth_error (parts l) 2 with Some s => s | None => "" end.

Definition association_resources (l : slurm_line) : res (list (string * string)) :=
  rbind (part l 1) (λ s, if nonempty s then Ok (parse_pairs s) else Ok []).

Definition add_tres_limit (tres : list (string * json)) (limits : list (string * Z)) (x : string * string)
  : res (list (string * Z)) :=
  if bool_decide (x.1 ∈ dict_keys tres) then
    rbind (parse_int x.2) (λ n,
    Ok (dict_set limits x.1 (if String.eqb x.1 "mem" then n / 2 ^ 20 else n)))
  else Ok limits.

Definition tres_limits (l : slurm_line) : res (list (string * Z)) :=
  rbind (association_resources l) (λ rs, rfold (add_tres_limit (slurm_tres l)) rs []).

(** ** Elapsed times are read back *)

(** Two digits at least, as SLURM prints the parts of a time. *)
Definition pad2 (n : Z) : string := if n <? 10 then "0" +:+ pretty n else pretty n.

Definition clock_text (h m s : Z) : string := String.concat ":" [pad2 h; pad2 m; pad2 s].

(** [\[D-\]HH:MM:SS] *)
Definition elapsed_text (seconds : Z) : string :=
  let clock := clock_text (seconds / 3600 mod 24) (seconds / 60 mod 60) (seconds mod 60) in
  if seconds <? 86400 then clock else pretty (seconds / 86400) +:+ "-" +:+ clock.

Definition two_digit_entry (n : Z) : bool :=
  match pad2 n with
  | String c (String d EmptyString) =>
      in_range "0" "5" c && in_range "0" "9" d && (n =? 10 * digit_value c + digit_value d)
  | _ => false
  end.

Lemma pad2_table n : 0 ≤ n < 60 → ∃ c d, pad2 n = String c (String d "") ∧
  in_range "0" "5" c = true ∧ in_range "0" "9" d = true ∧ n = 10 * digit_value c + digit_value d.
Proof.
  intros Hn. assert (Hall : forallb two_digit_entry (seqZ 0 60) = true) by (vm_compute; reflexivity).
  rewrite forallb_forall in Hall. specialize (Hall n ltac:(apply list_elem_of_In, elem_of_seqZ; lia)).
  unfold two_digit_entry in Hall. destruct (pad2 n) as [|c [|d []]]; try done.
  rewrite !andb_true_iff in Hall. destruct Hall as [[Hc Hd] Hv]. apply Z.eqb_eq in Hv. eauto 10.
Qed.

Lemma pad2_digits n : 0 ≤ n → all_chars is_digit (pad2 n) = true.
Proof. intros Hn. unfold pad2. destruct (n <? 10); simpl; by apply digits_pretty. Qed.

Lemma pad2_value n : 0 ≤ n → digits_value (pad2 n) = n.
Proof. intros Hn. unfold pad2. destruct (n <? 10); by apply (digits_value_pretty n). Qed.

Lemma pad2_nonempty n : nonempty (pad2 n) = true.
Proof.
  unfold pad2. destruct (n <? 10); [done|]. pose proof (pretty_Z_nonempty n). by destruct (pretty n).
Qed.

Lemma minute_first n rest : 0 ≤ n < 60 → ∃ l, minute (pad2 n +:+ rest) = (n, rest) :: l.
Proof.
  intros Hn. destruct (pad2_table n Hn) as (c & d & -> & Hc & Hd & Hv). unfold minute, two_digits.
  simpl. rewrite Hc, Hd, <- Hv. by eexists.
Qed.

Lemma in_range_value lo hi c :
  in_range lo hi c = true ↔ digit_value lo ≤ digit_value c ≤ digit_value hi.
Proof. unfold in_range, digit_value. rewrite andb_true_iff, !Nat.leb_le. lia. Qed.

Ltac range_lia :=
  repeat match goal with
  | H : in_range _ _ _ = true |- _ => apply in_range_value in H
  | H : _ && _ = false |- _ => apply andb_false_iff in H as [H|H]
  | H : in_range _ _ _ = false |- _ => apply not_true_iff_false in H; rewrite in_range_value in H
  | |- in_range _ _ _ = false => apply not_true_iff_false; rewrite in_range_value
  | |- in_range _ _ _ = true => apply in_range_value
  end;
  change (digit_value "0") with 0 in *; change (digit_value "1") with 1 in *;
  change (digit_value "2") with 2 in *; change (digit_value "3") with 3 in *;
  change (digit_value "5") with 5 in *; change (digit_value "6") with 6 in *;
  change (digit_value "9") with 9 in *; lia.

Lemma second_first n rest : 0 ≤ n < 60 → ∃ l, second (pad2 n +:+ rest) = (n, rest) :: l.
Proof.
  intros Hn. destruct (pad2_table n Hn) as (c & d & -> & Hc & Hd & Hv). unfold second, two_digits.
  simpl. assert (H6 : in_range "6" "6" c = false) by range_lia.
  rewrite H6, Hc, Hd, <- Hv. by eexists.
Qed.

Lemma hour_first n rest : 0 ≤ n < 24 → ∃ l, hour (pad2 n +:+ rest) = (n, rest) :: l.
Proof.
  intros Hn. destruct (pad2_table n ltac:(lia)) as (c & d & -> & Hc & Hd & Hv).
  unfold hour, two_digits. simpl. destruct (in_range "2" "2" c && in_range "0" "3" d) eqn:H2.
  - rewrite <- Hv. by eexists.
  - assert (H1 : in_range "0" "1" c = true) by range_lia. rewrite H1, Hd, <- Hv. by eexists.
Qed.

Lemma day_first n rest : 0 < n < 32 → ∃ l, day (pretty n +:+ String "-" rest) = (n, String "-" rest) :: l.
Proof.
  intros Hn. assert (Hin : n ∈ seqZ 1 31) by (apply elem_of_seqZ; lia).
  cut (Forall (λ n, ∀ rest, ∃ l, day (pretty n +:+ String "-" rest) = (n, String "-" rest) :: l) (seqZ 1 31)).
  { intros Hall. rewrite Forall_forall in Hall. by apply Hall. }
  clear. cbn [seqZ seq fmap list_fmap Z.to_nat Pos.to_nat Pos.iter_op Nat.add]. 
  repeat constructor; intros rest; eexists; reflexivity.
Qed.

Lemma is_digit_value c : is_digit c = true ↔ 0 ≤ digit_value c ≤ 9.
Proof. unfold is_digit, digit_value. rewrite andb_true_iff, !Nat.leb_le. lia. Qed.

Lemma match_first (d : directive) format s v rest l vs r l' :
  d s = (v, rest) :: l → match_format format rest = (vs, r) :: l' →
  ∃ l'', match_format (d :: format) s = (v :: vs, r) :: l''.
Proof. intros Hd Hf. simpl. rewrite Hd. simpl. rewrite Hf. simpl. by eexists. Qed.

Lemma match_char c format s vs r l :
  match_format format s = (vs, r) :: l → ∃ l'', match_format (char c :: format) (String c s) = (0 :: vs, r) :: l''.
Proof. intros Hf. eapply match_first; [|done]. unfold char. by rewrite Ascii.eqb_refl. Qed.

Lemma clock_text_eq h m s :
  clock_text h m s = pad2 h +:+ String ":" (pad2 m +:+ String ":" (pad2 s)).
Proof. reflexivity. Qed.

Lemma append_nil (s : string) : s +:+ "" = s.
Proof. induction s as [|c s IH]; [done|]. exact (f_equal (String c) IH). Qed.

Lemma clock_first h m s : 0 ≤ h < 24 → 0 ≤ m < 60 → 0 ≤ s < 60 →
  ∃ l, match_format clock_format (clock_text h m s) = ([h; 0; m; 0; s], "") :: l.
Proof.
  intros Hh Hm Hs. rewrite clock_text_eq. unfold clock_format.
  destruct (second_first s "" Hs) as [l1 H1]. rewrite append_nil in H1.
  destruct (match_first second [] _ _ _ _ [] "" [] H1 eq_refl) as [l2 H2].
  destruct (match_char ":" _ _ _ _ _ H2) as [l3 H3].
  destruct (minute_first m (String ":" (pad2 s)) Hm) as [l4 H4].
  destruct (match_first _ _ _ _ _ _ _ _ _ H4 H3) as [l5 H5].
  destruct (match_char ":" _ _ _ _ _ H5) as [l6 H6].
  destruct (hour_first h (String ":" (pad2 m +:+ String ":" (pad2 s))) Hh) as [l7 H7].
  exact (match_first _ _ _ _ _ _ _ _ _ H7 H6).
Qed.

(** The hours a directive finds are below 24, and they are the digits it takes. *)
Lemma hour_sound s v rest : (v, rest) ∈ hour s →
  ∃ ds, s = ds +:+ rest ∧ all_chars is_digit ds = true ∧ digits_value ds = v ∧ v < 24.
Proof.
  assert (Hdig : ∀ c lo hi, 0 ≤ digit_value lo → digit_value hi ≤ 9 →
    in_range lo hi c = true → is_digit c = true).
  { intros c lo hi Hlo Hhi Hc. apply in_range_value in Hc. apply is_digit_value. lia. }
  unfold hour, two_digits, one_digit. rewrite !elem_of_app.
  destruct s as [|c [|d s]]; [set_solver| |].
  - intros [?|[?|Hin]]; [set_solver..|]. destruct (in_range "0" "9" c) eqn:Hc; [|set_solver].
    apply list_elem_of_singleton in Hin as [= -> ->]. exists (String c "").
    simpl. rewrite (Hdig c "0"%char "9"%char) by done. split_and!; try done; try (unfold digits_value; simpl; lia); range_lia.
  - intros [Hin|[Hin|Hin]]; destruct (in_range _ _ c) eqn:Hc; simpl in Hin; try (by apply elem_of_nil in Hin);
      try (destruct (in_range _ _ d) eqn:Hd; [|by apply elem_of_nil in Hin]); apply list_elem_of_singleton in Hin as [= -> ->].
    + exists (String c (String d "")). simpl. rewrite (Hdig c "2"%char "2"%char), (Hdig d "0"%char "3"%char) by done.
      split_and!; try done; try (unfold digits_value; simpl; lia); range_lia.
    + exists (String c (String d "")). simpl. rewrite (Hdig c "0"%char "1"%char), (Hdig d "0"%char "9"%char) by done.
      split_and!; try done; try (unfold digits_value; simpl; lia); range_lia.
    + exists (String c ""). simpl. rewrite (Hdig c "0"%char "9"%char) by done.
      split_and!; try done; try (unfold digits_value; simpl; lia); range_lia.
Qed.

Lemma digits_have_no c s : is_digit c = false → all_chars is_digit s = true → has_char c s = false.
Proof. intros Hc Hs. apply digits_without; [done|]. intros d Hd. by apply digit_neq. Qed.

Lemma hour_last h rest v r format :
  0 ≤ h → 24 ≤ h → (v, r) ∈ hour (pad2 h +:+ String ":" rest) →
  match_format (char ":" :: format) r = [].
Proof.
  intros Hh Hbig Hin. apply hour_sound in Hin as (ds & Heq & Hds & Hv & Hlt).
  destruct r as [|c r]; [done|]. simpl. unfold char.
  destruct (Ascii.eqb_spec c ":") as [->|]; [|done]. exfalso.
  assert (Hp : partition_on ":" (pad2 h +:+ String ":" rest) = (ds, Some r)).
  { rewrite Heq. by apply partition_on_split, digits_have_no. }
  rewrite partition_on_split in Hp by (apply digits_have_no; [done|by apply pad2_digits]).
  injection Hp as <- <-. rewrite pad2_value in Hv by done. lia.
Qed.

Lemma strptime_clock h m s : 0 ≤ h → 0 ≤ m < 60 → 0 ≤ s < 60 →
  strptime simple_fmt (clock_text h m s) =
  if h <? 24 then Ok [h; 0; m; 0; s] else Err (ValueError "time data does not match format").
Proof.
  intros Hh Hm Hs. unfold strptime, simple_fmt. destruct (Z.ltb_spec h 24).
  - destruct (clock_first h m s ltac:(lia) Hm Hs) as [l ->]. done.
  - assert (Hnone : match_format clock_format (clock_text h m s) = []); [|by rewrite Hnone].
    rewrite clock_text_eq. unfold clock_format.
    change (match_format (hour :: ?f) ?s) with
      (concat (map (λ '(v, rest), map (λ '(vs, rest), (v :: vs, rest)) (match_format f rest)) (hour s))).
    pose proof (λ v r, hour_last h (pad2 m +:+ String ":" (pad2 s)) v r
      [minute; char ":"; second] Hh H) as Hlast.
    induction (hour _) as [|[v r] l IH]; [done|]. cbn [map concat]. rewrite (Hlast v r) by by left.
    simpl. apply IH. intros v' r' Hin. apply (Hlast v' r'). by right.
Qed.

Lemma int_of_pad2 n :
  0 ≤ n → Z.of_nat (String.length (pad2 n)) ≤ MAX_STR_DIGITS → int_of_text (pad2 n) = Ok n.
Proof.
  intros Hn Hl. rewrite int_of_digits; [by rewrite pad2_value|by apply pad2_digits|apply pad2_nonempty|done].
Qed.

Lemma length_pretty_go k x s :
  (x < 10 ^ N.of_nat k)%N → (String.length (pretty_N_go x s) ≤ k + String.length s)%nat.
Proof.
  revert x s. induction k as [|k IH]; intros x s Hx.
  - assert (x = 0)%N as -> by (apply N.lt_1_r; exact Hx). done.
  - destruct (decide (x = 0)%N) as [->|Hz]; [change (pretty_N_go 0 s) with s; lia|]. rewrite pretty_N_go_step by lia.
    etrans; [apply IH|simpl; lia]. apply N.Div0.div_lt_upper_bound.
    by rewrite Nat2N.inj_succ, N.pow_succ_r' in Hx.
Qed.

Lemma length_pretty k z : 0 ≤ z < 10 ^ Z.of_nat k → (String.length (pretty z) ≤ k `max` 1)%nat.
Proof.
  intros Hz. destruct z as [|p|p]; [simpl; lia| |lia].
  change (pretty (Zpos p)) with (pretty_N_go (Npos p) "").
  etrans; [apply (length_pretty_go k)|simpl; lia]. apply N2Z.inj_lt.
  rewrite N2Z.inj_pow, nat_N_Z. exact (proj2 Hz).
Qed.

Lemma length_pad2 n : 0 ≤ n < 10 ^ 12 → Z.of_nat (String.length (pad2 n)) ≤ MAX_STR_DIGITS.
Proof.
  intros Hn. pose proof (length_pretty 12 n Hn). unfold pad2, MAX_STR_DIGITS.
  destruct (n <? 10); [change (String.length ("0" +:+ pretty n)) with (S (String.length (pretty n)))|]; lia.
Qed.

(** ** Quotients *)

Lemma positive_div_exact s m n c :
  0 < c → Zpos m = Zpos n * c → c < 2 ^ 53 →
  denotes (SFdiv 53 1024 (S754_finite s m 0) (S754_finite false n 0)) (cond_Zopp s c).
Proof.
  intros Hc Hm Hb. unfold SFdiv, SFdiv_core_binary. cbn [Zdigits2].
  pose proof (digits2_log2 m) as Hdm. pose proof (digits2_log2 n) as Hdn.
  set (d1 := Zpos (digits2_pos m)) in *. set (d2 := Zpos (digits2_pos n)) in *.
  pose proof (Z.log2_spec (Zpos m) ltac:(lia)) as [Hm1 Hm2].
  pose proof (Z.log2_spec (Zpos n) ltac:(lia)) as [Hn1 Hn2].
  pose proof (Z.log2_spec c Hc) as [Hc1 Hc2]. pose proof (Z.log2_nonneg c). pose proof (Z.log2_nonneg (Zpos n)).
  assert (Hge : d2 ≤ d1) by (rewrite Hdm, Hdn; pose proof (Z.log2_le_mono (Zpos n) (Zpos m)); nia).
  assert (Hk : d1 ≤ d2 + 53).
  { assert (Z.log2 (Zpos m) < Z.log2 (Zpos n) + 54); [|lia]. apply Z.log2_lt_pow2; [lia|].
    replace (Z.log2 (Zpos n) + 54) with (Z.succ (Z.log2 (Zpos n)) + 53) by lia.
    rewrite Z.pow_add_r by lia. nia. }
  assert (Hl : d1 - d2 ≤ Z.log2 c + 1).
  { assert (Z.log2 (Zpos m) < Z.log2 (Zpos n) + Z.log2 c + 2); [|lia]. apply Z.log2_lt_pow2; [lia|].
    replace (Z.log2 (Zpos n) + Z.log2 c + 2) with (Z.succ (Z.log2 (Zpos n)) + Z.succ (Z.log2 c)) by lia.
    rewrite Z.pow_add_r by lia. nia. }
  rewrite !Z.add_0_r, Z.sub_0_r, fexp_small by lia.
  replace (Z.min (d1 - d2 - 53) 0) with (d1 - d2 - 53) by lia.
  replace (0 - (d1 - d2 - 53)) with (53 - (d1 - d2)) by lia.
  set (w := 53 - (d1 - d2)) in *.
  assert (Hshift : match w with 0 => Zpos m | Zpos _ => Z.shiftl (Zpos m) w | Zneg _ => 0 end = Zpos m * 2 ^ w).
  { destruct w eqn:Hw; [lia|by apply Z.shiftl_mul_pow2|lia]. }
  rewrite Hshift.
  assert (Hw : 0 < 2 ^ w) by (apply Z.pow_pos_nonneg; unfold w; lia).
  assert (Hq : Zpos m * 2 ^ w = c * 2 ^ w * Zpos n) by lia.
  assert (Hdiv : Zpos m * 2 ^ w / Zpos n = c * 2 ^ w) by (rewrite Hq; apply Z.div_mul; lia).
  assert (Hmod : (Zpos m * 2 ^ w) mod Zpos n = 0) by (rewrite Hq; apply Z.mod_mul; lia).
  unfold Z.div, Z.modulo in Hdiv, Hmod. destruct (Z.div_eucl (Zpos m * 2 ^ w) (Zpos n)) as [q r]. subst q r.
  assert (Hloc : new_location (Zpos n) 0 = loc_Exact)
    by (unfold new_location; by destruct (Z.even (Zpos n))).
  rewrite Hloc. destruct (c * 2 ^ w) as [|M|M] eqn:HM; [nia| |nia].
  rewrite xorb_false_r. apply round_aux_exact; [done|done|unfold w in *; lia| |].
  - rewrite <- HM. do 2 f_equal. unfold w. lia.
  - assert (Z.log2 (Zpos M) = Z.log2 c + w) by (rewrite <- HM; apply log2_shifted; unfold w; lia).
    rewrite digits2_log2. unfold w in *. lia.
Qed.

Lemma true_div_exact a b c : 0 < b → a = b * c → Z.abs c < 2 ^ 53 → denotes (true_div a b) c.
Proof.
  intros Hb -> Hc. destruct b as [|n|n]; [lia| |lia]. destruct (Z.lt_total 0 c) as [Hpos|[<-|Hneg]].
  - destruct (Zpos n * c) as [|m|m] eqn:Hm; [nia| |nia]. apply (positive_div_exact false); lia.
  - by rewrite Z.mul_0_r.
  - destruct (Zpos n * c) as [|m|m] eqn:Hm; [nia|nia|].
    replace c with (cond_Zopp true (- c)) by (simpl; lia). apply positive_div_exact; lia.
Qed.

Lemma delta_minutes_seconds seconds :
  Z.abs seconds < 2 ^ 53 → delta_minutes (seconds * 1000000) = Ok (true_div seconds 60).
Proof.
  intros Hs. unfold delta_minutes. rewrite (int_of_float_exact _ seconds); [done|].
  apply true_div_exact; lia.
Qed.

(** ** Durations *)

Lemma clock_without c h m s : 0 ≤ h → 0 ≤ m → 0 ≤ s →
  is_digit c = false → Ascii.eqb c ":" = false → has_char c (clock_text h m s) = false.
Proof.
  intros Hh Hm Hs Hc Hcolon. rewrite clock_text_eq. unfold has_char.
  rewrite some_char_app. simpl. rewrite some_char_app. simpl. rewrite Hcolon.
  fold (has_char c). by rewrite !(digits_have_no c) by (done || by apply pad2_digits).
Qed.

Lemma large_hours_clock h m s : 0 ≤ h < 23999999976 → 0 ≤ m < 60 → 0 ≤ s < 60 →
  large_hours false (clock_text h m s) = Ok (Some ((h * 3600 + m * 60 + s) * 1000000)).
Proof.
  intros Hh Hm Hs. unfold large_hours, clock_text. rewrite split_on_concat.
  - rewrite !int_of_pad2 by (lia || (apply length_pad2; lia)). simpl. unfold timedelta.
    rewrite (proj2 (Z.ltb_ge _ _)); [simpl; do 2 f_equal; lia|].
    rewrite Z.abs_eq by (apply Z.div_pos; lia). apply Z.lt_succ_r, Z.div_lt_upper_bound; lia.
  - done.
  - repeat constructor; apply digits_have_no; try done; apply pad2_digits; lia.
Qed.

(** The hours of a time without days may be any number. *)
Lemma clock_duration h m s : 0 ≤ h < 23999999976 → 0 ≤ m < 60 → 0 ≤ s < 60 →
  parse_duration (clock_text h m s) = Ok (true_div (h * 3600 + m * 60 + s) 60).
Proof.
  intros Hh Hm Hs. unfold parse_duration.
  rewrite !clock_without by (lia || done). cbn [negb].
  rewrite strptime_clock by lia. destruct (Z.ltb_spec h 24).
  - simpl. rewrite (proj2 (Z.ltb_ge 59 s)) by lia. unfold timedelta.
    rewrite (proj2 (Z.ltb_ge _ _)).
    + simpl. rewrite <- delta_minutes_seconds by lia. f_equal. lia.
    + rewrite Z.abs_eq by (apply Z.div_pos; lia). apply Z.lt_succ_r, Z.div_lt_upper_bound; lia.
  - simpl. rewrite large_hours_clock by lia. simpl. apply delta_minutes_seconds. lia.
Qed.

Lemma day_duration d h m s : 0 < d < 32 → 0 ≤ h < 24 → 0 ≤ m < 60 → 0 ≤ s < 60 →
  parse_duration (pretty d +:+ String "-" (clock_text h m s)) =
  Ok (true_div (d * 86400 + h * 3600 + m * 60 + s) 60).
Proof.
  intros Hd Hh Hm Hs. unfold parse_duration.
  assert (Hdash : has_char "-" (pretty d +:+ String "-" (clock_text h m s)) = true).
  { rewrite has_char_app. simpl. by rewrite orb_true_r. }
  assert (Hdot : has_char "." (pretty d +:+ String "-" (clock_text h m s)) = false).
  { rewrite has_char_app. unfold has_char at 2. simpl. fold (has_char ".").
    rewrite clock_without by (lia || done). rewrite orb_false_r. apply digits_have_no; [done|].
    apply digits_pretty. lia. }
  rewrite Hdash, Hdot. cbn [negb].
  destruct (clock_first h m s Hh Hm Hs) as [l1 H1].
  destruct (match_char "-" _ _ _ _ _ H1) as [l2 H2].
  destruct (day_first d (clock_text h m s) Hd) as [l3 H3].
  destruct (match_first _ _ _ _ _ _ _ _ _ H3 H2) as [l4 H4].
  unfold strptime, days_fmt. cbn [app]. rewrite H4. simpl.
  rewrite (proj2 (Z.ltb_ge 59 s)) by lia. unfold timedelta. rewrite (proj2 (Z.ltb_ge _ _)).
  - simpl. rewrite <- delta_minutes_seconds by lia. f_equal. lia.
  - rewrite Z.abs_eq by (apply Z.div_pos; lia). apply Z.lt_succ_r, Z.div_lt_upper_bound; lia.
Qed.

(** ** Amounts are read back *)

Lemma parse_int_digits z unit :
  0 ≤ z → Z.of_nat (String.length (pretty z)) ≤ MAX_STR_DIGITS →
  match unit with String c _ => is_digit c = false | EmptyString => True end →
  parse_int (pretty z +:+ unit) =
  if nonempty (unit_of unit) then
    match dict_get UNITS (unit_of unit) with Some f => Ok (f * z) | None => Err (KeyError (unit_of unit)) end
  else Ok z.
Proof.
  intros Hz Hl Hu. unfold parse_int. rewrite digits_prefix_spec by (by apply digits_pretty || done).
  pose proof (pretty_Z_nonempty z) as Hn.
  assert (nonempty (pretty z) = true) as -> by by destruct (pretty z).
  simpl. by rewrite int_of_pretty.
Qed.

(** A limit as [sacctmgr] prints it: memory in megabytes, anything else as it is. *)
Definition printed_limit (limit : string * Z) : string :=
  limit.1 +:+ "=" +:+ pretty limit.2 +:+ (if String.eqb limit.1 "mem" then "M" else "").

Definition plain_name (s : string) : Prop :=
  has_char "," s = false ∧ has_char "=" s = false ∧ has_char "|" s = false.

Definition printable (limit : string * Z) : Prop :=
  plain_name limit.1 ∧ 0 ≤ limit.2 ∧ Z.of_nat (String.length (pretty limit.2)) ≤ MAX_STR_DIGITS.

Definition printed_value (limit : string * Z) : string :=
  pretty limit.2 +:+ (if String.eqb limit.1 "mem" then "M" else "").

Lemma printed_limit_without c limit :
  is_digit c = false → Ascii.eqb c "=" = false → Ascii.eqb c "M" = false →
  printable limit → has_char c limit.1 = false → has_char c (printed_limit limit) = false.
Proof.
  intros Hd He HM (_ & Hz & _) Hn. unfold printed_limit. rewrite !has_char_app, Hn.
  rewrite (digits_have_no c (pretty limit.2)) by (done || by apply digits_pretty).
  unfold has_char. simpl. rewrite He. destruct (String.eqb _ _); simpl; by rewrite ?HM.
Qed.

Lemma add_printed d limit :
  printable limit → add_pair d (printed_limit limit) = dict_set d limit.1 (printed_value limit).
Proof.
  intros ((_ & He & _) & _). unfold add_pair, printed_limit.
  change (limit.1 +:+ "=" +:+ printed_value limit) with (limit.1 +:+ String "=" (printed_value limit)).
  change (pretty limit.2 +:+ (if String.eqb limit.1 "mem" then "M" else "")) with (printed_value limit).
  change ("=" +:+ printed_value limit) with (String "=" (printed_value limit)).
  by rewrite partition_on_split.
Qed.

Lemma parse_printed limits d :
  Forall printable limits → NoDup (dict_keys d ++ map fst limits) →
  foldl add_pair d (map printed_limit limits) = d ++ map (λ l, (l.1, printed_value l)) limits.
Proof.
  revert d. induction limits as [|l limits IH]; intros d Hp Hnd; simpl; [by rewrite app_nil_r|].
  inversion Hp; subst. rewrite add_printed by done. simpl in Hnd.
  assert (Hfresh : l.1 ∉ dict_keys d).
  { apply NoDup_app in Hnd as (_ & Hd & _). intros Hin. apply (Hd _ Hin). by left. }
  rewrite dict_set_fresh by done. rewrite IH; [by rewrite <- app_assoc|done|].
  unfold dict_keys in *. rewrite fmap_app. simpl. by rewrite <- app_assoc.
Qed.

Lemma limit_value l :
  printable l → rbind (parse_int (printed_value l)) (λ n,
    Ok (if String.eqb l.1 "mem" then n / 2 ^ 20 else n)) = Ok l.2.
Proof.
  intros (_ & Hz & Hl). unfold printed_value. destruct (String.eqb l.1 "mem").
  - rewrite parse_int_digits by done. change (Ok (2 ^ 20 * l.2 / 2 ^ 20) = Ok l.2).
    f_equal. rewrite Z.mul_comm. by apply Z.div_mul.
  - by rewrite parse_int_digits.
Qed.

Lemma add_tres_limits tres limits d :
  Forall printable limits → NoDup (dict_keys d ++ map fst limits) →
  rfold (add_tres_limit tres) (map (λ l, (l.1, printed_value l)) limits) d =
  Ok (d ++ filter (λ l, l.1 ∈ dict_keys tres) limits).
Proof.
  revert d. induction limits as [|l limits IH]; intros d Hp Hnd; simpl; [by rewrite app_nil_r|].
  inversion Hp; subst. unfold add_tres_limit at 1. simpl. rewrite filter_cons. simpl in Hnd.
  case_bool_decide as Hin.
  - pose proof (limit_value l ltac:(done)) as Hv.
    destruct (parse_int (printed_value l)) as [n|e]; [|done]. simpl in Hv |- *. injection Hv as ->.
    rewrite decide_True by done.
    assert (Hfresh : l.1 ∉ dict_keys d).
    { apply NoDup_app in Hnd as (_ & Hd & _). intros Hk. apply (Hd _ Hk). by left. }
    rewrite dict_set_fresh by done. rewrite IH; [|done|].
    + rewrite <- app_assoc. simpl. by destruct l.
    + unfold dict_keys in *. rewrite fmap_app. simpl. by rewrite <- app_assoc.
  - rewrite decide_False by done. simpl. apply IH; [done|].
    apply (sublist_NoDup _ _ Hnd). apply sublist_app; [done|]. by constructor.
Qed.

(** An elapsed time of up to 31 days, 23:59:59 -- more than any month holds, and reports
    are truncated to a month -- is read as its seconds over 60, correctly rounded, and
    exactly when the seconds are whole minutes; the same time written in hours only, however
    many, is read the same. *)
Theorem elapsed_times_parsed t :
  0 ≤ t < 32 * 86400 →
  parse_duration (elapsed_text t) = Ok (true_div t 60) ∧
  parse_duration (clock_text (t / 3600) (t / 60 mod 60) (t mod 60)) = Ok (true_div t 60) ∧
  ∀ q, t = 60 * q → denotes (true_div t 60) q.
Proof.
  intros Ht.
  pose proof (Z.mod_pos_bound (t / 60) 60). pose proof (Z.mod_pos_bound t 60).
  pose proof (Z.div_mod t 60). pose proof (Z.div_mod (t / 60) 60). pose proof (Z.div_div t 60 60).
  pose proof (Z.mod_pos_bound (t / 3600) 24). pose proof (Z.div_mod (t / 3600) 24).
  pose proof (Z.div_div t 3600 24). change (60 * 60) with 3600 in *. change (3600 * 24) with 86400 in *.
  split_and!.
  - unfold elapsed_text. destruct (Z.ltb_spec t 86400).
    + rewrite clock_duration by lia. do 2 f_equal. lia.
    + change ("-" +:+ ?s) with (String "-" s). rewrite day_duration by lia. do 2 f_equal. lia.
  - rewrite clock_duration by lia. do 2 f_equal. lia.
  - intros q Hq. apply true_div_exact; lia.
Qed.

Lemma elapsed_times_parsed_witness :
  parse_duration "1-01:02:00" = Ok (true_div 90120 60) ∧ parse_duration "25:02:00" = Ok (true_div 90120 60) ∧
  denotes (true_div 90120 60) 1502.
Proof.
  destruct (elapsed_times_parsed 90120) as (H1 & H2 & H3); [lia|].
  split; [exact H1|]. split; [exact H2|]. by apply H3.
Defined.

(** A time of 32 days is no date. *)
Example beyond_a_month : parse_duration "32-00:00:00" = Err (ValueError "time data does not match format").
Proof. vm_compute. reflexivity. Qed.

(** [P] is a unit of the pattern, not of the table. *)
Example petabytes_unknown : parse_int "2P" = Err (KeyError "P").
Proof. vm_compute. reflexivity. Qed.

(** Limits that [sacctmgr] prints on an association are read back as they are, in order:
    of the configured components, whatever else is printed beside them, with memory in
    megabytes. *)
Theorem limits_read_back tres account limits :
  has_char "|" account = false → Forall printable limits → NoDup (map fst limits) →
  tres_limits (new_line (account +:+ "|" +:+ String.concat "," (map printed_limit limits)) tres) =
  Ok (filter (λ l, l.1 ∈ dict_keys tres) limits).
Proof.
  intros Ha Hp Hnd. unfold tres_limits, association_resources, part, new_line. cbn [parts slurm_tres].
  assert (Hsplit : split_on "|" (account +:+ "|" +:+ String.concat "," (map printed_limit limits)) =
    [account; String.concat "," (map printed_limit limits)]).
  { apply (split_on_concat "|" [account; _]); [done|]. repeat constructor; [done|].
    apply some_char_concat; [done|]. apply Forall_fmap. eapply Forall_impl; [exact Hp|]. intros l Hl.
    apply printed_limit_without; try done. apply Hl. }
  rewrite Hsplit. cbn [nth_error rbind].
  destruct limits as [|l limits]; [done|].
  assert (Hne : nonempty (String.concat "," (map printed_limit (l :: limits))) = true).
  { assert (Hl : nonempty (printed_limit l) = true) by (unfold printed_limit; by destruct l.1).
    simpl. destruct (map printed_limit limits); [done|]. by destruct (printed_limit l). }
  rewrite Hne. cbn [rbind]. unfold parse_pairs. rewrite split_on_concat; [|done|].
  - rewrite parse_printed by done. by apply (add_tres_limits tres (l :: limits) []).
  - apply Forall_fmap. eapply Forall_impl; [exact Hp|]. intros x Hx.
    apply printed_limit_without; try done. apply Hx.
Qed.

Lemma limits_read_back_witness :
  tres_limits (new_line "alloc|cpu=6000,mem=2048M,billing=7" [("cpu", JObj []); ("mem", JObj [])]) =
  Ok [("cpu", 6000); ("mem", 2048)].
Proof.
  apply (limits_read_back [("cpu", JObj []); ("mem", JObj [])] "alloc" [("cpu", 6000); ("mem", 2048); ("billing", 7)]).
  - reflexivity.
  - repeat constructor; vm_compute; discriminate.
  - by apply (bool_decide_unpack _).
Defined.

(** The usage of a line: ten CPUs for an hour and a half. *)
Example sample_line_usage :
  tres_usage (new_line "alloc|cpu=10,energy=5|01:30:00|anna" [("cpu", JObj [])]) = Ok [("cpu", float_of_Z 900)].
Proof. vm_compute. reflexivity. Qed.
