(* ===== verification/SlurmClient.v ===== *)
(** * The SLURM command line client

    [plugins/slurm/waldur_site_agent_slurm/interface.py] is the call signature [slurmE];
    [client.py: SlurmClient] is the method table [slurm_client], over the command lines it
    runs ([commandE]).  The state is the log of executed commands. *)

From stdpp Require Import base list strings gmap sets pretty sorting.
From Stdlib Require Import ZArith Lia Ascii.
From S2P Require Import Prelude.
From S2P Require Import Texts.
From S2P Require Import Structures.
From S2P Require Import Numbers.
From S2P Require Import FloatInts.
From S2P Require Import OfferingUsers.
From S2P Require Import BaseBackend.
From S2P Require Import ComponentMapping.
From S2P Require Import SlurmParser.

Local Open Scope prog_scope.
Local Open Scope Z_scope.

(** ** The interface *)

(** The parameters of [create_qos] besides the name. *)
Record qos_params : Type := {
  qp_flags : json;
  qp_grp_tres : json;
  qp_max_jobs : json;
  qp_max_submit : json;
  qp_max_wall : json;
  qp_min_tres_per_job : json;
}.

Inductive slurmE : Type → Type :=
| ClearExecutedCommands : slurmE unit
| ExecutedCommands : slurmE (list string)
| ExecuteCommand (command : list string) : slurmE string
| GetVersion : slurmE string
| ValidateSlurmBinary : slurmE bool
| SlListResources : slurmE (list ClientResource)
| ListTres : slurmE (list string)
| ListClusters : slurmE (list string)
| SlGetResource (resource_id : string) : slurmE (option ClientResource)
| SlCreateResource (name description organization : string) (parent_name : option string)
    : slurmE string
| GetAccountParent (account : string) : slurmE (option string)
| SetAccountParent (account new_parent : string) : slurmE string
| DeleteAllUsersFromAccount (name : string) : slurmE string
| AccountHasUsers (account : string) : slurmE bool
| SlDeleteResource (name : string) : slurmE string
| SlSetResourceLimits (resource_id : string) (limits : gmap string Z) : slurmE string
| SlSetResourceUserLimits (resource_id username : string) (limits : gmap string pynum)
    : slurmE string
| SetAccountQos (account qos : string) (default_qos : option string) : slurmE unit
| GetAssociation (user resource_id : string) : slurmE (option Association)
| CreateAssociation (username resource_id : string) (default_account : option string)
    : slurmE string
| ListUserAccounts (username : string) : slurmE (list string)
| GetUserDefaultAccount (username : string) : slurmE (option string)
| SetUserDefaultAccount (username account : string) : slurmE unit
| DeleteAssociation (username resource_id : string) : slurmE string
| UsageReport (resource_ids : list string) (timezone : string) : slurmE (list slurm_line)
| HistoricalUsageReport (resource_ids : list string) (year month : Z) : slurmE (list slurm_line)
| SlGetResourceLimits (resource_id : string) : slurmE (list (string * Z))
| SlGetResourceUserLimits (resource_id : string) : slurmE (list (string * list (string * Z)))
| SlListResourceUsers (resource_id : string) : slurmE (list string)
| GetCurrentAccountQos (account : string) : slurmE string
| GetCurrentAccountDefaultQos (account : string) : slurmE string
| CancelActiveUserJobs (account : string) (user : option string) : slurmE unit
| ListActiveUserJobs (account user : string) : slurmE (list string)
| CheckUserExists (username : string) : slurmE bool
| QosExists (qos_name : string) : slurmE bool
| CreateQos (name : string) (params : qos_params) : slurmE unit
| DeleteQos (name : string) : slurmE unit
| SetAccountQosList (account : string) (qos_list : list string) : slurmE unit
| AddAccountQos (account qos_name : string) : slurmE unit
| SetAccountDefaultQos (account qos_name : string) : slurmE unit
| SetQosGrpTresMins (qos_name : string) (limits : gmap string Z) : slurmE unit
| GetQosGrpTresMins (qos_name : string) : slurmE (list (string * Z))
| ResetQosRawUsage (qos_name : string) : slurmE unit
| SetAccountGrpSubmitJobs (account : string) (value : Z) : slurmE unit
| CreateAssociationWithPartition (username resource_id partition : string)
    (default_account : option string) : slurmE string
| CreateAssociationWithPartitions (username resource_id : string) (partitions : list string)
    (default_account : option string) : slurmE string
| CreateAssociationWithQos (username resource_id : string) (qos_list : list string)
    (default_qos : option string) (partitions : list string) (default_account : option string)
    : slurmE string
| SetAccountFairshare (account : string) (fairshare : json) : slurmE bool
| SetAccountLimits (account : string) (limit_type : json) (limits : list (string * json))
    : slurmE bool
| ResetRawUsage (account : string) : slurmE bool
| GetAccountFairshare (account : string) : slurmE Z
| GetAccountLimits (account : string) : slurmE (list (string * list (string * string)))
| CreateLinuxUserHomedir (username umask : string) : slurmE string.

(** What the client does to the outside: command lines, whose output it reads, and the
    clock, as the year and month in a timezone. *)
Inductive commandE : Type → Type :=
| Execute (command : list string) (silent : bool) : commandE string
| CurrentMonth (timezone : string) : commandE (Z * Z).

Abbreviation client_m := (M commandE (list string)).

(** The constructor arguments of [SlurmClient]. *)
Record slurm_config : Type := {
  tres : list (string * json);
  slurm_bin_path : string;
  cluster_name : option string;
  usage_tres_source : UsageTresSource;
}.

(** ** Command lines *)

Definition has_pipe : string → bool := has_char "|".
Definition rows (output : string) : list string := List.filter has_pipe (splitlines output).

Definition CLUSTER_INDEPENDENT_ENTITIES : list string := ["qos"; "tres"; "cluster"].
Definition SLURM_COMMANDS : list string := ["sacctmgr"; "sacct"; "scancel"; "sinfo"].
Definition SUPPORTS_PARSABLE : list string := ["sacctmgr"; "sacct"].

(** [str(Path(directory) / name)] *)
Definition path_in (directory name : string) : string :=
  let root := if String.prefix "//" directory && negb (String.prefix "///" directory) then "//"
              else if String.prefix "/" directory then "/" else "" in
  root +:+ String.concat "/"
    (List.filter (λ p, nonempty p && negb (String.eqb p ".")) (split_on "/" directory) ++ [name]).

(** [command.insert(command.index("set"), x)], or [command.append(x)]. *)
Fixpoint insert_before_set (x : string) (command : list string) : list string :=
  match command with
  | [] => [x]
  | token :: rest => if String.eqb token "set" then x :: command
                     else token :: insert_before_set x rest
  end.

(** [re.match("^\[A-Za-z0-9_-\]+$", s)]; [$] also matches before a final line feed. *)
Definition name_char (c : ascii) : bool :=
  in_range "A" "Z" c || in_range "a" "z" c || in_range "0" "9" c || Ascii.eqb c "_" || Ascii.eqb c "-".

Fixpoint valid_name (s : string) : bool :=
  match s with
  | EmptyString => false
  | String c s => name_char c && match s with
                                 | EmptyString => true
                                 | String d EmptyString => Ascii.eqb d "010" || name_char d
                                 | s => valid_name s
                                 end
  end.

Definition QUOTE : ascii := "034".

(** [f'{key}="{value}"'] *)
Definition quoted (key value : string) : string :=
  key +:+ "=" +:+ String QUOTE (value +:+ String QUOTE "").

(** [_sanitize_sacctmgr_value] *)
Definition sanitize_sacctmgr_value (value : string) : string :=
  String.concat " " (words (without_char QUOTE value)).

(** [_parse_account]; missing fields read as empty. *)
Definition parse_account (line : string) : ClientResource :=
  let fields := split_on "|" line ++ [""; ""] in
  {| cr_name := nth 0 fields ""; cr_description := nth 1 fields "";
     cr_organization := nth 2 fields ""; cr_backend_id := "" |}.

(** [_parse_association] *)
Definition parse_association (line : string) : res Association :=
  let parts := split_on "|" line in
  match nth_error parts 9 with
  | None => Err (IndexError "list index out of range")
  | Some value =>
      let digits := if String.prefix "cpu=" value
                    then (digits_prefix (String.substring 4 (String.length value) value)).1 else "" in
      rbind (if nonempty digits then int_of_text digits else Ok 0) (λ n,
      Ok {| as_account := nth 1 parts ""; as_user := nth 2 parts ""; as_value := n |})
  end.

Fixpoint parse_all {L A} (parse : L → res A) (lines : list L) : res (list A) :=
  match lines with
  | [] => Ok []
  | line :: lines => rbind (parse line) (λ a, rbind (parse_all parse lines) (λ l, Ok (a :: l)))
  end.

(** [_parse_tres_string] *)
Definition add_tres (d : list (string * string)) (item : string) : list (string * string) :=
  match partition_on "=" item with
  | (name, Some value) =>
      dict_set d name (match int_of_text value with Ok n => pretty n | Err _ => value end)
  | (_, None) => d
  end.
Definition parse_tres_string (s : string) : list (string * string) :=
  if nonempty s then foldl add_tres [] (split_on "," s) else [].

Definition key_values {V} (text : V → string) (l : list (string * V)) : string :=
  String.concat "," (map (λ x, x.1 +:+ "=" +:+ text x.2) l).

(** [",".join(f"{key}={value}" for key, value in sorted(limits.items()))] *)
Definition limits_text (limits : gmap string Z) : string :=
  key_values pretty (sort_items (map_to_list limits)).

(** [format_month_period] *)
Definition format_month_period (year month : Z) : res (string * string) :=
  if negb ((1 <=? year) && (year <=? 9999)) then Err (ValueError "year is out of range")
  else if negb ((1 <=? month) && (month <=? 12)) then Err (ValueError "month must be in 1..12")
  else let prefix := pretty year +:+ "-" +:+ pad2 month +:+ "-" in
       Ok (prefix +:+ "01T00:00:00", prefix +:+ pad2 (month_days year month) +:+ "T23:59:59").

Section SlurmClient.
Context (cfg : slurm_config).
(** [str()] of a JSON value. *)
Context (text : json → string).

(** [_inject_cluster_filter] *)
Definition inject_cluster_filter (command : list string) (command_name : string) : list string :=
  match cluster_name cfg with
  | Some cluster =>
      if negb (nonempty cluster) then command
      else if String.eqb command_name "sacctmgr" then
        if existsb (λ token, bool_decide (token ∈ CLUSTER_INDEPENDENT_ENTITIES)) (take 3 command) ||
           bool_decide ("--version" ∈ command) then command
        else insert_before_set ("cluster=" +:+ cluster) command
      else if String.eqb command_name "sacct" || String.eqb command_name "scancel" then
        ("--cluster=" +:+ cluster) :: command
      else command
  | None => command
  end.

Definition resolved_command (command_name : string) : string :=
  if nonempty (slurm_bin_path cfg) && bool_decide (command_name ∈ SLURM_COMMANDS)
  then path_in (slurm_bin_path cfg) command_name else command_name.

Definition command_line (command_name : string) (immediate parsable : bool) (command : list string)
  : list string :=
  [resolved_command command_name] ++
  (if parsable then ["--parsable2"; "--noheader"] else []) ++
  (if immediate then ["--immediate"] else []) ++ inject_cluster_filter command command_name.

(** [_execute_command] *)
Definition execute_with (command_name : string) (immediate parsable silent : bool)
    (command : list string) : client_m string :=
  if immediate && negb (String.eqb command_name "sacctmgr") then
    raise (ValueError ("--immediate is not supported by " +:+ command_name))
  else if parsable && negb (bool_decide (command_name ∈ SUPPORTS_PARSABLE)) then
    raise (ValueError ("--parsable2/--noheader are not supported by " +:+ command_name))
  else
    let account_command := command_line command_name immediate parsable command in
    let! log := get_st in
    put_st (log ++ [String.concat " " account_command]) ;!
    let! output := attempt (call (Execute account_command silent)) in
    match output with
    | Ok output => ret output
    | Err e =>
        if is_backend_error e &&
           match inject_cluster_filter command command_name with
           | c :: _ => String.eqb c "modify" | [] => false end &&
           str_contains "Nothing modified" (exn_str e)
        then ret "" else raise e
    end.

Definition execute_command : list string → client_m string :=
  execute_with "sacctmgr" true true false.
Definition execute_later : list string → client_m string :=
  execute_with "sacctmgr" false true false.

Definition run (command : list string) : client_m unit := execute_command command ;! ret ().

(** Failures of the periodic settings name what failed. *)
Definition failing {A} (what : string) (m : client_m A) : client_m A :=
  let! r := attempt m in
  match r with
  | Ok a => ret a
  | Err e => if is_backend_error e then raise (BackendError (what +:+ ": " +:+ exn_str e)) else raise e
  end.

(** ** Accounts *)

Definition get_version : client_m string :=
  let! output := execute_with "sinfo" false false false ["-V"] in ret (strip output).

Definition validate_slurm_binary : client_m bool :=
  let! output := attempt (execute_with "sacctmgr" false false false ["--version"]) in
  match output with
  | Ok output => ret (str_contains "slurm" (str_lower output))
  | Err e => if is_backend_error e then ret false else raise e
  end.

Definition list_resources : client_m (list ClientResource) :=
  let! output := execute_command ["list"; "account"] in ret (map parse_account (rows output)).

Definition tres_name (line : string) : string :=
  let fields := split_on "|" line in
  let component_name := nth 1 fields "" in
  if nonempty component_name then nth 0 fields "" +:+ "/" +:+ component_name else nth 0 fields "".

Definition list_tres : client_m (list string) :=
  let! output := execute_command ["list"; "tres"] in ret (map tres_name (rows output)).

Definition list_clusters : client_m (list string) :=
  let! output := execute_command ["list"; "cluster"; "format=cluster"] in
  ret (map (λ line, strip (nth 0 (split_on "|" line) ""))
           (List.filter (λ line, negb (blank line)) (splitlines output))).

Definition get_resource (resource_id : string) : client_m (option ClientResource) :=
  let! output := execute_command ["show"; "account"; resource_id] in
  ret (option_map parse_account (head (rows output))).

Definition create_resource (name description organization : string) (parent_name : option string)
  : client_m string :=
  execute_command (["add"; "account"; name;
    quoted "description" (sanitize_sacctmgr_value description);
    quoted "organization" (sanitize_sacctmgr_value organization)] ++
    match parent_name with
    | Some p => if nonempty p then [quoted "parent" p] else []
    | None => []
    end).

Definition account_row (account line : string) : bool :=
  let parts := split_on "|" (strip line) in
  (2 <? length parts)%nat &&
  String.eqb (str_lower (strip (nth 0 parts ""))) (str_lower account) &&
  blank (nth 2 parts "").

Definition some_text (s : string) : option string := if nonempty s then Some s else None.

Definition get_account_parent (account : string) : client_m (option string) :=
  let! output := execute_command ["show"; "assoc"; "account=" +:+ account;
                                  "format=Account,ParentName,User"; "-n"; "-P"] in
  ret (match List.filter (account_row account) (splitlines output) with
       | line :: _ => some_text (strip (nth 1 (split_on "|" (strip line)) ""))
       | [] => None
       end).

Definition set_account_parent (account new_parent : string) : client_m string :=
  execute_command ["modify"; "account"; "where"; "name=" +:+ account; "set"; "parent=" +:+ new_parent].

Definition account_has_users (account : string) : client_m bool :=
  let! output := execute_command ["show"; "association"; "where"; "account=" +:+ account] in
  let! items := of_res (parse_all parse_association (rows output)) in
  ret (existsb (λ item, nonempty (as_user item)) items).

Definition delete_resource (name : string) : client_m string :=
  execute_command ["remove"; "account"; "where"; "name=" +:+ name].

Definition set_resource_limits (resource_id : string) (limits : gmap string Z) : client_m string :=
  execute_command ["modify"; "account"; resource_id; "set"; "GrpTRESMins=" +:+ limits_text limits].

(** [f"{value}"] of a limit. *)
Definition limit_text (x : pynum) : string :=
  match x with PyInt z => pretty z | PyFloat f => text (JFloat f) end.

Definition set_resource_user_limits (resource_id username : string) (limits : gmap string pynum)
  : client_m string :=
  let! all_tres := list_tres in
  let limits_str :=
    key_values limit_text (map (λ t, (t, default (PyInt (-1)) (limits !! t))) all_tres) in
  execute_command ["modify"; "user"; username; "where"; "account=" +:+ resource_id; "set";
                   "MaxTRESMins=" +:+ limits_str].

(** ** Users and associations *)

(** [dict.fromkeys(l)]: the first of each. *)
Definition distinct (l : list string) : list string :=
  foldl (λ acc x, if bool_decide (x ∈ acc) then acc else acc ++ [x]) [] l.

(** [list_resource_users]: the rows of the account that name a user. *)
Definition resource_user (resource_id line : string) : option string :=
  let '(account, rest) := partition_on "|" line in
  let username := strip (nth 0 (split_on "|" (default "" rest)) "") in
  if negb (String.eqb (strip account) resource_id) || negb (nonempty username) then None
  else Some username.

Definition list_resource_users (resource_id : string) : client_m (list string) :=
  let! output := execute_command ["list"; "associations"; "format=account,user"; "where";
                                  "account=" +:+ resource_id] in
  ret (omap (resource_user resource_id) (rows output)).

(** The second column of the rows of a user, in lower case. *)
Definition user_column (username line : string) : option string :=
  let fields := split_on "|" line in
  if String.eqb (strip (nth 0 fields "")) username
  then Some (str_lower (strip (nth 1 fields ""))) else None.

Definition list_user_accounts (username : string) : client_m (list string) :=
  let! output := execute_command ["show"; "association"; "where"; "user=" +:+ username;
                                  "format=user,account"] in
  ret (merge_sort str_le (remove_dups
         (List.filter nonempty (omap (user_column username) (rows output))))).

Definition get_user_default_account (username : string) : client_m (option string) :=
  let! output := execute_command ["show"; "user"; "where"; "name=" +:+ username;
                                  "format=user,defaultaccount"] in
  ret (match omap (user_column username) (rows output) with
       | account :: _ => some_text account
       | [] => None
       end).

Definition set_user_default_account (username account : string) : client_m unit :=
  run ["modify"; "user"; "where"; "name=" +:+ username; "set"; "DefaultAccount=" +:+ account].

Definition delete_user (username : string) : client_m string :=
  execute_command ["remove"; "user"; "where"; "name=" +:+ username].

Definition is_default (default_account : option string) (account : string) : bool :=
  match default_account with Some a => String.eqb a account | None => false end.

Definition delete_association (username resource_id : string) : client_m string :=
  let target := str_lower resource_id in
  let! accounts := list_user_accounts username in
  let remaining := List.filter (λ a, negb (String.eqb a target)) accounts in
  match accounts, remaining with
  | _ :: _, [] => delete_user username
  | _, _ =>
      match remaining with
      | next :: _ =>
          let! default_account := get_user_default_account username in
          if is_default default_account target then set_user_default_account username next
          else ret ()
      | [] => ret ()
      end ;!
      execute_command ["remove"; "user"; "where"; "name=" +:+ username; "and";
                       "account=" +:+ resource_id]
  end.

Definition repoint_default (target username : string) : client_m unit :=
  let! default_account := get_user_default_account username in
  if negb (is_default default_account target) then ret ()
  else
    let! accounts := list_user_accounts username in
    match List.filter (λ a, negb (String.eqb a target)) accounts with
    | [] => ret ()
    | next :: _ => set_user_default_account username next
    end.

(** [_repoint_defaults_away_from] *)
Definition repoint_defaults_away_from (account : string) : client_m unit :=
  let! users := list_resource_users account in
  for_each (distinct users) (repoint_default (str_lower account)).

Definition delete_all_users_from_account (name : string) : client_m string :=
  repoint_defaults_away_from name ;!
  execute_command ["remove"; "user"; "where"; "account=" +:+ name].

Definition get_association (user resource_id : string) : client_m (option Association) :=
  let! output := execute_command ["show"; "association"; "where"; "user=" +:+ user;
                                  "account=" +:+ resource_id] in
  match rows output with
  | [] => ret None
  | line :: _ => let! a := of_res (parse_association line) in ret (Some a)
  end.

Definition default_account_argument (default_account : option string) : list string :=
  match default_account with Some a => ["DefaultAccount=" +:+ a] | None => [] end.

Definition create_association (username resource_id : string) (default_account : option string)
  : client_m string :=
  execute_command (["add"; "user"; username; "account=" +:+ resource_id] ++
                   default_account_argument default_account ++ ["Share=parent"]).

(** The names that a command is given, checked. *)
Definition check_name (what name : string) : client_m unit :=
  if valid_name name then ret ()
  else raise (BackendError ("Invalid SLURM " +:+ what +:+ " name: '" +:+ name +:+ "'")).

Definition sorted_names (l : list string) : list string := merge_sort str_le l.

Definition create_association_with_partition (username resource_id partition : string)
    (default_account : option string) : client_m string :=
  check_name "partition" partition ;!
  execute_command (["add"; "user"; username; "account=" +:+ resource_id] ++
                   default_account_argument default_account ++ ["Partition=" +:+ partition]).

Definition partitions_argument (partitions : list string) : list string :=
  match partitions with
  | [] => []
  | _ => ["Partitions=" +:+ String.concat "," (sorted_names partitions)]
  end.

Definition create_association_with_partitions (username resource_id : string)
    (partitions : list string) (default_account : option string) : client_m string :=
  (match partitions with [] => raise (BackendError "partitions must be non-empty") | _ => ret () end) ;!
  for_each partitions (check_name "partition") ;!
  execute_command (["add"; "user"; username; "account=" +:+ resource_id] ++
                   default_account_argument default_account ++
                   partitions_argument partitions ++ ["Share=parent"]).

Definition create_association_with_qos (username resource_id : string) (qos_list : list string)
    (default_qos : option string) (partitions : list string) (default_account : option string)
  : client_m string :=
  (match qos_list with [] => raise (BackendError "qos_list must be non-empty") | _ => ret () end) ;!
  for_each qos_list (check_name "QoS") ;!
  (match default_qos with Some q => check_name "QoS" q | None => ret () end) ;!
  for_each partitions (check_name "partition") ;!
  execute_command (["add"; "user"; username; "account=" +:+ resource_id] ++
                   default_account_argument default_account ++
                   partitions_argument partitions ++
                   ["QosLevel=" +:+ String.concat "," qos_list] ++
                   match default_qos with Some q => ["DefaultQOS=" +:+ q] | None => [] end ++
                   ["Share=parent"]).

(** ** Usage and limits *)

Definition USAGE_FIELDS : string := "Account,ReqTRES,Elapsed,User".
Definition ALLOC_USAGE_FIELDS : string := "Account,AllocTRES,ReqTRES,Elapsed,User".

(** [_fold_alloc_line] *)
Definition fold_alloc_line (line : string) : string :=
  match split_on "|" line with
  | [account; alloc_tres; req_tres; elapsed; user] =>
      let tres := default "" (pick_usage_tres (usage_tres_source cfg) (Some alloc_tres) (Some req_tres)) in
      account +:+ "|" +:+ tres +:+ "|" +:+ elapsed +:+ "|" +:+ user
  | _ => line
  end.

Definition allocated_usage : bool :=
  match usage_tres_source cfg with ALLOCATED => true | REQUESTED => false end.

(** [_usage_lines] *)
Definition usage_lines (resource_ids : list string) (period : string * string)
  : client_m (list slurm_line) :=
  let! output := execute_with "sacct" false true false
    ["--noconvert"; "--truncate"; "--allocations"; "--allusers";
     "--starttime=" +:+ period.1; "--endtime=" +:+ period.2;
     "--accounts=" +:+ String.concat "," resource_ids;
     "--format=" +:+ (if allocated_usage then ALLOC_USAGE_FIELDS else USAGE_FIELDS)] in
  let lines := rows output in
  let lines := if allocated_usage then map fold_alloc_line lines else lines in
  ret (map (λ line, new_line line (tres cfg)) lines).

Definition get_usage_report (resource_ids : list string) (timezone : string)
  : client_m (list slurm_line) :=
  let! month := call (CurrentMonth timezone) in
  let! period := of_res (format_month_period month.1 month.2) in
  usage_lines resource_ids period.

Definition get_historical_usage_report (resource_ids : list string) (year month : Z)
  : client_m (list slurm_line) :=
  let! period := of_res (format_month_period year month) in
  usage_lines resource_ids period.

Definition association_lines (output : string) : list slurm_line :=
  map (λ line, new_line line (tres cfg)) (rows output).

Definition get_resource_limits (resource_id : string) : client_m (list (string * Z)) :=
  let! output := execute_later ["show"; "association"; "format=account,GrpTRESMins"; "where";
                                "accounts=" +:+ resource_id] in
  let! limits := of_res (parse_all tres_limits (association_lines output)) in
  ret (default [] (head (List.filter (λ l, match l with [] => false | _ => true end) limits))).

Fixpoint user_limits (lines : list slurm_line) (d : list (string * list (string * Z)))
  : res (list (string * list (string * Z))) :=
  match lines with
  | [] => Ok d
  | line :: lines =>
      if nonempty (association_user line)
      then rbind (tres_limits line) (λ limits, user_limits lines (dict_set d (association_user line) limits))
      else user_limits lines d
  end.

Definition get_resource_user_limits (resource_id : string)
  : client_m (list (string * list (string * Z))) :=
  let! output := execute_later ["show"; "association"; "where"; "accounts=" +:+ resource_id;
                                "format=Account,MaxTRESMins,User"] in
  of_res (user_limits (association_lines output) []).

(** ** QoS *)

(** [set_account_qos] *)
Definition set_account_qos (account qos : string) (default_qos : option string) : client_m unit :=
  run (["modify"; "account"; account; "set"; "qos=" +:+ qos] ++
       match default_qos with
       | Some q => if nonempty q then ["defaultqos=" +:+ q] else []
       | None => []
       end).

(** [_get_account_association_column] *)
Definition account_column (account line : string) : option string :=
  let fields := split_on "|" line in
  if String.eqb (strip (nth 0 fields "")) account then Some (strip (nth 1 fields "")) else None.

Definition get_account_association_column (account column : string) : client_m string :=
  let! output := execute_command ["list"; "associations"; "format=account," +:+ column; "where";
                                  "account=" +:+ account] in
  ret (default "" (head (omap (account_column account) (rows output)))).

Definition get_current_account_qos (account : string) : client_m string :=
  get_account_association_column account "qos".
Definition get_current_account_default_qos (account : string) : client_m string :=
  get_account_association_column account "defaultqos".

Definition qos_exists (qos_name : string) : client_m bool :=
  let! output := execute_command ["show"; "qos"; qos_name] in
  ret (existsb has_pipe (splitlines output)).

(** One [modify] of a parameter that is there. *)
Definition modify_qos (name key : string) (given : bool) (value : json) : client_m unit :=
  if given then run ["modify"; "qos"; name; "set"; key +:+ "=" +:+ text value] else ret ().

Definition not_none (v : json) : bool := match v with JNull => false | _ => true end.

Definition create_qos (name : string) (p : qos_params) : client_m unit :=
  run (["add"; "qos"; name] ++
       (if truthy (qp_flags p) then ["set"; "flags=" +:+ text (qp_flags p)] else [])) ;!
  modify_qos name "GrpTRES" (truthy (qp_grp_tres p)) (qp_grp_tres p) ;!
  modify_qos name "MaxJobs" (not_none (qp_max_jobs p)) (qp_max_jobs p) ;!
  modify_qos name "MaxSubmit" (not_none (qp_max_submit p)) (qp_max_submit p) ;!
  modify_qos name "MaxWall" (not_none (qp_max_wall p)) (qp_max_wall p) ;!
  modify_qos name "MinTRESPerJob" (truthy (qp_min_tres_per_job p)) (qp_min_tres_per_job p).

Definition delete_qos (name : string) : client_m unit :=
  run ["remove"; "qos"; "where"; "name=" +:+ name].

Definition set_account_qos_list (account : string) (qos_list : list string) : client_m unit :=
  run ["modify"; "account"; account; "set"; "qos=" +:+ String.concat "," qos_list].

Definition add_account_qos (account qos_name : string) : client_m unit :=
  run ["modify"; "account"; "set"; "qos+=" +:+ qos_name; "where"; "account=" +:+ account].

Definition set_account_default_qos (account qos_name : string) : client_m unit :=
  run ["modify"; "account"; "set"; "defaultqos=" +:+ qos_name; "where"; "account=" +:+ account].

Definition set_qos_grp_tres_mins (qos_name : string) (limits : gmap string Z) : client_m unit :=
  run ["modify"; "qos"; qos_name; "set"; "GrpTRESMins=" +:+ limits_text limits].

Definition qos_row (qos_name line : string) : option string :=
  let '(name, rest) := partition_on "|" line in
  if String.eqb (strip name) qos_name then Some (strip (default "" rest)) else None.

(** The values that are integers; each key is there once. *)
Definition int_values (d : list (string * string)) : list (string * Z) :=
  omap (λ x, match int_of_text x.2 with Ok n => Some (x.1, n) | Err _ => None end) d.

Definition get_qos_grp_tres_mins (qos_name : string) : client_m (list (string * Z)) :=
  let! output := execute_later ["show"; "qos"; qos_name; "format=Name,GrpTRESMins"] in
  ret (match omap (qos_row qos_name) (rows output) with
       | field :: _ => int_values (parse_tres_string field)
       | [] => []
       end).

Definition reset_qos_raw_usage (qos_name : string) : client_m unit :=
  run ["modify"; "qos"; qos_name; "set"; "RawUsage=0"].

Definition set_account_grp_submit_jobs (account : string) (value : Z) : client_m unit :=
  run ["modify"; "account"; account; "set"; "GrpSubmitJobs=" +:+ pretty value].

(** ** Jobs *)

Definition cancel_active_user_jobs (account : string) (user : option string) : client_m unit :=
  execute_with "scancel" false false false
    (match user with Some u => ["-u"; u] | None => [] end ++ ["-A"; account; "-f"]) ;!
  ret ().

Definition list_active_user_jobs (account user : string) : client_m (list string) :=
  let! output := execute_with "sacct" false true false
    ["-a"; "-X"; "--account=" +:+ account; "--user=" +:+ user;
     "--state=PENDING,RUNNING,SUSPENDED,REQUEUED,RESIZING";
     "--format=JobID,JobName,Partition,Account,User,State,Elapsed,Timelimit,NodeList"] in
  ret (map (λ line, nth 0 (split_on "|" line) "") (rows output)).

Definition check_user_exists (username : string) : client_m bool :=
  let! output := attempt (execute_with "id" false false true ["-u"; username]) in
  match output with
  | Ok output => ret (isdigit (strip output))
  | Err e =>
      if negb (is_backend_error e) then raise e
      else if str_contains "no such user" (str_lower (exn_str e)) then ret false
      else raise (BackendError ("Cannot check whether user " +:+ username +:+
                                " exists on this host: " +:+ exn_str e))
  end.

(** ** Periodic limits *)

Definition set_account_fairshare (account : string) (fairshare : json) : client_m bool :=
  failing ("Failed to set fairshare for account " +:+ account) (
    execute_command ["modify"; "account"; account; "set"; "fairshare=" +:+ text fairshare] ;!
    ret true).

Definition set_account_limit (account : string) (limit_type : json) (x : string * json)
  : client_m unit :=
  run ["modify"; "account"; account; "set";
       text limit_type +:+ "=" +:+ x.1 +:+ "=" +:+ text x.2].

Definition set_account_limits (account : string) (limit_type : json) (limits : list (string * json))
  : client_m bool :=
  failing ("Failed to set " +:+ text limit_type +:+ " limits for account " +:+ account) (
    for_each limits (set_account_limit account limit_type) ;! ret true).

Definition reset_raw_usage (account : string) : client_m bool :=
  failing ("Failed to reset raw usage for account " +:+ account) (
    execute_command ["modify"; "account"; account; "set"; "RawUsage=0"] ;! ret true).

(** The fields of the row of an account that has no user. *)
Definition account_fields (least : nat) (account line : string) : option (list string) :=
  let fields := split_on "|" line in
  if (least <=? length fields)%nat && String.eqb (nth 0 fields "") account &&
     negb (nonempty (nth 1 fields "")) then Some fields else None.

Definition fairshare_of (fields : list string) : option Z :=
  match int_of_text (nth 2 fields "") with Ok n => Some n | Err _ => None end.

Definition get_account_fairshare (account : string) : client_m Z :=
  failing ("Failed to get fairshare for account " +:+ account) (
    let! output := execute_command ["list"; "account"; "withassoc"; "format=account,user,fairshare";
                                    "where"; "account=" +:+ account] in
    ret (default 0 (head (omap fairshare_of (omap (account_fields 3 account) (splitlines output)))))).

Definition no_account_limits : list (string * list (string * string)) :=
  [("GrpTRES", []); ("GrpTRESMins", []); ("MaxTRES", []); ("MaxTRESMins", [])].

(** The limits of a row, where the column is not empty. *)
Definition add_account_limits (limits : list (string * list (string * string)))
    (fields : list string) : list (string * list (string * string)) :=
  foldl (λ limits x, let column := nth x.2 fields "" in
           if nonempty column then dict_set limits x.1 (parse_tres_string column) else limits)
    limits [("GrpTRES", 2%nat); ("GrpTRESMins", 3%nat); ("MaxTRES", 4%nat); ("MaxTRESMins", 5%nat)].

Definition get_account_limits (account : string)
  : client_m (list (string * list (string * string))) :=
  failing ("Failed to get limits for account " +:+ account) (
    let! output := execute_command ["list"; "account"; "withassoc";
                                    "format=account,user,grptres,grptresmin,maxtres,maxtresmin";
                                    "where"; "account=" +:+ account] in
    ret (foldl add_account_limits no_account_limits
               (omap (account_fields 6 account) (splitlines output)))).

Definition WALDUR_SCRIPT_PREFIX : string := "/usr/local/bin/".

(** Run as it is, past the log. *)
Definition create_linux_user_homedir (username : string) : client_m string :=
  call (Execute ["sudo"; WALDUR_SCRIPT_PREFIX +:+ "waldur_make_homedir_vsc"; username] false).

(** ** The method table *)

Definition slurm_client {X} (c : slurmE X) : client_m X :=
  match c in slurmE X return client_m X with
  | ClearExecutedCommands => put_st []
  | ExecutedCommands => get_st
  | ExecuteCommand command => call (Execute command false)
  | GetVersion => get_version
  | ValidateSlurmBinary => validate_slurm_binary
  | SlListResources => list_resources
  | ListTres => list_tres
  | ListClusters => list_clusters
  | SlGetResource resource_id => get_resource resource_id
  | SlCreateResource name description organization parent_name =>
      create_resource name description organization parent_name
  | GetAccountParent account => get_account_parent account
  | SetAccountParent account new_parent => set_account_parent account new_parent
  | DeleteAllUsersFromAccount name => delete_all_users_from_account name
  | AccountHasUsers account => account_has_users account
  | SlDeleteResource name => delete_resource name
  | SlSetResourceLimits resource_id limits => set_resource_limits resource_id limits
  | SlSetResourceUserLimits resource_id username limits =>
      set_resource_user_limits resource_id username limits
  | SetAccountQos account qos default_qos => set_account_qos account qos default_qos
  | GetAssociation user resource_id => get_association user resource_id
  | CreateAssociation username resource_id default_account =>
      create_association username resource_id default_account
  | ListUserAccounts username => list_user_accounts username
  | GetUserDefaultAccount username => get_user_default_account username
  | SetUserDefaultAccount username account => set_user_default_account username account
  | DeleteAssociation username resource_id => delete_association username resource_id
  | UsageReport resource_ids timezone => get_usage_report resource_ids timezone
  | HistoricalUsageReport resource_ids year month =>
      get_historical_usage_report resource_ids year month
  | SlGetResourceLimits resource_id => get_resource_limits resource_id
  | SlGetResourceUserLimits resource_id => get_resource_user_limits resource_id
  | SlListResourceUsers resource_id => list_resource_users resource_id
  | GetCurrentAccountQos account => get_current_account_qos account
  | GetCurrentAccountDefaultQos account => get_current_account_default_qos account
  | CancelActiveUserJobs account user => cancel_active_user_jobs account user
  | ListActiveUserJobs account user => list_active_user_jobs account user
  | CheckUserExists username => check_user_exists username
  | QosExists qos_name => qos_exists qos_name
  | CreateQos name params => create_qos name params
  | DeleteQos name => delete_qos name
  | SetAccountQosList account qos_list => set_account_qos_list account qos_list
  | AddAccountQos account qos_name => add_account_qos account qos_name
  | SetAccountDefaultQos account qos_name => set_account_default_qos account qos_name
  | SetQosGrpTresMins qos_name limits => set_qos_grp_tres_mins qos_name limits
  | GetQosGrpTresMins qos_name => get_qos_grp_tres_mins qos_name
  | ResetQosRawUsage qos_name => reset_qos_raw_usage qos_name
  | SetAccountGrpSubmitJobs account value => set_account_grp_submit_jobs account value
  | CreateAssociationWithPartition username resource_id partition default_account =>
      create_association_with_partition username resource_id partition default_account
  | CreateAssociationWithPartitions username resource_id partitions default_account =>
      create_association_with_partitions username resource_id partitions default_account
  | CreateAssociationWithQos username resource_id qos_list default_qos partitions default_account =>
      create_association_with_qos username resource_id qos_list default_qos partitions default_account
  | SetAccountFairshare account fairshare => set_account_fairshare account fairshare
  | SetAccountLimits account limit_type limits => set_account_limits account limit_type limits
  | ResetRawUsage account => reset_raw_usage account
  | GetAccountFairshare account => get_account_fairshare account
  | GetAccountLimits account => get_account_limits account
  | CreateLinuxUserHomedir username umask => create_linux_user_homedir username
  end.
End SlurmClient.

(** ** Which command lines a client runs *)

Section Within.
Context (P : list string → Prop).

Definition within {A} (m : client_m A) : Prop := ∀ s H,
  wpM (λ X _ c, match c with Execute argv _ => P argv | CurrentMonth _ => True end) m
    (λ _ _ _, True) s H.

Lemma within_ret {A} (a : A) : within (ret a).
Proof. by intros s H. Qed.
Lemma within_raise {A} e : within (raise e : client_m A).
Proof. by intros s H. Qed.
Lemma within_of_res {A} (r : res A) : within (of_res r).
Proof. intros s H. apply wpM_of_res. done. Qed.
Lemma within_get : within get_st.
Proof. by intros s H. Qed.
Lemma within_put l : within (put_st l).
Proof. by intros s H. Qed.
Lemma within_month timezone : within (call (CurrentMonth timezone)).
Proof. intros s H. by apply wpM_call. Qed.
Lemma within_call argv silent : P argv → within (call (Execute argv silent)).
Proof. intros Ha s H. by apply wpM_call. Qed.
Lemma within_bind {A B} (m : client_m A) (f : A → client_m B) :
  within m → (∀ a, within (f a)) → within (bind m f).
Proof.
  intros Hm Hf s H. apply wpM_bind. eapply wpM_mono; [apply Hm|]. intros [a|e] s' H' _; [apply Hf|done].
Qed.
Lemma within_attempt {A} (m : client_m A) : within m → within (attempt m).
Proof. intros Hm s H. apply wpM_attempt. eapply wpM_mono; [apply Hm|done]. Qed.
Lemma within_for_each {A} (l : list A) (f : A → client_m unit) :
  (∀ x, x ∈ l → within (f x)) → within (for_each l f).
Proof.
  induction l as [|x l IH]; intros Hf; [apply within_ret|]. apply within_bind; [apply Hf; by left|].
  intros _. apply IH. intros y Hy. apply Hf. by right.
Qed.

Lemma within_execute cfg name immediate parsable silent command :
  P (command_line cfg name immediate parsable command) →
  within (execute_with cfg name immediate parsable silent command).
Proof.
  intros Hp. unfold execute_with. case_match; [apply within_raise|]. case_match; [apply within_raise|].
  apply within_bind; [apply within_get|]. intros log. apply within_bind; [apply within_put|]. intros _.
  apply within_bind; [by apply within_attempt, within_call|]. intros [output|e]; [apply within_ret|].
  case_match; [apply within_ret|apply within_raise].
Qed.

Lemma within_failing {A} what (m : client_m A) : within m → within (failing what m).
Proof.
  intros Hm. apply within_bind; [by apply within_attempt|]. intros [a|e]; [apply within_ret|].
  case_match; apply within_raise.
Qed.
End Within.

Create HintDb within.
#[export] Hint Resolve within_ret within_raise within_of_res within_get within_put within_month : within.

(** Decompose a [within] goal down to the command lines that are run. *)
Ltac within_step :=
  lazymatch goal with
  | |- within _ (bind _ _) => apply within_bind; [|intros ?]
  | |- within _ (attempt _) => apply within_attempt
  | |- within _ (failing _ _) => apply within_failing
  | |- within _ (for_each _ _) => apply within_for_each; intros ? ?
  | |- within _ (execute_with _ _ _ _ _ _) => apply within_execute
  | |- within _ (execute_command _ _) => apply within_execute
  | |- within _ (execute_later _ _) => apply within_execute
  | |- within _ (run _ _) => apply within_bind; [apply within_execute|intros ?]
  | |- within _ (match ?x with _ => _ end) => destruct x
  | |- within _ _ => solve [auto with within]
  end.
Ltac within_auto := repeat (cbv beta; within_step).

(** ** The cluster a command is about *)

Section Scoped.
Context (cfg : slurm_config) (text : json → string) (cluster : string).
Context (Hcluster : cluster_name cfg = Some cluster) (Hnamed : nonempty cluster = true).

(** The cluster is named where [sacctmgr] reads its conditions: before what it sets. *)
Definition scoped (command : list string) : Prop :=
  ∃ before after, command = before ++ ("cluster=" +:+ cluster) :: after ∧ "set" ∉ before.

(** The command lines of operations on accounts, users, associations and jobs. *)
Definition scoped_line (argv : list string) : Prop :=
  (∃ flags command, argv = resolved_command cfg "sacctmgr" :: flags ++ command ∧
     (scoped command ∨ command = ["list"; "tres"])) ∨
  (∃ name flags command, name ∈ ["sacct"; "scancel"] ∧
     argv = resolved_command cfg name :: flags ++ ("--cluster=" +:+ cluster) :: command) ∨
  (∃ option, argv = [resolved_command cfg "sinfo"; option]) ∨ (∃ user, argv = ["id"; "-u"; user]).

Lemma insert_before_set_scoped command : scoped (insert_before_set ("cluster=" +:+ cluster) command).
Proof.
  induction command as [|token command (before & after & IH & Hset)]; simpl.
  - exists [], []. split; [done|by intros ?%elem_of_nil].
  - destruct (String.eqb_spec token "set") as [->|Hne].
    + eexists [], _. split; [done|by intros ?%elem_of_nil].
    + exists (token :: before), after. rewrite IH. split; [done|].
      intros [?|?]%elem_of_cons; [congruence|done].
Qed.

(** A word [sacctmgr] cannot take for something that knows no cluster. *)
Definition ordinary (word : string) : Prop :=
  word ∉ CLUSTER_INDEPENDENT_ENTITIES ∧ word ≠ "--version".

Lemma ordinary_command immediate parsable command :
  Forall ordinary command → scoped_line (command_line cfg "sacctmgr" immediate parsable command).
Proof.
  intros Ho. left. unfold command_line, inject_cluster_filter. rewrite Hcluster, Hnamed. cbn [negb String.eqb].
  assert (Hi : existsb (λ token, bool_decide (token ∈ CLUSTER_INDEPENDENT_ENTITIES)) (take 3 command) = false).
  { apply not_true_iff_false. intros (x & Hx & Hin)%existsb_exists.
    apply bool_decide_eq_true in Hin. apply list_elem_of_In, subseteq_take in Hx.
    by apply (proj1 (Forall_forall _ _) Ho) in Hx as [? _]. }
  assert (Hv : bool_decide ("--version" ∈ command) = false).
  { apply bool_decide_eq_false. intros Hin. by apply (proj1 (Forall_forall _ _) Ho) in Hin as [_ ?]. }
  rewrite Hi, Hv. simpl. rewrite app_assoc. do 2 eexists. split; [done|]. left. apply insert_before_set_scoped.
Qed.

Lemma job_command name immediate parsable command :
  name ∈ ["sacct"; "scancel"] → scoped_line (command_line cfg name immediate parsable command).
Proof.
  intros Hn. right; left. unfold command_line, inject_cluster_filter. rewrite Hcluster, Hnamed. cbn [negb].
  exists name.
  apply elem_of_cons in Hn as [->|Hn]; [|apply list_elem_of_singleton in Hn as ->];
    simpl; rewrite app_assoc; do 2 eexists;
    (split; [set_solver|done]).
Qed.

Lemma id_command user : scoped_line (command_line cfg "id" false false ["-u"; user]).
Proof.
  right; right; right. exists user. unfold command_line, resolved_command, inject_cluster_filter.
  rewrite Hcluster, Hnamed. simpl. by rewrite andb_false_r.
Qed.

Lemma version_command : scoped_line (command_line cfg "sinfo" false false ["-V"]).
Proof.
  right; right; left. exists "-V". unfold command_line, inject_cluster_filter.
  by rewrite Hcluster, Hnamed.
Qed.
End Scoped.

(** Operations on accounts, users, associations and jobs, and on nothing else. *)
Definition account_op {X} (c : slurmE X) : bool :=
  match c with
  | ListTres | ListClusters | ValidateSlurmBinary | ExecuteCommand _ | QosExists _ | CreateQos _ _
  | DeleteQos _ | SetQosGrpTresMins _ _ | GetQosGrpTresMins _ | ResetQosRawUsage _
  | CreateLinuxUserHomedir _ _ => false
  | _ => true
  end.

(** The names an operation passes as words of their own. *)
Definition op_names {X} (c : slurmE X) : list string :=
  match c with
  | SlGetResource name | SlCreateResource name _ _ _ | SlSetResourceLimits name _
  | SlSetResourceUserLimits _ name _ | SetAccountQos name _ _ | SetAccountQosList name _
  | CreateAssociation name _ _ | CreateAssociationWithPartition name _ _ _
  | CreateAssociationWithPartitions name _ _ _ | CreateAssociationWithQos name _ _ _ _ _
  | SetAccountGrpSubmitJobs name _ | SetAccountFairshare name _ | SetAccountLimits name _ _
  | ResetRawUsage name => [name]
  | _ => []
  end.

(** A limit of a periodic setting is a word of its own too, and names what it limits. *)
Definition op_words (text : json → string) {X} (c : slurmE X) : list string :=
  match c with
  | SetAccountLimits _ limit_type limits =>
      map (λ x, text limit_type +:+ "=" +:+ x.1 +:+ "=" +:+ text x.2) limits
  | _ => []
  end.

Ltac ordinary_words :=
  repeat (apply Forall_app; split);
  repeat match goal with
  | |- Forall _ [] => constructor
  | |- Forall _ (_ :: _) => apply Forall_cons; split
  | |- Forall _ (match ?x with _ => _ end) => destruct x
  | |- Forall _ (default_account_argument ?x) => destruct x; cbn [default_account_argument]
  | |- Forall _ (partitions_argument ?x) => destruct x; cbn [partitions_argument]
  end;
  try assumption;
  try (split; [intros Hin; repeat (apply elem_of_cons in Hin as [Hin|Hin]; [discriminate Hin|]);
               by apply elem_of_nil in Hin|discriminate]).

Ltac scoped_commands :=
  within_auto;
  lazymatch goal with
  | |- scoped_line _ _ (command_line _ "sacctmgr" _ _ _) => apply ordinary_command; [done|done|ordinary_words]
  | |- scoped_line _ _ (command_line _ "id" _ _ _) => by apply id_command
  | |- scoped_line _ _ (command_line _ "sinfo" _ _ _) => by apply version_command
  | |- scoped_line _ _ (command_line _ _ _ _ _) => apply job_command; [done|done|set_solver]
  | |- _ => idtac
  end.

Section ScopedClient.
Context (cfg : slurm_config) (text : json → string) (cluster : string).
Context (Hcluster : cluster_name cfg = Some cluster) (Hnamed : nonempty cluster = true).

Abbreviation scopes := (within (scoped_line cfg cluster)).

Lemma scopes_run command : Forall ordinary command → scopes (run cfg command).
Proof. intros Ho. unfold run. scoped_commands. Qed.

Lemma scopes_list_resource_users resource_id : scopes (list_resource_users cfg resource_id).
Proof. unfold list_resource_users. scoped_commands. Qed.

Lemma scopes_list_user_accounts username : scopes (list_user_accounts cfg username).
Proof. unfold list_user_accounts. scoped_commands. Qed.

Lemma scopes_get_user_default_account username : scopes (get_user_default_account cfg username).
Proof. unfold get_user_default_account. scoped_commands. Qed.

Lemma scopes_set_user_default_account username account : scopes (set_user_default_account cfg username account).
Proof. apply scopes_run. ordinary_words. Qed.

Lemma scopes_repoint target username : scopes (repoint_default cfg target username).
Proof.
  unfold repoint_default. apply within_bind; [apply scopes_get_user_default_account|]. intros d.
  case_match; [apply within_ret|]. apply within_bind; [apply scopes_list_user_accounts|]. intros l.
  case_match; [apply within_ret|apply scopes_set_user_default_account].
Qed.

Lemma scopes_delete_association username resource_id : scopes (delete_association cfg username resource_id).
Proof.
  unfold delete_association. cbv zeta. apply within_bind; [apply scopes_list_user_accounts|]. intros accounts.
  assert (Hrest : ∀ remaining : list string, scopes (
    match remaining with
    | next :: _ =>
        let! default_account := get_user_default_account cfg username in
        if is_default default_account (str_lower resource_id) then set_user_default_account cfg username next
        else ret ()
    | [] => ret ()
    end ;!
    execute_command cfg ["remove"; "user"; "where"; "name=" +:+ username; "and"; "account=" +:+ resource_id])).
  { intros remaining. apply within_bind; [|intros _; scoped_commands].
    destruct remaining as [|next _]; [apply within_ret|].
    apply within_bind; [apply scopes_get_user_default_account|]. intros d.
    case_match; [apply scopes_set_user_default_account|apply within_ret]. }
  destruct accounts as [|a accounts]; [apply Hrest|].
  destruct (List.filter _ (a :: accounts)) as [|next l]; [unfold delete_user; scoped_commands|].
  apply (Hrest (next :: l)).
Qed.

Lemma scopes_usage_lines resource_ids period : scopes (usage_lines cfg resource_ids period).
Proof. unfold usage_lines. scoped_commands. Qed.

Lemma scopes_list_tres : scopes (list_tres cfg).
Proof.
  unfold list_tres. within_auto. left. unfold command_line, inject_cluster_filter. rewrite Hcluster, Hnamed.
  exists ["--parsable2"; "--noheader"; "--immediate"], ["list"; "tres"]. split; [done|by right].
Qed.

Lemma scopes_check_name what name : scopes (check_name what name).
Proof. unfold check_name. case_match; [apply within_ret|apply within_raise]. Qed.

Ltac head_of m := lazymatch m with ?f _ => head_of f | ?f => f end.

Ltac scoped_operation :=
  lazymatch goal with
  | |- within _ (list_resource_users _ _) => apply scopes_list_resource_users
  | |- within _ (list_user_accounts _ _) => apply scopes_list_user_accounts
  | |- within _ (get_user_default_account _ _) => apply scopes_get_user_default_account
  | |- within _ (set_user_default_account _ _ _) => apply scopes_set_user_default_account
  | |- within _ (delete_association _ _ _) => apply scopes_delete_association
  | |- within _ (get_current_account_qos _ _) => unfold get_current_account_qos, get_account_association_column; scoped_commands
  | |- within _ (get_current_account_default_qos _ _) =>
      unfold get_current_account_default_qos, get_account_association_column; scoped_commands
  | |- within _ ?m => let f := head_of m in unfold f; scoped_commands
  end.

Lemma scopes_set_account_limit account limit_type x :
  ordinary account → ordinary (text limit_type +:+ "=" +:+ x.1 +:+ "=" +:+ text x.2) →
  scopes (set_account_limit cfg text account limit_type x).
Proof. intros Ha Hx. apply scopes_run. ordinary_words. Qed.

Lemma scopes_client {X} (c : slurmE X) :
  account_op c = true → Forall ordinary (op_names c) → Forall ordinary (op_words text c) →
  scopes (slurm_client cfg text c).
Proof.
  intros Ha Hn Hw.
  destruct c; try discriminate Ha; cbn [slurm_client op_names op_words] in Hn, Hw |- *;
    repeat match goal with H : Forall _ (_ :: _) |- _ => apply Forall_cons in H as [? _] end;
    scoped_operation.
  - apply within_put.
  - apply within_bind; [apply scopes_list_resource_users|]. intros users.
    apply within_for_each. intros x _. apply scopes_repoint.
  - apply scopes_list_tres.
  - apply scopes_usage_lines.
  - apply scopes_usage_lines.
  - apply scopes_check_name.
  - apply scopes_check_name.
  - apply scopes_check_name.
  - apply scopes_check_name.
  - apply scopes_check_name.
  - match goal with Hx : ?x ∈ limits |- _ =>
      apply scopes_set_account_limit; [done|apply (proj1 (Forall_forall _ _) Hw);
        by apply (list_elem_of_fmap_2 (λ x, text limit_type +:+ "=" +:+ x.1 +:+ "=" +:+ text x.2))] end.
Qed.
End ScopedClient.

(** With a cluster configured, every operation on accounts, users, associations or jobs
    runs only command lines about that cluster: each [sacctmgr] command names it before
    anything it sets (but for the listing of resource types), each [sacct] and [scancel]
    command starts with it; what else is run is [id] and the version.  The account or user
    an operation is about must not be a word that [sacctmgr] has a meaning for. *)
Theorem commands_scoped {X} cfg text cluster (c : slurmE X) log τ out argv silent r :
  cluster_name cfg = Some cluster → nonempty cluster = true → account_op c = true →
  Forall ordinary (op_names c) → Forall ordinary (op_words text c) →
  runs (slurm_client cfg text c log) τ out → Ev (Execute argv silent) r ∈ τ →
  scoped_line cfg cluster argv.
Proof.
  intros Hc Hn Ha Hnames Hwords Hr Hin.
  pose proof (scopes_client cfg text cluster Hc Hn c Ha Hnames Hwords log []) as Hw.
  apply list_elem_of_split in Hin as (τ1 & τ2 & ->).
  destruct (wp_sound _ _ _ _ _ _ Hw Hr) as [_ Hg]. by apply guarded_split in Hg.
Qed.

(** ** Removing associations *)

(** What [_execute_command] makes of an outcome: a [modify] that finds nothing to modify
    has succeeded. *)
Definition settled (cfg : slurm_config) (command_name : string) (command : list string)
    (r : res string) : res string :=
  match r with
  | Ok output => Ok output
  | Err e =>
      if is_backend_error e &&
         match inject_cluster_filter cfg command command_name with
         | c :: _ => String.eqb c "modify" | [] => false end &&
         str_contains "Nothing modified" (exn_str e)
      then Ok "" else Err e
  end.

Lemma execute_command_spec cfg command (G : guard commandE) (Q : res string → list string → trace commandE → Prop) log H :
  let argv := command_line cfg "sacctmgr" true true command in
  G string H (Execute argv false) →
  (∀ r, Q (settled cfg "sacctmgr" command r) (log ++ [String.concat " " argv])
          (Ev (Execute argv false) r :: H)) →
  wpM G (execute_command cfg command) Q log H.
Proof.
  intros argv HG HQ. unfold execute_command, execute_with. cbn [andb negb String.eqb Ascii.eqb Bool.eqb].
  change (bool_decide ("sacctmgr" ∈ SUPPORTS_PARSABLE)) with true. cbv iota zeta. cbn [negb].
  wp_steps. apply wpM_call; [exact HG|]. intros r. cbv iota. specialize (HQ r). unfold settled in HQ.
  destruct r as [output|e]; [exact HQ|]. destruct (_ && _); exact HQ.
Qed.

Section Deletion.
Context (cfg : slurm_config) (username resource_id : string).

Abbreviation sacctmgr command := (command_line cfg "sacctmgr" true true command).

Definition shows_accounts : list string :=
  sacctmgr ["show"; "association"; "where"; "user=" +:+ username; "format=user,account"].
Definition shows_default : list string :=
  sacctmgr ["show"; "user"; "where"; "name=" +:+ username; "format=user,defaultaccount"].
Definition sets_default (account : string) : list string :=
  ["modify"; "user"; "where"; "name=" +:+ username; "set"; "DefaultAccount=" +:+ account].
Definition removes_user : list string :=
  sacctmgr ["remove"; "user"; "where"; "name=" +:+ username].
Definition removes_association : list string :=
  sacctmgr ["remove"; "user"; "where"; "name=" +:+ username; "and"; "account=" +:+ resource_id].

(** The accounts and the default account that outputs name. *)
Definition accounts_in (output : string) : list string :=
  merge_sort str_le (remove_dups (List.filter nonempty (omap (user_column username) (rows output)))).
Definition default_in (output : string) : option string :=
  match omap (user_column username) (rows output) with
  | account :: _ => some_text account
  | [] => None
  end.

Definition others (output : string) : list string :=
  List.filter (λ a, negb (String.eqb a (str_lower resource_id))) (accounts_in output).

Definition defaults_here (H : trace commandE) : Prop :=
  ∃ shown, Ev (Execute shows_default false) (Ok shown) ∈ H ∧ default_in shown = Some (str_lower resource_id).

(** The default account is not the one that goes, or it was moved by the last command. *)
Definition default_elsewhere (next : string) (H : trace commandE) : Prop :=
  (∃ shown, Ev (Execute shows_default false) (Ok shown) ∈ H ∧
     default_in shown ≠ Some (str_lower resource_id)) ∨
  ∃ r H', H = Ev (Execute (sacctmgr (sets_default next)) false) r :: H' ∧
    ∃ output, settled cfg "sacctmgr" (sets_default next) r = Ok output.

Definition deletion_guard : guard commandE := λ X H c,
  match c with
  | Execute argv _ =>
      argv = shows_accounts ∨
      ∃ output, Ev (Execute shows_accounts false) (Ok output) ∈ H ∧
        match accounts_in output, others output with
        | _ :: _, [] => argv = removes_user
        | [], _ => argv = removes_association
        | _, next :: _ =>
            argv = shows_default ∨
            argv = sacctmgr (sets_default next) ∧ defaults_here H ∨
            argv = removes_association ∧ default_elsewhere next H
        end
  | CurrentMonth _ => False
  end.

Lemma not_modify_settled command r output :
  match inject_cluster_filter cfg command "sacctmgr" with
  | c :: _ => String.eqb c "modify" | [] => false end = false →
  settled cfg "sacctmgr" command r = Ok output → r = Ok output.
Proof. intros Hc. unfold settled. destruct r; [done|]. by rewrite Hc, andb_false_r. Qed.

Lemma injected_head c command :
  c ≠ "set" →
  match inject_cluster_filter cfg (c :: command) "sacctmgr" with
  | c :: _ => String.eqb c "modify" | [] => false end = String.eqb c "modify".
Proof.
  intros Hc. unfold inject_cluster_filter. destruct (cluster_name cfg); [|done].
  destruct (negb _); [done|]. cbn [String.eqb Ascii.eqb Bool.eqb]. destruct (_ || _); [done|].
  simpl. destruct (String.eqb_spec c "set"); [done|]. done.
Qed.

Lemma delete_association_spec log H :
  wpM (deletion_guard) (delete_association cfg username resource_id) (λ _ _ _, True) log H.
Proof.
  unfold delete_association. cbv zeta. wp_step. unfold list_user_accounts. wp_step.
  apply execute_command_spec; [by left|]. intros r.
  destruct (settled _ _ _ r) as [output|e] eqn:Hr; [|done]. cbv iota. wp_step. cbv iota.
  apply not_modify_settled in Hr; [|by apply injected_head]. subst r.
  set (H1 := _ :: H). assert (Hin : Ev (Execute shows_accounts false) (Ok output) ∈ H1) by by left.
  clearbody H1. fold (accounts_in output). fold (others output).
  assert (Hg : ∀ H2, H1 `suffix_of` H2 → Ev (Execute shows_accounts false) (Ok output) ∈ H2).
  { intros H2 [L ->]. apply elem_of_app. by right. }
  destruct (accounts_in output) as [|a accounts] eqn:Ha.
  - assert (Ho : others output = []) by (unfold others; by rewrite Ha). rewrite Ho. wp_step. wp_step. cbv iota.
    apply execute_command_spec; [|done]. right. exists output. split; [done|]. by rewrite Ha.
  - destruct (others output) as [|next rest] eqn:Ho.
    + unfold delete_user. apply execute_command_spec; [|done]. right. exists output. split; [done|]. by rewrite Ha, Ho.
    + wp_step. wp_step. unfold get_user_default_account. wp_step.
      apply execute_command_spec; [right; exists output; split; [done|]; rewrite Ha, Ho; by left|]. intros r.
      destruct (settled _ _ _ r) as [shown|e] eqn:Hr; [|done]. cbv iota. wp_step. cbv iota.
      apply not_modify_settled in Hr; [|by apply injected_head]. subst r.
      fold (default_in shown). set (H2 := _ :: H1).
      assert (Hshown : Ev (Execute shows_default false) (Ok shown) ∈ H2) by by left.
      assert (Hin2 : Ev (Execute shows_accounts false) (Ok output) ∈ H2) by (by right). clearbody H2.
      destruct (is_default (default_in shown) (str_lower resource_id)) eqn:Hd.
      * unfold set_user_default_account, run. wp_step. apply execute_command_spec.
        { right. exists output. split; [done|]. rewrite Ha, Ho. right; left. split; [done|].
          exists shown. split; [done|]. unfold is_default in Hd.
          destruct (default_in shown); [|done]. by apply String.eqb_eq in Hd as ->. }
        intros r. destruct (settled _ _ _ r) as [out|e] eqn:Hr; [|done]. cbv iota. wp_step. cbv iota.
        apply execute_command_spec; [|done]. right. exists output. split; [by right|]. rewrite Ha, Ho.
        right; right. split; [done|]. right. do 2 eexists. split; [done|]. by exists out.
      * wp_step. cbv iota. apply execute_command_spec; [|done]. right. exists output. split; [done|].
        rewrite Ha, Ho. right; right. split; [done|]. left. exists shown. split; [done|].
        intros He. rewrite He in Hd. unfold is_default in Hd. by rewrite String.eqb_refl in Hd.
Qed.
End Deletion.

(** Dropping a user's association with an account never asks SLURM for what it refuses:
    the user's accounts are listed first; the user record goes only when every listed
    account is the one to drop; while others remain, the association goes only after the
    default account was read as another one, or was moved to a remaining account by the
    command right before. *)
Theorem association_dropped_in_order cfg username resource_id log τ out τ1 τ2 {X} (c : commandE X) r :
  runs (delete_association cfg username resource_id log) τ out → τ = τ1 ++ Ev c r :: τ2 →
  deletion_guard cfg username resource_id X (rev τ1) c.
Proof.
  intros Hr ->. pose proof (delete_association_spec cfg username resource_id log []) as Hw.
  destruct (wp_sound _ _ _ _ _ _ Hw Hr) as [_ Hg]. apply guarded_split in Hg. by rewrite app_nil_r in Hg.
Qed.

(** ** Descriptions *)

Lemma newline_is_space c : is_newline c = true → is_space c = true.
Proof.
  unfold is_newline, is_space. rewrite !orb_true_iff, !andb_true_iff, !Nat.leb_le. lia.
Qed.

Lemma some_char_weaken (p q : ascii → bool) s :
  (∀ c, p c = true → q c = true) → some_char q s = false → some_char p s = false.
Proof.
  intros Hpq. induction s as [|c s IH]; [done|]. simpl. rewrite !orb_false_iff. intros [Hc Hs].
  split; [|auto]. apply not_true_iff_false. intros Hp. apply Hpq in Hp. congruence.
Qed.

Lemma split_by_keeps p q s :
  some_char q s = false → Forall (λ w, some_char q w = false) (split_by p s).
Proof.
  induction s as [|c s IH]; simpl; [by repeat constructor|]. rewrite orb_false_iff. intros [Hc Hs].
  specialize (IH Hs). destruct (p c); [by constructor|].
  destruct (split_by p s) as [|part parts]; repeat constructor; simpl; rewrite ?Hc; inversion IH; try done.
Qed.

Lemma words_keep q s : some_char q s = false → Forall (λ w, some_char q w = false) (words s).
Proof.
  intros Hs. apply Forall_forall. intros w Hw. apply list_elem_of_In, filter_In in Hw as [Hw _].
  apply list_elem_of_In in Hw. by apply (proj1 (Forall_forall _ _) (split_by_keeps is_space q s Hs)).
Qed.

Lemma sanitized_no_newline value : some_char is_newline (sanitize_sacctmgr_value value) = false.
Proof.
  apply some_char_concat; [done|]. eapply Forall_impl; [apply words_free|]. intros w [Hw _].
  revert Hw. apply some_char_weaken, newline_is_space.
Qed.

Lemma sanitized_no_quote value : has_char QUOTE (sanitize_sacctmgr_value value) = false.
Proof. apply some_char_concat; [done|]. apply words_keep, without_char_free. Qed.

Lemma sanitized_no_pipe value : has_char "|" value = false → has_char "|" (sanitize_sacctmgr_value value) = false.
Proof. intros Hv. apply some_char_concat; [done|]. by apply words_keep, has_char_without. Qed.

Lemma splitlines_line s t :
  some_char is_newline s = false → splitlines (s +:+ String "010" t) = s :: splitlines t.
Proof.
  induction s as [|c s IH]; simpl.
  - intros _. by destruct t.
  - rewrite orb_false_iff. intros [-> Hs]. change (String.append s ?t) with (s +:+ t). by rewrite IH.
Qed.

(** What [sacctmgr --parsable2] prints of accounts that were created under a name, a
    description and an organization. *)
Definition account_record (a : ClientResource) : string :=
  String.concat "|" [cr_name a; sanitize_sacctmgr_value (cr_description a);
                     sanitize_sacctmgr_value (cr_organization a)].

Fixpoint accounts_output (l : list ClientResource) : string :=
  match l with [] => "" | a :: l => account_record a +:+ String "010" (accounts_output l) end.

Definition stored (a : ClientResource) : ClientResource :=
  {| cr_name := cr_name a; cr_description := sanitize_sacctmgr_value (cr_description a);
     cr_organization := sanitize_sacctmgr_value (cr_organization a); cr_backend_id := "" |}.

Definition no_pipes (a : ClientResource) : Prop :=
  has_char "|" (cr_name a) = false ∧ has_char "|" (cr_description a) = false ∧
  has_char "|" (cr_organization a) = false.

Lemma parse_record a : no_pipes a → parse_account (account_record a) = stored a.
Proof.
  intros (Hn & Hd & Ho). unfold parse_account, account_record.
  rewrite split_on_concat; [done|done|]. repeat constructor; try done; by apply sanitized_no_pipe.
Qed.

Lemma record_line a : some_char is_newline (cr_name a) = false →
  some_char is_newline (account_record a) = false ∧ has_pipe (account_record a) = true.
Proof.
  intros Hn. unfold account_record. simpl. split.
  - rewrite !some_char_app, Hn, !sanitized_no_newline. done.
  - unfold has_pipe. rewrite has_char_app. by rewrite orb_true_r.
Qed.

(** Whatever description and organization accounts are created with, they reach SLURM in
    one quoted word each -- no quote ends it early, no line feed splits the record -- and
    the listing of the accounts reads each of them back as one record with the name it was
    given, as long as no text contains a vertical bar. *)
Theorem account_records_read_back l :
  Forall (λ a, has_char QUOTE (sanitize_sacctmgr_value (cr_description a)) = false ∧
               has_char QUOTE (sanitize_sacctmgr_value (cr_organization a)) = false ∧
               sanitize_sacctmgr_value (sanitize_sacctmgr_value (cr_description a)) =
               sanitize_sacctmgr_value (cr_description a)) l ∧
  (Forall (λ a, some_char is_newline (cr_name a) = false ∧ no_pipes a) l →
   map parse_account (rows (accounts_output l)) = map stored l).
Proof.
  split.
  - apply Forall_forall. intros a _. split_and!; try apply sanitized_no_quote.
    unfold sanitize_sacctmgr_value at 1. rewrite without_char_absent by apply sanitized_no_quote.
    unfold sanitize_sacctmgr_value. by rewrite (words_join (words _)) by apply words_free.
  - induction 1 as [|a l [Hn Hp] Hl IH]; [done|]. destruct (record_line a Hn) as [Hline Hpipe].
    unfold rows. cbn [accounts_output]. rewrite splitlines_line by done. cbn [List.filter].
    rewrite Hpipe. cbn [map]. by rewrite parse_record, <- IH.
Qed.

Lemma account_records_read_back_witness :
  map cr_organization (map parse_account (rows (accounts_output
    [{| cr_name := "alloc"; cr_description := "two
lines"; cr_organization := "proj"; cr_backend_id := "" |}]))) = ["proj"].
Proof.
  rewrite (proj2 (account_records_read_back _)); [vm_compute; reflexivity|].
  repeat constructor.
Defined.

(** A vertical bar in the description moves the organization out of its column. *)
Example pipe_shifts_organization :
  cr_organization (parse_account (account_record
    {| cr_name := "alloc"; cr_description := "CPU|GPU"; cr_organization := "proj";
       cr_backend_id := "" |})) = "GPU".
Proof. vm_compute. reflexivity. Qed.

(** ** Concrete runs *)

Definition sample_slurm : slurm_config :=
  {| tres := [("cpu", JObj [])]; slurm_bin_path := "/usr/bin"; cluster_name := Some "hpc";
     usage_tres_source := REQUESTED |}.

Definition sample_text (v : json) : string := match v with JStr s => s | _ => "" end.

Lemma commands_scoped_witness :
  scoped_line sample_slurm "hpc"
    ["/usr/bin/sacctmgr"; "--parsable2"; "--noheader"; "--immediate"; "modify"; "account"; "where";
     "name=alloc"; "cluster=hpc"; "set"; "parent=proj"].
Proof.
  apply (commands_scoped sample_slurm sample_text "hpc" (SetAccountParent "alloc" "proj") []
    [Ev (Execute ["/usr/bin/sacctmgr"; "--parsable2"; "--noheader"; "--immediate"; "modify"; "account";
                  "where"; "name=alloc"; "cluster=hpc"; "set"; "parent=proj"] false) (Ok "")]
    (["/usr/bin/sacctmgr --parsable2 --noheader --immediate modify account where name=alloc cluster=hpc set parent=proj"], Ok "")
    _ false (Ok "")).
  - reflexivity.
  - reflexivity.
  - reflexivity.
  - constructor.
  - constructor.
  - solve_runs.
  - by left.
Defined.

(** An account named like something that knows no cluster is asked for on every cluster. *)
Example account_named_qos :
  command_line sample_slurm "sacctmgr" true true ["show"; "account"; "qos"] =
  ["/usr/bin/sacctmgr"; "--parsable2"; "--noheader"; "--immediate"; "show"; "account"; "qos"].
Proof. vm_compute. reflexivity. Qed.

(** A name that ends in a line feed passes for a partition. *)
Example newline_passes : valid_name "gpu
" = true.
Proof. vm_compute. reflexivity. Qed.

(** Anna's default account is the one she loses. *)
Definition anna_run : trace commandE :=
  [Ev (Execute (shows_accounts sample_slurm "anna") false) (Ok "anna|proj_a
anna|proj_b
");
   Ev (Execute (shows_default sample_slurm "anna") false) (Ok "anna|proj_a
");
   Ev (Execute (command_line sample_slurm "sacctmgr" true true (sets_default "anna" "proj_b")) false) (Ok "");
   Ev (Execute (removes_association sample_slurm "anna" "proj_A") false) (Ok "gone")].

Lemma anna_runs : ∃ out, runs (delete_association sample_slurm "anna" "proj_A" []) anna_run (out, Ok "gone").
Proof. eexists. unfold anna_run. solve_runs. Qed.

Lemma association_dropped_in_order_witness :
  deletion_guard sample_slurm "anna" "proj_A" string (rev (take 3 anna_run))
    (Execute (removes_association sample_slurm "anna" "proj_A") false).
Proof.
  destruct anna_runs as [out Hr].
  exact (association_dropped_in_order sample_slurm "anna" "proj_A" [] anna_run (out, Ok "gone")
    (take 3 anna_run) [] _ (Ok "gone") Hr eq_refl).
Defined.
