(* ===== verification/SlurmSettings.v ===== *)
(** * Settings, limits and usage of the SLURM backend

    [plugins/slurm/waldur_site_agent_slurm/backend.py]: what [SlurmBackend.__init__]
    accepts, the limits an allocation is given, and what becomes of the lines of a usage
    report; with [utils.py] of the plugin and the helpers of [backend/utils.py] they use.
    The calls to the cluster are in [SlurmBackend.v]. *)

From stdpp Require Import base list strings gmap.
From Stdlib Require Import ZArith Lia SpecFloat.
From S2P Require Import Prelude.
From S2P Require Import Texts.
From S2P Require Import Structures.
From S2P Require Import Numbers.
From S2P Require Import FloatInts.
From S2P Require Import ComponentMapping.
From S2P Require Import SlurmParser.

Local Open Scope prog_scope.
Local Open Scope Z_scope.

(** ** Settings *)

Inductive ExecutionMode : Type := CLI | REST.

Definition LUSTRE_MAX_PROJECT_ID : Z := 2 ^ 32 - 2.

Definition VALID_DEFAULT_ACCOUNT_POLICIES : list string := ["common"; "individual"; "none"].

(** What the plugin reads of a component; a factor or limit that is not set is [None]. *)
Record slurm_component : Type := {
  sc_accounting_type : string;
  sc_unit_factor : option pynum;
  sc_limit : option pynum;
  sc_target_components : json;
}.

(** The attributes [__init__] sets; values used as they were configured stay JSON. *)
Record slurm_backend : Type := {
  sb_settings : gmap string json;
  sb_components : list (string * slurm_component);
  sb_execution_mode : ExecutionMode;
  sb_usage_tres_source : UsageTresSource;
  sb_has_ldap : bool;
  sb_qos_config : list (string * json);
  sb_project_dir_config : json;
  sb_lustre_project_id_offset : Z;
  sb_root_account : json;
  sb_default_partition : json;
  sb_enforce_offering_partitions : bool;
  sb_qos_enforcement_enabled : bool;
  sb_enforce_offering_qos : json;
  sb_default_account_policy : string;
  sb_component_mapper : ComponentMapper;
}.

(** [x or y] *)
Definition json_or (x y : json) : json := if truthy x then x else y.

(** [x.get(key, default)] *)
Definition get_of (x : json) (key : string) (default : json) : res json :=
  match x with
  | JObj d => Ok (from_option id default (obj_get d key))
  | _ => Err (AttributeError "get")
  end.

Definition flag_of (d : list (string * json)) (key : string) : bool :=
  truthy (from_option id JNull (obj_get d key)).

Definition require (b : bool) (msg : string) : res unit := if b then Ok () else Err (BackendError msg).

Definition parse_execution_mode (settings : gmap string json) : res ExecutionMode :=
  match json_get settings "execution_mode" (JStr "cli") with
  | JStr "cli" => Ok CLI
  | JStr "rest" => Ok REST
  | _ => Err (BackendError "Unknown SLURM execution_mode")
  end.

Definition parse_usage_tres_source (settings : gmap string json) : res UsageTresSource :=
  match json_get settings "usage_tres_source" (JStr "requested") with
  | JStr "requested" => Ok REQUESTED
  | JStr "allocated" => Ok ALLOCATED
  | _ => Err (BackendError "Unknown SLURM usage_tres_source")
  end.

Definition validate_qos_management_runtime_flags (settings : gmap string json)
    (qos_config : list (string * json)) : res unit :=
  let enabled := flag_of qos_config "enabled" in
  let skip := flag_of qos_config "skip_qos_swap" in
  let apply := flag_of qos_config "apply_limits_to_qos" in
  let set key := truthy (json_get settings key JNull) in
  let? _ := require (negb (apply && negb enabled))
    "qos_management.apply_limits_to_qos requires qos_management.enabled" in
  let? _ := require (negb (apply && negb skip))
    "qos_management.apply_limits_to_qos requires qos_management.skip_qos_swap" in
  let? _ := require (negb (skip && (set "qos_paused" || set "qos_downscaled")))
    "qos_management.skip_qos_swap is set but qos_paused/qos_downscaled are also set" in
  require (negb (skip && set "qos_default"))
    "qos_management.skip_qos_swap is set but qos_default is also set".

Definition validated_lustre_project_id_offset (project_dir_config : json) : res Z :=
  let? lustre := get_of (json_or project_dir_config (JObj [])) "lustre_quota" JNull in
  let? offset := get_of (json_or lustre (JObj [])) "project_id_offset" (JInt 0) in
  match offset with
  | JInt z => let? _ := require ((0 <=? z) && (z <=? LUSTRE_MAX_PROJECT_ID))
                "project_directory.lustre_quota.project_id_offset must be an integer" in
              Ok z
  | _ => Err (BackendError "project_directory.lustre_quota.project_id_offset must be an integer")
  end.

(** An unhashable value cannot be looked up in a set. *)
Definition checked_policy (policy : json) : res string :=
  match policy with
  | JStr p => let? _ := require (bool_decide (p ∈ VALID_DEFAULT_ACCOUNT_POLICIES))
                "Invalid default_account_policy" in
              Ok p
  | JArr _ | JObj _ => Err (TypeError "unhashable type")
  | _ => Err (BackendError "Invalid default_account_policy")
  end.

Section Construction.
(** Building the REST client and the LDAP client from their settings, and [float] of a
    JSON value that is no number. *)
Context (connect_rest connect_ldap : json → res unit) (parse_float : json → res spec_float).

(** [create_slurm_client] *)
Definition create_slurm_client (settings : gmap string json) : res unit :=
  let? _ := parse_usage_tres_source settings in
  let? mode := parse_execution_mode settings in
  match mode with
  | CLI => Ok ()
  | REST =>
      let rest_settings := json_get settings "rest_api" JNull in
      let? _ := require (truthy rest_settings)
        "execution_mode is 'rest' but rest_api settings are missing" in
      let? _ := require (truthy (json_get settings "cluster_name" JNull))
        "execution_mode is 'rest' but cluster_name is not set" in
      connect_rest rest_settings
  end.

Definition mapper_config (c : string * slurm_component) : string * json :=
  (c.1, JObj [("target_components"%string, sc_target_components c.2)]).

(** [SlurmBackend.__init__] *)
Definition init (settings : gmap string json) (components : list (string * slurm_component))
  : res slurm_backend :=
  let get key := json_get settings key JNull in
  let? mode := parse_execution_mode settings in
  let? _ := create_slurm_client settings in
  let? source := parse_usage_tres_source settings in
  let? _ := (if truthy (get "ldap") then connect_ldap (get "ldap") else Ok ()) in
  let? qos_config := match json_or (get "qos_management") (JObj []) with
                     | JObj d => Ok d
                     | _ => Err (AttributeError "get")
                     end in
  let? _ := validate_qos_management_runtime_flags settings qos_config in
  let project_dir_config := json_get settings "project_directory" (JObj []) in
  let? offset := validated_lustre_project_id_offset project_dir_config in
  let? policy := checked_policy (json_get settings "default_account_policy" (JStr "common")) in
  let? mapper := build parse_float no_mapper (map mapper_config components) in
  Ok {| sb_settings := settings; sb_components := components; sb_execution_mode := mode;
        sb_usage_tres_source := source; sb_has_ldap := truthy (get "ldap");
        sb_qos_config := qos_config; sb_project_dir_config := project_dir_config;
        sb_lustre_project_id_offset := offset;
        sb_root_account := json_or (get "root_account")
                             (json_or (get "default_account") (JStr "root"));
        sb_default_partition := get "default_partition";
        sb_enforce_offering_partitions := truthy (get "enforce_offering_partitions");
        sb_qos_enforcement_enabled := truthy (get "qos_enforcement_enabled");
        sb_enforce_offering_qos := get "enforce_offering_qos";
        sb_default_account_policy := policy; sb_component_mapper := mapper |}.
End Construction.

(** ** Limits *)

(** [x * y] *)
Definition num_times (x y : pynum) : res pynum :=
  match x, y with
  | PyInt a, PyInt b => Ok (PyInt (a * b))
  | _, _ => let? a := to_float x in let? b := to_float y in Ok (PyFloat (f64_mul a b))
  end.

Fixpoint update {V} (d e : list (string * V)) : list (string * V) :=
  match e with [] => d | (k, v) :: e => update (dict_set d k v) e end.

(** The components that are billed one of the ways listed. *)
Definition billed (ways : list string) (cs : list (string * slurm_component))
  : list (string * slurm_component) :=
  List.filter (λ c, bool_decide (sc_accounting_type c.2 ∈ ways)) cs.

Definition factor_or_one (c : slurm_component) : pynum := default (PyInt 1) (sc_unit_factor c).

Definition usage_limit (c : string * slurm_component) : res (list (string * pynum)) :=
  match sc_limit c.2 with
  | Some limit => let? x := num_times limit (factor_or_one c.2) in Ok [(c.1, x)]
  | None => Ok []
  end.

(** [get_usage_based_limits] *)
Definition get_usage_based_limits (cs : list (string * slurm_component))
  : res (list (string * pynum)) := concat_res (map usage_limit (billed ["usage"] cs)).

(** [_calculate_duration_months] *)
Definition calculate_duration_months (created end_date : date) : Z :=
  let months := (d_year end_date - d_year created) * 12 + (d_month end_date - d_month created) in
  Z.max 1 (if d_day created <? d_day end_date then months + 1 else months).

Section Limits.
Context (b : slurm_backend).

Definition limit_based : list (string * slurm_component) := billed ["limit"; "one"] (sb_components b).
Definition prepaid : list (string * slurm_component) := billed ["one"] (sb_components b).

Definition has_prepaid_components : bool := match prepaid with [] => false | _ => true end.

Definition resource_limits (r : WaldurResource) : gmap string Z := default ∅ (res_limits r).

(** The limits that are handed to the mapper. *)
Definition mapped_limits (limits : gmap string Z) : list (string * Z) :=
  List.filter (λ l, bool_decide (l.1 ∈ dict_keys limit_based)) (map_to_list limits).

Definition scaled_limit (limits : gmap string Z) (c : string * slurm_component)
  : res (list (string * pynum)) :=
  match limits !! c.1 with
  | None => Ok []
  | Some value =>
      match sc_unit_factor c.2 with
      | None => Err (KeyError "unit_factor")
      | Some factor => let? x := num_times (PyInt value) factor in Ok [(c.1, x)]
      end
  end.

Definition ints (l : list (string * Z)) : list (string * pynum) := map (λ x, (x.1, PyInt x.2)) l.

Definition times_months (months : Z) (d : list (string * pynum)) (c : string * slurm_component)
  : res (list (string * pynum)) :=
  match dict_get d c.1 with
  | Some x => let? y := num_times x (PyInt months) in Ok (dict_set d c.1 y)
  | None => Ok d
  end.

(** The first part of [_collect_resource_limits]: what the allocation gets, before
    unknown keys are dropped. *)
Definition allocation_limits (r : WaldurResource) : res (list (string * pynum)) :=
  let? usage_based := get_usage_based_limits (sb_components b) in
  let? own :=
    (if negb (is_passthrough (sb_component_mapper b)) then
       let? converted :=
         convert_limits_to_target (sb_component_mapper b) (mapped_limits (resource_limits r)) in
       Ok (ints converted)
     else concat_res (map (scaled_limit (resource_limits r)) limit_based)) in
  let limits := update (update [] usage_based) own in
  match res_created r, res_end_date r with
  | Val created, Val end_date =>
      rfold (times_months (calculate_duration_months created end_date)) prepaid limits
  | _, _ => Ok limits
  end.

(** What Waldur is told: the limits of the resource, and those of the usage-based
    components. *)
Definition waldur_limits (r : WaldurResource) : list (string * pynum) :=
  update (ints (map_to_list (resource_limits r)))
    (omap (λ c, match sc_limit c.2 with Some x => Some (c.1, x) | None => None end)
          (billed ["usage"] (sb_components b))).

Definition known_only (known : list string) (limits : list (string * pynum))
  : list (string * pynum) :=
  match known with
  | [] => limits
  | _ => List.filter (λ l, bool_decide (l.1 ∈ known)) limits
  end.

(** The second part, with the TRES the cluster knows (none when it did not answer). *)
Definition collected_limits (r : WaldurResource) (limits : list (string * pynum))
    (known : list string) : res (gmap string Z * gmap string Z) :=
  let? backend_limits := all_ints (known_only known limits) in
  let? for_waldur := all_ints (waldur_limits r) in
  Ok (list_to_map backend_limits, list_to_map for_waldur).

(** [set_resource_limits]: the limits as the cluster takes them. *)
Definition own_factor (key : string) : pynum :=
  match dict_get (sb_components b) key with Some c => factor_or_one c | None => PyInt 1 end.

Definition scaled_by_factor (limit : string * Z) : res (list (string * Z)) :=
  let? x := num_times (PyInt limit.2) (own_factor limit.1) in
  let? z := num_int x in Ok [(limit.1, z)].

(** The factor of [set_resource_user_limits] has to be there. *)
Definition user_limit (limit : string * Z) : res (list (string * pynum)) :=
  match dict_get (sb_components b) limit.1 with
  | None => Err (KeyError limit.1)
  | Some c => match sc_unit_factor c with
              | None => Err (KeyError "unit_factor")
              | Some factor => let? x := num_times (PyInt limit.2) factor in Ok [(limit.1, x)]
              end
  end.
End Limits.

(** ** Usage *)

Abbreviation amounts_dict := (list (string * pynum)).
(** By account, then by user. *)
Abbreviation raw_report := (list (string * list (string * amounts_dict))).

(** [sum_dicts] *)
Definition sum_dicts (dicts : list amounts_dict) : res amounts_dict :=
  rfold (λ d curr, rfold (λ d x, accumulate d x.1 x.2) curr d) dicts [].

Definition of_floats (u : list (string * spec_float)) : amounts_dict :=
  map (λ x, (x.1, PyFloat x.2)) u.

Definition account_usage_of (report : raw_report) (account : string) : list (string * amounts_dict) :=
  default [] (dict_get report account).

Definition user_usage_of (report : raw_report) (account user : string) : amounts_dict :=
  default [] (dict_get (account_usage_of report account) user).

(** One line of the report. *)
Definition add_line (report : raw_report) (line : slurm_line) : res raw_report :=
  let? a := account line in
  let? u := user line in
  let? tres_usage := tres_usage line in
  let? summed := sum_dicts [user_usage_of report a u; of_floats tres_usage] in
  Ok (dict_set report a (dict_set (account_usage_of report a) u summed)).

Definition with_total (users : list (string * amounts_dict)) : res (list (string * amounts_dict)) :=
  let? total := sum_dicts (dict_values users) in
  Ok (dict_set users "TOTAL_ACCOUNT_USAGE" total).

Fixpoint map_values {V W} (f : V → res W) (d : list (string * V)) : res (list (string * W)) :=
  match d with
  | [] => Ok []
  | (k, v) :: d => let? w := f v in let? d := map_values f d in Ok ((k, w) :: d)
  end.

(** The report of the lines, before its units are converted. *)
Definition report_of (lines : list slurm_line) : res raw_report :=
  let? report := rfold add_line lines [] in map_values with_total report.

(** [value / factor] *)
Definition num_truediv (x factor : pynum) : res spec_float :=
  match x, factor with
  | PyInt a, PyInt f =>
      if f =? 0 then Err (OtherException "division by zero")
      else match true_div (Z.sgn f * a) (Z.abs f) with
           | S754_infinity _ => Err (OverflowError "integer division result too large for a float")
           | q => Ok q
           end
  | _, _ =>
      let? a := to_float x in
      let? f := to_float factor in
      if is_zero f then Err (OtherException "float division by zero") else Ok (f64_div a f)
  end.

(** [round(x)] *)
Definition round_int (x : pynum) : res Z :=
  match x with
  | PyInt z => Ok z
  | PyFloat (S754_finite s m e) =>
      Ok (cond_Zopp s (if 0 <=? e then Zpos m * 2 ^ e else div_half_even (Zpos m) (2 ^ (- e))))
  | PyFloat f => int_of_float f
  end.

(** [convert_slurm_units_to_waldur_ones], the value of one component. *)
Definition waldur_units (cs : list (string * slurm_component)) (x : string * pynum)
  : res spec_float :=
  match dict_get cs x.1 with
  | None => Err (KeyError x.1)
  | Some c => num_truediv x.2 (factor_or_one c)
  end.

Fixpoint map_items {V W} (f : string * V → res W) (d : list (string * V)) : res (list (string * W)) :=
  match d with
  | [] => Ok []
  | x :: d => let? w := f x in let? d := map_items f d in Ok ((x.1, w) :: d)
  end.

Definition convert_slurm_units_to_waldur_ones (cs : list (string * slurm_component))
    (units : amounts_dict) : res amounts_dict :=
  map_items (λ x, let? q := waldur_units cs x in Ok (PyFloat (round2 q))) units.

(** With [to_int]. *)
Definition convert_limits_to_waldur_ones (cs : list (string * slurm_component))
    (units : list (string * Z)) : res (list (string * Z)) :=
  map_items (λ x, let? q := waldur_units cs (x.1, PyInt x.2) in int_of_float q) units.

(** [_convert_usage_report] *)
Definition converted_usage (b : slurm_backend) (usage_dict : amounts_dict) : res amounts_dict :=
  if negb (is_passthrough (sb_component_mapper b)) then
    let? float_usage := map_items (λ x, let? f := to_float x.2 in Ok (PyFloat f)) usage_dict in
    let? source_usage := convert_usage_from_target (sb_component_mapper b) float_usage in
    map_items (λ x, let? z := round_int x.2 in Ok (PyInt z)) source_usage
  else convert_slurm_units_to_waldur_ones (sb_components b) usage_dict.

Definition convert_usage_report (b : slurm_backend) (report : raw_report) : res raw_report :=
  map_values (map_values (converted_usage b)) report.

Definition usage_report (b : slurm_backend) (lines : list slurm_line) : res raw_report :=
  let? report := report_of lines in convert_usage_report b report.

(** The limits read back from the cluster, of the components there are. *)
Definition known_components (b : slurm_backend) (limits : list (string * Z)) : list (string * Z) :=
  List.filter (λ l, bool_decide (l.1 ∈ dict_keys (sb_components b))) limits.

(** ** What is accepted as settings *)

Lemma require_ok b msg u : require b msg = Ok u ↔ b = true.
Proof. destruct b, u; simpl; naive_solver. Qed.

(** The flags of [qos_management] fit together, and with the levers that are set. *)
Definition flags_consistent (settings : gmap string json) (qos_config : list (string * json)) : Prop :=
  (flag_of qos_config "apply_limits_to_qos" = true →
     flag_of qos_config "enabled" = true ∧ flag_of qos_config "skip_qos_swap" = true) ∧
  (flag_of qos_config "skip_qos_swap" = true →
     ∀ key, key ∈ ["qos_paused"; "qos_downscaled"; "qos_default"] →
       truthy (json_get settings key JNull) = false).

Lemma validate_flags_ok settings qos_config :
  validate_qos_management_runtime_flags settings qos_config = Ok () ↔
  flags_consistent settings qos_config.
Proof.
  unfold validate_qos_management_runtime_flags, flags_consistent.
  set (enabled := flag_of qos_config "enabled"). set (skip := flag_of qos_config "skip_qos_swap").
  set (apply := flag_of qos_config "apply_limits_to_qos").
  rewrite !rbind_ok. setoid_rewrite rbind_ok. setoid_rewrite rbind_ok. setoid_rewrite require_ok.
  split.
  - intros ([] & H1 & [] & H2 & [] & H3 & H4). split.
    + intros Ha. rewrite Ha in *. simpl in *. destruct enabled, skip; naive_solver.
    + intros Hs key Hk. rewrite Hs in *. simpl in *.
      apply negb_true_iff, orb_false_iff in H3 as [? ?]. apply negb_true_iff in H4. set_solver.
  - intros [Ha Hs]. exists (). split.
    { destruct apply; [|done]. by destruct Ha as [-> _]. }
    exists (). split; [destruct apply; [|done]; by destruct Ha as [_ ->]|]. exists ().
    destruct skip; simpl; [|done].
    rewrite !(Hs eq_refl) by set_solver. done.
Qed.

Definition lustre_project_id_offset (settings : gmap string json) : res json :=
  let? lustre := get_of (json_or (json_get settings "project_directory" (JObj [])) (JObj []))
                   "lustre_quota" JNull in
  get_of (json_or lustre (JObj [])) "project_id_offset" (JInt 0).

Lemma validated_offset_ok settings z :
  validated_lustre_project_id_offset (json_get settings "project_directory" (JObj [])) = Ok z ↔
  lustre_project_id_offset settings = Ok (JInt z) ∧ 0 ≤ z ≤ LUSTRE_MAX_PROJECT_ID.
Proof.
  unfold validated_lustre_project_id_offset, lustre_project_id_offset. rewrite !rbind_ok.
  setoid_rewrite rbind_ok. split.
  - intros (lustre & Hl & offset & Ho & H). destruct offset; try done.
    apply rbind_ok in H as (u & Hu%require_ok & [= ->]). split; [eauto|]. lia.
  - intros [(lustre & Hl & Ho) Hz]. exists lustre. split; [done|]. eexists. split; [done|].
    apply rbind_ok. exists (). split; [apply require_ok; lia|done].
Qed.

Lemma checked_policy_ok policy p :
  checked_policy policy = Ok p ↔ policy = JStr p ∧ p ∈ VALID_DEFAULT_ACCOUNT_POLICIES.
Proof.
  destruct policy; simpl; try (split; [done|by intros [? _]]). rewrite rbind_ok.
  setoid_rewrite require_ok. setoid_rewrite bool_decide_eq_true. naive_solver.
Qed.

Lemma parse_execution_mode_ok settings mode :
  parse_execution_mode settings = Ok mode ↔
  json_get settings "execution_mode" (JStr "cli") =
    JStr match mode with CLI => "cli" | REST => "rest" end.
Proof.
  unfold parse_execution_mode. destruct (json_get settings "execution_mode" _) as [| | | |s| |];
    try (split; [done|by destruct mode]).
  destruct (decide (s = "cli"%string)) as [->|H1]; [destruct mode; naive_solver|].
  destruct (decide (s = "rest"%string)) as [->|H2]; [destruct mode; naive_solver|].
  split; [|destruct mode; naive_solver]. intros H. exfalso. repeat case_match; naive_solver.
Qed.

Lemma parse_usage_tres_source_ok settings source :
  parse_usage_tres_source settings = Ok source ↔
  json_get settings "usage_tres_source" (JStr "requested") =
    JStr match source with REQUESTED => "requested" | ALLOCATED => "allocated" end.
Proof.
  unfold parse_usage_tres_source. destruct (json_get settings "usage_tres_source" _) as [| | | |s| |];
    try (split; [done|by destruct source]).
  destruct (decide (s = "requested"%string)) as [->|H1]; [destruct source; naive_solver|].
  destruct (decide (s = "allocated"%string)) as [->|H2]; [destruct source; naive_solver|].
  split; [|destruct source; naive_solver]. intros H. exfalso. repeat case_match; naive_solver.
Qed.

Section Accepted.
Context (connect_rest connect_ldap : json → res unit) (parse_float : json → res spec_float).
Context (settings : gmap string json) (components : list (string * slurm_component)).

Record acceptable : Prop := {
  ok_mode : ∃ mode, parse_execution_mode settings = Ok mode ∧ (mode = REST →
    truthy (json_get settings "rest_api" JNull) = true ∧
    truthy (json_get settings "cluster_name" JNull) = true ∧
    connect_rest (json_get settings "rest_api" JNull) = Ok ());
  ok_source : ∃ source, parse_usage_tres_source settings = Ok source;
  ok_ldap : truthy (json_get settings "ldap" JNull) = true →
    connect_ldap (json_get settings "ldap" JNull) = Ok ();
  ok_qos : ∃ d, json_or (json_get settings "qos_management" JNull) (JObj []) = JObj d ∧
    flags_consistent settings d;
  ok_offset : ∃ z, lustre_project_id_offset settings = Ok (JInt z) ∧ 0 ≤ z ≤ LUSTRE_MAX_PROJECT_ID;
  ok_policy : ∃ p, json_get settings "default_account_policy" (JStr "common") = JStr p ∧
    p ∈ VALID_DEFAULT_ACCOUNT_POLICIES;
  ok_mapper : ∃ m, build parse_float no_mapper (map mapper_config components) = Ok m;
}.

(** What holds of a backend that was constructed. *)
Record well_formed (b : slurm_backend) : Prop := {
  wf_flags : flags_consistent (sb_settings b) (sb_qos_config b);
  wf_offset : 0 ≤ sb_lustre_project_id_offset b ≤ LUSTRE_MAX_PROJECT_ID;
  wf_policy : sb_default_account_policy b ∈ VALID_DEFAULT_ACCOUNT_POLICIES;
  wf_rest : sb_execution_mode b = REST →
    truthy (json_get (sb_settings b) "cluster_name" JNull) = true;
  wf_root : truthy (sb_root_account b) = true;
}.

Lemma create_slurm_client_ok :
  create_slurm_client connect_rest settings = Ok () ↔
  (∃ mode, parse_execution_mode settings = Ok mode ∧ (mode = REST →
    truthy (json_get settings "rest_api" JNull) = true ∧
    truthy (json_get settings "cluster_name" JNull) = true ∧
    connect_rest (json_get settings "rest_api" JNull) = Ok ())) ∧
  ∃ source, parse_usage_tres_source settings = Ok source.
Proof.
  unfold create_slurm_client. rewrite rbind_ok. split.
  - intros (source & Hs & (mode & Hm & H)%rbind_ok). split; [|by exists source]. exists mode.
    split; [done|]. intros ->.
    apply rbind_ok in H as ([] & ?%require_ok & ([] & ?%require_ok & ?)%rbind_ok). done.
  - intros ((mode & Hm & H) & source & Hs). exists source. split; [done|]. apply rbind_ok.
    exists mode. split; [done|]. destruct mode; [done|]. destruct (H eq_refl) as (Hr & Hc & Hn).
    rewrite Hr, Hc. exact Hn.
Qed.

Lemma truthy_or x y : truthy y = true → truthy (json_or x y) = true.
Proof. unfold json_or. by destruct (truthy x) eqn:?. Qed.

Lemma init_ok b :
  init connect_rest connect_ldap parse_float settings components = Ok b → acceptable ∧ well_formed b.
Proof.
  unfold init. cbv zeta.
  intros (mode & Hmode & ([] & Hclient & (source & Hsource & ([] & Hldap & H)%rbind_ok)%rbind_ok)%rbind_ok)%rbind_ok.
  apply rbind_ok in H as (d & Hd & ([] & Hflags%validate_flags_ok & H)%rbind_ok).
  apply rbind_ok in H as (z & [Hoffset Hz]%validated_offset_ok & H).
  apply rbind_ok in H as (p & [Hp Hvalid]%checked_policy_ok & (m & Hm & [= <-])%rbind_ok).
  apply create_slurm_client_ok in Hclient as [Hclient Hsrc].
  split; split; simpl; try done; eauto.
  - intros Ht. by rewrite Ht in Hldap.
  - exists d. split; [|done]. by destruct (json_or _ _) as [| | | | | |d']; try done; injection Hd as ->.
  - intros ->. destruct Hclient as (mode & Hm' & HR). rewrite Hmode in Hm'. injection Hm' as <-. by apply HR.
  - by do 2 apply truthy_or.
Qed.

Lemma init_accepts : acceptable →
  ∃ b, init connect_rest connect_ldap parse_float settings components = Ok b.
Proof.
  intros [Hmode Hsource Hldap (d & Hd & Hflags) (z & Hz) (p & Hp) (m & Hm)].
  pose proof (proj2 create_slurm_client_ok (conj Hmode Hsource)) as Hc.
  destruct Hmode as (mode & Hmode & _). destruct Hsource as (source & Hsource).
  unfold init. cbv zeta. rewrite Hmode. simpl rbind at 1. rewrite Hc. simpl rbind at 1.
  rewrite Hsource. simpl rbind at 1.
  assert ((if truthy (json_get settings "ldap" JNull)
           then connect_ldap (json_get settings "ldap" JNull) else Ok ()) = Ok ()) as ->.
  { destruct (truthy _); [by apply Hldap|done]. }
  simpl rbind at 1. rewrite Hd. simpl rbind at 1.
  apply validate_flags_ok in Hflags as ->. simpl rbind at 1.
  apply validated_offset_ok in Hz as ->. simpl rbind at 1.
  apply checked_policy_ok in Hp as ->. simpl rbind at 1. rewrite Hm. by eexists.
Qed.
End Accepted.

(** A SLURM backend is constructed from exactly the settings that fit together: known
    modes and policies, a REST client with its cluster, QoS flags that need each other and
    do not contradict the levers, a Lustre offset in range.  Every method of a backend can
    rely on them. *)
Theorem backend_constructed connect_rest connect_ldap parse_float settings components :
  ((∃ b, init connect_rest connect_ldap parse_float settings components = Ok b) ↔
   acceptable connect_rest connect_ldap parse_float settings components) ∧
  ∀ b, init connect_rest connect_ldap parse_float settings components = Ok b → well_formed b.
Proof.
  split; [split|].
  - intros [b Hb]. by apply init_ok in Hb as [? _].
  - apply init_accepts.
  - intros b Hb. by apply init_ok in Hb as [_ ?].
Qed.

(** ** Months *)

Definition month_number (d : date) : Z := 12 * d_year d + d_month d.

(** The date is at most [n] months after the other, to the day. *)
Definition within_months (created end_date : date) (n : Z) : Prop :=
  month_number end_date < month_number created + n ∨
  (month_number end_date = month_number created + n ∧ d_day end_date ≤ d_day created).

Definition months_between (created end_date : date) (n : Z) : Prop :=
  1 ≤ n ∧ within_months created end_date n ∧
  ∀ m, 1 ≤ m < n → ¬ within_months created end_date m.

Lemma duration_months created end_date :
  months_between created end_date (calculate_duration_months created end_date).
Proof.
  unfold months_between, within_months, month_number, calculate_duration_months. cbv zeta.
  destruct (Z.ltb_spec (d_day created) (d_day end_date)); split_and!; lia.
Qed.

(** ** What an allocation is given *)

Lemma num_times_exact x y a b :
  num_denotes x a → num_denotes y b → Z.abs a < 2 ^ 53 → Z.abs b < 2 ^ 53 →
  Z.abs (a * b) < 2 ^ 53 → ∃ z, num_times x y = Ok z ∧ num_denotes z (a * b).
Proof.
  intros Hx Hy Ha Hb Hab.
  destruct (to_float_exact x a Hx Ha) as (fx & Ex & Dx).
  destruct (to_float_exact y b Hy Hb) as (fy & Ey & Dy).
  destruct x as [z1|f1], y as [z2|f2].
  - simpl in *; subst; by eexists.
  - unfold num_times. rewrite Ex, Ey. eexists. split; [done|]. by apply f64_mul_exact.
  - unfold num_times. rewrite Ex, Ey. eexists. split; [done|]. by apply f64_mul_exact.
  - unfold num_times. rewrite Ex, Ey. eexists. split; [done|]. by apply f64_mul_exact.
Qed.

(** The dict has exactly the keys and values of a function. *)
Definition holds (d : list (string * pynum)) (g : string → option Z) : Prop :=
  ∀ k, match g k with
       | Some z => ∃ x, dict_get d k = Some x ∧ num_denotes x z
       | None => dict_get d k = None
       end.

Lemma dict_get_update {V} (d e : list (string * V)) k : NoDup (dict_keys e) →
  dict_get (update d e) k = match dict_get e k with Some v => Some v | None => dict_get d k end.
Proof.
  revert d. induction e as [|[k' v] e IH]; intros d Hnd; simpl; [done|].
  inversion Hnd as [|? ? Hk Hnd']; subst. rewrite IH by done. case_decide as Hkk.
  - subst. rewrite (proj2 (dict_get_None e k')) by done. by rewrite dict_get_set_eq.
  - by rewrite dict_get_set_ne by congruence.
Qed.

Lemma update_NoDup {V} (d e : list (string * V)) : NoDup (dict_keys d) → NoDup (dict_keys (update d e)).
Proof.
  revert d. induction e as [|[k v] e IH]; intros d Hd; simpl; [done|]. by apply IH, dict_set_NoDup.
Qed.

Lemma holds_update d e g h : NoDup (dict_keys e) → holds d g → holds e h →
  holds (update d e) (λ k, match h k with Some z => Some z | None => g k end).
Proof.
  intros Hnd Hg Hh k. specialize (Hg k). specialize (Hh k). rewrite dict_get_update by done.
  destruct (h k); [destruct Hh as (x & -> & ?); eauto|]. rewrite Hh. done.
Qed.

(** A component contributes at most one value, under its own name. *)
Definition contributes (f : string * slurm_component → res (list (string * pynum)))
    (g : string → slurm_component → option Z) (c : string * slurm_component) : Prop :=
  match g c.1 c.2 with
  | Some z => ∃ x, f c = Ok [(c.1, x)] ∧ num_denotes x z
  | None => f c = Ok []
  end.

Lemma collect_values f g cs : NoDup (dict_keys cs) → (∀ c, c ∈ cs → contributes f g c) →
  ∃ l, concat_res (map f cs) = Ok l ∧ NoDup (dict_keys l) ∧ (∀ k, k ∈ dict_keys l → k ∈ dict_keys cs) ∧
    holds l (λ k, match dict_get cs k with Some c => g k c | None => None end).
Proof.
  induction cs as [|[k c] cs IH]; intros Hnd Hc; [exists []; split_and!; done|].
  inversion Hnd as [|? ? Hk Hnd']; subst.
  destruct IH as (l & Hl & Hndl & Hsub & Hh); [done|intros ? ?; apply Hc; by right|].
  specialize (Hc (k, c) (list_elem_of_here _ _)). unfold contributes in Hc. simpl in Hc.
  assert (Hkl : k ∉ dict_keys l) by (intros ?%Hsub; done).
  destruct (g k c) as [z|] eqn:Hg.
  - destruct Hc as (x & Hf & Hx). exists ((k, x) :: l). simpl. rewrite Hf, Hl. split; [done|].
    split; [by constructor|]. split.
    + intros k' [->|?]%elem_of_cons; [by left|]. right. by apply Hsub.
    + intros k'. specialize (Hh k'). simpl. case_decide; [subst; rewrite Hg; eauto|done].
  - exists l. simpl. rewrite Hc, Hl. split; [done|]. split; [done|]. split.
    + intros k' ?. right. by apply Hsub.
    + intros k'. specialize (Hh k'). simpl. case_decide; [|done]. subst k'. rewrite Hg.
      by apply dict_get_None.
Qed.

Lemma billed_elem ways cs c : c ∈ billed ways cs ↔ c ∈ cs ∧ sc_accounting_type c.2 ∈ ways.
Proof.
  unfold billed. rewrite list_elem_of_In, List.filter_In, bool_decide_eq_true. by rewrite <- list_elem_of_In.
Qed.

Lemma billed_NoDup ways cs : NoDup (dict_keys cs) → NoDup (dict_keys (billed ways cs)).
Proof.
  induction cs as [|[k c] cs IH]; intros Hnd; [done|]. inversion Hnd as [|? ? Hk Hnd']; subst.
  unfold billed. simpl. case_bool_decide; [|by apply IH]. constructor; [|by apply IH].
  intros (c' & Heq & (Hin & _)%billed_elem)%list_elem_of_fmap. simpl in Heq. subst k. apply Hk.
  by apply (list_elem_of_fmap_2 fst) in Hin.
Qed.

Lemma billed_get ways cs k : NoDup (dict_keys cs) →
  dict_get (billed ways cs) k = match dict_get cs k with
                                | Some c => if bool_decide (sc_accounting_type c ∈ ways) then Some c
                                            else None
                                | None => None
                                end.
Proof.
  intros Hnd. destruct (dict_get (billed ways cs) k) as [c|] eqn:Hb.
  - apply dict_get_In, billed_elem in Hb as [Hin Hw].
    apply dict_In_get in Hin as ->; [|done]. by rewrite bool_decide_eq_true_2.
  - destruct (dict_get cs k) as [c|] eqn:Hc; [|done]. case_bool_decide as Hw; [|done].
    exfalso. apply dict_get_In in Hc. apply dict_get_None in Hb. apply Hb.
    assert (Hin : (k, c) ∈ billed ways cs) by (by apply billed_elem).
    by apply (list_elem_of_fmap_2 fst) in Hin.
Qed.

Definition num_value (x : pynum) : Z := match num_int x with Ok z => z | Err _ => 0 end.

(** An integer that doubles represent. *)
Definition small (z : Z) : Prop := Z.abs z < 2 ^ 53.
Definition exact (x : pynum) : Prop := num_denotes x (num_value x) ∧ small (num_value x).

Local Arguments num_times : simpl never.

Section Budget.
Context (b : slurm_backend) (r : WaldurResource).

(** The months a prepaid allocation is paid for. *)
Definition months_paid : Z :=
  match res_created r, res_end_date r with
  | Val created, Val end_date => calculate_duration_months created end_date
  | _, _ => 1
  end.

Definition unscaled (k : string) (c : slurm_component) : option Z :=
  if bool_decide (sc_accounting_type c = "usage"%string) then num_value <$> sc_limit c
  else if bool_decide (sc_accounting_type c ∈ ["limit"; "one"]) then resource_limits r !! k
  else None.

(** What the limit of a component comes to on the cluster. *)
Definition limit_of (k : string) (c : slurm_component) : option Z :=
  (λ z, z * num_value (factor_or_one c) *
        (if bool_decide (sc_accounting_type c = "one"%string) then months_paid else 1)) <$> unscaled k c.

Definition budget (k : string) : option Z :=
  match dict_get (sb_components b) k with Some c => limit_of k c | None => None end.

(** The amounts are integers that doubles represent, and a factor that is needed is set. *)
Record sane (c : string * slurm_component) : Prop := {
  sane_factor : exact (factor_or_one c.2);
  sane_set : sc_accounting_type c.2 ∈ ["limit"; "one"] → sc_unit_factor c.2 ≠ None;
  sane_limit : ∀ x, sc_limit c.2 = Some x → exact x;
  sane_amount : ∀ z, unscaled c.1 c.2 = Some z →
    small z ∧ small (z * num_value (factor_or_one c.2));
  sane_budget : ∀ z, limit_of c.1 c.2 = Some z → small z;
}.

Context (Hkeys : NoDup (dict_keys (sb_components b))).
Context (Hsane : ∀ c, c ∈ sb_components b → sane c).
Context (Hmonths : small months_paid).

Lemma usage_contributes c : c ∈ billed ["usage"] (sb_components b) →
  contributes usage_limit limit_of c.
Proof.
  intros [Hin Hw]%billed_elem. apply list_elem_of_singleton in Hw.
  destruct (Hsane c Hin) as [[Hf Hfs] _ Hl Ha Hb].
  unfold contributes, limit_of, usage_limit, unscaled in *. 
  rewrite (bool_decide_eq_true_2 (sc_accounting_type c.2 = "usage"%string) Hw) in *.
  rewrite (bool_decide_eq_false_2 (sc_accounting_type c.2 = "one"%string)) in * by congruence.
  destruct (sc_limit c.2) as [l|]; [|done]. simpl in *.
  destruct (Hl l eq_refl) as [Hd Hs]. destruct (Ha _ eq_refl) as [_ Hp].
  destruct (num_times_exact _ _ _ _ Hd Hf Hs Hfs Hp) as (z & -> & Hz).
  exists z. rewrite Z.mul_1_r. done.
Qed.

Definition before_months (k : string) (c : slurm_component) : option Z :=
  (λ z, z * num_value (factor_or_one c)) <$> unscaled k c.

Lemma not_usage way : way ∈ ["limit"; "one"] → way ≠ "usage"%string.
Proof. intros Hw ->. by apply (bool_decide_eq_true_2 _) in Hw. Qed.

Lemma scaled_contributes c : c ∈ limit_based b → contributes (scaled_limit (resource_limits r)) before_months c.
Proof.
  intros [Hin Hw]%billed_elem. destruct (Hsane c Hin) as [[Hf Hfs] Hset _ Ha _].
  unfold contributes, before_months, scaled_limit, unscaled in *.
  
  rewrite (bool_decide_eq_true_2 _ Hw) in *.
  rewrite (bool_decide_eq_false_2 (sc_accounting_type c.2 = "usage"%string)) in * by by apply not_usage.
  destruct (resource_limits r !! c.1) as [v|]; [|done]. simpl in *.
  destruct (sc_unit_factor c.2) as [x|] eqn:Hx; [|by destruct (Hset Hw)].
  unfold factor_or_one in *. rewrite Hx in *. simpl in *. destruct (Ha v eq_refl) as [Hv Hp].
  destruct (num_times_exact (PyInt v) x v _ eq_refl Hf Hv Hfs Hp) as (z & -> & Hz). eauto.
Qed.

(** The values once the prepaid components in [paid] have been multiplied. *)
Definition multiplied (paid : list (string * slurm_component)) (k : string) : option Z :=
  match dict_get (sb_components b) k with
  | Some c => if bool_decide (k ∈ dict_keys paid) then limit_of k c else
              if bool_decide (sc_accounting_type c = "usage"%string) then limit_of k c
              else before_months k c
  | None => None
  end.

Lemma limits_before_months : is_passthrough (sb_component_mapper b) = true →
  ∃ usage_based own,
    get_usage_based_limits (sb_components b) = Ok usage_based ∧
    concat_res (map (scaled_limit (resource_limits r)) (limit_based b)) = Ok own ∧
    holds (update (update [] usage_based) own) (multiplied []).
Proof.
  intros Hp.
  destruct (collect_values usage_limit limit_of (billed ["usage"] (sb_components b))) as
    (lu & Hu & Hndu & _ & Hhu); [by apply billed_NoDup|apply usage_contributes|].
  destruct (collect_values (scaled_limit (resource_limits r)) before_months (limit_based b)) as
    (lo & Ho & Hndo & _ & Hho); [by apply billed_NoDup|apply scaled_contributes|].
  exists lu, lo. split; [done|]. split; [done|].
  intros k. pose proof (holds_update _ _ _ _ Hndo
    (holds_update [] _ (λ _, None) _ Hndu (λ k, eq_refl) Hhu) Hho k) as Hk. cbv beta in Hk.
  unfold limit_based in Hk. rewrite !billed_get in Hk by done. unfold multiplied.
  destruct (dict_get (sb_components b) k) as [c|]; [|done].
  rewrite (bool_decide_eq_false_2 (k ∈ _)) by apply not_elem_of_nil.
  destruct (decide (sc_accounting_type c = "usage"%string)) as [Hu'|Hu'].
  - rewrite (bool_decide_eq_true_2 (_ = _) Hu').
    rewrite (bool_decide_eq_false_2 (_ ∈ ["limit"; "one"])) in Hk
      by (intros ?%not_usage; congruence).
    rewrite bool_decide_eq_true_2 in Hk by (rewrite Hu'; by left). by destruct (limit_of k c).
  - rewrite (bool_decide_eq_false_2 (_ = _) Hu').
    rewrite (bool_decide_eq_false_2 (_ ∈ ["usage"])) in Hk
      by (intros ?%list_elem_of_singleton; congruence).
    case_bool_decide as Hw; [by destruct (before_months k c)|].
    unfold before_months, unscaled. by rewrite !bool_decide_eq_false_2.
Qed.

Lemma multiply_months created end_date (paid rest : list (string * slurm_component)) d :
  res_created r = Val created → res_end_date r = Val end_date →
  prepaid b = paid ++ rest → holds d (multiplied paid) →
  ∃ d', rfold (times_months (calculate_duration_months created end_date)) rest d = Ok d' ∧
    holds d' (multiplied (paid ++ rest)).
Proof.
  intros Hc He. revert paid d. induction rest as [|[k c] rest IH]; intros paid d Hp Hd.
  - exists d. by rewrite app_nil_r.
  - assert (Hin : (k, c) ∈ prepaid b) by (rewrite Hp; apply elem_of_app; right; by left).
    apply billed_elem in Hin as [Hin Hone]. simpl in Hone. apply list_elem_of_singleton in Hone.
    pose proof (dict_In_get _ _ _ Hkeys Hin) as Hget.
    assert (Hk : k ∉ dict_keys paid).
    { pose proof (billed_NoDup ["one"] _ Hkeys) as Hnd. fold (prepaid b) in Hnd. rewrite Hp in Hnd.
      unfold dict_keys in Hnd. rewrite fmap_app in Hnd. apply NoDup_app in Hnd as (_ & Hnd & _).
      intros Hk. apply (Hnd k Hk). by left. }
    assert (Hnext : ∀ k', k' ≠ k → multiplied (paid ++ [(k, c)]) k' = multiplied paid k').
    { intros k' Hne. unfold multiplied. destruct (dict_get _ k'); [|done].
      rewrite (bool_decide_ext _ (k' ∈ dict_keys paid)); [done|]. unfold dict_keys. rewrite fmap_app. set_solver. }
    assert (Hown : multiplied (paid ++ [(k, c)]) k = limit_of k c).
    { unfold multiplied. rewrite Hget, bool_decide_eq_true_2; [done|].
      unfold dict_keys. rewrite fmap_app. set_solver. }
    assert (Hold : multiplied paid k = before_months k c).
    { unfold multiplied. rewrite Hget, (bool_decide_eq_false_2 _ Hk), Hone. done. }
    assert (∃ d1, times_months (calculate_duration_months created end_date) d (k, c) = Ok d1 ∧
      holds d1 (multiplied (paid ++ [(k, c)]))) as (d1 & Hd1 & Hh1).
    { unfold times_months. simpl. pose proof (Hd k) as Hdk. rewrite Hold in Hdk.
      destruct (Hsane _ Hin) as [_ _ _ Ha Hb]. simpl in Ha, Hb.
      unfold limit_of, before_months in *. rewrite Hone in *.
      destruct (unscaled k c) as [z|] eqn:Hu; simpl in Hdk, Hb, Hown.
      - destruct Hdk as (x & -> & Hx). unfold months_paid in *. rewrite Hc, He in *.
        destruct (num_times_exact x (PyInt (calculate_duration_months created end_date)) _ _ Hx eq_refl)
          as (y & -> & Hy); [by apply (Ha z)|done|by apply (Hb _ eq_refl)|].
        eexists. split; [done|]. intros k'. destruct (decide (k' = k)) as [->|Hne].
        + rewrite Hown, dict_get_set_eq. eauto.
        + rewrite Hnext by done. rewrite dict_get_set_ne by congruence. apply Hd.
      - rewrite Hdk. exists d. split; [done|]. intros k'. destruct (decide (k' = k)) as [->|Hne].
        + by rewrite Hown.
        + rewrite Hnext by done. apply Hd. }
    simpl. rewrite Hd1. simpl.
    replace (paid ++ (k, c) :: rest) with ((paid ++ [(k, c)]) ++ rest) in * by by rewrite <- app_assoc.
    by apply IH.
Qed.

Lemma paid_budget k : multiplied (prepaid b) k = budget k.
Proof.
  unfold multiplied, budget. destruct (dict_get (sb_components b) k) as [c|] eqn:Hc; [|done].
  case_bool_decide as Hk; [done|]. case_bool_decide as Hu; [done|].
  unfold before_months, limit_of. destruct (unscaled k c) as [z|]; simpl; [|done].
  rewrite bool_decide_eq_false_2; [by rewrite Z.mul_1_r|]. intros Ho. apply Hk.
  apply dict_get_In in Hc.
  assert (Hin : (k, c) ∈ prepaid b) by (apply billed_elem; split; [done|simpl; rewrite Ho; by left]).
  by apply (list_elem_of_fmap_2 fst) in Hin.
Qed.

Lemma unpaid_budget k : months_paid = 1 → multiplied [] k = budget k.
Proof.
  intros Hm. unfold multiplied, budget. destruct (dict_get (sb_components b) k) as [c|]; [|done].
  rewrite (bool_decide_eq_false_2 (k ∈ _)) by apply not_elem_of_nil. case_bool_decide; [done|].
  unfold before_months, limit_of. rewrite Hm. destruct (unscaled k c); simpl; [|done].
  case_bool_decide; by rewrite Z.mul_1_r.
Qed.

Lemma holds_ext d g h : (∀ k, g k = h k) → holds d g → holds d h.
Proof. intros Hgh Hd k. rewrite <- Hgh. apply Hd. Qed.

Lemma allocation_limits_budget : is_passthrough (sb_component_mapper b) = true →
  ∃ d, allocation_limits b r = Ok d ∧ holds d budget.
Proof.
  intros Hp. destruct (limits_before_months Hp) as (lu & lo & Hu & Ho & Hh).
  unfold allocation_limits. rewrite Hu, Hp. cbn [rbind negb]. rewrite Ho. cbn [rbind]. cbv zeta.
  destruct (res_created r) as [| |created] eqn:Hc;
    [eexists; (split; [done|]); eapply holds_ext; [|exact Hh]; intros k; apply unpaid_budget;
     unfold months_paid; by rewrite Hc..|].
  destruct (res_end_date r) as [| |end_date] eqn:He;
    [eexists; (split; [done|]); eapply holds_ext; [|exact Hh]; intros k; apply unpaid_budget;
     unfold months_paid; by rewrite Hc, He..|].
  destruct (multiply_months created end_date [] (prepaid b) _ Hc He eq_refl Hh) as (d & Hd & Hhd).
  exists d. split; [done|]. eapply holds_ext; [|exact Hhd]. apply paid_budget.
Qed.
End Budget.

Lemma times_months_NoDup months d c d' :
  times_months months d c = Ok d' → NoDup (dict_keys d) → NoDup (dict_keys d').
Proof.
  unfold times_months. destruct (dict_get d c.1); [|by intros [= ->]].
  intros (y & _ & [= <-])%rbind_ok. apply dict_set_NoDup.
Qed.

Lemma allocation_limits_NoDup b r d : allocation_limits b r = Ok d → NoDup (dict_keys d).
Proof.
  unfold allocation_limits. intros (lu & _ & (lo & _ & H)%rbind_ok)%rbind_ok. cbv zeta in H.
  assert (Hnd : NoDup (dict_keys (update (update [] lu) lo)))
    by (do 2 apply update_NoDup; apply NoDup_nil_2).
  destruct (res_created r), (res_end_date r); try (by injection H as <-).
  eapply (rfold_keeps (λ d, NoDup (dict_keys d))); [|exact H|exact Hnd].
  intros ????. by eapply times_months_NoDup.
Qed.

Lemma all_ints_value d :
  (∀ k x, (k, x) ∈ d → ∃ z, num_denotes x z) →
  ∃ l, all_ints d = Ok l ∧ ∀ k, dict_get l k = num_value <$> dict_get d k.
Proof.
  induction d as [|[k x] d IH]; intros Hd; [by exists []|].
  destruct IH as (l & Hl & Hg); [intros ???; eapply Hd; by right|].
  destruct (Hd k x (list_elem_of_here _ _)) as [z Hz].
  assert (Hx : num_int x = Ok z)
    by (destruct x; simpl in *; [by subst|by apply int_of_float_exact]).
  exists ((k, z) :: l). simpl. rewrite Hx, Hl. split; [done|]. intros k'. simpl.
  case_decide; [|apply Hg]. cbn [fmap option_fmap option_map]. unfold num_value. by rewrite Hx.
Qed.

Lemma lookup_list_to_map {V} (l : list (string * V)) k :
  (list_to_map l : gmap string V) !! k = dict_get l k.
Proof.
  induction l as [|[k' v] l IH]; simpl; [by rewrite lookup_empty|].
  case_decide as Hk; [subst; by rewrite lookup_insert_eq|by rewrite lookup_insert_ne by congruence].
Qed.

Lemma dict_get_filter {V} (P : string → bool) (d : list (string * V)) k :
  dict_get (List.filter (λ x, P x.1) d) k = if P k then dict_get d k else None.
Proof.
  induction d as [|[k' v] d IH]; simpl; [by destruct (P k)|].
  destruct (decide (k = k')) as [->|Hne].
  - destruct (P k') eqn:HP; simpl; [by rewrite decide_True|by rewrite IH].
  - destruct (P k'); simpl; [by rewrite decide_False|done].
Qed.

Definition kept (known : list string) (k : string) : bool :=
  match known with [] => true | _ => bool_decide (k ∈ known) end.

Lemma known_only_get known limits k :
  dict_get (known_only known limits) k = if kept known k then dict_get limits k else None.
Proof.
  destruct known as [|t known]; [done|]. 
  pose proof (dict_get_filter (λ k, bool_decide (k ∈ t :: known)) limits k) as H. exact H.
Qed.

Lemma known_only_elem known limits x : x ∈ known_only known limits → x ∈ limits.
Proof.
  destruct known; [done|]. intros [? _]%list_elem_of_In%List.filter_In. by apply list_elem_of_In.
Qed.

Lemma num_denotes_value x z : num_denotes x z → num_value x = z.
Proof.
  unfold num_value. destruct x; simpl; [by intros ->|]. intros Hx. by rewrite (int_of_float_exact _ _ Hx).
Qed.

(** The limits that reach the cluster: the budget of each component, of the TRES the
    cluster knows. *)
Lemma backend_limits_budget b r d known : holds d (budget b r) → NoDup (dict_keys d) →
  ∃ l, all_ints (known_only known d) = Ok l ∧
    ∀ k, (list_to_map l : gmap string Z) !! k = if kept known k then budget b r k else None.
Proof.
  intros Hd Hnd. destruct (all_ints_value (known_only known d)) as (l & Hl & Hg).
  { intros k x Hin%known_only_elem. apply dict_In_get in Hin; [|done]. specialize (Hd k).
    destruct (budget b r k); [destruct Hd as (y & Hy & ?)|]; simplify_eq. eauto. }
  exists l. split; [done|]. intros k. rewrite lookup_list_to_map, Hg, known_only_get.
  destruct (kept known k); [|done]. specialize (Hd k).
  destruct (budget b r k); [|by rewrite Hd]. destruct Hd as (x & -> & Hx). simpl.
  by rewrite (num_denotes_value _ _ Hx).
Qed.

Lemma elem_of_update {V} (d e : list (string * V)) x : x ∈ update d e → x ∈ d ∨ x ∈ e.
Proof.
  revert d. induction e as [|[k v] e IH]; intros d; simpl; [auto|].
  intros [[->|?]%elem_of_dict_set|?]%IH; rewrite elem_of_cons; auto.
Qed.

Lemma waldur_limits_ints b r : (∀ c, c ∈ sb_components b → sane r c) →
  ∃ l, all_ints (waldur_limits b r) = Ok l.
Proof.
  intros Hs. destruct (all_ints_value (waldur_limits b r)) as (l & Hl & _); [|by exists l].
  intros k x [Hin|Hin]%elem_of_update.
  - unfold ints in Hin. apply list_elem_of_fmap in Hin as ([k' z] & Heq & _). simplify_eq. by exists z.
  - apply list_elem_of_omap in Hin as ([k' c] & [Hin _]%billed_elem & Hx).
    destruct (Hs _ Hin) as [_ _ Hl _ _]. simpl in *. destruct (sc_limit c) as [x'|]; [|done].
    simplify_eq. destruct (Hl x eq_refl) as [? _]. eauto.
Qed.

(** An allocation is given, for each component the cluster knows, its limit times its
    factor, and for a prepaid component times the months up to its end date, to the day:
    the computation succeeds and nothing is rounded, as long as the amounts are integers
    below 2^53. *)
Theorem allocation_budgeted b r known :
  NoDup (dict_keys (sb_components b)) → (∀ c, c ∈ sb_components b → sane r c) →
  small (months_paid r) → is_passthrough (sb_component_mapper b) = true →
  (∃ d backend_limits shown, allocation_limits b r = Ok d ∧
     collected_limits b r d known = Ok (backend_limits, shown) ∧
     ∀ k, backend_limits !! k = if kept known k then budget b r k else None) ∧
  (∀ created end_date, res_created r = Val created → res_end_date r = Val end_date →
     months_between created end_date (months_paid r)).
Proof.
  intros Hkeys Hsane Hmonths Hp. split.
  - destruct (allocation_limits_budget b r Hkeys Hsane Hmonths Hp) as (d & Hd & Hh).
    destruct (backend_limits_budget b r d known Hh (allocation_limits_NoDup _ _ _ Hd)) as (l & Hl & Hb).
    destruct (waldur_limits_ints b r Hsane) as (l' & Hl').
    exists d, (list_to_map l), (list_to_map l'). split; [done|].
    unfold collected_limits. rewrite Hl, Hl'. by split.
  - intros created end_date Hc He. unfold months_paid. rewrite Hc, He. apply duration_months.
Qed.

(** ** The usage that is reported *)

(** The line is the account's, and the user's. *)
Definition of_account (a : string) (line : slurm_line) : bool :=
  match account line with Ok a' => bool_decide (a' = a) | Err _ => false end.
Definition of_user (a u : string) (line : slurm_line) : bool :=
  of_account a line && match user line with Ok u' => bool_decide (u' = u) | Err _ => false end.

(** What the lines of one user come to, added up in their order. *)
Definition add_own (a u : string) (d : amounts_dict) (line : slurm_line) : res amounts_dict :=
  if of_user a u line then let? t := tres_usage line in sum_dicts [d; of_floats t] else Ok d.

(** The line can be read. *)
Definition parses (line : slurm_line) : Prop :=
  ∃ a u t, account line = Ok a ∧ user line = Ok u ∧ tres_usage line = Ok t.

Definition floats (d : amounts_dict) : Prop := ∀ k x, (k, x) ∈ d → ∃ f, x = PyFloat f.

Lemma of_floats_floats t : floats (of_floats t).
Proof. intros k x ([k' f] & Heq & _)%list_elem_of_fmap. simplify_eq. eauto. Qed.

Lemma dict_set_floats d k f : floats d → floats (dict_set d k (PyFloat f)).
Proof. intros Hd k' x [Heq|?]%elem_of_dict_set; [simplify_eq; eauto|eauto]. Qed.

Lemma accumulate_floats d k f : floats d → ∃ d', accumulate d k (PyFloat f) = Ok d' ∧ floats d'.
Proof.
  intros Hd. unfold accumulate. destruct (dict_get d k) as [x|] eqn:Hx; simpl.
  - apply dict_get_In, Hd in Hx as [g ->]. simpl. eexists. split; [done|]. by apply dict_set_floats.
  - eexists. split; [done|]. by apply dict_set_floats.
Qed.

Lemma sum_dicts_floats ds : (∀ d, d ∈ ds → floats d) → ∃ d, sum_dicts ds = Ok d ∧ floats d.
Proof.
  intros Hds. apply rfold_total; [|by intros k x ?%elem_of_nil].
  intros d curr Hc Hd. apply rfold_total; [|done].
  intros d' [k x] Hx Hd'. destruct (Hds _ Hc _ _ Hx) as [f ->]. by apply accumulate_floats.
Qed.

(** Everything the report holds is a dict of floats, under distinct names. *)
Record tidy (report : raw_report) : Prop := {
  tidy_accounts : NoDup (dict_keys report);
  tidy_users : ∀ a users, dict_get report a = Some users → NoDup (dict_keys users);
  tidy_floats : ∀ a u, floats (user_usage_of report a u);
}.

Lemma user_usage_set report a u users d a' u' :
  users = account_usage_of report a →
  user_usage_of (dict_set report a (dict_set users u d)) a' u' =
  if decide (a' = a ∧ u' = u) then d else user_usage_of report a' u'.
Proof.
  intros ->. unfold user_usage_of, account_usage_of. destruct (decide (a = a')) as [<-|Hne].
  - rewrite dict_get_set_eq. simpl. destruct (decide (u = u')) as [<-|Hne].
    + rewrite dict_get_set_eq. by rewrite decide_True.
    + rewrite dict_get_set_ne by done. rewrite decide_False; [done|]. by intros [_ ->].
  - rewrite dict_get_set_ne by done. rewrite decide_False; [done|]. by intros [-> _].
Qed.

Lemma add_line_tidy report line : parses line → tidy report →
  ∃ report', add_line report line = Ok report' ∧ tidy report' ∧
    (∀ a u, add_own a u (user_usage_of report a u) line = Ok (user_usage_of report' a u)) ∧
    (∀ a u, u ∈ dict_keys (account_usage_of report' a) ↔
       u ∈ dict_keys (account_usage_of report a) ∨ of_user a u line = true) ∧
    (∀ a, a ∈ dict_keys report' ↔ a ∈ dict_keys report ∨ of_account a line = true).
Proof.
  intros (a & u & t & Ha & Hu & Ht) [Hacc Husers Hfl]. unfold add_line. rewrite Ha, Hu, Ht. simpl.
  destruct (sum_dicts_floats [user_usage_of report a u; of_floats t]) as (s & Hs & Hsf).
  { intros d [->|[->|[]%elem_of_nil]%elem_of_cons]%elem_of_cons; [apply Hfl|apply of_floats_floats]. }
  rewrite Hs. simpl. eexists. split; [done|].
  assert (Hof : ∀ a' u', of_user a' u' line = true ↔ a' = a ∧ u' = u).
  { intros a' u'. unfold of_user, of_account. rewrite Ha, Hu, andb_true_iff, !bool_decide_eq_true.
    naive_solver. }
  assert (Hnd : NoDup (dict_keys (account_usage_of report a))).
  { unfold account_usage_of. destruct (dict_get report a) eqn:Hg; [by eapply Husers|apply NoDup_nil_2]. }
  split; [split|split; [|split]].
  - by apply dict_set_NoDup.
  - intros a' users. destruct (decide (a = a')) as [<-|Hne].
    + rewrite dict_get_set_eq. intros [= <-]. by apply dict_set_NoDup.
    + rewrite dict_get_set_ne by done. apply Husers.
  - intros a' u'. rewrite user_usage_set by done. by case_decide.
  - intros a' u'. rewrite user_usage_set by done. unfold add_own.
    destruct (of_user a' u' line) eqn:Ho.
    + apply Hof in Ho as [-> ->]. rewrite decide_True by done. by rewrite Ht.
    + rewrite decide_False; [done|]. rewrite <- Hof. congruence.
  - intros a' u'. rewrite Hof. unfold account_usage_of at 1. destruct (decide (a = a')) as [<-|Hne].
    + rewrite dict_get_set_eq. simpl. rewrite dict_set_keys_elem. naive_solver.
    + rewrite dict_get_set_ne by done. fold (account_usage_of report a'). naive_solver.
  - intros a'. unfold of_account. rewrite Ha, bool_decide_eq_true, dict_set_keys_elem. naive_solver.
Qed.

Lemma add_lines_tidy lines report : (∀ line, line ∈ lines → parses line) → tidy report →
  ∃ report', rfold add_line lines report = Ok report' ∧ tidy report' ∧
    (∀ a u, rfold (add_own a u) lines (user_usage_of report a u) = Ok (user_usage_of report' a u)) ∧
    (∀ a u, u ∈ dict_keys (account_usage_of report' a) ↔
       u ∈ dict_keys (account_usage_of report a) ∨ ∃ line, line ∈ lines ∧ of_user a u line = true) ∧
    (∀ a, a ∈ dict_keys report' ↔
       a ∈ dict_keys report ∨ ∃ line, line ∈ lines ∧ of_account a line = true).
Proof.
  revert report. induction lines as [|line lines IH]; intros report Hp Ht; simpl.
  - exists report. split_and!; [done|done|done|intros a u|intros a];
      (split; [by left|intros [?|(? & []%elem_of_nil & _)]; done]).
  - destruct (add_line_tidy report line (Hp _ (list_elem_of_here _ _)) Ht)
      as (r1 & -> & Ht1 & Ho1 & Hu1 & Ha1).
    destruct (IH r1) as (r2 & Hr2 & Ht2 & Ho2 & Hu2 & Ha2); [intros ? ?; apply Hp; by right|done|].
    exists r2. simpl. split_and!; [done|done|..].
    + intros a u. rewrite Ho1. exact (Ho2 a u).
    + intros a u. rewrite Hu2, Hu1. setoid_rewrite elem_of_cons. naive_solver.
    + intros a. rewrite Ha2, Ha1. setoid_rewrite elem_of_cons. naive_solver.
Qed.

Lemma map_values_ok {V W} (f : V → res W) (d : list (string * V)) :
  (∀ k v, (k, v) ∈ d → ∃ w, f v = Ok w) →
  ∃ d', map_values f d = Ok d' ∧ dict_keys d' = dict_keys d ∧
    ∀ k, match dict_get d k with
         | Some v => ∃ w, f v = Ok w ∧ dict_get d' k = Some w
         | None => dict_get d' k = None
         end.
Proof.
  induction d as [|[k v] d IH]; intros Hf; simpl; [by exists []|].
  destruct (Hf k v (list_elem_of_here _ _)) as (w & Hw).
  destruct IH as (d' & Hd' & Hk & Hg); [intros ???; eapply Hf; by right|].
  exists ((k, w) :: d'). rewrite Hw. simpl. rewrite Hd'. split; [done|].
  split; [exact (f_equal (cons k) Hk)|].
  intros k'. simpl. case_decide; [eauto|apply Hg].
Qed.

(** *** Integral amounts *)

Definition line_contributions (line : slurm_line) : contributions :=
  match tres_usage line with
  | Ok t => map (λ x, (x.1, num_value (PyFloat x.2))) t
  | Err _ => []
  end.

Definition account_contributions (a : string) (lines : list slurm_line) : contributions :=
  concat (map line_contributions (List.filter (of_account a) lines)).
Definition user_contributions (a u : string) (lines : list slurm_line) : contributions :=
  concat (map line_contributions (List.filter (of_user a u) lines)).

(** The amounts of the line are integers. *)
Definition integral_line (line : slurm_line) : Prop :=
  ∀ t x, tres_usage line = Ok t → x ∈ t → num_denotes (PyFloat x.2) (num_value (PyFloat x.2)).

Lemma represents_ext d cs cs' :
  (∀ k, total cs k = total cs' k) → (∀ k, k ∈ cs.*1 ↔ k ∈ cs'.*1) → represents d cs → represents d cs'.
Proof.
  intros Ht Hk [Hnd Hd]. split; [done|]. intros k. specialize (Hd k).
  destruct (dict_get d k); rewrite <- Hk; [|done]. by rewrite <- Ht.
Qed.

Lemma keyed_fst {A B} (f : A → B) (l : list A) : (map (λ k, (k, f k)) l).*1 = l.
Proof. induction l as [|x l IH]; [done|]. exact (f_equal (cons x) IH). Qed.

(** The contributions of a dict's items are those it represents, one for each key. *)
Definition totals (d : amounts_dict) (cs : contributions) : contributions :=
  map (λ k, (k, total cs k)) (dict_keys d).

Lemma totals_keys d cs k : represents d cs → k ∈ (totals d cs).*1 ↔ k ∈ cs.*1.
Proof.
  intros [_ Hd]. unfold totals. specialize (Hd k).
  rewrite keyed_fst. destruct (dict_get d k) as [x|] eqn:Hg.
  - destruct Hd as [Hin _]. split; [done|]. intros _.
    by apply dict_get_In, (list_elem_of_fmap_2 fst) in Hg.
  - apply dict_get_None in Hg. split; [done|]. by intros ?%Hd.
Qed.

Lemma totals_total d cs k : represents d cs → total (totals d cs) k = total cs k.
Proof.
  intros Hr. destruct (decide (k ∈ dict_keys d)) as [Hk|Hk].
  - destruct Hr as [Hnd _]. unfold totals. revert Hnd Hk.
    induction (dict_keys d) as [|x l IH]; [by intros _ ?%elem_of_nil|].
    intros Hnd Hk. inversion Hnd as [|? ? Hx Hnd']; subst. simpl. case_decide as Hxk.
    + subst. rewrite (total_absent (map _ l)); [lia|].
      by rewrite keyed_fst.
    + apply IH; [done|]. by apply elem_of_cons in Hk as [->|?].
  - rewrite (total_absent cs).
    + apply total_absent. rewrite totals_keys by done. destruct Hr as [_ Hd]. specialize (Hd k).
      by rewrite (proj2 (dict_get_None d k) Hk) in Hd.
    + destruct Hr as [_ Hd]. specialize (Hd k). by rewrite (proj2 (dict_get_None d k) Hk) in Hd.
Qed.

Lemma add_items curr cc d cs :
  represents curr cc → represents d cs → weight (cs ++ cc) < 2 ^ 53 →
  ∃ d', rfold (λ d x, accumulate d x.1 x.2) curr d = Ok d' ∧ represents d' (cs ++ cc).
Proof.
  intros Hc Hd Hw. rewrite weight_app in Hw.
  assert (Hcanon : concat (map (λ x : string * pynum, [(x.1, total cc x.1)]) curr) = totals curr cc).
  { unfold totals. clear. induction curr as [|x l IH]; [done|]. exact (f_equal (cons _) IH). }
  assert (Hwt : weight (totals curr cc) ≤ weight cc) by (apply weight_totals; apply Hc).
  destruct (rfold_spec (λ d x, accumulate d x.1 x.2) (λ x, [(x.1, total cc x.1)]) curr d cs)
    as (d' & Hd' & Hr).
  - intros [k x] d0 cs0 Hin Hd0 Hw0. simpl. apply accumulate_spec; [done| |done].
    by apply (represents_value curr).
  - done.
  - rewrite Hcanon, weight_app. lia.
  - exists d'. split; [done|]. rewrite Hcanon in Hr. revert Hr. apply represents_ext.
    + intros k. rewrite !contributed_app. f_equal. by apply totals_total.
    + intros k. rewrite !fmap_app, !elem_of_app. by rewrite totals_keys.
Qed.

(** Dicts that represent sums add up to a dict that represents their sum. *)
Lemma sum_dicts_represents ds css :
  Forall2 represents ds css → weight (concat css) < 2 ^ 53 →
  ∃ d, sum_dicts ds = Ok d ∧ represents d (concat css).
Proof.
  intros H2 Hw. unfold sum_dicts.
  cut (∀ d cs, represents d cs → weight (cs ++ concat css) < 2 ^ 53 →
    ∃ d', rfold (λ d curr, rfold (λ d x, accumulate d x.1 x.2) curr d) ds d = Ok d' ∧
      represents d' (cs ++ concat css)).
  { intros Hc. apply (Hc [] []); [|done]. split; [apply NoDup_nil_2|]. intros k. by intros ?%elem_of_nil. }
  clear Hw. induction H2 as [|curr cc ds css Hc H2 IH]; intros d cs Hd Hw; simpl.
  - exists d. by rewrite app_nil_r.
  - simpl in Hw. rewrite app_assoc in *. pose proof (weight_nonneg (concat css)).
    destruct (add_items curr cc d cs Hc Hd) as (d1 & -> & Hd1); [rewrite weight_app in Hw; lia|].
    simpl. by apply IH.
Qed.

Lemma tres_usage_NoDup line t : tres_usage line = Ok t → NoDup (dict_keys t).
Proof.
  unfold tres_usage. intros (rs & _ & (usage & Hu & [= <-])%rbind_ok)%rbind_ok.
  assert (Hnd : NoDup (dict_keys usage)).
  { eapply (rfold_keeps (λ u, NoDup (dict_keys u))); [|exact Hu|apply NoDup_nil_2].
    unfold add_field. intros b x b' (names & _ & H)%rbind_ok Hb. case_bool_decide; [|by injection H as <-].
    apply rbind_ok in H as (n & _ & (d & _ & (raw & _ & [= <-])%rbind_ok)%rbind_ok).
    by apply dict_set_NoDup. }
  destruct (dict_get usage "mem"%string); [by apply dict_set_NoDup|done].
Qed.

Lemma line_represents line t : tres_usage line = Ok t → integral_line line →
  represents (of_floats t) (line_contributions line).
Proof.
  intros Ht Hi. pose proof (tres_usage_NoDup _ _ Ht) as Hnd. unfold line_contributions. rewrite Ht.
  assert (Hall : ∀ x, x ∈ t → num_denotes (PyFloat x.2) (num_value (PyFloat x.2))) by (intros x; by apply Hi).
  clear Ht Hi. unfold of_floats. induction t as [|[k f] t IH].
  { split; [apply NoDup_nil_2|]. intros k. by intros ?%elem_of_nil. }
  inversion Hnd as [|? ? Hk Hnd']; subst.
  destruct IH as [Hn Hr]; [done|intros x Hx; apply Hall; by right|].
  assert (Hm : ∀ l : list (string * spec_float),
    dict_keys (map (λ x, (x.1, PyFloat x.2)) l) = dict_keys l).
  { intros l. induction l as [|x l IH]; [done|]. exact (f_equal (cons x.1) IH). }
  split; [simpl; constructor; [|done]; by rewrite Hm|].
  assert (Hc : (map (λ x : string * spec_float, (x.1, num_value (PyFloat x.2))) t).*1 = dict_keys t).
  { clear. induction t as [|x l IH]; [done|]. exact (f_equal (cons x.1) IH). }
  intros k'. specialize (Hr k'). cbn [map dict_get fst snd total foldr fmap list_fmap].
  destruct (decide (k' = k)) as [->|Hne].
  - split; [by left|]. rewrite decide_True by done. fold (total (map (λ x, (x.1, num_value (PyFloat x.2))) t) k).
    rewrite total_absent by by rewrite Hc. rewrite Z.add_0_r. apply (Hall (k, f)). by left.
  - rewrite decide_False by congruence. destruct (dict_get _ k').
    + destruct Hr as [Hin Hr]. split; [by right|exact Hr].
    + intros [?|?]%elem_of_cons; [done|by apply Hr].
Qed.

Lemma filter_line_contributions (f : slurm_line → bool) line lines :
  concat (map line_contributions (List.filter f (line :: lines))) =
  (if f line then line_contributions line else []) ++
  concat (map line_contributions (List.filter f lines)).
Proof. simpl. by destruct (f line). Qed.

Lemma own_represents a u lines d cs d' :
  (∀ line, line ∈ lines → integral_line line) → represents d cs →
  weight (cs ++ user_contributions a u lines) < 2 ^ 53 →
  rfold (add_own a u) lines d = Ok d' → represents d' (cs ++ user_contributions a u lines).
Proof.
  revert d cs. induction lines as [|line lines IH]; intros d cs Hi Hd Hw; simpl.
  { intros [= <-]. unfold user_contributions. simpl. by rewrite app_nil_r. }
  unfold user_contributions in *. rewrite filter_line_contributions in *. unfold add_own at 1.
  pose proof (weight_nonneg (concat (map line_contributions (List.filter (of_user a u) lines)))).
  destruct (of_user a u line); [|by apply IH; [intros ? ?; apply Hi; by right|..]].
  intros (d1 & (t & Ht & Hs)%rbind_ok & Hl)%rbind_ok. rewrite app_assoc in *.
  destruct (sum_dicts_represents [d; of_floats t] [cs; line_contributions line]) as (d2 & Hd2 & Hr2).
  { constructor; [done|]. constructor; [|constructor].
    apply line_represents; [done|]. apply Hi. by left. }
  { simpl. rewrite app_nil_r. rewrite weight_app in Hw. lia. }
  rewrite Hs in Hd2. injection Hd2 as <-. simpl in Hr2. rewrite app_nil_r in Hr2.
  apply (IH d1); [|done..]. intros ? ?. apply Hi. by right.
Qed.

Lemma concat_map_app {A B} (f g : A → list B) l :
  concat (map (λ x, f x ++ g x) l) ≡ₚ concat (map f l) ++ concat (map g l).
Proof.
  induction l as [|x l IH]; simpl; [done|]. rewrite IH. rewrite !app_assoc. apply Permutation_app; [|done].
  rewrite <- !app_assoc. apply Permutation_app; [done|]. apply Permutation_app_comm.
Qed.

Lemma one_owner {B} (u : string) (us : list string) (l : list B) :
  NoDup us → concat (map (λ u', if bool_decide (u = u') then l else []) us) =
  if bool_decide (u ∈ us) then l else [].
Proof.
  induction us as [|u' us IH]; intros Hnd; [done|]. inversion Hnd as [|? ? Hu Hnd']; subst.
  simpl. rewrite IH by done. destruct (decide (u = u')) as [<-|Hne].
  - rewrite (bool_decide_eq_true_2 (u = u)) by done.
    rewrite (bool_decide_eq_false_2 _ Hu), bool_decide_eq_true_2 by by left. apply app_nil_r.
  - rewrite bool_decide_eq_false_2 by done. simpl. apply (f_equal (λ b : bool, if b then l else [])).
    apply bool_decide_ext. rewrite elem_of_cons. naive_solver.
Qed.

(** The users of an account partition its lines. *)
Lemma users_partition a us lines :
  NoDup us → (∀ line, line ∈ lines → parses line) →
  (∀ line u, line ∈ lines → of_user a u line = true → u ∈ us) →
  concat (map (λ u, user_contributions a u lines) us) ≡ₚ account_contributions a lines.
Proof.
  intros Hnd. unfold user_contributions, account_contributions.
  induction lines as [|line lines IH]; intros Hp Hu.
  { simpl. clear. by induction us. }
  rewrite filter_line_contributions.
  rewrite <- IH; [|intros ? ?; apply Hp; by right|intros ? ? ?; apply Hu; by right].
  erewrite (map_ext _ (λ u, _ ++ _)); [|intros u; apply filter_line_contributions].
  rewrite concat_map_app. apply Permutation_app; [|done].
  destruct (Hp line (list_elem_of_here _ _)) as (a' & u & t & Ha & Hus & _).
  assert (Hof : ∀ u', of_user a u' line = of_account a line && bool_decide (u = u')).
  { intros u'. unfold of_user. by rewrite Hus. }
  erewrite map_ext; [|intros u'; by rewrite Hof].
  destruct (of_account a line) eqn:Ho; simpl.
  - rewrite one_owner by done. rewrite bool_decide_eq_true_2; [done|].
    apply (Hu line u); [by left|]. rewrite Hof. simpl. by apply bool_decide_eq_true_2.
  - clear. by induction us.
Qed.

Lemma total_perm cs cs' k : cs ≡ₚ cs' → total cs k = total cs' k.
Proof.
  induction 1 as [|x cs cs' _ IH|x y cs|cs1 cs2 cs3 _ IH1 _ IH2]; simpl; [done| | |congruence].
  - by rewrite IH.
  - repeat case_decide; lia.
Qed.

Lemma weight_perm cs cs' : cs ≡ₚ cs' → weight cs = weight cs'.
Proof. induction 1; simpl; lia. Qed.

Lemma represents_perm d cs cs' : cs ≡ₚ cs' → represents d cs → represents d cs'.
Proof.
  intros Hp. apply represents_ext; [by intros k; apply total_perm|]. intros k. by rewrite Hp.
Qed.

(** What the report has of an account: each of its users with the lines of that user
    added up, and the sum over the users; of integral amounts, exactly. *)
Definition account_sums (lines : list slurm_line) (a : string)
    (entries : list (string * amounts_dict)) : Prop :=
  ∃ users total,
    entries = users ++ [("TOTAL_ACCOUNT_USAGE"%string, total)] ∧
    NoDup (dict_keys users) ∧
    (∀ u, u ∈ dict_keys users ↔ ∃ line, line ∈ lines ∧ of_user a u line = true) ∧
    (∀ u d, (u, d) ∈ users → rfold (add_own a u) lines [] = Ok d) ∧
    sum_dicts (dict_values users) = Ok total ∧
    ((∀ line, line ∈ lines → integral_line line) → weight (account_contributions a lines) < 2 ^ 53 →
     represents total (account_contributions a lines)).

Lemma no_usage : represents [] [].
Proof. split; [apply NoDup_nil_2|]. intros k. by intros ?%elem_of_nil. Qed.

Lemma user_weight a u us lines : u ∈ us →
  weight (user_contributions a u lines) ≤ weight (concat (map (λ u, user_contributions a u lines) us)).
Proof.
  induction us as [|u' us IH]; simpl; [by intros ?%elem_of_nil|]. rewrite weight_app.
  pose proof (weight_nonneg (user_contributions a u' lines)).
  pose proof (weight_nonneg (concat (map (λ u, user_contributions a u lines) us))).
  intros [->|Hu]%elem_of_cons; [lia|]. specialize (IH Hu). lia.
Qed.

Lemma total_represents a lines users total :
  NoDup (dict_keys users) → (∀ line, line ∈ lines → parses line) →
  (∀ line, line ∈ lines → integral_line line) →
  (∀ line u, line ∈ lines → of_user a u line = true → u ∈ dict_keys users) →
  (∀ u d, (u, d) ∈ users → rfold (add_own a u) lines [] = Ok d) →
  sum_dicts (dict_values users) = Ok total →
  weight (account_contributions a lines) < 2 ^ 53 → represents total (account_contributions a lines).
Proof.
  intros Hnd Hp Hi Hu Hd Hs Hw. pose proof (users_partition a _ lines Hnd Hp Hu) as Hperm.
  pose proof (weight_perm _ _ Hperm) as Hwp.
  destruct (sum_dicts_represents (dict_values users)
    (map (λ u, user_contributions a u lines) (dict_keys users))) as (d & Hd' & Hr).
  - clear Hs Hnd. unfold dict_values, dict_keys in *.
    assert (Hall : ∀ u d, (u, d) ∈ users → represents d (user_contributions a u lines)).
    { intros u d Hin. apply (own_represents a u lines [] []); [done|apply no_usage| |by apply Hd].
      simpl. apply (list_elem_of_fmap_2 fst) in Hin.
      pose proof (user_weight a u _ lines Hin). simpl in *. lia. }
    clear - Hall. induction users as [|[u d] users IH]; simpl; constructor; [apply Hall; by left|].
    apply IH. intros u' d' Hin. apply Hall. by right.
  - lia.
  - rewrite Hs in Hd'. injection Hd' as <-. by apply (represents_perm _ _ _ Hperm).
Qed.

(** C33: A usage report whose lines all parse, and none of which names a user
    [TOTAL_ACCOUNT_USAGE], is answered, and counts every line once, for the account and the
    user it names: it has the accounts of the lines and no others, for each user the
    binary64 sum of the user's lines in their order, and for each account the sum over its
    users.  Where the amounts of the lines are integers, which the minutes of a job are only
    when it ran for whole minutes, and the account's sum stays below 2^53, no addition
    rounds and the total is exactly that of the account's lines. *)
Theorem usage_counted_once lines :
  (∀ line, line ∈ lines → parses line) →
  (∀ a line, line ∈ lines → of_user a "TOTAL_ACCOUNT_USAGE" line = false) →
  ∃ report, report_of lines = Ok report ∧ ∀ a,
    (a ∈ dict_keys report ↔ ∃ line, line ∈ lines ∧ of_account a line = true) ∧
    ∀ entries, dict_get report a = Some entries → account_sums lines a entries.
Proof.
  intros Hp Hname. unfold report_of.
  destruct (add_lines_tidy lines []) as (report & Hr & [Hacc Husers Hfl] & Hown & Hus & Has); [done|..].
  { split; [apply NoDup_nil_2|done|]. by intros a u k x ?%elem_of_nil. }
  rewrite Hr. simpl.
  assert (Hget : ∀ a users u d, dict_get report a = Some users → (u, d) ∈ users →
    d = user_usage_of report a u).
  { intros a users u d Hg Hin. unfold user_usage_of, account_usage_of. rewrite Hg. simpl.
    by rewrite (dict_In_get _ _ _ (Husers _ _ Hg) Hin). }
  destruct (map_values_ok with_total report) as (report' & Hr' & Hkeys & Hg').
  { intros a users Hin. apply dict_In_get in Hin; [|done]. unfold with_total.
    destruct (sum_dicts_floats (dict_values users)) as (total & -> & _); [|by eexists].
    intros d ([u d'] & -> & Hd)%list_elem_of_fmap. rewrite (Hget _ _ _ _ Hin Hd). apply Hfl. }
  exists report'. split; [done|]. intros a. split.
  { rewrite Hkeys, Has. split; [intros [?%elem_of_nil|?]; done|by right]. }
  intros entries He. specialize (Hg' a). destruct (dict_get report a) as [users|] eqn:Hg; [|congruence].
  destruct Hg' as (w & (total & Hs & [= <-])%rbind_ok & Hw). rewrite He in Hw. injection Hw as ->.
  assert (Hk : ∀ u, u ∈ dict_keys users ↔ ∃ line, line ∈ lines ∧ of_user a u line = true).
  { intros u. specialize (Hus a u). unfold account_usage_of in Hus. rewrite Hg in Hus. simpl in Hus.
    rewrite Hus. split; [intros [?%elem_of_nil|?]; done|by right]. }
  assert (Hd : ∀ u d, (u, d) ∈ users → rfold (add_own a u) lines [] = Ok d).
  { intros u d Hin. rewrite (Hget _ _ _ _ Hg Hin). apply Hown. }
  exists users, total. split_and!; [|by eapply Husers|done|done|done|].
  - apply dict_set_fresh. intros (line & Hl & Ho)%Hk. by rewrite Hname in Ho.
  - intros Hi Hw. eapply total_represents; [by eapply Husers|done..| |done|done|done].
    intros line u Hl Ho. apply Hk. eauto.
Qed.

(** ** Witnesses *)

Definition sample_component (accounting_type : string) (factor : Z) (limit : option Z)
  : slurm_component :=
  {| sc_accounting_type := accounting_type; sc_unit_factor := Some (PyFloat (float_of_Z factor));
     sc_limit := (λ z, PyFloat (float_of_Z z)) <$> limit; sc_target_components := JNull |}.

Definition sample_components : list (string * slurm_component) :=
  [("cpu"%string, sample_component "limit" 60000 None);
   ("gres/gpu"%string, sample_component "one" 60 None);
   ("mem"%string, sample_component "usage" 61440 (Some 8))].

Definition sample_settings : gmap string json :=
  {["default_account"%string := JStr "root_account"; "allocation_prefix"%string := JStr "hpc_";
    "qos_management"%string := JObj [("enabled"%string, JBool true);
      ("skip_qos_swap"%string, JBool true); ("apply_limits_to_qos"%string, JBool true)]]}.

Definition no_float (v : json) : res spec_float := Err (ValueError "could not convert to float").
Definition connects (settings : json) : res unit := Ok ().

Definition sample_slurm : slurm_backend :=
  match init connects connects no_float sample_settings sample_components with
  | Ok b => b
  | Err _ => {| sb_settings := ∅; sb_components := []; sb_execution_mode := CLI;
                sb_usage_tres_source := REQUESTED; sb_has_ldap := false; sb_qos_config := [];
                sb_project_dir_config := JNull; sb_lustre_project_id_offset := 0;
                sb_root_account := JNull; sb_default_partition := JNull;
                sb_enforce_offering_partitions := false; sb_qos_enforcement_enabled := false;
                sb_enforce_offering_qos := JNull; sb_default_account_policy := "";
                sb_component_mapper := no_mapper |}
  end.

Lemma backend_constructed_witness :
  acceptable connects connects no_float sample_settings sample_components ∧ well_formed sample_slurm.
Proof.
  assert (Hi : init connects connects no_float sample_settings sample_components = Ok sample_slurm)
    by (vm_compute; reflexivity).
  destruct (backend_constructed connects connects no_float sample_settings sample_components)
    as [[Ha _] Hw].
  split; [apply Ha; by exists sample_slurm|by apply Hw].
Defined.

(** Flags that need each other are refused. *)
Example inconsistent_flags_refused :
  init connects connects no_float
    {["qos_management"%string := JObj [("apply_limits_to_qos"%string, JBool true)]]} sample_components
  = Err (BackendError "qos_management.apply_limits_to_qos requires qos_management.enabled").
Proof. vm_compute. reflexivity. Qed.

Definition prepaid_resource : WaldurResource :=
  {| res_uuid := "resource-1"; res_name := "Allocation"; res_slug := "alloc";
     res_backend_id := "alloc-1"; res_state := ResourceState.OK;
     res_project_uuid := "project-1"; res_project_slug := "proj"; res_plan_uuid := "";
     res_offering_uuid := "offering"; res_restrict_member_access := false;
     res_paused := false; res_downscaled := false;
     res_limits := Some {["cpu"%string := 10; "gres/gpu"%string := 2]};
     res_backend_metadata := Unset; res_spending_limits := Unset; res_plugin_options := ∅;
     res_project_name := Val "Project"%string; res_customer_slug := Val "cust"%string;
     res_customer_name := Val "Customer"%string;
     res_created := Val {| d_year := 2024; d_month := 1; d_day := 31 |};
     res_end_date := Val {| d_year := 2024; d_month := 7; d_day := 30 |};
     res_attributes := None |}.

Definition sample_known : list string := ["cpu"; "mem"; "gres/gpu"].

Definition exactb (x : pynum) : bool :=
  match x with
  | PyInt z => Z.abs z <? 2 ^ 53
  | PyFloat f => denotesb f (num_value x) && (Z.abs (num_value x) <? 2 ^ 53)
  end.

Lemma exactb_ok x : exactb x = true → exact x.
Proof.
  destruct x as [z|f]; unfold exactb, exact, small.
  - intros H. split; [done|]. apply Z.ltb_lt in H. exact H.
  - intros [Hd Hs]%andb_prop. split; [by apply denotesb_ok|]. by apply Z.ltb_lt.
Qed.

Definition saneb (r : WaldurResource) (c : string * slurm_component) : bool :=
  let smallb z := Z.abs z <? 2 ^ 53 in
  exactb (factor_or_one c.2) &&
  (match sc_unit_factor c.2 with Some _ => true | None => false end) &&
  (match sc_limit c.2 with Some x => exactb x | None => true end) &&
  (match unscaled r c.1 c.2 with
   | Some z => smallb z && smallb (z * num_value (factor_or_one c.2)) | None => true end) &&
  (match limit_of r c.1 c.2 with Some z => smallb z | None => true end).

Lemma saneb_ok r c : saneb r c = true → sane r c.
Proof.
  unfold saneb. rewrite !andb_true_iff. intros ((((Hf & Hset) & Hl) & Ha) & Hb).
  split; [by apply exactb_ok|by destruct (sc_unit_factor c.2)|..].
  - intros x Hx. rewrite Hx in Hl. by apply exactb_ok.
  - intros z Hz. rewrite Hz in Ha. apply andb_prop in Ha as [?%Z.ltb_lt ?%Z.ltb_lt]. by split.
  - intros z Hz. rewrite Hz in Hb. by apply Z.ltb_lt.
Qed.

Lemma allocation_budgeted_witness :
  ∃ d backend_limits shown, allocation_limits sample_slurm prepaid_resource = Ok d ∧
    collected_limits sample_slurm prepaid_resource d sample_known = Ok (backend_limits, shown) ∧
    backend_limits !! "cpu"%string = Some 600000 ∧ backend_limits !! "gres/gpu"%string = Some 720 ∧
    backend_limits !! "mem"%string = Some 491520 ∧ backend_limits !! "node"%string = None.
Proof.
  destruct (allocation_budgeted sample_slurm prepaid_resource sample_known)
    as [(d & bl & shown & Hd & Hc & Hb) _].
  - apply (bool_decide_unpack _). vm_compute. reflexivity.
  - intros c Hc. apply saneb_ok.
    assert (Hall : forallb (saneb prepaid_resource) (sb_components sample_slurm) = true)
      by (vm_compute; reflexivity).
    apply (proj1 (List.forallb_forall _ _) Hall). by apply list_elem_of_In.
  - vm_compute. reflexivity.
  - vm_compute. reflexivity.
  - exists d, bl, shown. split; [exact Hd|]. split; [exact Hc|]. rewrite !Hb. vm_compute. done.
Defined.

(** In mapping mode a prepaid limit is not multiplied when its target has another name. *)
Definition mapped_slurm : slurm_backend :=
  match init connects connects no_float sample_settings
    [("node_hours"%string, {| sc_accounting_type := "one"; sc_unit_factor := None; sc_limit := None;
       sc_target_components := JObj [("cpu"%string, JObj [("factor"%string, JInt 64)])] |})] with
  | Ok b => b | Err _ => sample_slurm end.

Definition with_node_hours : WaldurResource :=
  with_limits prepaid_resource (Some {["node_hours"%string := 10]}).

Example mapped_prepaid_not_multiplied :
  allocation_limits mapped_slurm with_node_hours = Ok [("cpu"%string, PyInt 640)] ∧
  months_paid with_node_hours = 6.
Proof. split; vm_compute; reflexivity. Qed.

Definition sample_tres : list (string * json) := map (λ c, (c.1, JObj [])) sample_components.

Definition sample_lines : list slurm_line :=
  map (λ line, new_line line sample_tres)
    ["alloc-1|cpu=4,mem=8G|01:00:00|alice"; "alloc-1|cpu=2|00:30:00|bob";
     "alloc-2|cpu=1|00:10:00|alice"; "alloc-1|cpu=1,gres/gpu=2|2-00:00:00|alice"].

Definition parsesb (line : slurm_line) : bool :=
  match account line, user line, tres_usage line with Ok _, Ok _, Ok _ => true | _, _, _ => false end.

Lemma parsesb_ok line : parsesb line = true → parses line.
Proof.
  unfold parsesb, parses. destruct (account line) as [a|], (user line) as [u|], (tres_usage line) as [t|];
    try done. eauto 10.
Qed.

Definition integralb_line (line : slurm_line) : bool :=
  match tres_usage line with
  | Ok t => forallb (λ x, denotesb x.2 (num_value (PyFloat x.2))) t
  | Err _ => true
  end.

Lemma integralb_line_ok line : integralb_line line = true → integral_line line.
Proof.
  unfold integralb_line. intros H t x Ht Hx. rewrite Ht in H.
  apply denotesb_ok, (proj1 (List.forallb_forall _ _) H). by apply list_elem_of_In.
Qed.

Lemma usage_counted_once_witness :
  ∃ report entries, report_of sample_lines = Ok report ∧
    dict_get report "alloc-1"%string = Some entries ∧ account_sums sample_lines "alloc-1" entries ∧
    dict_keys entries = ["alice"; "bob"; "TOTAL_ACCOUNT_USAGE"]%string ∧
    total (account_contributions "alloc-1" sample_lines) "cpu" = 3180.
Proof.
  destruct (usage_counted_once sample_lines) as (report & Hr & Ha).
  - intros line Hl. apply parsesb_ok.
    assert (Hall : forallb parsesb sample_lines = true) by (vm_compute; reflexivity).
    apply (proj1 (List.forallb_forall _ _) Hall). by apply list_elem_of_In.
  - intros a line Hl. unfold of_user.
    assert (Hall : forallb (λ l, match user l with
      | Ok u => negb (String.eqb u "TOTAL_ACCOUNT_USAGE") | Err _ => true end) sample_lines = true)
      by (vm_compute; reflexivity).
    apply list_elem_of_In, (proj1 (List.forallb_forall _ _) Hall) in Hl.
    destruct (user line) as [u|]; [|by rewrite andb_false_r].
    rewrite bool_decide_eq_false_2; [by rewrite andb_false_r|]. intros ->. by vm_compute in Hl.
  - assert (Hc : ∃ entries, dict_get (match report_of sample_lines with Ok r => r | Err _ => [] end)
      "alloc-1"%string = Some entries ∧ dict_keys entries = ["alice"; "bob"; "TOTAL_ACCOUNT_USAGE"]%string)
      by (eexists; split; [vm_compute; reflexivity|vm_compute; reflexivity]).
    destruct Hc as (entries & He & Hk). rewrite Hr in He.
    exists report, entries. split; [exact Hr|]. split; [exact He|]. split; [by apply Ha|].
    split; [exact Hk|vm_compute; reflexivity].
Defined.

Example sample_lines_integral : forallb integralb_line sample_lines = true.
Proof. vm_compute. reflexivity. Qed.
