(* ===== verification/LdapClient.v ===== *)
(** * The LDAP client

    [plugins/ldap-client/waldur_site_agent_ldap_client/client.py]: POSIX users and groups
    in a directory, over the operations of an ldap3 connection. *)

From stdpp Require Import base list strings gmap sets sorting pretty.
From Stdlib Require Import ZArith Lia Ascii.
From S2P Require Import Prelude.
From S2P Require Import Texts.
From S2P Require Import Structures.
From S2P Require Import FloatInts.
From S2P Require Import OfferingUsers.

Local Open Scope prog_scope.
Local Open Scope Z_scope.

(** ** The connection *)

(** Attributes of an entry, a list of values each. *)
Definition attributes : Type := list (string * list json).

Inductive scope : Type := SUBTREE | BASE.

Inductive change : Type :=
| MODIFY_ADD (values : list json)
| MODIFY_DELETE (values : list json)
| MODIFY_REPLACE (values : list json).

Abbreviation changes := (list (string * list change)).

(** What an operation leaves: its truth value and [conn.result\["description"\]]. *)
Record ldap_result : Type := { lr_success : bool; lr_description : string }.

(** What the client asks of ldap3; [LDAPException] is among the answers. *)
Inductive directoryE : Type → Type :=
| Connect : directoryE unit
(* the attributes of [conn.entries] *)
| Search (search_base search_filter : string) (search_scope : scope) (names : list string)
    : directoryE (list attributes)
(* the description of the result, and the entries with their DNs *)
| PagedSearch (search_base search_filter : string) (names : list string)
    : directoryE (string * list (string * attributes))
| Add (dn : string) (values : list (string * json)) : directoryE ldap_result
| Modify (dn : string) (change_list : changes) : directoryE ldap_result
| ModifyDn (dn new_rdn : string) : directoryE ldap_result
| Delete (dn : string) : directoryE ldap_result
| Unbind : directoryE unit.

(** The client has no state of its own. *)
Abbreviation ldap_m := (M directoryE unit).

(** ** Settings *)

(** The settings, as their schema types them. *)
Record ldap_settings : Type := {
  ls_base_dn : string;
  ls_people_ou : option string;
  ls_groups_ou : option string;
  ls_uid_range_start : option Z;
  ls_uid_range_end : option Z;
  ls_gid_range_start : option Z;
  ls_gid_range_end : option Z;
  ls_default_login_shell : option string;
  ls_default_home_base : option string;
  ls_user_object_classes : option (list string);
  ls_user_group_object_classes : option (list string);
  ls_project_group_object_classes : option (list string);
  ls_personal_groups : option bool;
  ls_waldur_username_attribute : option string;
  ls_empty_group_member_dn : option string;
}.

Record ldap_config : Type := {
  base_dn : string;
  people_ou : string;
  groups_ou : string;
  uid_range_start : Z;
  uid_range_end : Z;
  gid_range_start : Z;
  gid_range_end : Z;
  default_login_shell : string;
  default_home_base : string;
  user_object_classes : list string;
  user_group_object_classes : list string;
  project_group_object_classes : list string;
  personal_groups : bool;
  waldur_username_attribute : string;
  empty_group_member_dn : string;
}.

Definition DISABLED_MARKER : string := "waldur-site-agent:disabled".
Definition NOLOGIN_SHELL : string := "/usr/sbin/nologin".

(** ** Names *)

(** [_unescape_dn_value], on the bytes of the text. *)
Definition hex_value (c : ascii) : option nat :=
  let n := nat_of_ascii c in
  if (48 <=? n)%nat && (n <=? 57)%nat then Some (n - 48)%nat
  else if (97 <=? n)%nat && (n <=? 102)%nat then Some (n - 87)%nat
  else if (65 <=? n)%nat && (n <=? 70)%nat then Some (n - 55)%nat
  else None.

Definition hex_pair (c d : ascii) : option ascii :=
  match hex_value c, hex_value d with
  | Some h, Some l => Some (ascii_of_nat (16 * h + l))
  | _, _ => None
  end.

Definition BACKSLASH : ascii := "\".

Fixpoint unescape_dn_value (value : string) : string :=
  match value with
  | String c rest =>
      if Ascii.eqb c BACKSLASH then
        match rest with
        | String d ((String e rest2) as rest1) =>
            match hex_pair d e with
            | Some byte => String byte (unescape_dn_value rest2)
            | None => String d (unescape_dn_value rest1)
            end
        | String d EmptyString => String d EmptyString
        | EmptyString => String c EmptyString
        end
      else String c (unescape_dn_value rest)
  | EmptyString => EmptyString
  end.

(** The type and the value of the components of a DN, as [ldap3.utils.dn.parse_dn] gives
    them with or without [strip], [None] when it cannot be parsed; and ldap3's escapes. *)
Section Client.
Context (parse_dn : bool → string → option (list (string * string))).
Context (escape_rdn escape_filter_chars : string → string) (text : json → string).

(** [_extract_uid_from_dn], [uid_from_dn] *)
Definition extract_uid_from_dn (dn : string) : string :=
  match parse_dn false dn with
  | Some ((attribute, value) :: _) =>
      if String.eqb (str_lower (strip attribute)) "uid" then unescape_dn_value value else ""
  | _ => ""
  end.

(** [normalize_dn], with [parse_dn(dn, strip=True)] *)
Definition normalize_dn (dn : string) : string :=
  match parse_dn true dn with
  | None => str_lower (strip dn)
  | Some components =>
      String.concat "," (map (λ c, str_lower (strip c.1) +:+ "=" +:+
                                   str_lower (strip (unescape_dn_value c.2))) components)
  end.

(** [__init__] *)
Definition init (s : ldap_settings) : res ldap_config :=
  let nobody := "cn=nobody," +:+ ls_base_dn s in
  let stand_in := match ls_empty_group_member_dn s with
                  | Some dn => if nonempty dn then dn else nobody
                  | None => nobody
                  end in
  if nonempty (extract_uid_from_dn stand_in)
  then Err (BackendError ("empty_group_member_dn " +:+ stand_in +:+ " must not be a uid= DN"))
  else Ok
    {| base_dn := ls_base_dn s;
       people_ou := default "ou=People" (ls_people_ou s);
       groups_ou := default "ou=Groups" (ls_groups_ou s);
       uid_range_start := default 10000 (ls_uid_range_start s);
       uid_range_end := default 65000 (ls_uid_range_end s);
       gid_range_start := default 10000 (ls_gid_range_start s);
       gid_range_end := default 65000 (ls_gid_range_end s);
       default_login_shell := default "/bin/bash" (ls_default_login_shell s);
       default_home_base := default "/home" (ls_default_home_base s);
       user_object_classes :=
         default ["inetOrgPerson"; "organizationalPerson"; "person"; "posixAccount"; "top"]
           (ls_user_object_classes s);
       user_group_object_classes :=
         default ["groupOfNames"; "nsMemberOf"; "organizationalUnit"; "posixGroup"; "top"]
           (ls_user_group_object_classes s);
       project_group_object_classes := default ["posixGroup"; "top"] (ls_project_group_object_classes s);
       personal_groups := default true (ls_personal_groups s);
       waldur_username_attribute := default "" (ls_waldur_username_attribute s);
       empty_group_member_dn := stand_in |}.

Context (cfg : ldap_config).

(** [_people_dn], [_groups_dn], [_user_dn], [_group_dn], [dn_under] *)
Definition people_dn : string := people_ou cfg +:+ "," +:+ base_dn cfg.
Definition groups_dn : string := groups_ou cfg +:+ "," +:+ base_dn cfg.
Definition user_dn (username : string) : string :=
  "uid=" +:+ escape_rdn username +:+ "," +:+ people_dn.
Definition group_dn (group_name : string) : string :=
  "cn=" +:+ escape_rdn group_name +:+ "," +:+ groups_dn.
Definition dn_under (rdn_value ou rdn_attribute : string) : string :=
  rdn_attribute +:+ "=" +:+ escape_rdn rdn_value +:+ "," +:+ ou +:+ "," +:+ base_dn cfg.

Definition equals (attribute value : string) : string := "(" +:+ attribute +:+ "=" +:+ value +:+ ")".
Definition filter_is (attribute value : string) : string := equals attribute (escape_filter_chars value).

(** ** Connections *)

(** [_connect] *)
Definition connect : ldap_m unit :=
  let! connected := attempt (call Connect) in
  match connected with
  | Err (LDAPException text) => raise (BackendError ("Failed to connect to LDAP server: " +:+ text))
  | Err e => raise e
  | Ok _ => ret ()
  end.

(** [conn = self._connect(); try: m except ...: handle finally: conn.unbind()] *)
Definition session {A} (handle : res A → ldap_m A) (m : ldap_m A) : ldap_m A :=
  connect ;!
  let! outcome := attempt (let! outcome := attempt m in handle outcome) in
  call Unbind ;!
  of_res outcome.

(** [except LDAPException] *)
Definition with_connection_or {A} (failed : string → ldap_m A) : ldap_m A → ldap_m A :=
  session (λ outcome, match outcome with
                      | Err (LDAPException text) => failed text
                      | outcome => of_res outcome
                      end).

(** An [LDAPException] raises a backend error that says what failed. *)
Definition with_connection {A} (what : string) : ldap_m A → ldap_m A :=
  with_connection_or (λ text, raise (BackendError (what +:+ ": " +:+ text))).

(** [_search_all] *)
Definition search_all (search_base search_filter : string) (names : list string)
  : ldap_m (list (string * attributes)) :=
  let! found := call (PagedSearch search_base search_filter names) in
  if String.eqb found.1 "noSuchObject"
  then raise (ContainerMissingError (search_base +:+ " does not exist"))
  else if negb (String.eqb found.1 "success")
  then raise (BackendError ("Search under " +:+ search_base +:+ " did not complete (" +:+ found.1 +:+ ")"))
  else ret found.2.

(** An operation that must succeed; [kinds] says what its failures are. *)
Definition must_succeed (msg : string) (kinds : string → string → exn) (c : directoryE ldap_result)
  : ldap_m unit :=
  let! result := call c in
  if lr_success result then ret () else raise (kinds (lr_description result) msg).

Definition any_failure (description msg : string) : exn := BackendError msg.
Definition add_failure (description msg : string) : exn :=
  if String.eqb description "entryAlreadyExists" then EntryExistsError msg else BackendError msg.
Definition rename_failure (description msg : string) : exn :=
  if String.eqb description "noSuchObject" then EntryMissingError msg
  else if String.eqb description "entryAlreadyExists" then EntryExistsError msg
  else BackendError msg.
Definition modify_failure (description msg : string) : exn :=
  if bool_decide (description ∈ ["attributeOrValueExists"; "noSuchAttribute"]%string)
  then ValueConflictError msg else BackendError msg.

Definition ping : ldap_m bool :=
  let! reached := attempt (connect ;! call Unbind) in
  match reached with
  | Ok _ => ret true
  | Err e => if is_backend_error e then ret false else raise e
  end.

(** ** Searches *)

(** [_first] of an attribute that may not be there. *)
Definition first_value (entry : attributes) (name : string) : option json :=
  match dict_get entry name with Some (v :: _) => Some v | _ => None end.

Definition USER_ATTRIBUTES : list string :=
  ["uid"; "uidNumber"; "gidNumber"; "cn"; "mail"; "homeDirectory"; "loginShell"; "givenName"; "sn";
   "description"; "shadowExpire"; "objectClass"].

Definition user_attributes : list string :=
  let key := waldur_username_attribute cfg in
  if nonempty key && negb (bool_decide (key ∈ USER_ATTRIBUTES)) then USER_ATTRIBUTES ++ [key]
  else USER_ATTRIBUTES.

(** The first entry of the people that a filter finds. *)
Definition search_person (what search_filter : string) : ldap_m (option attributes) :=
  with_connection what (
    let! entries := call (Search people_dn search_filter SUBTREE user_attributes) in ret (head entries)).

Definition search_user (username : string) : ldap_m (option attributes) :=
  search_person "LDAP search for user failed" (filter_is "uid" username).
Definition search_user_by_email (email : string) : ldap_m (option attributes) :=
  search_person "LDAP search by email failed" (filter_is "mail" email).
Definition search_user_by_uid_number (uid_number : Z) : ldap_m (option attributes) :=
  search_person "LDAP search for uidNumber failed" (filter_is "uidNumber" (pretty uid_number)).

Definition user_exists (username : string) : ldap_m bool :=
  let! user := search_user username in ret (bool_decide (user ≠ None)).

(** The groups a filter finds, with one attribute. *)
Definition search_groups (what search_filter attribute : string) : ldap_m (list attributes) :=
  with_connection what (call (Search groups_dn search_filter SUBTREE [attribute])).

Definition group_exists (group_name : string) : ldap_m bool :=
  let! entries := search_groups "LDAP search for group failed" (filter_is "cn" group_name) "cn" in
  ret (match entries with [] => false | _ => true end).

(** A plain groupOfNames has no gidNumber. *)
Definition gid_of (entries : list attributes) : res (option Z) :=
  match entries with
  | [] => Ok None
  | entry :: _ => match first_value entry "gidNumber" with
                  | None => Ok None
                  | Some gid => let? gid := int_of_json gid in Ok (Some gid)
                  end
  end.

Definition get_group_gid (group_name : string) : ldap_m (option Z) :=
  with_connection "Failed to get GID for group" (
    let! entries := call (Search groups_dn (filter_is "cn" group_name) SUBTREE ["gidNumber"]) in
    of_res (gid_of entries)).

(** Everything a bulk search finds, folded into a result. *)
Definition bulk_read {A} (what search_base search_filter : string) (names : list string)
    (read : A → string * attributes → res A) (init : A) : ldap_m A :=
  with_connection what (
    let! entries := search_all search_base search_filter names in of_res (rfold read entries init)).

Definition any_value (attribute : string) : string := equals attribute "*".

Definition list_users : ldap_m (list (string * attributes)) :=
  bulk_read "Failed to list LDAP users" people_dn (any_value "uid") user_attributes
    (λ users entry, match first_value entry.2 "uid" with
                    | Some uid => Ok (if truthy uid then dict_set users (text uid) entry.2 else users)
                    | None => Ok users
                    end) [].

Definition list_groups : ldap_m (list (string * Z)) :=
  bulk_read "Failed to list LDAP groups" groups_dn (any_value "cn") ["cn"; "gidNumber"]
    (λ groups entry, match first_value entry.2 "cn", first_value entry.2 "gidNumber" with
                     | Some cn, Some gid => let? gid := int_of_json gid in Ok (dict_set groups (text cn) gid)
                     | _, _ => Ok groups
                     end) [].

(** The names of the groups that a bulk search finds. *)
Definition add_name (names : list string) (entry : string * attributes) : res (list string) :=
  match first_value entry.2 "cn" with
  | Some cn => Ok (if truthy cn then names ++ [text cn] else names)
  | None => Ok names
  end.

Definition read_entry (dn : string) (names : list string) : ldap_m (option attributes) :=
  with_connection "Failed to read LDAP entry" (
    let! entries := call (Search dn (any_value "objectClass") BASE names) in ret (head entries)).

Definition list_entries (ou search_filter : string) (names : list string)
  : ldap_m (list (string * attributes)) :=
  bulk_read "Failed to list entries"
    (if nonempty ou then ou +:+ "," +:+ base_dn cfg else base_dn cfg) search_filter names
    (λ entries entry, Ok (dict_set entries entry.1 entry.2)) [].

(** Every gidNumber anywhere in the directory, with the DNs holding it. *)
Definition gid_holders : ldap_m (list (Z * list string)) :=
  bulk_read "Failed to enumerate gidNumber values" (base_dn cfg) (any_value "gidNumber") ["gidNumber"]
    (λ holders entry, match first_value entry.2 "gidNumber" with
                      | Some gid => let? gid := int_of_json gid in
                                    Ok (dict_set holders gid (default [] (dict_get holders gid) ++ [entry.1]))
                      | None => Ok holders
                      end) [].

(** ** Allocating ids *)

Definition add_ids (attribute : string) (used : gset Z) (entry : string * attributes) : res (gset Z) :=
  rfold (λ used v, let? id := int_of_json v in Ok ({[id]} ∪ used))
    (default [] (dict_get entry.2 attribute)) used.

Definition get_used_ids (attribute search_base : string) : ldap_m (gset Z) :=
  bulk_read "Failed to enumerate values" search_base (any_value attribute) [attribute]
    (add_ids attribute) ∅.

(** The first id of a range that is not used. *)
Definition next_id (first last : Z) (used : gset Z) : option Z :=
  List.find (λ id, bool_decide (id ∉ used)) (seqZ first (last - first + 1)).

Definition get_next_uid : ldap_m Z :=
  let! used_uids := get_used_ids "uidNumber" people_dn in
  match next_id (uid_range_start cfg) (uid_range_end cfg) used_uids with
  | Some uid => ret uid
  | None => raise (BackendError "No available UIDs in range")
  end.

Definition get_next_gid : ldap_m Z :=
  let! used_gids := get_used_ids "gidNumber" groups_dn in
  match next_id (gid_range_start cfg) (gid_range_end cfg) used_gids with
  | Some gid => ret gid
  | None => raise (BackendError "No available GIDs in range")
  end.

(** ** Groups *)

Definition strings (l : list string) : json := JArr (map JStr l).

(** [dict.update] *)
Definition with_all (d : list (string * json)) (more : list (string * json)) : list (string * json) :=
  fold_left (λ d x, dict_set d x.1 x.2) more d.

Definition lowered (classes : list string) : list string := map str_lower classes.

(** [_create_group_entry] *)
Definition group_attributes (group_name : string) (gid_number : option Z) (classes : list string)
    (extra : list (string * json)) (member_dn : option string) : list (string * json) :=
  let base := [("objectClass"%string, strings classes); ("cn"%string, JStr group_name)] ++
              match gid_number with Some gid => [("gidNumber"%string, JInt gid)] | None => [] end in
  let d := with_all base extra in
  match member_dn with
  | Some dn => if nonempty dn && bool_decide ("groupofnames"%string ∈ lowered classes)
               then dict_set d "member" (JStr dn) else d
  | None => d
  end.

Definition create_group_entry (group_name : string) (gid_number : option Z) (classes : list string)
    (extra : list (string * json)) (member_dn : option string) : ldap_m unit :=
  with_connection "Failed to create LDAP group" (
    must_succeed "Failed to create LDAP group" add_failure
      (Add (group_dn group_name) (group_attributes group_name gid_number classes extra member_dn))).

Inductive group_state : Type := Skipped | Created | Exists | Conflict.

Definition held_by (gid : option Z) (gid_number : Z) : group_state :=
  if bool_decide (gid = Some gid_number) then Exists else Conflict.

Definition ensure_group (group_name : string) (gid_number : Z) (classes : list string)
    (extra : list (string * json)) (member_dn : option string) : ldap_m group_state :=
  let! there := group_exists group_name in
  let! existing_gid := if there : bool then get_group_gid group_name else ret None in
  match existing_gid with
  | Some gid => ret (held_by (Some gid) gid_number)
  | None =>
      let! created :=
        attempt (create_group_entry group_name (Some gid_number) classes extra member_dn) in
      match created with
      | Ok _ => ret Created
      | Err (EntryExistsError _) =>
          let! existing_gid := get_group_gid group_name in ret (held_by existing_gid gid_number)
      | Err e => raise e
      end
  end.

Definition set_group_gid (group_name : string) (gid_number : Z) : ldap_m unit :=
  with_connection "Failed to set gidNumber" (
    must_succeed "Failed to set gidNumber" any_failure
      (Modify (group_dn group_name) [("gidNumber"%string, [MODIFY_REPLACE [JInt gid_number]])])).

Definition create_project_group (group_name : string) (extra : list (string * json))
  : ldap_m (option Z) :=
  let! there := group_exists group_name in
  if there : bool then get_group_gid group_name
  else
    let classes := project_group_object_classes cfg in
    let! gid_number := if bool_decide ("posixgroup"%string ∈ lowered classes)
                       then let! gid := get_next_gid in ret (Some gid)
                       else ret None in
    create_group_entry group_name gid_number classes extra (Some (empty_group_member_dn cfg)) ;!
    ret gid_number.

(** The result of a deletion is not looked at. *)
Definition delete_group (group_name : string) : ldap_m unit :=
  with_connection "Failed to delete LDAP group" (call (Delete (group_dn group_name)) ;! ret ()).

(** [_groups_container_exists]; nothing is left of a failure. *)
Definition groups_container_exists : ldap_m bool :=
  with_connection_or (λ _, ret false) (
    let! entries := call (Search groups_dn (any_value "objectClass") SUBTREE ["cn"]) in
    ret (match entries with [] => false | _ => true end)).

(** ** Users *)

Definition or_else (s default : string) : string := if nonempty s then s else default.

(** The attributes of a new account; later ones replace earlier ones of the same name. *)
Definition account_attributes (username first_name last_name email : string) (uid_number gid_number : Z)
    (home_directory login_shell : string) (password : option string) (extra : list (string * json))
  : list (string * json) :=
  with_all
    ([("objectClass"%string, strings (user_object_classes cfg)); ("uid"%string, JStr username);
      ("cn"%string, JStr (or_else (strip (first_name +:+ " " +:+ last_name)) username));
      ("givenName"%string, JStr (or_else first_name username));
      ("sn"%string, JStr (or_else last_name username));
      ("uidNumber"%string, JInt uid_number); ("gidNumber"%string, JInt gid_number);
      ("homeDirectory"%string, JStr home_directory); ("loginShell"%string, JStr login_shell);
      ("mail"%string, JStr email)] ++
     match password with
     | Some p => if nonempty p then [("userPassword"%string, JStr p)] else []
     | None => []
     end) extra.

Definition create_user (username first_name last_name email : string) (password : option string)
    (extra : list (string * json)) : ldap_m Z :=
  let! there := user_exists username in
  if there : bool then raise (BackendError ("User " +:+ username +:+ " already exists in LDAP"))
  else
    let! uid_number := get_next_uid in
    let! gid_number := get_next_gid in
    create_group_entry username (Some gid_number) (user_group_object_classes cfg)
      [("memberUid"%string, JStr username)] (Some (user_dn username)) ;!
    with_connection "Failed to create LDAP user" (
      must_succeed "Failed to create LDAP user" any_failure
        (Add (user_dn username)
           (account_attributes username first_name last_name email uid_number gid_number
              (default_home_base cfg +:+ "/" +:+ username) (default_login_shell cfg) password extra)) ;!
      ret uid_number).

(** [_add_user_entry] *)
Definition add_user_entry (username : string) (values : list (string * json)) : ldap_m unit :=
  with_connection "Failed to create LDAP user" (
    must_succeed "Failed to create LDAP user" add_failure (Add (user_dn username) values)).

(** [_rollback_group] *)
Definition rollback_group (group_name : string) : ldap_m unit :=
  let! gone := attempt (delete_group group_name) in
  match gone with
  | Err e => if is_backend_error e then ret () else raise e
  | Ok _ => ret ()
  end.

Definition create_user_with_ids (username first_name last_name email : string)
    (uid_number gid_number : Z) (home_directory login_shell : string) (password : option string)
    (extra : list (string * json)) : ldap_m unit :=
  let! state :=
    if personal_groups cfg then
      ensure_group username gid_number (user_group_object_classes cfg)
        [("memberUid"%string, JStr username)] (Some (user_dn username))
    else ret Skipped in
  match state with
  | Conflict => raise (BackendError ("LDAP group " +:+ username +:+ " exists with a different gidNumber"))
  | _ =>
      let! added := attempt (add_user_entry username
        (account_attributes username first_name last_name email uid_number gid_number home_directory
           login_shell password extra)) in
      match added with
      | Ok _ => ret ()
      | Err (EntryExistsError msg) => raise (EntryExistsError msg)
      | Err e =>
          (if is_backend_error e then
             match state with Created => rollback_group username | _ => ret () end
           else ret ()) ;!
          raise e
      end
  end.

Definition update_user_attributes (username : string) (values : list (string * json)) : ldap_m unit :=
  with_connection "Failed to update LDAP user" (
    match List.filter (λ x, match x.2 with JNull => false | _ => true end) values with
    | [] => ret ()
    | given => must_succeed "Failed to update LDAP user" any_failure
                 (Modify (user_dn username) (map (λ x, (x.1, [MODIFY_REPLACE [x.2]])) given))
    end).

Definition set_user_posix_attributes (username : string) (uid_number gid_number : option Z)
    (home_directory login_shell : option string) : ldap_m unit :=
  let given {V} name (as_json : V → json) (v : option V) : list (string * json) :=
    match v with Some v => [(name, as_json v)] | None => [] end in
  match given "uidNumber"%string JInt uid_number ++ given "gidNumber"%string JInt gid_number ++
        given "homeDirectory"%string JStr home_directory ++ given "loginShell"%string JStr login_shell with
  | [] => ret ()
  | values => update_user_attributes username values
  end.

Definition delete_user (username : string) : ldap_m unit :=
  with_connection "Failed to delete LDAP user" (
    call (Delete (user_dn username)) ;!
    if negb (personal_groups cfg) then ret ()
    else call (Delete (group_dn username)) ;! ret ()).

(** [_rename_entry] *)
Definition rename_entry (dn new_rdn : string) : ldap_m unit :=
  with_connection "Failed to rename LDAP entry" (
    must_succeed "Failed to rename LDAP entry" rename_failure (ModifyDn dn new_rdn)).

Definition rename_user (old_username new_username : string) : ldap_m unit :=
  rename_entry (user_dn old_username) ("uid=" +:+ escape_rdn new_username).
Definition rename_group (old_name new_name : string) : ldap_m unit :=
  rename_entry (group_dn old_name) ("cn=" +:+ escape_rdn new_name).

Definition add_entry (dn : string) (values : list (string * json)) : ldap_m unit :=
  with_connection "Failed to create LDAP entry" (
    must_succeed "Failed to create LDAP entry" add_failure (Add dn values)).

Definition modify_entry (dn : string) (change_list : changes) : ldap_m unit :=
  with_connection "Failed to modify LDAP entry" (
    must_succeed "Failed to modify LDAP entry" modify_failure (Modify dn change_list)).

(** [contextlib.suppress(ValueConflictError)] *)
Definition unless_conflicting (m : ldap_m unit) : ldap_m unit :=
  let! done := attempt m in
  match done with
  | Err (ValueConflictError _) => ret ()
  | done => of_res done
  end.

Definition add_user_attribute_value (username attribute value : string) : ldap_m unit :=
  unless_conflicting (modify_entry (user_dn username) [(attribute, [MODIFY_ADD [JStr value]])]).
Definition remove_user_attribute_value (username attribute value : string) : ldap_m unit :=
  unless_conflicting (modify_entry (user_dn username) [(attribute, [MODIFY_DELETE [JStr value]])]).

(** ** Parking accounts *)

(** The values of an attribute, as texts. *)
Definition texts_of (entry : attributes) (name : string) : list string :=
  map text (default [] (dict_get entry name)).

Definition disabling (entry : attributes) (login_shell : string) : changes :=
  [("loginShell"%string, [MODIFY_REPLACE [JStr login_shell]]);
   ("shadowExpire"%string, [MODIFY_REPLACE [JStr "1"]])] ++
  (if bool_decide ("shadowAccount"%string ∈ texts_of entry "objectClass") then []
   else [("objectClass"%string, [MODIFY_ADD [JStr "shadowAccount"]])]) ++
  (if bool_decide (DISABLED_MARKER ∈ texts_of entry "description") then []
   else [("description"%string, [MODIFY_ADD [JStr DISABLED_MARKER]])]).

Definition enabling (entry : attributes) (login_shell : string) : changes :=
  [("loginShell"%string, [MODIFY_REPLACE [JStr login_shell]])] ++
  (match dict_get entry "shadowExpire" with
   | Some (_ :: _) => [("shadowExpire"%string, [MODIFY_DELETE []])]
   | _ => []
   end) ++
  (if bool_decide (DISABLED_MARKER ∈ texts_of entry "description")
   then [("description"%string, [MODIFY_DELETE [JStr DISABLED_MARKER]])] else []).

(** What [disable_user] and [enable_user] share: read the entry, then one modify. *)
Definition change_user (what username : string) (wanted : attributes → changes) : ldap_m unit :=
  let! entry := search_user username in
  match entry with
  | None => raise (BackendError (what +:+ ": entry not found"))
  | Some entry =>
      with_connection what (must_succeed what any_failure (Modify (user_dn username) (wanted entry)))
  end.

Definition disable_user (username login_shell : string) : ldap_m unit :=
  change_user "Failed to disable LDAP user" username (λ entry, disabling entry login_shell).
Definition enable_user (username login_shell : string) : ldap_m unit :=
  change_user "Failed to enable LDAP user" username (λ entry, enabling entry login_shell).

Definition is_disabled_by_agent (entry : option attributes) : bool :=
  match entry with
  | Some entry => bool_decide (DISABLED_MARKER ∈ texts_of entry "description")
  | None => false
  end.

(** ** Members of groups *)

(** By name ([memberUid]) or by DN ([member]). *)
Definition member_value (membership_type username : string) : string :=
  if String.eqb membership_type "member" then user_dn username else username.

(** Both styles are swept. *)
Definition groups_listing (username membership_type : string) : ldap_m (list (string * string)) :=
  let! entries := search_all groups_dn
    (filter_is membership_type
       (if String.eqb membership_type "member" then user_dn username else username)) ["cn"] in
  let! names := of_res (rfold add_name entries []) in
  ret (map (λ name, (name, membership_type)) names).

Definition find_group_memberships (username : string) : ldap_m (list (string * string)) :=
  session
    (λ outcome, match outcome with
                | Err (ContainerMissingError _) => raise (BackendError "Cannot list the groups: no container")
                | Err (LDAPException text) => raise (BackendError ("Failed to list groups: " +:+ text))
                | outcome => of_res outcome
                end)
    (let! by_name := groups_listing username "memberUid" in
     let! by_dn := groups_listing username "member" in
     ret (by_name ++ by_dn)).

Definition find_groups_with_member (username : string) : ldap_m (list string) :=
  let! memberships := find_group_memberships username in
  ret (map fst (List.filter (λ x, String.eqb x.2 "memberUid") memberships)).

Definition find_groups_by_description (value : string) : ldap_m (list string) :=
  let! names := bulk_read "Failed to search groups by description" groups_dn
    (filter_is "description" value) ["cn"] add_name [] in
  ret (merge_sort str_le names).

Definition add_user_to_group (group_name username membership_type : string) : ldap_m unit :=
  with_connection "Failed to add to group" (
    let! result := call (Modify (group_dn group_name)
      [(membership_type, [MODIFY_ADD [JStr (member_value membership_type username)]])]) in
    if lr_success result || str_contains "attributeOrValueExists" (lr_description result) then ret ()
    else raise (BackendError "Failed to add to group")).

Definition tolerated (description : string) : bool :=
  str_contains "noSuchAttribute" description || str_contains "noSuchObject" description.

(** The last member of a groupOfNames is replaced by the stand-in in one modify. *)
Definition drop_member (group_name username membership_type : string) : ldap_m ldap_result :=
  let value := JStr (member_value membership_type username) in
  let! result := call (Modify (group_dn group_name) [(membership_type, [MODIFY_DELETE [value]])]) in
  if String.eqb membership_type "member" && negb (lr_success result) &&
     String.eqb (lr_description result) "objectClassViolation"
  then call (Modify (group_dn group_name)
         [("member"%string, [MODIFY_ADD [JStr (empty_group_member_dn cfg)]; MODIFY_DELETE [value]])])
  else ret result.

Definition remove_user_from_group (group_name username membership_type : string) : ldap_m unit :=
  with_connection "Failed to remove from group" (
    let! result := drop_member group_name username membership_type in
    let! container :=
      if negb (lr_success result) && str_contains "noSuchObject" (lr_description result)
      then groups_container_exists else ret true in
    if negb container then raise (BackendError "The groups container does not exist")
    else if lr_success result || tolerated (lr_description result) then ret ()
    else raise (BackendError "Failed to remove from group")).

Definition is_user_in_group (group_name username membership_type : string) : ldap_m bool :=
  let member := if String.eqb membership_type "member" then filter_is "member" (user_dn username)
                else filter_is "memberUid" username in
  let! entries := search_groups "Failed to check membership"
    ("(&" +:+ filter_is "cn" group_name +:+ member +:+ ")") "cn" in
  ret (match entries with [] => false | _ => true end).

(** Members that are no users are left out. *)
Definition members_in (membership_type : string) (values : list json) : list string :=
  let given := map text (List.filter truthy values) in
  if String.eqb membership_type "member"
  then List.filter nonempty (map extract_uid_from_dn given) else given.

Definition list_group_members (group_name membership_type : string) : ldap_m (list string) :=
  let attribute := if String.eqb membership_type "member" then "member"%string else "memberUid"%string in
  let! entries := search_groups "Failed to list members" (filter_is "cn" group_name) attribute in
  ret (match entries with
       | [] => []
       | entry :: _ => members_in membership_type (default [] (dict_get entry attribute))
       end).

Definition get_group_descriptions (group_name : string) : ldap_m (option (list string)) :=
  let! entries := search_groups "Failed to read description" (filter_is "cn" group_name) "description" in
  ret (match entries with [] => None | entry :: _ => Some (texts_of entry "description") end).

Definition add_group_description (group_name value : string) : ldap_m unit :=
  let! descriptions := get_group_descriptions group_name in
  if bool_decide (value ∈ default [] descriptions) then ret ()
  else
    with_connection "Failed to add description" (
      let! result := call (Modify (group_dn group_name) [("description"%string, [MODIFY_ADD [JStr value]])]) in
      if lr_success result || str_contains "attributeOrValueExists" (lr_description result) then ret ()
      else raise (BackendError "Failed to add description")).
End Client.

(** ** The methods, as others call them *)

Inductive ldapE : Type → Type :=
| PingDirectory : ldapE bool
| SearchUser (username : string) : ldapE (option attributes)
| SearchUserByEmail (email : string) : ldapE (option attributes)
| SearchUserByUidNumber (uid_number : Z) : ldapE (option attributes)
| UserExists (username : string) : ldapE bool
| ListUsers : ldapE (list (string * attributes))
| ListGroups : ldapE (list (string * Z))
| GroupExists (group_name : string) : ldapE bool
| GetGroupGid (group_name : string) : ldapE (option Z)
| CreateUser (username first_name last_name email : string) (password : option string)
    (extra : list (string * json)) : ldapE Z
| CreateUserWithIds (username first_name last_name email : string) (uid_number gid_number : Z)
    (home_directory login_shell : string) (password : option string) (extra : list (string * json))
    : ldapE unit
| SetUserPosixAttributes (username : string) (uid_number gid_number : option Z)
    (home_directory login_shell : option string) : ldapE unit
| DeleteUser (username : string) : ldapE unit
| RenameUser (old_username new_username : string) : ldapE unit
| RenameGroup (old_name new_name : string) : ldapE unit
| UpdateUserAttributes (username : string) (values : list (string * json)) : ldapE unit
| AddUserAttributeValue (username attribute value : string) : ldapE unit
| RemoveUserAttributeValue (username attribute value : string) : ldapE unit
| DisableUser (username login_shell : string) : ldapE unit
| EnableUser (username login_shell : string) : ldapE unit
| FindGroupMemberships (username : string) : ldapE (list (string * string))
| FindGroupsWithMember (username : string) : ldapE (list string)
| GroupsContainerExists : ldapE bool
| EnsureGroup (group_name : string) (gid_number : Z) (classes : list string)
    (extra : list (string * json)) (member_dn : option string) : ldapE group_state
| SetGroupGid (group_name : string) (gid_number : Z) : ldapE unit
| CreateProjectGroup (group_name : string) (extra : list (string * json)) : ldapE (option Z)
| DeleteGroup (group_name : string) : ldapE unit
| ReadEntry (dn : string) (names : list string) : ldapE (option attributes)
| ListEntries (ou search_filter : string) (names : list string) : ldapE (list (string * attributes))
| GidHolders : ldapE (list (Z * list string))
| AddEntry (dn : string) (values : list (string * json)) : ldapE unit
| ModifyEntry (dn : string) (change_list : changes) : ldapE unit
| AddUserToGroup (group_name username membership_type : string) : ldapE unit
| RemoveUserFromGroup (group_name username membership_type : string) : ldapE unit
| IsUserInGroup (group_name username membership_type : string) : ldapE bool
| ListGroupMembers (group_name membership_type : string) : ldapE (list string)
| GetGroupDescriptions (group_name : string) : ldapE (option (list string))
| AddGroupDescription (group_name value : string) : ldapE unit
| FindGroupsByDescription (value : string) : ldapE (list string).

(** What ldap3 does with names: [parse_dn], [escape_rdn], [escape_filter_chars]; and [str()]
    of a value. *)
Record ldap_names : Type := {
  ln_parse_dn : bool → string → option (list (string * string));
  ln_escape_rdn : string → string;
  ln_escape_filter_chars : string → string;
  ln_text : json → string;
}.

Section Methods.
Context (names : ldap_names) (cfg : ldap_config).

Local Abbreviation parse_dn := (ln_parse_dn names).
Local Abbreviation rdn := (ln_escape_rdn names).
Local Abbreviation chars := (ln_escape_filter_chars names).
Local Abbreviation text := (ln_text names).

Definition ldap_client {X} (c : ldapE X) : ldap_m X :=
  match c in ldapE X return ldap_m X with
  | PingDirectory => ping
  | SearchUser username => search_user chars cfg username
  | SearchUserByEmail email => search_user_by_email chars cfg email
  | SearchUserByUidNumber uid_number => search_user_by_uid_number chars cfg uid_number
  | UserExists username => user_exists chars cfg username
  | ListUsers => list_users text cfg
  | ListGroups => list_groups text cfg
  | GroupExists group_name => group_exists chars cfg group_name
  | GetGroupGid group_name => get_group_gid chars cfg group_name
  | CreateUser username first_name last_name email password extra =>
      create_user rdn chars cfg username first_name last_name email password extra
  | CreateUserWithIds username first_name last_name email uid_number gid_number home_directory
      login_shell password extra =>
      create_user_with_ids rdn chars cfg username first_name last_name email uid_number gid_number
        home_directory login_shell password extra
  | SetUserPosixAttributes username uid_number gid_number home_directory login_shell =>
      set_user_posix_attributes rdn cfg username uid_number gid_number home_directory login_shell
  | DeleteUser username => delete_user rdn cfg username
  | RenameUser old_username new_username => rename_user rdn cfg old_username new_username
  | RenameGroup old_name new_name => rename_group rdn cfg old_name new_name
  | UpdateUserAttributes username values => update_user_attributes rdn cfg username values
  | AddUserAttributeValue username attribute value =>
      add_user_attribute_value rdn cfg username attribute value
  | RemoveUserAttributeValue username attribute value =>
      remove_user_attribute_value rdn cfg username attribute value
  | DisableUser username login_shell => disable_user rdn chars text cfg username login_shell
  | EnableUser username login_shell => enable_user rdn chars text cfg username login_shell
  | FindGroupMemberships username => find_group_memberships rdn chars text cfg username
  | FindGroupsWithMember username => find_groups_with_member rdn chars text cfg username
  | GroupsContainerExists => groups_container_exists cfg
  | EnsureGroup group_name gid_number classes extra member_dn =>
      ensure_group rdn chars cfg group_name gid_number classes extra member_dn
  | SetGroupGid group_name gid_number => set_group_gid rdn cfg group_name gid_number
  | CreateProjectGroup group_name extra => create_project_group rdn chars cfg group_name extra
  | DeleteGroup group_name => delete_group rdn cfg group_name
  | ReadEntry dn attribute_names => read_entry dn attribute_names
  | ListEntries ou search_filter attribute_names => list_entries cfg ou search_filter attribute_names
  | GidHolders => gid_holders cfg
  | AddEntry dn values => add_entry dn values
  | ModifyEntry dn change_list => modify_entry dn change_list
  | AddUserToGroup group_name username membership_type =>
      add_user_to_group rdn cfg group_name username membership_type
  | RemoveUserFromGroup group_name username membership_type =>
      remove_user_from_group rdn cfg group_name username membership_type
  | IsUserInGroup group_name username membership_type =>
      is_user_in_group rdn chars cfg group_name username membership_type
  | ListGroupMembers group_name membership_type =>
      list_group_members parse_dn chars text cfg group_name membership_type
  | GetGroupDescriptions group_name => get_group_descriptions chars text cfg group_name
  | AddGroupDescription group_name value => add_group_description rdn chars text cfg group_name value
  | FindGroupsByDescription value => find_groups_by_description chars text cfg value
  end.
End Methods.
