(* ===== verification/LdapOperations.v ===== *)
(** * The LDAP client: properties

    What the operations of [LdapClient] do to a directory. *)

From stdpp Require Import base list strings gmap sets sorting pretty.
From Stdlib Require Import ZArith Lia Ascii.
From S2P Require Import Prelude.
From S2P Require Import Texts.
From S2P Require Import Structures.
From S2P Require Import FloatInts.
From S2P Require Import OfferingUsers.
From S2P Require Import LdapClient.

Local Open Scope prog_scope.
Local Open Scope Z_scope.

(** ** Connections are closed *)

(** The connections that are open: opened, and not unbound since. *)
Definition opened (ev : event directoryE) : Z :=
  match ev with
  | Ev Connect (Ok _) => 1
  | Ev Unbind _ => -1
  | _ => 0
  end.

Fixpoint open_connections (H : trace directoryE) : Z :=
  match H with [] => 0 | ev :: H => opened ev + open_connections H end.

(** Everything but opening a connection is done over one. *)
Definition session_guard : guard directoryE := λ X H c,
  match c with Connect => True | _ => 0 < open_connections H end.

Section Sessions.
Implicit Types (H : trace directoryE).

(** A method leaves no connection behind; a step of one needs a connection. *)
Definition balanced {A} (m : ldap_m A) : Prop := ∀ s H, 0 ≤ open_connections H →
  wpM session_guard m (λ _ _ H', open_connections H' = open_connections H) s H.

Definition over_connection {A} (m : ldap_m A) : Prop := ∀ s H, 0 < open_connections H →
  wpM session_guard m (λ _ _ H', open_connections H' = open_connections H) s H.

Lemma balanced_over {A} (m : ldap_m A) : balanced m → over_connection m.
Proof. intros Hm s H Ho. apply Hm. lia. Qed.

Lemma balanced_ret {A} (a : A) : balanced (ret a).
Proof. intros s H _. by wp_step. Qed.
Lemma balanced_raise {A} e : balanced (raise (A := A) e).
Proof. intros s H _. by wp_step. Qed.
Lemma balanced_of_res {A} (r : res A) : balanced (of_res r).
Proof. destruct r; [apply balanced_ret|apply balanced_raise]. Qed.

Lemma balanced_bind {A B} (m : ldap_m A) (f : A → ldap_m B) :
  balanced m → (∀ a, balanced (f a)) → balanced (bind m f).
Proof.
  intros Hm Hf s H Ho. wp_step. eapply wpM_mono; [by apply Hm|].
  intros [a|e] s' H' Heq; cbv beta iota in Heq |- *; [|done]. eapply wpM_mono; [apply Hf; lia|].
  intros r s2 H2 Heq2; cbv beta in *; lia.
Qed.

Lemma balanced_attempt {A} (m : ldap_m A) : balanced m → balanced (attempt m).
Proof. intros Hm s H Ho. wp_step. eapply wpM_mono; [by apply Hm|]. done. Qed.

Lemma over_bind {A B} (m : ldap_m A) (f : A → ldap_m B) :
  over_connection m → (∀ a, over_connection (f a)) → over_connection (bind m f).
Proof.
  intros Hm Hf s H Ho. wp_step. eapply wpM_mono; [by apply Hm|].
  intros [a|e] s' H' Heq; cbv beta iota in Heq |- *; [|done]. eapply wpM_mono; [apply Hf; lia|].
  intros r s2 H2 Heq2; cbv beta in *; lia.
Qed.

Lemma over_attempt {A} (m : ldap_m A) : over_connection m → over_connection (attempt m).
Proof. intros Hm s H Ho. wp_step. eapply wpM_mono; [by apply Hm|]. done. Qed.

(** An operation on the connection. *)
Definition operation {X} (c : directoryE X) : bool :=
  match c with Connect | Unbind => false | _ => true end.

Lemma over_call {X} (c : directoryE X) : operation c = true → over_connection (call c).
Proof. intros Hc s H Ho. apply wpM_call; [by destruct c|]. intros r. by destruct c. Qed.

Lemma balanced_session {A} (handle : res A → ldap_m A) m :
  over_connection m → (∀ r, over_connection (handle r)) → balanced (session handle m).
Proof.
  intros Hm Hf s H Ho. unfold session, connect. wp_steps. apply wpM_call; [done|].
  intros [[]|e]; cbv beta iota; [|by destruct e; wp_step]. wp_step. wp_step. wp_step.
  set (H1 := Ev Connect (Ok ()) :: H). assert (Ho1 : open_connections H1 = 1 + open_connections H) by done.
  assert (Hi : wpM session_guard (let! outcome := attempt m in handle outcome)
      (λ _ _ H', open_connections H' = open_connections H1) s H1).
  { apply over_bind; [by apply over_attempt|done|lia]. }
  clearbody H1. eapply wpM_mono; [exact Hi|]. intros outcome s2 H2 Heq; cbv beta iota in Heq |- *.
  wp_step. apply wpM_call; [simpl; lia|]. intros [[]|e]; cbv beta iota; [|simpl; lia].
  destruct outcome; wp_step; simpl; lia.
Qed.

Lemma balanced_connection {A} failed (m : ldap_m A) :
  over_connection m → (∀ text, over_connection (failed text)) → balanced (with_connection_or failed m).
Proof.
  intros Hm Hf. apply balanced_session; [done|]. intros [a|e]; [apply balanced_over, balanced_ret|].
  destruct e; first [apply Hf | apply balanced_over, balanced_raise].
Qed.
End Sessions.

Create HintDb sessions.
#[export] Hint Resolve balanced_ret balanced_raise balanced_of_res : sessions.

Ltac over_step :=
  lazymatch goal with
  | |- over_connection (bind _ _) => apply over_bind; [|intros ?]
  | |- over_connection (attempt _) => apply over_attempt
  | |- over_connection (call _) => apply over_call; reflexivity
  | |- over_connection (match ?x with _ => _ end) => destruct x
  | |- over_connection (must_succeed _ _ _) => unfold must_succeed
  | |- over_connection (search_all _ _ _) => unfold search_all
  | |- over_connection (let _ := _ in _) => cbv zeta
  | |- over_connection _ => solve [auto with sessions | apply balanced_over; auto with sessions]
  end.

Ltac balanced_step :=
  lazymatch goal with
  | |- balanced (bind _ _) => apply balanced_bind; [|intros ?]
  | |- balanced (attempt _) => apply balanced_attempt
  | |- balanced (with_connection _ _) => apply balanced_connection; [|intros ?]
  | |- balanced (with_connection_or _ _) => apply balanced_connection; [|intros ?]
  | |- balanced (session _ _) => apply balanced_session; [|intros ?]
  | |- balanced (bulk_read _ _ _ _ _ _) => unfold bulk_read
  | |- balanced (match ?x with _ => _ end) => destruct x
  | |- balanced (let _ := _ in _) => cbv zeta
  | |- over_connection _ => over_step
  | |- balanced _ => solve [auto with sessions]
  end.
Ltac balance := repeat (cbv beta; balanced_step).

Section BalancedMethods.
Context (parse_dn : bool → string → option (list (string * string))).
Context (escape_rdn escape_filter_chars : string → string) (text : json → string) (cfg : ldap_config).

Lemma balanced_search_user username : balanced (search_user escape_filter_chars cfg username).
Proof. unfold search_user, search_person. balance. Qed.
Lemma balanced_group_exists group_name : balanced (group_exists escape_filter_chars cfg group_name).
Proof. unfold group_exists, search_groups. balance. Qed.
Lemma balanced_group_gid group_name : balanced (get_group_gid escape_filter_chars cfg group_name).
Proof. unfold get_group_gid. balance. Qed.
Lemma balanced_next_uid : balanced (get_next_uid cfg).
Proof. unfold get_next_uid, get_used_ids. balance. Qed.
Lemma balanced_next_gid : balanced (get_next_gid cfg).
Proof. unfold get_next_gid, get_used_ids. balance. Qed.
Lemma balanced_create_group group_name gid_number classes extra member_dn :
  balanced (create_group_entry escape_rdn cfg group_name gid_number classes extra member_dn).
Proof. unfold create_group_entry. balance. Qed.
Lemma balanced_delete_group group_name : balanced (delete_group escape_rdn cfg group_name).
Proof. unfold delete_group. balance. Qed.
Lemma balanced_container : balanced (groups_container_exists cfg).
Proof. unfold groups_container_exists. balance. Qed.
Lemma balanced_modify dn change_list : balanced (modify_entry dn change_list).
Proof. unfold modify_entry. balance. Qed.
Lemma balanced_rename dn new_rdn : balanced (rename_entry dn new_rdn).
Proof. unfold rename_entry. balance. Qed.
Lemma balanced_descriptions group_name :
  balanced (get_group_descriptions escape_filter_chars text cfg group_name).
Proof. unfold get_group_descriptions, search_groups. balance. Qed.
End BalancedMethods.
#[export] Hint Resolve balanced_search_user balanced_group_exists balanced_group_gid balanced_next_uid
  balanced_next_gid balanced_create_group balanced_delete_group balanced_container balanced_modify
  balanced_rename balanced_descriptions : sessions.

Lemma balanced_ensure_group rdn chars cfg group_name gid_number classes extra member_dn :
  balanced (ensure_group rdn chars cfg group_name gid_number classes extra member_dn).
Proof. unfold ensure_group. balance. Qed.
Lemma balanced_update rdn cfg username values : balanced (update_user_attributes rdn cfg username values).
Proof. unfold update_user_attributes. balance. Qed.
#[export] Hint Resolve balanced_ensure_group balanced_update : sessions.

Lemma balanced_memberships rdn chars text cfg username :
  balanced (find_group_memberships rdn chars text cfg username).
Proof.
  unfold find_group_memberships, groups_listing. balance.
Qed.
Lemma balanced_user_exists chars cfg username : balanced (user_exists chars cfg username).
Proof. unfold user_exists. balance. Qed.
#[export] Hint Resolve balanced_memberships balanced_user_exists : sessions.

Lemma balanced_unless m : balanced m → balanced (unless_conflicting m).
Proof. intros Hm. unfold unless_conflicting. balance. Qed.

Lemma balanced_methods names cfg {X} (c : ldapE X) : balanced (ldap_client names cfg c).
Proof.
  destruct c; cbn [ldap_client];
    lazymatch goal with
    | |- balanced ping => intros s H Ho; unfold ping, connect; wp_steps; apply wpM_call; [done|];
        intros [[]|e]; [|destruct e; wp_steps; done]; wp_steps; apply wpM_call; [simpl; lia|];
        intros [[]|e]; [wp_steps; simpl; lia|destruct (is_backend_error e); wp_steps; simpl; lia]
    | |- balanced (add_user_attribute_value _ _ _ _ _) => apply balanced_unless; auto with sessions
    | |- balanced (remove_user_attribute_value _ _ _ _ _) => apply balanced_unless; auto with sessions
    | _ => idtac
    end;
    try solve [auto with sessions];
    unfold search_user_by_email, search_user_by_uid_number, search_person, list_users,
      list_groups, create_user, create_user_with_ids, add_user_entry, rollback_group,
      set_user_posix_attributes, delete_user, rename_user, rename_group, disable_user, enable_user,
      change_user, find_groups_with_member, set_group_gid, create_project_group, read_entry,
      list_entries, gid_holders, add_entry, add_user_to_group, remove_user_from_group, drop_member,
      is_user_in_group, list_group_members, add_group_description, find_groups_by_description,
      search_groups; balance.
Qed.

(** The LDAP client asks the directory for nothing outside a connection of its own,
    and whatever the directory answers every connection a method opened is closed again by
    the time it answers or raises. *)
Theorem connections_closed names cfg {X} (c : ldapE X) s τ out τ1 τ2 {Y} (d : directoryE Y) a :
  runs (ldap_client names cfg c s) τ out →
  open_connections (rev τ) = 0 ∧
  (τ = τ1 ++ Ev d a :: τ2 → session_guard Y (rev τ1) d).
Proof.
  intros Hrun. destruct out as [s' r].
  assert (Hspec := balanced_methods names cfg c s [] (Z.le_refl 0)).
  split; [exact (proj1 (wpM_sound _ _ _ _ _ _ _ Hspec Hrun))|].
  intros Hτ. exact (wpM_call_guard _ _ _ _ _ _ _ _ _ _ _ Hspec Hrun Hτ).
Qed.

(** ** Complete reads and fresh ids *)

Lemma next_id_spec first last used :
  match next_id first last used with
  | Some id => first ≤ id ≤ last ∧ id ∉ used ∧ ∀ j, first ≤ j < id → j ∈ used
  | None => ∀ j, first ≤ j ≤ last → j ∈ used
  end.
Proof.
  unfold next_id. destruct (Z.le_gt_cases (last - first + 1) 0) as [Hneg|Hpos].
  { unfold seqZ. replace (Z.to_nat (last - first + 1)) with 0%nat by lia. simpl. intros j. lia. }
  assert (Hgen : ∀ n k, match List.find (λ id, bool_decide (id ∉ used)) (seqZ k (Z.of_nat n)) with
    | Some id => k ≤ id < k + Z.of_nat n ∧ id ∉ used ∧ ∀ j, k ≤ j < id → j ∈ used
    | None => ∀ j, k ≤ j < k + Z.of_nat n → j ∈ used
    end).
  { induction n as [|n IH]; intros k; [simpl; lia|]. rewrite seqZ_cons by lia. cbn [List.find].
    case_bool_decide as Hk; [split_and!; [lia|lia|done|lia]|].
    replace (Z.pred (Z.of_nat (S n))) with (Z.of_nat n) by lia. specialize (IH (Z.succ k)).
    destruct (List.find _ _) as [id|].
    - destruct IH as (Hr & Hid & Hall). split_and!; [lia|lia|done|].
      intros j Hj. destruct (decide (j = k)) as [->|]; [done|]. apply Hall. lia.
    - intros j Hj. destruct (decide (j = k)) as [->|]; [done|]. apply IH. lia. }
  specialize (Hgen (Z.to_nat (last - first + 1)) first). rewrite Z2Nat.id in Hgen by lia.
  destruct (List.find _ _) as [id|].
  - destruct Hgen as (? & ? & ?). split_and!; [lia|lia|done|done].
  - intros j Hj. apply Hgen. lia.
Qed.

(** The directory listed everything that a search asked for. *)
Definition listed (search_base search_filter : string) (names : list string)
    (entries : list (string * attributes)) (H : trace directoryE) : Prop :=
  Ev (PagedSearch search_base search_filter names) (Ok ("success"%string, entries)) ∈ H.

Section Reads.
Context (G : guard directoryE).
Implicit Types (H : trace directoryE).

Context (Hconnect : ∀ H, G unit H Connect) (Hunbind : ∀ H, G unit H Unbind).

Lemma wpM_with_connection_or {A} failed (m : ldap_m A) P s H : keeps_growing P →
  (∀ text s' H', wpM G (failed text) (answers H' P) s' H') →
  wpM G m (answers (Ev Connect (Ok ()) :: H) P) s (Ev Connect (Ok ()) :: H) →
  wpM G (with_connection_or failed m) (answers H P) s H.
Proof.
  intros HP Hfailed Hm. unfold with_connection_or, session, connect. wp_steps.
  apply wpM_call; [done|]. intros [[]|e]; cbv beta iota; [|destruct e; wp_step; (split; [set_solver|done])].
  wp_step. wp_step. wp_step. wp_step. wp_step. eapply wpM_mono; [exact Hm|].
  intros r s1 H1 [Hsub Ha]; cbv beta iota. destruct s, s1.
  assert (Hend : ∀ (r' : res A) (s2 : unit) H2, Ev Connect (Ok ()) :: H ⊆ H2 → (∀ a, r' = Ok a → P a H2) →
    wpM G (call Unbind ;! of_res r') (answers H P) s2 H2).
  { intros r' s2 H2 Hs2 Hr'. wp_step. apply wpM_call; [done|].
    intros [[]|e]; cbv beta iota; [|split; [set_solver|done]].
    destruct r' as [a|e]; wp_step; (split; [set_solver|]); [|done].
    intros a' [= <-]. eapply HP; [|apply Hr'; reflexivity]. set_solver. }
  destruct r as [a|e]; [wp_step; apply Hend; naive_solver|].
  destruct e; try (wp_step; by apply Hend).
  eapply wpM_mono; [apply Hfailed|]. intros r s2 H2 [Hs2 Hr]. apply Hend; [set_solver|done].
Qed.

Lemma wpM_with_connection {A} what (m : ldap_m A) P s H : keeps_growing P →
  wpM G m (answers (Ev Connect (Ok ()) :: H) P) s (Ev Connect (Ok ()) :: H) →
  wpM G (with_connection what m) (answers H P) s H.
Proof. intros HP. apply wpM_with_connection_or; [done|]. intros. apply answers_raise. Qed.

(** A bulk read answers only what the directory gave completely. *)
Lemma bulk_read_spec {A} what search_base search_filter names (read : A → string * attributes → res A) init s H :
  (∀ H, G _ H (PagedSearch search_base search_filter names)) →
  wpM G (bulk_read what search_base search_filter names read init) (answers H (λ a H',
    ∃ entries, listed search_base search_filter names entries H' ∧ rfold read entries init = Ok a)) s H.
Proof.
  intros Hg. apply wpM_with_connection.
  { intros a H1 H2 Hs (entries & Hl & Hr). exists entries. split; [|done]. by apply Hs. }
  eapply wpM_answers_bind with (P := λ entries H', listed search_base search_filter names entries H').
  - unfold search_all. eapply wpM_answers_bind with (P := λ found H',
      Ev (PagedSearch search_base search_filter names) (Ok found) ∈ H').
    + apply answers_call; [done|]. intros found. left.
    + intros [description entries] s' H' _ Hin. simpl. destruct (String.eqb description "noSuchObject");
        [apply answers_raise|].
      destruct (String.eqb_spec description "success") as [->|]; simpl; [|apply answers_raise].
      apply answers_ret. exact Hin.
  - intros entries s' H' _ Hl. apply answers_of_res. intros a Ha. by exists entries.
Qed.

(** The ids of an attribute that a complete read showed. *)
Definition ids_read (attribute search_base : string) (used : gset Z) (H : trace directoryE) : Prop :=
  ∃ entries, listed search_base (any_value attribute) [attribute] entries H ∧
    rfold (add_ids attribute) entries ∅ = Ok used.

(** The least id of a range that a complete read did not show. *)
Definition fresh_id (attribute search_base : string) (first last id : Z) (H : trace directoryE) : Prop :=
  ∃ used, ids_read attribute search_base used H ∧ first ≤ id ≤ last ∧ id ∉ used ∧
    ∀ j, first ≤ j < id → j ∈ used.

Lemma fresh_id_grows attribute search_base first last :
  keeps_growing (fresh_id attribute search_base first last).
Proof.
  intros id H H' Hs (used & (entries & Hl & Hr) & Hid). exists used. split; [|done].
  exists entries. split; [by apply Hs|done].
Qed.

Lemma allocated_spec attribute search_base first last e s H :
  (∀ H, G _ H (PagedSearch search_base (any_value attribute) [attribute])) →
  wpM G (let! used := get_used_ids attribute search_base in
         match next_id first last used with Some id => ret id | None => raise e end)
    (answers H (fresh_id attribute search_base first last)) s H.
Proof.
  intros Hg. eapply wpM_answers_bind; [unfold get_used_ids; apply bulk_read_spec; done|].
  intros used s' H' _ (entries & Hl & Hr). pose proof (next_id_spec first last used) as Hn.
  destruct (next_id first last used) as [id|]; [|apply answers_raise].
  apply answers_ret. exists used. split; [by exists entries|done].
Qed.
End Reads.

(** ** New accounts *)

Section NewAccounts.
Context (names : ldap_names) (cfg : ldap_config).
Context (username first_name last_name email : string) (password : option string).
Context (extra : list (string * json)).
Implicit Types (H : trace directoryE).

Local Abbreviation own_dn := (user_dn (ln_escape_rdn names) cfg username).
Local Abbreviation own_group := (group_dn (ln_escape_rdn names) cfg username).

Definition done_with {X} (c : directoryE X) : X → Prop :=
  match c in directoryE X return X → Prop with
  | Add _ _ | Modify _ _ | ModifyDn _ _ | Delete _ => λ r, lr_success r = true
  | _ => λ _, True
  end.

(** The directory carried an operation out. *)
Definition carried_out {X} (c : directoryE X) (H : trace directoryE) : Prop :=
  ∃ r, Ev c (Ok r) ∈ H ∧ done_with c r.

Lemma carried_out_grows {X} (c : directoryE X) H H' : H ⊆ H' → carried_out c H → carried_out c H'.
Proof. intros Hs (r & Hr & Hd). exists r. split; [by apply Hs|done]. Qed.

Definition personal_group (gid_number : Z) : directoryE ldap_result :=
  Add own_group (group_attributes username (Some gid_number) (user_group_object_classes cfg)
                   [("memberUid"%string, JStr username)] (Some own_dn)).

Definition new_account (uid_number gid_number : Z) (home_directory login_shell : string)
  : directoryE ldap_result :=
  Add own_dn (account_attributes cfg username first_name last_name email uid_number gid_number
                home_directory login_shell password extra).

Definition fresh_uid : Z → trace directoryE → Prop :=
  fresh_id "uidNumber" (people_dn cfg) (uid_range_start cfg) (uid_range_end cfg).
Definition fresh_gid : Z → trace directoryE → Prop :=
  fresh_id "gidNumber" (groups_dn cfg) (gid_range_start cfg) (gid_range_end cfg).

Definition allocated_account (uid_number gid_number : Z) : directoryE ldap_result :=
  new_account uid_number gid_number (default_home_base cfg +:+ "/" +:+ username) (default_login_shell cfg).

(** The search found nobody of the name. *)
Definition name_free (H : trace directoryE) : Prop :=
  Ev (Search (people_dn cfg) (filter_is (ln_escape_filter_chars names) "uid" username) SUBTREE
        (user_attributes cfg)) (Ok []) ∈ H.

(** Two entries are added and nothing else is changed: the personal group with a fresh
    gid, where nobody had the name, and then the account with it and a fresh uid. *)
Definition allocation_guard : guard directoryE := λ X H c,
  match c with
  | Connect | Unbind | Search _ _ _ _ | PagedSearch _ _ _ => True
  | Add dn values => name_free H ∧ ∃ uid_number gid_number,
      fresh_uid uid_number H ∧ fresh_gid gid_number H ∧
      (Add dn values = personal_group gid_number ∨
       Add dn values = allocated_account uid_number gid_number ∧ carried_out (personal_group gid_number) H)
  | _ => False
  end.

Local Abbreviation G := allocation_guard.

Lemma name_free_spec s H :
  wpM G (user_exists (ln_escape_filter_chars names) cfg username)
    (answers H (λ there H', there = false → name_free H')) s H.
Proof.
  unfold user_exists, search_user, search_person. eapply (wpM_answers_bind G) with (P := λ user H', user = None → name_free H').
  - apply wpM_with_connection; [done..| |].
    { intros user H1 H2 Hs Hu Hn. by apply Hs, Hu. }
    eapply (wpM_answers_bind G); [apply (answers_call G) with (P := λ entries H', 
      Ev (Search (people_dn cfg) (filter_is (ln_escape_filter_chars names) "uid" username) SUBTREE
        (user_attributes cfg)) (Ok entries) ∈ H');
      [done|intros; left]|].
    intros entries s1 H1 _ Hin. apply answers_ret. intros Hn. by destruct entries.
  - intros user s1 H1 _ Hu. apply answers_ret. case_bool_decide as Hn; [done|]. intros _.
    by apply Hu.
Qed.

(** An entry that must be added. *)
Lemma must_succeed_spec G' msg kinds c s H : G' _ H c →
  wpM G' (must_succeed msg kinds c) (answers H (λ _ H', ∃ r, Ev c (Ok r) ∈ H' ∧ lr_success r = true)) s H.
Proof.
  intros Hc. unfold must_succeed. wp_steps. apply wpM_call; [done|]. intros [r|e]; cbv beta iota; [|split; [set_solver|done]].
  destruct (lr_success r) eqn:Hr; wp_step; (split; [set_solver|]); [|done]. intros _ _. exists r. split; [left|done].
Qed.

Lemma create_user_spec s :
  wpM G (create_user (ln_escape_rdn names) (ln_escape_filter_chars names) cfg username first_name
           last_name email password extra)
    (answers [] (λ uid_number H', fresh_uid uid_number H' ∧
       ∃ gid_number, carried_out (allocated_account uid_number gid_number) H')) s [].
Proof.
  unfold create_user. eapply (wpM_answers_bind G); [apply name_free_spec|].
  intros [] s1 H1 _ Hfree; [apply answers_raise|]. specialize (Hfree eq_refl).
  eapply (wpM_answers_bind G); [unfold get_next_uid; apply allocated_spec; done|]. intros uid_number s2 H2 Hs2 Huid.
  eapply (wpM_answers_bind G); [unfold get_next_gid; apply allocated_spec; done|]. intros gid_number s3 H3 Hs3 Hgid.
  assert (Hfree3 : name_free H3) by by apply Hs3, Hs2.
  assert (Huid3 : fresh_uid uid_number H3) by by eapply fresh_id_grows.
  eapply (wpM_answers_bind G) with (P := λ _ H', carried_out (personal_group gid_number) H').
  { unfold create_group_entry. apply wpM_with_connection; [done..| |].
    { intros _ H4 H5 Hs4. by apply carried_out_grows. }
    eapply answers_mono; [apply must_succeed_spec|intros a H' Hr; exact Hr].
    split; [by right|]. exists uid_number, gid_number.
    split_and!; [eapply fresh_id_grows; [|done]; set_solver|eapply fresh_id_grows; [|done]; set_solver|by left]. }
  intros _ s4 H4 Hs4 Hgroup. apply wpM_with_connection; [done..| |].
  { intros uid H5 H6 Hs5 (Hu & gid & Hg). split; [by eapply fresh_id_grows|]. exists gid. by eapply carried_out_grows. }
  eapply (wpM_answers_bind G); [apply must_succeed_spec|].
  { split; [right; by apply Hs4|]. exists uid_number, gid_number. split_and!.
    - eapply fresh_id_grows; [|exact Huid3]. set_solver.
    - eapply fresh_id_grows; [|exact Hgid]. set_solver.
    - right. split; [done|]. eapply carried_out_grows; [|exact Hgroup]. set_solver. }
  intros u5 s5 H5 Hs5 Hadded. apply answers_ret. split; [|by exists gid_number].
  eapply fresh_id_grows; [|exact Huid3]. set_solver.
Qed.

(** What Waldur gives an account. *)
Context (uid_number gid_number : Z) (home_directory login_shell : string).

Definition given_account : directoryE ldap_result :=
  new_account uid_number gid_number home_directory login_shell.

(** A group of the name was read with this gid. *)
Definition group_found (gid : Z) (H : trace directoryE) : Prop := ∃ entries,
  Ev (Search (groups_dn cfg) (filter_is (ln_escape_filter_chars names) "cn" username) SUBTREE ["gidNumber"%string])
    (Ok entries) ∈ H ∧ gid_of entries = Ok (Some gid).

Definition group_ready (H : trace directoryE) : Prop :=
  personal_groups cfg = false ∨ carried_out (personal_group gid_number) H ∨ group_found gid_number H.

(** The ids are written as they are given and none is looked for: the account is added
    once its group is ready, a group only where groups are kept, and only a group added
    here is ever deleted. *)
Definition given_guard : guard directoryE := λ X H c,
  match c with
  | Connect | Unbind | Search _ _ _ _ => True
  | Add dn values => (Add dn values = personal_group gid_number ∧ personal_groups cfg = true) ∨
      (Add dn values = given_account ∧ group_ready H)
  | Delete dn => dn = own_group ∧ carried_out (personal_group gid_number) H
  | _ => False
  end.

Definition no_deletion (X : Type) (c : directoryE X) : bool :=
  match c with Delete _ => false | _ => true end.

(** An account that answers was added; one that was there already lost nothing. *)
Definition given_outcome (answer : res unit) (H : trace directoryE) : Prop :=
  match answer with
  | Ok _ => carried_out given_account H
  | Err (EntryExistsError _) => all_calls no_deletion H
  | Err _ => True
  end.

Local Abbreviation GG := given_guard.

Lemma group_found_grows gid H H' : H ⊆ H' → group_found gid H → group_found gid H'.
Proof. intros Hs (entries & Hin & Hg). exists entries. split; [by apply Hs|done]. Qed.

Lemma group_gid_spec s H :
  wpM GG (get_group_gid (ln_escape_filter_chars names) cfg username)
    (answers H (λ gid H', ∀ z, gid = Some z → group_found z H')) s H.
Proof.
  unfold get_group_gid. apply wpM_with_connection; [done..| |].
  { intros gid H1 H2 Hs Hg z Hz. eapply group_found_grows; [done|]. by apply Hg. }
  eapply (wpM_answers_bind GG); [apply (answers_call GG) with (P := λ entries H',
    Ev (Search (groups_dn cfg) (filter_is (ln_escape_filter_chars names) "cn" username) SUBTREE ["gidNumber"%string])
      (Ok entries) ∈ H'); [done|intros; left]|].
  intros entries s1 H1 _ Hin. apply answers_of_res. intros gid Hg z ->. by exists entries.
Qed.

Definition state_shown (state : group_state) (H : trace directoryE) : Prop :=
  match state with
  | Created => carried_out (personal_group gid_number) H
  | Exists => group_found gid_number H
  | Skipped => personal_groups cfg = false
  | Conflict => True
  end.

Lemma held_by_shown gid H : (∀ z, gid = Some z → group_found z H) → state_shown (held_by gid gid_number) H.
Proof. intros Hg. unfold held_by. case_bool_decide as Hd; [by apply Hg|done]. Qed.

Lemma create_group_spec s H : personal_groups cfg = true →
  wpM GG (create_group_entry (ln_escape_rdn names) cfg username (Some gid_number) (user_group_object_classes cfg)
            [("memberUid"%string, JStr username)] (Some own_dn))
    (answers H (λ _ H', carried_out (personal_group gid_number) H')) s H.
Proof.
  intros Hp. unfold create_group_entry. apply wpM_with_connection; [done..| |].
  { intros u H1 H2. apply carried_out_grows. }
  eapply answers_mono; [apply must_succeed_spec; by left|]. intros u H' Hr. exact Hr.
Qed.

Lemma ensure_group_spec s H : personal_groups cfg = true →
  wpM GG (ensure_group (ln_escape_rdn names) (ln_escape_filter_chars names) cfg username gid_number
            (user_group_object_classes cfg) [("memberUid"%string, JStr username)] (Some own_dn))
    (answers H state_shown) s H.
Proof.
  intros Hp. unfold ensure_group.
  eapply (wpM_answers_bind GG) with (P := λ _ _, True).
  { unfold group_exists, search_groups. eapply (wpM_answers_bind GG) with (P := λ _ _, True).
    - apply wpM_with_connection; [done..|]. apply answers_call; done.
    - intros entries s1 H1 _ _. by apply answers_ret. }
  intros there s1 H1 _ _.
  eapply (wpM_answers_bind GG) with (P := λ gid H', ∀ z, gid = Some z → group_found z H').
  { destruct there; [apply group_gid_spec|]. by apply answers_ret. }
  intros existing s2 H2 _ Hg. destruct existing as [gid|]; [apply answers_ret; by apply held_by_shown|].
  wp_step. wp_step. eapply wpM_mono; [by apply create_group_spec|].
  intros [u|e] s3 H3 [Hs3 Hc]; cbv beta iota.
  - wp_step. split; [done|]. intros st [= <-]. by apply (Hc u).
  - assert (Hraise : ∀ e, answers H2 state_shown (Err e) s3 H3) by (intros e'; by split).
    destruct e; try (by wp_step).
    wp_step. eapply wpM_mono; [apply group_gid_spec|]. intros [gid|e] s4 H4 [Hs4 Hg4]; cbv beta iota.
    + wp_step. split; [set_solver|]. intros st [= <-]. apply held_by_shown. by apply Hg4.
    + split; [set_solver|done].
Qed.

Lemma no_deletion_ensure group gid classes more member_dn :
  calls no_deletion (ensure_group (ln_escape_rdn names) (ln_escape_filter_chars names) cfg group gid classes more member_dn).
Proof.
  unfold ensure_group, group_exists, search_groups, get_group_gid, create_group_entry, with_connection,
    with_connection_or, session, connect, must_succeed. calls_auto.
Qed.

Lemma no_deletion_account values :
  calls no_deletion (add_user_entry (ln_escape_rdn names) cfg username values).
Proof.
  unfold add_user_entry, with_connection, with_connection_or, session, connect, must_succeed. calls_auto.
Qed.

(** Knowing which calls were made besides what they showed. *)
Lemma answers_calls {A} (m : ldap_m A) P s H :
  calls no_deletion m → wpM GG m (answers H P) s H →
  wpM GG m (λ r s' H', answers H P r s' H' ∧ ∃ L, H' = L ++ H ∧ all_calls no_deletion L) s H.
Proof.
  intros Hc Hm.
  assert (Hn : wpM (λ _ _ _, True) m (λ _ _ H', ∃ L, H' = L ++ H ∧ all_calls no_deletion L) s H).
  { apply (calls_wpM no_deletion); [done|done|]. intros r s' L HL. by exists L. }
  eapply wpM_mono; [exact (wpM_conj _ _ _ _ _ _ _ Hn Hm)|]. intros r s' H' [HL Ha]. done.
Qed.

Lemma create_with_ids_spec s :
  wpM GG (create_user_with_ids (ln_escape_rdn names) (ln_escape_filter_chars names) cfg username first_name
            last_name email uid_number gid_number home_directory login_shell password extra)
    (λ answer _ H', given_outcome answer H') s [].
Proof.
  unfold create_user_with_ids. wp_step.
  eapply (wpM_mono _ _ (λ r _ H', answers [] state_shown r () H' ∧ all_calls no_deletion H')).
  { destruct (personal_groups cfg) eqn:Hp.
    - eapply wpM_mono; [apply answers_calls; [apply no_deletion_ensure|by apply ensure_group_spec]|].
      intros r [] H' [Ha (L & -> & HL)]. rewrite app_nil_r in *. done.
    - wp_step. split; [|constructor]. split; [done|]. by intros st [= <-]. }
  intros [state|e] s1 H1 [[_ Hst] Hn1]; cbv beta iota; [|by destruct e].
  specialize (Hst state eq_refl).
  assert (Hready : state ≠ Conflict → group_ready H1).
  { destruct state; simpl in Hst; [by left|by right; left|by right; right|done]. }
  assert (Hadd : state ≠ Conflict → wpM GG
    (let! added := attempt (add_user_entry (ln_escape_rdn names) cfg username
        (account_attributes cfg username first_name last_name email uid_number gid_number home_directory
           login_shell password extra)) in
     match added with
     | Ok _ => ret ()
     | Err (EntryExistsError msg) => raise (EntryExistsError msg)
     | Err e =>
         (if is_backend_error e then
            match state with
            | Created => rollback_group (ln_escape_rdn names) cfg username | _ => ret () end
          else ret ()) ;!
         raise e
     end) (λ answer _ H', given_outcome answer H') s1 H1).
  { intros Hc. wp_step. wp_step.
    eapply wpM_mono; [apply answers_calls with (P := λ _ H', carried_out given_account H'); [apply no_deletion_account|]|].
    { unfold add_user_entry. apply wpM_with_connection; [done..| |].
      { intros u H2 H3. apply carried_out_grows. }
      eapply answers_mono; [apply must_succeed_spec; right; split; [done|]|intros u H' Hr; exact Hr].
      destruct (Hready Hc) as [?|[?|?]]; [by left|right; left|right; right].
      - eapply carried_out_grows; [|done]. set_solver.
      - eapply group_found_grows; [|done]. set_solver. }
    intros [u|e] s2 H2 [[Hs2 Ha] (L & HL & HnL)]; cbv beta iota; [wp_step; by apply (Ha u)|].
    assert (Hrest : (∀ msg, e ≠ EntryExistsError msg) → wpM GG
      ((if is_backend_error e then
          match state with Created => rollback_group (ln_escape_rdn names) cfg username | _ => ret () end
        else ret ()) ;! raise e) (λ answer _ H', given_outcome answer H') s2 H2).
    { intros He. wp_step.
      eapply (wpM_mono _ _ (λ r _ _, match r with Ok _ => True | Err e => is_backend_error e = false end)).
      - destruct (is_backend_error e); [|by wp_step]. destruct state; try by wp_step.
        unfold rollback_group, delete_group. wp_step. wp_step.
        eapply wpM_mono; [apply (wpM_with_connection GG) with (P := λ _ _, True); [done..|]|].
        { eapply (wpM_answers_bind GG) with (P := λ _ _, True); [|by intros; apply answers_ret].
          apply answers_call; [|done]. split; [done|]. simpl in Hst. eapply carried_out_grows; [|exact Hst]. set_solver. }
        intros [v|e2] s3 H3 _; cbv beta iota; [by wp_step|]. destruct (is_backend_error e2) eqn:He2; by wp_step.
      - intros [v|e2] s3 H3 Hr; cbv beta iota; [wp_step; destruct e; try done; by edestruct He|].
        destruct e2; try done. }
    destruct e; try (apply Hrest; done).
    wp_step. simpl. subst H2. by apply Forall_app. }
  destruct state; try (by apply Hadd). wp_step. exact I.
Qed.
End NewAccounts.

(** An account that the agent numbers itself gets the least uid and its group the
    least gid of their ranges that a complete read of the directory did not show, and only
    where nobody had the name: the group is added first, the account with both ids once it
    was, and nothing else is changed.  What is answered is the uid of the account that was
    added. *)
Theorem ids_allocated_fresh names cfg username first_name last_name email password extra s τ s' answer
    τ1 τ2 {X} (c : directoryE X) a :
  runs (create_user (ln_escape_rdn names) (ln_escape_filter_chars names) cfg username first_name
          last_name email password extra s) τ (s', answer) →
  (∀ uid_number, answer = Ok uid_number → fresh_uid cfg uid_number (rev τ) ∧ ∃ gid_number,
     carried_out (allocated_account names cfg username first_name last_name email password extra
                    uid_number gid_number) (rev τ)) ∧
  (τ = τ1 ++ Ev c a :: τ2 →
     allocation_guard names cfg username first_name last_name email password extra X (rev τ1) c).
Proof.
  intros Hrun.
  pose proof (create_user_spec names cfg username first_name last_name email password extra s) as Hspec.
  split; [exact (proj2 (proj1 (wpM_sound _ _ _ _ _ _ _ Hspec Hrun)))|].
  intros Hτ. exact (wpM_call_guard _ _ _ _ _ _ _ _ _ _ _ Hspec Hrun Hτ).
Qed.

(** An account that Waldur numbers is added with exactly the ids it was given, once its
    personal group holds that gid, added here or found with it; no id is looked for.  A
    group is deleted again only if it was added here, and never when another writer turns
    out to have added the account. *)
Theorem account_given_its_ids names cfg username first_name last_name email password extra
    uid_number gid_number home_directory login_shell s τ s' answer τ1 τ2 {X} (c : directoryE X) a :
  runs (create_user_with_ids (ln_escape_rdn names) (ln_escape_filter_chars names) cfg username first_name
          last_name email uid_number gid_number home_directory login_shell password extra s) τ (s', answer) →
  given_outcome names cfg username first_name last_name email password extra uid_number gid_number
    home_directory login_shell answer (rev τ) ∧
  (τ = τ1 ++ Ev c a :: τ2 →
     given_guard names cfg username first_name last_name email password extra uid_number gid_number
       home_directory login_shell X (rev τ1) c).
Proof.
  intros Hrun. pose proof (create_with_ids_spec names cfg username first_name last_name email password extra
    uid_number gid_number home_directory login_shell s) as Hspec.
  split; [exact (proj1 (wpM_sound _ _ _ _ _ _ _ Hspec Hrun))|].
  intros Hτ. exact (wpM_call_guard _ _ _ _ _ _ _ _ _ _ _ Hspec Hrun Hτ).
Qed.

(** ** Leaving groups *)

Section Leaving.
Context (rdn : string → string) (cfg : ldap_config) (group_name username membership_type : string).
Implicit Types (H : trace directoryE).

Definition member : json := JStr (member_value rdn cfg membership_type username).

(** The member is taken out; or the stand-in comes in and the member goes, in one. *)
Definition taking_out : directoryE ldap_result :=
  Modify (group_dn rdn cfg group_name) [(membership_type, [MODIFY_DELETE [member]])].
Definition swapping : directoryE ldap_result :=
  Modify (group_dn rdn cfg group_name)
    [("member"%string, [MODIFY_ADD [JStr (empty_group_member_dn cfg)]; MODIFY_DELETE [member]])].

Definition last_member (H : trace directoryE) : Prop := membership_type = "member"%string ∧
  ∃ r H', H = Ev taking_out (Ok r) :: H' ∧ lr_success r = false ∧
    lr_description r = "objectClassViolation"%string.

Definition leaving_guard : guard directoryE := λ X H c,
  match c with
  | Connect | Unbind | Search _ _ _ _ => True
  | Modify dn change_list => Modify dn change_list = taking_out ∨
      (Modify dn change_list = swapping ∧ last_member H)
  | _ => False
  end.

(** The container of the groups was seen. *)
Definition container_seen (H : trace directoryE) : Prop := ∃ entries,
  Ev (Search (groups_dn cfg) (any_value "objectClass") SUBTREE ["cn"%string]) (Ok entries) ∈ H ∧ entries ≠ [].

(** The member is gone: it was taken out, or the directory said that it is no member, or
    that there is no such group, with the container of the groups in sight. *)
Definition left_group (H : trace directoryE) : Prop :=
  carried_out taking_out H ∨ carried_out swapping H ∨
  ∃ c r, (c = taking_out ∨ c = swapping) ∧ Ev c (Ok r) ∈ H ∧ lr_success r = false ∧
    tolerated (lr_description r) = true ∧
    (str_contains "noSuchObject" (lr_description r) = true → container_seen H).

Local Abbreviation G := leaving_guard.

Lemma left_group_grows H H' : H ⊆ H' → left_group H → left_group H'.
Proof.
  intros Hs [Hc|[Hc|(c & r & Hc & Hin & Hr & Ht & Hn)]]; [left|right; left|right; right].
  - by eapply carried_out_grows.
  - by eapply carried_out_grows.
  - exists c, r. split_and!; [done|by apply Hs|done|done|]. intros Ho.
    destruct (Hn Ho) as (entries & He & Hne). exists entries. split; [by apply Hs|done].
Qed.

Lemma drop_member_spec s H :
  wpM G (drop_member rdn cfg group_name username membership_type)
    (answers H (λ r H', ∃ c, (c = taking_out ∨ c = swapping) ∧ Ev c (Ok r) ∈ H')) s H.
Proof.
  unfold drop_member. cbv zeta.
  eapply (wpM_answers_bind G) with (P := λ r H', Ev taking_out (Ok r) ∈ H' ∧ ∃ H0, H' = Ev taking_out (Ok r) :: H0).
  { apply answers_call; [by left|]. intros r. split; [left|by exists H]. }
  intros r s1 H1 _ [Hin [H0 HH]].
  assert (Hplain : wpM G (ret r) (answers H1 (λ r H', ∃ c, (c = taking_out ∨ c = swapping) ∧ Ev c (Ok r) ∈ H')) s1 H1).
  { apply answers_ret. exists taking_out. split; [by left|done]. }
  destruct (String.eqb_spec membership_type "member") as [Hm|Hm]; simpl andb; [|exact Hplain].
  destruct (negb (lr_success r) && String.eqb (lr_description r) "objectClassViolation") eqn:Hv; [|exact Hplain].
  apply andb_prop in Hv as [Hs%negb_true_iff Hd%String.eqb_eq]. apply answers_call.
  - right. split; [done|]. split; [done|]. by exists r, H0.
  - intros r2. exists swapping. split; [by right|left].
Qed.

Lemma container_spec s H :
  wpM G (groups_container_exists cfg) (answers H (λ there H', there = true → container_seen H')) s H.
Proof.
  unfold groups_container_exists. apply wpM_with_connection_or; [done..| | |].
  - intros there H1 H2 Hs Hseen Ht. destruct (Hseen Ht) as (entries & Hin & Hne). exists entries. split; [by apply Hs|done].
  - intros. by apply answers_ret.
  - eapply (wpM_answers_bind G); [apply (answers_call G) with (P := λ entries H',
      Ev (Search (groups_dn cfg) (any_value "objectClass") SUBTREE ["cn"%string]) (Ok entries) ∈ H');
      [done|intros; left]|].
    intros entries s1 H1 _ Hin. apply answers_ret. intros Ht. exists entries. split; [done|]. by destruct entries.
Qed.

Lemma remove_from_group_spec s :
  wpM G (remove_user_from_group rdn cfg group_name username membership_type)
    (answers [] (λ _ H', left_group H')) s [].
Proof.
  unfold remove_user_from_group. apply wpM_with_connection; [done..| |].
  { intros u H1 H2. apply left_group_grows. }
  eapply (wpM_answers_bind G); [apply drop_member_spec|]. intros r s1 H1 _ (c & Hc & Hin).
  eapply (wpM_answers_bind G) with (P := λ container H',
    container = true → lr_success r = false → str_contains "noSuchObject" (lr_description r) = true →
    container_seen H').
  { destruct (lr_success r) eqn:Hs; simpl; [by apply answers_ret|].
    destruct (str_contains "noSuchObject" (lr_description r)) eqn:Hd; simpl.
    - eapply answers_mono; [apply container_spec|]. intros there H' Ht Hc' _ _. by apply Ht.
    - by apply answers_ret. }
  intros container s2 H2 Hs2 Hseen. destruct container; simpl negb; cbv iota; [|apply answers_raise].
  specialize (Hseen eq_refl).
  destruct (lr_success r) eqn:Hs; simpl orb.
  - apply answers_ret. assert (Hd : carried_out c H2).
    { exists r. split; [by apply Hs2|]. by destruct Hc as [-> | ->]. }
    destruct Hc as [-> | ->]; [by left|by right; left].
  - destruct (tolerated (lr_description r)) eqn:Ht; [|apply answers_raise].
    apply answers_ret. right; right. exists c, r. split_and!; [done|by apply Hs2|done|done|].
    intros Hn. by apply Hseen.
Qed.
End Leaving.

(** Taking a user out of a group answers only when the user is out of it: the directory
    took the member out, or said that it is none or that the group does not exist, with the
    container of all groups seen to be there.  The last member of a group that cannot be
    empty makes way for the stand-in in one and the same change, only after the directory
    refused the plain one, and no other entry is touched. *)
Theorem membership_removed rdn cfg group_name username membership_type s τ s' answer τ1 τ2
    {X} (c : directoryE X) a :
  runs (remove_user_from_group rdn cfg group_name username membership_type s) τ (s', answer) →
  (answer = Ok () → left_group rdn cfg group_name username membership_type (rev τ)) ∧
  (τ = τ1 ++ Ev c a :: τ2 → leaving_guard rdn cfg group_name username membership_type X (rev τ1) c).
Proof.
  intros Hrun. pose proof (remove_from_group_spec rdn cfg group_name username membership_type s) as Hspec.
  split; [exact (proj2 (proj1 (wpM_sound _ _ _ _ _ _ _ Hspec Hrun)) ())|].
  intros Hτ. exact (wpM_call_guard _ _ _ _ _ _ _ _ _ _ _ Hspec Hrun Hτ).
Qed.

(** ** Parked accounts *)

Section Parking.
Context (text : json → string) (Htext : ∀ s, text (JStr s) = s).
Implicit Types (entry : attributes) (name : string).

Definition values_of entry name : list json := default [] (dict_get entry name).
Definition has_text (values : list json) (v : json) : bool :=
  bool_decide (text v ∈ map text values).

(** What a change makes of the values of an attribute: a value cannot be added twice, and
    what is deleted must be there (RFC 4511, 4.6). *)
Definition changed (c : change) (values : list json) : option (list json) :=
  match c with
  | MODIFY_ADD more => if existsb (has_text values) more then None else Some (values ++ more)
  | MODIFY_DELETE [] => match values with [] => None | _ => Some [] end
  | MODIFY_DELETE gone =>
      if forallb (has_text values) gone then Some (List.filter (λ v, negb (has_text gone v)) values) else None
  | MODIFY_REPLACE values => Some values
  end.

(** A modify makes all its changes, in their order, or none. *)
Fixpoint changed_all (cs : list change) (values : list json) : option (list json) :=
  match cs with [] => Some values | c :: cs => changed c values ≫= changed_all cs end.
Fixpoint modified (cs : changes) entry : option attributes :=
  match cs with
  | [] => Some entry
  | (name, cs1) :: cs => changed_all cs1 (values_of entry name) ≫= λ values, modified cs (dict_set entry name values)
  end.

Lemma values_set_eq entry name values : values_of (dict_set entry name values) name = values.
Proof. unfold values_of. by rewrite dict_get_set_eq. Qed.
Lemma values_set_ne entry name name' values : name ≠ name' →
  values_of (dict_set entry name values) name' = values_of entry name'.
Proof. intros Hn. unfold values_of. by rewrite dict_get_set_ne. Qed.
Lemma texts_values entry name : texts_of text entry name = map text (values_of entry name).
Proof. done. Qed.

(** A value that is added unless it is there. *)
Definition with_text (values : list json) (s : string) : list json :=
  if bool_decide (s ∈ map text values) then values else values ++ [JStr s].
Definition without_text (values : list json) (s : string) : list json :=
  List.filter (λ v, negb (String.eqb (text v) s)) values.

Lemma changed_add values s : s ∉ map text values →
  changed_all [MODIFY_ADD [JStr s]] values = Some (values ++ [JStr s]).
Proof.
  intros Hs. simpl. unfold has_text. rewrite Htext, bool_decide_eq_false_2 by done. done.
Qed.

Lemma changed_delete values s : s ∈ map text values →
  changed_all [MODIFY_DELETE [JStr s]] values = Some (without_text values s).
Proof.
  intros Hs. simpl. unfold has_text at 1. rewrite Htext, bool_decide_eq_true_2 by done. simpl. f_equal.
  unfold without_text. apply filter_ext. intros v. unfold has_text. simpl. rewrite Htext. f_equal.
  destruct (String.eqb_spec (text v) s) as [Heq|Hne]; case_bool_decide; set_solver.
Qed.

Lemma with_text_elem values s : s ∈ map text (with_text values s).
Proof.
  unfold with_text. case_bool_decide; [done|]. rewrite map_app. simpl. rewrite Htext. set_solver.
Qed.

Lemma without_text_elem values s : s ∉ map text (without_text values s).
Proof.
  unfold without_text. rewrite list_elem_of_In, in_map_iff. intros (v & Hv & Hin).
  apply filter_In in Hin as [_ Hn]. subst s. by rewrite String.eqb_refl in Hn.
Qed.

Lemma without_text_fresh values s : s ∉ map text values → without_text values s = values.
Proof.
  intros Hs. unfold without_text. induction values as [|v values IH]; [done|]. simpl in *.
  apply not_elem_of_cons in Hs as [Hv Hs]. destruct (String.eqb_spec (text v) s) as [Heq|Hne]; [by rewrite Heq in Hv|].
  simpl. f_equal. by apply IH.
Qed.

Lemma without_with_text values s : without_text (with_text values s) s = without_text values s.
Proof.
  unfold with_text. case_bool_decide; [done|]. unfold without_text. rewrite List.filter_app. simpl.
  rewrite Htext, String.eqb_refl. simpl. by rewrite app_nil_r.
Qed.

Local Abbreviation parking_attributes :=
  ["loginShell"; "shadowExpire"; "objectClass"; "description"]%string.

(** A disabled account. *)
Definition parked entry (login_shell : string) (entry' : attributes) : Prop :=
  values_of entry' "loginShell" = [JStr login_shell] ∧ values_of entry' "shadowExpire" = [JStr "1"] ∧
  values_of entry' "objectClass" = with_text (values_of entry "objectClass") "shadowAccount" ∧
  values_of entry' "description" = with_text (values_of entry "description") DISABLED_MARKER ∧
  ∀ name, name ∉ parking_attributes → values_of entry' name = values_of entry name.

(** An enabled one; [objectClass] stays. *)
Definition unparked entry (login_shell : string) (entry' : attributes) : Prop :=
  values_of entry' "loginShell" = [JStr login_shell] ∧ values_of entry' "shadowExpire" = [] ∧
  values_of entry' "description" = without_text (values_of entry "description") DISABLED_MARKER ∧
  ∀ name, name ∉ ["loginShell"; "shadowExpire"; "description"]%string →
    values_of entry' name = values_of entry name.

Lemma not_in_cons (x y : string) l : x ∉ y :: l → y ≠ x ∧ x ∉ l.
Proof. rewrite not_elem_of_cons. naive_solver. Qed.

Ltac values := repeat first
  [ rewrite values_set_eq
  | rewrite values_set_ne by first [discriminate | assumption] ]; try reflexivity.
Ltac other_values := let Hn := fresh in intros name Hn;
  repeat (apply not_in_cons in Hn as [? Hn]); values.

Lemma modified_cons entry name cs values rest :
  changed_all cs (values_of entry name) = Some values →
  modified ((name, cs) :: rest) entry = modified rest (dict_set entry name values).
Proof. intros Hc. simpl. by rewrite Hc. Qed.

Lemma changed_replace values old : changed_all [MODIFY_REPLACE values] old = Some values.
Proof. done. Qed.
Lemma changed_clear v values : changed_all [MODIFY_DELETE []] (v :: values) = Some [].
Proof. done. Qed.

Ltac applies := repeat (erewrite modified_cons;
  [|first [ apply changed_replace | apply changed_add; values; assumption
          | apply changed_delete; values; assumption ]]); reflexivity.

Lemma disabling_parks entry login_shell : ∃ entry',
  modified (disabling text entry login_shell) entry = Some entry' ∧ parked entry login_shell entry'.
Proof.
  unfold disabling, parked, with_text. rewrite !texts_values.
  case_bool_decide as Hc; case_bool_decide as Hd; cbn [app];
    (eexists; split; [applies|]); (split_and!; [values..|other_values]).
Qed.

Lemma enabling_unparks entry login_shell : ∃ entry',
  modified (enabling text entry login_shell) entry = Some entry' ∧ unparked entry login_shell entry'.
Proof.
  unfold enabling, unparked. rewrite !texts_values.
  assert (Hexpire : values_of entry "shadowExpire" = default [] (dict_get entry "shadowExpire")) by done.
  destruct (dict_get entry "shadowExpire") as [[|v expire]|]; simpl in Hexpire;
    (case_bool_decide as Hd; [|rewrite (without_text_fresh _ _ Hd)]); cbn [app];
    (eexists; split;
     [rewrite (modified_cons _ _ _ [JStr login_shell]) by apply changed_replace;
      try (rewrite (modified_cons _ "shadowExpire" _ []) by (values; rewrite Hexpire; apply changed_clear));
      applies|]);
    (split_and!; [values..|other_values]); exact Hexpire.
Qed.

(** Nothing is left to add to an account that is disabled. *)
Lemma disabling_parked entry login_shell entry' shell : parked entry login_shell entry' →
  disabling text entry' shell = [("loginShell"%string, [MODIFY_REPLACE [JStr shell]]);
                                 ("shadowExpire"%string, [MODIFY_REPLACE [JStr "1"]])].
Proof.
  intros (_ & _ & Hc & Hd & _). unfold disabling. rewrite !texts_values, Hc, Hd.
  rewrite !bool_decide_eq_true_2 by apply with_text_elem. done.
Qed.

Lemma parked_disabled entry login_shell entry' : parked entry login_shell entry' →
  is_disabled_by_agent text (Some entry') = true.
Proof.
  intros (_ & _ & _ & Hd & _). unfold is_disabled_by_agent. rewrite texts_values, Hd.
  apply bool_decide_eq_true_2, with_text_elem.
Qed.

Lemma unparked_enabled entry login_shell entry' : unparked entry login_shell entry' →
  is_disabled_by_agent text (Some entry') = false.
Proof.
  intros (_ & _ & Hd & _). unfold is_disabled_by_agent. rewrite texts_values, Hd.
  apply bool_decide_eq_false_2, without_text_elem.
Qed.

(** An account that was never parked comes back with everything it had but its shell and
    its expiry; its classes grow by [shadowAccount]. *)
Lemma unparked_parked entry login_shell parked_entry shell restored :
  DISABLED_MARKER ∉ texts_of text entry "description" →
  parked entry login_shell parked_entry → unparked parked_entry shell restored →
  values_of restored "description" = values_of entry "description" ∧
  values_of restored "objectClass" = with_text (values_of entry "objectClass") "shadowAccount" ∧
  ∀ name, name ∉ parking_attributes → values_of restored name = values_of entry name.
Proof.
  intros Hm (_ & _ & Hc & Hd & Hrest) (_ & _ & Hd2 & Hrest2). split_and!.
  - rewrite Hd2, Hd, without_with_text. by apply without_text_fresh.
  - rewrite Hrest2 by set_solver. done.
  - intros name Hn. rewrite Hrest2 by set_solver. by apply Hrest.
Qed.
End Parking.

(** What a method does with the entry it looked up. *)
Section Changing.
Context (rdn chars : string → string) (cfg : ldap_config) (username : string) (wanted : attributes → changes).
Implicit Types (H : trace directoryE).

Definition looked_up (entry : attributes) (H : trace directoryE) : Prop := ∃ entries,
  Ev (Search (people_dn cfg) (filter_is chars "uid" username) SUBTREE (user_attributes cfg))
    (Ok (entry :: entries)) ∈ H.

Definition changing_guard : guard directoryE := λ X H c,
  match c with
  | Connect | Unbind | Search _ _ _ _ => True
  | Modify dn cs => ∃ entry, looked_up entry H ∧ Modify dn cs = Modify (user_dn rdn cfg username) (wanted entry)
  | _ => False
  end.

Lemma looked_up_grows entry H H' : H ⊆ H' → looked_up entry H → looked_up entry H'.
Proof. intros Hs (entries & Hin). exists entries. by apply Hs. Qed.

Lemma change_user_spec what s :
  wpM changing_guard (change_user rdn chars cfg what username wanted)
    (answers [] (λ _ H', ∃ entry, looked_up entry H' ∧
       carried_out (Modify (user_dn rdn cfg username) (wanted entry)) H')) s [].
Proof.
  unfold change_user. eapply (wpM_answers_bind changing_guard) with
    (P := λ found H', ∀ entry, found = Some entry → looked_up entry H').
  { unfold search_user, search_person. apply wpM_with_connection; [done..| |].
    - intros found H1 H2 Hs Hf entry He. eapply looked_up_grows; [done|]. by apply Hf.
    - eapply (wpM_answers_bind changing_guard); [apply (answers_call changing_guard) with (P := λ entries H',
        Ev (Search (people_dn cfg) (filter_is chars "uid" username) SUBTREE (user_attributes cfg)) (Ok entries) ∈ H');
        [done|intros; left]|].
      intros [|entry entries] s1 H1 _ Hin; apply answers_ret; [done|]. intros entry' [= <-]. by exists entries. }
  intros [entry|] s1 H1 _ Hf; [|apply answers_raise]. specialize (Hf entry eq_refl).
  apply wpM_with_connection; [done..| |].
  { intros u H2 H3 Hs (e & He & Hc). exists e. split; [by eapply looked_up_grows|by eapply carried_out_grows]. }
  eapply (answers_mono changing_guard _ (λ _ H', looked_up entry H' ∧ _)); [|intros u H' Hr; exists entry; exact Hr].
  eapply wpM_mono; [apply must_succeed_spec|].
  { exists entry. split; [eapply looked_up_grows; [|exact Hf]; set_solver|done]. }
  intros r s2 H2 [Hs2 Hr]. split; [done|]. intros u ->. split; [|by apply (Hr u)].
  eapply looked_up_grows; [|exact Hf]. set_solver.
Qed.
End Changing.

(** Disabling an account sends the entry that was read one modify, which succeeds on
    it: the account gets the shell, an expiry in the past, the class that allows one and
    the agent's marker beside its other descriptions, and nothing else of it changes;
    disabling it again adds nothing.  Enabling what was disabled succeeds too and removes
    the marker and the expiry: whatever else the account had is as before. *)
Theorem accounts_parked_and_restored names cfg username login_shell s τ s' τ1 τ2 {X} (c : directoryE X) a :
  (∀ s, ln_text names (JStr s) = s) →
  runs (disable_user (ln_escape_rdn names) (ln_escape_filter_chars names) (ln_text names) cfg username
          login_shell s) τ (s', Ok ()) →
  (∃ entry entry', looked_up (ln_escape_filter_chars names) cfg username entry (rev τ) ∧
    carried_out (Modify (user_dn (ln_escape_rdn names) cfg username)
                   (disabling (ln_text names) entry login_shell)) (rev τ) ∧
    modified (ln_text names) (disabling (ln_text names) entry login_shell) entry = Some entry' ∧
    parked (ln_text names) entry login_shell entry' ∧
    is_disabled_by_agent (ln_text names) (Some entry') = true ∧
    (∃ again, modified (ln_text names) (disabling (ln_text names) entry' login_shell) entry' = Some again ∧
       ∀ name, values_of again name = values_of entry' name) ∧
    ∀ shell, ∃ restored, modified (ln_text names) (enabling (ln_text names) entry' shell) entry' = Some restored ∧
      is_disabled_by_agent (ln_text names) (Some restored) = false ∧
      values_of restored "loginShell" = [JStr shell] ∧ values_of restored "shadowExpire" = [] ∧
      (DISABLED_MARKER ∉ texts_of (ln_text names) entry "description" →
       values_of restored "description" = values_of entry "description" ∧
       ∀ name, name ∉ ["loginShell"; "shadowExpire"; "objectClass"; "description"]%string →
         values_of restored name = values_of entry name)) ∧
  (τ = τ1 ++ Ev c a :: τ2 → changing_guard (ln_escape_rdn names) (ln_escape_filter_chars names) cfg username
      (λ entry, disabling (ln_text names) entry login_shell) X (rev τ1) c).
Proof.
  intros Htext Hrun.
  pose proof (change_user_spec (ln_escape_rdn names) (ln_escape_filter_chars names) cfg username
    (λ entry, disabling (ln_text names) entry login_shell) "Failed to disable LDAP user" s) as Hspec.
  split; [|intros Hτ; exact (wpM_call_guard _ _ _ _ _ _ _ _ _ _ _ Hspec Hrun Hτ)].
  destruct (proj2 (proj1 (wpM_sound _ _ _ _ _ _ _ Hspec Hrun)) () eq_refl) as (entry & Hfound & Hsent).
  destruct (disabling_parks _ Htext entry login_shell) as (entry' & Hmod & Hpark).
  exists entry, entry'. split_and!; [done..|by eapply parked_disabled| |].
  - rewrite (disabling_parked _ Htext _ _ _ login_shell Hpark). eexists. split; [reflexivity|].
    destruct Hpark as (Hs & He & _). intros name.
    destruct (decide (name = "shadowExpire"%string)) as [->|]; [by rewrite values_set_eq|].
    rewrite values_set_ne by done.
    destruct (decide (name = "loginShell"%string)) as [->|]; [by rewrite values_set_eq|].
    by rewrite values_set_ne by done.
  - intros shell. destruct (enabling_unparks _ Htext entry' shell) as (restored & Hm2 & Hun).
    exists restored. split; [done|]. split; [by eapply unparked_enabled|].
    split; [apply Hun|]. split; [apply Hun|]. intros Hm.
    destruct (unparked_parked _ Htext _ _ _ _ _ Hm Hpark Hun) as (? & _ & ?). done.
Qed.

(** ** A small directory *)

Definition plain_value (v : json) : string := match v with JStr s => s | JInt z => pretty z | _ => "?"%string end.

(** A DN of one component, [uid=...] or something else; nothing in it needs an escape. *)
Definition plain_names : ldap_names :=
  {| ln_parse_dn := λ _ dn, match dn with
       | String "u" (String "i" (String "d" (String "=" rest))) => Some [("uid"%string, rest)]
       | _ => Some [("cn"%string, dn)]
       end;
     ln_escape_rdn := λ s, s; ln_escape_filter_chars := λ s, s; ln_text := plain_value |}.

Definition directory_settings : ldap_settings :=
  {| ls_base_dn := "dc=hpc"; ls_people_ou := None; ls_groups_ou := None;
     ls_uid_range_start := Some 10000; ls_uid_range_end := Some 10005;
     ls_gid_range_start := Some 20000; ls_gid_range_end := Some 20005;
     ls_default_login_shell := None; ls_default_home_base := None; ls_user_object_classes := None;
     ls_user_group_object_classes := None; ls_project_group_object_classes := None;
     ls_personal_groups := None; ls_waldur_username_attribute := None; ls_empty_group_member_dn := None |}.

Definition hpc_directory : ldap_config :=
  Eval vm_compute in
    match init (ln_parse_dn plain_names) directory_settings with
    | Ok cfg => cfg
    | Err _ => {| base_dn := ""; people_ou := ""; groups_ou := ""; uid_range_start := 0; uid_range_end := 0;
                  gid_range_start := 0; gid_range_end := 0; default_login_shell := ""; default_home_base := "";
                  user_object_classes := []; user_group_object_classes := [];
                  project_group_object_classes := []; personal_groups := false;
                  waldur_username_attribute := ""; empty_group_member_dn := "" |}
    end.

Definition bob : attributes :=
  [("uid", [JStr "bob"]); ("uidNumber", [JInt 10000]); ("loginShell", [JStr "/bin/zsh"]);
   ("objectClass", [JStr "posixAccount"]); ("description", [JStr "a student"])]%string.

(** A directory with [bob] in it, the only member of the groups there are. *)
Definition small_directory (X : Type) (c : directoryE X) (w : unit) : res X * unit :=
  let success := {| lr_success := true; lr_description := "success" |} in
  (match c in directoryE X return res X with
   | Search _ search_filter _ _ =>
       Ok (if String.eqb search_filter "(uid=bob)" then [bob]
           else if String.eqb search_filter "(objectClass=*)" then [[]] else [])
   | PagedSearch _ _ names => Ok ("success"%string,
       if bool_decide ("uidNumber"%string ∈ names) then [("uid=bob"%string, bob)] else [])
   | Add _ _ | ModifyDn _ _ | Delete _ => Ok success
   | Modify _ [("member"%string, [MODIFY_DELETE _])] =>
       Ok {| lr_success := false; lr_description := "objectClassViolation" |}
   | Modify _ _ => Ok success
   | Connect | Unbind => Ok ()
   end, w).

Definition run_directory {X} (c : ldapE X) := exec small_directory (ldap_client plain_names hpc_directory c ()) ().

Local Abbreviation history m := (m.1.2).
Local Abbreviation so_far m := (rev m.1.2).

Definition new_account_run := run_directory (CreateUser "eve" "E" "V" "e@hpc" None []).
Definition given_account_run := run_directory (CreateUserWithIds "eve" "E" "V" "e@hpc" 7 8 "/h" "/s" None []).
Definition leaving_run := run_directory (RemoveUserFromGroup "g" "bob" "member").
Definition parking_run := run_directory (DisableUser "bob" NOLOGIN_SHELL).

Lemma connections_closed_witness : open_connections (so_far new_account_run) = 0.
Proof.
  refine (proj1 (connections_closed plain_names hpc_directory (CreateUser "eve" "E" "V" "e@hpc" None []) ()
    (history new_account_run) new_account_run.1.1 [] (tail (history new_account_run)) Connect (Ok ()) _)).
  apply exec_runs.
Defined.

Lemma ids_allocated_fresh_witness : fresh_uid hpc_directory 10001 (so_far new_account_run).
Proof.
  refine (proj1 (proj1 (ids_allocated_fresh plain_names hpc_directory "eve" "E" "V" "e@hpc" None [] ()
    (history new_account_run) () (Ok 10001) [] (tail (history new_account_run)) Connect (Ok ()) _) 10001 _)).
  - apply (exec_runs_pair small_directory (ldap_client plain_names hpc_directory
      (CreateUser "eve" "E" "V" "e@hpc" None []) ()) ()).
  - reflexivity.
Defined.

Lemma account_given_its_ids_witness :
  carried_out (given_account plain_names hpc_directory "eve" "E" "V" "e@hpc" None [] 7 8 "/h" "/s")
    (so_far given_account_run).
Proof.
  refine (proj1 (account_given_its_ids plain_names hpc_directory "eve" "E" "V" "e@hpc" None [] 7 8 "/h" "/s" ()
    (history given_account_run) () (Ok ()) [] (tail (history given_account_run)) Connect (Ok ()) _)).
  apply (exec_runs_pair small_directory (ldap_client plain_names hpc_directory
      (CreateUserWithIds "eve" "E" "V" "e@hpc" 7 8 "/h" "/s" None []) ()) ()).
Defined.

Lemma membership_removed_witness :
  left_group (ln_escape_rdn plain_names) hpc_directory "g" "bob" "member" (so_far leaving_run).
Proof.
  refine (proj1 (membership_removed (ln_escape_rdn plain_names) hpc_directory "g" "bob" "member" ()
    (history leaving_run) () (Ok ()) [] (tail (history leaving_run)) Connect (Ok ()) _) _).
  - apply (exec_runs_pair small_directory (ldap_client plain_names hpc_directory
      (RemoveUserFromGroup "g" "bob" "member") ()) ()).
  - reflexivity.
Defined.

Lemma accounts_parked_and_restored_witness : ∃ entry entry',
  looked_up (ln_escape_filter_chars plain_names) hpc_directory "bob" entry (so_far parking_run) ∧
  modified plain_value (disabling plain_value entry NOLOGIN_SHELL) entry = Some entry' ∧
  parked plain_value entry NOLOGIN_SHELL entry'.
Proof.
  destruct (proj1 (accounts_parked_and_restored plain_names hpc_directory "bob" NOLOGIN_SHELL ()
    (history parking_run) () [] (tail (history parking_run)) Connect (Ok ()) (λ s, eq_refl)
    (exec_runs_pair small_directory (ldap_client plain_names hpc_directory (DisableUser "bob" NOLOGIN_SHELL) ()) ())))
    as (entry & entry' & Hfound & _ & Hmod & Hpark & _).
  by exists entry, entry'.
Defined.

(** ** Names in DNs *)

(** The two digits for a number below 16. *)
Definition digits (n : nat) : list ascii :=
  omap (String.get n) ["0123456789abcdef"; "0123456789ABCDEF"]%string.

(** The ways RFC 4514 has of writing a value: a character as it is, one of the special
    characters after a backslash, or a byte as two hexadecimal digits. *)
Definition special : list ascii := ascii_of_nat 34 :: [" "; "#"; "="; "+"; ","; ";"; "<"; ">"; "\"]%char.

Inductive writes : string → string → Prop :=
| writes_end : writes "" ""
| writes_plain c value s : c ≠ BACKSLASH → writes value s → writes (String c value) (String c s)
| writes_special c value s : c ∈ special → writes value s →
    writes (String c value) (String BACKSLASH (String c s))
| writes_hex h l d e value s : d ∈ digits h → e ∈ digits l → writes value s →
    writes (String (ascii_of_nat (16 * h + l)) value) (String BACKSLASH (String d (String e s))).

Lemma digits_hex n d : d ∈ digits n → hex_value d = Some n.
Proof.
  intros Hd%list_elem_of_In.
  do 16 (destruct n as [|n]; [simpl in Hd; destruct Hd as [<-|[<-|[]]]; reflexivity|]). done.
Qed.

Lemma special_hex c : c ∈ special → hex_value c = None.
Proof. unfold special. rewrite !elem_of_cons, elem_of_nil. naive_solver. Qed.

Lemma unescape_plain c s : c ≠ BACKSLASH → unescape_dn_value (String c s) = String c (unescape_dn_value s).
Proof. intros Hc. simpl. destruct (Ascii.eqb_spec c BACKSLASH); [done|]. reflexivity. Qed.
Lemma unescape_hex d e c s : hex_pair d e = Some c →
  unescape_dn_value (String BACKSLASH (String d (String e s))) = String c (unescape_dn_value s).
Proof. intros Hc. simpl. by rewrite Hc. Qed.
Lemma unescape_special c s : c ∈ special →
  unescape_dn_value (String BACKSLASH (String c s)) = String c (unescape_dn_value s).
Proof.
  intros Hc%special_hex. destruct s as [|e s]; [done|]. simpl. unfold hex_pair. by rewrite Hc.
Qed.

Lemma unescape_writes value s : writes value s → unescape_dn_value s = value.
Proof.
  induction 1 as [|c value s Hc _ IH|c value s Hc _ IH|h l d e value s Hd He _ IH]; [done|..].
  - by rewrite unescape_plain, IH.
  - by rewrite unescape_special, IH.
  - erewrite unescape_hex; [by rewrite IH|]. unfold hex_pair. by rewrite (digits_hex _ _ Hd), (digits_hex _ _ He).
Qed.

(** Two ways of writing a component of a DN. *)
Definition same_component (c c' : string * string) : Prop :=
  str_lower (strip c.1) = str_lower (strip c'.1) ∧
  ∃ value, writes value c.2 ∧ writes value c'.2.

(** Whichever way RFC 4514 allows for writing the value of a DN is read back as the
    value; the uid of a DN is the one that was written into it, and DNs that differ in
    the way their values are written, in the case of their attribute types or in spaces
    around these are the same in their normal form. *)
Theorem dn_values_decoded parse_dn dn dn' rest username typ value components components' :
  (parse_dn false dn = Some ((typ, value) :: rest) → str_lower (strip typ) = "uid"%string →
     writes username value → extract_uid_from_dn parse_dn dn = username) ∧
  (parse_dn true dn = Some components → parse_dn true dn' = Some components' →
     Forall2 same_component components components' →
     normalize_dn parse_dn dn = normalize_dn parse_dn dn').
Proof.
  split.
  - intros Hp Ht Hw. unfold extract_uid_from_dn. rewrite Hp, Ht. simpl. by apply unescape_writes.
  - intros Hp Hp' Hsame. unfold normalize_dn. rewrite Hp, Hp'. f_equal.
    clear Hp Hp'. induction Hsame as [|c c' l l' (Ht & v & Hv & Hv') _ IH]; [done|].
    cbn [map]. by rewrite Ht, (unescape_writes _ _ Hv), (unescape_writes _ _ Hv'), IH.
Qed.

Lemma dn_values_decoded_witness :
  extract_uid_from_dn (λ _ _, Some [("UID", "a\2Cb\+c"); ("ou", "People")])%string "uid=a\2Cb\+c,ou=People" = "a,b+c"%string.
Proof.
  refine (proj1 (dn_values_decoded (λ _ _, Some [("UID", "a\2Cb\+c"); ("ou", "People")])%string
    "uid=a\2Cb\+c,ou=People" "" [("ou", "People")]%string "a,b+c" "UID" "a\2Cb\+c" [] []) eq_refl eq_refl _).
  apply writes_plain; [done|]. apply (writes_hex 2 12); [vm_compute; set_solver..|]. apply writes_plain; [done|].
  apply writes_special; [unfold special; set_solver|]. apply writes_plain; [done|]. apply writes_end.
Defined.
