(* ===== verification/LdapReconcile.v ===== *)
(** * The LDAP username backend: decisions

    [plugins/ldap/waldur_site_agent_ldap/reconcile.py]: which entry Waldur says an account
    should have, and what to do about the one there is. *)

From stdpp Require Import base list strings gmap sets sorting pretty.
From Stdlib Require Import ZArith Lia Ascii.
From S2P Require Import Prelude.
From S2P Require Import Texts.
From S2P Require Import Structures.
From S2P Require Import FloatInts.
From S2P Require Import OfferingUsers.
From S2P Require Import LdapClient.

Local Open Scope prog_scope.
Local Open Scope Z_scope.

(** What only this plugin reads of an offering user. *)
Record posix_fields : Type := {
  uidnumber : field Z;
  primarygroup : field Z;
  home_directory : field string;
  login_shell : field string;
  user_first_name : field string;
  user_last_name : field string;
  customer_uuid : field string;
}.

Inductive SkipReason : Type := NO_USERNAME | IDS_UNSET | IDS_MISSING.

Inductive Outcome : Type :=
| CREATE | NOOP | UPDATE | DRIFT | UID_TAKEN | RENAME | KEY_CONFLICT | REENABLE.

Global Instance Outcome_eq_dec : EqDecision Outcome.
Proof. solve_decision. Defined.

Record DesiredEntry : Type := {
  de_username : string;
  de_uid_number : Z;
  de_gid_number : Z;
  de_home_directory : string;
  de_login_shell : string;
  de_first_name : string;
  de_last_name : string;
  de_email : string;
  de_waldur_username : option string;
}.

Record Decision : Type := {
  outcome : Outcome;
  updates : list (string * string);
  diff : list (string * (option Z * Z));
  uid_taken_by : option string;
  reason : option string;
  restamped_from : option string;
  duplicate_mail_owner : option string;
}.

Definition decision (o : Outcome) : Decision :=
  {| outcome := o; updates := []; diff := []; uid_taken_by := None; reason := None;
     restamped_from := None; duplicate_mail_owner := None |}.

(** [common_name] *)
Definition common_name (d : DesiredEntry) : string :=
  or_else (strip (de_first_name d +:+ " " +:+ de_last_name d)) (de_username d).

(** [_text] *)
Definition field_text (f : field string) : string := default "" (field_value f).

(** [rstrip("/")] *)
Fixpoint without_slashes (s : string) : string :=
  match s with
  | EmptyString => EmptyString
  | String c s =>
      let s := without_slashes s in
      if Ascii.eqb c "/" && negb (nonempty s) then "" else String c s
  end.

Section Decisions.
Context (text : json → string).

(** [attr]: the first value; [dict.get] of no entry is [None]. *)
Definition attr (entry : option attributes) (name : string) : option json :=
  entry ≫= λ entry, first_value entry name.

(** [_attr_text] *)
Definition attr_text (entry : option attributes) (name : string) : string :=
  match attr entry name with Some v => text v | None => "" end.

(** [_attr_number] *)
Definition attr_number (entry : option attributes) (name : string) : option Z :=
  match attr entry name with
  | None => None
  | Some (JInt z) => Some z
  | Some (JBool b) => Some (if b then 1 else 0)
  | Some (JStr EmptyString) => None
  | Some v => match int_of_text (text v) with Ok z => Some z | Err _ => None end
  end.

Definition build_desired (u : OfferingUser) (posix : posix_fields)
    (default_home_base default_login_shell waldur_username_attribute : string)
  : DesiredEntry + SkipReason :=
  let username := ou_username u in
  if negb (nonempty username) then inr NO_USERNAME
  else
    match uidnumber posix, primarygroup posix with
    | Unset, Unset => inr IDS_UNSET
    | Val uid_number, Val gid_number =>
        let home := field_text (home_directory posix) in
        let waldur_username := field_text (ou_user_username u) in
        inl {| de_username := username; de_uid_number := uid_number; de_gid_number := gid_number;
               de_home_directory := or_else home (without_slashes default_home_base +:+ "/" +:+ username);
               de_login_shell := or_else (field_text (login_shell posix)) default_login_shell;
               de_first_name := field_text (user_first_name posix);
               de_last_name := field_text (user_last_name posix);
               de_email := field_text (ou_user_email u);
               de_waldur_username :=
                 if nonempty waldur_username && nonempty waldur_username_attribute
                 then Some waldur_username else None |}
    | _, _ => inr IDS_MISSING
    end.

(** The one other entry of this account, or why there is none. *)
Definition rename_refusal (d : DesiredEntry) (key_owners : option (list string))
    (directory : list (string * attributes)) : string + string :=
  let key := default "" (de_waldur_username d) in
  match key_owners with
  | None => inr "waldur_username_attribute is not configured, so renames are not followed"
  | Some owners =>
      if negb (nonempty key) then inr "the account has no Waldur username to find its entry by"
      else
        match owners with
        | [] => inr ("no entry carries the Waldur username " +:+ key +:+ " (the " +:+
                     "holder is another person, or the POSIX and Waldur usernames changed at once)")
        | [owner] =>
            if bool_decide (attr_number (dict_get directory owner) "uidNumber" = Some (de_uid_number d))
            then inl owner
            else inr (owner +:+ " carries the Waldur username " +:+ key +:+ " but not this account's uidNumber")
        | _ => inr ("entries " +:+ String.concat ", " (merge_sort str_le owners) +:+
                    " all carry the Waldur username " +:+ key)
        end
  end%string.

Definition uid_taken (by_name : string) (why : option string) : Decision :=
  {| outcome := UID_TAKEN; updates := []; diff := []; uid_taken_by := Some by_name; reason := why;
     restamped_from := None; duplicate_mail_owner := None |}.

(** The owners of a key or a uid besides the account itself. *)
Definition other_than (username : string) (owner : option string) : option string :=
  match owner with
  | Some o => if String.eqb o username then None else Some o
  | None => None
  end.

(** There is no entry of the name. *)
Definition classify_missing (d : DesiredEntry) (uid_owner mail_owner : option string)
    (key_owners : option (list string)) (directory : list (string * attributes)) : Decision :=
  let key_others := List.filter (λ o, negb (String.eqb o (de_username d))) (default [] key_owners) in
  match key_others, other_than (de_username d) uid_owner with
  | [], None =>
      {| outcome := CREATE; updates := []; diff := []; uid_taken_by := None; reason := None;
         restamped_from := None;
         duplicate_mail_owner :=
           match other_than (de_username d) mail_owner with
           | Some o => if nonempty o then Some o else None
           | None => None
           end |}
  | _, other =>
      match rename_refusal d key_owners directory with
      | inl old_name => {| outcome := RENAME; updates := []; diff := []; uid_taken_by := Some old_name;
                           reason := None; restamped_from := None; duplicate_mail_owner := None |}
      | inr why => uid_taken (default (String.concat ", " key_others) other) (Some why)
      end
  end.

(** [held_key] and [restamp_from]; [None] when the entry carries another person's key. *)
Definition held_key (actual : attributes) (waldur_username_attribute : string) : string :=
  if nonempty waldur_username_attribute then attr_text (Some actual) waldur_username_attribute else "".

Definition restamp (d : DesiredEntry) (actual : attributes) (waldur_username_attribute : string)
    (current_keys : list string) : option (option string) :=
  let held := held_key actual waldur_username_attribute in
  match de_waldur_username d with
  | Some key =>
      if nonempty held && nonempty key && negb (String.eqb held key) then
        if bool_decide (attr_number (Some actual) "uidNumber" = Some (de_uid_number d)) &&
           negb (bool_decide (held ∈ current_keys))
        then Some (Some held) else None
      else Some None
  | None => Some None
  end.

Definition id_diff (d : DesiredEntry) (actual : attributes) : list (string * (option Z * Z)) :=
  let one name wanted := let actual := attr_number (Some actual) name in
    if bool_decide (actual = Some wanted) then [] else [(name, (actual, wanted))] in
  one "uidNumber"%string (de_uid_number d) ++ one "gidNumber"%string (de_gid_number d).

Definition wanted_profile (d : DesiredEntry) : list (string * string) :=
  [("homeDirectory", de_home_directory d); ("loginShell", de_login_shell d); ("cn", common_name d);
   ("mail", de_email d); ("givenName", or_else (de_first_name d) (de_username d));
   ("sn", or_else (de_last_name d) (de_username d))]%string.

Definition wanted_key (d : DesiredEntry) (waldur_username_attribute held : string)
    (restamp_from : option string) (key_others : list string) : list (string * string) :=
  match de_waldur_username d with
  | Some key =>
      if nonempty waldur_username_attribute && nonempty key &&
         (negb (nonempty held) || bool_decide (restamp_from ≠ None)) &&
         match key_others with [] => true | _ => false end
      then [(waldur_username_attribute, key)] else []
  | None => []
  end.

Definition updates_for (actual : attributes) (wanted : list (string * string)) : list (string * string) :=
  fold_left (λ updates w,
    if nonempty w.2 && negb (String.eqb (attr_text (Some actual) w.1) w.2)
    then dict_set updates w.1 w.2 else updates) wanted [].

(** The entry is this account's, with its ids. *)
Definition classify_own (d : DesiredEntry) (actual : attributes) (waldur_username_attribute : string)
    (key_others : list string) (restamp_from : option string) : Decision :=
  let all := updates_for actual
    (wanted_profile d ++
     wanted_key d waldur_username_attribute (held_key actual waldur_username_attribute) restamp_from key_others) in
  let parked := is_disabled_by_agent text (Some actual) in
  {| outcome := if parked then REENABLE else match all with [] => NOOP | _ => UPDATE end;
     updates := if parked then List.filter (λ w, negb (String.eqb w.1 "loginShell")) all else all;
     diff := []; uid_taken_by := None; reason := None;
     restamped_from :=
       if bool_decide (is_Some (dict_get all waldur_username_attribute)) then restamp_from else None;
     duplicate_mail_owner := None |}.

Definition classify (d : DesiredEntry) (actual : option attributes) (uid_owner mail_owner : option string)
    (waldur_username_attribute : string) (key_owners : option (list string))
    (directory : list (string * attributes)) (current_keys : list string) : Decision :=
  match actual with
  | None => classify_missing d uid_owner mail_owner key_owners directory
  | Some entry =>
      match restamp d entry waldur_username_attribute current_keys with
      | None =>
          {| outcome := KEY_CONFLICT; updates := []; diff := []; uid_taken_by := None;
             reason := Some ("its " +:+ waldur_username_attribute +:+ " is " +:+
                             held_key entry waldur_username_attribute +:+ ", this account's Waldur " +:+
                             "username is " +:+ default "" (de_waldur_username d));
             restamped_from := None; duplicate_mail_owner := None |}
      | Some restamp_from =>
          match id_diff d entry with
          | [] => classify_own d entry waldur_username_attribute
                    (List.filter (λ o, negb (String.eqb o (de_username d))) (default [] key_owners)) restamp_from
          | diff =>
              match other_than (de_username d) uid_owner with
              | Some o =>
                  if bool_decide (is_Some (dict_get diff "uidNumber")) then uid_taken o None
                  else {| outcome := DRIFT; updates := []; diff := diff; uid_taken_by := None;
                          reason := None; restamped_from := None; duplicate_mail_owner := None |}
              | None => {| outcome := DRIFT; updates := []; diff := diff; uid_taken_by := None;
                           reason := None; restamped_from := None; duplicate_mail_owner := None |}
              end
          end
      end
  end.

(** [index_by_uid_number], [index_by_mail]: the first entry with the number or address. *)
Definition add_default {K V} `{EqDecision K} (index : list (K * V)) (k : K) (v : V) : list (K * V) :=
  match dict_get index k with Some _ => index | None => dict_set index k v end.

Definition index_by_uid_number (users : list (string * attributes)) : list (Z * string) :=
  fold_left (λ index user,
    match attr_number (Some user.2) "uidNumber" with
    | Some number => add_default index number user.1
    | None => index
    end) users [].

Definition index_by_mail (users : list (string * attributes)) : list (string * string) :=
  fold_left (λ index user,
    let mail := attr_text (Some user.2) "mail" in
    if nonempty mail then add_default index (str_lower mail) user.1 else index) users [].

(** [index.setdefault(key, []).append(name)] *)
Definition add_owner (index : list (string * list string)) (key name : string) : list (string * list string) :=
  dict_set index key (default [] (dict_get index key) ++ [name]).

Definition index_by_attribute (users : list (string * attributes)) (attribute : string)
  : list (string * list string) :=
  if nonempty attribute then
    fold_left (λ index user,
      let value := attr_text (Some user.2) attribute in
      if nonempty value then add_owner index value user.1 else index) users []
  else [].
End Decisions.

(** ** What Waldur says *)

(** An account is given an entry exactly when Waldur holds a name and both ids for it,
    under that name and with those ids and no other; home and shell fall back to the
    configured defaults, and an account without ids is told apart by whether Waldur sent
    the fields at all. *)
Theorem desired_as_waldur_says u posix home_base shell key_attribute :
  match build_desired u posix home_base shell key_attribute with
  | inl d =>
      ou_username u = de_username d ∧ de_username d ≠ "" ∧
      uidnumber posix = Val (de_uid_number d) ∧ primarygroup posix = Val (de_gid_number d) ∧
      de_home_directory d = match field_str (home_directory posix) with
                            | Some home => home
                            | None => without_slashes home_base +:+ "/" +:+ ou_username u
                            end ∧
      de_login_shell d = default shell (field_str (login_shell posix)) ∧
      (de_waldur_username d = if nonempty key_attribute then field_str (ou_user_username u) else None)
  | inr NO_USERNAME => ou_username u = ""
  | inr IDS_UNSET => ou_username u ≠ "" ∧ uidnumber posix = Unset ∧ primarygroup posix = Unset
  | inr IDS_MISSING => ou_username u ≠ "" ∧
      (uidnumber posix ≠ Unset ∨ primarygroup posix ≠ Unset) ∧
      ((∀ n, uidnumber posix ≠ Val n) ∨ (∀ n, primarygroup posix ≠ Val n))
  end.
Proof.
  unfold build_desired. destruct (nonempty (ou_username u)) eqn:Hu; cbn [negb].
  2:{ unfold nonempty in Hu. apply negb_false_iff, String.eqb_eq in Hu. exact Hu. }
  assert (Hne : ou_username u ≠ "") by (intros He; by rewrite He in Hu).
  destruct (uidnumber posix) as [| |uid], (primarygroup posix) as [| |gid]; try (naive_solver congruence).
  cbn [de_username de_uid_number de_gid_number de_home_directory de_login_shell de_waldur_username].
  split_and!; try done.
  - unfold or_else, field_text, field_str. destruct (home_directory posix) as [| |home]; simpl; try done.
    by destruct (nonempty home).
  - unfold or_else, field_text, field_str. destruct (login_shell posix) as [| |sh]; simpl; try done.
    by destruct (nonempty sh).
  - unfold field_text, field_str. destruct (ou_user_username u) as [| |key]; simpl;
      try (destruct (nonempty key)); simpl; by destruct (nonempty key_attribute).
Qed.

(** ** What is done about an entry *)

Section Classification.
Context (text : json → string) (d : DesiredEntry) (key_attribute : string).
Implicit Types (entry : attributes) (owner : option string) (D : Decision).

Local Abbreviation username := (de_username d).
Local Abbreviation held entry := (held_key text entry key_attribute).

Definition same_ids entry : Prop :=
  attr_number text (Some entry) "uidNumber" = Some (de_uid_number d) ∧
  attr_number text (Some entry) "gidNumber" = Some (de_gid_number d).

(** The entry carries no other person's key: none, this account's, or one that no current
    account has, and the account's uid. *)
Definition key_mine entry (current_keys : list string) : Prop :=
  held entry = "" ∨ field_str (from_option Val Null (de_waldur_username d)) = None ∨
  de_waldur_username d = Some (held entry) ∨
  (held entry ∉ current_keys ∧ attr_number text (Some entry) "uidNumber" = Some (de_uid_number d)).

Definition only_mine owner : Prop := ∀ o, owner = Some o → o = username.

(** The one entry with the account's key has its uid too. *)
Definition moved_from (key_owners : option (list string)) (directory : list (string * attributes)) (old : string)
  : Prop :=
  key_owners = Some [old] ∧ (∃ key, de_waldur_username d = Some key ∧ key ≠ "") ∧
  attr_number text (dict_get directory old) "uidNumber" = Some (de_uid_number d).

(** Every attribute that Waldur has a value for has that value. *)
Definition agrees entry (wanted : list (string * string)) : Prop :=
  ∀ name value, (name, value) ∈ wanted → value ≠ "" → attr_text text (Some entry) name = value.

Definition verdict (actual : option attributes) (uid_owner : option string) (key_owners : option (list string))
    (directory : list (string * attributes)) (current_keys : list string) D : Prop :=
  match outcome D with
  | CREATE => actual = None ∧ only_mine uid_owner ∧ (∀ o, o ∈ default [] key_owners → o = username)
  | RENAME => actual = None ∧ ∃ old, uid_taken_by D = Some old ∧ moved_from key_owners directory old
  | UID_TAKEN => ∃ o, o ≠ username ∧ (uid_owner = Some o ∨ (actual = None ∧ o ∈ default [] key_owners))
  | KEY_CONFLICT => ∃ entry, actual = Some entry ∧ ¬ key_mine entry current_keys
  | DRIFT => ∃ entry, actual = Some entry ∧ key_mine entry current_keys ∧ ¬ same_ids entry ∧
      (attr_number text (Some entry) "uidNumber" ≠ Some (de_uid_number d) → only_mine uid_owner)
  | NOOP | UPDATE | REENABLE => ∃ entry, actual = Some entry ∧ key_mine entry current_keys ∧ same_ids entry ∧
      (outcome D = NOOP → agrees entry (wanted_profile d)) ∧
      (outcome D = REENABLE ↔ is_disabled_by_agent text (Some entry) = true) ∧
      (outcome D = UPDATE → updates D ≠ []) ∧
      ∀ name value, (name, value) ∈ updates D → value ≠ "" ∧ attr_text text (Some entry) name ≠ value ∧
        ((name, value) ∈ wanted_profile d ∨
         name = key_attribute ∧ de_waldur_username d = Some value ∧ key_attribute ≠ "" ∧
         (∀ o, o ∈ default [] key_owners → o = username))
  end ∧
  (updates D ≠ [] → outcome D = UPDATE ∨ outcome D = REENABLE).

Lemma others_empty (l : list string) : List.filter (λ o, negb (String.eqb o username)) l = [] →
  ∀ o, o ∈ l → o = username.
Proof.
  intros Hf o Ho%list_elem_of_In. destruct (String.eqb_spec o username) as [|Hne]; [done|]. exfalso.
  assert (Hin : In o (List.filter (λ o, negb (String.eqb o username)) l)).
  { apply filter_In. split; [done|]. by destruct (String.eqb_spec o username). }
  by rewrite Hf in Hin.
Qed.

Lemma others_cons (l l' : list string) x : List.filter (λ o, negb (String.eqb o username)) l = x :: l' →
  x ∈ l ∧ x ≠ username.
Proof.
  intros Hf. assert (Hin : In x (List.filter (λ o, negb (String.eqb o username)) l)) by (rewrite Hf; by left).
  apply filter_In in Hin as [Hin Hx]. split; [by apply list_elem_of_In|].
  by destruct (String.eqb_spec x username).
Qed.

Lemma other_than_some owner o : other_than username owner = Some o → owner = Some o ∧ o ≠ username.
Proof. unfold other_than. destruct owner as [x|]; [|done]. destruct (String.eqb_spec x username); naive_solver. Qed.
Lemma other_than_none owner : other_than username owner = None → only_mine owner.
Proof.
  unfold other_than, only_mine. destruct owner as [x|]; [|done].
  destruct (String.eqb_spec x username); naive_solver.
Qed.

Lemma rename_refusal_spec key_owners directory old :
  rename_refusal text d key_owners directory = inl old → moved_from key_owners directory old.
Proof.
  unfold rename_refusal, moved_from. destruct key_owners as [owners|]; [|done].
  destruct (nonempty (default "" (de_waldur_username d))) eqn:Hk; cbn [negb]; [|done].
  destruct owners as [|o [|]]; [done| |done]. case_bool_decide as Hn; [|done]. intros [= <-].
  split; [done|]. split; [|done]. destruct (de_waldur_username d) as [key|]; [|done]. exists key.
  split; [done|]. by apply nonempty_spec.
Qed.

Lemma classify_missing_spec uid_owner mail_owner key_owners directory current_keys :
  verdict None uid_owner key_owners directory current_keys
    (classify_missing text d uid_owner mail_owner key_owners directory).
Proof.
  unfold classify_missing.
  destruct (List.filter _ _) as [|x others] eqn:Ho; destruct (other_than username uid_owner) as [o|] eqn:Hu.
  2:{ split; [|done]. simpl. split; [done|]. split; [by apply other_than_none|by apply others_empty]. }
  all: destruct (rename_refusal _ _ _ _) as [old|why] eqn:Hr; (split; [|done]); simpl;
    try (split; [done|]; exists old; split; [done|by apply rename_refusal_spec]).
  - apply other_than_some in Hu as [Hu Hne]. exists o. auto.
  - apply other_than_some in Hu as [Hu Hne]. exists o. auto.
  - apply others_cons in Ho as [Ho Hne]. exists x. auto.
Qed.

(** What is updated. *)
Definition differs entry (w : string * string) : bool :=
  nonempty w.2 && negb (String.eqb (attr_text text (Some entry) w.1) w.2).
Definition updating entry (acc : list (string * string)) (w : string * string) : list (string * string) :=
  if differs entry w then dict_set acc w.1 w.2 else acc.

Lemma updates_for_fold entry wanted : updates_for text entry wanted = fold_left (updating entry) wanted [].
Proof. done. Qed.

Lemma updates_for_elem entry wanted acc x :
  x ∈ fold_left (updating entry) wanted acc → x ∈ acc ∨ (x ∈ wanted ∧ differs entry x = true).
Proof.
  revert acc. induction wanted as [|w wanted IH]; intros acc; simpl; [by left|].
  intros [Hx|[Hx Hd]]%IH; [|right; split; [by right|done]].
  unfold updating in Hx. destruct (differs entry w) eqn:Hw; [|by left].
  apply elem_of_dict_set in Hx as [->|Hx]; [right|by left]. destruct w; split; [left|done].
Qed.

Lemma dict_set_cons (l : list (string * string)) k v : dict_set l k v ≠ [].
Proof. destruct l as [|[k' v'] l]; simpl; [done|]. by destruct (decide (k = k')). Qed.

Lemma updates_for_nil entry wanted acc : fold_left (updating entry) wanted acc = [] →
  acc = [] ∧ ∀ w, w ∈ wanted → differs entry w = false.
Proof.
  revert acc. induction wanted as [|w wanted IH]; intros acc; simpl; [intros ->; split; [done|]; by intros w ?%elem_of_nil|].
  intros [Hacc Hrest]%IH. unfold updating in Hacc.
  destruct (differs entry w) eqn:Hw; [by apply dict_set_cons in Hacc|].
  split; [done|]. intros w' [->|Hin]%elem_of_cons; auto.
Qed.

Lemma updates_kept entry wanted acc x : x.1 ∉ wanted.*1 → x ∈ acc → x ∈ fold_left (updating entry) wanted acc.
Proof.
  revert acc. induction wanted as [|w wanted IH]; intros acc Hn Hx; [done|]. simpl.
  rewrite fmap_cons in Hn. apply not_elem_of_cons in Hn as [Hw Hn]. apply IH; [done|]. unfold updating.
  destruct (differs entry w); [|done]. clear IH. induction acc as [|[k v] acc IH]; [by apply elem_of_nil in Hx|].
  simpl. apply elem_of_cons in Hx as [->|Hx].
  - rewrite decide_False by done. by left.
  - destruct (decide (w.1 = k)); [by right|right; by apply IH].
Qed.

(** What differs is among the updates. *)
Lemma updates_complete entry wanted acc x : NoDup wanted.*1 → x ∈ wanted → differs entry x = true →
  x ∈ fold_left (updating entry) wanted acc.
Proof.
  revert acc. induction wanted as [|w wanted IH]; intros acc Hnd Hx Hd; [by apply elem_of_nil in Hx|]. simpl.
  rewrite fmap_cons in Hnd. apply NoDup_cons in Hnd as [Hw Hnd].
  apply elem_of_cons in Hx as [->|Hx]; [|by apply IH]. apply updates_kept; [done|].
  unfold updating. rewrite Hd. destruct w. apply dict_set_elem.
Qed.

Lemma differs_spec entry n v : differs entry (n, v) = true ↔ v ≠ "" ∧ attr_text text (Some entry) n ≠ v.
Proof.
  unfold differs. simpl. rewrite andb_true_iff, nonempty_spec, negb_true_iff, String.eqb_neq. done.
Qed.

Lemma agrees_differs entry wanted : agrees entry wanted ↔ ∀ w, w ∈ wanted → differs entry w = false.
Proof.
  split.
  - intros Ha [n v] Hin. apply not_true_iff_false. rewrite differs_spec. intros [Hv Hn]. by apply Hn, Ha.
  - intros Hw n v Hin Hv. destruct (decide (attr_text text (Some entry) n = v)) as [|Hn]; [done|].
    specialize (Hw _ Hin). apply not_true_iff_false in Hw. rewrite differs_spec in Hw. by destruct Hw.
Qed.

Lemma restamp_mine entry current_keys r : restamp text d entry key_attribute current_keys = Some r →
  key_mine entry current_keys.
Proof.
  unfold restamp, key_mine. destruct (de_waldur_username d) as [key|]; [|by right; left].
  destruct (nonempty (held entry)) eqn:Hh; simpl; [|left; unfold nonempty in Hh; by apply negb_false_iff, String.eqb_eq in Hh].
  destruct (nonempty key) eqn:Hk; simpl; [|by right; left].
  destruct (String.eqb_spec (held entry) key) as [->|Hne]; simpl; [by right; right; left|].
  destruct (bool_decide _ && negb _) eqn:Hb; [|done].
  apply andb_prop in Hb as [Hu%bool_decide_eq_true Hc%negb_true_iff%bool_decide_eq_false]. intros _.
  right; right; right. done.
Qed.

Lemma restamp_not_mine entry current_keys : restamp text d entry key_attribute current_keys = None →
  ¬ key_mine entry current_keys.
Proof.
  unfold restamp, key_mine. destruct (de_waldur_username d) as [key|]; [|done]. simpl.
  destruct (nonempty (held entry)) eqn:Hh; simpl; [|done].
  destruct (nonempty key) eqn:Hk; simpl; [|done].
  destruct (String.eqb_spec (held entry) key) as [|Hne]; simpl; [done|].
  destruct (bool_decide _ && negb _) eqn:Hb; [done|]. apply nonempty_spec in Hh. intros _.
  apply andb_false_iff in Hb as [Hu%bool_decide_eq_false|Hc%negb_false_iff%bool_decide_eq_true]; naive_solver.
Qed.

Lemma id_diff_nil entry : id_diff text d entry = [] ↔ same_ids entry.
Proof.
  unfold id_diff, same_ids. cbv zeta. do 2 case_bool_decide; naive_solver.
Qed.

Lemma id_diff_uid entry :
  is_Some (dict_get (id_diff text d entry) "uidNumber") ↔ attr_number text (Some entry) "uidNumber" ≠ Some (de_uid_number d).
Proof.
  unfold id_diff. cbv zeta. destruct (bool_decide _) eqn:Hu; simpl;
    [apply bool_decide_eq_true in Hu|apply bool_decide_eq_false in Hu; split; [done|by eexists]].
  split; [|done]. by destruct (bool_decide _); simpl; intros [? ?].
Qed.

Lemma wanted_key_spec h r others name value :
  (name, value) ∈ wanted_key d key_attribute h r others →
  name = key_attribute ∧ de_waldur_username d = Some value ∧ key_attribute ≠ "" ∧ others = [] ∧
  (h = "" ∨ r ≠ None).
Proof.
  unfold wanted_key. destruct (de_waldur_username d) as [key|]; [|by intros ?%elem_of_nil].
  destruct (_ && _ && _ && _) eqn:Hb; [|by intros ?%elem_of_nil]. intros [= -> ->]%list_elem_of_singleton.
  apply andb_prop in Hb as [[[Ha%nonempty_spec Hk]%andb_prop Hr]%andb_prop Ho].
  split_and!; [done|done|done|by destruct others|].
  apply orb_prop in Hr as [Hr|Hr%bool_decide_eq_true]; [left|by right].
  apply negb_true_iff in Hr. unfold nonempty in Hr. by apply negb_false_iff, String.eqb_eq in Hr.
Qed.

Lemma classify_own_spec entry uid_owner key_owners directory current_keys r :
  key_mine entry current_keys → same_ids entry →
  verdict (Some entry) uid_owner key_owners directory current_keys
    (classify_own text d entry key_attribute
       (List.filter (λ o, negb (String.eqb o username)) (default [] key_owners)) r).
Proof.
  intros Hkey Hids. unfold classify_own. cbv zeta. rewrite updates_for_fold.
  set (wanted := wanted_profile d ++ _). set (all := fold_left _ _ _).
  assert (Hall : ∀ name value, (name, value) ∈ all →
    value ≠ "" ∧ attr_text text (Some entry) name ≠ value ∧
      ((name, value) ∈ wanted_profile d ∨
       name = key_attribute ∧ de_waldur_username d = Some value ∧ key_attribute ≠ "" ∧
       (∀ o, o ∈ default [] key_owners → o = username))).
  { intros name value [Hx%elem_of_nil|[Hin Hd]]%updates_for_elem; [done|].
    apply differs_spec in Hd as [Hv Hn]. split; [done|]. split; [done|].
    apply elem_of_app in Hin as [Hin|Hin]; [by left|right].
    apply wanted_key_spec in Hin as (? & ? & ? & Ho & _). split_and!; [done..|by apply others_empty]. }
  assert (Hnil : all = [] → agrees entry (wanted_profile d)).
  { intros Hn. apply agrees_differs. intros w Hw. apply updates_for_nil in Hn as [_ Hn]. apply Hn.
    apply elem_of_app. by left. }
  unfold verdict. cbn [outcome updates].
  destruct (is_disabled_by_agent text (Some entry)) eqn:Hp.
  - split; [|by right]. exists entry. split_and!; try done.
    intros name value Hin. apply Hall. apply list_elem_of_In, filter_In in Hin as [Hin _]. by apply list_elem_of_In.
  - destruct all as [|w all']; (split; [|by auto]); exists entry;
      (split; [done|]; split; [done|]; split; [done|]; split; [intros Hn; first [by apply Hnil|discriminate]|]; split; [by rewrite ?Hp|];
       split; [done|]); intros name value; apply Hall.
Qed.

Lemma classify_spec actual uid_owner mail_owner key_owners directory current_keys :
  verdict actual uid_owner key_owners directory current_keys
    (classify text d actual uid_owner mail_owner key_attribute key_owners directory current_keys).
Proof.
  unfold classify. destruct actual as [entry|]; [|apply classify_missing_spec].
  destruct (restamp _ _ _ _ _) as [r|] eqn:Hr.
  2:{ split; [|done]. simpl. exists entry. split; [done|by apply restamp_not_mine]. }
  apply restamp_mine in Hr. pose proof (id_diff_nil entry) as Hnil. pose proof (id_diff_uid entry) as Huid.
  destruct (id_diff text d entry) as [|x diff]; [apply classify_own_spec; [done|by apply Hnil]|].
  assert (Hids : ¬ same_ids entry) by (intros Hs; by apply Hnil in Hs).
  destruct (other_than username uid_owner) as [o|] eqn:Ho.
  - apply other_than_some in Ho as [Ho Hne]. case_bool_decide as Hd; (split; [|done]); simpl.
    + exists o. auto.
    + exists entry. split_and!; [done..|]. intros Hn. by apply Huid in Hn.
  - split; [|done]. simpl. exists entry. split_and!; [done..|]. intros _. by apply other_than_none.
Qed.
(** ** What a verdict carries *)

(** Why the account was not found under another name. *)
Inductive refusal (key_owners : option (list string)) (directory : list (string * attributes)) : string → Prop :=
| RenamesNotFollowed :
    key_owners = None →
    refusal key_owners directory "waldur_username_attribute is not configured, so renames are not followed"
| NoKey owners :
    key_owners = Some owners → (∀ key, de_waldur_username d = Some key → key = "") →
    refusal key_owners directory "the account has no Waldur username to find its entry by"
| NobodyHasKey key :
    key_owners = Some [] → de_waldur_username d = Some key → key ≠ "" →
    refusal key_owners directory ("no entry carries the Waldur username " +:+ key +:+ " (the " +:+
      "holder is another person, or the POSIX and Waldur usernames changed at once)")
| OtherUid old key :
    key_owners = Some [old] → de_waldur_username d = Some key → key ≠ "" →
    attr_number text (dict_get directory old) "uidNumber" ≠ Some (de_uid_number d) →
    refusal key_owners directory
      (old +:+ " carries the Waldur username " +:+ key +:+ " but not this account's uidNumber")
| SeveralHaveKey owners key :
    key_owners = Some owners → (1 < length owners)%nat → de_waldur_username d = Some key → key ≠ "" →
    refusal key_owners directory ("entries " +:+ String.concat ", " (merge_sort str_le owners) +:+
      " all carry the Waldur username " +:+ key).

Lemma rename_refused key_owners directory why :
  rename_refusal text d key_owners directory = inr why → refusal key_owners directory why.
Proof.
  unfold rename_refusal. destruct key_owners as [owners|]; [|intros [= <-]; by apply RenamesNotFollowed].
  destruct (de_waldur_username d) as [key|] eqn:Hk; simpl;
    [|intros [= <-]; apply (NoKey _ _ owners); [done|congruence]].
  destruct (nonempty key) eqn:Hne; simpl.
  2:{ intros [= <-]. apply (NoKey _ _ owners); [done|]. intros k Hk'. assert (k = key) as -> by congruence.
      unfold nonempty in Hne. by apply negb_false_iff, String.eqb_eq in Hne. }
  apply nonempty_spec in Hne. destruct owners as [|o [|o' owners]].
  - intros [= <-]. by apply NobodyHasKey.
  - case_bool_decide; [done|]. intros [= <-]. by apply OtherUid.
  - intros [= <-]. apply (SeveralHaveKey _ _ (o :: o' :: owners)); [done|simpl; lia|done..].
Qed.

(** The key of an entry that is replaced: another one than the account's. *)
Definition replaced_key entry (h : string) : Prop :=
  h = held entry ∧ h ≠ "" ∧ ∃ key, de_waldur_username d = Some key ∧ key ≠ "" ∧ key ≠ h.

Definition writes (D : Decision) (name value : string) : Prop := (name, value) ∈ updates D.

(** What each verdict carries, and that no other verdict carries it. *)
Definition carried (actual : option attributes) (uid_owner mail_owner : option string)
    (key_owners : option (list string)) (directory : list (string * attributes)) D : Prop :=
  (* who else has the address: said of an account to be created *)
  (∀ o, duplicate_mail_owner D = Some o ↔
     outcome D = CREATE ∧ mail_owner = Some o ∧ o ≠ "" ∧ o ≠ username) ∧
  (* which ids disagree, as they are and as they should be: said of a drifted account *)
  (∀ name have want, (name, (have, want)) ∈ diff D ↔ outcome D = DRIFT ∧ ∃ entry, actual = Some entry ∧
     have = attr_number text (Some entry) name ∧ have ≠ Some want ∧
     (name = "uidNumber" ∧ want = de_uid_number d ∨ name = "gidNumber" ∧ want = de_gid_number d)) ∧
  (* who has the uid or the key, and why no rename came of it *)
  (outcome D = UID_TAKEN →
     (∃ o, uid_owner = Some o ∧ o ≠ username ∧ uid_taken_by D = Some o) ∨
     (actual = None ∧ only_mine uid_owner ∧
      uid_taken_by D = Some (String.concat ", "
        (List.filter (λ o, negb (String.eqb o username)) (default [] key_owners))))) ∧
  (outcome D = UID_TAKEN → match actual with
     | None => ∃ why, reason D = Some why ∧ refusal key_owners directory why
     | Some _ => reason D = None
     end) ∧
  (uid_taken_by D ≠ None → outcome D = UID_TAKEN ∨ outcome D = RENAME) ∧
  (outcome D = KEY_CONFLICT → ∃ entry key, actual = Some entry ∧ de_waldur_username d = Some key ∧
     reason D = Some ("its " +:+ key_attribute +:+ " is " +:+ held entry +:+ ", this account's Waldur " +:+
                      "username is " +:+ key)) ∧
  (reason D ≠ None → outcome D = UID_TAKEN ∨ outcome D = KEY_CONFLICT) ∧
  (* the key that is replaced: said where the attribute of the keys is written *)
  (∀ h, restamped_from D = Some h → ∃ entry, actual = Some entry ∧ replaced_key entry h ∧
     (outcome D = UPDATE ∨ outcome D = REENABLE)) ∧
  (∀ entry h key, actual = Some entry → de_waldur_username d = Some key → writes D key_attribute key →
     replaced_key entry h → restamped_from D = Some h) ∧
  (* every value that differs is written, the shell of a parked account aside *)
  (outcome D = NOOP ∨ outcome D = UPDATE ∨ outcome D = REENABLE → key_attribute ∉ (wanted_profile d).*1 →
   ∀ entry name value, actual = Some entry → value ≠ "" → attr_text text (Some entry) name ≠ value →
     (outcome D = REENABLE → name ≠ "loginShell") →
     (name, value) ∈ wanted_profile d ∨
       name = key_attribute ∧ key_attribute ≠ "" ∧ de_waldur_username d = Some value ∧
       (∀ o, o ∈ default [] key_owners → o = username) →
     writes D name value).

Lemma id_diff_elem entry name have want :
  (name, (have, want)) ∈ id_diff text d entry ↔
  have = attr_number text (Some entry) name ∧ have ≠ Some want ∧
  (name = "uidNumber" ∧ want = de_uid_number d ∨ name = "gidNumber" ∧ want = de_gid_number d).
Proof.
  assert (Hone : ∀ n w, (name, (have, want)) ∈ (if bool_decide (attr_number text (Some entry) n = Some w) then []
      else [(n, (attr_number text (Some entry) n, w))]) ↔
    have = attr_number text (Some entry) name ∧ have ≠ Some want ∧ name = n ∧ want = w).
  { intros n w. case_bool_decide as Hb.
    - split; [by intros ?%elem_of_nil|]. intros (-> & Hne & -> & ->). done.
    - rewrite list_elem_of_singleton. split; [by intros [= -> -> ->]|]. by intros (-> & _ & -> & ->). }
  unfold id_diff. cbv zeta. rewrite elem_of_app, !Hone. tauto.
Qed.

Lemma classify_missing_carried uid_owner mail_owner key_owners directory :
  carried None uid_owner mail_owner key_owners directory
    (classify_missing text d uid_owner mail_owner key_owners directory).
Proof.
  unfold classify_missing.
  set (others := List.filter _ _).
  assert (Hdup : ∀ o, match other_than username mail_owner with
      Some o' => if nonempty o' then Some o' else None | None => None end = Some o ↔
    mail_owner = Some o ∧ o ≠ "" ∧ o ≠ username).
  { intros o. unfold other_than. destruct mail_owner as [m|]; [|naive_solver].
    destruct (String.eqb_spec m username) as [->|Hm]; [naive_solver|].
    destruct (nonempty m) eqn:Hn; [apply nonempty_spec in Hn; naive_solver|].
    split; [done|]. intros ([= ->] & Ho%nonempty_spec & _). congruence. }
  destruct others as [|x rest] eqn:Ho, (other_than username uid_owner) as [o|] eqn:Hu.
  all: try destruct (rename_refusal text d key_owners directory) as [old|why] eqn:Hr;
    unfold carried, writes, uid_taken; cbn [duplicate_mail_owner outcome diff uid_taken_by reason updates restamped_from]; repeat split; intros.
  all: try solve [set_solver|naive_solver|by apply Hdup].
  all: try solve [exists why; split; [done|by apply rename_refused]].
  all: try solve [left; apply other_than_some in Hu as [-> Hne]; eauto].
  right. split_and!; [done|by apply other_than_none|]. simpl. subst others. by rewrite Ho.
Qed.

Lemma restamp_key entry current_keys r : restamp text d entry key_attribute current_keys = Some r →
  (∀ h, r = Some h → replaced_key entry h) ∧ (∀ h, replaced_key entry h → r = Some h).
Proof.
  unfold restamp, replaced_key. destruct (de_waldur_username d) as [key|]; [|intros [= <-]; naive_solver].
  destruct (nonempty (held entry)) eqn:Hh; simpl.
  2:{ unfold nonempty in Hh. apply negb_false_iff, String.eqb_eq in Hh. intros [= <-]. naive_solver. }
  destruct (nonempty key) eqn:Hk; simpl.
  2:{ unfold nonempty in Hk. apply negb_false_iff, String.eqb_eq in Hk. intros [= <-]. naive_solver. }
  apply nonempty_spec in Hh, Hk. destruct (String.eqb_spec (held entry) key) as [He|Hne]; simpl.
  { intros [= <-]. naive_solver. }
  destruct (_ && _); [|done]. intros [= <-]. naive_solver.
Qed.

(** The key is wanted where nobody else has it, and the entry none or another one. *)
Lemma wanted_key_complete entry current_keys r key others :
  restamp text d entry key_attribute current_keys = Some r →
  de_waldur_username d = Some key → key ≠ "" → key_attribute ≠ "" → others = [] →
  attr_text text (Some entry) key_attribute ≠ key →
  (key_attribute, key) ∈ wanted_key d key_attribute (held entry) r others.
Proof.
  intros Hr Hd Hk Ha -> Hne. apply restamp_key in Hr as [_ Hr]. unfold wanted_key. rewrite Hd.
  apply nonempty_spec in Hk as Hk', Ha as Ha'. rewrite Ha', Hk'. simpl.
  destruct (nonempty (held entry)) eqn:Hh; simpl; [|by left].
  rewrite (Hr (held entry)); [by left|]. apply nonempty_spec in Hh. unfold replaced_key.
  split_and!; [done..|]. exists key. split_and!; [done..|]. unfold held_key. rewrite Ha'. done.
Qed.

Lemma wanted_once r h others : key_attribute ∉ (wanted_profile d).*1 →
  NoDup (wanted_profile d ++ wanted_key d key_attribute h r others).*1.
Proof.
  intros Hk. rewrite fmap_app. apply NoDup_app. split; [|split].
  - apply (bool_decide_unpack _). vm_compute. exact I.
  - intros n Hn [[n' v] [-> Hin]]%list_elem_of_fmap. apply wanted_key_spec in Hin as (-> & _). done.
  - unfold wanted_key. destruct (de_waldur_username d); [|constructor]. destruct (_ && _); [|constructor].
    apply NoDup_singleton.
Qed.

Lemma others_none (l : list string) : (∀ o, o ∈ l → o = username) →
  List.filter (λ o, negb (String.eqb o username)) l = [].
Proof.
  induction l as [|x l IH]; intros Hl; [done|]. simpl. rewrite (Hl x) by by left. rewrite String.eqb_refl. simpl.
  apply IH. intros o Ho. apply Hl. by right.
Qed.

Lemma classify_own_carried entry uid_owner mail_owner key_owners directory current_keys r :
  restamp text d entry key_attribute current_keys = Some r →
  carried (Some entry) uid_owner mail_owner key_owners directory
    (classify_own text d entry key_attribute
       (List.filter (λ o, negb (String.eqb o username)) (default [] key_owners)) r).
Proof.
  intros Hr. pose proof (restamp_key _ _ _ Hr) as [Hsome Hiff].
  unfold classify_own. cbv zeta. rewrite updates_for_fold.
  set (others := List.filter _ _). set (wanted := wanted_profile d ++ _). set (all := fold_left _ _ _).
  set (parked := is_disabled_by_agent text (Some entry)).
  assert (Hfull : key_attribute ∉ (wanted_profile d).*1 → ∀ name value,
    value ≠ "" → attr_text text (Some entry) name ≠ value →
    (name, value) ∈ wanted_profile d ∨
      name = key_attribute ∧ key_attribute ≠ "" ∧ de_waldur_username d = Some value ∧
      (∀ o, o ∈ default [] key_owners → o = username) → (name, value) ∈ all).
  { intros Hk name value Hv Hne Hin. apply updates_complete; [by apply wanted_once| |by apply differs_spec].
    apply elem_of_app. destruct Hin as [Hin|(-> & Ha & Hd & Hmine)]; [by left|right].
    apply (wanted_key_complete _ current_keys); try done. by apply others_none. }
  assert (Hkey : ∀ r', (if bool_decide (is_Some (dict_get all key_attribute)) then r else None) = Some r' →
    replaced_key entry r') by (intros r'; case_bool_decide; [auto|done]).
  assert (Hsaid : ∀ h key, (key_attribute, key) ∈ all → replaced_key entry h →
    (if bool_decide (is_Some (dict_get all key_attribute)) then r else None) = Some h).
  { intros h key Hin Hh. rewrite bool_decide_true; [by apply Hiff|]. by apply (dict_In_is_Some _ _ key). }
  unfold carried, writes. cbn [duplicate_mail_owner outcome diff uid_taken_by reason updates restamped_from].
  assert (Houtcome : ∀ o, (if parked then REENABLE else match all with [] => NOOP | _ => UPDATE end) = o →
    o = REENABLE ∧ parked = true ∨ parked = false ∧ (o = NOOP ∧ all = [] ∨ o = UPDATE ∧ all ≠ []))
    by (intros o <-; destruct parked, all; naive_solver).
  remember (if parked then REENABLE else match all with [] => NOOP | _ => UPDATE end) as o eqn:Ho.
  specialize (Houtcome o eq_refl). clear Ho.
  assert (Hkinds : o ≠ CREATE ∧ o ≠ DRIFT ∧ o ≠ UID_TAKEN ∧ o ≠ KEY_CONFLICT)
    by (destruct Houtcome as [[-> _]|[_ [[-> _]|[-> _]]]]; done).
  destruct Hkinds as (Hc & Hd & Hu & Hcf).
  split; [intros ?; split; [done|by intros [? _]]|].
  split; [intros ? ? ?; split; [by intros ?%elem_of_nil|by intros [? _]]|].
  do 5 (split; [done|]). split; [|split].
  - intros h Hh. exists entry. split; [done|]. split; [by apply Hkey|].
    destruct Houtcome as [[-> _]|[_ [[-> Hnil]|[-> _]]]]; [by right| |by left]. by rewrite Hnil in Hh.
  - intros e h key [= <-] _ Hin Hh. apply (Hsaid h key); [|done]. destruct parked; [|done].
    apply list_elem_of_In, filter_In in Hin as [Hin _]. by apply list_elem_of_In.
  - intros _ Hk e name value [= <-] Hv Hne Hshell Hin. specialize (Hfull Hk name value Hv Hne Hin).
    destruct Houtcome as [[-> ->]|[-> _]]; [|done].
    apply list_elem_of_In, filter_In. split; [by apply list_elem_of_In|]. simpl.
    apply negb_true_iff, String.eqb_neq. auto.
Qed.

Lemma classify_carried actual uid_owner mail_owner key_owners directory current_keys :
  carried actual uid_owner mail_owner key_owners directory
    (classify text d actual uid_owner mail_owner key_attribute key_owners directory current_keys).
Proof.
  unfold classify. destruct actual as [entry|]; [|apply classify_missing_carried].
  assert (Hnone : ∀ o why, o = KEY_CONFLICT ∧ why = Some ("its " +:+ key_attribute +:+ " is " +:+ held entry +:+
      ", this account's Waldur " +:+ "username is " +:+ default "" (de_waldur_username d)) ∧
      (∃ key, de_waldur_username d = Some key)  →
    carried (Some entry) uid_owner mail_owner key_owners directory
      {| outcome := o; updates := []; diff := []; uid_taken_by := None; reason := why;
         restamped_from := None; duplicate_mail_owner := None |}).
  { intros o why (-> & -> & key & Hk). unfold carried, writes.
    cbn [duplicate_mail_owner outcome diff uid_taken_by reason updates restamped_from].
    split; [intros ?; split; [done|by intros [? _]]|].
    split; [intros ? ? ?; split; [by intros ?%elem_of_nil|by intros [? _]]|].
    do 3 (split; [done|]). split; [intros _; exists entry, key; by rewrite Hk|]. split; [by right|].
    split; [done|]. split; [by intros ???? ? ?%elem_of_nil|]. naive_solver. }
  destruct (restamp _ _ _ _ _) as [r|] eqn:Hr.
  2:{ apply Hnone. split_and!; [done|done|]. unfold restamp in Hr. destruct (de_waldur_username d); [eauto|done]. }
  clear Hnone. destruct (id_diff text d entry) as [|x diff0] eqn:Hdiff; [by eapply classify_own_carried|].
  assert (Hdrift : carried (Some entry) uid_owner mail_owner key_owners directory
    {| outcome := DRIFT; updates := []; diff := x :: diff0; uid_taken_by := None; reason := None;
       restamped_from := None; duplicate_mail_owner := None |}).
  { rewrite <- Hdiff. unfold carried, writes.
    cbn [duplicate_mail_owner outcome diff uid_taken_by reason updates restamped_from].
    split; [intros ?; split; [done|by intros [? _]]|].
    split; [intros name have want; rewrite id_diff_elem; naive_solver|].
    do 5 (split; [done|]). split; [done|]. split; [by intros ???? ? ?%elem_of_nil|]. naive_solver. }
  destruct (other_than username uid_owner) as [o|] eqn:Ho; [|done]. case_bool_decide; [|done].
  apply other_than_some in Ho as [-> Hne]. unfold carried, writes, uid_taken.
  cbn [duplicate_mail_owner outcome diff uid_taken_by reason updates restamped_from].
  split; [intros ?; split; [done|by intros [? _]]|].
  split; [intros ? ? ?; split; [by intros ?%elem_of_nil|by intros [? _]]|].
  split; [left; by exists o|]. split; [done|]. split; [by left|]. split; [done|]. split; [done|].
  split; [done|]. split; [by intros ???? ? ?%elem_of_nil|]. naive_solver.
Qed.
End Classification.

(** C29: the verdict on an account: an entry is created only where there is none of the
    name and nobody else has the uid or the key; renamed only when the one entry with the
    key has the uid; written to only when it is not another person's by its key and both
    ids agree, and then only with values Waldur has and it has not; ids that disagree are
    left to the policy, never where another entry has the uid. Each verdict carries what it
    rests on and nothing else: a creation who else has the address; a drift exactly the ids
    that disagree, as they are and as they should be; a taken uid who has the uid or the key
    and why no rename came of it; a conflict both keys; an update every value that differs
    (the shell of a parked account aside, and where the key's attribute is none of the
    profile's) and the key it replaces. *)
Theorem accounts_classified_safely text d key_attribute actual uid_owner mail_owner key_owners directory
    current_keys :
  let D := classify text d actual uid_owner mail_owner key_attribute key_owners directory current_keys in
  verdict text d key_attribute actual uid_owner key_owners directory current_keys D ∧
  carried text d key_attribute actual uid_owner mail_owner key_owners directory D.
Proof. intros D. split; [apply classify_spec|apply classify_carried]. Qed.

(** ** What is written settles *)

Section Settling.
Context (text : json → string) (Htext : ∀ s, text (JStr s) = s).
Context (d : DesiredEntry) (key_attribute : string).
Context (Hattribute : key_attribute ∉ ["uidNumber"; "gidNumber"; "description"; "homeDirectory"; "loginShell";
                                      "cn"; "mail"; "givenName"; "sn"]%string).
Implicit Types (entry : attributes) (changes : list (string * string)).

(** The entry once [update_user_attributes] replaced these values. *)
Definition with_updates entry changes : attributes :=
  fold_left (λ entry w, dict_set entry w.1 [JStr w.2]) changes entry.

Lemma first_set_eq entry name values : first_value (dict_set entry name values) name = head values.
Proof. unfold first_value. rewrite dict_get_set_eq. by destruct values. Qed.
Lemma first_set_ne entry name name' values : name ≠ name' →
  first_value (dict_set entry name values) name' = first_value entry name'.
Proof. intros Hn. unfold first_value. by rewrite dict_get_set_ne. Qed.

Lemma updates_elsewhere changes entry name : name ∉ changes.*1 →
  dict_get (with_updates entry changes) name = dict_get entry name.
Proof.
  revert entry. unfold with_updates. induction changes as [|[n v] changes IH]; intros entry Hn; [done|]. simpl.
  rewrite fmap_cons in Hn. apply not_elem_of_cons in Hn as [Hn Hrest]. rewrite IH by done.
  by rewrite dict_get_set_ne.
Qed.

Lemma updates_here changes entry name value : NoDup changes.*1 → (name, value) ∈ changes →
  dict_get (with_updates entry changes) name = Some [JStr value].
Proof.
  revert entry. unfold with_updates. induction changes as [|[n v] changes IH]; intros entry Hnd Hin;
    [by apply elem_of_nil in Hin|]. simpl. rewrite fmap_cons in Hnd. apply NoDup_cons in Hnd as [Hn Hnd].
  apply elem_of_cons in Hin as [[= -> ->]|Hin]; [|by apply IH].
  pose proof (updates_elsewhere changes (dict_set entry n [JStr v]) n Hn) as He. unfold with_updates in He.
  by rewrite He, dict_get_set_eq.
Qed.

Lemma updates_NoDup entry wanted acc : NoDup acc.*1 → NoDup (fold_left (updating text entry) wanted acc).*1.
Proof.
  revert acc. induction wanted as [|w wanted IH]; intros acc Hnd; [done|]. simpl. apply IH. unfold updating.
  destruct (differs text entry w); [|done]. by apply dict_set_NoDup.
Qed.

Lemma updated_agrees entry wanted : NoDup wanted.*1 →
  agrees text (with_updates entry (updates_for text entry wanted)) wanted.
Proof.
  intros Hnd name value Hin Hv. rewrite updates_for_fold. set (u := fold_left _ _ _).
  assert (Hu : NoDup u.*1) by (apply updates_NoDup; constructor).
  unfold attr_text, attr, first_value. cbn [mbind option_bind].
  destruct (differs text entry (name, value)) eqn:Hd.
  - assert (Hin2 : (name, value) ∈ u) by by apply updates_complete.
    by rewrite (updates_here _ _ _ _ Hu Hin2), Htext.
  - assert (Hn : name ∉ u.*1).
    { intros ([n v] & [= ->] & Hx)%list_elem_of_fmap. apply updates_for_elem in Hx as [Hx%elem_of_nil|[Hx Hdx]]; [done|].
      assert (v = value) as ->; [|congruence].
      apply list_elem_of_lookup in Hx as [i Hi], Hin as [j Hj].
      assert (i = j) as <-; [|naive_solver].
      apply (NoDup_lookup wanted.*1 _ _ n); [done|by rewrite list_lookup_fmap, Hi|by rewrite list_lookup_fmap, Hj]. }
    rewrite (updates_elsewhere _ _ _ Hn).
    destruct (decide (attr_text text (Some entry) name = value)) as [He|Hne]; [exact He|].
    exfalso. apply not_true_iff_false in Hd. apply Hd, differs_spec. done.
Qed.

Lemma wanted_NoDup r held others : NoDup (wanted_profile d ++ wanted_key d key_attribute held r others).*1.
Proof. apply wanted_once. simpl. set_solver. Qed.

Lemma updates_of entry r held others n :
  n ∈ (updates_for text entry (wanted_profile d ++ wanted_key d key_attribute held r others)).*1 →
  n ∉ ["uidNumber"; "gidNumber"; "description"]%string.
Proof.
  intros ([n' v] & -> & Hx)%list_elem_of_fmap. apply updates_for_elem in Hx as [Hx%elem_of_nil|[Hx _]]; [done|].
  apply elem_of_app in Hx as [Hx|Hx]; [|apply wanted_key_spec in Hx as (-> & _); set_solver].
  unfold wanted_profile in Hx. set_solver.
Qed.

Lemma attr_elsewhere entry changes name : name ∉ changes.*1 →
  attr (Some (with_updates entry changes)) name = attr (Some entry) name.
Proof. intros Hn. unfold attr, first_value. cbn [mbind option_bind]. by rewrite updates_elsewhere. Qed.

Section Updated.
Context (entry : attributes) (r : option string) (others : list string).

Local Abbreviation held := (held_key text entry key_attribute).
Local Abbreviation changes := (updates_for text entry
  (wanted_profile d ++ wanted_key d key_attribute held r others)).
Local Abbreviation entry' := (with_updates entry changes).

Lemma ids_elsewhere n : n ∈ ["uidNumber"; "gidNumber"; "description"]%string → n ∉ changes.*1.
Proof. intros Hn Hin. by apply updates_of in Hin. Qed.

Lemma number_kept name : name ∈ ["uidNumber"; "gidNumber"; "description"]%string →
  attr_number text (Some entry') name = attr_number text (Some entry) name.
Proof. intros Hn. unfold attr_number. by rewrite attr_elsewhere by by apply ids_elsewhere. Qed.

Lemma parked_kept : is_disabled_by_agent text (Some entry') = is_disabled_by_agent text (Some entry).
Proof.
  unfold is_disabled_by_agent, texts_of. rewrite updates_elsewhere; [done|]. apply ids_elsewhere. set_solver.
Qed.

Lemma key_not_profile n v : (n, v) ∈ wanted_profile d → n ≠ key_attribute.
Proof. unfold wanted_profile. set_solver. Qed.

(** The key is this account's, or it is as it was and nothing is to be written. *)
Lemma key_written current_keys : restamp text d entry key_attribute current_keys = Some r →
  (wanted_key d key_attribute held r others = [] ∧ held_key text entry' key_attribute = held ∧
   restamp text d entry' key_attribute current_keys = Some r) ∨
  (∃ key, wanted_key d key_attribute held r others ≠ [] ∧ de_waldur_username d = Some key ∧ held_key text entry' key_attribute = key ∧ key ≠ "" ∧
     restamp text d entry' key_attribute current_keys = Some None).
Proof.
  intros Hr. assert (Hcase : wanted_key d key_attribute held r others = [] ∨
    ∃ n key, (n, key) ∈ wanted_key d key_attribute held r others).
  { destruct (wanted_key d key_attribute held r others) as [|[n key] l]; [by left|right]. exists n, key. left. }
  destruct Hcase as [Hw|(n & key & Hin)]; [left|right].
  - assert (Hheld : held_key text entry' key_attribute = held).
    { unfold held_key at 1 3. destruct (nonempty key_attribute); [|done]. unfold attr_text. rewrite attr_elsewhere; [done|].
      intros ([n v] & Hn & Hx)%list_elem_of_fmap. rewrite Hw, app_nil_r in Hx.
      apply updates_for_elem in Hx as [Hx%elem_of_nil|[Hx _]]; [done|]. by apply key_not_profile in Hx. }
    split; [done|]. split; [done|]. revert Hr. unfold restamp. rewrite Hheld, number_kept by set_solver. done.
  - pose proof (wanted_key_spec _ _ _ _ _ _ _ Hin) as (-> & Hk & Ha & _). exists key.
    assert (Hkey : key ≠ "").
    { unfold wanted_key in Hin. rewrite Hk in Hin. destruct (_ && _ && _ && _) eqn:Hb; [|by apply elem_of_nil in Hin].
      apply andb_prop in Hb as [[[_ Hb]%andb_prop _]%andb_prop _]. by apply nonempty_spec. }
    assert (Hheld : held_key text entry' key_attribute = key).
    { unfold held_key at 1. rewrite (proj2 (nonempty_spec _)) by done.
      apply (updated_agrees entry (wanted_profile d ++ wanted_key d key_attribute held r others)); [apply wanted_NoDup| |done].
      apply elem_of_app. by right. }
    split_and!; [by intros He; rewrite He in Hin; apply elem_of_nil in Hin|done..|]. unfold restamp. rewrite Hk, Hheld.
    destruct (nonempty key); [|done]. cbn [andb]. by rewrite String.eqb_refl.
Qed.

(** Nothing differs once the updates are in. *)
Lemma settled_updates r' : (wanted_key d key_attribute held r others = [] → r' = r) →
  (wanted_key d key_attribute held r others ≠ [] → r' = None) →
  (wanted_key d key_attribute held r others = [] → held_key text entry' key_attribute = held) →
  (wanted_key d key_attribute held r others ≠ [] → held_key text entry' key_attribute ≠ "") →
  updates_for text entry' (wanted_profile d ++
    wanted_key d key_attribute (held_key text entry' key_attribute) r' others) = [].
Proof.
  intros Hr1 Hr2 Hh1 Hh2.
  assert (Hnone : ∀ wanted, agrees text entry' wanted → updates_for text entry' wanted = []).
  { intros wanted Ha. pose proof (proj1 (agrees_differs _ _ _) Ha) as Hd. rewrite updates_for_fold. clear -Hd. rename Hd into Ha.
    induction wanted as [|w wanted IH]; [done|]. simpl. unfold updating at 2. rewrite Ha by left.
    apply IH. intros w' Hw'. apply Ha. by right. }
  apply Hnone. assert (Ha : agrees text entry' (wanted_profile d ++ wanted_key d key_attribute held r others)).
  { apply updated_agrees, wanted_NoDup. }
  intros n v [Hin|Hin]%elem_of_app Hv; [apply Ha; [|done]; apply elem_of_app; by left|].
  destruct (decide (wanted_key d key_attribute held r others = [])) as [He|Hne].
  - rewrite (Hr1 He), (Hh1 He), He in Hin. by apply elem_of_nil in Hin.
  - apply wanted_key_spec in Hin as (_ & _ & _ & _ & [Hh|Hh]); [by apply Hh2 in Hh|by rewrite Hr2 in Hh].
Qed.
End Updated.

(** C32: what an update writes settles: with the updates in, the same account is left alone
    on the next pass, whatever its key was; it is not renamed, renumbered or written to
    again. *)
Theorem updates_settle entry uid_owner mail_owner key_owners directory current_keys D :
  D = classify text d (Some entry) uid_owner mail_owner key_attribute key_owners directory current_keys →
  outcome D = UPDATE →
  outcome (classify text d (Some (with_updates entry (updates D))) uid_owner mail_owner key_attribute
             key_owners directory current_keys) = NOOP.
Proof.
  intros -> Hout. unfold classify in Hout |- *.
  destruct (restamp text d entry key_attribute current_keys) as [r|] eqn:Hr; [|done].
  pose proof (id_diff_nil text d entry) as Hnil.
  destruct (id_diff text d entry) as [|x diff] eqn:Hids.
  2:{ destruct (other_than _ uid_owner); [|done]. by destruct (bool_decide _). }
  pose proof (proj1 Hnil eq_refl) as [Huid Hgid].
  set (others := List.filter _ _) in *. unfold classify_own in Hout |- *. cbn [outcome updates] in Hout |- *.
  destruct (is_disabled_by_agent text (Some entry)) eqn:Hp; [done|].
  set (entry' := with_updates entry _).
  assert (Hids' : id_diff text d entry' = []).
  { apply id_diff_nil. unfold entry', same_ids. rewrite !number_kept by set_solver. done. }
  assert (Hp' : is_disabled_by_agent text (Some entry') = false) by (unfold entry'; by rewrite parked_kept).
  destruct (key_written entry r others current_keys Hr) as [(Hw & Hheld & Hr')|(key & Hw & Hk & Hheld & Hkey & Hr')];
    fold entry' in Hheld, Hr'; rewrite Hr', Hids'; cbn [outcome]; rewrite Hp'; subst entry'.
  - rewrite settled_updates; done.
  - rewrite settled_updates; try done. intros _. by rewrite Hheld.
Qed.
End Settling.

(** ** Indexes *)

Section Indexes.
Context (text : json → string).

Lemma add_default_keeps {K V} `{EqDecision K} (index : list (K * V)) k v k' :
  is_Some (dict_get index k') → is_Some (dict_get (add_default index k v) k').
Proof.
  intros Hk. unfold add_default. destruct (dict_get index k) eqn:He; [done|].
  destruct (decide (k = k')) as [<-|Hn]; [by rewrite dict_get_set_eq|by rewrite dict_get_set_ne].
Qed.

Lemma add_default_here {K V} `{EqDecision K} (index : list (K * V)) k v : is_Some (dict_get (add_default index k v) k).
Proof. unfold add_default. destruct (dict_get index k) eqn:He; [by rewrite He|by rewrite dict_get_set_eq]. Qed.

(** Every uid of the listing is in the index. *)
Lemma index_uid_complete users name entry n : (name, entry) ∈ users →
  attr_number text (Some entry) "uidNumber" = Some n → is_Some (dict_get (index_by_uid_number text users) n).
Proof.
  intros Hin Hn. unfold index_by_uid_number.
  set (step := λ (index : list (Z * string)) (user : string * attributes), _).
  assert (Hkeep : ∀ users index, is_Some (dict_get index n) → is_Some (dict_get (fold_left step users index) n)).
  { clear Hin. induction users0 as [|u users0 IH]; intros index Hi; [done|]. simpl. apply IH. unfold step.
    destruct (attr_number text (Some u.2) "uidNumber"); [by apply add_default_keeps|done]. }
  generalize (@nil (Z * string)). induction users as [|u users IH]; intros index; [by apply elem_of_nil in Hin|].
  simpl. apply elem_of_cons in Hin as [<-|Hin]; [|by apply IH].
  apply Hkeep. unfold step. simpl. rewrite Hn. apply add_default_here.
Qed.
End Indexes.

(** ** An account that changed *)

Definition plain_text (v : json) : string := match v with JStr s => s | JInt z => pretty z | _ => "" end.

Definition anna : DesiredEntry :=
  {| de_username := "anna"; de_uid_number := 1001; de_gid_number := 1001; de_home_directory := "/home/anna";
     de_login_shell := "/bin/bash"; de_first_name := "Anna"; de_last_name := "K"; de_email := "anna@hpc";
     de_waldur_username := Some "anna.k" |}.

(** Without a key yet, and with an old address. *)
Definition anna_entry : attributes :=
  [("uid", [JStr "anna"]); ("uidNumber", [JInt 1001]); ("gidNumber", [JInt 1001]);
   ("homeDirectory", [JStr "/home/anna"]); ("loginShell", [JStr "/bin/bash"]); ("cn", [JStr "Anna K"]);
   ("givenName", [JStr "Anna"]); ("sn", [JStr "K"]); ("mail", [JStr "old@hpc"])]%string.

Definition anna_verdict : Decision :=
  classify plain_text anna (Some anna_entry) (Some "anna"%string) (Some "anna"%string) "employeeNumber" (Some []) [] [].

Lemma updates_settle_witness :
  updates anna_verdict = [("mail", "anna@hpc"); ("employeeNumber", "anna.k")]%string ∧
  outcome (classify plain_text anna (Some (with_updates anna_entry (updates anna_verdict))) (Some "anna"%string)
             (Some "anna"%string) "employeeNumber" (Some []) [] []) = NOOP.
Proof.
  split; [vm_compute; reflexivity|].
  refine (updates_settle plain_text (λ s, eq_refl) anna "employeeNumber" _ anna_entry (Some "anna"%string)
    (Some "anna"%string) (Some []) [] [] anna_verdict eq_refl _).
  - apply (bool_decide_unpack _). vm_compute. exact I.
  - vm_compute. reflexivity.
Defined.
