(* ===== verification/LdapUsernames.v ===== *)
(** * The LDAP username backend: names, profiles, departures

    [plugins/ldap/waldur_site_agent_ldap/backend.py: LdapUsernameBackend]: the settings and
    the state of the backend, the names it gives accounts, and what becomes of accounts whose
    people leave.  Entries are kept by [LdapAccounts], groups by [LdapProjectGroups]. *)

From stdpp Require Import base list strings gmap sets sorting pretty.
From Stdlib Require Import ZArith Lia Ascii.
From S2P Require Import Prelude.
From S2P Require Import Texts.
From S2P Require Import Structures.
From S2P Require Import FloatInts.
From S2P Require Import OfferingUsers.
From S2P Require Import LdapClient.
From S2P Require Import LdapReconcile.

Local Open Scope prog_scope.
Local Open Scope Z_scope.

(** ** Settings *)

Inductive AccountSource : Type := LDAP | WALDUR.
Inductive PosixMismatchPolicy : Type := REPORT | ADOPT | FAIL.
Inductive DeparturePolicy : Type := DISABLE | DELETE.
Inductive UsernameFormat : Type :=
| FIRST_INITIAL_LASTNAME | FIRST_LETTER_FULL_LASTNAME | FIRSTNAME_DOT_LASTNAME | FIRSTNAME_LASTNAME
| WALDUR_USERNAME.

Global Instance UsernameFormat_eq_dec : EqDecision UsernameFormat.
Proof. solve_decision. Defined.

Record parent_group : Type := {
  pg_dn : string;
  pg_attribute : option string;
  pg_offering_uuids : list string;      (* none: the offering of the agent *)
}.

(** The [project_groups] block. *)
Record project_group_settings : Type := {
  gs_enabled : bool;
  gs_ou : option string;
  gs_object_classes : option (list string);
  gs_member_attribute : option string;
  gs_add_only : bool;
  gs_adopt_gid : bool;
  gs_parents : list parent_group;
  gs_organization_description : option string;
}.

(** The [ldap] block beside what the client reads. *)
Record username_settings : Type := {
  us_account_source : option AccountSource;
  us_on_posix_mismatch : option PosixMismatchPolicy;
  us_username_format : option UsernameFormat;
  us_remove_user_on_deactivate : option bool;
  us_on_departure : option DeparturePolicy;
  us_access_groups : option (option (list (string * option string)));  (* absent, null, or groups *)
  us_project_groups : option project_group_settings;
  us_generate_vpn_password : option bool;
  us_welcome_email : bool;
}.

Record username_backend : Type := {
  ub_waldur_authoritative : bool;
  ub_on_posix_mismatch : PosixMismatchPolicy;
  ub_username_format : UsernameFormat;
  ub_remove_user_on_deactivate : bool;
  ub_on_departure : DeparturePolicy;
  ub_access_groups : option (list (string * string));
  ub_project_groups : project_group_settings;
  ub_generate_vpn_password : bool;
  ub_email_sender : bool;
}.

Definition no_project_groups : project_group_settings :=
  {| gs_enabled := false; gs_ou := None; gs_object_classes := None; gs_member_attribute := None;
     gs_add_only := false; gs_adopt_gid := false; gs_parents := []; gs_organization_description := None |}.

(** [validate_attribute], [validate_id_range], [validate_organization_description],
    [validate_member_attribute], [validate_account_source] *)
Definition valid_access_group (g : string * option string) : bool :=
  bool_decide (default "memberUid" g.2 ∈ ["memberUid"; "member"]%string).

Fixpoint occurrences (sub s : string) : nat :=
  ((if String.prefix sub s then 1 else 0) +
   match s with String _ s => occurrences sub s | EmptyString => 0 end)%nat.

Definition valid_project_groups (s : project_group_settings) : bool :=
  match gs_organization_description s with
  | Some template => Nat.eqb (occurrences "{slug}" template) 1
  | None => true
  end &&
  (if bool_decide (gs_member_attribute s = Some "member"%string)
   then existsb (λ c, bool_decide (str_lower c ∈ ["groupofnames"; "groupofmembers"]%string))
          (default ["top"; "posixGroup"]%string (gs_object_classes s))
   else true).

Definition valid_settings (ls : ldap_settings) (s : username_settings) : bool :=
  forallb (λ bound, match bound with Some z => 0 <=? z | None => true end)
    [ls_uid_range_start ls; ls_uid_range_end ls; ls_gid_range_start ls; ls_gid_range_end ls] &&
  forallb valid_access_group (default [] (default None (us_access_groups s))) &&
  match us_project_groups s with Some g => valid_project_groups g | None => true end &&
  match default LDAP (us_account_source s) with
  | LDAP => default true (ls_personal_groups ls)
  | WALDUR => match us_username_format s with Some _ => false | None => true end
  end.

(** [__init__], with the configuration of the client. *)
Definition init (parse_dn : bool → string → option (list (string * string))) (ls : ldap_settings)
    (s : username_settings) : res (username_backend * ldap_config) :=
  if negb (valid_settings ls s) then Err (BackendError "Invalid LDAP backend settings")
  else
    let? cfg := LdapClient.init parse_dn ls in
    let authoritative := match default LDAP (us_account_source s) with WALDUR => true | LDAP => false end in
    Ok ({| ub_waldur_authoritative := authoritative;
           ub_on_posix_mismatch := default REPORT (us_on_posix_mismatch s);
           ub_username_format := default FIRST_INITIAL_LASTNAME (us_username_format s);
           ub_remove_user_on_deactivate := default authoritative (us_remove_user_on_deactivate s);
           ub_on_departure := default (if authoritative then DISABLE else DELETE) (us_on_departure s);
           ub_access_groups :=
             match us_access_groups s with
             | None => Some []
             | Some None => None
             | Some (Some groups) => Some (map (λ g, (g.1, default "memberUid"%string g.2)) groups)
             end;
           ub_project_groups := default no_project_groups (us_project_groups s);
           ub_generate_vpn_password := default false (us_generate_vpn_password s);
           ub_email_sender := us_welcome_email s |}, cfg).

(** ** What the backend asks for, and what it keeps *)

Inductive accountE : Type → Type :=
| Directory {X} (c : ldapE X) : accountE X
(* [marketplace_offering_users_list] of a user and a provider *)
| Siblings (user_uuid provider_uuid : string) : accountE (list OfferingUser)
| RandomPassword : accountE string
| SendMail (recipient username password : string) (uid_number : Z) : accountE unit
(* one GET of the listing of project groups, of an offering's provider or by the link to a
   page: the items, the count in the header and the link to the next page *)
| GroupsPage (page : string + string) : accountE (json * option string * option string).

(** What the process keeps for the offering, and the pass of the moment. *)
Record accounts_state : Type := {
  as_conflicted : gset string;           (* _CONFLICTED_ACCOUNTS *)
  as_full_pass_done : bool;              (* _FULL_ACCOUNT_PASS_DONE *)
  as_failed_pass : bool;                 (* _FAILED_ACCOUNT_PASS *)
  as_key_index : list (string * list string);
  (* _PassState *)
  as_existing : list (string * attributes);
  as_uid_index : list (Z * string);
  as_mail_index : list (string * string);
  as_pass_conflicted : gset string;
  as_current_keys : list string;
}.

Abbreviation account_m := (M accountE accounts_state).

Definition directory {S X} (c : ldapE X) : M accountE S X := call (Directory c).

(** [except BackendError], logged. *)
Definition unless_backend_error {S} (m : M accountE S unit) : M accountE S unit :=
  let! done := attempt m in
  match done with
  | Err e => if is_backend_error e then ret () else raise e
  | Ok _ => ret ()
  end.

(** [except Exception], logged: [send_welcome_email]. *)
Definition send_welcome_email (recipient username password : string) (uid_number : Z) : account_m unit :=
  attempt (call (SendMail recipient username password uid_number)) ;! ret ().

(** ** Names *)

Fixpoint keep_chars (p : ascii → bool) (s : string) : string :=
  match s with
  | EmptyString => EmptyString
  | String c s => if p c then String c (keep_chars p s) else keep_chars p s
  end.

Fixpoint drop_chars (p : ascii → bool) (s : string) : string :=
  match s with
  | EmptyString => EmptyString
  | String c s' => if p c then drop_chars p s' else s
  end.

Definition in_chars (first last : ascii) (c : ascii) : bool :=
  ((nat_of_ascii first <=? nat_of_ascii c)%nat && (nat_of_ascii c <=? nat_of_ascii last)%nat).
Definition is_lower : ascii → bool := in_chars "a" "z".
Definition is_alphanumeric (c : ascii) : bool :=
  is_lower c || in_chars "A" "Z" c || Texts.is_digit c.
Definition posix_char (c : ascii) : bool :=
  is_lower c || Texts.is_digit c || Ascii.eqb c "." || Ascii.eqb c "_" || Ascii.eqb c "-".

Section Backend.
Context (text : json → string) (cfg : ldap_config) (b : username_backend).
(** The fields of an offering user that only this plugin reads. *)
Context (posix : OfferingUser → posix_fields).
(** [unicodedata.normalize("NFD", s).encode("ascii", "ignore")] *)
Context (ascii_form : string → string).

(** [_normalize_name], [_sanitize_posix_username] *)
Definition normalize_name (name : string) : string := keep_chars is_alphanumeric (ascii_form name).

Definition sanitize_posix_username (raw : string) : string :=
  String.substring 0 32
    (drop_chars (λ c, negb (is_lower c || Ascii.eqb c "_")) (keep_chars posix_char (str_lower (ascii_form raw)))).

(** [_generate_username_string] *)
Definition generate_username_string (first_name last_name waldur_username : string) : string :=
  let first := normalize_name first_name in
  let last := normalize_name last_name in
  let initial := String.substring 0 1 first in
  match ub_username_format b with
  | WALDUR_USERNAME => sanitize_posix_username waldur_username
  | format =>
      if negb (nonempty first) || negb (nonempty last) then sanitize_posix_username waldur_username
      else str_lower
        match format with
        | FIRST_LETTER_FULL_LASTNAME => initial +:+ "." +:+ last
        | FIRSTNAME_DOT_LASTNAME => first +:+ "." +:+ last
        | FIRSTNAME_LASTNAME => first +:+ last
        | _ => initial +:+ last
        end
  end.

(** [_ensure_unique_username]: the names in the order they are tried. *)
Definition expanded (base_username first_name last_name : string) : list string :=
  if nonempty first_name && nonempty last_name && has_char "." base_username
  then List.filter (λ candidate, negb (String.eqb candidate base_username))
         (map (λ n, str_lower (String.substring 0 n first_name +:+ "." +:+ last_name))
            (seq 2 (String.length first_name - 1)))
  else [].

Definition numbered (base_username : string) : list string :=
  map (λ i, base_username +:+ pretty i) (seqZ 2 998).

Fixpoint first_free (candidates : list string) : account_m (option string) :=
  match candidates with
  | [] => ret None
  | candidate :: candidates =>
      let! there := directory (UserExists candidate) in
      if there : bool then first_free candidates else ret (Some candidate)
  end.

Definition ensure_unique_username (base_username first_name last_name : string) : account_m string :=
  let! free := first_free (base_username :: expanded base_username first_name last_name ++ numbered base_username) in
  match free with
  | Some username => ret username
  | None => raise (BackendError ("Cannot find unique username based on " +:+ base_username))
  end.

Definition get_username (u : OfferingUser) : account_m (option string) :=
  if ub_waldur_authoritative b then ret (if nonempty (ou_username u) then Some (ou_username u) else None)
  else
    let! by_mail :=
      match field_str (ou_user_email u) with
      | Some email =>
          let! user := directory (SearchUserByEmail email) in
          ret (user ≫= λ entry, text <$> first_value entry "uid")
      | None => ret None
      end in
    match by_mail, field_str (ou_user_username u) with
    | Some username, _ => ret (Some username)
    | None, Some waldur_username =>
        let! there := directory (UserExists waldur_username) in
        ret (if there : bool then Some waldur_username else None)
    | None, None => ret None
    end.

(** The access groups in turn; a null setting cannot be iterated. *)
Definition for_access_groups (f : string → string → account_m unit) : account_m unit :=
  match ub_access_groups b with
  | None => raise (TypeError "'NoneType' object is not iterable")
  | Some groups => for_each groups (λ g, f g.1 g.2)
  end.

(** [_add_to_access_groups], and the same loop after a creation *)
Definition add_to_access_groups (username : string) : account_m unit :=
  for_access_groups (λ group_name membership_type,
    unless_backend_error (directory (AddUserToGroup group_name username membership_type))).

(** [_remove_from_access_groups] *)
Definition remove_from_access_groups (username : string) : account_m unit :=
  for_access_groups (λ group_name membership_type,
    directory (RemoveUserFromGroup group_name username membership_type)).

Definition new_password : account_m (option string) :=
  if ub_generate_vpn_password b then let! password := call RandomPassword in ret (Some password) else ret None.

Definition key_of (waldur_username : string) : list (string * json) :=
  if nonempty (waldur_username_attribute cfg) && nonempty waldur_username
  then [(waldur_username_attribute cfg, JStr waldur_username)] else [].

(** The welcome mail, to an account that has an address. *)
Definition welcome (email username : string) (password : option string) (uid_number : Z) : account_m unit :=
  if ub_email_sender b && nonempty email
  then send_welcome_email email username (default "" password) uid_number else ret ().

Definition generate_username (u : OfferingUser) : account_m string :=
  if ub_waldur_authoritative b
  then raise (BackendError "account_source is 'waldur': this backend does not generate usernames.")
  else
    let first_name := field_text (user_first_name (posix u)) in
    let last_name := field_text (user_last_name (posix u)) in
    let email := field_text (ou_user_email u) in
    let waldur_username := field_text (ou_user_username u) in
    let username := generate_username_string first_name last_name waldur_username in
    if negb (nonempty username) then raise (BackendError "Cannot generate username: insufficient user data")
    else
      let! username := ensure_unique_username username (normalize_name first_name) (normalize_name last_name) in
      let! password := new_password in
      let! uid_number := directory (CreateUser username first_name last_name email password (key_of waldur_username)) in
      add_to_access_groups username ;!
      welcome email username password uid_number ;!
      ret username.

(** ** Profiles the directory owns *)

Definition legacy_updates (u : OfferingUser) : list (string * json) :=
  let given name (value : option string) : list (string * json) :=
    match value with Some v => [(name, JStr v)] | None => [] end in
  let first_name := field_str (user_first_name (posix u)) in
  let last_name := field_str (user_last_name (posix u)) in
  with_all []
    (given "givenName"%string first_name ++ given "sn"%string last_name ++
     match first_name, last_name with
     | Some f, Some l => [("cn"%string, JStr (f +:+ " " +:+ l))]
     | _, _ => []
     end ++
     given "mail"%string (field_str (ou_user_email u)) ++
     match field_str (ou_user_username u) with
     | Some waldur_username => key_of waldur_username
     | None => []
     end).

(** [_sync_profiles_legacy] *)
Definition sync_profiles_legacy (us : list OfferingUser) : account_m unit :=
  for_each us (λ u,
    if negb (nonempty (ou_username u)) then ret ()
    else
      let! there := directory (UserExists (ou_username u)) in
      if negb there then ret ()
      else match legacy_updates u with
           | [] => ret ()
           | updates => unless_backend_error (directory (UpdateUserAttributes (ou_username u) updates))
           end).

(** ** Departures *)

Definition deactivate_user (username : string) : account_m unit :=
  let! there := directory (UserExists username) in
  if negb there then ret ()
  else if ub_remove_user_on_deactivate b then
    unless_backend_error (
      for_access_groups (λ group_name membership_type,
        unless_backend_error (directory (RemoveUserFromGroup group_name username membership_type))) ;!
      directory (DeleteUser username))
  else ret ().

Definition deactivate_users (usernames : list string) : account_m unit := for_each usernames deactivate_user.

(** [_group_memberships] *)
Definition group_memberships (username : string) : account_m (list (string * string)) :=
  let! containers := if personal_groups cfg then ret true else directory GroupsContainerExists in
  if containers : bool then directory (FindGroupMemberships username) else ret [].

(** [_delete_account], [_disable_account] *)
Definition delete_account (username : string) : account_m unit :=
  remove_from_access_groups username ;! directory (DeleteUser username).

Definition disable_account (username : string) : account_m unit :=
  remove_from_access_groups username ;!
  let! memberships := group_memberships username in
  for_each memberships (λ m,
    if String.eqb m.1 username then ret () else directory (RemoveUserFromGroup m.1 username m.2)) ;!
  directory (DisableUser username NOLOGIN_SHELL).

(** [_live_account_elsewhere]: the user of the offering is among the siblings. *)
Definition live_account_elsewhere (u : OfferingUser) : account_m (option OfferingUser) :=
  match customer_uuid (posix u), nonempty (ou_user_uuid u) with
  | Unset, _ | _, false => raise (BackendError "the provider-wide check cannot run")
  | provider_uuid, true =>
      let! siblings := call (Siblings (ou_user_uuid u) (field_text provider_uuid)) in
      ret (List.find (λ sibling, String.eqb (ou_username sibling) (ou_username u) &&
                                 bool_decide (ou_state sibling ∈ LIVE_OFFERING_USER_STATES)) siblings)
  end.

(** What becomes of the entry of an account that nobody holds any more. *)
Definition retire (username : string) (entry : attributes) : account_m unit :=
  match ub_on_departure b with
  | DELETE => delete_account username
  | DISABLE => if is_disabled_by_agent text (Some entry) then ret () else disable_account username
  end.

(** One user of [release_users]; the answer tells whether it failed. *)
Definition release_user (u : OfferingUser) : account_m bool :=
  let username := ou_username u in
  if negb (nonempty username) then ret false
  else
    let! holder := attempt (live_account_elsewhere u) in
    match holder with
    | Err _ => ret true
    | Ok (Some _) => ret false
    | Ok None =>
        let! entry := directory (SearchUser username) in
        match entry with
        | None => ret false
        | Some entry =>
            let! released := attempt (retire username entry) in
            match released with
            | Ok _ => ret false
            | Err e => if is_backend_error e then ret true else raise e
            end
        end
    end.

Definition release_users (us : list OfferingUser) : account_m unit :=
  if negb (ub_remove_user_on_deactivate b) then ret ()
  else
    let! failed := fold_m us (λ failed u,
      let! fails := release_user u in ret (if fails : bool then failed ++ [ou_username u] else failed)) [] in
    match failed with
    | [] => ret ()
    | _ => raise (BackendError ("Could not release LDAP accounts: " +:+ String.concat ", " (merge_sort str_le failed)))
    end.
End Backend.

(** ** Names are free and portable *)

Lemma keep_chars_all p s : all_chars p (keep_chars p s) = true.
Proof.
  induction s as [|c s IH]; [done|]. cbn [keep_chars]. destruct (p c) eqn:Hc; [|done].
  cbn [all_chars]. by rewrite Hc.
Qed.

Lemma all_chars_drop p q s : all_chars p s = true → all_chars p (drop_chars q s) = true.
Proof.
  induction s as [|c s IH]; [done|]. cbn [drop_chars]. destruct (q c); [|done].
  cbn [all_chars]. intros [_ Hs]%andb_prop. by apply IH.
Qed.

Lemma all_chars_substring p n m s : all_chars p s = true → all_chars p (String.substring n m s) = true.
Proof.
  revert n m. induction s as [|c s IH]; intros n m; [by destruct n, m|]. cbn [all_chars].
  intros [Hc Hs]%andb_prop. destruct n, m; cbn; try done; [by rewrite Hc, IH|by apply IH|by apply IH].
Qed.

Lemma all_chars_impl p q s : (∀ c, p c = true → q c = true) → all_chars p s = true → all_chars q s = true.
Proof.
  intros Hpq. induction s as [|c s IH]; [done|]. cbn [all_chars]. intros [Hc Hs]%andb_prop.
  by rewrite (Hpq _ Hc), IH.
Qed.

Definition name_char (c : ascii) : bool := is_alphanumeric c || Ascii.eqb c ".".

Lemma lower_posix s : all_chars name_char s = true → all_chars posix_char (str_lower s) = true.
Proof.
  induction s as [|c s IH]; [done|]. cbn [all_chars]. intros [Hc Hs]%andb_prop.
  assert (Hl : ∀ c, name_char c = true → all_chars posix_char (str_lower (String c "")) = true).
  { clear. intros c. destruct c as [[] [] [] [] [] [] [] []]; vm_compute; done. }
  specialize (Hl c Hc). cbn [str_lower all_chars] in Hl |- *. rewrite andb_true_r in Hl. by rewrite Hl, IH.
Qed.

(** What login names are made of. *)
Definition portable (s : string) : Prop := all_chars posix_char s = true.

Section Names.
Context (text : json → string) (cfg : ldap_config) (b : username_backend) (posix : OfferingUser → posix_fields).
Context (ascii_form : string → string).

Lemma normalized_chars name : all_chars name_char (normalize_name ascii_form name) = true.
Proof.
  apply (all_chars_impl is_alphanumeric); [|apply keep_chars_all]. intros c Hc. unfold name_char. by rewrite Hc.
Qed.

Lemma sanitized_portable raw : portable (sanitize_posix_username ascii_form raw).
Proof. apply all_chars_substring, all_chars_drop, keep_chars_all. Qed.

Lemma dotted_chars s t : all_chars name_char s = true → all_chars name_char t = true →
  all_chars name_char (s +:+ "." +:+ t) = true.
Proof. intros Hs Ht. by rewrite !all_chars_app, Hs, Ht. Qed.
Lemma joined_chars s t : all_chars name_char s = true → all_chars name_char t = true →
  all_chars name_char (s +:+ t) = true.
Proof. intros Hs Ht. by rewrite all_chars_app, Hs, Ht. Qed.

Local Abbreviation base_name first last key := (generate_username_string b ascii_form first last key).

Lemma base_portable first last key : portable (base_name first last key).
Proof.
  unfold generate_username_string. pose proof (sanitized_portable key) as Hk.
  pose proof (normalized_chars first) as Hf. pose proof (normalized_chars last) as Hl.
  assert (Hi : all_chars name_char (String.substring 0 1 (normalize_name ascii_form first)) = true)
    by by apply all_chars_substring.
  destruct (_ || _); destruct (ub_username_format b); try done; apply lower_posix;
    first [by apply dotted_chars|by apply joined_chars].
Qed.

(** The names tried for an account. *)
Definition candidates (first last key : string) : list string :=
  let base := base_name first last key in
  base :: expanded base (normalize_name ascii_form first) (normalize_name ascii_form last) ++ numbered base.

Lemma pretty_portable z : 0 ≤ z → portable (pretty z).
Proof.
  intros Hz. apply (all_chars_impl is_digit); [|by apply digits_pretty].
  intros c Hc. unfold posix_char. rewrite Hc. by rewrite orb_true_r.
Qed.

Lemma candidates_portable first last key c : c ∈ candidates first last key → portable c.
Proof.
  unfold candidates, expanded, numbered. intros [->|[Hc|Hc]%elem_of_app]%elem_of_cons; [apply base_portable|..].
  - destruct (_ && _ && _); [|by apply elem_of_nil in Hc].
    apply list_elem_of_In, filter_In in Hc as [Hc _]. apply in_map_iff in Hc as (n & <- & _).
    apply lower_posix, dotted_chars; [apply all_chars_substring|]; apply normalized_chars.
  - apply list_elem_of_In, in_map_iff in Hc as (i & <- & Hi). apply list_elem_of_In, elem_of_seqZ in Hi.
    unfold portable. rewrite all_chars_app, base_portable. apply pretty_portable. lia.
Qed.

Lemma candidates_bounded first last key :
  (length (candidates first last key) ≤ 999 + String.length (normalize_name ascii_form first))%nat.
Proof.
  unfold candidates, expanded, numbered. cbn [length]. rewrite length_app, length_map, length_seqZ.
  destruct (_ && _ && _); cbn [length]; [|lia].
  match goal with |- context [List.filter ?f ?l] => pose proof (List.filter_length_le f l) as Hf end.
  rewrite length_map, length_seq in Hf. lia.
Qed.

(** What the directory said of a name. *)
Definition there (name : string) (H : trace accountE) : Prop := Ev (Directory (UserExists name)) (Ok true) ∈ H.
Definition free (name : string) (H : trace accountE) : Prop := Ev (Directory (UserExists name)) (Ok false) ∈ H.

(** The first of the names that is free. *)
Definition first_choice (names : list string) (name : string) (H : trace accountE) : Prop :=
  ∃ before after, names = before ++ name :: after ∧ free name H ∧ ∀ c, c ∈ before → there c H.

Lemma first_choice_elem names name H : first_choice names name H → name ∈ names.
Proof. intros (before & after & -> & _). apply elem_of_app. right. left. Qed.

Lemma first_choice_grows names name H H' : H ⊆ H' → first_choice names name H → first_choice names name H'.
Proof.
  intros Hs (before & after & -> & Hf & Hb). exists before, after. split; [done|]. split; [by apply Hs|].
  intros c Hc. by apply Hs, Hb.
Qed.

Lemma first_free_spec (G : guard accountE) names (s : accounts_state) H :
  (∀ H c, c ∈ names → G _ H (Directory (UserExists c))) →
  wpM G (first_free names) (answers H (λ r H', ∀ name, r = Some name → first_choice names name H')) s H.
Proof.
  revert s H. induction names as [|c names IH]; intros s H Hg; cbn [first_free]; [by apply answers_ret|].
  eapply (wpM_answers_bind G); [apply (answers_call G) with (P := λ r H', Ev (Directory (UserExists c)) (Ok r) ∈ H')|].
  - apply Hg. left.
  - intros r. left.
  - intros [] s1 H1 _ Hin.
    + eapply wpM_mono; [apply IH; intros; apply Hg; by right|].
      intros r s2 H2 [Hs2 Hr]. split; [done|]. intros r' -> name ->.
      destruct (Hr _ eq_refl name eq_refl) as (before & after & -> & Hf & Hb).
      exists (c :: before), after. split; [done|]. split; [done|].
      intros c' [->|Hc']%elem_of_cons; [by apply Hs2|by apply Hb].
    + apply answers_ret. intros name [= <-]. exists [], names. split; [done|]. split; [done|].
      intros c' Hc'. by apply elem_of_nil in Hc'.
Qed.

Context (u : OfferingUser).

Local Abbreviation first_name := (field_text (user_first_name (posix u))).
Local Abbreviation last_name := (field_text (user_last_name (posix u))).
Local Abbreviation key := (field_text (ou_user_username u)).
Local Abbreviation names := (candidates first_name last_name key).

(** The account was created in the directory. *)
Definition account_made (name : string) (uid_number : Z) (H : trace accountE) : Prop := ∃ password,
  Ev (Directory (CreateUser name first_name last_name (field_text (ou_user_email u)) password (key_of cfg key)))
    (Ok uid_number) ∈ H.

(** One account is created, of the first free name; what follows is about that account. *)
Definition naming_guard : guard accountE := λ X H c,
  match c with
  | RandomPassword => True
  | Directory (UserExists name) => name ∈ names
  | Directory (CreateUser name f l email password extra) =>
      first_choice names name H ∧ f = first_name ∧ l = last_name ∧
      email = field_text (ou_user_email u) ∧ extra = key_of cfg key
  | Directory (AddUserToGroup group_name name membership_type) =>
      (∃ groups, ub_access_groups b = Some groups ∧ (group_name, membership_type) ∈ groups) ∧
      ∃ uid_number, account_made name uid_number H
  | SendMail recipient name _ uid_number =>
      recipient = field_text (ou_user_email u) ∧ recipient ≠ "" ∧ account_made name uid_number H
  | _ => False
  end.

Lemma account_made_grows name uid_number H H' : H ⊆ H' → account_made name uid_number H → account_made name uid_number H'.
Proof. intros Hs (password & Hin). exists password. by apply Hs. Qed.

Local Abbreviation G := naming_guard.

Lemma unique_username_spec s H : 
  wpM G (ensure_unique_username (generate_username_string b ascii_form first_name last_name key)
           (normalize_name ascii_form first_name) (normalize_name ascii_form last_name))
    (answers H (first_choice names)) s H.
Proof.
  unfold ensure_unique_username. eapply (wpM_answers_bind G); [apply (first_free_spec G names); intros H' c Hc; exact Hc|].
  intros [name|] s1 H1 _ Hr; [|apply answers_raise]. apply answers_ret. by apply Hr.
Qed.

Lemma access_spec name uid_number s H : account_made name uid_number H →
  wpM G (add_to_access_groups b name) (answers H (λ _ _, True)) s H.
Proof.
  intros Hmade. unfold add_to_access_groups, for_access_groups.
  destruct (ub_access_groups b) as [groups|] eqn:Hg; [|apply answers_raise].
  eapply answers_mono; [apply (answers_for_each G) with (P := λ _ _, True); [done|]|done].
  intros g s1 H1 Hin Hs1. unfold unless_backend_error. eapply (wpM_answers_bind G) with (P := λ _ _, True).
  - eapply answers_mono; [apply answers_attempt; apply (answers_call G) with (P := λ _ _, True)|done]; [|done].
    split; [exists groups; split; [done|by destruct g]|]. exists uid_number. by eapply account_made_grows.
  - intros [[]|e] s2 H2 _ _; [by apply answers_ret|]. destruct (is_backend_error e); [by apply answers_ret|apply answers_raise].
Qed.

Lemma welcome_spec name password uid_number s H : account_made name uid_number H →
  wpM G (welcome b (field_text (ou_user_email u)) name password uid_number) (answers H (λ _ _, True)) s H.
Proof.
  intros Hmade. unfold welcome, send_welcome_email. destruct (ub_email_sender b && _) eqn:Hm; [|by apply answers_ret].
  apply andb_prop in Hm as [_ Hm%nonempty_spec].
  eapply (wpM_answers_bind G) with (P := λ _ _, True); [|by intros; apply answers_ret].
  eapply answers_mono; [apply answers_attempt; apply (answers_call G) with (P := λ _ _, True)|done]; [|done].
  split_and!; done.
Qed.

Lemma generate_username_spec s :
  wpM G (generate_username cfg b posix ascii_form u) (answers [] (λ name H',
    first_choice names name H' ∧ ∃ uid_number, account_made name uid_number H')) s [].
Proof.
  unfold generate_username. destruct (ub_waldur_authoritative b); [apply answers_raise|]. cbv zeta.
  destruct (negb (nonempty _)); [apply answers_raise|].
  eapply (wpM_answers_bind G); [apply unique_username_spec|]. intros name s1 H1 _ Hname.
  eapply (wpM_answers_bind G) with (P := λ _ _, True).
  { unfold new_password. destruct (ub_generate_vpn_password b); [|by apply answers_ret].
    eapply (wpM_answers_bind G) with (P := λ _ _, True); [by apply answers_call|]. intros. by apply answers_ret. }
  intros password s2 H2 Hs2 _.
  eapply (wpM_answers_bind G) with (P := λ uid_number H', account_made name uid_number H').
  { apply answers_call; [split_and!; [by eapply first_choice_grows|done..]|]. intros uid_number. exists password. left. }
  intros uid_number s3 H3 Hs3 Hmade.
  eapply (wpM_answers_bind G); [by eapply access_spec|]. intros u4 s4 H4 Hs4 _.
  assert (Hmade4 : account_made name uid_number H4) by by eapply account_made_grows.
  eapply (wpM_answers_bind G); [by eapply welcome_spec|]. intros u5 s5 H5 Hs5 _.
  apply answers_ret. split; [eapply first_choice_grows; [|exact Hname]; set_solver|].
  exists uid_number. by eapply account_made_grows.
Qed.
End Names.

(** The name a new account gets is portable (lower case letters, digits, dots,
    underscores and hyphens), the first in a bounded list of candidates that the directory
    did not have, all earlier ones being taken, and the account was created under it with
    the profile and the key of the user; nothing is asked for an account before that. *)
Theorem generated_names_free cfg b posix ascii_form u s τ s' answer τ1 τ2 {X} (c : accountE X) a :
  runs (generate_username cfg b posix ascii_form u s) τ (s', answer) →
  let names := candidates b ascii_form (field_text (user_first_name (posix u)))
                 (field_text (user_last_name (posix u))) (field_text (ou_user_username u)) in
  (length names ≤ 999 + String.length (normalize_name ascii_form (field_text (user_first_name (posix u)))))%nat ∧
  (∀ name, answer = Ok name → portable name ∧ first_choice names name (rev τ) ∧
     ∃ uid_number, account_made cfg posix u name uid_number (rev τ)) ∧
  (τ = τ1 ++ Ev c a :: τ2 → naming_guard cfg b posix ascii_form u X (rev τ1) c).
Proof.
  intros Hrun. cbv zeta. split; [apply candidates_bounded|].
  pose proof (generate_username_spec cfg b posix ascii_form u s) as Hspec. split.
  - intros name ->. destruct (proj2 (proj1 (wpM_sound _ _ _ _ _ _ _ Hspec Hrun)) name eq_refl) as [Hf Hm].
    split; [|done]. apply first_choice_elem in Hf. by eapply candidates_portable in Hf.
  - intros Hτ. exact (wpM_call_guard _ _ _ _ _ _ _ _ _ _ _ Hspec Hrun Hτ).
Qed.

(** ** Departures *)

Section Departures.
Context (text : json → string) (cfg : ldap_config) (b : username_backend) (posix : OfferingUser → posix_fields).
Implicit Types (H : trace accountE) (u : OfferingUser).

Definition live (u sibling : OfferingUser) : Prop :=
  ou_username sibling = ou_username u ∧ ou_state sibling ∈ LIVE_OFFERING_USER_STATES.

(** What Waldur listed of the user at the provider. *)
Definition listed_siblings u (siblings : list OfferingUser) H : Prop :=
  Ev (Siblings (ou_user_uuid u) (field_text (customer_uuid (posix u)))) (Ok siblings) ∈ H.
Definition nobody_holds u H : Prop := ∃ siblings, listed_siblings u siblings H ∧
  ∀ sibling, sibling ∈ siblings → ¬ live u sibling.
Definition somebody_holds u H : Prop := ∃ siblings sibling,
  listed_siblings u siblings H ∧ sibling ∈ siblings ∧ live u sibling.

Definition out_of (group_name username membership_type : string) H : Prop :=
  Ev (Directory (RemoveUserFromGroup group_name username membership_type)) (Ok ()) ∈ H.
Definition out_of_access_groups username H : Prop := ∃ groups, ub_access_groups b = Some groups ∧
  ∀ g, g ∈ groups → out_of g.1 username g.2 H.

(** Every membership that a complete listing showed was removed, but that of the personal
    group; or there is no container that could have groups. *)
Definition swept username H : Prop :=
  (∃ memberships, Ev (Directory (FindGroupMemberships username)) (Ok memberships) ∈ H ∧
     ∀ m, m ∈ memberships → m.1 ≠ username → out_of m.1 username m.2 H) ∨
  (personal_groups cfg = false ∧ Ev (Directory GroupsContainerExists) (Ok false) ∈ H).

Definition found username (entry : option attributes) H : Prop := Ev (Directory (SearchUser username)) (Ok entry) ∈ H.

(** An entry the agent has not parked already. *)
Definition in_use username H : Prop := ∃ entry, found username (Some entry) H ∧
  is_disabled_by_agent text (Some entry) = false.

(** There was no entry; or it was deleted after it left the access groups; or parked after
    it left every group, now or by an earlier release. *)
Definition gone username H : Prop :=
  found username None H ∨
  match ub_on_departure b with
  | DELETE => Ev (Directory (DeleteUser username)) (Ok ()) ∈ H ∧ out_of_access_groups username H
  | DISABLE =>
      (Ev (Directory (DisableUser username NOLOGIN_SHELL)) (Ok ()) ∈ H ∧
       out_of_access_groups username H ∧ swept username H) ∨
      ∃ entry, found username (Some entry) H ∧ is_disabled_by_agent text (Some entry) = true
  end.

(** An account is left alone while somebody holds it, and retired otherwise. *)
Definition released u H : Prop :=
  ou_username u = "" ∨ somebody_holds u H ∨ (nobody_holds u H ∧ gone (ou_username u) H).

Definition release_guard (us : list OfferingUser) : guard accountE := λ X H c,
  match c with
  | Siblings user_uuid provider_uuid => ∃ u, u ∈ us ∧ user_uuid = ou_user_uuid u ∧ user_uuid ≠ "" ∧
      provider_uuid = field_text (customer_uuid (posix u))
  | Directory (SearchUser _) | Directory GroupsContainerExists | Directory (FindGroupMemberships _) => True
  | Directory (RemoveUserFromGroup _ username _) =>
      (∃ entry, found username (Some entry) H) ∧
      (ub_on_departure b = DISABLE → in_use username H) ∧
      ∃ u, u ∈ us ∧ username = ou_username u ∧ nobody_holds u H
  | Directory (DeleteUser username) => ub_on_departure b = DELETE ∧ out_of_access_groups username H ∧
      (∃ entry, found username (Some entry) H) ∧
      ∃ u, u ∈ us ∧ username = ou_username u ∧ nobody_holds u H
  | Directory (DisableUser username shell) => ub_on_departure b = DISABLE ∧ shell = NOLOGIN_SHELL ∧
      out_of_access_groups username H ∧ swept username H ∧ in_use username H ∧
      ∃ u, u ∈ us ∧ username = ou_username u ∧ nobody_holds u H
  | _ => False
  end.

Lemma nobody_grows u H H' : H ⊆ H' → nobody_holds u H → nobody_holds u H'.
Proof. intros Hs (l & Hl & Hn). exists l. split; [by apply Hs|done]. Qed.
Lemma access_grows username H H' : H ⊆ H' → out_of_access_groups username H → out_of_access_groups username H'.
Proof. intros Hs (groups & Hg & Ho). exists groups. split; [done|]. intros g Hin. by apply Hs, Ho. Qed.
Lemma swept_grows username H H' : H ⊆ H' → swept username H → swept username H'.
Proof.
  intros Hs [(ms & Hm & Ho)|[Hp Hc]]; [left; exists ms|by right; split; [|apply Hs]].
  split; [by apply Hs|]. intros m Hin Hne. by apply Hs, Ho.
Qed.
Lemma found_grows username H H' : H ⊆ H' → (∃ entry, found username (Some entry) H) → ∃ entry, found username (Some entry) H'.
Proof. intros Hs (entry & Hf). exists entry. by apply Hs. Qed.
Lemma in_use_grows username H H' : H ⊆ H' → in_use username H → in_use username H'.
Proof. intros Hs (entry & Hf & Hd). exists entry. split; [by apply Hs|done]. Qed.
Lemma gone_grows username H H' : H ⊆ H' → gone username H → gone username H'.
Proof.
  intros Hs [Hf|Hg]; [left; by apply Hs|right]. destruct (ub_on_departure b).
  - destruct Hg as [(Hd & Ho & Hsw)|(entry & Hf & Hd)]; [left|right; exists entry; split; [by apply Hs|done]].
    split_and!; [by apply Hs|by eapply access_grows|by eapply swept_grows].
  - destruct Hg as [Hd Ho]. split; [by apply Hs|by eapply access_grows].
Qed.
Lemma released_grows u H H' : H ⊆ H' → released u H → released u H'.
Proof.
  intros Hs [Hn|[(l & sib & Hl & Hsib & Hlive)|[Hn Hg]]]; [by left|right; left|right; right].
  - exists l, sib. split; [by apply Hs|done].
  - split; [by eapply nobody_grows|by eapply gone_grows].
Qed.

Section Users.
Context (us : list OfferingUser).
Local Abbreviation G := (release_guard us).

Lemma holder_spec u s H : u ∈ us → 
  wpM G (live_account_elsewhere posix u) (answers H (λ holder H',
    match holder with Some _ => somebody_holds u H' | None => nobody_holds u H' end)) s H.
Proof.
  intros Hu. unfold live_account_elsewhere.
  assert (Hcheck : ou_user_uuid u ≠ "" →
    wpM G (let! siblings := call (Siblings (ou_user_uuid u) (field_text (customer_uuid (posix u)))) in
           ret (List.find (λ sibling, String.eqb (ou_username sibling) (ou_username u) &&
                                 bool_decide (ou_state sibling ∈ LIVE_OFFERING_USER_STATES)) siblings))
      (answers H (λ holder H', match holder with Some _ => somebody_holds u H' | None => nobody_holds u H' end)) s H).
  { intros Hne. eapply (wpM_answers_bind G); [apply (answers_call G) with (P := λ siblings H', listed_siblings u siblings H')|].
    - exists u. done.
    - intros siblings. left.
    - intros siblings s1 H1 _ Hl. apply answers_ret.
      destruct (List.find _ siblings) as [sib|] eqn:Hf.
      + apply find_some in Hf as [Hin Hb]. apply andb_prop in Hb as [Hn%String.eqb_eq Hs%bool_decide_eq_true].
        exists siblings, sib. split; [done|]. split; [by apply list_elem_of_In|done].
      + exists siblings. split; [done|]. intros sib Hin [Hn Hs].
        apply list_elem_of_In in Hin. pose proof (List.find_none _ _ Hf _ Hin) as Hb. cbv beta in Hb.
        rewrite Hn, String.eqb_refl, bool_decide_eq_true_2 in Hb; done. }
  destruct (customer_uuid (posix u)) eqn:Hc, (nonempty (ou_user_uuid u)) eqn:Hne; try apply answers_raise;
    rewrite <- Hc in *; apply Hcheck; by apply nonempty_spec.
Qed.

Section Account.
Context (u : OfferingUser) (Hu : u ∈ us).
Local Abbreviation username := (ou_username u).

(** What holds of an account that is retired. *)
Definition retired_soundly H : Prop := nobody_holds u H ∧ (∃ entry, found username (Some entry) H) ∧
  (ub_on_departure b = DISABLE → in_use username H).

Lemma retired_grows H H' : H ⊆ H' → retired_soundly H → retired_soundly H'.
Proof.
  intros Hs (Hn & Hf & Hu'). split; [by eapply nobody_grows|]. split; [by eapply found_grows|].
  intros Hp. eapply in_use_grows; [done|auto].
Qed.

Lemma removal_sound group_name membership_type H : retired_soundly H →
  release_guard us _ H (Directory (RemoveUserFromGroup group_name username membership_type)).
Proof. intros (Hn & Hf & Hp). split; [done|]. split; [done|]. by exists u. Qed.

Lemma access_removed_spec s H : retired_soundly H →
  wpM G (remove_from_access_groups b username) (answers H (λ _ H', out_of_access_groups username H')) s H.
Proof.
  intros Hn. unfold remove_from_access_groups, for_access_groups.
  destruct (ub_access_groups b) as [groups|] eqn:Hg; [|apply answers_raise].
  eapply answers_mono; [apply (answers_for_each G) with (P := λ g H', out_of g.1 username g.2 H')|].
  - intros g H1 H2 Hs Ho. by apply Hs.
  - intros g s1 H1 _ Hs1. apply answers_call; [by apply removal_sound; eapply retired_grows|]. intros []. left.
  - intros u1 H' Ho. exists groups. done.
Qed.

Lemma account_deleted s H : ub_on_departure b = DELETE → retired_soundly H →
  wpM G (delete_account b username) (answers H (λ _ H', gone username H')) s H.
Proof.
  intros Hp Hn. unfold delete_account. eapply (wpM_answers_bind G); [by apply access_removed_spec|].
  intros ux1 s1 H1 Hs1 Ho. destruct (retired_grows _ _ Hs1 Hn) as (Hn1 & Hf1 & _). apply answers_call.
  - split; [done|]. split; [done|]. split; [done|]. by exists u.
  - intros []. right. rewrite Hp. split; [left|]. eapply access_grows; [|exact Ho]. set_solver.
Qed.

Lemma disable_account_spec s H : ub_on_departure b = DISABLE → retired_soundly H →
  wpM G (disable_account cfg b username) (answers H (λ _ H', gone username H')) s H.
Proof.
  intros Hp Hn. unfold disable_account. eapply (wpM_answers_bind G); [by apply access_removed_spec|].
  intros ux1 s1 H1 Hs1 Ho.
  eapply (wpM_answers_bind G) with (P := λ memberships H',
    Ev (Directory (FindGroupMemberships username)) (Ok memberships) ∈ H' ∨
    (personal_groups cfg = false ∧ Ev (Directory GroupsContainerExists) (Ok false) ∈ H')).
  { unfold group_memberships. eapply (wpM_answers_bind G) with (P := λ containers H', containers = false →
      personal_groups cfg = false ∧ Ev (Directory GroupsContainerExists) (Ok false) ∈ H').
    - destruct (personal_groups cfg); [by apply answers_ret|]. apply answers_call; [done|]. intros r ->. split; [done|left].
    - intros [] s2 H2 _ Hc; [|apply answers_ret; right; by apply Hc].
      apply answers_call; [done|]. intros memberships. left. left. }
  intros memberships s2 H2 Hs2 Hm.
  eapply (wpM_answers_bind G).
  { apply (answers_for_each G) with (P := λ m H', m.1 ≠ username → out_of m.1 username m.2 H').
    - intros m H3 H4 Hs Hout Hne. by apply Hs, Hout.
    - intros m s3 H3 _ Hs3. destruct (String.eqb_spec m.1 username) as [He|Hne]; [by apply answers_ret|].
      apply answers_call; [|intros [] _; left]. apply removal_sound. eapply retired_grows; [|exact Hn]. set_solver. }
  intros ux3 s3 H3 Hs3 Hout.
  assert (Ho3 : out_of_access_groups username H3) by (eapply access_grows; [|exact Ho]; set_solver).
  assert (Hsw : swept username H3).
  { destruct Hm as [Hm|[Hpg Hm]]; [left|right; split; [done|by apply Hs3]].
    exists memberships. split; [by apply Hs3|done]. }
  assert (Hr3 : retired_soundly H3) by (eapply retired_grows; [|exact Hn]; set_solver).
  destruct Hr3 as (Hn3 & _ & Hu3). apply answers_call.
  - split_and!; [done|done|done|done|by apply Hu3|by exists u].
  - intros []. right. rewrite Hp. left. split; [left|].
    split; [eapply access_grows; [|exact Ho3]|eapply swept_grows; [|exact Hsw]]; set_solver.
Qed.

Lemma release_user_spec s H :
  wpM G (release_user text cfg b posix u) (answers H (λ failed H', failed = false → released u H')) s H.
Proof.
  unfold release_user. destruct (nonempty username) eqn:Hne; cbn [negb].
  2:{ apply answers_ret. intros _. left. unfold nonempty in Hne. by apply negb_false_iff, String.eqb_eq in Hne. }
  eapply (wpM_answers_bind G); [apply answers_attempt; by apply holder_spec|].
  intros [[holder|]|e] s1 H1 _ Hh; [..|by apply answers_ret].
  { apply answers_ret. intros _. right; left. by apply (Hh (Some holder)). }
  specialize (Hh None eq_refl).
  eapply (wpM_answers_bind G); [apply (answers_call G) with (P := λ entry H', found username entry H'); [done|intros; left]|].
  intros [entry|] s2 H2 Hs2 Hf.
  2:{ apply answers_ret. intros _. right; right. split; [by eapply nobody_grows|by left]. }
  eapply (wpM_answers_bind G); [apply (answers_attempt G) with (P := λ _ H', gone username H')|].
  { assert (Hn2 : nobody_holds u H2) by by eapply nobody_grows.
    unfold retire. destruct (ub_on_departure b) eqn:Hp.
    2:{ apply account_deleted; [done|]. split; [done|]. split; [by exists entry|]. by rewrite Hp. }
    destruct (is_disabled_by_agent text (Some entry)) eqn:Hd.
    2:{ apply disable_account_spec; [done|]. split; [done|]. split; [by exists entry|]. intros _. by exists entry. }
    apply answers_ret. right. rewrite Hp. right. exists entry. done. }
  intros [v|e] s3 H3 Hs3 Hg.
  - apply answers_ret. intros _. right; right. split; [eapply nobody_grows; [|exact Hh]; set_solver|by apply (Hg v)].
  - destruct (is_backend_error e); [by apply answers_ret|apply answers_raise].
Qed.
End Account.

Lemma release_users_spec s :
  wpM G (release_users text cfg b posix us) (answers [] (λ _ H',
    ub_remove_user_on_deactivate b = true → ∀ u, u ∈ us → released u H')) s [].
Proof.
  unfold release_users. destruct (ub_remove_user_on_deactivate b); cbn [negb]; [|by apply answers_ret].
  eapply (wpM_answers_bind G) with (P := λ failed H', failed = [] → ∀ u, u ∈ us → released u H').
  - apply (wpM_fold_m G us _ (λ xs failed _ H', failed = [] → ∀ u, u ∈ xs → released u H')).
    + intros xs u failed s1 H1 [ys Hus] Hxs. wp_step.
      assert (Hu : u ∈ us) by (rewrite Hus; apply elem_of_app; right; left).
      eapply wpM_mono; [by apply release_user_spec|].
      intros [fails|e] s2 H2 [Hs2 Hr]; cbv beta iota; [|split; [set_solver|done]]. wp_step.
      destruct fails; [intros He; by destruct failed|]. intros -> v [Hv| ->%list_elem_of_singleton]%elem_of_app.
      * eapply released_grows; [done|]. by apply Hxs.
      * by apply (Hr false).
    + intros failed s1 H1 Hall. split; [set_solver|]. by intros ? [= <-].
    + intros _ u Hu. by apply elem_of_nil in Hu.
  - intros failed s1 H1 _ Hall. destruct failed; [apply answers_ret; by intros _; apply Hall|apply answers_raise].
Qed.
End Users.
End Departures.

(** C31: the entry of an account is deleted or parked, and a membership of it removed, only
    after Waldur listed every account of the user at the provider and none of that name is
    live, and after the entry was found (to be parked: found, and not parked already);
    deleting waits for the access groups, parking for every group a complete sweep showed.
    Where [remove_user_on_deactivate] is set, a release that answers has, for each user
    handed in that has a name, either seen a live account of it, or found no entry, or one
    parked already, or deleted it after it left the access groups, or parked it after it
    left all its groups; any doubt ends in an error.  Where it is not set nothing is asked
    and nothing written. *)
Theorem released_when_nobody_holds text cfg b posix us s τ s' answer τ1 τ2 {X} (c : accountE X) a :
  runs (release_users text cfg b posix us s) τ (s', answer) →
  (answer = Ok () → ub_remove_user_on_deactivate b = true → ∀ u, u ∈ us → released text cfg b posix u (rev τ)) ∧
  (τ = τ1 ++ Ev c a :: τ2 → release_guard text cfg b posix us X (rev τ1) c) ∧
  (ub_remove_user_on_deactivate b = false → τ = [] ∧ s' = s ∧ answer = Ok ()).
Proof.
  intros Hrun. pose proof (release_users_spec text cfg b posix us s) as Hspec. split; [|split].
  - exact (proj2 (proj1 (wpM_sound _ _ _ _ _ _ _ Hspec Hrun)) ()).
  - intros Hτ. exact (wpM_call_guard _ _ _ _ _ _ _ _ _ _ _ Hspec Hrun Hτ).
  - intros Hoff. unfold release_users in Hrun. rewrite Hoff in Hrun. by destruct Hrun as [-> [= -> ->]].
Qed.

(** ** A small directory with accounts *)

Definition no_state : accounts_state :=
  {| as_conflicted := ∅; as_full_pass_done := false; as_failed_pass := false; as_key_index := [];
     as_existing := []; as_uid_index := []; as_mail_index := []; as_pass_conflicted := ∅; as_current_keys := [] |}.

Definition directory_config : ldap_config :=
  {| base_dn := "dc=hpc"; people_ou := "ou=People"; groups_ou := "ou=Groups"; uid_range_start := 10000;
     uid_range_end := 20000; gid_range_start := 10000; gid_range_end := 20000; default_login_shell := "/bin/bash";
     default_home_base := "/home/"; user_object_classes := ["posixAccount"]%string;
     user_group_object_classes := ["posixGroup"]%string; project_group_object_classes := ["posixGroup"]%string;
     personal_groups := true; waldur_username_attribute := "employeeNumber";
     empty_group_member_dn := "cn=nobody,dc=hpc" |}.

Definition own_names : username_backend :=
  {| ub_waldur_authoritative := false; ub_on_posix_mismatch := REPORT; ub_username_format := FIRST_LETTER_FULL_LASTNAME;
     ub_remove_user_on_deactivate := true; ub_on_departure := DISABLE;
     ub_access_groups := Some [("vpn", "memberUid")]%string; ub_project_groups := no_project_groups;
     ub_generate_vpn_password := false; ub_email_sender := true |}.

Definition waldur_names : username_backend :=
  {| ub_waldur_authoritative := true; ub_on_posix_mismatch := REPORT; ub_username_format := FIRST_INITIAL_LASTNAME;
     ub_remove_user_on_deactivate := true; ub_on_departure := DISABLE;
     ub_access_groups := Some [("vpn", "memberUid")]%string; ub_project_groups := no_project_groups;
     ub_generate_vpn_password := false; ub_email_sender := false |}.

Definition account_user (username waldur_username : string) (state : OfferingUserState.t) : OfferingUser :=
  {| ou_uuid := "ou-1"; ou_username := username; ou_user_username := Val waldur_username; ou_user_uuid := "u-1";
     ou_user_email := Val (waldur_username +:+ "@hpc"); ou_state := state; ou_url := ""; ou_attributes := ∅ |}.

Definition posix_of (uid : Z) (u : OfferingUser) : posix_fields :=
  {| uidnumber := Val uid; primarygroup := Val uid; home_directory := Null; login_shell := Null;
     user_first_name := Val "John"%string; user_last_name := Val "O'Neil"%string; customer_uuid := Val "p-1"%string |}.

(** [j.oneil] is taken; the user's other accounts are gone. *)
Definition account_world (X : Type) (c : accountE X) (w : unit) : res X * unit :=
  (match c in accountE X return res X with
   | Directory c =>
       match c in ldapE X return res X with
       | UserExists name => Ok (String.eqb name "j.oneil")
       | CreateUser _ _ _ _ _ _ => Ok 10001
       | SearchUser name => Ok (Some [("uid", [JStr name]); ("uidNumber", [JInt 1001])]%string)
       | FindGroupMemberships _ => Ok [("proj-1", "memberUid")]%string
       | AddUserToGroup _ _ _ | RemoveUserFromGroup _ _ _ | DisableUser _ _ | DeleteUser _ => Ok ()
       | _ => Err (OtherException "unexpected")
       end
   | Siblings _ _ => Ok [account_user "john" "john" OfferingUserState.DELETED]
   | RandomPassword => Ok "secret"%string
   | SendMail _ _ _ _ => Ok ()
   | GroupsPage _ => Err (OtherException "unexpected")
   end, w).

Definition john : OfferingUser := account_user "john" "john" OfferingUserState.DELETING.
Definition naming_run := exec account_world
  (generate_username directory_config own_names (posix_of 1) (λ s, s) john no_state) ().
Definition release_run := exec account_world
  (release_users plain_text directory_config waldur_names (posix_of 1) [john] no_state) ().

Lemma generated_names_free_witness :
  first_choice (candidates own_names (λ s, s) "John" "O'Neil" "john") "jo.oneil" (rev naming_run.1.2).
Proof.
  refine (proj1 (proj2 (proj1 (proj2 (generated_names_free directory_config own_names (posix_of 1) (λ s, s) john
    no_state naming_run.1.2 no_state (Ok "jo.oneil"%string) [] (tail naming_run.1.2)
    (Directory (UserExists "j.oneil")) (Ok true) _)) "jo.oneil"%string eq_refl))).
  apply (exec_runs_pair account_world
    (generate_username directory_config own_names (posix_of 1) (λ s, s) john no_state) ()).
Defined.

Lemma released_when_nobody_holds_witness :
  released plain_text directory_config waldur_names (posix_of 1) john (rev release_run.1.2).
Proof.
  refine (proj1 (released_when_nobody_holds plain_text directory_config waldur_names (posix_of 1) [john] no_state
    release_run.1.2 no_state (Ok ()) [] (tail release_run.1.2) (Siblings "u-1" "p-1")
    (Ok [account_user "john" "john" OfferingUserState.DELETED]) _) eq_refl eq_refl john _).
  - apply (exec_runs_pair account_world
      (release_users plain_text directory_config waldur_names (posix_of 1) [john] no_state) ()).
  - left.
Defined.

(** A name cut to 32 characters grows beyond them when it is taken: the suffix comes after. *)
Example suffix_exceeds_limit :
  let base := sanitize_posix_username (λ s, s) "abcdefghijklmnopqrstuvwxyzabcdefghij" in
  String.length base = 32%nat ∧ String.length (base +:+ pretty 2) = 33%nat.
Proof. vm_compute. done. Qed.
