(* ===== verification/LdapAccounts.v ===== *)
(** * The LDAP username backend: the accounts Waldur names

    [plugins/ldap/waldur_site_agent_ldap/backend.py]: the pass that brings the directory into
    line with Waldur, renames that can be resumed, and the record of what it left undone. *)

From stdpp Require Import base list strings gmap sets sorting pretty.
From Stdlib Require Import ZArith Lia Ascii.
From S2P Require Import Prelude.
From S2P Require Import Texts.
From S2P Require Import Structures.
From S2P Require Import FloatInts.
From S2P Require Import OfferingUsers.
From S2P Require Import LdapClient.
From S2P Require Import LdapReconcile.
From S2P Require Import LdapUsernames.

Local Open Scope prog_scope.
Local Open Scope Z_scope.

(** ** Pending renames *)

Definition PENDING_RENAME_PREFIX : string := "waldur-site-agent:renamed-from=".

Definition pending_token (old_username : string) : string := PENDING_RENAME_PREFIX +:+ old_username.

Definition pending_old_name (value : string) : option string :=
  if String.prefix PENDING_RENAME_PREFIX value then
    let name := String.substring (String.length PENDING_RENAME_PREFIX) (String.length value) value in
    if nonempty name then Some name else None
  else None.

(** [dict.pop(key, None)] *)
Definition dict_drop {V} (d : list (string * V)) (key : string) : list (string * V) :=
  List.filter (λ x, negb (String.eqb x.1 key)) d.

(** ** The state of a pass *)

Definition set_directory (existing : list (string * attributes)) (uid_index : list (Z * string))
    (key_index : list (string * list string)) (s : accounts_state) : accounts_state :=
  {| as_conflicted := as_conflicted s; as_full_pass_done := as_full_pass_done s;
     as_failed_pass := as_failed_pass s; as_key_index := key_index; as_existing := existing;
     as_uid_index := uid_index; as_mail_index := as_mail_index s;
     as_pass_conflicted := as_pass_conflicted s; as_current_keys := as_current_keys s |}.

Definition set_existing (username : string) (entry : attributes) (s : accounts_state) : accounts_state :=
  set_directory (dict_set (as_existing s) username entry) (as_uid_index s) (as_key_index s) s.

(** [state.conflicted.add] *)
Definition add_conflicted (username : string) (s : accounts_state) : accounts_state :=
  {| as_conflicted := as_conflicted s; as_full_pass_done := as_full_pass_done s;
     as_failed_pass := as_failed_pass s; as_key_index := as_key_index s; as_existing := as_existing s;
     as_uid_index := as_uid_index s; as_mail_index := as_mail_index s;
     as_pass_conflicted := {[username]} ∪ as_pass_conflicted s; as_current_keys := as_current_keys s |}.

Section Accounts.
Context (text : json → string) (cfg : ldap_config) (b : username_backend).
Context (posix : OfferingUser → posix_fields).

Local Abbreviation key_attribute := (waldur_username_attribute cfg).

(** The pass starts from one listing. *)
Definition start_pass (existing : list (string * attributes)) (s : accounts_state) : accounts_state :=
  {| as_conflicted := as_conflicted s; as_full_pass_done := as_full_pass_done s;
     as_failed_pass := as_failed_pass s; as_key_index := index_by_attribute text existing key_attribute;
     as_existing := existing; as_uid_index := index_by_uid_number text existing;
     as_mail_index := index_by_mail text existing;
     as_pass_conflicted := as_pass_conflicted s; as_current_keys := [] |}.

Definition set_current_keys (keys : list string) (s : accounts_state) : accounts_state :=
  {| as_conflicted := as_conflicted s; as_full_pass_done := as_full_pass_done s;
     as_failed_pass := as_failed_pass s; as_key_index := as_key_index s; as_existing := as_existing s;
     as_uid_index := as_uid_index s; as_mail_index := as_mail_index s;
     as_pass_conflicted := as_pass_conflicted s; as_current_keys := keys |}.

(** [_classify] *)
Definition classify_in (s : accounts_state) (d : DesiredEntry) : Decision :=
  classify text d (dict_get (as_existing s) (de_username d))
    (dict_get (as_uid_index s) (de_uid_number d))
    (if nonempty (de_email d) then dict_get (as_mail_index s) (str_lower (de_email d)) else None)
    key_attribute
    (if nonempty key_attribute
     then Some (default [] (dict_get (as_key_index s) (default "" (de_waldur_username d)))) else None)
    (as_existing s) (as_current_keys s).

Definition classify_now (d : DesiredEntry) : account_m Decision :=
  let! s := get_st in ret (classify_in s d).

(** ** Renames *)

(** [_is_this_account]: its uid, and its key where there is one. *)
Definition is_this_account (entry : option attributes) (d : DesiredEntry) : res bool :=
  match entry with
  | None | Some [] => Ok false
  | Some _ =>
      match attr entry "uidNumber" with
      | None => Ok false
      | Some v =>
          let? uid := int_of_text (text v) in
          if negb (Z.eqb uid (de_uid_number d)) then Ok false
          else if nonempty key_attribute then
            Ok match attr entry key_attribute with
               | Some key => bool_decide (de_waldur_username d = Some (text key))
               | None => false
               end
          else Ok true
      end
  end.

(** [_renamed_in_memory] *)
Definition renamed_in (old_username new_username : string) (entry : attributes) (d : DesiredEntry)
    (s : accounts_state) : accounts_state :=
  set_directory
    (dict_set (dict_drop (as_existing s) old_username) new_username (dict_set entry "uid" [JStr new_username]))
    (dict_set (as_uid_index s) (de_uid_number d) new_username)
    (map (λ x, (x.1, map (λ o, if String.eqb o old_username then new_username else o) x.2)) (as_key_index s)) s.

(** [_finish_rename]: the memberships of the old name, then the record. *)
Definition finish_rename (username old_username : string) : account_m unit :=
  let! again := directory (SearchUser old_username) in
  match again with
  | Some _ => ret ()
  | None =>
      let! memberships := group_memberships cfg old_username in
      for_each memberships (λ m, directory (RemoveUserFromGroup m.1 old_username m.2)) ;!
      if personal_groups cfg then directory (GroupExists old_username) ;! ret () else ret ()
  end ;!
  directory (RemoveUserAttributeValue username "description" (pending_token old_username)).

(** [_rename_personal_group] *)
Definition rename_personal_group (old_username new_username : string) : account_m bool :=
  if negb (personal_groups cfg) then ret false
  else
    let! there := directory (GroupExists old_username) in
    if negb there then directory (GroupExists new_username)
    else
      let! taken := directory (GroupExists new_username) in
      if taken : bool then ret false
      else
        let! renamed := attempt (directory (RenameGroup old_username new_username)) in
        match renamed with
        | Ok _ => ret true
        | Err (EntryMissingError _ as e) | Err (EntryExistsError _ as e) =>
            let! there := directory (GroupExists new_username) in
            if there : bool then ret true else raise e
        | Err e => raise e
        end.

(** Step (i): what the old name has, the new one has too. *)
Definition copy_memberships (old_username new_username : string) : account_m unit :=
  let! memberships := group_memberships cfg old_username in
  let! personal_group_renamed := rename_personal_group old_username new_username in
  let! held := group_memberships cfg new_username in
  for_each memberships (λ m,
    let target := if personal_group_renamed && String.eqb m.1 old_username then new_username else m.1 in
    if bool_decide ((target, m.2) ∈ held) then ret ()
    else directory (AddUserToGroup target new_username m.2)).

(** Step (ii); another writer may have been first. *)
Definition move_entry (old_username new_username : string) (entry : attributes) (d : DesiredEntry)
  : account_m attributes :=
  let! moved := attempt (directory (RenameUser old_username new_username)) in
  match moved with
  | Ok _ => ret entry
  | Err (EntryMissingError _ as e) | Err (EntryExistsError _ as e) =>
      let! fresh := directory (SearchUser new_username) in
      let! mine := of_res (is_this_account fresh d) in
      if mine : bool then ret (default [] fresh) else raise e
  | Err e => raise e
  end.

(** [_rename] *)
Definition rename (old_username : string) (d : DesiredEntry) : account_m unit :=
  let new_username := de_username d in
  let! entry := directory (SearchUser old_username) in
  match entry with
  | None =>
      let! fresh := directory (SearchUser new_username) in
      let! mine := of_res (is_this_account fresh d) in
      if negb mine then raise (EntryMissingError ("LDAP user " +:+ old_username +:+ " disappeared before it could be renamed"))
      else
        modify_st (renamed_in old_username new_username (default [] fresh) d) ;!
        finish_rename new_username old_username
  | Some entry =>
      let! mine := of_res (is_this_account (Some entry) d) in
      if negb mine then raise (BackendError ("LDAP user " +:+ old_username +:+ " changed since it was read; not renaming it"))
      else
        directory (AddUserAttributeValue old_username "description" (pending_token old_username)) ;!
        copy_memberships old_username new_username ;!
        let! moved := move_entry old_username new_username entry d in
        modify_st (renamed_in old_username new_username moved d) ;!
        finish_rename new_username old_username
  end.

(** [_finish_pending_renames] *)
Definition finish_pending_renames (existing : list (string * attributes)) : account_m unit :=
  for_each existing (λ user,
    for_each (texts_of text user.2 "description") (λ value,
      match pending_old_name value with
      | Some old_username =>
          if String.eqb old_username user.1 then ret ()
          else unless_backend_error (finish_rename user.1 old_username)
      | None => ret ()
      end)).

(** ** One account *)

(** [_create_from_desired] *)
Definition create_from_desired (d : DesiredEntry) : account_m unit :=
  let! password := new_password b in
  directory (CreateUserWithIds (de_username d) (de_first_name d) (de_last_name d) (de_email d)
    (de_uid_number d) (de_gid_number d) (de_home_directory d) (de_login_shell d) password
    (key_of cfg (default "" (de_waldur_username d)))) ;!
  add_to_access_groups b (de_username d) ;!
  welcome b (de_email d) (de_username d) password (de_uid_number d).

(** [_log_restamp]: the key moves in the index. *)
Fixpoint remove_one (x : string) (l : list string) : list string :=
  match l with
  | [] => []
  | y :: l => if String.eqb y x then l else y :: remove_one x l
  end.

Definition restamped (d : DesiredEntry) (decision : Decision) (s : accounts_state) : accounts_state :=
  match restamped_from decision with
  | None => s
  | Some from =>
      let owners := default [] (dict_get (as_key_index s) from) in
      let index := if bool_decide (de_username d ∈ owners)
                   then dict_set (as_key_index s) from (remove_one (de_username d) owners) else as_key_index s in
      set_directory (as_existing s) (as_uid_index s)
        (add_owner index (default "" (de_waldur_username d)) (de_username d)) s
  end.

Definition as_values (updates : list (string * string)) : list (string * json) :=
  map (λ u, (u.1, JStr u.2)) updates.

(** [_apply_drift] *)
Definition apply_drift (d : DesiredEntry) : account_m unit :=
  match ub_on_posix_mismatch b with
  | FAIL => raise (BackendError ("POSIX identity mismatch for LDAP user " +:+ de_username d))
  | REPORT => ret ()
  | ADOPT =>
      directory (SetUserPosixAttributes (de_username d) (Some (de_uid_number d)) (Some (de_gid_number d))
        (Some (de_home_directory d)) (Some (de_login_shell d))) ;!
      if personal_groups cfg
      then unless_backend_error (directory (SetGroupGid (de_username d) (de_gid_number d))) else ret ()
  end.

(** [_apply] *)
Definition apply_decision (decision : Decision) (d : DesiredEntry) : account_m Outcome :=
  match outcome decision with
  | NOOP | UID_TAKEN | KEY_CONFLICT => ret ()
  | DRIFT => apply_drift d
  | REENABLE =>
      directory (EnableUser (de_username d) (de_login_shell d)) ;!
      add_to_access_groups b (de_username d) ;!
      match updates decision with
      | [] => ret ()
      | updates => directory (UpdateUserAttributes (de_username d) (as_values updates)) ;!
                   modify_st (restamped d decision)
      end
  | CREATE => create_from_desired d
  | UPDATE | RENAME =>
      directory (UpdateUserAttributes (de_username d) (as_values (updates decision))) ;!
      modify_st (restamped d decision)
  end ;!
  ret (outcome decision).

(** Carry a decision out; an entry that another writer added meanwhile is read and decided
    about anew. *)
Definition apply_or_reread (decision : Decision) (d : DesiredEntry) : account_m Outcome :=
  let! applied := attempt (apply_decision decision d) in
  match applied with
  | Ok outcome => ret outcome
  | Err (EntryExistsError _ as e) =>
      let! entry := directory (SearchUser (de_username d)) in
      match entry with
      | None => raise e
      | Some entry =>
          modify_st (set_existing (de_username d) entry) ;!
          let! decision := classify_now d in
          apply_decision decision d
      end
  | Err e => raise e
  end.

(** What the pass knows once an account was created, or took over Waldur's ids. *)
Definition created_in (d : DesiredEntry) (s : accounts_state) : accounts_state :=
  let entry := default [("uid"%string, [JStr (de_username d)])] (dict_get (as_existing s) (de_username d)) in
  set_directory (dict_set (as_existing s) (de_username d) (dict_set entry "uidNumber" [JInt (de_uid_number d)]))
    (add_default (as_uid_index s) (de_uid_number d) (de_username d))
    (match de_waldur_username d with
     | Some key => if nonempty key_attribute && nonempty key then add_owner (as_key_index s) key (de_username d)
                   else as_key_index s
     | None => as_key_index s
     end) s.

Definition adopted_in (d : DesiredEntry) (s : accounts_state) : accounts_state :=
  let entry := default [("uid"%string, [JStr (de_username d)])] (dict_get (as_existing s) (de_username d)) in
  set_directory
    (dict_set (as_existing s) (de_username d)
       (dict_set (dict_set entry "uidNumber" [JInt (de_uid_number d)]) "gidNumber" [JInt (de_gid_number d)]))
    (dict_set (List.filter (λ x, negb (String.eqb x.2 (de_username d))) (as_uid_index s))
       (de_uid_number d) (de_username d))
    (as_key_index s) s.

Definition noted (o : Outcome) (d : DesiredEntry) : accounts_state → accounts_state :=
  match o with
  | CREATE => created_in d
  | DRIFT => match ub_on_posix_mismatch b with ADOPT => adopted_in d | _ => add_conflicted (de_username d) end
  | UID_TAKEN | KEY_CONFLICT => add_conflicted (de_username d)
  | _ => id
  end.

(** [_reconcile_one] *)
Definition reconcile_one (d : DesiredEntry) (decision : Decision) : account_m unit :=
  let! outcome := attempt (
    let! decision :=
      match outcome decision with
      | RENAME => rename (default "None" (uid_taken_by decision)) d ;! classify_now d
      | _ => ret decision
      end in
    apply_or_reread decision d) in
  match outcome with
  | Ok outcome => modify_st (noted outcome d)
  | Err e => if is_backend_error e then modify_st (add_conflicted (de_username d)) else raise e
  end.

(** ** The pass *)

(** What is to be reconciled: the accounts that Waldur describes fully and that are live, or
    whose state was not requested. *)
Definition desired_of (u : OfferingUser) : list DesiredEntry :=
  if negb (bool_decide (ou_state u = OfferingUserState.UNSET)) &&
     negb (bool_decide (ou_state u ∈ LIVE_OFFERING_USER_STATES))
  then []
  else match build_desired u (posix u) (default_home_base cfg) (default_login_shell cfg) key_attribute with
       | inl d => [d]
       | inr _ => []
       end.

(** [_reconcile_accounts]: renames first. *)
Definition reconcile_accounts (us : list OfferingUser) : account_m unit :=
  match us with
  | [] => ret ()
  | _ =>
      let! existing := directory ListUsers in
      modify_st (start_pass existing) ;!
      let work := flat_map desired_of us in
      modify_st (set_current_keys
        (flat_map (λ d, match de_waldur_username d with
                        | Some key => if nonempty key then [key] else []
                        | None => []
                        end) work)) ;!
      let! later := fold_m work (λ later d,
        let! decision := classify_now d in
        match outcome decision with
        | RENAME => reconcile_one d decision ;! ret later
        | _ => ret (later ++ [d])
        end) [] in
      for_each later (λ d, let! decision := classify_now d in reconcile_one d decision) ;!
      let! s := get_st in
      finish_pending_renames (as_existing s)
  end.

(** The record of the pass; a pass that fails clears nothing. *)
Definition recorded (completed : bool) (us : list OfferingUser) (s : accounts_state) : accounts_state :=
  let batch : gset string := list_to_set (map ou_username us) in
  {| as_conflicted := (if completed then as_conflicted s ∖ batch else as_conflicted s) ∪ as_pass_conflicted s;
     as_full_pass_done := completed && as_full_pass_done s;
     as_failed_pass := negb completed;
     as_key_index := as_key_index s; as_existing := as_existing s; as_uid_index := as_uid_index s;
     as_mail_index := as_mail_index s; as_pass_conflicted := as_pass_conflicted s;
     as_current_keys := as_current_keys s |}.

Definition no_conflicts (s : accounts_state) : accounts_state :=
  {| as_conflicted := as_conflicted s; as_full_pass_done := as_full_pass_done s;
     as_failed_pass := as_failed_pass s; as_key_index := as_key_index s; as_existing := as_existing s;
     as_uid_index := as_uid_index s; as_mail_index := as_mail_index s; as_pass_conflicted := ∅;
     as_current_keys := as_current_keys s |}.

(** [_reconcile_from_waldur] *)
Definition reconcile_from_waldur (us : list OfferingUser) : account_m unit :=
  modify_st no_conflicts ;!
  let! completed := attempt (reconcile_accounts us) in
  match completed with
  | Ok _ => modify_st (recorded true us)
  | Err e => modify_st (recorded false us) ;! raise e
  end.

Definition sync_user_profiles (us : list OfferingUser) : account_m unit :=
  if ub_waldur_authoritative b then reconcile_from_waldur us else sync_profiles_legacy cfg posix us.
End Accounts.

(** ** Programs that leave the state alone *)

(** Neither a listing nor a change of an account. *)
Definition plain {X} (c : accountE X) : bool :=
  match c with
  | Directory c =>
      match c with
      | ListUsers | CreateUserWithIds _ _ _ _ _ _ _ _ _ _ | SetUserPosixAttributes _ _ _ _ _
      | UpdateUserAttributes _ _ | EnableUser _ _ | SetGroupGid _ _ | DisableUser _ _ | DeleteUser _
      | CreateUser _ _ _ _ _ _ | DeleteGroup _ => false
      | _ => true
      end
  | _ => true
  end.

Definition plain_calls : ∀ X, accountE X → bool := λ X c, plain c.

Definition quiet {A} (m : account_m A) : Prop := ∀ (G : guard accountE) s H,
  (∀ X H (c : accountE X), plain c = true → G X H c) →
  wpM G m (λ _ s' H', s' = s ∧ ∃ K, H' = K ++ H ∧ all_calls plain_calls K) s H.

Lemma quiet_ret {A} (a : A) : quiet (ret a).
Proof. intros G s H HG. wp_step. split; [done|]. exists []. split; [done|constructor]. Qed.
Lemma quiet_raise {A} e : quiet (raise (A := A) e).
Proof. intros G s H HG. wp_step. split; [done|]. exists []. split; [done|constructor]. Qed.
Lemma quiet_of_res {A} (r : res A) : quiet (of_res r).
Proof. destruct r; [apply quiet_ret|apply quiet_raise]. Qed.
Lemma quiet_call {X} (c : accountE X) : plain c = true → quiet (call c).
Proof.
  intros Hc G s H HG. apply wpM_call; [by apply HG|]. intros r. split; [done|]. exists [Ev c r]. split; [done|].
  constructor; [done|constructor].
Qed.
Lemma quiet_bind {A B} (m : account_m A) (f : A → account_m B) : quiet m → (∀ a, quiet (f a)) → quiet (bind m f).
Proof.
  intros Hm Hf G s H HG. wp_step. eapply wpM_mono; [by apply Hm|].
  intros [a|e] s' H' [-> (K & -> & HK)]; cbv beta iota; [|split; [done|by exists K]].
  eapply wpM_mono; [by apply Hf|]. intros r s2 H2 [-> (K2 & -> & HK2)]. split; [done|].
  exists (K2 ++ K). rewrite app_assoc. split; [done|by apply Forall_app].
Qed.
Lemma quiet_attempt {A} (m : account_m A) : quiet m → quiet (attempt m).
Proof. intros Hm G s H HG. wp_step. eapply wpM_mono; [by apply Hm|]. done. Qed.
Lemma quiet_for_each {A} (l : list A) (body : A → account_m unit) : (∀ x, quiet (body x)) → quiet (for_each l body).
Proof.
  intros Hb. induction l as [|x l IH]; cbn [for_each]; [apply quiet_ret|]. apply quiet_bind; [apply Hb|done].
Qed.

Create HintDb quiet.
#[export] Hint Resolve quiet_ret quiet_raise quiet_of_res : quiet.

Ltac quiet_step :=
  lazymatch goal with
  | |- quiet (bind _ _) => apply quiet_bind; [|intros ?]
  | |- quiet (attempt _) => apply quiet_attempt
  | |- quiet (for_each _ _) => apply quiet_for_each; intros ?
  | |- quiet (call _) => apply quiet_call; reflexivity
  | |- quiet (directory _) => apply quiet_call; reflexivity
  | |- quiet (unless_backend_error _) => unfold unless_backend_error
  | |- quiet (match ?x with _ => _ end) => destruct x
  | |- quiet (let _ := _ in _) => cbv zeta
  | |- quiet _ => solve [auto with quiet]
  end.
Ltac quieten := repeat (cbv beta; quiet_step).

Section Quiet.
Context (text : json → string) (cfg : ldap_config) (b : username_backend).

Lemma quiet_memberships username : quiet (group_memberships cfg username).
Proof. unfold group_memberships. quieten. Qed.
Lemma quiet_access username : quiet (add_to_access_groups b username).
Proof. unfold add_to_access_groups, for_access_groups. quieten. Qed.
Lemma quiet_welcome email username password uid_number : quiet (welcome b email username password uid_number).
Proof. unfold welcome, send_welcome_email. quieten. Qed.
Lemma quiet_password : quiet (new_password b).
Proof. unfold new_password. quieten. Qed.
End Quiet.
#[export] Hint Resolve quiet_memberships quiet_access quiet_welcome quiet_password : quiet.

Section QuietRename.
Context (text : json → string) (cfg : ldap_config).
Lemma quiet_finish username old_username : quiet (finish_rename cfg username old_username).
Proof. unfold finish_rename. quieten. Qed.
Lemma quiet_personal old_username new_username : quiet (rename_personal_group cfg old_username new_username).
Proof. unfold rename_personal_group. quieten. Qed.
End QuietRename.
#[export] Hint Resolve quiet_finish quiet_personal : quiet.

Section QuietMore.
Context (text : json → string) (cfg : ldap_config).
Lemma quiet_copy old_username new_username : quiet (copy_memberships cfg old_username new_username).
Proof. unfold copy_memberships. quieten. Qed.
Lemma quiet_pending existing : quiet (finish_pending_renames text cfg existing).
Proof. unfold finish_pending_renames. quieten. Qed.
End QuietMore.
#[export] Hint Resolve quiet_copy quiet_pending : quiet.

(** ** No uid is given twice *)

(** [str()] of a text is the text, and [int()] undoes [str()] of a number. *)
Definition reads_back (text : json → string) : Prop :=
  (∀ s, text (JStr s) = s) ∧ (∀ z n, int_of_text (text (JInt z)) = Ok n → n = z) ∧
  (∀ b n, int_of_text (text (JBool b)) ≠ Ok n).

Section Uids.
Context (text : json → string) (Htext : reads_back text) (cfg : ldap_config) (b : username_backend).
Context (posix : OfferingUser → posix_fields) (us : list OfferingUser).
Implicit Types (H : trace accountE) (d : DesiredEntry).

Local Abbreviation key_attribute := (waldur_username_attribute cfg).

(** What Waldur describes. *)
Definition described d : Prop := ∃ u, u ∈ us ∧
  (ou_state u = OfferingUserState.UNSET ∨ ou_state u ∈ LIVE_OFFERING_USER_STATES) ∧
  build_desired u (posix u) (default_home_base cfg) (default_login_shell cfg) key_attribute = inl d.

Definition uid_of (entry : attributes) : option Z := attr_number text (Some entry) "uidNumber".

(** Who holds a uid: an entry of the listing, or an account created since. *)
Definition holds (uid : Z) (name : string) (ev : event accountE) : Prop :=
  match ev with
  | Ev (Directory ListUsers) (Ok existing) => ∃ entry, (name, entry) ∈ existing ∧ uid_of entry = Some uid
  | Ev (Directory (CreateUserWithIds n _ _ _ u _ _ _ _ _)) (Ok _) => n = name ∧ u = uid
  | _ => False
  end.
Definition holder uid name H : Prop := ∃ ev, ev ∈ H ∧ holds uid name ev.

Definition renumbered H : Prop := ∃ name uid gid home shell a,
  Ev (Directory (SetUserPosixAttributes name uid gid home shell)) a ∈ H.

(** The operations that add or rename entries; only they find that one exists already. *)
Definition adds {X} (c : ldapE X) : bool :=
  match c with
  | CreateUserWithIds _ _ _ _ _ _ _ _ _ _ | RenameUser _ _ | RenameGroup _ _ | AddEntry _ _ => true
  | _ => false
  end.

(** No such answer of the client: two entries of one name in a listing, or an entry that
    exists already found by another operation. *)
Definition odd (ev : event accountE) : Prop :=
  match ev with
  | Ev (Directory ListUsers) (Ok existing) => ¬ NoDup existing.*1
  | Ev (Directory c) (Err (EntryExistsError _)) => adds c = false
  | _ => False
  end.
Definition well_behaved H : Prop := ∀ ev, ev ∈ H → ¬ odd ev.

Lemma well_behaved_cons ev H : well_behaved (ev :: H) → well_behaved H.
Proof. intros Hw ev' Hin. apply Hw. by right. Qed.
Lemma well_behaved_app K H : well_behaved (K ++ H) → well_behaved H.
Proof. intros Hw ev' Hin. apply Hw, elem_of_app. by right. Qed.

(** The writes of a pass. *)
Definition uid_free (uid : Z) H : Prop := well_behaved H → ∀ name, holder uid name H → renumbered H.

Definition pass_guard : guard accountE := λ X H c,
  match c with
  | Directory c =>
      match c with
      | CreateUserWithIds name f l e uid gid home shell _ extra => uid_free uid H ∧ ∃ d, described d ∧
          name = de_username d ∧ f = de_first_name d ∧ l = de_last_name d ∧ e = de_email d ∧
          uid = de_uid_number d ∧ gid = de_gid_number d ∧ home = de_home_directory d ∧
          shell = de_login_shell d ∧ extra = key_of cfg (default "" (de_waldur_username d))
      | SetUserPosixAttributes name uid gid home shell => ub_on_posix_mismatch b = ADOPT ∧ ∃ d, described d ∧
          name = de_username d ∧ uid = Some (de_uid_number d) ∧ gid = Some (de_gid_number d) ∧
          home = Some (de_home_directory d) ∧ shell = Some (de_login_shell d)
      | UpdateUserAttributes name values => ∃ d, described d ∧ name = de_username d ∧
          ∀ x, x ∈ values → ∃ v, x.2 = JStr v ∧ v ≠ "" ∧
            ((x.1, v) ∈ wanted_profile d ∨ (x.1 = key_attribute ∧ de_waldur_username d = Some v))
      | EnableUser name shell => ∃ d, described d ∧ name = de_username d ∧ shell = de_login_shell d
      | SetGroupGid name gid => ub_on_posix_mismatch b = ADOPT ∧ ∃ d, described d ∧
          name = de_username d ∧ gid = de_gid_number d
      | DisableUser _ _ | DeleteUser _ | CreateUser _ _ _ _ _ _ | DeleteGroup _ => False
      | _ => True
      end
  | _ => True
  end.

Local Abbreviation G := pass_guard.

Lemma plain_allowed X H (c : accountE X) : plain c = true → G X H c.
Proof. destruct c as [X c| | | |]; simpl; try done. by destruct c. Qed.

(** The memory of the pass: its entries are those of the index, and every holder of a uid
    is known. *)
Definition uid_inv (existing : list (string * attributes)) (uid_index : list (Z * string)) H : Prop :=
  well_behaved H → NoDup existing.*1 ∧ NoDup uid_index.*1 ∧
  (∀ uid name, (uid, name) ∈ uid_index → ∃ entry, (name, entry) ∈ existing ∧ uid_of entry = Some uid) ∧
  (∀ uid name, holder uid name H → is_Some (dict_get uid_index uid) ∨ renumbered H).

Definition uids_known (s : accounts_state) H : Prop := uid_inv (as_existing s) (as_uid_index s) H.

Lemma renumbered_grows H H' : H ⊆ H' → renumbered H → renumbered H'.
Proof. intros Hs (n & u & g & h & sh & a & Hin). exists n, u, g, h, sh, a. by apply Hs. Qed.

Lemma holder_cons uid name ev H : holder uid name (ev :: H) → holds uid name ev ∨ holder uid name H.
Proof. intros (ev' & [->|Hin]%elem_of_cons & Hh); [by left|right]. by exists ev'. Qed.
Lemma holder_later uid name ev H : holder uid name H → holder uid name (ev :: H).
Proof. intros (ev' & Hin & Hh). exists ev'. split; [by right|done]. Qed.

(** A call that neither lists nor creates shows no new holder. *)
Definition silent {X} (c : accountE X) : bool :=
  match c with
  | Directory ListUsers | Directory (CreateUserWithIds _ _ _ _ _ _ _ _ _ _) => false
  | _ => true
  end.

Lemma silent_holds uid name {X} (c : accountE X) a : silent c = true → ¬ holds uid name (Ev c a).
Proof.
  intros Hc. destruct c as [X c| | | |]; [destruct c|..]; try discriminate Hc; intros Hh; exact Hh.
Qed.
Lemma failed_holds uid name {X} (c : accountE X) e : ¬ holds uid name (Ev c (Err e)).
Proof. intros Hh. destruct c as [X c| | | |]; [destruct c|..]; exact Hh. Qed.
Lemma plain_silent {X} (c : accountE X) : plain c = true → silent c = true.
Proof. destruct c as [X c| | | |]; simpl; try done. by destruct c. Qed.

Lemma inv_cons existing uid_index ev H : (∀ uid name, ¬ holds uid name ev) →
  uid_inv existing uid_index H → uid_inv existing uid_index (ev :: H).
Proof.
  intros Hev Hinv Hw. destruct (Hinv (well_behaved_cons _ _ Hw)) as (Hnd & Hndi & Hidx & Hhold). split; [done|]. split; [done|]. split; [done|].
  intros uid name [Hh|Hh]%holder_cons; [by apply Hev in Hh|].
  destruct (Hhold uid name Hh) as [Hs|Hr]; [by left|right]. eapply renumbered_grows; [|done]. set_solver.
Qed.

Lemma inv_plain existing uid_index K H : all_calls plain_calls K →
  uid_inv existing uid_index H → uid_inv existing uid_index (K ++ H).
Proof.
  induction 1 as [|[X c a] K Hc _ IH]; intros Hinv; [done|]. apply inv_cons; [|by apply IH].
  intros uid name. by apply silent_holds, plain_silent.
Qed.

(** ** The memory follows the directory *)

Lemma dict_drop_elem {V} (l : list (string * V)) k x : x ∈ dict_drop l k ↔ x.1 ≠ k ∧ x ∈ l.
Proof.
  unfold dict_drop. rewrite !list_elem_of_In, filter_In, negb_true_iff, String.eqb_neq. tauto.
Qed.
Lemma dict_drop_NoDup {V} (l : list (string * V)) k : NoDup l.*1 → NoDup (dict_drop l k).*1.
Proof. apply filter_keys_NoDup. Qed.

Lemma uid_of_set entry name values : name ≠ "uidNumber"%string → uid_of (dict_set entry name values) = uid_of entry.
Proof. intros Hn. unfold uid_of, attr_number, attr, first_value. cbn [mbind option_bind]. by rewrite dict_get_set_ne. Qed.
Lemma uid_of_given entry uid : uid_of (dict_set entry "uidNumber" [JInt uid]) = Some uid.
Proof. unfold uid_of, attr_number, attr, first_value. cbn [mbind option_bind]. by rewrite dict_get_set_eq. Qed.

Lemma this_account_uid entry d : is_this_account text cfg entry d = Ok true →
  ∃ e, entry = Some e ∧ uid_of e = Some (de_uid_number d).
Proof.
  destruct Htext as (Hstr & Hint & Hbool). unfold is_this_account. destruct entry as [[|x e]|]; try done.
  intros Hthis. exists (x :: e). split; [done|]. unfold uid_of, attr_number.
  revert Hthis. change (@Some attributes (x :: e)) with (@Some (list (string * list json)) (x :: e)).
  destruct (attr (Some (x :: e)) "uidNumber") as [v|]; [|done]. intros Hthis.
  destruct (int_of_text (text v)) as [n|] eqn:Hn; [|done]. cbn [rbind] in Hthis.
  destruct (Z.eqb_spec n (de_uid_number d)) as [->|]; [|done].
  destruct v as [|b0|z|f|s0|l|l]; try done.
  - by apply Hbool in Hn.
  - apply Hint in Hn. by subst.
  - destruct s0; [|done]. rewrite Hstr in Hn. vm_compute in Hn. done.
Qed.

Section Memory.
Context (s : accounts_state) (d : DesiredEntry).
Local Abbreviation username := (de_username d).
Local Abbreviation uid := (de_uid_number d).

Lemma no_index_of_absent H : dict_get (as_existing s) username = None → uids_known s H → well_behaved H →
  ∀ n, (n, username) ∉ as_uid_index s.
Proof.
  intros Hnone Hinv Hw n Hin. destruct (Hinv Hw) as (_ & _ & Hidx & _). destruct (Hidx _ _ Hin) as (e & He & _).
  apply dict_In_is_Some in He as [? He]. congruence.
Qed.

Lemma absent_uid_free H : dict_get (as_existing s) username = None → only_mine d (dict_get (as_uid_index s) uid) →
  uids_known s H → uid_free uid H.
Proof.
  intros Hnone Hmine Hinv Hw name Hh. destruct (Hinv Hw) as (_ & _ & _ & Hhold).
  destruct (Hhold _ _ Hh) as [[o Ho]|Hr]; [|done]. exfalso.
  apply (no_index_of_absent H Hnone Hinv Hw uid). rewrite <- (Hmine o Ho). by apply dict_get_In.
Qed.

Lemma created_known H {X} (c : accountE X) a : dict_get (as_existing s) username = None →
  only_mine d (dict_get (as_uid_index s) uid) → (∀ n name, holds n name (Ev c a) → n = uid ∧ name = username) →
  uids_known s H → uids_known (created_in cfg d s) (Ev c a :: H).
Proof.
  intros Hnone Hmine Hev Hinv Hw. pose proof (no_index_of_absent H Hnone Hinv (well_behaved_cons _ _ Hw)) as Hno.
  destruct (Hinv (well_behaved_cons _ _ Hw)) as (Hnd & Hndi & Hidx & Hhold). cbn [created_in set_directory as_existing as_uid_index].
  assert (Hun : dict_get (as_uid_index s) uid = None).
  { destruct (dict_get (as_uid_index s) uid) as [o|] eqn:Ho; [|done]. exfalso. apply (Hno uid).
    rewrite <- (Hmine o eq_refl). by apply dict_get_In. }
  split; [by apply dict_set_NoDup|]. unfold add_default. rewrite Hun. split; [by apply dict_set_NoDup|]. split.
  - intros n name [[= -> ->]|Hin]%elem_of_dict_set.
    + eexists. split; [apply dict_set_elem|apply uid_of_given].
    + destruct (Hidx _ _ Hin) as (e & He & Hu). exists e. split; [|done]. apply dict_set_other; [|done].
      intros <-. by apply Hno in Hin.
  - intros n name [[-> ->]%Hev|Hh]%holder_cons; [left; rewrite dict_get_set_eq; by eexists|].
    destruct (Hhold _ _ Hh) as [Hs|Hr].
    + left. destruct (decide (uid = n)) as [<-|Hne]; [rewrite dict_get_set_eq; by eexists|by rewrite dict_get_set_ne].
    + right. eapply renumbered_grows; [|done]. set_solver.
Qed.

Lemma adopted_known H : renumbered H → uids_known s H → uids_known (adopted_in d s) H.
Proof.
  intros Hr Hinv Hw. destruct (Hinv Hw) as (Hnd & Hndi & Hidx & _). cbn [adopted_in set_directory as_existing as_uid_index].
  split; [by apply dict_set_NoDup|]. split; [by apply dict_set_NoDup, filter_keys_NoDup|]. split; [|by right].
  intros n name [[= -> ->]|Hin]%elem_of_dict_set.
  - eexists. split; [apply dict_set_elem|]. rewrite uid_of_set by done. apply uid_of_given.
  - apply list_elem_of_In, filter_In in Hin as [Hin Hne]. apply list_elem_of_In in Hin.
    apply negb_true_iff, String.eqb_neq in Hne. simpl in Hne.
    destruct (Hidx _ _ Hin) as (e & He & Hu). exists e. split; [by apply dict_set_other|done].
Qed.

Lemma reread_known entry H : (well_behaved H → dict_get (as_existing s) username = None) →
  uids_known s H → uids_known (set_existing username entry s) H.
Proof.
  intros Hnone Hinv Hw. pose proof (no_index_of_absent H (Hnone Hw) Hinv Hw) as Hno.
  destruct (Hinv Hw) as (Hnd & Hndi & Hidx & Hhold). cbn [set_existing set_directory as_existing as_uid_index].
  split; [by apply dict_set_NoDup|]. split; [done|]. split; [|done]. intros n name Hin.
  destruct (Hidx _ _ Hin) as (e & He & Hu). exists e. split; [|done]. apply dict_set_other; [|done].
  intros <-. by apply Hno in Hin.
Qed.

Lemma renamed_known old entry H : dict_get (as_existing s) username = None →
  attr_number text (dict_get (as_existing s) old) "uidNumber" = Some uid → uid_of entry = Some uid →
  uids_known s H → uids_known (renamed_in old username entry d s) H.
Proof.
  intros Hnone Hold Hentry Hinv Hw. pose proof (no_index_of_absent H Hnone Hinv Hw) as Hno.
  destruct (Hinv Hw) as (Hnd & Hndi & Hidx & Hhold). cbn [renamed_in set_directory as_existing as_uid_index].
  split; [by apply dict_set_NoDup, dict_drop_NoDup|]. split; [by apply dict_set_NoDup|]. split.
  - intros n name Hset. pose proof Hset as [[= -> ->]|Hin]%elem_of_dict_set.
    + eexists. split; [apply dict_set_elem|by rewrite uid_of_set].
    + destruct (decide (n = uid)) as [->|Hne].
      * apply (dict_In_get _ _ _ (dict_set_NoDup _ _ _ Hndi)) in Hset. rewrite dict_get_set_eq in Hset.
        injection Hset as <-. eexists. split; [apply dict_set_elem|by rewrite uid_of_set].
      * destruct (Hidx _ _ Hin) as (e & He & Hu). exists e. split; [|done]. apply dict_set_other.
        { intros <-. by apply Hno in Hin. }
        apply dict_drop_elem. split; [|done]. simpl. intros ->.
        apply (dict_In_get _ _ _ Hnd) in He. rewrite He in Hold. unfold uid_of in Hu. congruence.
  - intros n name Hh. destruct (Hhold _ _ Hh) as [Hs|Hr]; [left|by right].
    destruct (decide (uid = n)) as [<-|Hne]; [rewrite dict_get_set_eq; by eexists|by rewrite dict_get_set_ne].
Qed.
End Memory.

(** ** One account *)

Lemma quiet_use {A} (m : account_m A) existing uid_index s H : quiet m → uid_inv existing uid_index H →
  wpM G m (λ _ s' H', s' = s ∧ uid_inv existing uid_index H') s H.
Proof.
  intros Hm Hinv. eapply wpM_mono; [apply Hm, plain_allowed|]. intros r s' H' [-> (K & -> & HK)].
  split; [done|by apply inv_plain].
Qed.

(** Backend errors of the access groups are caught, and a mail never fails. *)
Lemma access_errors username s H :
  wpM (λ _ _ _, True) (add_to_access_groups b username)
    (λ r _ _, ∀ e, r = Err e → is_backend_error e = false) s H.
Proof.
  unfold add_to_access_groups, for_access_groups. destruct (ub_access_groups b) as [groups|]; [|by wp_step; intros ? [= <-]].
  apply (wpM_for_each _ groups _ (λ _ _ _, True)); [|done|done]. intros xs x s1 H1 _ _.
  unfold unless_backend_error, directory. wp_step. wp_step. apply wpM_call; [done|].
  intros [[]|e]; cbv beta iota; [by wp_step|]. destruct (is_backend_error e) eqn:He; wp_step; [done|]. by intros ? [= <-].
Qed.

Lemma access_known username existing uid_index s H : uid_inv existing uid_index H →
  wpM G (add_to_access_groups b username) (λ r s' H', s' = s ∧ uid_inv existing uid_index H' ∧
    ∀ e, r = Err e → is_backend_error e = false) s H.
Proof.
  intros Hinv. eapply wpM_mono; [eapply (wpM_conj (λ _ _ _, True)); [apply access_errors|]|].
  - apply quiet_use; [apply quiet_access|exact Hinv].
  - intros r s' H' [He [-> Hi]]. done.
Qed.

Lemma welcome_known email username password uid existing uid_index s H : uid_inv existing uid_index H →
  wpM G (welcome b email username password uid) (λ r s' H', s' = s ∧ uid_inv existing uid_index H' ∧ r = Ok ()) s H.
Proof.
  intros Hinv. unfold welcome, send_welcome_email. destruct (_ && _); [|by wp_step].
  wp_step. wp_step. apply wpM_call; [done|]. intros r; cbv beta iota. wp_step. split; [done|]. split; [|done].
  apply inv_cons; [|done]. intros n name. by apply silent_holds.
Qed.

Lemma inv_write existing uid_index s {X} (c : ldapE X) H (Q : res X → accounts_state → trace accountE → Prop) :
  G X H (Directory c) → silent (Directory c) = true → uid_inv existing uid_index H →
  (∀ r, uid_inv existing uid_index (Ev (Directory c) r :: H) → Q r s (Ev (Directory c) r :: H)) →
  wpM G (directory c) Q s H.
Proof.
  intros HG Hc Hinv HQ. apply wpM_call; [done|]. intros r. apply HQ. apply inv_cons; [|done].
  intros n name. by apply silent_holds.
Qed.

(** An operation that adds nothing does not find that an entry exists. *)
Lemma odd_event {X} (c : ldapE X) msg H : adds c = false →
  ¬ well_behaved (Ev (Directory c) (Err (EntryExistsError msg)) :: H).
Proof. intros Hc Hw. apply (Hw _ (list_elem_of_here _ _)). destruct c; done. Qed.

(** What a decision leaves: the memory is right once its outcome is noted, and after an
    error as it is. *)
Definition carried (decision : Decision) d (s : accounts_state) (r : res Outcome) (s' : accounts_state) H : Prop :=
  match r with
  | Ok o => o = outcome decision ∧ uids_known (noted cfg b o d s') H
  | Err e => is_backend_error e = true → uids_known s' H ∧ as_existing s' = as_existing s ∧
      (well_behaved H → ∀ msg, e = EntryExistsError msg → outcome decision = CREATE)
  end.

Definition decided (decision : Decision) d (s : accounts_state) : Prop := ∃ key_owners current_keys,
  verdict text d key_attribute (dict_get (as_existing s) (de_username d))
    (dict_get (as_uid_index s) (de_uid_number d)) key_owners (as_existing s) current_keys decision.

Lemma classify_decided s d : decided (classify_in text cfg s d) d s.
Proof. eexists _, _. apply classify_spec. Qed.

Section OneAccount.
Context (d : DesiredEntry) (Hd : described d).
Local Abbreviation username := (de_username d).

Lemma create_known s H : dict_get (as_existing s) username = None →
  only_mine d (dict_get (as_uid_index s) (de_uid_number d)) → uids_known s H →
  wpM G (create_from_desired cfg b d) (λ r s' H', s' = s ∧ match r with
    | Ok _ => uids_known (created_in cfg d s) H'
    | Err e => is_backend_error e = true → uids_known s H'
    end) s H.
Proof.
  intros Hnone Hmine Hinv. unfold create_from_desired. wp_step.
  eapply wpM_mono; [apply quiet_use; [apply quiet_password|exact Hinv]|].
  intros [password|e] s1 H1 [-> Hinv1]; cbv beta iota; [|done]. wp_step. apply wpM_call.
  { split; [by apply (absent_uid_free s)|]. exists d. split_and!; done. }
  set (c := CreateUserWithIds _ _ _ _ _ _ _ _ _ _).
  intros [[]|e]; cbv beta iota.
  2:{ split; [done|]. intros _. apply inv_cons; [|done]. intros n name. apply failed_holds. }
  assert (Hinv2 : uids_known (created_in cfg d s) (Ev (Directory c) (Ok ()) :: H1)).
  { apply created_known; [done|done| |done]. subst c. simpl. by intros n name [-> ->]. }
  wp_step. eapply wpM_mono; [apply access_known; exact Hinv2|].
  intros [[]|e] s2 H2 (-> & Hinv3 & He); cbv beta iota.
  - eapply wpM_mono; [apply welcome_known; exact Hinv3|]. by intros r s3 H3 (-> & Hi & ->).
  - split; [done|]. rewrite (He e) by done. done.
Qed.

Lemma restamped_fields decision s :
  as_existing (restamped d decision s) = as_existing s ∧ as_uid_index (restamped d decision s) = as_uid_index s.
Proof. unfold restamped. destruct (restamped_from decision); done. Qed.

Lemma noted_fields o s : o ≠ CREATE → o ≠ DRIFT →
  as_existing (noted cfg b o d s) = as_existing s ∧ as_uid_index (noted cfg b o d s) = as_uid_index s.
Proof. by destruct o. Qed.

(** The updates of a decision are what Waldur wants. *)
Lemma updates_allowed decision s H : decided decision d s →
  G _ H (Directory (UpdateUserAttributes username (as_values (updates decision)))).
Proof.
  intros (owners & keys & Hv). exists d. split; [done|]. split; [done|]. intros x Hx.
  apply list_elem_of_In, in_map_iff in Hx as ([n v] & <- & Hin). apply list_elem_of_In in Hin. exists v. simpl. split; [done|].
  destruct Hv as [Hv Hup]. destruct Hup as [Ho|Ho]; [by intros He; rewrite He in Hin; apply elem_of_nil in Hin|..];
    rewrite Ho in Hv; destruct Hv as (entry & _ & _ & _ & _ & _ & _ & Hu);
    destruct (Hu n v Hin) as (Hne & _ & [Hw|(-> & Hk & _)]); (split; [done|]); [by left|by right|by left|by right].
Qed.

(** The update at the end of a decision. *)
Lemma update_known decision o s0 s H : outcome decision = o → o ≠ CREATE → o ≠ DRIFT →
  decided decision d s0 → as_existing s = as_existing s0 → uids_known s H →
  wpM G ((directory (UpdateUserAttributes username (as_values (updates decision))) ;!
          modify_st (restamped d decision)) ;! ret o)
    (λ r s' H', carried decision d s0 r s' H') s H.
Proof.
  intros Ho Hc Hdr Hdec He0 Hinv. wp_step. wp_step. apply (inv_write (as_existing s) (as_uid_index s)); [by eapply updates_allowed|done|done|].
  intros [[]|e] Hi; cbv beta iota.
  - wp_step. wp_step. split; [done|]. unfold uids_known.
    destruct (noted_fields o (restamped d decision s) Hc Hdr) as [-> ->].
    destruct (restamped_fields decision s) as [-> ->]. exact Hi.
  - intros _. split; [exact Hi|]. split; [done|]. intros Hw msg ->. exfalso. refine (odd_event _ _ _ _ Hw). reflexivity.
Qed.

Lemma drift_known decision s H : outcome decision = DRIFT → uids_known s H →
  wpM G (apply_drift cfg b d ;! ret DRIFT) (λ r s' H', carried decision d s r s' H') s H.
Proof.
  intros Ho Hinv. unfold apply_drift. wp_step. destruct (ub_on_posix_mismatch b) eqn:Hp.
  - wp_step. wp_step. split; [done|]. unfold noted. by rewrite Hp.
  - wp_step. apply (inv_write (as_existing s) (as_uid_index s)); [split; [done|]; exists d; split_and!; done|done|done|].
    intros [[]|e] Hi; cbv beta iota.
    2:{ intros _. split; [exact Hi|]. split; [done|]. intros Hw msg ->. exfalso. refine (odd_event _ _ _ _ Hw). reflexivity. }
    set (H1 := Ev _ _ :: H) in *.
    assert (Hr : renumbered H1) by (do 6 eexists; left).
    assert (Hdone : ∀ s2 H2, s2 = s → H1 ⊆ H2 → uids_known s H2 → carried decision d s (Ok DRIFT) s2 H2).
    { intros s2 H2 -> Hs2 Hi2. split; [done|]. unfold noted. rewrite Hp. apply adopted_known; [|done].
      by eapply renumbered_grows. }
    destruct (personal_groups cfg); [|wp_step; wp_step; by apply Hdone].
    unfold unless_backend_error. wp_step. wp_step.
    apply (inv_write (as_existing s) (as_uid_index s)); [split; [done|]; exists d; split_and!; done|done|done|].
    intros [[]|e] Hi2; cbv beta iota; [wp_step; wp_step; apply Hdone; [done|set_solver|done]|].
    destruct (is_backend_error e) eqn:He; wp_step; [wp_step; apply Hdone; [done|set_solver|done]|].
    intros Hb. congruence.
  - wp_step. intros _. done.
Qed.

Lemma apply_known decision s H : decided decision d s → uids_known s H →
  wpM G (apply_decision cfg b decision d) (λ r s' H', carried decision d s r s' H') s H.
Proof.
  intros Hdec Hinv. unfold apply_decision. pose proof Hdec as (owners & keys & [Hv _]).
  destruct (outcome decision) eqn:Ho.
  - (* CREATE *)
    destruct Hv as (Hnone & Hmine & _). wp_step. eapply wpM_mono; [by apply create_known|].
    intros [[]|e] s1 H1 [-> Hr]; cbv beta iota.
    + wp_step. split; [done|exact Hr].
    + intros He. split; [by apply Hr|]. done.
  - wp_step. wp_step. split; [done|exact Hinv].
  - apply (update_known decision); done.
  - by apply drift_known.
  - wp_step. wp_step. split; [done|exact Hinv].
  - apply (update_known decision); done.
  - wp_step. wp_step. split; [done|exact Hinv].
  - (* REENABLE *)
    wp_step. wp_step. apply (inv_write (as_existing s) (as_uid_index s)); [exists d; split_and!; done|done|done|].
    intros [[]|e] Hi; cbv beta iota.
    2:{ intros _. split; [exact Hi|]. split; [done|]. intros Hw msg ->. exfalso. refine (odd_event _ _ _ _ Hw). reflexivity. }
    wp_step. eapply wpM_mono; [apply access_known; exact Hi|].
    intros [[]|e] s2 H2 (-> & Hi2 & He); cbv beta iota; [|intros Hb; by rewrite (He e) in Hb].
    destruct (updates decision) as [|x l] eqn:Hup.
    + wp_step. split; [done|exact Hi2].
    + rewrite <- Hup. wp_step. apply (inv_write (as_existing s) (as_uid_index s)); [by eapply updates_allowed|done|done|].
      intros [[]|e] Hi3; cbv beta iota.
      * wp_step. wp_step. split; [done|]. cbn [noted]. unfold uids_known, id.
        destruct (restamped_fields decision s) as [-> ->]. exact Hi3.
      * intros _. split; [exact Hi3|]. split; [done|]. intros Hw msg ->. exfalso. refine (odd_event _ _ _ _ Hw). reflexivity.
Qed.
(** After an error that is contained the memory is right. *)
Definition contained_known {A} (P : A → accounts_state → trace accountE → Prop) (r : res A) (s : accounts_state) H : Prop :=
  match r with
  | Ok a => P a s H
  | Err e => is_backend_error e = true → uids_known s H
  end.

Lemma reread_apply decision s H : decided decision d s → uids_known s H →
  wpM G (apply_or_reread text cfg b decision d)
    (contained_known (λ o s' H', uids_known (noted cfg b o d s') H')) s H.
Proof.
  intros Hdec Hinv. unfold apply_or_reread. wp_step. wp_step. eapply wpM_mono; [by apply apply_known|].
  intros [o|e] s1 H1 Hr; cbv beta iota.
  { wp_step. apply Hr. }
  assert (Hraise : contained_known (λ o s' H', uids_known (noted cfg b o d s') H') (Err e) s1 H1).
  { intros He. by apply Hr. }
  destruct e; try (wp_step; exact Hraise).
  destruct (Hr eq_refl) as (Hi1 & Hex & Hodd). wp_step. apply (inv_write (as_existing s1) (as_uid_index s1)); [done|done|done|].
  intros [[entry|]|e] Hi2; cbv beta iota; [|wp_step; intros _; exact Hi2|intros _; exact Hi2].
  match goal with |- wpM _ _ _ _ ?K => set (H2 := K) in * end.
  wp_step. wp_step. unfold classify_now. wp_step. wp_step. wp_step. wp_step.
  assert (Hi3 : uids_known (set_existing username entry s1) H2).
  { apply reread_known; [|exact Hi2]. intros Hw%well_behaved_cons.
    specialize (Hodd Hw _ eq_refl). destruct Hdec as (owners & keys & [Hv _]). rewrite Hodd in Hv.
    rewrite Hex. apply Hv. }
  eapply wpM_mono; [apply apply_known; [apply classify_decided|exact Hi3]|].
  intros [o|e] s3 H3 Hr3; cbn; [apply Hr3|]. intros He. by apply Hr3.
Qed.

(** A rename of an entry that is this account's. *)
Lemma finish_known username' old existing uid_index s H : uid_inv existing uid_index H →
  wpM G (finish_rename cfg username' old) (λ _ s' H', s' = s ∧ uid_inv existing uid_index H') s H.
Proof. intros Hinv. apply quiet_use; [apply quiet_finish|done]. Qed.

Lemma moved_known old entry s H : uid_of entry = Some (de_uid_number d) →
  dict_get (as_existing s) username = None →
  attr_number text (dict_get (as_existing s) old) "uidNumber" = Some (de_uid_number d) → uids_known s H →
  wpM G (modify_st (renamed_in old username entry d) ;! finish_rename cfg username old)
    (contained_known (λ _ s' H', uids_known s' H')) s H.
Proof.
  intros Huid Hnone Hold Hinv. wp_step. wp_step.
  eapply wpM_mono; [apply finish_known; apply (renamed_known s d old entry H Hnone Hold Huid Hinv)|].
  intros [[]|e] s' H' [-> Hi]; [exact Hi|intros _; exact Hi].
Qed.

Lemma move_entry_known old entry s H : uid_of entry = Some (de_uid_number d) → uids_known s H →
  wpM G (move_entry text cfg old username entry d) (λ r s' H', s' = s ∧ uids_known s H' ∧
    ∀ moved, r = Ok moved → uid_of moved = Some (de_uid_number d)) s H.
Proof.
  intros Huid Hinv. unfold move_entry. wp_step. wp_step.
  apply (inv_write (as_existing s) (as_uid_index s)); [done|done|done|].
  intros [[]|e] Hi; cbv beta iota; [wp_step; split; [done|]; split; [exact Hi|]; by intros ? [= <-]|].
  assert (Hfresh : ∀ e' H1, uids_known s H1 → wpM G
    (let! fresh := directory (SearchUser username) in
     let! mine := of_res (is_this_account text cfg fresh d) in
     if mine : bool then ret (default [] fresh) else raise e') (λ r s' H', s' = s ∧ uids_known s H' ∧
       ∀ moved, r = Ok moved → uid_of moved = Some (de_uid_number d)) s H1).
  { clear Hi. intros e' H1 Hi. wp_step. apply (inv_write (as_existing s) (as_uid_index s)); [done|done|done|].
    intros [fresh|e2] Hi2; cbv beta iota; [|done]. wp_step. wp_step.
    destruct (is_this_account text cfg fresh d) as [[]|e3] eqn:Hthis; cbv beta iota; [wp_step|wp_step; done|done].
    split; [done|]. split; [exact Hi2|]. intros moved [= <-].
    destruct (this_account_uid _ _ Hthis) as (entry3 & -> & Hu). exact Hu. }
  destruct e; first [by apply Hfresh|by wp_step].
Qed.

Lemma rename_known decision s H : decided decision d s → outcome decision = RENAME → uids_known s H →
  wpM G (rename text cfg (default "None" (uid_taken_by decision)) d)
    (contained_known (λ _ s' H', uids_known s' H')) s H.
Proof.
  intros (owners & keys & [Hv _]) Ho Hinv. rewrite Ho in Hv.
  destruct Hv as (Hnone & old & -> & _ & _ & Hold). cbn [default from_option]. unfold rename. cbv zeta.
  wp_step. apply (inv_write (as_existing s) (as_uid_index s)); [done|done|done|].
  intros [[entry|]|e] Hi; cbv beta iota; [| |intros _; exact Hi].
  - wp_step. wp_step. destruct (is_this_account text cfg (Some entry) d) as [[]|e] eqn:Hthis; cbv beta iota;
      cbn [negb]; cbv iota; [|wp_step; intros _; exact Hi|intros _; exact Hi].
    destruct (this_account_uid _ _ Hthis) as (entry' & [= <-] & Hu). 
    wp_step. apply (inv_write (as_existing s) (as_uid_index s)); [done|done|done|].
    intros [[]|e] Hi2; cbv beta iota; [|intros _; exact Hi2].
    wp_step. eapply wpM_mono; [apply quiet_use; [apply quiet_copy|exact Hi2]|].
    intros [[]|e] s3 H3 [-> Hi3]; cbv beta iota; [|intros _; exact Hi3].
    wp_step. eapply wpM_mono; [by apply move_entry_known|].
    intros [moved|e] s4 H4 (-> & Hi4 & Hmoved); cbv beta iota; [|intros _; exact Hi4].
    apply moved_known; [by apply Hmoved|done|done|exact Hi4].
  - wp_step. apply (inv_write (as_existing s) (as_uid_index s)); [done|done|done|].
    intros [fresh|e] Hi2; cbv beta iota; [|intros _; exact Hi2]. wp_step. wp_step.
    destruct (is_this_account text cfg fresh d) as [[]|e] eqn:Hthis; cbv beta iota;
      cbn [negb]; cbv iota; [|wp_step; intros _; exact Hi2|intros _; exact Hi2].
    destruct (this_account_uid _ _ Hthis) as (entry' & -> & Hu). cbn [default from_option].
    by apply moved_known.
Qed.

Lemma conflicted_known s H : uids_known s H → uids_known (add_conflicted username s) H.
Proof. done. Qed.

Lemma reconcile_one_known decision s H : decided decision d s → uids_known s H →
  wpM G (reconcile_one text cfg b d decision) (λ r s' H', r = Ok () → uids_known s' H') s H.
Proof.
  intros Hdec Hinv. unfold reconcile_one. wp_step. wp_step.
  assert (Hend : ∀ r s' H', contained_known (λ o s' H', uids_known (noted cfg b o d s') H') r s' H' →
    wpM G match r with
          | Ok outcome => modify_st (noted cfg b outcome d)
          | Err e => if is_backend_error e then modify_st (add_conflicted username) else raise e
          end (λ r s' H', r = Ok () → uids_known s' H') s' H').
  { intros [o|e] s' H' Hr; cbn in Hr; [by wp_step|]. destruct (is_backend_error e); wp_step; [|done].
    intros _. by apply conflicted_known, Hr. }
  wp_step. eapply (wpM_mono _ _ (contained_known (λ dec s' H', decided dec d s' ∧ uids_known s' H'))).
  - destruct (outcome decision) eqn:Ho; try by wp_step.
    wp_step. eapply wpM_mono; [by apply rename_known|]. intros [[]|e] s1 H1 Hr; cbv beta iota; [|exact Hr].
    unfold classify_now. wp_step. wp_step. wp_step. split; [apply classify_decided|exact Hr].
  - intros [dec|e] s1 H1 Hr; cbv beta iota; [|by apply (Hend (Err e))].
    destruct Hr as [Hdec1 Hi1]. eapply wpM_mono; [by apply reread_apply|]. intros r s2 H2 Hr2. by apply Hend.
Qed.
End OneAccount.

(** ** The pass *)

Lemma index_uid_NoDup users : NoDup (index_by_uid_number text users).*1.
Proof.
  unfold index_by_uid_number. assert (Hg : ∀ index : list (Z * string), NoDup index.*1 →
    NoDup (fold_left (λ index user, match attr_number text (Some user.2) "uidNumber" with
      | Some number => add_default index number user.1 | None => index end) users index).*1).
  { induction users as [|u users IH]; intros index Hnd; [done|]. simpl. apply IH.
    destruct (attr_number text (Some u.2) "uidNumber"); [|done]. unfold add_default.
    destruct (dict_get index z); [done|]. by apply dict_set_NoDup. }
  apply Hg. constructor.
Qed.

Lemma index_uid_sound users uid name : (uid, name) ∈ index_by_uid_number text users →
  ∃ entry, (name, entry) ∈ users ∧ uid_of entry = Some uid.
Proof.
  unfold index_by_uid_number. assert (Hg : ∀ index : list (Z * string),
    (uid, name) ∈ fold_left (λ index user, match attr_number text (Some user.2) "uidNumber" with
      | Some number => add_default index number user.1 | None => index end) users index →
    (uid, name) ∈ index ∨ ∃ entry, (name, entry) ∈ users ∧ uid_of entry = Some uid).
  { induction users as [|[n e] users IH]; intros index Hin; [by left|]. simpl in Hin.
    apply IH in Hin as [Hin|(entry & Hin & Hu)]; [|right; exists entry; split; [by right|done]].
    destruct (attr_number text (Some e) "uidNumber") as [z|] eqn:Hz; [|by left].
    unfold add_default in Hin. destruct (dict_get index z); [by left|].
    apply elem_of_dict_set in Hin as [[= -> ->]|Hin]; [|by left]. right. exists e. split; [left|exact Hz]. }
  intros [Hin%elem_of_nil|Hr]%Hg; done.
Qed.

(** The listing tells the pass every holder it shows. *)
Lemma listing_known existing s : 
  uids_known (start_pass text cfg existing s) [Ev (Directory ListUsers) (Ok existing)].
Proof.
  intros Hw. cbn [start_pass as_existing as_uid_index]. split.
  { destruct (NoDup_dec existing.*1) as [Hnd|Hnd]; [done|]. exfalso.
    by apply (Hw (Ev (Directory ListUsers) (Ok existing)) (list_elem_of_here _ _)). }
  split; [apply index_uid_NoDup|]. split; [apply index_uid_sound|].
  intros uid name (ev & ->%list_elem_of_singleton & entry & Hin & Hu). left. by eapply index_uid_complete.
Qed.

Lemma desired_described d u : u ∈ us → d ∈ desired_of cfg posix u → described d.
Proof.
  intros Hu Hd. unfold desired_of in Hd.
  assert (Hs : ou_state u = OfferingUserState.UNSET ∨ ou_state u ∈ LIVE_OFFERING_USER_STATES).
  { destruct (decide (ou_state u = OfferingUserState.UNSET)) as [|Hn]; [by left|].
    destruct (decide (ou_state u ∈ LIVE_OFFERING_USER_STATES)) as [|Hl]; [by right|].
    rewrite !bool_decide_false in Hd by done. by apply elem_of_nil in Hd. }
  destruct (_ && _); [by apply elem_of_nil in Hd|].
  destruct (build_desired _ _ _ _ _) as [d'|] eqn:Hb; [|by apply elem_of_nil in Hd].
  apply list_elem_of_singleton in Hd as ->. by exists u.
Qed.

Lemma work_described d : d ∈ flat_map (desired_of cfg posix) us → described d.
Proof.
  intros Hd%list_elem_of_In. apply in_flat_map in Hd as (u & Hu & Hd).
  apply (desired_described d u); by apply list_elem_of_In.
Qed.

Lemma reconcile_accounts_known s :
  wpM G (reconcile_accounts text cfg b posix us) (λ _ _ _, True) s [].
Proof.
  unfold reconcile_accounts. destruct us as [|u us'] eqn:Hus; [by wp_step|]. rewrite <- Hus. clear Hus.
  wp_step. apply wpM_call; [done|]. intros [existing|e]; cbv beta iota; [|done]. wp_step. wp_step.
  cbv zeta. set (H1 := [Ev (Directory ListUsers) (Ok existing)]).
  pose proof (listing_known existing s) as Hi1. fold H1 in Hi1. set (s1 := start_pass text cfg existing s) in *. clearbody s1.
  wp_step. wp_step. wp_step. set (s2 := set_current_keys _ s1).
  assert (Hi2 : uids_known s2 H1) by exact Hi1. clearbody s2.
  apply (wpM_fold_m G (flat_map (desired_of cfg posix) us) _ (λ xs later s H, uids_known s H ∧ ∀ d, d ∈ later → d ∈ xs)).
  - intros xs d later s3 H3 [ys Hwork] [Hi3 Hlater]. unfold classify_now. wp_step. wp_step. wp_step. wp_step.
    assert (Hd : described d) by (apply work_described; rewrite Hwork; apply elem_of_app; right; left).
    destruct (outcome (classify_in text cfg s3 d)) eqn:Ho;
      try (wp_step; split; [exact Hi3|]; intros d' [Hd'|Hd']%elem_of_app; apply elem_of_app; [left; by apply Hlater|by right]).
    wp_step. eapply wpM_mono; [apply reconcile_one_known; [done|apply classify_decided|exact Hi3]|].
    intros [[]|e] s4 H4 Hr; cbv beta iota; [|done]. wp_step. split; [by apply Hr|].
    intros d' Hd'. apply elem_of_app. left. by apply Hlater.
  - intros later s3 H3 [Hi3 Hlater]. wp_step.
    apply (wpM_for_each G later _ (λ _ s H, uids_known s H)); [|intros s4 H4 Hi4|exact Hi3].
    + intros xs d s4 H4 [ys Hsplit] Hi4. unfold classify_now. wp_step. wp_step. wp_step. wp_step.
      assert (Hd : described d) by (apply work_described, Hlater; rewrite Hsplit; apply elem_of_app; right; left).
      eapply wpM_mono; [apply reconcile_one_known; [done|apply classify_decided|exact Hi4]|].
      intros [[]|e] s5 H5 Hr; cbv beta iota; [by apply Hr|done].
    + wp_step. wp_step. eapply wpM_mono; [apply quiet_pending, plain_allowed|]. done.
  - split; [exact Hi2|]. intros d Hd. by apply elem_of_nil in Hd.
Qed.
End Uids.


(** ** A pass that creates one account *)

Lemma plain_reads_back : reads_back plain_text.
Proof. split; [done|]. split; [apply int_of_pretty_Ok|]. by intros [] n. Qed.

(** Jane holds 1002. *)
Definition pass_world (X : Type) (c : accountE X) (w : unit) : res X * unit :=
  (match c in accountE X return res X with
   | Directory c =>
       match c in ldapE X return res X with
       | ListUsers => Ok [("jane", [("uid", [JStr "jane"]); ("uidNumber", [JInt 1002])])]%string
       | CreateUserWithIds _ _ _ _ _ _ _ _ _ _ | AddUserToGroup _ _ _ => Ok ()
       | _ => Err (OtherException "unexpected")
       end
   | RandomPassword => Ok "secret"%string
   | _ => Err (OtherException "unexpected")
   end, w).

Definition live_john : OfferingUser := account_user "john" "john" OfferingUserState.OK.
Definition pass_run := exec pass_world
  (reconcile_accounts plain_text directory_config waldur_names (posix_of 1001) [live_john] no_state) ().

Definition john_creation : ldapE () :=
  CreateUserWithIds "john" "John" "O'Neil" "john@hpc" 1001 1001 "/home/john" "/bin/bash" None
    [("employeeNumber", JStr "john")]%string.

