(* ===== verification/LdapProjectGroups.v ===== *)
(** * The LDAP username backend: the groups of projects

    [plugins/ldap/waldur_site_agent_ldap/project_groups.py] and the passes of [backend.py]
    that run it: the groups Waldur lists for the projects of a provider, written into the
    directory with their members, and the entries that list those groups. *)

From stdpp Require Import base list strings gmap sets sorting pretty.
From Stdlib Require Import ZArith Lia Ascii.
From S2P Require Import Prelude.
From S2P Require Import Texts.
From S2P Require Import Structures.
From S2P Require Import FloatInts.
From S2P Require Import OfferingUsers.
From S2P Require Import LdapClient.
From S2P Require Import LdapReconcile.
From S2P Require Import LdapUsernames.
From S2P Require Import LdapAccounts.

Local Open Scope prog_scope.
Local Open Scope Z_scope.

(** ** Texts *)

(** [s.endswith(suffix)] *)
Definition ends_with (suffix s : string) : bool :=
  (String.length suffix <=? String.length s)%nat &&
  String.eqb (String.substring (String.length s - String.length suffix) (String.length suffix) s) suffix.

(** [s.partition(sub)], where [sub] occurs *)
Fixpoint partition_at (sub s : string) : option (string * string) :=
  if String.prefix sub s then Some (EmptyString, String.substring (String.length sub) (String.length s) s)
  else match s with
       | String c s => match partition_at sub s with
                       | Some (before, after) => Some (String c before, after)
                       | None => None
                       end
       | EmptyString => None
       end.

(** [s.replace(sub, new)] of a text [sub] that is not empty *)
Fixpoint replace_from (sub new : string) (skip : nat) (s : string) : string :=
  match s with
  | EmptyString => EmptyString
  | String c rest =>
      match skip with
      | S skip => replace_from sub new skip rest
      | O => if String.prefix sub s then new +:+ replace_from sub new (String.length sub - 1) rest
             else String c (replace_from sub new 0 rest)
      end
  end.
Definition replace_all (sub new s : string) : string := replace_from sub new 0 s.

Definition SLUG : string := "{slug}".

(** [normalize_uuid] *)
Definition normalize_uuid (value : string) : string := str_lower (without_char "-" value).

(** [_template_pattern], as a test: a value made from the template for some slug. *)
Definition rendered_from (template value : string) : bool :=
  match partition_at SLUG template with
  | None | Some (EmptyString, EmptyString) => false
  | Some (before, after) =>
      let outside := (String.length before + String.length after)%nat in
      (outside <? String.length value)%nat && String.prefix before value && ends_with after value &&
      negb (has_char "010" (String.substring (String.length before) (String.length value - outside) value))
  end.

(** [_needs_a_member], [_is_group_of_names] *)
Definition is_class (name : string) (object_classes : list string) : bool :=
  existsb (λ c, String.eqb (str_lower c) name) object_classes.

Definition needs_a_member (attribute : string) (object_classes : list string) : bool :=
  if String.eqb (str_lower attribute) "member" then is_class "groupofnames" object_classes
  else if String.eqb (str_lower attribute) "uniquemember" then is_class "groupofuniquenames" object_classes
  else false.

(** [_operations] *)
Definition operations (to_add to_remove : list string) : list change :=
  (match to_add with [] => [] | _ => [MODIFY_ADD (map JStr to_add)] end) ++
  (match to_remove with [] => [] | _ => [MODIFY_DELETE (map JStr to_remove)] end).

(** ** What Waldur lists *)

Record project_group : Type := {
  gr_name : string;
  gr_gid : option Z;
  gr_members : list string;
  gr_offering_uuids : gset string;
  gr_customer_slug : string;
}.

(** The elements of a value that is iterated over. *)
Definition elements_of (v : option json) : res (list json) :=
  match v with
  | None => Ok []
  | Some v =>
      if truthy v then
        match v with
        | JArr l => Ok l
        | JObj l => Ok (map (λ x, JStr x.1) l)
        | JStr s => Ok (map (λ c, JStr (String c EmptyString)) (String.list_ascii_of_string s))
        | _ => Err (TypeError "object is not iterable")
        end
      else Ok []
  end.

Definition MAX_PAGES : Z := 10000.

(** Scheme, host and port. *)
Definition origin : Type := string * string * option Z.

Section Listing.
Context (text : json → string).
(* httpx.URL: the origin of an absolute link *)
Context (url_origin : string → res (option origin)) (base : origin).

(** [x or y] of two fields, as a text *)
Definition text_or_empty (v : option json) : string :=
  match v with Some v => if truthy v then text v else EmptyString | None => EmptyString end.

(** [ProjectGroup.from_api] *)
Definition from_api (item : json) : res project_group :=
  match item with
  | JObj item =>
      let? gid := match obj_get item "gid" with
                  | None | Some JNull => Ok None
                  | Some v => let? z := int_of_json v in Ok (Some z)
                  end in
      let? members := elements_of (obj_get item "members") in
      let? offerings := elements_of (obj_get item "offerings") in
      Ok {| gr_name := text_or_empty (obj_get item "name");
            gr_gid := gid;
            gr_members := merge_sort str_le
              (elements (list_to_set (map text (List.filter truthy members)) : gset string));
            gr_offering_uuids := list_to_set (flat_map (λ offering,
              match offering with
              | JObj o => match obj_get o "uuid" with
                          | Some u => if truthy u then [normalize_uuid (text u)] else []
                          | None => []
                          end
              | _ => []
              end) offerings);
            gr_customer_slug := text_or_empty (obj_get item "customer_slug") |}
  | _ => Err (AttributeError "object has no attribute 'get'")
  end.

Definition groups_of (items : list json) : res (list project_group) :=
  rfold (λ groups item, let? group := from_api item in Ok (groups ++ [group])) items [].

(** [_same_origin] *)
Definition same_origin (link : string) : res string :=
  let? target := url_origin link in
  match target with
  | None => Ok link
  | Some target => if decide (target = base) then Ok link
                   else Err (BackendError "Refusing to follow a next-page link to another server")
  end.

(** What tells two items of a listing apart. *)
Definition identity (item : json) : res string :=
  match item with
  | JObj item =>
      Ok (match obj_get item "uuid" with
          | Some u => if truthy u then text u else text (default JNull (obj_get item "name"))
          | None => text (default JNull (obj_get item "name"))
          end)
  | _ => Err (AttributeError "object has no attribute 'get'")
  end.

(** [_check_complete] *)
Definition check_complete (groups : list json) (counts : gset string) : res unit :=
  let? unique := rfold (λ unique item, let? i := identity item in Ok ({[i]} ∪ unique)) groups (∅ : gset string) in
  match elements counts with
  | [] => Ok ()
  | [count] =>
      let? n := int_of_text count in
      if Z.eqb (Z.of_nat (size unique)) n then Ok ()
      else Err (BackendError "The project group listing changed while it was read")
  | _ => Err (BackendError "The project group listing changed while it was read")
  end.

(** [fetch_provider_project_groups] *)
Fixpoint fetch_pages {S} (pages : nat) (page : string + string) (groups : list json) (counts : gset string)
  : M accountE S (list json) :=
  match pages with
  | O => raise (BackendError "Listing project groups did not finish")
  | S pages =>
      let! response := call (GroupsPage page) in
      let '(items, count, next_link) := response in
      match items with
      | JArr items =>
          let groups := groups ++ items in
          let counts := match count with Some count => {[count]} ∪ counts | None => counts end in
          match next_link with
          | Some link =>
              if nonempty link then
                let! link := of_res (same_origin link) in
                fetch_pages pages (inr link) groups counts
              else of_res (check_complete groups counts) ;! ret groups
          | None => of_res (check_complete groups counts) ;! ret groups
          end
      | _ => raise (BackendError "Unexpected project group listing")
      end
  end.

Definition fetch_provider_project_groups {S} (offering_uuid : string) : M accountE S (list json) :=
  fetch_pages (Z.to_nat MAX_PAGES) (inl offering_uuid) [] ∅.
End Listing.

(** ** What a pass knows *)

Record groups_state : Type := {
  gp_holders : gmap Z (gset string);                     (* gidNumber -> normalised DNs *)
  gp_managed : list (string * (string * project_group)); (* normalised DN -> DN and group *)
  gp_untouchable : gset string;
  gp_seen : gset string;
  gp_removable : gset string;
}.

Definition no_groups : groups_state :=
  {| gp_holders := ∅; gp_managed := []; gp_untouchable := ∅; gp_seen := ∅; gp_removable := ∅ |}.

Abbreviation group_m := (M accountE groups_state).

Definition set_holders (holders : gmap Z (gset string)) (s : groups_state) : groups_state :=
  {| gp_holders := holders; gp_managed := gp_managed s; gp_untouchable := gp_untouchable s;
     gp_seen := gp_seen s; gp_removable := gp_removable s |}.
Definition set_managed (key dn : string) (group : project_group) (s : groups_state) : groups_state :=
  {| gp_holders := gp_holders s; gp_managed := dict_set (gp_managed s) key (dn, group);
     gp_untouchable := gp_untouchable s; gp_seen := gp_seen s; gp_removable := gp_removable s |}.
Definition set_untouchable (key : string) (s : groups_state) : groups_state :=
  {| gp_holders := gp_holders s; gp_managed := gp_managed s; gp_untouchable := {[key]} ∪ gp_untouchable s;
     gp_seen := gp_seen s; gp_removable := gp_removable s |}.
Definition set_seen (key : string) (s : groups_state) : groups_state :=
  {| gp_holders := gp_holders s; gp_managed := gp_managed s; gp_untouchable := gp_untouchable s;
     gp_seen := {[key]} ∪ gp_seen s; gp_removable := gp_removable s |}.
Definition set_removable (key : string) (s : groups_state) : groups_state :=
  {| gp_holders := gp_holders s; gp_managed := gp_managed s; gp_untouchable := gp_untouchable s;
     gp_seen := gp_seen s; gp_removable := {[key]} ∪ gp_removable s |}.

Definition holders_of (holders : gmap Z (gset string)) (gid : Z) : gset string := default ∅ (holders !! gid).

(** [holders.setdefault(gid, set()).add(key)] *)
Definition holding (gid : Z) (key : string) (holders : gmap Z (gset string)) : gmap Z (gset string) :=
  <[gid := {[key]} ∪ holders_of holders gid]> holders.
(** [holders.get(gid, set()).discard(key)] *)
Definition dropping (gid : option Z) (key : string) (holders : gmap Z (gset string)) : gmap Z (gset string) :=
  match gid with
  | Some gid => match holders !! gid with
                | Some keys => <[gid := keys ∖ {[key]}]> holders
                | None => holders
                end
  | None => holders
  end.

(** The settings of a pass. *)
Record reconciler : Type := {
  rc_ou : string;
  rc_object_classes : list string;
  rc_member_attribute : string;
  rc_add_only : bool;
  rc_adopt_gid : bool;
  rc_parents : list parent_group;
  rc_organization_template : string;
  rc_offering_uuid : string;
  rc_require_user_entries : bool;
  rc_key_attribute : string;
  rc_excluded_members : gset string;
}.

(** [ProjectGroupReconciler.__init__] *)
Definition new_reconciler (s : project_group_settings) (offering_uuid : string) (require_user_entries : bool)
    (key_attribute : string) (excluded_members : gset string) : reconciler :=
  {| rc_ou := or_else (default EmptyString (gs_ou s)) "ou=projects";
     rc_object_classes := match default [] (gs_object_classes s) with
                          | [] => ["top"; "posixGroup"]%string
                          | classes => classes
                          end;
     rc_member_attribute := or_else (default EmptyString (gs_member_attribute s)) "memberUid";
     rc_add_only := gs_add_only s;
     rc_adopt_gid := gs_adopt_gid s;
     rc_parents := gs_parents s;
     rc_organization_template := default EmptyString (gs_organization_description s);
     rc_offering_uuid := normalize_uuid offering_uuid;
     rc_require_user_entries := require_user_entries;
     rc_key_attribute := key_attribute;
     rc_excluded_members := excluded_members |}.

Section Reconciler.
Context (names : ldap_names) (cfg : ldap_config) (rc : reconciler).

Local Abbreviation text := (ln_text names).
Local Abbreviation normalize := (normalize_dn (ln_parse_dn names)).
Local Abbreviation attribute := (rc_member_attribute rc).

(** [_values]: of an attribute in whatever case, without empty ones. *)
Definition present_value (v : json) : bool :=
  match v with JNull => false | JStr s => nonempty s | _ => true end.
Definition values (entry : attributes) (name : string) : list string :=
  match List.find (λ x, String.eqb (str_lower x.1) (str_lower name)) entry with
  | Some x => map text (List.filter present_value x.2)
  | None => []
  end.

(** [_in_project_ou] *)
Definition in_project_ou (key : string) : bool :=
  ends_with ("," +:+ normalize (rc_ou rc +:+ "," +:+ base_dn cfg)) key.

(** [_organization_value] *)
Definition organization_value (group : project_group) : string :=
  if nonempty (rc_organization_template rc) && nonempty (gr_customer_slug group)
  then replace_all SLUG (gr_customer_slug group) (rc_organization_template rc) else EmptyString.

(** [_member_values] *)
Definition present_members (group : project_group) (user_names : option (gset string)) : list string :=
  match user_names with
  | None => gr_members group
  | Some user_names => List.filter (λ u, bool_decide (u ∈ user_names)) (gr_members group)
  end.
Definition member_values (group : project_group) (user_names : option (gset string)) : list string :=
  let present := present_members group user_names in
  if String.eqb attribute "member" then map (user_dn (ln_escape_rdn names) cfg) present else present.

(** [_new_group_attributes] *)
Definition new_group_attributes (group : project_group) (gid : Z) (user_names : option (gset string))
  : list (string * json) :=
  let organization := organization_value group in
  let members := member_values group user_names in
  let listed := match members with [] => false | _ => true end in
  [("objectClass", JArr (map JStr (rc_object_classes rc))); ("cn", JStr (gr_name group));
   ("gidNumber", JInt gid)]%string ++
  (if nonempty organization then [("description"%string, JArr [JStr organization])] else []) ++
  (if listed then [(attribute, JArr (map JStr members))] else []) ++
  (if is_class "groupofnames" (rc_object_classes rc) && negb (listed && String.eqb attribute "member")
   then [("member"%string, JArr [JStr (empty_group_member_dn cfg)])] else []).

(** [_sync_organization_description] *)
Definition sync_organization_description (dn : string) (attrs : attributes) (group : project_group)
  : group_m unit :=
  let desired := organization_value group in
  if negb (nonempty desired) then ret ()
  else
    let current := values attrs "description" in
    let stale := List.filter (λ value, negb (String.eqb value desired) &&
                                       rendered_from (rc_organization_template rc) value) current in
    let to_add := if bool_decide (desired ∈ current) then [] else [desired] in
    match stale, to_add with
    | [], [] => ret ()
    | _, _ => directory (ModifyEntry dn [("description"%string, operations to_add stale)])
    end.

(** What still is to do after another writer changed the same values. *)
Definition value_key (attribute value : string) : string :=
  if String.eqb (str_lower attribute) "member" then normalize value else value.
Definition still_missing (attribute : string) (fresh : attributes) (to_add : list string) : list string :=
  List.filter (λ v, negb (bool_decide (value_key attribute v ∈ map (value_key attribute) (values fresh attribute)))) to_add.
Definition still_there (attribute : string) (fresh : attributes) (to_remove : list string) : list string :=
  List.filter (λ v, bool_decide (value_key attribute v ∈ map (value_key attribute) (values fresh attribute))) to_remove.

(** [_modify_members] *)
Definition modify_members (dn attribute : string) (attrs : attributes) (current to_add to_remove : list string)
  : group_m unit :=
  let to_add :=
    match to_add, to_remove with
    | [], _ :: _ =>
        if (length to_remove =? length current)%nat && needs_a_member attribute (values attrs "objectClass")
        then [empty_group_member_dn cfg] else []
    | _, _ => to_add
    end in
  match to_add, to_remove with
  | [], [] => ret ()
  | _, _ =>
      let! modified := attempt (directory (ModifyEntry dn [(attribute, operations to_add to_remove)])) in
      match modified with
      | Ok _ => ret ()
      | Err (ValueConflictError _ as e) =>
          let! fresh := directory (ReadEntry dn [attribute; "objectClass"%string]) in
          match fresh with
          | None => raise e
          | Some fresh =>
              match still_missing attribute fresh to_add, still_there attribute fresh to_remove with
              | [], [] => ret ()
              | to_add, to_remove => directory (ModifyEntry dn [(attribute, operations to_add to_remove)])
              end
          end
      | Err e => raise e
      end
  end.

(** [{normalize_dn(v): v for v in l}] *)
Definition by_dn (l : list string) : list (string * string) :=
  fold_left (λ d v, dict_set d (normalize v) v) l [].

(** [_sync_members] *)
Definition member_changes (current desired : list string) : list string * list string :=
  if String.eqb attribute "member" then
    let current := by_dn current in
    let desired := by_dn desired in
    (dict_values (List.filter (λ x, negb (bool_decide (x.1 ∈ dict_keys current))) desired),
     dict_values (List.filter (λ x, negb (bool_decide (x.1 ∈ dict_keys desired)) &&
                                    nonempty (extract_uid_from_dn (ln_parse_dn names) x.2)) current))
  else
    (List.filter (λ v, negb (bool_decide (v ∈ current))) desired,
     List.filter (λ v, negb (bool_decide (v ∈ desired))) current).

Definition sync_members (dn : string) (attrs : attributes) (group : project_group)
    (user_names : option (gset string)) : group_m unit :=
  let current := values attrs attribute in
  let '(to_add, to_remove) := member_changes current (member_values group user_names) in
  modify_members dn attribute attrs current to_add (if rc_add_only rc then [] else to_remove).

(** ** One group *)

Definition read_attributes : list string :=
  ["cn"; "gidNumber"; "objectClass"; "description"; attribute]%string.

(** An entry of the group that is there. *)
Definition reconcile_existing (group : project_group) (gid : Z) (key : string) (others : gset string)
    (entry_dn : string) (attrs : attributes) (user_names : option (gset string)) : group_m unit :=
  let! current_gid := of_res (match values attrs "gidNumber" with
                              | [] => Ok None
                              | raw_gid :: _ => let? z := int_of_text raw_gid in Ok (Some z)
                              end) in
  (if decide (current_gid = Some gid) then ret ()
   else if rc_adopt_gid rc && bool_decide (others = ∅) then
     directory (ModifyEntry entry_dn [("gidNumber"%string, [MODIFY_REPLACE [JInt gid]])]) ;!
     modify_st (λ s, set_holders (holding gid key (dropping current_gid key (gp_holders s))) s)
   else ret ()) ;!
  modify_st (set_managed key entry_dn group) ;!
  sync_organization_description entry_dn attrs group ;!
  sync_members entry_dn attrs group user_names.

(** [_reconcile_group] *)
Definition reconcile_group (group : project_group) (gid : Z) (dn key : string)
    (entry : option (string * attributes)) (same_name : list string) (user_names : option (gset string))
  : group_m unit :=
  let! s := get_st in
  let others := holders_of (gp_holders s) gid ∖ {[key]} in
  let! entry :=
    match entry with
    | Some entry => ret (Some entry)
    | None =>
        match same_name with
        | [] =>
            if decide (others = ∅) then
              let! added := attempt (directory (AddEntry dn (new_group_attributes group gid user_names))) in
              match added with
              | Ok _ =>
                  modify_st (λ s, set_managed key dn group (set_holders (holding gid key (gp_holders s)) s)) ;!
                  ret None
              | Err (EntryExistsError _ as e) =>
                  let! fresh := directory (ReadEntry dn read_attributes) in
                  match fresh with
                  | None => raise e
                  | Some fresh => ret (Some (dn, fresh))
                  end
              | Err e => raise e
              end
            else ret None
        | _ => ret None
        end
    end in
  match entry with
  | None => ret ()
  | Some (entry_dn, attrs) => reconcile_existing group gid key others entry_dn attrs user_names
  end.

(** ** Parents *)

(** [_reconcile_parent] *)
Definition parent_offerings (parent : parent_group) : gset string :=
  match pg_offering_uuids parent with
  | [] => {[rc_offering_uuid rc]}
  | uuids => list_to_set (map normalize_uuid uuids)
  end.

Definition wanted_in (parent : parent_group) (managed : list (string * (string * project_group)))
  : list (string * string) :=
  map (λ x, (x.1, x.2.1))
    (List.filter (λ x, negb (bool_decide (gr_offering_uuids x.2.2 ∩ parent_offerings parent = ∅))) managed).

Definition reconcile_parent (parent : parent_group) (managed : list (string * (string * project_group)))
    (removable : gset string) : group_m unit :=
  let parent_attribute := or_else (default EmptyString (pg_attribute parent)) "member" in
  let desired := wanted_in parent managed in
  let! entry := directory (ReadEntry (pg_dn parent) [parent_attribute; "objectClass"%string]) in
  match entry with
  | None => raise (BackendError ("parent entry " +:+ pg_dn parent +:+ " does not exist"))
  | Some entry =>
      let current_values := values entry parent_attribute in
      let current := by_dn current_values in
      let to_add := dict_values (List.filter (λ x, negb (bool_decide (x.1 ∈ dict_keys current))) desired) in
      let to_remove := dict_values (List.filter (λ x,
        negb (bool_decide (x.1 ∈ dict_keys desired)) && in_project_ou x.1 && bool_decide (x.1 ∈ removable)) current) in
      modify_members (pg_dn parent) parent_attribute entry current_values to_add to_remove
  end.

(** ** The pass *)

(** Groups of the same name elsewhere in the directory. *)
Definition index_names (listed : list (string * attributes)) : list (string * list string) :=
  fold_left (λ index x,
    if in_project_ou (normalize x.1) then index
    else fold_left (λ index cn, add_owner index (str_lower cn) x.1) (values x.2 "cn") index) listed [].

Definition index_holders (listed : list (Z * list string)) : gmap Z (gset string) :=
  fold_left (λ index x, <[x.1 := list_to_set (map normalize x.2)]> index) listed ∅.

Definition index_entries (listed : list (string * attributes)) : list (string * (string * attributes)) :=
  fold_left (λ index x, dict_set index (normalize x.1) x) listed [].

(** The accounts a group may name. *)
Definition nameable (users : list (string * attributes)) : gset string :=
  list_to_set (map fst (List.filter (λ x, negb (nonempty (rc_key_attribute rc)) ||
    match values x.2 (rc_key_attribute rc) with [] => false | _ => true end) users)) ∖ rc_excluded_members rc.

(** One group of the listing. *)
Definition serve_group (existing : list (string * (string * attributes)))
    (name_holders : list (string * list string)) (user_names : option (gset string))
    (group : project_group) : group_m unit :=
  if negb (nonempty (gr_name group)) then ret ()
  else
    let dn := dn_under (ln_escape_rdn names) cfg (gr_name group) (rc_ou rc) "cn" in
    let key := normalize dn in
    modify_st (set_removable key) ;!
    match gr_gid group with
    | None => modify_st (set_untouchable key)
    | Some gid =>
        let! s := get_st in
        if decide (key ∈ gp_seen s) then ret ()
        else
          modify_st (set_seen key) ;!
          let! done := attempt (reconcile_group group gid dn key (dict_get existing key)
            (default [] (dict_get name_holders (str_lower (gr_name group)))) user_names) in
          match done with
          | Ok _ => ret ()
          | Err e => if is_backend_error e then modify_st (set_untouchable key) else raise e
          end
    end.

(** [run] *)
Definition run (groups : list project_group) : group_m unit :=
  match groups with
  | [] => ret ()
  | _ =>
      let! listed := directory (ListEntries (rc_ou rc) "(cn=*)" read_attributes) in
      let existing := index_entries listed in
      let! gids := directory GidHolders in
      modify_st (set_holders (index_holders gids)) ;!
      let! posix_groups := directory (ListEntries EmptyString "(objectClass=posixGroup)" ["cn"%string]) in
      let name_holders := index_names posix_groups in
      let! user_names :=
        if String.eqb attribute "member" || rc_require_user_entries rc
        then let! users := directory ListUsers in ret (Some (nameable users))
        else ret None in
      for_each groups (serve_group existing name_holders user_names) ;!
      for_each (rc_parents rc) (λ parent,
        let! s := get_st in
        unless_backend_error
          (reconcile_parent parent (gp_managed s) (gp_removable s ∖ gp_untouchable s)))
  end.
End Reconciler.

(** ** The passes of the backend *)

Section Passes.
Context (names : ldap_names) (cfg : ldap_config) (b : username_backend) (offering_uuid : string).
Context (url_origin : string → res (option origin)) (base : origin).
Context (posix : OfferingUser → posix_fields).

(** [_reconcile_project_groups] *)
Definition project_group_pass : account_m unit :=
  if negb (nonempty offering_uuid) then ret ()
  else
    let! items := attempt (fetch_provider_project_groups (ln_text names) url_origin base offering_uuid) in
    match items with
    | Err _ => ret ()
    | Ok items =>
        let! s := get_st in
        let rc := new_reconciler (ub_project_groups b) offering_uuid (ub_waldur_authoritative b)
          (if ub_waldur_authoritative b then waldur_username_attribute cfg else EmptyString) (as_conflicted s) in
        unless_backend_error (
          let! groups := of_res (groups_of (ln_text names) items) in
          let! report := run_on no_groups (run names cfg rc groups) in
          of_res report.1)
    end.

Definition reconcile_project_groups : account_m unit :=
  if negb (gs_enabled (ub_project_groups b)) then ret ()
  else
    let! s := get_st in
    if ub_waldur_authoritative b && negb (as_full_pass_done s) then ret () else project_group_pass.

Definition full_pass_done (s : accounts_state) : accounts_state :=
  {| as_conflicted := as_conflicted s; as_full_pass_done := negb (as_failed_pass s) || as_full_pass_done s;
     as_failed_pass := as_failed_pass s; as_key_index := as_key_index s; as_existing := as_existing s;
     as_uid_index := as_uid_index s; as_mail_index := as_mail_index s;
     as_pass_conflicted := as_pass_conflicted s; as_current_keys := as_current_keys s |}.

(** [reconcile_offering] *)
Definition reconcile_offering : account_m unit :=
  modify_st full_pass_done ;! reconcile_project_groups.
End Passes.

(** ** What a pass may write *)

(** The items of the pages, oldest first, and the counts of their headers. *)
Definition page_items (ev : event accountE) : list json :=
  match ev with
  | Ev (GroupsPage _) (Ok (JArr items, _, _)) => items
  | _ => []
  end.
Definition page_count (ev : event accountE) : list string :=
  match ev with
  | Ev (GroupsPage _) (Ok (JArr _, Some count, _)) => [count]
  | _ => []
  end.
Definition listing (H : trace accountE) : list json := flat_map page_items (rev H).
Definition counts (H : trace accountE) : gset string := list_to_set (flat_map page_count H).

(** What a pass has read when it writes. *)
Record knowledge : Type := {
  kn_groups : list project_group;
  kn_listed : list (string * attributes);
  kn_gids : list (Z * list string);
  kn_posix : list (string * attributes);
  kn_users : option (gset string);
}.

Section Writes.
Context (names : ldap_names) (cfg : ldap_config) (rc : reconciler).
Implicit Types (H : trace accountE) (g : project_group).

Local Abbreviation text := (ln_text names).
Local Abbreviation normalize := (normalize_dn (ln_parse_dn names)).
Local Abbreviation attribute := (rc_member_attribute rc).

Definition group_entry g : string := dn_under (ln_escape_rdn names) cfg (gr_name g) (rc_ou rc) "cn".
Definition group_key g : string := normalize (group_entry g).

(** The listing agrees with the counts Waldur sent along, and is not empty. *)
Definition listed_completely (groups : list project_group) H : Prop :=
  check_complete text (listing H) (counts H) = Ok () ∧ groups_of text (listing H) = Ok groups ∧ groups ≠ [].

Definition knows (k : knowledge) H : Prop :=
  listed_completely (kn_groups k) H ∧
  Ev (Directory (ListEntries (rc_ou rc) "(cn=*)" (read_attributes rc))) (Ok (kn_listed k)) ∈ H ∧
  Ev (Directory GidHolders) (Ok (kn_gids k)) ∈ H ∧
  Ev (Directory (ListEntries "" "(objectClass=posixGroup)" ["cn"%string])) (Ok (kn_posix k)) ∈ H ∧
  match kn_users k with
  | None => attribute ≠ "member"%string ∧ rc_require_user_entries rc = false
  | Some user_names => ∃ users, Ev (Directory ListUsers) (Ok users) ∈ H ∧ user_names = nameable names rc users
  end.

Definition renumbering (gid : Z) : changes := [("gidNumber"%string, [MODIFY_REPLACE [JInt gid]])].

(** A gid is taken by whom the listing shows with it, and by every group given it since. *)
Definition takes (gid : Z) (key : string) (ev : event accountE) : Prop :=
  match ev with
  | Ev (Directory (AddEntry dn values)) (Ok _) => normalize dn = key ∧ ("gidNumber"%string, JInt gid) ∈ values
  | Ev (Directory (ModifyEntry dn changes)) (Ok _) => normalize dn = key ∧ changes = renumbering gid
  | _ => False
  end.
Definition moved (gid : Z) (key : string) (ev : event accountE) : Prop :=
  match ev with
  | Ev (Directory (ModifyEntry dn changes)) (Ok _) => normalize dn = key ∧ changes = renumbering gid
  | _ => False
  end.

Section Knowing.
Context (k : knowledge).

Definition shown_with (gid : Z) (key : string) : Prop :=
  ∃ dns dn, (gid, dns) ∈ kn_gids k ∧ dn ∈ dns ∧ normalize dn = key.
Definition holder (gid : Z) (key : string) H : Prop :=
  shown_with gid key ∨ ∃ ev, ev ∈ H ∧ takes gid key ev.
Definition moved_on (gid : Z) (key : string) H : Prop := ∃ gid' ev, gid' ≠ gid ∧ ev ∈ H ∧ moved gid' key ev.

Definition gid_free (gid : Z) (key : string) H : Prop := NoDup (kn_gids k).*1 →
  ∀ key', holder gid key' H → key' = key ∨ moved_on gid key' H.

Definition unlisted (key : string) : Prop := ∀ x, x ∈ kn_listed k → normalize x.1 ≠ key.

(** Another group of the directory has the name. *)
Definition name_taken g : Prop := ∃ dn entry cn, (dn, entry) ∈ kn_posix k ∧
  in_project_ou names cfg rc (normalize dn) = false ∧ cn ∈ values names entry "cn" ∧
  str_lower cn = str_lower (gr_name g).

Definition numbered g (gid : Z) : Prop := g ∈ kn_groups k ∧ gr_name g ≠ EmptyString ∧ gr_gid g = Some gid.

(** The group was there, or was added. *)
Definition written (dn : string) H : Prop :=
  (∃ entry, (dn, entry) ∈ kn_listed k) ∨ (∃ values, Ev (Directory (AddEntry dn values)) (Ok ()) ∈ H) ∨
  (∃ ns entry, Ev (Directory (ReadEntry dn ns)) (Ok (Some entry)) ∈ H).

(** Why a group Waldur lists is not in the directory. *)
Definition refused g (gid : Z) H : Prop :=
  unlisted (group_key g) ∧ (name_taken g ∨ ∃ key', key' ≠ group_key g ∧ holder gid key' H).

Definition organisation_change g (added removed : list string) : Prop :=
  organization_value rc g ≠ EmptyString ∧ (∀ v, v ∈ added → v = organization_value rc g) ∧
  (∀ v, v ∈ removed → v ≠ organization_value rc g ∧ rendered_from (rc_organization_template rc) v = true).

(** Members added are members Waldur lists, of the accounts that may be named; a member
    removed is none of them, and an account where members are DNs. *)
Definition member_change g (added removed : list string) : Prop :=
  let desired := member_values names cfg rc g (kn_users k) in
  (∀ v, v ∈ added → v ∈ desired ∨ v = empty_group_member_dn cfg) ∧
  (rc_add_only rc = true → removed = []) ∧
  (∀ v, v ∈ removed →
     if String.eqb attribute "member"
     then normalize v ∉ map normalize desired ∧ extract_uid_from_dn (ln_parse_dn names) v ≠ EmptyString
     else v ∉ desired).

Definition parent_attribute (parent : parent_group) : string :=
  or_else (default EmptyString (pg_attribute parent)) "member".

(** A parent is given the groups that are in use on its offerings, and loses only groups
    that Waldur lists, are not, or could not be written. *)
Definition parent_change (parent : parent_group) (added removed : list string) H : Prop :=
  (∀ v, v ∈ added → v = empty_group_member_dn cfg ∨ ∃ g gid, numbered g gid ∧ normalize v = group_key g ∧
     gr_offering_uuids g ∩ parent_offerings rc parent ≠ ∅ ∧ written v H) ∧
  (∀ v, v ∈ removed → in_project_ou names cfg rc (normalize v) = true ∧ ∃ g gid, numbered g gid ∧
     normalize v = group_key g ∧ (gr_offering_uuids g ∩ parent_offerings rc parent = ∅ ∨ refused g gid H)).

Definition group_modification (dn : string) (changes : changes) H : Prop := ∃ g gid, numbered g gid ∧
  normalize dn = group_key g ∧
  ((changes = renumbering gid ∧ rc_adopt_gid rc = true ∧ gid_free gid (group_key g) H) ∨
   (∃ added removed, changes = [("description"%string, operations added removed)] ∧
      organisation_change g added removed) ∨
   (∃ added removed, changes = [(attribute, operations added removed)] ∧ member_change g added removed)).

Definition parent_modification (dn : string) (changes : changes) H : Prop := ∃ parent added removed,
  parent ∈ rc_parents rc ∧ dn = pg_dn parent ∧
  changes = [(parent_attribute parent, operations added removed)] ∧ parent_change parent added removed H.

Definition group_creation (dn : string) (values : list (string * json)) H : Prop := ∃ g gid, numbered g gid ∧
  dn = group_entry g ∧ values = new_group_attributes names cfg rc g gid (kn_users k) ∧
  unlisted (group_key g) ∧ ¬ name_taken g ∧ gid_free gid (group_key g) H.
End Knowing.

Definition group_guard : guard accountE := λ X H c,
  match c with
  | Directory c =>
      match c with
      | ListEntries _ _ _ | GidHolders | ListUsers | ReadEntry _ _ => ∃ groups, listed_completely groups H
      | AddEntry dn values => ∃ k, knows k H ∧ group_creation k dn values H
      | ModifyEntry dn changes => ∃ k, knows k H ∧
          (group_modification k dn changes H ∨ parent_modification k dn changes H)
      | _ => False
      end
  | GroupsPage _ => ∀ X (c : ldapE X) a, Ev (Directory c) a ∉ H
  | _ => False
  end.

(** ** The memory of a pass *)

Lemma listing_directory {X} (c : ldapE X) a H : listing (Ev (Directory c) a :: H) = listing H.
Proof. unfold listing. simpl. by rewrite flat_map_app, app_nil_r. Qed.

Lemma listed_later {X} (c : ldapE X) a groups H :
  listed_completely groups H → listed_completely groups (Ev (Directory c) a :: H).
Proof. unfold listed_completely. by rewrite listing_directory. Qed.

Lemma knows_later k {X} (c : ldapE X) a H : knows k H → knows k (Ev (Directory c) a :: H).
Proof.
  intros (Hl & H1 & H2 & H3 & H4). split; [by apply listed_later|]. split; [by right|]. split; [by right|].
  split; [by right|]. destruct (kn_users k); [|done]. destruct H4 as (users & H4 & Hu). exists users.
  split; [by right|done].
Qed.

Section Memory.
Context (k : knowledge).

Lemma moved_on_later gid key ev H : moved_on gid key H → moved_on gid key (ev :: H).
Proof. intros (gid' & ev' & Hg & Hin & Hm). exists gid', ev'. split; [done|]. split; [by right|done]. Qed.
Lemma holding_later gid key ev H : holder k gid key H → holder k gid key (ev :: H).
Proof. intros [Hs|(ev' & Hin & Hh)]; [by left|right]. exists ev'. split; [by right|done]. Qed.
Lemma holder_taken gid key ev H : takes gid key ev → holder k gid key (ev :: H).
Proof. intros Ht. right. exists ev. split; [left|done]. Qed.
Lemma holding_cons gid key ev H : holder k gid key (ev :: H) → holder k gid key H ∨ takes gid key ev.
Proof.
  intros [Hs|(ev' & [->|Hin]%elem_of_cons & Hh)]; [by left; left|by right|left; right]. by exists ev'.
Qed.
Lemma written_later dn ev H : written k dn H → written k dn (ev :: H).
Proof.
  intros [Hl|[(values & Hin)|(ns & entry & Hin)]]; [by left|right; left; exists values; by right|].
  right; right. exists ns, entry. by right.
Qed.
Lemma refused_later g gid ev H : refused k g gid H → refused k g gid (ev :: H).
Proof.
  intros [Hu [Hn|(key' & Hk & Hh)]]; (split; [done|]); [by left|right]. exists key'. split; [done|by apply holding_later].
Qed.

(** The numbers the pass remembers are those taken. *)
Definition numbers_known (holders : gmap Z (gset string)) H : Prop :=
  (NoDup (kn_gids k).*1 → ∀ gid key, holder k gid key H → key ∈ holders_of holders gid ∨ moved_on gid key H) ∧
  (∀ gid key, key ∈ holders_of holders gid → holder k gid key H).

Definition groups_known (managed : list (string * (string * project_group))) H : Prop :=
  ∀ key dn g, (key, (dn, g)) ∈ managed → ∃ gid, numbered k g gid ∧ key = group_key g ∧ normalize dn = key ∧
    written k dn H.

Definition core (s : groups_state) H : Prop :=
  knows k H ∧ numbers_known (gp_holders s) H ∧ groups_known (gp_managed s) H.

Lemma core_quiet s {X} (c : ldapE X) a H : (∀ gid key, ¬ takes gid key (Ev (Directory c) a)) →
  core s H → core s (Ev (Directory c) a :: H).
Proof.
  intros Hq (Hk & [Hn1 Hn2] & Hm). split; [by apply knows_later|]. split; [split|].
  - intros Hnd gid key [Hh|Ht]%holding_cons; [|by apply Hq in Ht].
    destruct (Hn1 Hnd _ _ Hh) as [?|?]; [by left|right; by apply moved_on_later].
  - intros gid key Hin. by apply holding_later, Hn2.
  - intros key dn g Hin. destruct (Hm _ _ _ Hin) as (gid & Hg & Hkey & Hdn & Hw). exists gid.
    do 3 (split; [done|]). by apply written_later.
Qed.

Lemma holders_holding holders gid key gid' : holders_of (holding gid key holders) gid' =
  if decide (gid = gid') then {[key]} ∪ holders_of holders gid' else holders_of holders gid'.
Proof.
  unfold holding, holders_of. case_decide as Hg; [subst; by rewrite lookup_insert_eq|by rewrite lookup_insert_ne].
Qed.

Lemma holders_dropping holders gid key gid' : holders_of (dropping gid key holders) gid' =
  if decide (gid = Some gid') then holders_of holders gid' ∖ {[key]} else holders_of holders gid'.
Proof.
  unfold dropping, holders_of. destruct gid as [gid|]; [|by rewrite decide_False].
  destruct (holders !! gid) as [keys|] eqn:Hk.
  - case_decide as Hg; [injection Hg as ->; by rewrite lookup_insert_eq, Hk|].
    rewrite lookup_insert_ne; [done|]. congruence.
  - case_decide as Hg; [injection Hg as ->; rewrite Hk; simpl; set_solver|done].
Qed.

Lemma free_of_memory s gid key H : holders_of (gp_holders s) gid ∖ {[key]} = ∅ → numbers_known (gp_holders s) H →
  gid_free k gid key H.
Proof.
  intros He [Hn _] Hnd key' Hh. destruct (Hn Hnd _ _ Hh) as [Hin|Hm]; [left|by right].
  destruct (decide (key' = key)); [done|]. exfalso.
  assert (Hin' : key' ∈ holders_of (gp_holders s) gid ∖ {[key]}) by (apply elem_of_difference; split; [done|by rewrite elem_of_singleton]).
  rewrite He in Hin'. by apply elem_of_empty in Hin'.
Qed.

Lemma taken_of_memory s gid key H : holders_of (gp_holders s) gid ∖ {[key]} ≠ ∅ → numbers_known (gp_holders s) H →
  ∃ key', key' ≠ key ∧ holder k gid key' H.
Proof.
  intros He [_ Hn]. destruct (set_choose_L _ He) as [key' [Hin Hne]%elem_of_difference]. exists key'.
  split; [by rewrite elem_of_singleton in Hne|by apply Hn].
Qed.

(** A group added, or renumbered, is remembered. *)
Lemma numbers_added holders gid key {X} (c : ldapE X) a H :
  (∀ gid' key', takes gid' key' (Ev (Directory c) a) ↔ gid' = gid ∧ key' = key) →
  numbers_known holders H → numbers_known (holding gid key holders) (Ev (Directory c) a :: H).
Proof.
  intros Ht [Hn1 Hn2]. split.
  - intros Hnd gid' key' [Hh|[-> ->]%Ht]%holding_cons; rewrite holders_holding.
    + destruct (Hn1 Hnd _ _ Hh) as [Hin|Hm]; [left|right; by apply moved_on_later].
      case_decide; [by apply elem_of_union_r|done].
    + left. rewrite decide_True by done. apply elem_of_union_l. by apply elem_of_singleton.
  - intros gid' key' Hin. rewrite holders_holding in Hin. case_decide as Hg; [|by apply holding_later, Hn2].
    subst gid'. apply elem_of_union in Hin as [->%elem_of_singleton|Hin]; [by apply holder_taken, Ht|by apply holding_later, Hn2].
Qed.

Lemma numbers_renumbered holders gid key old dn a H : normalize dn = key → old ≠ Some gid →
  numbers_known holders H →
  numbers_known (holding gid key (dropping old key holders)) (Ev (Directory (ModifyEntry dn (renumbering gid))) (Ok a) :: H).
Proof.
  intros Hdn Hold [Hn1 Hn2]. set (ev := Ev _ _).
  assert (Ht : ∀ gid' key', takes gid' key' ev ↔ gid' = gid ∧ key' = key).
  { intros gid' key'. subst ev. simpl. rewrite Hdn. split; [intros [-> [= ->]]; done|by intros [-> ->]]. }
  split.
  - intros Hnd gid' key' [Hh|[-> ->]%Ht]%holding_cons; rewrite holders_holding.
    + destruct (Hn1 Hnd _ _ Hh) as [Hin|Hm]; [|right; by apply moved_on_later]. rewrite holders_dropping.
      destruct (decide (gid = gid')) as [<-|Hg].
      { left. rewrite decide_False by done. by apply elem_of_union_r. }
      destruct (decide (old = Some gid')); [|by left]. destruct (decide (key' = key)) as [->|Hk].
      * right. exists gid, ev. split; [done|]. split; [left|]. subst ev. simpl. done.
      * left. apply elem_of_difference. split; [done|by rewrite elem_of_singleton].
    + left. rewrite decide_True by done. apply elem_of_union_l. by apply elem_of_singleton.
  - intros gid' key' Hin. rewrite holders_holding, holders_dropping in Hin. case_decide as Hg.
    + subst gid'. rewrite decide_False in Hin by done.
      apply elem_of_union in Hin as [->%elem_of_singleton|Hin]; [by apply holder_taken, Ht|by apply holding_later, Hn2].
    + case_decide; [apply elem_of_difference in Hin as [Hin _]|]; by apply holding_later, Hn2.
Qed.

Lemma groups_set key dn g gid managed H : numbered k g gid → key = group_key g → normalize dn = key →
  written k dn H → groups_known managed H → groups_known (dict_set managed key (dn, g)) H.
Proof.
  intros Hg Hkey Hdn Hw Hm key' dn' g' [[= -> -> ->]|Hin]%elem_of_dict_set; [by exists gid|by apply Hm].
Qed.

Lemma groups_later managed ev H : groups_known managed H → groups_known managed (ev :: H).
Proof.
  intros Hm key dn g Hin. destruct (Hm _ _ _ Hin) as (gid & Hg & Hkey & Hdn & Hw). exists gid.
  do 3 (split; [done|]). by apply written_later.
Qed.
End Memory.

Local Abbreviation G := group_guard.

Lemma operations_keep_gid name added removed gid : [(name, operations added removed)] ≠ renumbering gid.
Proof. unfold renumbering, operations. by destruct added, removed. Qed.

Lemma operations_take_nothing dn name added removed a gid key :
  ¬ takes gid key (Ev (Directory (ModifyEntry dn [(name, operations added removed)])) a).
Proof. destruct a; simpl; [intros [_ He]; by apply operations_keep_gid in He|by intros []]. Qed.

(** A fact about the history that survives what takes no gid. *)
Definition lasting (I : trace accountE → Prop) : Prop :=
  (∀ X (c : ldapE X) a H, (∀ gid key, ¬ takes gid key (Ev (Directory c) a)) → I H → I (Ev (Directory c) a :: H)) ∧
  (∀ H, I H → ∃ groups, listed_completely groups H).

Lemma core_lasting k s : lasting (core k s).
Proof.
  split; [intros X c a H; by apply core_quiet|]. intros H ((Hl & _) & _). by exists (kn_groups k).
Qed.

Lemma still_missing_elem name fresh l v : v ∈ still_missing names name fresh l → v ∈ l.
Proof. unfold still_missing. rewrite !list_elem_of_In, filter_In. tauto. Qed.
Lemma still_there_elem name fresh l v : v ∈ still_there names name fresh l → v ∈ l.
Proof. unfold still_there. rewrite !list_elem_of_In, filter_In. tauto. Qed.

(** One modify, or a second one after another writer: always less than was decided, but for
    the stand-in. *)
Lemma modify_members_known I dn name attrs current to_add to_remove s H : lasting I → I H →
  (∀ added removed H', I H' → (∀ v, v ∈ added → v ∈ to_add ∨ v = empty_group_member_dn cfg) →
     (∀ v, v ∈ removed → v ∈ to_remove) → G _ H' (Directory (ModifyEntry dn [(name, operations added removed)]))) →
  wpM G (modify_members names cfg dn name attrs current to_add to_remove) (λ _ s' H', s' = s ∧ I H') s H.
Proof.
  intros [HI Hread] Hinv Hallowed. unfold modify_members. cbv zeta.
  set (added := match to_add, to_remove with [], _ :: _ => _ | _, _ => to_add end).
  assert (Hadded : ∀ v, v ∈ added → v ∈ to_add ∨ v = empty_group_member_dn cfg).
  { subst added. intros v. destruct to_add; [destruct to_remove|]; try (by left).
    destruct (_ && _); [intros ->%list_elem_of_singleton; by right|by left]. }
  clearbody added.
  assert (Hwrite : ∀ added' removed (Q : res unit → groups_state → trace accountE → Prop) H', I H' →
    (∀ v, v ∈ added' → v ∈ added) → (∀ v, v ∈ removed → v ∈ to_remove) →
    (∀ a, I (Ev (Directory (ModifyEntry dn [(name, operations added' removed)])) a :: H') →
       Q a s (Ev (Directory (ModifyEntry dn [(name, operations added' removed)])) a :: H')) →
    wpM G (directory (ModifyEntry dn [(name, operations added' removed)])) Q s H').
  { intros added' removed Q H' HI' Ha Hr HQ. apply wpM_call; [apply Hallowed; [done| |done]; intros v Hv; by apply Hadded, Ha|].
    intros a. apply HQ, HI; [|done]. intros gid key. apply operations_take_nothing. }
  assert (Hgo : wpM G
      (let! modified := attempt (directory (ModifyEntry dn [(name, operations added to_remove)])) in
       match modified with
       | Ok _ => ret ()
       | Err (ValueConflictError _ as e) =>
           let! fresh := directory (ReadEntry dn [name; "objectClass"%string]) in
           match fresh with
           | None => raise e
           | Some fresh =>
               match still_missing names name fresh added, still_there names name fresh to_remove with
               | [], [] => ret ()
               | to_add, to_remove => directory (ModifyEntry dn [(name, operations to_add to_remove)])
               end
           end
       | Err e => raise e
       end) (λ _ s' H', s' = s ∧ I H') s H).
  { wp_step. wp_step. apply Hwrite; [done|done|done|]. intros [[]|e] Hi1; cbv beta iota; [by wp_step|].
    destruct e; try (by wp_step). wp_step. apply wpM_call; [by apply Hread|]. intros [[fresh|]|e] ; cbv beta iota.
    - match goal with |- wpM _ _ _ _ ?K => assert (Hi2 : I K) by (apply HI; [by intros ? ? []|done]); set (H2 := K) in * end.
      assert (Hlast : wpM G (directory (ModifyEntry dn
        [(name, operations (still_missing names name fresh added) (still_there names name fresh to_remove))]))
        (λ _ s' H', s' = s ∧ I H') s H2).
      { apply Hwrite; [done|intros v; apply still_missing_elem|intros v; apply still_there_elem|done]. }
      destruct (still_missing names name fresh added), (still_there names name fresh to_remove); try exact Hlast. by wp_step.
    - wp_step. split; [done|]. apply HI; [by intros ? ? []|done].
    - split; [done|]. apply HI; [by intros ? ? []|done]. }
  destruct added, to_remove; try exact Hgo. by wp_step.
Qed.

(** ** One group *)

Section OneGroup.
Context (k : knowledge) (g : project_group) (gid : Z) (Hg : numbered k g gid).

Lemma filter_elem {A} (p : A → bool) (l : list A) v : v ∈ List.filter p l → v ∈ l ∧ p v = true.
Proof. by rewrite !list_elem_of_In, filter_In. Qed.

Lemma description_known dn attrs s H : normalize dn = group_key g → core k s H →
  wpM G (sync_organization_description names rc dn attrs g) (λ _ s' H', s' = s ∧ core k s H') s H.
Proof.
  intros Hdn Hc. unfold sync_organization_description. cbv zeta.
  destruct (nonempty (organization_value rc g)) eqn:Hv; cbn [negb]; [|by wp_step].
  apply nonempty_spec in Hv.
  set (to_add := if bool_decide _ then _ else _).
  set (stale := List.filter _ _).
  assert (Hgo : wpM G (directory (ModifyEntry dn [("description"%string, operations to_add stale)]))
    (λ _ s' H', s' = s ∧ core k s H') s H).
  { apply wpM_call.
    - exists k. split; [apply Hc|left]. exists g, gid. split; [done|]. split; [done|]. right; left.
      exists to_add, stale. split; [done|]. split; [done|]. split.
      + subst to_add. case_bool_decide; intros v Hin; [by apply elem_of_nil in Hin|by apply list_elem_of_singleton in Hin].
      + intros v [_ [Hne Hr]%andb_true_iff]%filter_elem. split; [|done]. by apply negb_true_iff, String.eqb_neq in Hne.
    - intros r. split; [done|]. apply core_quiet; [|done]. intros gid' key. apply operations_take_nothing. }
  destruct stale, to_add; try exact Hgo. by wp_step.
Qed.

Lemma dict_values_elem {K V} (l : list (K * V)) v : v ∈ dict_values l → ∃ x, (x, v) ∈ l.
Proof. intros ([x v'] & -> & Hin)%list_elem_of_fmap. by exists x. Qed.

Lemma by_dn_elem l x v : (x, v) ∈ by_dn names l → v ∈ l ∧ x = normalize v.
Proof.
  unfold by_dn. assert (Hgen : ∀ d, (x, v) ∈ fold_left (λ d v, dict_set d (normalize v) v) l d →
    (x, v) ∈ d ∨ (v ∈ l ∧ x = normalize v)).
  { induction l as [|y l IH]; intros d Hin; [by left|]. apply IH in Hin as [Hin|[Hin Hx]].
    - apply elem_of_dict_set in Hin as [[= -> ->]|Hin]; [right; split; [left|done]|by left].
    - right. split; [by right|done]. }
  intros [Hin%elem_of_nil|Hr]%Hgen; done.
Qed.

Lemma by_dn_keys l v : v ∈ l → normalize v ∈ dict_keys (by_dn names l).
Proof.
  unfold by_dn. assert (Hgen : ∀ d, v ∈ l ∨ normalize v ∈ dict_keys d →
    normalize v ∈ dict_keys (fold_left (λ d v, dict_set d (normalize v) v) l d)).
  { induction l as [|y l IH]; intros d [Hin|Hd]; try done; [by apply elem_of_nil in Hin|..]; simpl; apply IH;
      [apply elem_of_cons in Hin as [<-|Hin]; [right|by left]|right]; apply dict_set_keys_elem; [by left|by right]. }
  intros Hin. apply Hgen. by left.
Qed.

Lemma member_changes_allowed current to_add to_remove :
  member_changes names rc current (member_values names cfg rc g (kn_users k)) = (to_add, to_remove) →
  member_change k g to_add (if rc_add_only rc then [] else to_remove).
Proof.
  unfold member_changes, member_change. cbv zeta. set (desired := member_values _ _ _ _ _).
  assert (Hsub : ∀ removed P, (∀ v, v ∈ to_remove → P v) → removed = (if rc_add_only rc then [] else to_remove) →
    (rc_add_only rc = true → removed = []) ∧ ∀ v : string, v ∈ removed → P v).
  { intros removed P HP ->. destruct (rc_add_only rc); (split; [done|]); [by intros v Hv%elem_of_nil|done]. }
  destruct (String.eqb attribute "member"); cbv zeta; intros [= <- <-]; split.
  - intros v (x & [Hin _]%filter_elem)%dict_values_elem. left. by apply by_dn_elem in Hin as [? _].
  - apply Hsub; [|done]. intros v (x & [Hin [Hx Hu]%andb_true_iff]%filter_elem)%dict_values_elem. simpl in *.
    apply by_dn_elem in Hin as [_ ->]. apply negb_true_iff, bool_decide_eq_false in Hx. split; [|by apply nonempty_spec].
    intros (v' & Hv' & Hin)%list_elem_of_In%in_map_iff. apply Hx. rewrite <- Hv'. apply by_dn_keys. by apply list_elem_of_In.
  - intros v [Hin _]%filter_elem. by left.
  - apply Hsub; [|done]. intros v [_ Hx]%filter_elem. by apply negb_true_iff, bool_decide_eq_false in Hx.
Qed.

Lemma members_known dn attrs s H : normalize dn = group_key g → core k s H →
  wpM G (sync_members names cfg rc dn attrs g (kn_users k)) (λ _ s' H', s' = s ∧ core k s H') s H.
Proof.
  intros Hdn Hc. unfold sync_members. cbv zeta. destruct (member_changes _ _ _ _) as [to_add to_remove] eqn:Hch.
  apply member_changes_allowed in Hch as (Ha & Ho & Hr).
  apply (modify_members_known (core k s)); [apply core_lasting|done|]. intros added removed H' Hc' Hadd Hrem.
  exists k. split; [apply Hc'|left]. exists g, gid. split; [done|]. split; [done|]. right; right.
  exists added, removed. split; [done|]. split; [|split].
  - intros v [Hv|Hv]%Hadd; [by apply Ha|by right].
  - intros Ho'. destruct removed as [|v removed]; [done|]. specialize (Hrem v (list_elem_of_here _ _)).
    rewrite (Ho Ho') in Hrem. by apply elem_of_nil in Hrem.
  - intros v Hv. by apply Hr, Hrem.
Qed.
End OneGroup.

(** What serving a group leaves alone. *)
Definition aside (key : string) (s s' : groups_state) : Prop :=
  gp_untouchable s' = gp_untouchable s ∧ gp_seen s' = gp_seen s ∧ gp_removable s' = gp_removable s ∧
  ∀ x, x.1 ≠ key → x ∈ gp_managed s → x ∈ gp_managed s'.

Lemma aside_refl key s : aside key s s.
Proof. done. Qed.

Section OneGroupMore.
Context (k : knowledge) (g : project_group) (gid : Z) (Hg : numbered k g gid).
Local Abbreviation key := (group_key g).

(** After the group was served: its DN is among those the pass manages, or it was refused. *)
Definition served (r : res unit) (s0 s : groups_state) H : Prop :=
  core k s H ∧ aside key s0 s ∧
  (r = Ok () → (∃ dn, (key, (dn, g)) ∈ gp_managed s) ∨ refused k g gid H).

Lemma set_managed_core dn s H : normalize dn = key → written k dn H → core k s H → core k (set_managed key dn g s) H.
Proof. intros Hdn Hw (Hk & Hn & Hm). split; [done|]. split; [done|]. by eapply groups_set. Qed.

Lemma set_managed_aside dn s : aside key s (set_managed key dn g s).
Proof.
  do 3 (split; [done|]). intros [key' [dn' g']] Hk Hin. cbn [set_managed gp_managed]. by apply dict_set_other.
Qed.

Lemma renumber_known dn old s H : normalize dn = key → old ≠ Some gid → rc_adopt_gid rc = true →
  holders_of (gp_holders s) gid ∖ {[key]} = ∅ → core k s H →
  wpM G (directory (ModifyEntry dn [("gidNumber"%string, [MODIFY_REPLACE [JInt gid]])]) ;!
         modify_st (λ s, set_holders (holding gid key (dropping old key (gp_holders s))) s))
    (λ _ s' H', core k s' H' ∧ aside key s s' ∧ gp_managed s' = gp_managed s) s H.
Proof.
  intros Hdn Hold Had He Hc. pose proof Hc as (Hk & Hn & Hm). wp_step. apply wpM_call.
  { exists k. split; [done|left]. exists g, gid. split; [done|]. split; [done|]. left. split; [done|]. split; [done|].
    by eapply free_of_memory. }
  intros [[]|e]; cbv beta iota.
  - wp_step. split; [|done]. split; [by apply knows_later|]. split; [by apply numbers_renumbered|by apply groups_later].
  - split; [|done]. apply core_quiet; [by intros ? ? []|done].
Qed.

Lemma existing_known others dn attrs s H : normalize dn = key → written k dn H →
  others = holders_of (gp_holders s) gid ∖ {[key]} → core k s H →
  wpM G (reconcile_existing names cfg rc g gid key others dn attrs (kn_users k))
    (λ r s' H', served r s s' H') s H.
Proof.
  intros Hdn Hw -> Hc. unfold reconcile_existing. wp_step.
  set (old := match values names attrs "gidNumber" with [] => _ | _ => _ end).
  assert (Hrest : ∀ s1 H1, core k s1 H1 → aside key s s1 → written k dn H1 →
    wpM G (modify_st (set_managed key dn g) ;! sync_organization_description names rc dn attrs g ;!
           sync_members names cfg rc dn attrs g (kn_users k)) (λ r s' H', served r s s' H') s1 H1).
  { intros s1 H1 Hc1 Ha1 Hw1. wp_step. wp_step. wp_step.
    set (s2 := set_managed key dn g s1). assert (Hc2 : core k s2 H1) by by apply set_managed_core.
    assert (Ha2 : aside key s s2).
    { destruct Ha1 as (Hu & Hs & Hr & Hx). do 3 (split; [done|]). intros x Hne Hin.
      by apply (set_managed_aside dn s1), Hx. }
    assert (Hin : (key, (dn, g)) ∈ gp_managed s2) by apply dict_set_elem. clearbody s2.
    eapply wpM_mono; [by apply (description_known k g gid)|]. intros r s3 H3 [-> Hc3].
    assert (Hdone : ∀ r s' H', s' = s2 ∧ core k s' H' → served r s s' H').
    { intros r' s' H' [-> Hc']. split; [done|]. split; [done|]. intros _. left. by exists dn. }
    destruct r as [[]|e]; cbv beta iota; [|by apply Hdone].
    eapply wpM_mono; [by apply (members_known k g gid)|]. intros r s' H' [-> Hc']. by apply Hdone. }
  wp_step. destruct old as [old|e]; cbv beta iota; [|by split; [|split]].
  wp_step. case_decide as Heq; [wp_step; by apply Hrest|].
  destruct (rc_adopt_gid rc && _) eqn:Had; [|wp_step; by apply Hrest].
  apply andb_true_iff in Had as [Had Hempty%bool_decide_eq_true].
  eapply wpM_mono; [eapply wpM_runs; by apply renumber_known|].
  intros r s1 H1 ((Hc1 & Ha1 & Hm1) & τ & _ & ->). destruct r as [[]|e]; cbv beta iota; [|by split; [|split]].
  apply Hrest; [done|done|]. clear -Hw. induction (rev τ) as [|ev K IH]; [done|]. by apply written_later.
Qed.

Lemma gid_of_attributes un gid' :
  ("gidNumber"%string, JInt gid') ∈ new_group_attributes names cfg rc g gid un ↔ gid' = gid.
Proof.
  unfold new_group_attributes. cbv zeta. split; [|intros ->; right; right; left].
  repeat case_match; rewrite ?elem_of_app, ?elem_of_cons, ?elem_of_nil; naive_solver.
Qed.

Lemma entry_created s H : unlisted k key → ¬ name_taken k g → holders_of (gp_holders s) gid ∖ {[key]} = ∅ →
  core k s H →
  wpM G (attempt (directory (AddEntry (group_entry g) (new_group_attributes names cfg rc g gid (kn_users k)))))
    (λ r s' H', s' = s ∧ match r with
      | Ok (Ok _) => core k (set_managed key (group_entry g) g (set_holders (holding gid key (gp_holders s)) s)) H'
      | _ => core k s H'
      end) s H.
Proof.
  intros Hu Hnt He Hc. pose proof Hc as (Hk & Hn & Hm). wp_step. apply wpM_call.
  { exists k. split; [done|]. exists g, gid. do 5 (split; [done|]). by eapply free_of_memory. }
  intros [[]|e]; cbv beta iota; (split; [done|]).
  - apply set_managed_core; [done|right; left; eexists; left|]. split; [by apply knows_later|].
    split; [|by apply groups_later]. apply numbers_added; [|done]. intros gid' key'. simpl.
    rewrite gid_of_attributes. fold key. split; [by intros [<- ->]|by intros [-> ->]].
  - apply core_quiet; [by intros ? ? []|done].
Qed.

(** What the listing says of the group. *)
Definition consulted (entry : option (string * attributes)) (same_name : list string) : Prop :=
  match entry with
  | Some entry => normalize entry.1 = key ∧ entry ∈ kn_listed k
  | None => unlisted k key
  end ∧ (same_name = [] ↔ ¬ name_taken k g) ∧ (same_name ≠ [] → name_taken k g).

Lemma group_known entry same_name s H : consulted entry same_name → core k s H →
  wpM G (reconcile_group names cfg rc g gid (group_entry g) key entry same_name (kn_users k))
    (λ r s' H', served r s s' H') s H.
Proof.
  intros (Hentry & Hsame & Htaken) Hc. unfold reconcile_group. wp_step. wp_step. wp_step.
  destruct entry as [[dn attrs]|].
  { wp_step. apply existing_known; [apply Hentry|left; exists attrs; apply Hentry|done|done]. }
  assert (Hrefused : name_taken k g ∨ holders_of (gp_holders s) gid ∖ {[key]} ≠ ∅ → served (Ok ()) s s H).
  { intros Hwhy. split; [done|]. split; [done|]. intros _. right. split; [done|].
    destruct Hwhy as [Hn|Hh]; [by left|right]. eapply taken_of_memory; [done|apply Hc]. }
  destruct same_name as [|other others].
  2:{ wp_step. wp_step. apply Hrefused. left. by apply Htaken. }
  case_decide as He; [|wp_step; wp_step; apply Hrefused; by right].
  wp_step. eapply wpM_mono; [apply entry_created; [done|by apply Hsame|done|done]|].
  intros [r|e] s1 H1 [-> Hc1]; cbv beta iota; [|by split; [|split]].
  destruct r as [[]|e].
  { wp_step. wp_step. wp_step. wp_step. split; [exact Hc1|]. split; [exact (set_managed_aside _ _)|]. intros _. left.
    exists (group_entry g). apply dict_set_elem. }
  assert (Hfail : ∀ e, served (Err e) s s H1) by by split; [|split].
  destruct e; try (wp_step; apply Hfail).
  wp_step. apply wpM_call; [exists (kn_groups k); apply Hc1|].
  intros [[fresh|]|e]; cbv beta iota.
  - match goal with |- wpM _ _ _ _ ?K => assert (Hc2 : core k s K) by (apply core_quiet; [by intros ? ? []|done]) end.
    wp_step. apply existing_known; [done|right; right; eexists _, _; left|done|done].
  - wp_step. split; [apply core_quiet; [by intros ? ? []|done]|]. by split.
  - split; [apply core_quiet; [by intros ? ? []|done]|]. by split.
Qed.
End OneGroupMore.

(** ** The pass over the groups *)

Lemma index_entries_get listed key : match dict_get (index_entries names listed) key with
  | Some x => normalize x.1 = key ∧ x ∈ listed
  | None => ∀ x, x ∈ listed → normalize x.1 ≠ key
  end.
Proof.
  unfold index_entries. assert (Hgen : ∀ index, match dict_get (fold_left (λ index x, dict_set index (normalize x.1) x) listed index) key with
    | Some x => dict_get index key = Some x ∨ (normalize x.1 = key ∧ x ∈ listed)
    | None => dict_get index key = None ∧ ∀ x, x ∈ listed → normalize x.1 ≠ key
    end).
  { induction listed as [|y listed IH]; intros index; simpl; [destruct (dict_get index key); [by left|]|].
    - split; [done|]. by intros x Hx%elem_of_nil.
    - specialize (IH (dict_set index (normalize y.1) y)). destruct (dict_get (fold_left _ _ _) key) as [x|].
      + destruct IH as [IH|[Hx Hin]]; [|right; split; [done|by right]].
        destruct (decide (normalize y.1 = key)) as [<-|Hne].
        * rewrite dict_get_set_eq in IH. injection IH as ->. right. split; [done|left].
        * rewrite dict_get_set_ne in IH by done. by left.
      + destruct IH as [IH Hall]. destruct (decide (normalize y.1 = key)) as [<-|Hne]; [by rewrite dict_get_set_eq in IH|].
        rewrite dict_get_set_ne in IH by done. split; [done|]. intros x [->|Hx]%elem_of_cons; [done|by apply Hall]. }
  specialize (Hgen []). destruct (dict_get _ _); [by destruct Hgen as [|]|by destruct Hgen].
Qed.

Lemma add_owner_elem (index : list (string * list string)) c n c' x :
  x ∈ default [] (dict_get (add_owner index c n) c') ↔ x ∈ default [] (dict_get index c') ∨ (c = c' ∧ x = n).
Proof.
  unfold add_owner. destruct (decide (c = c')) as [<-|Hne].
  - rewrite dict_get_set_eq. cbn [default from_option]. unfold id. rewrite elem_of_app, list_elem_of_singleton. naive_solver.
  - rewrite dict_get_set_ne by done. naive_solver.
Qed.

Lemma index_names_elem listed c x : x ∈ default [] (dict_get (index_names names cfg rc listed) c) ↔
  ∃ entry cn, (x, entry) ∈ listed ∧ in_project_ou names cfg rc (normalize x) = false ∧
    cn ∈ values names entry "cn" ∧ str_lower cn = c.
Proof.
  assert (Hcns : ∀ cns (index : list (string * list string)) dn, x ∈ default [] (dict_get
      (fold_left (λ index cn, add_owner index (str_lower cn) dn) cns index) c) ↔
    x ∈ default [] (dict_get index c) ∨ (x = dn ∧ ∃ cn, cn ∈ cns ∧ str_lower cn = c)).
  { induction cns as [|cn cns IH]; intros index dn; simpl.
    - split; [by left|]. intros [?|(_ & cn & []%elem_of_nil & _)]; done.
    - rewrite IH, add_owner_elem. setoid_rewrite elem_of_cons. naive_solver. }
  unfold index_names. assert (Hgen : ∀ index : list (string * list string), x ∈ default [] (dict_get (fold_left (λ index y,
      if in_project_ou names cfg rc (normalize y.1) then index
      else fold_left (λ index cn, add_owner index (str_lower cn) y.1) (values names y.2 "cn") index) listed index) c) ↔
    x ∈ default [] (dict_get index c) ∨ ∃ entry cn, (x, entry) ∈ listed ∧
      in_project_ou names cfg rc (normalize x) = false ∧ cn ∈ values names entry "cn" ∧ str_lower cn = c).
  { induction listed as [|[dn entry] listed IH]; intros index; simpl.
    - split; [by left|]. intros [?|(entry & cn & []%elem_of_nil & _)]; done.
    - rewrite IH. clear IH. setoid_rewrite elem_of_cons. destruct (in_project_ou names cfg rc (normalize dn)) eqn:Hou.
      + naive_solver congruence.
      + rewrite Hcns. naive_solver. }
  rewrite Hgen. simpl. rewrite elem_of_nil. naive_solver.
Qed.

Section Pass.
Context (k : knowledge).

Definition accounted (s : groups_state) H : Prop := ∀ key, key ∈ gp_removable s →
  key ∈ gp_untouchable s ∨ ∃ g gid, numbered k g gid ∧ key = group_key g ∧
    ((∃ dn, (key, (dn, g)) ∈ gp_managed s) ∨ refused k g gid H).

Definition inv (s : groups_state) H : Prop := core k s H ∧ accounted s H ∧ gp_seen s ⊆ gp_removable s.

Lemma inv_lasting s : lasting (inv s).
Proof.
  split; [|intros H (Hc & _); by apply (core_lasting k s)].
  intros X c a H Hq (Hc & Ha & Hs). split; [by apply core_quiet|]. split; [|done]. intros key Hkey.
  destruct (Ha key Hkey) as [?|(g & gid & Hg & Hk & [Hm|Hr])]; [by left|right..]; exists g, gid; (split; [done|]);
    (split; [done|]); [by left|right; by apply refused_later].
Qed.

Lemma listed_consulted g : consulted k g (dict_get (index_entries names (kn_listed k)) (group_key g))
  (default [] (dict_get (index_names names cfg rc (kn_posix k)) (str_lower (gr_name g)))).
Proof.
  split; [pose proof (index_entries_get (kn_listed k) (group_key g)) as Hi; by destruct (dict_get _ _)|].
  assert (Hname : ∀ x, x ∈ default [] (dict_get (index_names names cfg rc (kn_posix k)) (str_lower (gr_name g))) →
    name_taken k g).
  { intros x (entry & cn & Hin & Hou & Hcn & Hl)%index_names_elem. by exists x, entry, cn. }
  split; [split|].
  - intros He (dn & entry & cn & Hin & Hou & Hcn & Hl). apply (not_elem_of_nil dn). rewrite <- He.
    apply index_names_elem. by exists entry, cn.
  - intros Hnt. destruct (default _ _) as [|x l] eqn:He; [done|]. exfalso. apply Hnt, (Hname x). left.
  - destruct (default _ _) as [|x l] eqn:He; [done|]. intros _. apply (Hname x). left.
Qed.

(** One group of the listing; afterwards it is accounted for. *)
Lemma serve_known g s H : g ∈ kn_groups k → inv s H →
  wpM G (serve_group names cfg rc (index_entries names (kn_listed k)) (index_names names cfg rc (kn_posix k))
           (kn_users k) g) (λ r s' H', r = Ok () → inv s' H') s H.
Proof.
  intros Hin Hinv. unfold serve_group. destruct (nonempty (gr_name g)) eqn:Hname; cbn [negb]; [|by wp_step].
  apply nonempty_spec in Hname. cbv zeta. fold (group_entry g). change (normalize (group_entry g)) with (group_key g).
  destruct Hinv as (Hc & Ha & Hs). wp_step. wp_step.
  destruct (gr_gid g) as [gid|] eqn:Hgid.
  2:{ wp_step. intros _. split; [done|]. split.
      - intros key [->%elem_of_singleton|Hkey]%elem_of_union; [left; by apply elem_of_union_l, elem_of_singleton|].
        destruct (Ha key Hkey) as [Hu|Hg]; [left; by apply elem_of_union_r|by right].
      - etrans; [done|]. apply union_subseteq_r. }
  assert (Hg : numbered k g gid) by done.
  wp_step. wp_step. case_decide as Hseen; cbn [set_removable gp_seen] in Hseen.
  { wp_step. intros _. split; [done|]. split; [|etrans; [done|]; apply union_subseteq_r].
    intros key [->%elem_of_singleton|Hkey]%elem_of_union; [by apply Ha, Hs|by apply Ha]. }
  wp_step. wp_step. wp_step. wp_step. set (s0 := set_seen _ _).
  eapply wpM_mono; [eapply wpM_runs; apply (group_known k g gid Hg); [apply listed_consulted|exact Hc]|].
  intros r s1 H1 ((Hc1 & (Hu & Hse & Hre & Hma) & Hserved) & τ & _ & ->). cbn [s0 set_seen set_removable gp_untouchable gp_seen gp_removable gp_managed] in *.
  assert (Hother : ∀ key, key ≠ group_key g → key ∈ gp_removable s → key ∈ gp_untouchable s1 ∨
    ∃ g' gid', numbered k g' gid' ∧ key = group_key g' ∧
      ((∃ dn, (key, (dn, g')) ∈ gp_managed s1) ∨ refused k g' gid' (rev τ ++ H))).
  { intros key Hne Hkey. rewrite Hu. destruct (Ha key Hkey) as [?|(g' & gid' & Hg' & Hk & Hor)]; [by left|right].
    exists g', gid'. do 2 (split; [done|]). destruct Hor as [[dn Hm]|Hr]; [left; exists dn; by apply Hma|right].
    clear -Hr. induction (rev τ) as [|ev K IH]; [done|by apply refused_later]. }
  assert (Hkeys : gp_seen s1 ⊆ gp_removable s1).
  { rewrite Hse, Hre. by apply union_mono_l. }
  destruct r as [[]|e].
  - wp_step. intros _. split; [done|]. split; [|done]. intros key Hkey. destruct (decide (key = group_key g)) as [->|Hne].
    + right. exists g, gid. do 2 (split; [done|]). by apply Hserved.
    + rewrite Hre in Hkey. apply elem_of_union in Hkey as [->%elem_of_singleton|Hkey]; [done|by apply Hother].
  - destruct (is_backend_error e); wp_step; [|done]. intros _. split; [exact Hc1|]. split; [|exact Hkeys]. intros key Hkey.
    cbn [set_untouchable gp_removable gp_untouchable gp_managed] in *. destruct (decide (key = group_key g)) as [->|Hne].
    + left. by apply elem_of_union_l, elem_of_singleton.
    + rewrite Hre in Hkey. apply elem_of_union in Hkey as [->%elem_of_singleton|Hkey]; [done|].
      destruct (Hother key Hne Hkey) as [?|?]; [left; by apply elem_of_union_r|by right].
Qed.

Lemma wanted_elem parent managed key dn : (key, dn) ∈ wanted_in rc parent managed ↔
  ∃ g, (key, (dn, g)) ∈ managed ∧ gr_offering_uuids g ∩ parent_offerings rc parent ≠ ∅.
Proof.
  unfold wanted_in. rewrite list_elem_of_In, in_map_iff. split.
  - intros ([key' [dn' g]] & [= <- <-] & [Hin Hb]%filter_In). exists g. split; [by apply list_elem_of_In|].
    by apply negb_true_iff, bool_decide_eq_false in Hb.
  - intros (g & Hin & Hb). exists (key, (dn, g)). split; [done|]. apply filter_In. split; [by apply list_elem_of_In|].
    by apply negb_true_iff, bool_decide_eq_false.
Qed.

Lemma parent_known parent s H : parent ∈ rc_parents rc → inv s H →
  wpM G (reconcile_parent names cfg rc parent (gp_managed s) (gp_removable s ∖ gp_untouchable s))
    (λ _ s' H', s' = s ∧ inv s H') s H.
Proof.
  intros Hp Hinv. unfold reconcile_parent. cbv zeta. destruct (inv_lasting s) as [Hlast Hread]. wp_step.
  apply wpM_call; [by apply Hread|]. intros [[entry|]|e]; cbv beta iota;
    [|wp_step; split; [done|]; apply Hlast; [by intros ? ? []|done]|split; [done|]; apply Hlast; [by intros ? ? []|done]].
  match goal with |- wpM _ _ _ _ ?K => assert (Hinv1 : inv s K) by (apply Hlast; [by intros ? ? []|done]); clear Hinv; set (H1 := K) in * end.
  apply (modify_members_known (inv s)); [apply inv_lasting|done|]. clearbody H1. clear H.
  intros added removed H (Hc & Ha & _) Hadd Hrem. exists k. split; [apply Hc|right]. exists parent, added, removed.
  do 3 (split; [done|]). split.
  - intros v [Hv|Hv]%Hadd; [right|by left]. apply dict_values_elem in Hv as (key & [Hin _]%filter_elem).
    apply wanted_elem in Hin as (g & Hin & Hoff). destruct Hc as (_ & _ & Hm).
    destruct (Hm _ _ _ Hin) as (gid & Hg & Hkey & Hdn & Hw). exists g, gid. by rewrite Hdn.
  - intros v Hv%Hrem. apply dict_values_elem in Hv as (key & [Hin Hb]%filter_elem).
    apply by_dn_elem in Hin as [_ ->]. apply andb_true_iff in Hb as [[Hw Hou]%andb_true_iff Hr%bool_decide_eq_true].
    split; [done|]. apply elem_of_difference in Hr as [Hr Hu]. destruct (Ha _ Hr) as [?|(g & gid & Hg & Hkey & Hor)]; [done|].
    exists g, gid. do 2 (split; [done|]). destruct Hor as [[dn Hm]|?]; [left|by right].
    destruct (decide (gr_offering_uuids g ∩ parent_offerings rc parent = ∅)) as [|Hne]; [done|]. exfalso.
    apply negb_true_iff, bool_decide_eq_false in Hw. apply Hw. simpl. apply list_elem_of_fmap. exists (normalize v, dn).
    split; [done|]. apply wanted_elem. by exists g.
Qed.

(** The gids the listing shows. *)
Lemma index_holders_sound gids gid key : key ∈ holders_of (index_holders names gids) gid →
  ∃ dns dn, (gid, dns) ∈ gids ∧ dn ∈ dns ∧ normalize dn = key.
Proof.
  unfold index_holders. assert (Hgen : ∀ index : gmap Z (gset string), key ∈ holders_of (fold_left (λ index x,
      <[x.1 := list_to_set (map normalize x.2)]> index) gids index) gid →
    key ∈ holders_of index gid ∨ ∃ dns dn, (gid, dns) ∈ gids ∧ dn ∈ dns ∧ normalize dn = key).
  { induction gids as [|[gid' dns] gids IH]; intros index Hin; [by left|].
    apply IH in Hin as [Hin|(dns' & dn & Hin & Hdn)]; [|right; exists dns', dn; split; [by right|done]].
    unfold holders_of in Hin. destruct (decide (gid' = gid)) as [->|Hne]; simpl in Hin.
    - rewrite lookup_insert_eq in Hin. simpl in Hin. apply elem_of_list_to_set, list_elem_of_In, in_map_iff in Hin as (dn & <- & Hin).
      right. exists dns, dn. split; [left|]. split; [by apply list_elem_of_In|done].
    - rewrite lookup_insert_ne in Hin by done. by left. }
  intros [Hin|Hr]%Hgen; [by apply elem_of_empty in Hin|done].
Qed.

Lemma index_holders_complete gids gid dns dn : NoDup gids.*1 → (gid, dns) ∈ gids → dn ∈ dns →
  normalize dn ∈ holders_of (index_holders names gids) gid.
Proof.
  intros Hnd Hin Hdn. unfold index_holders. assert (Hkeep : ∀ (gids : list (Z * list string)) (index : gmap Z (gset string)), gid ∉ gids.*1 →
    fold_left (λ index x, <[x.1 := list_to_set (map normalize x.2)]> index) gids index !! gid = index !! gid).
  { clear. induction gids as [|[gid' dns] gids IH]; intros index Hn; [done|]. rewrite fmap_cons, not_elem_of_cons in Hn.
    simpl. rewrite IH by tauto. rewrite lookup_insert_ne; [done|]. simpl in *. naive_solver. }
  generalize (∅ : gmap Z (gset string)). induction gids as [|[gid' dns'] gids IH]; intros index; [by apply elem_of_nil in Hin|].
  rewrite fmap_cons in Hnd. apply NoDup_cons in Hnd as [Hn Hnd]. simpl. apply elem_of_cons in Hin as [[= <- <-]|Hin]; [|by apply IH].
  unfold holders_of. rewrite Hkeep by done. rewrite lookup_insert_eq. simpl.
  apply elem_of_list_to_set, list_elem_of_In, in_map_iff. exists dn. split; [done|by apply list_elem_of_In].
Qed.

Lemma start_known H : knows k H → (∀ gid key ev, ev ∈ H → ¬ takes gid key ev) →
  inv (set_holders (index_holders names (kn_gids k)) no_groups) H.
Proof.
  intros Hk Hfresh. split; [|split; [by intros key Hkey%elem_of_empty|done]]. split; [done|]. split; [split|].
  - intros Hnd gid key [(dns & dn & Hin & Hdn & <-)|(ev & Hin & Ht)]; [left|by apply Hfresh in Ht].
    by eapply index_holders_complete.
  - intros gid key Hin%index_holders_sound. by left.
  - by intros key dn g Hin%elem_of_nil.
Qed.

(** Groups first, then the parents. *)
Lemma passes_known s H : inv s H →
  wpM G (for_each (kn_groups k) (serve_group names cfg rc (index_entries names (kn_listed k))
             (index_names names cfg rc (kn_posix k)) (kn_users k)) ;!
         for_each (rc_parents rc) (λ parent,
           let! s := get_st in
           unless_backend_error
             (reconcile_parent names cfg rc parent (gp_managed s) (gp_removable s ∖ gp_untouchable s))))
    (λ _ _ _, True) s H.
Proof.
  intros Hinv. wp_step. apply (wpM_for_each G (kn_groups k) _ (λ _ s H, inv s H)); [|intros s1 H1 Hi1|done].
  - intros xs g s1 H1 [ys Hsplit] Hi1. eapply wpM_mono; [apply serve_known; [|done]|].
    + rewrite Hsplit. apply elem_of_app. right. left.
    + intros [[]|e] s2 H2 Hr; [by apply Hr|done].
  - apply (wpM_for_each G (rc_parents rc) _ (λ _ s H, inv s H)); [|done|exact Hi1].
    intros xs parent s2 H2 [ys Hsplit] Hi2. wp_step. wp_step. unfold unless_backend_error. wp_step. wp_step.
    eapply wpM_mono; [apply parent_known; [|done]|].
    + rewrite Hsplit. apply elem_of_app. right. left.
    + intros [[]|e] s3 H3 [-> Hi3]; cbv beta iota; [by wp_step|]. destruct (is_backend_error e); by wp_step.
Qed.
End Pass.

(** ** The pass *)

Lemma run_known groups H : listed_completely groups H → (∀ gid key ev, ev ∈ H → ¬ takes gid key ev) →
  wpM G (run names cfg rc groups) (λ _ _ _, True) no_groups H.
Proof.
  intros Hl Hfresh. unfold run. destruct groups as [|g groups'] eqn:Hgs; [by wp_step|]. rewrite <- Hgs in *. clear Hgs.
  assert (Hnext : ∀ X (c : ldapE X) a H, (∀ gid key, ¬ takes gid key (Ev (Directory c) a)) →
    (∀ gid key ev, ev ∈ H → ¬ takes gid key ev) → ∀ gid key ev, ev ∈ Ev (Directory c) a :: H → ¬ takes gid key ev).
  { intros X c a K Hc HK gid key ev [->|Hin]%elem_of_cons; [done|by apply HK]. }
  wp_step. apply wpM_call; [by exists groups|]. intros [listed|e]; cbv beta iota; [|done]. cbv zeta.
  wp_step. apply wpM_call; [exists groups; by apply listed_later|]. intros [gids|e]; cbv beta iota; [|done].
  wp_step. wp_step. wp_step. apply wpM_call; [exists groups; by do 2 apply listed_later|].
  intros [posix_groups|e]; cbv beta iota; [|done]. cbv zeta. wp_step.
  set (H3 := Ev _ (Ok posix_groups) :: _).
  assert (Hl3 : listed_completely groups H3) by (by do 3 apply listed_later).
  assert (Hf3 : ∀ gid key ev, ev ∈ H3 → ¬ takes gid key ev) by (do 3 (apply Hnext; [by intros ? ? []|]); done).
  set (k un := {| kn_groups := groups; kn_listed := listed; kn_gids := gids; kn_posix := posix_groups; kn_users := un |}).
  destruct (String.eqb attribute "member" || rc_require_user_entries rc) eqn:Hun.
  - wp_step. apply wpM_call; [by exists groups|]. intros [users|e]; cbv beta iota; [|done]. wp_step.
    apply (passes_known (k (Some (nameable names rc users)))). apply start_known; [|by apply Hnext; [intros ? ? []|]].
    split; [by apply listed_later|]. split; [by do 3 right; left|]. split; [by do 2 right; left|]. split; [by right; left|].
    exists users. split; [left|done].
  - wp_step. apply orb_false_iff in Hun as [Ha Hr]. apply (passes_known (k None)). apply start_known; [|done].
    split; [done|]. split; [by do 2 right; left|]. split; [by right; left|]. split; [by left|].
    split; [by apply String.eqb_neq|done].
Qed.
End Writes.

(** ** The listing comes first *)

Definition pages_only (H : trace accountE) : Prop := ∀ X (c : ldapE X) a, Ev (Directory c) a ∉ H.

Lemma pages_only_cons page a H : pages_only H → pages_only (Ev (GroupsPage page) a :: H).
Proof.
  intros Hp X c a' [He|Hin]%elem_of_cons; [discriminate He|by eapply Hp].
Qed.

Section Fetch.
Context (names : ldap_names) (cfg : ldap_config) (rc : reconciler).
Context (url_origin : string → res (option origin)) (base : origin).
Local Abbreviation text := (ln_text names).
Local Abbreviation G := (group_guard names cfg rc).

Lemma fetch_known {S} pages page (s : S) H : pages_only H →
  wpM G (fetch_pages text url_origin base pages page (listing H) (counts H))
    (λ r s' H', s' = s ∧ pages_only H' ∧ ∀ items, r = Ok items →
       items = listing H' ∧ check_complete text items (counts H') = Ok ()) s H.
Proof.
  revert page H. induction pages as [|pages IH]; intros page H Hp; cbn [fetch_pages]; [by wp_step|].
  wp_step. apply wpM_call; [exact Hp|]. intros [[[items count] next_link]|e]; cbv beta iota;
    [|split; [done|]; split; [by apply pages_only_cons|done]].
  set (H1 := Ev _ _ :: H). assert (Hp1 : pages_only H1) by by apply pages_only_cons.
  destruct items as [|v|z|f|t|items|o]; try (by wp_step). cbv zeta.
  assert (Hl : listing H ++ items = listing H1) by (unfold listing, H1; simpl; rewrite flat_map_app; simpl; by rewrite app_nil_r).
  assert (Hcounts : match count with Some count => {[count]} ∪ counts H | None => counts H end = counts H1).
  { unfold counts, H1. simpl. by destruct count. }
  rewrite Hl, Hcounts. clearbody H1. clear Hl Hcounts.
  assert (Hend : wpM G (of_res (check_complete text (listing H1) (counts H1)) ;! ret (listing H1))
    (λ r (s' : S) H', s' = s ∧ pages_only H' ∧ ∀ items, r = Ok items →
       items = listing H' ∧ check_complete text items (counts H') = Ok ()) s H1).
  { wp_step. wp_step. destruct (check_complete text (listing H1) (counts H1)) as [[]|e] eqn:Hcc; cbv beta iota; [wp_step|done].
    do 2 (split; [done|]). intros l [= <-]. done. }
  destruct next_link as [link|]; [|exact Hend]. destruct (nonempty link); [|exact Hend].
  wp_step. wp_step. destruct (same_origin url_origin base link); cbv beta iota; [by apply IH|done].
Qed.
End Fetch.

Section Passing.
Context (names : ldap_names) (cfg : ldap_config) (b : username_backend) (offering_uuid : string).
Context (url_origin : string → res (option origin)) (base : origin).

(** The settings of a pass, with the accounts in conflict. *)
Definition pass_settings (conflicted : gset string) : reconciler :=
  new_reconciler (ub_project_groups b) offering_uuid (ub_waldur_authoritative b)
    (if ub_waldur_authoritative b then waldur_username_attribute cfg else "") conflicted.

Lemma pass_known s : wpM (group_guard names cfg (pass_settings (as_conflicted s)))
  (project_group_pass names cfg b offering_uuid url_origin base) (λ _ s' _, s' = s) s [].
Proof.
  unfold project_group_pass. destruct (nonempty offering_uuid); cbn [negb]; [|by wp_step].
  wp_step. wp_step. eapply wpM_mono.
  { apply (fetch_known names cfg (pass_settings (as_conflicted s)) url_origin base _ _ s []). by intros X c a Hin%elem_of_nil. }
  intros r s1 H1 (-> & Hp & Hr). destruct r as [items|e]; cbv beta iota; [|by wp_step].
  destruct (Hr items eq_refl) as [-> Hcc]. wp_step. wp_step. cbv zeta. fold (pass_settings (as_conflicted s)).
  unfold unless_backend_error. wp_step. wp_step. wp_step. wp_step.
  assert (Hcatch : ∀ (e : exn) H, wpM (group_guard names cfg (pass_settings (as_conflicted s)))
    (if is_backend_error e then ret () else raise e) (λ _ s' _, s' = s) s H).
  { intros e H. destruct (is_backend_error e); by wp_step. }
  destruct (groups_of (ln_text names) (listing H1)) as [groups|e] eqn:Hgroups; cbv beta iota; [|by apply Hcatch].
  wp_step. apply wpM_run_on. destruct groups as [|g groups].
  { cbn [run]. wp_step. cbn [fst]. wp_step. by wp_step. }
  eapply wpM_mono; [apply run_known; [done|]|].
  - intros gid key ev Hin Ht. destruct ev as [X c a]. destruct c; try done. by eapply Hp.
  - intros r s2 H2 _. cbv beta iota. cbn [fst]. wp_step. destruct r as [[]|e]; cbv beta iota; [by wp_step|by apply Hcatch].
Qed.

Lemma groups_pass_known s : wpM (group_guard names cfg (pass_settings (as_conflicted s)))
  (reconcile_project_groups names cfg b offering_uuid url_origin base) (λ _ s' _, s' = s) s [].
Proof.
  unfold reconcile_project_groups. destruct (gs_enabled _); cbn [negb]; [|by wp_step]. wp_step. wp_step.
  destruct (_ && _); [by wp_step|apply pass_known].
Qed.
End Passing.

(** C28: a pass over the project groups, periodic or after an event, begins with a listing of
    Waldur that is complete by its own counts, and before that asks the directory nothing.
    It creates an entry only for a group of that listing, with its gid, where there is none
    of its name and nobody else is known to hold the gid; renumbers one only where that is
    to be adopted and the gid is free; changes members, and the description of the
    organization, only towards Waldur's, never naming an account that is in conflict or has
    no entry of its own; and takes out of a parent only groups Waldur lists that are not in
    use on its offerings or could not be written.  No entry is ever deleted. *)
Theorem project_groups_follow_waldur names cfg b offering_uuid url_origin base pass s τ out τ1 τ2 {X}
    (c : accountE X) a :
  pass = reconcile_project_groups names cfg b offering_uuid url_origin base ∨
  pass = reconcile_offering names cfg b offering_uuid url_origin base →
  runs (pass s) τ out → τ = τ1 ++ Ev c a :: τ2 →
  group_guard names cfg (pass_settings cfg b offering_uuid (as_conflicted s)) X (rev τ1) c.
Proof.
  intros Hpass Hrun Hτ. destruct out as [s' r].
  assert (Hw : wpM (group_guard names cfg (pass_settings cfg b offering_uuid (as_conflicted s))) pass (λ _ _ _, True) s []).
  { destruct Hpass as [->| ->]; [by eapply wpM_mono; [apply groups_pass_known|]|].
    unfold reconcile_offering. wp_step. wp_step. by eapply wpM_mono; [apply (groups_pass_known names cfg b offering_uuid url_origin base (full_pass_done s))|]. }
  exact (wpM_call_guard _ _ _ _ _ _ _ _ _ _ _ Hw Hrun Hτ).
Qed.

(** ** Group passes wait for the accounts *)

Inductive operation : Type :=
| SyncProfiles (us : list OfferingUser)   (* the account pass *)
| ReconcileOffering                       (* once per cycle, after it *)
| ReconcileGroups.                        (* after an event *)

Lemma quiet_keeps {A} (I : accounts_state → Prop) (m : account_m A) : quiet m → keeps I m.
Proof.
  intros Hq s H Hs. eapply wpM_mono; [apply Hq; done|]. by intros r s' H' [-> _].
Qed.

Section Operations.
Context (names : ldap_names) (cfg : ldap_config) (b : username_backend) (offering_uuid : string).
Context (url_origin : string → res (option origin)) (base : origin) (posix : OfferingUser → posix_fields).
Local Abbreviation text := (ln_text names).

Definition perform (op : operation) : account_m unit :=
  match op with
  | SyncProfiles us => sync_user_profiles text cfg b posix us
  | ReconcileOffering => reconcile_offering names cfg b offering_uuid url_origin base
  | ReconcileGroups => reconcile_project_groups names cfg b offering_uuid url_origin base
  end.

(** What a process did since it started, one operation at a time. *)
Inductive performed : list (operation * trace accountE * res unit) → accounts_state → Prop :=
| performed_nothing : performed [] no_state
| performed_next done s op τ s' r : performed done s → runs (perform op s) τ (s', r) →
    performed (done ++ [(op, τ, r)]) s'.

Definition complete (x : operation * trace accountE * res unit) : Prop :=
  match x with (SyncProfiles _, _, r) => r = Ok () | _ => True end.

(** The last account pass completed, if there was any. *)
Definition in_step (done : list (operation * trace accountE * res unit)) : Prop :=
  ∀ before us τ r after, done = before ++ (SyncProfiles us, τ, r) :: after →
    Forall (λ x, match x with (SyncProfiles _, _, _) => False | _ => True end) after → r = Ok ().

(** A cycle began while the last account pass, if there was any, had completed, and every
    account pass since completed. *)
Definition cycle_begun (done : list (operation * trace accountE * res unit)) : Prop :=
  ∃ before τ r after, done = before ++ (ReconcileOffering, τ, r) :: after ∧ in_step before ∧ Forall complete after.

(** *** What a pass over the accounts leaves of the record *)

Definition record_is (s0 s : accounts_state) : Prop :=
  as_conflicted s = as_conflicted s0 ∧ as_full_pass_done s = as_full_pass_done s0 ∧
  as_failed_pass s = as_failed_pass s0.

Lemma record_modify s0 f : (∀ s, record_is s (f s)) → keeps (E:=accountE) (record_is s0) (modify_st f).
Proof.
  intros Hf. apply keeps_modify. intros s (H1 & H2 & H3). destruct (Hf s) as (H4 & H5 & H6).
  split; [congruence|]. split; congruence.
Qed.

Lemma restamped_record d decision s : record_is s (restamped d decision s).
Proof. unfold restamped. destruct (restamped_from decision); done. Qed.
Lemma noted_record o d s : record_is s (noted cfg b o d s).
Proof. destruct o; try done. simpl. by destruct (ub_on_posix_mismatch b). Qed.

Lemma record_access s0 username : keeps (record_is s0) (add_to_access_groups b username).
Proof. apply quiet_keeps, quiet_access. Qed.
Lemma record_welcome s0 email username password uid : keeps (record_is s0) (welcome b email username password uid).
Proof. apply quiet_keeps, quiet_welcome. Qed.
Lemma record_password s0 : keeps (record_is s0) (new_password b).
Proof. apply quiet_keeps, quiet_password. Qed.
Lemma record_finish s0 username old : keeps (record_is s0) (finish_rename cfg username old).
Proof. apply quiet_keeps, quiet_finish. Qed.
Lemma record_copy s0 old new : keeps (record_is s0) (copy_memberships cfg old new).
Proof. apply quiet_keeps, quiet_copy. Qed.
Lemma record_pending s0 existing : keeps (record_is s0) (finish_pending_renames text cfg existing).
Proof. apply quiet_keeps, quiet_pending. Qed.
Lemma record_directory {X} s0 (c : ldapE X) : keeps (record_is s0) (directory c).
Proof. apply keeps_call. Qed.
Hint Resolve record_access record_welcome record_password record_finish record_copy record_pending record_directory : keeps.

Ltac record_kept := repeat first [progress keeps_auto | apply record_modify; intros ?;
  first [done | apply restamped_record | apply noted_record]].

Lemma record_apply s0 decision d : keeps (record_is s0) (apply_decision cfg b decision d).
Proof.
  unfold apply_decision, apply_drift, create_from_desired, unless_backend_error. record_kept.
Qed.
Hint Resolve record_apply : keeps.
Lemma record_apply_or_reread s0 decision d : keeps (record_is s0) (apply_or_reread text cfg b decision d).
Proof. unfold apply_or_reread, classify_now. record_kept. Qed.
Lemma record_rename s0 old d : keeps (record_is s0) (rename text cfg old d).
Proof. unfold rename, move_entry. record_kept. Qed.
Hint Resolve record_apply_or_reread record_rename : keeps.
Lemma record_one s0 d decision : keeps (record_is s0) (reconcile_one text cfg b d decision).
Proof. unfold reconcile_one, classify_now. record_kept. Qed.
Hint Resolve record_one : keeps.
Lemma record_accounts s0 us : keeps (record_is s0) (reconcile_accounts text cfg b posix us).
Proof. unfold reconcile_accounts, classify_now. record_kept. Qed.

Definition batch (us : list OfferingUser) : gset string := list_to_set (map ou_username us).

Lemma record_from_waldur us s :
  wpM (λ _ _ _, True) (reconcile_from_waldur text cfg b posix us) (λ r s' _,
    as_failed_pass s' = match r with Ok _ => false | Err _ => true end ∧
    as_full_pass_done s' = match r with Ok _ => as_full_pass_done s | Err _ => false end ∧
    as_conflicted s ∖ match r with Ok _ => batch us | Err _ => ∅ end ⊆ as_conflicted s') s [].
Proof.
  unfold reconcile_from_waldur. wp_step. wp_step. wp_step. wp_step.
  eapply wpM_mono; [by apply (record_accounts s)|]. intros r s1 H1 (Hc & Hf & Hd).
  destruct r as [[]|e]; cbv beta iota.
  - wp_step. cbn [recorded as_failed_pass as_full_pass_done as_conflicted negb andb]. rewrite Hc, Hf.
    do 2 (split; [done|]). apply union_subseteq_l.
  - wp_step. wp_step. wp_step. cbn [recorded as_failed_pass as_full_pass_done as_conflicted negb andb].
    do 2 (split; [done|]). rewrite difference_empty_L, Hc. apply union_subseteq_l.
Qed.

Lemma sync_record us s τ s' r : ub_waldur_authoritative b = true →
  runs (sync_user_profiles text cfg b posix us s) τ (s', r) →
  as_failed_pass s' = match r with Ok _ => false | Err _ => true end ∧
  as_full_pass_done s' = match r with Ok _ => as_full_pass_done s | Err _ => false end ∧
  as_conflicted s ∖ match r with Ok _ => batch us | Err _ => ∅ end ⊆ as_conflicted s'.
Proof.
  intros Hb. unfold sync_user_profiles. rewrite Hb. intros Hrun.
  exact (proj1 (wpM_sound _ _ _ _ _ _ _ (record_from_waldur us s) Hrun)).
Qed.

(** *** The state tells what was done *)

Lemma snoc_split {A} (l before after : list A) x y : l ++ [x] = before ++ y :: after →
  (after = [] ∧ y = x ∧ l = before) ∨ ∃ after', after = after' ++ [x] ∧ l = before ++ y :: after'.
Proof.
  destruct after as [|z after _] using rev_ind; intros He.
  - left. by apply app_inj_tail in He as [-> ->].
  - right. exists after. change (y :: after ++ [z]) with ((y :: after) ++ [z]) in He. rewrite app_assoc in He.
    by apply app_inj_tail in He as [-> ->].
Qed.

Lemma in_step_kept done op τ r : in_step done → (∀ us, op ≠ SyncProfiles us) → in_step (done ++ [(op, τ, r)]).
Proof.
  intros Hs Hop before us τ' r' after [(_ & [= <- _ _] & _)|(after' & -> & He)]%snoc_split Hafter; [by destruct (Hop us)|].
  apply Forall_app in Hafter as [Hafter _]. by eapply Hs.
Qed.

Lemma in_step_synced done us τ : in_step (done ++ [(SyncProfiles us, τ, Ok ())]).
Proof.
  intros before us' τ' r' after [(_ & [= _ _ ->] & _)|(after' & -> & _)]%snoc_split Hafter; [done|].
  apply Forall_app in Hafter as [_ Hx]. by apply Forall_cons in Hx as [[] _].
Qed.

Lemma cycle_begun_kept done x : cycle_begun done → complete x → cycle_begun (done ++ [x]).
Proof.
  intros (before & τ & r & after & -> & Hs & Ha) Hx. exists before, τ, r, (after ++ [x]).
  rewrite <- app_assoc. split; [done|]. split; [done|]. apply Forall_app. split; [done|]. by apply Forall_singleton.
Qed.

Lemma groups_record s τ s' r : runs (reconcile_project_groups names cfg b offering_uuid url_origin base s) τ (s', r) → s' = s.
Proof. intros Hrun. eapply wpM_sound in Hrun as [He _]; [exact He|apply groups_pass_known]. Qed.

Context (Hb : ub_waldur_authoritative b = true).

Lemma groups_quiet s τ out : as_full_pass_done s = false →
  runs (reconcile_project_groups names cfg b offering_uuid url_origin base s) τ out → τ = [].
Proof.
  intros Hd. unfold reconcile_project_groups. destruct (gs_enabled _); cbn [negb].
  - unfold bind, get_st. cbn [pbind]. rewrite Hb, Hd. cbn [negb andb]. by intros [-> _].
  - by intros [-> _].
Qed.

Lemma state_tells done s : performed done s →
  (as_failed_pass s = false → in_step done) ∧
  (as_full_pass_done s = true → as_failed_pass s = false ∧ cycle_begun done).
Proof.
  induction 1 as [|done s op τ s' r _ [IH1 IH2] Hrun].
  { split; [|done]. intros _ before us τ r after He. by destruct before. }
  destruct op as [us| |]; cbn [perform] in Hrun.
  - apply sync_record in Hrun as (Hf & Hd & _); [|done].
    destruct r as [[]|e]; rewrite Hf, Hd; [|done]. split; [intros _; apply in_step_synced|].
    intros Hfull. split; [done|]. apply cycle_begun_kept; [by apply IH2|done].
  - apply groups_record in Hrun as ->. cbn [full_pass_done as_failed_pass as_full_pass_done].
    split; [intros Hf; apply in_step_kept; [by apply IH1|done]|]. intros Hd. destruct (as_failed_pass s) eqn:Hf.
    + cbn [negb orb] in Hd. destruct (IH2 Hd) as [[=] _].
    + split; [done|]. exists done, τ, r, []. split; [done|]. split; [by apply IH1|constructor].
  - apply groups_record in Hrun as ->. split; [intros Hf; apply in_step_kept; [by apply IH1|done]|].
    intros Hd. split; [by apply IH2|]. apply cycle_begun_kept; [by apply IH2|done].
Qed.
End Operations.

(** C30: where Waldur names the accounts ([waldur_authoritative]), a pass over the project
    groups that an event asked for reads and writes nothing before a cycle of the process
    began while the last account pass, if any had run, had completed; nor after an account
    pass failed, until one completes and a cycle follows.  A cycle itself passes over the
    groups unless the last account pass failed.  With no account pass at all, as for an
    offering without accounts, the first cycle passes over the groups and lets events do
    so.  And an account found in conflict stays recorded, and so out of every group, until
    an account pass over it completes. *)
Theorem groups_wait_for_accounts names cfg b offering_uuid url_origin base posix done s op τ s' r :
  ub_waldur_authoritative b = true →
  performed names cfg b offering_uuid url_origin base posix done s →
  runs (perform names cfg b offering_uuid url_origin base posix op s) τ (s', r) →
  match op with
  | SyncProfiles _ => True
  | ReconcileOffering => τ ≠ [] → in_step done
  | ReconcileGroups => τ ≠ [] → cycle_begun done
  end ∧
  (∀ name, name ∈ as_conflicted s → name ∉ as_conflicted s' →
     ∃ us, op = SyncProfiles us ∧ r = Ok () ∧ name ∈ map ou_username us).
Proof.
  intros Hb Hdone Hrun. destruct (state_tells _ _ _ _ _ _ _ Hb _ _ Hdone) as [Hstep Hcycle].
  destruct op as [us| |]; cbn [perform] in Hrun.
  - split; [done|]. apply sync_record in Hrun as (_ & _ & Hsub); [|done]. intros name Hin Hout.
    assert (Hcleared : name ∈ match r with Ok _ => batch us | Err _ => ∅ end).
    { destruct (decide (name ∈ match r with Ok _ => batch us | Err _ => ∅ end)) as [|Hn]; [done|].
      exfalso. apply Hout, Hsub. by apply elem_of_difference. }
    destruct r as [[]|e]; [|by apply elem_of_empty in Hcleared]. exists us. do 2 (split; [done|]).
    by apply elem_of_list_to_set in Hcleared.
  - assert (Hrun' := Hrun). apply groups_record in Hrun' as ->. split; [|done].
    intros Hne. apply Hstep. destruct (as_failed_pass s) eqn:Hf; [|done]. exfalso. apply Hne.
    refine (groups_quiet _ _ _ _ _ _ Hb _ _ _ _ Hrun). cbn [full_pass_done as_full_pass_done]. rewrite Hf. cbn [negb orb].
    destruct (as_full_pass_done s) eqn:Hd; [|done]. by destruct (Hcycle eq_refl).
  - assert (Hrun' := Hrun). apply groups_record in Hrun' as ->. split; [|done].
    intros Hne. apply Hcycle. destruct (as_full_pass_done s) eqn:Hd; [done|]. exfalso. apply Hne.
    by refine (groups_quiet _ _ _ _ _ _ Hb _ _ _ _ Hrun).
Qed.

(** ** Two projects of a provider *)

Definition comma_names : ldap_names :=
  {| ln_parse_dn := λ _ dn, Some (map (λ component,
       match partition_on "=" component with (name, value) => (name, default EmptyString value) end)
       (split_on "," dn));
     ln_escape_rdn := λ s, s; ln_escape_filter_chars := λ s, s; ln_text := plain_text |}.

Definition group_names : username_backend :=
  {| ub_waldur_authoritative := true; ub_on_posix_mismatch := REPORT; ub_username_format := FIRST_INITIAL_LASTNAME;
     ub_remove_user_on_deactivate := true; ub_on_departure := DISABLE; ub_access_groups := Some [];
     ub_project_groups :=
       {| gs_enabled := true; gs_ou := None; gs_object_classes := None; gs_member_attribute := None;
          gs_add_only := false; gs_adopt_gid := false;
          gs_parents := [{| pg_dn := "cn=cluster,dc=hpc"; pg_attribute := None; pg_offering_uuids := [] |}];
          gs_organization_description := None |};
     ub_generate_vpn_password := false; ub_email_sender := false |}.

Definition group_item (name : string) (gid : Z) (offerings : list json) : json :=
  JObj [("uuid", JStr name); ("name", JStr name); ("gid", JInt gid); ("members", JArr [JStr "john"]);
        ("offerings", JArr offerings)]%string.

(** The first project uses the offering and has no entry yet, the second has one but no
    longer uses it. *)
Definition groups_world (X : Type) (c : accountE X) (w : unit) : res X * unit :=
  (match c in accountE X return res X with
   | GroupsPage _ => Ok (JArr [group_item "proj-1" 5001 [JObj [("uuid"%string, JStr "OFF-1")]];
                               group_item "proj-2" 5002 []], Some "2", None)%string
   | Directory c =>
       match c in ldapE X return res X with
       | ListUsers => Ok [("john", [("uid", [JStr "john"]); ("uidNumber", [JInt 1001]);
                                    ("gidNumber", [JInt 1001]); ("homeDirectory", [JStr "/home/john"]);
                                    ("loginShell", [JStr "/bin/bash"]); ("cn", [JStr "John O'Neil"]);
                                    ("givenName", [JStr "John"]); ("sn", [JStr "O'Neil"]);
                                    ("mail", [JStr "john@hpc"]); ("employeeNumber", [JStr "john"])])]%string
       | ListEntries ou _ _ =>
           if nonempty ou
           then Ok [("cn=proj-2,ou=projects,dc=hpc", [("cn", [JStr "proj-2"]); ("gidNumber", [JInt 5002]);
                                                      ("memberUid", [JStr "john"])])]%string
           else Ok []
       | GidHolders => Ok [(5002, ["cn=proj-2,ou=projects,dc=hpc"])]%string
       | ReadEntry _ _ => Ok (Some [("objectClass", [JStr "groupOfNames"]);
                                    ("member", [JStr "CN=proj-2,OU=projects,DC=hpc"; JStr "cn=hand,dc=hpc"])])%string
       | AddEntry _ _ | ModifyEntry _ _ => Ok ()
       | _ => Err (OtherException "unexpected")
       end
   | _ => Err (OtherException "unexpected")
   end, w).

Definition no_urls (link : string) : res (option origin) := Ok None.
Definition hpc_base : origin := ("https", "waldur", None)%string.

Definition group_operation (op : operation) : account_m unit :=
  perform comma_names directory_config group_names "off-1" no_urls hpc_base (posix_of 1001) op.
Definition synced := exec groups_world (group_operation (SyncProfiles [live_john]) no_state) ().
Definition cycled := exec groups_world (group_operation ReconcileOffering synced.1.1.1) ().
Definition evented := exec groups_world (group_operation ReconcileGroups cycled.1.1.1) ().

(** The parent gets the first group and loses the second, whatever the case it was written in. *)
Definition parent_update : accountE unit :=
  Directory (ModifyEntry "cn=cluster,dc=hpc" [("member"%string,
    [MODIFY_ADD [JStr "cn=proj-1,ou=projects,dc=hpc"]; MODIFY_DELETE [JStr "CN=proj-2,OU=projects,DC=hpc"]])]).

Lemma project_groups_follow_waldur_witness :
  group_guard comma_names directory_config
    (pass_settings directory_config group_names "off-1" (as_conflicted cycled.1.1.1)) _ (rev (take 7 evented.1.2))
    parent_update.
Proof.
  refine (project_groups_follow_waldur comma_names directory_config group_names "off-1" no_urls hpc_base
    (group_operation ReconcileGroups) cycled.1.1.1 evented.1.2 (evented.1.1.1, evented.1.1.2)
    (take 7 evented.1.2) [] parent_update (Ok ()) (or_introl eq_refl) _ _).
  - apply (exec_runs_pair groups_world (group_operation ReconcileGroups cycled.1.1.1) ()).
  - vm_compute. reflexivity.
Defined.

(** A cycle before any account pass lets events pass over the groups. *)
Example first_cycle_unlocks :
  as_full_pass_done (exec groups_world (group_operation ReconcileOffering no_state) ()).1.1.1 = true.
Proof. vm_compute. reflexivity. Qed.

Lemma groups_wait_for_accounts_witness :
  cycle_begun (([] ++ [(SyncProfiles [live_john], synced.1.2, synced.1.1.2)]) ++
               [(ReconcileOffering, cycled.1.2, cycled.1.1.2)]).
Proof.
  refine (proj1 (groups_wait_for_accounts comma_names directory_config group_names "off-1" no_urls hpc_base
    (posix_of 1001) _ cycled.1.1.1 ReconcileGroups evented.1.2 evented.1.1.1 evented.1.1.2 eq_refl _ _) _).
  - eapply performed_next; [eapply performed_next; [apply performed_nothing|]|].
    + apply (exec_runs_pair groups_world (group_operation (SyncProfiles [live_john]) no_state) ()).
    + apply (exec_runs_pair groups_world (group_operation ReconcileOffering synced.1.1.1) ()).
  - apply (exec_runs_pair groups_world (group_operation ReconcileGroups cycled.1.1.1) ()).
  - vm_compute. discriminate.
Defined.

(** A member that another writer takes out meanwhile: the second write leaves a groupOfNames
    without members, and without the stand-in. *)
Definition racing_world (X : Type) (c : accountE X) (w : bool) : res X * bool :=
  match c in accountE X return res X * bool with
  | Directory c =>
      match c in ldapE X return res X * bool with
      | ModifyEntry _ _ => if w then (Ok (), w) else (Err (ValueConflictError "no such value"), true)
      | ReadEntry _ _ => (Ok (Some [("objectClass", [JStr "groupOfNames"]); ("member", [JStr "uid=eve,dc=hpc"])]%string), w)
      | _ => (Err (OtherException "unexpected"), w)
      end
  | _ => (Err (OtherException "unexpected"), w)
  end.

Definition racing_run := exec racing_world
  (modify_members comma_names directory_config "cn=proj,dc=hpc" "member"
     [("objectClass", [JStr "groupOfNames"])]%string ["uid=john,dc=hpc"; "uid=eve,dc=hpc"; "cn=hand,dc=hpc"]%string
     [] ["uid=john,dc=hpc"; "uid=eve,dc=hpc"]%string no_groups) false.

Example retry_forgets_stand_in : List.last racing_run.1.2 (Ev (Directory GidHolders) (Ok [])) =
  Ev (Directory (ModifyEntry "cn=proj,dc=hpc" [("member"%string, [MODIFY_DELETE [JStr "uid=eve,dc=hpc"]])])) (Ok ()).
Proof. vm_compute. reflexivity. Qed.
