(* ===== verification/SlurmBackend.v ===== *)
(** * The SLURM backend

    [plugins/slurm/waldur_site_agent_slurm/backend.py: SlurmBackend]: the method table
    [slurm_backend_methods] over the SLURM client ([SlurmClient.slurmE]), the LDAP client,
    the emulator's HTTP interface and the host.  What the class does not override is taken
    from [BaseBackend], over the client calls as this class answers them.  The state is
    that of a pull, the QoS remembered for the next metadata, and whether the QoS of the
    allocation being created is new. *)

From stdpp Require Import base list strings gmap sets pretty.
From Stdlib Require Import ZArith Lia SpecFloat Ascii.
From S2P Require Import Prelude.
From S2P Require Import Texts.
From S2P Require Import Structures.
From S2P Require Import Agent.
From S2P Require Import Samples.
From S2P Require Import Numbers.
From S2P Require Import FloatInts.
From S2P Require Import OfferingUsers.
From S2P Require Import BaseBackend.
From S2P Require Import Linking.
From S2P Require Import Homedirs.
From S2P Require Import ComponentMapping.
From S2P Require Import LdapClient.
From S2P Require Import SlurmParser.
From S2P Require Import SlurmClient.
From S2P Require Import SlurmSettings.

Local Open Scope prog_scope.
Local Open Scope Z_scope.

(** ** Data *)

Inductive hpcE : Type → Type :=
| Slurm {X} (c : slurmE X) : hpcE X
| Ldap {X} (c : ldapE X) : hpcE X
(* what the creation of home directories asks the host *)
| Host {X} (c : homedirE X) : hpcE X
(* a POST to the emulator, with its status checked *)
| EmulatorPost (url : string) (body : list (string * json)) : hpcE unit
| ViaWaldur {X} (c : waldurE X) : hpcE X
(* methods that only other plugins have *)
| Unsupported {X} (c : backendE X) : hpcE X.

Record hpc_state : Type := {
  hs_pull : pull_state;
  hs_last_qos : option string;
  hs_qos_created : bool;
}.

Abbreviation hpc := (M hpcE hpc_state).

Definition slurm {X} (c : slurmE X) : hpc X := call (Slurm c).
Definition ldap {X} (c : ldapE X) : hpc X := call (Ldap c).

Definition remember_qos (qos : string) : hpc unit :=
  modify_st (λ s, {| hs_pull := hs_pull s; hs_last_qos := Some qos; hs_qos_created := hs_qos_created s |}).
Definition forget_qos : hpc unit :=
  modify_st (λ s, {| hs_pull := hs_pull s; hs_last_qos := None; hs_qos_created := hs_qos_created s |}).
Definition set_qos_created (created : bool) : hpc unit :=
  modify_st (λ s, {| hs_pull := hs_pull s; hs_last_qos := hs_last_qos s; hs_qos_created := created |}).

(** What the processor sets on the backend: the partitions of the offering, whether it
    enforces QoS, and its timezone. *)
Record offering_facts : Type := {
  of_partitions : list string;
  of_enforce_qos : bool;
  of_timezone : string;
}.

(** [try: m except BackendError: log] *)
Definition contained {A} (m : hpc A) : hpc unit :=
  let! r := attempt m in
  match r with
  | Ok _ => ret ()
  | Err e => if is_backend_error e then ret () else raise e
  end.

Section Backend.
Context (b : slurm_backend) (facts : offering_facts).
(** [str()] of a JSON value, and what pydantic makes of the quota settings. *)
Context (text : json → string) (parse_fields : json → res HomedirQuotaConfig).

Definition setting (key : string) : json := json_get (sb_settings b) key JNull.
Definition qos_option (key : string) : json := from_option id JNull (obj_get (sb_qos_config b) key).
Definition qos_managed : bool := flag_of (sb_qos_config b) "enabled".
(** [_qos_skip_swap], [_qos_apply_limits] *)
Definition qos_skip_swap : bool := flag_of (sb_qos_config b) "skip_qos_swap".
Definition qos_apply_limits : bool := flag_of (sb_qos_config b) "apply_limits_to_qos".

(** [f"{prefix}{slug}"] with the prefix of the settings, and the default account. *)
Definition text_setting (key : string) : string :=
  match sb_settings b !! key with Some v => text v | None => "" end.

Definition base_config : backend_config :=
  {| bb_type := "slurm";
     bb_components := map (λ c, (c.1, sc_unit_factor c.2)) (sb_components b);
     bb_soft_delete := setting "soft_delete";
     bb_default_account := match sb_settings b !! "default_account" with
                           | Some v => text v | None => "root" end;
     bb_allocation_prefix := text_setting "allocation_prefix";
     bb_project_prefix := text_setting "project_prefix";
     bb_customer_prefix := text_setting "customer_prefix" |}.

Definition project_id (slug : string) : string := get_project_backend_id base_config slug.
Definition customer_id (slug : string) : string := get_customer_backend_id base_config slug.

(** ** Home directories *)

Definition homedir_hooks (X : Type) (c : homedirE X) : hpc X :=
  match c in homedirE X return hpc X with
  | Homedirs.CreateLinuxUserHomedir username umask =>
      slurm (CreateLinuxUserHomedir username umask) ;! ret ()
  | Homedirs.ExecuteCommand command => slurm (ExecuteCommand command)
  | c => call (Host c)
  end.

(** The inherited [create_user_homedirs]. *)
Definition create_user_homedirs (usernames : gset string) (umask : string) : hpc unit := λ s,
  let cfg := {| homedir_base_path := match setting "homedir_base_path" with
                                     | JNull => None | v => Some (text v) end;
                homedir_quota := setting "homedir_quota" |} in
  pbind (interp homedir_hooks (Homedirs.create_user_homedirs parse_fields cfg usernames umask ()) s)
        (λ '(s', (_, r)), Ret (s', r)).

Definition homedirs_enabled : bool :=
  truthy (json_get (sb_settings b) "enable_user_homedir_account_creation" (JBool true)).

Definition homedir_umask : string :=
  text (json_get (sb_settings b) "default_homedir_umask" (JStr "0077")).

(** ** The parent accounts *)

(** [_create_backend_resource], with a description that may not be set: only a missing
    account needs it. *)
Definition create_account (account : string) (description : field string)
    (organization parent : string) : hpc unit :=
  let! found := slurm (SlGetResource account) in
  match found, description with
  | Some _, _ => ret ()
  | None, Val d => slurm (SlCreateResource account d organization (Some parent)) ;! ret ()
  | None, _ => raise (AttributeError "replace")
  end.

(** [_pre_create_resource] *)
Definition pre_create_resource (r : WaldurResource) : hpc unit :=
  match field_str (res_customer_slug r), nonempty (res_project_slug r) with
  | Some customer_slug, true =>
      let project := project_id (res_project_slug r) in
      if truthy (setting "parent_account") then
        create_account project (res_project_name r) project (text (setting "parent_account"))
      else
        let customer := customer_id customer_slug in
        create_account customer (res_customer_name r) customer (text (sb_root_account b)) ;!
        create_account project (res_project_name r) project customer
  | _, _ => raise (BackendError ("Resource " +:+ res_uuid r +:+ " has unset or missing slug fields."))
  end.

(** The name, or what stands for it when the API leaves it out. *)
Definition name_or (name : field string) (default : string) : field string :=
  match name with Unset => Val default | name => name end.

(** The parent of an account, [None] when it cannot be read. *)
Definition readable_parent (account : string) : hpc (option (option string)) :=
  let! parent := attempt (slurm (GetAccountParent account)) in
  match parent with
  | Ok parent => ret (Some parent)
  | Err e => if is_backend_error e then ret None else raise e
  end.

(** [_reparent_resource_account_if_stale]; the last read is only logged. *)
Definition reparent_resource_account_if_stale (account project : string) : hpc unit :=
  let! parent := readable_parent account in
  match parent with
  | None => ret ()
  | Some parent =>
      if bool_decide (parent = Some project) then ret ()
      else
        let! moved := attempt (slurm (SetAccountParent account project)) in
        match moved with
        | Ok _ => readable_parent account ;! ret ()
        | Err e => if is_backend_error e then ret () else raise e
        end
  end.

Definition reparent_project (r : WaldurResource) (project customer : string) : hpc unit :=
  let! moved := attempt (
    create_account customer (name_or (res_customer_name r) customer) customer
      (text (sb_root_account b)) ;!
    create_account project (name_or (res_project_name r) project) project customer ;!
    slurm (SetAccountParent project customer)) in
  match moved with
  | Err e => if is_backend_error e then ret () else raise e
  | Ok _ =>
      let! parent := readable_parent project in
      match parent with
      | None => ret ()
      | Some _ => reparent_resource_account_if_stale (res_backend_id r) project
      end
  end.

(** [sync_resource_project] *)
Definition sync_resource_project (r : WaldurResource) : hpc unit :=
  if truthy (setting "parent_account") then ret ()
  else
    match field_str (res_customer_slug r), nonempty (res_project_slug r) with
    | Some customer_slug, true =>
        let project := project_id (res_project_slug r) in
        let customer := customer_id customer_slug in
        if String.eqb project customer then ret ()
        else
          let! current_parent := slurm (GetAccountParent project) in
          if bool_decide (current_parent = Some customer) then ret ()
          else reparent_project r project customer
    | _, _ => ret ()
    end.

(** ** Health *)

Definition ping (raise_exception : bool) : hpc bool :=
  let! listed := attempt (slurm SlListResources) in
  match listed with
  | Ok _ => ret true
  | Err e => if is_backend_error e && negb raise_exception then ret false else raise e
  end.

Definition list_components : hpc (list string) := slurm ListTres.

(** [backend_settings\[key\]] *)
Definition required (key : string) : hpc json :=
  match sb_settings b !! key with Some v => ret v | None => raise (KeyError key) end.

(** Whether the configured cluster is there; a listing that fails is only logged. *)
Definition cluster_known : hpc bool :=
  let! clusters := attempt (slurm ListClusters) in
  match clusters with
  | Err e => if is_backend_error e then ret true else raise e
  | Ok clusters =>
      let cluster := setting "cluster_name" in
      ret (negb (truthy cluster) || bool_decide (text cluster ∈ clusters))
  end.

Definition account_exists (account : string) : hpc bool :=
  let! found := slurm (SlGetResource account) in ret (bool_decide (found ≠ None)).

Definition diagnostics : hpc bool :=
  let! default_account := required "default_account" in
  for_each ["customer_prefix"; "project_prefix"; "allocation_prefix"]
    (λ key, required key ;! ret ()) ;!
  let! version := attempt (slurm GetVersion) in
  match version with
  | Err e => if is_backend_error e then ret false else raise e
  | Ok _ =>
      slurm ValidateSlurmBinary ;!
      contained (ping true) ;!
      let! known := cluster_known in
      if negb known then ret false
      else
        list_components ;!
        let! default_there := account_exists (text default_account) in
        if negb default_there then ret false else account_exists (text (sb_root_account b))
  end.

(** ** QoS and file systems *)

(** The names a setting lists. *)
Definition listed_names (v : json) : res (list string) :=
  match v with
  | JArr l => Ok (map text l)
  | JObj d => Ok (dict_keys d)
  | JStr s => Ok (map (λ c, String c "") (String.list_ascii_of_string s))
  | _ => Err (TypeError "object is not iterable")
  end.

Definition qos_parameters : qos_params :=
  {| qp_flags := from_option id (JStr "DenyOnLimit,NoDecay") (obj_get (sb_qos_config b) "flags");
     qp_grp_tres := qos_option "grp_tres"; qp_max_jobs := qos_option "max_jobs";
     qp_max_submit := qos_option "max_submit"; qp_max_wall := qos_option "max_wall";
     qp_min_tres_per_job := qos_option "min_tres_per_job" |}.

(** [_create_account_qos]: whether the QoS is new. *)
Definition create_account_qos (account : string) : hpc bool :=
  let! there := slurm (QosExists account) in
  if there : bool then ret false
  else slurm (CreateQos account qos_parameters) ;! ret true.

(** [_attach_account_qos] *)
Definition attach_account_qos (account : string) : hpc unit :=
  slurm (AddAccountQos account account) ;!
  slurm (SetAccountDefaultQos account account) ;!
  let! additional := of_res (listed_names (json_or (qos_option "additional_qos") (JArr []))) in
  for_each additional (λ qos, slurm (AddAccountQos account qos)).

(** [_setup_account_qos] *)
Definition setup_account_qos (account : string) : hpc unit :=
  let! created := create_account_qos account in
  if created : bool then attach_account_qos account else ret ().

Definition execute (command : list string) : hpc unit := slurm (ExecuteCommand command) ;! ret ().

(** [_set_lustre_quota] *)
Definition set_lustre_quota (lustre_project_id : Z) (project_path : string)
    (config : list (string * json)) : hpc unit :=
  let limit flag key := match obj_get config key with
                        | None | Some JNull => []
                        | Some v => [flag; text v]
                        end in
  let mount_point := text (from_option id (JStr "/valhalla") (obj_get config "mount_point")) in
  contained (
    execute (["lfs"; "setquota"; "-p"; pretty lustre_project_id] ++
             limit "-b" "block_softlimit" ++ limit "-B" "block_hardlimit" ++
             limit "-i" "inode_softlimit" ++ limit "-I" "inode_hardlimit" ++ [mount_point]) ;!
    execute ["lfs"; "project"; "-p"; pretty lustre_project_id; "-r"; "-s"; project_path]).

(** The Lustre project of a directory, and its quota. *)
Definition setup_lustre (group_name project_path : string) (lustre : json) : hpc unit :=
  if negb (truthy lustre && sb_has_ldap b) then ret ()
  else
    let! gid := ldap (GetGroupGid group_name) in
    match gid with
    | None => ret ()
    | Some gid =>
        let lustre_project_id := gid + sb_lustre_project_id_offset b in
        if LUSTRE_MAX_PROJECT_ID <? lustre_project_id then ret ()
        else match lustre with
             | JObj config => set_lustre_quota lustre_project_id project_path config
             | _ => raise (AttributeError "get")
             end
    end.

(** [_setup_project_directory] *)
Definition setup_project_directory (config : list (string * json)) (project : string) : hpc unit :=
  let get key default := from_option id default (obj_get config key) in
  let project_path := text (get "base_path" (JStr "/valhalla/projects")) +:+ "/" +:+ project in
  let group_name := if json_eqb (get "group_owner_source" (JStr "project_id")) (JStr "project_id")
                    then project else text (get "group_name" (JStr project)) in
  let! made := attempt (
    execute ["mkdir"; "-p"; project_path] ;!
    execute ["chmod"; text (get "permissions" (JStr "770")); project_path] ;!
    if truthy (get "set_gid" (JBool true)) then execute ["chmod"; "g+s"; project_path] else ret ()) in
  match made with
  | Err e => if is_backend_error e then ret () else raise e
  | Ok _ =>
      contained (execute ["chown"; text (get "owner" (JStr "nobody")) +:+ ":" +:+ group_name;
                          project_path]) ;!
      (if truthy (get "set_acl" (JBool true)) then
         contained (execute ["setfacl"; "-R"; "-m";
           "group:" +:+ group_name +:+ ":rwx,d:group:" +:+ group_name +:+ ":rwx"; project_path])
       else ret ()) ;!
      setup_lustre group_name project_path (get "lustre_quota" JNull)
  end.

(** [_on_backend_resource_created] *)
Definition on_backend_resource_created (backend_id : string) : hpc unit :=
  (if sb_has_ldap b then contained (ldap (CreateProjectGroup backend_id [])) else ret ()) ;!
  let! enabled := of_res (get_of (sb_project_dir_config b) "enabled" JNull) in
  (if truthy enabled then
     match sb_project_dir_config b with
     | JObj config => setup_project_directory config backend_id
     | _ => ret ()
     end
   else ret ()) ;!
  if negb qos_managed then ret ()
  else if qos_skip_swap then
    let! created := create_account_qos backend_id in set_qos_created created
  else setup_account_qos backend_id.

(** [post_create_resource] *)
Definition post_create_resource (info : BackendResourceInfo) (ctx : option user_context) : hpc unit :=
  (if qos_managed && qos_skip_swap then attach_account_qos (info_backend_id info) else ret ()) ;!
  match ctx with
  | None => ret ()
  | Some ctx =>
      if negb homedirs_enabled then ret ()
      else
        let usernames : gset string := list_to_set (List.filter nonempty
          (map (λ u, ou_username u.2) (map_to_list (ctx_offering_user_mappings ctx)))) in
        if bool_decide (usernames = ∅) then ret ()
        else create_user_homedirs usernames homedir_umask
  end.

(** ** Limits *)

(** [_collect_resource_limits]: a cluster that does not answer filters nothing. *)
Definition collect_resource_limits (r : WaldurResource) : hpc (gmap string Z * gmap string Z) :=
  let! limits := of_res (allocation_limits b r) in
  let! known := attempt list_components in
  of_res (collected_limits b r limits (match known with Ok known => known | Err _ => [] end)).

(** [_write_allocation_limits] *)
Definition write_allocation_limits (backend_id : string) (limits : gmap string Z)
    (reset_raw_usage : bool) : hpc unit :=
  if qos_apply_limits then
    slurm (SetQosGrpTresMins backend_id limits) ;!
    if reset_raw_usage then slurm (ResetQosRawUsage backend_id) else ret ()
  else slurm (SlSetResourceLimits backend_id limits) ;! ret ().

(** [_setup_resource_limits] where the limits go to the QoS. *)
Definition setup_qos_limits (backend_id : string) (r : WaldurResource) : hpc (gmap string Z) :=
  let! limits := collect_resource_limits r in
  if negb (map_truthy limits.1) then set_qos_created false ;! ret ∅
  else
    match log_limits_error base_config (map_to_list limits.1) with
    | Some e => raise e
    | None =>
        let! s := get_st in
        set_qos_created false ;!
        write_allocation_limits backend_id limits.1 (hs_qos_created s) ;!
        ret limits.2
    end.

Definition own_limits (backend_id : string) : hpc (list (string * Z)) :=
  if qos_apply_limits then slurm (GetQosGrpTresMins backend_id)
  else slurm (SlGetResourceLimits backend_id).

(** [get_resource_limits] *)
Definition get_resource_limits (backend_id : string) : hpc (gmap string Z) :=
  let! limits := own_limits backend_id in
  let! converted :=
    of_res (convert_limits_to_waldur_ones (sb_components b) (known_components b limits)) in
  ret (list_to_map converted).

(** [sync_resource_end_date] *)
Definition sync_resource_end_date (r : WaldurResource) : hpc unit :=
  if negb (has_prepaid_components b) || negb (nonempty (res_backend_id r)) then ret ()
  else
    let! limits := collect_resource_limits r in
    if map_truthy limits.1 then write_allocation_limits (res_backend_id r) limits.1 false else ret ().

(** [set_resource_user_limits] *)
Definition set_resource_user_limits (backend_id username : string) (limits : gmap string Z)
  : hpc unit :=
  let! converted := of_res (concat_res (map (user_limit b) (map_to_list limits))) in
  slurm (SlSetResourceUserLimits backend_id username (list_to_map converted)) ;! ret ().

(** ** Usage *)

(** The amounts as the usage of a resource carries them. *)
Definition report_amounts (report : raw_report) : list (string * usage) :=
  map (λ a, (a.1, map (λ u, (u.1, map (λ x,
    (x.1, match to_float x.2 with Ok f => f | Err _ => S754_infinity false end)) u.2)) a.2)) report.

(** [_get_usage_report] and [get_usage_report_for_period] *)
Definition get_usage_report (backend_ids : list string) : hpc raw_report :=
  let! lines := slurm (UsageReport backend_ids (of_timezone facts)) in of_res (usage_report b lines).

Definition get_usage_report_for_period (backend_ids : list string) (year month : Z)
  : hpc raw_report :=
  let! lines := slurm (HistoricalUsageReport backend_ids year month) in of_res (usage_report b lines).

(** ** Users *)

Definition SACCTMGR_NOEFFECT_ERROR : string := "Request didn't affect anything".

(** [qos_enforced] *)
Definition qos_enforced : bool :=
  sb_qos_enforcement_enabled b &&
  match sb_enforce_offering_qos b with
  | JNull => of_enforce_qos facts
  | v => truthy v
  end.

(** [_selected_qos]: the QoS and the partition of the order. *)
Definition selected (r : WaldurResource) (key : string) : option string :=
  match res_attributes r with
  | Some props => match obj_get props key with
                  | Some v => if truthy v then Some (text v) else None
                  | None => None
                  end
  | None => None
  end.

(** [self.offering_partitions and self._enforce_offering_partitions] *)
Definition enforced_partitions : list string :=
  if sb_enforce_offering_partitions b then of_partitions facts else [].

Definition default_partition : list string :=
  if truthy (sb_default_partition b) then [text (sb_default_partition b)] else [].

(** The partitions an association with a QoS is made for, if any. *)
Definition qos_partitions (r : WaldurResource) : list string :=
  match selected r "partition" with
  | Some partition => [partition]
  | None => match enforced_partitions with [] => default_partition | l => l end
  end.

(** The account the policy makes the user's default. *)
Definition policy_account (backend_id : string) : option string :=
  if String.eqb (sb_default_account_policy b) "individual" then Some backend_id
  else if String.eqb (sb_default_account_policy b) "none" then None
  else Some (bb_default_account base_config).

(** The association of the user with the account of the resource. *)
Definition create_own_association (r : WaldurResource) (username : string) : hpc unit :=
  let backend_id := res_backend_id r in
  match (if qos_enforced then selected r "qos" else None) with
  | Some qos =>
      slurm (CreateAssociationWithQos username backend_id [qos] (Some qos) (qos_partitions r)
               (policy_account backend_id)) ;! ret ()
  | None =>
      match enforced_partitions, default_partition with
      | (_ :: _) as partitions, _ =>
          slurm (CreateAssociationWithPartitions username backend_id partitions None) ;! ret ()
      | [], partition :: _ =>
          slurm (CreateAssociationWithPartition username backend_id partition None) ;! ret ()
      | [], [] => slurm (CreateAssociation username backend_id None) ;! ret ()
      end
  end.

(** The association with the default account; [false] when it could not be made. *)
Definition default_association (username : string) : hpc bool :=
  let default_account := bb_default_account base_config in
  let partition := text_setting "default_account_partition" in
  let! made := attempt (slurm (CreateAssociationWithPartition username default_account partition
                                 (Some default_account))) in
  match made with
  | Ok _ => ret true
  | Err e => if is_backend_error e then ret (String.prefix SACCTMGR_NOEFFECT_ERROR (exn_str e))
             else raise e
  end.

(** [_heal_legacy_project_group] *)
Definition heal_legacy_project_group (r : WaldurResource) : hpc unit :=
  let backend_id := res_backend_id r in
  let legacy_name := get_resource_backend_id base_config (res_slug r) in
  if negb (sb_has_ldap b) || negb (nonempty backend_id) || String.eqb legacy_name backend_id then ret ()
  else contained (
    let! own_there := ldap (GroupExists backend_id) in
    if own_there : bool then ret ()
    else
      let! legacy_there := ldap (GroupExists legacy_name) in
      if negb legacy_there then ret ()
      else
        let! account := slurm (SlGetResource legacy_name) in
        match account with
        | Some _ => ret ()
        | None => ldap (RenameGroup legacy_name backend_id)
        end).

(** A change of the project group of a resource, which must not fail the operation. *)
Definition with_project_group (r : WaldurResource) (c : ldapE unit) : hpc unit :=
  if sb_has_ldap b then heal_legacy_project_group r ;! contained (ldap c) else ret ().

(** [add_user] *)
Definition add_user (r : WaldurResource) (username : string) : hpc bool :=
  let backend_id := res_backend_id r in
  if blank backend_id then raise (BackendError "Empty backend ID for resource")
  else if negb (nonempty username) then ret false
  else
    let joined := with_project_group r (AddUserToGroup backend_id username "memberUid") ;! ret true in
    let! association := slurm (GetAssociation username backend_id) in
    match association with
    | Some _ => joined
    | None =>
        let! has_default := default_association username in
        if negb has_default then ret false
        else
          let! created := attempt (create_own_association r username) in
          match created with
          | Ok _ => joined
          | Err e =>
              if is_backend_error e
              then raise (BackendError ("Unable to create association between " +:+ username +:+
                                        " and " +:+ backend_id +:+ ": " +:+ exn_str e))
              else raise e
          end
    end.

(** [add_users_to_resource]: the home directories of the users that were added. *)
Definition add_users_to_resource (r : WaldurResource) (users : gset string) (umask : option json)
  : hpc added_users :=
  let! added := add_users_with (add_user r) users in
  (if homedirs_enabled
   then create_user_homedirs (au_added added) (text (default (JStr "0077") umask)) else ret ()) ;!
  ret added.

(** [process_existing_users] *)
Definition process_existing_users (users : gset string) : hpc unit :=
  if homedirs_enabled then create_user_homedirs users homedir_umask else ret ().

(** ** Deletion *)

(** [_pre_delete_user_actions] *)
Definition pre_delete_user_actions (backend_id username : string) : hpc unit :=
  let! there := slurm (CheckUserExists username) in
  if negb there then ret ()
  else
    let! jobs := slurm (ListActiveUserJobs backend_id username) in
    match jobs with
    | [] => ret ()
    | _ => slurm (CancelActiveUserJobs backend_id (Some username))
    end.

(** [_pre_delete_resource] *)
Definition pre_delete_resource (r : WaldurResource) : hpc unit :=
  let backend_id := res_backend_id r in
  let! has_users := slurm (AccountHasUsers backend_id) in
  (if has_users : bool then
     slurm (CancelActiveUserJobs backend_id None) ;!
     slurm (DeleteAllUsersFromAccount backend_id) ;! ret ()
   else ret ()) ;!
  (if qos_managed then
     let! there := slurm (QosExists backend_id) in
     if there : bool then contained (slurm (DeleteQos backend_id)) else ret ()
   else ret ()) ;!
  with_project_group r (DeleteGroup backend_id).

(** ** Pausing and restoring *)

(** [_use_grp_submit_jobs_lever] *)
Definition use_grp_submit_jobs_lever : bool := qos_enforced || qos_skip_swap.

(** The items of a QoS list. *)
Definition qos_items (qos : string) : list string :=
  List.filter nonempty (map strip (split_on ","%char qos)).

(** [_swap_account_qos] *)
Definition swap_account_qos (backend_id qos : string) : hpc unit :=
  let! current_default := slurm (GetCurrentAccountDefaultQos backend_id) in
  match qos_items qos with
  | first :: _ =>
      if nonempty current_default && negb (bool_decide (current_default ∈ qos_items qos))
      then slurm (SetAccountQos backend_id qos (Some first))
      else slurm (SetAccountQos backend_id qos None)
  | [] => slurm (SetAccountQos backend_id qos None)
  end.

(** [downscale_resource] and [pause_resource], with their setting. *)
Definition lower_resource (key backend_id : string) : hpc bool :=
  if use_grp_submit_jobs_lever then slurm (SetAccountGrpSubmitJobs backend_id 0) ;! ret true
  else if negb (truthy (setting key)) then ret false
  else
    let qos := text (setting key) in
    let! current_qos := slurm (GetCurrentAccountQos backend_id) in
    (if String.eqb current_qos qos then ret () else swap_account_qos backend_id qos) ;!
    remember_qos qos ;!
    ret true.

Definition downscale_resource : string → hpc bool := lower_resource "qos_downscaled".
Definition pause_resource : string → hpc bool := lower_resource "qos_paused".

Definition qos_default : string := text (json_get (sb_settings b) "qos_default" (JStr "normal")).

(** [restore_resource] *)
Definition restore_resource (backend_id : string) : hpc bool :=
  if use_grp_submit_jobs_lever then slurm (SetAccountGrpSubmitJobs backend_id (-1)) ;! ret true
  else
    let! current_qos := slurm (GetCurrentAccountQos backend_id) in
    if nonempty current_qos && String.eqb current_qos qos_default
    then remember_qos current_qos ;! ret false
    else swap_account_qos backend_id qos_default ;! remember_qos qos_default ;! ret true.

(** [get_resource_metadata] *)
Definition get_resource_metadata (backend_id : string) : hpc (gmap string json) :=
  let! s := get_st in
  let! qos := match hs_last_qos s with
              | None => slurm (GetCurrentAccountQos backend_id)
              | Some qos => forget_qos ;! ret qos
              end in
  ret {["qos"%string := JStr qos]}.

(** ** Periodic settings *)

Definition result_of (mode : string) (error : option exn) (commands : list (string * json)) : json :=
  let outcome := match error with
                 | None => [("success"%string, JBool true)]
                 | Some e => [("success"%string, JBool false); ("error"%string, JStr (exn_str e))]
                 end in
  JObj (outcome ++ ("mode"%string, JStr mode) :: commands).

(** [_apply_settings_emulator] *)
Definition apply_settings_emulator (resource_id : string) (settings : list (string * json))
    (config : json) : hpc json :=
  let! url := of_res (get_of config "emulator_base_url" (JStr "http://localhost:8080")) in
  let value key := from_option id JNull (obj_get settings key) in
  let post key v := call (EmulatorPost (text url +:+ "/api/apply-periodic-settings")
                            [("resource_id"%string, JStr resource_id); (key, v)]) in
  let posted key := if truthy (value key) then post key (value key) else ret () in
  let! done := attempt (
    posted "fairshare" ;!
    posted "grp_tres_mins" ;!
    if truthy (value "reset_raw_usage") then post "reset_raw_usage" (JBool true) else ret ()) in
  match done with
  | Ok _ => ret (result_of "emulator" None [])
  | Err e => ret (result_of "emulator" (Some e) [])
  end.

(** [_fairshare_is_current]: a value that cannot be read or compared is not current. *)
Definition fairshare_is_current (resource_id : string) (target : json) : hpc bool :=
  let! current := attempt (slurm (GetAccountFairshare resource_id)) in
  match current with
  | Err _ => ret false
  | Ok current =>
      match int_of_json target with
      | Ok target => ret (current =? target)
      | Err (TypeError _) | Err (ValueError _) => ret false
      | Err e => raise e
      end
  end.

(** The limits of a type among those that were read. *)
Definition limits_of_type (all : list (string * list (string * string))) (limit_type : json)
  : res (list (string * string)) :=
  match limit_type with
  | JStr s => Ok (default [] (dict_get all s))
  | JArr _ | JObj _ => Err (TypeError "unhashable type")
  | _ => Ok []
  end.

(** [str(current.get(tres)) != str(value)] *)
Definition differs (current : list (string * string)) (limit : string * json) : bool :=
  negb (String.eqb (default "None"%string (dict_get current limit.1)) (text limit.2)).

(** [_changed_tres_limits]: all of them when the current ones cannot be read. *)
Definition changed_tres_limits (resource_id : string) (limit_type : json)
    (target : list (string * json)) : hpc (list (string * json)) :=
  let! all := attempt (slurm (GetAccountLimits resource_id)) in
  match all with
  | Err _ => ret target
  | Ok all =>
      let! current := of_res (limits_of_type all limit_type) in
      ret (List.filter (differs current) target)
  end.

Definition apply_fairshare (resource_id : string) (target : json) : hpc unit :=
  if negb (truthy target) then ret ()
  else
    let! current := fairshare_is_current resource_id target in
    if current : bool then ret () else slurm (SetAccountFairshare resource_id target) ;! ret ().

Definition apply_limits (resource_id : string) (limit_type target : json) : hpc unit :=
  match target with
  | JObj target =>
      let! changed := changed_tres_limits resource_id limit_type target in
      match changed with
      | [] => ret ()
      | _ => slurm (SetAccountLimits resource_id limit_type changed) ;! ret ()
      end
  | _ => raise (AttributeError "items")
  end.

(** [_apply_settings_production] *)
Definition apply_settings_production (resource_id : string) (settings : list (string * json))
    (config : json) : hpc json :=
  let value key := from_option id JNull (obj_get settings key) in
  slurm ClearExecutedCommands ;!
  let! done := attempt (
    apply_fairshare resource_id (value "fairshare") ;!
    (if truthy (value "grp_tres_mins") || truthy (value "max_tres_mins") then
       let! configured := of_res (get_of config "limit_type" (JStr "GrpTRESMins")) in
       apply_limits resource_id (from_option id configured (obj_get settings "limit_type"))
         (json_or (value "grp_tres_mins") (value "max_tres_mins"))
     else ret ()) ;!
    (if truthy (value "reset_raw_usage") then slurm (ResetRawUsage resource_id) ;! ret () else ret ())) in
  let! executed := slurm ExecutedCommands in
  let commands := ("commands_executed"%string, JArr (map JStr executed)) in
  match done with
  | Ok _ => ret (result_of "production" None [commands])
  | Err e => ret (result_of "production" (Some e) [commands])
  end.

(** [apply_periodic_settings] *)
Definition apply_periodic_settings (resource_id : string) (settings : list (string * json)) : hpc json :=
  let periodic := json_get (sb_settings b) "periodic_limits" (JObj []) in
  let! enabled := of_res (get_of periodic "enabled" (JBool false)) in
  if negb (truthy enabled) then
    ret (JObj [("success"%string, JBool false); ("reason"%string, JStr "periodic_limits_not_enabled")])
  else
    let! emulated := of_res (get_of periodic "emulator_mode" (JBool false)) in
    if truthy emulated then apply_settings_emulator resource_id settings periodic
    else apply_settings_production resource_id settings periodic.

(** ** The method table *)

(** The client calls and the hooks of [BaseBackend], as this class has them. *)
Definition hooks (X : Type) (c : clientE X) : hpc X :=
  match c in clientE X return hpc X with
  | ClientListResources => slurm SlListResources
  | ClientGetResource account => slurm (SlGetResource account)
  | ClientCreateResource name description organization parent =>
      slurm (SlCreateResource name description organization parent) ;! ret ()
  | ClientDeleteResource name => slurm (SlDeleteResource name) ;! ret ()
  | ClientSetResourceLimits account limits => slurm (SlSetResourceLimits account limits) ;! ret ()
  | ClientGetResourceLimits account =>
      let! limits := slurm (SlGetResourceLimits account) in ret (list_to_map limits)
  | ClientGetResourceUserLimits account =>
      let! limits := slurm (SlGetResourceUserLimits account) in
      ret (list_to_map (map (λ u, (u.1, list_to_map u.2)) limits))
  | ClientSetResourceUserLimits account username limits =>
      slurm (SlSetResourceUserLimits account username (PyInt <$> limits)) ;! ret ()
  | ClientGetAssociation user account => slurm (GetAssociation user account)
  | ClientCreateAssociation username account default_account =>
      slurm (CreateAssociation username account (Some default_account)) ;! ret ()
  | ClientDeleteAssociation username account =>
      slurm (DeleteAssociation username account) ;! ret ()
  | ClientListResourceUsers account => slurm (SlListResourceUsers account)
  | Ping => ping false
  | GetUsageReport backend_ids =>
      let! report := get_usage_report backend_ids in ret (report_amounts report)
  | CollectResourceLimits r => collect_resource_limits r
  | PreCreateResource r _ => pre_create_resource r
  | OnBackendResourceCreated backend_id _ => on_backend_resource_created backend_id
  | PostCreateResource info _ ctx => post_create_resource info ctx ;! ret info
  | PreDeleteResource r => pre_delete_resource r
  | PostDeleteResource _ => ret ()
  | PreDeleteUserActions backend_id username => pre_delete_user_actions backend_id username
  | Plugin c => call (Unsupported c)
  | OwnWaldur c => call (ViaWaldur c)
  end.

(** A method of [BaseBackend] that calls nothing this class overrides but the hooks. *)
Definition inherited {A} (m : backend_m A) : hpc A := λ s,
  pbind (interp hooks (m (hs_pull s)) s) (λ '(s', (pull, r)),
    Ret ({| hs_pull := pull; hs_last_qos := hs_last_qos s'; hs_qos_created := hs_qos_created s' |}, r)).

(** [_setup_resource_limits] *)
Definition setup_resource_limits (backend_id : string) (r : WaldurResource) : hpc (gmap string Z) :=
  if qos_apply_limits then setup_qos_limits backend_id r
  else
    set_qos_created false ;!
    inherited (BaseBackend.setup_resource_limits base_config backend_id r).

(** [set_resource_limits] *)
Definition set_resource_limits (backend_id : string) (limits : gmap string Z) : hpc unit :=
  if negb (is_passthrough (sb_component_mapper b)) then
    let! converted := of_res (convert_limits_to_target (sb_component_mapper b) (mapped_limits b limits)) in
    write_allocation_limits backend_id (list_to_map converted) false
  else if qos_apply_limits then
    let! converted := of_res (concat_res (map (scaled_by_factor b) (map_to_list limits))) in
    write_allocation_limits backend_id (list_to_map converted) false
  else inherited (BaseBackend.set_resource_limits base_config backend_id limits).

(** [remove_user]: the group is cleaned up whether or not there was an association. *)
Definition remove_user (r : WaldurResource) (username : string) : hpc bool :=
  let! removed := remove_user_with hooks r username in
  with_project_group r (RemoveUserFromGroup (res_backend_id r) username "memberUid") ;!
  ret removed.

Definition create_resource_with_id : WaldurResource → string → option user_context →
    hpc BackendResourceInfo := create_resource_with base_config hooks setup_resource_limits.

Definition slurm_methods (X : Type) (c : backendE X) : hpc X :=
  match c in backendE X return hpc X with
  | CreateResourceWithId r backend_id ctx =>
      let! info := create_resource_with_id r backend_id (Some ctx) in ret (Some info)
  | RecreateMissingResource r => recreate_missing_with hooks create_resource_with_id r
  | SetupResourceLimits backend_id r => setup_resource_limits backend_id r
  | SetResourceLimits backend_id limits => set_resource_limits backend_id limits ;! ret None
  | GetResourceLimits backend_id => get_resource_limits backend_id
  | HasPrepaidComponents => ret (has_prepaid_components b)
  | DeleteResource r project_slug =>
      delete_resource_with base_config hooks set_resource_limits r (Some project_slug)
  | AddUsersToResource r users kw =>
      let! added := add_users_to_resource r users (kw_homedir_umask kw) in ret (au_added added)
  | RemoveUsersFromResource r users _ =>
      let! gone := remove_users_with (remove_user r) users in ret (RemovedNames (ru_removed gone))
  | AddUser r username _ _ => add_user r username
  | RemoveUser r username _ _ => remove_user r username
  | ProcessExistingUsers users => process_existing_users users
  | PauseResource backend_id => pause_resource backend_id
  | DownscaleResource backend_id => downscale_resource backend_id
  | RestoreResource backend_id => restore_resource backend_id
  | GetResourceMetadata backend_id => get_resource_metadata backend_id
  | SetResourceUserLimits backend_id username limits =>
      set_resource_user_limits backend_id username limits
  | SyncResourceProject r _ => sync_resource_project r
  | SyncResourceEndDate r => sync_resource_end_date r
  | SyncResourceLimits r => sync_waldur_limits_with hooks get_resource_limits r
  | c => inherited (base_backend base_config c)
  end.
End Backend.

(** ** What the settings allow *)

Section Allowed.
Context (b : slurm_backend) (facts : offering_facts).
Context (text : json → string) (parse_fields : json → res HomedirQuotaConfig).

(** The calls a backend with these settings may make in answer to the processors. *)
Definition allowed_slurm {X} (c : slurmE X) : bool :=
  match c with
  | SetAccountQos _ _ _ => negb (use_grp_submit_jobs_lever b facts)
  | SetAccountGrpSubmitJobs _ _ => use_grp_submit_jobs_lever b facts
  | QosExists _ | CreateQos _ _ | DeleteQos _ | AddAccountQos _ _ | SetAccountDefaultQos _ _ =>
      qos_managed b
  | SetQosGrpTresMins _ _ | GetQosGrpTresMins _ | ResetQosRawUsage _ => qos_apply_limits b
  | SlSetResourceLimits _ _ => negb (qos_apply_limits b)
  | CreateAssociationWithQos _ _ _ _ _ _ => qos_enforced b facts
  | CreateAssociationWithPartitions _ _ _ _ => sb_enforce_offering_partitions b
  | CreateLinuxUserHomedir _ _ => homedirs_enabled b
  | SetAccountParent _ _ => negb (truthy (setting b "parent_account"))
  | SetAccountQosList _ _ | SetUserDefaultAccount _ _ | SetAccountFairshare _ _
  | SetAccountLimits _ _ _ | ResetRawUsage _ | ClearExecutedCommands => false
  | _ => true
  end.

Definition allowed (X : Type) (c : hpcE X) : bool :=
  match c with
  | Slurm c => allowed_slurm c
  | Ldap _ => sb_has_ldap b
  | Host _ => homedirs_enabled b
  | EmulatorPost _ _ => false
  | ViaWaldur _ | Unsupported _ => true
  end.

Local Abbreviation obeys m := (calls allowed m).

Lemma obeys_slurm {X} (c : slurmE X) : allowed_slurm c = true → obeys (slurm c).
Proof. intros H. unfold slurm. by apply calls_call. Qed.
Lemma obeys_ldap {X} (c : ldapE X) : sb_has_ldap b = true → obeys (ldap c).
Proof. intros H. unfold ldap. by apply calls_call. Qed.
Lemma obeys_contained {A} (m : hpc A) : obeys m → obeys (contained m).
Proof.
  intros Hm. apply calls_bind; [by apply calls_attempt|]. intros [a|e]; [apply calls_ret|].
  case_match; [apply calls_ret|apply calls_raise].
Qed.

Create HintDb obeys.
Hint Resolve calls_ret calls_raise calls_of_res calls_get calls_put calls_modify : obeys.

Ltac allowed_call :=
  cbn [allowed_slurm];
  repeat match goal with H : ?x = _ |- context [?x] => rewrite H end; first [reflexivity | assumption].

Ltac obeys_step :=
  lazymatch goal with
  | |- obeys (bind _ _) => apply calls_bind; [|intros ?]
  | |- obeys (attempt _) => apply calls_attempt
  | |- obeys (contained _) => apply obeys_contained
  | |- obeys (for_each _ _) => apply calls_for_each; intros ?
  | |- obeys (fold_m _ _ _) => apply calls_fold_m; intros ? ?
  | |- obeys (slurm _) => apply obeys_slurm; allowed_call
  | |- obeys (ldap _) => apply obeys_ldap; assumption
  | |- obeys (let _ := _ in _) => cbv zeta
  | |- obeys (match ?x with _ => _ end) => destruct x eqn:?
  | |- obeys _ => solve [auto with obeys]
  end.
Ltac obey := repeat (cbv beta; obeys_step).

Lemma obeys_remember qos : obeys (remember_qos qos).
Proof. apply calls_modify. Qed.
Lemma obeys_forget : obeys forget_qos.
Proof. apply calls_modify. Qed.
Lemma obeys_set_created created : obeys (set_qos_created created).
Proof. apply calls_modify. Qed.
Hint Resolve obeys_remember obeys_forget obeys_set_created : obeys.

Lemma obeys_homedirs usernames umask :
  homedirs_enabled b = true → obeys (create_user_homedirs b text parse_fields usernames umask).
Proof.
  intros He s. apply pcalls_bind; [|by intros [s' [u r]]].
  apply (pcalls_interp (λ _ _, true)); [|generalize (Homedirs.create_user_homedirs parse_fields
    {| homedir_base_path := match setting b "homedir_base_path" with
                            | JNull => None | v => Some (text v) end;
       homedir_quota := setting b "homedir_quota" |} usernames umask ()); intros p; by induction p].
  intros X c _. destruct c; simpl; obey; by apply calls_call.
Qed.
Hint Resolve obeys_homedirs : obeys.

Lemma obeys_create_account account description organization parent :
  obeys (create_account account description organization parent).
Proof. unfold create_account. obey. Qed.
Hint Resolve obeys_create_account : obeys.

Lemma obeys_pre_create r : obeys (pre_create_resource b text r).
Proof. unfold pre_create_resource. obey. Qed.

Lemma obeys_readable_parent account : obeys (readable_parent account).
Proof. unfold readable_parent. obey. Qed.
Hint Resolve obeys_readable_parent : obeys.

Lemma obeys_sync_project r : obeys (sync_resource_project b text r).
Proof.
  unfold sync_resource_project, reparent_project, reparent_resource_account_if_stale. obey.
Qed.

Lemma obeys_list_components : obeys list_components.
Proof. unfold list_components. obey. Qed.
Hint Resolve obeys_list_components : obeys.

Lemma obeys_create_qos account : qos_managed b = true → obeys (create_account_qos b account).
Proof. intros Hq. unfold create_account_qos. obey. Qed.
Lemma obeys_attach_qos account : qos_managed b = true → obeys (attach_account_qos b text account).
Proof. intros Hq. unfold attach_account_qos. obey. Qed.
Hint Resolve obeys_create_qos obeys_attach_qos : obeys.

Lemma obeys_execute command : obeys (execute command).
Proof. unfold execute. obey. Qed.
Hint Resolve obeys_execute : obeys.

Lemma obeys_lustre group_name project_path lustre : obeys (setup_lustre b text group_name project_path lustre).
Proof.
  unfold setup_lustre, set_lustre_quota. destruct (truthy lustre && sb_has_ldap b) eqn:H; simpl; [|obey].
  apply andb_prop in H as [_ H]. obey.
Qed.
Hint Resolve obeys_lustre : obeys.

Lemma obeys_directory config project : obeys (setup_project_directory b text config project).
Proof. unfold setup_project_directory. obey. Qed.
Hint Resolve obeys_directory : obeys.

Lemma obeys_created backend_id : obeys (on_backend_resource_created b text backend_id).
Proof.
  unfold on_backend_resource_created, setup_account_qos. destruct (qos_managed b) eqn:Hq; simpl; obey.
Qed.

Lemma obeys_post_create info ctx : obeys (post_create_resource b text parse_fields info ctx).
Proof.
  unfold post_create_resource. apply calls_bind; [|intros []].
  - destruct (qos_managed b && qos_skip_swap b) eqn:H; [|obey]. apply andb_prop in H as [? ?]. obey.
  - destruct (homedirs_enabled b) eqn:He; simpl; obey.
Qed.

Lemma obeys_collect r : obeys (collect_resource_limits b r).
Proof. unfold collect_resource_limits. obey. Qed.
Hint Resolve obeys_collect : obeys.

Lemma obeys_write backend_id limits reset : obeys (write_allocation_limits b backend_id limits reset).
Proof. unfold write_allocation_limits. obey. Qed.
Hint Resolve obeys_write : obeys.

Lemma obeys_get_limits backend_id : obeys (get_resource_limits b backend_id).
Proof. unfold get_resource_limits, own_limits. obey. Qed.

Lemma obeys_usage backend_ids : obeys (get_usage_report b facts backend_ids).
Proof. unfold get_usage_report. obey. Qed.
Hint Resolve obeys_usage : obeys.

Lemma obeys_own_association r username :
  obeys (create_own_association b facts text r username).
Proof.
  unfold create_own_association. destruct (qos_enforced b facts) eqn:Hq; [|].
  - destruct (selected text r "qos"); obey. unfold enforced_partitions in *.
    destruct (sb_enforce_offering_partitions b) eqn:Hp; [|discriminate]. obey.
  - destruct (enforced_partitions b facts) eqn:He; obey. unfold enforced_partitions in *.
    destruct (sb_enforce_offering_partitions b) eqn:Hp; [|discriminate]. obey.
Qed.

Lemma obeys_default_association username : obeys (default_association b text username).
Proof. unfold default_association. obey. Qed.

Lemma obeys_project_group r c : obeys (with_project_group b text r c).
Proof.
  unfold with_project_group, heal_legacy_project_group. destruct (sb_has_ldap b) eqn:Hl; simpl; obey.
Qed.
Hint Resolve obeys_own_association obeys_default_association obeys_project_group : obeys.

Lemma obeys_add_user r username : obeys (add_user b facts text r username).
Proof. unfold add_user. obey. Qed.
Hint Resolve obeys_add_user : obeys.

Lemma obeys_add_users r users umask :
  obeys (add_users_to_resource b facts text parse_fields r users umask).
Proof. unfold add_users_to_resource, add_users_with, try_add_with. obey. Qed.

Lemma obeys_pre_delete_user backend_id username : obeys (pre_delete_user_actions backend_id username).
Proof. unfold pre_delete_user_actions. obey. Qed.
Lemma obeys_pre_delete r : obeys (pre_delete_resource b text r).
Proof. unfold pre_delete_resource. obey. Qed.

Lemma obeys_swap backend_id qos :
  use_grp_submit_jobs_lever b facts = false → obeys (swap_account_qos backend_id qos).
Proof. intros Hl. unfold swap_account_qos. obey. Qed.
Hint Resolve obeys_swap : obeys.

Lemma obeys_lower key backend_id : obeys (lower_resource b facts text key backend_id).
Proof. unfold lower_resource. destruct (use_grp_submit_jobs_lever b facts) eqn:Hl; obey. Qed.
Lemma obeys_restore backend_id : obeys (restore_resource b facts text backend_id).
Proof. unfold restore_resource. destruct (use_grp_submit_jobs_lever b facts) eqn:Hl; obey. Qed.
Lemma obeys_metadata backend_id : obeys (get_resource_metadata backend_id).
Proof. unfold get_resource_metadata. obey. Qed.

(** What the base class calls where nothing is overridden. *)
Definition plain (X : Type) (c : clientE X) : bool :=
  match c with
  | ClientSetResourceLimits _ _ => negb (qos_apply_limits b)
  | _ => true
  end.

Local Abbreviation client_calls := (hooks b facts text parse_fields).

Lemma obeys_hooks X (c : clientE X) : plain X c = true → obeys (client_calls X c).
Proof.
  intros Hc. destruct c; simpl in Hc |- *; try (by obey); try (by apply calls_call).
  - unfold ping. obey.
  - apply obeys_pre_create.
  - apply obeys_created.
  - apply calls_bind; [apply obeys_post_create|intros []; apply calls_ret].
  - apply obeys_pre_delete.
  - apply obeys_pre_delete_user.
Qed.

Lemma obeys_inherited {A} (m : backend_m A) : calls plain m → obeys (inherited b facts text parse_fields m).
Proof.
  intros Hm s. apply pcalls_bind; [|by intros [s' [pull r]]].
  apply (pcalls_interp plain); [apply obeys_hooks|apply Hm].
Qed.

Lemma obeys_setup_limits backend_id r : obeys (setup_resource_limits b facts text parse_fields backend_id r).
Proof.
  unfold setup_resource_limits, setup_qos_limits. destruct (qos_apply_limits b) eqn:Ha; [obey|].
  apply calls_bind; [obey|intros []]. apply obeys_inherited.
  unfold BaseBackend.setup_resource_limits. calls_auto; apply calls_call; simpl; by rewrite ?Ha.
Qed.
Hint Resolve obeys_setup_limits : obeys.

Lemma obeys_set_limits backend_id limits : obeys (set_resource_limits b facts text parse_fields backend_id limits).
Proof.
  unfold set_resource_limits. destruct (qos_apply_limits b) eqn:Ha; [obey|].
  destruct (is_passthrough (sb_component_mapper b)); simpl; [|obey].
  apply obeys_inherited. unfold BaseBackend.set_resource_limits. apply calls_bind; [apply calls_of_res|].
  intros limits'. apply calls_call. simpl. by rewrite Ha.
Qed.
Hint Resolve obeys_set_limits : obeys.

Lemma obeys_client {X} (c : clientE X) : plain X c = true → obeys (client_calls _ c).
Proof. apply obeys_hooks. Qed.

Lemma obeys_create r backend_id ctx : obeys (create_resource_with_id b facts text parse_fields r backend_id ctx).
Proof.
  unfold create_resource_with_id, create_resource_with, create_backend_resource_with.
  repeat (cbv beta; first [apply obeys_client; reflexivity | obeys_step]).
Qed.

Ltac obey_client := repeat (cbv beta; first [apply obeys_client; reflexivity | obeys_step]).

Lemma obeys_delete r project_slug :
  obeys (delete_resource_with (base_config b text) client_calls
           (set_resource_limits b facts text parse_fields) r project_slug).
Proof. unfold delete_resource_with, delete_empty_project_with, delete_resource_safely_with. obey_client. Qed.

Lemma obeys_recreate r :
  obeys (recreate_missing_with client_calls (create_resource_with_id b facts text parse_fields) r).
Proof.
  pose proof (obeys_create r (res_backend_id r) None) as Hc.
  unfold recreate_missing_with. repeat (cbv beta; first [apply obeys_client; reflexivity | exact Hc | obeys_step]).
Qed.

Lemma obeys_remove_user r username : obeys (remove_user b facts text parse_fields r username).
Proof. unfold remove_user, remove_user_with. obey_client. Qed.

Lemma plain_base {X} (c : backendE X) :
  match c with
  | SetupResourceLimits _ _ | SetResourceLimits _ _ | CreateResourceWithId _ _ _
  | RecreateMissingResource _ | DeleteResource _ _ => True
  | c => calls plain (base_backend (base_config b text) c)
  end.
Proof.
  destruct c; try exact I; simpl;
    unfold run_preflight, pull_resources, pull_resources_with, pull_into, pull_into_with, pull_resource, pull_resource_with, pull_backend_resource,
      add_users_to_resource, BaseBackend.add_users_to_resource, add_users_with, try_add_with, BaseBackend.add_user,
      remove_users_from_resource, remove_users_with, try_remove_with, BaseBackend.remove_user,
      remove_user_with, sync_waldur_resource_limits, sync_waldur_limits_with;
    calls_auto.
Qed.

Lemma obeys_methods {X} (c : backendE X) : obeys (slurm_methods b facts text parse_fields X c).
Proof.
  pose proof (plain_base c) as Hp.
  destruct c; simpl; try (apply obeys_inherited; exact Hp).
  - apply calls_bind; [apply obeys_create|intros a; apply calls_ret].
  - apply obeys_recreate.
  - apply obeys_setup_limits.
  - apply calls_bind; [apply obeys_set_limits|intros a; apply calls_ret].
  - apply obeys_get_limits.
  - apply calls_ret.
  - apply obeys_delete.
  - apply calls_bind; [apply obeys_add_users|intros a; apply calls_ret].
  - apply calls_bind; [|intros a; apply calls_ret]. unfold remove_users_with, try_remove_with.
    repeat (cbv beta; first [apply obeys_remove_user | obeys_step]).
  - apply obeys_add_user.
  - apply obeys_remove_user.
  - unfold process_existing_users. obey.
  - apply obeys_lower.
  - apply obeys_lower.
  - apply obeys_restore.
  - apply obeys_metadata.
  - unfold set_resource_user_limits. obey.
  - apply obeys_sync_project.
  - unfold sync_resource_end_date. obey.
  - unfold sync_waldur_limits_with.
    repeat (cbv beta; first [apply obeys_client; reflexivity | apply obeys_get_limits | obeys_step]).
Qed.
End Allowed.

(** C12: Whatever the processors ask, a SLURM backend does only what its settings allow:
    the QoS list of an account is never overwritten where QoS is enforced or swaps are
    off, QoS objects are only touched where they are managed and limits live where they
    were configured to, associations carry a QoS or partitions only where that is
    enforced, LDAP and home directories only where they are switched on, and accounts are
    not moved in a flat hierarchy. *)
Theorem settings_obeyed b facts text parse_fields {X} (c : backendE X) s τ s' answer {Y} (d : hpcE Y) a :
  runs (slurm_methods b facts text parse_fields X c s) τ (s', answer) → Ev d a ∈ τ →
  allowed b facts Y d = true.
Proof.
  intros Hrun Hin. pose proof (obeys_methods b facts text parse_fields c s) as Ho.
  pose proof (pcalls_runs _ _ _ _ Ho Hrun) as Hall.
  apply (proj1 (Forall_forall _ _) Hall) in Hin. exact Hin.
Qed.

(** ** Witnesses *)

Definition account_named (name : string) : ClientResource :=
  {| cr_name := name; cr_description := ""; cr_organization := "root"; cr_backend_id := "" |}.

(** A cluster with the given accounts, whose projects are under the given parent. *)
Definition slurm_answer (accounts : list string) (parent : option string) {X} (c : slurmE X) : res X :=
  match c in slurmE X return res X with
  | ClearExecutedCommands | SetAccountQos _ _ _ | SetUserDefaultAccount _ _ | CancelActiveUserJobs _ _
  | CreateQos _ _ | DeleteQos _ | SetAccountQosList _ _ | AddAccountQos _ _ | SetAccountDefaultQos _ _
  | SetQosGrpTresMins _ _ | ResetQosRawUsage _ | SetAccountGrpSubmitJobs _ _ => Ok ()
  | ExecutedCommands => Ok []
  | ExecuteCommand _ | GetVersion | SlCreateResource _ _ _ _ | SetAccountParent _ _
  | DeleteAllUsersFromAccount _ | SlDeleteResource _ | SlSetResourceLimits _ _
  | SlSetResourceUserLimits _ _ _ | CreateAssociation _ _ _ | DeleteAssociation _ _
  | CreateAssociationWithPartition _ _ _ _ | CreateAssociationWithPartitions _ _ _ _
  | CreateAssociationWithQos _ _ _ _ _ _ | CreateLinuxUserHomedir _ _ => Ok ""
  | ValidateSlurmBinary | AccountHasUsers _ | CheckUserExists _ | SetAccountFairshare _ _
  | SetAccountLimits _ _ _ | ResetRawUsage _ => Ok true
  | QosExists _ => Ok false
  | SlListResources => Ok []
  | ListTres => Ok ["cpu"; "mem"; "gres/gpu"]
  | ListClusters => Ok ["hpc"]
  | SlGetResource name => Ok (if bool_decide (name ∈ accounts) then Some (account_named name) else None)
  | GetAccountParent _ => Ok parent
  | GetAssociation _ _ => Ok None
  | ListUserAccounts _ | SlListResourceUsers _ | ListActiveUserJobs _ _ => Ok []
  | GetUserDefaultAccount _ => Ok None
  | UsageReport _ _ | HistoricalUsageReport _ _ _ => Ok []
  | SlGetResourceLimits _ | GetQosGrpTresMins _ => Ok []
  | SlGetResourceUserLimits _ => Ok []
  | GetCurrentAccountQos _ | GetCurrentAccountDefaultQos _ => Ok "normal"
  | GetAccountFairshare _ => Ok 100
  | GetAccountLimits _ => Ok [("GrpTRESMins"%string, [("cpu"%string, "600"%string)])]
  end.

Definition hpc_world (accounts : list string) (parent : option string) {X} (c : hpcE X) : res X :=
  match c in hpcE X return res X with
  | Slurm c => slurm_answer accounts parent c
  | Ldap c => match c in ldapE X return res X with
              | GroupExists _ => Ok false
              | GetGroupGid _ => Ok (Some 2000)
              | CreateProjectGroup _ _ => Ok (Some 2000)
              | RenameGroup _ _ | AddUserToGroup _ _ _ | RemoveUserFromGroup _ _ _ | DeleteGroup _ => Ok ()
              | _ => Err (OtherException "unexpected")
              end
  | Host c => match c in homedirE X return res X with
              | IsDir _ _ => Ok false
              | PasswdDir _ => Ok "/home/alice"
              | Homedirs.CreateLinuxUserHomedir _ _ => Ok ()
              | Homedirs.ExecuteCommand _ => Ok ""
              end
  | EmulatorPost _ _ => Ok ()
  | ViaWaldur _ => Err (TransportError "")
  | Unsupported _ => Err (NotImplementedError "")
  end.

Definition fresh_state : hpc_state :=
  {| hs_pull := no_pull; hs_last_qos := None; hs_qos_created := false |}.

Definition run_hpc {A} (accounts : list string) (parent : option string) (m : hpc A) :=
  exec (λ X c (w : unit), (hpc_world accounts parent c, w)) (m fresh_state) ().

Definition plain_text (v : json) : string :=
  match v with JStr s => s | JInt z => pretty z | _ => "" end.

Definition no_quota (v : json) : res HomedirQuotaConfig := Err (ValueError "no quota").

Definition sample_facts : offering_facts :=
  {| of_partitions := []; of_enforce_qos := false; of_timezone := "UTC" |}.

(** QoS lists are swapped, and project groups are kept. *)
Definition swapping_slurm : slurm_backend :=
  match init connects connects no_float
    {["default_account"%string := JStr "root_account"; "default_account_partition"%string := JStr "batch";
      "allocation_prefix"%string := JStr "hpc_"; "project_prefix"%string := JStr "p_";
      "customer_prefix"%string := JStr "c_"; "qos_paused"%string := JStr "paused,slow";
      "ldap"%string := JObj [("uri"%string, JStr "ldap://directory")]]} sample_components with
  | Ok b => b | Err _ => sample_slurm end.

Definition pausing_exec :=
  run_hpc ["alloc-1"] None (slurm_methods sample_slurm sample_facts plain_text no_quota _ (PauseResource "alloc-1")).

Lemma settings_obeyed_witness :
  map (λ ev, match ev with Ev (Slurm (SetAccountGrpSubmitJobs a v)) _ => Some (a, v) | _ => None end)
    pausing_exec.1.2 = [Some ("alloc-1"%string, 0)] ∧
  allowed sample_slurm sample_facts _ (Slurm (SetAccountGrpSubmitJobs "alloc-1" 0)) = true.
Proof.
  split; [vm_compute; reflexivity|].
  refine (settings_obeyed sample_slurm sample_facts plain_text no_quota (PauseResource "alloc-1")
    fresh_state pausing_exec.1.2 pausing_exec.1.1.1 pausing_exec.1.1.2 _ (Ok ()) _ _).
  - exact (exec_runs_pair _ _ _).
  - vm_compute. left.
Defined.
