(* ===== verification/SlurmOperations.v ===== *)
(** * What the operations of the SLURM backend do

    The behaviour of the methods of [SlurmBackend.v], whatever the cluster answers:
    changes of status, periodic settings, the creation and deletion of an allocation, its
    users and its place in the account tree. *)

From stdpp Require Import base list strings gmap sets pretty.
From Stdlib Require Import ZArith Lia SpecFloat Ascii.
From S2P Require Import Prelude.
From S2P Require Import Texts.
From S2P Require Import Structures.
From S2P Require Import Agent.
From S2P Require Import Samples.
From S2P Require Import Numbers.
From S2P Require Import FloatInts.
From S2P Require Import OfferingUsers.
From S2P Require Import BaseBackend.
From S2P Require Import Linking.
From S2P Require Import Homedirs.
From S2P Require Import ComponentMapping.
From S2P Require Import LdapClient.
From S2P Require Import SlurmParser.
From S2P Require Import SlurmClient.
From S2P Require Import SlurmSettings.
From S2P Require Import SlurmBackend.

Local Open Scope prog_scope.
Local Open Scope Z_scope.

(** ** Stepping through the calls of the backend *)

Section Steps.
Context (G : guard hpcE).
Implicit Types (s : hpc_state) (H : trace hpcE).

Lemma wpM_slurm {X} (c : slurmE X) Q s H :
  G X H (Slurm c) → (∀ r, Q r s (Ev (Slurm c) r :: H)) → wpM G (slurm c) Q s H.
Proof. apply wpM_call. Qed.

Lemma wpM_ldap {X} (c : ldapE X) Q s H :
  G X H (Ldap c) → (∀ r, Q r s (Ev (Ldap c) r :: H)) → wpM G (ldap c) Q s H.
Proof. apply wpM_call. Qed.

Lemma wpM_contained {A} (m : hpc A) (Q : res unit → hpc_state → trace hpcE → Prop) s H :
  wpM G m (λ r s' H', match r with
                      | Ok _ => Q (Ok ()) s' H'
                      | Err e => if is_backend_error e then Q (Ok ()) s' H' else Q (Err e) s' H'
                      end) s H →
  wpM G (contained m) Q s H.
Proof.
  intros Hm. unfold contained. wp_steps. eapply wpM_mono; [exact Hm|].
  intros [x|e] s' H' HQ; cbv beta iota; [by wp_step|]. destruct (is_backend_error e); by wp_step.
Qed.
End Steps.

(** ** Pausing, downscaling and restoring *)

Inductive status : Type := Paused | Downscaled | Active.

Section Status.
Context (b : slurm_backend) (facts : offering_facts) (text : json → string).

Definition apply_status (st : status) : string → hpc bool :=
  match st with
  | Paused => pause_resource b facts text
  | Downscaled => downscale_resource b facts text
  | Active => restore_resource b facts text
  end.

(** The QoS the settings want for a status, and the limit on submitted jobs. *)
Definition wanted_qos (st : status) : option string :=
  let lowered key := if truthy (setting b key) then Some (text (setting b key)) else None in
  match st with
  | Paused => lowered "qos_paused"%string
  | Downscaled => lowered "qos_downscaled"%string
  | Active => Some (qos_default b text)
  end.
Definition job_limit (st : status) : Z := match st with Active => -1 | _ => 0 end.

(** A default QoS that the new list does not have moves to the first of the list, in the
    same command; any other stays as it is. *)
Definition default_follows (qos current : string) (moved_to : option string) : Prop :=
  match moved_to with
  | Some first => head (qos_items qos) = Some first ∧ current ≠ "" ∧ current ∉ qos_items qos
  | None => current = "" ∨ current ∈ qos_items qos ∨ qos_items qos = []
  end.

(** The commands of a change of status: of this account only, the job limit where QoS
    lists are not to be touched, the list wanted where they are. *)
Definition status_guard (st : status) (id : string) : guard hpcE := λ X H c,
  match c with
  | Slurm (GetCurrentAccountQos account) | Slurm (GetCurrentAccountDefaultQos account) =>
      use_grp_submit_jobs_lever b facts = false ∧ account = id
  | Slurm (SetAccountGrpSubmitJobs account limit) =>
      use_grp_submit_jobs_lever b facts = true ∧ account = id ∧ limit = job_limit st
  | Slurm (SetAccountQos account qos moved_to) =>
      use_grp_submit_jobs_lever b facts = false ∧ account = id ∧ wanted_qos st = Some qos ∧
      ∃ current H', H = Ev (Slurm (GetCurrentAccountDefaultQos id)) (Ok current) :: H' ∧
        default_follows qos current moved_to
  | _ => False
  end.

(** What a change of status leaves: the job limit set, or nothing done without a QoS for
    it, or the QoS wanted, found or just written, remembered for the metadata; a failure is
    that of the last command. *)
Definition status_outcome (st : status) (id : string) (s : hpc_state) (answer : res bool)
    (s' : hpc_state) (H : trace hpcE) : Prop :=
  match answer with
  | Err e => s' = s ∧ ∃ X (c : hpcE X) H', H = Ev c (Err e) :: H'
  | Ok changed =>
      if use_grp_submit_jobs_lever b facts then
        s' = s ∧ changed = true ∧ H = [Ev (Slurm (SetAccountGrpSubmitJobs id (job_limit st))) (Ok ())]
      else match wanted_qos st with
           | None => changed = false ∧ s' = s ∧ H = []
           | Some qos => hs_last_qos s' = Some qos ∧
               (H = [Ev (Slurm (GetCurrentAccountQos id)) (Ok qos)] ∨
                changed = true ∧ ∃ moved_to H', H = Ev (Slurm (SetAccountQos id qos moved_to)) (Ok ()) :: H')
           end
  end.

Lemma swap_spec st id qos s H :
  use_grp_submit_jobs_lever b facts = false → wanted_qos st = Some qos →
  wpM (status_guard st id) (swap_account_qos id qos) (λ answer s' H', s' = s ∧
    match answer with
    | Ok _ => ∃ moved_to H1, H' = Ev (Slurm (SetAccountQos id qos moved_to)) (Ok ()) :: H1
    | Err e => ∃ X (c : hpcE X) H1, H' = Ev c (Err e) :: H1
    end) s H.
Proof.
  intros Hl Hq. unfold swap_account_qos. wp_step. apply wpM_slurm; [done|].
  intros [current|e]; cbv beta iota; [|eauto 10].
  assert (Hset : ∀ moved_to, default_follows qos current moved_to →
    wpM (status_guard st id) (slurm (SetAccountQos id qos moved_to)) (λ answer s' H', s' = s ∧
      match answer with
      | Ok _ => ∃ moved_to H1, H' = Ev (Slurm (SetAccountQos id qos moved_to)) (Ok ()) :: H1
      | Err e => ∃ X (c : hpcE X) H1, H' = Ev c (Err e) :: H1
      end) s (Ev (Slurm (GetCurrentAccountDefaultQos id)) (Ok current) :: H)).
  { intros moved_to Hd. apply wpM_slurm; [split_and!; eauto|]. intros [[]|e]; eauto 10. }
  destruct (qos_items qos) as [|first items] eqn:Hi; [apply Hset; right; by right|].
  destruct (nonempty current) eqn:Hn; simpl.
  - apply nonempty_spec in Hn. case_bool_decide as Hin; simpl; apply Hset; unfold default_follows; rewrite Hi.
    + right. by left.
    + split_and!; done.
  - apply Hset. left. unfold nonempty in Hn. by apply negb_false_iff, String.eqb_eq in Hn.
Qed.

Lemma lower_spec st key id s : (∀ q, wanted_qos st = q →
    q = if truthy (setting b key) then Some (text (setting b key)) else None) → job_limit st = 0 →
  wpM (status_guard st id) (lower_resource b facts text key id)
    (λ answer s' H, status_outcome st id s answer s' H) s [].
Proof.
  intros Hk Hj. specialize (Hk _ eq_refl). unfold lower_resource, status_outcome.
  destruct (use_grp_submit_jobs_lever b facts) eqn:Hl.
  { wp_step. apply wpM_slurm; [done|]. rewrite Hj. intros [[]|e]; wp_steps; eauto 10. }
  rewrite Hk. destruct (truthy (setting b key)); simpl negb; cbv iota; [|by wp_step]. cbv zeta.
  wp_step. apply wpM_slurm; [done|]. intros [current|e]; cbv beta iota; [|eauto 10].
  wp_step. destruct (String.eqb_spec current (text (setting b key))) as [->|Hne].
  - wp_step. wp_step. unfold remember_qos. wp_steps. simpl. auto.
  - eapply wpM_mono; [by apply (swap_spec st)|]. intros [[]|e] s1 H1 [-> Hs]; cbv beta iota; [|eauto].
    wp_step. unfold remember_qos. wp_steps. simpl. split; [done|]. right. done.
Qed.

Lemma restore_spec id s :
  wpM (status_guard Active id) (restore_resource b facts text id)
    (λ answer s' H, status_outcome Active id s answer s' H) s [].
Proof.
  unfold restore_resource, status_outcome.
  destruct (use_grp_submit_jobs_lever b facts) eqn:Hl.
  { wp_step. apply wpM_slurm; [done|]. intros [[]|e]; wp_steps; eauto 10. }
  wp_step. apply wpM_slurm; [done|]. intros [current|e]; cbv beta iota; [|eauto 10]. simpl.
  destruct (nonempty current && String.eqb current (qos_default b text)) eqn:Hc.
  - apply andb_prop in Hc as [_ Hc%String.eqb_eq]. subst current.
    wp_step. unfold remember_qos. wp_steps. simpl. auto.
  - wp_step. eapply wpM_mono; [by apply (swap_spec Active)|].
    intros [[]|e] s1 H1 [-> Hs]; cbv beta iota; [|eauto].
    wp_step. unfold remember_qos. wp_steps. simpl. split; [done|]. right. done.
Qed.

Lemma status_spec st id s :
  wpM (status_guard st id) (apply_status st id)
    (λ answer s' H, status_outcome st id s answer s' H) s [].
Proof.
  destruct st; [apply lower_spec; [by intros ? <-|done]..|apply restore_spec].
Qed.
End Status.

(** Pausing, downscaling and restoring an account never touch its QoS list where QoS
    is enforced or swaps are off, where the limit on submitted jobs is set instead;
    elsewhere they write the QoS the settings want unless it is there already, moving the
    account's default QoS along in the same command when the new list leaves it out.
    What they remember for the metadata is what the account was left with. *)
Theorem status_applied b facts text st id s τ s' answer τ1 τ2 {X} (c : hpcE X) a :
  runs (apply_status b facts text st id s) τ (s', answer) →
  status_outcome b facts text st id s answer s' (rev τ) ∧
  (τ = τ1 ++ Ev c a :: τ2 → status_guard b facts text st id X (rev τ1) c).
Proof.
  intros Hrun. pose proof (status_spec b facts text st id s) as Hspec.
  split; [exact (proj1 (wpM_sound _ _ _ _ _ _ _ Hspec Hrun))|].
  intros Hτ. exact (wpM_call_guard _ _ _ _ _ _ _ _ _ _ _ Hspec Hrun Hτ).
Qed.

(** ** Periodic settings *)

Section Periodic.
Context (text : json → string) (id : string) (settings : list (string * json)) (config : json).

Definition asked (key : string) : json := from_option Datatypes.id JNull (obj_get settings key).
Definition asked_limits : json := json_or (asked "grp_tres_mins") (asked "max_tres_mins").
Definition limits_asked : bool := truthy (asked "grp_tres_mins") || truthy (asked "max_tres_mins").

Definition type_asked : res json :=
  match get_of config "limit_type" (JStr "GrpTRESMins") with
  | Ok configured => Ok (from_option Datatypes.id configured (obj_get settings "limit_type"))
  | Err e => Err e
  end.

(** The account has the fairshare already, as it was read. *)
Definition fairshare_held (read : res Z) : Prop :=
  ∃ z, read = Ok z ∧ int_of_json (asked "fairshare") = Ok z.

(** The limits to write: those that differ from what was read, all when nothing was. *)
Definition limits_to_write (limit_type : json) (target : list (string * json))
    (read : res (list (string * list (string * string)))) (changed : list (string * json)) : Prop :=
  match read with
  | Err _ => changed = target
  | Ok all => ∃ current, limits_of_type all limit_type = Ok current ∧
                changed = List.filter (differs text current) target
  end.

(** Only this account is read and changed, only in what was asked, and only right after a
    read that does not show it to be so already. *)
Definition periodic_guard : guard hpcE := λ X H c,
  match c with
  | Slurm ClearExecutedCommands | Slurm ExecutedCommands => True
  | Slurm (GetAccountFairshare account) | Slurm (GetAccountLimits account) => account = id
  | Slurm (SetAccountFairshare account v) => account = id ∧ v = asked "fairshare" ∧ truthy v = true ∧
      ∃ read H', H = Ev (Slurm (GetAccountFairshare id)) read :: H' ∧ ¬ fairshare_held read
  | Slurm (SetAccountLimits account limit_type changed) => account = id ∧ changed ≠ [] ∧
      type_asked = Ok limit_type ∧ ∃ target read H', asked_limits = JObj target ∧
        H = Ev (Slurm (GetAccountLimits id)) read :: H' ∧
        limits_to_write limit_type target read changed
  | Slurm (ResetRawUsage account) => account = id ∧ truthy (asked "reset_raw_usage") = true
  | _ => False
  end.

(** Everything that was asked is so: it was read to be, or written. *)
Definition settled (H : trace hpcE) : Prop :=
  (truthy (asked "fairshare") = true →
     (∃ read, Ev (Slurm (GetAccountFairshare id)) read ∈ H ∧ fairshare_held read) ∨
     (∃ r, Ev (Slurm (SetAccountFairshare id (asked "fairshare"))) (Ok r) ∈ H)) ∧
  (limits_asked = true → ∃ limit_type target read changed,
     type_asked = Ok limit_type ∧ asked_limits = JObj target ∧
     Ev (Slurm (GetAccountLimits id)) read ∈ H ∧ limits_to_write limit_type target read changed ∧
     (changed = [] ∨ ∃ r, Ev (Slurm (SetAccountLimits id limit_type changed)) (Ok r) ∈ H)) ∧
  (truthy (asked "reset_raw_usage") = true → ∃ r, Ev (Slurm (ResetRawUsage id)) (Ok r) ∈ H).

(** What comes back: a result that claims success only of what is settled and carries the
    error otherwise; only the log of commands can raise. *)
Definition periodic_outcome (answer : res json) (H : trace hpcE) : Prop :=
  match answer with
  | Ok result => ∃ d, result = JObj d ∧
      ((obj_get d "success" = Some (JBool true) ∧ settled H) ∨
       (obj_get d "success" = Some (JBool false) ∧ ∃ msg, obj_get d "error" = Some (JStr msg)))
  | Err e => (∃ H', H = Ev (Slurm ClearExecutedCommands) (Err e) :: H') ∨
             (∃ H', H = Ev (Slurm ExecutedCommands) (Err e) :: H')
  end.

Local Abbreviation G := periodic_guard.
Implicit Types (s : hpc_state) (H : trace hpcE).

Lemma fairshare_current_spec s H :
  wpM G (fairshare_is_current id (asked "fairshare")) (λ answer s' H', s' = s ∧
    ∃ read, H' = Ev (Slurm (GetAccountFairshare id)) read :: H ∧
      match answer with
      | Ok true => fairshare_held read
      | Ok false => ¬ fairshare_held read
      | Err _ => True
      end) s H.
Proof.
  unfold fairshare_is_current. wp_steps. apply wpM_slurm; [done|].
  intros [current|e]; cbv beta iota.
  - destruct (int_of_json (asked "fairshare")) as [z|e] eqn:Hz.
    + wp_step. split; [done|]. eexists. split; [done|]. destruct (Z.eqb_spec current z) as [->|Hne].
      * by eexists.
      * intros (z' & [= ->] & Hz'). rewrite Hz in Hz'. congruence.
    + destruct e; wp_steps; (split; [done|]); eexists; (split; [done|]); try done;
        intros (z' & _ & Hz'); congruence.
  - wp_step. split; [done|]. eexists. split; [done|]. by intros (z & [=] & _).
Qed.

Definition fairshare_settled (H : trace hpcE) : Prop :=
  truthy (asked "fairshare") = true →
    (∃ read, Ev (Slurm (GetAccountFairshare id)) read ∈ H ∧ fairshare_held read) ∨
    (∃ r, Ev (Slurm (SetAccountFairshare id (asked "fairshare"))) (Ok r) ∈ H).

Lemma apply_fairshare_spec s H :
  wpM G (apply_fairshare id (asked "fairshare")) (λ answer s' H', s' = s ∧ ∃ L, H' = L ++ H ∧
    ∀ u, answer = Ok u → fairshare_settled H') s H.
Proof.
  unfold apply_fairshare, fairshare_settled.
  destruct (truthy (asked "fairshare")) eqn:Ht; simpl negb; cbv iota.
  2:{ wp_step. split; [done|]. exists []. split; [done|]. done. }
  wp_step. eapply wpM_mono; [apply fairshare_current_spec|].
  intros [[]|e] s1 H1 (-> & read & -> & Hread); cbv beta iota.
  - wp_step. split; [done|]. exists [Ev (Slurm (GetAccountFairshare id)) read]. split; [done|].
    intros u _ _. left. exists read. split; [left|done].
  - wp_step. apply wpM_slurm; [split_and!; eauto|]. intros [r|e]; cbv beta iota; wp_steps;
      (split; [done|]); eexists [_; _]; (split; [done|]); [|done].
    intros u _ _. right. exists r. left.
  - split; [done|]. exists [Ev (Slurm (GetAccountFairshare id)) read]. split; done.
Qed.

Definition limits_settled (H : trace hpcE) : Prop := ∃ limit_type target read changed,
  type_asked = Ok limit_type ∧ asked_limits = JObj target ∧
  Ev (Slurm (GetAccountLimits id)) read ∈ H ∧ limits_to_write limit_type target read changed ∧
  (changed = [] ∨ ∃ r, Ev (Slurm (SetAccountLimits id limit_type changed)) (Ok r) ∈ H).

Lemma changed_spec limit_type target s H :
  wpM G (changed_tres_limits text id limit_type target) (λ answer s' H', s' = s ∧
    ∃ read, H' = Ev (Slurm (GetAccountLimits id)) read :: H ∧
      ∀ changed, answer = Ok changed → limits_to_write limit_type target read changed) s H.
Proof.
  unfold changed_tres_limits. wp_steps. apply wpM_slurm; [done|].
  intros [all|e]; cbv beta iota; wp_steps.
  - destruct (limits_of_type all limit_type) as [current|e] eqn:Hc; wp_steps; (split; [done|]);
      eexists; (split; [done|]); [|done].
    intros changed [= <-]. simpl. eauto.
  - split; [done|]. eexists. split; [done|]. by intros changed [= <-].
Qed.

Lemma apply_limits_spec limit_type s H : type_asked = Ok limit_type →
  wpM G (apply_limits text id limit_type asked_limits) (λ answer s' H', s' = s ∧ ∃ L, H' = L ++ H ∧
    ∀ u, answer = Ok u → limits_settled H') s H.
Proof.
  intros Ht. unfold apply_limits, limits_settled.
  destruct asked_limits as [| | | | | |target] eqn:Ha;
    try (wp_step; split; [done|]; by exists []).
  wp_step. eapply wpM_mono; [apply changed_spec|].
  intros [changed|e] s1 H1 (-> & read & -> & Hw); cbv beta iota.
  - specialize (Hw changed eq_refl). destruct changed as [|c changed].
    + wp_step. split; [done|]. exists [Ev (Slurm (GetAccountLimits id)) read]. split; [done|].
      intros u _. exists limit_type, target, read, []. split_and!; [done|done|left|done|by left].
    + wp_step. apply wpM_slurm.
      { split_and!; [done|done|done|]. rewrite Ha. eauto 10. }
      intros [r|e]; cbv beta iota; wp_steps; (split; [done|]); eexists [_; _]; (split; [done|]); [|done].
      intros u _. exists limit_type, target, read, (c :: changed).
      split_and!; [done|done|right; left|done|right; exists r; left].
  - split; [done|]. exists [Ev (Slurm (GetAccountLimits id)) read]. split; done.
Qed.

Lemma settled_later L H : settled H → settled (L ++ H).
Proof.
  intros (Hf & Hl & Hr). split_and!.
  - intros Ht. destruct (Hf Ht) as [(read & ? & ?)|(r & ?)]; [left; exists read|right; exists r];
      rewrite ?elem_of_app; auto.
  - intros Ht. destruct (Hl Ht) as (lt & target & read & changed & ? & ? & ? & ? & Hc).
    exists lt, target, read, changed. rewrite elem_of_app. split_and!; auto.
    destruct Hc as [?|[r ?]]; [by left|right; exists r; rewrite elem_of_app; auto].
  - intros Ht. destruct (Hr Ht) as (r & ?). exists r. rewrite elem_of_app. auto.
Qed.

(** Everything between the two calls about the log of commands. *)
Definition apply_all : hpc unit :=
  (apply_fairshare id (asked "fairshare") ;!
   (if limits_asked then
      let! configured := of_res (get_of config "limit_type" (JStr "GrpTRESMins")) in
      apply_limits text id (from_option Datatypes.id configured (obj_get settings "limit_type")) asked_limits
    else ret ()) ;!
   (if truthy (asked "reset_raw_usage") then slurm (ResetRawUsage id) ;! ret () else ret ()))%prog.

Lemma limits_step_spec s H :
  wpM G (if limits_asked then
      let! configured := of_res (get_of config "limit_type" (JStr "GrpTRESMins")) in
      apply_limits text id (from_option Datatypes.id configured (obj_get settings "limit_type")) asked_limits
    else ret ())%prog
    (λ answer s' H', s' = s ∧ ∃ L, H' = L ++ H ∧
       ∀ u, answer = Ok u → limits_asked = true → limits_settled H') s H.
Proof.
  destruct limits_asked; [|wp_step; split; [done|]; by exists []].
  wp_steps. destruct (get_of config "limit_type" _) as [configured|e] eqn:Hc;
    [|split; [done|]; by exists []].
  eapply wpM_mono; [apply apply_limits_spec; unfold type_asked; by rewrite Hc|].
  intros answer s1 H1 (-> & L & -> & Ha). split; [done|]. exists L. split; [done|]. intros u Hu _. by apply (Ha u).
Qed.

Lemma apply_all_spec s H :
  wpM G apply_all (λ answer s' H', s' = s ∧ ∀ u, answer = Ok u → settled H') s H.
Proof.
  unfold apply_all. wp_step. eapply wpM_mono; [apply apply_fairshare_spec|].
  intros [u|e] s1 H1 (-> & L1 & -> & Hf); cbv beta iota; [|done]. specialize (Hf u eq_refl).
  wp_step. eapply wpM_mono; [apply limits_step_spec|].
  intros [u'|e] s2 H2 (-> & L2 & -> & Hl); cbv beta iota; [|done]. specialize (Hl u' eq_refl).
  assert (Hdone : ∀ L3, (truthy (asked "reset_raw_usage") = true →
      ∃ r, Ev (Slurm (ResetRawUsage id)) (Ok r) ∈ L3) → settled (L3 ++ L2 ++ L1 ++ H)).
  { intros L3 Hr. split_and!.
    - intros Ht. destruct (Hf Ht) as [(read & ? & ?)|(r & ?)]; [left; exists read|right; exists r];
        rewrite !elem_of_app in *; tauto.
    - intros Ht. destruct (Hl Ht) as (lt & target & read & changed & ? & ? & ? & ? & Hc).
      exists lt, target, read, changed. rewrite !elem_of_app in *. split_and!; try tauto.
      destruct Hc as [?|[r ?]]; [by left|right; exists r; rewrite !elem_of_app in *; tauto].
    - intros Ht. destruct (Hr Ht) as (r & ?). exists r. rewrite !elem_of_app. auto. }
  destruct (truthy (asked "reset_raw_usage")) eqn:Hr.
  - wp_step. apply wpM_slurm; [done|]. intros [r|e]; cbv beta iota; wp_steps; (split; [done|]); [|done].
    intros _ _. apply (Hdone [Ev (Slurm (ResetRawUsage id)) (Ok r)]). intros _. exists r. left.
  - wp_step. split; [done|]. intros _ _. by apply (Hdone []).
Qed.

Lemma production_spec s :
  wpM G (apply_settings_production text id settings config)
    (λ answer _ H, periodic_outcome answer H) s [].
Proof.
  unfold apply_settings_production. cbv zeta. wp_step. apply wpM_slurm; [done|].
  intros [[]|e]; cbv beta iota; [|left; eauto]. wp_step. wp_step.
  eapply wpM_mono; [apply apply_all_spec|]. intros answer s1 H1 (-> & Hs). cbv beta iota.
  wp_step. apply wpM_slurm; [done|]. intros [executed|e]; cbv beta iota; [|right; eauto]. cbv zeta.
  destruct answer as [u|e]; wp_step; eexists; (split; [done|]).
  - left. split; [done|]. apply (settled_later [_]). by apply (Hs u).
  - right. split; [done|]. eauto.
Qed.
End Periodic.

(** C15: Periodic settings never fail an account: the result is an object that claims
    success only when everything asked for holds, each setting read to be so or written,
    and carries the error otherwise.  A setting is written only right after a read that
    does not show it already, with the limits that differ and no others; a read that fails
    never keeps a setting from being written. *)
Theorem periodic_settings_settled text id settings config s τ s' answer τ1 τ2 {X} (c : hpcE X) a :
  runs (apply_settings_production text id settings config s) τ (s', answer) →
  periodic_outcome text id settings config answer (rev τ) ∧
  (τ = τ1 ++ Ev c a :: τ2 → periodic_guard text id settings config X (rev τ1) c).
Proof.
  intros Hrun. pose proof (production_spec text id settings config s) as Hspec.
  split; [exact (proj1 (wpM_sound _ _ _ _ _ _ _ Hspec Hrun))|].
  intros Hτ. exact (wpM_call_guard _ _ _ _ _ _ _ _ _ _ _ Hspec Hrun Hτ).
Qed.

(** ** Creating an allocation *)

Section Creation.
Context (b : slurm_backend) (facts : offering_facts).
Context (text : json → string) (parse_fields : json → res HomedirQuotaConfig).
Context (id : string).
Implicit Types (s : hpc_state) (H : trace hpcE).

(** SLURM accepted an account of this name. *)
Definition account_created (H : trace hpcE) : Prop := ∃ description organization parent r,
  Ev (Slurm (SlCreateResource id description organization parent)) (Ok r) ∈ H.

Definition qos_is_new (H : trace hpcE) : Prop :=
  ∃ params, Ev (Slurm (CreateQos id params)) (Ok ()) ∈ H.

Definition qos_attached (H : trace hpcE) : Prop :=
  Ev (Slurm (AddAccountQos id id)) (Ok ()) ∈ H ∧ Ev (Slurm (SetAccountDefaultQos id id)) (Ok ()) ∈ H.

(** Everything named after the allocation waits for its account, the consumed budget of a
    QoS is only reset if the QoS is new, and nothing else is touched. *)
Definition allocation_guard : guard hpcE := λ X H c,
  match c with
  | Slurm (SlGetResource _) | Slurm (SlCreateResource _ _ _ _) => True
  | Slurm (QosExists name) | Slurm (CreateQos name _) | Slurm (AddAccountQos name _)
  | Slurm (SetAccountDefaultQos name _) | Slurm (SetQosGrpTresMins name _)
  | Slurm (SlSetResourceLimits name _) | Ldap (CreateProjectGroup name _) =>
      name = id ∧ account_created H
  | Slurm (ResetQosRawUsage name) => name = id ∧ account_created H ∧ qos_is_new H
  | Slurm ListTres | Slurm (ExecuteCommand _) | Slurm (CreateLinuxUserHomedir _ _)
  | Ldap (GetGroupGid _) | Host _ => account_created H
  | _ => False
  end.

(** The calls before the account is there, and those after that reset nothing. *)
Definition early (X : Type) (c : hpcE X) : bool :=
  match c with Slurm (SlGetResource _) | Slurm (SlCreateResource _ _ _ _) => true | _ => false end.

Definition late (X : Type) (c : hpcE X) : bool :=
  match c with
  | Slurm (QosExists name) | Slurm (CreateQos name _) | Slurm (AddAccountQos name _)
  | Slurm (SetAccountDefaultQos name _) | Slurm (SetQosGrpTresMins name _)
  | Slurm (SlSetResourceLimits name _) | Ldap (CreateProjectGroup name _) => String.eqb name id
  | Slurm ListTres | Slurm (ExecuteCommand _) | Slurm (CreateLinuxUserHomedir _ _)
  | Ldap (GetGroupGid _) | Host _ => true
  | _ => false
  end.

Lemma account_created_cons ev H : account_created H → account_created (ev :: H).
Proof. intros (d & o & p & r & ?). exists d, o, p, r. by right. Qed.

Lemma created_app L H : account_created H → account_created (L ++ H).
Proof. intros (d & o & p & r & ?). exists d, o, p, r. apply elem_of_app. by right. Qed.

Lemma late_guard X H (c : hpcE X) : account_created H → late X c = true → allocation_guard X H c.
Proof.
  intros Hc. destruct c as [X c|X c|X c| | |]; simpl; try done; destruct c; simpl; try done;
    intros He%String.eqb_eq; by subst.
Qed.

Lemma early_spec {A} (m : hpc A) (Q : res A → hpc_state → trace hpcE → Prop) s H :
  calls early m → (∀ r s' L, Q r s' (L ++ H)) → wpM allocation_guard m Q s H.
Proof.
  intros Hm HQ. eapply (calls_wpM early); [done| |auto].
  intros X H' c. destruct c as [X c|X c|X c| | |]; try done. by destruct c.
Qed.

Lemma late_spec {A} (m : hpc A) (Q : res A → hpc_state → trace hpcE → Prop) s H :
  calls late m → account_created H → (∀ r s' L, account_created (L ++ H) → Q r s' (L ++ H)) →
  wpM allocation_guard m Q s H.
Proof.
  intros Hm Hc HQ. apply (calls_wpM_inv late _ account_created); [done|done| | |].
  - intros X H' c. apply late_guard.
  - intros X c a H' Hc' _. by apply account_created_cons.
  - intros r s' L _ Hc'. by apply HQ.
Qed.

Ltac late_call :=
  lazymatch goal with
  | |- calls _ (slurm _) => unfold slurm; apply calls_call; simpl; first [reflexivity | apply String.eqb_refl]
  | |- calls _ (ldap _) => unfold ldap; apply calls_call; simpl; first [reflexivity | apply String.eqb_refl]
  | |- calls _ (call _) => apply calls_call; reflexivity
  | |- calls _ (contained _) => unfold contained
  | |- calls _ (execute _) => unfold execute
  | _ => calls_step
  end.
Ltac late_calls := repeat (cbv beta; late_call).

Lemma early_pre_create r : calls early (pre_create_resource b text r).
Proof. unfold pre_create_resource, create_account. late_calls. Qed.

Lemma late_create_qos : calls late (create_account_qos b id).
Proof. unfold create_account_qos. late_calls. Qed.

Lemma late_attach : calls late (attach_account_qos b text id).
Proof. unfold attach_account_qos. late_calls. Qed.

Lemma late_directory config : calls late (setup_project_directory b text config id).
Proof. unfold setup_project_directory, setup_lustre, set_lustre_quota. late_calls. Qed.

Lemma late_collect r : calls late (collect_resource_limits b r).
Proof. unfold collect_resource_limits, list_components. late_calls. Qed.

Lemma late_homedirs usernames umask : calls late (create_user_homedirs b text parse_fields usernames umask).
Proof.
  intros s. apply pcalls_bind; [|by intros [s' [u r]]].
  apply (pcalls_interp (λ _ _, true)); [|generalize (Homedirs.create_user_homedirs parse_fields
    {| homedir_base_path := match setting b "homedir_base_path" with
                            | JNull => None | v => Some (text v) end;
       homedir_quota := setting b "homedir_quota" |} usernames umask ()); intros p; by induction p].
  intros X c _. destruct c; simpl; late_calls.
Qed.

Local Abbreviation G := allocation_guard.

(** Once the account is there: what is left of the allocation, and whether its QoS is new. *)
Lemma on_created_spec s H : flags_consistent (sb_settings b) (sb_qos_config b) →
  account_created H →
  wpM G (on_backend_resource_created b text id) (λ answer s' H', account_created H' ∧
    ∀ u, answer = Ok u → qos_apply_limits b = true → hs_qos_created s' = true → qos_is_new H') s H.
Proof.
  intros Hf Hc. unfold on_backend_resource_created. wp_step.
  apply late_spec; [late_calls|done|]. intros [u|e] s1 L1 Hc1; cbv beta iota; [|done].
  wp_steps. destruct (get_of _ "enabled" JNull) as [enabled|e]; [|done].
  wp_step. apply late_spec; [late_calls; apply late_directory|done|].
  intros [u1|e] s2 L2 Hc2; cbv beta iota; [|done].
  destruct (qos_managed b) eqn:Hq; simpl negb; cbv iota.
  2:{ wp_step. split; [done|]. intros _ _ Ha _. destruct Hf as [Hf _].
      unfold qos_managed, qos_apply_limits in *. destruct (Hf Ha). congruence. }
  destruct (qos_skip_swap b) eqn:Hsk.
  2:{ apply late_spec; [unfold setup_account_qos; repeat (cbv beta; first [apply late_create_qos | apply late_attach | late_call])|done|].
      intros r s3 L3 Hc3. split; [done|]. intros _ _ Ha _. destruct Hf as [Hf _].
      unfold qos_skip_swap, qos_apply_limits in *. destruct (Hf Ha). congruence. }
  unfold create_account_qos. wp_steps. apply wpM_slurm; [by split|].
  intros [[]|e]; cbv beta iota; [| |split; [by apply account_created_cons|done]].
  - wp_steps. unfold set_qos_created. wp_step. split; [by apply account_created_cons|done].
  - wp_step. apply wpM_slurm; [split; [done|]; by apply account_created_cons|].
    intros [[]|e]; cbv beta iota; [|split; [by do 2 apply account_created_cons|done]].
    wp_steps. unfold set_qos_created. wp_step. split; [by do 2 apply account_created_cons|].
    intros _ _ _ _. eexists. left.
Qed.

Lemma collect_keeps r s H : account_created H →
  wpM G (collect_resource_limits b r) (λ _ s' H', s' = s ∧ account_created H' ∧ ∃ L, H' = L ++ H) s H.
Proof.
  intros Hc. unfold collect_resource_limits, list_components. wp_steps.
  destruct (allocation_limits b r) as [limits|e]; [|split_and!; [done|done|by exists []]].
  wp_steps. apply wpM_slurm; [done|]. intros known. wp_steps.
  split_and!; [done|by apply account_created_cons|by eexists [_]].
Qed.

Lemma qos_limits_spec r s H : account_created H → (hs_qos_created s = true → qos_is_new H) →
  qos_apply_limits b = true →
  wpM G (setup_qos_limits b text id r) (λ _ _ H', account_created H') s H.
Proof.
  intros Hc Hn Ha. unfold setup_qos_limits. wp_step. eapply wpM_mono; [by apply collect_keeps|].
  intros [limits|e] s1 H1 (-> & Hc1 & L & ->); cbv beta iota; [|done].
  destruct (map_truthy limits.1); simpl negb; cbv iota; [|wp_step; unfold set_qos_created; wp_steps; done].
  destruct (log_limits_error _ _); [by wp_step|]. wp_steps. unfold set_qos_created. wp_steps.
  unfold write_allocation_limits. rewrite Ha. wp_step. apply wpM_slurm; [done|].
  assert (Hc2 : ∀ r, account_created (Ev (Slurm (SetQosGrpTresMins id limits.1)) r :: L ++ H))
    by (intros ?; by apply account_created_cons).
  intros [[]|e]; cbv beta iota; [|by apply Hc2].
  destruct (hs_qos_created s) eqn:Hq; [|wp_steps; apply Hc2].
  apply wpM_slurm.
  - split_and!; [done|apply Hc2|]. destruct (Hn eq_refl) as (params & Hin). exists params.
    right. apply elem_of_app. by right.
  - intros [[]|e]; cbv beta iota; wp_steps; apply account_created_cons, Hc2.
Qed.

(** The calls of the inherited method, over the client. *)
Definition own_limits_only (X : Type) (c : clientE X) : bool :=
  match c with
  | CollectResourceLimits _ => true
  | ClientSetResourceLimits name _ => String.eqb name id
  | _ => false
  end.

Lemma late_inherited {A} (m : backend_m A) :
  calls own_limits_only m → calls late (inherited b facts text parse_fields m).
Proof.
  intros Hm s. apply pcalls_bind; [|by intros [s' [pull r]]].
  apply (pcalls_interp own_limits_only); [|apply Hm].
  intros X c. destruct c; simpl; try done; intros Hc; [|apply late_collect].
  apply calls_bind; [|intros ?; apply calls_ret]. by apply calls_call.
Qed.

Lemma setup_limits_late r s H : account_created H →
  (qos_apply_limits b = true → hs_qos_created s = true → qos_is_new H) →
  wpM G (setup_resource_limits b facts text parse_fields id r) (λ _ _ H', account_created H') s H.
Proof.
  intros Hc Hn. unfold setup_resource_limits. destruct (qos_apply_limits b) eqn:Ha.
  - by apply qos_limits_spec; [|apply Hn|].
  - wp_step. unfold set_qos_created. wp_step. apply late_spec; [|done|done].
    apply late_inherited. unfold BaseBackend.setup_resource_limits. calls_auto;
      apply calls_call; simpl; apply String.eqb_refl.
Qed.

Lemma attach_spec s H : account_created H →
  wpM G (attach_account_qos b text id) (λ answer _ H', account_created H' ∧
    ∀ u, answer = Ok u → qos_attached H') s H.
Proof.
  intros Hc. unfold attach_account_qos. wp_step. apply wpM_slurm; [by split|].
  intros [[]|e]; cbv beta iota; [|split; [by apply account_created_cons|done]].
  wp_step. apply wpM_slurm; [split; [done|]; by apply account_created_cons|].
  intros [[]|e]; cbv beta iota; [|split; [by do 2 apply account_created_cons|done]].
  apply late_spec; [late_calls|by do 2 apply account_created_cons|].
  intros r s' L Hc'. split; [done|]. intros _ _. split; apply elem_of_app; right; [right|]; left.
Qed.

Lemma attached_app L H : qos_attached H → qos_attached (L ++ H).
Proof. intros [? ?]. split; apply elem_of_app; by right. Qed.

Lemma post_create_spec info ctx s H : account_created H → info_backend_id info = id →
  wpM G (post_create_resource b text parse_fields info ctx) (λ answer _ H', account_created H' ∧
    ∀ u, answer = Ok u → qos_managed b = true → qos_skip_swap b = true → qos_attached H') s H.
Proof.
  intros Hc Hi. unfold post_create_resource. wp_step.
  eapply (wpM_mono _ _ (λ answer _ H', account_created H' ∧
    ∀ u, answer = Ok u → qos_managed b = true → qos_skip_swap b = true → qos_attached H')).
  - destruct (qos_managed b && qos_skip_swap b) eqn:Hq; [|wp_step; split; [done|]; intros _ _ H1 H2; by rewrite H1, H2 in Hq].
    rewrite Hi. eapply wpM_mono; [by apply attach_spec|]. naive_solver.
  - intros [u|e] s1 H1 [Hc1 Ha]; cbv beta iota; [|done]. specialize (Ha u eq_refl).
    destruct ctx as [ctx|]; [|by wp_step]. destruct (homedirs_enabled b); simpl negb; cbv iota; [|by wp_step].
    cbv zeta. case_bool_decide; [by wp_step|]. apply late_spec; [apply late_homedirs|done|].
    intros r s2 L Hc2. split; [done|]. intros _ _ ??. by apply attached_app, Ha.
Qed.

Lemma creation_spec r ctx s : flags_consistent (sb_settings b) (sb_qos_config b) →
  wpM G (create_resource_with_id b facts text parse_fields r id ctx) (λ answer _ H,
    ∀ info, answer = Ok info → info_backend_id info = id ∧ account_created H ∧
      (qos_managed b = true → qos_skip_swap b = true → qos_attached H)) s [].
Proof.
  intros Hf. unfold create_resource_with_id, create_resource_with. wp_step. simpl hooks.
  apply early_spec; [apply early_pre_create|]. intros [u|e] s1 L1; cbv beta iota; [|done]. cbv zeta.
  unfold create_backend_resource_with. wp_steps. simpl hooks. apply wpM_slurm; [done|].
  intros [[found|]|e]; cbv beta iota; [by wp_steps; simpl; wp_steps| |done]. wp_steps. simpl hooks.
  wp_steps. apply wpM_slurm; [done|]. intros [created|e]; cbv beta iota; [|done].
  wp_steps. simpl negb; cbv iota. wp_steps. simpl hooks.
  match goal with |- wpM _ _ _ _ ?K => assert (Hc : account_created K) by (do 4 eexists; left) end.
  eapply wpM_mono; [by apply on_created_spec|]. intros [u2|e] s2 H2 [Hc2 Hn]; cbv beta iota; [|done].
  wp_step. eapply wpM_mono; [apply setup_limits_late; [done|by apply (Hn u2)]|].
  intros [limits|e] s3 H3 Hc3; cbv beta iota; [|done]. simpl hooks. wp_step.
  eapply wpM_mono; [by apply (post_create_spec (created_info id limits))|].
  intros [u4|e] s4 H4 [Hc4 Ha]; cbv beta iota; [|done]. wp_step.
  intros info [= <-]. split_and!; [done|done|by apply (Ha u4)].
Qed.
End Creation.

(** C13: Creating an allocation names nothing after it before SLURM has accepted the
    account: not its LDAP group, directory, QoS or limits, which then are this account's
    only.  The consumed budget of a QoS is reset only when this creation made the QoS,
    never that of one found there.  A creation that answers has created the account and,
    where QoS swaps are off, attached its QoS. *)
Theorem allocation_created_in_order b facts text parse_fields r id ctx s τ s' answer τ1 τ2
    {X} (c : hpcE X) a :
  well_formed b →
  runs (create_resource_with_id b facts text parse_fields r id ctx s) τ (s', answer) →
  (∀ info, answer = Ok info → info_backend_id info = id ∧ account_created id (rev τ) ∧
     (qos_managed b = true → qos_skip_swap b = true → qos_attached id (rev τ))) ∧
  (τ = τ1 ++ Ev c a :: τ2 → allocation_guard id X (rev τ1) c).
Proof.
  intros Hb Hrun. pose proof (creation_spec b facts text parse_fields id r ctx s (wf_flags b Hb)) as Hspec.
  split; [exact (proj1 (wpM_sound _ _ _ _ _ _ _ Hspec Hrun))|].
  intros Hτ. exact (wpM_call_guard _ _ _ _ _ _ _ _ _ _ _ Hspec Hrun Hτ).
Qed.

(** ** Adding a user *)

(** The calls are the same. *)
Definition is_call {X Y} (c : hpcE X) (d : hpcE Y) : Prop := existT X c = existT Y d.

Section AddUser.
Context (b : slurm_backend) (facts : offering_facts) (text : json → string).
Context (r : WaldurResource) (username : string).
Implicit Types (s : hpc_state) (H : trace hpcE).

Definition default_account : string := bb_default_account (base_config b text).
Definition legacy_group : string := get_resource_backend_id (base_config b text) (res_slug r).

(** The association with the default account, as the backend asks for it. *)
Definition default_request : slurmE string :=
  CreateAssociationWithPartition username default_account (text_setting b text "default_account_partition")
    (Some default_account).

(** The user has an association with the default account, or had one already. *)
Definition has_default (H : trace hpcE) : Prop :=
  (∃ o, Ev (Slurm default_request) (Ok o) ∈ H) ∨
  (∃ e, Ev (Slurm default_request) (Err e) ∈ H ∧ is_backend_error e = true ∧
     String.prefix SACCTMGR_NOEFFECT_ERROR (exn_str e) = true).

(** The one command that associates the user with the account of the resource. *)
Definition own_request : slurmE string :=
  let id := res_backend_id r in
  match (if qos_enforced b facts then selected text r "qos" else None) with
  | Some qos => CreateAssociationWithQos username id [qos] (Some qos) (qos_partitions b facts text r)
                  (policy_account b text id)
  | None => match enforced_partitions b facts, default_partition b text with
            | (_ :: _) as partitions, _ => CreateAssociationWithPartitions username id partitions None
            | [], partition :: _ => CreateAssociationWithPartition username id partition None
            | [], [] => CreateAssociation username id None
            end
  end.

Lemma own_association_request :
  create_own_association b facts text r username = (slurm own_request ;! ret ())%prog.
Proof.
  unfold create_own_association, own_request. destruct (if qos_enforced b facts then _ else _); [done|].
  destruct (enforced_partitions b facts), (default_partition b text); done.
Qed.

Definition associated (H : trace hpcE) : Prop :=
  (∃ a, Ev (Slurm (GetAssociation username (res_backend_id r))) (Ok (Some a)) ∈ H) ∨
  (∃ o, Ev (Slurm own_request) (Ok o) ∈ H).

(** The user is associated with this account only, once the default association is there,
    and joins this account's group only as its member; a group is renamed only where the
    one of the new name is missing and the old name is no account. *)
Definition add_user_guard : guard hpcE := λ X H c,
  let id := res_backend_id r in
  let absent := Ev (Slurm (GetAssociation username id)) (Ok None) ∈ H in
  is_call c (Slurm (GetAssociation username id)) ∨
  is_call c (Slurm (SlGetResource legacy_group)) ∨
  (is_call c (Slurm default_request) ∧ absent) ∨
  (is_call c (Slurm own_request) ∧ absent ∧ has_default H) ∨
  match c with
  | Ldap (GroupExists group) => group = id ∨ group = legacy_group
  | Ldap (RenameGroup old_name new_name) => old_name = legacy_group ∧ new_name = id ∧
      Ev (Ldap (GroupExists id)) (Ok false) ∈ H ∧ Ev (Slurm (SlGetResource old_name)) (Ok None) ∈ H
  | Ldap (AddUserToGroup group u membership_type) => group = id ∧ u = username ∧ membership_type = "memberUid"%string ∧ associated H
  | _ => False
  end.

(** Whoever was added is associated; whoever was not is nameless, or the default account
    refused the association; and a backend error is that of an association, never of the
    group. *)
Definition add_user_outcome (answer : res bool) (H : trace hpcE) : Prop :=
  match answer with
  | Ok true => associated H
  | Ok false => username = "" ∨ ∃ e, Ev (Slurm default_request) (Err e) ∈ H ∧ is_backend_error e = true
  | Err e => is_backend_error e = true →
      blank (res_backend_id r) = true ∨
      Ev (Slurm (GetAssociation username (res_backend_id r))) (Err e) ∈ H ∨
      ∃ e', Ev (Slurm own_request) (Err e') ∈ H
  end.

Local Abbreviation G := add_user_guard.

Lemma associated_app L H : associated H → associated (L ++ H).
Proof.
  intros [[a ?]|[o ?]]; [left; exists a|right; exists o]; apply elem_of_app; by right.
Qed.

Lemma heal_spec s H :
  wpM G (heal_legacy_project_group b text r) (λ answer s' H', s' = s ∧ (∃ L, H' = L ++ H) ∧
    ∀ e, answer = Err e → is_backend_error e = false) s H.
Proof.
  unfold heal_legacy_project_group. cbv zeta. fold legacy_group.
  destruct (negb (sb_has_ldap b) || _ || _); [wp_step; split_and!; [done|by exists []|done]|].
  apply wpM_contained.
  cut (∀ (Q : res unit → hpc_state → trace hpcE → Prop), (∀ answer L, Q answer s (L ++ H)) →
    wpM G (let! own_there := ldap (GroupExists (res_backend_id r)) in
      if own_there : bool then ret ()
      else let! legacy_there := ldap (GroupExists legacy_group) in
        if negb legacy_there then ret ()
        else let! account := slurm (SlGetResource legacy_group) in
          match account with
          | Some _ => ret ()
          | None => ldap (RenameGroup legacy_group (res_backend_id r))
          end)%prog Q s H).
  { intros Hc. apply Hc. intros [u|e] L; [split_and!; [done|by exists L|done]|].
    destruct (is_backend_error e) eqn:He; (split_and!; [done|by exists L|]); [done|]. by intros e' [= <-]. }
  intros Q HQ. wp_step. apply wpM_ldap; [by right; right; right; right; left|].
  intros [[]|e]; cbv beta iota; [wp_step; apply (HQ _ [_])| |apply (HQ _ [_])].
  wp_step. apply wpM_ldap; [by right; right; right; right; right|].
  intros [[]|e]; cbv beta iota; simpl negb; cbv iota; [|wp_step; apply (HQ _ [_; _])|apply (HQ _ [_; _])].
  wp_step. apply wpM_slurm; [by right; left|].
  intros [[account|]|e]; cbv beta iota; [wp_step; apply (HQ _ [_; _; _])| |apply (HQ _ [_; _; _])].
  apply wpM_ldap; [|intros answer; apply (HQ _ [_; _; _; _])].
  right; right; right; right. split_and!; [done|done| |left]. right. right. left.
Qed.

Lemma group_spec s H : associated H →
  wpM G (with_project_group b text r (AddUserToGroup (res_backend_id r) username "memberUid") ;! ret true)%prog
    (λ answer _ H', associated H' ∧ match answer with
                                    | Ok added => added = true
                                    | Err e => is_backend_error e = false
                                    end) s H.
Proof.
  intros Ha. unfold with_project_group. destruct (sb_has_ldap b); [|by wp_steps].
  wp_steps. eapply wpM_mono; [apply heal_spec|].
  intros [u|e] s1 H1 (-> & (L & ->) & He); cbv beta iota; [|split; [by apply associated_app|by apply He]].
  apply wpM_contained, wpM_ldap.
  { right; right; right; right. split_and!; [done|done|done|by apply associated_app]. }
  assert (Ha' : ∀ a, associated (Ev (Ldap (AddUserToGroup (res_backend_id r) username "memberUid")) a :: L ++ H))
    by (intros a; apply (associated_app [_]), associated_app, Ha).
  intros [u'|e]; cbv beta iota; [by wp_step|]. destruct (is_backend_error e) eqn:Hb; [by wp_step|done].
Qed.

Lemma default_spec s H : Ev (Slurm (GetAssociation username (res_backend_id r))) (Ok None) ∈ H →
  wpM G (default_association b text username) (λ answer s' H', s' = s ∧ (∃ a, H' = Ev (Slurm default_request) a :: H) ∧
    match answer with
    | Ok true => has_default H'
    | Ok false => ∃ e, Ev (Slurm default_request) (Err e) ∈ H' ∧ is_backend_error e = true
    | Err e => is_backend_error e = false
    end) s H.
Proof.
  intros Ha. unfold default_association. cbv zeta. wp_steps.
  apply wpM_slurm; [right; right; left; by split|]. intros [o|e]; cbv beta iota.
  - wp_step. split_and!; [done|by eexists|]. left. exists o. left.
  - destruct (is_backend_error e) eqn:Hb; wp_step; (split_and!; [done|by eexists|]); [|done].
    destruct (String.prefix SACCTMGR_NOEFFECT_ERROR (exn_str e)) eqn:Hp.
    + right. exists e. split_and!; [left|done|done].
    + exists e. split; [left|done].
Qed.

Lemma slurm_add_user_spec s :
  wpM G (add_user b facts text r username) (λ answer _ H, add_user_outcome answer H) s [].
Proof.
  unfold add_user. cbv zeta. destruct (blank (res_backend_id r)) eqn:Hblank; [wp_step; by left|].
  destruct (nonempty username) eqn:Hn; simpl negb; cbv iota.
  2:{ wp_step. left. unfold nonempty in Hn. by apply negb_false_iff, String.eqb_eq in Hn. }
  wp_step. apply wpM_slurm; [by left|]. intros [[a|]|e]; cbv beta iota.
  - eapply wpM_mono; [apply group_spec; left; exists a; left|].
    intros [added|e] s1 H1 [Ha Hr]; simpl; [by subst|congruence].
  - wp_step. eapply wpM_mono; [apply default_spec; left|].
    intros [[]|e] s1 H1 (-> & (x & ->) & Hd); cbv beta iota; [|simpl negb; cbv iota; wp_step; by right|simpl; congruence].
    simpl negb; cbv iota. rewrite own_association_request. wp_steps.
    apply wpM_slurm; [right; right; right; left; split_and!; [done|right; left|done]|].
    intros [o|e]; cbv beta iota.
    + wp_step. eapply wpM_mono; [apply group_spec; right; exists o; left|].
      intros [added|e] s2 H2 [Ha Hr]; simpl; [by subst|congruence].
    + destruct (is_backend_error e) eqn:Hb; wp_step; simpl; [|congruence].
      intros _. right; right. exists e. left.
  - intros _. right; left. left.
Qed.
End AddUser.

(** A user is added when, and only when, the cluster associates the user with the
    account: found there, or created once the default association is there.  The user
    joins the group of this account only as its member; a group that cannot be joined or
    renamed fails nothing, so a backend error always means a missing association; and a
    legacy group is only renamed to a name that is free, from one that is no account. *)
Theorem user_added b facts text r username s τ s' answer τ1 τ2 {X} (c : hpcE X) a :
  runs (add_user b facts text r username s) τ (s', answer) →
  add_user_outcome b facts text r username answer (rev τ) ∧
  (τ = τ1 ++ Ev c a :: τ2 → add_user_guard b facts text r username X (rev τ1) c).
Proof.
  intros Hrun. pose proof (slurm_add_user_spec b facts text r username s) as Hspec.
  split; [exact (proj1 (wpM_sound _ _ _ _ _ _ _ Hspec Hrun))|].
  intros Hτ. exact (wpM_call_guard _ _ _ _ _ _ _ _ _ _ _ Hspec Hrun Hτ).
Qed.

(** ** The place of a project in the account tree *)

Section Reparenting.
Context (b : slurm_backend) (text : json → string) (r : WaldurResource).
Implicit Types (s : hpc_state) (H : trace hpcE).

Local Abbreviation id := (res_backend_id r).
Local Abbreviation project := (project_id b text (res_project_slug r)).

(** The customer the project should be under, where there are customers. *)
Definition customer_account : option string :=
  if truthy (setting b "parent_account") then None
  else match field_str (res_customer_slug r) with
       | Some slug => if nonempty (res_project_slug r) then Some (customer_id b text slug) else None
       | None => None
       end.

(** The account is there: found, or created. *)
Definition account_there (account : string) (H : trace hpcE) : Prop :=
  (∃ found, Ev (Slurm (SlGetResource account)) (Ok (Some found)) ∈ H) ∨ account_created account H.

(** Accounts are created only where they are missing, the customer under the root and the
    project under the customer; and moved only when they were read to be elsewhere, the
    project never under itself and only once the customer is there. *)
Definition reparent_guard : guard hpcE := λ X H c,
  ∃ customer, customer_account = Some customer ∧ customer ≠ project ∧
  match c with
  | Slurm (GetAccountParent account) => account = project ∨ account = id
  | Slurm (SlGetResource account) => account = customer ∨ account = project
  | Slurm (SlCreateResource account _ _ parent) =>
      (∃ H', H = Ev (Slurm (SlGetResource account)) (Ok None) :: H') ∧
      ((account = customer ∧ parent = Some (text (sb_root_account b))) ∨
       (account = project ∧ parent = Some customer))
  | Slurm (SetAccountParent account parent) =>
      (account = project ∧ parent = customer ∧ account_there customer H ∧ account_there project H ∧
       ∃ current, current ≠ Some customer ∧ Ev (Slurm (GetAccountParent project)) (Ok current) ∈ H) ∨
      (account = id ∧ parent = project ∧ ∃ current H', current ≠ Some project ∧
       H = Ev (Slurm (GetAccountParent id)) (Ok current) :: H')
  | _ => False
  end.

(** A failure of the cluster is contained, except that of the first reading. *)
Definition reparent_outcome (answer : res unit) (H : trace hpcE) : Prop :=
  match answer with
  | Ok _ => True
  | Err e => is_backend_error e = false ∨ H = [Ev (Slurm (GetAccountParent project)) (Err e)]
  end.

Context (customer : string) (Hc : customer_account = Some customer) (Hne : customer ≠ project).
Local Abbreviation G := reparent_guard.

Definition contained_answer {A} (answer : res A) : Prop :=
  match answer with Ok _ => True | Err e => is_backend_error e = false end.

Lemma readable_parent_spec account s H : account = project ∨ account = id →
  wpM G (readable_parent account) (λ answer s' H', s' = s ∧ contained_answer answer ∧
    ∃ a, H' = Ev (Slurm (GetAccountParent account)) a :: H ∧
      ∀ parent, answer = Ok (Some parent) → a = Ok parent) s H.
Proof.
  intros Ha. unfold readable_parent. wp_steps. apply wpM_slurm; [by exists customer|].
  intros [parent|e]; cbv beta iota; [wp_step; split_and!; [done..|]; eexists; split; [done|]; by intros ? [= ->]|].
  destruct (is_backend_error e) eqn:Hb; wp_step; (split_and!; [done..|]); eexists; (split; [done|]); done.
Qed.

Lemma reparent_resource_spec s H :
  wpM G (reparent_resource_account_if_stale id project) (λ answer _ _, contained_answer answer) s H.
Proof.
  unfold reparent_resource_account_if_stale. wp_step.
  eapply wpM_mono; [by apply readable_parent_spec; right|].
  intros [[parent|]|e] s1 H1 (-> & Ha & a & -> & Hp); cbv beta iota; [|by wp_step|done].
  specialize (Hp parent eq_refl) as ->. case_bool_decide as Hpp; [by wp_step|]. wp_steps.
  apply wpM_slurm.
  { exists customer. split; [done|]. split; [done|]. right. split_and!; [done|done|]. eauto. }
  intros [o|e]; cbv beta iota; [|destruct (is_backend_error e) eqn:Hb; by wp_step].
  wp_step. eapply wpM_mono; [by apply readable_parent_spec; right|].
  intros [p|e] s2 H2 (-> & Ha2 & _); cbv beta iota; [by wp_step|done].
Qed.

Lemma create_account_spec account description organization parent s H :
  (account = customer ∧ parent = text (sb_root_account b)) ∨ (account = project ∧ parent = customer) →
  wpM G (create_account account description organization parent) (λ answer _ H', (∃ L, H' = L ++ H) ∧
    ∀ u, answer = Ok u → account_there account H') s H.
Proof.
  intros Ha. unfold create_account. wp_step. apply wpM_slurm.
  { exists customer. naive_solver. }
  intros [[found|]|e]; cbv beta iota; [wp_step; split; [by eexists [_]|]; intros _ _; left; exists found; left| |split; [by eexists [_]|done]].
  destruct description as [| |d]; [split; [by eexists [_]|done]..|]. wp_step. apply wpM_slurm.
  { exists customer. split; [done|]. split; [done|]. split; [by eexists|]. naive_solver. }
  intros [o|e]; cbv beta iota; wp_steps; (split; [by eexists [_; _]|]); [|done].
  intros _ _. right. do 4 eexists. left.
Qed.

Lemma there_app account L H : account_there account H → account_there account (L ++ H).
Proof. intros [[f ?]|?]; [left; exists f; apply elem_of_app; by right|right; by apply created_app]. Qed.

Lemma reparent_project_spec current s H : current ≠ Some customer →
  Ev (Slurm (GetAccountParent project)) (Ok current) ∈ H →
  wpM G (reparent_project b text r project customer) (λ answer _ _, contained_answer answer) s H.
Proof.
  intros Hcur Hin. unfold reparent_project. wp_step. wp_step.
  eapply (wpM_mono _ _ (λ _ _ _, True)).
  - wp_step. eapply wpM_mono; [by apply create_account_spec; left|].
    intros [u|e] s1 H1 [[L1 ->] Ht1]; cbv beta iota; [|done]. specialize (Ht1 u eq_refl).
    wp_step. eapply wpM_mono; [by apply create_account_spec; right|].
    intros [u2|e] s2 H2 [[L2 ->] Ht2]; cbv beta iota; [|done]. specialize (Ht2 u2 eq_refl).
    apply wpM_slurm; [|done]. exists customer. split; [done|]. split; [done|]. left.
    split_and!; [done|done|by apply there_app|done|]. exists current. split; [done|].
    rewrite !elem_of_app. auto.
  - intros [o|e] s1 H1 _; cbv beta iota; [|destruct (is_backend_error e) eqn:Hb; by wp_step].
    wp_step. eapply wpM_mono; [by apply readable_parent_spec; left|].
    intros [[parent|]|e] s2 H2 (-> & Ha & _); cbv beta iota; [|by wp_step|done].
    apply reparent_resource_spec.
Qed.
End Reparenting.

Lemma slurm_sync_project_spec b text r s :
  wpM (reparent_guard b text r) (sync_resource_project b text r)
    (λ answer _ H, reparent_outcome b text r answer H) s [].
Proof.
  unfold sync_resource_project. destruct (truthy (setting b "parent_account")) eqn:Hflat; [by wp_step|].
  destruct (field_str (res_customer_slug r)) as [slug|] eqn:Hslug; [|by wp_step].
  destruct (nonempty (res_project_slug r)) eqn:Hn; [|by wp_step]. cbv zeta.
  assert (Hc : customer_account b text r = Some (customer_id b text slug))
    by (unfold customer_account; by rewrite Hflat, Hslug, Hn).
  destruct (String.eqb_spec (project_id b text (res_project_slug r)) (customer_id b text slug)) as [|Hne];
    [by wp_step|].
  wp_step. apply wpM_slurm; [eexists; split_and!; [done|congruence|by left]|].
  intros [current|e]; cbv beta iota; [|by right]. case_bool_decide as Hcur; [by wp_step|].
  eapply wpM_mono; [eapply reparent_project_spec; [done|congruence|done|left]|].
  intros [u|e] s1 H1 Ha; simpl in *; [done|by left].
Qed.

(** A project account follows its project to another customer: it is moved under that
    customer's account, and the allocation under the project's, only when they were read
    to be elsewhere, with missing accounts created first and never under itself; a failure
    of the cluster on the way is left for the next cycle. *)
Theorem project_reparented b text r s τ s' answer τ1 τ2 {X} (c : hpcE X) a :
  runs (sync_resource_project b text r s) τ (s', answer) →
  reparent_outcome b text r answer (rev τ) ∧
  (τ = τ1 ++ Ev c a :: τ2 → reparent_guard b text r X (rev τ1) c).
Proof.
  intros Hrun. pose proof (slurm_sync_project_spec b text r s) as Hspec.
  split; [exact (proj1 (wpM_sound _ _ _ _ _ _ _ Hspec Hrun))|].
  intros Hτ. exact (wpM_call_guard _ _ _ _ _ _ _ _ _ _ _ Hspec Hrun Hτ).
Qed.

(** ** Deleting an allocation *)

Section Deletion.
Context (b : slurm_backend) (facts : offering_facts).
Context (text : json → string) (parse_fields : json → res HomedirQuotaConfig).
Context (r : WaldurResource) (project_slug : option string).
Implicit Types (s : hpc_state) (H : trace hpcE).

Local Abbreviation id := (res_backend_id r).

Definition soft_deletion : bool := truthy (setting b "soft_delete").

(** The account has no users: none were there, or their jobs were cancelled and they were
    removed. *)
Definition emptied (H : trace hpcE) : Prop :=
  Ev (Slurm (AccountHasUsers id)) (Ok false) ∈ H ∨
  (Ev (Slurm (CancelActiveUserJobs id None)) (Ok ()) ∈ H ∧
   ∃ o, Ev (Slurm (DeleteAllUsersFromAccount id)) (Ok o) ∈ H).

(** The listing shows nothing in the project but the project itself. *)
Definition childless (project : string) (resources : list ClientResource) : Prop :=
  ∀ child, child ∈ resources → cr_organization child = project → cr_name child = project.

(** An account goes only when it was just found, and only after the allocation was emptied;
    the project only when the listing right before shows nothing else in it; a soft
    deletion changes limits of this allocation and deletes no account. *)
Definition deletion_guard : guard hpcE := λ X H c,
  match c with
  | Slurm (SlGetResource _) | Slurm SlListResources | Slurm (AccountHasUsers _)
  | Slurm (QosExists _) | Ldap (GroupExists _) | Ldap (RenameGroup _ _) => True
  | Slurm (CancelActiveUserJobs account user) => account = id ∧ user = None
  | Slurm (DeleteAllUsersFromAccount account) =>
      account = id ∧ Ev (Slurm (CancelActiveUserJobs id None)) (Ok ()) ∈ H
  | Slurm (DeleteQos name) | Ldap (DeleteGroup name) => name = id
  | Slurm (SlDeleteResource account) => soft_deletion = false ∧ emptied H ∧
      ∃ found H', H = Ev (Slurm (SlGetResource account)) (Ok (Some found)) :: H' ∧
        (account = id ∨ ∃ slug resources H'', project_slug = Some slug ∧
           account = project_id b text slug ∧
           H' = Ev (Slurm SlListResources) (Ok resources) :: H'' ∧ childless account resources)
  | Slurm (SlSetResourceLimits account _) | Slurm (SetQosGrpTresMins account _) =>
      soft_deletion = true ∧ account = id
  | _ => False
  end.

Definition limited (H : trace hpcE) : Prop := ∃ limits,
  (∃ o, Ev (Slurm (SlSetResourceLimits id limits)) (Ok o) ∈ H) ∨
  Ev (Slurm (SetQosGrpTresMins id limits)) (Ok ()) ∈ H.

(** The account is absent, deleted, or was given the limits of a soft deletion. *)
Definition retired (H : trace hpcE) : Prop :=
  Ev (Slurm (SlGetResource id)) (Ok None) ∈ H ∨
  (∃ o, Ev (Slurm (SlDeleteResource id)) (Ok o) ∈ H) ∨
  (soft_deletion = true ∧ limited H).

Local Abbreviation G := deletion_guard.

Lemma retired_app L H : retired H → retired (L ++ H).
Proof.
  unfold retired, limited. setoid_rewrite elem_of_app. naive_solver.
Qed.
Lemma emptied_app L H : emptied H → emptied (L ++ H).
Proof. unfold emptied. setoid_rewrite elem_of_app. naive_solver. Qed.

(** The calls that clean up after the users are gone. *)
Definition cleanup (X : Type) (c : hpcE X) : bool :=
  match c with
  | Slurm (SlGetResource _) | Slurm (QosExists _) | Ldap (GroupExists _) | Ldap (RenameGroup _ _) => true
  | Slurm (DeleteQos name) | Ldap (DeleteGroup name) => String.eqb name id
  | _ => false
  end.

Lemma cleanup_spec {A} (m : hpc A) (Q : res A → hpc_state → trace hpcE → Prop) s H :
  calls cleanup m → (∀ r s' L, Q r s' (L ++ H)) → wpM G m Q s H.
Proof.
  intros Hm HQ. eapply (calls_wpM cleanup); [done| |auto].
  intros X H' c. destruct c as [X c|X c|X c| | |]; simpl; try done; destruct c; simpl; try done;
    by intros ?%String.eqb_eq.
Qed.

Ltac cleanup_call :=
  lazymatch goal with
  | |- calls _ (slurm _) => unfold slurm; apply calls_call; simpl; first [reflexivity | apply String.eqb_refl]
  | |- calls _ (ldap _) => unfold ldap; apply calls_call; simpl; first [reflexivity | apply String.eqb_refl]
  | |- calls _ (contained _) => unfold contained
  | _ => calls_step
  end.

Lemma pre_delete_spec s H :
  wpM G (pre_delete_resource b text r) (λ answer _ H', ∀ u, answer = Ok u → emptied H') s H.
Proof.
  assert (Hrest : ∀ s H, emptied H →
    wpM G ((if qos_managed b then
              let! there := slurm (QosExists id) in
              if there : bool then contained (slurm (DeleteQos id)) else ret ()
            else ret ()) ;!
           with_project_group b text r (DeleteGroup id))%prog
      (λ answer _ H', ∀ u : unit, answer = Ok u → emptied H') s H).
  { intros s1 H1 He. apply cleanup_spec; [|intros a s2 L u _; by apply emptied_app].
    unfold with_project_group, heal_legacy_project_group. repeat (cbv beta; cleanup_call). }
  unfold pre_delete_resource. cbv zeta. wp_step. apply wpM_slurm; [done|].
  intros [[]|e]; cbv beta iota; [| |done].
  - wp_step. wp_step. apply wpM_slurm; [done|]. intros [[]|e]; cbv beta iota; [|done].
    wp_step. apply wpM_slurm; [split; [done|left]|]. intros [o|e]; cbv beta iota; [|done].
    wp_step. apply Hrest. right. split; [right; left|]. exists o. left.
  - wp_step. wp_step. apply Hrest. left. left.
Qed.

Local Abbreviation client := (hooks b facts text parse_fields).

Lemma delete_account_spec account s H : soft_deletion = false → emptied H →
  (account = id ∨ ∃ slug resources H', project_slug = Some slug ∧ account = project_id b text slug ∧
     H = Ev (Slurm SlListResources) (Ok resources) :: H' ∧ childless account resources) →
  wpM G (delete_resource_safely_with client account) (λ answer _ H', (∃ L, H' = L ++ H) ∧
    ∀ u, answer = Ok u → Ev (Slurm (SlGetResource account)) (Ok None) ∈ H' ∨
                         ∃ o, Ev (Slurm (SlDeleteResource account)) (Ok o) ∈ H') s H.
Proof.
  intros Hs He Ha. unfold delete_resource_safely_with. wp_step. simpl hooks. apply wpM_slurm; [done|].
  intros [[found|]|e]; cbv beta iota; [|wp_step; split; [by eexists [_]|]; intros _ _; left; left|split; [by eexists [_]|done]].
  simpl hooks. wp_step. apply wpM_slurm.
  { split; [done|]. split; [by apply (emptied_app [_])|]. exists found, H. by split. }
  intros [o|e]; cbv beta iota; wp_steps; (split; [by eexists [_; _]|]); [|done].
  intros _ _. right. exists o. left.
Qed.

Lemma delete_project_spec slug s H : soft_deletion = false → project_slug = Some slug →
  emptied H → retired H →
  wpM G (delete_empty_project_with (base_config b text) client slug) (λ _ _ H', retired H') s H.
Proof.
  intros Hs Hp He Hr. unfold delete_empty_project_with. cbv zeta. wp_step. simpl hooks.
  apply wpM_slurm; [done|]. intros [resources|e]; cbv beta iota; [|by apply (retired_app [_])].
  destruct (List.filter _ resources) eqn:Hf; [|wp_step; by apply (retired_app [_])].
  eapply wpM_mono; [apply delete_account_spec; [done|by apply (emptied_app [_])|]|].
  - right. eexists slug, resources, _. split_and!; [done|done|done|].
    intros child Hin Horg. fold (project_id b text slug) in Hf.
    destruct (String.eqb (cr_name child) (project_id b text slug)) eqn:Hn; [by apply String.eqb_eq|].
    assert (Hc : child ∈ List.filter (is_child_of (project_id b text slug)) resources).
    { apply list_elem_of_In, List.filter_In. split; [by apply list_elem_of_In|].
      unfold is_child_of. by rewrite Horg, Hn, String.eqb_refl. }
    rewrite Hf in Hc. by apply elem_of_nil in Hc.
  - intros a s1 H1 [[L ->] _]. by apply retired_app, (retired_app [_]).
Qed.

Lemma set_limits_spec limits s H : soft_deletion = true →
  wpM G (set_resource_limits b facts text parse_fields id limits) (λ answer _ H',
    ∀ u, answer = Ok u → limited H') s H.
Proof.
  intros Hs.
  assert (Hw : ∀ l s H, wpM G (write_allocation_limits b id l false) (λ answer _ H',
    ∀ u, answer = Ok u → limited H') s H).
  { intros l s1 H1. unfold write_allocation_limits. destruct (qos_apply_limits b); wp_step;
      (apply wpM_slurm; [done|]); intros [o|e]; cbv beta iota; try done; wp_step; intros _ _; exists l.
    - right. destruct o. left.
    - left. exists o. left. }
  unfold set_resource_limits. destruct (is_passthrough _); simpl negb; cbv iota.
  - destruct (qos_apply_limits b).
    + wp_steps. destruct (concat_res _); [apply Hw|done].
    + unfold inherited, BaseBackend.set_resource_limits, wpM.
      destruct (convert_limits (base_config b text) limits) as [l|e]; simpl; [|done].
      split; [done|]. intros [o|e]; simpl; [|done]. intros _ _. exists l. left. exists o. left.
  - wp_steps. destruct (convert_limits_to_target _ _); [apply Hw|done].
Qed.

Lemma deletion_spec s :
  wpM G (delete_resource_with (base_config b text) client (set_resource_limits b facts text parse_fields)
           r project_slug)
    (λ answer _ H, ∀ o, answer = Ok o → o = None ∧ (blank id = false → retired H)) s [].
Proof.
  unfold delete_resource_with. cbv zeta.
  destruct (blank id). { wp_step. naive_solver. }
  wp_step. simpl hooks. apply wpM_slurm; [done|]. intros [[found|]|e]; cbv beta iota; [| |done].
  2:{ wp_step. intros o [= <-]. split; [done|]. intros _. left. left. }
  wp_step. simpl hooks. eapply wpM_mono; [apply pre_delete_spec|].
  intros [u|e] s1 H1 He; cbv beta iota; [|done]. specialize (He u eq_refl).
  wp_step. eapply (wpM_mono _ _ (λ answer _ H', ∀ u, answer = Ok u → retired H')).
  - change (truthy (bb_soft_delete (base_config b text))) with soft_deletion.
    destruct soft_deletion eqn:Hs.
    + eapply wpM_mono; [by apply set_limits_spec|]. intros a s2 H2 Hl u2 Ha. right; right.
      split; [done|]. by apply (Hl u2).
    + wp_step. eapply wpM_mono; [apply delete_account_spec; [done|done|by left]|].
      intros [u2|e] s2 H2 [[L ->] Hd]; cbv beta iota; [|done]. specialize (Hd u2 eq_refl).
      assert (Hr : retired (L ++ H1)) by (destruct Hd; [by left|by right; left]).
      destruct project_slug as [slug|] eqn:Hp; [|by wp_step].
      eapply wpM_mono; [by apply delete_project_spec; [|exact Hp|apply emptied_app|]|]. auto.
  - intros [u2|e] s2 H2 Hr; cbv beta iota; [|done]. specialize (Hr u2 eq_refl).
    wp_step. simpl hooks. wp_steps. intros o [= <-]. done.
Qed.
End Deletion.

(** C14: Deleting an allocation deletes its account only after its jobs were cancelled and
    its users removed, where it had any, and the project only when it was just listed
    without another allocation; a soft deletion sets the allocation's limits and deletes
    no account.  When it answers the account is absent, deleted, or limited. *)
Theorem allocation_deleted_empty b facts text parse_fields r project_slug s τ s' answer τ1 τ2
    {X} (c : hpcE X) a :
  runs (slurm_methods b facts text parse_fields _ (DeleteResource r project_slug) s) τ (s', answer) →
  (∀ o, answer = Ok o → o = None ∧ (blank (res_backend_id r) = false → retired b r (rev τ))) ∧
  (τ = τ1 ++ Ev c a :: τ2 → deletion_guard b text r (Some project_slug) X (rev τ1) c).
Proof.
  intros Hrun. pose proof (deletion_spec b facts text parse_fields r (Some project_slug) s) as Hspec.
  split; [exact (proj1 (wpM_sound _ _ _ _ _ _ _ Hspec Hrun))|].
  intros Hτ. exact (wpM_call_guard _ _ _ _ _ _ _ _ _ _ _ Hspec Hrun Hτ).
Qed.

(** ** Witnesses *)

Definition status_exec :=
  run_hpc ["alloc-1"%string] None (apply_status swapping_slurm sample_facts plain_text Paused "alloc-1").

Lemma status_applied_witness :
  status_outcome swapping_slurm sample_facts plain_text Paused "alloc-1" fresh_state (Ok true)
    status_exec.1.1.1 (rev status_exec.1.2) ∧
  status_guard swapping_slurm sample_facts plain_text Paused "alloc-1" _ (rev (take 2 status_exec.1.2))
    (Slurm (SetAccountQos "alloc-1" "paused,slow" (Some "paused"%string))).
Proof.
  destruct (status_applied swapping_slurm sample_facts plain_text Paused "alloc-1" fresh_state
    status_exec.1.2 status_exec.1.1.1 (Ok true) (take 2 status_exec.1.2) []
    (Slurm (SetAccountQos "alloc-1" "paused,slow" (Some "paused"%string))) (Ok ())) as [Ho Hg].
  - exact (exec_runs_pair _ _ _).
  - split; [exact Ho|]. apply Hg. vm_compute. reflexivity.
Defined.

Definition asked_settings : list (string * json) :=
  [("fairshare"%string, JInt 50);
   ("grp_tres_mins"%string, JObj [("cpu"%string, JInt 600); ("mem"%string, JInt 5)]);
   ("reset_raw_usage"%string, JBool true)].

Definition periodic_exec :=
  run_hpc ["alloc-1"%string] None
    (apply_settings_production plain_text "alloc-1" asked_settings (JObj [])).

Lemma periodic_settings_settled_witness :
  periodic_outcome plain_text "alloc-1" asked_settings (JObj []) periodic_exec.1.1.2
    (rev periodic_exec.1.2) ∧
  periodic_guard plain_text "alloc-1" asked_settings (JObj []) _ (rev (take 4 periodic_exec.1.2))
    (Slurm (SetAccountLimits "alloc-1" (JStr "GrpTRESMins") [("mem"%string, JInt 5)])).
Proof.
  destruct (periodic_settings_settled plain_text "alloc-1" asked_settings (JObj []) fresh_state
    periodic_exec.1.2 periodic_exec.1.1.1 periodic_exec.1.1.2
    (take 4 periodic_exec.1.2) (drop 5 periodic_exec.1.2)
    (Slurm (SetAccountLimits "alloc-1" (JStr "GrpTRESMins") [("mem"%string, JInt 5)])) (Ok true)) as [Ho Hg].
  - exact (exec_runs_pair _ _ _).
  - split; [exact Ho|]. apply Hg. vm_compute. reflexivity.
Defined.

Definition create_exec :=
  run_hpc ["cust"%string] None
    (create_resource_with_id sample_slurm sample_facts plain_text no_quota sample_resource "alloc-1"
       (Some sample_context)).

Lemma sample_well_formed : well_formed sample_slurm.
Proof.
  apply (init_ok connects connects no_float sample_settings sample_components). vm_compute. reflexivity.
Qed.

Lemma allocation_created_in_order_witness :
  qos_attached "alloc-1" (rev create_exec.1.2) ∧
  allocation_guard "alloc-1" _ (rev (take 9 create_exec.1.2)) (Slurm (ResetQosRawUsage "alloc-1")).
Proof.
  destruct (allocation_created_in_order sample_slurm sample_facts plain_text no_quota sample_resource
    "alloc-1" (Some sample_context) fresh_state create_exec.1.2 create_exec.1.1.1
    create_exec.1.1.2 (take 9 create_exec.1.2)
    (drop 10 create_exec.1.2) (Slurm (ResetQosRawUsage "alloc-1")) (Ok ()) sample_well_formed)
    as [Ho Hg].
  - exact (exec_runs_pair _ _ _).
  - split; [|apply Hg; vm_compute; reflexivity].
    assert (Hi : ∃ info, create_exec.1.1.2 = Ok info) by (eexists; vm_compute; reflexivity).
    destruct Hi as [info Hi]. apply (Ho info Hi); vm_compute; reflexivity.
Defined.

Definition add_exec :=
  run_hpc ["alloc-1"%string] None (add_user swapping_slurm sample_facts plain_text sample_resource "alice").

Lemma user_added_witness :
  associated swapping_slurm sample_facts plain_text sample_resource "alice" (rev add_exec.1.2) ∧
  add_user_guard swapping_slurm sample_facts plain_text sample_resource "alice" _
    (rev (take 5 add_exec.1.2)) (Ldap (AddUserToGroup "alloc-1" "alice" "memberUid")).
Proof.
  destruct (user_added swapping_slurm sample_facts plain_text sample_resource "alice" fresh_state
    add_exec.1.2 add_exec.1.1.1 (Ok true) (take 5 add_exec.1.2) []
    (Ldap (AddUserToGroup "alloc-1" "alice" "memberUid")) (Ok ())) as [Ho Hg].
  - exact (exec_runs_pair _ _ _).
  - split; [exact Ho|]. apply Hg. vm_compute. reflexivity.
Defined.

(** Without a default partition the command that makes the default association is refused
    before it runs, so no user can be added. *)
Example default_partition_needed :
  text_setting sample_slurm plain_text "default_account_partition" = ""%string ∧
  ∀ cfg s, ∃ e, create_association_with_partition cfg "alice" "root_account" "" (Some "root_account"%string) s
              = Ret (s, Err e) ∧ is_backend_error e = true.
Proof. split; [vm_compute; reflexivity|]. intros cfg s. eexists. split; reflexivity. Qed.

Definition move_exec :=
  run_hpc ["alloc-1"%string; "p_proj"%string] (Some "c_old"%string)
    (sync_resource_project swapping_slurm plain_text sample_resource).

Lemma project_reparented_witness :
  reparent_outcome swapping_slurm plain_text sample_resource (Ok ()) (rev move_exec.1.2) ∧
  reparent_guard swapping_slurm plain_text sample_resource _ (rev (take 4 move_exec.1.2))
    (Slurm (SetAccountParent "p_proj" "c_cust")).
Proof.
  destruct (project_reparented swapping_slurm plain_text sample_resource fresh_state
    move_exec.1.2 move_exec.1.1.1 (Ok ()) (take 4 move_exec.1.2) (drop 5 move_exec.1.2)
    (Slurm (SetAccountParent "p_proj" "c_cust")) (Ok ""%string)) as [Ho Hg].
  - exact (exec_runs_pair _ _ _).
  - split; [exact Ho|]. apply Hg. vm_compute. reflexivity.
Defined.

Definition delete_exec :=
  run_hpc ["alloc-1"%string] None
    (slurm_methods swapping_slurm sample_facts plain_text no_quota _ (DeleteResource sample_resource "proj")).

Lemma allocation_deleted_empty_witness :
  retired swapping_slurm sample_resource (rev delete_exec.1.2) ∧
  deletion_guard swapping_slurm plain_text sample_resource (Some "proj"%string) _
    (rev (take 8 delete_exec.1.2)) (Slurm (SlDeleteResource "alloc-1")).
Proof.
  destruct (allocation_deleted_empty swapping_slurm sample_facts plain_text no_quota sample_resource
    "proj" fresh_state delete_exec.1.2 delete_exec.1.1.1 (Ok None) (take 8 delete_exec.1.2)
    (drop 9 delete_exec.1.2) (Slurm (SlDeleteResource "alloc-1")) (Ok ""%string)) as [Ho Hg].
  - exact (exec_runs_pair _ _ _).
  - split; [by apply (Ho _ eq_refl)|]. apply Hg. vm_compute. reflexivity.
Defined.
