(* ===== verification/SlurmDeployment.v ===== *)
(** * The whole stack over SLURM

    The SLURM backend keeps the contract of [Linking], also when its calls to SLURM are
    carried out by the command-line client: what follows for the processors linked with
    it, down to the output of [sacctmgr]. *)

From stdpp Require Import base list strings gmap sets.
From Stdlib Require Import ZArith Lia.
From S2P Require Import Prelude.
From S2P Require Import Texts.
From S2P Require Import Structures.
From S2P Require Import Agent.
From S2P Require Import Samples.
From S2P Require Import OfferingUsers.
From S2P Require Import BaseProcessor.
From S2P Require Import Teardown.
From S2P Require Import Membership.
From S2P Require Import MembershipEvents.
From S2P Require Import BaseBackend.
From S2P Require Import Linking.
From S2P Require Import Deployment.
From S2P Require Import Homedirs.
From S2P Require Import LdapClient.
From S2P Require Import SlurmParser.
From S2P Require Import SlurmClient.
From S2P Require Import SlurmSettings.
From S2P Require Import SlurmBackend.
From S2P Require Import SlurmOperations.

Local Open Scope prog_scope.

(** ** The SLURM backend keeps the contract *)

(** SLURM said that the account does not exist, listed its users without this one, found
    no association, or dropped it. *)
Definition unassociated (username id : string) (H : trace hpcE) : Prop :=
  Ev (Slurm (SlGetResource id)) (Ok None) ∈ H ∨
  (∃ users, Ev (Slurm (SlListResourceUsers id)) (Ok users) ∈ H ∧ username ∉ users) ∨
  Ev (Slurm (GetAssociation username id)) (Ok None) ∈ H ∨
  (∃ o, Ev (Slurm (DeleteAssociation username id)) (Ok o) ∈ H).

Lemma unassociated_mono username id H H' : H ⊆ H' → unassociated username id H → unassociated username id H'.
Proof. unfold unassociated. naive_solver. Qed.

Lemma unassociated_app username id L H : unassociated username id H → unassociated username id (L ++ H).
Proof. apply unassociated_mono. set_solver. Qed.

(** What the answer to a client call says of the calls to SLURM. *)
Definition hook_evident (ev : event clientE) (K : trace hpcE) : Prop :=
  match ev with
  | Ev c answer =>
      match c in clientE X return res X → Prop with
      | ClientGetResource id => λ answer, Ev (Slurm (SlGetResource id)) answer ∈ K
      | ClientListResourceUsers id => λ answer, Ev (Slurm (SlListResourceUsers id)) answer ∈ K
      | _ => λ _, True
      end answer
  end.

Lemma hook_evident_mono ev K K' : K ⊆ K' → hook_evident ev K → hook_evident ev K'.
Proof. intros Hk. destruct ev as [X c answer]. destruct c; simpl; auto. Qed.

Section Contract.
Context (b : slurm_backend) (facts : offering_facts).
Context (text : json → string) (parse_fields : json → res HomedirQuotaConfig).

Lemma hook_evident_step X (c : clientE X) t :
  wpM (λ _ _ _, True) (hooks b facts text parse_fields X c) (λ r _ K, hook_evident (Ev c r) K) t [].
Proof.
  destruct c; try (eapply wpM_mono; [apply wpM_true|done]); simpl; apply wpM_slurm; try done;
    intros r; left.
Qed.

Lemma inherited_evident {A} (m : backend_m A) (Q : res A → trace clientE → Prop) s K :
  (∀ pull, wpM (λ _ _ _, True) m (λ r _ H, Q r H) pull []) →
  wpM (λ _ _ _, True) (inherited b facts text parse_fields m)
    (λ r _ K', ∃ H, all_evident hook_evident H K' ∧ Q r H) s K.
Proof.
  intros Hm. unfold inherited, wpM. apply wp_bind.
  eapply wp_mono; [done| |apply (wp_interp_evident _ _ hook_evident_mono hook_evident_step), Hm].
  intros [t [pull r]] K' (H & HR & HQ). by exists H.
Qed.

Lemma remove_user_unassociated r username s H :
  wpM (λ _ _ _, True) (remove_user b facts text parse_fields r username) (λ answer _ H',
    (∃ L, H' = L ++ H) ∧ ∀ removed, answer = Ok removed → unassociated username (res_backend_id r) H') s H.
Proof.
  set (Q := λ (answer : res bool) (_ : hpc_state) H', ∀ removed, answer = Ok removed →
              unassociated username (res_backend_id r) H').
  eapply wpM_mono; [eapply (wpM_frame (λ _ _ _, True) _ Q)|].
  2:{ intros answer s' H' (L & -> & Ha). split; [by eexists|]. intros removed Hr.
      eapply unassociated_mono; [|by apply (Ha removed)]. set_solver. }
  assert (Hgroup : ∀ removed s H, unassociated username (res_backend_id r) H →
    wpM (λ _ _ _, True) (with_project_group b text r (RemoveUserFromGroup (res_backend_id r) username "memberUid") ;! ret removed)
      Q s H).
  { intros removed s1 H1 Hu. wp_step. eapply (wpM_mono _ _ (λ _ _ H', unassociated username (res_backend_id r) H')).
    - eapply wpM_mono; [eapply (wpM_frame (λ _ _ _, True)), wpM_true|].
      intros a s2 H2 (L & -> & _). by apply unassociated_app.
    - intros [u|e] s2 H2 Hu2; cbv beta iota; [|done]. wp_step. by intros ? _. }
  unfold remove_user, remove_user_with. cbv zeta. wp_step.
  destruct (blank (res_backend_id r)); [by wp_step|]. simpl hooks. wp_step. apply wpM_slurm; [done|].
  intros [[a|]|e]; cbv beta iota; [|wp_step; apply Hgroup; right; right; left; left|done].
  wp_step. wp_step. eapply (wpM_mono _ _ (λ answer _ H', ∀ u, answer = Ok u → unassociated username (res_backend_id r) H')).
  - wp_step. eapply wpM_mono; [apply wpM_true|]. intros [u|e] s1 H1 _; cbv beta iota; [|done].
    wp_step. apply wpM_slurm; [done|]. intros [o|e]; cbv beta iota; [|done]. wp_step.
    intros _ _. right; right; right. exists o. left.
  - intros [u|e] s1 H1 Hu; cbv beta iota; [wp_step; apply Hgroup; by apply (Hu u)|].
    destruct (is_backend_error e); by wp_step.
Qed.

Lemma remove_users_unassociated r usernames s H :
  wpM (λ _ _ _, True) (remove_users_with (remove_user b facts text parse_fields r) usernames)
    (λ answer _ H', ∀ gone username, answer = Ok gone → username ∈ ru_removed gone →
       unassociated username (res_backend_id r) H') s H.
Proof.
  assert (Hdone : ∀ users s H, wpM (λ _ _ _, True)
    (let! acc := fold_m users (try_remove_with (remove_user b facts text parse_fields r)) ([], []) in
     ret (new_removed acc.1 acc.2))
    (λ answer _ H', ∀ gone username, answer = Ok gone → username ∈ ru_removed gone →
       unassociated username (res_backend_id r) H') s H).
  { intros users s1 H1. wp_step.
    apply (wpM_fold_m _ _ _ (λ _ acc _ H', ∀ username, username ∈ acc.1 → unassociated username (res_backend_id r) H')).
    - intros xs u acc s2 H2 _ Hacc. unfold try_remove_with. wp_step. wp_step.
      eapply wpM_mono; [apply remove_user_unassociated|].
      intros [[]|e] s3 H3 [[L ->] Hr]; cbv beta iota.
      + wp_step. simpl. intros v [Hv| ->%list_elem_of_singleton]%elem_of_app; [by apply unassociated_app, Hacc|].
        by apply (Hr true).
      + wp_step. intros v Hv. by apply unassociated_app, Hacc.
      + destruct (is_backend_error e); wp_step; simpl; [|done]. intros v Hv. by apply unassociated_app, Hacc.
    - intros acc s2 H2 Hacc. wp_step. intros gone v [= <-]. simpl. apply Hacc.
    - simpl. by intros v ?%elem_of_nil. }
  unfold remove_users_with. destruct (elements usernames) as [|u users]; [|apply Hdone].
  wp_step. intros gone v [= <-]. simpl. by intros ?%elem_of_nil.
Qed.

Global Instance slurm_membership : MembershipBackend (slurm_methods b facts text parse_fields) unassociated.
Proof.
  split.
  - intros username id ev H. apply (unassociated_app _ _ [ev]).
  - intros rs usage s H. simpl.
    eapply wpM_mono; [apply (inherited_evident _ (λ answer H, ∀ report, answer = Ok report →
      report_sound rs report H ∧ report_complete rs report H))|].
    { intros pull. eapply wp_mono; [done| |apply pull_resources_spec].
      intros [s' answer] H' [_ Ha] report Hr. simpl in *. subst answer. destruct Ha as [Hs Hc]. auto. }
    intros answer s' K (H' & HR & Ha) report Hr r username Hin Hid.
    destruct (Ha report Hr) as [[_ Hs] Hc]. destruct (Hc r Hin Hid) as [Hk|Hk].
    2:{ right. left. exact (HR _ Hk). }
    apply list_elem_of_fmap in Hk as ([id [r' info]] & Hid' & Hin'). simpl in Hid'. subst id.
    destruct (Hs _ _ _ Hin') as (Heq & _ & _ & Hl).
    destruct (decide (username ∈ info_users info)) as [Hu|Hu].
    + left. exists r', info. split_and!; [|done|done].
      apply list_elem_of_fmap. by exists (res_backend_id r, (r', info)).
    + right. right; left. exists (info_users info). split; [exact (HR _ Hl)|done].
  - intros r username role cuid s H. simpl. eapply wpM_mono; [apply remove_user_unassociated|].
    intros answer s' H' [_ Ha]. exact Ha.
  - intros r usernames kw s H. simpl. wp_step.
    eapply wpM_mono; [apply remove_users_unassociated|].
    intros [gone|e] s' H' Ha; cbv beta iota; [|done]. wp_step.
    intros returned username [= <-]. simpl. rewrite elem_of_intersection, elem_of_list_to_set.
    intros [_ Hin]. by apply (Ha gone).
Qed.
End Contract.

(** ** The command-line client under the backend *)

(** What the whole stack does: command lines, and what is not SLURM's. *)
Inductive siteE : Type → Type :=
| Command {X} (c : commandE X) : siteE X
| Elsewhere {X} (c : hpcE X) : siteE X.

(** What [sacctmgr] printed for a command. *)
Definition printed (cfg : slurm_config) (command : list string) (output : string) (K : trace siteE) : Prop :=
  Ev (Command (Execute (command_line cfg "sacctmgr" true true command) false)) (Ok output) ∈ K.

Section Site.
Context (cfg : slurm_config) (text : json → string).

Definition client_call (X : Type) (c : commandE X) : M siteE unit X := call (Command c).

Definition site_call (X : Type) (c : hpcE X) : M siteE (list string * unit) X :=
  match c in hpcE X return M siteE (list string * unit) X with
  | Slurm c => over client_call (slurm_client cfg text c)
  | c => call (Elsewhere c)
  end.

(** The SLURM backend over the command-line client. *)
Definition site (b : slurm_backend) (facts : offering_facts) (parse_fields : json → res HomedirQuotaConfig)
    (X : Type) (c : backendE X) : M siteE (hpc_state * (list string * unit)) X :=
  over site_call (slurm_methods b facts text parse_fields X c).

(** [sacctmgr] printed no such account, the users of the account without this one, or no
    association, or carried out the removal of the association or of the whole user. *)
Definition cut_off (username id : string) (K : trace siteE) : Prop :=
  (∃ output, printed cfg ["show"; "account"; id] output K ∧ rows output = []) ∨
  (∃ output, printed cfg ["list"; "associations"; "format=account,user"; "where"; "account=" +:+ id] output K ∧
     username ∉ omap (resource_user id) (rows output)) ∨
  (∃ output, printed cfg ["show"; "association"; "where"; "user=" +:+ username; "account=" +:+ id] output K ∧
     rows output = []) ∨
  (∃ output, printed cfg ["remove"; "user"; "where"; "name=" +:+ username; "and"; "account=" +:+ id] output K ∨
     printed cfg ["remove"; "user"; "where"; "name=" +:+ username] output K).

(** What an answered call to SLURM means for what was printed. *)
Definition site_evident (ev : event hpcE) (K : trace siteE) : Prop :=
  match ev with
  | Ev c answer =>
      match c in hpcE X return res X → Prop with
      | Slurm c =>
          match c in slurmE X return res X → Prop with
          | SlGetResource id => λ answer, answer = Ok None → ∀ username, cut_off username id K
          | SlListResourceUsers id => λ answer, ∀ users, answer = Ok users →
              ∀ username, username ∉ users → cut_off username id K
          | GetAssociation username id => λ answer, answer = Ok None → cut_off username id K
          | DeleteAssociation username id => λ answer, ∀ o, answer = Ok o → cut_off username id K
          | _ => λ _, True
          end
      | _ => λ _, True
      end answer
  end.

Lemma cut_off_mono username id K K' : K ⊆ K' → cut_off username id K → cut_off username id K'.
Proof.
  intros Hk [(o & Ho & ?)|[(o & Ho & ?)|[(o & Ho & ?)|(o & [Ho|Ho])]]]; apply Hk in Ho; unfold cut_off, printed;
    naive_solver.
Qed.

Lemma site_evident_mono ev K K' : K ⊆ K' → site_evident ev K → site_evident ev K'.
Proof.
  intros Hk. destruct ev as [X c answer].
  destruct c as [X c|X c|X c| | |]; simpl; try done. destruct c; simpl; eauto using cut_off_mono.
Qed.

(** The client's calls are the commands of the stack. *)
Definition command_evident (ev : event commandE) (K : trace siteE) : Prop :=
  match ev with Ev c answer => (Ev (Command c) answer : event siteE) ∈ K end.

Lemma client_evident {A} (m : client_m A) (Q : res A → trace commandE → Prop) st K :
  (∀ log, wpM (λ _ _ _, True) m (λ r _ H, Q r H) log []) →
  wpM (λ _ _ _, True) (over client_call m)
    (λ r _ K', ∃ H, all_evident command_evident H K' ∧ Q r H) st K.
Proof.
  intros Hm. apply (wpM_over _ command_evident) with (Q := λ r _ H, Q r H).
  - intros [X c answer] K1 K2 Hk. apply Hk.
  - intros X c []. apply wpM_call; [done|]. intros r. left.
  - apply Hm.
Qed.

(** A command that is not a [modify] answers with what was printed. *)
Lemma command_printed c command log : c ≠ "set" → String.eqb c "modify" = false →
  wpM (λ _ _ _, True) (execute_command cfg (c :: command)) (λ r _ H, ∀ output, r = Ok output →
    Ev (Execute (command_line cfg "sacctmgr" true true (c :: command)) false) (Ok output) ∈ H) log [].
Proof.
  intros Hs Hm. apply execute_command_spec; [done|]. intros r output Hr.
  apply not_modify_settled in Hr; [subst r; left|]. by rewrite injected_head.
Qed.

(** Reading a command's output. *)
Lemma read_printed {A} c command (f : string → res A) log : c ≠ "set" → String.eqb c "modify" = false →
  wpM (λ _ _ _, True) (let! output := execute_command cfg (c :: command) in of_res (f output))
    (λ r _ H, ∀ x, r = Ok x → ∃ output, f output = Ok x ∧
       Ev (Execute (command_line cfg "sacctmgr" true true (c :: command)) false) (Ok output) ∈ H) log [].
Proof.
  intros Hs Hm. wp_step. eapply wpM_mono; [by apply command_printed|].
  intros [output|e] s' H' Ho; cbv beta iota; [|done]. wp_step. intros x Hx. exists output. auto.
Qed.

Lemma delete_printed username id log :
  wpM (λ _ _ _, True) (delete_association cfg username id) (λ r _ H, ∀ o, r = Ok o → ∃ output,
    Ev (Execute (command_line cfg "sacctmgr" true true
      ["remove"; "user"; "where"; "name=" +:+ username; "and"; "account=" +:+ id]) false) (Ok output) ∈ H ∨
    Ev (Execute (command_line cfg "sacctmgr" true true ["remove"; "user"; "where"; "name=" +:+ username]) false)
      (Ok output) ∈ H) log [].
Proof.
  assert (Hlast : ∀ c command log H, c ≠ "set" → String.eqb c "modify" = false →
    wpM (λ _ _ _, True) (execute_command cfg (c :: command)) (λ r _ H', ∀ output, r = Ok output →
      Ev (Execute (command_line cfg "sacctmgr" true true (c :: command)) false) (Ok output) ∈ H') log H).
  { intros c command log1 H Hs Hm. eapply wpM_mono; [eapply (wpM_frame (λ _ _ _, True)); by apply command_printed|].
    intros r s' H' (L & -> & Hr) output Ho. apply elem_of_app. left. by apply Hr. }
  unfold delete_association. cbv zeta. wp_step. eapply wpM_mono; [apply wpM_true|].
  intros [accounts|e] s1 H1 _; cbv beta iota; [|done].
  assert (Hremove : ∀ remaining log H, wpM (λ _ _ _, True)
    ((match remaining with
      | next :: _ => let! default_account := get_user_default_account cfg username in
          if is_default default_account (str_lower id) then set_user_default_account cfg username next else ret ()
      | [] => ret ()
      end) ;! execute_command cfg ["remove"; "user"; "where"; "name=" +:+ username; "and"; "account=" +:+ id])
    (λ r _ H, ∀ o, r = Ok o → ∃ output,
      Ev (Execute (command_line cfg "sacctmgr" true true
        ["remove"; "user"; "where"; "name=" +:+ username; "and"; "account=" +:+ id]) false) (Ok output) ∈ H ∨
      Ev (Execute (command_line cfg "sacctmgr" true true ["remove"; "user"; "where"; "name=" +:+ username]) false)
        (Ok output) ∈ H) log H).
  { intros remaining log2 H2. wp_step. eapply wpM_mono; [apply wpM_true|].
    intros [u|e] s3 H3 _; cbv beta iota; [|done]. eapply wpM_mono; [by apply Hlast|].
    intros r s4 H4 Hr o Ho. exists o. left. by apply Hr. }
  destruct accounts as [|a accounts]; [apply Hremove|].
  destruct (List.filter _ (a :: accounts)) as [|next rest]; [|apply (Hremove (next :: rest))].
  eapply wpM_mono; [by apply Hlast|]. intros r s2 H2 Hr o Ho. exists o. right. by apply Hr.
Qed.

Lemma site_evident_step X (c : hpcE X) t :
  wpM (λ _ _ _, True) (site_call X c) (λ r _ K, site_evident (Ev c r) K) t [].
Proof.
  destruct c as [X c|X c|X c| | |]; try (eapply wpM_mono; [apply wpM_true|done]).
  assert (Hno : ∀ (Q : res X → trace siteE → Prop), (∀ r K, Q r K) →
    wpM (λ _ _ _, True) (site_call X (Slurm c)) (λ r _ K, Q r K) t []).
  { intros Q HQ. eapply wpM_mono; [apply wpM_true|auto]. }
  destruct c; try (by apply Hno); clear Hno; cbn [site_call slurm_client].
  - eapply wpM_mono; [apply (client_evident _ (λ r H, ∀ x, r = Ok x → ∃ output,
      Ok (option_map parse_account (head (rows output))) = Ok x ∧
      Ev (Execute (command_line cfg "sacctmgr" true true ["show"; "account"; resource_id]) false) (Ok output) ∈ H))|].
    { intros log. by apply (read_printed "show" _ (λ output, Ok (option_map parse_account (head (rows output))))). }
    intros r st' K (H & HR & Ha) Hr username. destruct (Ha _ Hr) as (output & Ho & Hin).
    left. exists output. split; [exact (HR _ Hin)|]. by destruct (rows output).
  - eapply wpM_mono; [apply (client_evident _ (λ r H, ∀ x, r = Ok x → ∃ output,
      match rows output with
      | [] => Ok None
      | line :: _ => match parse_association line with Ok a => Ok (Some a) | Err e => Err e end
      end = Ok x ∧
      Ev (Execute (command_line cfg "sacctmgr" true true
        ["show"; "association"; "where"; "user=" +:+ user; "account=" +:+ resource_id]) false) (Ok output) ∈ H))|].
    { intros log. unfold get_association. wp_step. eapply wpM_mono; [by apply command_printed|].
      intros [output|e] s1 H1 Ho; cbv beta iota; [|done]. specialize (Ho output eq_refl).
      destruct (rows output) as [|line lines] eqn:Hl; [wp_step; intros x [= <-]; exists output; by rewrite Hl|].
      wp_steps. destruct (parse_association line) as [a|e] eqn:Hp; [|done]. wp_step.
      intros x [= <-]. exists output. rewrite Hl. simpl. by rewrite Hp. }
    intros r st' K (H & HR & Ha) Hr. destruct (Ha _ Hr) as (output & Ho & Hin).
    right; right; left. exists output. split; [exact (HR _ Hin)|].
    destruct (rows output) as [|line lines]; [done|]. by destruct (parse_association line).
  - eapply wpM_mono; [apply (client_evident _ _ _ _ (delete_printed username resource_id))|].
    intros r st' K (H & HR & Ha) o Hr. destruct (Ha _ Hr) as (output & Ho).
    right; right; right. exists output. destruct Ho as [Ho|Ho]; [left|right]; exact (HR _ Ho).
  - eapply wpM_mono; [apply (client_evident _ (λ r H, ∀ x, r = Ok x → ∃ output,
      Ok (omap (resource_user resource_id) (rows output)) = Ok x ∧
      Ev (Execute (command_line cfg "sacctmgr" true true
        ["list"; "associations"; "format=account,user"; "where"; "account=" +:+ resource_id]) false) (Ok output) ∈ H))|].
    { intros log. by apply (read_printed "list" _ (λ output, Ok (omap (resource_user resource_id) (rows output)))). }
    intros r st' K (H & HR & Ha) users Hr username Hu. destruct (Ha _ Hr) as (output & [= <-] & Hin).
    right; left. exists output. split; [exact (HR _ Hin)|done].
Qed.

Global Instance site_membership b facts parse_fields :
  MembershipBackend (site b facts parse_fields) cut_off.
Proof.
  apply (over_membership _ site_evident site_evident_mono site_evident_step _ unassociated).
  - intros u id H K HR [Hg|[(users & Hl & Hu)|[Ha|[o Hd]]]].
    + exact (HR _ Hg eq_refl u).
    + exact (HR _ Hl users eq_refl u Hu).
    + exact (HR _ Ha eq_refl).
    + exact (HR _ Hd o eq_refl).
  - intros u id ev K. apply cut_off_mono. set_solver.
Qed.
End Site.

(** ** The processors over SLURM *)

Section Stack.
Context (cfg : slurm_config) (text : json → string).
Context (b : slurm_backend) (facts : offering_facts) (parse_fields : json → res HomedirQuotaConfig).

(** A processor's statement over the SLURM backend over the command-line client. *)
Definition over_slurm {A} (m : proc A) (p : processor_state) (s : hpc_state * (list string * unit))
  : prog (linkedE siteE) ((hpc_state * (list string * unit)) * (processor_state * res A)) :=
  linked (site cfg text b facts parse_fields) m p s.
End Stack.

(** C16: over SLURM, the deletion sweep reports an account deleted only when Waldur listed
    it for deletion and, if it has a username, for every resource of the offering Waldur
    listed, [sacctmgr] printed no account of its name, the users of the account without
    this one, or no association of the two, or carried out their removal. *)
Theorem slurm_deletions_founded cfg text b facts parse_fields pcfg p s τ out τ1 τ2 uuid a :
  runs (over_slurm cfg text b facts parse_fields (process_requested_deletions pcfg) p s) τ out →
  τ = τ1 ++ Ev (Outer (Waldur (OfferingUserSetDeleted uuid))) a :: τ2 →
  deletion_founded (cut_off cfg) pcfg uuid (rev τ1).
Proof. apply (linked_deletions_founded (site cfg text b facts parse_fields) (cut_off cfg)). Qed.

(** Over SLURM, a role change releases accounts only under the name of the user it
    revokes, and only when [sacctmgr] has shown that name cut off from every resource of
    the project Waldur listed. *)
Theorem slurm_revocations_founded cfg text b facts parse_fields pcfg user_uuid project_uuid granted
    role_name p s τ out τ1 τ2 released a :
  runs (over_slurm cfg text b facts parse_fields
    (process_user_role_changed pcfg user_uuid project_uuid granted role_name) p s) τ out →
  τ = τ1 ++ Ev (Outer (Username (ReleaseUsers released))) a :: τ2 →
  revocation_founded (cut_off cfg) pcfg project_uuid released (rev τ1).
Proof. apply (linked_revocations_founded (site cfg text b facts parse_fields) (cut_off cfg)). Qed.

(** Over SLURM, the synchronisation of a resource's users releases only accounts that
    [sacctmgr] has shown cut off from the resource. *)
Theorem slurm_departures_founded cfg text b facts parse_fields pcfg r info us p s τ out τ1 τ2 released a :
  runs (over_slurm cfg text b facts parse_fields (sync_resource_users pcfg r info us) p s) τ out →
  τ = τ1 ++ Ev (Outer (Username (ReleaseUsers released))) a :: τ2 →
  ∀ u, u ∈ released → ou_username u ≠ "" ∧
    cut_off cfg (ou_username u) (res_backend_id r) (inner_calls (rev τ1)).
Proof. apply (linked_departures_founded (site cfg text b facts parse_fields) (cut_off cfg)). Qed.

(** ** Witnesses *)

(** A cluster with one account and one user in it, as [sacctmgr] prints it. *)
Definition fake_sacctmgr (command : list string) : string :=
  match command with
  | "show" :: "account" :: account :: _ =>
      if String.eqb account "alloc-1" then "alloc-1|an allocation|proj" else ""
  | "list" :: "associations" :: _ => "alloc-1||
alloc-1|alice|
"
  | "show" :: "association" :: "where" :: _ :: "account=alloc-1" :: _ => "hpc|alloc-1|alice|||||||cpu=5|"
  | "show" :: "association" :: _ => "alice|alloc-1
"
  | _ => ""
  end%string.

Definition site_answer {X} (c : siteE X) : res X :=
  match c in siteE X return res X with
  | Command c =>
      match c in commandE X return res X with
      | Execute argv _ => Ok (fake_sacctmgr (drop 4 argv))
      | CurrentMonth _ => Ok (2025, 6)%Z
      end
  | Elsewhere c => hpc_world [] None c
  end.

Definition site_world (outer : ∀ X, agentE X → unit → res X * unit) (X : Type) (c : linkedE siteE X) (w : unit)
  : res X * unit :=
  match c in linkedE _ X return res X * unit with
  | Outer c => outer _ c w
  | Inner c => (site_answer c, w)
  end.

Definition site_state : hpc_state * (list string * unit) := (fresh_state, ([], ())).

Definition run_slurm {A} (m : proc A) (p : processor_state) :=
  exec (site_world sweeping_world)
    (over_slurm SlurmClient.sample_slurm plain_text SlurmSettings.sample_slurm sample_facts no_quota m p
       site_state) ().

Definition site_sweep := run_slurm (process_requested_deletions sample_config) initial_state.

Lemma slurm_deletions_founded_witness :
  deletion_founded (cut_off SlurmClient.sample_slurm) sample_config "ou-1" (rev (but_last site_sweep.1.2)).
Proof.
  refine (slurm_deletions_founded SlurmClient.sample_slurm plain_text SlurmSettings.sample_slurm sample_facts
    no_quota sample_config initial_state site_state site_sweep.1.2 site_sweep.1.1
    (but_last site_sweep.1.2) [] "ou-1" (Ok 200%Z) _ _).
  - apply exec_runs.
  - vm_compute. reflexivity.
Defined.
