(* ===== verification/FederationClient.v ===== *)
(** * The client of another Waldur

    [plugins/waldur/waldur_site_agent_waldur/client.py: WaldurClient]: what the federation
    plugin asks of Waldur B, and the caches it keeps of the answers.  [targetE] are the
    endpoints of Waldur B; [federationE] adds what the backend asks of Waldur A, and the
    clock.  UUIDs are their 32 hexadecimal digits; where the code takes [str()] of one,
    [uuid_str] does. *)

From stdpp Require Import base list strings gmap.
From Stdlib Require Import ZArith Lia Ascii SpecFloat.
From S2P Require Import Prelude.
From S2P Require Import Texts.
From S2P Require Import Structures.
From S2P Require Import Agent.
From S2P Require Import BaseBackend.

Local Open Scope prog_scope.
Local Open Scope Z_scope.

(** ** Data *)

(** The fields of the API client's models that are read: a resource, a project, a row of a
    project's users, the answer to a new order, a usage and a sub-domain of science. *)
Record TargetResource : Type := {
  tr_uuid : field string;
  tr_name : field string;
  tr_project_uuid : field string;
  tr_backend_id : field string;
  tr_state : field ResourceState.t;
  tr_limits : field (list (string * Z));
  tr_end_date : field date;
  tr_end_date_updated_at : field Z;        (* an instant *)
}.

Record Project : Type := {
  p_uuid : field string;
  p_url : field string;
  p_name : field string;
  p_description : field string;
  p_oecd_fos_2007_code : field string;     (* the value of the enum; the blank member is "" *)
  p_is_industry : field bool;
  p_science_sub_domain_code : field string;
  p_end_date : field date;
  p_end_date_updated_at : field Z;
}.

Record UserRole : Type := { ur_uuid : field string; ur_user_uuid : field string; ur_role_name : field string }.

Record NewOrder : Type := { no_uuid : field string; no_resource_uuid : field string }.

Record ComponentUsage : Type := { cu_type : field string; cu_usage : field json }.

Record ComponentUserUsage : Type := {
  cuu_username : field string; cuu_component_type : field string; cuu_usage : field json;
}.

(** [PatchedProjectRequest], as far as it is sent: a field that is unset is left alone. *)
Record ProjectPatch : Type := {
  pt_description : field string;
  pt_oecd_fos_2007_code : field string;
  pt_is_industry : field bool;
  pt_science_sub_domain : field string;
  pt_end_date : field date;
}.

Definition no_patch : ProjectPatch :=
  {| pt_description := Unset; pt_oecd_fos_2007_code := Unset; pt_is_industry := Unset;
     pt_science_sub_domain := Unset; pt_end_date := Unset |}.

(** [None] in a request is null. *)
Definition nullable {A} (x : option A) : field A := match x with Some a => Val a | None => Null end.

(** ** Calls *)

Inductive targetE : Type → Type :=
| RolesList (name : string) : targetE (list string)
(* the status of the plans of an offering, and the body read as JSON *)
| PlansGet (offering : string) : targetE (Z * res json)
| OrdersCreate (offering_url project_url : string) (plan : json) (limits : list (string * Z))
    (attributes : list (string * json)) : targetE NewOrder
| UpdateLimits (resource : string) (limits : list (string * Z)) : targetE string
| Terminate (resource : string) : targetE string
| OrdersOf (resource : string) (type : RequestTypes.t) (states : list OrderState.t) : targetE (list string)
| OrdersRetrieve (order : string) : targetE (field OrderState.t)
| OrdersOfOffering (offering : string) (page_size : Z) : targetE unit
| ResourcesRetrieve (resource : string) (fields : option (list string)) : targetE (option TargetResource)
| ResourcesOfOffering (offering : string) : targetE (list TargetResource)
| ResourceSetEndDate (resource : string) (end_date : option date) : targetE Z
| ResourceTeam (resource : string) : targetE (list (field string))
| ProjectsList (backend_id : string) : targetE (list Project)
| ProjectsCreate (name customer backend_id description : string) (end_date : option date) : targetE Project
| ProjectsUpdate (project : string) (patch : ProjectPatch) : targetE Project
| ScienceSubDomains : targetE (list (field string * string))        (* code and UUID *)
| ProjectsAddUser (project user role : string) : targetE unit
| ProjectsDeleteUser (project user role : string) : targetE Z
| ProjectsListUsers (project : string) : targetE (list UserRole)
| TargetOfferingUsers (offering : string) (states : list OfferingUserState.t) (is_restricted : bool)
    : targetE (list OfferingUser)
| RemoteEduteams (cuid : string) : targetE (option string)
| IdentityBridge (payload : list (string * json)) : targetE (Z * res json)
| UsersList (key value : string) : targetE (list (field string))
| ComponentUsages (resource : string) (billing_period : option date) : targetE (list ComponentUsage)
| ComponentUserUsages (resource : string) (billing_period : option date)
    : targetE (list ComponentUserUsage).

Inductive federationE : Type → Type :=
| Target {X} (c : targetE X) : federationE X
(* Waldur A *)
| Own {X} (c : waldurE X) : federationE X
| SetEffectiveId (resource effective_id : string) : federationE unit
| SetEndDate (resource : string) (end_date : option date) : federationE Z
| SetProjectEndDate (project : string) (end_date : option date) : federationE Z
| SourceOfferingUsers (offering : string) (states : list OfferingUserState.t) : federationE (list OfferingUser)
(* a client for the offering, or the exception its construction raises *)
| SourceClient : federationE unit
| ExecutingOrders (offering : string) : federationE (list (string * field string))
| ResourcesWithBackendId (offering backend_id : string) : federationE (list WaldurResource)
(* the year and the month in the configured time zone *)
| CurrentMonth : federationE (Z * Z)
(* a method the plugin does not have *)
| Unsupported {X} (c : backendE X) : federationE X.

(** What the client, and the backend around it, remember. *)
Record federation_state : Type := {
  fs_roles : gmap string string;               (* _role_uuid_cache *)
  fs_plan_url : option json;                   (* _cached_plan_url, once it is set *)
  fs_projects : gmap string (option Project);  (* _project_cache *)
  fs_users : gmap string string;               (* _user_uuid_cache of the backend *)
  fs_pull : pull_state;
}.

Definition no_state : federation_state :=
  {| fs_roles := ∅; fs_plan_url := None; fs_projects := ∅; fs_users := ∅; fs_pull := no_pull |}.

Definition set_roles (f : gmap string string → gmap string string) (s : federation_state) : federation_state :=
  {| fs_roles := f (fs_roles s); fs_plan_url := fs_plan_url s; fs_projects := fs_projects s;
     fs_users := fs_users s; fs_pull := fs_pull s |}.
Definition set_plan_url (u : option json) (s : federation_state) : federation_state :=
  {| fs_roles := fs_roles s; fs_plan_url := u; fs_projects := fs_projects s;
     fs_users := fs_users s; fs_pull := fs_pull s |}.
Definition set_projects (f : gmap string (option Project) → gmap string (option Project))
    (s : federation_state) : federation_state :=
  {| fs_roles := fs_roles s; fs_plan_url := fs_plan_url s; fs_projects := f (fs_projects s);
     fs_users := fs_users s; fs_pull := fs_pull s |}.
Definition set_users (f : gmap string string → gmap string string) (s : federation_state) : federation_state :=
  {| fs_roles := fs_roles s; fs_plan_url := fs_plan_url s; fs_projects := fs_projects s;
     fs_users := f (fs_users s); fs_pull := fs_pull s |}.
Definition set_pull (p : pull_state) (s : federation_state) : federation_state :=
  {| fs_roles := fs_roles s; fs_plan_url := fs_plan_url s; fs_projects := fs_projects s;
     fs_users := fs_users s; fs_pull := p |}.

Abbreviation fed_m := (M federationE federation_state).

Definition target {S X} (c : targetE X) : M federationE S X := call (Target c).

Definition DEFAULT_PROJECT_ROLE_NAME : string := "PROJECT.ADMIN".

Definition IN_FLIGHT_ORDER_STATES : list OrderState.t :=
  [OrderState.PENDING_CONSUMER; OrderState.PENDING_PROJECT; OrderState.PENDING_PROVIDER;
   OrderState.PENDING_START_DATE; OrderState.EXECUTING].

(** [str(x) if x else ""] of a UUID, and [x or ""] of a text. *)
Definition uuid_or_empty (f : field string) : string :=
  match field_str f with Some u => uuid_str u | None => "" end.
Definition text_or_empty (f : field string) : string := default "" (field_str f).

(** ** URLs *)

(** [s.rstrip("/")] and [s.removesuffix(suffix)] *)
Fixpoint rstrip_slash (s : string) : string :=
  match s with
  | EmptyString => EmptyString
  | String c s => match rstrip_slash s with
                  | EmptyString => if Ascii.eqb c "/" then EmptyString else String c EmptyString
                  | s => String c s
                  end
  end.

Fixpoint remove_suffix (suffix s : string) : string :=
  if String.eqb s suffix then EmptyString
  else match s with
       | EmptyString => EmptyString
       | String c s => String c (remove_suffix suffix s)
       end.

(** What the client is constructed with. *)
Record WaldurClient : Type := { wc_api_url : string; wc_base_url : string; wc_offering_uuid : string }.

Definition init_client (api_url offering_uuid : string) : WaldurClient :=
  {| wc_api_url := rstrip_slash api_url; wc_base_url := remove_suffix "/api" (rstrip_slash api_url);
     wc_offering_uuid := offering_uuid |}.

Section Client.
(** [str()] of a JSON value. *)
Context (text : json → string) (w : WaldurClient).

Definition entity_url (kind uuid : string) : res string :=
  let? hex := uuid_of_text uuid in Ok (wc_base_url w +:+ "/api/" +:+ kind +:+ "/" +:+ hex +:+ "/").
Definition get_offering_url : res string := entity_url "marketplace-public-offerings" (wc_offering_uuid w).
Definition get_customer_url : string → res string := entity_url "customers".
Definition get_project_url : string → res string := entity_url "projects".

(** [UUID(s)] *)
Definition uuid {S} (s : string) : M federationE S string := of_res (uuid_of_text s).

(** ** Orders *)

(** [_get_role_uuid] *)
Definition get_role_uuid (role_name : string) : fed_m string :=
  let! s := get_st in
  match fs_roles s !! role_name with
  | Some uuid => ret uuid
  | None =>
      let! roles := target (RolesList role_name) in
      match roles with
      | [] => raise (ValueError ("Role " +:+ role_name +:+ " not found on Waldur B"))
      | role :: _ => modify_st (set_roles (insert role_name (uuid_str role))) ;! ret (uuid_str role)
      end
  end.

(** [plans[0].get("url")] of a body that is truthy. *)
Definition first_plan_url (body : json) : res json :=
  match body with
  | JArr (JObj plan :: _) => Ok (default JNull (obj_get plan "url"))
  | JArr _ | JStr _ => Err (AttributeError "get")
  | JObj _ => Err (KeyError "0")
  | _ => Err (TypeError "not subscriptable")
  end.

(** [_get_offering_plan_url] *)
Definition get_offering_plan_url : fed_m json :=
  let! s := get_st in
  match fs_plan_url s with
  | Some url => ret url
  | None =>
      let! found := attempt (
        let! offering := uuid (wc_offering_uuid w) in
        let! response := target (PlansGet offering) in
        if response.1 =? 200 then
          let! plans := of_res response.2 in
          if truthy plans then let! url := of_res (first_plan_url plans) in ret (Some url) else ret None
        else ret None) in
      match found with
      | Ok (Some url) => modify_st (set_plan_url (Some url)) ;! ret url
      | _ => modify_st (set_plan_url (Some JNull)) ;! ret JNull
      end
  end.

Definition create_marketplace_order (project_url offering_url : string) (limits : list (string * Z))
    (attributes : list (string * json)) : fed_m NewOrder :=
  let! plan_url := get_offering_plan_url in
  target (OrdersCreate offering_url project_url plan_url limits attributes).

Definition create_update_order (resource_uuid : string) (limits : list (string * Z)) : fed_m string :=
  target (UpdateLimits resource_uuid limits).

Definition create_terminate_order (resource_uuid : string) : fed_m string := target (Terminate resource_uuid).

Definition get_in_flight_order (resource_uuid : string) (type : RequestTypes.t) : fed_m (option string) :=
  let! orders := target (OrdersOf resource_uuid type IN_FLIGHT_ORDER_STATES) in
  ret (head orders).

Definition get_order (order_uuid : string) : fed_m (field OrderState.t) := target (OrdersRetrieve order_uuid).

(** ** Resources *)

Definition get_marketplace_resource (resource_uuid : string) (fields : option (list string))
  : fed_m (option TargetResource) := target (ResourcesRetrieve resource_uuid fields).

(** A resource whose fields are read: [None] has none. *)
Definition existing_resource (resource_uuid : string) : fed_m TargetResource :=
  let! resource := get_marketplace_resource resource_uuid None in
  match resource with Some r => ret r | None => raise (AttributeError "NoneType") end.

Definition set_resource_end_date (resource_uuid : string) (end_date : option date) : fed_m unit :=
  target (ResourceSetEndDate resource_uuid end_date) ;! ret ().

Definition as_client_resource (r : TargetResource) : ClientResource :=
  let text_of f := match f with Val s => uuid_str s | Null => "None"%string | Unset => "" end in
  {| cr_name := text_of (tr_uuid r); cr_description := from_option id "" (field_value (tr_name r));
     cr_organization := text_of (tr_project_uuid r); cr_backend_id := "" |}.

Definition list_resources : fed_m (list ClientResource) :=
  let! offering := uuid (wc_offering_uuid w) in
  let! resources := target (ResourcesOfOffering offering) in
  ret (map as_client_resource resources).

(** [except Exception] with a value instead. *)
Definition or_else {A} (fallback : A) (m : fed_m A) : fed_m A :=
  let! done := attempt m in ret (match done with Ok a => a | Err _ => fallback end).

Definition get_resource (resource_id : string) : fed_m (option ClientResource) :=
  or_else None (
    let! hex := uuid resource_id in
    let! resource := existing_resource hex in
    ret (Some (as_client_resource resource))).

Definition get_resource_limits (resource_id : string) : fed_m (list (string * Z)) :=
  or_else [] (
    let! hex := uuid resource_id in
    let! resource := existing_resource hex in
    ret (default [] (field_value (tr_limits resource)))).

(** ** Projects *)

Definition invalidate_project_caches : fed_m unit := modify_st (set_projects (λ _, ∅)).

(** [_fetch_b_project], which is [get_project_by_backend_id] *)
Definition fetch_b_project (backend_id : string) : fed_m (option Project) :=
  let! s := get_st in
  match fs_projects s !! backend_id with
  | Some project => ret project
  | None =>
      let! projects := target (ProjectsList backend_id) in
      modify_st (set_projects (insert backend_id (head projects))) ;!
      ret (head projects)
  end.

(** The dict [find_project_by_backend_id] answers. *)
Record project_summary : Type := {
  ps_uuid : string; ps_url : string; ps_name : string; ps_description : string;
  ps_oecd_fos_2007_code : option string; ps_is_industry : field bool;
  ps_science_sub_domain_code : option string;
}.

Definition summary_of (p : Project) : project_summary :=
  {| ps_uuid := uuid_or_empty (p_uuid p); ps_url := text_or_empty (p_url p);
     ps_name := text_or_empty (p_name p); ps_description := text_or_empty (p_description p);
     ps_oecd_fos_2007_code := field_str (p_oecd_fos_2007_code p); ps_is_industry := p_is_industry p;
     ps_science_sub_domain_code := field_str (p_science_sub_domain_code p) |}.

Definition find_project_by_backend_id (backend_id : string) : fed_m (option project_summary) :=
  or_else None (let! project := fetch_b_project backend_id in ret (summary_of <$> project)).

(** An [UnexpectedStatus] gives [None]; the first definition of the code is taken. *)
Definition find_science_sub_domain_by_code (code : string) : fed_m (option string) :=
  let! sub_domains := attempt (target ScienceSubDomains) in
  match sub_domains with
  | Ok l => ret (snd <$> head (List.filter (λ d, bool_decide (d.1 = Val code)) l))
  | Err (UnexpectedStatus _ _ _ _) => ret None
  | Err e => raise e
  end.

Definition create_project (customer_url name backend_id description : string) (end_date : option date)
  : fed_m project_summary :=
  let! project := target (ProjectsCreate name customer_url backend_id description end_date) in
  invalidate_project_caches ;!
  ret (summary_of project).

Definition update_project (project_uuid : string) (patch : ProjectPatch) : fed_m project_summary :=
  let! hex := uuid project_uuid in
  let! project := target (ProjectsUpdate hex patch) in
  invalidate_project_caches ;!
  ret (summary_of project).

Definition with_description (d : string) : ProjectPatch :=
  {| pt_description := Val d; pt_oecd_fos_2007_code := Unset; pt_is_industry := Unset;
     pt_science_sub_domain := Unset; pt_end_date := Unset |}.

Definition find_or_create_project (customer_url name backend_id description : string)
    (end_date : option date) : fed_m project_summary :=
  let! existing := find_project_by_backend_id backend_id in
  match existing with
  | Some project =>
      if nonempty description && negb (String.eqb (ps_description project) description)
      then update_project (ps_uuid project) (with_description description)
      else ret project
  | None => create_project customer_url name backend_id description end_date
  end.

Definition set_project_end_date (project_uuid : string) (end_date : option date) : fed_m unit :=
  target (ProjectsUpdate project_uuid
    {| pt_description := Unset; pt_oecd_fos_2007_code := Unset; pt_is_industry := Unset;
       pt_science_sub_domain := Unset; pt_end_date := nullable end_date |}) ;!
  invalidate_project_caches.

(** ** Users *)

Definition add_user_to_project (project_uuid user_uuid role_name : string) : fed_m unit :=
  let! role_uuid := get_role_uuid role_name in
  target (ProjectsAddUser project_uuid user_uuid role_uuid).

Definition remove_user_from_project (project_uuid user_uuid role_name : string) : fed_m unit :=
  let! role_uuid := get_role_uuid role_name in
  target (ProjectsDeleteUser project_uuid user_uuid role_uuid) ;!
  ret ().

Definition list_offering_users (offering_uuid : string) (states : list OfferingUserState.t)
  : fed_m (list OfferingUser) :=
  let! offering := uuid offering_uuid in
  target (TargetOfferingUsers offering states false).

Definition resolve_user_by_cuid (cuid : string) : fed_m (option string) :=
  or_else None (
    let! user := target (RemoteEduteams cuid) in
    match user with Some u => ret (Some u) | None => raise (AttributeError "uuid") end).

(** [v not in (None, "", [])] *)
Definition worth_sending (v : json) : bool :=
  match v with JNull => false | JStr s => nonempty s | JArr l => match l with [] => false | _ => true end | _ => true end.

Definition bridge_payload (username source : string) (attributes : list (string * json))
  : list (string * json) :=
  foldl (λ d kv, dict_set d kv.1 kv.2) [("username"%string, JStr username); ("source"%string, JStr source)]
    (List.filter (λ kv, worth_sending kv.2) attributes).

Definition resolve_user_via_identity_bridge (username source : string) (attributes : list (string * json))
  : fed_m (option string) :=
  or_else None (
    let! response := target (IdentityBridge (bridge_payload username source attributes)) in
    if negb ((200 <=? response.1) && (response.1 <? 300))
    then raise (HTTPStatusError response.1 "identity bridge")
    else
      let! data := of_res response.2 in
      match data with
      | JObj d =>
          let found := default JNull (obj_get d "uuid") in
          if truthy found then let! hex := uuid (text found) in ret (Some hex) else ret None
      | _ => raise (AttributeError "get")
      end).

Definition resolve_user_by_field (value key : string) : fed_m (option string) :=
  or_else None (
    let! users := target (UsersList key value) in
    ret (head users ≫= field_value)).

(** [list_resource_users]: nobody, when the team cannot be read. *)
Definition list_resource_users (resource_id : string) : fed_m (list string) :=
  or_else [] (
    let! hex := uuid resource_id in
    let! team := target (ResourceTeam hex) in
    ret (omap field_str team)).

Definition get_association (user resource_id : string) : fed_m (option Association) :=
  or_else None (
    let! hex := uuid resource_id in
    let! resource := existing_resource hex in
    match tr_project_uuid resource with
    | Unset => ret None
    | project =>
        let! users := target (ProjectsListUsers (default "None"%string (field_value project))) in
        if existsb (λ u, match field_str (ur_uuid u) with Some id => String.eqb (uuid_str id) user | None => false end)
             users
        then ret (Some {| as_account := resource_id; as_user := user; as_value := 0 |})
        else ret None
    end).

(** [ping] *)
Definition ping : fed_m bool :=
  let! offering := uuid (wc_offering_uuid w) in
  or_else false (
    target (ResourcesOfOffering offering) ;!
    target (OrdersOfOffering offering 1) ;!
    ret true).
End Client.
