(* ===== verification/FederationBackend.v ===== *)
(** * The federation backend

    [plugins/waldur/waldur_site_agent_waldur/backend.py: WaldurBackend]: a resource of Waldur
    A is a resource of Waldur B, created, changed and terminated by orders there.
    [federation_methods] is its method table over [BaseBackend]; what it guarantees is in
    [FederationSync] and [FederationOperations]. *)

From stdpp Require Import base list strings gmap sets.
From Stdlib Require Import ZArith Lia Ascii SpecFloat.
From S2P Require Import Prelude.
From S2P Require Import Texts.
From S2P Require Import Structures.
From S2P Require Import Agent.
From S2P Require Import Samples.
From S2P Require Import SpendingLimits.
From S2P Require Import OfferingUsers.
From S2P Require Import Numbers.
From S2P Require Import FloatInts.
From S2P Require Import ComponentMapping.
From S2P Require Import BaseBackend.
From S2P Require Import Linking.
From S2P Require Import FederationClient.

Local Open Scope prog_scope.
Local Open Scope Z_scope.

(** ** Settings *)

Inductive EndDateSyncDirection : Type := A_TO_B | B_TO_A | BIDIRECTIONAL | DISABLED.
Inductive LimitSyncDirection : Type := LIMITS_B_TO_A | LIMITS_DISABLED.

Global Instance EndDateSyncDirection_eq_dec : EqDecision EndDateSyncDirection.
Proof. solve_decision. Defined.
Global Instance LimitSyncDirection_eq_dec : EqDecision LimitSyncDirection.
Proof. solve_decision. Defined.

(** [EndDateSyncDirection(s)], [LimitSyncDirection(s)] *)
Definition end_date_sync_direction (s : string) : res EndDateSyncDirection :=
  if String.eqb s "a_to_b" then Ok A_TO_B
  else if String.eqb s "b_to_a" then Ok B_TO_A
  else if String.eqb s "bidirectional" then Ok BIDIRECTIONAL
  else if String.eqb s "disabled" then Ok DISABLED
  else Err (ValueError "not a valid EndDateSyncDirection").

Definition limit_sync_direction (s : string) : res LimitSyncDirection :=
  if String.eqb s "b_to_a" then Ok LIMITS_B_TO_A
  else if String.eqb s "disabled" then Ok LIMITS_DISABLED
  else Err (ValueError "not a valid LimitSyncDirection").

(** [WaldurBackendSettingsSchema], as far as it is read after the start. *)
Record federation_settings : Type := {
  fe_target_api_url : option string;
  fe_target_api_token : option string;
  fe_target_offering_uuid : option string;
  fe_target_customer_uuid : option string;
  fe_user_match_field : option string;
  fe_user_resolve_method : option string;
  fe_identity_bridge_source : option string;
  fe_user_not_found_action : option string;
  fe_role_mapping : option (gmap string string);
  fe_fetch_consented_users_only : option bool;
  fe_end_date_sync_direction : option string;
  fe_limit_sync_direction : option string;
  fe_passthrough_attributes : option (list string);
  fe_target_stomp_enabled : option bool;
}.

Record WaldurBackend : Type := {
  fb_client : WaldurClient;
  fb_target_offering_uuid : string;
  fb_target_customer_uuid : string;
  fb_user_match_field : string;
  fb_user_resolve_method : string;
  fb_identity_bridge_source : string;
  fb_user_not_found_action : string;
  fb_role_mapping : gmap string string;
  fb_fetch_consented_users_only : bool;
  fb_end_date_sync_direction : EndDateSyncDirection;
  fb_limit_sync_direction : LimitSyncDirection;
  fb_component_mapper : ComponentMapper;
  fb_passthrough_attributes : list string;
  fb_target_stomp_enabled : bool;
  fb_base : backend_config;                  (* what the class it extends read *)
}.

Definition required {A} (key : string) (x : option A) : res A :=
  match x with Some a => Ok a | None => Err (ValueError ("Missing required backend setting: " +:+ key)) end.

(** [__init__]; [base] is what [BaseBackend.__init__] made of the arguments. *)
Definition init (parse_float : json → res spec_float) (base : backend_config)
    (backend_components : list (string * json)) (s : federation_settings) : res WaldurBackend :=
  let? api_url := required "target_api_url" (fe_target_api_url s) in
  let? _ := required "target_api_token" (fe_target_api_token s) in
  let? offering := required "target_offering_uuid" (fe_target_offering_uuid s) in
  let? customer := required "target_customer_uuid" (fe_target_customer_uuid s) in
  let? dates := end_date_sync_direction (default "bidirectional"%string (fe_end_date_sync_direction s)) in
  let? limits := limit_sync_direction (default "b_to_a"%string (fe_limit_sync_direction s)) in
  let? mapper := build parse_float no_mapper backend_components in
  Ok {| fb_client := init_client api_url offering;
        fb_target_offering_uuid := offering;
        fb_target_customer_uuid := customer;
        fb_user_match_field := default "cuid"%string (fe_user_match_field s);
        fb_user_resolve_method := default "identity_bridge"%string (fe_user_resolve_method s);
        fb_identity_bridge_source := default ""%string (fe_identity_bridge_source s);
        fb_user_not_found_action := default "warn"%string (fe_user_not_found_action s);
        fb_role_mapping := default ∅ (fe_role_mapping s);
        fb_fetch_consented_users_only := default false (fe_fetch_consented_users_only s);
        fb_end_date_sync_direction := dates;
        fb_limit_sync_direction := limits;
        fb_component_mapper := mapper;
        fb_passthrough_attributes := default [] (fe_passthrough_attributes s);
        fb_target_stomp_enabled := default false (fe_target_stomp_enabled s);
        fb_base := base |}.

(** The flags of the class. *)
Definition federation_capabilities (b : WaldurBackend) : capabilities :=
  {| supports_cycle_preflight := true; supports_async_orders := true;
     supports_resource_api_keys := false; supports_resource_api_key_lifecycle := false;
     supports_spending_limit_periods := false; requires_source_project := true;
     requires_resource_key_assignees := false; shared_project_membership := true;
     skip_resource_team_diff := false;
     identity_bridge := String.eqb (fb_user_resolve_method b) "identity_bridge";
     fetch_consented_users_only := fb_fetch_consented_users_only b;
     team_fetch_attempts := 1; team_fetch_delay := 3;
     handled_resource_states := [ResourceState.OK; ResourceState.ERRED; ResourceState.CREATING] |}.

(** Fields of a resource of Waldur A that only this plugin reads; [rd_customer_uuid] is the
    text of the UUID. *)
Record resource_details : Type := {
  rd_customer_uuid : string;
  rd_project_description : field string;
  rd_project_end_date : field date;
  rd_end_date_updated_at : field Z;
  rd_effective_id : field string;
}.

(** What is read of the project of Waldur A that the processor fetched. *)
Record source_project : Type := {
  sp_oecd_fos_2007_code : field string;
  sp_is_industry : field bool;
  sp_science_sub_domain_code : field string;
  sp_end_date_updated_at : field Z;
}.

Section Backend.
Context (text : json → string) (b : WaldurBackend).
Context (details : WaldurResource → resource_details) (source : project_info → source_project).

Abbreviation client := (fb_client b).

(** [except UnexpectedStatus], logged. *)
Definition unless_unexpected_status {S} (m : M federationE S unit) : M federationE S unit :=
  let! done := attempt m in
  match done with
  | Err (UnexpectedStatus _ _ _ _) | Ok _ => ret ()
  | Err e => raise e
  end.

Definition ping : fed_m bool := or_else false (FederationClient.ping client).

Definition run_preflight : fed_m unit :=
  let! reachable := ping in
  if reachable : bool then ret ()
  else raise (BackendNotReadyError ("Waldur B not reachable at " +:+ wc_api_url client)).

(** ** Projects *)

Definition get_project_description (r : WaldurResource) : string :=
  from_option id "" (field_value (rd_project_description (details r))).

(** [f"{customer_uuid}_{project_uuid}"] *)
Definition project_backend_id (r : WaldurResource) : string :=
  rd_customer_uuid (details r) +:+ "_" +:+ uuid_str (res_project_uuid r).

(** An entry of [changes]. *)
Inductive change : Type :=
| NewDescription (description : string)
| NewOecdCode (code : option string)
| NewIndustryFlag (flag : field bool)
| NewSubDomain (uuid : option string).

Definition with_change (p : ProjectPatch) (c : change) : ProjectPatch :=
  match c with
  | NewDescription d =>
      {| pt_description := Val d; pt_oecd_fos_2007_code := pt_oecd_fos_2007_code p;
         pt_is_industry := pt_is_industry p; pt_science_sub_domain := pt_science_sub_domain p;
         pt_end_date := pt_end_date p |}
  | NewOecdCode c =>
      {| pt_description := pt_description p; pt_oecd_fos_2007_code := nullable c;
         pt_is_industry := pt_is_industry p; pt_science_sub_domain := pt_science_sub_domain p;
         pt_end_date := pt_end_date p |}
  | NewIndustryFlag flag =>
      {| pt_description := pt_description p; pt_oecd_fos_2007_code := pt_oecd_fos_2007_code p;
         pt_is_industry := flag; pt_science_sub_domain := pt_science_sub_domain p;
         pt_end_date := pt_end_date p |}
  | NewSubDomain u =>
      {| pt_description := pt_description p; pt_oecd_fos_2007_code := pt_oecd_fos_2007_code p;
         pt_is_industry := pt_is_industry p; pt_science_sub_domain := nullable u;
         pt_end_date := pt_end_date p |}
  end.

Definition patch_of (changes : list change) : ProjectPatch := foldl with_change no_patch changes.

Definition description_changes (r : WaldurResource) (existing : project_summary) : list change :=
  let description := get_project_description r in
  if nonempty description && negb (String.eqb (ps_description existing) description)
  then [NewDescription description] else [].

Definition source_changes (p : source_project) (existing : project_summary) : list change :=
  (if decide (field_str (sp_oecd_fos_2007_code p) = ps_oecd_fos_2007_code existing) then []
   else [NewOecdCode (field_str (sp_oecd_fos_2007_code p))]) ++
  (if decide (sp_is_industry p = ps_is_industry existing) then []
   else [NewIndustryFlag (sp_is_industry p)]).

Definition sub_domain_changes (p : source_project) (existing : project_summary) : fed_m (list change) :=
  let a_sub_domain_code := field_str (sp_science_sub_domain_code p) in
  if decide (a_sub_domain_code = ps_science_sub_domain_code existing) then ret []
  else match a_sub_domain_code with
       | None => ret [NewSubDomain None]
       | Some code =>
           let! found := find_science_sub_domain_by_code code in
           match found with
           | Some uuid => ret [NewSubDomain (Some uuid)]
           | None => ret []
           end
       end.

Definition sync_resource_project (r : WaldurResource) (source_project : option project_info) : fed_m unit :=
  if negb (nonempty (res_project_uuid r)) then ret ()
  else
    let! existing := find_project_by_backend_id (project_backend_id r) in
    match existing with
    | None => ret ()
    | Some existing =>
        let! changes :=
          match source_project with
          | None => ret (description_changes r existing)
          | Some p =>
              let! sub_domain := sub_domain_changes (source p) existing in
              ret (description_changes r existing ++ source_changes (source p) existing ++ sub_domain)
          end in
        match changes with
        | [] => ret ()
        | _ => unless_unexpected_status (update_project (ps_uuid existing) (patch_of changes) ;! ret ())
        end
    end.

(** ** Creating *)

Definition pre_create_resource (r : WaldurResource) : fed_m unit :=
  if negb (nonempty (res_project_uuid r)) then raise (BackendError "No project UUID in Waldur resource")
  else
    let project_name := match field_str (res_project_name r) with
                        | Some name => name
                        | None => "Project " +:+ uuid_str (res_project_uuid r)
                        end in
    let project_end_date :=
      if decide (fb_end_date_sync_direction b = DISABLED) then None
      else field_value (rd_project_end_date (details r)) in
    let! customer_url := of_res (get_customer_url client (fb_target_customer_uuid b)) in
    let! project := find_or_create_project customer_url project_name (project_backend_id r)
                      (get_project_description r) project_end_date in
    if nonempty (ps_uuid project) then ret ()
    else raise (BackendError "Failed to find or create project on Waldur B").

(** [_collect_resource_limits]: the limits of the configured components, in their order. *)
Definition collect_resource_limits (r : WaldurResource) : list (string * Z) :=
  match res_limits r with
  | None => []
  | Some limits =>
      omap (λ c, pair c.1 <$> limits !! c.1) (bb_components (fb_base b))
  end.

Definition forwarded (attributes : list (string * json)) (attrs : list (string * json)) (key : string)
  : list (string * json) :=
  match dict_get attrs key with Some v => dict_set attributes key v | None => attributes end.

(** The attributes of the order for a resource. *)
Definition order_attributes (r : WaldurResource) : list (string * json) :=
  let named := [("name"%string, JStr (res_name r))] in
  let passed := match res_attributes r with
                | Some attrs => foldl (λ d key, forwarded d attrs key) named (fb_passthrough_attributes b)
                | None => named
                end in
  match res_end_date r with
  | Val d => dict_set passed "end_date"%string (JStr (isoformat d))
  | _ => passed
  end.

Definition created_on_target (target_resource_uuid target_order_uuid : string) (limits : list (string * Z))
  : BackendResourceInfo :=
  {| info_backend_id := target_resource_uuid; info_parent_id := ""; info_effective_id := "";
     info_users := []; info_usage := []; info_limits := list_to_map limits;
     info_pending_order_id := target_order_uuid; info_backend_metadata := ∅; info_endpoints := [] |}.

(** [create_resource_with_id]; the id asked for is only logged. *)
Definition create_resource_with_id (r : WaldurResource) (resource_backend_id : string)
    (ctx : option user_context) : fed_m BackendResourceInfo :=
  pre_create_resource r ;!
  let waldur_limits := collect_resource_limits r in
  let! target_limits := of_res (convert_limits_to_target (fb_component_mapper b) waldur_limits) in
  let! project := find_project_by_backend_id (project_backend_id r) in
  match project with
  | None => raise (BackendError ("Project not found on Waldur B for backend_id=" +:+ project_backend_id r))
  | Some project =>
      let! project_url := of_res (get_project_url client (ps_uuid project)) in
      let! offering_url := of_res (get_offering_url client) in
      let! ordered := attempt (create_marketplace_order client project_url offering_url target_limits
                                 (order_attributes r)) in
      match ordered with
      | Err (UnexpectedStatus status url content text) =>
          if status =? 400 then raise (BackendError ("Target Waldur rejected order (HTTP 400): " +:+ content))
          else raise (UnexpectedStatus status url content text)
      | Err e => raise e
      | Ok order =>
          match field_str (no_uuid order), field_str (no_resource_uuid order) with
          | None, _ => raise (BackendError "Order created but no UUID returned")
          | _, None => raise (BackendError "Order created but no marketplace_resource_uuid returned")
          | Some order_uuid, Some resource_uuid =>
              ret (created_on_target (uuid_str resource_uuid) (uuid_str order_uuid) waldur_limits)
          end
      end
  end.

Definition TERMINAL_ERROR_STATES : list OrderState.t :=
  [OrderState.ERRED; OrderState.CANCELED; OrderState.REJECTED].

Definition check_pending_order (order_backend_id : string) : fed_m bool :=
  let! state := attempt (let! hex := uuid order_backend_id in get_order hex) in
  match state with
  | Err (UnexpectedStatus status url content text) =>
      if 500 <=? status then raise (BackendNotReadyError "Waldur B temporarily unavailable")
      else raise (UnexpectedStatus status url content text)
  | Err e => raise e
  | Ok (Val state) =>
      if decide (state = OrderState.DONE) then ret true
      else if decide (state ∈ TERMINAL_ERROR_STATES)
           then raise (BackendError ("Target order " +:+ order_backend_id +:+ " failed"))
           else ret false
  | Ok _ => ret false
  end.

(** ** Terminating *)

(** [_adopt_in_flight_terminate_order] *)
Definition adopt_in_flight_terminate_order (resource_uuid : string) : fed_m string :=
  let! order := get_in_flight_order resource_uuid RequestTypes.TERMINATE in
  match order with
  | None => raise (BackendError "no in-flight TERMINATE order was found")
  | Some order => ret (uuid_str order)
  end.

Definition delete_resource (r : WaldurResource) : fed_m (option string) :=
  if blank (res_backend_id r) then ret None
  else
    let! resource_uuid := uuid (res_backend_id r) in
    let! found := attempt (get_marketplace_resource resource_uuid None) in
    match found with
    | Err _ => ret None
    | Ok None => raise (AttributeError "state")
    | Ok (Some b_resource) =>
        match tr_state b_resource with
        | Val ResourceState.TERMINATED => ret None
        | Val ResourceState.TERMINATING =>
            let! order := adopt_in_flight_terminate_order resource_uuid in ret (Some order)
        | Val ResourceState.CREATING | Val ResourceState.UPDATING =>
            raise (BackendNotReadyError "cannot terminate yet")
        | Val ResourceState.OK | Val ResourceState.ERRED =>
            let! order_uuid := create_terminate_order resource_uuid in ret (Some (uuid_str order_uuid))
        | Unset => raise (BackendError "no state")
        | _ => raise (BackendError "unexpected state")
        end
    end.

(** ** Limits *)

(** The limits are those already: never of no limits at all. *)
Definition in_sync (target_limits current_limits : list (string * Z)) : bool :=
  match target_limits with
  | [] => false
  | _ => forallb (λ l, bool_decide (dict_get current_limits l.1 = Some l.2)) target_limits
  end.

Definition set_resource_limits (resource_backend_id : string) (limits : gmap string Z)
  : fed_m (option string) :=
  let! target_limits := of_res (convert_limits_to_target (fb_component_mapper b) (map_to_list limits)) in
  let! current_limits := get_resource_limits resource_backend_id in
  if in_sync target_limits current_limits then ret None
  else
    let! hex := uuid resource_backend_id in
    let! order_uuid := create_update_order hex target_limits in
    ret (Some (uuid_str order_uuid)).

Fixpoint floats_of (l : list (string * Z)) : res (list (string * pynum)) :=
  match l with
  | [] => Ok []
  | (key, value) :: l => let? f := to_float (PyInt value) in let? l := floats_of l in Ok ((key, PyFloat f) :: l)
  end.

Definition get_resource_limits (resource_backend_id : string) : fed_m (gmap string Z) :=
  let! target_limits := FederationClient.get_resource_limits resource_backend_id in
  match target_limits with
  | [] => ret ∅
  | _ =>
      let! source_limits := of_res (
        let? floats := floats_of target_limits in
        let? converted := convert_usage_from_target (fb_component_mapper b) floats in
        all_ints converted) in
      ret (list_to_map source_limits)
  end.

(** ** Effective ids *)

Definition get_effective_id (resource_backend_id : string) : fed_m string :=
  or_else "" (
    let! hex := uuid resource_backend_id in
    let! resource := get_marketplace_resource hex (Some ["backend_id"%string]) in
    ret (match resource with Some r => text_or_empty (tr_backend_id r) | None => "" end)).

Definition sync_resource_effective_id (r : WaldurResource) : fed_m unit :=
  if negb (nonempty (res_backend_id r)) then ret ()
  else
    let! effective_id := get_effective_id (res_backend_id r) in
    if negb (nonempty effective_id) || bool_decide (rd_effective_id (details r) = Val effective_id) then ret ()
    else call (SetEffectiveId (res_uuid r) effective_id).

(** ** Usage *)

(** [float(raw) if raw else 0.0] *)
Definition usage_value (raw : field json) : res spec_float :=
  match raw with
  | Val v => if truthy v then float_of_json v else Ok f64_zero
  | _ => Ok f64_zero
  end.

Definition add_component_usage (d : list (string * pynum)) (u : ComponentUsage)
  : res (list (string * pynum)) :=
  let? x := usage_value (cu_usage u) in
  match field_str (cu_type u) with
  | Some component => accumulate d component (PyFloat x)
  | None => Ok d
  end.

Abbreviation user_amounts := (list (string * list (string * pynum))).

Definition add_user_usage (d : user_amounts) (u : ComponentUserUsage) : res user_amounts :=
  let? x := usage_value (cuu_usage u) in
  match field_str (cuu_username u), field_str (cuu_component_type u) with
  | Some username, Some component =>
      let? mine := accumulate (default [] (dict_get d username)) component (PyFloat x) in
      Ok (dict_set d username mine)
  | _, _ => Ok d
  end.

(** [round(value, 2)] *)
Definition rounded_amount (x : pynum) : spec_float :=
  match x with PyInt z => FloatInts.float_of_Z z | PyFloat f => round2 f end.

Definition with_all_components (d : list (string * pynum)) : list (string * pynum) :=
  foldl (λ d c, match dict_get d c.1 with Some _ => d | None => dict_set d c.1 (PyFloat f64_zero) end)
    d (bb_components (fb_base b)).

(** The totals of a resource, and with them the usage of its users. *)
Definition total_usage (component_usages : list ComponentUsage) : res (list (string * pynum)) :=
  let? target_total := rfold add_component_usage component_usages [] in
  let? total := convert_usage_from_target (fb_component_mapper b) target_total in
  Ok (with_all_components total).

Definition usage_of (total : list (string * pynum)) (user_usages : list ComponentUserUsage) : res usage :=
  let? per_user := rfold add_user_usage user_usages [] in
  let? report := rfold (λ report u,
      let? amounts := convert_usage_from_target (fb_component_mapper b) u.2 in
      Ok (dict_set report u.1 amounts))
    per_user [("TOTAL_ACCOUNT_USAGE"%string, total)] in
  Ok (map (λ u, (u.1, map (λ c, (c.1, rounded_amount c.2)) u.2)) report).

Definition get_single_resource_usage (resource_id : string) (billing_period : date) : fed_m usage :=
  let! hex := uuid resource_id in
  let! component_usages := target (ComponentUsages hex (Some billing_period)) in
  let! total := of_res (total_usage component_usages) in
  let! user_usages := target (ComponentUserUsages hex (Some billing_period)) in
  of_res (usage_of total user_usages).

(** [get_usage_report_for_period]: a resource that cannot be read used nothing. *)
Definition get_usage_report_for_period (backend_ids : list string) (year month : Z)
  : fed_m (list (string * usage)) :=
  fold_m backend_ids (λ report resource_id,
    let! resource_report :=
      or_else (empty_usage (fb_base b)) (get_single_resource_usage resource_id (first_day year month)) in
    ret (dict_set report resource_id resource_report)) [].

Definition get_usage_report (backend_ids : list string) : fed_m (list (string * usage)) :=
  let! now := call CurrentMonth in
  get_usage_report_for_period backend_ids now.1 now.2.

(** ** Pulling *)

Definition pulled_info (backend_id effective_id : string) (users : list string) (u : usage)
  : BackendResourceInfo :=
  {| info_backend_id := backend_id; info_parent_id := ""; info_effective_id := effective_id;
     info_users := users; info_usage := u; info_limits := ∅; info_pending_order_id := "";
     info_backend_metadata := ∅; info_endpoints := [] |}.

(** [_pull_backend_resource] *)
Definition pull_backend_resource (resource_backend_id : string) : fed_m (option BackendResourceInfo) :=
  let! hex := uuid resource_backend_id in
  let! resource := get_marketplace_resource hex None in
  match resource with
  | None => ret None
  | Some resource =>
      let! users := list_resource_users resource_backend_id in
      let! report := get_usage_report [resource_backend_id] in
      ret (Some (pulled_info resource_backend_id (text_or_empty (tr_backend_id resource)) users
                   (default (empty_usage (fb_base b)) (dict_get report resource_backend_id))))
  end.

Definition pull_resource : WaldurResource → fed_m (option BackendResourceInfo) :=
  pull_resource_with fs_pull pull_backend_resource.

Definition pull_resources : list WaldurResource → bool → bool → fed_m pulled_report :=
  pull_resources_with fs_pull set_pull pull_resource.

(** ** Users *)

Definition map_role (source_role : string) : string :=
  default source_role (fb_role_mapping b !! source_role).

Definition is_user_field (f : string) : bool := String.eqb f "email" || String.eqb f "username".

(** The lookup [_resolve_remote_user] makes when it remembers nothing. *)
Definition lookup_remote_user (local_username : string) (attributes : list (string * json))
  : fed_m (option string) :=
  let method := fb_user_resolve_method b in
  let match_field := fb_user_match_field b in
  if String.eqb method "identity_bridge" then
    if nonempty (fb_identity_bridge_source b)
    then resolve_user_via_identity_bridge text local_username (fb_identity_bridge_source b) attributes
    else ret None
  else if String.eqb method "user_field" then
    resolve_user_by_field local_username (if is_user_field match_field then match_field else "username"%string)
  else if String.eqb method "remote_eduteams" then
    if String.eqb match_field "cuid" then resolve_user_by_cuid local_username
    else if is_user_field match_field then resolve_user_by_field local_username match_field
    else ret None
  else ret None.

Definition resolve_remote_user (local_username : string) (attributes : list (string * json))
  : fed_m (option string) :=
  let! s := get_st in
  match fs_users s !! local_username with
  | Some user => ret (Some user)
  | None =>
      let! remote_uuid := lookup_remote_user local_username attributes in
      match remote_uuid with
      | Some user => modify_st (set_users (insert local_username user)) ;! ret (Some user)
      | None =>
          if String.eqb (fb_user_not_found_action b) "fail"
          then raise (BackendError ("User " +:+ local_username +:+ " not found on Waldur B"))
          else ret None
      end
  end.

(** [_get_resource_project_uuid] *)
Definition get_resource_project_uuid (resource_backend_id : string) : fed_m (option string) :=
  or_else None (
    let! hex := uuid resource_backend_id in
    let! resource := existing_resource hex in
    ret (field_str (tr_project_uuid resource))).

(** [kwargs.get(...) or default] *)
Definition text_or (x : option string) (fallback : string) : string :=
  match x with Some s => if nonempty s then s else fallback | None => fallback end.

(** [add_user] and [remove_user] *)
Definition change_user (change : string → string → string → fed_m unit) (r : WaldurResource)
    (username role_name : string) (cuid : option string) : fed_m bool :=
  let! project_uuid := get_resource_project_uuid (res_backend_id r) in
  match project_uuid with
  | None => ret false
  | Some project_uuid =>
      let! user := resolve_remote_user (text_or cuid username) [] in
      match user with
      | None => ret false
      | Some user =>
          change project_uuid user (map_role (text_or (Some role_name) DEFAULT_PROJECT_ROLE_NAME)) ;!
          ret true
      end
  end.

Definition add_user : WaldurResource → string → string → option string → fed_m bool :=
  change_user add_user_to_project.
Definition remove_user : WaldurResource → string → string → option string → fed_m bool :=
  change_user remove_user_from_project.

Definition add_one (project_uuid : string) (kw : user_kwargs) (username : string) : fed_m bool :=
  let identity := default username (kw_user_cuids kw !! username) in
  let attributes := map_to_list (default ∅ (kw_user_attributes kw !! username)) in
  let! user := resolve_remote_user identity attributes in
  match user with
  | None => ret false
  | Some user =>
      let source_role := default DEFAULT_PROJECT_ROLE_NAME (kw_user_roles kw !! username) in
      add_user_to_project project_uuid user (map_role source_role) ;!
      ret true
  end.

Definition add_users_to_resource (r : WaldurResource) (user_ids : gset string) (kw : user_kwargs)
  : fed_m (gset string) :=
  match elements user_ids with
  | [] => ret ∅
  | users =>
      let! project_uuid := get_resource_project_uuid (res_backend_id r) in
      match project_uuid with
      | None => ret ∅
      | Some project_uuid =>
          fold_m users (λ added username,
            let! done := or_else false (add_one project_uuid kw username) in
            ret (if done : bool then {[username]} ∪ added else added)) ∅
      end
  end.

Definition role_of (d : gmap string string) (u : UserRole) : gmap string string :=
  match field_str (ur_user_uuid u), field_str (ur_role_name u) with
  | Some user, Some role => <[user := role]> d
  | _, _ => d
  end.

(** [_fetch_b_side_roles] *)
Definition fetch_b_side_roles (project_uuid : string) : fed_m (gmap string string) :=
  or_else ∅ (
    let! users := target (ProjectsListUsers project_uuid) in
    ret (foldl role_of ∅ users)).

Definition remove_one (project_uuid : string) (b_roles : gmap string string) (kw : user_kwargs)
    (username : string) : fed_m bool :=
  let identity := default username (kw_user_cuids kw !! username) in
  let! user := resolve_remote_user identity [] in
  match user with
  | None => ret false
  | Some user =>
      let source_role := text_or (kw_user_roles kw !! username) "" in
      let target_role := if nonempty source_role then map_role source_role
                         else default ""%string (b_roles !! user) in
      if nonempty target_role
      then remove_user_from_project project_uuid user target_role ;! ret true
      else ret false
  end.

Definition remove_users_from_resource (r : WaldurResource) (usernames : gset string) (kw : user_kwargs)
  : fed_m (list string) :=
  match elements usernames with
  | [] => ret []
  | users =>
      let! project_uuid := get_resource_project_uuid (res_backend_id r) in
      match project_uuid with
      | None => ret []
      | Some project_uuid =>
          let! b_roles := fetch_b_side_roles project_uuid in
          fold_m users (λ removed username,
            let! done := or_else false (remove_one project_uuid b_roles kw username) in
            ret (if done : bool then removed ++ [username] else removed)) []
      end
  end.

(** The body of the loop of [reconcile_existing_user_roles]; a removal that fails with a
    backend error leaves the role, an addition that does is half of an update. *)
Definition reconcile_role (project_uuid : string) (b_roles : gmap string string)
    (user_roles user_cuids : gmap string string) (username : string) : fed_m unit :=
  let source_role := text_or (user_roles !! username) "" in
  if negb (nonempty source_role) then ret ()
  else
    let expected_role := map_role source_role in
    let! user := resolve_remote_user (default username (user_cuids !! username)) [] in
    match user with
    | None => ret ()
    | Some user =>
        match b_roles !! user with
        | None => ret ()
        | Some current_role =>
            if String.eqb current_role expected_role then ret ()
            else
              let! revoked := attempt (remove_user_from_project project_uuid user current_role) in
              match revoked with
              | Err e => if is_backend_error e then ret () else raise e
              | Ok _ =>
                  let! granted := attempt (add_user_to_project project_uuid user expected_role) in
                  match granted with
                  | Err e => if is_backend_error e then ret () else raise e
                  | Ok _ => ret ()
                  end
              end
        end
    end.

Definition reconcile_existing_user_roles (r : WaldurResource) (existing_users : gset string)
    (user_roles user_cuids : gmap string string) : fed_m unit :=
  if negb (map_truthy user_roles) then ret ()
  else
    let! project_uuid := get_resource_project_uuid (res_backend_id r) in
    match project_uuid with
    | None => ret ()
    | Some project_uuid =>
        let! b_roles := fetch_b_side_roles project_uuid in
        for_each (elements existing_users) (reconcile_role project_uuid b_roles user_roles user_cuids)
    end.

(** ** Usernames of offering users *)

Definition username_pair (d : list (string * string)) (u : OfferingUser) : list (string * string) :=
  match field_str (ou_user_username u) with
  | Some user_username => if nonempty (ou_username u) then dict_set d user_username (ou_username u) else d
  | None => d
  end.

(** The user name on Waldur B that differs from the one of an account of Waldur A. *)
Definition username_update (b_usernames : list (string * string)) (a_ou : OfferingUser) : option string :=
  match field_str (ou_user_username a_ou) with
  | None => None
  | Some a_user_username =>
      match dict_get b_usernames a_user_username with
      | None => None
      | Some b_username => if String.eqb (ou_username a_ou) b_username then None else Some b_username
      end
  end.

Definition sync_offering_user_usernames (waldur_a_offering_uuid : string) : fed_m bool :=
  or_else false (
    let! waldur_b_offering_users := list_offering_users (fb_target_offering_uuid b) [OfferingUserState.OK] in
    match foldl username_pair [] waldur_b_offering_users with
    | [] => ret false
    | b_usernames =>
        let! offering := uuid waldur_a_offering_uuid in
        let! waldur_a_offering_users := call (SourceOfferingUsers offering
              [OfferingUserState.OK; OfferingUserState.CREATING; OfferingUserState.REQUESTED]) in
        fold_m waldur_a_offering_users (λ changed a_ou,
          match username_update b_usernames a_ou with
          | None => ret changed
          | Some b_username =>
              call (Own (OfferingUserSetUsername (ou_uuid a_ou) b_username)) ;!
              ret true
          end) false
    end).

(** ** End dates *)

(** [_decide_end_date_sync_direction]: [Some true] when Waldur A wins. *)
Definition decide_end_date_sync_direction (a_end_date b_end_date : option date)
    (a_updated_at b_updated_at : option Z) : option bool :=
  match fb_end_date_sync_direction b with
  | DISABLED => None
  | direction =>
      if decide (a_end_date = b_end_date) then None
      else match direction with
           | A_TO_B => Some true
           | B_TO_A => Some false
           | _ =>
               match a_updated_at, b_updated_at with
               | Some a, Some b => if b <? a then Some true else if a <? b then Some false else None
               | Some _, None => Some true
               | None, Some _ => Some false
               | None, None => None
               end
           end
  end.

Definition sync_resource_end_date (r : WaldurResource) : fed_m unit :=
  unless_unexpected_status (
    if decide (fb_end_date_sync_direction b = DISABLED) then ret ()
    else if negb (nonempty (res_backend_id r)) then ret ()
    else
      let a_end_date := field_value (res_end_date r) in
      let! hex := uuid (res_backend_id r) in
      let! b_resource := existing_resource hex in
      let b_end_date := field_value (tr_end_date b_resource) in
      match decide_end_date_sync_direction a_end_date b_end_date
              (field_value (rd_end_date_updated_at (details r)))
              (field_value (tr_end_date_updated_at b_resource)) with
      | None => ret ()
      | Some true => set_resource_end_date hex a_end_date
      | Some false => call (SetEndDate (res_uuid r) b_end_date) ;! ret ()
      end).

Definition sync_project_end_date (r : WaldurResource) (source_project : option project_info) : fed_m unit :=
  unless_unexpected_status (
    if decide (fb_end_date_sync_direction b = DISABLED) then ret ()
    else if negb (nonempty (res_project_uuid r)) || negb (nonempty (rd_customer_uuid (details r))) then ret ()
    else
      let a_end_date := field_value (rd_project_end_date (details r)) in
      let! b_project := fetch_b_project (project_backend_id r) in
      match b_project with
      | None => ret ()
      | Some b_project =>
          let b_end_date := field_value (p_end_date b_project) in
          let a_updated_at :=
            if decide (fb_end_date_sync_direction b = BIDIRECTIONAL)
            then source_project ≫= λ p, field_value (sp_end_date_updated_at (source p))
            else None in
          match decide_end_date_sync_direction a_end_date b_end_date a_updated_at
                  (field_value (p_end_date_updated_at b_project)) with
          | None => ret ()
          | Some true =>
              let! hex := uuid (uuid_or_empty (p_uuid b_project)) in
              set_project_end_date hex a_end_date
          | Some false => call (SetProjectEndDate (res_project_uuid r) b_end_date) ;! ret ()
          end
      end).

(** ** The method table *)

Definition list_resources : fed_m (list BackendResourceInfo) :=
  let! resources := FederationClient.list_resources client in
  ret (map (λ c, pulled_info (cr_name c) "" [] []) resources).

(** The client calls and the hooks of [BaseBackend], as this class has them. *)
Definition hooks (X : Type) (c : clientE X) : fed_m X :=
  match c in clientE X return fed_m X with
  | ClientListResources => FederationClient.list_resources client
  | ClientGetResource resource_id => get_resource resource_id
  | ClientCreateResource _ _ _ _ | ClientDeleteResource _ | ClientSetResourceLimits _ _
  | ClientSetResourceUserLimits _ _ _ | ClientCreateAssociation _ _ _ | ClientDeleteAssociation _ _ => ret ()
  | ClientGetResourceLimits resource_id =>
      let! limits := FederationClient.get_resource_limits resource_id in ret (list_to_map limits)
  | ClientGetResourceUserLimits _ => ret ∅
  | ClientGetAssociation user resource_id => get_association user resource_id
  | ClientListResourceUsers resource_id => list_resource_users resource_id
  | Ping => ping
  | GetUsageReport backend_ids => get_usage_report backend_ids
  | CollectResourceLimits r =>
      let limits := list_to_map (collect_resource_limits r) in ret (limits, limits)
  | PreCreateResource r _ => pre_create_resource r
  | OnBackendResourceCreated _ _ | PreDeleteResource _ | PostDeleteResource _ | PreDeleteUserActions _ _ => ret ()
  | PostCreateResource info _ _ => ret info
  | Plugin c => call (Unsupported c)
  | OwnWaldur c => call (Own c)
  end.

(** A method of [BaseBackend] that calls nothing this class overrides but the hooks. *)
Definition inherited {A} (m : backend_m A) : fed_m A := λ s,
  pbind (interp hooks (m (fs_pull s)) s) (λ '(s', (pull, r)), Ret (set_pull pull s', r)).

Definition federation_methods (X : Type) (c : backendE X) : fed_m X :=
  match c in backendE X return fed_m X with
  | RunPreflight => run_preflight
  | CheckPendingOrder order_backend_id => check_pending_order order_backend_id
  | CreateResourceWithId r backend_id ctx =>
      let! info := create_resource_with_id r backend_id (Some ctx) in ret (Some info)
  | PullResource r => pull_resource r
  | PullResources rs include_usage strict => pull_resources rs include_usage strict
  | RecreateMissingResource r => recreate_missing_with hooks create_resource_with_id r
  | SetResourceLimits backend_id limits => set_resource_limits backend_id limits
  | GetResourceLimits backend_id => get_resource_limits backend_id
  | DeleteResource r _ => delete_resource r
  | AddUsersToResource r users kw => add_users_to_resource r users kw
  | RemoveUsersFromResource r users kw =>
      let! gone := remove_users_from_resource r users kw in ret (RemovedNames gone)
  | AddUser r username role_name cuid => add_user r username role_name cuid
  | RemoveUser r username role_name cuid => remove_user r username role_name cuid
  | ReconcileExistingUserRoles r users roles cuids => reconcile_existing_user_roles r users roles cuids
  | PauseResource _ | DownscaleResource _ | RestoreResource _ => ret true
  | GetResourceMetadata backend_id => ret {["waldur_b_resource_uuid"%string := JStr backend_id]}
  | SyncResourceProject r p => sync_resource_project r p
  | SyncProjectEndDate r p => sync_project_end_date r p
  | SyncResourceEndDate r => sync_resource_end_date r
  | SyncResourceEffectiveId r => sync_resource_effective_id r
  | SyncResourceLimits r =>
      if decide (fb_limit_sync_direction b = LIMITS_DISABLED) then ret ()
      else sync_waldur_limits_with hooks get_resource_limits r
  | SyncOfferingUserUsernames offering_uuid => sync_offering_user_usernames offering_uuid
  | RemoteWaldurBaseUrls => ret [wc_base_url client]
  | c => inherited (base_backend (fb_base b) c)
  end.
End Backend.

(** ** Concrete values *)

Definition sample_hex (c : ascii) : string :=
  String.concat "" (repeat (String c EmptyString) 32).

(** A backend that passes every component on and matches users by their name. *)
Definition sample_federation (direction : EndDateSyncDirection) : WaldurBackend :=
  {| fb_client := init_client "https://b.example.org/api/" (sample_hex "a");
     fb_target_offering_uuid := sample_hex "a"; fb_target_customer_uuid := sample_hex "c";
     fb_user_match_field := "username"; fb_user_resolve_method := "user_field";
     fb_identity_bridge_source := ""; fb_user_not_found_action := "warn";
     fb_role_mapping := {["PROJECT.ADMIN"%string := "PROJECT.MANAGER"%string]};
     fb_fetch_consented_users_only := false;
     fb_end_date_sync_direction := direction; fb_limit_sync_direction := LIMITS_B_TO_A;
     fb_component_mapper := no_mapper; fb_passthrough_attributes := []; fb_target_stomp_enabled := true;
     fb_base := {| bb_type := "waldur"; bb_components := [("cpu"%string, None)]; bb_soft_delete := JBool false;
                   bb_default_account := "root"; bb_allocation_prefix := ""; bb_project_prefix := "";
                   bb_customer_prefix := "" |} |}.

Definition sample_details (r : WaldurResource) : resource_details :=
  {| rd_customer_uuid := uuid_str (sample_hex "c"); rd_project_description := Val "Climate models"%string;
     rd_project_end_date := Unset; rd_end_date_updated_at := Val 20; rd_effective_id := Unset |}.

Definition sample_target_resource : TargetResource :=
  {| tr_uuid := Val (sample_hex "b"); tr_name := Val "alloc"%string; tr_project_uuid := Val (sample_hex "d");
     tr_backend_id := Val "slurm-1"%string; tr_state := Val ResourceState.OK; tr_limits := Val [("cpu"%string, 4)];
     tr_end_date := Val {| d_year := 2026; d_month := 1; d_day := 31 |}; tr_end_date_updated_at := Val 10 |}.

Definition sample_project : Project :=
  {| p_uuid := Val (sample_hex "d"); p_url := Val "https://b.example.org/api/projects/d/"%string;
     p_name := Val "Climate"%string; p_description := Unset; p_oecd_fos_2007_code := Null;
     p_is_industry := Val false; p_science_sub_domain_code := Null; p_end_date := Null;
     p_end_date_updated_at := Null |}.

Definition sample_federated : WaldurResource := with_backend_id sample_resource (uuid_str (sample_hex "b")).
