(* ===== verification/FederationSync.v ===== *)
(** * What two Waldurs agree on

    The synchronisations of [FederationBackend]: end dates, the metadata of projects and the
    user names of offering users.  Each writes only what differs, from what was just read, and
    finds nothing left to do once its write has arrived. *)

From stdpp Require Import base list strings gmap sets.
From Stdlib Require Import ZArith Lia Ascii SpecFloat.
From S2P Require Import Prelude.
From S2P Require Import Texts.
From S2P Require Import Structures.
From S2P Require Import Agent.
From S2P Require Import Samples.
From S2P Require Import OfferingUsers.
From S2P Require Import ComponentMapping.
From S2P Require Import BaseBackend.
From S2P Require Import FederationClient.
From S2P Require Import FederationBackend.

Local Open Scope prog_scope.
Local Open Scope Z_scope.

Lemma uuid_error s e : uuid_of_text s = Err e → ∃ m, e = ValueError m.
Proof. unfold uuid_of_text. destruct (_ && _); [done|]. intros [= <-]. by eexists. Qed.

Lemma uuid_nonempty s hex : uuid_of_text s = Ok hex → nonempty s = true.
Proof. by destruct s. Qed.

Lemma guarded_elem {E X} (G : guard E) H τ (c : E X) answer :
  guarded G H τ → Ev c answer ∈ τ → ∃ τ1, G X (rev τ1 ++ H) c.
Proof. intros Hg (τ1 & τ2 & ->)%list_elem_of_split. exists τ1. by eapply guarded_split. Qed.

(** The resource of Waldur B that an event read, whole. *)
Definition resource_read (ev : event federationE) : option (string * TargetResource) :=
  match ev with
  | Ev c answer =>
      match c in federationE X return res X → option (string * TargetResource) with
      | Target c =>
          match c in targetE X return res X → option (string * TargetResource) with
          | ResourcesRetrieve hex None => λ answer,
              match answer with Ok (Some resource) => Some (hex, resource) | _ => None end
          | _ => λ _, None
          end
      | _ => λ _, None
      end answer
  end.

(** ** End dates *)

Section EndDates.
Context (b : WaldurBackend) (details : WaldurResource → resource_details).

(** The direction lets Waldur A's date win over Waldur B's, by the times of the changes. *)
Definition a_may_win (a_updated_at b_updated_at : option Z) : Prop :=
  match fb_end_date_sync_direction b with
  | A_TO_B => True
  | BIDIRECTIONAL =>
      match a_updated_at, b_updated_at with
      | Some a, Some b => b < a
      | Some _, None => True
      | None, _ => False
      end
  | _ => False
  end.
Definition b_may_win (a_updated_at b_updated_at : option Z) : Prop :=
  match fb_end_date_sync_direction b with
  | B_TO_A => True
  | BIDIRECTIONAL =>
      match a_updated_at, b_updated_at with
      | Some a, Some b => a < b
      | None, Some _ => True
      | _, None => False
      end
  | _ => False
  end.

(** The decision is the direction's, and none where the dates agree. *)
Lemma decision_spec a_end_date b_end_date a_updated_at b_updated_at :
  match decide_end_date_sync_direction b a_end_date b_end_date a_updated_at b_updated_at with
  | Some true => a_end_date ≠ b_end_date ∧ a_may_win a_updated_at b_updated_at
  | Some false => a_end_date ≠ b_end_date ∧ b_may_win a_updated_at b_updated_at
  | None => a_end_date = b_end_date ∨ ¬ (a_may_win a_updated_at b_updated_at ∨ b_may_win a_updated_at b_updated_at)
  end.
Proof.
  unfold decide_end_date_sync_direction, a_may_win, b_may_win.
  destruct (fb_end_date_sync_direction b); try (right; tauto);
    (case_decide; [by left|]); try done.
  destruct a_updated_at as [x|], b_updated_at as [y|]; try done; [|right; tauto].
  destruct (y <? x) eqn:?, (x <? y) eqn:?; split || right; lia || done.
Qed.

Lemma decision_agreed d a_updated_at b_updated_at :
  decide_end_date_sync_direction b d d a_updated_at b_updated_at = None.
Proof.
  unfold decide_end_date_sync_direction. destruct (fb_end_date_sync_direction b); try done; by rewrite decide_True.
Qed.

Section Resource.
Context (r : WaldurResource).

(** The calls of a pass over a resource's end date: one read, then the date of one side for
    the other, where they differ and the direction has it win. *)
Definition end_date_guard : guard federationE := λ X H c,
  let a_end_date := field_value (res_end_date r) in
  let a_updated_at := field_value (rd_end_date_updated_at (details r)) in
  let read hex b_resource :=
    uuid_of_text (res_backend_id r) = Ok hex ∧ resource_read <$> H = [Some (hex, b_resource)] in
  match c with
  | Target (ResourcesRetrieve hex None) => H = [] ∧ uuid_of_text (res_backend_id r) = Ok hex
  | Target (ResourceSetEndDate hex d) => ∃ b_resource, read hex b_resource ∧
      d = a_end_date ∧ field_value (tr_end_date b_resource) ≠ d ∧
      a_may_win a_updated_at (field_value (tr_end_date_updated_at b_resource))
  | SetEndDate uuid d => ∃ hex b_resource, read hex b_resource ∧
      uuid = res_uuid r ∧ d = field_value (tr_end_date b_resource) ∧ a_end_date ≠ d ∧
      b_may_win a_updated_at (field_value (tr_end_date_updated_at b_resource))
  | _ => False
  end.

(** The pass writes, and so ends, by the dates that it read. *)
Definition end_date_settled (out : res unit) (H : trace federationE) : Prop :=
  out = Ok () →
  match H with
  | Ev c _ :: _ =>
      match c with
      | Target (ResourceSetEndDate _ _) | SetEndDate _ _ => True
      | _ => ∀ hex b_resource, resource_read <$> H = [Some (hex, b_resource)] →
          let a := field_value (res_end_date r) in let b_date := field_value (tr_end_date b_resource) in
          let ta := field_value (rd_end_date_updated_at (details r)) in
          let tb := field_value (tr_end_date_updated_at b_resource) in
          a = b_date ∨ ¬ (a_may_win ta tb ∨ b_may_win ta tb)
      end
  | [] => fb_end_date_sync_direction b = DISABLED ∨ res_backend_id r = ""
  end.

Lemma sync_end_date_guarded s :
  wpM end_date_guard (sync_resource_end_date b details r) (λ out _ H, end_date_settled out H) s [].
Proof.
  unfold sync_resource_end_date, unless_unexpected_status. wp_steps.
  case_decide as Hd; [wp_steps; by left|].
  destruct (nonempty (res_backend_id r)) eqn:Hn; cbn [negb]; cycle 1.
  { wp_steps. right. destruct (decide (res_backend_id r = "")) as [|Hx]; [done|].
    apply nonempty_spec in Hx. congruence. }
  wp_steps. unfold uuid. destruct (uuid_of_text (res_backend_id r)) as [hex|e] eqn:Hu; cbn [of_res]; wp_steps; cycle 1.
  { apply uuid_error in Hu as [m ->]. by wp_steps. }
  unfold existing_resource, get_marketplace_resource, target. wp_steps.
  apply wpM_call; [done|]. intros [[b_resource|]|e]; wp_steps; [|done|by destruct e; wp_steps].
  pose proof (decision_spec (field_value (res_end_date r)) (field_value (tr_end_date b_resource))
    (field_value (rd_end_date_updated_at (details r))) (field_value (tr_end_date_updated_at b_resource))) as Hdec.
  destruct (decide_end_date_sync_direction _ _ _ _ _) as [[]|]; destruct Hdec as [Hne Hwin] || rename Hdec into Hagree.
  - unfold set_resource_end_date, target. wp_steps. apply wpM_call; [by exists b_resource|].
    intros [st|e]; wp_steps; [done|by destruct e; wp_steps].
  - wp_steps. apply wpM_call; [by exists hex, b_resource|]. intros [st|e]; wp_steps; [done|by destruct e; wp_steps].
  - wp_steps. by intros _ hex' br [= <- <-].
Qed.
End Resource.
End EndDates.

Section EndDatesSettle.
Context (b : WaldurBackend) (details : WaldurResource → resource_details).

(** Where the dates agree, a pass only reads. *)
Lemma agreed_date_is_left r hex b_resource s :
  fb_end_date_sync_direction b ≠ DISABLED → nonempty (res_backend_id r) = true →
  uuid_of_text (res_backend_id r) = Ok hex →
  field_value (res_end_date r) = field_value (tr_end_date b_resource) →
  runs (sync_resource_end_date b details r s)
    [Ev (Target (ResourcesRetrieve hex None)) (Ok (Some b_resource))] (s, Ok ()).
Proof.
  intros Hd Hn Hu Ha. unfold sync_resource_end_date. rewrite decide_False by done. rewrite Hn.
  unfold uuid. rewrite Hu. cbn. apply runs_step; [done|]. cbn. by rewrite Ha, decision_agreed.
Qed.

(** C21: a synchronisation of a resource's end date reads the resource on Waldur B once and
    writes at most one date: the date of one side, to the other one, where the two differ and
    the configured direction -- the later change, when it is bidirectional -- has that side
    win; where it writes nothing and ends, the dates agree or the direction decides for none.
    Once a date that was written is read back, the next synchronisation writes nothing. *)
Theorem end_dates_follow_direction r s τ s' out :
  runs (sync_resource_end_date b details r s) τ (s', out) →
  guarded (end_date_guard b details r) [] τ ∧
  end_date_settled b details r out (rev τ) ∧
  (∀ hex d status b_resource s2,
     Ev (Target (ResourceSetEndDate hex d)) (Ok status) ∈ τ → field_value (tr_end_date b_resource) = d →
     runs (sync_resource_end_date b details r s2)
       [Ev (Target (ResourcesRetrieve hex None)) (Ok (Some b_resource))] (s2, Ok ())) ∧
  (∀ uuid d status hex b_resource r' s2,
     Ev (SetEndDate uuid d) (Ok status) ∈ τ →
     res_backend_id r' = res_backend_id r → uuid_of_text (res_backend_id r) = Ok hex →
     field_value (res_end_date r') = d → field_value (tr_end_date b_resource) = d →
     runs (sync_resource_end_date b details r' s2)
       [Ev (Target (ResourcesRetrieve hex None)) (Ok (Some b_resource))] (s2, Ok ())).
Proof.
  intros Hr. destruct (wp_sound _ _ _ _ _ _ (sync_end_date_guarded b details r s) Hr) as [Hs Hg].
  rewrite app_nil_r in Hs. split; [done|]. split; [done|].
  assert (Hwins : ∀ ta tb, a_may_win b ta tb ∨ b_may_win b ta tb → fb_end_date_sync_direction b ≠ DISABLED).
  { unfold a_may_win, b_may_win. intros ta tb Hw Hd. rewrite Hd in Hw. tauto. }
  split.
  - intros hex d status b_resource s2 Hin Hb.
    destruct (guarded_elem _ _ _ _ _ Hg Hin) as (τ1 & br & [Hu _] & -> & _ & Hw).
    eapply agreed_date_is_left; eauto using uuid_nonempty.
  - intros uuid d status hex b_resource r' s2 Hin Hid Hu Ha Hb.
    destruct (guarded_elem _ _ _ _ _ Hg Hin) as (τ1 & hex' & br & _ & _ & _ & _ & Hw).
    rewrite <- Hid in Hu. eapply agreed_date_is_left; eauto using uuid_nonempty. by rewrite Ha.
Qed.
End EndDatesSettle.

(** ** The metadata of a project *)

Section Projects.
Context (details : WaldurResource → resource_details) (source : project_info → source_project).
Context (r : WaldurResource) (source_project : option project_info).
Implicit Types (H : trace federationE) (p : Project).

Abbreviation id := (project_backend_id details r).
Abbreviation description := (get_project_description details r).

(** The project of the resource on Waldur B: remembered, or the first that was listed. *)
Definition known_project (s : federation_state) H p : Prop :=
  fs_projects s !! id = Some (Some p) ∨ ∃ ps, Ev (Target (ProjectsList id)) (Ok (p :: ps)) ∈ H.

Definition sub_domain_listed H (code uuid : string) : Prop :=
  ∃ l, Ev (Target ScienceSubDomains) (Ok l) ∈ H ∧ (Val code, uuid) ∈ l.

(** Waldur B answered that it has no sub-domain of the code, or refused to list them. *)
Definition sub_domain_missing H (code : string) : Prop :=
  (∃ l, Ev (Target ScienceSubDomains) (Ok l) ∈ H ∧ ∀ uuid, (Val code, uuid) ∉ l) ∨
  ∃ status url detail m, Ev (Target ScienceSubDomains) (Err (UnexpectedStatus status url detail m)) ∈ H.

(** What a patch says of the code of the sub-domain, [a] on Waldur A and [b] on Waldur B. *)
Definition sub_domain_wanted H (a b : option string) (f : field string) : Prop :=
  match f with
  | Unset => a = b ∨ ∃ code, a = Some code ∧ sub_domain_missing H code
  | Null => a = None ∧ b ≠ None
  | Val uuid => ∃ code, a = Some code ∧ a ≠ b ∧ sub_domain_listed H code uuid
  end.

(** A patch carries the fields that differ, and nothing else. *)
Definition patch_wanted H p (patch : ProjectPatch) : Prop :=
  let e := summary_of p in
  pt_end_date patch = Unset ∧
  pt_description patch =
    (if nonempty description && negb (String.eqb (ps_description e) description) then Val description else Unset) ∧
  match source_project with
  | None => pt_oecd_fos_2007_code patch = Unset ∧ pt_is_industry patch = Unset ∧ pt_science_sub_domain patch = Unset
  | Some q =>
      let a := source q in
      pt_oecd_fos_2007_code patch =
        (if decide (field_str (sp_oecd_fos_2007_code a) = ps_oecd_fos_2007_code e) then Unset
         else nullable (field_str (sp_oecd_fos_2007_code a))) ∧
      pt_is_industry patch =
        (if decide (sp_is_industry a = ps_is_industry e) then Unset else sp_is_industry a) ∧
      sub_domain_wanted H (field_str (sp_science_sub_domain_code a)) (ps_science_sub_domain_code e)
        (pt_science_sub_domain patch)
  end.

(** There is no project of the resource on Waldur B, or it could not be looked up. *)
Definition no_project (s : federation_state) H : Prop :=
  fs_projects s !! id = Some None ∨ Ev (Target (ProjectsList id)) (Ok []) ∈ H ∨
  ∃ e, Ev (Target (ProjectsList id)) (Err e) ∈ H.

(** What a synchronisation that succeeds has done: where a field differs, it patched. *)
Definition metadata_pushed (s : federation_state) H : Prop :=
  res_project_uuid r = "" ∨ no_project s H ∨
  ∃ p, known_project s H p ∧
    (patch_wanted H p no_patch ∨
     ∃ hex patch a, Ev (Target (ProjectsUpdate hex patch)) a ∈ H ∧ patch_wanted H p patch).

Definition project_guard (s : federation_state) : guard federationE := λ X H c,
  match c with
  | Target (ProjectsList backend_id) => backend_id = id
  | Target ScienceSubDomains => is_Some source_project
  | Target (ProjectsUpdate hex patch) =>
      ∃ p, known_project s H p ∧ uuid_of_text (uuid_or_empty (p_uuid p)) = Ok hex ∧ patch_wanted H p patch
  | _ => False
  end.

Lemma known_project_later s H H' p : H ⊆ H' → known_project s H p → known_project s H' p.
Proof. intros HH [?|(ps & Hin)]; [by left|right; exists ps; by apply HH]. Qed.

(** The patch that an event has carried out. *)
Definition carried_out (ev : event federationE) : option (string * ProjectPatch) :=
  match ev with
  | Ev c answer =>
      match c in federationE X return res X → option (string * ProjectPatch) with
      | Target c =>
          match c in targetE X return res X → option (string * ProjectPatch) with
          | ProjectsUpdate hex patch => λ answer, match answer with Ok _ => Some (hex, patch) | Err _ => None end
          | _ => λ _, None
          end
      | _ => λ _, None
      end answer
  end.

Abbreviation no_update H := (omap carried_out H = []).

Lemma find_project_spec s s0 H :
  fs_projects s = fs_projects s0 → no_update H →
  wpM (project_guard s0) (find_project_by_backend_id id)
    (λ out _ H', H ⊆ H' ∧ no_update H' ∧
       (∀ e, out = Ok (Some e) → ∃ p, e = summary_of p ∧ known_project s0 H' p) ∧
       (out = Ok None → no_project s0 H')) s H.
Proof.
  intros Hs Hn. unfold find_project_by_backend_id, or_else, fetch_b_project, target. wp_steps. rewrite Hs.
  destruct (fs_projects s0 !! id) as [[p|]|] eqn:Hp; wp_steps.
  - do 2 (split; [done|]). split; [|done]. intros e [= <-]. exists p. split; [done|]. by left.
  - do 3 (split; [done|]). intros _. by left.
  - apply wpM_call; [done|]. intros [ps|e]; wp_steps; (split; [set_solver|]); (split; [done|]); split.
    + intros e He. destruct ps as [|p ps]; simpl in He; [done|]. injection He as <-. exists p. split; [done|].
      right. exists ps. left.
    + destruct ps; [|done]. intros _. right; left. left.
    + done.
    + intros _. right; right. exists e. left.
Qed.
Lemma sub_domain_changes_spec s0 q existing s H :
  source_project = Some q → no_update H →
  wpM (project_guard s0) (sub_domain_changes (source q) existing)
    (λ out _ H', H ⊆ H' ∧ no_update H' ∧ ∀ changes, out = Ok changes →
       (changes = [] ∨ ∃ u, changes = [NewSubDomain u]) ∧
       sub_domain_wanted H' (field_str (sp_science_sub_domain_code (source q))) (ps_science_sub_domain_code existing)
         (pt_science_sub_domain (patch_of changes))) s H.
Proof.
  intros Hq Hn. unfold sub_domain_changes, find_science_sub_domain_by_code, target.
  case_decide as Hc; [wp_steps; do 2 (split; [done|]); intros ? [= <-]; split; [by left|by left]|].
  destruct (field_str _) as [code|] eqn:Hcode; wp_steps.
  - apply wpM_call; [by exists q|]. intros [l|e]; wp_steps.
    + destruct (head _) as [[c u]|] eqn:Hh; cbn [fmap option_fmap option_map]; wp_steps;
        (split; [set_solver|]); (split; [done|]); intros ? [= <-].
      * split; [right; by exists (Some u)|]. exists code. do 2 (split; [done|]). exists l. split; [left|].
        apply head_Some_elem_of, list_elem_of_In, filter_In in Hh as [Hin Hb]. apply bool_decide_eq_true in Hb.
        simpl in Hb. subst. by apply list_elem_of_In.
      * split; [by left|]. right. exists code. split; [done|]. left. exists l. split; [left|].
        intros u Hin. assert (Hf : (Val code, u) ∈ List.filter (λ d : field string * string, bool_decide (d.1 = Val code)) l).
        { apply list_elem_of_In, filter_In. split; [by apply list_elem_of_In|]. by apply bool_decide_eq_true. }
        destruct (List.filter _ l); [by apply elem_of_nil in Hf|done].
    + destruct e; wp_steps; (split; [set_solver|]); (split; [done|]); intros ? [= <-].
      split; [by left|]. right. exists code. split; [done|]. right. do 4 eexists. left.
  - do 2 (split; [done|]). intros ? [= <-]. split; [right; by exists None|]. split; [done|congruence].
Qed.
(** The changes as a patch, field by field. *)
Lemma patch_of_changes q existing sub :
  (sub = [] ∨ ∃ u, sub = [NewSubDomain u]) →
  let patch := patch_of (description_changes details r existing ++ source_changes q existing ++ sub) in
  pt_end_date patch = Unset ∧
  pt_description patch =
    (if nonempty description && negb (String.eqb (ps_description existing) description) then Val description else Unset) ∧
  pt_oecd_fos_2007_code patch =
    (if decide (field_str (sp_oecd_fos_2007_code q) = ps_oecd_fos_2007_code existing) then Unset
     else nullable (field_str (sp_oecd_fos_2007_code q))) ∧
  pt_is_industry patch = (if decide (sp_is_industry q = ps_is_industry existing) then Unset else sp_is_industry q) ∧
  pt_science_sub_domain patch = pt_science_sub_domain (patch_of sub).
Proof.
  intros Hsub. unfold description_changes, source_changes.
  destruct (_ && _), (decide (field_str _ = _)), (decide (sp_is_industry q = _)), Hsub as [->|[u ->]]; done.
Qed.

Lemma patch_of_description existing :
  let patch := patch_of (description_changes details r existing) in
  pt_end_date patch = Unset ∧
  pt_description patch =
    (if nonempty description && negb (String.eqb (ps_description existing) description) then Val description else Unset) ∧
  pt_oecd_fos_2007_code patch = Unset ∧ pt_is_industry patch = Unset ∧ pt_science_sub_domain patch = Unset.
Proof. unfold description_changes. by destruct (_ && _). Qed.

(** A patch that was carried out leaves no project remembered. *)
Definition forgotten (s : federation_state) H : Prop := omap carried_out H ≠ [] → fs_projects s = ∅.

Lemma nothing_forgotten s H : no_update H → forgotten s H.
Proof. intros Hn Hc. by destruct Hc. Qed.

Lemma missing_later H H' code : H ⊆ H' → sub_domain_missing H code → sub_domain_missing H' code.
Proof.
  intros HH [(l & ? & ?)|(st & u & d & m & ?)]; [left; exists l; split; [by apply HH|done]|right].
  exists st, u, d, m. by apply HH.
Qed.

Lemma wanted_later H H' p patch : H ⊆ H' → patch_wanted H p patch → patch_wanted H' p patch.
Proof.
  intros HH (He & Hd & Hr). split; [done|]. split; [done|]. destruct source_project as [q|]; [|done].
  destruct Hr as (Ho & Hi & Hs). do 2 (split; [done|]).
  destruct (pt_science_sub_domain patch) as [| |u]; [|done|].
  - destruct Hs as [?|(code & ? & ?)]; [by left|right]. exists code. split; [done|]. by eapply missing_later.
  - destruct Hs as (code & Ha & Hne & l & Hl & Hin). exists code. do 2 (split; [done|]). exists l.
    split; [by apply HH|done].
Qed.

Lemma update_spec s0 p hex patch s H :
  known_project s0 H p → uuid_of_text (uuid_or_empty (p_uuid p)) = Ok hex → patch_wanted H p patch →
  wpM (project_guard s0) (unless_unexpected_status (update_project (uuid_or_empty (p_uuid p)) patch ;! ret ()))
    (λ _ s' H', (no_update H → forgotten s' H') ∧ H ⊆ H' ∧ ∃ a, Ev (Target (ProjectsUpdate hex patch)) a ∈ H') s H.
Proof.
  intros Hp Hu Hw. unfold unless_unexpected_status, update_project, uuid, invalidate_project_caches, target.
  rewrite Hu. wp_steps. apply wpM_call; [by exists p|]. intros a.
  set (H1 := Ev _ a :: H). assert (H ⊆ H1 ∧ ∃ a, Ev (Target (ProjectsUpdate hex patch)) a ∈ H1)
    by (split; [set_solver|exists a; left]).
  destruct a as [p'|e]; wp_steps; [done|]. destruct e; wp_steps; (split; [|done]); intros Hn; by apply nothing_forgotten.
Qed.

Lemma sync_project_guarded s :
  wpM (project_guard s) (sync_resource_project details source r source_project)
    (λ out s' H, forgotten s' H ∧ (out = Ok () → metadata_pushed s H)) s [].
Proof.
  unfold sync_resource_project. destruct (nonempty (res_project_uuid r)) eqn:Hr; cbn [negb].
  2:{ wp_steps. split; [by apply nothing_forgotten|]. intros _. left. apply dec_stable.
      rewrite <- nonempty_spec, Hr. done. }
  wp_step. eapply wpM_mono; [by apply (find_project_spec s s [])|].
  intros [[e|]|e] s1 H1 (Hs1 & Hn1 & He & Hnone); cbv iota.
  2:{ wp_steps. split; [by apply nothing_forgotten|]. intros _. right; left. by apply Hnone. }
  2:{ split; [by apply nothing_forgotten|done]. }
  destruct (He e eq_refl) as (p & -> & Hp). wp_step.
  assert (Hgo : ∀ changes s2 H2, known_project s H2 p → no_update H2 → patch_wanted H2 p (patch_of changes) →
    wpM (project_guard s)
      (match changes with
       | [] => ret ()
       | _ => unless_unexpected_status (update_project (ps_uuid (summary_of p)) (patch_of changes) ;! ret ())
       end) (λ out s' H, forgotten s' H ∧ (out = Ok () → metadata_pushed s H)) s2 H2).
  { intros changes s2 H2 Hk Hn Hw. destruct changes as [|c changes].
    - wp_steps. split; [by apply nothing_forgotten|]. intros _. right; right. exists p. split; [done|]. by left.
    - cbn [ps_uuid summary_of]. destruct (uuid_of_text (uuid_or_empty (p_uuid p))) as [hex|err] eqn:Hu.
      + eapply wpM_mono; [by eapply update_spec|]. intros out s3 H3 (Hf & HH & a & Ha).
        split; [by apply Hf|]. intros _. right; right. exists p. split; [by eapply known_project_later|].
        right. exists hex, (patch_of (c :: changes)), a. split; [done|by eapply wanted_later].
      + unfold unless_unexpected_status, update_project, uuid. rewrite Hu. wp_steps.
        apply uuid_error in Hu as [m ->]. wp_steps. split; [by apply nothing_forgotten|done]. }
  destruct source_project as [q|] eqn:Hq.
  - wp_step. eapply wpM_mono; [by eapply (sub_domain_changes_spec s q)|].
    intros [sub|err] s2 H2 (Hs2 & Hn2 & Hsub); cbv iota.
    + destruct (Hsub sub eq_refl) as [Hshape Hwanted]. wp_steps. apply Hgo; [by eapply known_project_later|done|].
      destruct (patch_of_changes (source q) (summary_of p) sub Hshape) as (? & ? & ? & ? & Hpt).
      unfold patch_wanted. rewrite Hq, Hpt. done.
    + split; [by apply nothing_forgotten|done].
  - wp_steps. apply Hgo; [done|done|]. unfold patch_wanted. rewrite Hq. apply patch_of_description.
Qed.
(** The project after a patch, as far as it is asked about: fields that are not set stay; a
    sub-domain has the code it was listed under. *)
Definition or_old {A} (new old : field A) : field A := match new with Unset => old | _ => new end.

Definition patched H p (patch : ProjectPatch) (p' : Project) : Prop :=
  p_description p' = or_old (pt_description patch) (p_description p) ∧
  p_oecd_fos_2007_code p' = or_old (pt_oecd_fos_2007_code patch) (p_oecd_fos_2007_code p) ∧
  p_is_industry p' = or_old (pt_is_industry patch) (p_is_industry p) ∧
  match pt_science_sub_domain patch with
  | Unset => p_science_sub_domain_code p' = p_science_sub_domain_code p
  | Null => field_str (p_science_sub_domain_code p') = None
  | Val uuid => ∀ code, sub_domain_listed H code uuid → p_science_sub_domain_code p' = Val code
  end.

Lemma field_str_nullable f : field_str (nullable (field_str f)) = field_str f.
Proof. destruct f as [| |t]; simpl; [done..|]. destruct (nonempty t) eqn:Ht; simpl; [by rewrite Ht|done]. Qed.

(** Nothing differs any more. *)
Lemma patched_agrees H p patch p' :
  patch_wanted H p patch → patched H p patch p' →
  (∀ q, source_project = Some q → sp_is_industry (source q) ≠ Unset ∧
     (pt_science_sub_domain patch = Unset →
      field_str (sp_science_sub_domain_code (source q)) = field_str (p_science_sub_domain_code p))) →
  description_changes details r (summary_of p') = [] ∧
  ∀ q, source_project = Some q → source_changes (source q) (summary_of p') = [] ∧
    field_str (sp_science_sub_domain_code (source q)) = ps_science_sub_domain_code (summary_of p').
Proof.
  intros (_ & Hd & Hrest) (Pd & Po & Pi & Ps) Hq. rewrite Hd in Pd. split.
  { unfold description_changes. cbn [ps_description summary_of] in *. rewrite Pd.
    destruct (nonempty description) eqn:Hn; [|done]. cbn [andb] in *.
    destruct (String.eqb (text_or_empty (p_description p)) description) eqn:He; cbn [negb or_old andb].
    - by rewrite He.
    - unfold text_or_empty. cbn [field_str]. rewrite Hn. simpl. by rewrite String.eqb_refl. }
  intros q Hs. rewrite Hs in Hrest. destruct Hrest as (Ho & Hi & Hsub). destruct (Hq q Hs) as [Hset Hcode].
  unfold source_changes. cbn [ps_oecd_fos_2007_code ps_is_industry ps_science_sub_domain_code summary_of] in *.
  rewrite Ho in Po. rewrite Hi in Pi. split.
  - rewrite Po, Pi. destruct (decide (field_str (sp_oecd_fos_2007_code (source q)) = _)) as [Heq|Hne]; cbn [or_old].
    + rewrite (decide_True _ _ Heq). destruct (decide (sp_is_industry (source q) = p_is_industry p)) as [Hx|Hx]; cbn [or_old].
      * by rewrite (decide_True _ _ Hx).
      * rewrite decide_True; [done|]. by destruct (sp_is_industry (source q)).
    + rewrite decide_True.
      2: { rewrite <- (field_str_nullable (sp_oecd_fos_2007_code (source q))) at 1. by destruct (field_str (sp_oecd_fos_2007_code (source q))). }
      destruct (decide (sp_is_industry (source q) = p_is_industry p)) as [Hx|Hx]; cbn [or_old].
      * by rewrite (decide_True _ _ Hx).
      * rewrite decide_True; [done|]. by destruct (sp_is_industry (source q)).
  - destruct (pt_science_sub_domain patch) as [| |u]; simpl in Hsub.
    + rewrite Ps. by apply Hcode.
    + rewrite Ps. by destruct Hsub.
    + destruct Hsub as (code & Ha & _ & Hl). rewrite (Ps code Hl), Ha. simpl.
      destruct (sp_science_sub_domain_code (source q)) as [| |t]; simpl in Ha; try done.
      destruct (nonempty t) eqn:Ht; [|done]. injection Ha as <-. by rewrite Ht.
Qed.
Lemma agreeing_project_is_left s p' ps :
  nonempty (res_project_uuid r) = true → fs_projects s = ∅ →
  description_changes details r (summary_of p') = [] →
  (∀ q, source_project = Some q → source_changes (source q) (summary_of p') = [] ∧
    field_str (sp_science_sub_domain_code (source q)) = ps_science_sub_domain_code (summary_of p')) →
  runs (sync_resource_project details source r source_project s)
    [Ev (Target (ProjectsList id)) (Ok (p' :: ps))] (set_projects (insert id (Some p')) s, Ok ()).
Proof.
  intros Hn Hs Hd Hq. unfold sync_resource_project. rewrite Hn. cbn [negb].
  unfold find_project_by_backend_id, or_else, fetch_b_project. cbn. rewrite Hs, lookup_empty. cbn.
  apply runs_step; [done|]. cbn [pbind]. destruct source_project as [q|]; cbn -[description_changes summary_of]; rewrite ?Hd.
  - destruct (Hq q eq_refl) as [Hc Hcode]. unfold sub_domain_changes. rewrite decide_True by done. cbn -[summary_of].
    by rewrite Hc.
  - done.
Qed.

(** C22: a synchronisation of the metadata of a project asks only for the project of the
    resource's own id, and patches only the project it was answered, with exactly the
    non-empty description and the fields of the project of Waldur A that differ: a
    description that is empty on Waldur A is not carried, and a sub-domain of science is
    carried as the one Waldur B lists under its code, and left only where Waldur B has none of
    that code or refused the listing.  A run that succeeds has patched where a field differs,
    unless Waldur B has no such project or could not be asked.  After a patch that succeeded
    no project is remembered; and once the fields are as the patch says -- Waldur A naming an
    industry flag, and the codes of the sub-domains agreeing where the patch left it -- the
    next synchronisation reads the project and writes nothing. *)
Theorem project_metadata_settles s τ s' out :
  runs (sync_resource_project details source r source_project s) τ (s', out) →
  guarded (project_guard s) [] τ ∧
  (out = Ok () → metadata_pushed s (rev τ)) ∧
  ∀ hex patch updated, Ev (Target (ProjectsUpdate hex patch)) (Ok updated) ∈ τ →
    ∃ p, known_project s (rev τ) p ∧ uuid_of_text (uuid_or_empty (p_uuid p)) = Ok hex ∧
      patch_wanted (rev τ) p patch ∧
      ∀ p' ps, patched (rev τ) p patch p' →
        (∀ q, source_project = Some q → sp_is_industry (source q) ≠ Unset ∧
           (pt_science_sub_domain patch = Unset →
            field_str (sp_science_sub_domain_code (source q)) = field_str (p_science_sub_domain_code p))) →
        runs (sync_resource_project details source r source_project s')
          [Ev (Target (ProjectsList id)) (Ok (p' :: ps))] (set_projects (insert id (Some p')) s', Ok ()).
Proof.
  intros Hr. destruct (wp_sound _ _ _ _ _ _ (sync_project_guarded s) Hr) as [[Hf Hpush] Hg].
  rewrite app_nil_r in Hf, Hpush. split; [done|]. split; [done|]. intros hex patch updated Hin.
  assert (Hn : nonempty (res_project_uuid r) = true).
  { unfold sync_resource_project in Hr. destruct (nonempty (res_project_uuid r)); [done|]. cbn in Hr.
    destruct Hr as [-> _]. by apply elem_of_nil in Hin. }
  pose proof Hin as (τ1 & τ2 & Hτ)%list_elem_of_split. pose proof Hg as Hgu. rewrite Hτ in Hgu.
  apply guarded_split in Hgu as (p & Hk & Hu & Hw). rewrite app_nil_r in Hk, Hw.
  assert (Hsub : rev τ1 ⊆ rev τ) by (intros ev; rewrite Hτ, !elem_of_rev, elem_of_app; tauto).
  exists p. split; [by eapply known_project_later|]. split; [done|]. split; [by eapply wanted_later|].
  intros p' ps Hp Hq. destruct (patched_agrees _ _ _ _ (wanted_later _ _ _ _ Hsub Hw) Hp Hq) as [Hd Hs].
  apply agreeing_project_is_left; [done| |done|done].
  apply Hf. intros Hnone. assert (Hc : (hex, patch) ∈ omap carried_out (rev τ)).
  { apply list_elem_of_omap. eexists. split; [by apply elem_of_rev|done]. }
  rewrite Hnone in Hc. by apply elem_of_nil in Hc.
Qed.
End Projects.

(** ** User names *)

Section Usernames.
Context (b : WaldurBackend) (offering : string).
Implicit Types (H : trace federationE) (a_ou b_ou : OfferingUser).

(** The accounts that were listed on the two sides. *)
Definition listed_on_b H (l : list OfferingUser) : Prop :=
  ∃ hex, Ev (Target (TargetOfferingUsers hex [OfferingUserState.OK] false)) (Ok l) ∈ H.
Definition listed_on_a H (l : list OfferingUser) : Prop :=
  ∃ hex, Ev (SourceOfferingUsers hex
    [OfferingUserState.OK; OfferingUserState.CREATING; OfferingUserState.REQUESTED]) (Ok l) ∈ H.

Definition usernames_guard : guard federationE := λ X H c,
  match c with
  | Target (TargetOfferingUsers hex states is_restricted) =>
      uuid_of_text (fb_target_offering_uuid b) = Ok hex ∧ states = [OfferingUserState.OK] ∧ is_restricted = false
  | SourceOfferingUsers hex _ => uuid_of_text offering = Ok hex
  | Own (OfferingUserSetUsername uuid name) =>
      (* an account of Waldur A, and one of Waldur B of the same identity with another name *)
      ∃ la lb a_ou b_ou, listed_on_a H la ∧ listed_on_b H lb ∧ a_ou ∈ la ∧ b_ou ∈ lb ∧
        uuid = ou_uuid a_ou ∧ name = ou_username b_ou ∧ name ≠ "" ∧ name ≠ ou_username a_ou ∧
        ∃ identity, field_str (ou_user_username a_ou) = Some identity ∧
          field_str (ou_user_username b_ou) = Some identity
  | _ => False
  end.

Lemma username_pairs_sound l identity name :
  (identity, name) ∈ foldl username_pair [] l →
  ∃ b_ou, b_ou ∈ l ∧ field_str (ou_user_username b_ou) = Some identity ∧ ou_username b_ou = name ∧ name ≠ "".
Proof.
  cut (∀ d, (identity, name) ∈ foldl username_pair d l → (identity, name) ∈ d ∨
    ∃ b_ou, b_ou ∈ l ∧ field_str (ou_user_username b_ou) = Some identity ∧ ou_username b_ou = name ∧ name ≠ "").
  { intros Hc [Hin|?]%Hc; [by apply elem_of_nil in Hin|done]. }
  induction l as [|u l IH]; intros d Hin; simpl in Hin; [by left|].
  apply IH in Hin as [Hin|(o & Ho & ?)]; [|right; exists o; split; [by right|done]].
  unfold username_pair in Hin. destruct (field_str (ou_user_username u)) as [i|] eqn:Hi; [|by left].
  destruct (nonempty (ou_username u)) eqn:Hn; [|by left].
  apply elem_of_dict_set in Hin as [[= -> ->]|?]; [|by left].
  right. exists u. apply nonempty_spec in Hn. split; [left|done].
Qed.

Lemma username_update_spec lb a_ou name :
  username_update (foldl username_pair [] lb) a_ou = Some name →
  ∃ identity b_ou, b_ou ∈ lb ∧ field_str (ou_user_username a_ou) = Some identity ∧
    field_str (ou_user_username b_ou) = Some identity ∧ ou_username b_ou = name ∧ name ≠ "" ∧ name ≠ ou_username a_ou.
Proof.
  unfold username_update. destruct (field_str (ou_user_username a_ou)) as [i|]; [|done].
  destruct (dict_get _ i) as [n|] eqn:Hg; [|done]. destruct (String.eqb (ou_username a_ou) n) eqn:He; [done|].
  intros [= ->]. apply dict_get_In, username_pairs_sound in Hg as (u & Hu & Hi & Hname & Hn).
  apply String.eqb_neq in He. exists i, u. split_and!; done.
Qed.

(** Everything that was to be written was. *)
Definition all_named H : Prop :=
  ∃ la lb, listed_on_a H la ∧ listed_on_b H lb ∧
    ∀ a_ou name, a_ou ∈ la → username_update (foldl username_pair [] lb) a_ou = Some name →
      Ev (Own (OfferingUserSetUsername (ou_uuid a_ou) name)) (Ok ()) ∈ H.

Lemma usernames_guarded s :
  wpM usernames_guard (sync_offering_user_usernames b offering)
    (λ out _ H, ∃ changed, out = Ok changed ∧ (changed = true → all_named H)) s [].
Proof.
  unfold sync_offering_user_usernames, or_else, list_offering_users, uuid, target. wp_steps.
  destruct (uuid_of_text (fb_target_offering_uuid b)) as [hex|e] eqn:Hb; cbn [of_res]; wp_steps; [|by exists false].
  apply wpM_call; [done|]. intros [lb|e]; wp_steps; [|by exists false].
  destruct (foldl username_pair [] lb) as [|pair pairs] eqn:Hp; wp_steps; [by exists false|]. rewrite <- Hp.
  destruct (uuid_of_text offering) as [hex'|e] eqn:Ha; cbn [of_res]; wp_steps; [|by exists false].
  apply wpM_call; [done|]. intros [la|e]; wp_steps; [|by exists false].
  set (H0 := [_; _]).
  assert (HA : listed_on_a H0 la) by (exists hex'; left).
  assert (HB : listed_on_b H0 lb) by (exists hex; right; left).
  apply (wpM_fold_m _ _ _ (λ l _ _ H, H0 ⊆ H ∧ ∀ a_ou name, a_ou ∈ l →
    username_update (foldl username_pair [] lb) a_ou = Some name →
    Ev (Own (OfferingUserSetUsername (ou_uuid a_ou) name)) (Ok ()) ∈ H)).
  - intros l a_ou changed s1 H1 [ys Hl] [Hs1 Hall].
    destruct (username_update (foldl username_pair [] lb) a_ou) as [name|] eqn:Hu; wp_steps.
    + apply wpM_call.
      { destruct (username_update_spec _ _ _ Hu) as (i & b_ou & ? & ? & ? & ? & ? & ?).
        destruct HA as [x ?], HB as [y ?]. exists la, lb, a_ou, b_ou.
        split; [exists x; by apply Hs1|]. split; [exists y; by apply Hs1|].
        split; [rewrite Hl, elem_of_app; right; left|]. split_and!; try done. by exists i. }
      intros [[]|e]; wp_steps; [|by exists false]. split; [set_solver|].
      intros a n [Hin|Hin]%elem_of_app Hn; [right; by apply Hall|].
      apply list_elem_of_singleton in Hin as ->. rewrite Hu in Hn. injection Hn as <-. left.
    + split; [done|]. intros a n [Hin|Hin]%elem_of_app Hn; [by apply Hall|].
      apply list_elem_of_singleton in Hin as ->. by rewrite Hu in Hn.
  - intros changed s1 H1 [Hs1 Hall]. wp_steps. exists changed. split; [done|]. intros _.
    destruct HA as [x ?], HB as [y ?]. exists la, lb. split; [exists x; by apply Hs1|].
    split; [exists y; by apply Hs1|done].
  - split; [done|]. intros a n Hin. by apply elem_of_nil in Hin.
Qed.
(** An account of Waldur A under the name that the listing of Waldur B gives it. *)
Definition renamed (lb : list OfferingUser) a_ou : OfferingUser :=
  match username_update (foldl username_pair [] lb) a_ou with
  | Some name => with_username a_ou name
  | None => a_ou
  end.

Lemma renamed_settled lb a_ou : username_update (foldl username_pair [] lb) (renamed lb a_ou) = None.
Proof.
  unfold renamed. destruct (username_update _ a_ou) as [name|] eqn:Hu; [|done].
  unfold username_update in *. cbn [ou_user_username with_username ou_username].
  destruct (field_str (ou_user_username a_ou)) as [i|]; [|done]. destruct (dict_get _ i) as [n|]; [|done].
  destruct (String.eqb (ou_username a_ou) n); [done|]. injection Hu as ->. by rewrite String.eqb_refl.
Qed.

Lemma settled_names_are_left lb la hex hex' s :
  uuid_of_text (fb_target_offering_uuid b) = Ok hex → uuid_of_text offering = Ok hex' →
  foldl username_pair [] lb ≠ [] →
  runs (sync_offering_user_usernames b offering s)
    [Ev (Target (TargetOfferingUsers hex [OfferingUserState.OK] false)) (Ok lb);
     Ev (SourceOfferingUsers hex' [OfferingUserState.OK; OfferingUserState.CREATING; OfferingUserState.REQUESTED])
       (Ok (map (renamed lb) la))] (s, Ok false).
Proof.
  intros Hb Ha Hp. unfold sync_offering_user_usernames, or_else, list_offering_users, uuid. rewrite Hb. cbn.
  apply runs_step; [done|]. cbn [pbind]. destruct (foldl username_pair [] lb) as [|x l] eqn:Hl; [done|]. rewrite <- Hl.
  rewrite Ha. cbn. apply runs_step; [done|]. cbn [pbind]. clear Hp Hl.
  induction la as [|a_ou la IH]; [done|]. cbn. rewrite renamed_settled. exact IH.
Qed.

(** C23: a synchronisation of user names writes to an account of Waldur A only a name that the
    listing of Waldur B gives the same identity, and only where the two differ; an exception
    ends it with the answer that nothing changed.  Where it answers that something did, every
    name that differed has been written, and the next synchronisation over the renamed
    accounts writes none. *)
Theorem offering_usernames_follow_target s τ s' out :
  runs (sync_offering_user_usernames b offering s) τ (s', out) →
  guarded usernames_guard [] τ ∧
  ∃ changed, out = Ok changed ∧
    (changed = true →
     ∃ la lb, listed_on_a τ la ∧ listed_on_b τ lb ∧
       (∀ a_ou name, a_ou ∈ la → username_update (foldl username_pair [] lb) a_ou = Some name →
          Ev (Own (OfferingUserSetUsername (ou_uuid a_ou) name)) (Ok ()) ∈ τ) ∧
       ∀ hex hex' s2,
         uuid_of_text (fb_target_offering_uuid b) = Ok hex → uuid_of_text offering = Ok hex' →
         foldl username_pair [] lb ≠ [] →
         runs (sync_offering_user_usernames b offering s2)
           [Ev (Target (TargetOfferingUsers hex [OfferingUserState.OK] false)) (Ok lb);
            Ev (SourceOfferingUsers hex'
                  [OfferingUserState.OK; OfferingUserState.CREATING; OfferingUserState.REQUESTED])
              (Ok (map (renamed lb) la))] (s2, Ok false)).
Proof.
  intros Hr. destruct (wp_sound _ _ _ _ _ _ (usernames_guarded s) Hr) as [(changed & Ho & Hc) Hg].
  split; [done|]. exists changed. split; [done|]. intros Ht.
  destruct (Hc Ht) as (la & lb & [x Hla] & [y Hlb] & Hall). rewrite app_nil_r in *.
  exists la, lb. split; [exists x; by apply elem_of_rev|]. split; [exists y; by apply elem_of_rev|].
  split; [|intros; by apply settled_names_are_left].
  intros a name Ha Hu. apply elem_of_rev. by apply Hall.
Qed.
End Usernames.

(** ** Witnesses *)

Definition sample_source (p : project_info) : source_project :=
  {| sp_oecd_fos_2007_code := Val "1.5"%string; sp_is_industry := Val true;
     sp_science_sub_domain_code := Val "1.1"%string; sp_end_date_updated_at := Val 20 |}.

Definition sample_source_project : project_info := {| prj_uuid := "project-1"; prj_data := JNull |}.

(** Waldur A has no end date, and was changed later. *)
Lemma end_dates_follow_direction_witness :
  let b := sample_federation BIDIRECTIONAL in
  let read := Ev (Target (ResourcesRetrieve (sample_hex "b") None)) (Ok (Some sample_target_resource)) in
  let write := Ev (Target (ResourceSetEndDate (sample_hex "b") None)) (Ok 200) in
  guarded (end_date_guard b sample_details sample_federated) [] [read; write].
Proof.
  eapply proj1, (end_dates_follow_direction (sample_federation BIDIRECTIONAL) sample_details sample_federated no_state
    _ no_state (Ok ())). solve_runs.
Defined.

Lemma project_metadata_settles_witness :
  let id := project_backend_id sample_details sample_federated in
  let patch := {| pt_description := Val "Climate models"%string; pt_oecd_fos_2007_code := Val "1.5"%string;
                  pt_is_industry := Val true; pt_science_sub_domain := Val (sample_hex "e");
                  pt_end_date := Unset |} in
  guarded (project_guard sample_details sample_source sample_federated (Some sample_source_project) no_state) []
    [Ev (Target (ProjectsList id)) (Ok [sample_project]);
     Ev (Target ScienceSubDomains) (Ok [(Val "1.2"%string, sample_hex "f"); (Val "1.1"%string, sample_hex "e")]);
     Ev (Target (ProjectsUpdate (sample_hex "d") patch)) (Ok sample_project)].
Proof.
  eapply proj1, (project_metadata_settles sample_details sample_source sample_federated (Some sample_source_project)
    no_state _ no_state (Ok ())). solve_runs.
Defined.

(** The account of Waldur A has no name yet. *)
Lemma offering_usernames_follow_target_witness :
  let b := sample_federation BIDIRECTIONAL in
  guarded (usernames_guard b (sample_hex "1")) []
    [Ev (Target (TargetOfferingUsers (sample_hex "a") [OfferingUserState.OK] false))
        (Ok [sample_user OfferingUserState.OK "jdoe"]);
     Ev (SourceOfferingUsers (sample_hex "1")
           [OfferingUserState.OK; OfferingUserState.CREATING; OfferingUserState.REQUESTED])
        (Ok [sample_user OfferingUserState.CREATING ""]);
     Ev (Own (OfferingUserSetUsername "ou-1" "jdoe")) (Ok ())].
Proof.
  eapply proj1, (offering_usernames_follow_target (sample_federation BIDIRECTIONAL) (sample_hex "1") no_state _ no_state
    (Ok true)). solve_runs.
Defined.
