(* ===== verification/FederationUsage.v ===== *)
(** * The usage a federated resource is reported with

    What [FederationBackend.total_usage] and [usage_of] answer, said without them: the usage
    of a component of Waldur A is the sum, over the components of Waldur B that lead back to
    it, of the sum of the records of that component divided by the factor.  The sums are
    those of doubles, in the order of the records. *)

From stdpp Require Import base list strings.
From Stdlib Require Import ZArith Lia SpecFloat.
From S2P Require Import Prelude.
From S2P Require Import Structures.
From S2P Require Import OfferingUsers.
From S2P Require Import Numbers.
From S2P Require Import FloatInts.
From S2P Require Import ComponentMapping.
From S2P Require Import BaseBackend.
From S2P Require Import FederationClient.
From S2P Require Import FederationBackend.

Local Open Scope Z_scope.

(** ** Folds *)

Lemma rfold_prefix {A B} (I : list A → B → Prop) (f : B → A → res B) l b b' :
  rfold f l b = Ok b' → I [] b →
  (∀ xs x ys b b', l = xs ++ x :: ys → I xs b → f b x = Ok b' → I (xs ++ [x]) b') → I l b'.
Proof.
  intros Hr Hb Hf. cut (∀ xs ys b, l = xs ++ ys → I xs b → rfold f ys b = Ok b' → I l b').
  { intros Hc. by apply (Hc [] l b). }
  clear Hr Hb. intros xs ys. revert xs. induction ys as [|y ys IH]; intros xs b0 Hl HI Hr; simpl in Hr.
  - injection Hr as <-. by rewrite Hl, app_nil_r.
  - apply rbind_ok in Hr as (b1 & Hb1 & Hr). apply (IH (xs ++ [y]) b1); [by rewrite <- app_assoc| |done].
    by eapply Hf.
Qed.

Lemma rfold_error {A B} (I : B → Prop) (bad : A → Prop) (f : B → A → res B) l b :
  (∀ b x, x ∈ l → I b → (∃ b', f b x = Ok b' ∧ I b') ∨ bad x) → I b →
  (∃ b', rfold f l b = Ok b' ∧ I b') ∨ ∃ x, x ∈ l ∧ bad x.
Proof.
  revert b. induction l as [|x l IH]; intros b Hf Hb; simpl; [left; eauto|].
  destruct (Hf b x (list_elem_of_here _ _) Hb) as [(b1 & -> & Hb1)|Hx]; [|right; exists x; split; [left|done]].
  simpl. destruct (IH b1) as [?|(y & Hy & ?)]; [intros b2 y Hy; apply Hf; by right|done|by left|].
  right. exists y. split; [by right|done].
Qed.

Lemma rfold_snoc {A B} (f : B → A → res B) l x b :
  rfold f (l ++ [x]) b = rbind (rfold f l b) (λ b, f b x).
Proof.
  revert b. induction l as [|y l IH]; intros b; simpl; [by destruct (f b x)|].
  destruct (f b y); simpl; [apply IH|done].
Qed.

(** ** Sums under keys *)

Abbreviation pyamounts := (list (string * pynum)).

Definition amounts_at (k : string) (cs : pyamounts) : list pynum :=
  map snd (filter (λ c : string * pynum, c.1 = k) cs).

Definition num_sum (l : list pynum) : res pynum := rfold num_add l (PyInt 0).

(** [d] holds, under each key that is contributed to, the sum of what is contributed. *)
Definition sums_of (cs d : pyamounts) : Prop :=
  NoDup (dict_keys d) ∧
  ∀ k, match amounts_at k cs with
       | [] => dict_get d k = None
       | l => ∃ s, num_sum l = Ok s ∧ dict_get d k = Some s
       end.

Lemma sums_of_nil : sums_of [] [].
Proof. split; [constructor|done]. Qed.

Lemma amounts_at_snoc k cs c :
  amounts_at k (cs ++ [c]) = amounts_at k cs ++ (if decide (c.1 = k) then [c.2] else []).
Proof.
  unfold amounts_at. rewrite filter_app, map_app. f_equal. rewrite filter_cons, filter_nil.
  by case_decide.
Qed.

Lemma accumulate_sums cs d k x d' :
  sums_of cs d → accumulate d k x = Ok d' → sums_of (cs ++ [(k, x)]) d'.
Proof.
  intros [Hnd Hd] (y & Hy & [= <-])%rbind_ok. split; [by apply dict_set_NoDup|].
  intros k'. rewrite amounts_at_snoc. simpl. specialize (Hd k'). destruct (decide (k = k')) as [<-|Hne].
  - rewrite dict_get_set_eq. destruct (amounts_at k cs) as [|a l] eqn:Ha; simpl.
    + rewrite Hd in Hy. change (default (PyInt 0) None) with (PyInt 0) in Hy. exists y. split; [|done].
      unfold num_sum. cbn [rfold]. rewrite Hy. done.
    + destruct Hd as (s & Hs & Hg). rewrite Hg in Hy. exists y. split; [|done].
      change (a :: l ++ [x]) with ((a :: l) ++ [x]). unfold num_sum in *. rewrite rfold_snoc, Hs. done.
  - rewrite dict_get_set_ne by done. by rewrite app_nil_r.
Qed.

(** A fold of accumulations sums what its elements contribute. *)
Lemma rfold_sums {A} (f : pyamounts → A → res pyamounts) (contribution : A → pyamounts) l cs d d' :
  (∀ x cs d d', sums_of cs d → f d x = Ok d' → sums_of (cs ++ contribution x) d') →
  sums_of cs d → rfold f l d = Ok d' → sums_of (cs ++ concat (map contribution l)) d'.
Proof.
  intros Hf Hd Hr.
  apply (rfold_prefix (λ xs d, sums_of (cs ++ concat (map contribution xs)) d) f l d d' Hr).
  - by rewrite app_nil_r.
  - intros xs x ys b b' _ Hb Hx. rewrite map_app, concat_app. simpl. rewrite app_nil_r, app_assoc.
    by eapply Hf.
Qed.

(** ** What a record and a component contribute *)

Definition component_contribution (u : ComponentUsage) : pyamounts :=
  match field_str (cu_type u), usage_value (cu_usage u) with
  | Some component, Ok x => [(component, PyFloat x)]
  | _, _ => []
  end.

Definition user_contribution (name : string) (u : ComponentUserUsage) : pyamounts :=
  match field_str (cuu_username u), field_str (cuu_component_type u), usage_value (cuu_usage u) with
  | Some username, Some component, Ok x =>
      if decide (username = name) then [(component, PyFloat x)] else []
  | _, _, _ => []
  end.

(** An amount over a factor; a factor of zero leaves nothing. *)
Definition over_factor (value : pynum) (x : mapping) : res pynum :=
  if is_zero (factor x) then Ok (PyInt 0) else num_div value (factor x).

Definition part_contribution (value : pynum) (x : mapping) : pyamounts :=
  match over_factor value x with Ok v => [(other_component x, v)] | Err _ => [] end.

(** What the amount of a component of Waldur B contributes to the components of Waldur A. *)
Definition converted_contribution (m : ComponentMapper) (c : string * pynum) : pyamounts :=
  match dict_get (reverse_map m) c.1 with
  | Some ms => concat (map (part_contribution c.2) ms)
  | None => []
  end.

Lemma convert_sums m target out :
  convert_usage_from_target m target = Ok out →
  sums_of (concat (map (converted_contribution m) target)) out.
Proof.
  intros Hc. apply (λ Hf, rfold_sums _ _ _ [] [] _ Hf sums_of_nil Hc).
  intros c cs d d' Hd Ha. unfold add_usage in Ha. unfold converted_contribution.
  destruct (dict_get (reverse_map m) c.1) as [ms|]; [|injection Ha as <-; by rewrite app_nil_r].
  apply (λ Hf, rfold_sums _ _ _ _ _ _ Hf Hd Ha).
  intros x cs' d1 d2 Hd1 (v & Hv & Hx)%rbind_ok.
  unfold part_contribution, over_factor. rewrite Hv. by eapply accumulate_sums.
Qed.

(** ** Nothing but an unreadable amount fails *)

(** The numbers that occur: doubles, and the integer zero. *)
Definition plain (x : pynum) : Prop := match x with PyInt z => z = 0 | PyFloat _ => True end.
Definition plain_dict (d : pyamounts) : Prop := NoDup (dict_keys d) ∧ ∀ k x, dict_get d k = Some x → plain x.

Lemma plain_float x : plain x → ∃ f, to_float x = Ok f.
Proof. destruct x as [z|f]; simpl; [intros ->|]; eauto. Qed.

Lemma accumulate_plain d k x : plain_dict d → plain x → ∃ d', accumulate d k x = Ok d' ∧ plain_dict d'.
Proof.
  intros [Hnd Hd] Hx. unfold accumulate.
  assert (Hold : plain (default (PyInt 0) (dict_get d k))).
  { destruct (dict_get d k) eqn:Hg; simpl; [by eapply Hd|done]. }
  assert (∃ y, num_add (default (PyInt 0) (dict_get d k)) x = Ok y ∧ plain y) as (y & -> & Hy).
  { destruct (plain_float _ Hold) as [a Ha], (plain_float _ Hx) as [b Hb]. unfold num_add.
    destruct (default (PyInt 0) (dict_get d k)) as [z|f], x as [z'|f']; simpl in Hold, Hx; subst.
    - by exists (PyInt (0 + 0)).
    - rewrite Ha. by eexists.
    - rewrite Hb. simpl. by eexists.
    - by eexists. }
  eexists. split; [done|]. split; [by apply dict_set_NoDup|]. intros k' x'.
  destruct (decide (k = k')) as [<-|Hne]; [rewrite dict_get_set_eq; by intros [= <-]|].
  rewrite dict_get_set_ne by done. apply Hd.
Qed.

Lemma convert_plain m target : plain_dict target → ∃ out, convert_usage_from_target m target = Ok out.
Proof.
  intros [Hnd Ht]. destruct (rfold_total plain_dict (add_usage m) target []) as (out & Ho & _);
    [|by split; [constructor|]|by exists out].
  intros d [k v] Hin Hd. apply (dict_In_get _ _ _ Hnd), Ht in Hin. unfold add_usage. simpl.
  destruct (dict_get (reverse_map m) k) as [ms|]; [|eauto].
  apply rfold_total; [|done]. intros d1 x _ Hd1. unfold add_unscaled, num_div.
  destruct (is_zero (factor x)); simpl; [by apply accumulate_plain|].
  destruct (plain_float v Hin) as [f ->]. simpl. by apply accumulate_plain.
Qed.

Section Usage.
Context (b : WaldurBackend).
Local Abbreviation mapper := (fb_component_mapper b).

(** The amounts reported for what was contributed: the sums of the contributions, converted,
    and rounded to two decimals; a total names every configured component. *)
Definition usage_amounts (total : bool) (cs : pyamounts) (a : list (string * spec_float)) : Prop :=
  ∃ target converted, sums_of cs target ∧
    sums_of (concat (map (converted_contribution mapper) target)) converted ∧
    ∀ c, dict_get a c = option_map rounded_amount
      (match dict_get converted c with
       | Some x => Some x
       | None => if total && bool_decide (c ∈ dict_keys (bb_components (fb_base b)))
                 then Some (PyFloat f64_zero) else None
       end).

Lemma with_all_components_get d c :
  dict_get (with_all_components b d) c =
    match dict_get d c with
    | Some x => Some x
    | None => if bool_decide (c ∈ dict_keys (bb_components (fb_base b))) then Some (PyFloat f64_zero) else None
    end.
Proof.
  unfold with_all_components. generalize (bb_components (fb_base b)) as l. intros l. revert d.
  induction l as [|[k v] l IH]; intros d; cbn [foldl].
  { destruct (dict_get d c); [done|]. by rewrite bool_decide_false by apply not_elem_of_nil. }
  rewrite IH. cbn [fst]. change (dict_keys ((k, v) :: l)) with (k :: dict_keys l).
  destruct (dict_get d k) eqn:Hk.
  - destruct (dict_get d c) eqn:Hc; [done|]. erewrite bool_decide_ext; [done|].
    rewrite elem_of_cons. split; [by right|]. intros [->|?]; [congruence|done].
  - destruct (decide (k = c)) as [->|Hne].
    + rewrite dict_get_set_eq, Hk. by rewrite bool_decide_true by left.
    + rewrite dict_get_set_ne by done. destruct (dict_get d c); [done|].
      erewrite bool_decide_ext; [done|]. rewrite elem_of_cons. naive_solver.
Qed.

Lemma rounded_get (d : pyamounts) c :
  dict_get (map (λ x, (x.1, rounded_amount x.2)) d) c = option_map rounded_amount (dict_get d c).
Proof. induction d as [|[k x] d IH]; simpl; [done|]. by case_decide. Qed.

Lemma total_usage_ok components total :
  total_usage b components = Ok total →
  usage_amounts true (concat (map component_contribution components))
    (map (λ x, (x.1, rounded_amount x.2)) total).
Proof.
  intros (target & Ht & (converted & Hc & [= <-])%rbind_ok)%rbind_ok.
  exists target, converted. split_and!; [|by apply convert_sums|].
  - apply (λ Hf, rfold_sums _ _ _ [] [] _ Hf sums_of_nil Ht).
    intros u cs d d' Hd (x & Hx & Ha)%rbind_ok. unfold component_contribution.
    destruct (field_str (cu_type u)) as [component|];
      [rewrite Hx; by eapply accumulate_sums|]. injection Ha as <-. by rewrite app_nil_r.
  - intros c. rewrite rounded_get, with_all_components_get. done.
Qed.

(** The amounts of each user. *)
Definition users_summed (users : list ComponentUserUsage) (d : list (string * pyamounts)) : Prop :=
  NoDup (dict_keys d) ∧
  ∀ name, match concat (map (user_contribution name) users) with
          | [] => dict_get d name = None
          | cs => ∃ mine, dict_get d name = Some mine ∧ sums_of cs mine
          end.

Lemma add_user_usage_summed users d :
  rfold add_user_usage users [] = Ok d → users_summed users d.
Proof.
  intros Hr. apply (rfold_prefix (λ us d, users_summed us d) _ _ _ _ Hr); [by split; [constructor|]|].
  intros us u rest d1 d2 _ [Hnd Hd] (x & Hx & Ha)%rbind_ok.
  assert (Hother : ∀ name, user_contribution name u = [] →
    concat (map (user_contribution name) (us ++ [u])) = concat (map (user_contribution name) us)).
  { intros name Hn. rewrite map_app, concat_app. simpl. by rewrite Hn, !app_nil_r. }
  destruct (field_str (cuu_username u)) as [username|] eqn:Hu; cycle 1.
  { injection Ha as <-. split; [done|]. intros name. rewrite Hother; [apply Hd|].
    unfold user_contribution. by rewrite Hu. }
  destruct (field_str (cuu_component_type u)) as [component|] eqn:Hc; cycle 1.
  { injection Ha as <-. split; [done|]. intros name. rewrite Hother; [apply Hd|].
    unfold user_contribution. by rewrite Hu, Hc. }
  apply rbind_ok in Ha as (mine & Hm & [= <-]). split; [by apply dict_set_NoDup|]. intros name.
  destruct (decide (username = name)) as [<-|Hne]; cycle 1.
  { rewrite dict_get_set_ne by done. rewrite Hother; [apply Hd|].
    unfold user_contribution. rewrite Hu, Hc, Hx. by rewrite decide_False. }
  rewrite dict_get_set_eq, map_app, concat_app. simpl. rewrite app_nil_r.
  assert (user_contribution username u = [(component, PyFloat x)]) as ->.
  { unfold user_contribution. rewrite Hu, Hc, Hx. by rewrite decide_True. }
  specialize (Hd username).
  assert (Hold : sums_of (concat (map (user_contribution username) us)) (default [] (dict_get d1 username))).
  { destruct (concat (map (user_contribution username) us)).
    - rewrite Hd. apply sums_of_nil.
    - by destruct Hd as (mine' & -> & ?). }
  pose proof (accumulate_sums _ _ _ _ _ Hold Hm) as Hnew.
  destruct (concat (map (user_contribution username) us) ++ [(component, PyFloat x)]) eqn:He;
    [by apply app_nil in He as [_ ?]|]. by exists mine.
Qed.

(** The report of a resource: its total, and the amounts of each of its users. *)
Definition resource_usage (components : list ComponentUsage) (users : list ComponentUserUsage)
    (u : usage) : Prop :=
  ∀ name, match concat (map (user_contribution name) users) with
          | [] => if decide (name = "TOTAL_ACCOUNT_USAGE"%string)
                  then ∃ a, dict_get u name = Some a ∧
                         usage_amounts true (concat (map component_contribution components)) a
                  else dict_get u name = None
          | cs => ∃ a, dict_get u name = Some a ∧ usage_amounts false cs a
          end.

Lemma usage_of_ok components total users u :
  total_usage b components = Ok total → usage_of b total users = Ok u →
  resource_usage components users u.
Proof.
  intros Ht (per_user & Hp & (report & Hr & [= <-])%rbind_ok)%rbind_ok.
  pose proof (add_user_usage_summed _ _ Hp) as [Hnd Hsum].
  assert (Hrep : ∀ name, match dict_get per_user name with
    | Some mine => ∃ a, convert_usage_from_target mapper mine = Ok a ∧ dict_get report name = Some a
    | None => dict_get report name = if decide (name = "TOTAL_ACCOUNT_USAGE"%string) then Some total else None
    end).
  { apply (rfold_prefix (λ done report, ∀ name, match dict_get done name with
      | Some mine => ∃ a, convert_usage_from_target mapper mine = Ok a ∧ dict_get report name = Some a
      | None => dict_get report name = if decide (name = "TOTAL_ACCOUNT_USAGE"%string) then Some total else None
      end) _ _ _ _ Hr).
    - intros name. simpl. case_decide; by subst.
    - intros xs [n mine] ys rep rep' Hl Hrep (a & Ha & [= <-])%rbind_ok name.
      assert (Hfresh : dict_get xs n = None).
      { apply dict_get_None. rewrite Hl in Hnd. unfold dict_keys in *. rewrite fmap_app in Hnd.
        apply NoDup_app in Hnd as (_ & Hd & _). intros Hin. apply (Hd n Hin). left. }
      assert (Hget : dict_get (xs ++ [(n, mine)]) name = match dict_get xs name with
        | Some x => Some x | None => if decide (name = n) then Some mine else None end).
      { clear. induction xs as [|[k v] xs IH]; simpl; [done|]. by destruct (decide (name = k)). }
      rewrite Hget. simpl. specialize (Hrep name). destruct (decide (n = name)) as [<-|Hne].
      + rewrite Hfresh, decide_True, dict_get_set_eq by done. eauto.
      + rewrite dict_get_set_ne by done. destruct (dict_get xs name); [done|].
        by rewrite decide_False by done. }
  intros name. specialize (Hrep name). specialize (Hsum name).
  assert (Hget : dict_get (map (λ u : string * pyamounts, (u.1, map (λ c, (c.1, rounded_amount c.2)) u.2)) report) name
    = option_map (map (λ c, (c.1, rounded_amount c.2))) (dict_get report name)).
  { clear. induction report as [|[k v] report IH]; simpl; [done|]. by case_decide. }
  rewrite Hget. destruct (concat (map (user_contribution name) users)) as [|c cs].
  - rewrite Hsum in Hrep. rewrite Hrep. case_decide; [|done].
    eexists. split; [done|]. by apply total_usage_ok.
  - destruct Hsum as (mine & Hm & Hs). rewrite Hm in Hrep. destruct Hrep as (a & Ha & ->).
    eexists. split; [done|]. exists mine, a. split_and!; [done|by apply convert_sums|].
    intros k. rewrite rounded_get. by destruct (dict_get a k).
Qed.

(** An amount that is no number. *)
Definition unreadable (raw : field json) : Prop := ∃ e, usage_value raw = Err e.

Lemma total_usage_error components e :
  total_usage b components = Err e → ∃ u, u ∈ components ∧ unreadable (cu_usage u).
Proof.
  unfold total_usage. intros Ht.
  destruct (rfold_error plain_dict (λ u, unreadable (cu_usage u)) add_component_usage components [])
    as [(target & Hr & Hp)|?]; [| |rewrite Hr in Ht; simpl in Ht|done].
  - intros d u _ Hd. unfold add_component_usage. destruct (usage_value (cu_usage u)) as [x|e'] eqn:Hx;
      [left|right; by exists e']. simpl.
    destruct (field_str (cu_type u)); [by apply accumulate_plain|eauto].
  - by split; [constructor|].
  - destruct (convert_plain mapper target Hp) as [out Ho]. rewrite Ho in Ht. done.
Qed.

Lemma usage_of_error total users e :
  usage_of b total users = Err e → ∃ u, u ∈ users ∧ unreadable (cuu_usage u).
Proof.
  unfold usage_of. intros Hu.
  destruct (rfold_error (λ d : list (string * pyamounts), NoDup (dict_keys d) ∧
      ∀ n mine, dict_get d n = Some mine → plain_dict mine)
    (λ u, unreadable (cuu_usage u)) add_user_usage users []) as [(per_user & Hr & Hnd & Hp)|?];
    [|by split; [constructor|]| |done].
  - intros d u _ [Hnd Hd]. unfold add_user_usage. destruct (usage_value (cuu_usage u)) as [x|e'] eqn:Hx;
      [left|right; by exists e']. simpl.
    destruct (field_str (cuu_username u)) as [name|]; [|eauto].
    destruct (field_str (cuu_component_type u)) as [component|]; [|eauto].
    assert (Hold : plain_dict (default [] (dict_get d name))).
    { destruct (dict_get d name) eqn:Hg; [by eapply Hd|by split; [constructor|]]. }
    destruct (accumulate_plain _ component (PyFloat x) Hold I) as (mine & -> & Hm). simpl.
    eexists. split; [done|]. split; [by apply dict_set_NoDup|]. intros n m'.
    destruct (decide (name = n)) as [<-|Hne]; [rewrite dict_get_set_eq; by intros [= <-]|].
    rewrite dict_get_set_ne by done. apply Hd.
  - rewrite Hr in Hu. simpl in Hu.
    match type of Hu with rbind ?m _ = _ => destruct m eqn:Hm; [done|] end. exfalso.
    match type of Hm with rfold ?f ?l ?d = _ =>
      destruct (rfold_total (λ _, True) f l d) as (r & Hr' & _); [|done|congruence] end.
    intros report [n mine] Hin _. apply (dict_In_get _ _ _ Hnd), Hp in Hin. simpl.
    destruct (convert_plain mapper mine Hin) as [out ->]. simpl. eauto.
Qed.
End Usage.
