(* ===== verification/FederationOperations.v ===== *)
(** * What the operations of the federation backend do

    Orders on Waldur B ([FederationBackend.create_resource_with_id], [delete_resource],
    [set_resource_limits]) and the members of its projects ([add_users_to_resource] and its
    kin): which calls are made, on what grounds, and what an answer means. *)

From stdpp Require Import base list strings gmap sets.
From Stdlib Require Import ZArith Lia Ascii SpecFloat.
From S2P Require Import Prelude.
From S2P Require Import Texts.
From S2P Require Import Structures.
From S2P Require Import Agent.
From S2P Require Import Samples.
From S2P Require Import OfferingUsers.
From S2P Require Import Numbers.
From S2P Require Import ComponentMapping.
From S2P Require Import BaseBackend.
From S2P Require Import Linking.
From S2P Require Import FederationClient.
From S2P Require Import FederationBackend.
From S2P Require Import FederationSync.
From S2P Require Import FederationUsage.

Local Open Scope prog_scope.
Local Open Scope Z_scope.

(** ** Termination *)

Section Termination.
Context (r : WaldurResource).

(** What comes of a resource of Waldur B, by the state it was read in. *)
Inductive disposal (hex : string) : field ResourceState.t → trace federationE → res (option string) → Prop :=
| AlreadyTerminated :
    disposal hex (Val ResourceState.TERMINATED) [] (Ok None)
| OrderAdopted order orders :
    disposal hex (Val ResourceState.TERMINATING)
      [Ev (Target (OrdersOf hex RequestTypes.TERMINATE IN_FLIGHT_ORDER_STATES)) (Ok (order :: orders))]
      (Ok (Some (uuid_str order)))
| NothingToAdopt :
    disposal hex (Val ResourceState.TERMINATING)
      [Ev (Target (OrdersOf hex RequestTypes.TERMINATE IN_FLIGHT_ORDER_STATES)) (Ok [])]
      (Err (BackendError "no in-flight TERMINATE order was found"))
| OrdersUnread e :
    disposal hex (Val ResourceState.TERMINATING)
      [Ev (Target (OrdersOf hex RequestTypes.TERMINATE IN_FLIGHT_ORDER_STATES)) (Err e)] (Err e)
| OrderSubmitted state order :
    state = ResourceState.OK ∨ state = ResourceState.ERRED →
    disposal hex (Val state) [Ev (Target (Terminate hex)) (Ok order)] (Ok (Some (uuid_str order)))
| OrderRefused state e :
    state = ResourceState.OK ∨ state = ResourceState.ERRED →
    disposal hex (Val state) [Ev (Target (Terminate hex)) (Err e)] (Err e)
| NotYetPossible state :
    state = ResourceState.CREATING ∨ state = ResourceState.UPDATING →
    disposal hex (Val state) [] (Err (BackendNotReadyError "cannot terminate yet"))
| NoState : disposal hex Unset [] (Err (BackendError "no state"))
| UnexpectedState state :
    state = Null ∨ (∃ name, state = Val (ResourceState.Other name)) →
    disposal hex state [] (Err (BackendError "unexpected state")).

(** The termination of the resource behind [r]. *)
Inductive termination : trace federationE → res (option string) → Prop :=
| NothingThere : blank (res_backend_id r) = true → termination [] (Ok None)
| NoUuid e : blank (res_backend_id r) = false → uuid_of_text (res_backend_id r) = Err e → termination [] (Err e)
(* any failure to read the resource counts as its absence *)
| ReadFailed hex e :
    blank (res_backend_id r) = false → uuid_of_text (res_backend_id r) = Ok hex →
    termination [Ev (Target (ResourcesRetrieve hex None)) (Err e)] (Ok None)
| ReadNothing hex :
    blank (res_backend_id r) = false → uuid_of_text (res_backend_id r) = Ok hex →
    termination [Ev (Target (ResourcesRetrieve hex None)) (Ok None)] (Err (AttributeError "state"))
| ReadState hex b_resource τ out :
    blank (res_backend_id r) = false → uuid_of_text (res_backend_id r) = Ok hex →
    disposal hex (tr_state b_resource) τ out →
    termination (Ev (Target (ResourcesRetrieve hex None)) (Ok (Some b_resource)) :: τ) out.

Definition dispose (hex : string) (state : field ResourceState.t) : fed_m (option string) :=
  match state with
  | Val ResourceState.TERMINATED => ret None
  | Val ResourceState.TERMINATING =>
      let! order := adopt_in_flight_terminate_order hex in ret (Some order)
  | Val ResourceState.CREATING | Val ResourceState.UPDATING =>
      raise (BackendNotReadyError "cannot terminate yet")
  | Val ResourceState.OK | Val ResourceState.ERRED =>
      let! order_uuid := create_terminate_order hex in ret (Some (uuid_str order_uuid))
  | Unset => raise (BackendError "no state")
  | _ => raise (BackendError "unexpected state")
  end.

Lemma disposal_runs hex state s τ s' out :
  runs (dispose hex state s) τ (s', out) ↔ s' = s ∧ disposal hex state τ out.
Proof.
  split.
  - intros Hr. destruct state as [| |[]]; cbn [dispose] in Hr;
      try (destruct Hr as [-> [= -> <-]]; split; [done|constructor; eauto]; fail).
    + destruct Hr as ([order|e] & τ' & -> & -> & [= -> <-]); (split; [done|constructor; auto]).
    + destruct Hr as ([order|e] & τ' & -> & -> & [= -> <-]); (split; [done|constructor; auto]).
    + destruct Hr as ([[|order orders]|e] & τ' & -> & -> & [= -> <-]); (split; [done|constructor]).
  - intros [-> Hd]. destruct Hd; destruct_or?; try match goal with H : ∃ _, _ |- _ => destruct H end; subst; try done; by (apply runs_step).
Qed.

(** C18: the termination of a resource does what the state it was just read in asks for, and
    nothing else: an order is submitted once, and only for a resource that is OK or erred; a
    resource that is terminating has its running order adopted; one that is being created or
    updated is left for later; a terminated one needs nothing.  The specification is exact:
    it has every run, and nothing but runs. *)
Theorem terminations_follow_state s τ s' out :
  runs (delete_resource r s) τ (s', out) ↔ s' = s ∧ termination τ out.
Proof.
  unfold delete_resource, uuid. split.
  - intros Hr. destruct (blank (res_backend_id r)) eqn:Hb.
    { destruct Hr as [-> [= -> <-]]. split; [done|by constructor]. }
    destruct (uuid_of_text (res_backend_id r)) as [hex|e] eqn:Hu.
    2: { destruct Hr as [-> [= -> <-]]. split; [done|by constructor]. }
    destruct Hr as ([[b_resource|]|e] & τ' & -> & Hr); cbn [pbind] in Hr.
    + apply (disposal_runs hex (tr_state b_resource)) in Hr as [-> Hd]. split; [done|]. by econstructor.
    + destruct Hr as [-> [= -> <-]]. split; [done|by constructor].
    + destruct Hr as [-> [= -> <-]]. split; [done|by constructor].
  - intros [-> Ht]. destruct Ht as [Hb|e Hb Hu|hex e Hb Hu|hex Hb Hu|hex b_resource τ out Hb Hu Hd];
      rewrite Hb, ?Hu; try done; cbn; (apply runs_step; [done|]); try done.
    by apply (disposal_runs hex (tr_state b_resource)).
Qed.
End Termination.

(** ** Creation *)

Section Creation.
Context (b : WaldurBackend) (details : WaldurResource → resource_details) (r : WaldurResource).
(** The state an attempt starts from. *)
Context (s0 : federation_state).
Implicit Types (H : trace federationE) (s : federation_state) (p : Project).

Abbreviation id := (project_backend_id details r).

Definition known H p : Prop := known_project details r s0 H p.

(** Nothing on Waldur B had the id when it was looked for, as far as the answer shows. *)
Definition not_found H : Prop :=
  fs_projects s0 !! id = Some None ∨
  Ev (Target (ProjectsList id)) (Ok []) ∈ H ∨
  ∃ e, Ev (Target (ProjectsList id)) (Err e) ∈ H.

(** What is remembered of the id was answered. *)
Definition remembered s H : Prop :=
  ∀ e, fs_projects s !! id = Some e →
    match e with Some p => known H p | None => fs_projects s0 !! id = Some None ∨ Ev (Target (ProjectsList id)) (Ok []) ∈ H end.

Definition is_order {X} (c : federationE X) : bool :=
  match c with Target (OrdersCreate _ _ _ _ _) => true | _ => false end.

Definition creation_guard : guard federationE := λ X H c,
  match c with
  | Target (ProjectsList backend_id) => backend_id = id
  | Target (ProjectsCreate _ customer backend_id description end_date) =>
      backend_id = id ∧ not_found H ∧
      get_customer_url (fb_client b) (fb_target_customer_uuid b) = Ok customer ∧
      description = get_project_description details r ∧
      (fb_end_date_sync_direction b = DISABLED → end_date = None)
  | Target (ProjectsUpdate hex patch) =>
      ∃ p, known H p ∧ uuid_of_text (uuid_or_empty (p_uuid p)) = Ok hex ∧
        patch = with_description (get_project_description details r) ∧
        text_or_empty (p_description p) ≠ get_project_description details r
  | Target (PlansGet offering) => uuid_of_text (wc_offering_uuid (fb_client b)) = Ok offering
  | Target (OrdersCreate offering_url project_url _ limits attributes) =>
      (* the first order of the attempt *)
      Forall (λ ev, match ev with Ev c _ => is_order c = false end) H ∧
      get_offering_url (fb_client b) = Ok offering_url ∧
      (∃ p, known H p ∧ get_project_url (fb_client b) (uuid_or_empty (p_uuid p)) = Ok project_url) ∧
      convert_limits_to_target (fb_component_mapper b) (collect_resource_limits b r) = Ok limits ∧
      attributes = order_attributes b r
  | _ => False
  end.

(** The order that was answered, and the info made of it. *)
Definition ordered (out : res BackendResourceInfo) H : Prop :=
  ∀ info, out = Ok info → ∃ offering_url project_url plan limits attributes order order_uuid resource_uuid,
    Ev (Target (OrdersCreate offering_url project_url plan limits attributes)) (Ok order) ∈ H ∧
    field_str (no_uuid order) = Some order_uuid ∧ field_str (no_resource_uuid order) = Some resource_uuid ∧
    info_backend_id info = uuid_str resource_uuid ∧ info_pending_order_id info = uuid_str order_uuid ∧
    info_limits info = list_to_map (collect_resource_limits b r).

Definition no_orders H : Prop := Forall (λ ev, match ev with Ev c _ => is_order c = false end) H.

(** A step before the order: the history grows by other calls, what is remembered stays true. *)
Definition prepares {A} H (P : A → trace federationE → Prop) (out : res A) s H' : Prop :=
  H ⊆ H' ∧ no_orders H' ∧ remembered s H' ∧ ∀ a, out = Ok a → P a H'.

Lemma remembered_later s H H' : H ⊆ H' → remembered s H → remembered s H'.
Proof.
  intros HH Hr e He. specialize (Hr e He). destruct e as [p|]; [by eapply known_project_later|].
  destruct Hr; [by left|right; by apply HH].
Qed.

Lemma remembered_same s s' H H' :
  fs_projects s' = fs_projects s → H ⊆ H' → remembered s H → remembered s' H'.
Proof. intros Hs HH Hr e. rewrite Hs. by apply (remembered_later s H H'). Qed.

Lemma remembered_empty s H : fs_projects s = ∅ → remembered s H.
Proof. intros Hs e He. by rewrite Hs, lookup_empty in He. Qed.

Lemma find_spec s H :
  no_orders H → remembered s H →
  wpM creation_guard (find_project_by_backend_id id)
    (prepares H (λ e H', match e with Some e => ∃ p, e = summary_of p ∧ known H' p | None => not_found H' end)) s H.
Proof.
  intros Hn Hr. unfold find_project_by_backend_id, or_else, fetch_b_project, target. wp_steps.
  destruct (fs_projects s !! id) as [e|] eqn:He; wp_steps.
  - split; [done|]. split; [done|]. split; [done|]. intros a [= <-]. specialize (Hr e He).
    destruct e as [p|]; simpl; [by exists p|]. destruct Hr; [by left|right; by left].
  - apply wpM_call; [done|]. intros [ps|e]; wp_steps.
    + split; [set_solver|]. split; [by constructor|]. split.
      * intros e. cbn [fs_projects set_projects]. rewrite lookup_insert_eq. intros [= <-].
        destruct ps as [|p ps]; simpl; [right; left|right; exists ps; left].
      * intros a [= <-]. destruct ps as [|p ps]; simpl; [right; left; left|].
        exists p. split; [done|]. right. exists ps. left.
    + split; [set_solver|]. split; [by constructor|]. split; [by eapply remembered_later; [|done]; set_solver|].
      intros a [= <-]. right. right. exists e. left.
Qed.
Lemma prepares_anything {A} H (out : res A) s H' :
  H ⊆ H' → no_orders H' → remembered s H' → prepares H (λ _ _, True) out s H'.
Proof. by intros. Qed.

Lemma update_description_spec p s H :
  no_orders H → remembered s H → known H p →
  text_or_empty (p_description p) ≠ get_project_description details r →
  wpM creation_guard
    (update_project (uuid_or_empty (p_uuid p)) (with_description (get_project_description details r)))
    (prepares H (λ _ _, True)) s H.
Proof.
  intros Hn Hr Hk Hd. unfold update_project, uuid, invalidate_project_caches, target.
  destruct (uuid_of_text _) as [hex|e] eqn:Hu; cbn [of_res]; wp_steps; [|by apply prepares_anything].
  apply wpM_call; [by exists p|]. intros [p'|e]; wp_steps; apply prepares_anything;
    try (by constructor); try set_solver; [by apply remembered_empty|by eapply remembered_later; [|done]; set_solver].
Qed.

Lemma create_project_spec customer name end_date s H :
  no_orders H → remembered s H → not_found H →
  get_customer_url (fb_client b) (fb_target_customer_uuid b) = Ok customer →
  (fb_end_date_sync_direction b = DISABLED → end_date = None) →
  wpM creation_guard (create_project customer name id (get_project_description details r) end_date)
    (prepares H (λ _ _, True)) s H.
Proof.
  intros Hn Hr Hf Hc He. unfold create_project, invalidate_project_caches, target. wp_steps.
  apply wpM_call; [done|]. intros [p'|e]; wp_steps; apply prepares_anything;
    try (by constructor); try set_solver; [by apply remembered_empty|by eapply remembered_later; [|done]; set_solver].
Qed.

Lemma prepares_trans {A} H1 H2 P (out : res A) s H3 : H1 ⊆ H2 → prepares H2 P out s H3 → prepares H1 P out s H3.
Proof. intros H12 (H23 & ?). split; [set_solver|done]. Qed.

Lemma prepares_bind {A B} (m : fed_m A) (f : A → fed_m B) P Q s H :
  wpM creation_guard m (prepares H P) s H →
  (∀ a s' H', H ⊆ H' → no_orders H' → remembered s' H' → P a H' → wpM creation_guard (f a) (prepares H' Q) s' H') →
  wpM creation_guard (bind m f) (prepares H Q) s H.
Proof.
  intros Hm Hf. wp_step. eapply wpM_mono; [exact Hm|]. intros [a|e] s' H' (Hs & Hn & Hr & Ha); cbv iota; [|by split].
  eapply wpM_mono; [by apply Hf; [..|apply Ha]|]. intros out s2 H2. by apply prepares_trans.
Qed.

Lemma pre_create_spec s H :
  no_orders H → remembered s H →
  wpM creation_guard (pre_create_resource b details r) (prepares H (λ _ _, True)) s H.
Proof.
  intros Hn Hr. unfold pre_create_resource. destruct (nonempty (res_project_uuid r)); cbn [negb];
    [|wp_steps; by apply prepares_anything].
  cbv zeta. destruct (get_customer_url _ _) as [customer|e] eqn:Hc; cbn [of_res]; wp_step; wp_step; [|by apply prepares_anything].
  apply (prepares_bind _ _ (λ _ _, True)); [|intros project s1 H1 ? ? ? _; destruct (nonempty _); wp_steps; by apply prepares_anything].
  unfold find_or_create_project. eapply prepares_bind; [by apply find_spec|].
  intros [e|] s1 H1 Hs1 Hn1 Hr1 He.
  - destruct He as (p & -> & Hk). destruct (_ && _) eqn:Hd; [|wp_steps; by apply prepares_anything].
    apply andb_prop in Hd as [_ Hd]. apply update_description_spec; try done.
    apply negb_true_iff, String.eqb_neq in Hd. done.
  - apply create_project_spec; try done. intros Hdis. by rewrite decide_True.
Qed.
Lemma plan_url_spec s H :
  no_orders H → remembered s H →
  wpM creation_guard (get_offering_plan_url (fb_client b)) (prepares H (λ _ _, True)) s H.
Proof.
  intros Hn Hr. unfold get_offering_plan_url, uuid, target. wp_steps.
  destruct (fs_plan_url s) as [url|]; [wp_steps; by apply prepares_anything|]. wp_steps.
  destruct (uuid_of_text _) as [hex|e] eqn:Hu; cbn [of_res]; wp_steps; [|by apply prepares_anything].
  apply wpM_call; [done|].
  assert (Hdone : ∀ answer s1, remembered s1 H →
    prepares H (λ (_ : json) _, True) (Ok JNull) (set_plan_url (Some JNull) s1) (Ev (Target (PlansGet hex)) answer :: H)).
  { intros answer s1 H1. apply prepares_anything; [set_solver|by constructor|].
    apply (remembered_same s1 _ H); [done|set_solver|done]. }
  intros [[status body]|e]; cbn [fst snd]; wp_steps; [|by apply Hdone].
  destruct (status =? 200); wp_steps; [|by apply Hdone].
  destruct body as [plans|e]; cbn [of_res]; wp_steps; [|by apply Hdone].
  destruct (truthy plans); wp_steps; [|by apply Hdone].
  destruct (first_plan_url plans) as [url|e]; cbn [of_res]; wp_steps; [|by apply Hdone].
  apply prepares_anything; [set_solver|by constructor|].
  apply (remembered_same s _ H); [done|set_solver|done].
Qed.

Ltac refused :=
  wp_steps; match goal with e : exn |- _ => destruct e; wp_steps; try done; case_match; by wp_steps end.

Lemma creation_guarded backend_id ctx :
  wpM creation_guard (create_resource_with_id b details r backend_id ctx) (λ out _ H, ordered out H) s0 [].
Proof.
  assert (Hr0 : remembered s0 []).
  { intros [p|] He; [by left|by left]. }
  assert (Herr : ∀ e H, ordered (Err e) H) by done.
  unfold create_resource_with_id. wp_step. eapply wpM_mono; [by apply pre_create_spec; [constructor|]|].
  intros [[]|e] s1 H1 (_ & Hn1 & Hr1 & _); cbv iota; [|done].
  cbv zeta. wp_step. destruct (convert_limits_to_target _ _) as [limits|e] eqn:Hl; cbn [of_res]; wp_steps; [|done].
  eapply wpM_mono; [by apply find_spec|]. intros [[e|]|e] s2 H2 (Hs2 & Hn2 & Hr2 & He); cbv iota; [|by wp_steps|done].
  destruct (He _ eq_refl) as (p & -> & Hk). cbn [ps_uuid summary_of].
  destruct (get_project_url _ _) as [project_url|e] eqn:Hp; cbn [of_res]; wp_steps; [|done].
  destruct (get_offering_url _) as [offering_url|e] eqn:Ho; cbn [of_res]; wp_steps; [|done].
  unfold create_marketplace_order, target. wp_steps.
  eapply wpM_mono; [by apply plan_url_spec|]. intros [plan|e] s3 H3 (Hs3 & Hn3 & Hr3 & _); cbv iota;
    [|by refused].
  apply wpM_call.
  { do 2 (split; [done|]). split; [|done]. exists p. split; [by eapply known_project_later|done]. }
  intros [order|e]; wp_steps; [|by refused].
  destruct (field_str (no_uuid order)) as [ou|] eqn:Hou; [|by destruct (field_str (no_resource_uuid order)); wp_steps].
  destruct (field_str (no_resource_uuid order)) as [ru|] eqn:Hru; wp_steps; [|done].
  intros info [= <-]. exists offering_url, project_url, plan, limits, (order_attributes b r), order, ou, ru.
  split; [left|]. split_and!; done.
Qed.
End Creation.

(** C17: to create a resource, an order is placed at most once, with the limits of the
    configured components converted and the attributes of the resource, in the project that
    Waldur B keeps under the resource's own id; that project is created only when the lookup
    did not find one -- because there is none, or because the lookup failed -- and of one that
    is there only a description that differs is changed.  What is answered are the ids of the
    order and of its resource as Waldur B gave them. *)
Theorem orders_placed_in_project b details r backend_id ctx s τ s' out :
  runs (create_resource_with_id b details r backend_id ctx s) τ (s', out) →
  guarded (creation_guard b details r s) [] τ ∧ ordered b r out τ.
Proof.
  intros Hr. destruct (wp_sound _ _ _ _ _ _ (creation_guarded b details r s backend_id ctx) Hr) as [Ho Hg].
  rewrite app_nil_r in Ho. split; [done|]. intros info Hi. specialize (Ho info Hi).
  destruct Ho as (ou & pu & plan & limits & attrs & order & x & y & Hin & Hrest).
  exists ou, pu, plan, limits, attrs, order, x, y. split; [by apply elem_of_rev|done].
Qed.

(** ** Limits *)

Lemma accumulate_NoDup d k x d' : accumulate d k x = Ok d' → NoDup (dict_keys d) → NoDup (dict_keys d').
Proof. unfold accumulate. intros (y & _ & [= <-])%rbind_ok. apply dict_set_NoDup. Qed.

Lemma all_ints_keys d d' : all_ints d = Ok d' → dict_keys d' = dict_keys d.
Proof.
  revert d'. induction d as [|[k x] d IH]; intros d'; simpl; [by intros [= <-]|].
  intros (z & _ & (l & Hl & [= <-])%rbind_ok)%rbind_ok. unfold dict_keys in *. cbn. by rewrite (IH _ Hl).
Qed.

(** The keys of converted limits are those of a dict. *)
Lemma converted_NoDup m limits d : convert_limits_to_target m limits = Ok d → NoDup (dict_keys d).
Proof.
  intros (d1 & Hf & Ha)%rbind_ok. rewrite (all_ints_keys _ _ Ha).
  apply (rfold_keeps (λ d, NoDup (dict_keys d)) _ _ _ _) in Hf; [done| |constructor].
  intros acc [k v] acc'. unfold add_limit. destruct (dict_get _ _) as [ms|]; [|by apply accumulate_NoDup].
  apply (rfold_keeps (λ d, NoDup (dict_keys d))). intros acc1 x acc2. unfold add_scaled.
  intros (y & _ & Hy)%rbind_ok. by apply (accumulate_NoDup _ _ _ _ Hy).
Qed.

Lemma in_sync_itself l : l ≠ [] → NoDup (dict_keys l) → in_sync l l = true.
Proof.
  intros Hne Hnd. unfold in_sync. destruct l as [|x l]; [done|].
  apply forallb_forall. intros [k v] Hin. apply bool_decide_eq_true. by apply dict_In_get; [|apply list_elem_of_In].
Qed.

Section Limits.
Context (b : WaldurBackend) (resource_backend_id : string) (limits : gmap string Z).

(** The limits of the resource that an event read; none where it failed. *)
Definition limits_read (ev : event federationE) : list (string * Z) :=
  match resource_read ev with
  | Some (_, resource) => default [] (field_value (tr_limits resource))
  | None => []
  end.

Definition limits_guard : guard federationE := λ X H c,
  match c with
  | Target (ResourcesRetrieve hex None) => H = [] ∧ uuid_of_text resource_backend_id = Ok hex
  | Target (UpdateLimits hex target_limits) =>
      uuid_of_text resource_backend_id = Ok hex ∧
      convert_limits_to_target (fb_component_mapper b) (map_to_list limits) = Ok target_limits ∧
      ∃ ev, H = [ev] ∧ in_sync target_limits (limits_read ev) = false
  | _ => False
  end.

Lemma limits_read_spec hex s :
  uuid_of_text resource_backend_id = Ok hex →
  wpM limits_guard (FederationClient.get_resource_limits resource_backend_id)
    (λ out s' H, s' = s ∧ ∃ ev, H = [ev] ∧ out = Ok (limits_read ev)) s [].
Proof.
  intros Hu. unfold FederationClient.get_resource_limits, or_else, existing_resource, get_marketplace_resource, target, uuid.
  rewrite Hu. wp_steps. apply wpM_call; [done|]. intros [[resource|]|e]; wp_steps; (split; [done|]); eexists; done.
Qed.

(** The limits of a resource are set by one order on Waldur B, of the converted limits, and
    only when they were just read to differ, by a read that may have failed.  The answer is the
    order Waldur B made, and once the limits are as ordered nothing is ordered again; only an
    empty set of limits is ordered every time. *)
Theorem limits_ordered_when_different s τ s' out :
  runs (set_resource_limits b resource_backend_id limits s) τ (s', out) →
  guarded limits_guard [] τ ∧ s' = s ∧
  (∀ order, out = Ok (Some order) → ∃ hex target_limits answer,
     Ev (Target (UpdateLimits hex target_limits)) (Ok answer) ∈ τ ∧ order = uuid_str answer) ∧
  ∀ hex target_limits answer resource s2,
    Ev (Target (UpdateLimits hex target_limits)) answer ∈ τ → target_limits ≠ [] →
    tr_limits resource = Val target_limits →
    runs (set_resource_limits b resource_backend_id limits s2)
      [Ev (Target (ResourcesRetrieve hex None)) (Ok (Some resource))] (s2, Ok None).
Proof.
  intros Hr.
  assert (Hw : wpM limits_guard (set_resource_limits b resource_backend_id limits) (λ out s' H, s' = s ∧
    ∀ order, out = Ok (Some order) → ∃ hex target_limits answer,
      Ev (Target (UpdateLimits hex target_limits)) (Ok answer) ∈ H ∧ order = uuid_str answer) s []).
  { unfold set_resource_limits. wp_step.
    destruct (convert_limits_to_target _ _) as [target_limits|e] eqn:Hc; cbn [of_res]; wp_steps; [|done].
    destruct (uuid_of_text resource_backend_id) as [hex|e] eqn:Hu.
    - eapply wpM_mono; [by apply (limits_read_spec hex)|]. intros out1 s1 H1 (-> & ev & -> & ->); cbv iota.
      destruct (in_sync target_limits (limits_read ev)) eqn:Hs; [by wp_steps|].
      unfold uuid, create_update_order, target. rewrite Hu. wp_steps. apply wpM_call; [by do 2 (split; [done|]); exists ev|].
      intros [order|e]; wp_steps; [|done]. split; [done|]. intros ? [= <-].
      exists hex, target_limits, order. split; [left|done].
    - unfold FederationClient.get_resource_limits, or_else, uuid. rewrite Hu. wp_steps.
      destruct (in_sync target_limits []); wp_steps; [done|]. by wp_steps. }
  destruct (wp_sound _ _ _ _ _ _ Hw Hr) as [[Hs Ho] Hg]. rewrite app_nil_r in Ho. split; [done|]. split; [done|]. split.
  - intros order Hx. destruct (Ho order Hx) as (hex & l & a & Hin & ?). exists hex, l, a. by rewrite <- elem_of_rev.
  - intros hex target_limits answer resource s2 Hin Hne Hl.
    destruct (guarded_elem _ _ _ _ _ Hg Hin) as (τ1 & Hu & Hc & _).
    unfold set_resource_limits. rewrite Hc. cbn.
    unfold FederationClient.get_resource_limits, or_else, uuid. rewrite Hu. cbn. apply runs_step; [done|].
    cbn. rewrite Hl. cbn. by rewrite (in_sync_itself _ Hne (converted_NoDup _ _ _ Hc)).
Qed.
End Limits.

(** ** Usage *)

Section Usage.
Context (b : WaldurBackend) (backend_ids : list string).
Implicit Types (H : trace federationE).

(** The month is asked for first, and then every usage is of that month. *)
Definition usage_guard : guard federationE := λ X H c,
  let this_month period := ∃ ym, Ev CurrentMonth (Ok ym) ∈ H ∧ period = Some (first_day ym.1 ym.2) in
  let asked hex := ∃ id, id ∈ backend_ids ∧ uuid_of_text id = Ok hex in
  match c with
  | CurrentMonth => H = []
  | Target (ComponentUsages hex period) => asked hex ∧ this_month period
  | Target (ComponentUserUsages hex period) => asked hex ∧ this_month period
  | _ => False
  end.

(** The usage of a resource is made of what was answered for it, in full. *)
Definition usage_founded H (id : string) (u : usage) : Prop :=
  ∃ hex period components users, uuid_of_text id = Ok hex ∧
    Ev (Target (ComponentUsages hex period)) (Ok components) ∈ H ∧
    Ev (Target (ComponentUserUsages hex period)) (Ok users) ∈ H ∧
    resource_usage b components users u.

(** The usage of a resource could not be read: its id is none, Waldur B answered an error,
    or an amount that is no number. *)
Definition usage_unread H (id : string) : Prop :=
  (∃ e, uuid_of_text id = Err e) ∨ ∃ hex period, uuid_of_text id = Ok hex ∧
    ((∃ e, Ev (Target (ComponentUsages hex period)) (Err e) ∈ H) ∨
     (∃ e, Ev (Target (ComponentUserUsages hex period)) (Err e) ∈ H) ∨
     (∃ l u, Ev (Target (ComponentUsages hex period)) (Ok l) ∈ H ∧ u ∈ l ∧ unreadable (cu_usage u)) ∨
     (∃ l u, Ev (Target (ComponentUserUsages hex period)) (Ok l) ∈ H ∧ u ∈ l ∧ unreadable (cuu_usage u))).

Lemma single_usage_spec id ym s H :
  id ∈ backend_ids → Ev CurrentMonth (Ok ym) ∈ H →
  wpM usage_guard (get_single_resource_usage b id (first_day ym.1 ym.2)) (λ out _ H', H ⊆ H' ∧
    match out with Ok u => usage_founded H' id u | Err _ => usage_unread H' id end) s H.
Proof.
  intros Hid Hym. unfold get_single_resource_usage, uuid, target. set (period := first_day ym.1 ym.2).
  destruct (uuid_of_text id) as [hex|e] eqn:Hu; wp_steps; [|split; [done|left; by exists e]].
  assert (Hasked : ∃ id, id ∈ backend_ids ∧ uuid_of_text id = Ok hex) by eauto.
  assert (Hun : ∀ H', (∃ e, Ev (Target (ComponentUsages hex (Some period))) (Err e) ∈ H') ∨
     (∃ e, Ev (Target (ComponentUserUsages hex (Some period))) (Err e) ∈ H') ∨
     (∃ l u, Ev (Target (ComponentUsages hex (Some period))) (Ok l) ∈ H' ∧ u ∈ l ∧ unreadable (cu_usage u)) ∨
     (∃ l u, Ev (Target (ComponentUserUsages hex (Some period))) (Ok l) ∈ H' ∧ u ∈ l ∧ unreadable (cuu_usage u)) →
    usage_unread H' id) by (right; eauto).
  apply wpM_call; [split; [done|by exists ym]|].
  intros [components|e]; wp_steps; [|split; [set_solver|]; apply Hun; left; exists e; left].
  destruct (total_usage b components) as [total|e] eqn:Ht; wp_steps.
  2:{ split; [set_solver|]. apply total_usage_error in Ht as (x & ? & ?). apply Hun. right; right; left.
      exists components, x. split; [left|done]. }
  apply wpM_call; [split; [done|exists ym; split; [by right|done]]|].
  intros [users|e]; wp_steps; [|split; [set_solver|]; apply Hun; right; left; exists e; left].
  destruct (usage_of b total users) as [u|e] eqn:Ho; wp_steps; (split; [set_solver|]).
  - exists hex, (Some period), components, users.
    split_and!; [done|right; left|left|by eapply usage_of_ok].
  - apply usage_of_error in Ho as (x & ? & ?). apply Hun. right; right; right.
    exists users, x. split; [left|done].
Qed.

Lemma usage_founded_later H H' id u : H ⊆ H' → usage_founded H id u → usage_founded H' id u.
Proof.
  intros HH (hex & period & cs & us & ? & ? & ? & ?). exists hex, period, cs, us.
  split; [done|]. split; [by apply HH|]. split; [by apply HH|done].
Qed.

Lemma usage_unread_later H H' id : H ⊆ H' → usage_unread H id → usage_unread H' id.
Proof.
  intros HH [?|(hex & period & Hu & Hr)]; [by left|right]. exists hex, period. split; [done|].
  pose proof (λ ev, HH ev) as Hin. naive_solver.
Qed.

(** Every resource is in the report, with a usage that is founded, or with one of zero when
    its usage could not be read. *)
Definition report_founded (ids : list string) (report : list (string * usage)) H : Prop :=
  (∀ id, id ∈ ids → is_Some (dict_get report id)) ∧
  ∀ id u, dict_get report id = Some u → id ∈ backend_ids ∧
    (u = empty_usage (fb_base b) ∧ usage_unread H id ∨ usage_founded H id u).

Lemma report_founded_set ids report id u H H' :
  H ⊆ H' → id ∈ backend_ids → u = empty_usage (fb_base b) ∧ usage_unread H' id ∨ usage_founded H' id u →
  report_founded ids report H → report_founded (ids ++ [id]) (dict_set report id u) H'.
Proof.
  intros HH Hid Hu [Hall Hrep]. split.
  - intros k [Hk|Hk]%elem_of_app; destruct (decide (id = k)) as [<-|Hne];
      try (rewrite dict_get_set_eq; by eexists); rewrite dict_get_set_ne by done; [by apply Hall|].
    by apply list_elem_of_singleton in Hk.
  - intros k v. destruct (decide (id = k)) as [<-|Hne].
    + rewrite dict_get_set_eq. by intros [= <-].
    + rewrite dict_get_set_ne by done. intros Hk. destruct (Hrep k v Hk) as [? [[? ?]|?]]; (split; [done|]).
      * left. split; [done|]. by eapply usage_unread_later.
      * right. by eapply usage_founded_later.
Qed.

Lemma usage_report_guarded s :
  wpM usage_guard (get_usage_report b backend_ids) (λ out _ H,
    (∃ e, out = Err e ∧ H = [Ev CurrentMonth (Err e)]) ∨
    ∃ report, out = Ok report ∧ report_founded backend_ids report H) s [].
Proof.
  unfold get_usage_report. wp_step. apply wpM_call; [done|]. intros [ym|e]; cbv iota; [|left; by exists e].
  unfold get_usage_report_for_period.
  apply (wpM_fold_m _ _ _ (λ ids report _ H, Ev CurrentMonth (Ok ym) ∈ H ∧ report_founded ids report H)).
  - intros ids id report s1 H1 [ys Hl] (Hym & Hrep). unfold or_else. wp_steps.
    assert (Hid : id ∈ backend_ids) by (rewrite Hl, elem_of_app; right; left).
    eapply wpM_mono; [by apply single_usage_spec|]. intros [u|e] s2 H2 [Hs2 Hu]; wp_steps;
      (split; [by apply Hs2|]); apply (report_founded_set _ _ _ _ H1); auto.
  - intros report s1 H1 [_ Hrep]. right. by exists report.
  - split; [left|]. split; [intros id Hid; by apply elem_of_nil in Hid|done].
Qed.

(** C24: a usage report asks for the month first, and for the resources of the report in that
    month only.  Each resource is reported with what Waldur B answered for it: per component
    of Waldur A, the sum over the components of Waldur B that lead back to it of the sum of
    their records over the factor, rounded to two decimals, in all and for each user
    ([resource_usage]); or with a usage of zero, and this only where its id is none, a
    listing failed or an amount is no number.  A report never fails for a resource. *)
Theorem usage_reported_for_month s τ s' out :
  runs (get_usage_report b backend_ids s) τ (s', out) →
  guarded usage_guard [] τ ∧
  ((∃ e, out = Err e ∧ rev τ = [Ev CurrentMonth (Err e)]) ∨
   ∃ report, out = Ok report ∧ report_founded backend_ids report (rev τ)).
Proof.
  intros Hr. destruct (wp_sound _ _ _ _ _ _ (usage_report_guarded s) Hr) as [Ho Hg].
  by rewrite app_nil_r in Ho.
Qed.
End Usage.

(** ** Witnesses and examples *)

Definition creation_world (read : res (option TargetResource)) (X : Type) (c : federationE X) (w : unit) : res X * unit :=
  (match c in federationE X return res X with
   | Target c =>
       match c in targetE X return res X with
       | ResourcesRetrieve _ _ => read
       | ProjectsList _ => Ok [sample_project]
       | ProjectsUpdate _ _ => Ok sample_project
       | PlansGet _ => Ok (404, Err (ValueError "no JSON"))
       | OrdersCreate _ _ _ _ _ => Ok {| no_uuid := Val (sample_hex "9"); no_resource_uuid := Val (sample_hex "b") |}
       | _ => Err (TransportError "unreachable")
       end
   | _ => Err (TransportError "unreachable")
   end, w).

Definition creation_exec :=
  exec (creation_world (Ok None))
    (create_resource_with_id (sample_federation BIDIRECTIONAL) sample_details sample_resource "alloc" None no_state) ().

Lemma orders_placed_in_project_witness :
  ∃ info, creation_exec.1.1.2 = Ok info ∧ info_backend_id info = uuid_str (sample_hex "b") ∧
    ordered (sample_federation BIDIRECTIONAL) sample_resource (Ok info) creation_exec.1.2.
Proof.
  destruct (orders_placed_in_project (sample_federation BIDIRECTIONAL) sample_details sample_resource "alloc" None
    no_state creation_exec.1.2 creation_exec.1.1.1 creation_exec.1.1.2 (exec_runs_pair _ _ _)) as [_ Ho].
  revert Ho. set (out := creation_exec.1.1.2). vm_compute in out. subst out. intros Ho.
  eexists. split; [reflexivity|]. split; [reflexivity|exact Ho].
Defined.

Lemma limits_ordered_when_different_witness :
  ∃ order, Ok (Some order) = Ok (A:=option string) (Some (uuid_str (sample_hex "9"))) ∧
  ∃ hex target_limits answer,
    Ev (Target (UpdateLimits hex target_limits)) (Ok answer) ∈
      ([Ev (Target (ResourcesRetrieve (sample_hex "b") None)) (Ok (Some sample_target_resource));
        Ev (Target (UpdateLimits (sample_hex "b") [("cpu"%string, 8)])) (Ok (sample_hex "9"))] : trace federationE) ∧
    order = uuid_str answer.
Proof.
  exists (uuid_str (sample_hex "9")). split; [done|].
  refine (proj1 (proj2 (proj2 (limits_ordered_when_different (sample_federation BIDIRECTIONAL) (uuid_str (sample_hex "b"))
    {["cpu"%string := 8]} no_state _ no_state (Ok (Some (uuid_str (sample_hex "9")))) _))) _ eq_refl).
  solve_runs.
Defined.

(** The read that is to find out whether the resource is there fails: another resource is
    ordered, and the id it gets is dropped. *)
Example recreated_on_failed_read :
  let done := exec (creation_world (Err (TransportError "timeout")))
    (recreate_missing_with (hooks (sample_federation BIDIRECTIONAL) sample_details)
       (create_resource_with_id (sample_federation BIDIRECTIONAL) sample_details) sample_federated no_state) () in
  done.1.1.2 = Ok true ∧ existsb (λ ev, match ev with Ev c _ => is_order c end) done.1.2 = true.
Proof. vm_compute. done. Qed.

Lemma usage_reported_for_month_witness :
  let read := Ev (Target (ComponentUsages (sample_hex "b") (Some (first_day 2026 3))))
                (Ok [{| cu_type := Val "cpu"%string; cu_usage := Val (JInt 7) |}]) in
  guarded (usage_guard [uuid_str (sample_hex "b")]) []
    [Ev CurrentMonth (Ok (2026, 3)); read;
     Ev (Target (ComponentUserUsages (sample_hex "b") (Some (first_day 2026 3)))) (Err (TransportError "timeout"))].
Proof.
  refine (proj1 (usage_reported_for_month (sample_federation BIDIRECTIONAL) [uuid_str (sample_hex "b")] no_state _
    no_state (Ok [(uuid_str (sample_hex "b"), empty_usage (fb_base (sample_federation BIDIRECTIONAL)))]) _)).
  solve_runs.
Defined.
