(* ===== verification/FederationMembers.v ===== *)
(** * The members of a project on Waldur B

    [FederationBackend.add_users_to_resource] and its kin: a user of Waldur A is resolved to
    one of Waldur B, a role of Waldur A to one of Waldur B, and the resource to its project;
    all three are remembered or read before a membership is changed. *)

From stdpp Require Import base list strings gmap sets.
From Stdlib Require Import ZArith Lia Ascii SpecFloat.
From S2P Require Import Prelude.
From S2P Require Import Texts.
From S2P Require Import Structures.
From S2P Require Import Agent.
From S2P Require Import Samples.
From S2P Require Import OfferingUsers.
From S2P Require Import ComponentMapping.
From S2P Require Import BaseBackend.
From S2P Require Import Linking.
From S2P Require Import FederationClient.
From S2P Require Import FederationBackend.
From S2P Require Import FederationSync.

Local Open Scope prog_scope.
Local Open Scope Z_scope.

Section Members.
Context (text : json → string) (b : WaldurBackend) (r : WaldurResource).
(** The state an operation starts from, and what may be changed. *)
Context (s0 : federation_state) (permitted : bool → string → string → string → trace federationE → Prop).
Implicit Types (H : trace federationE) (s : federation_state).

(** An answer of Waldur B that resolves an identity to a user. *)
Definition user_answered H (identity user : string) : Prop :=
  (∃ key rest, Ev (Target (UsersList key identity)) (Ok (Val user :: rest)) ∈ H) ∨
  Ev (Target (RemoteEduteams identity)) (Ok (Some user)) ∈ H ∨
  (∃ attributes status body d, let payload := bridge_payload identity (fb_identity_bridge_source b) attributes in
     Ev (Target (IdentityBridge payload)) (Ok (status, Ok body)) ∈ H ∧ 200 ≤ status < 300 ∧ body = JObj d ∧
     uuid_of_text (text (default JNull (obj_get d "uuid"))) = Ok user).

Definition user_known H (identity user : string) : Prop :=
  fs_users s0 !! identity = Some user ∨ user_answered H identity user.

Definition role_known H (name role : string) : Prop :=
  fs_roles s0 !! name = Some role ∨
  ∃ uuid rest, role = uuid_str uuid ∧ Ev (Target (RolesList name)) (Ok (uuid :: rest)) ∈ H.

(** The project that the resource was read in. *)
Definition project_read H (project : string) : Prop :=
  ∃ hex b_resource, uuid_of_text (res_backend_id r) = Ok hex ∧
    Some (hex, b_resource) ∈ resource_read <$> H ∧ field_str (tr_project_uuid b_resource) = Some project.

(** Reads are free; a membership is changed where it is permitted, the role it names known. *)
Definition member_guard : guard federationE := λ X H c,
  match c with
  | Target c =>
      match c with
      | ResourcesRetrieve _ _ | RolesList _ | UsersList _ _ | RemoteEduteams _ | IdentityBridge _
      | ProjectsListUsers _ => True
      | ProjectsAddUser project user role =>
          project_read H project ∧ ∃ name, role_known H name role ∧ permitted true project user name H
      | ProjectsDeleteUser project user role =>
          project_read H project ∧ ∃ name, role_known H name role ∧ permitted false project user name H
      | _ => False
      end
  | _ => False
  end.

(** What is remembered was answered. *)
Definition coherent s H : Prop :=
  (∀ identity user, fs_users s !! identity = Some user → user_known H identity user) ∧
  (∀ name role, fs_roles s !! name = Some role → role_known H name role).

Lemma user_known_later H H' identity user : H ⊆ H' → user_known H identity user → user_known H' identity user.
Proof.
  intros HH [?|[(k & l & ?)|[?|(a & st & bd & d & ? & ?)]]]; [by left|right..].
  - left. exists k, l. by apply HH.
  - right. left. by apply HH.
  - right. right. exists a, st, bd, d. split; [by apply HH|done].
Qed.

Lemma role_known_later H H' name role : H ⊆ H' → role_known H name role → role_known H' name role.
Proof. intros HH [?|(u & l & ? & ?)]; [by left|right]. exists u, l. split; [done|by apply HH]. Qed.

Lemma project_read_later H H' project : H ⊆ H' → project_read H project → project_read H' project.
Proof.
  intros HH (hex & br & ? & Hin & ?). exists hex, br. split_and!; try done.
  apply list_elem_of_fmap in Hin as (ev & ? & Hev). apply list_elem_of_fmap. exists ev. split; [done|by apply HH].
Qed.

Lemma coherent_same s s' H H' :
  fs_users s' = fs_users s → fs_roles s' = fs_roles s → H ⊆ H' → coherent s H → coherent s' H'.
Proof.
  intros Hu Hr HH [H1 H2]. split; [rewrite Hu|rewrite Hr]; intros k v Hk;
    [eapply user_known_later|eapply role_known_later]; eauto.
Qed.

(** A statement that keeps what is remembered true, and answers as [P] says. *)
Definition sound {A} H (P : A → trace federationE → Prop) (out : res A) s H' : Prop :=
  H ⊆ H' ∧ coherent s H' ∧ ∀ a, out = Ok a → P a H'.

Lemma sound_bind {A B} (m : fed_m A) (f : A → fed_m B) P Q s H :
  wpM member_guard m (sound H P) s H →
  (∀ a s' H', H ⊆ H' → coherent s' H' → P a H' → wpM member_guard (f a) (sound H' Q) s' H') →
  wpM member_guard (bind m f) (sound H Q) s H.
Proof.
  intros Hm Hf. wp_step. eapply wpM_mono; [exact Hm|]. intros [a|e] s' H' (Hs & Hc & Ha); cbv iota; [|by split].
  eapply wpM_mono; [by apply Hf; [..|apply Ha]|]. intros out s2 H2 (? & ? & ?). split; [set_solver|done].
Qed.

Lemma sound_mono {A} (m : fed_m A) (P Q : A → trace federationE → Prop) s H :
  wpM member_guard m (sound H P) s H → (∀ a H', H ⊆ H' → P a H' → Q a H') → wpM member_guard m (sound H Q) s H.
Proof. intros Hm HPQ. eapply wpM_mono; [exact Hm|]. intros out s' H' (? & ? & ?). split_and!; auto. Qed.

Lemma sound_or_else {A} (fallback : A) (m : fed_m A) P s H :
  wpM member_guard m (sound H P) s H → (∀ H', P fallback H') →
  wpM member_guard (or_else fallback m) (sound H P) s H.
Proof.
  intros Hm HP. unfold or_else. wp_steps. eapply wpM_mono; [exact Hm|].
  intros [a|e] s' H' (? & ? & Ha); wp_steps; (split; [done|]); (split; [done|]); intros ? [= <-]; [by apply Ha|by apply HP].
Qed.

Lemma sound_ret {A} (a : A) P s H : coherent s H → P a H → wpM member_guard (ret a) (sound H P) s H.
Proof. intros Hc HP. wp_step. split; [done|]. split; [done|]. by intros ? [= <-]. Qed.

Lemma sound_raise {A} e (P : A → trace federationE → Prop) s H :
  coherent s H → wpM member_guard (raise e) (sound H P) s H.
Proof. intros Hc. wp_step. by split. Qed.

Lemma sound_of_res {A} (x : res A) (P : A → trace federationE → Prop) s H :
  coherent s H → (∀ a, x = Ok a → P a H) → wpM member_guard (of_res x) (sound H P) s H.
Proof. intros Hc HP. destruct x; [apply sound_ret|apply sound_raise]; auto. Qed.

Lemma sound_call {X} (c : federationE X) (P : X → trace federationE → Prop) s H :
  member_guard X H c → coherent s H → (∀ x, P x (Ev c (Ok x) :: H)) →
  wpM member_guard (call c) (sound H P) s H.
Proof.
  intros Hg Hc HP. apply wpM_call; [done|]. intros x. split; [set_solver|]. split.
  - by apply (coherent_same s _ H); [..|set_solver|].
  - by intros a ->.
Qed.
Lemma get_role_uuid_sound name s H :
  coherent s H → wpM member_guard (get_role_uuid name) (sound H (λ role H', role_known H' name role)) s H.
Proof.
  intros Hc. unfold get_role_uuid, target. wp_step. wp_step.
  destruct (fs_roles s !! name) as [role|] eqn:Hr; [by apply sound_ret; [|apply Hc]|].
  eapply (sound_bind _ _ (λ roles H', ∀ u l, roles = u :: l → role_known H' name (uuid_str u))).
  { apply sound_call; [done..|]. intros roles u l ->. right. exists u, l. split; [done|left]. }
  intros [|u l] s1 H1 Hs1 Hc1 Hk; [by apply sound_raise|]. specialize (Hk u l eq_refl). wp_steps.
  split; [done|]. split; [|by intros ? [= <-]]. destruct Hc1 as [Hu1 Hr1]. split; [exact Hu1|].
  intros n role. cbn [fs_roles set_roles]. destruct (decide (name = n)) as [<-|Hne].
  - rewrite lookup_insert_eq. by intros [= <-].
  - rewrite lookup_insert_ne by done. apply Hr1.
Qed.

(** The three ways of finding a user. *)
Lemma resolve_by_field_sound value key s H :
  coherent s H →
  wpM member_guard (resolve_user_by_field value key)
    (sound H (λ u H', ∀ user, u = Some user → user_answered H' value user)) s H.
Proof.
  intros Hc. unfold resolve_user_by_field, target. apply sound_or_else; [|done].
  eapply (sound_bind _ _ (λ users H', ∀ user l, users = Val user :: l → user_answered H' value user)).
  { apply sound_call; [done..|]. intros users user l ->. left. exists key, l. left. }
  intros users s1 H1 Hs1 Hc1 Hk. apply sound_ret; [done|]. intros user. destruct users as [|[| |u] l]; try done.
  intros [= <-]. by eapply Hk.
Qed.

Lemma resolve_by_cuid_sound cuid s H :
  coherent s H →
  wpM member_guard (resolve_user_by_cuid cuid)
    (sound H (λ u H', ∀ user, u = Some user → user_answered H' cuid user)) s H.
Proof.
  intros Hc. unfold resolve_user_by_cuid, target. apply sound_or_else; [|done].
  eapply (sound_bind _ _ (λ found H', ∀ user, found = Some user → user_answered H' cuid user)).
  { apply sound_call; [done..|]. intros found user ->. right. left. left. }
  intros [u|] s1 H1 Hs1 Hc1 Hk; [by apply sound_ret|by apply sound_raise].
Qed.

Lemma resolve_by_bridge_sound username attributes s H :
  coherent s H →
  wpM member_guard (resolve_user_via_identity_bridge text username (fb_identity_bridge_source b) attributes)
    (sound H (λ u H', ∀ user, u = Some user → user_answered H' username user)) s H.
Proof.
  intros Hc. unfold resolve_user_via_identity_bridge, target, uuid. apply sound_or_else; [|done].
  eapply (sound_bind _ _ (λ response H', Ev (Target (IdentityBridge
    (bridge_payload username (fb_identity_bridge_source b) attributes))) (Ok response) ∈ H')).
  { apply sound_call; [done..|]. intros response. left. }
  intros [status body] s1 H1 Hs1 Hc1 Hin. cbn [fst snd].
  destruct ((200 <=? status) && (status <? 300)) eqn:Hst; cbn [negb]; [|by apply sound_raise].
  eapply (sound_bind _ _ (λ data _, body = Ok data)); [by apply sound_of_res|].
  intros data s2 H2 Hs2 Hc2 ->. destruct data as [| | | | | |d]; try by apply sound_raise.
  cbv zeta. destruct (truthy _); [|by apply sound_ret].
  eapply (sound_bind _ _ (λ hex _, uuid_of_text (text (default JNull (obj_get d "uuid"))) = Ok hex));
    [by apply sound_of_res|].
  intros hex s3 H3 Hs3 Hc3 Hu. apply sound_ret; [done|]. intros user [= <-]. right. right.
  apply andb_prop in Hst as [Hlo Hhi]. exists attributes, status, (JObj d), d.
  split; [by apply Hs3, Hs2|]. split; [lia|done].
Qed.

Lemma lookup_sound identity attributes s H :
  coherent s H →
  wpM member_guard (lookup_remote_user text b identity attributes)
    (sound H (λ u H', ∀ user, u = Some user → user_answered H' identity user)) s H.
Proof.
  intros Hc. unfold lookup_remote_user. cbv zeta.
  repeat case_match; first [by apply resolve_by_bridge_sound|by apply resolve_by_field_sound|
    by apply resolve_by_cuid_sound|by apply sound_ret].
Qed.

Lemma resolve_sound identity attributes s H :
  coherent s H →
  wpM member_guard (resolve_remote_user text b identity attributes)
    (sound H (λ u H', ∀ user, u = Some user → user_known H' identity user)) s H.
Proof.
  intros Hc. unfold resolve_remote_user. wp_step. wp_step.
  destruct (fs_users s !! identity) as [user|] eqn:Hu.
  { apply sound_ret; [done|]. intros ? [= <-]. by apply Hc. }
  eapply sound_bind; [by apply lookup_sound|]. intros [user|] s1 H1 Hs1 Hc1 Ha.
  - wp_steps. split; [done|]. split; [|intros ? [= <-] ? [= <-]; right; by apply Ha].
    destruct Hc1 as [Hu1 Hr1]. split; [|exact Hr1]. intros i v. cbn [fs_users set_users].
    destruct (decide (identity = i)) as [<-|Hne].
    + rewrite lookup_insert_eq. intros [= <-]. right. by apply Ha.
    + rewrite lookup_insert_ne by done. apply Hu1.
  - destruct (String.eqb _ _); [by apply sound_raise|by apply sound_ret].
Qed.

Lemma project_sound s H :
  coherent s H →
  wpM member_guard (get_resource_project_uuid (res_backend_id r))
    (sound H (λ p H', ∀ project, p = Some project → project_read H' project)) s H.
Proof.
  intros Hc. unfold get_resource_project_uuid, existing_resource, get_marketplace_resource, target, uuid.
  apply sound_or_else; [|done].
  eapply (sound_bind _ _ (λ hex _, uuid_of_text (res_backend_id r) = Ok hex)); [by apply sound_of_res|].
  intros hex s1 H1 Hs1 Hc1 Hu.
  eapply (sound_bind _ _ (λ br H', Some (hex, br) ∈ resource_read <$> H')).
  { eapply (sound_bind _ _ (λ found H', ∀ br, found = Some br → Some (hex, br) ∈ resource_read <$> H')).
    - apply sound_call; [done..|]. intros found br ->. left.
    - intros [br|] s2 H2 Hs2 Hc2 Hb; [by apply sound_ret; [|apply Hb]|by apply sound_raise]. }
  intros br s2 H2 Hs2 Hc2 Hb. apply sound_ret; [done|]. intros project Hp. by exists hex, br.
Qed.
Lemma sound_attempt {A} (m : fed_m A) P s H :
  wpM member_guard m (sound H P) s H →
  wpM member_guard (attempt m) (sound H (λ out H', ∀ a, out = Ok a → P a H')) s H.
Proof.
  intros Hm. wp_steps. eapply wpM_mono; [exact Hm|]. intros out s' H' (? & ? & Ha).
  split; [done|]. split; [done|]. by intros ? [= <-].
Qed.

Lemma sound_for_each {A} (l : list A) (body : A → fed_m unit) s H :
  (∀ x s' H', x ∈ l → H ⊆ H' → coherent s' H' → wpM member_guard (body x) (sound H' (λ _ _, True)) s' H') →
  coherent s H → wpM member_guard (for_each l body) (sound H (λ _ _, True)) s H.
Proof.
  intros Hbody Hc. apply (wpM_for_each _ _ _ (λ _ s' H', H ⊆ H' ∧ coherent s' H')); [|by intros ? ? [? ?]|done].
  intros xs x s1 H1 [ys ->] [Hs1 Hc1]. eapply wpM_mono; [by apply Hbody; [set_solver|..]|].
  intros [[]|e] s2 H2 (? & ? & _); [split; [set_solver|done]|]. split; [set_solver|done].
Qed.

(** The role that a listing of the project's users gives a user. *)
Definition role_listed H (project user name : string) : Prop :=
  ∃ rows row, Ev (Target (ProjectsListUsers project)) (Ok rows) ∈ H ∧ row ∈ rows ∧
    field_str (ur_user_uuid row) = Some user ∧ field_str (ur_role_name row) = Some name.

Lemma role_listed_later H H' project user name :
  H ⊆ H' → role_listed H project user name → role_listed H' project user name.
Proof. intros HH (rows & row & ? & ?). exists rows, row. split; [by apply HH|done]. Qed.

Lemma roles_of_rows rows user name :
  foldl role_of ∅ rows !! user = Some name →
  ∃ row, row ∈ rows ∧ field_str (ur_user_uuid row) = Some user ∧ field_str (ur_role_name row) = Some name.
Proof.
  cut (∀ d, foldl role_of d rows !! user = Some name → d !! user = Some name ∨
    ∃ row, row ∈ rows ∧ field_str (ur_user_uuid row) = Some user ∧ field_str (ur_role_name row) = Some name).
  { intros Hc Hx. destruct (Hc ∅ Hx) as [H0|?]; [by rewrite lookup_empty in H0|done]. }
  induction rows as [|x rows IH]; intros d Hd; simpl in Hd; [by left|].
  apply IH in Hd as [Hd|(row & ? & ?)]; [|right; exists row; split; [by right|done]].
  unfold role_of in Hd. destruct (field_str (ur_user_uuid x)) as [u|] eqn:Hu; [|by left].
  destruct (field_str (ur_role_name x)) as [n|] eqn:Hn; [|by left].
  destruct (decide (u = user)) as [->|Hne]; [|rewrite lookup_insert_ne in Hd by done; by left].
  rewrite lookup_insert_eq in Hd. injection Hd as ->. right. exists x. split; [left|done].
Qed.

Lemma b_roles_sound project s H :
  coherent s H →
  wpM member_guard (fetch_b_side_roles project)
    (sound H (λ roles H', ∀ user name, roles !! user = Some name → role_listed H' project user name)) s H.
Proof.
  intros Hc. unfold fetch_b_side_roles, target.
  apply sound_or_else; [|intros H' u n Hx; by rewrite lookup_empty in Hx].
  eapply (sound_bind _ _ (λ rows H', Ev (Target (ProjectsListUsers project)) (Ok rows) ∈ H')).
  { apply sound_call; [done..|]. intros rows. left. }
  intros rows s1 H1 Hs1 Hc1 Hin. apply sound_ret; [done|]. intros u n Hn. apply roles_of_rows in Hn as (row & ? & ? & ?).
  by exists rows, row.
Qed.

Lemma add_sound project user name s H :
  coherent s H → project_read H project → (∀ H', H ⊆ H' → permitted true project user name H') →
  wpM member_guard (add_user_to_project project user name)
    (sound H (λ _ H', ∃ role, role_known H' name role ∧ Ev (Target (ProjectsAddUser project user role)) (Ok ()) ∈ H'))
    s H.
Proof.
  intros Hc Hp Hper. unfold add_user_to_project. eapply sound_bind; [by apply get_role_uuid_sound|].
  intros role s1 H1 Hs1 Hc1 Hr. apply sound_call; [|done|].
  - split; [by eapply project_read_later|]. exists name. split; [done|by apply Hper].
  - intros []. exists role. split; [apply (role_known_later H1); [set_solver|done]|left].
Qed.

Lemma remove_sound project user name s H :
  coherent s H → project_read H project → (∀ H', H ⊆ H' → permitted false project user name H') →
  wpM member_guard (remove_user_from_project project user name)
    (sound H (λ _ H', ∃ role status, role_known H' name role ∧
       Ev (Target (ProjectsDeleteUser project user role)) (Ok status) ∈ H')) s H.
Proof.
  intros Hc Hp Hper. unfold remove_user_from_project. eapply sound_bind; [by apply get_role_uuid_sound|].
  intros role s1 H1 Hs1 Hc1 Hr.
  eapply (sound_bind _ _ (λ status H', role_known H' name role ∧
    Ev (Target (ProjectsDeleteUser project user role)) (Ok status) ∈ H')).
  - apply sound_call; [|done|].
    + split; [by eapply project_read_later|]. exists name. split; [done|by apply Hper].
    + intros status. split; [apply (role_known_later H1); [set_solver|done]|left].
  - intros status s2 H2 Hs2 Hc2 [? ?]. apply sound_ret; [done|]. by exists role, status.
Qed.

(** ** What a run that succeeds leaves undone *)

(** The resource could not be found to be in a project. *)
Definition project_unknown H : Prop :=
  (∃ e, uuid_of_text (res_backend_id r) = Err e) ∨
  ∃ hex a, uuid_of_text (res_backend_id r) = Ok hex ∧ Ev (Target (ResourcesRetrieve hex None)) a ∈ H ∧
    ∀ found, a = Ok (Some found) → field_str (tr_project_uuid found) = None.

Lemma project_outcome s H :
  coherent s H →
  wpM member_guard (get_resource_project_uuid (res_backend_id r))
    (sound H (λ p H', match p with
       | Some project => project_read H' project | None => project_unknown H' end)) s H.
Proof.
  intros Hc. unfold get_resource_project_uuid, existing_resource, get_marketplace_resource, target, uuid, or_else.
  assert (Hret : ∀ (p : option string) H', H ⊆ H' → match p with
    | Some project => project_read H' project | None => project_unknown H' end →
    sound H (λ p H', match p with
       | Some project => project_read H' project | None => project_unknown H' end) (Ok p) s H').
  { intros p H' HH Hp. split; [done|]. split; [by apply (coherent_same s _ H)|]. by intros ? [= <-]. }
  wp_steps. destruct (uuid_of_text (res_backend_id r)) as [hex|e] eqn:Hu; wp_steps.
  2:{ apply Hret; [done|]. left. by exists e. }
  apply wpM_call; [done|].
  intros [[found|]|e]; wp_steps; (apply Hret; [set_solver|]); [|right; exists hex; eexists; (split; [done|]); (split; [left|done])..].
  destruct (field_str (tr_project_uuid found)) as [project|] eqn:Hp; [exists hex, found; split_and!; try done; left|].
  right. exists hex. eexists. split; [done|]. split; [left|]. by intros ? [= <-].
Qed.

Lemma b_roles_outcome project s H :
  coherent s H →
  wpM member_guard (fetch_b_side_roles project)
    (sound H (λ roles H', (∃ e, Ev (Target (ProjectsListUsers project)) (Err e) ∈ H' ∧ roles = ∅) ∨
       ∃ rows, Ev (Target (ProjectsListUsers project)) (Ok rows) ∈ H' ∧ roles = foldl role_of ∅ rows)) s H.
Proof.
  intros Hc. unfold fetch_b_side_roles, target, or_else. wp_steps. apply wpM_call; [done|].
  intros [rows|e]; wp_steps; (split; [set_solver|]);
    (split; [by apply (coherent_same s _ H); [..|set_solver|]|]); intros ? [= <-]; [right|left];
    eexists; (split; [left|done]).
Qed.

(** Nobody on Waldur B was found for an identity. *)
Definition unresolved H (identity : string) : Prop :=
  ∃ τ s1 s2, runs (resolve_remote_user text b identity [] s1) τ (s2, Ok None) ∧ τ ⊆ H.

Lemma resolve_outcome identity s H :
  coherent s H →
  wpM member_guard (resolve_remote_user text b identity [])
    (sound H (λ u H', match u with
       | Some user => user_known H' identity user | None => unresolved H' identity end)) s H.
Proof.
  intros Hc. eapply wpM_mono; [apply wpM_runs, (resolve_sound identity [] s H Hc)|].
  intros out s' H' [(HH & Hc' & Hu) (τ & Hr & ->)]. split; [done|]. split; [done|].
  intros [user|] ->; [by apply (Hu _ eq_refl)|].
  exists τ, s, s'. split; [done|]. intros ev Hev. apply elem_of_app. left.
  by rewrite list_elem_of_In, <- in_rev, <- list_elem_of_In.
Qed.

(** A change of a membership failed in a way that is tolerated: looking up its role or the
    [change] itself was answered by an error of the backend. *)
Definition tolerated H (name : string) (change : string → exn → event federationE) : Prop :=
  ∃ e, is_backend_error e = true ∧
    (Ev (Target (RolesList name)) (Err e) ∈ H ∨
     ∃ role, role_known H name role ∧ change role e ∈ H).

Lemma role_outcome name s H :
  coherent s H →
  wpM member_guard (get_role_uuid name) (λ out s' H', H ⊆ H' ∧ coherent s' H' ∧
    match out with
    | Ok role => role_known H' name role
    | Err e => is_backend_error e = true → Ev (Target (RolesList name)) (Err e) ∈ H'
    end) s H.
Proof.
  intros Hc. eapply wpM_mono; [apply wpM_runs, (get_role_uuid_sound name s H Hc)|].
  intros out s' H' [(HH & Hc' & Hr) (τ & Hrun & ->)]. split; [done|]. split; [done|].
  destruct out as [role|e]; [by apply (Hr _ eq_refl)|].
  unfold get_role_uuid in Hrun. change (bind get_st ?f s) with (f s s) in Hrun. cbv beta in Hrun.
  destruct (fs_roles s !! name); [by destruct Hrun as [_ [=]]|].
  destruct Hrun as (a & τ' & -> & Hrun). intros He.
  destruct a as [[|u l]|e']; destruct Hrun as [-> Hrun]; [by injection Hrun as _ <-|done|].
  injection Hrun as _ <-. apply elem_of_app. left. left.
Qed.

Lemma add_outcome project user name s H :
  coherent s H → project_read H project → (∀ H', H ⊆ H' → permitted true project user name H') →
  wpM member_guard (attempt (add_user_to_project project user name))
    (sound H (λ out H', match out with
       | Ok _ => ∃ role, role_known H' name role ∧ Ev (Target (ProjectsAddUser project user role)) (Ok ()) ∈ H'
       | Err e => is_backend_error e = true →
           tolerated H' name (λ role e, Ev (Target (ProjectsAddUser project user role)) (Err e))
       end)) s H.
Proof.
  intros Hc Hp Hper. unfold add_user_to_project, target. wp_steps.
  eapply wpM_mono; [by apply role_outcome|]. intros [role|e] s1 H1 (Hs1 & Hc1 & Hr); wp_steps.
  2:{ split; [done|]. split; [done|]. intros ? [= <-] He. exists e. auto. }
  apply wpM_call.
  { split; [by eapply project_read_later|]. exists name. split; [done|by apply Hper]. }
  intros out. wp_steps. split; [set_solver|]. split; [by apply (coherent_same s1 _ H1); [..|set_solver|]|].
  intros ? [= <-]. assert (role_known (Ev (Target (ProjectsAddUser project user role)) out :: H1) name role)
    by (apply (role_known_later H1); [set_solver|done]).
  destruct out as [[]|e]; [exists role; split; [done|left]|]. intros He. exists e. split; [done|]. right.
  exists role. split; [done|left].
Qed.

Lemma remove_outcome project user name s H :
  coherent s H → project_read H project → (∀ H', H ⊆ H' → permitted false project user name H') →
  wpM member_guard (attempt (remove_user_from_project project user name))
    (sound H (λ out H', match out with
       | Ok _ => ∃ role status, role_known H' name role ∧
           Ev (Target (ProjectsDeleteUser project user role)) (Ok status) ∈ H'
       | Err e => is_backend_error e = true →
           tolerated H' name (λ role e, Ev (Target (ProjectsDeleteUser project user role)) (Err e))
       end)) s H.
Proof.
  intros Hc Hp Hper. unfold remove_user_from_project, target. wp_steps.
  eapply wpM_mono; [by apply role_outcome|]. intros [role|e] s1 H1 (Hs1 & Hc1 & Hr); wp_steps.
  2:{ split; [done|]. split; [done|]. intros ? [= <-] He. exists e. auto. }
  apply wpM_call.
  { split; [by eapply project_read_later|]. exists name. split; [done|by apply Hper]. }
  intros out. assert (role_known (Ev (Target (ProjectsDeleteUser project user role)) out :: H1) name role)
    by (apply (role_known_later H1); [set_solver|done]).
  destruct out as [status|e]; wp_steps; (split; [set_solver|]);
    (split; [by apply (coherent_same s1 _ H1); [..|set_solver|]|]); intros ? [= <-].
  - exists role, status. split; [done|left].
  - intros He. exists e. split; [done|]. right. exists role. split; [done|left].
Qed.

(** The role of a user that a listing shows last. *)
Definition current_role (rows : list UserRole) (user name : string) : Prop :=
  ∃ l1 row l2, rows = l1 ++ row :: l2 ∧
    field_str (ur_user_uuid row) = Some user ∧ field_str (ur_role_name row) = Some name ∧
    ∀ row', row' ∈ l2 → field_str (ur_user_uuid row') = Some user → field_str (ur_role_name row') = None.

Lemma current_role_of rows user name :
  foldl role_of ∅ rows !! user = Some name ↔ current_role rows user name.
Proof.
  revert name. induction rows as [|x rows IH] using rev_ind; intros name.
  { simpl. rewrite lookup_empty. split; [done|]. intros (l1 & row & l2 & Heq & _). by destruct l1. }
  rewrite foldl_app. simpl. unfold role_of at 1.
  assert (Hskip : (field_str (ur_user_uuid x) = Some user → field_str (ur_role_name x) = None) →
    (current_role rows user name ↔ current_role (rows ++ [x]) user name)).
  { intros Hx. split.
    - intros (l1 & row & l2 & -> & Hu & Hr & Hl). exists l1, row, (l2 ++ [x]).
      rewrite <- app_assoc. split_and!; [done..|].
      intros row' [?| ->%list_elem_of_singleton]%elem_of_app; [by apply Hl|done].
    - intros (l1 & row & l2 & Heq & Hu & Hr & Hl).
      destruct l2 as [|y l2 _] using rev_ind.
      + apply app_inj_tail in Heq as [_ <-]. rewrite Hx in Hr by done. done.
      + rewrite app_comm_cons, app_assoc in Heq. apply app_inj_tail in Heq as [-> <-].
        exists l1, row, l2. split_and!; [done..|]. intros row' Hin. apply Hl, elem_of_app. by left. }
  destruct (field_str (ur_user_uuid x)) as [u|] eqn:Hu; [|rewrite IH; by apply Hskip].
  destruct (field_str (ur_role_name x)) as [n|] eqn:Hn; [|rewrite IH; by apply Hskip].
  destruct (decide (u = user)) as [->|Hne].
  - rewrite lookup_insert_eq. split.
    + intros [= <-]. exists rows, x, []. split_and!; [done..|]. intros row' Hin. by apply elem_of_nil in Hin.
    + intros (l1 & row & l2 & Heq & Hu' & Hr & Hl). destruct l2 as [|y l2 _] using rev_ind.
      * apply app_inj_tail in Heq as [_ <-]. congruence.
      * rewrite app_comm_cons, app_assoc in Heq. apply app_inj_tail in Heq as [-> <-].
        rewrite (Hl x) in Hn; [done|apply elem_of_app; right; left|done].
  - rewrite lookup_insert_ne by done. rewrite IH. apply Hskip. congruence.
Qed.

(** The role [old] was replaced by [new], unless a step of it failed in a tolerated way. *)
Definition replaced H (project user old new : string) : Prop :=
  tolerated H old (λ role e, Ev (Target (ProjectsDeleteUser project user role)) (Err e)) ∨
  ∃ role status, role_known H old role ∧
    Ev (Target (ProjectsDeleteUser project user role)) (Ok status) ∈ H ∧
    (tolerated H new (λ role e, Ev (Target (ProjectsAddUser project user role)) (Err e)) ∨
     ∃ role', role_known H new role' ∧ Ev (Target (ProjectsAddUser project user role')) (Ok ()) ∈ H).

(** A user's role on Waldur B is the one that Waldur A's is mapped to, or was replaced by it. *)
Definition role_settled (user_roles user_cuids : gmap string string) (project : string)
    (rows : list UserRole) (n : string) H : Prop :=
  let identity := default n (user_cuids !! n) in
  let source_role := text_or (user_roles !! n) "" in
  source_role = "" ∨ unresolved H identity ∨
  ∃ user, user_known H identity user ∧
    ((¬ ∃ old, current_role rows user old) ∨
     ∃ old, current_role rows user old ∧
       (old = map_role b source_role ∨ replaced H project user old (map_role b source_role))).

Lemma tolerated_later H H' name change : H ⊆ H' → tolerated H name change → tolerated H' name change.
Proof.
  intros HH (e & He & [?|(role & Hr & ?)]); exists e; (split; [done|]); [left; by apply HH|right].
  exists role. split; [by eapply role_known_later|by apply HH].
Qed.

Lemma role_settled_later user_roles user_cuids project rows n H H' :
  H ⊆ H' → role_settled user_roles user_cuids project rows n H →
  role_settled user_roles user_cuids project rows n H'.
Proof.
  intros HH [?|[(τ & s1 & s2 & ? & ?)|(user & Hu & Hrole)]]; [by left|right..].
  { left. exists τ, s1, s2. split; [done|set_solver]. }
  right. exists user. split; [by eapply user_known_later|].
  destruct Hrole as [?|(old & Ho & [?|Hr])]; [by left|right; exists old; split; [done|]..]; [by left|right].
  destruct Hr as [?|(role & st & Hr & Hd & Ha)]; [left; by eapply tolerated_later|right].
  exists role, st. split; [by eapply role_known_later|]. split; [by apply HH|].
  destruct Ha as [?|(role' & ? & ?)]; [left; by eapply tolerated_later|right].
  exists role'. split; [by eapply role_known_later|by apply HH].
Qed.

(** Every user of a loop is dealt with. *)
Lemma sound_for_all (l : list string) (body : string → fed_m unit) (P : string → trace federationE → Prop) s H :
  (∀ x H1 H2, H1 ⊆ H2 → P x H1 → P x H2) →
  (∀ x s' H', x ∈ l → H ⊆ H' → coherent s' H' → wpM member_guard (body x) (sound H' (λ _ H2, P x H2)) s' H') →
  coherent s H → wpM member_guard (for_each l body) (sound H (λ _ H', ∀ x, x ∈ l → P x H')) s H.
Proof.
  intros Hlater Hbody Hc.
  apply (wpM_for_each _ _ _ (λ done s' H', H ⊆ H' ∧ coherent s' H' ∧ ∀ x, x ∈ done → P x H')).
  - intros xs x s1 H1 [ys ->] (Hs1 & Hc1 & Hd). eapply wpM_mono; [by apply Hbody; [set_solver|..]|].
    intros [[]|e] s2 H2 (? & ? & Hx); [|split; [set_solver|done]]. split; [set_solver|]. split; [done|].
    intros y [Hy| ->%list_elem_of_singleton]%elem_of_app; [|by apply (Hx ())].
    by apply (Hlater _ H1), Hd.
  - intros s1 H1 (? & ? & Hd). split; [done|]. split; [done|]. intros ? _. done.
  - split; [done|]. split; [done|]. intros x Hx. by apply elem_of_nil in Hx.
Qed.

(** A loop over names, a value that stands for those it was done for. *)
Lemma sound_fold {B} (names : list string) (body : string → fed_m bool) (collect : B → string → bool → B)
    (member : string → B → Prop) (done : string → trace federationE → Prop) b0 s H :
  (∀ acc n x m, member m (collect acc n x) → member m acc ∨ (m = n ∧ x = true)) →
  (∀ n, ¬ member n b0) →
  (∀ n H H', H ⊆ H' → done n H → done n H') →
  (∀ n s' H', n ∈ names → H ⊆ H' → coherent s' H' →
     wpM member_guard (body n) (sound H' (λ x H2, x = true → done n H2)) s' H') →
  coherent s H →
  wpM member_guard (fold_m names (λ acc n, let! x := body n in ret (collect acc n x)) b0)
    (sound H (λ acc H', ∀ n, member n acc → n ∈ names ∧ done n H')) s H.
Proof.
  intros Hcol Hb0 Hlater Hbody Hc.
  apply (wpM_fold_m _ _ _ (λ l acc s' H', H ⊆ H' ∧ coherent s' H' ∧ ∀ n, member n acc → n ∈ l ∧ done n H')).
  - intros l n acc s1 H1 [ys Hl] (Hs1 & Hc1 & Hall). wp_step.
    eapply wpM_mono; [apply Hbody; [rewrite Hl, elem_of_app; right; left|done|done]|].
    intros [x|e] s2 H2 (Hs2 & Hc2 & Hd); cbv iota; [wp_step|split; [set_solver|done]].
    split; [set_solver|]. split; [done|]. intros m [Hm|[-> ->]]%Hcol.
    + destruct (Hall m Hm). split; [rewrite elem_of_app; by left|by eapply Hlater].
    + split; [rewrite elem_of_app; right; left|by apply (Hd true)].
  - intros acc s1 H1 (Hs1 & Hc1 & Hall). split; [done|]. split; [done|]. by intros ? [= <-].
  - split; [done|]. split; [done|]. intros n Hn. by destruct (Hb0 n).
Qed.
End Members.

(** ** What is permitted *)

Section Changes.
Context (text : json → string) (b : WaldurBackend) (r : WaldurResource) (s0 : federation_state).
Implicit Types (H : trace federationE) (s : federation_state).

Abbreviation knows := (user_known text b s0).
Abbreviation identity kw n := (default n (kw_user_cuids kw !! n)).

(** The users of a set, in the roles they have on Waldur A. *)
Definition additions (users : gset string) (kw : user_kwargs) (add : bool) (project user name : string) H : Prop :=
  add = true ∧ ∃ n, n ∈ users ∧ knows H (identity kw n) user ∧
    name = map_role b (default DEFAULT_PROJECT_ROLE_NAME (kw_user_roles kw !! n)).

(** The users of a set, in the roles they had on Waldur A, or have on Waldur B. *)
Definition removals (users : gset string) (kw : user_kwargs) (add : bool) (project user name : string) H : Prop :=
  add = false ∧ ∃ n, n ∈ users ∧ knows H (identity kw n) user ∧
    let source_role := text_or (kw_user_roles kw !! n) "" in
    if nonempty source_role then name = map_role b source_role else role_listed H project user name.

(** One user in one role. *)
Definition one_user (flag : bool) (username role_name : string) (cuid : option string)
    (add : bool) (project user name : string) H : Prop :=
  add = flag ∧ knows H (text_or cuid username) user ∧
  name = map_role b (text_or (Some role_name) DEFAULT_PROJECT_ROLE_NAME).

(** A role that a user of the set no longer has, and then the one that replaces it. *)
Definition replacements (users : gset string) (user_roles user_cuids : gmap string string)
    (add : bool) (project user name : string) H : Prop :=
  ∃ n, n ∈ users ∧ knows H (default n (user_cuids !! n)) user ∧
    let source_role := text_or (user_roles !! n) "" in
    nonempty source_role = true ∧
    if add then name = map_role b source_role ∧ ∃ old role status,
        role_listed H project user old ∧ old ≠ name ∧ role_known s0 H old role ∧
        Ev (Target (ProjectsDeleteUser project user role)) (Ok status) ∈ H
    else role_listed H project user name ∧ name ≠ map_role b source_role.

(** The membership of a user was changed on Waldur B. *)
Definition added_on_b (kw : user_kwargs) (n : string) H : Prop :=
  ∃ project user role, knows H (identity kw n) user ∧ Ev (Target (ProjectsAddUser project user role)) (Ok ()) ∈ H.
Definition removed_on_b (kw : user_kwargs) (n : string) H : Prop :=
  ∃ project user role status, knows H (identity kw n) user ∧
    Ev (Target (ProjectsDeleteUser project user role)) (Ok status) ∈ H.

Lemma start_coherent : coherent text b s0 s0 [].
Proof. split; intros ? ? ?; by left. Qed.

Lemma added_later kw n H H' : H ⊆ H' → added_on_b kw n H → added_on_b kw n H'.
Proof. intros HH (p & u & role & ? & ?). exists p, u, role. split; [by eapply user_known_later|by apply HH]. Qed.
Lemma removed_later kw n H H' : H ⊆ H' → removed_on_b kw n H → removed_on_b kw n H'.
Proof. intros HH (p & u & role & st & ? & ?). exists p, u, role, st. split; [by eapply user_known_later|by apply HH]. Qed.

Lemma add_one_sound users kw project n s H :
  n ∈ users → coherent text b s0 s H → project_read r H project →
  wpM (member_guard r s0 (additions users kw)) (add_one text b project kw n)
    (sound text b s0 H (λ x H', x = true → added_on_b kw n H')) s H.
Proof.
  intros Hn Hc Hp. unfold add_one. cbv zeta. eapply sound_bind; [by apply resolve_sound|].
  intros [user|] s1 H1 Hs1 Hc1 Hu; [|by apply sound_ret]. specialize (Hu user eq_refl).
  eapply sound_bind.
  { apply add_sound; [done|by eapply project_read_later|]. intros H' HH. split; [done|]. exists n.
    split; [done|]. split; [by eapply user_known_later|done]. }
  intros [] s2 H2 Hs2 Hc2 (role & _ & Hin). apply sound_ret; [done|]. intros _. exists project, user, role.
  split; [by eapply user_known_later|done].
Qed.

Lemma remove_one_sound users kw project b_roles n s H :
  n ∈ users → coherent text b s0 s H → project_read r H project →
  (∀ user name, b_roles !! user = Some name → role_listed H project user name) →
  wpM (member_guard r s0 (removals users kw)) (remove_one text b project b_roles kw n)
    (sound text b s0 H (λ x H', x = true → removed_on_b kw n H')) s H.
Proof.
  intros Hn Hc Hp Hroles. unfold remove_one. cbv zeta. eapply sound_bind; [by apply resolve_sound|].
  intros [user|] s1 H1 Hs1 Hc1 Hu; [|by apply sound_ret]. specialize (Hu user eq_refl).
  set (name := if nonempty (text_or (kw_user_roles kw !! n) "") then _ else _).
  destruct (nonempty name) eqn:Hx; [|by apply sound_ret].
  eapply sound_bind.
  { apply remove_sound; [done|by eapply project_read_later|]. intros H' HH. split; [done|]. exists n.
    split; [done|]. split; [by eapply user_known_later|]. cbv zeta. subst name.
    destruct (nonempty (text_or _ _)); [done|]. destruct (b_roles !! user) as [role|] eqn:Hb; [|done].
    apply (role_listed_later H); [set_solver|by apply Hroles]. }
  intros [] s2 H2 Hs2 Hc2 (role & st & _ & Hin). apply sound_ret; [done|]. intros _. exists project, user, role, st.
  split; [by eapply user_known_later|done].
Qed.

Lemma add_users_sound users kw :
  wpM (member_guard r s0 (additions users kw)) (add_users_to_resource text b r users kw)
    (sound text b s0 [] (λ added H', ∀ n, n ∈ added → n ∈ users ∧ added_on_b kw n H')) s0 [].
Proof.
  unfold add_users_to_resource. destruct (elements users) as [|x l] eqn:He;
    [apply sound_ret; [apply start_coherent|set_solver]|]. rewrite <- He.
  eapply sound_bind; [by apply project_sound, start_coherent|].
  intros [project|] s1 H1 Hs1 Hc1 Hp; [|apply sound_ret; [done|set_solver]]. specialize (Hp project eq_refl).
  eapply sound_mono.
  - apply (sound_fold _ _ _ s0 _ (elements users) (λ n, or_else false (add_one text b project kw n))
      (λ added n x, if x : bool then {[n]} ∪ added else added) (λ n added, n ∈ added) (added_on_b kw)).
    + intros acc n [] m; set_solver.
    + set_solver.
    + intros n H H'. apply added_later.
    + intros n s2 H2 Hn HH Hc2. apply sound_or_else; [|done].
      apply add_one_sound; [by apply elem_of_elements|done|by eapply project_read_later].
    + done.
  - intros added H' _ Ha n Hn. destruct (Ha n Hn). by rewrite <- elem_of_elements.
Qed.

Lemma remove_users_sound users kw :
  wpM (member_guard r s0 (removals users kw)) (remove_users_from_resource text b r users kw)
    (sound text b s0 [] (λ removed H', ∀ n, n ∈ removed → n ∈ users ∧ removed_on_b kw n H')) s0 [].
Proof.
  unfold remove_users_from_resource. destruct (elements users) as [|x l] eqn:He;
    [apply sound_ret; [apply start_coherent|intros n Hn; by apply elem_of_nil in Hn]|]. rewrite <- He.
  eapply sound_bind; [by apply project_sound, start_coherent|].
  intros [project|] s1 H1 Hs1 Hc1 Hp; [|apply sound_ret; [done|intros n Hn; by apply elem_of_nil in Hn]].
  specialize (Hp project eq_refl). eapply sound_bind; [by apply (b_roles_sound _ _ _ _ _ project)|].
  intros b_roles s2 H2 Hs2 Hc2 Hroles. eapply sound_mono.
  - apply (sound_fold _ _ _ s0 _ (elements users) (λ n, or_else false (remove_one text b project b_roles kw n))
      (λ removed n x, if x : bool then removed ++ [n] else removed) (λ n removed, n ∈ removed) (removed_on_b kw)).
    + intros acc n [] m; [rewrite elem_of_app, list_elem_of_singleton; naive_solver|auto].
    + intros n Hn. by apply elem_of_nil in Hn.
    + intros n H H'. apply removed_later.
    + intros n s3 H3 Hn HH Hc3. apply sound_or_else; [|done].
      apply remove_one_sound; [by apply elem_of_elements|done|eapply project_read_later; [|done]; set_solver|].
      intros user name Hb. apply (role_listed_later H2); [done|by apply Hroles].
    + done.
  - intros removed H' _ Ha n Hn. destruct (Ha n Hn). by rewrite <- elem_of_elements.
Qed.
(** [add_user] or [remove_user] *)
Definition user_change (flag : bool) : string → string → option string → fed_m bool :=
  if flag then add_user text b r else remove_user text b r.

Lemma change_user_sound flag username role_name cuid :
  wpM (member_guard r s0 (one_user flag username role_name cuid))
    (user_change flag username role_name cuid)
    (sound text b s0 [] (λ x H', x = true → ∃ project user role,
       knows H' (text_or cuid username) user ∧
       if flag then Ev (Target (ProjectsAddUser project user role)) (Ok ()) ∈ H'
       else ∃ status, Ev (Target (ProjectsDeleteUser project user role)) (Ok status) ∈ H')) s0 [].
Proof.
  unfold user_change, add_user, remove_user, change_user.
  destruct flag; (eapply sound_bind; [by apply project_sound, start_coherent|]);
    (intros [project|] s1 H1 Hs1 Hc1 Hp; [|by apply sound_ret]); specialize (Hp project eq_refl);
    (eapply sound_bind; [by apply resolve_sound|]);
    (intros [user|] s2 H2 Hs2 Hc2 Hu; [|by apply sound_ret]); specialize (Hu user eq_refl).
  - eapply sound_bind.
    { apply add_sound; [done|by eapply project_read_later|]. intros H' HH. split; [done|].
      split; [by eapply user_known_later|done]. }
    intros [] s3 H3 Hs3 Hc3 (role & _ & Hin). apply sound_ret; [done|]. intros _. exists project, user, role.
    split; [by eapply user_known_later|done].
  - eapply sound_bind.
    { apply remove_sound; [done|by eapply project_read_later|]. intros H' HH. split; [done|].
      split; [by eapply user_known_later|done]. }
    intros [] s3 H3 Hs3 Hc3 (role & st & _ & Hin). apply sound_ret; [done|]. intros _. exists project, user, role.
    split; [by eapply user_known_later|by exists st].
Qed.

Lemma reconcile_role_sound users user_roles user_cuids project rows n s H :
  n ∈ users → coherent text b s0 s H → project_read r H project →
  Ev (Target (ProjectsListUsers project)) (Ok rows) ∈ H →
  wpM (member_guard r s0 (replacements users user_roles user_cuids))
    (reconcile_role text b project (foldl role_of ∅ rows) user_roles user_cuids n)
    (sound text b s0 H (λ _, role_settled text b s0 user_roles user_cuids project rows n)) s H.
Proof.
  intros Hn Hc Hp Hrows. unfold reconcile_role, role_settled. cbv zeta.
  destruct (nonempty (text_or (user_roles !! n) "")) eqn:Hr; cbn [negb].
  2:{ apply sound_ret; [done|]. left. apply dec_stable. rewrite <- nonempty_spec, Hr. done. }
  eapply sound_bind; [by apply resolve_outcome|].
  intros [user|] s1 H1 Hs1 Hc1 Hu; [|apply sound_ret; [done|by right; left]].
  destruct (foldl role_of ∅ rows !! user) as [old|] eqn:Hb.
  2:{ apply sound_ret; [done|]. right; right. exists user. split; [done|]. left.
      intros [old Ho%current_role_of]. congruence. }
  pose proof (proj1 (current_role_of _ _ _) Hb) as Hold.
  destruct (String.eqb old _) eqn:He.
  { apply String.eqb_eq in He. apply sound_ret; [done|]. right; right. exists user. split; [done|]. right.
    exists old. auto. }
  apply String.eqb_neq in He.
  assert (Hl : ∀ H', H1 ⊆ H' → role_listed H' project user old).
  { intros H' HH. apply roles_of_rows in Hb as (row & ? & ?). exists rows, row. split; [set_solver|done]. }
  eapply sound_bind.
  { apply remove_outcome; [done|by eapply project_read_later|]. intros H' HH. exists n.
    split; [done|]. split; [by eapply user_known_later|]. split; [done|]. split; [by apply Hl|done]. }
  assert (Hset : ∀ H', H1 ⊆ H' → replaced s0 H' project user old (map_role b (text_or (user_roles !! n) "")) →
    ∃ user, knows H' (default n (user_cuids !! n)) user ∧ ((¬ ∃ old, current_role rows user old) ∨
      ∃ old, current_role rows user old ∧ (old = map_role b (text_or (user_roles !! n) "") ∨
        replaced s0 H' project user old (map_role b (text_or (user_roles !! n) ""))))).
  { intros H' HH Hrep. exists user. split; [by eapply user_known_later|]. right. exists old. auto. }
  intros [[]|e] s2 H2 Hs2 Hc2 Hrev.
  2:{ destruct (is_backend_error e) eqn:Hbe; [|by apply sound_raise].
      apply sound_ret; [done|]. right; right. apply Hset; [done|]. left. by apply Hrev. }
  destruct Hrev as (role & st & Hrole & Hin).
  eapply sound_bind.
  { apply add_outcome; [done|eapply project_read_later; [|done]; set_solver|]. intros H' HH. exists n.
    split; [done|]. split; [eapply user_known_later; [|done]; set_solver|]. split; [done|]. split; [done|].
    exists old, role, st. split; [apply Hl; set_solver|]. split; [done|].
    split; [by eapply role_known_later|by apply HH]. }
  intros out s3 H3 Hs3 Hc3 Hadd.
  assert (Hdone : match out with Ok _ => True | Err e => is_backend_error e = true end →
    replaced s0 H3 project user old (map_role b (text_or (user_roles !! n) ""))).
  { intros Ho. right. exists role, st. split; [by eapply role_known_later|]. split; [by apply Hs3|].
    destruct out as [[]|e]; [right|left]; auto. }
  destruct out as [[]|e]; [|destruct (is_backend_error e) eqn:Hbe; [|by apply sound_raise]];
    (apply sound_ret; [done|]); right; right; (apply Hset; [set_solver|]); by apply Hdone.
Qed.

(** What a reconciliation that succeeds has done. *)
Definition roles_settled (users : gset string) (user_roles user_cuids : gmap string string) H : Prop :=
  user_roles = ∅ ∨ project_unknown r H ∨
  ∃ project, project_read r H project ∧
    ((∃ e, Ev (Target (ProjectsListUsers project)) (Err e) ∈ H) ∨
     ∃ rows, Ev (Target (ProjectsListUsers project)) (Ok rows) ∈ H ∧
       ∀ n, n ∈ users → role_settled text b s0 user_roles user_cuids project rows n H).

Lemma reconcile_sound users user_roles user_cuids :
  wpM (member_guard r s0 (replacements users user_roles user_cuids))
    (reconcile_existing_user_roles text b r users user_roles user_cuids)
    (sound text b s0 [] (λ _, roles_settled users user_roles user_cuids)) s0 [].
Proof.
  unfold reconcile_existing_user_roles. destruct (map_truthy user_roles) eqn:Ht; cbn [negb].
  2:{ apply sound_ret; [apply start_coherent|]. left. by apply map_truthy_false. }
  eapply sound_bind; [by apply project_outcome, start_coherent|].
  intros [project|] s1 H1 Hs1 Hc1 Hp; [|by apply sound_ret; [|right; left]].
  eapply sound_bind; [by apply b_roles_outcome|]. intros b_roles s2 H2 Hs2 Hc2 [(e & He & ->)|(rows & Hrows & ->)].
  - eapply sound_mono.
    + apply sound_for_each; [|done]. intros n s3 H3 Hn HH Hc3.
      unfold reconcile_role. cbv zeta. destruct (negb _); [by apply sound_ret|].
      eapply sound_bind; [by apply resolve_sound|]. intros [user|] s4 H4 Hs4 Hc4 _; [|by apply sound_ret].
      rewrite lookup_empty. by apply sound_ret.
    + intros [] H' HH _. right; right. exists project. split; [eapply project_read_later; [|done]; set_solver|].
      left. exists e. by apply HH.
  - eapply sound_mono.
    + apply (sound_for_all _ _ _ _ _ _ _ (λ n, role_settled text b s0 user_roles user_cuids project rows n));
        [intros x H3 H4; apply role_settled_later| |done].
      intros n s3 H3 Hn HH Hc3.
      apply reconcile_role_sound; [by apply elem_of_elements|done|eapply project_read_later; [|done]; set_solver|by apply HH].
    + intros [] H' HH Hall. right; right. exists project. split; [eapply project_read_later; [|done]; set_solver|].
      right. exists rows. split; [by apply HH|]. intros n Hn. by apply Hall, elem_of_elements.
Qed.

(** A run of a sound statement, read off its trace. *)
Lemma sound_run {A} G (m : fed_m A) (P : A → trace federationE → Prop) τ s' out :
  wpM G m (sound text b s0 [] P) s0 [] → runs (m s0) τ (s', out) →
  guarded G [] τ ∧ ∀ a, out = Ok a → P a (rev τ).
Proof.
  intros Hm Hr. destruct (wp_sound _ _ _ _ _ _ Hm Hr) as [(_ & _ & Hp) Hg]. rewrite app_nil_r in Hp. done.
Qed.

(** C19: users are taken out of a project on Waldur B only where the resource was read to be in
    that project, and only users of the set, as they were resolved in this run or before, in
    the role that their role on Waldur A is mapped to or, when it is unknown, that Waldur B
    listed for them, by the UUID Waldur B has for it.  A name is answered as removed only
    after Waldur B answered the removal of its user. *)
Theorem removals_confirmed users kw τ s' out :
  runs (remove_users_from_resource text b r users kw s0) τ (s', out) →
  guarded (member_guard r s0 (removals users kw)) [] τ ∧
  ∀ removed, out = Ok removed → ∀ n, n ∈ removed → n ∈ users ∧ removed_on_b kw n (rev τ).
Proof. intros Hr. exact (sound_run _ _ _ _ _ _ (remove_users_sound users kw) Hr). Qed.

(** Users are added in the same way, in the roles they have on Waldur A. *)
Theorem additions_confirmed users kw τ s' out :
  runs (add_users_to_resource text b r users kw s0) τ (s', out) →
  guarded (member_guard r s0 (additions users kw)) [] τ ∧
  ∀ added, out = Ok added → ∀ n, n ∈ added → n ∈ users ∧ added_on_b kw n (rev τ).
Proof. intros Hr. exact (sound_run _ _ _ _ _ _ (add_users_sound users kw) Hr). Qed.

(** C20: where the role of a user that Waldur B listed last is not the one that Waldur A's role
    is mapped to, a run that succeeds revokes the listed role and grants the expected one,
    unless one of the two, or the lookup of its role, was answered by an error of the
    backend; roles are left as they are only where the project or its listing could not be
    read.  Only such roles are revoked, and the expected one is granted only after that
    removal was answered; a user without a listed role, or of no known role on Waldur A, is
    left alone.  (Between the two the user has no role: [role_lost].) *)
Theorem roles_replaced users user_roles user_cuids τ s' out :
  runs (reconcile_existing_user_roles text b r users user_roles user_cuids s0) τ (s', out) →
  guarded (member_guard r s0 (replacements users user_roles user_cuids)) [] τ ∧
  (out = Ok () → roles_settled users user_roles user_cuids (rev τ)).
Proof.
  intros Hr. destruct (sound_run _ _ _ _ _ _ (reconcile_sound users user_roles user_cuids) Hr) as [Hg Hs].
  split; [done|]. intros ->. by apply (Hs ()).
Qed.

(** One user, added or removed: [true] is answered only after Waldur B did it. *)
Theorem one_user_changed flag username role_name cuid τ s' out :
  runs (user_change flag username role_name cuid s0) τ (s', out) →
  guarded (member_guard r s0 (one_user flag username role_name cuid)) [] τ ∧
  ∀ x, out = Ok x → x = true → ∃ project user role,
    knows (rev τ) (text_or cuid username) user ∧
    if flag then Ev (Target (ProjectsAddUser project user role)) (Ok ()) ∈ rev τ
    else ∃ status, Ev (Target (ProjectsDeleteUser project user role)) (Ok status) ∈ rev τ.
Proof. intros Hr. exact (sound_run _ _ _ _ _ _ (change_user_sound flag username role_name cuid) Hr). Qed.
End Changes.

(** ** Witnesses *)

Definition sample_kwargs : user_kwargs :=
  {| kw_homedir_umask := None; kw_user_roles := ∅; kw_user_emails := ∅;
     kw_user_cuids := {["alice"%string := "cuid-1"%string]}; kw_user_attributes := ∅; kw_user_states := ∅ |}.

Definition sample_text (v : json) : string := match v with JStr s => s | _ => "" end.

(** A Waldur B where alice is a member in the role [role], and the roles [roles] exist. *)
Definition sample_target (role : string) (roles : list string) (X : Type) (c : federationE X) (w : unit) : res X * unit :=
  (match c in federationE X return res X with
   | Target c =>
       match c in targetE X return res X with
       | ResourcesRetrieve _ _ => Ok (Some sample_target_resource)
       | ProjectsListUsers _ =>
           Ok [{| ur_uuid := Unset; ur_user_uuid := Val (sample_hex "7"); ur_role_name := Val role |}]
       | UsersList _ _ => Ok [Val (sample_hex "7")]
       | RolesList name => Ok (if bool_decide (name ∈ roles) then [sample_hex "8"] else [])
       | ProjectsAddUser _ _ _ => Ok ()
       | ProjectsDeleteUser _ _ _ => Ok 204
       | _ => Err (TransportError "unreachable")
       end
   | _ => Err (TransportError "unreachable")
   end, w).

Definition removal_exec :=
  exec (sample_target "PROJECT.MANAGER" ["PROJECT.MANAGER"%string])
    (remove_users_from_resource sample_text (sample_federation BIDIRECTIONAL) sample_federated {["alice"%string]}
       sample_kwargs no_state) ().

Lemma removals_confirmed_witness :
  removed_on_b sample_text (sample_federation BIDIRECTIONAL) no_state sample_kwargs "alice" (rev removal_exec.1.2).
Proof.
  refine (proj2 (proj2 (removals_confirmed sample_text (sample_federation BIDIRECTIONAL) sample_federated no_state
    {["alice"%string]} sample_kwargs removal_exec.1.2 removal_exec.1.1.1 removal_exec.1.1.2 (exec_runs_pair _ _ _))
    ["alice"%string] _ "alice"%string _)).
  - vm_compute. reflexivity.
  - left.
Defined.

Definition replaced_roles : gmap string string := {["alice"%string := "PROJECT.ADMIN"%string]}.

Definition replacement_exec (roles : list string) :=
  exec (sample_target "PROJECT.MEMBER" roles)
    (reconcile_existing_user_roles sample_text (sample_federation BIDIRECTIONAL) sample_federated {["alice"%string]}
       replaced_roles ∅ no_state) ().

Lemma roles_replaced_witness :
  guarded (member_guard sample_federated no_state
    (replacements sample_text (sample_federation BIDIRECTIONAL) no_state {["alice"%string]} replaced_roles ∅)) []
    (replacement_exec ["PROJECT.MEMBER"%string; "PROJECT.MANAGER"%string]).1.2.
Proof. exact (proj1 (roles_replaced _ _ _ _ _ _ _ _ _ _ (exec_runs_pair _ _ _))). Defined.

(** The expected role is looked up after the old one was revoked: a role that Waldur B does
    not have leaves the user without any, and the users after this one untouched. *)
Example role_lost :
  let done := (replacement_exec ["PROJECT.MEMBER"%string]).1 in
  done.1.2 = Err (ValueError "Role PROJECT.MANAGER not found on Waldur B") ∧
  drop 4 done.2 =
    [Ev (Target (ProjectsDeleteUser (sample_hex "d") (sample_hex "7") (uuid_str (sample_hex "8")))) (Ok 204);
     Ev (Target (RolesList "PROJECT.MANAGER")) (Ok [])].
Proof. vm_compute. done. Qed.

(** A lookup that failed is answered like a user who was no member: nothing to remove. *)
Example failed_removal_is_no_removal :
  runs (remove_user sample_text (sample_federation BIDIRECTIONAL) sample_federated "alice" "" None no_state)
    [Ev (Target (ResourcesRetrieve (sample_hex "b") None)) (Err (TransportError "timeout"))]
    (no_state, Ok false).
Proof. solve_runs. Qed.
