(* ===== verification/FederationEvents.v ===== *)
(** * Events of another Waldur

    [plugins/waldur/waldur_site_agent_waldur/target_event_handler.py], and the router that
    [backend.py: setup_target_event_subscriptions] puts in front of it: what is done on Waldur A
    when Waldur B reports an order, an account or an end date. *)

From stdpp Require Import base list strings gmap sets.
From Stdlib Require Import ZArith Lia Ascii SpecFloat.
From S2P Require Import Prelude.
From S2P Require Import Handlers.
From S2P Require Import Texts.
From S2P Require Import Structures.
From S2P Require Import Agent.
From S2P Require Import Samples.
From S2P Require Import Teardown.
From S2P Require Import ComponentMapping.
From S2P Require Import BaseBackend.
From S2P Require Import Linking.
From S2P Require Import FederationClient.
From S2P Require Import FederationBackend.
From S2P Require Import FederationSync.

Local Open Scope prog_scope.
Local Open Scope Z_scope.

(** ** Calls of Python functions *)

Inductive argument : Type :=
| FrameArgument (frame : Frame)
| OfferingArgument (offering : Offering)
| TextArgument (s : string)
| FlagArgument (flag : bool).

(** A function of [frame], [target_offering] and [user_agent], of which the body reads the
    first and hands the last to the client of Waldur A: with another number of arguments the
    call raises. *)
Definition three_parameters (body : Frame → fed_m unit) (arguments : list argument) : fed_m unit :=
  match arguments with
  | [FrameArgument frame; _; _] => body frame
  | _ => raise (TypeError "handler() takes 3 positional arguments")
  end.

(** ** The handlers *)

Section Events.
Context (text : json → string) (b : WaldurBackend) (details : WaldurResource → resource_details).
(** The offering of Waldur A. *)
Context (source_offering : Offering).

Definition TERMINAL_STATES : list string := ["done"; "erred"; "canceled"; "rejected"]%string.

Definition is_one_of (v : json) (l : list string) : bool := existsb (json_is v) l.

(** [except Exception], logged. *)
Definition unless_exception (m : fed_m unit) : fed_m unit := or_else () m.

(** [json.loads(frame.body)], of which [get] is called. *)
Definition message_of (frame : Frame) : res (list (string * json)) :=
  let? message := frame_body frame in
  match message with JObj d => Ok d | _ => Err (AttributeError "get") end.

Definition field_of (message : list (string * json)) (key : string) (fallback : json) : json :=
  default fallback (obj_get message key).

Definition settle_source_order (order_uuid order_state : json) : fed_m unit :=
  call SourceClient ;!
  let! offering := uuid (off_uuid source_offering) in
  let! executing_orders := call (ExecutingOrders offering) in
  let! target_uuid := of_res (match order_uuid with
                              | JStr s => uuid_of_text s
                              | _ => Err (AttributeError "replace")
                              end) in
  match head (List.filter (λ o, bool_decide (o.2 = Val (uuid_str target_uuid))) executing_orders) with
  | None => ret ()
  | Some source_order =>
      if json_is order_state "done"
      then call (Own (OrderSetDone source_order.1)) ;! ret ()
      else
        let message := "Target order " +:+ text order_uuid +:+ " state: " +:+ text order_state in
        call (Own (OrderSetErred source_order.1 message "")) ;! ret ()
  end.

(** [make_target_order_handler] *)
Definition target_order_handler (frame : Frame) : fed_m unit :=
  let! message := of_res (message_of frame) in
  let order_uuid := field_of message "order_uuid" (JStr "") in
  let order_state := field_of message "order_state" (JStr "") in
  if negb (truthy order_uuid) then ret ()
  else match order_state with
       | JArr _ | JObj _ => raise (TypeError "unhashable type")
       | _ =>
           if negb (is_one_of order_state TERMINAL_STATES) then ret ()
           else unless_exception (settle_source_order order_uuid order_state)
       end.

(** [make_target_offering_user_handler] *)
Definition target_offering_user_handler (frame : Frame) : fed_m unit :=
  let! message := of_res (message_of frame) in
  let action := field_of message "action" (JStr "") in
  if negb (is_one_of action ["create"; "update"]%string) then ret ()
  else if negb (truthy (field_of message "username" (JStr ""))) then ret ()
  else unless_exception (
         call SourceClient ;!
         sync_offering_user_usernames b (off_uuid source_offering) ;!
         ret ()).

(** [make_target_resource_end_date_handler]; the UUID is looked for as the message has it. *)
Definition target_resource_end_date_handler (frame : Frame) : fed_m unit :=
  let! message := of_res (message_of frame) in
  if negb (json_is (field_of message "action" (JStr "")) "end_date_updated") then ret ()
  else unless_exception (
         call SourceClient ;!
         let! resources := call (ResourcesWithBackendId (off_uuid source_offering)
                                   (text (field_of message "resource_uuid" (JStr "")))) in
         match resources with
         | [] => ret ()
         | waldur_resource :: _ => sync_resource_end_date b details waldur_resource
         end).

(** ** The router *)

(** [target_handlers] *)
Definition target_handlers (object_type : json) : option (list argument → fed_m unit) :=
  if json_is object_type "order" then Some (three_parameters target_order_handler)
  else if json_is object_type "offering_user" then Some (three_parameters target_offering_user_handler)
  else if json_is object_type "resource" then Some (three_parameters target_resource_end_date_handler)
  else None.

(** [target_router], called as the listener calls it. *)
Definition target_router (frame : Frame) (offering : Offering) (agent : string)
    (expose_backend_error_details : bool) : fed_m unit :=
  match frame_body frame with
  | Err (ValueError _ | TypeError _) => ret ()
  | Err e => raise e
  | Ok (JObj payload) =>
      match field_of payload "object_type" JNull with
      | JArr _ | JObj _ => raise (TypeError "unhashable type")
      | object_type =>
          match target_handlers object_type with
          | None => ret ()
          | Some handler =>
              handler [FrameArgument frame; OfferingArgument offering; TextArgument agent;
                       FlagArgument expose_backend_error_details]
          end
      end
  | Ok _ => raise (AttributeError "get")
  end.

(** The router hands its handlers four arguments and they take three: a message from
    Waldur B for which there is a handler ends in a [TypeError], and no message leads to any
    call. *)
Theorem target_events_are_lost frame offering agent expose s τ s' out :
  runs (target_router frame offering agent expose s) τ (s', out) →
  τ = [] ∧ s' = s ∧
  ∀ payload, frame_body frame = Ok (JObj payload) →
    is_one_of (field_of payload "object_type" JNull) ["order"; "offering_user"; "resource"]%string = true →
    out = Err (TypeError "handler() takes 3 positional arguments").
Proof.
  unfold target_router, target_handlers. intros Hr.
  destruct (frame_body frame) as [[| | | | | |payload]|e] eqn:Hb.
  7: { cut (τ = [] ∧ s' = s ∧ (is_one_of (field_of payload "object_type" JNull)
         ["order"; "offering_user"; "resource"]%string = true →
         out = Err (TypeError "handler() takes 3 positional arguments"))).
       { intros (? & ? & Ho). split_and!; try done. by intros ? [= <-]. }
       destruct (field_of payload "object_type" JNull) as [| | | |o| |]; cbn in Hr |- *;
         repeat match type of Hr with context [String.eqb ?x ?y] => destruct (String.eqb x y) end;
         by destruct Hr as [-> [= -> <-]]. }
  all: try (by destruct Hr as [-> [= -> <-]]). destruct e; by destruct Hr as [-> [= -> <-]].
Qed.
(** ** The verdict on a source order *)

Section Verdict.
Context (d : list (string * json)) (order_uuid : string).
Context (Horder : field_of d "order_uuid" (JStr "") = JStr order_uuid).
Local Abbreviation state := (field_of d "order_state" (JStr "")).

(** An order of Waldur A that is executing and waits for the order of Waldur B. *)
Definition waiting_order (uuid : string) (H : trace federationE) : Prop :=
  ∃ offering executing hex, uuid_of_text (off_uuid source_offering) = Ok offering ∧
    Ev (ExecutingOrders offering) (Ok executing) ∈ H ∧ uuid_of_text order_uuid = Ok hex ∧
    (uuid, Val (uuid_str hex)) ∈ executing.

Definition verdict_guard : guard federationE := λ X H c,
  match c with
  | SourceClient => H = []
  | ExecutingOrders offering => uuid_of_text (off_uuid source_offering) = Ok offering
  | Own (OrderSetDone uuid) => state = JStr "done" ∧ waiting_order uuid H ∧ length H = 2%nat
  | Own (OrderSetErred uuid _ _) =>
      is_one_of state ["erred"; "canceled"; "rejected"]%string = true ∧ waiting_order uuid H ∧ length H = 2%nat
  | _ => False
  end.

Lemma json_is_str v x : json_is v x = true → v = JStr x.
Proof. destruct v; simpl; try done. intros ->%String.eqb_eq. done. Qed.

Lemma terminal_state v :
  is_one_of v TERMINAL_STATES = true → json_is v "done" = false →
  is_one_of v ["erred"; "canceled"; "rejected"]%string = true.
Proof. unfold is_one_of, TERMINAL_STATES. cbn [existsb]. intros Hs Hd. by rewrite Hd in Hs. Qed.

Lemma settle_guarded s :
  is_one_of state TERMINAL_STATES = true →
  wpM verdict_guard (settle_source_order (JStr order_uuid) state) (λ _ s' _, s' = s) s [].
Proof.
  intros Hterm. unfold settle_source_order, uuid. wp_step. apply wpM_call; [done|].
  intros [[]|e]; cbv iota; [|done]. wp_step.
  destruct (uuid_of_text (off_uuid source_offering)) as [offering|e] eqn:Hoff; cbn [of_res]; wp_steps; [|done].
  apply wpM_call; [done|]. intros [executing|e]; cbv iota; [|done]. wp_step.
  destruct (uuid_of_text order_uuid) as [hex|e] eqn:Hu; cbn [of_res]; wp_steps; [|done].
  destruct (head _) as [[source_order back]|] eqn:Hh; [|by wp_steps].
  apply head_Some_elem_of, list_elem_of_In, filter_In in Hh as [Hin Hb]. apply bool_decide_eq_true in Hb.
  simpl in Hb. subst back. apply list_elem_of_In in Hin.
  assert (Hw : waiting_order source_order [Ev (ExecutingOrders offering) (Ok executing); Ev SourceClient (Ok ())]).
  { exists offering, executing, hex. split; [done|]. split; [left|by split]. }
  cbn [fst]. destruct (json_is state "done") eqn:Hd; cbv zeta; wp_steps.
  - apply wpM_call; [by split; [apply json_is_str|]|]. intros [st|e]; by wp_steps.
  - apply wpM_call; [split; [by apply terminal_state|done]|]. intros [st|e]; by wp_steps.
Qed.

(** C25: when Waldur B reports that an order has ended, at most one order of Waldur A is settled:
    one that was just listed as executing with the UUID of the message, dashes and case aside,
    as its backend id; it is set done only when the message says done, and erred only when it
    says erred, cancelled or rejected.  A message of another state settles nothing, and no
    failure leaves the handler. *)
Theorem target_order_settles_source frame s τ s' out :
  frame_body frame = Ok (JObj d) → hashable state = true →
  runs (target_order_handler frame s) τ (s', out) →
  guarded verdict_guard [] τ ∧ out = Ok () ∧ s' = s ∧ (is_one_of state TERMINAL_STATES = false → τ = []).
Proof.
  intros Hb Hh Hr.
  assert (Hw : wpM verdict_guard (target_order_handler frame)
    (λ out s' H, out = Ok () ∧ s' = s ∧ (is_one_of state TERMINAL_STATES = false → H = [])) s []).
  { unfold target_order_handler, message_of. rewrite Hb. cbn [rbind of_res]. wp_steps. rewrite Horder.
    cbn [truthy]. destruct (nonempty order_uuid); cbn [negb]; [|by wp_steps].
    destruct (is_one_of state TERMINAL_STATES) eqn:Ht; cbn [negb].
    - assert (Hgo : wpM verdict_guard (unless_exception (settle_source_order (JStr order_uuid) state))
        (λ out s' H, out = Ok () ∧ s' = s ∧ (true = false → H = [])) s []).
      { unfold unless_exception, or_else. wp_steps. eapply wpM_mono; [by apply settle_guarded|].
        intros [[]|e] s1 H1 ->; by wp_steps. }
      by destruct state.
    - by destruct state; wp_steps. }
  destruct (wp_sound _ _ _ _ _ _ Hw Hr) as [(Ho & Hs & Hn) Hg]. rewrite app_nil_r in Hn. split_and!; try done.
  intros Ht. specialize (Hn Ht). by rewrite <- (rev_involutive τ), Hn.
Qed.
End Verdict.
End Events.

(** ** Witnesses and examples *)

Definition order_frame : Frame :=
  {| frame_body := Ok (JObj [("object_type"%string, JStr "order"); ("order_uuid"%string, JStr (sample_hex "e"));
                             ("order_state"%string, JStr "done")]);
     frame_headers := ∅ |}.

Definition federated_offering : Offering :=
  {| off_uuid := sample_hex "1"; off_name := "Federated"; off_backend_settings := ∅;
     off_username_management_backend := None; off_username_reconciliation_enabled := false;
     off_preserve_unmanaged_backend_users := false; off_omit_anomalous_usage_components := false;
     off_order_processing_backend := Some "waldur"%string; off_membership_sync_backend := Some "waldur"%string;
     off_reporting_backend := Some "waldur"%string; off_stomp_enabled := true;
     off_stomp_membership_sync_enabled := None; off_resource_import_enabled := false |}.

Definition target_text (v : json) : string := match v with JStr s => s | _ => "" end.

Lemma target_events_are_lost_witness :
  ∃ s' out, runs (target_router target_text (sample_federation BIDIRECTIONAL) sample_details federated_offering
      order_frame federated_offering "agent" true no_state) [] (s', out) ∧
    out = Err (TypeError "handler() takes 3 positional arguments").
Proof.
  exists no_state, (Err (TypeError "handler() takes 3 positional arguments")).
  assert (Hr : runs (target_router target_text (sample_federation BIDIRECTIONAL) sample_details federated_offering
      order_frame federated_offering "agent" true no_state) []
      (no_state, Err (TypeError "handler() takes 3 positional arguments"))) by done.
  split; [exact Hr|].
  refine (proj2 (proj2 (target_events_are_lost target_text (sample_federation BIDIRECTIONAL) sample_details
    federated_offering order_frame federated_offering "agent" true no_state [] no_state _ Hr)) _ eq_refl _).
  reflexivity.
Defined.

Definition settling_run : trace federationE :=
  [Ev SourceClient (Ok ());
   Ev (ExecutingOrders (sample_hex "1")) (Ok [("order-1"%string, Unset); ("order-2"%string, Val (uuid_str (sample_hex "e")))]);
   Ev (Own (OrderSetDone "order-2")) (Ok 200)].

Lemma target_order_settles_source_witness :
  guarded (verdict_guard federated_offering
    [("object_type"%string, JStr "order"); ("order_uuid"%string, JStr (sample_hex "e"));
     ("order_state"%string, JStr "done")] (sample_hex "e")) [] settling_run.
Proof.
  refine (proj1 (target_order_settles_source target_text federated_offering _ (sample_hex "e") _ order_frame
    no_state settling_run no_state (Ok ()) _ _ _)).
  - reflexivity.
  - reflexivity.
  - reflexivity.
  - unfold settling_run. solve_runs.
Defined.

(** ** The deletion sweep over the federation backend *)

(** A Waldur A that has one resource and one account to delete, and a Waldur B that answers
    for the resource but for nothing else. *)
Definition outage_world (X : Type) (c : linkedE federationE X) (w : unit) : res X * unit :=
  (match c in linkedE _ X return res X with
   | Outer c =>
       match c in agentE X return res X with
       | Waldur c =>
           match c in waldurE X return res X with
           | OfferingUsersInStates _ => Ok [leaving_user]
           | ResourcesList _ _ => Ok [sample_federated]
           | OfferingUserSetDeleting _ => Ok 200
           | OfferingUserSetDeleted _ => Ok 200
           | _ => Err (TransportError "unreachable")
           end
       | Username c =>
           match c in usernameE X return res X with
           | ResolveUsernameBackend => Ok ()
           | ReleaseUsers _ => Ok ()
           | _ => Err (TransportError "unreachable")
           end
       | _ => Err (TransportError "unreachable")
       end
   | Inner c =>
       match c in federationE X return res X with
       | Target c =>
           match c in targetE X return res X with
           | ResourcesRetrieve _ _ => Ok (Some sample_target_resource)
           | _ => Err (TransportError "unreachable")
           end
       | CurrentMonth => Ok (2026, 1)
       | _ => Err (TransportError "unreachable")
       end
   end, w).

Definition outage_sweep :=
  exec outage_world
    (linked (federation_methods target_text (sample_federation BIDIRECTIONAL) sample_details sample_source)
       (process_requested_deletions sample_config) initial_state no_state) ().

Definition asks_team {X} (c : linkedE federationE X) (answer : res X) : bool :=
  match c with
  | Inner (Target (ResourceTeam _)) => match answer with Err _ => true | Ok _ => false end
  | _ => false
  end.

Definition removes_member {X} (c : linkedE federationE X) : bool :=
  match c with Inner (Target (ProjectsDeleteUser _ _ _)) => true | _ => false end.

(** The team of the resource could not be read, so nobody is in it for the strict pull: the
    account is released and reported deleted, and nobody was taken out of anything. *)
Example deletion_reported_during_outage :
  last outage_sweep.1.2 = Some (Ev (Outer (Waldur (OfferingUserSetDeleted "ou-1"))) (Ok 200)) ∧
  existsb (λ ev, match ev with Ev c answer => asks_team c answer end) outage_sweep.1.2 = true ∧
  existsb (λ ev, match ev with Ev c _ => removes_member c end) outage_sweep.1.2 = false.
Proof. vm_compute. done. Qed.
