(* ===== verification/FederationProfiles.v ===== *)
(** * Profiles on another Waldur

    [plugins/waldur/waldur_site_agent_waldur/username_backend.py:
    WaldurIdentityBridgeUsernameBackend]: the profiles of offering users are pushed to the
    identity bridge of Waldur B, which assigns the user names. *)

From stdpp Require Import base list strings gmap sets.
From Stdlib Require Import ZArith Lia.
From S2P Require Import Prelude.
From S2P Require Import Structures.
From S2P Require Import Agent.
From S2P Require Import Samples.
From S2P Require Import BaseProcessor.

Local Open Scope prog_scope.
Local Open Scope Z_scope.

Inductive bridgeE : Type → Type :=
| AllowedFields : bridgeE (list string)
| PushUser (username source : string) (attributes : list (string * json)) : bridgeE unit
| RemoveBridgeUser (username source : string) : bridgeE unit.

(** [_previous_offering_usernames] and [_allowed_fields_cache] *)
Record bridge_state : Type := { bs_previous : option (gset string); bs_allowed : option (gset string) }.

(** A backend as it is constructed. *)
Definition new_bridge : bridge_state := {| bs_previous := None; bs_allowed := None |}.

Definition set_allowed (a : option (gset string)) (s : bridge_state) : bridge_state :=
  {| bs_previous := bs_previous s; bs_allowed := a |}.
Definition set_previous (p : gset string) (s : bridge_state) : bridge_state :=
  {| bs_previous := Some p; bs_allowed := bs_allowed s |}.

Abbreviation bridge_m := (M bridgeE bridge_state).

Section Bridge.
(** [identity_bridge_source], as it is configured, and [IdentityBridgeRequestRequest.from_dict]
    of the API client, which may raise on a value it cannot convert. *)
Context (source : string) (from_dict : list (string * json) → res unit).

(** [_get_waldur_username] *)
Definition get_waldur_username (u : OfferingUser) : option string := field_str (ou_user_username u).

(** The fields of a profile that are sent under their own names when they are truthy. *)
Definition FIELD_MAP : list string :=
  ["first_name"; "last_name"; "email"; "organization"; "affiliations"; "phone_number"; "civil_number";
   "personal_title"; "place_of_birth"; "country_of_residence"; "nationality"; "nationalities";
   "organization_country"; "organization_type"; "eduperson_assurance"; "identity_source"]%string.

Definition sent_attribute (u : OfferingUser) (field : string) : option (string * json) :=
  match ou_attributes u !! field with
  | Some v => let value := serialize_attr_value v in if truthy value then Some (field, value) else None
  | None => None
  end.

(** The gender and the date of birth are sent unless they are null. *)
Definition sent_unless_null (u : OfferingUser) (field : string) : option (string * json) :=
  match ou_attributes u !! field with
  | None | Some (AttrPlain JNull) => None
  | Some v => Some (field, serialize_attr_value v)
  end.

(** [_extract_attributes] *)
Definition extract_attributes (u : OfferingUser) : list (string * json) :=
  omap (sent_attribute u) FIELD_MAP ++ omap (sent_unless_null u) ["gender"; "birth_date"]%string.

(** [_fetch_allowed_fields]: nothing, when they cannot be read. *)
Definition fetch_allowed_fields : bridge_m (option (gset string)) :=
  let! fields := attempt (call AllowedFields) in
  ret (match fields with Ok l => Some (list_to_set l) | Err _ => None end).

(** [_filter_attributes] *)
Definition filter_attributes (allowed : option (gset string)) (attributes : list (string * json))
  : list (string * json) :=
  match allowed with
  | None => attributes
  | Some allowed => List.filter (λ a, bool_decide (a.1 ∈ allowed)) attributes
  end.

(** [_build_request] *)
Definition build_request (username : string) (attributes : list (string * json)) : res unit :=
  from_dict (("username"%string, JStr username) :: ("source"%string, JStr source) :: attributes).

(** Building the request and sending it. *)
Definition post_user (username : string) (attributes : list (string * json)) : bridge_m unit :=
  of_res (build_request username attributes) ;!
  call (PushUser username source attributes).

(** [_push_user_to_identity_bridge]: refused with 400, a push is tried once more, with the
    fields that are allowed now.  The first request is built before the [try]. *)
Definition push_user_to_identity_bridge (u : OfferingUser) : bridge_m unit :=
  let waldur_username := default ""%string (get_waldur_username u) in
  let attributes := extract_attributes u in
  let! s := get_st in
  (match bs_allowed s with
   | None => let! allowed := fetch_allowed_fields in modify_st (set_allowed allowed)
   | Some _ => ret ()
   end) ;!
  let! s := get_st in
  let filtered := filter_attributes (bs_allowed s) attributes in
  of_res (build_request waldur_username filtered) ;!
  let! pushed := attempt (call (PushUser waldur_username source filtered)) in
  match pushed with
  | Ok _ => ret ()
  | Err (UnexpectedStatus status url content text) =>
      if negb (status =? 400) then raise (UnexpectedStatus status url content text)
      else
        let! allowed := fetch_allowed_fields in
        modify_st (set_allowed allowed) ;!
        post_user waldur_username (filter_attributes allowed attributes)
  | Err e => raise e
  end.

(** [get_username] and [generate_username]: the name is for Waldur B to assign. *)
Definition get_username (u : OfferingUser) : bridge_m (option string) := ret None.
Definition generate_username (u : OfferingUser) : bridge_m string :=
  push_user_to_identity_bridge u ;! ret "".

Definition remove_user_from_identity_bridge (username : string) : bridge_m unit :=
  call (RemoveBridgeUser username source).

Definition deactivate_users (usernames : gset string) : bridge_m unit :=
  for_each (elements usernames) (λ username, attempt (remove_user_from_identity_bridge username) ;! ret ()).

Definition push_one (current : gset string) (u : OfferingUser) : bridge_m (gset string) :=
  match get_waldur_username u with
  | None => ret current
  | Some username => attempt (push_user_to_identity_bridge u) ;! ret ({[username]} ∪ current)
  end.

Definition sync_user_profiles (offering_users : list OfferingUser) : bridge_m unit :=
  if negb (nonempty source) then ret ()
  else
    let! current := fold_m offering_users push_one ∅ in
    let! s := get_st in
    (match bs_previous s with
     | None => ret ()
     | Some previous => if decide (previous ∖ current = ∅) then ret () else deactivate_users (previous ∖ current)
     end) ;!
    modify_st (set_previous current).

(** ** What a pass does *)

Implicit Types (H : trace bridgeE) (u : OfferingUser).

Definition names (us : list OfferingUser) : gset string := list_to_set (omap get_waldur_username us).

(** The last answer to the question which fields are allowed. *)
Fixpoint last_allowed H : option (res (list string)) :=
  match H with
  | [] => None
  | @Ev _ X c a :: H =>
      match c in bridgeE X return res X → option (res (list string)) with
      | AllowedFields => λ a, Some a
      | _ => λ _, last_allowed H
      end a
  end.

(** A push carries the attributes of the user it names that Waldur B allows: by its last
    answer, or, when it was not asked in this pass, by what is remembered; all of them only
    where that answer was an error. *)
Definition push_of (s0 : bridge_state) u (attributes : list (string * json)) H : Prop :=
  match last_allowed H with
  | Some (Ok l) => attributes = List.filter (λ a, bool_decide (a.1 ∈ l)) (extract_attributes u)
  | Some (Err _) => attributes = extract_attributes u
  | None => ∃ allowed, bs_allowed s0 = Some allowed ∧
      attributes = List.filter (λ a, bool_decide (a.1 ∈ allowed)) (extract_attributes u)
  end.

Definition profiles_guard (s0 : bridge_state) (us : list OfferingUser) : guard bridgeE := λ X H c,
  match c with
  | AllowedFields => True
  | PushUser username src attributes => src = source ∧ build_request username attributes = Ok () ∧
      ∃ u, u ∈ us ∧ get_waldur_username u = Some username ∧ push_of s0 u attributes H
  | RemoveBridgeUser username src => src = source ∧
      ∃ previous, bs_previous s0 = Some previous ∧ username ∈ previous ∧ username ∉ names us
  end.

(** What is remembered of the allowed fields is the last answer, if there was one. *)
Definition allowed_now (s0 : bridge_state) H : option (gset string) :=
  match last_allowed H with
  | Some (Ok l) => Some (list_to_set l)
  | Some (Err _) => None
  | None => bs_allowed s0
  end.

Definition allowed_known (s0 s : bridge_state) H : Prop :=
  bs_previous s = bs_previous s0 ∧ bs_allowed s = allowed_now s0 H.

Lemma push_of_known s0 s u H :
  allowed_known s0 s H → is_Some (bs_allowed s) ∨ is_Some (last_allowed H) →
  push_of s0 u (filter_attributes (bs_allowed s) (extract_attributes u)) H.
Proof.
  intros [_ ->] Hs. unfold push_of, allowed_now in *. destruct (last_allowed H) as [[l|e]|]; simpl.
  - apply List.filter_ext. intros a. apply bool_decide_ext. by rewrite elem_of_list_to_set.
  - done.
  - destruct Hs as [[allowed ->]|[? [=]]]. by exists allowed.
Qed.

Lemma fetch_spec s0 us s H (Q : res (option (gset string)) → bridge_state → trace bridgeE → Prop) :
  (∀ a H', H ⊆ H' → is_Some (last_allowed H') → allowed_known s0 (set_allowed a s) H' → Q (Ok a) s H') →
  bs_previous s = bs_previous s0 → wpM (profiles_guard s0 us) fetch_allowed_fields Q s H.
Proof.
  intros HQ Hp. unfold fetch_allowed_fields. wp_steps. apply wpM_call; [done|].
  intros [l|e]; wp_steps; (apply HQ; [set_solver|by eexists|by split]).
Qed.

(** Every request for the user was sent, or one could not be built. *)
Definition pushed u H : Prop := ∀ name, get_waldur_username u = Some name →
  ∃ attributes, (∃ r, Ev (PushUser name source attributes) r ∈ H) ∨
    ∃ e, build_request name attributes = Err e ∧ attributes ⊆ extract_attributes u.

Lemma pushed_later u H H' : H ⊆ H' → pushed u H → pushed u H'.
Proof.
  intros HH Hp name Hname. destruct (Hp name Hname) as (a & [[r ?]|?]); exists a; [left|by right].
  exists r. by apply HH.
Qed.

Definition pushed_from s0 u s H : Prop := pushed u H ∧ allowed_known s0 s H.

Lemma push_call s0 us u name s H attributes (Q : res unit → bridge_state → trace bridgeE → Prop) :
  u ∈ us → get_waldur_username u = Some name → push_of s0 u attributes H → allowed_known s0 s H →
  build_request name attributes = Ok () →
  (∀ r H', H ⊆ H' → pushed_from s0 u s H' → Q r s H') →
  wpM (profiles_guard s0 us) (call (PushUser name source attributes)) Q s H.
Proof.
  intros Hu Hname Hp Hk Hb HQ. apply wpM_call; [split; [done|]; split; [done|]; by exists u|].
  intros r. apply HQ; [set_solver|]. split; [|done].
  intros n Hn. assert (n = name) as -> by congruence. exists attributes. left. exists r. left.
Qed.

Lemma filtered_subset allowed (l : list (string * json)) : filter_attributes allowed l ⊆ l.
Proof.
  destruct allowed as [allowed|]; simpl; [|done]. intros x Hx.
  apply list_elem_of_In, List.filter_In in Hx as [Hx _]. by apply list_elem_of_In.
Qed.

(** The second half of a push: the request, the call, and its repetition. *)
Lemma push_again s0 us u name s H attributes :
  u ∈ us → get_waldur_username u = Some name → push_of s0 u attributes H → allowed_known s0 s H →
  attributes ⊆ extract_attributes u →
  wpM (profiles_guard s0 us)
    (of_res (build_request name attributes) ;!
     let! pushed := attempt (call (PushUser name source attributes)) in
     match pushed with
     | Ok _ => ret ()
     | Err (UnexpectedStatus status url content text) =>
         if negb (status =? 400) then raise (UnexpectedStatus status url content text)
         else
           let! allowed := fetch_allowed_fields in
           modify_st (set_allowed allowed) ;!
           post_user name (filter_attributes allowed (extract_attributes u))
     | Err e => raise e
     end) (λ _ s' H', H ⊆ H' ∧ pushed_from s0 u s' H') s H.
Proof.
  intros Hu Hname Hp Hk Hsub. destruct (build_request name attributes) as [[]|e] eqn:Hb; wp_steps.
  2:{ split; [done|]. split; [|done]. intros n Hn. assert (n = name) as -> by congruence.
      exists attributes. right. by exists e. }
  eapply push_call; [done..|]. intros r H1 Hs1 [Hpu Hk1].
  destruct r as [[]|e]; wp_steps; [by split|].
  destruct e; wp_steps; try by split. case_match; wp_steps; [by split|].
  apply fetch_spec; [|apply Hk]. intros a H2 Hs2 Hl2 Hk2. cbv iota. unfold post_user. wp_steps.
  set (again := filter_attributes a (extract_attributes u)).
  destruct (build_request name again) as [[]|e] eqn:Hb2; wp_steps.
  2:{ split; [by transitivity H1|]. split; [|done]. by apply (pushed_later u H1). }
  eapply push_call; [done..| |exact Hk2|done|].
  - apply (push_of_known s0 (set_allowed a s) u H2 Hk2). by right.
  - intros r H3 Hs3 Hp3. split; [transitivity H1; [done|by transitivity H2]|done].
Qed.

Lemma push_spec s0 us u s H :
  u ∈ us → is_Some (get_waldur_username u) → allowed_known s0 s H →
  wpM (profiles_guard s0 us) (push_user_to_identity_bridge u)
    (λ _ s' H', H ⊆ H' ∧ pushed_from s0 u s' H') s H.
Proof.
  intros Hu [name Hname] Hk. unfold push_user_to_identity_bridge. rewrite Hname. cbn [default]. wp_step. wp_step. wp_step.
  destruct (bs_allowed s) as [a|] eqn:Ha.
  { do 2 wp_step. apply push_again; [done..| |done|apply filtered_subset].
    apply push_of_known; [done|]. left. by eexists. }
  wp_step. apply fetch_spec; [|apply Hk]. intros a H1 Hs1 Hl1 Hk1. cbv iota. do 3 wp_step.
  eapply wpM_mono; [eapply push_again; [done..| |done|apply filtered_subset]|].
  - apply (push_of_known _ (set_allowed a s)); [done|by right].
  - intros r s' H' [Hs' Hp]. split; [by transitivity H1|done].
Qed.

Definition pushes_done s0 (us : list OfferingUser) (current : gset string) s H : Prop :=
  current = names us ∧ allowed_known s0 s H ∧ ∀ u, u ∈ us → pushed u H.

Lemma push_one_spec s0 us done u current s H :
  u ∈ us → pushes_done s0 done current s H →
  wpM (profiles_guard s0 us) (push_one current u)
    (λ r s' H', ∃ current', r = Ok current' ∧ pushes_done s0 (done ++ [u]) current' s' H') s H.
Proof.
  intros Hu (-> & Hk & Hd). unfold push_one. destruct (get_waldur_username u) as [name|] eqn:Hname.
  - wp_step. wp_step. eapply wpM_mono; [by apply push_spec|]. intros r s' H' [Hs [Hp Hk']]. cbv beta iota. wp_steps.
    eexists. split; [done|]. split_and!; [|done|].
    + unfold names. rewrite omap_app. cbn. rewrite Hname. set_solver.
    + intros v [Hv| ->%list_elem_of_singleton]%elem_of_app; [eapply pushed_later; [done|by apply Hd]|done].
  - wp_steps. eexists. split; [done|]. split_and!; [|done|].
    + unfold names. rewrite omap_app. cbn. rewrite Hname. by rewrite app_nil_r.
    + intros v [Hv| ->%list_elem_of_singleton]%elem_of_app; [by apply Hd|]. intros n. by rewrite Hname.
Qed.

Definition asked_removal (username : string) H : Prop := ∃ r, Ev (RemoveBridgeUser username source) r ∈ H.

Lemma deactivate_spec s0 us (gone : gset string) s H :
  (∀ n, n ∈ gone → ∃ previous, bs_previous s0 = Some previous ∧ n ∈ previous ∧ n ∉ names us) →
  wpM (profiles_guard s0 us) (deactivate_users gone)
    (λ r s' H', r = Ok () ∧ s' = s ∧ H ⊆ H' ∧ ∀ n, n ∈ gone → asked_removal n H') s H.
Proof.
  intros Hgone. unfold deactivate_users, remove_user_from_identity_bridge.
  apply (wpM_for_each _ _ _ (λ xs s' H', s' = s ∧ H ⊆ H' ∧ ∀ n, n ∈ xs → asked_removal n H')).
  - intros xs n s1 H1 [ys Hl] (-> & Hs1 & Hxs). wp_steps. apply wpM_call.
    { split; [done|]. apply Hgone, elem_of_elements. rewrite Hl. set_solver. }
    intros r. wp_steps. split_and!; [done|set_solver|].
    intros m [Hm| ->%list_elem_of_singleton]%elem_of_app; [|exists r; left].
    destruct (Hxs m Hm) as [r' ?]. exists r'. by right.
  - intros s' H' (-> & Hs & Hall). split_and!; [done..|]. intros n Hn. by apply Hall, elem_of_elements.
  - split_and!; [done..|]. intros n Hn. by apply elem_of_nil in Hn.
Qed.

Lemma sync_spec s0 us :
  wpM (profiles_guard s0 us) (sync_user_profiles us) (λ r s' H', r = Ok () ∧
    (source ≠ ""%string → bs_previous s' = Some (names us) ∧ (∀ u, u ∈ us → pushed u H') ∧
      ∀ previous n, bs_previous s0 = Some previous → n ∈ previous → n ∉ names us → asked_removal n H')) s0 [].
Proof.
  unfold sync_user_profiles. destruct (nonempty source) eqn:Hne; cbn [negb].
  2:{ wp_steps. split; [done|]. intros Hs. apply negb_false_iff, String.eqb_eq in Hne. done. }
  wp_step. apply (wpM_fold_m _ _ _ (λ xs current s H, pushes_done s0 xs current s H)).
  - intros xs u current s H [ys Hus] Hd. eapply wpM_mono; [apply push_one_spec; [|done]|].
    + rewrite Hus. set_solver.
    + by intros r s' H' (current' & -> & ?).
  - intros current s H (-> & [Hprev Hk] & Hd). cbv iota. do 3 wp_step. rewrite Hprev.
    destruct (bs_previous s0) as [previous|] eqn:Hp.
    2:{ wp_steps. by split_and!. }
    destruct (decide (previous ∖ names us = ∅)) as [He|Hn].
    + wp_steps. split; [done|]. intros _. split_and!; [done..|]. intros ? n [= <-] Hin Hout. set_solver.
    + eapply wpM_mono; [apply deactivate_spec|].
      * intros n [? ?]%elem_of_difference. by exists previous.
      * intros r s' H' (-> & -> & Hs & Hr). cbv iota. wp_steps. split; [done|]. intros _. split_and!; [done|..].
        -- intros u Hu. eapply pushed_later; [done|by apply Hd].
        -- intros ? n [= <-] Hin Hout. apply Hr. set_solver.
  - split_and!; [done|by split|]. intros u Hu. by apply elem_of_nil in Hu.
Qed.


(** A backend that is constructed for the pass, as [get_username_management_backend] constructs
    one whenever it is asked, remembers no pass before: it removes nobody. *)
Theorem departed_users_stay us τ s' out username src r :
  runs (sync_user_profiles us new_bridge) τ (s', out) → Ev (RemoveBridgeUser username src) r ∉ τ.
Proof.
  intros Hr (τ1 & τ2 & ->)%list_elem_of_split.
  by destruct (wpM_call_guard _ _ _ _ _ _ _ _ _ _ _ (sync_spec new_bridge us) Hr eq_refl) as [_ (? & ? & _)].
Qed.
End Bridge.

(** ** Witnesses *)

Definition profiled_user (name email : string) : OfferingUser :=
  {| ou_uuid := "ou-" +:+ name; ou_username := ""; ou_user_username := Val name; ou_user_uuid := "u-" +:+ name;
     ou_user_email := Val email; ou_state := OfferingUserState.OK; ou_url := "";
     ou_attributes := {["email"%string := AttrPlain (JStr email)]} |}.

(** A Waldur B that refuses the first push, and allows e-mail addresses from then on. *)
Definition bridge_world (X : Type) (c : bridgeE X) (refused : bool) : res X * bool :=
  match c in bridgeE X return res X * bool with
  | AllowedFields => (if refused then Ok ["email"%string] else Ok [], refused)
  | PushUser _ _ _ => (if refused then Ok () else Err (UnexpectedStatus 400 "" "" ""), true)
  | RemoveBridgeUser _ _ => (Ok (), refused)
  end.

Definition profiles_exec :=
  exec bridge_world (sync_user_profiles "isd:eu" (λ _, Ok ()) [profiled_user "alice" "a@b.c"; profiled_user "" "d@e.f"]
    {| bs_previous := Some {["alice"; "carol"]}%string; bs_allowed := None |}) false.

